(* ===== verification/_CoqProject ===== *)
-Q . S2P
Prelude.v
Effects.v
PyVal.v
Base64.v
JsonText.v
Texts.v
Cursors.v
Schema.v
Interaction.v
SessionRepo.v
SessionRecord.v
DemoStore.v
SessionReads.v
RepoHistory.v
RecordFacts.v
Paging.v
Keyset.v
HistoryPages.v
InputAcceptance.v
ReaderLease.v
Reader.v
ReaderFacts.v
UiMessage.v
Follow.v
HistoryMessages.v
HistoryBlocks.v
ResponseFolds.v
HistoryReads.v
HistoryOpening.v
Uuid.v
ChildFacts.v
Emissions.v
MessageBlocks.v
ChildRuns.v
ChildTree.v
ChildRunFacts.v
SandboxLedger.v
SandboxQuota.v
QuotaFacts.v
ClaudeChildren.v
ClaudeChildFacts.v
FileChanges.v
ClaudeStream.v
ClaudeStreamFacts.v
ClaudePage.v
ClaudeAnswer.v
ClaudeCodec.v
ClaudeRuntime.v
ClaudeContract.v
ChannelReplies.v
ReplyFacts.v
ReplyContract.v
ChannelOutbox.v
ChannelProjector.v
ProjectorFacts.v
ChannelInbound.v
ChannelDrive.v
InboundFacts.v
DriveFacts.v
DriveRuns.v
Sha256.v
ChannelQuestions.v
QuestionFacts.v
ChannelAnswers.v
AnswerFacts.v
ChannelIngest.v
IngestFacts.v
SignalFacts.v
