(* ===== verification/Prelude.v ===== *)
(** * AstraBox session runtime: verification library

    AstraBox runs conversations with agent programs.  Each session has one runtime in a
    sandbox; one reader process follows it, writes what it says to the session's output
    log, and hands people's messages and answers to it.  Pages follow the log, and read the
    history back with an ended response's work folded behind headers.  This library models
    the part of the program that must not lose, repeat, reorder or leak any of that.

    ** The parts and how they meet

    People's messages enter through [accept_input] and wait in a table.  A reader claims the
    session's lease ([claim_reader]), takes the runtime's events one at a time into its own
    memory ([Reader.take]), and commits what it made of them as one batch ([record]), which
    the database accepts only under the newest lease.  A commit and a live part both wake
    the session's followers ([feed], [follow_output]), which show each part of the log once,
    in order.  A history page reads the conversation's entries ([history_page]), folds each
    response's parts ([fold_message], through the cache of [ResponseFolds]), lays the durable
    rows over them ([history_messages]) and hides finished work behind headers
    ([fold_parts]).  An engine's frames become emissions, of which only one class is a
    browser's ([emission_from_translated_frame]); what it says of its sub-agents is checked
    ([canonical_child_run_data]) and folded from the log into the list and the messages a
    page shows of them ([fold_child_runs]).  What a browser may see of what an agent waits on, and what it may
    answer, is the interaction contract's business.

    ** Files, and the sources they model (paths under src/astrabox)

    - [Prelude]: results, transactions, tables, the development's tactics and hints, and
      generic lemmas.  [PyVal] (Module [Py]): JSON-shaped Python values with the operators
      and built-ins the code applies to them, raising where Python raises.
    - [Schema]: the rows of persistence/sql/models/sessions.py and the batch types of
      session_runtime_repository.py.  The store [db] is a record of tables; a table is its
      rows in insertion order.
    - [Interaction]: core/service/orchestrator/engine/interaction_contract.py.
    - [SessionRepo] (Module [Repo]) and [SessionRecord] (Module [Rec]):
      persistence/repository/session_runtime_repository.py, one definition per method.  A
      method is a transaction ([transaction]): it commits all its writes or none.
      [RepoHistory], [RecordFacts], [HistoryPages], [InputAcceptance] and [ReaderLease] hold
      the theorems about them.
    - [SessionReads] (Module [Reads]): persistence/repository/session_read_repository.py.
    - [Paging] (generic) and [Keyset]: persistence/repository/keyset.py.
    - [Reader] (facts in [ReaderFacts]): session_runtime/reader.py.  [reader] is the memory
      of one reader; every loop body is a function on that memory and the store, with what
      the runtime client answers as an argument.
    - [UiMessage] (Module [Ui]) and [HistoryMessages] (Module [HistoryView]):
      session_runtime/ui_message.py.
    - [Follow]: session_runtime/feed.py and session_runtime/follow.py.
    - [HistoryBlocks] (Module [Blocks]): session_runtime/history_blocks.py, how one response
      folds; [HistoryReads]: its page, response and block reads; [HistoryOpening]: that a
      header opens, over the interface [FoldsAsRead] that the cache of [ResponseFolds]
      implements.
    - [Base64], [JsonText] (Module [Json]) and [Cursors] (Module [Cursor]): the cursors of
      history_blocks.py and keyset.py, over models of Python's [base64] and [json] as far as
      cursors and sizes use them, digit limit and recursion limit included.
    - [ResponseFolds] (Module [Folds]): session_runtime/response_folds.py.
    - [Emissions]: engine/frame_scope.py and engine/emissions.py.  [MessageBlocks]:
      message_blocks.py and tool_result_semantics.py.
    - [Uuid]: the standard library's name-based identifiers (SHA-1 included), by which
      [ChildFacts] (engine/child_runs.py) makes public ids.  [ChildRuns]:
      session_runtime/child_runs.py; an engine is known through the interface [Engines], the
      adapter methods the folds call.  [ChildTree] and [ChildRunFacts] hold the theorems.
    - [Effects]: objects whose methods keep their changes when they raise ([act]), and Python
      generators that yield while they change an object ([gen], run to their end), with the
      rules both are reasoned by.  [Texts]: text that ends in a printed number.
    - [ClaudeChildren]: engine/claude_child_runs.py.  [FileChanges]: engine/file_changes.py
      and engine/claude_file_changes.py.  [ClaudeStream]: the Claude half of
      engine/frame_translator.py, with engine/input_ids.py and system_events.py; a
      [translator] is the cursor and the identities the client shares with it.
      [ClaudeChildFacts], [ClaudeStreamFacts], [ClaudePage] and [ClaudeAnswer] hold the
      theorems.
    - [ClaudeCodec]: engine/claude_interaction_codec.py.  [ClaudeRuntime]:
      engine/claude_runtime_client.py; what the runner in the sandbox answers and sends is
      its arguments.  [ClaudeContract]: the runtime contract as an automaton of a response's
      phases, and that the client stays in it.
    - [ChannelReplies] (Module [Replies]): channel_replies.py.  [ReplyFacts] and
      [ReplyContract] hold the theorems.
    - [ChannelOutbox] (Module [Outbox]): persistence/repository/channel_repository.py from
      its subscriptions on, over models/channels.py.  [ChannelProjector] (Module
      [Projector]): [_project_subscription] of channel_ingress_service.py, one await after
      another.  [ProjectorFacts] holds the theorems.
    - [ChannelInbound] (Module [Inbound]): the inbound half of channel_repository.py: the
      records of platform messages, retained context, conversations, their locks and account
      links.  [ChannelDrive] (Module [Drive]): [_drive_work_item] of
      channel_ingress_service.py with what it calls, and channel_context.py, one await after
      another; what other services, providers and people answer is its arguments.
      [InboundFacts], [DriveFacts] and [DriveRuns] hold the theorems.
    - [Sha256]: the standard library's hash.  [ChannelQuestions] (Module [Questions]):
      channel_interactions.py, the questions of a waiting agent shown in a channel and read
      back.  [ChannelAnswers] (Module [Answers]): [_settle_pending_interaction] of
      channel_ingress_service.py with what it calls, one await after another, and [answer] of
      session_runtime/service.py.  [QuestionFacts] and [AnswerFacts] hold the theorems.
    - [ChannelIngest] (Module [Ingest]): [ingest_resolved] of channel_ingress_service.py with
      what it calls, one await after another, over [ChannelInbound] of seams/channel.py; the
      drive it hands a record to is [ChannelDrive]'s.  [IngestFacts] and [SignalFacts] hold
      the theorems.
    - [SandboxLedger] (Module [Ledger]): persistence/repository/sandbox_quota_repository.py
      over models/sandboxes.py.  [SandboxQuota] (Module [Quota]): runtime/sandbox_quota.py.
      [QuotaFacts] holds the theorems, over the interleavings of creates, answers, failures,
      losses and sweeps of one backend.
    - [DemoStore]: a small concrete store on which the theorems' hypotheses are exercised.

    ** What the theorems show

    - One writer: of the leases ever handed out only the newest can record or renew, their
      generations rise strictly, and a claim succeeds exactly when it may ([ReaderLease]).
    - The log: while its reader's loops, waiting commits and live events interleave, the log
      stays numbered without gaps, continued by the batch in flight and the pending one, and
      every part shown live is stored under its number or in one of the two
      ([reader_log_contiguous]); that is so up to the first commit that fails, after which a
      queued commit can leave a gap ([failed_commit_leaves_gap]).  A batch appends exactly its
      parts; the log only grows; a follower takes up every part once and in order, from
      whatever mix of live parts, notices and rereads; its queue is bounded and a dropped
      part always brings a reread.
    - Durable facts: over any sequence of repository calls, settled rows and positions stay;
      a response waits exactly while an interaction of it is open, as long as each fact keeps
      it so, and which do is exact ([waiting_exactly_while_open]: a late start of a response
      with open interactions does not, nor an opening repeated for a running response or
      made for an ended one); the position published is
      the one stored; accepting a message is all or nothing and happens once.
    - History: paging meets every message once; the folded message keeps each part's place
      and kind; a response's cached message is the fold of the log its reader saw, under any
      interleaving of reads, builds, evictions and appends, within the byte budget, and a
      call that waits for builds is answered by them ([folds_wait_only_for_builds]); the
      overlay shows every interaction as it settled; folding loses no part and hides only
      finished work; a header opens later to parts of its response, to nothing once a later
      part of it was stored, or to the later query's own error ([header_opens_to_its_work]).
    - Cursors: what is encoded is read back, and any other text is refused with the cursor
      error, with two exceptions proved as they are: an infinite number in a page cursor
      escapes as [OverflowError], and JSON that nests past the recursion limit as
      [RecursionError] ([history_cursor_errors]).
    - Sub-agents: an accepted fact has one canonical form; a batch is accepted exactly when
      parents form a forest; the list names each child of the log once, below its parent, and
      fails exactly on a cycle; what the log said of a child stands ([ChildFacts],
      [ChildTree], [ChildRunFacts]).  Merging message fragments loses nothing
      ([MessageBlocks]).
    - The browser's view: only a frame its adapter declares public becomes a browser's
      ([emission_public_exactly]); only public keys of a contract and of a part leave the server, and
      an answer passes the gate exactly when a reply can be rendered for it.
    - Claude's messages: whatever a message is, its translation is a sequence of primitive
      steps ([ClaudeStreamFacts]), by which every delta reaches a part the page has open
      ([live_text_reaches_page]) and a result's text is shown exactly when no part of text
      stands on the page ([answer_shown_once]).  Both suppose the vendor's own stream
      ([in_protocol]: a delta and a start over an open block fit its kind, a step ends with
      its text and thinking closed), the second also messages that raise nothing, one result
      and parts with ids of their own; two runs outside of the stream are
      shown ([unknown_start_over_open], [phantom_tool_input]).  What is known of sub-agents
      only grows, and their lineage does not depend on the order of a batch
      ([identities_only_learn], [lineage_order_free]).
    - Claude's client: whatever its journal holds, it reports responses within the runtime
      contract ([client_keeps_contract]): nothing but receipts joins a message closed for a
      question, and nothing one closed for good but the tail of an interrupted response.  A gate is shown exactly when it has something to
      show, and an answer the platform accepts reaches the tool under the keys it knows
      ([answer_reaches_gate]).
    - Channel replies: any response within the contract has replies with names of their own
      ([contract_replies_named]), and a reply read piece by piece from a growing log is the
      reply the projector named ([delivered_reply_is_projected]).
    - Channel deliveries: under any interleaving of projectors, deliverers, failures and
      crashes a reply has one delivery ([replies_projected_once]), deliveries of a session
      leave in the order of its replies ([replies_leave_in_order]), and a projector left
      alone reaches the end of the log ([projection_catches_up]).  They suppose that replies
      have names of their own ([named_apart], what [contract_replies_named] shows) and that
      the subscription stays; a projector that outlives it leaves a row that blocks the
      binding ([late_projector_blocks_binding]).
    - Platform messages: whatever drives run beside each other, lose their items to others and
      run on, a message has one record and enters one session, once ([message_sent_once]); a
      settled message was dealt with ([settled_message_dealt_with]); every drive ends within
      166 steps ([drive_ends]).  They suppose that new records get names nobody used, and that sessions
      are not deleted meanwhile.  Two things the code does not mean to do are shown: the files
      of quoted messages stay behind ([quoted_files_left_behind]), and a recalled message can
      come back ([recalled_message_revived]).
    - Questions in channels: every choice shown can be chosen by its number or its button
      ([choice_answers]); whatever messages answer beside each other, what is handed to a
      session has one answer per question, each said by a message that arrived, is accepted,
      and says what participants chose or wrote ([channel_answers_accepted], over
      [channel_answer_told]).  They suppose contracts the gate accepted whose ids
      differ by more than blanks ([ids_apart]; what happens otherwise is [blank_ids_collide])
      and names of questions, hashes of sixty-four bits, that do not collide ([own_names]).
    - Reports of platforms: whatever reports, drives and sweeps run beside each other, a
      message runs only when a report of it asked for it, with the words of a report of it,
      and neither from a sender its binding refuses ([only_asked_messages_run]); what is
      observed of a message and its authorization meet the same in either order
      ([signals_meet], which also shows that the observed files are lost).
    - Quota: a running box is charged and a backend runs no more than its ceilings
      ([ledger_never_short], [quota_never_exceeded]), however creates, answers, failures,
      losses and page-by-page sweeps interleave, on four conditions.  A create has its box
      within the grace or never; a listing names every box that runs all through it; no box
      is paused, since a resume can race a sweep ([resume_races_sweep]); and a sweep takes no
      page once one with a later clock has begun listing, which the code does not ensure:
      what then goes wrong is shown on a concrete run ([overtaken_sweep_loses_box]).  Cores
      are those of charges rounded to millicores, half of one either way for each box.
    - Sweeps: keyset pages cover a set exactly, and a budgeted cursor visits every row once
      per lap.
    - One place where the code does less than its documents say is proved as it is: a reader
      that takes over in the middle of a response numbers what follows differently
      ([takeover_renumbers_placed]).

    ** How the model is cut

    Code between two awaits runs alone, so a component is a state and the steps that change
    it; interleavings are sequences of steps, and the theorems quantify over them.  A Python
    exception is a [Raise] of its class; message texts are not modelled.  Integers are
    unbounded in Python and are [Z] here.  Times are arguments.  Fuel appears in few places:
    [from_log] takes the stores its page reads see, and [follower_reads_log_to_end] gives the
    number of pages that suffices; [drain_held] gets the number of held parts, each turn
    taking one; [walk_up] and [visit] get one more than the number of children, which no
    chain without a repeat exceeds (Python's recursion limit, which a chain of sub-agents of
    that depth would meet, is not modelled there); [run] of [ProjectorFacts] needs three awaits a row and
    three more; a drive needs 166 steps ([drive_ends]) and each
    half of a message five ([signals_meet]); [iter_keyset_pages] comes with the number of pages after which it has ended.
    What a caller's query or the runtime's client returns is an argument; the keyset query's
    contract is the named hypothesis [serves], met by a concrete list.  The text Python gives
    a float read from JSON and the statuses the vendor's package calls terminal are class
    parameters ([PyFloats], [ClaudeSdk]).  The levels of brackets [json.loads] reads before
    the recursion limit are an argument of the cursors; the Claude adapter's
    uses of it take text of any depth.  A set is the list of its elements in the order
    they came.

    ** What is not modelled, and why

    Logging, fault barriers and asyncio scheduling (replaced by the step sequences above);
    the database listener; the engine adapters, sandbox providers and other services, which
    drive programs outside this repository; routes, settings and access checks, which are
    glue.  The translator's generator runs to its end before its frames are taken up, and a
    client's reads of the database are of one moment.  A projector reads a reply and writes
    its row in one step, since no later write changes the part of the log it reads.  Of
    channels the calls to providers and the notices to participants are left out; a drive
    takes the answering of questions ([Question]) as one await, whose awaits [ChannelAnswers]
    models on their own, and the access check, the judge, the choice of the session and the
    send as one each.  Paused boxes are part of the ledger and of [reserve_resume], but not of
    the runs the quota's theorems are about. *)

From stdpp Require Import sorting.
From stdpp Require Export base tactics strings pretty numbers option gmap sets list.

(** Notations of the development. *)
Declare Scope astra_scope.
Delimit Scope astra_scope with astra.
Infix "=s" := String.eqb (at level 70) : astra_scope.
Open Scope astra_scope.

(** ** Results: what a Python call returns or raises *)

(** The exceptions the modelled code raises, by class; an [APIError] keeps its
    [code] and [status_code].  Human-readable message text is not modelled. *)
Inductive exn : Set :=
| InteractionContractError
| APIError (code : string) (status_code : Z)
| ChildRunProjectionError
| UnknownWireEvent
| ValueError
| IndexError
| OverflowError
| RecursionError
| RuntimeError
| KeyError
| RuntimeCursorExpired
| InteractionNotOpen
| NotImplementedError
| AttributeError
| TypeError
| IntegrityError
| NoResultFound
| AssertionError
| LeaseLost
| HistoryCursorError
| InventoryNotTaken
| InvalidListCursor
| StopIteration.

Inductive res (A : Type) : Type :=
| Ok (a : A)
| Raise (e : exn).
Arguments Ok {A} a.
Arguments Raise {A} e.

#[export] Instance exn_eq_dec : EqDecision exn.
Proof. solve_decision. Defined.

#[export] Instance res_eq_dec {A} `{EqDecision A} : EqDecision (res A).
Proof. solve_decision. Defined.

#[export] Instance res_ret : MRet res := fun A a => Ok a.

#[export] Instance res_bind : MBind res := fun A B f m =>
  match m with Ok a => f a | Raise e => Raise e end.

#[export] Instance res_fmap : FMap res := fun A B f m =>
  match m with Ok a => Ok (f a) | Raise e => Raise e end.

Definition is_ok {A} (r : res A) : bool :=
  match r with Ok _ => true | Raise _ => false end.

(** [if cond: raise e]. *)
Definition raise_if (cond : bool) (e : exn) : res unit :=
  if cond then Raise e else Ok tt.

(** A loop [for x in l: acc = body(acc, x)] whose body may raise. *)
Fixpoint foldM {A B} (f : A -> B -> res A) (a : A) (l : list B) : res A :=
  match l with
  | [] => Ok a
  | x :: l' => match f a x with Ok a' => foldM f a' l' | Raise e => Raise e end
  end.

(** [[f(x) for x in l]] where [f] may raise. *)
Fixpoint mapM_res {A B} (f : A -> res B) (l : list A) : res (list B) :=
  match l with
  | [] => Ok []
  | x :: l' => y ← f x; ys ← mapM_res f l'; Ok (y :: ys)
  end.

(** ** Transactions: state passing with rollback *)

(** A transaction body reads and writes the store, or raises. *)
Definition txn (S A : Type) : Type := S -> res (A * S).

#[export] Instance txn_ret {S} : MRet (txn S) := fun A a s => Ok (a, s).

#[export] Instance txn_bind {S} : MBind (txn S) := fun A B f m s =>
  match m s with Ok (a, s') => f a s' | Raise e => Raise e end.

Definition get_state {S} : txn S S := fun s => Ok (s, s).

Definition modify {S} (f : S -> S) : txn S unit := fun s => Ok (tt, f s).

Definition modify_res {S} (f : S -> res S) : txn S unit := fun s =>
  match f s with Ok s' => Ok (tt, s') | Raise e => Raise e end.

Definition throw {S A} (e : exn) : txn S A := fun _ => Raise e.

(** [transaction(work)]: commit the body's writes, or raise with none of them. *)
Definition transaction {S A} (work : txn S A) (s : S) : res A * S :=
  match work s with
  | Ok (a, s') => (Ok a, s')
  | Raise e => (Raise e, s)
  end.

(** [for x in l: body(x)] inside a transaction. *)
Fixpoint forM {S A} (body : A -> txn S unit) (l : list A) : txn S unit :=
  match l with
  | [] => mret tt
  | x :: l' => body x ≫= fun _ => forM body l'
  end.

(** ** Tables *)

(** A table is its rows in insertion order; [update_where] is SQL's
    [UPDATE .. SET .. WHERE ..] and [count_where] the row count it reports. *)
Section tables.
Context {R : Type}.

Definition update_where (cond : R -> bool) (set : R -> R) (t : list R) : list R :=
  map (fun r => if cond r then set r else r) t.

Definition count_where (cond : R -> bool) (t : list R) : nat :=
  length (filter (fun r => cond r = true) t).

Definition select_where (cond : R -> bool) (t : list R) : list R :=
  filter (fun r => cond r = true) t.

Definition exists_where (cond : R -> bool) (t : list R) : bool := existsb cond t.

Definition delete_where (cond : R -> bool) (t : list R) : list R :=
  filter (fun r => cond r = false) t.

(** [INSERT] under a unique key: a second row with the key is refused. *)
Definition insert_unique (same : R -> R -> bool) (row : R) (t : list R) : res (list R) :=
  if existsb (same row) t then Raise IntegrityError else Ok (t ++ [row]).

(** [INSERT .. ON CONFLICT DO NOTHING]. *)
Definition insert_if_absent (same : R -> R -> bool) (row : R) (t : list R) : list R :=
  if existsb (same row) t then t else t ++ [row].
End tables.

(** ** Tactics *)

(** Split every [match]/[if] in a hypothesis on its scrutinee, dropping the
    branches that raise. *)
Ltac split_hyp H :=
  repeat (match type of H with
          | context [match ?x with _ => _ end] =>
              lazymatch x with context [match _ with _ => _ end] => fail | _ => idtac end;
              let E := fresh "E" in destruct x eqn:E
          end; cbn in H; try discriminate H).

(** Turn boolean conjunctions, equalities and comparisons into propositions. *)
Ltac bool_prop :=
  repeat match goal with
  | H : (_ && _) = true |- _ => apply andb_true_iff in H; destruct H
  | H : (_ || _) = false |- _ => apply orb_false_iff in H; destruct H
  | H : negb _ = true |- _ => apply negb_true_iff in H
  | H : negb _ = false |- _ => apply negb_false_iff in H
  | H : bool_decide _ = true |- _ => apply bool_decide_eq_true in H
  | H : bool_decide _ = false |- _ => apply bool_decide_eq_false in H
  | H : (_ <? _)%Z = true |- _ => apply Z.ltb_lt in H
  | H : (_ <? _)%Z = false |- _ => apply Z.ltb_ge in H
  | H : (_ <=? _)%Z = true |- _ => apply Z.leb_le in H
  | H : (_ <=? _)%Z = false |- _ => apply Z.leb_gt in H
  | H : (_ =? _)%Z = true |- _ => apply Z.eqb_eq in H
  | H : (_ =? _)%Z = false |- _ => apply Z.eqb_neq in H
  | H : String.eqb _ _ = true |- _ => apply String.eqb_eq in H
  | H : String.eqb _ _ = false |- _ => apply String.eqb_neq in H
  end.

(** Run a monadic hypothesis: name what each bind returned. *)
Ltac run_res H :=
  repeat match type of H with
  | (match ?m with Ok _ => _ | Raise _ => _ end) = Ok _ =>
      let E := fresh "E" in destruct m eqn:E; [|discriminate H]
  | mbind _ ?m = Ok _ =>
      let E := fresh "E" in
      unfold mbind, res_bind in H; destruct m eqn:E; [|discriminate H]
  end.

(** ** Generic lemmas *)

Section table_lemmas.
Context {R : Type}.
Implicit Types (t : list R) (cond : R -> bool) (set : R -> R).

Lemma length_update_where cond set t : length (update_where cond set t) = length t.
Proof. apply length_map. Qed.

Lemma update_where_app cond set t1 t2 :
  update_where cond set (t1 ++ t2) = update_where cond set t1 ++ update_where cond set t2.
Proof. apply map_app. Qed.

Lemma lookup_update_where cond set t i :
  update_where cond set t !! i = (fun r => if cond r then set r else r) <$> t !! i.
Proof. apply list_lookup_fmap. Qed.

Lemma elem_of_update_where cond set t r :
  r ∈ update_where cond set t <->
  exists r0, r0 ∈ t /\ r = (if cond r0 then set r0 else r0).
Proof.
  unfold update_where. rewrite list_elem_of_fmap. firstorder.
Qed.

Lemma count_where_zero cond t :
  count_where cond t = 0 <-> forall r, r ∈ t -> cond r = false.
Proof.
  unfold count_where. rewrite length_zero_iff_nil. split.
  - intros Hnil r Hr. destruct (cond r) eqn:E; [|done].
    assert (Hin : r ∈ filter (fun r => cond r = true) t)
      by (apply list_elem_of_filter; done).
    rewrite Hnil in Hin. by apply not_elem_of_nil in Hin.
  - intros H. destruct (filter _ t) as [|r l] eqn:E; [done|].
    assert (Hr : r ∈ filter (fun r => cond r = true) t) by (rewrite E; left).
    apply list_elem_of_filter in Hr as [Hc Hr]. rewrite H in Hc by done. discriminate.
Qed.

Lemma update_where_none cond set t :
  (forall r, r ∈ t -> cond r = false) -> update_where cond set t = t.
Proof.
  induction t as [|r t IH]; intros H; [done|]. cbn.
  rewrite H by left. f_equal. apply IH. intros r' Hr'. apply H. by right.
Qed.

Lemma existsb_true cond t : existsb cond t = true <-> exists r, r ∈ t /\ cond r = true.
Proof.
  rewrite existsb_exists.
  split; intros (r & Hr & Hc); exists r; apply list_elem_of_In in Hr; done.
Qed.

Lemma existsb_false cond t : existsb cond t = false <-> forall r, r ∈ t -> cond r = false.
Proof.
  rewrite <-not_true_iff_false, existsb_true. split.
  - intros H r Hr. destruct (cond r) eqn:E; [|done]. exfalso. eauto.
  - intros H (r & Hr & Hc). rewrite H in Hc by done. discriminate.
Qed.

Lemma elem_of_select_where cond t r : r ∈ select_where cond t <-> cond r = true /\ r ∈ t.
Proof. unfold select_where. by rewrite list_elem_of_filter. Qed.

Lemma insert_unique_ok same (row : R) t t' :
  insert_unique same row t = Ok t' -> t' = t ++ [row] /\ existsb (same row) t = false.
Proof. unfold insert_unique. destruct (existsb _ _); [done|]. by intros [= <-]. Qed.
End table_lemmas.

(** Rows with the same key are the same row of a keyed table. *)
Lemma NoDup_map_inj {A B} (f : A -> B) (l : list A) x y :
  NoDup (map f l) -> x ∈ l -> y ∈ l -> f x = f y -> x = y.
Proof.
  induction l as [|a l IH]; intros Hn Hx Hy Hf; [by apply not_elem_of_nil in Hx|].
  cbn in Hn. apply NoDup_cons in Hn as [Hni Hn].
  assert (Hout : forall z, z ∈ l -> f z <> f a).
  { intros z Hz Hfz. apply Hni. rewrite <-Hfz. by apply list_elem_of_fmap_2. }
  apply elem_of_cons in Hx as [Hx|Hx]; apply elem_of_cons in Hy as [Hy|Hy]; subst; [done| | |eauto].
  - by destruct (Hout y).
  - by destruct (Hout x).
Qed.

(** Selecting by a unique key finds the one row that has it. *)
Lemma select_where_unique {A B} (f : A -> B) (cond : A -> bool) (l : list A) x :
  NoDup (map f l) -> x ∈ l -> (forall y, y ∈ l -> cond y = true <-> f y = f x) ->
  select_where cond l = [x].
Proof.
  unfold select_where. induction l as [|a l IH]; intros Hn Hx Hc; [by apply not_elem_of_nil in Hx|].
  cbn in Hn. apply NoDup_cons in Hn as [Hni Hn].
  assert (Hout : forall z, z ∈ l -> f z <> f a).
  { intros z Hz Hfz. apply Hni. rewrite <-Hfz. by apply list_elem_of_fmap_2. }
  apply elem_of_cons in Hx as [<-|Hx].
  - rewrite filter_cons_True by (apply Hc; [by left|done]). f_equal.
    destruct (filter _ l) as [|y l'] eqn:E; [done|].
    assert (Hy : y ∈ filter (fun r => cond r = true) l) by (rewrite E; by left).
    apply list_elem_of_filter in Hy as [Hcy Hy]. apply Hc in Hcy; [|by right].
    by destruct (Hout y).
  - rewrite filter_cons_False.
    + apply IH; [done..|]. intros y Hy. apply Hc. by right.
    + intros Ha%Hc; [|by left]. by destruct (Hout x).
Qed.

Lemma list_filter_sublist {A} (f : A -> bool) l : List.filter f l `sublist_of` l.
Proof. induction l as [|x l IH]; cbn; [constructor|]. destruct (f x); by constructor. Qed.

Section res_lemmas.
Context {A B : Type}.

Lemma Ok_inj (a b : A) : Ok a = Ok b -> a = b.
Proof. by intros [= ->]. Qed.

Lemma bind_ok (f : A -> res B) (m : res A) b :
  (m ≫= f) = Ok b <-> exists a, m = Ok a /\ f a = Ok b.
Proof.
  destruct m; cbn; split; [eauto| |discriminate|].
  - by intros (? & [= <-] & ?).
  - by intros (? & ? & _).
Qed.

Lemma foldM_app (f : A -> B -> res A) a l1 l2 :
  foldM f a (l1 ++ l2) = (foldM f a l1 ≫= fun a' => foldM f a' l2).
Proof.
  revert a. induction l1 as [|x l1 IH]; intros a; [done|]. cbn.
  destruct (f a x); [apply IH|done].
Qed.

(** An invariant of the body is an invariant of the loop. *)
Lemma foldM_inv (P : A -> Prop) (f : A -> B -> res A) l a a' :
  P a -> (forall a x a1, P a -> f a x = Ok a1 -> P a1) -> foldM f a l = Ok a' -> P a'.
Proof.
  intros Ha Hstep. revert a Ha. induction l as [|x l IH]; intros a Ha H; cbn in H.
  - by simplify_eq.
  - destruct (f a x) eqn:E; [|done]. eauto.
Qed.

(** A loop that raises raised in one of its turns. *)
Lemma foldM_raise (f : A -> B -> res A) l a e :
  foldM f a l = Raise e -> exists a' x, x ∈ l /\ f a' x = Raise e.
Proof.
  revert a. induction l as [|x l IH]; intros a H; cbn in H; [done|].
  destruct (f a x) as [a1|e'] eqn:E.
  - destruct (IH _ H) as (a' & y & Hy & Hf). exists a', y. split; [by right|done].
  - injection H as ->. exists a, x. split; [left|done].
Qed.

(** A loop invariant that names the elements met so far. *)
Lemma foldM_loop (P : list B -> A -> Prop) (f : A -> B -> res A) l a a' :
  P [] a -> (forall met x a a1, P met a -> x ∈ l -> f a x = Ok a1 -> P (met ++ [x]) a1) ->
  foldM f a l = Ok a' -> P l a'.
Proof.
  intros Ha Hstep. cut (forall rest met a, P met a -> rest ⊆ l -> foldM f a rest = Ok a' -> P (met ++ rest) a').
  { intros H. by apply (H l [] a). }
  clear a Ha. induction rest as [|x rest IH]; intros met a Ha Hin H; cbn in H.
  - simplify_eq. by rewrite app_nil_r.
  - destruct (f a x) as [a1|] eqn:E; [|done]. rewrite cons_middle, app_assoc.
    apply (IH _ a1); [|set_solver|done]. eapply Hstep; [done|set_solver|done].
Qed.

(** What the body establishes of each element, a completed loop establishes of all. *)
Lemma foldM_Forall (P : B -> Prop) (f : A -> B -> res A) l a a' :
  (forall a x a1, f a x = Ok a1 -> P x) -> foldM f a l = Ok a' -> Forall P l.
Proof.
  intros Hstep. revert a. induction l as [|x l IH]; intros a H; cbn in H; [constructor|].
  destruct (f a x) eqn:E; [|done]. constructor; eauto.
Qed.

Lemma mapM_res_Forall2 (f : A -> res B) l l' :
  mapM_res f l = Ok l' <-> Forall2 (fun x y => f x = Ok y) l l'.
Proof.
  revert l'. induction l as [|x l IH]; intros l'; cbn.
  - split; [intros [= <-]; constructor|by inversion 1].
  - split.
    + intros H. destruct (f x) eqn:E; [|done]. cbn in H.
      destruct (mapM_res f l) eqn:E'; [|done]. injection H as <-.
      constructor; [done|]. by apply IH.
    + inversion 1 as [|? y ? l1 Hx Hl]; subst. rewrite Hx. cbn.
      by rewrite (proj2 (IH _) Hl).
Qed.

Lemma mapM_res_raise (f : A -> res B) l e :
  mapM_res f l = Raise e -> exists x, x ∈ l /\ f x = Raise e.
Proof.
  induction l as [|x l IH]; cbn; [done|]. destruct (f x) as [y|e'] eqn:E; cbn.
  - destruct (mapM_res f l); cbn; [done|]. intros [= ->]. destruct IH as (z & Hz & H); [done|]. exists z. set_solver.
  - intros [= ->]. exists x. set_solver.
Qed.

Lemma mapM_res_total (f : A -> res B) l :
  Forall (fun x => exists y, f x = Ok y) l -> exists l', mapM_res f l = Ok l'.
Proof.
  induction 1 as [|x l [y Hy] _ [l' Hl]]; [by exists []|].
  exists (y :: l'). cbn. by rewrite Hy; cbn; rewrite Hl.
Qed.

Lemma raise_if_ok c e u : raise_if c e = Ok u -> c = false.
Proof. by destruct c. Qed.
End res_lemmas.

(** ** Reasoning about transactions *)

(** Whatever the body does, the store moves along [P]. *)
Definition ensures {S A} (P : S -> S -> Prop) (m : txn S A) : Prop :=
  forall s a s', m s = Ok (a, s') -> P s s'.

Section ensures_lemmas.
Context {S : Type} (P : S -> S -> Prop) `{!PreOrder P}.

Lemma ensures_ret {A} (a : A) : ensures P (mret a).
Proof. intros s b s' [= <- <-]. reflexivity. Qed.

Lemma ensures_get : ensures P get_state.
Proof. intros s b s' [= <- <-]. reflexivity. Qed.

Lemma ensures_throw {A} e : ensures P (throw (A := A) e).
Proof. by intros s a s' H. Qed.

Lemma ensures_bind {A B} (m : txn S A) (f : A -> txn S B) :
  ensures P m -> (forall a, ensures P (f a)) -> ensures P (m ≫= f).
Proof.
  intros Hm Hf s b s'. unfold mbind, txn_bind. destruct (m s) as [[a s1]|] eqn:E; [|done].
  intros H. transitivity s1; [by eapply Hm|by eapply Hf].
Qed.

Lemma ensures_modify f : (forall s, P s (f s)) -> ensures P (modify f).
Proof. intros Hf s a s' [= _ <-]. apply Hf. Qed.

Lemma ensures_modify_res f : (forall s s', f s = Ok s' -> P s s') -> ensures P (modify_res f).
Proof.
  intros Hf s a s'. unfold modify_res. destruct (f s) eqn:E; [|done].
  intros [= _ <-]. by apply Hf.
Qed.

Lemma ensures_forM {A} (body : A -> txn S unit) l :
  (forall x, ensures P (body x)) -> ensures P (forM body l).
Proof.
  intros Hb. induction l as [|x l IH]; [apply ensures_ret|]. by apply ensures_bind.
Qed.

Lemma ensures_transaction {A} (m : txn S A) s : ensures P m -> P s (snd (transaction m s)).
Proof.
  intros Hm. unfold transaction. destruct (m s) as [[a s']|] eqn:E; cbn; [by eapply Hm|reflexivity].
Qed.
End ensures_lemmas.

(** A transaction that raises leaves the store as it was. *)
Lemma transaction_raise {S A} (m : txn S A) s e s' :
  transaction m s = (Raise e, s') -> s' = s.
Proof. unfold transaction. destruct (m s) as [[? ?]|]; [discriminate|]. by intros [= _ ->]. Qed.

Lemma transaction_ok {S A} (m : txn S A) s a s' :
  transaction m s = (Ok a, s') <-> m s = Ok (a, s').
Proof.
  unfold transaction. destruct (m s) as [[? ?]|]; split; intros H; try discriminate; congruence.
Qed.

Lemma txn_bind_ok {S A B} (m : txn S A) (f : A -> txn S B) s b s' :
  (m ≫= f) s = Ok (b, s') <-> exists a s1, m s = Ok (a, s1) /\ f a s1 = Ok (b, s').
Proof.
  unfold mbind, txn_bind. destruct (m s) as [[a s1]|]; split.
  - eauto.
  - by intros (? & ? & [= <- <-] & ?).
  - done.
  - by intros (? & ? & ? & _).
Qed.

(** ** Tables that only grow *)

(** [t'] is [t] with its rows moved along [step] and new rows after them. *)
Definition grows {R} (step : R -> R -> Prop) (t t' : list R) : Prop :=
  exists old new, t' = old ++ new /\ Forall2 step t old.

Section grows_lemmas.
Context {R : Type} (step : R -> R -> Prop) `{!PreOrder step}.

#[export] Instance grows_preorder : PreOrder (grows step).
Proof.
  split.
  - intros t. exists t, []. rewrite app_nil_r. split; [done|].
    induction t; constructor; [reflexivity|done].
  - intros t1 t2 t3 (o1 & n1 & -> & H1) (o2 & n2 & -> & H2).
    apply Forall2_app_inv_l in H2 as (o2a & o2b & Ha & Hb & ->).
    exists o2a, (o2b ++ n2). split; [by rewrite app_assoc|].
    revert o2a Ha. induction H1 as [|x y l l' Hxy _ IH]; intros o2a Ha.
    + inversion Ha. constructor.
    + inversion Ha as [|? z ? l2 Hyz Hl]; subst. constructor; [by transitivity y|by apply IH].
Qed.

Lemma grows_update cond set t :
  (forall r, cond r = true -> step r (set r)) -> grows step t (update_where cond set t).
Proof.
  intros H. exists (update_where cond set t), []. rewrite app_nil_r. split; [done|].
  induction t as [|r t IH]; [constructor|]. cbn. constructor; [|done].
  destruct (cond r) eqn:E; [by apply H|reflexivity].
Qed.

Lemma grows_app t l : grows step t (t ++ l).
Proof.
  exists t, l. split; [done|]. induction t; constructor; [reflexivity|done].
Qed.

Lemma grows_insert_if_absent same row t : grows step t (insert_if_absent same row t).
Proof. unfold insert_if_absent. destruct (existsb _ _); [reflexivity|apply grows_app]. Qed.

Lemma grows_insert_unique same row t t' :
  insert_unique same row t = Ok t' -> grows step t t'.
Proof. intros [-> _]%insert_unique_ok. apply grows_app. Qed.

Lemma grows_lookup t t' i r :
  grows step t t' -> t !! i = Some r -> exists r', t' !! i = Some r' /\ step r r'.
Proof.
  intros (old & new & -> & H) Hi.
  destruct (Forall2_lookup_l _ _ _ _ _ H Hi) as (r' & Hr' & Hs).
  exists r'. split; [by apply lookup_app_l_Some|done].
Qed.

Lemma grows_elem t t' r : grows step t t' -> r ∈ t -> exists r', r' ∈ t' /\ step r r'.
Proof.
  intros H [i Hi]%list_elem_of_lookup. destruct (grows_lookup _ _ _ _ H Hi) as (r' & ? & ?).
  exists r'. split; [|done]. by eapply list_elem_of_lookup_2.
Qed.
End grows_lemmas.

Lemma seqZ_sorted m n : StronglySorted Z.le (seqZ m n).
Proof.
  unfold seqZ. generalize 0 at 1. intros i. generalize (Z.to_nat n). intros k. revert i.
  induction k as [|k IH]; intros i; cbn; constructor; [apply IH|].
  apply Forall_forall. intros s (j & -> & Hj%elem_of_seq)%list_elem_of_fmap. lia.
Qed.

Create Rewrite HintDb tables.
Create HintDb res.
Create HintDb txn.
#[export] Hint Resolve ensures_ret ensures_get ensures_throw ensures_bind ensures_modify
  ensures_modify_res ensures_forM : txn.

#[export] Hint Rewrite @length_update_where @update_where_app : tables.
#[export] Hint Resolve raise_if_ok : res.
