(* ===== verification/Effects.v ===== *)
(** Calls that keep what they wrote when they raise, and generators: what a Python method
    on a mutable object is, where [Prelude]'s transactions are what a database call is.
    Calls come with the rules by which a relation is carried through a body. *)

From S2P Require Import Prelude.

(** ** Calls *)

(** A method call: its result or exception, and the object as it leaves it. *)
Definition act (S A : Type) : Type := S -> res A * S.

#[export] Instance act_ret {S} : MRet (act S) := fun A a s => (Ok a, s).

#[export] Instance act_bind {S} : MBind (act S) := fun A B f m s =>
  match m s with
  | (Ok a, s') => f a s'
  | (Raise e, s') => (Raise e, s')
  end.

Definition self {S} : act S S := fun s => (Ok s, s).
Definition change {S} (f : S -> S) : act S unit := fun s => (Ok tt, f s).
Definition call {S A} (r : res A) : act S A := fun s => (r, s).
Definition refuse_call {S} (c : bool) (e : exn) : act S unit := call (raise_if c e).

(** [for x in l: body(x)]. *)
Fixpoint each {S A} (body : A -> act S unit) (l : list A) : act S unit :=
  match l with
  | [] => mret tt
  | x :: l' => body x ≫= fun _ => each body l'
  end.

(** Every run of [m] takes a state to one it is related to, raising or not. *)
Definition keeps {S A} (R : S -> S -> Prop) (m : act S A) : Prop := forall s, R s (snd (m s)).

Section keeps.
Context {S : Type} (R : S -> S -> Prop) `{!PreOrder R}.

Lemma keeps_ret {A} (a : A) : keeps R (mret a : act S A).
Proof. intros s. cbn. reflexivity. Qed.

Lemma keeps_self : keeps R self.
Proof. intros s. cbn. reflexivity. Qed.

Lemma keeps_call {A} (r : res A) : keeps R (call r).
Proof. intros s. cbn. reflexivity. Qed.

Lemma keeps_refuse c e : keeps R (refuse_call c e).
Proof. apply keeps_call. Qed.

Lemma keeps_change f : (forall s, R s (f s)) -> keeps R (change f).
Proof. intros H s. apply H. Qed.

Lemma keeps_bind {A B} (m : act S A) (f : A -> act S B) : keeps R m -> (forall a, keeps R (f a)) -> keeps R (m ≫= f).
Proof.
  intros Hm Hf s. unfold mbind, act_bind. specialize (Hm s). destruct (m s) as [[a|e] s'] eqn:E; cbn in *; [|done].
  etransitivity; [exact Hm|apply Hf].
Qed.

Lemma keeps_self_bind {B} (f : S -> act S B) : (forall s, R s (snd (f s s))) -> keeps R (self ≫= f).
Proof. intros H s. apply H. Qed.

Lemma keeps_each {A} (body : A -> act S unit) l : (forall x, keeps R (body x)) -> keeps R (each body l).
Proof. intros H. induction l; cbn; [apply keeps_ret|]. apply keeps_bind; auto. Qed.
End keeps.

(** Every result of [m] satisfies [Q]. *)
Definition returns {S A} (Q : A -> Prop) (m : act S A) : Prop := forall s a s', m s = (Ok a, s') -> Q a.

Lemma returns_ret {S A} (Q : A -> Prop) a : Q a -> returns Q (mret a : act S A).
Proof. by intros H s a' s' [= <- <-]. Qed.

Lemma returns_bind {S A B} (Q : B -> Prop) (m : act S A) (f : A -> act S B) :
  (forall a, returns Q (f a)) -> returns Q (m ≫= f).
Proof. intros H s b s'. unfold mbind, act_bind. destruct (m s) as [[a|e] s1]; [apply H|done]. Qed.

Lemma act_bind_ok {S A B} (m : act S A) (f : A -> act S B) s b s' :
  (m ≫= f) s = (Ok b, s') -> exists a s1, m s = (Ok a, s1) /\ f a s1 = (Ok b, s').
Proof. unfold mbind, act_bind. destruct (m s) as [[a|e] s1]; [eauto|done]. Qed.

Lemma refuse_call_ok {S} c e (s : S) u s' : refuse_call c e s = (Ok u, s') -> c = false /\ s' = s.
Proof. unfold refuse_call, call, raise_if. destruct c; intros [=]; done. Qed.

(** ** Generators *)

(** A generator run to its end: what it yielded, its result or exception, and the object. *)
Definition gen (S Y A : Type) : Type := S -> list Y * (res A * S).

#[export] Instance gen_ret {S Y} : MRet (gen S Y) := fun A a s => ([], (Ok a, s)).

#[export] Instance gen_bind {S Y} : MBind (gen S Y) := fun A B f m s =>
  match m s with
  | (ys, (Ok a, s')) => let '(ys', r) := f a s' in ((ys ++ ys')%list, r)
  | (ys, (Raise e, s')) => (ys, (Raise e, s'))
  end.

Definition yield {S Y} (ys : list Y) : gen S Y unit := fun s => (ys, (Ok tt, s)).
Definition self_gen {S Y} : gen S Y S := fun s => ([], (Ok s, s)).
Definition change_gen {S Y} (f : S -> S) : gen S Y unit := fun s => ([], (Ok tt, f s)).
Definition call_gen {S Y A} (r : res A) : gen S Y A := fun s => ([], (r, s)).

(** A call on a part of the object. *)
Definition on_part {S P Y A} (part : S -> P) (put : P -> S -> S) (m : act P A) : gen S Y A := fun s =>
  let '(r, p) := m (part s) in ([], (r, put p s)).

Fixpoint each_gen {S Y A} (body : A -> gen S Y unit) (l : list A) : gen S Y unit :=
  match l with
  | [] => mret tt
  | x :: l' => body x ≫= fun _ => each_gen body l'
  end.

(** Everything [m] yields satisfies [P], whether it raises or not. *)
Definition yields {S Y A} (P : Y -> Prop) (m : gen S Y A) : Prop := forall s, Forall P (fst (m s)).

Section yields.
Context {S Y : Type} (P : Y -> Prop).

Lemma yields_ret {A} (a : A) : yields P (mret a : gen S Y A).
Proof. intros s. constructor. Qed.

Lemma yields_self : yields P (self_gen : gen S Y S).
Proof. intros s. constructor. Qed.

Lemma yields_change f : yields P (change_gen f : gen S Y unit).
Proof. intros s. constructor. Qed.

Lemma yields_call {A} (r : res A) : yields P (call_gen r : gen S Y A).
Proof. intros s. constructor. Qed.

Lemma yields_part {Q A} (part : S -> Q) put (m : act Q A) : yields P (on_part part put m : gen S Y A).
Proof. intros s. unfold on_part. destruct (m (part s)). constructor. Qed.

Lemma yields_yield ys : Forall P ys -> yields P (yield ys : gen S Y unit).
Proof. by intros H s. Qed.

Lemma yields_bind {A B} (m : gen S Y A) (f : A -> gen S Y B) : yields P m -> (forall a, yields P (f a)) -> yields P (m ≫= f).
Proof.
  intros Hm Hf s. unfold mbind, gen_bind. specialize (Hm s). destruct (m s) as [ys [[a|e] s']]; [|done].
  specialize (Hf a s'). destruct (f a s') as [zs r]. by apply Forall_app.
Qed.

Lemma yields_read {A B} (r : res A) (f : A -> gen S Y B) : (forall a, r = Ok a -> yields P (f a)) -> yields P (call_gen r ≫= f).
Proof. intros H s. unfold mbind, gen_bind, call_gen. destruct r as [a|e]; [|constructor]. specialize (H a eq_refl s). by destruct (f a s). Qed.

Lemma yields_each {A} (body : A -> gen S Y unit) l : (forall x, yields P (body x)) -> yields P (each_gen body l).
Proof. intros H. induction l; [apply yields_ret|]. by apply yields_bind. Qed.
End yields.

Create HintDb calls.
#[export] Hint Resolve yields_ret yields_self yields_change yields_call yields_part : calls.
#[export] Hint Resolve keeps_ret keeps_self keeps_call keeps_refuse keeps_each returns_ret : calls.
