(* ===== verification/PyVal.v ===== *)
(** Python values as the platform handles them: JSON-shaped objects with
    insertion-ordered, string-keyed dicts, and the built-ins the code applies to
    them (truth value, [==], [str], [strip], [lower], dict reads and writes).

    A [str] is its UTF-8 bytes; [strip] and [lower] act on the ASCII characters.
    A [float] is the text [repr] gives for it, which determines it. *)

From S2P Require Export Prelude.

Set Warnings "-register-all".

Open Scope string_scope.

Inductive val : Set :=
| VNone
| VBool (b : bool)
| VInt (z : Z)
| VFloat (repr : string)
| VStr (s : string)
| VList (l : list val)
| VDict (d : list (string * val)).

Abbreviation dict := (list (string * val)).

(** The induction principle with hypotheses for list elements and dict values. *)
Fixpoint val_rect' (P : val -> Prop)
  (hnone : P VNone) (hbool : forall b, P (VBool b)) (hint : forall z, P (VInt z))
  (hfloat : forall r, P (VFloat r)) (hstr : forall s, P (VStr s))
  (hlist : forall l, Forall P l -> P (VList l))
  (hdict : forall d, Forall (fun kv => P (snd kv)) d -> P (VDict d)) (v : val) : P v :=
  let rec := val_rect' P hnone hbool hint hfloat hstr hlist hdict in
  match v with
  | VNone => hnone | VBool b => hbool b | VInt z => hint z
  | VFloat r => hfloat r | VStr s => hstr s
  | VList l => hlist l ((fix go l := match l return Forall P l with
      | [] => Forall_nil_2 P | x :: l' => Forall_cons_2 P x l' (rec x) (go l') end) l)
  | VDict d => hdict d ((fix go d := match d return Forall (fun kv => P (snd kv)) d with
      | [] => Forall_nil_2 _
      | kv :: d' => Forall_cons_2 _ kv d' (rec (snd kv)) (go d') end) d)
  end.

#[export] Instance val_eq_dec : EqDecision val.
Proof.
  refine (fix go (v1 v2 : val) : Decision (v1 = v2) :=
    match v1, v2 with
    | VNone, VNone => left eq_refl
    | VBool a, VBool b => cast_if (decide (a = b))
    | VInt a, VInt b => cast_if (decide (a = b))
    | VFloat a, VFloat b => cast_if (decide (a = b))
    | VStr a, VStr b => cast_if (decide (a = b))
    | VList a, VList b => cast_if (@list_eq_dec val go a b)
    | VDict a, VDict b =>
        cast_if (@list_eq_dec (string * val) (@prod_eq_dec _ _ _ go) a b)
    | _, _ => right _
    end); try (subst; reflexivity); try congruence.
Defined.

(** ** Strings *)

Module Py.

(** ASCII white space as [str.strip] sees it: tab to carriage return, the four
    information separators, and space. *)
Definition is_space (c : Ascii.ascii) : bool :=
  let n := Ascii.nat_of_ascii c in
  ((9 <=? n) && (n <=? 13) || (28 <=? n) && (n <=? 32))%nat.

Fixpoint lstrip (s : string) : string :=
  match s with
  | String c s' => if is_space c then lstrip s' else s
  | EmptyString => EmptyString
  end.

Fixpoint rstrip (s : string) : string :=
  match s with
  | EmptyString => EmptyString
  | String c s' =>
      match rstrip s' with
      | EmptyString => if is_space c then EmptyString else String c EmptyString
      | r => String c r
      end
  end.

Definition strip (s : string) : string := rstrip (lstrip s).

Definition lower_ascii (c : Ascii.ascii) : Ascii.ascii :=
  let n := Ascii.nat_of_ascii c in
  if ((65 <=? n) && (n <=? 90))%nat then Ascii.ascii_of_nat (n + 32) else c.

Fixpoint lower (s : string) : string :=
  match s with
  | EmptyString => EmptyString
  | String c s' => String (lower_ascii c) (lower s')
  end.

Definition upper_ascii (c : Ascii.ascii) : Ascii.ascii :=
  let n := Ascii.nat_of_ascii c in
  if ((97 <=? n) && (n <=? 122))%nat then Ascii.ascii_of_nat (n - 32) else c.

Fixpoint upper (s : string) : string :=
  match s with
  | "" => ""
  | String c s' => String (upper_ascii c) (upper s')
  end.

Definition is_empty (s : string) : bool :=
  match s with EmptyString => true | _ => false end.

(** [s.startswith(p)]. *)
Definition startswith (p s : string) : bool := String.prefix p s.

(** [sub in s]. *)
Fixpoint contains (sub s : string) : bool :=
  String.prefix sub s ||
  match s with EmptyString => false | String _ s' => contains sub s' end.

(** [x in (..)] for a tuple or set of strings. *)
Definition in_strs (s : string) (l : list string) : bool := existsb (String.eqb s) l.

Definition a_or (a b : string) : string := if is_empty a then b else a.

(** ** [repr] and [str] *)

Definition ascii_char (n : nat) : string := String (Ascii.ascii_of_nat n) "".

Definition hex_digit (n : nat) : string :=
  if (n <? 10)%nat then ascii_char (48 + n) else ascii_char (87 + n).

Definition dquote : string := ascii_char 34.

Fixpoint has_char (c : Ascii.ascii) (s : string) : bool :=
  match s with
  | EmptyString => false
  | String c' s' => Ascii.eqb c c' || has_char c s'
  end.

Fixpoint map_chars (f : Ascii.ascii -> string) (s : string) : string :=
  match s with
  | EmptyString => ""
  | String c s' => f c ++ map_chars f s'
  end.

Definition repr_char (quote : nat) (c : Ascii.ascii) : string :=
  let n := Ascii.nat_of_ascii c in
  if (n =? 92)%nat then "\\"
  else if (n =? quote)%nat then "\" ++ ascii_char quote
  else if (n =? 10)%nat then "\n" else if (n =? 13)%nat then "\r"
  else if (n =? 9)%nat then "\t"
  else if ((n <? 32) || (n =? 127))%nat then
    "\x" ++ hex_digit (n / 16) ++ hex_digit (n mod 16)
  else String c "".

Definition repr_str (s : string) : string :=
  let quote := if has_char (Ascii.ascii_of_nat 39) s && negb (has_char (Ascii.ascii_of_nat 34) s)
               then 34 else 39 in
  ascii_char quote ++ map_chars (repr_char quote) s ++ ascii_char quote.

Fixpoint repr (v : val) : string :=
  match v with
  | VNone => "None"
  | VBool true => "True" | VBool false => "False"
  | VInt z => pretty z
  | VFloat r => r
  | VStr s => repr_str s
  | VList l => "[" ++ String.concat ", " (map repr l) ++ "]"
  | VDict d => "{" ++ String.concat ", "
                 (map (fun kv => repr_str (fst kv) ++ ": " ++ repr (snd kv)) d) ++ "}"
  end.

Definition str (v : val) : string :=
  match v with VStr s => s | _ => repr v end.

(** [bool(v)]. *)
Definition truthy (v : val) : bool :=
  match v with
  | VNone => false
  | VBool b => b
  | VInt z => negb (z =? 0)%Z
  | VFloat r => negb (String.eqb r "0.0" || String.eqb r "-0.0")
  | VStr s => negb (is_empty s)
  | VList l => match l with [] => false | _ => true end
  | VDict d => match d with [] => false | _ => true end
  end.

(** [a or b]. *)
Definition por (a b : val) : val := if truthy a then a else b.

(** [str(v or "")] and [str(v or "").strip()]. *)
Definition str_or_empty (v : val) : string := str (por v (VStr "")).
Definition clean (v : val) : string := strip (str_or_empty v).

(** ** Dicts *)

Fixpoint lookup (k : string) (d : dict) : option val :=
  match d with
  | [] => None
  | (k', v) :: d' => if String.eqb k k' then Some v else lookup k d'
  end.

(** [d.get(k)]. *)
Definition get (k : string) (d : dict) : val := default VNone (lookup k d).

(** [k in d]. *)
Definition has (k : string) (d : dict) : bool :=
  match lookup k d with Some _ => true | None => false end.

(** [d[k]]. *)
Definition item (k : string) (d : dict) : res val :=
  match lookup k d with Some v => Ok v | None => Raise KeyError end.

(** [d[k] = v]: in place when [k] is present, else at the end. *)
Fixpoint set (k : string) (v : val) (d : dict) : dict :=
  match d with
  | [] => [(k, v)]
  | (k', v') :: d' => if String.eqb k k' then (k', v) :: d' else (k', v') :: set k v d'
  end.

(** [d.pop(k, None)]. *)
Definition pop (k : string) (d : dict) : dict :=
  List.filter (fun kv => negb (String.eqb k (fst kv))) d.

(** [d.update(e)]. *)
Definition update (d e : dict) : dict :=
  fold_left (fun acc kv => set (fst kv) (snd kv) acc) e d.

Definition keys (d : dict) : list string := map fst d.

(** A [dict]'s keys are unique. *)
Definition wf_dict (d : dict) : Prop := NoDup (keys d).

(** [v.get(k)] for a value that may not be a dict: other values have no [get]. *)
Definition vget (k : string) (v : val) : res val :=
  match v with VDict d => Ok (get k d) | _ => Raise AttributeError end.

(** [v[k]] with a string key. *)
Definition vitem (k : string) (v : val) : res val :=
  match v with VDict d => item k d | _ => Raise TypeError end.

(** A [list] or a [dict] cannot be a set member or a dict key. *)
Definition hashable (v : val) : bool :=
  match v with VList _ | VDict _ => false | _ => true end.

Definition is_str (v : val) : bool := match v with VStr _ => true | _ => false end.
Definition is_bool (v : val) : bool := match v with VBool _ => true | _ => false end.
Definition is_none (v : val) : bool := match v with VNone => true | _ => false end.
Definition is_list (v : val) : bool := match v with VList _ => true | _ => false end.
Definition is_dict (v : val) : bool := match v with VDict _ => true | _ => false end.

(** [v is True] and [v is False]. *)
Definition is_true (v : val) : bool := match v with VBool true => true | _ => false end.
Definition is_false (v : val) : bool := match v with VBool false => true | _ => false end.

(** [isinstance(v, str) and v.strip()]. *)
Definition nonblank_str (v : val) : bool :=
  match v with VStr s => negb (is_empty (strip s)) | _ => false end.

(** [a == b]: [bool] is an [int], an integral [float] equals its [int], and dicts
    compare without order. *)
Definition int_of (v : val) : option Z :=
  match v with VBool b => Some (Z.b2z b) | VInt z => Some z | _ => None end.

(** [int(s)] for a decimal literal: optional sign, then digits (digit separators
    are not modelled). *)
Fixpoint digits (acc : Z) (s : string) : option Z :=
  match s with
  | "" => Some acc
  | String c s' =>
      let n := Z.of_nat (Ascii.nat_of_ascii c) in
      if ((48 <=? n) && (n <=? 57))%Z then digits (acc * 10 + (n - 48))%Z s' else None
  end.

Definition parse_int (s : string) : option Z :=
  match strip s with
  | "" => None
  | String c s' =>
      if Ascii.eqb c (Ascii.ascii_of_nat 45) then (if is_empty s' then None else Z.opp <$> digits 0 s')
      else if Ascii.eqb c (Ascii.ascii_of_nat 43) then (if is_empty s' then None else digits 0 s')
      else digits 0 (String c s')
  end.

Fixpoint before_dot (s : string) : string :=
  match s with
  | "" => ""
  | String c s' => if Ascii.eqb c (Ascii.ascii_of_nat 46) then "" else String c (before_dot s')
  end.

(** [int(v)]; a float truncates towards zero (those whose repr has an exponent are
    not modelled). *)
Definition int (v : val) : res Z :=
  match v with
  | VInt z => Ok z
  | VBool b => Ok (Z.b2z b)
  | VStr s => match parse_int s with Some z => Ok z | None => Raise ValueError end
  | VFloat r => if in_strs r ["inf"; "-inf"] then Raise OverflowError
                else match parse_int (before_dot r) with Some z => Ok z | None => Raise ValueError end
  | _ => Raise TypeError
  end.

Definition num_eq (a b : val) : bool :=
  match int_of a, int_of b with
  | Some x, Some y => (x =? y)%Z
  | Some x, None => match b with VFloat r => String.eqb r (pretty x ++ ".0") | _ => false end
  | None, Some y => match a with VFloat r => String.eqb r (pretty y ++ ".0") | _ => false end
  | None, None =>
      match a, b with
      | VFloat r, VFloat r' =>
          negb (String.eqb r "nan") &&
          (String.eqb r r' || negb (truthy a) && negb (truthy b))
      | _, _ => false
      end
  end.

Fixpoint eqb (a b : val) : bool :=
  match a, b with
  | VNone, VNone => true
  | VStr s, VStr t => String.eqb s t
  | VList l, VList m =>
      (fix go l m := match l, m with
       | [], [] => true
       | x :: l', y :: m' => eqb x y && go l' m'
       | _, _ => false
       end) l m
  | VDict d, VDict e =>
      (length d =? length e)%nat &&
      (fix go d := match d with
       | [] => true
       | (k, v) :: d' =>
           match lookup k e with Some w => eqb v w | None => false end && go d'
       end) d
  | _, _ => num_eq a b
  end.

End Py.

(** ** Lemmas *)

Section dict_lemmas.
Implicit Types (k : string) (v : val) (d e : dict).

Lemma lookup_set k k' v d :
  Py.lookup k (Py.set k' v d) = if String.eqb k k' then Some v else Py.lookup k d.
Proof.
  induction d as [|[k0 v0] d IH]; cbn; [done|].
  destruct (String.eqb_spec k' k0) as [<-|Hne]; cbn.
  - by destruct (String.eqb k k').
  - destruct (String.eqb_spec k k0) as [->|]; [|done].
    by destruct (String.eqb_spec k0 k').
Qed.

Lemma lookup_set_eq k v d : Py.lookup k (Py.set k v d) = Some v.
Proof. by rewrite lookup_set, String.eqb_refl. Qed.

Lemma lookup_set_ne k k' v d :
  k <> k' -> Py.lookup k (Py.set k' v d) = Py.lookup k d.
Proof. intros ?. rewrite lookup_set. by destruct (String.eqb_spec k k'). Qed.

Lemma get_set_eq k v d : Py.get k (Py.set k v d) = v.
Proof. unfold Py.get. by rewrite lookup_set_eq. Qed.

Lemma get_set_ne k k' v d : k <> k' -> Py.get k (Py.set k' v d) = Py.get k d.
Proof. intros ?. unfold Py.get. by rewrite lookup_set_ne. Qed.

Lemma lookup_pop k k' d :
  Py.lookup k (Py.pop k' d) = if String.eqb k k' then None else Py.lookup k d.
Proof.
  induction d as [|[k0 v0] d IH]; cbn; [by destruct (String.eqb k k')|].
  destruct (String.eqb_spec k' k0) as [<-|Hne]; cbn; fold (Py.pop k' d); rewrite IH.
  - by destruct (String.eqb k k').
  - destruct (String.eqb_spec k k0) as [->|]; [|done].
    by destruct (String.eqb_spec k0 k').
Qed.

Lemma lookup_None_keys k d : Py.lookup k d = None <-> k ∉ Py.keys d.
Proof.
  induction d as [|[k0 v0] d IH]; cbn; [split; [intros _; apply not_elem_of_nil|done]|].
  rewrite not_elem_of_cons. destruct (String.eqb_spec k k0); naive_solver.
Qed.

Lemma lookup_Some_in k v d : Py.lookup k d = Some v -> (k, v) ∈ d.
Proof.
  induction d as [|[k0 v0] d IH]; cbn; [done|].
  destruct (String.eqb_spec k k0) as [->|]; [intros [= ->]; left|right; auto].
Qed.

Lemma elem_of_keys_set k k' v d :
  k ∈ Py.keys (Py.set k' v d) <-> k = k' \/ k ∈ Py.keys d.
Proof.
  induction d as [|[k0 v0] d IH]; cbn.
  - set_solver.
  - destruct (String.eqb_spec k' k0) as [<-|]; cbn; set_solver.
Qed.

Lemma wf_dict_set k v d : Py.wf_dict d -> Py.wf_dict (Py.set k v d).
Proof.
  unfold Py.wf_dict. induction d as [|[k0 v0] d IH]; cbn.
  - intros _. apply NoDup_singleton.
  - rewrite NoDup_cons. intros [Hni Hnd].
    destruct (String.eqb_spec k k0) as [<-|]; cbn; rewrite NoDup_cons.
    + done.
    + split; [|auto]. rewrite elem_of_keys_set. naive_solver.
Qed.

Lemma elem_of_keys_update k d e :
  k ∈ Py.keys (Py.update d e) <-> k ∈ Py.keys d \/ k ∈ Py.keys e.
Proof.
  revert d. induction e as [|[k0 v0] e IH]; intros d; cbn; [set_solver|].
  fold (Py.update (Py.set k0 v0 d) e). rewrite IH, elem_of_keys_set. set_solver.
Qed.

Lemma lookup_app k d e :
  Py.lookup k (d ++ e)%list =
  match Py.lookup k d with Some v => Some v | None => Py.lookup k e end.
Proof.
  induction d as [|[k0 v0] d IH]; cbn; [done|]. by destruct (String.eqb k k0).
Qed.

Lemma has_lookup k d : Py.has k d = true <-> exists v, Py.lookup k d = Some v.
Proof. unfold Py.has. destruct (Py.lookup k d); naive_solver. Qed.
End dict_lemmas.

Section string_lemmas.
Implicit Types s : string.

Lemma app_String c s t : String c s ++ t = String c (s ++ t).
Proof. done. Qed.

Lemma str_app_assoc s t u : (s ++ t) ++ u = s ++ t ++ u.
Proof. induction s as [|c s IH]; [done|]. by rewrite !app_String, IH. Qed.

Lemma str_app_nil s : s ++ "" = s.
Proof. induction s as [|c s IH]; [done|]. by rewrite app_String, IH. Qed.

Lemma app_Empty t : "" ++ t = t.
Proof. done. Qed.

Lemma rstrip_idem s : Py.rstrip (Py.rstrip s) = Py.rstrip s.
Proof.
  induction s as [|c s IH]; [done|]. cbn.
  destruct (Py.rstrip s) as [|c' r] eqn:E.
  - destruct (Py.is_space c) eqn:Ec; cbn; [done|]. by rewrite Ec.
  - cbn [Py.rstrip] in *. by rewrite IH.
Qed.

(** A string that starts with a non-space, or is empty, has nothing to strip on the left. *)
Definition lstripped s : bool :=
  match s with String c _ => negb (Py.is_space c) | EmptyString => true end.

Lemma lstrip_lstripped s : lstripped (Py.lstrip s) = true.
Proof.
  induction s as [|c s IH]; [done|]. cbn. destruct (Py.is_space c) eqn:E; [done|].
  cbn. by rewrite E.
Qed.

Lemma lstripped_id s : lstripped s = true -> Py.lstrip s = s.
Proof. destruct s as [|c s]; [done|]. cbn. by destruct (Py.is_space c). Qed.

Lemma rstrip_lstripped s : lstripped s = true -> lstripped (Py.rstrip s) = true.
Proof.
  destruct s as [|c s]; [done|]. cbn. intros Hc.
  destruct (Py.rstrip s); [|done]. destruct (Py.is_space c) eqn:E; [done|].
  cbn. by rewrite E.
Qed.

Lemma strip_idem s : Py.strip (Py.strip s) = Py.strip s.
Proof.
  unfold Py.strip. rewrite (lstripped_id (Py.rstrip _)).
  - apply rstrip_idem.
  - apply rstrip_lstripped, lstrip_lstripped.
Qed.

Lemma is_empty_true s : Py.is_empty s = true <-> s = "".
Proof. by destruct s. Qed.

Lemma is_empty_false s : Py.is_empty s = false <-> s <> "".
Proof. by destruct s. Qed.

Lemma in_strs_true s l : Py.in_strs s l = true <-> s ∈ l.
Proof.
  unfold Py.in_strs. rewrite existsb_exists. setoid_rewrite <-list_elem_of_In. split.
  - by intros (x & Hx & ->%String.eqb_eq).
  - intros H. exists s. by rewrite String.eqb_refl.
Qed.

Lemma clean_str s : Py.clean (VStr s) = Py.strip s.
Proof. destruct s; done. Qed.
End string_lemmas.

Create Rewrite HintDb pydict.

#[export] Hint Rewrite lookup_set_eq get_set_eq lookup_set_ne get_set_ne
  using done : pydict.
#[export] Hint Resolve wf_dict_set : core.

(** Evaluate reads of explicit dict updates. *)
Ltac dict_simpl := autorewrite with pydict.
