(* ===== verification/Base64.v ===== *)
(** [base64.urlsafe_b64encode] and [urlsafe_b64decode] as the cursors use them: a byte
    string is written without its padding, and a decoder that skips what is not in its
    alphabet reads it back. *)

From S2P Require Import Prelude PyVal.

Open Scope string_scope.

Module Base64.
Open Scope Z_scope.

(** ** Bytes *)

Definition byte (c : Ascii.ascii) : Z := Z.of_N (Ascii.N_of_ascii c).
Definition char (z : Z) : Ascii.ascii := Ascii.ascii_of_N (Z.to_N z).

Lemma byte_range c : 0 <= byte c < 256.
Proof. unfold byte. pose proof (Ascii.N_ascii_bounded c). lia. Qed.

Lemma char_byte c : char (byte c) = c.
Proof. unfold char, byte. by rewrite N2Z.id, Ascii.ascii_N_embedding. Qed.

Lemma char_eq z c : z = byte c -> char z = c.
Proof. intros ->. apply char_byte. Qed.

Lemma byte_char z : 0 <= z < 256 -> byte (char z) = z.
Proof. intros H. unfold char, byte. rewrite Ascii.N_ascii_embedding; lia. Qed.

(** ** The alphabet *)

Definition EQUALS : Ascii.ascii := char 61.

(** The URL-safe alphabet. *)
Definition digit (i : Z) : Ascii.ascii :=
  char (if i <? 26 then 65 + i else if i <? 52 then 71 + i else if i <? 62 then i - 4
        else if i =? 62 then 45 else 95).

(** What a character stands for; the decoder also takes the standard alphabet's [+] and [/]. *)
Definition value (c : Ascii.ascii) : option Z :=
  let n := byte c in
  if (65 <=? n) && (n <=? 90) then Some (n - 65)
  else if (97 <=? n) && (n <=? 122) then Some (n - 71)
  else if (48 <=? n) && (n <=? 57) then Some (n + 4)
  else if (n =? 43) || (n =? 45) then Some 62
  else if (n =? 47) || (n =? 95) then Some 63
  else None.

(** ** Writing *)

(** [base64.urlsafe_b64encode]. *)
Fixpoint urlsafe_b64encode (s : string) : string :=
  match s with
  | String a (String b (String c r)) =>
      String (digit (byte a / 4)) (String (digit (byte a mod 4 * 16 + byte b / 16))
        (String (digit (byte b mod 16 * 4 + byte c / 64)) (String (digit (byte c mod 64))
          (urlsafe_b64encode r))))
  | String a (String b EmptyString) =>
      String (digit (byte a / 4)) (String (digit (byte a mod 4 * 16 + byte b / 16))
        (String (digit (byte b mod 16 * 4)) (String EQUALS EmptyString)))
  | String a EmptyString =>
      String (digit (byte a / 4)) (String (digit (byte a mod 4 * 16)) (String EQUALS (String EQUALS EmptyString)))
  | EmptyString => EmptyString
  end.

(** [s.rstrip("=")]. *)
Fixpoint rstrip_equals (s : string) : string :=
  match s with
  | EmptyString => EmptyString
  | String c s' =>
      match rstrip_equals s' with
      | EmptyString => if Ascii.eqb c EQUALS then EmptyString else String c EmptyString
      | r => String c r
      end
  end.

(** The encoding a cursor is. *)
Definition cursor_text (raw : string) : string := rstrip_equals (urlsafe_b64encode raw).

(** ** Reading *)

(** The decoder's loop: [quad] characters of the current four are read, their pending bits
    are [left], and [pads] equals signs were seen since the last of them. *)
Fixpoint decode (quad left pads : Z) (s : string) : option string :=
  match s with
  | EmptyString => if quad =? 0 then Some EmptyString else None
  | String c s' =>
      if Ascii.eqb c EQUALS then
        if (2 <=? quad) && (4 <=? quad + pads + 1) then Some EmptyString
        else decode quad left (if 2 <=? quad then pads + 1 else pads) s'
      else
        match value c with
        | None => decode quad left pads s'
        | Some v =>
            if quad =? 0 then decode 1 v 0 s'
            else if quad =? 1 then String (char (left * 4 + v / 16)) <$> decode 2 (v mod 16) 0 s'
            else if quad =? 2 then String (char (left * 16 + v / 4)) <$> decode 3 (v mod 4) 0 s'
            else String (char (left * 64 + v)) <$> decode 0 0 0 s'
        end
  end.

Fixpoint is_ascii (s : string) : bool :=
  match s with EmptyString => true | String c s' => (byte c <? 128) && is_ascii s' end.

Fixpoint equals (n : nat) : string :=
  match n with O => EmptyString | S n' => String EQUALS (equals n') end.

(** [urlsafe_b64decode(text + "=" * (-len(text) % 4))]: [None] when it raises. *)
Definition padded_decode (text : string) : option string :=
  if is_ascii text
  then decode 0 0 0 (text ++ equals (Z.to_nat ((- Z.of_nat (String.length text)) mod 4)))
  else None.

(** ** The round trip *)

(** What [digit] gives for the 64 values. *)
Definition digit_ok (i : Z) : bool :=
  bool_decide (value (digit i) = Some i) && negb (Ascii.eqb (digit i) EQUALS) &&
  (byte (digit i) <? 128) && negb (Py.is_space (digit i)).

Lemma digits_ok i : 0 <= i < 64 -> digit_ok i = true.
Proof.
  intros Hi. assert (Hall : forallb digit_ok (seqZ 0 64) = true) by (vm_compute; reflexivity).
  rewrite forallb_forall in Hall. apply Hall, list_elem_of_In, elem_of_seqZ. lia.
Qed.

Lemma digit_facts i :
  0 <= i < 64 -> value (digit i) = Some i /\ Ascii.eqb (digit i) EQUALS = false /\
                 byte (digit i) < 128 /\ Py.is_space (digit i) = false.
Proof. intros H%digits_ok. unfold digit_ok in H. by bool_prop. Qed.

Lemma decode_digit quad left pads i s :
  0 <= i < 64 ->
  decode quad left pads (String (digit i) s) =
    if quad =? 0 then decode 1 i 0 s
    else if quad =? 1 then String (char (left * 4 + i / 16)) <$> decode 2 (i mod 16) 0 s
    else if quad =? 2 then String (char (left * 16 + i / 4)) <$> decode 3 (i mod 4) 0 s
    else String (char (left * 64 + i)) <$> decode 0 0 0 s.
Proof. intros (Hv & He & _)%digit_facts. cbn [decode]. by rewrite He, Hv. Qed.

Lemma div_mod_range a n m : 0 < n -> 0 < m -> 0 <= a < n * m -> 0 <= a / n < m /\ 0 <= a mod n < n.
Proof. intros Hn Hm Ha. split; [split; [apply Z.div_pos; lia|apply Z.div_lt_upper_bound; lia]|by apply Z.mod_pos_bound]. Qed.

(** Induction three bytes at a time. *)
Lemma string_ind3 (P : string -> Prop) :
  P "" -> (forall a, P (String a "")) -> (forall a b, P (String a (String b ""))) ->
  (forall a b c s, P s -> P (String a (String b (String c s)))) -> forall s, P s.
Proof.
  intros H0 H1 H2 H3. fix IH 1. intros [|a [|b [|c s]]]; [apply H0|apply H1|apply H2|]. apply H3, IH.
Qed.

(** The encoding without its padding. *)
Fixpoint unpadded (s : string) : string :=
  match s with
  | String a (String b (String c r)) =>
      String (digit (byte a / 4)) (String (digit (byte a mod 4 * 16 + byte b / 16))
        (String (digit (byte b mod 16 * 4 + byte c / 64)) (String (digit (byte c mod 64)) (unpadded r))))
  | String a (String b EmptyString) =>
      String (digit (byte a / 4)) (String (digit (byte a mod 4 * 16 + byte b / 16))
        (String (digit (byte b mod 16 * 4)) EmptyString))
  | String a EmptyString => String (digit (byte a / 4)) (String (digit (byte a mod 4 * 16)) EmptyString)
  | EmptyString => EmptyString
  end.

(** The four values three bytes are written as are in the alphabet. *)
Lemma quad_ranges a b c :
  0 <= byte a / 4 < 64 /\ 0 <= byte a mod 4 * 16 + byte b / 16 < 64 /\ 0 <= byte a mod 4 * 16 < 64 /\
  0 <= byte b mod 16 * 4 + byte c / 64 < 64 /\ 0 <= byte b mod 16 * 4 < 64 /\ 0 <= byte c mod 64 < 64.
Proof.
  pose proof (byte_range a). pose proof (byte_range b). pose proof (byte_range c).
  Z.div_mod_to_equations. lia.
Qed.

Lemma rstrip_digit i s : 0 <= i < 64 -> rstrip_equals (String (digit i) s) = String (digit i) (rstrip_equals s).
Proof. intros (_ & He & _)%digit_facts. cbn [rstrip_equals]. rewrite He. by destruct (rstrip_equals s). Qed.

Lemma cursor_text_unpadded raw : cursor_text raw = unpadded raw.
Proof.
  unfold cursor_text. induction raw as [|a|a b|a b c raw IH] using string_ind3; cbn [urlsafe_b64encode unpadded]; [done|..];
    [pose proof (quad_ranges a a a)|pose proof (quad_ranges a b b)|pose proof (quad_ranges a b c)];
    rewrite !rstrip_digit by lia; [done|done|by rewrite IH].
Qed.

Lemma unpadded_ascii raw : is_ascii (unpadded raw) = true.
Proof.
  assert (H : forall i s, 0 <= i < 64 -> is_ascii s = true -> is_ascii (String (digit i) s) = true).
  { intros i s (_ & _ & Hb & _)%digit_facts Hs. cbn [is_ascii]. rewrite Hs. by rewrite (proj2 (Z.ltb_lt _ _)). }
  induction raw as [|a|a b|a b c raw IH] using string_ind3; cbn [unpadded]; [done|..];
    [pose proof (quad_ranges a a a)|pose proof (quad_ranges a b b)|pose proof (quad_ranges a b c)];
    repeat (apply H; [lia|]); done.
Qed.

Lemma unpadded_no_space raw : Py.strip (unpadded raw) = unpadded raw.
Proof.
  assert (Hr : forall s, Py.rstrip (unpadded s) = unpadded s).
  { assert (H : forall i s, 0 <= i < 64 -> Py.rstrip s = s -> Py.rstrip (String (digit i) s) = String (digit i) s).
    { intros i s (_ & _ & _ & Hs)%digit_facts E. cbn [Py.rstrip]. rewrite E. destruct s; [by rewrite Hs|done]. }
    induction s as [|a|a b|a b c s IH] using string_ind3; cbn [unpadded]; [done|..];
      [pose proof (quad_ranges a a a)|pose proof (quad_ranges a b b)|pose proof (quad_ranges a b c)];
      repeat (apply H; [lia|]); done. }
  unfold Py.strip. rewrite lstripped_id; [apply Hr|]. destruct raw as [|a s]; [done|].
  destruct (digit_facts (byte a / 4)) as (_ & _ & _ & Hs); [pose proof (quad_ranges a a a); lia|].
  destruct s as [|b [|c s]]; cbn [unpadded lstripped]; by rewrite Hs.
Qed.

(** The decoder gets back exactly the bytes, whatever their number. *)
Lemma decode_unpadded raw :
  decode 0 0 0 (unpadded raw ++ equals (Z.to_nat ((- Z.of_nat (String.length (unpadded raw))) mod 4))) = Some raw.
Proof.
  induction raw as [|a|a b|a b c raw IH] using string_ind3; cbn [unpadded]; [done|..].
  - pose proof (quad_ranges a a a). rewrite !app_String, app_Empty.
    rewrite !decode_digit by lia. cbn. rewrite (char_eq _ a); [done|].
    pose proof (byte_range a). Z.div_mod_to_equations. lia.
  - pose proof (quad_ranges a b b). rewrite !app_String, app_Empty. pose proof (byte_range a). pose proof (byte_range b).
    rewrite !decode_digit by lia. cbn.
    rewrite (char_eq _ a) by (Z.div_mod_to_equations; lia). by rewrite (char_eq _ b) by (Z.div_mod_to_equations; lia).
  - pose proof (quad_ranges a b c). rewrite !app_String.
    rewrite !decode_digit by lia. cbn [Z.eqb Pos.eqb].
    replace (Z.to_nat _) with (Z.to_nat ((- Z.of_nat (String.length (unpadded raw))) mod 4)).
    2:{ f_equal. cbn [String.length]. Z.div_mod_to_equations. lia. }
    rewrite IH. cbn. pose proof (byte_range a). pose proof (byte_range b). pose proof (byte_range c).
    rewrite (char_eq _ a) by (Z.div_mod_to_equations; lia). rewrite (char_eq _ b) by (Z.div_mod_to_equations; lia).
    by rewrite (char_eq _ c) by (Z.div_mod_to_equations; lia).
Qed.

Lemma padded_decode_cursor raw : padded_decode (cursor_text raw) = Some raw.
Proof. rewrite cursor_text_unpadded. unfold padded_decode. by rewrite unpadded_ascii, decode_unpadded. Qed.

Lemma cursor_text_strip raw : Py.strip (cursor_text raw) = cursor_text raw.
Proof. rewrite cursor_text_unpadded. apply unpadded_no_space. Qed.

Lemma cursor_text_empty raw : Py.is_empty (cursor_text raw) = Py.is_empty raw.
Proof. rewrite cursor_text_unpadded. by destruct raw as [|a [|b [|c s]]]. Qed.

End Base64.
