(* ===== verification/JsonText.v ===== *)
(** [json.dumps] and [json.loads] on the values of [PyVal]: the text of the cursors and of
    the sizes and signatures the code takes of a value.  [repr_float] is what
    [repr(float(text))] gives for a decimal literal; [levels] is how much deeper the reader
    may nest before it meets Python's recursion limit. *)

From S2P Require Import Prelude PyVal Base64.

Open Scope string_scope.

Module Json.
Import Base64.
Open Scope Z_scope.

Definition one (z : Z) : string := String (char z) EmptyString.

(** ** UTF-8 *)

(** The bytes of a code point. *)
Definition encode_point (p : Z) : string :=
  if p <? 128 then one p
  else if p <? 2048 then one (192 + p / 64) ++ one (128 + p mod 64)
  else if p <? 65536 then one (224 + p / 4096) ++ one (128 + p / 64 mod 64) ++ one (128 + p mod 64)
  else one (240 + p / 262144) ++ one (128 + p / 4096 mod 64) ++ one (128 + p / 64 mod 64) ++ one (128 + p mod 64).

Definition tail_byte (c : Ascii.ascii) : bool := (128 <=? byte c) && (byte c <? 192).
Definition surrogate (p : Z) : bool := (55296 <=? p) && (p <=? 57343).

(** The code points of a string; [None] when it is not UTF-8. *)
Fixpoint points (s : string) : option (list Z) :=
  match s with
  | "" => Some []
  | String a s1 =>
      if byte a <? 128 then cons (byte a) <$> points s1
      else if byte a <? 224 then
        match s1 with
        | String b s2 =>
            let p := (byte a - 192) * 64 + (byte b - 128) in
            if tail_byte b && (128 <=? p) then cons p <$> points s2 else None
        | "" => None
        end
      else if byte a <? 240 then
        match s1 with
        | String b (String c s3) =>
            let p := (byte a - 224) * 4096 + (byte b - 128) * 64 + (byte c - 128) in
            if tail_byte b && tail_byte c && (2048 <=? p) then cons p <$> points s3 else None
        | _ => None
        end
      else
        match s1 with
        | String b (String c (String d s4)) =>
            let p := (byte a - 240) * 262144 + (byte b - 128) * 4096 + (byte c - 128) * 64 + (byte d - 128) in
            if tail_byte b && tail_byte c && tail_byte d && (65536 <=? p) && (p <=? 1114111)
            then cons p <$> points s4 else None
        | _ => None
        end
  end.

(** The text of a [str] without lone surrogates: what [decode("utf-8")] accepts. *)
Definition is_text (s : string) : bool :=
  match points s with Some ps => forallb (fun p => negb (surrogate p)) ps | None => false end.

(** ** Writing *)

Definition hex_digit (v : Z) : Ascii.ascii := char (if v <? 10 then 48 + v else 87 + v).

Definition hex4 (u : Z) : string :=
  String (hex_digit (u / 4096)) (String (hex_digit (u / 256 mod 16))
    (String (hex_digit (u / 16 mod 16)) (one (byte (hex_digit (u mod 16)))))).

Definition BACKSLASH : Ascii.ascii := char 92.

(** [\uXXXX]. *)
Definition u_escape (u : Z) : string := String BACKSLASH (String (char 117) (hex4 u)).

Definition escape (p : Z) : string :=
  if p =? 34 then String BACKSLASH (one 34)
  else if p =? 92 then String BACKSLASH (one 92)
  else if p =? 10 then String BACKSLASH (one 110)
  else if p =? 13 then String BACKSLASH (one 114)
  else if p =? 9 then String BACKSLASH (one 116)
  else if p =? 12 then String BACKSLASH (one 102)
  else if p =? 8 then String BACKSLASH (one 98)
  else if (32 <=? p) && (p <=? 126) then one p
  else if p <? 65536 then u_escape p
  else u_escape (55296 + (p - 65536) / 1024) ++ u_escape (56320 + (p - 65536) mod 1024).

Fixpoint escaped (ps : list Z) : string :=
  match ps with [] => "" | p :: ps' => escape p ++ escaped ps' end.

Definition dumps_str (s : string) : string := one 34 ++ escaped (default [] (points s)) ++ one 34.

(** [json.dumps(v, separators=(isep, ksep))]. *)
Fixpoint dumps (isep ksep : string) (v : val) : string :=
  match v with
  | VNone => "null"
  | VBool b => if b then "true" else "false"
  | VInt z => pretty z
  | VFloat r => if r =s "nan" then "NaN" else if r =s "inf" then "Infinity"
                else if r =s "-inf" then "-Infinity" else r
  | VStr s => dumps_str s
  | VList l => "[" ++ String.concat isep (map (dumps isep ksep) l) ++ "]"
  | VDict d => "{" ++ String.concat isep (map (fun kv => dumps_str (fst kv) ++ ksep ++ dumps isep ksep (snd kv)) d) ++ "}"
  end.

(** [ensure_ascii=False]: only quotes, backslashes and control characters are escaped. *)
Fixpoint raw_chars (s : string) : string :=
  match s with
  | EmptyString => ""
  | String c s' =>
      (if (byte c <? 32) || (byte c =? 34) || (byte c =? 92) then escape (byte c) else String c "") ++ raw_chars s'
  end.

Definition raw_str (s : string) : string := one 34 ++ raw_chars s ++ one 34.

Fixpoint dumps_raw (isep ksep : string) (v : val) : string :=
  match v with
  | VStr s => raw_str s
  | VList l => "[" ++ String.concat isep (map (dumps_raw isep ksep) l) ++ "]"
  | VDict d => "{" ++ String.concat isep (map (fun kv => raw_str (fst kv) ++ ksep ++ dumps_raw isep ksep (snd kv)) d) ++ "}"
  | v => dumps isep ksep v
  end.

(** [separators=(",", ":")]. *)
Definition compact (v : val) : string := dumps "," ":" v.

(** [sort_keys=True]: every dict written in the order of its keys. *)
Definition key_le (a b : string * val) : Prop := String.leb (fst a) (fst b) = true.
#[export] Instance key_le_dec a b : Decision (key_le a b).
Proof. unfold key_le. apply _. Defined.

Fixpoint insert_key (e : string * val) (d : dict) : dict :=
  match d with
  | [] => [e]
  | e' :: d' => if decide (key_le e e') then e :: d else e' :: insert_key e d'
  end.

Fixpoint sort_keys (v : val) : val :=
  match v with
  | VList l => VList (map sort_keys l)
  | VDict d => VDict (fold_right insert_key [] (map (fun kv => (fst kv, sort_keys (snd kv))) d))
  | _ => v
  end.

(** ** Reading *)

Definition is_ws (c : Ascii.ascii) : bool :=
  let n := byte c in (n =? 32) || (n =? 9) || (n =? 10) || (n =? 13).

Fixpoint skip (s : string) : string :=
  match s with String c s' => if is_ws c then skip s' else s | "" => "" end.

Definition hex_value (c : Ascii.ascii) : option Z :=
  let n := byte c in
  if (48 <=? n) && (n <=? 57) then Some (n - 48)
  else if (97 <=? n) && (n <=? 102) then Some (n - 87)
  else if (65 <=? n) && (n <=? 70) then Some (n - 55)
  else None.

Definition hex4_value (c1 c2 c3 c4 : Ascii.ascii) : option Z :=
  match hex_value c1, hex_value c2, hex_value c3, hex_value c4 with
  | Some v1, Some v2, Some v3, Some v4 => Some (v1 * 4096 + v2 * 256 + v3 * 16 + v4)
  | _, _, _, _ => None
  end.

(** The character a one-letter escape stands for. *)
Definition unescape (c : Ascii.ascii) : option Z :=
  let n := byte c in
  if (n =? 34) || (n =? 92) || (n =? 47) then Some n
  else if n =? 98 then Some 8 else if n =? 102 then Some 12 else if n =? 110 then Some 10
  else if n =? 114 then Some 13 else if n =? 116 then Some 9 else None.

Definition put_text (t : string) (o : option (string * string)) : option (string * string) :=
  match o with Some (u, rest) => Some (t ++ u, rest) | None => None end.

(** A string literal after its opening quote: its text and what follows it. *)
Fixpoint string_body (s : string) : option (string * string) :=
  match s with
  | "" => None
  | String c s1 =>
      if byte c =? 34 then Some ("", s1)
      else if byte c =? 92 then
        match s1 with
        | "" => None
        | String e s2 =>
            if byte e =? 117 then
              match s2 with
              | String c1 (String c2 (String c3 (String c4 s3))) =>
                  match hex4_value c1 c2 c3 c4 with
                  | None => None
                  | Some u =>
                      match s3 with
                      | String b (String x (String d1 (String d2 (String d3 (String d4 s4))))) =>
                          match hex4_value d1 d2 d3 d4 with
                          | Some v =>
                              if ((55296 <=? u) && (u <=? 56319)) && (byte b =? 92) && (byte x =? 117) &&
                                 ((56320 <=? v) && (v <=? 57343))
                              then put_text (encode_point (65536 + (u - 55296) * 1024 + (v - 56320))) (string_body s4)
                              else put_text (encode_point u) (string_body s3)
                          | None => put_text (encode_point u) (string_body s3)
                          end
                      | _ => put_text (encode_point u) (string_body s3)
                      end
                  end
              | _ => None
              end
            else match unescape e with
                 | Some p => put_text (one p) (string_body s2)
                 | None => None
                 end
        end
      else if byte c <? 32 then None
      else put_text (String c "") (string_body s1)
  end.

Definition is_digit (c : Ascii.ascii) : bool := (48 <=? byte c) && (byte c <=? 57).

Fixpoint span_digits (s : string) : string * string :=
  match s with
  | String c s' => if is_digit c then let '(d, r) := span_digits s' in (String c d, r) else ("", s)
  | "" => ("", "")
  end.

(** [0|[1-9][0-9]*]. *)
Definition int_part (s : string) : string * string :=
  match s with
  | String c s' => if byte c =? 48 then (String c "", s') else span_digits s
  | "" => ("", "")
  end.

(** [(\.[0-9]+)?]. *)
Definition frac_part (s : string) : string * string :=
  match s with
  | String c s' =>
      if byte c =? 46 then
        match span_digits s' with ("", _) => ("", s) | (d, r) => (String c d, r) end
      else ("", s)
  | "" => ("", "")
  end.

(** [([eE][-+]?[0-9]+)?]. *)
Definition exp_part (s : string) : string * string :=
  match s with
  | String c s' =>
      if (byte c =? 69) || (byte c =? 101) then
        let '(sign, s2) := match s' with
                           | String g s3 => if (byte g =? 43) || (byte g =? 45) then (String g "", s3) else ("", s')
                           | "" => ("", s')
                           end in
        match span_digits s2 with ("", _) => ("", s) | (d, r) => (String c (sign ++ d), r) end
      else ("", s)
  | "" => ("", "")
  end.

(** [int] refuses a text of more digits than this. *)
Definition MAX_INT_DIGITS : nat := 4300.

(** What the reader makes of a text: a value and the text after it, a refusal, or a nesting
    past the recursion limit. *)
Inductive scanned :=
| Read (v : val) (rest : string)
| Refused
| TooDeep.

Definition scanned_of (o : option (val * string)) : scanned :=
  match o with Some (v, rest) => Read v rest | None => Refused end.

Section Loads.
Variable repr_float : string -> string.

Definition number (s : string) : option (val * string) :=
  let '(sign, s1) := match s with
                     | String c s' => if byte c =? 45 then (one 45, s') else ("", s)
                     | "" => ("", "")
                     end in
  let '(ip, s2) := int_part s1 in
  if Py.is_empty ip then
    if String.prefix "Infinity" s1 then Some (VFloat (sign ++ "inf"), String.substring 8 (String.length s1) s1) else None
  else
    let '(fp, s3) := frac_part s2 in
    let '(ep, s4) := exp_part s3 in
    if Py.is_empty fp && Py.is_empty ep then
      if (MAX_INT_DIGITS <? String.length ip)%nat then None else
      match Py.digits 0 ip with
      | Some n => Some (VInt (if Py.is_empty sign then n else - n), s4)
      | None => None
      end
    else Some (VFloat (repr_float (sign ++ ip ++ fp ++ ep)), s4).

Definition keyword (word : string) (v : val) (s : string) : option (val * string) :=
  if String.prefix word s then Some (v, String.substring (String.length word) (String.length s) s) else None.

Fixpoint value (levels n : nat) (s : string) {struct n} : scanned :=
  match n, s with
  | S n', String c r =>
      let b := byte c in
      if b =? 34 then scanned_of (match string_body r with Some (t, rest) => Some (VStr t, rest) | None => None end)
      else if b =? 123 then
        match levels, skip r with
        | O, _ => TooDeep
        | S deeper, String c2 r2 => if byte c2 =? 125 then Read (VDict []) r2 else members deeper n' [] (String c2 r2)
        | S _, "" => Refused
        end
      else if b =? 91 then
        match levels, skip r with
        | O, _ => TooDeep
        | S deeper, String c2 r2 => if byte c2 =? 93 then Read (VList []) r2 else elements deeper n' [] (String c2 r2)
        | S _, "" => Refused
        end
      else if b =? 110 then scanned_of (keyword "null" VNone s)
      else if b =? 116 then scanned_of (keyword "true" (VBool true) s)
      else if b =? 102 then scanned_of (keyword "false" (VBool false) s)
      else if b =? 78 then scanned_of (keyword "NaN" (VFloat "nan") s)
      else scanned_of (number s)
  | _, _ => Refused
  end
with members (levels n : nat) (acc : dict) (s : string) {struct n} : scanned :=
  match n, s with
  | S n', String c r =>
      if byte c =? 34 then
        match string_body r with
        | Some (k, r1) =>
            match skip r1 with
            | String c1 r2 =>
                if byte c1 =? 58 then
                  match value levels n' (skip r2) with
                  | Read v r3 =>
                      match skip r3 with
                      | String c3 r4 =>
                          if byte c3 =? 44 then members levels n' (Py.set k v acc) (skip r4)
                          else if byte c3 =? 125 then Read (VDict (Py.set k v acc)) r4
                          else Refused
                      | "" => Refused
                      end
                  | stopped => stopped
                  end
                else Refused
            | "" => Refused
            end
        | None => Refused
        end
      else Refused
  | _, _ => Refused
  end
with elements (levels n : nat) (acc : list val) (s : string) {struct n} : scanned :=
  match n with
  | S n' =>
      match value levels n' s with
      | Read v r =>
          match skip r with
          | String c r2 =>
              if byte c =? 44 then elements levels n' (acc ++ [v])%list (skip r2)
              else if byte c =? 93 then Read (VList (acc ++ [v])%list) r2
              else Refused
          | "" => Refused
          end
      | stopped => stopped
      end
  | O => Refused
  end.

(** [json.loads(s)] of a [str], [levels] below the recursion limit. *)
Definition loads_within (levels : nat) (s : string) : res val :=
  match value levels (S (2 * String.length s)) (skip s) with
  | Read v rest => match skip rest with "" => Ok v | _ => Raise ValueError end
  | Refused => Raise ValueError
  | TooDeep => Raise RecursionError
  end.

(** The same where a refusal is an answer: no limit is met in a text of this length. *)
Definition loads (s : string) : option val :=
  match loads_within (String.length s) s with Ok v => Some v | Raise _ => None end.

(** [json.loads(b)] of a byte string: an UTF-8 signature is dropped.  Text in UTF-16 or
    UTF-32, which [loads] would recognise by its zero bytes or its mark, is not modelled. *)
Definition loads_bytes (levels : nat) (b : string) : res val :=
  let text := if String.prefix (one 239 ++ one 187 ++ one 191) b
              then String.substring 3 (String.length b) b else b in
  match points text with Some _ => loads_within levels text | None => Raise ValueError end.

End Loads.

(** ** Strings are read back *)

Fixpoint encoded (ps : list Z) : string :=
  match ps with [] => "" | p :: ps' => encode_point p ++ encoded ps' end.

Definition point_ok (p : Z) : Prop := 0 <= p <= 1114111.

Lemma one_byte c z s : z = byte c -> one z ++ s = String c s.
Proof. intros ->. unfold one. by rewrite char_byte, app_String, app_Empty. Qed.

Ltac zdiv := Z.div_mod_to_equations; lia.

(** Take one comparison's value from the hypotheses. *)
Ltac zcmp :=
  repeat match goal with
  | |- context [?a <? ?b] =>
      first [rewrite (proj2 (Z.ltb_lt a b)) by zdiv | rewrite (proj2 (Z.ltb_ge a b)) by zdiv]
  | |- context [?a <=? ?b] =>
      first [rewrite (proj2 (Z.leb_le a b)) by zdiv | rewrite (proj2 (Z.leb_gt a b)) by zdiv]
  | |- context [?a =? ?b] =>
      first [rewrite (proj2 (Z.eqb_eq a b)) by zdiv | rewrite (proj2 (Z.eqb_neq a b)) by zdiv]
  end.

Lemma points_encoded s ps : points s = Some ps -> encoded ps = s /\ Forall point_ok ps.
Proof.
  assert (Hmap : forall p (o : option (list Z)) ps, cons p <$> o = Some ps -> exists ps', o = Some ps' /\ ps = p :: ps').
  { intros p o qs. destruct o as [qs'|]; [|done]. intros [= <-]. eauto. }
  revert s ps. fix IH 1. intros [|a s1] ps H; cbn [points] in H; [injection H as <-; by split; [|constructor]|].
  pose proof (byte_range a) as Ha. unfold tail_byte in H. unfold point_ok. destruct (byte a <? 128) eqn:E1; bool_prop.
  - apply Hmap in H as (qs & Hq & ->). apply IH in Hq as [<- Hq]. split; [|constructor; [lia|done]].
    cbn [encoded]. unfold encode_point. zcmp. by apply one_byte.
  - destruct (byte a <? 224) eqn:E2; bool_prop.
    { destruct s1 as [|b s2]; [done|]. pose proof (byte_range b) as Hb.
      destruct (_ && _) eqn:Et in H; [|done]. bool_prop.
      apply Hmap in H as (qs & Hq & ->). apply IH in Hq as [<- Hq]. split; [|constructor; [lia|done]].
      cbn [encoded]. unfold encode_point. zcmp. rewrite str_app_assoc.
      rewrite (one_byte a), (one_byte b) by zdiv. done. }
    destruct (byte a <? 240) eqn:E3; bool_prop.
    { destruct s1 as [|b [|c s3]]; [done..|]. pose proof (byte_range b) as Hb. pose proof (byte_range c) as Hc.
      destruct (_ && _) eqn:Et in H; [|done]. bool_prop.
      apply Hmap in H as (qs & Hq & ->). apply IH in Hq as [<- Hq]. split; [|constructor; [lia|done]].
      cbn [encoded]. unfold encode_point. zcmp. rewrite !str_app_assoc.
      rewrite (one_byte a), (one_byte b), (one_byte c) by zdiv. done. }
    destruct s1 as [|b [|c [|d s4]]]; [done..|].
    pose proof (byte_range b) as Hb. pose proof (byte_range c) as Hc. pose proof (byte_range d) as Hd.
    destruct (_ && _) eqn:Et in H; [|done]. bool_prop.
    apply Hmap in H as (qs & Hq & ->). apply IH in Hq as [<- Hq]. split; [|constructor; [lia|done]].
    cbn [encoded]. unfold encode_point. zcmp. rewrite !str_app_assoc.
    rewrite (one_byte a), (one_byte b), (one_byte c), (one_byte d) by zdiv. done.
Qed.

Lemma hex_digits_ok v : 0 <= v < 16 -> hex_value (hex_digit v) = Some v.
Proof.
  intros Hv. assert (Hall : forallb (fun v => bool_decide (hex_value (hex_digit v) = Some v)) (seqZ 0 16) = true)
    by (vm_compute; reflexivity).
  rewrite forallb_forall in Hall. specialize (Hall v). bool_prop. apply (bool_decide_unpack _), Is_true_true, Hall.
  apply list_elem_of_In, elem_of_seqZ. lia.
Qed.

Lemma hex4_ok u t :
  0 <= u < 65536 -> exists c1 c2 c3 c4, hex4 u ++ t = String c1 (String c2 (String c3 (String c4 t))) /\
    hex4_value c1 c2 c3 c4 = Some u.
Proof.
  intros Hu. exists (hex_digit (u / 4096)), (hex_digit (u / 256 mod 16)), (hex_digit (u / 16 mod 16)), (hex_digit (u mod 16)).
  split.
  - unfold hex4. rewrite !app_String. by rewrite (one_byte (hex_digit (u mod 16))).
  - unfold hex4_value. rewrite !hex_digits_ok by zdiv. f_equal. zdiv.
Qed.

Lemma string_body_u u t :
  0 <= u < 65536 -> surrogate u = false -> string_body (u_escape u ++ t) = put_text (encode_point u) (string_body t).
Proof.
  intros Hu Hs. unfold u_escape. rewrite !app_String.
  destruct (hex4_ok u t Hu) as (c1 & c2 & c3 & c4 & -> & Hv).
  assert (Hh : (55296 <=? u) && (u <=? 56319) = false).
  { unfold surrogate in Hs. apply andb_false_iff in Hs as [Hs|Hs]; bool_prop; zcmp; [done|apply andb_false_r]. }
  cbn [string_body]. change (byte BACKSLASH) with 92. change (byte (char 117)) with 117. cbn [Z.eqb Pos.eqb].
  rewrite Hv, Hh. cbn [andb]. clear Hv. do 6 (destruct t as [|? t]; [done|]). by destruct (hex4_value _ _ _ _).
Qed.

Lemma string_body_pair p t :
  65536 <= p <= 1114111 ->
  string_body ((u_escape (55296 + (p - 65536) / 1024) ++ u_escape (56320 + (p - 65536) mod 1024)) ++ t)
  = put_text (encode_point p) (string_body t).
Proof.
  intros Hp. rewrite str_app_assoc. set (u := 55296 + _). set (w := 56320 + _).
  assert (Hu : 55296 <= u <= 56319) by (unfold u; zdiv). assert (Hw : 56320 <= w <= 57343) by (unfold w; zdiv).
  assert (Hj : 65536 + (u - 55296) * 1024 + (w - 56320) = p) by (unfold u, w; zdiv). clearbody u w.
  unfold u_escape. rewrite !app_String.
  destruct (hex4_ok w t) as (d1 & d2 & d3 & d4 & -> & Hwv); [lia|].
  destruct (hex4_ok u (String BACKSLASH (String (char 117) (String d1 (String d2 (String d3 (String d4 t)))))))
    as (c1 & c2 & c3 & c4 & -> & Huv); [lia|].
  cbn [string_body]. change (byte BACKSLASH) with 92. change (byte (char 117)) with 117. cbn [Z.eqb Pos.eqb].
  rewrite Huv, Hwv. zcmp. cbn [andb]. by rewrite Hj.
Qed.

Lemma string_body_escape p t :
  point_ok p -> surrogate p = false -> string_body (escape p ++ t) = put_text (encode_point p) (string_body t).
Proof.
  intros Hp Hs. unfold point_ok in Hp. unfold escape.
  assert (Hshort : forall q r, unescape (char q) = Some r -> byte (char q) <> 117 -> 0 <= r < 128 -> p = r ->
    string_body (String BACKSLASH (one q) ++ t) = put_text (encode_point p) (string_body t)).
  { intros q r Hq Hn Hr ->. unfold one. rewrite !app_String, app_Empty. cbn [string_body].
    change (byte BACKSLASH) with 92. rewrite (proj2 (Z.eqb_neq _ _) Hn), Hq. cbn [Z.eqb Pos.eqb].
    unfold encode_point. by zcmp. }
  repeat match goal with
  | |- context [if ?x =? ?y then _ else _] =>
      destruct (x =? y) eqn:?; [bool_prop; apply (Hshort _ y); [reflexivity|by vm_compute|lia|done]|]
  end.
  destruct ((32 <=? p) && (p <=? 126)) eqn:Er.
  - bool_prop. rewrite (one_byte (char p)) by (rewrite byte_char; lia). cbn [string_body]. rewrite byte_char by lia. zcmp.
    unfold encode_point. by zcmp.
  - destruct (p <? 65536) eqn:E; bool_prop; [apply string_body_u; [lia|done]|apply string_body_pair; lia].
Qed.

Lemma string_body_escaped ps t :
  Forall point_ok ps -> forallb (fun p => negb (surrogate p)) ps = true ->
  string_body (escaped ps ++ one 34 ++ t) = Some (encoded ps, t).
Proof.
  intros Hp. induction Hp as [|p ps Hp Hps IH]; intros Hs; cbn [escaped encoded forallb] in *.
  - rewrite app_Empty. unfold one. rewrite app_String, app_Empty. cbn [string_body]. by rewrite byte_char.
  - bool_prop. rewrite str_app_assoc, string_body_escape by done. by rewrite IH.
Qed.

(** A string is read back from its literal. *)
Lemma string_body_dumps s t :
  is_text s = true -> dumps_str s ++ t = String (char 34) (escaped (default [] (points s)) ++ one 34 ++ t) /\
  string_body (escaped (default [] (points s)) ++ one 34 ++ t) = Some (s, t).
Proof.
  intros Ht. unfold is_text in Ht. destruct (points s) as [ps|] eqn:E; [|done]. split.
  - unfold dumps_str. rewrite E. unfold one at 1. by rewrite !app_String, app_Empty, !str_app_assoc.
  - apply points_encoded in E as [<- Hp]. by apply string_body_escaped.
Qed.

(** ** Numbers are read back *)

Definition digits_only (s : string) : Prop := forall t, (forall c t', t = String c t' -> is_digit c = false) ->
  span_digits (s ++ t) = (s, t).

Lemma digits_only_cons c s : is_digit c = true -> digits_only s -> digits_only (String c s).
Proof. intros Hc Hs t Ht. rewrite app_String. cbn [span_digits]. by rewrite Hc, Hs. Qed.

Lemma digits_only_nil : digits_only "".
Proof. intros t Ht. rewrite app_Empty. destruct t as [|c t']; [done|]. cbn [span_digits]. by rewrite (Ht c t'). Qed.

Lemma pretty_char_ok n : (n < 10)%N ->
  byte (pretty_N_char n) = 48 + Z.of_N n.
Proof.
  intros Hn. assert (Hall : forallb (fun z => byte (pretty_N_char (Z.to_N z)) =? 48 + z) (seqZ 0 10) = true)
    by (vm_compute; reflexivity).
  rewrite forallb_forall in Hall. specialize (Hall (Z.of_N n)). rewrite N2Z.id in Hall. bool_prop. apply Z.eqb_eq, Hall.
  apply list_elem_of_In, elem_of_seqZ. lia.
Qed.

Lemma pretty_go_digits n s :
  digits_only s -> digits_only (pretty_N_go n s) /\ Py.digits 0 (pretty_N_go n s) = Py.digits (Z.of_N n) s.
Proof.
  revert s. induction (N.lt_wf_0 n) as [n _ IH]; intros s Hs.
  destruct (decide (0 < n)%N) as [Hn|Hn]; [|assert (n = 0%N) as -> by lia; by rewrite pretty_N_go_0].
  assert (Hmod : (n `mod` 10 < 10)%N) by (apply N.mod_lt; lia).
  rewrite pretty_N_go_step by done. pose proof (N.div_lt _ 10 Hn eq_refl) as Hlt.
  pose proof (N.div_mod' n 10) as Heq. revert Hmod Hlt Heq. generalize (n `mod` 10)%N (n `div` 10)%N.
  intros m q Hm Hlt Heq. pose proof (pretty_char_ok _ Hm) as Hb.
  assert (Hc : digits_only (String (pretty_N_char m) s)).
  { apply digits_only_cons; [|done]. unfold is_digit. rewrite Hb. by zcmp. }
  destruct (IH q Hlt _ Hc) as [H1 H2]. split; [done|]. rewrite H2.
  cbn [Py.digits]. change (Z.of_nat (Ascii.nat_of_ascii ?c)) with (Z.of_nat (N.to_nat (Ascii.N_of_ascii c))).
  rewrite N_nat_Z. fold (byte (pretty_N_char m)). rewrite Hb. zcmp. cbn [andb]. f_equal. lia.
Qed.

Lemma pretty_go_head n s :
  (0 < n)%N -> exists d t, (0 < d < 10)%N /\ pretty_N_go n s = String (pretty_N_char d) t.
Proof.
  revert s. induction (N.lt_wf_0 n) as [n _ IH]; intros s Hn. rewrite pretty_N_go_step by done.
  assert (Hmod : (n `mod` 10 < 10)%N) by (apply N.mod_lt; lia).
  pose proof (N.div_lt _ 10 Hn eq_refl) as Hlt. pose proof (N.div_mod' n 10) as Heq.
  revert Hmod Hlt Heq. generalize (n `mod` 10)%N (n `div` 10)%N. intros m q Hm Hlt Heq.
  destruct (decide (0 < q)%N) as [Hq|Hq]; [by apply IH|]. assert (q = 0%N) as -> by lia.
  rewrite pretty_N_go_0. exists m, s. split; [lia|done].
Qed.

(** What may follow a number: nothing that would continue it. *)
Definition follows (rest : string) : Prop :=
  forall c t, rest = String c t -> is_digit c = false /\ byte c <> 46 /\ byte c <> 69 /\ byte c <> 101.

Lemma frac_exp_none rest : follows rest -> frac_part rest = ("", rest) /\ exp_part rest = ("", rest).
Proof.
  intros H. destruct rest as [|c t]; [done|]. destruct (H c t eq_refl) as (_ & H1 & H2 & H3).
  cbn [frac_part exp_part]. by zcmp.
Qed.

Lemma number_digits n rest :
  follows rest ->
  exists ip, pretty n ++ rest = ip ++ rest /\ Py.is_empty ip = false /\ int_part (ip ++ rest) = (ip, rest) /\
    Py.digits 0 ip = Some (Z.of_N n) /\ (forall c t, ip = String c t -> is_digit c = true) /\ ip = pretty n.
Proof.
  intros Hr. exists (pretty n). split; [done|]. enough (Py.is_empty (pretty n) = false /\
    int_part (pretty n ++ rest) = (pretty n, rest) /\ Py.digits 0 (pretty n) = Some (Z.of_N n) /\
    (forall c t, pretty n = String c t -> is_digit c = true)) by tauto. unfold pretty, pretty_N. destruct (decide (n = 0)%N) as [->|Hn].
  { split_and!; [done|done|done|]. by intros c t [= <- <-]. }
  destruct (pretty_go_head n "") as (d & t & Hd & Eh); [lia|].
  destruct (pretty_go_digits n "" digits_only_nil) as [Ho Hv]. rewrite Hv. rewrite Eh in *.
  pose proof (pretty_char_ok d ltac:(lia)) as Hb. split_and!; [done| |done|].
  - rewrite app_String. cbn [int_part]. rewrite Hb. zcmp. rewrite <-app_String. apply Ho.
    intros c t' ->. by destruct (Hr c t' eq_refl).
  - intros c t' [= <- <-]. unfold is_digit. rewrite Hb. by zcmp.
Qed.

(** An integer that is written in no more digits than [int] takes back. *)
Definition few_digits (z : Z) : bool := (String.length (pretty (Z.abs_N z)) <=? MAX_INT_DIGITS)%nat.

Lemma pretty_go_length k n s : (n < 10 ^ N.of_nat k)%N -> (String.length (pretty_N_go n s) <= k + String.length s)%nat.
Proof.
  revert n s. induction k as [|k IH]; intros n s Hn.
  - assert (n = 0%N) as -> by (change (10 ^ N.of_nat 0)%N with 1%N in Hn; lia). by rewrite pretty_N_go_0.
  - destruct (decide (0 < n)%N) as [Hp|Hp]; [|assert (n = 0%N) as -> by lia; rewrite pretty_N_go_0; lia].
    rewrite pretty_N_go_step by done. etrans; [apply IH|cbn [String.length]; lia].
    apply N.Div0.div_lt_upper_bound. by rewrite Nat2N.inj_succ, N.pow_succ_r' in Hn.
Qed.

(** An integer of a column's width is one of them. *)
Lemma bigint_digits z : Z.abs z < 2 ^ 63 -> few_digits z = true.
Proof.
  intros Hz. unfold few_digits. apply Nat.leb_le. unfold pretty, pretty_N. destruct (decide _); [cbn; unfold MAX_INT_DIGITS; lia|].
  etrans; [apply (pretty_go_length 19)|cbn [String.length]; unfold MAX_INT_DIGITS; lia].
  change (10 ^ N.of_nat 19)%N with 10000000000000000000%N. lia.
Qed.

Section Read.
Variable repr_float : string -> string.

Lemma number_pretty z rest : few_digits z = true -> follows rest -> number repr_float (pretty z ++ rest) = Some (VInt z, rest).
Proof.
  intros Hfew Hr. pose proof (frac_exp_none _ Hr) as [Hf He]. unfold few_digits in Hfew. apply Nat.leb_le in Hfew.
  assert (Hpos : forall n, (String.length (pretty n) <= MAX_INT_DIGITS)%nat ->
    number repr_float (pretty n ++ rest) = Some (VInt (Z.of_N n), rest)).
  { intros n Hl%Nat.ltb_ge. destruct (number_digits n rest Hr) as (ip & -> & Hne & Hip & Hd & Hdig & Eip). rewrite <-Eip in Hl. unfold number.
    destruct ip as [|c t]; [done|]. rewrite app_String. specialize (Hdig c t eq_refl). unfold is_digit in Hdig.
    bool_prop. zcmp. rewrite <-app_String, Hip, Hne, Hf. cbn [Py.is_empty]. rewrite He. cbn [Py.is_empty andb].
    by rewrite Hl, Hd. }
  destruct z as [|p|p]; [by apply (Hpos 0%N)|by apply (Hpos (N.pos p))|].
  destruct (number_digits (N.pos p) rest Hr) as (ip & Hp & Hne & Hip & Hd & _ & Eip). apply Nat.ltb_ge in Hfew.
  change (Z.abs_N (Z.neg p)) with (N.pos p) in Hfew. rewrite <-Eip in Hfew.
  change (pretty (Z.neg p)) with ("-" +:+ pretty (N.pos p)). rewrite str_app_assoc, Hp. unfold number.
  rewrite app_String, app_Empty. change (byte (Ascii.Ascii _ _ _ _ _ _ _ _)) with 45. cbn [Z.eqb Pos.eqb].
  rewrite Hip, Hne, Hf. cbn [Py.is_empty]. rewrite He. cbn [Py.is_empty andb]. rewrite Hfew, Hd. done.
Qed.

End Read.

Lemma pretty_head (z : Z) rest : exists c t, pretty z ++ rest = String c t /\ (is_digit c = true \/ byte c = 45).
Proof.
  assert (Hf : follows "") by done.
  destruct z as [|p|p].
  - exists (char 48), rest. split; [done|by left].
  - destruct (number_digits (N.pos p) "" Hf) as (ip & Hp & Hne & _ & _ & Hdig & _). destruct ip as [|c t]; [done|].
    exists c, (t ++ rest). split; [|left; by eapply Hdig]. change (pretty (Z.pos p)) with (pretty (N.pos p)).
    rewrite <-app_String. f_equal. clear -Hp. revert Hp. generalize (pretty (N.pos p)) (String c t). intros a b.
    rewrite !str_app_nil. done.
  - exists (char 45), (pretty (N.pos p) ++ rest). split; [|by right].
    change (pretty (Z.neg p)) with ("-" +:+ pretty (N.pos p)). by rewrite str_app_assoc.
Qed.

(** ** Values are read back *)

(** A value whose text reads back as itself: no float, no integer too long to read, proper
    text, and unique keys. *)
Fixpoint plain (v : val) : bool :=
  match v with
  | VFloat _ => false
  | VInt z => few_digits z
  | VStr s => is_text s
  | VList l => forallb plain l
  | VDict d => forallb (fun kv => is_text (fst kv) && plain (snd kv)) d && bool_decide (NoDup (map fst d))
  | _ => true
  end.

(** The depth of calls its text takes to read. *)
Fixpoint cost (v : val) : nat :=
  match v with
  | VList l => S (list_sum (map (fun v => S (cost v)) l))
  | VDict d => S (list_sum (map (fun kv => S (cost (snd kv))) d))
  | _ => 1%nat
  end.

(** How deep it nests. *)
Fixpoint nesting (v : val) : nat :=
  match v with
  | VList l => S (foldr Nat.max 0%nat (map nesting l))
  | VDict d => S (foldr Nat.max 0%nat (map (fun kv => nesting (snd kv)) d))
  | _ => 0%nat
  end.

Lemma max_of {A} (f : A -> nat) (x : A) l : x ∈ l -> (f x <= foldr Nat.max 0 (map f l))%nat.
Proof.
  induction l as [|y l IH]; [by intros ?%elem_of_nil|]. cbn [map foldr]. intros [->|H]%elem_of_cons; [lia|specialize (IH H); lia].
Qed.

Lemma nesting_cost v : (nesting v <= cost v)%nat.
Proof.
  assert (Hsum : forall {A} (f g : A -> nat) l, Forall (fun x => (f x <= g x)%nat) l ->
    (foldr Nat.max 0 (map f l) <= list_sum (map (fun x => S (g x)) l))%nat).
  { intros A f g l H. induction H as [|x l Hx _ IH]; unfold list_sum in *; cbn [map foldr] in *; lia. }
  induction v as [|b|z|r|s|l IH|d IH] using val_rect'; cbn [nesting cost]; try lia; apply le_n_S, Hsum.
  - exact IH.
  - apply Forall_forall. intros kv Hkv. rewrite Forall_forall in IH. by apply IH.
Qed.

Lemma substring_all s n : (String.length s <= n)%nat -> String.substring 0 n s = s.
Proof.
  revert n. induction s as [|c s IH]; intros n Hn; [by destruct n|]. destruct n as [|n]; cbn in *; [lia|].
  rewrite IH; [done|lia].
Qed.

Lemma keyword_ok word v rest : keyword word v (word ++ rest) = Some (v, rest).
Proof.
  unfold keyword.
  assert (Hp : String.prefix word (word ++ rest) = true).
  { induction word as [|c word IH]; [by destruct rest|]. rewrite app_String. cbn. destruct (Ascii.ascii_dec c c); done. }
  rewrite Hp. do 2 f_equal. clear Hp.
  assert (H : forall n, (String.length rest <= n)%nat -> String.substring (String.length word) n (word ++ rest) = rest).
  { intros n Hn. induction word as [|c word IH]; [rewrite app_Empty; by apply substring_all|].
    rewrite app_String. cbn. by destruct n. }
  apply H. clear H. induction word as [|c word IH]; [done|]. rewrite app_String. cbn. lia.
Qed.

Section Gap.
Variable gap : string.
Hypothesis gap_blank : forall t, skip (gap ++ t) = skip t.

Notation text := (dumps ("," ++ gap) (":" ++ gap)).

Lemma text_head v t :
  plain v = true ->
  exists c u, text v ++ t = String c u /\ is_ws c = false /\ byte c <> 93 /\ byte c <> 125.
Proof.
  intros Hp. destruct v as [|[]|z|r|s|l|d]; try done; cbn [dumps];
    try (eexists _, _; split; [rewrite ?str_app_assoc, ?app_String; reflexivity|by vm_compute]).
  - destruct (pretty_head z t) as (c & u & -> & Hc). exists c, u. split; [done|]. unfold is_ws, is_digit in *.
    destruct Hc as [Hc|Hc]; bool_prop; split_and!; zcmp; (done || lia).
Qed.

Lemma skip_text v t : plain v = true -> skip (text v ++ t) = text v ++ t.
Proof. intros Hp. destruct (text_head v t Hp) as (c & u & -> & Hc & _). cbn [skip]. by rewrite Hc. Qed.

Definition member (kv : string * val) : string := dumps_str (fst kv) ++ (":" ++ gap) ++ text (snd kv).

Lemma member_head kv t :
  is_text (fst kv) = true ->
  member kv ++ t = String (char 34) (escaped (default [] (points (fst kv))) ++ one 34 ++ ":" ++ gap ++ text (snd kv) ++ t).
Proof.
  intros Hk. unfold member. rewrite !str_app_assoc. by destruct (string_body_dumps (fst kv) (":" ++ gap ++ text (snd kv) ++ t) Hk) as [-> _].
Qed.

Lemma dumps_dict d : text (VDict d) = "{" ++ String.concat ("," ++ gap) (map member d) ++ "}".
Proof. done. Qed.

Lemma str_length_app s t : String.length (s ++ t) = (String.length s + String.length t)%nat.
Proof. induction s as [|c s IH]; [done|]. rewrite app_String. cbn. by rewrite IH. Qed.

Lemma length_concat {A} (f : A -> string) (g : A -> nat) (x : A) l :
  Forall (fun v => (g v <= String.length (f v))%nat) (x :: l) ->
  (list_sum (map (fun v => S (g v)) (x :: l)) <= S (String.length (String.concat ("," ++ gap) (map f (x :: l)))))%nat.
Proof.
  revert x. induction l as [|y l IH]; intros x [Hx Hl]%Forall_cons.
  - cbn. lia.
  - change (String.concat _ (map f (x :: y :: l))) with (f x ++ ("," ++ gap) ++ String.concat ("," ++ gap) (map f (y :: l))).
    specialize (IH y Hl). rewrite str_length_app, str_app_assoc, app_String. cbn [map list_sum foldr String.length] in *.
    rewrite !str_length_app in *. lia.
Qed.

Lemma pretty_length (z : Z) : (1 <= String.length (pretty z))%nat.
Proof.
  destruct (pretty_head z "") as (c & u & E & _). rewrite str_app_nil in E. rewrite E. cbn. lia.
Qed.

(** The length of the text is fuel enough to read it. *)
Lemma cost_length v : plain v = true -> (cost v <= String.length (text v))%nat.
Proof.
  induction v as [|b|z|r|s|l IH|d IH] using val_rect'; intros Hp; cbn [cost dumps]; try done.
  - cbn. lia.
  - destruct b; cbn; lia.
  - apply pretty_length.
  - unfold dumps_str, one. rewrite app_String. cbn. lia.
  - rewrite !str_length_app. destruct l as [|x l]; [cbn; lia|].
    pose proof (length_concat text cost x l) as H. cbn [String.length]. apply le_n_S.
    etrans; [apply H|cbn [String.length]; lia]. apply Forall_forall. intros v Hv. rewrite Forall_forall in IH.
    cbn [plain] in Hp. rewrite forallb_forall in Hp. apply IH; [done|]. by apply Hp, list_elem_of_In.
  - change (map _ d) with (map (fun kv => S (cost (snd kv))) d) at 1. rewrite !str_length_app.
    destruct d as [|kv d]; [cbn; lia|].
    pose proof (length_concat member (fun kv => cost (snd kv)) kv d) as H. cbn [String.length]. apply le_n_S.
    etrans; [apply H|fold member; cbn [String.length]; unfold member; lia].
    apply Forall_forall. intros e He. rewrite Forall_forall in IH.
    cbn [plain] in Hp. apply andb_true_iff in Hp as [Hp _]. rewrite forallb_forall in Hp.
    specialize (Hp e (proj1 (list_elem_of_In _ _) He)). bool_prop. unfold member. rewrite !str_length_app.
    etrans; [by apply IH|lia].
Qed.

Variable repr_float : string -> string.

Definition reads (v : val) : Prop := forall levels n rest, (nesting v <= levels)%nat -> (cost v <= n)%nat -> follows rest ->
  value repr_float levels n (text v ++ rest) = Read v rest.

Lemma follows_char c t : In (byte c) [44; 93; 125] -> follows (String c t).
Proof.
  intros Hc c' t' [= <- <-]. unfold is_digit. cbn in Hc. destruct Hc as [<-|[<-|[<-|[]]]]; done.
Qed.

Lemma elements_text levels l x acc n rest :
  Forall (fun v => (plain v = true /\ reads v) /\ (nesting v <= levels)%nat) (x :: l) ->
  (list_sum (map (fun v => S (cost v)) (x :: l)) <= n)%nat ->
  elements repr_float levels n acc (String.concat ("," ++ gap) (map text (x :: l)) ++ "]" ++ rest)
  = Read (VList (acc ++ x :: l)%list) rest.
Proof.
  revert x acc n. induction l as [|y l IH]; intros x acc n [[[Hp Hx] Hd] Hl]%Forall_cons Hn; cbn [map list_sum foldr] in Hn.
  - cbn [map String.concat]. destruct n as [|n]; [lia|]. cbn [elements].
    rewrite Hx by (first [lia | apply follows_char; cbn; auto]). reflexivity.
  - change (String.concat _ (map text (x :: y :: l))) with (text x ++ ("," ++ gap) ++ String.concat ("," ++ gap) (map text (y :: l))).
    rewrite !str_app_assoc. destruct n as [|n]; [lia|]. cbn [elements].
    rewrite Hx by (first [lia | apply follows_char; cbn; auto]). rewrite app_String, app_Empty. cbn [skip].
    change (is_ws _) with false. cbn iota. change (byte _ =? 44) with true. cbn iota.
    rewrite gap_blank. inversion Hl as [|? ? [[Hpy _] _] _]; subst.
    assert (Hs : forall t, skip (String.concat ("," ++ gap) (map text (y :: l)) ++ t) = String.concat ("," ++ gap) (map text (y :: l)) ++ t).
    { intros t. destruct l as [|z l]; cbn [map String.concat]; [by apply skip_text|]. rewrite str_app_assoc. by apply skip_text. }
    rewrite Hs, IH; [by rewrite <-app_assoc|done|]. cbn [map list_sum foldr]. lia.
Qed.

Lemma set_fresh k v (d : dict) : k ∉ map fst d -> Py.set k v d = (d ++ [(k, v)])%list.
Proof.
  induction d as [|[k' v'] d IH]; cbn; [done|]. intros [Hne Hd]%not_elem_of_cons.
  destruct (String.eqb_spec k k') as [->|_]; [done|]. by rewrite IH.
Qed.

(** One [key: value] of an object. *)
Lemma members_step levels k v acc n c t :
  is_text k = true -> plain v = true -> reads v -> (nesting v <= levels)%nat -> (cost v <= n)%nat -> In (byte c) [44; 125] ->
  members repr_float levels (S n) acc (member (k, v) ++ String c t) =
  if byte c =? 44 then members repr_float levels n (Py.set k v acc) (skip t) else Read (VDict (Py.set k v acc)) t.
Proof.
  intros Hk Hp Hv Hd Hn Hc. rewrite (member_head (k, v)) by done. cbn [members fst snd].
  change (byte (char 34) =? 34) with true. cbn iota.
  destruct (string_body_dumps k (":" ++ gap ++ text v ++ String c t) Hk) as [_ ->].
  rewrite app_String, app_Empty. cbn [skip]. change (is_ws _) with false. cbn iota.
  change (byte _ =? 58) with true. cbn iota. rewrite gap_blank, skip_text, Hv by
    (done || (apply follows_char; cbn in *; tauto)).
  assert (Hw : skip (String c t) = String c t).
  { cbn [skip]. unfold is_ws. destruct Hc as [<-|[<-|[]]]; done. }
  rewrite Hw. destruct Hc as [<-|[<-|[]]]; done.
Qed.

Lemma members_text levels d kv acc n rest :
  Forall (fun kv => (is_text (fst kv) = true /\ plain (snd kv) = true /\ reads (snd kv)) /\ (nesting (snd kv) <= levels)%nat)
    (kv :: d) ->
  NoDup (map fst (acc ++ kv :: d)%list) ->
  (list_sum (map (fun kv => S (cost (snd kv))) (kv :: d)) <= n)%nat ->
  members repr_float levels n acc (String.concat ("," ++ gap) (map member (kv :: d)) ++ "}" ++ rest)
  = Read (VDict (acc ++ kv :: d)%list) rest.
Proof.
  revert kv acc n. induction d as [|kv' d IH]; intros [k v] acc n [[(Hk & Hp & Hv) Hde] Hl]%Forall_cons Hnd Hn;
    cbn [map list_sum foldr fst snd] in Hn; cbn [fst snd] in *; (destruct n as [|n]; [lia|]);
    (assert (Hfresh : k ∉ map fst acc) by
      (rewrite map_app in Hnd; apply NoDup_app in Hnd as (_ & Hx & _); intros Hin; apply (Hx k Hin); by left)).
  - cbn [map String.concat]. rewrite app_String, app_Empty, members_step by first [done | lia | cbn; auto].
    change (byte _ =? 44) with false. cbn iota. by rewrite set_fresh.
  - change (String.concat _ (map member ((k, v) :: kv' :: d)))
      with (member (k, v) ++ ("," ++ gap) ++ String.concat ("," ++ gap) (map member (kv' :: d))).
    rewrite !str_app_assoc, app_String, app_Empty, members_step by first [done | lia | cbn; auto].
    change (byte _ =? 44) with true. cbn iota. rewrite gap_blank, set_fresh by done.
    inversion Hl as [|? ? [(Hk' & _) _] _]; subst.
    assert (Hs : forall t, skip (String.concat ("," ++ gap) (map member (kv' :: d)) ++ t)
                           = String.concat ("," ++ gap) (map member (kv' :: d)) ++ t).
    { intros t. assert (Hm : forall u, skip (member kv' ++ u) = member kv' ++ u) by (intros u; by rewrite member_head).
      destruct d as [|kv2 d]; cbn [map String.concat]; [by apply Hm|]. rewrite str_app_assoc. by apply Hm. }
    rewrite Hs, IH; [by rewrite <-app_assoc|done|by rewrite <-app_assoc|]. cbn [map list_sum foldr]. lia.
Qed.

Lemma text_read v : plain v = true -> reads v.
Proof.
  induction v as [|b|z|r|s|l IH|d IH] using val_rect'; intros Hp levels n rest Hde Hn Hr; cbn [cost nesting] in Hn, Hde;
    (destruct n as [|n]; [lia|]); try done.
  - exact (f_equal scanned_of (keyword_ok "null" _ _)).
  - destruct b; [exact (f_equal scanned_of (keyword_ok "true" _ _))|exact (f_equal scanned_of (keyword_ok "false" _ _))].
  - cbn [dumps]. destruct (pretty_head z rest) as (c & u & E & Hc). pose proof (number_pretty repr_float z rest Hp Hr) as Hnum.
    rewrite E in *. cbn [value]. unfold is_digit in Hc.
    assert (Hc' : 45 <= byte c <= 57) by (destruct Hc as [Hc|Hc]; bool_prop; lia). zcmp. by rewrite Hnum.
  - cbn [dumps]. destruct (string_body_dumps s rest Hp) as [-> Hb]. cbn [value].
    change (byte (char 34) =? 34) with true. cbn iota. by rewrite Hb.
  - cbn [dumps]. rewrite !str_app_assoc, app_String, app_Empty. cbn [value].
    change (byte _ =? 34) with false. change (byte _ =? 123) with false. change (byte _ =? 91) with true. cbn iota.
    destruct levels as [|levels]; [lia|]. destruct l as [|x l]; [done|]. cbn [plain forallb] in Hp.
    assert (Hall : Forall (fun v => (plain v = true /\ reads v) /\ (nesting v <= levels)%nat) (x :: l)).
    { apply Forall_forall. intros v Hv. split; [|pose proof (max_of nesting v _ Hv); lia]. rewrite Forall_forall in IH. apply andb_true_iff in Hp as [Hx Hl].
      rewrite forallb_forall in Hl. assert (plain v = true); [|by auto].
      apply elem_of_cons in Hv as [->|Hv]; [done|]. by apply Hl, list_elem_of_In. }
    pose proof (elements_text levels l x [] n rest Hall ltac:(lia)) as He.
    assert (Hhead : exists c u, String.concat ("," ++ gap) (map text (x :: l)) ++ "]" ++ rest = String c u /\
                                is_ws c = false /\ byte c <> 93).
    { bool_prop. destruct l as [|y l]; cbn [map String.concat]; rewrite ?str_app_assoc;
        edestruct (text_head x) as (c & u & -> & H1 & H2 & _); [done| |done|]; exists c, u; done. }
    destruct Hhead as (c & u & E & Hw & Hc). rewrite E in *. cbn [skip]. rewrite Hw.
    by rewrite (proj2 (Z.eqb_neq _ _) Hc).
  - rewrite dumps_dict, !str_app_assoc, app_String, app_Empty. cbn [value].
    change (byte _ =? 34) with false. change (byte _ =? 123) with true. cbn iota.
    destruct levels as [|levels]; [lia|]. destruct d as [|kv d]; [done|]. cbn [plain] in Hp. apply andb_true_iff in Hp as [Hp Hnd]. bool_prop.
    assert (Hall : Forall (fun kv => (is_text (fst kv) = true /\ plain (snd kv) = true /\ reads (snd kv)) /\
      (nesting (snd kv) <= levels)%nat) (kv :: d)).
    { apply Forall_forall. intros e He. split; [|pose proof (max_of (fun kv => nesting (snd kv)) e _ He); lia]. rewrite Forall_forall in IH. rewrite forallb_forall in Hp.
      specialize (Hp e (proj1 (list_elem_of_In _ _) He)). bool_prop. split_and!; [done..|]. by apply IH. }
    pose proof (members_text levels d kv [] n rest Hall Hnd ltac:(lia)) as He.
    assert (Hhead : exists u, String.concat ("," ++ gap) (map member (kv :: d)) ++ "}" ++ rest = String (char 34) u).
    { inversion Hall as [|? ? [(Hk & _) _] _]; subst.
      destruct d as [|kv2 d]; cbn [map String.concat]; rewrite ?str_app_assoc, member_head by done; eauto. }
    destruct Hhead as (u & E). rewrite E in *. done.
Qed.

Lemma loads_within_text levels v : plain v = true -> (nesting v <= levels)%nat -> loads_within repr_float levels (text v) = Ok v.
Proof.
  intros Hp Hd. unfold loads_within. pose proof (skip_text v "" Hp) as Hs. rewrite str_app_nil in Hs. rewrite Hs.
  pose proof (text_read v Hp levels (S (2 * String.length (text v))) "" Hd) as H. rewrite str_app_nil in H.
  rewrite H; [done| |done]. pose proof (cost_length v Hp). lia.
Qed.

Lemma loads_text v : plain v = true -> loads repr_float (text v) = Some v.
Proof.
  intros Hp. unfold loads. rewrite loads_within_text; [done..|].
  etrans; [apply nesting_cost|by apply cost_length].
Qed.

End Gap.

(** ** The text is ASCII *)

Lemma is_ascii_app s t : is_ascii (s ++ t) = is_ascii s && is_ascii t.
Proof.
  induction s as [|c s IH]; [done|]. rewrite app_String. cbn [is_ascii]. by rewrite IH, andb_assoc.
Qed.

Lemma is_ascii_one z : 0 <= z < 128 -> is_ascii (one z) = true.
Proof. intros Hz. unfold one. cbn [is_ascii]. rewrite byte_char by lia. by zcmp. Qed.

Lemma points_ascii s : is_ascii s = true -> exists ps, points s = Some ps /\ Forall (fun p => 0 <= p < 128) ps.
Proof.
  induction s as [|c s IH]; intros Ha; [by exists []|]. cbn [is_ascii] in Ha. bool_prop.
  destruct IH as (ps & Hps & Hall); [done|]. cbn [points]. zcmp. rewrite Hps. cbn. exists (byte c :: ps). split; [done|].
  pose proof (byte_range c). constructor; [lia|done].
Qed.

Lemma hex_digit_ascii v t : 0 <= v < 16 -> is_ascii (String (hex_digit v) t) = is_ascii t.
Proof.
  intros Hv. cbn [is_ascii]. unfold hex_digit. destruct (v <? 10) eqn:E; bool_prop; rewrite byte_char by lia; by zcmp.
Qed.

Lemma u_escape_ascii u : 0 <= u < 65536 -> is_ascii (u_escape u) = true.
Proof.
  intros Hu. change (is_ascii (u_escape u)) with (is_ascii (hex4 u)). unfold hex4, one.
  rewrite char_byte, !hex_digit_ascii by zdiv. done.
Qed.

Lemma escape_ascii p : point_ok p -> is_ascii (escape p) = true.
Proof.
  intros Hp. unfold point_ok in Hp. unfold escape.
  repeat match goal with
  | |- context [if ?x =? ?y then _ else _] => destruct (x =? y) eqn:?; [by vm_compute|]
  end.
  destruct ((32 <=? p) && (p <=? 126)) eqn:E; [bool_prop; apply is_ascii_one; lia|].
  destruct (p <? 65536) eqn:E2; bool_prop; [apply u_escape_ascii; lia|].
  rewrite is_ascii_app, !u_escape_ascii by zdiv. done.
Qed.

Lemma dumps_str_ascii s : is_text s = true -> is_ascii (dumps_str s) = true.
Proof.
  intros Ht. unfold is_text in Ht. unfold dumps_str. destruct (points s) as [ps|] eqn:E; [|done].
  apply points_encoded in E as [_ Hp]. rewrite !is_ascii_app. change (is_ascii (one 34)) with true.
  change (default [] (Some ps)) with ps. rewrite andb_true_r. cbn [andb]. induction Hp as [|p ps Hp _ IH]; [done|]. cbn [escaped].
  cbn [forallb] in Ht. bool_prop. rewrite is_ascii_app, escape_ascii by done. by apply IH.
Qed.

Lemma pretty_ascii (z : Z) : is_ascii (pretty z) = true.
Proof.
  assert (Hgo : forall n s, is_ascii s = true -> is_ascii (pretty_N_go n s) = true).
  { intros n. induction (N.lt_wf_0 n) as [n _ IH]; intros s Hs.
    destruct (decide (0 < n)%N) as [Hn|Hn]; [|assert (n = 0%N) as -> by lia; by rewrite pretty_N_go_0].
    rewrite pretty_N_go_step by done. apply IH; [by apply N.div_lt|]. cbn [is_ascii]. rewrite Hs.
    assert (Hm : (n `mod` 10 < 10)%N) by (apply N.mod_lt; lia). revert Hm. generalize (n `mod` 10)%N. intros m Hm.
    rewrite pretty_char_ok by done. by zcmp. }
  assert (Hn : forall n : N, is_ascii (pretty n) = true).
  { intros n. unfold pretty, pretty_N. destruct (decide (n = 0)%N); [done|by apply Hgo]. }
  destruct z as [|p|p]; [done|apply (Hn (N.pos p))|].
  change (pretty (Z.neg p)) with ("-" +:+ pretty (N.pos p)). by rewrite is_ascii_app, Hn.
Qed.

Lemma concat_ascii sep l :
  is_ascii sep = true -> Forall (fun s => is_ascii s = true) l -> is_ascii (String.concat sep l) = true.
Proof.
  intros Hs H. induction H as [|s l Hx Hl IH]; [done|]. cbn [String.concat]. destruct l as [|t l]; [done|].
  by rewrite !is_ascii_app, Hx, Hs.
Qed.

Lemma dumps_ascii isep ksep v :
  is_ascii isep = true -> is_ascii ksep = true -> plain v = true -> is_ascii (dumps isep ksep v) = true.
Proof.
  intros Hi Hk. induction v as [|b|z|r|s|l IH|d IH] using val_rect'; intros Hp; cbn [dumps plain] in *; try done.
  - by destruct b.
  - apply pretty_ascii.
  - by apply dumps_str_ascii.
  - rewrite !is_ascii_app, concat_ascii; [done..|]. apply Forall_fmap, Forall_forall. intros v Hv. cbn.
    rewrite Forall_forall in IH. rewrite forallb_forall in Hp. apply IH; [done|]. by apply Hp, list_elem_of_In.
  - rewrite !is_ascii_app, concat_ascii; [done..|]. apply Forall_fmap, Forall_forall. intros e He. cbn.
    apply andb_true_iff in Hp as [Hp _].
    rewrite Forall_forall in IH. rewrite forallb_forall in Hp. specialize (Hp e (proj1 (list_elem_of_In _ _) He)). bool_prop.
    rewrite !is_ascii_app, dumps_str_ascii, Hk, IH by done. done.
Qed.

Section Compact.
Variable repr_float : string -> string.

(** A compact text is read back from its bytes. *)
Lemma loads_compact v : plain v = true -> loads repr_float (compact v) = Some v.
Proof. intros Hp. apply (loads_text ""); [|done]. intros t. by rewrite app_Empty. Qed.

Lemma loads_bytes_compact levels v :
  plain v = true -> (nesting v <= levels)%nat -> loads_bytes repr_float levels (compact v) = Ok v.
Proof.
  intros Hp Hd. unfold loads_bytes.
  destruct (points_ascii (compact v)) as (ps & Hps & _); [by apply dumps_ascii|].
  assert (Hbom : String.prefix (one 239 ++ one 187 ++ one 191) (compact v) = false).
  { pose proof (dumps_ascii "," ":" v eq_refl eq_refl Hp) as Ha. unfold compact.
    destruct (dumps "," ":" v) as [|c t]; [done|]. cbn [is_ascii] in Ha. bool_prop.
    unfold one at 1. rewrite app_String. cbn [String.prefix].
    destruct (Ascii.ascii_dec (char 239) c) as [<-|]; [|done]. by vm_compute in H. }
  rewrite Hbom, Hps. apply (loads_within_text ""); [|done..]. intros t. by rewrite app_Empty.
Qed.

End Compact.

(** ** Only a long text nests deeply *)

(** What a scan leaves is no longer than what it read, and it nests past the limit only in a
    text longer than the limit. *)
Definition scan_within (levels len : nat) (x : scanned) : Prop :=
  match x with
  | Read _ rest => (String.length rest <= len)%nat
  | Refused => True
  | TooDeep => (levels < len)%nat
  end.

Lemma scan_longer levels len len' x : (len <= len')%nat -> scan_within levels len x -> scan_within levels len' x.
Proof. destruct x; cbn; lia. Qed.

Lemma skip_length s : (String.length (skip s) <= String.length s)%nat.
Proof. induction s as [|c s IH]; [done|]. cbn [skip]. destruct (is_ws c); cbn [String.length]; lia. Qed.

Lemma substring_length n m s : (String.length (String.substring n m s) <= String.length s)%nat.
Proof.
  revert n m. induction s as [|c s IH]; [by intros [|n] [|m]|]. intros n m. cbn [String.substring].
  destruct n as [|n]; [destruct m as [|m]; cbn [String.length]; [lia|specialize (IH 0%nat m); lia]|].
  specialize (IH n m). cbn [String.length]. lia.
Qed.

Lemma put_text_rest t o u rest : put_text t o = Some (u, rest) -> exists u', o = Some (u', rest).
Proof. destruct o as [[u' r]|]; [|done]. intros [= _ <-]. by exists u'. Qed.

Lemma string_body_rest s t rest : string_body s = Some (t, rest) -> (String.length rest <= String.length s)%nat.
Proof.
  assert (H : forall m s t rest, (String.length s <= m)%nat -> string_body s = Some (t, rest) ->
    (String.length rest <= String.length s)%nat); [|by apply (H (String.length s))].
  clear. induction m as [|m IH]; intros s t rest Hl H; (destruct s as [|c s1]; [done|]); cbn [String.length] in *; try lia.
  assert (Hr : forall u s', (String.length s' <= String.length s1)%nat -> put_text u (string_body s') = Some (t, rest) ->
    (String.length rest <= S (String.length s1))%nat).
  { intros u s' Hs (u' & Hu)%put_text_rest. etrans; [apply (IH s' u'); [lia|done]|lia]. }
  cbn [string_body] in H. destruct (byte c =? 34); [injection H as _ <-; lia|].
  destruct (byte c =? 92); [|destruct (byte c <? 32); [done|by eapply Hr; [|exact H]]].
  destruct s1 as [|e s2]; [done|]. destruct (byte e =? 117).
  - destruct s2 as [|c1 [|c2 [|c3 [|c4 s3]]]]; try done. destruct (hex4_value c1 c2 c3 c4) as [u|]; [|done].
    assert (H3 : put_text (encode_point u) (string_body s3) = Some (t, rest) ->
      (String.length rest <= S (String.length (String e (String c1 (String c2 (String c3 (String c4 s3)))))))%nat).
    { intros H'. eapply Hr; [|exact H']. cbn [String.length]. lia. }
    destruct s3 as [|b [|x [|d1 [|d2 [|d3 [|d4 s4]]]]]]; try (by apply H3).
    destruct (hex4_value d1 d2 d3 d4) as [v|]; [|by apply H3]. destruct (_ && _); [|by apply H3].
    eapply Hr; [|exact H]. cbn [String.length]. lia.
  - destruct (unescape e); [|done]. eapply Hr; [|exact H]. cbn [String.length]. lia.
Qed.

Lemma span_length s d r : span_digits s = (d, r) -> (String.length r <= String.length s)%nat.
Proof.
  revert d r. induction s as [|c s IH]; intros d r H; cbn [span_digits] in H; [by injection H as _ <-|].
  destruct (is_digit c); [|injection H as _ <-; done]. destruct (span_digits s) as [d' r']. injection H as _ <-.
  cbn [String.length]. specialize (IH d' r' eq_refl). lia.
Qed.

Section Depth.
Variable repr_float : string -> string.

Lemma number_length s v rest : number repr_float s = Some (v, rest) -> (String.length rest <= String.length s)%nat.
Proof.
  assert (Hint : forall s a r, int_part s = (a, r) -> (String.length r <= String.length s)%nat).
  { intros [|c t] a r H; cbn [int_part] in H; [by injection H as _ <-|]. destruct (byte c =? 48); [injection H as _ <-; cbn; lia|].
    by eapply span_length. }
  assert (Hfrac : forall s a r, frac_part s = (a, r) -> (String.length r <= String.length s)%nat).
  { intros [|c t] a r H; cbn [frac_part] in H; [by injection H as _ <-|]. destruct (byte c =? 46); [|injection H as _ <-; done].
    destruct (span_digits t) as [[|d ds] r'] eqn:E; injection H as _ <-; [done|]. apply span_length in E. cbn [String.length]. lia. }
  assert (Hexp : forall s a r, exp_part s = (a, r) -> (String.length r <= String.length s)%nat).
  { intros [|c t] a r H; cbn [exp_part] in H; [by injection H as _ <-|]. destruct (_ || _); [|injection H as _ <-; done].
    destruct (match t with String g s3 => _ | "" => _ end) as [sign s2] eqn:Es.
    assert (Hs : (String.length s2 <= String.length t)%nat).
    { destruct t as [|g t]; [by injection Es as _ <-|]. destruct (_ || _); injection Es as _ <-; cbn; lia. }
    destruct (span_digits s2) as [[|d ds] r'] eqn:E; injection H as _ <-; [done|]. apply span_length in E. cbn [String.length]. lia. }
  intros H. unfold number in H. destruct (match s with String c s' => _ | "" => _ end) as [sign s1] eqn:E1.
  assert (H1 : (String.length s1 <= String.length s)%nat).
  { destruct s as [|c t]; [by injection E1 as _ <-|]. destruct (byte c =? 45); injection E1 as _ <-; cbn; lia. }
  destruct (int_part s1) as [ip s2] eqn:E2. apply Hint in E2. destruct (Py.is_empty ip).
  { destruct (String.prefix _ _); [|done]. injection H as _ <-. pose proof (substring_length 8 (String.length s1) s1). lia. }
  destruct (frac_part s2) as [fp s3] eqn:E3. apply Hfrac in E3. destruct (exp_part s3) as [ep s4] eqn:E4. apply Hexp in E4.
  destruct (_ && _); [|injection H as _ <-; lia]. destruct (_ <? _)%nat; [done|]. destruct (Py.digits 0 ip); [|done].
  injection H as _ <-. lia.
Qed.

Lemma keyword_length word v s v' rest : keyword word v s = Some (v', rest) -> (String.length rest <= String.length s)%nat.
Proof. unfold keyword. destruct (String.prefix _ _); [|done]. intros [= _ <-]. apply substring_length. Qed.

Lemma scanned_within levels len o :
  (forall v rest, o = Some (v, rest) -> (String.length rest <= len)%nat) -> scan_within levels len (scanned_of o).
Proof. intros H. destruct o as [[v rest]|]; [by eapply H|done]. Qed.

Lemma scans_within n :
  (forall levels s, scan_within levels (String.length s) (value repr_float levels n s)) /\
  (forall levels acc s, scan_within levels (String.length s) (members repr_float levels n acc s)) /\
  (forall levels acc s, scan_within levels (String.length s) (elements repr_float levels n acc s)).
Proof.
  induction n as [|n (IHv & IHm & IHe)]; [done|]. split; [|split].
  - intros levels [|c r]; [done|]. cbn [value].
    destruct (byte c =? 34).
    { apply scanned_within. intros v rest. destruct (string_body r) as [[t rest']|] eqn:E; [|done]. intros [= _ <-].
      apply string_body_rest in E. cbn [String.length]. lia. }
    pose proof (skip_length r) as Hs.
    destruct (byte c =? 123).
    { destruct levels as [|deeper]; [cbn; lia|]. destruct (skip r) as [|c2 r2]; [done|]. cbn [String.length] in Hs.
      destruct (_ =? _); [cbn; lia|]. specialize (IHm deeper [] (String c2 r2)). destruct (members _ _ _ _ _); cbn in *; lia. }
    destruct (byte c =? 91).
    { destruct levels as [|deeper]; [cbn; lia|]. destruct (skip r) as [|c2 r2]; [done|]. cbn [String.length] in Hs.
      destruct (_ =? _); [cbn; lia|]. specialize (IHe deeper [] (String c2 r2)). destruct (elements _ _ _ _ _); cbn in *; lia. }
    repeat (destruct (_ =? _); [apply scanned_within; intros v rest; apply keyword_length|]).
    apply scanned_within. intros v rest. apply number_length.
  - intros levels acc [|c r]; [done|]. cbn [members]. destruct (byte c =? 34); [|done].
    destruct (string_body r) as [[k r1]|] eqn:E; [|done]. apply string_body_rest in E.
    pose proof (skip_length r1) as H1. destruct (skip r1) as [|c1 r2]; [done|]. destruct (_ =? _); [|done].
    pose proof (skip_length r2) as H2. specialize (IHv levels (skip r2)). destruct (value _ _ _ _) as [v r3| |]; cbn [scan_within String.length] in *; [|done|lia].
    pose proof (skip_length r3) as H3. destruct (skip r3) as [|c3 r4]; [done|]. cbn [String.length] in H3. destruct (_ =? _).
    + pose proof (skip_length r4) as H4. eapply scan_longer; [|apply IHm]. lia.
    + destruct (_ =? _); [cbn; lia|done].
  - intros levels acc s. cbn [elements]. specialize (IHv levels s). destruct (value _ _ _ _) as [v r| |]; cbn [scan_within] in *; [|done..].
    pose proof (skip_length r) as H1. destruct (skip r) as [|c r2]; [done|]. cbn [String.length] in H1. destruct (_ =? _).
    + pose proof (skip_length r2) as H2. eapply scan_longer; [|apply IHe]. lia.
    + destruct (_ =? _); [cbn; lia|done].
Qed.

(** Only a text longer than the limit is nested past it. *)
Lemma deep_text_long levels b : loads_bytes repr_float levels b = Raise RecursionError -> (levels < String.length b)%nat.
Proof.
  unfold loads_bytes. cbv zeta. set (text := if String.prefix _ _ then _ else _). intros H.
  assert (Ht : (String.length text <= String.length b)%nat) by (unfold text; destruct (String.prefix _ _); [apply substring_length|done]).
  destruct (points text); [|done]. unfold loads_within in H. destruct (scans_within (S (2 * String.length text))) as (Hv & _ & _).
  specialize (Hv levels (skip text)). pose proof (skip_length text). destruct (value _ _ _ _) as [v rest| |]; [by destruct (skip rest)|done|].
  cbn in Hv. lia.
Qed.

Lemma loads_bytes_error levels b e : loads_bytes repr_float levels b = Raise e -> e = ValueError \/ e = RecursionError.
Proof.
  unfold loads_bytes. cbv zeta. destruct (points _); [|intros [= <-]; by left]. unfold loads_within.
  destruct (value _ _ _ _) as [v rest| |]; [destruct (skip rest); [done|]|..]; intros [= <-]; auto.
Qed.

(** And a text of brackets is. *)
Fixpoint brackets (n : nat) : string := match n with O => "" | S n => String (char 91) (brackets n) end.

Lemma brackets_length n : String.length (brackets n) = n.
Proof. induction n; cbn; congruence. Qed.

Lemma brackets_ascii n : is_ascii (brackets n) = true.
Proof. by induction n. Qed.

Lemma skip_brackets n : skip (brackets n) = brackets n.
Proof. by destruct n. Qed.

Lemma brackets_deep levels n : (2 * levels < n)%nat -> value repr_float levels n (brackets (S levels)) = TooDeep.
Proof.
  revert n. induction levels as [|levels IH]; intros n Hn; (destruct n as [|n]; [lia|]); [done|].
  destruct n as [|n]; [lia|]. specialize (IH n ltac:(lia)). cbn [brackets value] in *.
  change (byte (char 91) =? 34) with false. change (byte (char 91) =? 123) with false. change (byte (char 91) =? 91) with true. cbv iota.
  change (skip (String (char 91) ?t)) with (String (char 91) t). cbv iota. change (byte (char 91) =? 93) with false. cbv iota.
  cbn [elements]. by rewrite IH.
Qed.

Lemma loads_brackets levels : loads_bytes repr_float levels (brackets (S levels)) = Raise RecursionError.
Proof.
  unfold loads_bytes. change (String.prefix _ (brackets (S levels))) with false. cbv iota.
  destruct (points_ascii _ (brackets_ascii (S levels))) as (ps & -> & _). unfold loads_within.
  rewrite skip_brackets, brackets_length, brackets_deep by lia. done.
Qed.
End Depth.

(** ** Sorted keys *)

Lemma insert_key_perm e d : insert_key e d ≡ₚ e :: d.
Proof.
  induction d as [|e' d IH]; cbn; [done|]. destruct (decide (key_le e e')); [done|]. rewrite IH. by constructor.
Qed.

Lemma sort_keys_dict d : exists d', sort_keys (VDict d) = VDict d' /\ d' ≡ₚ map (fun kv => (fst kv, sort_keys (snd kv))) d.
Proof.
  set (l := map _ d). exists (fold_right insert_key [] l). split; [done|]. clearbody l.
  induction l as [|e l IH]; cbn; [done|]. etrans; [apply insert_key_perm|]. by apply Permutation_skip.
Qed.

Lemma forallb_perm {A} (f : A -> bool) l l' : l ≡ₚ l' -> forallb f l = forallb f l'.
Proof. induction 1; cbn; [done|by f_equal| |congruence]. by rewrite !andb_assoc, (andb_comm (f y)). Qed.

Lemma sort_keys_plain v : plain v = true -> plain (sort_keys v) = true.
Proof.
  induction v as [|b|z|r|s|l IH|d IH] using val_rect'; intros Hp; try done.
  - cbn [sort_keys plain] in *. rewrite forallb_forall in Hp |- *. intros x (y & <- & Hy)%in_map_iff.
    rewrite Forall_forall in IH. apply IH; [by apply list_elem_of_In|by apply Hp].
  - destruct (sort_keys_dict d) as (d' & -> & Hperm). cbn [plain] in *. apply andb_true_iff in Hp as [Hp Hn].
    apply bool_decide_eq_true in Hn. rewrite (forallb_perm _ _ _ Hperm). apply andb_true_iff. split.
    + rewrite forallb_forall in Hp |- *. intros x (y & <- & Hy)%in_map_iff. specialize (Hp y Hy). bool_prop.
      cbn [fst snd]. rewrite Forall_forall in IH. apply andb_true_iff. split; [done|].
      apply IH; [by apply list_elem_of_In|done].
    + apply bool_decide_eq_true. assert (Hk : map fst d' ≡ₚ map fst d).
      { rewrite Hperm, map_map. done. }
      by rewrite Hk.
Qed.

Lemma lookup_elem k v (d : dict) : NoDup (map fst d) -> Py.lookup k d = Some v <-> (k, v) ∈ d.
Proof.
  intros Hn. split; [apply lookup_Some_in|]. induction d as [|[k' v'] d IH]; [by intros ?%elem_of_nil|].
  cbn in Hn. apply NoDup_cons in Hn as [Hk Hn]. cbn. intros [[= -> ->]|Hin]%elem_of_cons; [by rewrite String.eqb_refl|].
  destruct (String.eqb_spec k k') as [->|_]; [|by apply IH]. exfalso. apply Hk. by apply (list_elem_of_fmap_2 fst _ (k', v)).
Qed.

End Json.
