(* ===== verification/Texts.v ===== *)
(** Identifiers made of words joined by colons, as the code writes them with f-strings: a
    number at the end can be read back. *)

From S2P Require Import Prelude PyVal Base64 JsonText.

Open Scope string_scope.

Module Texts.

Definition COLON : Ascii.ascii := Ascii.Ascii false true false true true true false false.

Fixpoint free_of (c : Ascii.ascii) (s : string) : bool :=
  match s with "" => true | String c' s' => negb (Ascii.eqb c c') && free_of c s' end.

Lemma pretty_free n s : free_of COLON s = true -> free_of COLON (pretty_N_go n s) = true.
Proof.
  revert s. induction (N.lt_wf_0 n) as [n _ IH]; intros s Hs.
  destruct (decide (0 < n)%N) as [Hn|Hn]; [|assert (n = 0%N) as -> by lia; by rewrite pretty_N_go_0].
  rewrite pretty_N_go_step by done. apply IH; [by apply N.div_lt|]. cbn [free_of]. apply andb_true_iff.
  split; [|done]. apply negb_true_iff, Ascii.eqb_neq. intros E.
  pose proof (Json.pretty_char_ok (n mod 10) (N.mod_lt n 10 ltac:(done))) as Hb. rewrite <-E in Hb.
  assert (Hm : (n mod 10 < 10)%N) by (by apply N.mod_lt). vm_compute Base64.byte in Hb. lia.
Qed.

Lemma pretty_nat_free (n : nat) : free_of COLON (pretty n) = true.
Proof. unfold pretty, pretty_nat, pretty, pretty_N. destruct (decide _); [done|]. by apply pretty_free. Qed.

Lemma pretty_Z_free (z : Z) : free_of COLON (pretty z) = true.
Proof.
  assert (H : forall p : positive, free_of COLON (pretty p) = true).
  { intros p. unfold pretty, pretty_positive, pretty, pretty_N. destruct (decide _); [done|]. by apply pretty_free. }
  destruct z as [|p|p]; [done|apply H|]. unfold pretty, pretty_Z. rewrite app_String, app_Empty. cbn [free_of].
  by rewrite H.
Qed.

(** What follows the last colon. *)
Fixpoint after_colon (s : string) : option string :=
  match s with
  | "" => None
  | String c s' => match after_colon s' with Some t => Some t | None => if Ascii.eqb COLON c then Some s' else None end
  end.

Lemma after_colon_free s : free_of COLON s = true -> after_colon s = None.
Proof.
  induction s as [|c s IH]; [done|]. intros [Hc Hs]%andb_true_iff. cbn [after_colon]. rewrite IH by done.
  apply negb_true_iff in Hc. by rewrite Hc.
Qed.

Lemma after_colon_app s t : free_of COLON t = true -> after_colon (s ++ ":" ++ t) = Some t.
Proof.
  intros Ht. induction s as [|c s IH].
  - rewrite app_Empty, app_String, app_Empty. cbn [after_colon]. by rewrite after_colon_free.
  - rewrite app_String. cbn [after_colon]. by rewrite IH.
Qed.

(** The number an id ends with is the id's own. *)
Lemma number_read s s' (i i' : Z) : s ++ ":" ++ pretty i = s' ++ ":" ++ pretty i' -> i = i'.
Proof.
  intros E. pose proof (after_colon_app s (pretty i) (pretty_Z_free i)) as H1.
  rewrite E, (after_colon_app s' (pretty i') (pretty_Z_free i')) in H1. injection H1 as H1. by apply (inj pretty) in H1.
Qed.
End Texts.
