(* ===== verification/Cursors.v ===== *)
(** The opaque positions a client hands back: a listing's cursor
    ([persistence/repository/keyset.py]) and a history page's
    ([session_runtime/history_blocks.py]), each the base64 of a compact JSON text.  A text
    that nests past Python's recursion limit, and an integer of more digits than Python
    reads, are among what a client may send. *)

From S2P Require Import Prelude PyVal Base64 JsonText.

Open Scope string_scope.

Module Cursor.
Import Base64 Json.

Section Cursors.
(** [repr(float(text))] of a decimal literal, and how deep the JSON reader may nest before
    it meets the recursion limit. *)
Variable repr_float : string -> string.
Variable levels : nat.

(** ** Listings *)

(** [encode_list_cursor]. *)
Definition encode_list_cursor (fields : list (string * string)) : string :=
  cursor_text (compact (sort_keys (VDict (map (fun kv => (fst kv, VStr (snd kv))) fields)))).

(** [decode_list_cursor]: [Ok None] for no cursor. *)
Definition decode_list_cursor (cursor : option string) (keys : list string) : res (option (list string)) :=
  let value := Py.strip (default "" cursor) in
  if Py.is_empty value then Ok None
  else
    match padded_decode value with
    | None => Raise InvalidListCursor
    | Some raw =>
        if negb (is_text raw) then Raise InvalidListCursor
        else
          match loads_within repr_float levels raw with
          | Ok (VDict payload) =>
              if negb (forallb (fun key => Py.is_str (Py.get key payload)) keys) then Raise InvalidListCursor
              else Ok (Some (map (fun key => Py.str (Py.get key payload)) keys))
          | _ => Raise InvalidListCursor
          end
    end.

(** ** History *)

Definition CURSOR_VERSION : Z := 2.

(** The sort key of a history entry: [(phase, position, kind, seq)]. *)
Definition history_key : Type := Z * Z * Z * Z.

(** [encode_cursor]. *)
Definition encode_cursor (through_seq : Z) (before : option history_key) : string :=
  let payload := [("v", VInt CURSOR_VERSION); ("through_seq", VInt through_seq)] in
  cursor_text (compact (sort_keys (VDict
    match before with
    | Some (phase, position, kind, seq) =>
        Py.set "before" (VList [VInt phase; VInt position; VInt kind; VInt seq]) payload
    | None => payload
    end))).

(** The values [a, b, .. = v] unpacks, if [v] can be iterated. *)
Definition unpacked (v : val) : res (list val) :=
  match v with
  | VList l => Ok l
  | VDict d => Ok (map (fun kv => VStr (fst kv)) d)
  | VStr s => Ok (map (fun p => VStr (encode_point p)) (default [] (points s)))
  | _ => Raise TypeError
  end.

(** [int] of an entry: a text of too many digits is a [ValueError]. *)
Fixpoint count_digits (s : string) : nat :=
  match s with
  | "" => 0%nat
  | String c s => if is_digit c then S (count_digits s) else count_digits s
  end.

Definition entry_int (v : val) : res Z :=
  match v with
  | VStr s => if (MAX_INT_DIGITS <? count_digits s)%nat then Raise ValueError else Py.int v
  | _ => Py.int v
  end.

Definition before_of (before : val) : res history_key :=
  l ← unpacked before;
  match l with
  | [phase; position; kind; seq] =>
      p ← entry_int phase; n ← entry_int position; k ← entry_int kind; s ← entry_int seq; Ok (p, n, k, s)
  | _ => Raise ValueError
  end.

(** [except (TypeError, ValueError)]. *)
Definition cursor_fault (e : exn) : exn :=
  match e with TypeError | ValueError => HistoryCursorError | e => e end.

(** [except (binascii.Error, UnicodeDecodeError, ValueError)]. *)
Definition payload_fault (e : exn) : exn :=
  match e with ValueError => HistoryCursorError | e => e end.

(** [decode_cursor]. *)
Definition decode_cursor (value : string) : res (Z * option history_key) :=
  let text := Py.strip value in
  if Py.is_empty text then Raise HistoryCursorError
  else
    match padded_decode text with
    | None => Raise HistoryCursorError
    | Some raw =>
        match loads_bytes repr_float levels raw with
        | Raise e => Raise (payload_fault e)
        | Ok (VDict payload) =>
            if negb (Py.eqb (Py.get "v" payload) (VInt CURSOR_VERSION)) then Raise HistoryCursorError
            else
              match Py.get "through_seq" payload with
              | VInt through_seq =>
                  if (through_seq <? 0)%Z then Raise HistoryCursorError
                  else
                    match Py.get "before" payload with
                    | VNone => Ok (through_seq, None)
                    | before =>
                        match before_of before with
                        | Ok key => Ok (through_seq, Some key)
                        | Raise e => Raise (cursor_fault e)
                        end
                    end
              | _ => Raise HistoryCursorError
              end
        | _ => Raise HistoryCursorError
        end
    end.

(** ** What is encoded is read back *)

Lemma compact_not_empty v : plain v = true -> Py.is_empty (compact v) = false.
Proof.
  intros Hp. unfold compact. assert (Hg : forall t, skip ("" ++ t) = skip t) by (intros t; by rewrite app_Empty).
  destruct (text_head "" v "" Hp) as (c & u & E & _). rewrite str_app_nil in E.
  change ("," ++ "")%string with "," in E. change (":" ++ "")%string with ":" in E. by rewrite E.
Qed.

Lemma is_text_ascii s : is_ascii s = true -> is_text s = true.
Proof.
  intros (ps & Hps & Hall)%points_ascii. unfold is_text. rewrite Hps. apply forallb_forall.
  intros p Hp%list_elem_of_In. rewrite Forall_forall in Hall. specialize (Hall p Hp). unfold surrogate.
  rewrite (proj2 (Z.leb_gt _ _)) by lia. done.
Qed.

Lemma flat_nesting d : Forall (fun kv => nesting (snd kv) = 0%nat) d -> (nesting (VDict d) <= 1)%nat.
Proof. intros H. cbn [nesting]. apply le_n_S. induction H as [|kv d Hk _ IH]; cbn in *; [done|]. rewrite Hk. cbn. exact IH. Qed.

(** A listing resumes where it stopped: the cursor made of a row's key fields gives back
    exactly those fields, whatever their text, in the order the reader asks for them. *)
Theorem list_cursor_roundtrip fields keys values :
  (1 <= levels)%nat ->
  NoDup (map fst fields) ->
  Forall (fun kv => is_text (fst kv) = true /\ is_text (snd kv) = true) fields ->
  Forall2 (fun key v => (key, v) ∈ fields) keys values ->
  decode_list_cursor (Some (encode_list_cursor fields)) keys = Ok (Some values).
Proof.
  intros Hlev Hnd Htext Hkeys. set (d := map (fun kv : string * string => (fst kv, VStr (snd kv))) fields).
  assert (Hfst : map fst d = map fst fields) by (unfold d; by rewrite map_map).
  assert (Hp : plain (VDict d) = true).
  { cbn [plain]. apply andb_true_iff. split; [|by apply bool_decide_eq_true; rewrite Hfst].
    apply forallb_forall. intros e (kv & <- & Hkv%list_elem_of_In)%in_map_iff. rewrite Forall_forall in Htext.
    destruct (Htext kv Hkv) as [H1 H2]. cbn. by rewrite H1, H2. }
  pose proof (sort_keys_plain _ Hp) as Hsp. destruct (sort_keys_dict d) as (d' & Hd & Hperm).
  assert (Hstr : map (fun kv : string * val => (fst kv, sort_keys (snd kv))) d = d).
  { unfold d. rewrite map_map. done. }
  rewrite Hstr in Hperm.
  unfold decode_list_cursor, encode_list_cursor. fold d. change (default "" (Some ?x)) with x.
  rewrite cursor_text_strip, cursor_text_empty, compact_not_empty, padded_decode_cursor by done.
  rewrite is_text_ascii by by apply dumps_ascii. cbn [negb].
  rewrite (loads_within_text "") by first [done | by intros t; rewrite app_Empty | etrans; [|exact Hlev]; rewrite Hd; apply flat_nesting; rewrite Hperm; by apply Forall_fmap, Forall_true].
  rewrite Hd in *.
  assert (Hget : forall key v, (key, v) ∈ fields -> Py.get key d' = VStr v).
  { intros key v Hin. assert (Hnd' : NoDup (map fst d')) by (by rewrite Hperm, Hfst).
    unfold Py.get. rewrite (proj2 (lookup_elem key (VStr v) d' Hnd')); [done|].
    rewrite Hperm. unfold d. apply list_elem_of_fmap. by exists (key, v). }
  assert (Hall : forallb (fun key => Py.is_str (Py.get key d')) keys = true).
  { apply forallb_forall. intros key Hk%list_elem_of_In. apply list_elem_of_lookup in Hk as [i Hi].
    destruct (Forall2_lookup_l _ _ _ _ _ Hkeys Hi) as (v & _ & Hin). by rewrite (Hget _ _ Hin). }
  rewrite Hall. cbn [negb]. do 2 f_equal. induction Hkeys as [|key v keys values Hin _ IH]; [done|]. cbn [map].
  rewrite (Hget _ _ Hin), IH; [done|]. cbn [forallb] in Hall. by apply andb_true_iff in Hall as [_ ?].
Qed.

(** A position of a column's width. *)
Definition narrow (z : Z) : Prop := (Z.abs z < 2 ^ 63)%Z.

(** The two ends of a history cursor meet. *)
Lemma decode_encode through_seq before :
  (2 <= levels)%nat -> (0 <= through_seq)%Z -> narrow through_seq ->
  (forall p n k s, before = Some (p, n, k, s) -> narrow p /\ narrow n /\ narrow k /\ narrow s) ->
  decode_cursor (encode_cursor through_seq before) = Ok (through_seq, before).
Proof.
  intros Hl Ht Hw%bigint_digits Hb. unfold decode_cursor, encode_cursor. set (v := sort_keys _).
  assert (Hneg : (through_seq <? 0)%Z = false) by (apply Z.ltb_ge; lia).
  destruct before as [[[[p n] k] s]|].
  - destruct (Hb p n k s eq_refl) as (Hp%bigint_digits & Hn%bigint_digits & Hk%bigint_digits & Hs%bigint_digits).
    assert (Hv : v = VDict [("before", VList [VInt p; VInt n; VInt k; VInt s]); ("through_seq", VInt through_seq); ("v", VInt 2)]) by done.
    assert (Hpl : plain v = true) by (rewrite Hv; cbn -[few_digits]; by rewrite Hp, Hn, Hk, Hs, Hw).
    rewrite cursor_text_strip, cursor_text_empty, compact_not_empty, padded_decode_cursor, loads_bytes_compact; [|done|by rewrite Hv|done].
    rewrite Hv. cbn -[Z.ltb]. by rewrite Hneg.
  - assert (Hv : v = VDict [("through_seq", VInt through_seq); ("v", VInt 2)]) by done.
    assert (Hpl : plain v = true) by (rewrite Hv; cbn -[few_digits]; by rewrite Hw).
    rewrite cursor_text_strip, cursor_text_empty, compact_not_empty, padded_decode_cursor, loads_bytes_compact; [|done|rewrite Hv; cbn; lia|done].
    rewrite Hv. cbn -[Z.ltb]. by rewrite Hneg.
Qed.

(** A history cursor is read back as the position it was made for: the output number the
    page is pinned to and, for a page, the entry it continues before. *)
Theorem history_cursor_roundtrip through_seq before :
  (2 <= levels)%nat -> (0 <= through_seq)%Z -> narrow through_seq ->
  (forall p n k s, before = Some (p, n, k, s) -> narrow p /\ narrow n /\ narrow k /\ narrow s) ->
  decode_cursor (encode_cursor through_seq before) = Ok (through_seq, before).
Proof. apply decode_encode. Qed.

(** ** What a client's text may give *)

(** A position with an infinite part. *)
Definition infinite (v : val) : Prop := v = VFloat "inf" \/ v = VFloat "-inf".

Lemma int_overflow v : Py.int v = Raise OverflowError <-> infinite v.
Proof.
  split; [|by intros [-> | ->]]. destruct v as [| | |r|s| |]; cbn -[Py.in_strs]; try done; [|by destruct (Py.parse_int s)].
  destruct (Py.in_strs r ["inf"; "-inf"]) eqn:E; [|by destruct (Py.parse_int _)]. intros _.
  apply in_strs_true in E. unfold infinite. set_unfold. naive_solver.
Qed.

Lemma int_error v e : Py.int v = Raise e -> In e [TypeError; ValueError; OverflowError].
Proof.
  destruct v as [| | |r|s| |]; cbn; try done; try (intros [= <-]; tauto).
  - destruct (r =s "inf"), (r =s "-inf"); cbn; try (intros [= <-]; tauto). destruct (Py.parse_int _); [done|intros [= <-]; tauto].
  - destruct (Py.parse_int s); [done|intros [= <-]; tauto].
Qed.

Lemma entry_overflow v : entry_int v = Raise OverflowError <-> infinite v.
Proof.
  destruct v as [| | | |s| |]; try apply int_overflow. unfold entry_int. destruct (_ <? _)%nat; [|apply int_overflow].
  split; [done|by intros [|]].
Qed.

Lemma entry_error v e : entry_int v = Raise e -> In e [TypeError; ValueError; OverflowError].
Proof.
  destruct v as [| | | |s| |]; try apply int_error. unfold entry_int. destruct (_ <? _)%nat; [|apply int_error].
  intros [= <-]. cbn. tauto.
Qed.

(** The first entry that is no integer is infinite. *)
Definition infinite_first (l : list val) : Prop :=
  exists i v, l !! i = Some v /\ infinite v /\ Forall (fun w => exists z, entry_int w = Ok z) (take i l).

Lemma before_overflow before :
  before_of before = Raise OverflowError <-> exists p n k s, before = VList [p; n; k; s] /\ infinite_first [p; n; k; s].
Proof.
  unfold before_of, infinite_first. split.
  - intros H. destruct before as [| | | |t|l|d]; try done; cbn [unpacked mbind res_bind] in H.
    2: destruct l as [|p [|n [|k [|s [|]]]]]; try done; exists p, n, k, s; split; [done|];
       destruct (entry_int p) as [zp|ep] eqn:Ep; cbn in H; [|injection H as ->; apply entry_overflow in Ep; by exists 0%nat, p];
       destruct (entry_int n) as [zn|en] eqn:En; cbn in H; [|injection H as ->; apply entry_overflow in En; exists 1%nat, n; split_and!; [done..|]; repeat constructor; eauto];
       destruct (entry_int k) as [zk|ek] eqn:Ek; cbn in H; [|injection H as ->; apply entry_overflow in Ek; exists 2%nat, k; split_and!; [done..|]; repeat constructor; eauto];
       destruct (entry_int s) as [zs|es] eqn:Es; cbn in H; [done|injection H as ->; apply entry_overflow in Es; exists 3%nat, s; split_and!; [done..|]; repeat constructor; eauto].
    all: exfalso; match type of H with context [map ?f ?l] =>
      assert (Hn : forall v, v ∈ map f l -> entry_int v <> Raise OverflowError)
        by (intros v (x & -> & _)%list_elem_of_fmap [|]%entry_overflow; done); destruct (map f l) as [|p [|n [|k [|s [|]]]]] end; try done.
    all: destruct (entry_int p) eqn:Ep; cbn in H; [|injection H as ->; apply (Hn p); [set_solver|done]];
       destruct (entry_int n) eqn:En; cbn in H; [|injection H as ->; apply (Hn n); [set_solver|done]];
       destruct (entry_int k) eqn:Ek; cbn in H; [|injection H as ->; apply (Hn k); [set_solver|done]];
       destruct (entry_int s) eqn:Es; cbn in H; [done|injection H as ->; apply (Hn s); [set_solver|done]].
  - intros (p & n & k & s & -> & i & v & Hi & Hv%entry_overflow & Hall). cbn [unpacked mbind res_bind].
    destruct i as [|[|[|[|i]]]]; cbn in Hi; simplify_eq; cbn [take] in Hall; repeat (apply Forall_cons in Hall as [[? ->] Hall]);
      cbn [mbind res_bind]; by rewrite Hv.
Qed.

Lemma before_error before e : before_of before = Raise e -> In e [TypeError; ValueError; OverflowError].
Proof.
  unfold before_of. intros H. destruct (unpacked before) as [l|e'] eqn:El.
  2:{ injection H as <-. destruct before; try done; injection El as <-; cbn; tauto. }
  cbn [mbind res_bind] in H. destruct l as [|p [|n [|k [|s [|]]]]]; try (injection H as <-; cbn; tauto).
  destruct (entry_int p) as [|e1] eqn:Ep; cbn in H; [|injection H as ->; by eapply entry_error].
  destruct (entry_int n) as [|e1] eqn:En; cbn in H; [|injection H as ->; by eapply entry_error].
  destruct (entry_int k) as [|e1] eqn:Ek; cbn in H; [|injection H as ->; by eapply entry_error].
  destruct (entry_int s) as [|e1] eqn:Es; cbn in H; [done|injection H as ->; by eapply entry_error].
Qed.

(** What a cursor's text holds. *)
Definition holds (text : string) (r : res val) : Prop :=
  exists raw, padded_decode (Py.strip text) = Some raw /\ loads_bytes repr_float levels raw = r.

(** A cursor of this version whose entry's first bad number is infinite. *)
Definition names_infinite (text : string) : Prop :=
  exists payload t p n k s, holds text (Ok (VDict payload)) /\ Py.eqb (Py.get "v" payload) (VInt CURSOR_VERSION) = true /\
    Py.get "through_seq" payload = VInt t /\ (0 <= t)%Z /\ Py.get "before" payload = VList [p; n; k; s] /\
    infinite_first [p; n; k; s].

(** What reading a cursor may give. *)
Definition read_or_refused (text : string) (r : res (Z * option history_key)) : Prop :=
  match r with
  | Ok (through_seq, _) => (0 <= through_seq)%Z
  | Raise HistoryCursorError => True
  | Raise OverflowError => names_infinite text
  | Raise RecursionError => holds text (Raise RecursionError)
  | Raise _ => False
  end.

Lemma decode_cursor_result text : read_or_refused text (decode_cursor text).
Proof.
  unfold decode_cursor. destruct (Py.is_empty _); [done|].
  destruct (padded_decode _) as [raw|] eqn:Er; [|done]. destruct (loads_bytes repr_float levels raw) as [v|e] eqn:Ev.
  2: { destruct (loads_bytes_error _ _ _ _ Ev) as [-> | ->]; [done|]. by exists raw. }
  destruct v as [| | | | | |d]; try done.
  destruct (Py.eqb _ _) eqn:Eq; [|done]. cbn [negb]. destruct (Py.get "through_seq" d) as [| |t| | | |] eqn:Et; try done.
  destruct (t <? 0)%Z eqn:El; [done|]. apply Z.ltb_ge in El.
  assert (Hb : forall b, b = Py.get "before" d -> read_or_refused text
    (match before_of b with Ok key => Ok (t, Some key) | Raise e => Raise (cursor_fault e) end)).
  { intros b ->. destruct (before_of _) as [k|e] eqn:E; [done|].
    destruct (before_error _ _ E) as [<-|[<-|[<-|[]]]]; [done..|]. apply before_overflow in E as (p & n & k & s & Hbe & Hi).
    exists d, t, p, n, k, s. split_and!; try done. by exists raw. }
  destruct (Py.get "before" d) eqn:Eb; [done|rewrite <-Eb; by apply Hb..].
Qed.

Lemma no_text_holds_nothing text : Py.is_empty (Py.strip text) = true -> ~ holds text (Raise RecursionError) /\ forall d, ~ holds text (Ok (VDict d)).
Proof.
  intros H. destruct (Py.strip text) eqn:E; [|done].
  split; [|intros d]; intros (raw & Hr & Hl); rewrite E in Hr; injection Hr as <-; done.
Qed.


End Cursors.

(** A cursor a client can send that names an infinite position. *)
Definition infinite_cursor : string :=
  cursor_text (compact (VDict [("before", VList [VFloat "inf"; VInt 0; VInt 0; VInt 0]);
                               ("through_seq", VInt 0); ("v", VInt 2)])).

Example infinite_cursor_escapes : decode_cursor (fun s => s) 900 infinite_cursor = Raise OverflowError.
Proof. vm_compute. reflexivity. Qed.

Lemma list_cursor_roundtrip_witness :
  decode_list_cursor (fun s => s) 900 (Some (encode_list_cursor [("created_at", "2026-01-01"); ("agent_id", "a-é")]))
    ["agent_id"; "created_at"] = Ok (Some ["a-é"; "2026-01-01"]).
Proof.
  apply (list_cursor_roundtrip (fun s => s) 900).
  - repeat constructor.
  - repeat constructor; set_solver.
  - repeat constructor.
  - repeat constructor.
Defined.

Lemma history_cursor_roundtrip_witness :
  decode_cursor (fun s => s) 900 (encode_cursor 7 (Some (1, 4, 0, 3)%Z)) = Ok (7%Z, Some (1, 4, 0, 3)%Z).
Proof.
  apply (history_cursor_roundtrip (fun s => s) 900 7 (Some (1, 4, 0, 3)%Z)); [unfold narrow; lia..|].
  intros p n k s [= <- <- <- <-]. unfold narrow. lia.
Defined.

End Cursor.
