(* ===== verification/Schema.v ===== *)
(** The tables the session runtime writes, row by row, and what a reader records
    ([persistence/sql/models/sessions.py] and the dataclasses at the top of
    [session_runtime_repository.py]).  Columns no modelled statement reads or
    writes are left out.  Times are microseconds. *)

From S2P Require Import Prelude PyVal.

Open Scope string_scope.

(** ** Rows *)

Record session_row := SessionRow {
  ss_session_id : string;
  ss_environment_name : string;
  ss_user_id : string;
  ss_agent_id : option string;
  ss_owner_type : option string;
  ss_hidden : bool;
  ss_state : string;
  ss_deleted : bool;
  ss_archived_at : option Z;
  ss_updated_at : Z;
  ss_last_output_at : option Z;
  ss_runtime_status : option string;
  ss_runtime_status_at : option Z;
  ss_sandbox_id : option string;
  ss_sandbox_parked_at : option Z;
  ss_runtime_unavailable : bool;
  ss_recovery_reason : option string;
  ss_last_error : option string;
  ss_reader_cursor : option dict
}.

Record agent_row := AgentRow { ag_agent_id : string; ag_state : string }.

Record reader_row := ReaderRow {
  rd_session_id : string;
  rd_owner : string;
  rd_generation : Z;
  rd_expires_at : Z
}.

Inductive input_state := Pending | Delivered | AdmittedInput | Failed | Imported.

Record input_row := InputRow {
  in_input_id : string;
  in_session_id : string;
  in_seq : Z;
  in_client_message_id : string;
  in_author_user_id : option string;
  in_source : option string;
  in_content : string;
  in_content_blocks : option (list val);
  in_state : input_state;
  in_response_id : option string;
  in_failure : option dict;
  in_import_record : option dict;
  in_created_at : Z;
  in_delivered_at : option Z;
  in_admitted_at : option Z;
  in_conversation_order : option Z
}.

Record attachment_row := AttachmentRow {
  at_attachment_id : string;
  at_owner_user_id : string;
  at_session_id : option string;
  at_input_id : option string;
  at_ordinal : option Z;
  at_kind : option string;
  at_expires_at : option Z
}.

Inductive control_state := CPending | CDone | CFailed | CExpired.

Record control_row := ControlRow {
  ct_control_id : string;
  ct_session_id : string;
  ct_kind : string;
  ct_target : option string;
  ct_reader_generation : Z;
  ct_requested_by : option string;
  ct_state : control_state;
  ct_error : option string;
  ct_requested_at : Z;
  ct_applied_at : option Z
}.

Inductive response_status := Running | Waiting | Ended.

Record response_row := ResponseRow {
  rs_session_id : string;
  rs_response_id : string;
  rs_seq : Z;
  rs_origin : string;
  rs_status : response_status;
  rs_outcome : option string;
  rs_native_reason : option string;
  rs_usage : option dict;
  rs_error : option dict;
  rs_import_record : option dict;
  rs_started_at : Z;
  rs_ended_at : option Z;
  rs_conversation_order : option Z
}.

Record response_input_row := ResponseInputRow {
  ri_session_id : string;
  ri_response_id : string;
  ri_input_id : string
}.

Inductive interaction_status := IOpen | IAnswered | IWithdrawn | IExpired.

Record interaction_row := InteractionRow {
  ia_session_id : string;
  ia_interaction_id : string;
  ia_response_id : string;
  ia_contract : dict;
  ia_status : interaction_status;
  ia_answer : option dict;
  ia_answered_by : option string;
  ia_answered_at : option Z;
  ia_opened_at : Z;
  ia_closed_at : option Z
}.

Record output_row := OutputRow {
  ou_session_id : string;
  ou_seq : Z;
  ou_response_id : option string;
  ou_part : dict;
  ou_created_at : Z
}.

(** A wakeup enlisted in the transaction that changed the database. *)
Record session_notice := SessionNotice {
  sn_session_id : string;
  sn_kind : string;
  sn_seq : Z
}.

#[export] Instance input_state_eq : EqDecision input_state.
Proof. solve_decision. Defined.
#[export] Instance control_state_eq : EqDecision control_state.
Proof. solve_decision. Defined.
#[export] Instance response_status_eq : EqDecision response_status.
Proof. solve_decision. Defined.
#[export] Instance interaction_status_eq : EqDecision interaction_status.
Proof. solve_decision. Defined.

(** The text the status columns hold. *)
Definition interaction_status_text (s : interaction_status) : string :=
  match s with
  | IOpen => "open" | IAnswered => "answered" | IWithdrawn => "withdrawn" | IExpired => "expired"
  end.

(** ** The store *)

(** [db_notices] are the wakeups committed so far; the two counters are the
    identity columns [session_inputs.seq] and [session_responses.seq]. *)
Record db := Db {
  db_sessions : list session_row;
  db_agents : list agent_row;
  db_readers : list reader_row;
  db_inputs : list input_row;
  db_attachments : list attachment_row;
  db_controls : list control_row;
  db_responses : list response_row;
  db_response_inputs : list response_input_row;
  db_interactions : list interaction_row;
  db_output : list output_row;
  db_notices : list session_notice;
  db_next_input_seq : Z;
  db_next_response_seq : Z
}.

Definition set_sessions (t : list session_row) (d : db) : db :=
  Db t (db_agents d) (db_readers d) (db_inputs d) (db_attachments d) (db_controls d)
    (db_responses d) (db_response_inputs d) (db_interactions d) (db_output d)
    (db_notices d) (db_next_input_seq d) (db_next_response_seq d).
Definition set_readers (t : list reader_row) (d : db) : db :=
  Db (db_sessions d) (db_agents d) t (db_inputs d) (db_attachments d) (db_controls d)
    (db_responses d) (db_response_inputs d) (db_interactions d) (db_output d)
    (db_notices d) (db_next_input_seq d) (db_next_response_seq d).
Definition set_inputs (t : list input_row) (d : db) : db :=
  Db (db_sessions d) (db_agents d) (db_readers d) t (db_attachments d) (db_controls d)
    (db_responses d) (db_response_inputs d) (db_interactions d) (db_output d)
    (db_notices d) (db_next_input_seq d) (db_next_response_seq d).
Definition set_attachments (t : list attachment_row) (d : db) : db :=
  Db (db_sessions d) (db_agents d) (db_readers d) (db_inputs d) t (db_controls d)
    (db_responses d) (db_response_inputs d) (db_interactions d) (db_output d)
    (db_notices d) (db_next_input_seq d) (db_next_response_seq d).
Definition set_controls (t : list control_row) (d : db) : db :=
  Db (db_sessions d) (db_agents d) (db_readers d) (db_inputs d) (db_attachments d) t
    (db_responses d) (db_response_inputs d) (db_interactions d) (db_output d)
    (db_notices d) (db_next_input_seq d) (db_next_response_seq d).
Definition set_responses (t : list response_row) (d : db) : db :=
  Db (db_sessions d) (db_agents d) (db_readers d) (db_inputs d) (db_attachments d)
    (db_controls d) t (db_response_inputs d) (db_interactions d) (db_output d)
    (db_notices d) (db_next_input_seq d) (db_next_response_seq d).
Definition set_response_inputs (t : list response_input_row) (d : db) : db :=
  Db (db_sessions d) (db_agents d) (db_readers d) (db_inputs d) (db_attachments d)
    (db_controls d) (db_responses d) t (db_interactions d) (db_output d)
    (db_notices d) (db_next_input_seq d) (db_next_response_seq d).
Definition set_interactions (t : list interaction_row) (d : db) : db :=
  Db (db_sessions d) (db_agents d) (db_readers d) (db_inputs d) (db_attachments d)
    (db_controls d) (db_responses d) (db_response_inputs d) t (db_output d)
    (db_notices d) (db_next_input_seq d) (db_next_response_seq d).
Definition set_output (t : list output_row) (d : db) : db :=
  Db (db_sessions d) (db_agents d) (db_readers d) (db_inputs d) (db_attachments d)
    (db_controls d) (db_responses d) (db_response_inputs d) (db_interactions d) t
    (db_notices d) (db_next_input_seq d) (db_next_response_seq d).
Definition set_notices (t : list session_notice) (d : db) : db :=
  Db (db_sessions d) (db_agents d) (db_readers d) (db_inputs d) (db_attachments d)
    (db_controls d) (db_responses d) (db_response_inputs d) (db_interactions d)
    (db_output d) t (db_next_input_seq d) (db_next_response_seq d).
Definition set_next_input_seq (n : Z) (d : db) : db :=
  Db (db_sessions d) (db_agents d) (db_readers d) (db_inputs d) (db_attachments d)
    (db_controls d) (db_responses d) (db_response_inputs d) (db_interactions d)
    (db_output d) (db_notices d) n (db_next_response_seq d).
Definition set_next_response_seq (n : Z) (d : db) : db :=
  Db (db_sessions d) (db_agents d) (db_readers d) (db_inputs d) (db_attachments d)
    (db_controls d) (db_responses d) (db_response_inputs d) (db_interactions d)
    (db_output d) (db_notices d) (db_next_input_seq d) n.

(** ** What a reader records *)

(** The right to read one session's runtime and record its facts. *)
Record ReaderLease := MkLease {
  ls_session_id : string;
  ls_owner : string;
  ls_generation : Z
}.

Record OutputPart := MkPart {
  op_seq : Z;
  op_response_id : option string;
  op_part : dict
}.

Inductive position_kind := KInput | KResponse.

#[export] Instance position_kind_eq : EqDecision position_kind.
Proof. solve_decision. Defined.

(** The closed union of the runtime's state changes. *)
Inductive Fact :=
| ResponseStart (response_id origin : string) (input_ids : list string)
| ResponseEnd (response_id outcome : string) (native_reason : option string)
    (usage error : option dict)
| MessagePosition (kind : position_kind) (message_id : string) (output_seq : Z)
| InteractionOpen (response_id interaction_id : string) (contract : dict)
| InteractionClose (interaction_id : string) (status : interaction_status)
    (output_seq : option Z)
| InputsAdmitted (input_ids : list string)
| InputsFailed (input_ids : list string) (failure : dict).

(** What a reader read since its last commit, in the order it happened. *)
Record FactBatch := MkBatch {
  fb_output : list OutputPart;
  fb_facts : list Fact;
  fb_cursor : option dict;
  fb_status : option string;
  fb_protocol_error : option string
}.

Definition empty_batch : FactBatch := MkBatch [] [] None None None.

(** [FactBatch.__bool__]. *)
Definition batch_nonempty (b : FactBatch) : bool :=
  negb (match fb_output b with [] => true | _ => false end) ||
  negb (match fb_facts b with [] => true | _ => false end) ||
  bool_decide (is_Some (fb_cursor b)) || bool_decide (is_Some (fb_status b)) ||
  bool_decide (is_Some (fb_protocol_error b)).

Inductive history_role := RoleUser | RoleAssistant.

(** One message imported from another system's history. *)
Record HistoryEntry := MkHistoryEntry {
  he_source_id : string;
  he_role : history_role;
  he_created_at : Z;
  he_record : dict;
  he_content : string;
  he_content_blocks : option (list val);
  he_outcome : option string;
  he_parent_source_id : option string
}.
