(* ===== verification/Interaction.v ===== *)
(** Interaction contracts ([engine/interaction_contract.py]): how an engine adapter
    declares what it waits on, what a browser may see of it, and which answers the
    declared presentation can represent. *)

From S2P Require Import Prelude PyVal.

Open Scope string_scope.

Module Interaction.

Definition PRESENTATION_FORM := "form".
Definition PRESENTATION_DECISION := "decision".
Definition PRESENTATION_TOOL_APPROVAL := "tool_approval".
Definition INTERACTION_PRESENTATIONS :=
  [PRESENTATION_FORM; PRESENTATION_DECISION; PRESENTATION_TOOL_APPROVAL].

Definition CONTRACT_KEYS_COMMON := ["tool_name"; "presentation"; "prompt"; "raw_input"].
Definition CONTRACT_KEYS_BY_PRESENTATION (presentation : string) : list string :=
  if presentation =s PRESENTATION_FORM
  then CONTRACT_KEYS_COMMON ++ ["questions"; "preset_answers"]
  else if presentation =s PRESENTATION_DECISION
  then CONTRACT_KEYS_COMMON ++ ["body"; "options"]
  else CONTRACT_KEYS_COMMON.

Definition QUESTION_ROW_KEYS :=
  ["id"; "header"; "question"; "native_answer_key"; "multi_select"; "options";
   "allow_free_text"; "allow_empty_text"].
Definition QUESTION_OPTION_KEYS := ["label"; "description"].
Definition DECISION_OPTION_KEYS :=
  ["id"; "denial"; "reply"; "comment_prefix"; "permission_mode_choices";
   "default_permission_mode"; "applies_permission_mode"].
Definition PUBLIC_INTERACTION_COMMON_KEYS :=
  ["interaction_id"; "response_id"; "tool_call_id"; "tool_name"; "presentation"; "prompt"].
Definition PUBLIC_QUESTION_KEYS :=
  ["id"; "header"; "question"; "multi_select"; "options"; "allow_free_text";
   "allow_empty_text"].
Definition PUBLIC_DECISION_OPTION_KEYS :=
  ["id"; "denial"; "permission_mode_choices"; "default_permission_mode";
   "applies_permission_mode"].
Definition ANSWER_KEYS := ["question_id"; "option_label"; "option_labels"; "free_text"].

Definition contract_error {A} : res A := Raise InteractionContractError.
Definition require (cond : bool) : res unit := raise_if (negb cond) InteractionContractError.

(** [set(d) - allowed] is empty. *)
Definition known_keys (allowed : list string) (d : dict) : bool :=
  forallb (fun k => Py.in_strs k allowed) (Py.keys d).

(** [{key: d[key] for key in ks if key in d}]; a frozenset's iteration order is not
    fixed, and neither is the order of the keys in the object it builds. *)
Definition project (ks : list string) (d : dict) : dict :=
  omap (fun k => (fun v => (k, v)) <$> Py.lookup k d) ks.

(** What [for x in (v or [])] visits. *)
Definition iter_or_empty (v : val) : res (list val) :=
  if Py.truthy v then
    match v with
    | VList l => Ok l
    | VDict d => Ok (map VStr (Py.keys d))
    | VStr s => Ok (map (fun c => VStr (String c "")) (String.list_ascii_of_string s))
    | _ => Raise TypeError
    end
  else Ok [].

(** ** Contract validation *)

Definition require_str (contract : dict) (key : string) : res string :=
  match Py.get key contract with
  | VStr s => if Py.is_empty (Py.strip s) then contract_error else Ok (Py.strip s)
  | _ => contract_error
  end.

Definition validate_question_option (option : val) : res unit :=
  match option with
  | VDict o =>
      _ ← require (known_keys QUESTION_OPTION_KEYS o);
      require (Py.nonblank_str (Py.get "label" o))
  | _ => contract_error
  end.

(** The body of the loop over question rows; [seen_ids] is the set built so far. *)
Definition validate_question (seen_ids : list string) (row : val) : res (list string) :=
  match row with
  | VDict r =>
      _ ← require (known_keys QUESTION_ROW_KEYS r);
      _ ← require (Py.nonblank_str (Py.get "id" r));
      let row_id := Py.str (Py.get "id" r) in
      _ ← require (negb (Py.in_strs row_id seen_ids));
      _ ← require (Py.is_bool (Py.get "allow_free_text" r));
      _ ← require (Py.is_bool (Py.get "allow_empty_text" r));
      _ ← require (negb (Py.truthy (Py.get "allow_empty_text" r) &&
                         negb (Py.truthy (Py.get "allow_free_text" r))));
      match Py.get "options" r with
      | VList options =>
          _ ← foldM (fun _ o => validate_question_option o) tt options;
          Ok (row_id :: seen_ids)
      | _ => contract_error
      end
  | _ => contract_error
  end.

Definition validate_form_contract (contract : dict) : res unit :=
  match Py.get "questions" contract with
  | VList (q :: qs) =>
      _ ← foldM validate_question [] (q :: qs);
      require (Py.is_none (Py.get "preset_answers" contract) ||
               Py.is_dict (Py.get "preset_answers" contract))
  | _ => contract_error
  end.

(** A mode list is absent, or a non-empty list of non-blank strings. *)
Definition valid_mode_choices (v : val) : bool :=
  match v with
  | VNone => true
  | VList (m :: ms) => forallb Py.nonblank_str (m :: ms)
  | _ => false
  end.

Definition none_or_nonblank (v : val) : bool := Py.is_none v || Py.nonblank_str v.

Definition validate_decision_option (seen_ids : list string) (option : val)
  : res (list string) :=
  match option with
  | VDict o =>
      _ ← require (known_keys DECISION_OPTION_KEYS o);
      _ ← require (Py.nonblank_str (Py.get "id" o));
      let option_id := Py.str (Py.get "id" o) in
      _ ← require (negb (Py.in_strs option_id seen_ids));
      _ ← require (Py.is_bool (Py.get "denial" o));
      _ ← require (Py.nonblank_str (Py.get "reply" o));
      _ ← require (valid_mode_choices (Py.get "permission_mode_choices" o));
      _ ← require (none_or_nonblank (Py.get "comment_prefix" o));
      _ ← require (none_or_nonblank (Py.get "default_permission_mode" o));
      _ ← require (none_or_nonblank (Py.get "applies_permission_mode" o));
      Ok (option_id :: seen_ids)
  | _ => contract_error
  end.

Definition validate_decision_contract (contract : dict) : res unit :=
  _ ← require (Py.is_none (Py.get "body" contract) || Py.is_str (Py.get "body" contract));
  match Py.get "options" contract with
  | VList (o :: os) =>
      _ ← foldM validate_decision_option [] (o :: os);
      Ok tt
  | _ => contract_error
  end.

(** Returns the presentation; raises on any malformed declaration. *)
Definition validate_interaction_contract (contract : val) : res string :=
  match contract with
  | VDict c =>
      presentation ← require_str c "presentation";
      _ ← require (Py.in_strs presentation INTERACTION_PRESENTATIONS);
      _ ← require_str c "tool_name";
      _ ← require_str c "prompt";
      _ ← require (Py.is_dict (Py.get "raw_input" c));
      _ ← require (known_keys (CONTRACT_KEYS_BY_PRESENTATION presentation) c);
      _ ← (if presentation =s PRESENTATION_FORM then validate_form_contract c
           else if presentation =s PRESENTATION_DECISION then validate_decision_contract c
           else Ok tt);
      Ok presentation
  | _ => contract_error
  end.

(** ** Answers *)

Definition invalid_request {A} (status_code : Z) : res A :=
  Raise (APIError "INVALID_REQUEST" status_code).

Definition interaction_presentation (pending : dict) : res string :=
  let presentation := Py.clean (Py.get "presentation" pending) in
  if Py.in_strs presentation INTERACTION_PRESENTATIONS then Ok presentation
  else invalid_request 409.

(** One row of [validated_question_answer_rows]. *)
Record answer_row := AnswerRow {
  ar_question : dict;
  ar_answer : dict;
  ar_prompt : string;
  ar_response_text : string
}.

(** [answer_by_question]: the last answer given for an id wins. *)
Definition index_answers (raw_answers : list val) : list (string * dict) :=
  fold_left (fun acc item =>
    match item with
    | VDict a =>
        let question_id := Py.clean (Py.get "question_id" a) in
        if Py.is_empty question_id then acc else (question_id, a) :: acc
    | _ => acc
    end) raw_answers [].

Fixpoint find_answer (question_id : string) (answers : list (string * dict)) : option dict :=
  match answers with
  | [] => None
  | (q, a) :: rest => if question_id =s q then Some a else find_answer question_id rest
  end.

Definition str_values (v : val) : list string :=
  match v with
  | VList l => omap (fun x => match x with VStr s => Some s | _ => None end) l
  | _ => []
  end.

Definition answer_text (answer : dict) : string :=
  match str_values (Py.get "option_labels" answer) with
  | (_ :: _) as labels => String.concat ", " labels
  | [] =>
      match Py.get "option_label" answer with
      | VStr s => s
      | _ => match Py.get "free_text" answer with VStr s => s | _ => "" end
      end
  end.

Definition question_prompt (item : dict) (question_id : string) (index : nat) : string :=
  Py.a_or (Py.clean (Py.get "header" item))
    (Py.a_or (Py.clean (Py.get "question" item))
       (Py.a_or question_id ("Question " ++ pretty (S index)))).

Definition answer_question (answers : list (string * dict)) (index : nat) (item : dict)
  : res answer_row :=
  let question_id := Py.clean (Py.get "id" item) in
  match find_answer question_id answers with
  | None => invalid_request 400
  | Some answer =>
      let free_text := Py.get "free_text" answer in
      if Py.is_str free_text && negb (Py.is_true (Py.get "allow_free_text" item))
      then invalid_request 400
      else
        let response_text := answer_text answer in
        if Py.is_empty response_text &&
           negb (Py.is_str free_text && Py.is_true (Py.get "allow_empty_text" item))
        then invalid_request 400
        else Ok (AnswerRow item answer (question_prompt item question_id index) response_text)
  end.

(** The loop [for index, item in enumerate(questions)]. *)
Fixpoint answer_questions (answers : list (string * dict)) (index : nat)
  (questions : list val) : res (list answer_row) :=
  match questions with
  | [] => Ok []
  | VDict item :: rest =>
      row ← answer_question answers index item;
      rows ← answer_questions answers (S index) rest;
      Ok (row :: rows)
  | _ :: rest => answer_questions answers (S index) rest
  end.

Definition validated_question_answer_rows (pending response : dict) : res (list answer_row) :=
  match Py.get "answers" response with
  | VList (a :: raw) =>
      match Py.get "questions" pending with
      | VList (q :: qs) => answer_questions (index_answers (a :: raw)) 0 (q :: qs)
      | _ => invalid_request 409
      end
  | _ => invalid_request 400
  end.

Definition dicts_of (l : list val) : list dict :=
  omap (fun v => match v with VDict d => Some d | _ => None end) l.

(** The declared option an answer names, by its id, case kept. *)
Definition selected_decision_option (pending response : dict) : res dict :=
  let decision := Py.clean (Py.get "decision" response) in
  options ← iter_or_empty (Py.get "options" pending);
  match List.find (fun o => Py.clean (Py.get "id" o) =s decision) (dicts_of options) with
  | Some o => Ok o
  | None => invalid_request 400
  end.

Definition validated_tool_approval_decision (response : dict) : res string :=
  let decision := Py.lower (Py.clean (Py.get "decision" response)) in
  if Py.in_strs decision ["approve"; "reject"] then Ok decision else invalid_request 400.

Definition validate_interaction_response (pending response : dict) : res unit :=
  presentation ← interaction_presentation pending;
  if presentation =s PRESENTATION_FORM then
    if Py.is_true (Py.get "decline" response) then Ok tt
    else (_ ← validated_question_answer_rows pending response; Ok tt)
  else if presentation =s PRESENTATION_DECISION then
    _ ← selected_decision_option pending response; Ok tt
  else _ ← validated_tool_approval_decision response; Ok tt.

Definition is_denied_interaction_response (pending response : dict) : res bool :=
  presentation ← interaction_presentation pending;
  if presentation =s PRESENTATION_FORM then Ok (Py.is_true (Py.get "decline" response))
  else if presentation =s PRESENTATION_DECISION then
    option ← selected_decision_option pending response;
    Ok (Py.truthy (Py.get "denial" option))
  else
    decision ← validated_tool_approval_decision response;
    Ok (decision =s "reject").

Definition str_or_none (s : string) : option string :=
  if Py.is_empty s then None else Some s.

Definition resolve_interaction_permission_mode (pending response : option dict)
  : res (option string) :=
  match pending, response with
  | Some ((_ :: _) as p), Some ((_ :: _) as r) =>
      presentation ← interaction_presentation p;
      if negb (presentation =s PRESENTATION_DECISION) then Ok None
      else
        option ← selected_decision_option p r;
        match Py.get "permission_mode_choices" option with
        | VList (_ :: _) =>
            Ok (str_or_none (Py.a_or (Py.clean (Py.get "permission_mode" r))
                                     (Py.clean (Py.get "default_permission_mode" option))))
        | _ => Ok (str_or_none (Py.clean (Py.get "applies_permission_mode" option)))
        end
  | _, _ => Ok None
  end.

Definition newline : string := Py.ascii_char 10.
Definition join_lines (lines : list string) : string := String.concat newline lines.

Definition render_interaction_reply (pending response : dict) : res string :=
  presentation ← interaction_presentation pending;
  if presentation =s PRESENTATION_FORM then
    if Py.is_true (Py.get "decline" response) then Ok "User declined to answer questions."
    else
      rows ← validated_question_answer_rows pending response;
      let notes := Py.clean (Py.get "notes" response) in
      Ok (join_lines
        (["Response to your pending questions:"] ++
         map (fun row => "- " ++ ar_prompt row ++ ": " ++ ar_response_text row) rows ++
         (if Py.is_empty notes then [] else [""; "Additional notes: " ++ notes])))
  else if presentation =s PRESENTATION_DECISION then
    option ← selected_decision_option pending response;
    let comment := Py.clean (Py.get "comment" response) in
    let prefix := Py.a_or (Py.clean (Py.get "comment_prefix" option)) "Additional notes" in
    Ok (join_lines
      ([Py.str_or_empty (Py.get "reply" option)] ++
       (if Py.is_empty comment then [] else [prefix ++ ": " ++ comment])))
  else
    decision ← validated_tool_approval_decision response;
    let comment := Py.clean (Py.get "comment" response) in
    Ok (join_lines
      (["Response to your pending tool confirmation:";
        if decision =s "approve" then "The user approved this tool use."
        else "The user doesn't want to proceed with this tool use."] ++
       (if Py.is_empty comment then [] else ["Additional notes: " ++ comment]))).

Definition build_tool_approval_request_frame (pending : dict) : option dict :=
  if negb (Py.str_or_empty (Py.get "presentation" pending) =s PRESENTATION_TOOL_APPROVAL)
  then None
  else
    let tool_call_id := Py.clean (Py.get "tool_call_id" pending) in
    if Py.is_empty tool_call_id then None
    else
      let approval_id := Py.a_or (Py.clean (Py.get "interaction_id" pending)) tool_call_id in
      Some [("type", VStr "tool-approval-request"); ("approvalId", VStr approval_id);
            ("toolCallId", VStr tool_call_id)].

(** ** The browser's view *)

Definition public_option (option : val) : res val :=
  match option with
  | VDict o => Ok (VDict (project QUESTION_OPTION_KEYS o))
  | _ => contract_error
  end.

Definition public_question (row : val) : res val :=
  match row with
  | VDict r =>
      options ← iter_or_empty (Py.get "options" r);
      options' ← mapM_res public_option options;
      Ok (VDict (Py.set "options" (VList options') (project PUBLIC_QUESTION_KEYS r)))
  | _ => contract_error
  end.

Definition public_answer (value answer : dict) : res val :=
  if Py.is_true (Py.get "decline" answer) then Ok (VDict [("decline", VBool true)])
  else
    rows ← validated_question_answer_rows value answer;
    Ok (VDict [("answers", VList (map (fun row => VDict (project ANSWER_KEYS (ar_answer row))) rows))]).

(** [value["status"] not in {..}] needs a hashable value. *)
Definition public_status (value : dict) : res dict :=
  match Py.lookup "status" value with
  | None => Ok []
  | Some (VStr s) =>
      if Py.in_strs s ["open"; "answered"; "withdrawn"; "expired"]
      then Ok [("status", VStr s)] else contract_error
  | Some (VList _) | Some (VDict _) => Raise TypeError
  | Some _ => contract_error
  end.

Definition is_answered (value : dict) : bool :=
  match Py.get "status" value with VStr s => s =s "answered" | _ => false end.

Definition public_form (value : dict) : res dict :=
  rows ← iter_or_empty (Py.get "questions" value);
  questions ← mapM_res public_question rows;
  answer ← match is_answered value, Py.get "answer" value with
           | true, VDict a => v ← public_answer value a; Ok [("answer", v)]
           | _, _ => Ok []
           end;
  Ok ([("questions", VList questions)] ++ project ["preset_answers"] value ++ answer)%list.

Definition public_decision (value : dict) : res dict :=
  options ← iter_or_empty (Py.get "options" value);
  Ok (project ["body"] value ++
      [("options", VList (map (fun o => VDict (project PUBLIC_DECISION_OPTION_KEYS o))
                              (dicts_of options)))])%list.

Definition public_interaction_view (value : val) (include_tool_input : bool)
  : res (option dict) :=
  match value with
  | VNone => Ok None
  | VDict v =>
      presentation ← interaction_presentation v;
      status ← public_status v;
      body ← (if presentation =s PRESENTATION_FORM then public_form v
              else if presentation =s PRESENTATION_DECISION then public_decision v
              else Ok []);
      Ok (Some (project PUBLIC_INTERACTION_COMMON_KEYS v ++
                (if include_tool_input then project ["raw_input"] v else []) ++
                status ++ body)%list)
  | _ => contract_error
  end.

(** ** Lemmas *)

Lemma require_ok c u : require c = Ok u -> c = true.
Proof. by destruct c. Qed.

Ltac run_require :=
  repeat match goal with
  | H : (require ?c ≫= _) = Ok _ |- _ =>
      let E := fresh "Hreq" in
      destruct c eqn:E; [cbn [require raise_if negb mbind res_bind] in H|discriminate H]
  end.

Lemma require_str_ok c key s :
  require_str c key = Ok s -> exists raw, Py.get key c = VStr raw /\ s = Py.strip raw.
Proof.
  unfold require_str. destruct (Py.get key c) eqn:E; try done.
  destruct (Py.is_empty _); [done|]. intros [= <-]. eauto.
Qed.

Lemma keys_project ks d : forall k, k ∈ Py.keys (project ks d) -> k ∈ ks.
Proof.
  intros k. unfold Py.keys, project. rewrite list_elem_of_fmap.
  intros ([k0 v] & -> & Hin). apply list_elem_of_omap in Hin as (k1 & Hk1 & Hl).
  destruct (Py.lookup k1 d); [|done]. by injection Hl as -> ->.
Qed.

Lemma lookup_project k ks d :
  Py.lookup k (project ks d) = if Py.in_strs k ks then Py.lookup k d else None.
Proof.
  induction ks as [|k0 ks IH]; [done|].
  replace (project (k0 :: ks) d) with
    (match Py.lookup k0 d with Some v => (k0, v) :: project ks d | None => project ks d end)
    by (unfold project; cbn; by destruct (Py.lookup k0 d)).
  change (Py.in_strs k (k0 :: ks)) with (String.eqb k k0 || Py.in_strs k ks).
  destruct (String.eqb_spec k k0) as [->|Hne]; cbn [orb].
  - destruct (Py.lookup k0 d) as [v|] eqn:E; cbn.
    + by rewrite String.eqb_refl.
    + rewrite IH. by destruct (Py.in_strs k0 ks).
  - rewrite <-IH. destruct (Py.lookup k0 d); cbn; [|done].
    by destruct (String.eqb_spec k k0).
Qed.

Lemma keys_app d e : Py.keys (d ++ e)%list = (Py.keys d ++ Py.keys e)%list.
Proof. apply map_app. Qed.

Lemma Some_VList_inj a b : Some (VList a) = Some (VList b) -> a = b.
Proof. congruence. Qed.

Lemma keys_cons kv d : Py.keys (kv :: d) = fst kv :: Py.keys d.
Proof. done. Qed.

(** What a validated contract looks like to the rest of the platform. *)
Lemma contract_presentation c p :
  validate_interaction_contract (VDict c) = Ok p ->
  interaction_presentation c = Ok p /\
  known_keys (CONTRACT_KEYS_BY_PRESENTATION p) c = true.
Proof.
  unfold validate_interaction_contract. intros H. apply bind_ok in H as (p0 & Hp & H).
  run_require. apply bind_ok in H as (? & _ & H). apply bind_ok in H as (? & _ & H).
  run_require. apply bind_ok in H as ([] & _ & [= <-]).
  apply require_str_ok in Hp as (raw & Hraw & ->).
  unfold interaction_presentation. rewrite Hraw, clean_str, Hreq. done.
Qed.

Lemma validate_question_row seen row seen' :
  validate_question seen row = Ok seen' -> exists v, public_question row = Ok v.
Proof.
  destruct row as [| | | | | |r]; try done. cbn. intros H. run_require.
  destruct (Py.get "options" r) as [| | | | |options|] eqn:Eo; try done.
  apply bind_ok in H as (u & Hopts & _).
  apply (foldM_Forall (fun o => exists v, public_option o = Ok v)) in Hopts; cycle 1.
  { intros [] o [] Ho. destruct o; try done. cbn. eauto. }
  destruct (mapM_res_total _ _ Hopts) as [l Hl].
  unfold iter_or_empty. destruct options as [|o os]; cbn [Py.truthy] in *.
  - eexists. reflexivity.
  - cbn [mbind res_bind]. rewrite Hl. eexists. reflexivity.
Qed.

Lemma valid_form_questions c :
  validate_form_contract c = Ok tt ->
  exists q qs, Py.get "questions" c = VList (q :: qs) /\
               Forall (fun row => exists v, public_question row = Ok v) (q :: qs).
Proof.
  unfold validate_form_contract.
  destruct (Py.get "questions" c) as [| | | | |[|q qs]|] eqn:Eq; try done.
  intros H. apply bind_ok in H as (seen & Hq & _).
  exists q, qs. split; [done|].
  eapply foldM_Forall; [|exact Hq]. intros a x a1. apply validate_question_row.
Qed.

Lemma valid_decision_options c :
  validate_decision_contract c = Ok tt ->
  exists o os, Py.get "options" c = VList (o :: os) /\
    Forall (fun x => exists d, x = VDict d /\ Py.nonblank_str (Py.get "id" d) = true) (o :: os).
Proof.
  unfold validate_decision_contract. intros H. run_require.
  destruct (Py.get "options" c) as [| | | | |[|o os]|] eqn:Eo; try done.
  apply bind_ok in H as (seen & Ho & _).
  exists o, os. split; [done|].
  eapply foldM_Forall; [|exact Ho]. intros a x a1 Hx. destruct x as [| | | | | |d]; try done.
  cbn in Hx. run_require. eauto.
Qed.

(** The presentation-specific half of a validated contract. *)
Lemma contract_body c p :
  validate_interaction_contract (VDict c) = Ok p ->
  (p = PRESENTATION_FORM /\ validate_form_contract c = Ok tt) \/
  (p = PRESENTATION_DECISION /\ validate_decision_contract c = Ok tt) \/
  p = PRESENTATION_TOOL_APPROVAL.
Proof.
  unfold validate_interaction_contract. intros H. apply bind_ok in H as (p0 & _ & H).
  run_require. apply bind_ok in H as (? & _ & H). apply bind_ok in H as (? & _ & H).
  run_require. apply bind_ok in H as ([] & Hb & [= <-]).
  apply in_strs_true in Hreq.
  destruct (String.eqb_spec p0 PRESENTATION_FORM) as [->|Hf]; [by left|].
  destruct (String.eqb_spec p0 PRESENTATION_DECISION) as [->|Hd]; [by right; left|].
  right; right. set_solver.
Qed.

Definition view_keys : list string :=
  (PUBLIC_INTERACTION_COMMON_KEYS ++
   ["raw_input"; "status"; "questions"; "preset_answers"; "answer"; "body"; "options"])%list.

Lemma public_status_keys v st : public_status v = Ok st -> forall k, k ∈ Py.keys st -> k = "status".
Proof.
  unfold public_status. intros H k. split_hyp H; injection H as <-; cbn; set_solver.
Qed.

Lemma public_body_keys v p body :
  (if p =s PRESENTATION_FORM then public_form v
   else if p =s PRESENTATION_DECISION then public_decision v else Ok []) = Ok body ->
  forall k, k ∈ Py.keys body ->
  k ∈ ["questions"; "preset_answers"; "answer"; "body"; "options"].
Proof.
  intros H k Hk. destruct (p =s PRESENTATION_FORM).
  - apply bind_ok in H as (rows & _ & H). apply bind_ok in H as (qs & _ & H).
    apply bind_ok in H as (ans & Ha & <-%Ok_inj).
    cbn [app] in Hk. rewrite keys_cons, keys_app in Hk.
    apply elem_of_cons in Hk as [->|Hk]; [set_solver|].
    apply elem_of_app in Hk as [Hk%keys_project|Hk]; [set_solver|].
    assert (k = "answer"); [|set_solver].
    destruct (is_answered v), (Py.get "answer" v); try by (injection Ha as <-; set_solver).
    apply bind_ok in Ha as (w & _ & [= <-]). set_solver.
  - destruct (p =s PRESENTATION_DECISION); [|injection H as <-; set_solver].
    apply bind_ok in H as (os & _ & <-%Ok_inj). rewrite keys_app in Hk.
    apply elem_of_app in Hk as [Hk%keys_project|Hk]; set_solver.
Qed.

Lemma public_question_row row v :
  public_question row = Ok v ->
  exists d os, v = VDict d /\ Py.keys d ⊆ PUBLIC_QUESTION_KEYS /\
    Py.lookup "options" d = Some (VList os) /\
    Forall (fun o => exists e, o = VDict e /\ Py.keys e ⊆ QUESTION_OPTION_KEYS) os.
Proof.
  destruct row as [| | | | | |r]; try done. intros H. apply bind_ok in H as (os & _ & H).
  apply bind_ok in H as (os' & Hos & <-%Ok_inj).
  eexists _, os'. split; [done|]. split; [|split].
  - intros k. rewrite elem_of_keys_set. intros [->|Hk%keys_project]; set_solver.
  - apply lookup_set_eq.
  - apply mapM_res_Forall2 in Hos. induction Hos as [|o o' l l' Ho _ IH]; constructor; [|done].
    destruct o as [| | | | | |o]; try done. apply Ok_inj in Ho as <-.
    eexists. split; [done|]. intros k. apply keys_project.
Qed.

Lemma public_body_rows v p body :
  (if p =s PRESENTATION_FORM then public_form v
   else if p =s PRESENTATION_DECISION then public_decision v else Ok []) = Ok body ->
  (forall qs, Py.lookup "questions" body = Some (VList qs) ->
     Forall (fun q => exists d os, q = VDict d /\ Py.keys d ⊆ PUBLIC_QUESTION_KEYS /\
       Py.lookup "options" d = Some (VList os) /\
       Forall (fun o => exists e, o = VDict e /\ Py.keys e ⊆ QUESTION_OPTION_KEYS) os) qs) /\
  (forall os, Py.lookup "options" body = Some (VList os) ->
     Forall (fun o => exists d, o = VDict d /\ Py.keys d ⊆ PUBLIC_DECISION_OPTION_KEYS) os).
Proof.
  intros H. destruct (p =s PRESENTATION_FORM); [|destruct (p =s PRESENTATION_DECISION)].
  - apply bind_ok in H as (rows & _ & H). apply bind_ok in H as (qs & Hq & H).
    apply bind_ok in H as (ans & Ha & <-%Ok_inj). split.
    + intros qs'. cbn [app Py.lookup]. change ("questions" =s "questions") with true.
      intros [= <-]. apply mapM_res_Forall2 in Hq.
      induction Hq; constructor; eauto using public_question_row.
    + intros os. rewrite !lookup_app, lookup_project.
      destruct (is_answered v), (Py.get "answer" v); try (by apply Ok_inj in Ha as <-).
      by apply bind_ok in Ha as (w & _ & <-%Ok_inj).
  - apply bind_ok in H as (os & _ & <-%Ok_inj). split.
    + intros qs. by rewrite lookup_app, lookup_project.
    + intros os'. rewrite lookup_app, lookup_project. intros <-%Some_VList_inj.
      apply Forall_fmap, Forall_forall. intros o _. eexists. split; [done|].
      intros k. apply keys_project.
  - by apply Ok_inj in H as <-.
Qed.

(** ** Properties *)

Lemma view_keys_closed v include out k :
  public_interaction_view (VDict v) include = Ok (Some out) ->
  k ∈ Py.keys out ->
  k ∈ view_keys /\ (include = false -> k <> "raw_input").
Proof.
  unfold public_interaction_view. intros H Hk. apply bind_ok in H as (p & _ & H). apply bind_ok in H as (st & Hst & H).
  apply bind_ok in H as (body & Hb & <-%Ok_inj%(inj Some)).
  pose proof (public_body_keys _ _ _ Hb) as Hbody. pose proof (public_status_keys _ _ Hst) as Hs.
  assert (Hcommon : forall x, x ∈ PUBLIC_INTERACTION_COMMON_KEYS -> x ∈ view_keys /\ x <> "raw_input").
  { apply Forall_forall. by apply (bool_decide_unpack _). }
  assert (Hb' : forall x, x ∈ ["questions"; "preset_answers"; "answer"; "body"; "options"] ->
                     x ∈ view_keys /\ x <> "raw_input").
  { apply Forall_forall. by apply (bool_decide_unpack _). }
  rewrite !keys_app, !elem_of_app in Hk.
  destruct Hk as [Hk%keys_project%Hcommon|[Hk|[->%Hs|Hk%Hbody%Hb']]].
  - naive_solver.
  - destruct include; [apply keys_project in Hk; set_solver|by apply not_elem_of_nil in Hk].
  - by split; [apply (bool_decide_unpack _)|].
  - naive_solver.
Qed.

Lemma view_rows_closed v include out :
  public_interaction_view (VDict v) include = Ok (Some out) ->
  (forall qs, Py.lookup "questions" out = Some (VList qs) ->
     Forall (fun q => exists d os, q = VDict d /\ Py.keys d ⊆ PUBLIC_QUESTION_KEYS /\
       Py.lookup "options" d = Some (VList os) /\
       Forall (fun o => exists e, o = VDict e /\ Py.keys e ⊆ QUESTION_OPTION_KEYS) os) qs) /\
  (forall os, Py.lookup "options" out = Some (VList os) ->
     Forall (fun o => exists d, o = VDict d /\ Py.keys d ⊆ PUBLIC_DECISION_OPTION_KEYS) os).
Proof.
  unfold public_interaction_view. intros H. apply bind_ok in H as (p & _ & H).
  apply bind_ok in H as (st & Hst & H). apply bind_ok in H as (body & Hb & <-%Ok_inj%(inj Some)).
  assert (Hpre : forall k, k ∈ ["questions"; "options"] ->
    Py.lookup k (project PUBLIC_INTERACTION_COMMON_KEYS v ++
                 (if include then project ["raw_input"] v else []) ++ st ++ body)%list
    = Py.lookup k body).
  { intros k Hk. rewrite !lookup_app, lookup_project.
    assert (Hs : Py.lookup k st = None).
    { apply lookup_None_keys. intros ->%(public_status_keys _ _ Hst). set_solver. }
    rewrite Hs. apply elem_of_cons in Hk as [->|Hk%list_elem_of_singleton]; [|subst k];
      by destruct include; rewrite ?lookup_project. }
  rewrite !Hpre by set_solver. by apply public_body_rows in Hb.
Qed.

(** the browser's view of an interaction carries nothing private: its keys are the
    contract's public ones, without the tool input in a shared copy; each question row
    carries only public question keys (no native answer key), each of its options only a
    label and a description, and each decision option only public option keys (no
    transcript reply, no comment prefix). *)
Theorem public_view_closed v include out :
  public_interaction_view (VDict v) include = Ok (Some out) ->
  (forall k, k ∈ Py.keys out -> k ∈ view_keys /\ (include = false -> k <> "raw_input")) /\
  (forall qs, Py.lookup "questions" out = Some (VList qs) ->
     Forall (fun q => exists d os, q = VDict d /\ Py.keys d ⊆ PUBLIC_QUESTION_KEYS /\
       Py.lookup "options" d = Some (VList os) /\
       Forall (fun o => exists e, o = VDict e /\ Py.keys e ⊆ QUESTION_OPTION_KEYS) os) qs) /\
  (forall os, Py.lookup "options" out = Some (VList os) ->
     Forall (fun o => exists d, o = VDict d /\ Py.keys d ⊆ PUBLIC_DECISION_OPTION_KEYS) os).
Proof. intros H. split; [intros k; by eapply view_keys_closed|by eapply view_rows_closed]. Qed.

(** a contract that passes validation can always be shown: its view exists for
    the owner and for a share, and it names the contract's presentation. *)
Theorem validated_contract_has_view c p include :
  validate_interaction_contract (VDict c) = Ok p ->
  exists out, public_interaction_view (VDict c) include = Ok (Some out) /\
              interaction_presentation c = Ok p.
Proof.
  intros H. destruct (contract_presentation _ _ H) as [Hp Hk].
  unfold public_interaction_view. rewrite Hp. cbn [mbind res_bind].
  assert (Hns : Py.lookup "status" c = None).
  { apply lookup_None_keys. intros Hin. unfold known_keys in Hk. rewrite forallb_forall in Hk.
    apply list_elem_of_In in Hin. specialize (Hk _ Hin).
    unfold CONTRACT_KEYS_BY_PRESENTATION in Hk. split_hyp Hk. }
  unfold public_status. rewrite Hns. cbn [mbind res_bind].
  assert (Ha : is_answered c = false) by (unfold is_answered, Py.get; by rewrite Hns).
  destruct (contract_body _ _ H) as [[-> Hf]|[[-> Hd]| ->]]; cbn [String.eqb].
  - destruct (valid_form_questions _ Hf) as (q & qs & Hq & Hall).
    destruct (mapM_res_total _ _ Hall) as [l Hl].
    change (PRESENTATION_FORM =s PRESENTATION_FORM) with true. cbn iota.
    unfold public_form. rewrite Hq, Ha. unfold iter_or_empty. cbn [Py.truthy mbind res_bind].
    rewrite Hl. eexists. split; reflexivity.
  - destruct (valid_decision_options _ Hd) as (o & os & Ho & _).
    unfold public_decision. rewrite Ho. eexists. split; reflexivity.
  - eexists. split; reflexivity.
Qed.

(** C32: the gate on answers is exact: a reply can be rendered for an answer if and
    only if the gate accepts it, a refused answer makes rendering fail with the very
    error of the gate, and an accepted answer always has a denial verdict. *)
Theorem answer_gate_exact pending response :
  (validate_interaction_response pending response = Ok tt ->
     (exists reply, render_interaction_reply pending response = Ok reply) /\
     (exists denied, is_denied_interaction_response pending response = Ok denied)) /\
  (forall e, validate_interaction_response pending response = Raise e <->
             render_interaction_reply pending response = Raise e).
Proof.
  unfold validate_interaction_response, render_interaction_reply,
    is_denied_interaction_response.
  destruct (interaction_presentation pending) as [p|e0]; cbn [mbind res_bind];
    [|naive_solver].
  destruct (p =s PRESENTATION_FORM).
  - destruct (Py.is_true _); [naive_solver|].
    destruct (validated_question_answer_rows _ _); naive_solver.
  - destruct (p =s PRESENTATION_DECISION).
    + destruct (selected_decision_option _ _); naive_solver.
    + destruct (validated_tool_approval_decision _); naive_solver.
Qed.

(** ** Witnesses *)

Definition demo_form : dict :=
  [("tool_name", VStr "AskUserQuestion"); ("presentation", VStr "form"); ("prompt", VStr "Two questions");
   ("raw_input", VDict [("secret", VStr "x")]);
   ("questions", VList [VDict [("id", VStr "q1"); ("question", VStr "Which one?"); ("header", VStr "Choice");
      ("native_answer_key", VStr "Which one?"); ("allow_free_text", VBool true); ("allow_empty_text", VBool false);
      ("options", VList [VDict [("label", VStr "A"); ("description", VStr "the first")]])]])].

Definition demo_answer : dict :=
  [("answers", VList [VDict [("question_id", VStr "q1"); ("option_labels", VList [VStr "A"; VStr "B"])]])].

(** Every label an answer gives is in its text. *)
Example demo_reply :
  render_interaction_reply demo_form demo_answer
  = Ok (join_lines ["Response to your pending questions:"; "- Choice: A, B"]).
Proof. vm_compute. reflexivity. Qed.

Lemma public_view_closed_witness :
  match public_interaction_view (VDict demo_form) false with
  | Ok (Some out) => forallb (fun k => Py.in_strs k view_keys) (Py.keys out) = true /\
                     ~ "raw_input" ∈ Py.keys out
  | _ => False
  end.
Proof.
  destruct (public_interaction_view (VDict demo_form) false) as [[out|]|e] eqn:E.
  - destruct (public_view_closed demo_form false out E) as [Hk _]. split.
    + apply forallb_forall. intros k Hin%list_elem_of_In%Hk. destruct Hin as [Hin _].
      apply existsb_exists. exists k. split; [by apply list_elem_of_In|apply String.eqb_refl].
    + intros Hin%Hk. by apply (proj2 Hin).
  - vm_compute in E. discriminate E.
  - vm_compute in E. discriminate E.
Defined.

Lemma validated_contract_has_view_witness :
  exists out, public_interaction_view (VDict demo_form) true = Ok (Some out).
Proof.
  destruct (validated_contract_has_view demo_form PRESENTATION_FORM true) as (out & H & _).
  - vm_compute. reflexivity.
  - exists out. exact H.
Defined.

Lemma answer_gate_exact_witness :
  (exists reply, render_interaction_reply demo_form demo_answer = Ok reply) /\
  (exists denied, is_denied_interaction_response demo_form demo_answer = Ok denied).
Proof. apply (proj1 (answer_gate_exact demo_form demo_answer)). vm_compute. reflexivity. Defined.

End Interaction.
