(* ===== verification/SessionRepo.v ===== *)
(** [persistence/repository/session_runtime_repository.py]: accepting inputs,
    their delivery, answers and controls, and the reader lease; recording a batch and reading
    rows back are in [SessionRecord].  Each method is a transaction over the store of
    [Schema]; [now] is the transaction's [func.now()]. *)

From S2P Require Import Prelude PyVal Schema Interaction.

Open Scope string_scope.

Module Repo.

Definition RUNTIME_PROTOCOL_INCOMPATIBLE := "runtime_protocol_incompatible".
Definition IMPORTED_SOURCE := "import".
Definition IMPORTED_ORIGIN := "import".

(** ** Statements *)

Definition opt_is (s : string) (o : option string) : bool :=
  match o with Some t => s =s t | None => false end.

Definition in_session (sid : string) (r : input_row) : bool := in_session_id r =s sid.

(** [state IN ('pending', 'delivered')]. *)
Definition open_input (r : input_row) : bool :=
  match in_state r with Pending | Delivered => true | _ => false end.

Definition update_readers (cond : reader_row -> bool) (set : reader_row -> reader_row)
  : txn db nat := fun d =>
  Ok (count_where cond (db_readers d), set_readers (update_where cond set (db_readers d)) d).
Definition update_inputs (cond : input_row -> bool) (set : input_row -> input_row)
  : txn db nat := fun d =>
  Ok (count_where cond (db_inputs d), set_inputs (update_where cond set (db_inputs d)) d).
Definition update_responses (cond : response_row -> bool) (set : response_row -> response_row)
  : txn db nat := fun d =>
  Ok (count_where cond (db_responses d),
      set_responses (update_where cond set (db_responses d)) d).
Definition update_interactions (cond : interaction_row -> bool)
  (set : interaction_row -> interaction_row) : txn db nat := fun d =>
  Ok (count_where cond (db_interactions d),
      set_interactions (update_where cond set (db_interactions d)) d).
Definition update_sessions (cond : session_row -> bool) (set : session_row -> session_row)
  : txn db nat := fun d =>
  Ok (count_where cond (db_sessions d),
      set_sessions (update_where cond set (db_sessions d)) d).
Definition update_attachments (cond : attachment_row -> bool)
  (set : attachment_row -> attachment_row) : txn db nat := fun d =>
  Ok (count_where cond (db_attachments d),
      set_attachments (update_where cond set (db_attachments d)) d).
Definition update_controls (cond : control_row -> bool) (set : control_row -> control_row)
  : txn db nat := fun d =>
  Ok (count_where cond (db_controls d),
      set_controls (update_where cond set (db_controls d)) d).

Definition notify (sid kind : string) (seq : Z) : txn db unit :=
  modify (fun d => set_notices (db_notices d ++ [SessionNotice sid kind seq]) d)%list.

(** [.one()] and [.scalar_one()]. *)
Definition one {A} (rows : list A) : txn db A :=
  match rows with
  | [r] => mret r
  | _ => throw NoResultFound
  end.

(** ** Conditions shared by statements *)

Definition ended_state (s : session_row) : bool :=
  Py.in_strs (ss_state s) ["TERMINATED"; "DELETED"].

(** [coalesce(recovery_reason, '') != 'runtime_protocol_incompatible']. *)
Definition protocol_readable (s : session_row) : bool :=
  negb (default "" (ss_recovery_reason s) =s RUNTIME_PROTOCOL_INCOMPATIBLE).

(** [_accepting]: the session can take an input from [owner_user_id]. *)
Definition accepting (owner_user_id : option string) (d : db) (s : session_row) : bool :=
  negb (ss_deleted s) && negb (ended_state s) && protocol_readable s &&
  negb (exists_where (fun a => opt_is (ag_agent_id a) (ss_agent_id s) &&
                               negb (ag_state a =s "ACTIVE")) (db_agents d)) &&
  match owner_user_id with Some u => ss_user_id s =s u | None => true end.

(** [_reader_protocol_eligible]. *)
Definition reader_protocol_eligible (s : session_row) : bool :=
  ss_deleted s || bool_decide (is_Some (ss_archived_at s)) || ended_state s ||
  protocol_readable s.

(** [_WORKSPACE_OWN]. *)
Definition workspace_own (s : session_row) : bool :=
  ss_hidden s && opt_is "assistant_workspace" (ss_owner_type s).

(** [_holds]: the row still carries the lease's owner and generation. *)
Definition holds (lease : ReaderLease) (r : reader_row) : bool :=
  (rd_session_id r =s ls_session_id lease) && (rd_owner r =s ls_owner lease) &&
  (rd_generation r =? ls_generation lease)%Z.

(** ** Inputs *)

Definition set_input_state (st : input_state) (delivered admitted : option Z)
  (failure : option dict) (r : input_row) : input_row :=
  InputRow (in_input_id r) (in_session_id r) (in_seq r) (in_client_message_id r)
    (in_author_user_id r) (in_source r) (in_content r) (in_content_blocks r) st
    (in_response_id r) failure (in_import_record r) (in_created_at r) delivered admitted
    (in_conversation_order r).

Definition set_input_response (rid : string) (r : input_row) : input_row :=
  InputRow (in_input_id r) (in_session_id r) (in_seq r) (in_client_message_id r)
    (in_author_user_id r) (in_source r) (in_content r) (in_content_blocks r) (in_state r)
    (Some rid) (in_failure r) (in_import_record r) (in_created_at r) (in_delivered_at r)
    (in_admitted_at r) (in_conversation_order r).

Definition set_input_order (n : Z) (r : input_row) : input_row :=
  InputRow (in_input_id r) (in_session_id r) (in_seq r) (in_client_message_id r)
    (in_author_user_id r) (in_source r) (in_content r) (in_content_blocks r) (in_state r)
    (in_response_id r) (in_failure r) (in_import_record r) (in_created_at r)
    (in_delivered_at r) (in_admitted_at r) (Some n).

Definition touch_session (now : Z) (s : session_row) : session_row :=
  SessionRow (ss_session_id s) (ss_environment_name s) (ss_user_id s) (ss_agent_id s)
    (ss_owner_type s) (ss_hidden s) (ss_state s) (ss_deleted s) (ss_archived_at s) now
    (ss_last_output_at s) (ss_runtime_status s) (ss_runtime_status_at s) (ss_sandbox_id s)
    (ss_sandbox_parked_at s) (ss_runtime_unavailable s) (ss_recovery_reason s)
    (ss_last_error s) (ss_reader_cursor s).

(** What a caller sends with an input. *)
Record new_input := NewInput {
  ni_session_id : string;
  ni_input_id : string;
  ni_client_message_id : string;
  ni_content : string;
  ni_content_blocks : option (list val);
  ni_owner_user_id : option string;
  ni_author_user_id : option string;
  ni_source : option string;
  ni_attachments : list (string * string);
  ni_attachment_owner : option string
}.

(** [UniqueConstraint("session_id", "client_message_id")]. *)
Definition same_message (a b : input_row) : bool :=
  (in_session_id a =s in_session_id b) && (in_client_message_id a =s in_client_message_id b).

Definition input_row_of (n : new_input) (seq now : Z) : input_row :=
  InputRow (ni_input_id n) (ni_session_id n) seq (ni_client_message_id n)
    (ni_author_user_id n) (ni_source n) (ni_content n) (ni_content_blocks n) Pending None
    None None now None None None.

Definition attachment_free (n : new_input) (clock : Z) (aid : string) (a : attachment_row)
  : bool :=
  (at_attachment_id a =s aid) && bool_decide (at_session_id a = None) &&
  opt_is (at_owner_user_id a) (ni_attachment_owner n) &&
  match at_expires_at a with Some t => (clock <? t)%Z | None => false end.

(** Bind one staged file to the input, or refuse the whole acceptance. *)
Definition bind_attachment (n : new_input) (clock : Z) (att : nat * (string * string))
  : txn db unit :=
  let '(ordinal, (aid, kind)) := att in
  bound ← update_attachments (attachment_free n clock aid) (fun a =>
    AttachmentRow (at_attachment_id a) (at_owner_user_id a) (Some (ni_session_id n))
      (Some (ni_input_id n)) (Some (Z.of_nat ordinal)) (Some kind) None);
  if (bound =? 1)%nat then mret tt
  else throw (APIError "INPUT_ATTACHMENT_UNAVAILABLE" 409).

(** The transaction of [accept_input]: [None] when no row was inserted. *)
Definition accept_body (n : new_input) (now clock : Z) : txn db (option input_row) :=
  d ← get_state;
  let row := input_row_of n (db_next_input_seq d) now in
  let eligible := exists_where (fun s => (ss_session_id s =s ni_session_id n) &&
                                         accepting (ni_owner_user_id n) d s) (db_sessions d) in
  if negb eligible || exists_where (same_message row) (db_inputs d) then mret None
  else
    _ ← modify_res (fun d =>
          inputs ← insert_unique (fun a b => in_input_id a =s in_input_id b) row (db_inputs d);
          Ok (set_next_input_seq (db_next_input_seq d + 1) (set_inputs inputs d)));
    _ ← forM (bind_attachment n clock) (imap pair (ni_attachments n));
    _ ← update_sessions (fun s => ss_session_id s =s ni_session_id n) (touch_session now);
    d' ← get_state;
    stored ← one (select_where (fun r => in_input_id r =s ni_input_id n) (db_inputs d'));
    _ ← notify (ni_session_id n) "input" 0;
    mret (Some stored).

(** [accept_input]: the stored input and whether this call created it. *)
Definition accept_input (n : new_input) (now clock : Z) (d : db)
  : res (option (input_row * bool)) * db :=
  match transaction (accept_body n now clock) d with
  | (Raise e, d') => (Raise e, d')
  | (Ok (Some row), d') => (Ok (Some (row, true)), d')
  | (Ok None, d') =>
      (Ok (match List.find (fun r =>
                    in_session (ni_session_id n) r &&
                    (in_client_message_id r =s ni_client_message_id n) &&
                    exists_where (fun s => (ss_session_id s =s in_session_id r) &&
                                           accepting (ni_owner_user_id n) d' s)
                      (db_sessions d')) (db_inputs d') with
           | Some row => Some (row, false)
           | None => None
           end), d')
  end.

Definition mark_delivered (input_ids : list string) (now : Z) (d : db) : db :=
  match input_ids with
  | [] => d
  | _ => set_inputs (update_where (fun r => Py.in_strs (in_input_id r) input_ids &&
                                            bool_decide (in_state r = Pending))
           (fun r => set_input_state Delivered (Some now) (in_admitted_at r) (in_failure r) r)
           (db_inputs d)) d
  end.

Definition mark_failed (input_id : string) (failure : dict) (d : db) : db :=
  set_inputs (update_where (fun r => (in_input_id r =s input_id) && open_input r)
    (fun r => set_input_state Failed (in_delivered_at r) (in_admitted_at r) (Some failure) r)
    (db_inputs d)) d.

(** [ORDER BY seq]; [seq] is an identity column and rows are kept as inserted. *)
Definition open_input_ids (sid : string) (d : db) : list string :=
  map in_input_id (select_where (fun r => in_session sid r && open_input r) (db_inputs d)).

Definition undelivered_inputs (sid : string) (d : db) : list input_row :=
  select_where (fun r => in_session sid r && bool_decide (in_state r = Pending)) (db_inputs d).

(** Returns how many inputs went back to [pending]. *)
Definition reclaim_unadmitted (sid : string) (d : db) : nat * db :=
  let cond r := in_session sid r && bool_decide (in_state r = Delivered) in
  (count_where cond (db_inputs d),
   set_inputs (update_where cond
     (fun r => set_input_state Pending None (in_admitted_at r) (in_failure r) r)
     (db_inputs d)) d).

Definition get_input (sid input_id : string) (d : db) : option input_row :=
  List.find (fun r => in_session sid r && (in_input_id r =s input_id)) (db_inputs d).

(** ** Answers and controls *)

Definition is_interaction (sid iid : string) (r : interaction_row) : bool :=
  (ia_session_id r =s sid) && (ia_interaction_id r =s iid).

Definition open_interaction (r : interaction_row) : bool := bool_decide (ia_status r = IOpen).

Definition set_answer (answer : dict) (by_ : string) (now : Z) (r : interaction_row)
  : interaction_row :=
  InteractionRow (ia_session_id r) (ia_interaction_id r) (ia_response_id r) (ia_contract r)
    (ia_status r) (Some answer) (Some by_) (Some now) (ia_opened_at r) (ia_closed_at r).

Definition close_interaction_row (st : interaction_status) (now : Z) (r : interaction_row)
  : interaction_row :=
  InteractionRow (ia_session_id r) (ia_interaction_id r) (ia_response_id r) (ia_contract r)
    st (ia_answer r) (ia_answered_by r) (ia_answered_at r) (ia_opened_at r) (Some now).

Definition request_answer_body (sid iid : string) (answer : dict) (answered_by : string)
  (now : Z) : txn db bool :=
  n ← update_interactions (fun r => is_interaction sid iid r && open_interaction r &&
                                    bool_decide (ia_answer r = None))
        (set_answer answer answered_by now);
  if (n =? 0)%nat then mret false
  else _ ← notify sid "answer" 0; mret true.

Definition request_answer (sid iid : string) (answer : dict) (answered_by : string) (now : Z)
  (d : db) : res bool * db := transaction (request_answer_body sid iid answer answered_by now) d.

Definition pending_answer (sid : string) (r : interaction_row) : bool :=
  (ia_session_id r =s sid) && open_interaction r && bool_decide (is_Some (ia_answer r)).

(** [control_id] is the fresh [uuid4]. *)
Definition request_control_body (sid control_id kind : string) (target requested_by : option string)
  (now : Z) : txn db (option string) :=
  d ← get_state;
  let live := select_where (fun r => (rd_session_id r =s sid) && (now <? rd_expires_at r)%Z)
                (db_readers d) in
  match live with
  | [] => mret None
  | _ =>
      _ ← modify (fun d => set_controls (db_controls d ++
            map (fun r => ControlRow control_id (rd_session_id r) kind target
                            (rd_generation r) requested_by CPending None now None) live)%list d);
      _ ← notify sid "control" 0;
      mret (Some control_id)
  end.

Definition request_control (sid control_id kind : string) (target requested_by : option string)
  (now : Z) (d : db) : res (option string) * db :=
  transaction (request_control_body sid control_id kind target requested_by now) d.

Definition pending_controls (lease : ReaderLease) (d : db) : list control_row :=
  select_where (fun r => (ct_session_id r =s ls_session_id lease) &&
                         bool_decide (ct_state r = CPending) &&
                         (ct_reader_generation r =? ls_generation lease)%Z) (db_controls d).

Definition set_control (st : control_state) (error : option string) (applied : option Z)
  (r : control_row) : control_row :=
  ControlRow (ct_control_id r) (ct_session_id r) (ct_kind r) (ct_target r)
    (ct_reader_generation r) (ct_requested_by r) st error (ct_requested_at r) applied.

Definition settle_control (control_id : string) (state : control_state) (error : option string)
  (now : Z) (d : db) : db :=
  set_controls (update_where (fun r => (ct_control_id r =s control_id) &&
                                       bool_decide (ct_state r = CPending))
    (set_control state error (Some now)) (db_controls d)) d.

Definition expire_controls (sid : string) (before_generation : Z) (d : db) : db :=
  set_controls (update_where (fun r => (ct_session_id r =s sid) &&
                                       bool_decide (ct_state r = CPending) &&
                                       (ct_reader_generation r <? before_generation)%Z)
    (fun r => set_control CExpired (ct_error r) (ct_applied_at r) r) (db_controls d)) d.

(** ** The reader lease *)

Definition set_expiry (t : Z) (r : reader_row) : reader_row :=
  ReaderRow (rd_session_id r) (rd_owner r) (rd_generation r) t.

Definition reader_eligible (env sid : string) (s : session_row) : bool :=
  (ss_session_id s =s sid) && (ss_environment_name s =s env) && negb (workspace_own s) &&
  reader_protocol_eligible s.

Definition reader_of (sid : string) (r : reader_row) : bool := rd_session_id r =s sid.

(** The row [claim_reader] may take over: expired, or already [owner]'s. *)
Definition claimable (sid owner : string) (now : Z) (r : reader_row) : bool :=
  reader_of sid r && ((rd_expires_at r <? now)%Z || (rd_owner r =s owner)).

Definition claim_body (env sid owner : string) (ttl now : Z) : txn db (option ReaderLease) :=
  d ← get_state;
  if negb (exists_where (reader_eligible env sid) (db_sessions d)) then mret None
  else
    _ ← modify (fun d => set_readers
          (insert_if_absent (fun a b => rd_session_id a =s rd_session_id b)
             (ReaderRow sid owner 0 (now + ttl)) (db_readers d)) d);
    n ← update_readers (claimable sid owner now)
          (fun r => ReaderRow (rd_session_id r) owner (rd_generation r + 1) (now + ttl));
    if (n =? 0)%nat then mret None
    else
      d' ← get_state;
      row ← one (select_where (reader_of sid) (db_readers d'));
      mret (Some (MkLease sid owner (rd_generation row))).

Definition claim_reader (env sid owner : string) (ttl now : Z) (d : db)
  : res (option ReaderLease) * db := transaction (claim_body env sid owner ttl now) d.

Definition renew_reader (lease : ReaderLease) (ttl now : Z) (d : db) : bool * db :=
  ((0 <? count_where (holds lease) (db_readers d))%nat,
   set_readers (update_where (holds lease) (set_expiry (now + ttl)) (db_readers d)) d).

Definition release_reader (lease : ReaderLease) (now : Z) (d : db) : db :=
  set_readers (update_where (holds lease) (set_expiry now) (db_readers d)) d.

Definition live_reader (sid : string) (now : Z) (r : reader_row) : bool :=
  reader_of sid r && (now <? rd_expires_at r)%Z.

Definition reader_owner (sid : string) (now : Z) (d : db) : option string :=
  match List.find (live_reader sid now) (db_readers d) with
  | Some r => Interaction.str_or_none (rd_owner r)
  | None => None
  end.

(** Which sessions have no live reader and need one. *)
Definition needs_reader (env : string) (now : Z) (d : db) (s : session_row) : bool :=
  let sid := ss_session_id s in
  let reader_live := exists_where (live_reader sid now) (db_readers d) in
  let inputs_waiting := exists_where (fun r => in_session sid r && open_input r) (db_inputs d) in
  let runtime_live := negb (default "" (ss_sandbox_id s) =s "") &&
                      negb (ss_runtime_unavailable s) &&
                      bool_decide (ss_sandbox_parked_at s = None) in
  let responses_open := exists_where (fun r => (rs_session_id r =s sid) &&
                                               negb (bool_decide (rs_status r = Ended)))
                          (db_responses d) in
  let ready := negb (ss_deleted s) && (ss_state s =s "READY") &&
               (runtime_live || inputs_waiting) in
  let ended_holding := ended_state s && inputs_waiting in
  (ss_environment_name s =s env) && reader_protocol_eligible s && negb reader_live &&
  negb (workspace_own s) && (ready || responses_open || ended_holding).

Definition sessions_needing_readers (env : string) (now : Z) (limit : nat) (d : db)
  : list string :=
  take limit (map ss_session_id (select_where (needs_reader env now d) (db_sessions d))).

Definition output_of (sid : string) (r : output_row) : bool := ou_session_id r =s sid.

(** [coalesce(max(seq), 0)]. *)
Definition max_seq (sid : string) (d : db) : Z :=
  fold_right Z.max 0%Z (map ou_seq (select_where (output_of sid) (db_output d))).

Definition resume_point (sid : string) (d : db) : Z * option dict :=
  match List.find (fun s => ss_session_id s =s sid) (db_sessions d) with
  | None => (0%Z, None)
  | Some s => (max_seq sid d, ss_reader_cursor s)
  end.

End Repo.
