(* ===== verification/SessionRecord.v ===== *)
(** [session_runtime_repository.py], second half: what a reader's batch writes
    ([_apply], [record]), the display positions of older records
    ([_index_recorded_messages]), the pages and rows read back, and imported
    history. *)

From stdpp Require Import sorting.
From S2P Require Import Prelude PyVal Schema Interaction SessionRepo.

Open Scope string_scope.

Module Rec.
Import Repo.

(** ** Facts *)

Definition is_response (sid rid : string) (r : response_row) : bool :=
  (rs_session_id r =s sid) && (rs_response_id r =s rid).

Definition set_response_status (st : response_status) (r : response_row) : response_row :=
  ResponseRow (rs_session_id r) (rs_response_id r) (rs_seq r) (rs_origin r) st (rs_outcome r)
    (rs_native_reason r) (rs_usage r) (rs_error r) (rs_import_record r) (rs_started_at r)
    (rs_ended_at r) (rs_conversation_order r).

Definition end_response (outcome : string) (reason : option string) (usage error : option dict)
  (now : Z) (r : response_row) : response_row :=
  ResponseRow (rs_session_id r) (rs_response_id r) (rs_seq r) (rs_origin r) Ended (Some outcome)
    reason usage error (rs_import_record r) (rs_started_at r) (Some now)
    (rs_conversation_order r).

Definition set_response_order (n : Z) (r : response_row) : response_row :=
  ResponseRow (rs_session_id r) (rs_response_id r) (rs_seq r) (rs_origin r) (rs_status r)
    (rs_outcome r) (rs_native_reason r) (rs_usage r) (rs_error r) (rs_import_record r)
    (rs_started_at r) (rs_ended_at r) (Some n).

Definition new_response (sid rid origin : string) (seq now : Z) : response_row :=
  ResponseRow sid rid seq origin Running None None None None None now None None.

Definition same_link (a b : response_input_row) : bool :=
  (ri_session_id a =s ri_session_id b) && (ri_response_id a =s ri_response_id b) &&
  (ri_input_id a =s ri_input_id b).

(** [insert_if_absent_primary_key] on responses.  The identity column's next value
    is drawn only for a row that is inserted; gaps in it are not modelled. *)
Definition insert_response (sid rid origin : string) (now : Z) : txn db unit :=
  modify (fun d =>
    if exists_where (is_response sid rid) (db_responses d) then d
    else set_next_response_seq (db_next_response_seq d + 1)
           (set_responses (db_responses d ++
              [new_response sid rid origin (db_next_response_seq d) now])%list d)).

(** One link; its input must exist (foreign key). *)
Definition insert_link (sid rid : string) (iid : string) : txn db unit :=
  modify_res (fun d =>
    if exists_where (fun r => in_input_id r =s iid) (db_inputs d)
    then Ok (set_response_inputs
               (insert_if_absent same_link (ResponseInputRow sid rid iid) (db_response_inputs d)) d)
    else Raise IntegrityError).

Definition insert_interaction (sid rid iid : string) (contract : dict) (now : Z) : txn db unit :=
  modify (fun d => set_interactions
    (insert_if_absent (fun a b => is_interaction (ia_session_id a) (ia_interaction_id a) b)
       (InteractionRow sid iid rid contract IOpen None None None now None)
       (db_interactions d)) d).

(** The interactions of response [rid] that are open. *)
Definition open_of_response (sid rid : string) (r : interaction_row) : bool :=
  (ia_session_id r =s sid) && (ia_response_id r =s rid) && open_interaction r.

Definition in_ids (sid : string) (ids : list string) (r : input_row) : bool :=
  in_session sid r && Py.in_strs (in_input_id r) ids.

Definition apply_start (sid : string) (now : Z) (rid origin : string) (ids : list string)
  : txn db unit :=
  _ ← insert_response sid rid origin now;
  match ids with
  | [] => mret tt
  | _ =>
      _ ← forM (insert_link sid rid) ids;
      _ ← update_inputs (in_ids sid ids) (set_input_response rid);
      mret tt
  end.

Definition unordered_input (sid mid : string) (r : input_row) : bool :=
  in_session sid r && (in_input_id r =s mid) && bool_decide (in_conversation_order r = None).
Definition unordered_response (sid mid : string) (r : response_row) : bool :=
  is_response sid mid r && bool_decide (rs_conversation_order r = None).

Definition apply_position (sid : string) (kind : position_kind) (mid : string) (seq : Z)
  : txn db unit :=
  _ ← match kind with
      | KInput => update_inputs (unordered_input sid mid) (set_input_order (seq * 2))
      | KResponse => update_responses (unordered_response sid mid) (set_response_order (seq * 2))
      end;
  mret tt.

Definition apply_end (sid : string) (now : Z) (rid outcome : string) (reason : option string)
  (usage error : option dict) : txn db unit :=
  _ ← update_responses (fun r => is_response sid rid r && negb (bool_decide (rs_status r = Ended)))
        (end_response outcome reason usage error now);
  _ ← update_interactions (open_of_response sid rid) (close_interaction_row IWithdrawn now);
  mret tt.

Definition apply_open (sid : string) (now : Z) (rid iid : string) (contract : dict)
  : txn db unit :=
  _ ← insert_interaction sid rid iid contract now;
  _ ← update_responses (fun r => is_response sid rid r && bool_decide (rs_status r = Running))
        (set_response_status Waiting);
  mret tt.

Definition apply_close (sid : string) (now : Z) (iid : string) (status : interaction_status)
  : txn db unit :=
  let closing r := is_interaction sid iid r && open_interaction r in
  d ← get_state;
  match List.find closing (db_interactions d) with
  | None => mret tt
  | Some closed =>
      let rid := ia_response_id closed in
      _ ← update_interactions closing (close_interaction_row status now);
      d' ← get_state;
      let still_open := exists_where (open_of_response sid rid) (db_interactions d') in
      _ ← update_responses (fun r => is_response sid rid r &&
                                     bool_decide (rs_status r = Waiting) && negb still_open)
            (set_response_status Running);
      mret tt
  end.

Definition apply_admitted (sid : string) (now : Z) (ids : list string) : txn db unit :=
  match ids with
  | [] => mret tt
  | _ =>
      _ ← update_inputs (fun r => in_ids sid ids r && open_input r)
            (fun r => set_input_state AdmittedInput (in_delivered_at r) (Some now) (in_failure r) r);
      mret tt
  end.

Definition apply_failed (sid : string) (ids : list string) (failure : dict) : txn db unit :=
  match ids with
  | [] => mret tt
  | _ =>
      _ ← update_inputs (fun r => in_ids sid ids r && open_input r)
            (fun r => set_input_state Failed (in_delivered_at r) (in_admitted_at r)
                        (Some failure) r);
      mret tt
  end.

(** [_apply]. *)
Definition apply (sid : string) (now : Z) (fact : Fact) : txn db unit :=
  match fact with
  | ResponseStart rid origin ids => apply_start sid now rid origin ids
  | MessagePosition kind mid seq => apply_position sid kind mid seq
  | ResponseEnd rid outcome reason usage error => apply_end sid now rid outcome reason usage error
  | InteractionOpen rid iid contract => apply_open sid now rid iid contract
  | InteractionClose iid status _ => apply_close sid now iid status
  | InputsAdmitted ids => apply_admitted sid now ids
  | InputsFailed ids failure => apply_failed sid ids failure
  end.

(** ** Display positions of recorded messages *)

(** [column["k"]] of a JSON column: a missing key or a non-object is SQL [NULL]. *)
Definition jget (k : string) (v : val) : val :=
  match v with VDict d => Py.get k d | _ => VNone end.

(** [.as_string()]; the text of an array or object is the provider's own. *)
Definition json_text (v : val) : option string :=
  match v with
  | VNone => None
  | VBool b => Some (if b then "true" else "false")
  | VStr s => Some s
  | _ => Some (Py.repr v)
  end.

Definition part_type (r : output_row) : option string := json_text (Py.get "type" (ou_part r)).

(** Display parts of the output log that are not a response's own content. *)
Definition structural : list string := ["start"; "message-metadata"; "data-input-consumed"].

Definition native_content (r : output_row) : bool :=
  match part_type r with
  | Some t => negb (Py.in_strs t structural) && negb (Py.is_true (Py.get "transient" (ou_part r)))
  | None => false
  end.

Definition of_response (sid rid : string) (r : output_row) : bool :=
  output_of sid r && opt_is rid (ou_response_id r).

Definition order_marker (sid : string) (r : output_row) : bool :=
  output_of sid r && bool_decide (ou_response_id r = None) && opt_is "data-message-order" (part_type r).

Definition input_marker (sid iid : string) (r : output_row) : bool :=
  order_marker sid r &&
  opt_is "input" (json_text (jget "kind" (Py.get "data" (ou_part r)))) &&
  opt_is iid (json_text (jget "id" (Py.get "data" (ou_part r)))).

Definition missing_input (sid : string) (d : db) (r : input_row) : bool :=
  in_session sid r && bool_decide (in_conversation_order r = None) &&
  (opt_is IMPORTED_SOURCE (in_source r) ||
   exists_where (input_marker sid (in_input_id r)) (db_output d) ||
   match in_response_id r with
   | Some rid => exists_where (of_response sid rid) (db_output d)
   | None => false
   end).

Definition missing_response (sid : string) (d : db) (r : response_row) : bool :=
  (rs_session_id r =s sid) && bool_decide (rs_conversation_order r = None) &&
  ((rs_origin r =s IMPORTED_ORIGIN) ||
   exists_where (fun o => of_response sid (rs_response_id r) o && native_content o) (db_output d)).

(** [min(l)] over no rows is [NULL]. *)
Fixpoint min_of (l : list Z) : option Z :=
  match l with
  | [] => None
  | x :: l' => Some (match min_of l' with Some y => Z.min x y | None => x end)
  end.

(** [func.min(seq) * 2] over the rows [cond] selects. *)
Definition min_position (cond : output_row -> bool) (d : db) : option Z :=
  (fun s => s * 2)%Z <$> min_of (map ou_seq (select_where cond (db_output d))).

Definition consumed_position (sid iid : string) (d : db) : option Z :=
  min_position (fun r => output_of sid r && opt_is "data-input-consumed" (part_type r) &&
                         opt_is iid (json_text (jget "inputId" (Py.get "data" (ou_part r))))) d.

(** One half position before the first part of each response the input started. *)
Definition anchor_position (sid iid : string) (d : db) : option Z :=
  min_of (omap (fun link =>
            (fun p => p - 1)%Z <$> min_position (of_response sid (ri_response_id link)) d)
          (select_where (fun l => (ri_session_id l =s sid) && (ri_input_id l =s iid))
             (db_response_inputs d))).

(** What one stored marker says: its lane, the message's id and its position. *)
Definition read_marker (part : dict) : res (position_kind * string * Z) :=
  data ← Py.item "data" part;
  kind ← Py.vitem "kind" data;
  lane ← match kind with
         | VStr "input" => Ok KInput
         | VStr "response" => Ok KResponse
         | VList _ | VDict _ => Raise TypeError
         | _ => Raise KeyError
         end;
  id ← Py.vitem "id" data;
  order ← Py.vitem "order" data;
  n ← Py.int order;
  Ok (lane, Py.str id, n).

Definition observed_position (kind : position_kind) (mid : string)
  (markers : list (position_kind * string * Z)) : option Z :=
  min_of (omap (fun m => let '(k, i, n) := m in
                 if bool_decide (k = kind) && (i =s mid) then Some n else None) markers).

Definition or_else {A} (o o' : option A) : option A :=
  match o with Some a => Some a | None => o' end.

(** The position an unordered message is given, if any. *)
Definition position_for (import_record : option dict) (position : option Z) : res (option Z) :=
  match import_record with
  | Some record => v ← Py.item "position" record; n ← Py.int v; Ok (Some n)
  | None => Ok position
  end.

Definition input_position (sid : string) (d : db) (markers : list (position_kind * string * Z))
  (r : input_row) : res (option (string * Z)) :=
  if bool_decide (is_Some (in_conversation_order r)) then Ok None
  else
    p ← position_for (in_import_record r)
          (or_else (observed_position KInput (in_input_id r) markers)
             (or_else (consumed_position sid (in_input_id r) d)
                (anchor_position sid (in_input_id r) d)));
    Ok (option_map (fun n => (in_input_id r, n)) p).

Definition response_position (sid : string) (d : db) (markers : list (position_kind * string * Z))
  (r : response_row) : res (option (string * Z)) :=
  if bool_decide (is_Some (rs_conversation_order r)) then Ok None
  else
    p ← position_for (rs_import_record r)
          (or_else (observed_position KResponse (rs_response_id r) markers)
             (min_position (fun o => of_response sid (rs_response_id r) o && native_content o) d));
    Ok (option_map (fun n => (rs_response_id r, n)) p).

Definition lift {A} (r : res A) : txn db A := fun d =>
  match r with Ok a => Ok (a, d) | Raise e => Raise e end.

(** The [write] of [_index_recorded_messages]. *)
Definition index_body (sid : string) : txn db unit :=
  d ← get_state;
  markers ← lift (mapM_res (fun r => read_marker (ou_part r))
                    (select_where (order_marker sid) (db_output d)));
  inputs ← lift (mapM_res (input_position sid d markers)
                   (select_where (in_session sid) (db_inputs d)));
  _ ← forM (fun v => _ ← update_inputs (unordered_input sid (fst v)) (set_input_order (snd v));
                     mret tt) (omap id inputs);
  responses ← lift (mapM_res (response_position sid d markers)
                      (select_where (fun r => rs_session_id r =s sid) (db_responses d)));
  forM (fun v => _ ← update_responses (unordered_response sid (fst v)) (set_response_order (snd v));
                 mret tt) (omap id responses).

(** [_index_recorded_messages]: nothing to do unless a message lacks a position it
    could have. *)
Definition index_recorded_messages (sid : string) : txn db unit :=
  d ← get_state;
  if exists_where (missing_input sid d) (db_inputs d) ||
     exists_where (missing_response sid d) (db_responses d)
  then index_body sid else mret tt.

(** ** Recording a batch *)

(** [output = {part.seq: part ..}]: assignment keeps a key's place in the dict. *)
Fixpoint put_part (p : OutputPart) (output : list OutputPart) : list OutputPart :=
  match output with
  | [] => [p]
  | q :: rest => if (op_seq q =? op_seq p)%Z then p :: rest else q :: put_part p rest
  end.

Definition part_le (a b : OutputPart) : Prop := (op_seq a <= op_seq b)%Z.
#[export] Instance part_le_dec a b : Decision (part_le a b).
Proof. unfold part_le. apply _. Defined.

(** The position a message holds: the database's, which may be older than this batch. *)
Definition stored_order (sid : string) (kind : position_kind) (mid : string) (d : db)
  : list (option Z) :=
  match kind with
  | KInput => map in_conversation_order
      (select_where (fun r => in_session sid r && (in_input_id r =s mid)) (db_inputs d))
  | KResponse => map rs_conversation_order
      (select_where (is_response sid mid) (db_responses d))
  end.

Definition kind_text (k : position_kind) : string :=
  match k with KInput => "input" | KResponse => "response" end.

Definition order_part (kind : position_kind) (mid : string) (seq : Z) (order : option Z)
  : OutputPart :=
  MkPart seq None
    [("type", VStr "data-message-order"); ("transient", VBool true);
     ("data", VDict [("kind", VStr (kind_text kind)); ("id", VStr mid);
                     ("order", match order with Some n => VInt n | None => VNone end)])].

Definition opt_dict (o : option dict) : val :=
  match o with Some d => VDict d | None => VNone end.

(** [{**row["contract"], "status": .., "answer": ..}]. *)
Definition interaction_value (r : interaction_row) : dict :=
  Py.set "answer" (opt_dict (ia_answer r))
    (Py.set "status" (VStr (interaction_status_text (ia_status r))) (ia_contract r)).

Definition settlement_part (r : interaction_row) (iid : string) (seq : Z) (data : option dict)
  : OutputPart :=
  MkPart seq (Some (ia_response_id r))
    [("type", VStr "data-interaction"); ("id", VStr iid); ("data", opt_dict data)].

(** The body of the loop that materialises a fact's reserved part. *)
Definition fact_part (sid : string) (output : list OutputPart) (fact : Fact)
  : txn db (list OutputPart) :=
  d ← get_state;
  match fact with
  | MessagePosition kind mid seq =>
      order ← one (stored_order sid kind mid d);
      mret (put_part (order_part kind mid seq order) output)
  | InteractionClose iid _ (Some seq) =>
      row ← one (select_where (is_interaction sid iid) (db_interactions d));
      data ← lift (Interaction.public_interaction_view (VDict (interaction_value row)) true);
      mret (put_part (settlement_part row iid seq data) output)
  | _ => mret output
  end.

Fixpoint fact_parts (sid : string) (output : list OutputPart) (facts : list Fact)
  : txn db (list OutputPart) :=
  match facts with
  | [] => mret output
  | f :: rest => output' ← fact_part sid output f; fact_parts sid output' rest
  end.

(** [PRIMARY KEY (session_id, seq)]. *)
Definition same_output (a b : output_row) : bool :=
  (ou_session_id a =s ou_session_id b) && (ou_seq a =? ou_seq b)%Z.

Definition output_row_of (sid : string) (now : Z) (p : OutputPart) : output_row :=
  OutputRow sid (op_seq p) (op_response_id p) (op_part p) now.

Definition insert_output (sid : string) (now : Z) (output : list OutputPart) : txn db unit :=
  modify_res (fun d =>
    rows ← foldM (fun t p => insert_unique same_output (output_row_of sid now p) t)
             (db_output d) output;
    Ok (set_output rows d)).

Definition is_position (f : Fact) : bool :=
  match f with MessagePosition _ _ _ => true | _ => false end.
Definition is_end (f : Fact) : bool :=
  match f with ResponseEnd _ _ _ _ _ => true | _ => false end.
Definition is_nil {A} (l : list A) : bool := match l with [] => true | _ => false end.
Definition some {A} (o : option A) : bool := match o with Some _ => true | None => false end.

(** [session_values]: what the session row takes from the batch. *)
Definition session_values (now : Z) (b : FactBatch) (output : list OutputPart) (s : session_row)
  : session_row :=
  SessionRow (ss_session_id s) (ss_environment_name s) (ss_user_id s) (ss_agent_id s)
    (ss_owner_type s) (ss_hidden s) (ss_state s) (ss_deleted s) (ss_archived_at s)
    (if existsb is_end (fb_facts b) then now else ss_updated_at s)
    (if is_nil output then ss_last_output_at s else Some now)
    (or_else (fb_status b) (ss_runtime_status s))
    (if some (fb_status b) then Some now else ss_runtime_status_at s)
    (ss_sandbox_id s) (ss_sandbox_parked_at s) (ss_runtime_unavailable s)
    (if some (fb_protocol_error b) then Some RUNTIME_PROTOCOL_INCOMPATIBLE
     else ss_recovery_reason s)
    (or_else (fb_protocol_error b) (ss_last_error s))
    (or_else (fb_cursor b) (ss_reader_cursor s)).

Definition has_session_values (b : FactBatch) (output : list OutputPart) : bool :=
  some (fb_protocol_error b) || some (fb_cursor b) || some (fb_status b) ||
  negb (is_nil output) || existsb is_end (fb_facts b).

Definition last_seq (output : list OutputPart) : Z :=
  match map op_seq output with [] => 0%Z | x :: l => fold_left Z.max l x end.

Definition write_session (sid : string) (now : Z) (b : FactBatch) (output : list OutputPart)
  : txn db unit :=
  if negb (has_session_values b output) then mret tt
  else
    n ← update_sessions (fun s => ss_session_id s =s sid) (session_values now b output);
    _ ← (if (negb (is_nil output) || negb (is_nil (fb_facts b)) || some (fb_status b)) &&
            (0 <? n)%nat
         then notify sid "output" (last_seq output) else mret tt);
    if some (fb_protocol_error b) then notify sid "session" 0 else mret tt.

(** The [write] of [record]: [None] when the lease is lost, else the output it
    stored, which [batch.output[:] = ..] hands back to the reader. *)
Definition record_body (lease : ReaderLease) (b : FactBatch) (ttl now : Z)
  : txn db (option (list OutputPart)) :=
  n ← update_readers (holds lease) (set_expiry (now + ttl));
  if (n =? 0)%nat then mret None
  else
    let sid := ls_session_id lease in
    _ ← (if existsb is_position (fb_facts b) then index_recorded_messages sid else mret tt);
    _ ← forM (apply sid now) (fb_facts b);
    let output := fold_left (fun acc p => put_part p acc) (fb_output b) [] in
    output' ← fact_parts sid output (fb_facts b);
    let sorted := merge_sort part_le output' in
    _ ← insert_output sid now sorted;
    _ ← write_session sid now b sorted;
    mret (Some sorted).

Definition record (lease : ReaderLease) (b : FactBatch) (ttl now : Z) (d : db)
  : res (option (list OutputPart)) * db :=
  if batch_nonempty b then transaction (record_body lease b ttl now) d
  else let '(held, d') := renew_reader lease ttl now d in
       (Ok (if held then Some (fb_output b) else None), d').

(** ** Reads *)

Definition seq_le (a b : output_row) : Prop := (ou_seq a <= ou_seq b)%Z.
#[export] Instance seq_le_dec a b : Decision (seq_le a b).
Proof. unfold seq_le. apply _. Defined.

Definition read_output (sid : string) (after_seq : Z) (limit : nat) (d : db) : list output_row :=
  take limit (merge_sort seq_le
    (select_where (fun r => output_of sid r && (after_seq <? ou_seq r)%Z) (db_output d))).

Definition output_for_responses (sid : string) (rids : list string) (through_seq : option Z)
  (d : db) : list output_row :=
  match rids with
  | [] => []
  | _ =>
      merge_sort seq_le
        (select_where (fun r => output_of sid r &&
             match ou_response_id r with Some rid => Py.in_strs rid rids | None => false end &&
             match through_seq with Some t => (ou_seq r <=? t)%Z | None => true end)
           (db_output d))
  end.

(** Each row as [(interaction_id, status, answer)]. *)
Definition response_interactions (sid : string) (rids : list string) (d : db)
  : list (string * interaction_status * option dict) :=
  map (fun r => (ia_interaction_id r, ia_status r, ia_answer r))
    (select_where (fun r => (ia_session_id r =s sid) && Py.in_strs (ia_response_id r) rids)
       (db_interactions d)).

(** Answers that took effect or still can. *)
Definition approval_answers (sid : string) (rids : list string) (d : db)
  : list (string * option dict) :=
  map (fun r => (ia_interaction_id r, ia_answer r))
    (select_where (fun r => (ia_session_id r =s sid) && Py.in_strs (ia_response_id r) rids &&
                            some (ia_answer r) &&
                            match ia_status r with IOpen | IAnswered => true | _ => false end)
       (db_interactions d)).

(** The last [limit] parts, in order, and how many there are. *)
Definition response_output_tail (sid rid : string) (limit : nat) (d : db)
  : list output_row * nat :=
  let all := merge_sort seq_le (select_where (of_response sid rid) (db_output d)) in
  (reverse (take limit (reverse all)), length all).

(** ** History *)

(** The sort key of a history entry: phase, position, kind, seq. *)
Record entry_key := EntryKey { ek_phase : Z; ek_position : Z; ek_kind : Z; ek_seq : Z }.

#[export] Instance entry_key_eq : EqDecision entry_key.
Proof. solve_decision. Defined.

(** [tuple_(..) < tuple_(..)]. *)
Definition key_lt (a b : entry_key) : bool :=
  (ek_phase a <? ek_phase b)%Z || (ek_phase a =? ek_phase b)%Z &&
  ((ek_position a <? ek_position b)%Z || (ek_position a =? ek_position b)%Z &&
   ((ek_kind a <? ek_kind b)%Z || (ek_kind a =? ek_kind b)%Z && (ek_seq a <? ek_seq b)%Z)).

(** [ORDER BY .. DESC]. *)
Definition key_ge (a b : entry_key) : Prop := key_lt a b = false.
#[export] Instance key_ge_dec a b : Decision (key_ge a b).
Proof. unfold key_ge. apply _. Defined.

Definition make_key (imported : bool) (order : option Z) (kind seq : Z) (through_seq : option Z)
  : entry_key :=
  let observed := match order with
                  | Some n => match through_seq with
                              | Some t => imported || (n <=? t * 2)%Z
                              | None => true
                              end
                  | None => false
                  end in
  EntryKey (if imported then 0 else if observed then 1 else 2)%Z
    (match order with Some n => if observed then n else seq | None => seq end) kind seq.

Definition input_key (through_seq : option Z) (r : input_row) : entry_key :=
  make_key (opt_is IMPORTED_SOURCE (in_source r)) (in_conversation_order r) 0 (in_seq r) through_seq.
Definition response_key (through_seq : option Z) (r : response_row) : entry_key :=
  make_key (rs_origin r =s IMPORTED_ORIGIN) (rs_conversation_order r) 1 (rs_seq r) through_seq.

Definition entries (sid : string) (through_seq : option Z) (d : db) : list entry_key :=
  (map (input_key through_seq) (select_where (in_session sid) (db_inputs d)) ++
   map (response_key through_seq)
     (select_where (fun r => rs_session_id r =s sid) (db_responses d)))%list.

Record history_page_view := HistoryPage {
  hp_entries : list entry_key;
  hp_inputs : list input_row;
  hp_responses : list response_row;
  hp_links : list response_input_row;
  hp_has_more : bool;
  hp_before : option entry_key
}.

Definition in_zs (z : Z) (l : list Z) : bool := existsb (Z.eqb z) l.

Definition seqs_of (kind : Z) (l : list entry_key) : list Z :=
  map ek_seq (List.filter (fun k => ek_kind k =? kind)%Z l).

Definition input_seq_le (a b : input_row) : Prop := (in_seq a <= in_seq b)%Z.
#[export] Instance input_seq_le_dec a b : Decision (input_seq_le a b).
Proof. unfold input_seq_le. apply _. Defined.
Definition response_seq_le (a b : response_row) : Prop := (rs_seq a <= rs_seq b)%Z.
#[export] Instance response_seq_le_dec a b : Decision (response_seq_le a b).
Proof. unfold response_seq_le. apply _. Defined.

(** The rows of one page, newest first: [limit + 1] of those before the bound. *)
Definition page_rows (before : option entry_key) (limit : nat) (l : list entry_key)
  : list entry_key :=
  take (limit + 1) (merge_sort key_ge
    (match before with Some b => List.filter (fun k => key_lt k b) l | None => l end)).

Definition page_of (sid : string) (before : option entry_key) (limit : nat)
  (through_seq : option Z) (d : db) : history_page_view :=
  let rows := page_rows before limit (entries sid through_seq d) in
  let has_more := (limit <? length rows)%nat in
  let page := reverse (take limit rows) in
  let inputs := merge_sort input_seq_le (select_where (fun r =>
        in_session sid r && in_zs (in_seq r) (seqs_of 0 page)) (db_inputs d)) in
  let responses := merge_sort response_seq_le (select_where (fun r =>
        (rs_session_id r =s sid) && in_zs (rs_seq r) (seqs_of 1 page)) (db_responses d)) in
  HistoryPage page inputs responses
    (select_where (fun l => (ri_session_id l =s sid) &&
                            Py.in_strs (ri_response_id l) (map rs_response_id responses))
       (db_response_inputs d))
    has_more
    (if has_more then List.hd_error page else None).

Definition history_page (sid : string) (before : option entry_key) (limit : nat)
  (through_seq : option Z) (d : db) : res history_page_view * db :=
  match transaction (index_recorded_messages sid) d with
  | (Raise e, d') => (Raise e, d')
  | (Ok _, d') => (Ok (page_of sid before limit through_seq d'), d')
  end.

(** ** What the session view shows *)

Definition open_responses (sid : string) (d : db) : list response_row :=
  merge_sort response_seq_le
    (select_where (fun r => (rs_session_id r =s sid) && negb (bool_decide (rs_status r = Ended)))
       (db_responses d)).

Definition opened_le (a b : interaction_row) : Prop := (ia_opened_at a <= ia_opened_at b)%Z.
#[export] Instance opened_le_dec a b : Decision (opened_le a b).
Proof. unfold opened_le. apply _. Defined.

Record activity_view := Activity {
  av_open_responses : list response_row;
  av_last_response : option response_row;
  av_open_interactions : list interaction_row;
  av_held_inputs : list input_row
}.

Definition activity (sid : string) (d : db) : activity_view :=
  Activity (open_responses sid d)
    (List.hd_error (reverse (merge_sort response_seq_le
       (select_where (fun r => (rs_session_id r =s sid) && bool_decide (rs_status r = Ended) &&
                               negb (rs_origin r =s IMPORTED_ORIGIN)) (db_responses d)))))
    (merge_sort opened_le (select_where (fun r => (ia_session_id r =s sid) && open_interaction r)
       (db_interactions d)))
    (merge_sort input_seq_le (select_where (fun r => in_session sid r && open_input r)
       (db_inputs d))).

Definition open_response_ids (sid : string) (d : db) : list string :=
  map rs_response_id (select_where (fun r => (rs_session_id r =s sid) &&
                        negb (bool_decide (rs_status r = Ended))) (db_responses d)).

Definition open_interaction_ids (sid : string) (d : db) : list string :=
  map ia_interaction_id (select_where (fun r => (ia_session_id r =s sid) && open_interaction r)
                           (db_interactions d)).

Definition get_interaction (sid iid : string) (d : db) : option interaction_row :=
  List.find (is_interaction sid iid) (db_interactions d).

Definition get_response (sid rid : string) (d : db) : option response_row :=
  List.find (is_response sid rid) (db_responses d).

Definition linked (sid rid iid : string) (d : db) : bool :=
  exists_where (same_link (ResponseInputRow sid rid iid)) (db_response_inputs d).

Definition response_for_input (sid iid : string) (d : db) : option response_row :=
  List.find (fun r => (rs_session_id r =s sid) && linked sid (rs_response_id r) iid d)
    (db_responses d).

Definition input_by_client_message_id (sid cmid : string) (d : db) : option input_row :=
  List.find (fun r => in_session sid r && (in_client_message_id r =s cmid)) (db_inputs d).

Definition inputs_for_response (sid rid : string) (d : db) : list input_row :=
  merge_sort input_seq_le
    (select_where (fun r => in_session sid r && linked sid rid (in_input_id r) d) (db_inputs d)).

(** The response's place among those the conversation started itself. *)
Definition response_ordinal (sid rid : string) (d : db) : option nat :=
  match get_response sid rid d with
  | None => None
  | Some started =>
      match count_where (fun r => (rs_session_id r =s sid) && negb (rs_origin r =s IMPORTED_ORIGIN) &&
                                  (rs_seq r <=? rs_seq started)%Z) (db_responses d) with
      | 0%nat => None
      | n => Some n
      end
  end.

Definition open_interactions_for_response (sid rid : string) (d : db) : list interaction_row :=
  merge_sort opened_le (select_where (open_of_response sid rid) (db_interactions d)).

(** ** Imported history *)

Definition record_position (record : option dict) : res Z :=
  match record with
  | Some r => v ← Py.item "position" r; Py.int v
  | None => Raise TypeError
  end.

Record imported_row := ImportedRow {
  im_position : Z; im_role : history_role; im_record : option dict
}.
Definition position_le (a b : imported_row) : Prop := (im_position a <= im_position b)%Z.
#[export] Instance position_le_dec a b : Decision (position_le a b).
Proof. unfold position_le. apply _. Defined.

(** The session's imported messages by their declared position. *)
Definition imported_history (sid : string) (d : db) : res (list imported_row) :=
  let rows := (map (fun r => (RoleUser, in_import_record r))
                 (select_where (fun r => in_session sid r && opt_is IMPORTED_SOURCE (in_source r))
                    (db_inputs d)) ++
               map (fun r => (RoleAssistant, rs_import_record r))
                 (select_where (fun r => (rs_session_id r =s sid) &&
                                         (rs_origin r =s IMPORTED_ORIGIN)) (db_responses d)))%list in
  keyed ← mapM_res (fun row => n ← record_position (snd row);
                               Ok (ImportedRow n (fst row) (snd row))) rows;
  Ok (merge_sort position_le keyed).

Definition own_message (sid : string) (d : db) : bool :=
  exists_where (fun r => in_session sid r && negb (opt_is IMPORTED_SOURCE (in_source r)))
    (db_inputs d) ||
  exists_where (fun r => (rs_session_id r =s sid) && negb (rs_origin r =s IMPORTED_ORIGIN))
    (db_responses d).

(** Which imported user message an id names: [imported_inputs]. *)
Definition import_index := list (string * string).

Definition index_find (source_id : string) (m : import_index) : option string :=
  match List.find (fun e => fst e =s source_id) m with Some e => Some (snd e) | None => None end.

Definition imported_inputs (sid : string) (d : db) : res import_index :=
  l ← mapM_res (fun r => match in_import_record r with
                         | Some record => v ← Py.item "source_id" record; Ok (Py.str v, in_input_id r)
                         | None => Raise TypeError
                         end)
        (select_where (fun r => in_session sid r && opt_is IMPORTED_SOURCE (in_source r))
           (db_inputs d));
  Ok (reverse l).

Definition insert_input (row : input_row) : txn db unit :=
  modify_res (fun d =>
    _ ← raise_if (exists_where (same_message row) (db_inputs d)) IntegrityError;
    inputs ← insert_unique (fun a b => in_input_id a =s in_input_id b) row (db_inputs d);
    Ok (set_next_input_seq (db_next_input_seq d + 1) (set_inputs inputs d))).

(** A user message: an [imported] input under a fresh id. *)
Definition import_user (sid input_id : string) (entry : HistoryEntry) : txn db unit :=
  d ← get_state;
  position ← lift (record_position (Some (he_record entry)));
  insert_input (InputRow input_id sid (db_next_input_seq d)
    (IMPORTED_SOURCE ++ ":" ++ he_source_id entry) None (Some IMPORTED_SOURCE) (he_content entry)
    (he_content_blocks entry) Imported None None (Some (he_record entry)) (he_created_at entry)
    None None (Some position)).

(** A reply: an ended response, linked to the user message it answers. *)
Definition import_reply (sid : string) (index : import_index) (entry : HistoryEntry)
  : txn db unit :=
  let rid := IMPORTED_ORIGIN ++ ":" ++ he_source_id entry in
  d ← get_state;
  position ← lift (record_position (Some (he_record entry)));
  _ ← modify_res (fun d =>
        rows ← insert_unique (fun a b => is_response (rs_session_id a) (rs_response_id a) b)
          (ResponseRow sid rid (db_next_response_seq d) IMPORTED_ORIGIN Ended (he_outcome entry)
             None None None (Some (he_record entry)) (he_created_at entry)
             (Some (he_created_at entry)) (Some position)) (db_responses d);
        Ok (set_next_response_seq (db_next_response_seq d + 1) (set_responses rows d)));
  match index_find (default "" (he_parent_source_id entry)) index with
  | None => mret tt
  | Some parent =>
      _ ← modify_res (fun d =>
            rows ← insert_unique same_link (ResponseInputRow sid rid parent) (db_response_inputs d);
            Ok (set_response_inputs rows d));
      _ ← update_inputs (fun r => in_input_id r =s parent) (set_input_response rid);
      mret tt
  end.

(** The loop over entries; [fresh] are the ids [uuid4] returns. *)
Fixpoint import_entries (sid : string) (fresh : list string) (index : import_index)
  (entries : list HistoryEntry) : txn db unit :=
  match entries with
  | [] => mret tt
  | entry :: rest =>
      match he_role entry, fresh with
      | RoleUser, input_id :: fresh' =>
          _ ← import_user sid input_id entry;
          import_entries sid fresh' ((he_source_id entry, input_id) :: index) rest
      | RoleUser, [] => throw RuntimeError
      | RoleAssistant, _ =>
          _ ← import_reply sid index entry;
          import_entries sid fresh index rest
      end
  end.

Definition import_history_body (sid : string) (fresh : list string) (entries : list HistoryEntry)
  : txn db bool :=
  d ← get_state;
  if own_message sid d then mret false
  else
    index ← lift (imported_inputs sid d);
    _ ← import_entries sid fresh index entries;
    mret true.

Definition import_history (sid : string) (fresh : list string) (entries : list HistoryEntry)
  (d : db) : res bool * db := transaction (import_history_body sid fresh entries) d.
End Rec.
