(* ===== verification/DemoStore.v ===== *)
(** A small concrete store on which the properties' hypotheses are exercised. *)

From S2P Require Import Prelude PyVal Schema Interaction SessionRepo SessionRecord.

Open Scope string_scope.

Definition demo_session : session_row :=
  SessionRow "s1" "prod" "u1" None None false "READY" false None 0 None None None
    (Some "box1") None false None None None.

(** A store with one ready session and nothing else. *)
Definition demo_db : db := Db [demo_session] [] [] [] [] [] [] [] [] [] [] 1 1.

Definition demo_input : Repo.new_input :=
  Repo.NewInput "s1" "i1" "m1" "hello" None (Some "u1") (Some "u1") None [] None.

(** The input is accepted, the reader "a" claims the session and a turn is recorded. *)
Definition demo_db1 : db := snd (Repo.accept_input demo_input 10 10 demo_db).
Definition demo_db2 : db := snd (Repo.claim_reader "prod" "s1" "a" 100 20 demo_db1).
Definition demo_lease : ReaderLease := MkLease "s1" "a" 1.

Definition demo_contract : dict :=
  [("tool_name", VStr "Bash"); ("presentation", VStr "tool_approval");
   ("prompt", VStr "Run it?"); ("raw_input", VDict [("command", VStr "ls")])].

Definition demo_batch : FactBatch :=
  MkBatch [MkPart 1 (Some "r1") [("type", VStr "text-delta"); ("delta", VStr "hi")]]
    [ResponseStart "r1" "input" ["i1"]; InputsAdmitted ["i1"];
     MessagePosition KInput "i1" 2; InteractionOpen "r1" "x1" demo_contract;
     InteractionClose "x1" IAnswered (Some 3%Z)]
    (Some [("offset", VInt 7)]) (Some "running") None.

Definition demo_db3 : db := snd (Rec.record demo_lease demo_batch 100 30 demo_db2).

(** The turn ends. *)
Definition demo_end : FactBatch :=
  MkBatch [] [ResponseEnd "r1" "completed" None None None] None None None.
Definition demo_db4 : db := snd (Rec.record demo_lease demo_end 100 40 demo_db3).

Example demo_claim : fst (Repo.claim_reader "prod" "s1" "a" 100 20 demo_db1) = Ok (Some demo_lease).
Proof. reflexivity. Qed.

Example demo_recorded :
  match fst (Rec.record demo_lease demo_batch 100 30 demo_db2) with
  | Ok (Some output) => map op_seq output = [1; 2; 3]%Z
  | _ => False
  end.
Proof. vm_compute. reflexivity. Qed.
