(* ===== verification/SessionReads.v ===== *)
(** [persistence/repository/session_read_repository.py]: the page's other reads of the
    output log.  The runtime's own transcripts ([child_transcript_scopes]) are stored by a
    part that is not modelled. *)

From stdpp Require Import sorting.
From S2P Require Import Prelude PyVal Schema Interaction SessionRepo SessionRecord DemoStore.

Open Scope string_scope.

Module Reads.
Import Repo Rec.

Definition CHILD_RUN_PART := "data-subagent".

Definition of_responses (sid : string) (rids : list string) (r : output_row) : bool :=
  output_of sid r && match ou_response_id r with Some rid => Py.in_strs rid rids | None => false end.

Definition through (through_seq : option Z) (r : output_row) : bool :=
  match through_seq with Some t => (ou_seq r <=? t)%Z | None => true end.

(** [max(seq)]; [NULL] over no rows. *)
Fixpoint max_of (l : list Z) : option Z :=
  match l with
  | [] => None
  | x :: l' => Some (match max_of l' with Some y => Z.max x y | None => x end)
  end.

(** The [seq] of a response's last stored part. *)
Definition last_seq_of (sid : string) (through_seq : option Z) (d : db) (rid : string) : option Z :=
  max_of (map ou_seq (select_where (fun r => of_response sid rid r && through through_seq r) (db_output d))).

(** [last_output_seqs]: an entry per response that has a part. *)
Definition last_output_seqs (sid : string) (rids : list string) (through_seq : option Z) (d : db)
  : list (string * Z) :=
  omap (fun rid => match last_seq_of sid through_seq d rid with Some s => Some (rid, s) | None => None end)
    (remove_dups rids).

(** The order of [ORDER BY last]. *)
Definition last_le (a b : string * Z) : Prop := (snd a <= snd b)%Z.
#[export] Instance last_le_dec a b : Decision (last_le a b).
Proof. unfold last_le. apply _. Defined.

(** The rows of [responses_ended_between]: a response with a part in the window whose last
    part is not after it, with that part's number. *)
Definition ended_rows (sid : string) (after_seq through_seq : Z) (d : db) : list (string * Z) :=
  let in_window := omap ou_response_id
    (select_where (fun r => output_of sid r && (after_seq <? ou_seq r)%Z && (ou_seq r <=? through_seq)%Z)
       (db_output d)) in
  let last := List.filter (fun e => (snd e <=? through_seq)%Z) (last_output_seqs sid in_window None d) in
  merge_sort last_le
    (List.filter (fun e => exists_where (fun r => is_response sid (fst e) r && bool_decide (rs_status r = Ended))
                             (db_responses d)) last).

(** [responses_ended_between]. *)
Definition responses_ended_between (sid : string) (after_seq through_seq : Z) (d : db) : list string :=
  map fst (ended_rows sid after_seq through_seq d).

(** [parts_of_type]. *)
Definition parts_of_type (sid type : string) (rids : list string) (through_seq : Z) (d : db)
  : list output_row :=
  match rids with
  | [] => []
  | _ => merge_sort seq_le
           (select_where (fun r => of_responses sid rids r && (ou_seq r <=? through_seq)%Z &&
                                   opt_is type (part_type r)) (db_output d))
  end.

Record child_part := ChildPart { ch_seq : Z; ch_id : option string; ch_data : val }.

(** [json_without_key(data, "content")]. *)
Definition without_content (data : val) : val :=
  match data with VDict d => VDict (Py.pop "content" d) | v => v end.

(** [child_run_parts]. *)
Definition child_run_parts (sid : string) (engine_ref : option string) (with_content : bool) (d : db)
  : list child_part :=
  map (fun r =>
    let data := Py.get "data" (ou_part r) in
    ChildPart (ou_seq r) (json_text (Py.get "id" (ou_part r)))
      (if negb with_content && opt_is "message" (json_text (jget "kind" data)) then without_content data else data))
  (merge_sort seq_le
    (select_where (fun r => output_of sid r && opt_is CHILD_RUN_PART (part_type r) &&
       match engine_ref with
       | Some ref => opt_is ref (json_text (jget "engineRef" (Py.get "data" (ou_part r))))
       | None => true
       end) (db_output d))).

(** [inputs_for_response]. *)
Definition inputs_for_response (sid rid : string) (d : db) : list input_row :=
  merge_sort input_seq_le
    (select_where (fun i => exists_where (fun l => (ri_input_id l =s in_input_id i) &&
        (ri_session_id l =s sid) && (ri_response_id l =s rid)) (db_response_inputs d)) (db_inputs d)).

(** [waiting_interaction]. *)
Definition waiting_interaction (sid : string) (d : db) : option interaction_row :=
  head (merge_sort opened_le
    (select_where (fun r => (ia_session_id r =s sid) && open_interaction r && bool_decide (ia_answer r = None))
       (db_interactions d))).

(** ** The log a read sees *)

(** Each number is stored once. *)
Definition unique_output (sid : string) (d : db) : Prop :=
  NoDup (map ou_seq (select_where (output_of sid) (db_output d))).

Lemma seq_le_trans : Transitive seq_le.
Proof. intros x y z. unfold seq_le. lia. Qed.
Lemma seq_le_total : Total seq_le.
Proof. intros x y. unfold seq_le. lia. Qed.

Lemma max_of_spec l m : max_of l = Some m -> m ∈ l /\ forall x, x ∈ l -> (x <= m)%Z.
Proof.
  revert m. induction l as [|x l IH]; intros m H; [done|]. cbn in H.
  destruct (max_of l) as [y|] eqn:E; injection H as <-.
  - destruct (IH y eq_refl) as [Hy Hall]. split.
    + destruct (Z.max_spec x y) as [[_ ->]|[_ ->]]; set_solver.
    + intros z [->|Hz]%elem_of_cons; [lia|]. specialize (Hall z Hz). lia.
  - destruct l as [|z l]; [|cbn in E; by destruct (max_of l)].
    split; [set_solver|]. intros z ->%list_elem_of_singleton. lia.
Qed.

Lemma max_of_none l : max_of l = None -> l = [].
Proof. destruct l as [|x l]; [done|]. cbn. by destruct (max_of l). Qed.

Lemma max_of_member l x : x ∈ l -> is_Some (max_of l).
Proof. destruct (max_of l) eqn:E; [by eauto|]. apply max_of_none in E. set_solver. Qed.

Lemma of_response_true sid rid r :
  of_response sid rid r = true <-> ou_session_id r = sid /\ ou_response_id r = Some rid.
Proof.
  unfold of_response, output_of, opt_is. rewrite andb_true_iff, String.eqb_eq.
  destruct (ou_response_id r) as [x|]; [rewrite String.eqb_eq|]; naive_solver.
Qed.

(** The last number of a response is that of one of its stored parts, and bounds them all. *)
Lemma last_seq_of_some sid through_seq d rid last :
  last_seq_of sid through_seq d rid = Some last ->
  (exists o, o ∈ db_output d /\ ou_session_id o = sid /\ ou_response_id o = Some rid /\
             through through_seq o = true /\ ou_seq o = last) /\
  forall o, o ∈ db_output d -> ou_session_id o = sid -> ou_response_id o = Some rid ->
            through through_seq o = true -> (ou_seq o <= last)%Z.
Proof.
  intros [Hin Hmax]%max_of_spec. apply list_elem_of_fmap in Hin as (o & -> & Hin).
  apply elem_of_select_where in Hin as [[Ho Ht]%andb_true_iff Hin]. apply of_response_true in Ho as [Hs Hr].
  split; [by exists o|]. intros o1 H1 Hs1 Hr1 Ht1. apply Hmax, list_elem_of_fmap. exists o1.
  split; [done|]. apply elem_of_select_where. by rewrite (proj2 (of_response_true _ _ _)), Ht1.
Qed.

Lemma last_seq_of_none sid through_seq d rid o :
  last_seq_of sid through_seq d rid = None ->
  o ∈ db_output d -> ou_session_id o = sid -> ou_response_id o = Some rid -> through through_seq o = false.
Proof.
  intros Hn%max_of_none Ho Hs Hr. destruct (through through_seq o) eqn:Ht; [|done]. exfalso.
  apply fmap_nil_inv in Hn. apply (elem_of_nil o). rewrite <-Hn. apply elem_of_select_where.
  by rewrite (proj2 (of_response_true _ _ _)), Ht.
Qed.

Lemma elem_of_last_output_seqs sid rids through_seq d rid last :
  (rid, last) ∈ last_output_seqs sid rids through_seq d <->
  rid ∈ rids /\ last_seq_of sid through_seq d rid = Some last.
Proof.
  unfold last_output_seqs. rewrite list_elem_of_omap. setoid_rewrite elem_of_remove_dups. split.
  - intros (r & Hr & H). destruct (last_seq_of sid through_seq d r) eqn:E; [|done].
    injection H as <- <-. done.
  - intros [Hr E]. exists rid. by rewrite E.
Qed.

(** ** Following the responses that end *)

Definition ended (sid rid : string) (d : db) : bool :=
  exists_where (fun r => is_response sid rid r && bool_decide (rs_status r = Ended)) (db_responses d).

Lemma elem_of_ended_rows sid a b d rid last :
  (rid, last) ∈ ended_rows sid a b d <->
  ended sid rid d = true /\ last_seq_of sid None d rid = Some last /\ (a < last <= b)%Z.
Proof.
  unfold ended_rows. rewrite merge_sort_Permutation, list_elem_of_In, !List.filter_In, <-list_elem_of_In.
  rewrite elem_of_last_output_seqs, list_elem_of_omap. cbn [fst snd]. split.
  - intros [[[(o & [Hw Ho]%elem_of_select_where & Hr) Hl] Hle] He]. split_and!; [done..| |by bool_prop].
    apply last_seq_of_some in Hl as [_ Hmax]. unfold output_of in Hw. bool_prop.
    assert (ou_seq o <= last)%Z by by apply Hmax. lia.
  - intros (He & Hl & Hw). pose proof (last_seq_of_some _ _ _ _ _ Hl) as [(o & Ho & Hs & Hr & _ & <-) _].
    split_and!; [|done|apply Z.leb_le; lia|done]. exists o. split; [|done]. apply elem_of_select_where.
    unfold output_of. rewrite Hs, String.eqb_refl. cbn. rewrite (proj2 (Z.ltb_lt _ _)), (proj2 (Z.leb_le _ _)) by lia.
    done.
Qed.

Lemma NoDup_last_output_seqs sid rids t d : NoDup (last_output_seqs sid rids t d).
Proof.
  unfold last_output_seqs. generalize (NoDup_remove_dups rids). induction 1 as [|rid l Hn Hl IH]; cbn; [constructor|].
  destruct (last_seq_of sid t d rid) as [s|]; cbn; [|done]. constructor; [|done].
  intros (r & Hr & H)%list_elem_of_omap. destruct (last_seq_of sid t d r); [|done]. injection H as <- _. done.
Qed.

Lemma NoDup_ended_rows sid a b d : NoDup (ended_rows sid a b d).
Proof.
  unfold ended_rows. rewrite merge_sort_Permutation.
  do 2 apply NoDup_ListNoDup, List.NoDup_filter, NoDup_ListNoDup; apply NoDup_last_output_seqs.
Qed.

Lemma last_le_trans : Transitive last_le.
Proof. intros x y z. unfold last_le. lia. Qed.
Lemma last_le_total : Total last_le.
Proof. intros x y. unfold last_le. lia. Qed.

Lemma ended_rows_sorted sid a b d : StronglySorted last_le (ended_rows sid a b d).
Proof. pose proof last_le_trans. pose proof last_le_total. apply StronglySorted_merge_sort; apply _. Qed.

(** Two responses do not end with the same part. *)
Lemma last_part_one sid d rid1 rid2 last :
  unique_output sid d -> last_seq_of sid None d rid1 = Some last -> last_seq_of sid None d rid2 = Some last ->
  rid1 = rid2.
Proof.
  intros Hu [(o1 & H1 & Hs1 & Hr1 & _ & Hl1) _]%last_seq_of_some [(o2 & H2 & Hs2 & Hr2 & _ & Hl2) _]%last_seq_of_some.
  assert (o1 = o2); [|congruence].
  eapply (NoDup_map_inj ou_seq); [exact Hu|..|congruence]; apply elem_of_select_where; unfold output_of;
    rewrite ?Hs1, ?Hs2, String.eqb_refl; done.
Qed.

Lemma ended_rows_split sid a b c d :
  unique_output sid d -> (a <= b <= c)%Z ->
  ended_rows sid a c d = (ended_rows sid a b d ++ ended_rows sid b c d)%list.
Proof.
  intros Hu Hab. apply (StronglySorted_unique_strong last_le).
  - intros [r1 s1] [r2 s2] H1 H2 Hle Hge. unfold last_le in *. cbn in *. assert (s1 = s2) as -> by lia.
    f_equal. apply elem_of_ended_rows in H1 as (_ & H1 & _).
    apply elem_of_app in H2 as [H2|H2]; apply elem_of_ended_rows in H2 as (_ & H2 & _);
      by eapply last_part_one.
  - apply ended_rows_sorted.
  - apply StronglySorted_app. split_and!; [|apply ended_rows_sorted..].
    intros [r1 s1] [r2 s2] (_ & _ & H1)%elem_of_ended_rows (_ & _ & H2)%elem_of_ended_rows. unfold last_le. cbn. lia.
  - apply NoDup_Permutation; [apply NoDup_ended_rows| |].
    + apply NoDup_app. split_and!; [apply NoDup_ended_rows| |apply NoDup_ended_rows].
      intros [r s] (_ & _ & H1)%elem_of_ended_rows (_ & _ & H2)%elem_of_ended_rows. lia.
    + intros [r s]. rewrite elem_of_app, !elem_of_ended_rows.
      destruct (Z.le_gt_cases s b); intuition lia.
Qed.

(** Reading the ended responses window after window gives each one once, in the order of
    their last parts, exactly when that part is in the window: no response is missed or met
    twice, however the log is cut. *)
Theorem ended_windows_follow sid a b c d :
  unique_output sid d -> (a <= b <= c)%Z ->
  responses_ended_between sid a c d
    = (responses_ended_between sid a b d ++ responses_ended_between sid b c d)%list /\
  NoDup (responses_ended_between sid a c d) /\
  forall rid, rid ∈ responses_ended_between sid a c d <->
    ended sid rid d = true /\ exists last, last_seq_of sid None d rid = Some last /\ (a < last <= c)%Z.
Proof.
  intros Hu Hab. unfold responses_ended_between. rewrite <-map_app. split_and!.
  - by rewrite <-ended_rows_split.
  - assert (Hf : forall x y, x ∈ ended_rows sid a c d -> y ∈ ended_rows sid a c d -> fst x = fst y -> x = y).
    { intros [r1 s1] [r2 s2] H1%elem_of_ended_rows H2%elem_of_ended_rows E. cbn in E. subst.
      destruct H1 as (_ & H1 & _), H2 as (_ & H2 & _). congruence. }
    revert Hf. generalize (NoDup_ended_rows sid a c d). induction 1 as [|x l Hn Hl IH]; intros Hf; cbn; constructor.
    + intros (y & E & Hy)%list_elem_of_fmap. apply Hn. rewrite (Hf x y); [done|set_solver..|done].
    + apply IH. intros; apply Hf; set_solver.
  - intros rid. rewrite list_elem_of_fmap. split.
    + intros ([r s] & -> & H%elem_of_ended_rows). naive_solver.
    + intros (He & last & H). exists (rid, last). split; [done|]. by apply elem_of_ended_rows.
Qed.

End Reads.

Import Repo Rec Reads.

Lemma ended_windows_follow_witness :
  unique_output "s1" demo_db4 /\
  responses_ended_between "s1" 0 5 demo_db4
    = (responses_ended_between "s1" 0 2 demo_db4 ++ responses_ended_between "s1" 2 5 demo_db4)%list /\
  responses_ended_between "s1" 2 5 demo_db4 = ["r1"].
Proof.
  assert (Hu : unique_output "s1" demo_db4) by (unfold unique_output; vm_compute; repeat constructor; set_solver).
  split_and!; [exact Hu|apply (ended_windows_follow "s1" 0 2 5 demo_db4 Hu); lia|vm_compute; reflexivity].
Defined.
