(* ===== verification/RepoHistory.v ===== *)
(** What the operations of [SessionRepo] and [SessionRecord] can do to the rows of a
    session over any history: terminal states stay, positions and answers are written
    once, the output log only grows. *)

From S2P Require Import Prelude PyVal Schema Interaction SessionRepo SessionRecord DemoStore.

Open Scope string_scope.

Module History.
Import Repo Rec.

(** ** How rows may change *)

Record input_step (r r' : input_row) : Prop := InputStep {
  ist_identity : in_input_id r' = in_input_id r /\ in_session_id r' = in_session_id r /\
                 in_seq r' = in_seq r /\ in_client_message_id r' = in_client_message_id r;
  ist_message : in_content r' = in_content r /\ in_content_blocks r' = in_content_blocks r /\
                in_source r' = in_source r /\ in_import_record r' = in_import_record r;
  ist_final : open_input r = false -> in_state r' = in_state r /\ in_failure r' = in_failure r;
  ist_imported : in_state r' = Imported -> in_state r = Imported;
  ist_order : forall n, in_conversation_order r = Some n -> in_conversation_order r' = Some n
}.

Record response_step (r r' : response_row) : Prop := ResponseStep {
  rst_identity : rs_session_id r' = rs_session_id r /\ rs_response_id r' = rs_response_id r /\
                 rs_seq r' = rs_seq r /\ rs_origin r' = rs_origin r;
  rst_ended : rs_status r = Ended ->
              rs_status r' = Ended /\ rs_outcome r' = rs_outcome r /\
              rs_native_reason r' = rs_native_reason r /\ rs_usage r' = rs_usage r /\
              rs_error r' = rs_error r /\ rs_ended_at r' = rs_ended_at r;
  rst_order : forall n, rs_conversation_order r = Some n -> rs_conversation_order r' = Some n
}.

Record interaction_step (r r' : interaction_row) : Prop := InteractionStep {
  xst_identity : ia_session_id r' = ia_session_id r /\
                 ia_interaction_id r' = ia_interaction_id r /\
                 ia_response_id r' = ia_response_id r /\ ia_contract r' = ia_contract r;
  xst_closed : open_interaction r = false -> r' = r;
  xst_answer : forall a, ia_answer r = Some a ->
               ia_answer r' = Some a /\ ia_answered_by r' = ia_answered_by r
}.

(** The store moved forward. *)
Record evolves (d d' : db) : Prop := Evolves {
  ev_inputs : grows input_step (db_inputs d) (db_inputs d');
  ev_responses : grows response_step (db_responses d) (db_responses d');
  ev_interactions : grows interaction_step (db_interactions d) (db_interactions d');
  ev_output : db_output d `prefix_of` db_output d'
}.

#[export] Instance input_step_preorder : PreOrder input_step.
Proof.
  split; [by constructor|]. intros x y z [] []. constructor; [intuition congruence..| | |eauto].
  - intros Hx. destruct (ist_final0 Hx) as [Hs Hf].
    assert (open_input y = false) as Hy by (unfold open_input in *; by rewrite Hs).
    destruct (ist_final1 Hy). split; congruence.
  - eauto.
Qed.

#[export] Instance response_step_preorder : PreOrder response_step.
Proof.
  split; [by constructor|]. intros x y z [] []. constructor; [intuition congruence| |eauto].
  intros Hx. destruct (rst_ended0 Hx) as (Hs & ?). destruct (rst_ended1 Hs).
  intuition congruence.
Qed.

#[export] Instance interaction_step_preorder : PreOrder interaction_step.
Proof.
  split; [by constructor|]. intros x y z [] []. constructor; [intuition congruence| |].
  - intros Hx. specialize (xst_closed0 Hx) as ->. auto.
  - intros a Ha. destruct (xst_answer0 _ Ha) as [Hy Hb]. destruct (xst_answer1 _ Hy).
    split; congruence.
Qed.

#[export] Instance evolves_preorder : PreOrder evolves.
Proof.
  split; [by constructor|]. intros x y z [] []. constructor; by etransitivity.
Qed.

(** ** Statements *)

Lemma evolves_inputs t d : grows input_step (db_inputs d) t -> evolves d (set_inputs t d).
Proof. by constructor. Qed.
Lemma evolves_responses t d :
  grows response_step (db_responses d) t -> evolves d (set_responses t d).
Proof. by constructor. Qed.
Lemma evolves_interactions t d :
  grows interaction_step (db_interactions d) t -> evolves d (set_interactions t d).
Proof. by constructor. Qed.
Lemma evolves_output t d : db_output d `prefix_of` t -> evolves d (set_output t d).
Proof. by constructor. Qed.

(** Everything else a statement writes leaves these four tables alone. *)
Lemma evolves_same d d' :
  db_inputs d' = db_inputs d -> db_responses d' = db_responses d ->
  db_interactions d' = db_interactions d -> db_output d' = db_output d -> evolves d d'.
Proof. intros Hi Hr Hx Ho. constructor; rewrite ?Hi, ?Hr, ?Hx, ?Ho; reflexivity. Qed.

Ltac solve_same := intros; apply evolves_same; reflexivity.

Lemma inputs_ensures cond set :
  (forall r, cond r = true -> input_step r (set r)) -> ensures evolves (update_inputs cond set).
Proof. intros H d n d' [= _ <-]. apply evolves_inputs. by apply grows_update; [apply _|]. Qed.
Lemma responses_ensures cond set :
  (forall r, cond r = true -> response_step r (set r)) ->
  ensures evolves (update_responses cond set).
Proof. intros H d n d' [= _ <-]. apply evolves_responses. by apply grows_update; [apply _|]. Qed.
Lemma interactions_ensures cond set :
  (forall r, cond r = true -> interaction_step r (set r)) ->
  ensures evolves (update_interactions cond set).
Proof. intros H d n d' [= _ <-]. apply evolves_interactions. by apply grows_update; [apply _|]. Qed.
Lemma sessions_ensures cond set : ensures evolves (update_sessions cond set).
Proof. intros d n d' [= _ <-]. solve_same. Qed.
Lemma readers_ensures cond set : ensures evolves (update_readers cond set).
Proof. intros d n d' [= _ <-]. solve_same. Qed.
Lemma attachments_ensures cond set : ensures evolves (update_attachments cond set).
Proof. intros d n d' [= _ <-]. solve_same. Qed.
Lemma notify_ensures sid kind seq : ensures evolves (notify sid kind seq).
Proof. intros d n d' [= _ <-]. solve_same. Qed.
Lemma one_ensures {A} (l : list A) : ensures evolves (one l).
Proof. destruct l as [|a [|]]; [by intros ???| |by intros ???]. apply ensures_ret, _. Qed.
Lemma lift_ensures {A} (r : res A) : ensures evolves (lift r).
Proof. intros d a d'. unfold lift. destruct r; [|done]. intros [= _ <-]. reflexivity. Qed.

#[export] Hint Resolve sessions_ensures readers_ensures attachments_ensures notify_ensures
  one_ensures lift_ensures : txn.
#[export] Hint Extern 0 (PreOrder evolves) => exact evolves_preorder : txn.

(** Walk a transaction body, statement by statement. *)
Ltac walk :=
  repeat first
    [ match goal with |- forall _, _ => intro end
    | apply ensures_ret, _ | apply ensures_get, _ | apply ensures_throw
    | apply sessions_ensures | apply readers_ensures | apply attachments_ensures
    | apply notify_ensures | apply one_ensures | apply lift_ensures
    | apply ensures_bind; [apply _| |]
    | apply ensures_forM; [apply _|]
    | match goal with |- ensures _ (match ?x with _ => _ end) => destruct x end ].

(** A single row's update: read the guard, check the fields. *)
Ltac row_step :=
  let r := fresh "r" in let Hc := fresh "Hc" in
  intros r Hc; destruct r; cbn in *; bool_prop; subst; cbn in *;
  constructor; cbn; repeat split; try done; intros; try naive_solver.

(** ** The updates the repository makes *)

Lemma input_response_step rid r : input_step r (set_input_response rid r).
Proof. by constructor. Qed.

Lemma input_order_step n r : in_conversation_order r = None -> input_step r (set_input_order n r).
Proof. intros H. constructor; try done. intros m Hm. congruence. Qed.

Lemma input_state_step st dl ad f r :
  open_input r = true -> st <> Imported -> input_step r (set_input_state st dl ad f r).
Proof. intros Ho Hst. constructor; try done. congruence. Qed.

Lemma response_order_step n r :
  rs_conversation_order r = None -> response_step r (set_response_order n r).
Proof. intros H. constructor; try done. intros m Hm. congruence. Qed.

Lemma response_status_step st r :
  rs_status r <> Ended -> response_step r (set_response_status st r).
Proof. by constructor. Qed.

Lemma response_end_step o nr u e now r :
  rs_status r <> Ended -> response_step r (end_response o nr u e now r).
Proof. by constructor. Qed.

Lemma interaction_close_step st now r :
  open_interaction r = true -> interaction_step r (close_interaction_row st now r).
Proof. intros H. constructor; try done. congruence. Qed.

Lemma interaction_answer_step a by_ now r :
  open_interaction r = true -> ia_answer r = None -> interaction_step r (set_answer a by_ now r).
Proof. intros H Hn. constructor; try done; intros; congruence. Qed.

Lemma unordered_input_none sid mid r :
  unordered_input sid mid r = true -> in_conversation_order r = None.
Proof. unfold unordered_input. intros. by bool_prop. Qed.

Lemma unordered_response_none sid mid r :
  unordered_response sid mid r = true -> rs_conversation_order r = None.
Proof. unfold unordered_response. intros. by bool_prop. Qed.

Lemma open_of_response_open sid rid r : open_of_response sid rid r = true -> open_interaction r = true.
Proof. unfold open_of_response. intros. by bool_prop. Qed.

Create HintDb rows.
#[export] Hint Resolve input_response_step input_order_step input_state_step response_order_step
  response_status_step response_end_step interaction_close_step interaction_answer_step
  unordered_input_none unordered_response_none open_of_response_open : rows.

Ltac by_row :=
  first [apply inputs_ensures | apply responses_ensures | apply interactions_ensures];
  intros; cbv beta in *; bool_prop; eauto with rows; try (apply input_state_step; [done|by intros ?]);
  try (apply response_status_step; congruence).

Lemma index_ensures sid : ensures evolves (index_recorded_messages sid).
Proof. unfold index_recorded_messages, index_body. walk; by_row. Qed.

Lemma insert_response_ensures sid rid origin now : ensures evolves (insert_response sid rid origin now).
Proof.
  apply ensures_modify. intros d. destruct (exists_where _ _); [reflexivity|].
  constructor; cbn; try reflexivity. apply grows_app, _.
Qed.

Lemma insert_link_ensures sid rid iid : ensures evolves (insert_link sid rid iid).
Proof.
  apply ensures_modify_res. intros d d'. destruct (exists_where _ _); [|done].
  intros [= <-]. solve_same.
Qed.

Lemma insert_interaction_ensures sid rid iid c now :
  ensures evolves (insert_interaction sid rid iid c now).
Proof.
  apply ensures_modify. intros d. apply evolves_interactions, grows_insert_if_absent, _.
Qed.

Lemma apply_ensures sid now fact : ensures evolves (apply sid now fact).
Proof.
  destruct fact; cbn; unfold apply_start, apply_position, apply_end, apply_open, apply_close,
    apply_admitted, apply_failed; walk;
  first [apply insert_response_ensures | apply insert_link_ensures
        | apply insert_interaction_ensures | by_row].
Qed.

Lemma insert_output_rows sid now output t t' :
  foldM (fun t p => insert_unique same_output (output_row_of sid now p) t) t output = Ok t' ->
  t' = (t ++ map (output_row_of sid now) output)%list.
Proof.
  revert t. induction output as [|p output IH]; intros t H; cbn in H.
  - apply Ok_inj in H as <-. by rewrite app_nil_r.
  - destruct (insert_unique _ _ t) as [t1|] eqn:E; [|done].
    apply insert_unique_ok in E as [-> _]. apply IH in H as ->. by rewrite <-app_assoc.
Qed.

Lemma insert_output_ensures sid now output : ensures evolves (insert_output sid now output).
Proof.
  apply ensures_modify_res. intros d d' (rows & Hr & <-%Ok_inj)%bind_ok.
  apply insert_output_rows in Hr as ->. apply evolves_output, prefix_app_r. reflexivity.
Qed.

Lemma fact_parts_ensures sid output facts : ensures evolves (fact_parts sid output facts).
Proof.
  revert output. induction facts as [|f facts IH]; intros output; cbn; [walk|].
  apply ensures_bind; [apply _| |intros; apply IH]. unfold fact_part. walk.
Qed.

Lemma record_ensures lease b ttl now : ensures evolves (record_body lease b ttl now).
Proof.
  unfold record_body, write_session. walk;
  first [apply index_ensures | apply apply_ensures | apply fact_parts_ensures
        | apply insert_output_ensures | by_row].
Qed.

Lemma insert_input_ensures row : ensures evolves (insert_input row).
Proof.
  apply ensures_modify_res. intros d d' (? & _ & H)%bind_ok. apply bind_ok in H as (t & Ht & H).
  apply Ok_inj in H as <-. constructor; cbn; try reflexivity. eapply grows_insert_unique; [apply _|exact Ht].
Qed.

Lemma accept_ensures n now clock : ensures evolves (accept_body n now clock).
Proof.
  unfold accept_body, bind_attachment. walk; try done.
  apply ensures_modify_res. intros d d' (t & Ht & <-%Ok_inj)%bind_ok.
  constructor; cbn; try reflexivity. eapply grows_insert_unique; [apply _|exact Ht].
Qed.

Lemma import_entries_ensures sid fresh index entries :
  ensures evolves (import_entries sid fresh index entries).
Proof.
  revert fresh index. induction entries as [|e entries IH]; intros fresh index; cbn; [walk|].
  destruct (he_role e); [destruct fresh|]; [by walk| |].
  - apply ensures_bind; [apply _| |intros; apply IH]. unfold import_user. walk.
    apply insert_input_ensures.
  - apply ensures_bind; [apply _| |intros; apply IH]. unfold import_reply. walk.
    + apply ensures_modify_res. intros d d' (t & Ht & <-%Ok_inj)%bind_ok.
      constructor; cbn; try reflexivity. eapply grows_insert_unique; [apply _|exact Ht].
    + apply ensures_modify_res. intros d d' (t & Ht & <-%Ok_inj)%bind_ok. solve_same.
    + by_row.
Qed.

(** ** Any history *)

(** One call of a public method of [SessionRuntimeRepository] that writes; the label
    is the lease the call hands out, if it does. *)
Inductive repo_call (d : db) : option ReaderLease -> db -> Prop :=
| call_accept n now clock : repo_call d None (snd (accept_input n now clock d))
| call_delivered ids now : repo_call d None (mark_delivered ids now d)
| call_failed iid failure : repo_call d None (mark_failed iid failure d)
| call_reclaim sid : repo_call d None (snd (reclaim_unadmitted sid d))
| call_answer sid iid a by_ now : repo_call d None (snd (request_answer sid iid a by_ now d))
| call_request_control sid cid kind target by_ now :
    repo_call d None (snd (request_control sid cid kind target by_ now d))
| call_settle_control cid st e now : repo_call d None (settle_control cid st e now d)
| call_expire_controls sid gen : repo_call d None (expire_controls sid gen d)
| call_claim env sid owner ttl now :
    repo_call d (match fst (claim_reader env sid owner ttl now d) with
                 | Ok handed => handed | Raise _ => None end)
      (snd (claim_reader env sid owner ttl now d))
| call_renew lease ttl now : repo_call d None (snd (renew_reader lease ttl now d))
| call_release lease now : repo_call d None (release_reader lease now d)
| call_record lease b ttl now : repo_call d None (snd (record lease b ttl now d))
| call_history sid before limit t : repo_call d None (snd (history_page sid before limit t d))
| call_import sid fresh entries : repo_call d None (snd (import_history sid fresh entries d)).

Definition repo_step (d d' : db) : Prop := exists handed, repo_call d handed d'.

Lemma snd_accept_input n now clock d :
  snd (accept_input n now clock d) = snd (transaction (accept_body n now clock) d).
Proof. unfold accept_input. by destruct (transaction _ d) as [[[|]|] ?]. Qed.

Lemma snd_history_page sid before limit t d :
  snd (history_page sid before limit t d) = snd (transaction (index_recorded_messages sid) d).
Proof. unfold history_page. by destruct (transaction _ d) as [[]]. Qed.

Lemma repo_step_evolves d d' : repo_step d d' -> evolves d d'.
Proof.
  intros [handed []]; try (apply evolves_same; reflexivity).
  - rewrite snd_accept_input. apply ensures_transaction; [apply _|apply accept_ensures].
  - unfold mark_delivered. destruct ids; [reflexivity|]. apply evolves_inputs, grows_update; [apply _|].
    intros r [? ?%bool_decide_eq_true]%andb_true_iff. apply input_state_step; [|done].
    unfold open_input. by destruct (in_state r).
  - apply evolves_inputs, grows_update; [apply _|]. intros r [_ ?]%andb_true_iff.
    by apply input_state_step.
  - apply evolves_inputs, grows_update; [apply _|].
    intros r [_ ?%bool_decide_eq_true]%andb_true_iff. apply input_state_step; [|done].
    unfold open_input. by destruct (in_state r).
  - apply (ensures_transaction evolves). unfold request_answer_body. walk. by_row.
  - apply (ensures_transaction evolves). unfold request_control_body. walk.
    apply ensures_modify. solve_same.
  - apply (ensures_transaction evolves). unfold claim_body. walk.
    apply ensures_modify. solve_same.
  - unfold record. destruct (batch_nonempty b); [|solve_same].
    apply ensures_transaction; [apply _|apply record_ensures].
  - rewrite snd_history_page. apply ensures_transaction; [apply _|apply index_ensures].
  - apply (ensures_transaction evolves). unfold import_history_body. walk.
    apply import_entries_ensures.
Qed.

Lemma history_evolves d d' : rtc repo_step d d' -> evolves d d'.
Proof.
  induction 1 as [|d d1 d2 H _ IH]; [reflexivity|]. by rewrite <-IH; apply repo_step_evolves.
Qed.

(** ** Properties *)

Lemma evolved_input d d' r : evolves d d' -> r ∈ db_inputs d ->
  exists r', r' ∈ db_inputs d' /\ input_step r r'.
Proof. intros [H _ _ _]. by apply grows_elem. Qed.
Lemma evolved_response d d' r : evolves d d' -> r ∈ db_responses d ->
  exists r', r' ∈ db_responses d' /\ response_step r r'.
Proof. intros [_ H _ _]. by apply grows_elem. Qed.
Lemma evolved_interaction d d' r : evolves d d' -> r ∈ db_interactions d ->
  exists r', r' ∈ db_interactions d' /\ interaction_step r r'.
Proof. intros [_ _ H _]. by apply grows_elem. Qed.

(** C5: what is settled stays settled over any sequence of repository calls.  An input
    that was admitted, failed or imported keeps its state, its failure, its text and its
    place; a response that ended keeps its outcome, reason, usage and error; an
    interaction that closed is never written again, and an answer once stored is never
    replaced. *)
Theorem settled_rows_stay d d' :
  rtc repo_step d d' ->
  (forall r, r ∈ db_inputs d -> open_input r = false ->
     exists r', r' ∈ db_inputs d' /\ in_input_id r' = in_input_id r /\
       in_content r' = in_content r /\ in_state r' = in_state r /\
       in_failure r' = in_failure r) /\
  (forall r, r ∈ db_responses d -> rs_status r = Ended ->
     exists r', r' ∈ db_responses d' /\ rs_response_id r' = rs_response_id r /\
       rs_status r' = Ended /\ rs_outcome r' = rs_outcome r /\
       rs_native_reason r' = rs_native_reason r /\ rs_usage r' = rs_usage r /\
       rs_error r' = rs_error r) /\
  (forall r, r ∈ db_interactions d -> ia_status r <> IOpen -> r ∈ db_interactions d') /\
  (forall r a, r ∈ db_interactions d -> ia_answer r = Some a ->
     exists r', r' ∈ db_interactions d' /\ ia_interaction_id r' = ia_interaction_id r /\
       ia_answer r' = Some a /\ ia_answered_by r' = ia_answered_by r).
Proof.
  intros He%history_evolves. repeat split.
  - intros r Hr Ho. destruct (evolved_input _ _ _ He Hr) as (r' & ? & [? ? Hf ? ?]).
    destruct (Hf Ho). exists r'. naive_solver.
  - intros r Hr Ho. destruct (evolved_response _ _ _ He Hr) as (r' & ? & [? Hf ?]).
    destruct (Hf Ho). exists r'. naive_solver.
  - intros r Hr Ho. destruct (evolved_interaction _ _ _ He Hr) as (r' & ? & [? Hf ?]).
    rewrite <-Hf; [done|]. unfold open_interaction. by apply bool_decide_eq_false.
  - intros r a Hr Ha. destruct (evolved_interaction _ _ _ He Hr) as (r' & ? & [? ? Hf]).
    destruct (Hf _ Ha). exists r'. naive_solver.
Qed.

(** C6: over any sequence of repository calls the output log only grows at its end,
    no message disappears, and a message's place in the conversation, once given, never
    changes. *)
Theorem log_and_positions_stay d d' :
  rtc repo_step d d' ->
  db_output d `prefix_of` db_output d' /\
  (forall r, r ∈ db_inputs d -> exists r', r' ∈ db_inputs d' /\
     in_input_id r' = in_input_id r /\
     (forall n, in_conversation_order r = Some n -> in_conversation_order r' = Some n)) /\
  (forall r, r ∈ db_responses d -> exists r', r' ∈ db_responses d' /\
     rs_response_id r' = rs_response_id r /\
     (forall n, rs_conversation_order r = Some n -> rs_conversation_order r' = Some n)).
Proof.
  intros He%history_evolves. repeat split.
  - by destruct He.
  - intros r Hr. destruct (evolved_input _ _ _ He Hr) as (r' & ? & []). exists r'. naive_solver.
  - intros r Hr. destruct (evolved_response _ _ _ He Hr) as (r' & ? & []). exists r'. naive_solver.
Qed.

(** ** Witnesses *)

Lemma demo_end_step : rtc repo_step demo_db3 demo_db4.
Proof. eapply rtc_l; [|apply rtc_refl]. exists None. apply call_record. Defined.

Lemma settled_rows_stay_witness :
  exists r, r ∈ db_inputs demo_db4 /\ in_input_id r = "i1" /\ in_state r = AdmittedInput.
Proof.
  destruct (settled_rows_stay _ _ demo_end_step) as (H & _).
  assert (Hr : exists r, r ∈ db_inputs demo_db3 /\ open_input r = false /\
                         in_input_id r = "i1" /\ in_state r = AdmittedInput).
  { eexists. split; [vm_compute; left|]. repeat split. }
  destruct Hr as (r & Hr & Ho & Hi & Hs). destruct (H r Hr Ho) as (r' & ? & ? & ? & ? & ?).
  exists r'. split; [done|]. split; congruence.
Defined.

Lemma log_and_positions_stay_witness : db_output demo_db3 `prefix_of` db_output demo_db4.
Proof. exact (proj1 (log_and_positions_stay _ _ demo_end_step)). Defined.

End History.
