(* ===== verification/RecordFacts.v ===== *)
(** What a committed batch leaves in the store ([record]): the log rows it appends,
    the positions it publishes and the waiting status of responses. *)

From stdpp Require Import sorting.
From S2P Require Import Prelude PyVal Schema Interaction SessionRepo SessionRecord DemoStore RepoHistory.

Open Scope string_scope.

Module Recorded.
Import Repo Rec History.

(** ** The output dict *)

Definition seqs (output : list OutputPart) : list Z := map op_seq output.

Lemma elem_of_seqs_put p output s :
  s ∈ seqs (put_part p output) <-> s = op_seq p \/ s ∈ seqs output.
Proof.
  induction output as [|q output IH]; cbn; [set_solver|].
  destruct (Z.eqb_spec (op_seq q) (op_seq p)) as [E|E]; cbn.
  - rewrite !elem_of_cons. rewrite E. tauto.
  - rewrite !elem_of_cons. unfold seqs in IH. rewrite IH. tauto.
Qed.

Lemma NoDup_seqs_put p output : NoDup (seqs output) -> NoDup (seqs (put_part p output)).
Proof.
  induction output as [|q output IH]; cbn; intros Hn.
  - apply NoDup_singleton.
  - apply NoDup_cons in Hn as [Hni Hn].
    destruct (Z.eqb_spec (op_seq q) (op_seq p)) as [E|E]; cbn; apply NoDup_cons.
    + by rewrite <-E.
    + split; [|by apply IH]. intros [Hp|Hp]%elem_of_seqs_put; done.
Qed.

Lemma elem_of_put p output q :
  NoDup (seqs output) ->
  q ∈ put_part p output <-> q = p \/ q ∈ output /\ op_seq q <> op_seq p.
Proof.
  induction output as [|x output IH]; cbn; intros Hn; [set_solver|].
  apply NoDup_cons in Hn as [Hni Hn].
  assert (Hout : q ∈ output -> op_seq q <> op_seq x).
  { intros Hq E. apply Hni. rewrite <-E. by apply list_elem_of_fmap_2. }
  destruct (Z.eqb_spec (op_seq x) (op_seq p)) as [E|E]; rewrite !elem_of_cons.
  - split.
    + intros [->|Hq]; [by left|]. right. split; [by right|]. intros Hs. apply (Hout Hq). congruence.
    + intros [->|[[Hx|Hq] Hne]]; [by left| |by right]. congruence.
  - rewrite IH by done. split.
    + intros [->|[->|[Hq Hne]]]; [right; split; [by left|done]|by left|right; split; [by right|done]].
    + intros [->|[[->|Hq] Hne]]; [right; by left|by left|right; by right].
Qed.

(** ** What the facts reserve *)

Definition reserved (f : Fact) : option Z :=
  match f with
  | MessagePosition _ _ seq => Some seq
  | InteractionClose _ _ (Some seq) => Some seq
  | _ => None
  end.

(** Materialising the reserved parts only reads. *)
Lemma fact_part_reads sid output f d output' d' :
  fact_part sid output f d = Ok (output', d') ->
  d' = d /\ match reserved f with
            | Some seq => exists p, op_seq p = seq /\ output' = put_part p output
            | None => output' = output
            end.
Proof.
  unfold fact_part. intros (d0 & d1 & [= <- <-] & H)%txn_bind_ok.
  destruct f as [| |kind mid seq| |iid st oseq| |]; try by injection H as <- <-.
  - apply txn_bind_ok in H as (order & d2 & Hone & H). injection H as <- <-.
    unfold one in Hone. destruct (stored_order _ _ _ _) as [|x [|]]; try discriminate.
    injection Hone as -> <-. split; [done|]. eexists. split; [|reflexivity]; reflexivity.
  - destruct oseq as [seq|]; [|by injection H as <- <-]. cbn.
    apply txn_bind_ok in H as (row & d2 & Hone & H). unfold one in Hone.
    destruct (select_where _ _) as [|x [|]]; try discriminate. injection Hone as -> <-.
    apply txn_bind_ok in H as (data & d3 & Hl & H). unfold lift in Hl.
    destruct (Interaction.public_interaction_view _ _); [|discriminate].
    injection Hl as -> <-. injection H as <- <-. split; [done|]. eexists. split; [|reflexivity]; reflexivity.
Qed.

Lemma fact_parts_seqs sid output facts d output' d' :
  NoDup (seqs output) -> fact_parts sid output facts d = Ok (output', d') ->
  d' = d /\ NoDup (seqs output') /\
  (forall s, s ∈ seqs output' <-> s ∈ seqs output \/ Some s ∈ map reserved facts) /\
  (forall p, p ∈ output -> Some (op_seq p) ∉ map reserved facts -> p ∈ output').
Proof.
  revert output. induction facts as [|f facts IH]; intros output Hn H; cbn in H.
  { injection H as <- <-. repeat split; [done|set_solver..]. }
  apply txn_bind_ok in H as (out1 & d1 & Hf & H).
  destruct (fact_part_reads _ _ _ _ _ _ Hf) as [-> Hr].
  cbn [map]. destruct (reserved f) as [seq|].
  - destruct Hr as (p & <- & ->).
    destruct (IH _ (NoDup_seqs_put p _ Hn) H) as (-> & Hn' & Hs & Hkeep).
    split; [done|]. split; [done|]. split.
    + intros s. rewrite Hs, elem_of_seqs_put, elem_of_cons. split.
      * intros [[->|?]|?]; auto.
      * intros [?|[[= ->]|?]]; auto.
    + intros q Hq Hnr. rewrite not_elem_of_cons in Hnr. destruct Hnr as [Hne Hnr].
      apply Hkeep; [|done]. apply elem_of_put; [done|]. right. split; [done|congruence].
  - subst out1. destruct (IH _ Hn H) as (-> & Hn' & Hs & Hkeep).
    split; [done|]. split; [done|]. split.
    + intros s. rewrite Hs, elem_of_cons. naive_solver.
    + intros q Hq Hnr. apply not_elem_of_cons in Hnr as [_ Hnr]. by apply Hkeep.
Qed.

Lemma fold_put_seqs parts output :
  NoDup (seqs output) ->
  NoDup (seqs (fold_left (fun acc p => put_part p acc) parts output)) /\
  (forall s, s ∈ seqs (fold_left (fun acc p => put_part p acc) parts output) <->
             s ∈ seqs output \/ s ∈ seqs parts).
Proof.
  revert output. induction parts as [|p parts IH]; intros output Hn; cbn.
  - split; [done|]. set_solver.
  - destruct (IH _ (NoDup_seqs_put p _ Hn)) as [Hn' Hs]. split; [done|]. intros s.
    rewrite Hs, elem_of_seqs_put, elem_of_cons. unfold seqs. tauto.
Qed.

Lemma fold_put_elem parts output q :
  NoDup (seqs (output ++ parts)%list) ->
  q ∈ (output ++ parts)%list -> q ∈ fold_left (fun acc p => put_part p acc) parts output.
Proof.
  revert output. induction parts as [|p parts IH]; intros output Hn Hq; cbn.
  { by rewrite app_nil_r in Hq. }
  assert (E : put_part p output = (output ++ [p])%list).
  { unfold seqs in Hn. rewrite map_app in Hn. cbn in Hn. clear -Hn.
    induction output as [|x output IH]; [done|]. cbn in *. apply NoDup_cons in Hn as [Hni Hn].
    destruct (Z.eqb_spec (op_seq x) (op_seq p)) as [E|]; [|by rewrite IH].
    destruct Hni. rewrite E. set_solver. }
  rewrite E. apply IH; by rewrite <-app_assoc.
Qed.

(** ** Sorting and inserting *)

#[export] Instance part_le_total : Total part_le.
Proof. intros x y. unfold part_le. lia. Qed.
#[export] Instance part_le_trans : Transitive part_le.
Proof. intros x y z. unfold part_le. lia. Qed.

Lemma sorted_strictly output :
  NoDup (seqs output) -> StronglySorted Z.lt (seqs (merge_sort part_le output)).
Proof.
  intros Hn. assert (Hn' : NoDup (seqs (merge_sort part_le output))).
  { unfold seqs in *. by rewrite merge_sort_Permutation. }
  pose proof (StronglySorted_merge_sort part_le output) as Hs. revert Hn' Hs.
  generalize (merge_sort part_le output). intros l Hn' Hs.
  induction Hs as [|p l Hs IH Hall]; cbn in *; [constructor|].
  apply NoDup_cons in Hn' as [Hni Hn']. constructor; [by apply IH|].
  apply Forall_forall. intros s Hin. apply list_elem_of_fmap in Hin as (q & -> & Hq).
  rewrite Forall_forall in Hall. specialize (Hall _ Hq). unfold part_le in Hall.
  assert (op_seq p <> op_seq q); [|lia]. intros E. apply Hni. rewrite E. by apply list_elem_of_fmap_2.
Qed.

Lemma insert_output_fresh sid now output t t' :
  foldM (fun t p => insert_unique same_output (output_row_of sid now p) t) t output = Ok t' ->
  forall o p, o ∈ t -> p ∈ output -> ou_session_id o = sid -> ou_seq o <> op_seq p.
Proof.
  revert t. induction output as [|x output IH]; intros t H o p Ho Hp Hs Hq; cbn in H.
  { by apply not_elem_of_nil in Hp. }
  destruct (insert_unique _ _ t) as [t1|] eqn:E; [|done].
  apply insert_unique_ok in E as [-> Hno].
  apply elem_of_cons in Hp as [->|Hp].
  - pose proof (proj1 (existsb_false _ _) Hno o Ho) as Hk. unfold same_output in Hk. cbn in Hk.
    rewrite Hs, String.eqb_refl, Hq, Z.eqb_refl in Hk. discriminate.
  - by eapply (IH _ H o p); [set_solver|..].
Qed.

(** ** Facts leave the other tables alone *)

(** Everything but inputs, responses, links and interactions is as it was. *)
Definition same_rest (d d' : db) : Prop :=
  db_sessions d' = db_sessions d /\ db_readers d' = db_readers d /\
  db_output d' = db_output d /\ db_controls d' = db_controls d /\
  db_attachments d' = db_attachments d /\ db_notices d' = db_notices d.

#[export] Instance same_rest_preorder : PreOrder same_rest.
Proof. unfold same_rest. split; [done|]. intros x y z. intuition congruence. Qed.

Ltac rest_statement :=
  let d := fresh in intros d ? ? [= _ <-]; done.

(** Walk a body whose statements all write the facts' own tables. *)
Ltac walk_rest :=
  repeat first
    [ match goal with |- forall _, _ => intro end
    | apply ensures_ret, _ | apply ensures_get, _ | apply ensures_throw
    | apply ensures_forM; [apply _|]
    | match goal with |- ensures _ (match ?x with _ => _ end) => destruct x end
    | match goal with |- ensures _ (update_inputs _ _) => rest_statement
                    | |- ensures _ (update_responses _ _) => rest_statement
                    | |- ensures _ (update_interactions _ _) => rest_statement end
    | apply ensures_bind; [apply _| |] ].

Lemma lift_rest {A} (r : res A) : ensures same_rest (lift r).
Proof. intros d a d'. unfold lift. destruct r; [|done]. intros [= _ <-]. reflexivity. Qed.

Lemma index_rest sid : ensures same_rest (index_recorded_messages sid).
Proof. unfold index_recorded_messages, index_body. walk_rest; apply lift_rest. Qed.

Lemma apply_rest sid now fact : ensures same_rest (apply sid now fact).
Proof.
  destruct fact; cbn; unfold apply_start, apply_position, apply_end, apply_open, apply_close,
    apply_admitted, apply_failed; walk_rest.
  - apply ensures_modify. intros d. by destruct (exists_where _ _).
  - apply ensures_modify_res. intros d d'. destruct (exists_where _ _); [|done]. by intros [= <-].
  - by apply ensures_modify.
Qed.

Lemma facts_rest sid now facts : ensures same_rest (forM (apply sid now) facts).
Proof. apply ensures_forM; [apply _|]. apply apply_rest. Qed.

(** ** A committed batch, step by step *)

Record committed (lease : ReaderLease) (b : FactBatch) (ttl now : Z) (d d' : db)
  (output : list OutputPart) : Prop := Committed {
  cm_indexed : db;
  cm_applied : db;
  cm_parts : list OutputPart;
  cm_held : exists r, r ∈ db_readers d /\ holds lease r = true;
  cm_index : evolves d cm_indexed /\ db_output cm_indexed = db_output d;
  cm_facts : forM (apply (ls_session_id lease) now) (fb_facts b) cm_indexed = Ok (tt, cm_applied);
  cm_reads : fact_parts (ls_session_id lease)
    (fold_left (fun acc p => put_part p acc) (fb_output b) []) (fb_facts b) cm_applied
    = Ok (cm_parts, cm_applied);
  cm_sorted : output = merge_sort part_le cm_parts;
  cm_insert : foldM (fun t p => insert_unique same_output (output_row_of (ls_session_id lease) now p) t)
    (db_output d) output = Ok (db_output d');
  cm_inputs : db_inputs d' = db_inputs cm_applied;
  cm_responses : db_responses d' = db_responses cm_applied;
  cm_interactions : db_interactions d' = db_interactions cm_applied
}.

Lemma write_session_tables sid now b output d u d' :
  write_session sid now b output d = Ok (u, d') ->
  db_output d' = db_output d /\ db_inputs d' = db_inputs d /\
  db_responses d' = db_responses d /\ db_interactions d' = db_interactions d.
Proof.
  unfold write_session. destruct (negb _); [by intros [= _ <-]|].
  intros (n & d1 & [= _ <-] & H)%txn_bind_ok. apply txn_bind_ok in H as ([] & d2 & H1 & H).
  destruct u.
  assert (E1 : db_output d2 = db_output d /\ db_inputs d2 = db_inputs d /\
    db_responses d2 = db_responses d /\ db_interactions d2 = db_interactions d).
  { unfold notify, modify, mret, txn_ret in H1. destruct (_ && _); cbn in H1; injection H1 as <-; done. }
  assert (E2 : db_output d' = db_output d2 /\ db_inputs d' = db_inputs d2 /\
    db_responses d' = db_responses d2 /\ db_interactions d' = db_interactions d2).
  { unfold notify, modify, mret, txn_ret in H. destruct (some (fb_protocol_error b)); injection H as <-; done. }
  intuition congruence.
Qed.

Lemma record_committed lease b ttl now d d' output :
  batch_nonempty b = true -> record lease b ttl now d = (Ok (Some output), d') ->
  committed lease b ttl now d d' output.
Proof.
  unfold record. intros ->. intros H%transaction_ok. unfold record_body in H.
  apply txn_bind_ok in H as (n & d1 & Hupd & H). injection Hupd as Hn Hd1.
  destruct (n =? 0)%nat eqn:En; [discriminate|]. apply Nat.eqb_neq in En.
  apply txn_bind_ok in H as (u & d2 & Hidx & H). destruct u.
  apply txn_bind_ok in H as (u & d3 & Hfacts & H). destruct u.
  apply txn_bind_ok in H as (parts & d4 & Hparts & H).
  apply txn_bind_ok in H as (u & d5 & Hins & H). destruct u.
  apply txn_bind_ok in H as (u & d6 & Hws & H). destruct u. injection H as <- <-.
  assert (Hi : evolves d d2 /\ db_output d2 = db_output d).
  { assert (H1 : evolves d d1 /\ db_output d1 = db_output d)
      by (subst d1; split; [apply evolves_same|]; reflexivity).
    destruct (existsb _ _).
    - destruct (index_rest _ _ _ _ Hidx) as (_ & _ & Ho & _). destruct H1.
      split; [etransitivity; [done|by eapply index_ensures]|congruence].
    - injection Hidx as <-. done. }
  destruct (fold_put_seqs (fb_output b) []) as [Hnd _]; [constructor|].
  destruct (fact_parts_seqs _ _ _ _ _ _ Hnd Hparts) as (-> & _).
  unfold insert_output, modify_res in Hins. destruct (foldM _ _ _ ≫= _) as [d5'|] eqn:Hf; [|done].
  injection Hins as ->. apply bind_ok in Hf as (rows & Hf & <-%Ok_inj).
  destruct (write_session_tables _ _ _ _ _ _ _ Hws) as (Ho & Hin & Hre & Hia). cbn in Ho, Hin, Hre, Hia.
  pose proof (facts_rest _ _ _ _ _ _ Hfacts) as (_ & _ & Ho3 & _).
  apply (Committed _ _ _ _ _ _ _ d2 d3 parts); try done.
  - destruct (existsb (holds lease) (db_readers d)) eqn:E; [by apply existsb_true|].
    destruct En. rewrite <-Hn. apply count_where_zero. by apply existsb_false.
  - rewrite Ho. destruct Hi as [_ Hi]. rewrite Ho3, Hi in Hf. exact Hf.
Qed.

Lemma record_ok_appends lease b ttl now d d' output :
  batch_nonempty b = true -> NoDup (seqs (fb_output b)) ->
  record lease b ttl now d = (Ok (Some output), d') ->
  db_output d' = (db_output d ++ map (output_row_of (ls_session_id lease) now) output)%list /\
  (forall s, s ∈ seqs output <-> s ∈ seqs (fb_output b) \/ Some s ∈ map reserved (fb_facts b)) /\
  (forall o, o ∈ db_output d -> ou_session_id o = ls_session_id lease -> ou_seq o ∉ seqs output) /\
  (forall p, p ∈ fb_output b -> Some (op_seq p) ∉ map reserved (fb_facts b) -> p ∈ output).
Proof.
  intros Hne Hnd H.
  destruct (record_committed _ _ _ _ _ _ _ Hne H) as [d1 d2 parts Hheld _ _ Hparts -> Hins _ _ _].
  destruct (fold_put_seqs (fb_output b) []) as [Hn0 Hs0]; [constructor|].
  destruct (fact_parts_seqs _ _ _ _ _ _ Hn0 Hparts) as (_ & Hn & Hs & Hkeep).
  split; [by apply insert_output_rows in Hins|]. split; [|split].
  - intros s. unfold seqs at 1. rewrite merge_sort_Permutation.
    change (map op_seq parts) with (seqs parts). rewrite Hs, Hs0. cbn. set_solver.
  - intros o Ho Hsid Hin. apply list_elem_of_fmap in Hin as (p & Hp & Hpin).
    by eapply insert_output_fresh in Hins.
  - intros p Hp Hnr. rewrite merge_sort_Permutation. apply Hkeep; [|done].
    by apply fold_put_elem.
Qed.

Lemma record_ok_sorted lease b ttl now d d' output :
  batch_nonempty b = true -> record lease b ttl now d = (Ok (Some output), d') ->
  (exists row, row ∈ db_readers d /\ holds lease row = true) /\ StronglySorted Z.lt (seqs output).
Proof.
  intros Hne H.
  destruct (record_committed _ _ _ _ _ _ _ Hne H) as [d1 d2 parts Hheld _ _ Hparts -> _ _ _ _].
  destruct (fold_put_seqs (fb_output b) []) as [Hn0 Hs0]; [constructor|].
  destruct (fact_parts_seqs _ _ _ _ _ _ Hn0 Hparts) as (_ & Hn & _).
  split; [done|by apply sorted_strictly].
Qed.

(** Without the lease nothing is written. *)
Lemma record_lost lease b ttl now d d' :
  batch_nonempty b = true -> record lease b ttl now d = (Ok None, d') -> d' = d.
Proof.
  intros Hne H. unfold record in H. rewrite Hne in H. apply transaction_ok in H. unfold record_body in H.
  apply txn_bind_ok in H as (n & d1 & Hu & H). injection Hu as <- <-.
  destruct (_ =? 0)%nat eqn:E.
  - injection H as <-. apply Nat.eqb_eq in E. rewrite count_where_zero in E.
    rewrite update_where_none by done. by destruct d.
  - exfalso. repeat apply txn_bind_ok in H as (? & ? & _ & H). discriminate.
Qed.

(** C3: what a committed batch appends.  The lease was held; the log gets exactly one row
    for each sequence number the batch used or its facts reserved, after everything
    already there, in strictly increasing order, none of them stored before for the
    session, and every part of the batch that no fact replaced is among them; and a
    batch that fails leaves the store untouched. *)
Theorem record_appends lease b ttl now d r d' :
  batch_nonempty b = true -> NoDup (seqs (fb_output b)) ->
  record lease b ttl now d = (r, d') ->
  match r with
  | Ok None => d' = d
  | Raise _ => d' = d
  | Ok (Some output) =>
      (exists row, row ∈ db_readers d /\ holds lease row = true) /\
      db_output d' = (db_output d ++ map (output_row_of (ls_session_id lease) now) output)%list /\
      StronglySorted Z.lt (seqs output) /\
      (forall s, s ∈ seqs output <-> s ∈ seqs (fb_output b) \/ Some s ∈ map reserved (fb_facts b)) /\
      (forall o, o ∈ db_output d -> ou_session_id o = ls_session_id lease ->
         ou_seq o ∉ seqs output) /\
      (forall p, p ∈ fb_output b -> Some (op_seq p) ∉ map reserved (fb_facts b) -> p ∈ output)
  end.
Proof.
  intros Hne Hnd H. destruct r as [[output|]|e]; [|by eapply record_lost|].
  2:{ unfold record in H. rewrite Hne in H. by apply transaction_raise in H. }
  destruct (record_ok_appends _ _ _ _ _ _ _ Hne Hnd H) as (? & ? & ? & ?).
  by destruct (record_ok_sorted _ _ _ _ _ _ _ Hne H).
Qed.

(** ** Waiting responses *)

Definition has_open (sid rid : string) (t : list interaction_row) : bool :=
  exists_where (open_of_response sid rid) t.

Definition interaction_key (r : interaction_row) : string * string :=
  (ia_session_id r, ia_interaction_id r).

(** A response is waiting exactly while one of its interactions is open. *)
Record waiting_ok (sid : string) (d : db) : Prop := WaitingOk {
  wo_unique : NoDup (map interaction_key (db_interactions d));
  wo_iff : forall r, r ∈ db_responses d -> rs_session_id r = sid ->
           rs_status r = Waiting <-> has_open sid (rs_response_id r) (db_interactions d) = true
}.

(** The facts that keep it: no interaction of a response that begins is open yet; an
    interaction that is recorded already, whatever became of it, is not opened under a response
    that runs, and a new one not under a response that has ended. *)
Definition keeps_waiting (sid : string) (d : db) (f : Fact) : Prop :=
  match f with
  | ResponseStart rid _ _ =>
      exists_where (is_response sid rid) (db_responses d) = true \/ has_open sid rid (db_interactions d) = false
  | InteractionOpen rid iid _ =>
      forall r, r ∈ db_responses d -> is_response sid rid r = true ->
        rs_status r <> (if exists_where (is_interaction sid iid) (db_interactions d) then Running else Ended)
  | _ => True
  end.

Fixpoint facts_keep (sid : string) (now : Z) (d : db) (facts : list Fact) : Prop :=
  match facts with
  | [] => True
  | f :: rest => keeps_waiting sid d f /\ forall d', apply sid now f d = Ok (tt, d') -> facts_keep sid now d' rest
  end.

Lemma is_response_true sid rid r :
  is_response sid rid r = true <-> rs_session_id r = sid /\ rs_response_id r = rid.
Proof. unfold is_response. by rewrite andb_true_iff, !String.eqb_eq. Qed.

Lemma is_interaction_true sid iid x :
  is_interaction sid iid x = true <-> interaction_key x = (sid, iid).
Proof.
  unfold is_interaction, interaction_key. rewrite andb_true_iff, !String.eqb_eq.
  split; [intros [-> ->]; done|by intros [= -> ->]].
Qed.

Lemma open_of_response_true sid rid x :
  open_of_response sid rid x = true <->
  ia_session_id x = sid /\ ia_response_id x = rid /\ ia_status x = IOpen.
Proof.
  unfold open_of_response, open_interaction.
  rewrite !andb_true_iff, !String.eqb_eq, bool_decide_eq_true. tauto.
Qed.

Lemma has_open_true sid rid t :
  has_open sid rid t = true <-> exists x, x ∈ t /\ open_of_response sid rid x = true.
Proof. apply existsb_true. Qed.

Lemma has_open_app sid rid t1 t2 :
  has_open sid rid (t1 ++ t2)%list = has_open sid rid t1 || has_open sid rid t2.
Proof. apply existsb_app. Qed.

Lemma has_open_update sid rid cond set t :
  (forall x, x ∈ t -> cond x = true -> open_of_response sid rid (set x) = open_of_response sid rid x) ->
  has_open sid rid (update_where cond set t) = has_open sid rid t.
Proof.
  intros H. unfold has_open, exists_where. induction t as [|x t IH]; [done|]. cbn.
  fold (update_where cond set t). rewrite IH by (intros; apply H; [by right|done]). f_equal.
  destruct (cond x) eqn:E; [|done]. apply H; [by left|done].
Qed.

Lemma interaction_keys_update cond set t :
  (forall x, interaction_key (set x) = interaction_key x) ->
  map interaction_key (update_where cond set t) = map interaction_key t.
Proof. intros H. unfold update_where. rewrite map_map. apply map_ext. intros x. by destruct (cond x). Qed.

(** Writing responses without touching who they are or whether they wait. *)
Lemma waiting_responses sid d cond set :
  (forall r, rs_session_id (set r) = rs_session_id r /\ rs_response_id (set r) = rs_response_id r /\
             rs_status (set r) = rs_status r) ->
  waiting_ok sid d -> waiting_ok sid (set_responses (update_where cond set (db_responses d)) d).
Proof.
  intros Hset [Hu Hw]. split; [done|]. cbn. intros r Hr Hs.
  apply elem_of_update_where in Hr as (r0 & Hr0 & ->). destruct (Hset r0) as (H1 & H2 & H3).
  specialize (Hw r0 Hr0). destruct (cond r0); [|auto]. rewrite H1 in Hs. rewrite H2, H3. auto.
Qed.

Lemma waiting_same sid d d' :
  db_responses d' = db_responses d -> db_interactions d' = db_interactions d ->
  waiting_ok sid d -> waiting_ok sid d'.
Proof. intros Hr Hi [Hu Hw]. split; rewrite ?Hr, ?Hi; done. Qed.

Lemma waiting_end sid now rid o nr u e d d' :
  waiting_ok sid d -> apply_end sid now rid o nr u e d = Ok (tt, d') -> waiting_ok sid d'.
Proof.
  intros [Hu Hw] [= <-]. split; cbn [set_interactions set_responses db_interactions db_responses].
  - by rewrite interaction_keys_update.
  - intros r Hr Hs. apply elem_of_update_where in Hr as (r0 & Hr0 & ->).
    destruct (is_response sid rid r0) eqn:E; cbn [andb] in *.
    + assert (Hend : rs_status (if negb (bool_decide (rs_status r0 = Ended))
                 then end_response o nr u e now r0 else r0) = Ended).
      { destruct (bool_decide_reflect (rs_status r0 = Ended)); done. }
      assert (Hid : rs_response_id (if negb (bool_decide (rs_status r0 = Ended))
                 then end_response o nr u e now r0 else r0) = rid).
      { apply is_response_true in E as [_ <-]. by destruct (negb _). }
      rewrite Hend, Hid. split; [done|]. intros (x & Hx & Ho)%has_open_true. exfalso.
      apply elem_of_update_where in Hx as (x0 & _ & ->).
      destruct (open_of_response sid rid x0) eqn:E0; [|congruence].
      by apply open_of_response_true in Ho as (_ & _ & Ho).
    + rewrite has_open_update; [by apply Hw|]. intros x _ (Hxs & Hxr & _)%open_of_response_true.
      assert (Hne : rs_response_id r0 <> rid).
      { intros Heq. assert (is_response sid rid r0 = true) by (by apply is_response_true). congruence. }
      unfold open_of_response. cbn. rewrite Hxr. apply not_eq_sym, String.eqb_neq in Hne.
      by rewrite Hne, !andb_false_r.
Qed.

(** Inserting an interaction, and what is open after it. *)
Lemma opened sid rid iid c now t :
  let row := InteractionRow sid iid rid c IOpen None None None now None in
  let t' := insert_if_absent (fun a b => is_interaction (ia_session_id a) (ia_interaction_id a) b) row t in
  (NoDup (map interaction_key t) -> NoDup (map interaction_key t')) /\
  forall rid', has_open sid rid' t' = has_open sid rid' t || (negb (exists_where (is_interaction sid iid) t) && (rid' =s rid)).
Proof.
  intros row t'. unfold t', insert_if_absent. cbn [ia_session_id ia_interaction_id row].
  change (existsb (fun b => is_interaction sid iid b) t) with (exists_where (is_interaction sid iid) t).
  destruct (exists_where _ t) eqn:E; [split; [done|]; intros rid'; by rewrite orb_false_r|]. split.
  - intros Hu. rewrite map_app. apply NoDup_app. split; [done|]. split; [|apply NoDup_singleton].
    intros k Hk ->%list_elem_of_singleton. apply list_elem_of_fmap in Hk as (x & Hk & Hx).
    pose proof (proj1 (existsb_false _ _) E x Hx) as Hn.
    assert (is_interaction sid iid x = true) by (by apply is_interaction_true). congruence.
  - intros rid'. rewrite has_open_app. cbn. unfold open_of_response. cbn. rewrite String.eqb_refl. cbn.
    by rewrite andb_true_r, orb_false_r, String.eqb_sym.
Qed.

Lemma waiting_open sid now rid iid c d d' :
  waiting_ok sid d -> apply_open sid now rid iid c d = Ok (tt, d') ->
  waiting_ok sid d' <-> keeps_waiting sid d (InteractionOpen rid iid c).
Proof.
  intros [Hu Hw] [= <-]. destruct (opened sid rid iid c now (db_interactions d)) as [Hu' Ho]. cbv zeta in Hu', Ho. cbn [keeps_waiting].
  set (absent := exists_where (is_interaction sid iid) (db_interactions d)) in *. split.
  - intros [_ Hw'] r Hr Hid Hst. cbn [set_interactions set_responses db_interactions db_responses] in Hw'.
    pose proof (proj1 (is_response_true _ _ _) Hid) as [Hs Hrid].
    specialize (Hw r Hr Hs). rewrite Hrid in Hw.
    set (r' := if is_response sid rid r && bool_decide (rs_status r = Running) then set_response_status Waiting r else r).
    assert (Hr' : r' ∈ update_where (fun r => is_response sid rid r && bool_decide (rs_status r = Running)) (set_response_status Waiting) (db_responses d))
      by (apply elem_of_update_where; by exists r).
    specialize (Hw' r' Hr'). assert (Hk : rs_session_id r' = sid /\ rs_response_id r' = rid) by (unfold r'; by destruct (_ && _)).
    destruct Hk as [Hk1 Hk2]. specialize (Hw' Hk1). rewrite Hk2, Ho, String.eqb_refl, andb_true_r in Hw'. unfold r' in Hw'. rewrite Hid, Hst in Hw'.
    destruct absent; cbn in Hw'; rewrite ?orb_false_r, ?orb_true_r in Hw'; destruct (has_open sid rid (db_interactions d)); intuition congruence.
  - intros Hok. split; cbn [set_interactions set_responses db_interactions db_responses]; [by apply Hu'|].
    intros r Hr Hs. apply elem_of_update_where in Hr as (r0 & Hr0 & ->). rewrite Ho. destruct (is_response sid rid r0) eqn:E; cbn [andb].
    + pose proof (Hok r0 Hr0 E) as Hne. apply is_response_true in E as [Hs0 Hid]. specialize (Hw r0 Hr0 Hs0). rewrite Hid in Hw.
      destruct (bool_decide_reflect (rs_status r0 = Running)) as [Hrun|Hrun]; cbn; rewrite Hid, String.eqb_refl, andb_true_r.
      * destruct absent; [congruence|]. by rewrite orb_true_r.
      * destruct absent; cbn; rewrite ?orb_false_r, ?orb_true_r; [exact Hw|]. split; [done|]. intros _. by destruct (rs_status r0).
    + assert (Hne : (rs_response_id r0 =s rid) = false).
      { apply String.eqb_neq. intros Heq. assert (is_response sid rid r0 = true) by (by apply is_response_true). congruence. }
      rewrite Hne, andb_false_r, orb_false_r. by apply Hw.
Qed.

Lemma waiting_close sid now iid st d d' :
  waiting_ok sid d -> apply_close sid now iid st d = Ok (tt, d') -> waiting_ok sid d'.
Proof.
  intros [Hu Hw] H. unfold apply_close in H.
  apply txn_bind_ok in H as (d0 & d1 & [= <- <-] & H).
  destruct (List.find _ _) as [x|] eqn:Ef; [|by injection H as <-].
  apply find_some in Ef as [Hx Hc]. apply list_elem_of_In in Hx.
  apply andb_true_iff in Hc as [Hxi Hxo].
  apply txn_bind_ok in H as (n & d2 & [= _ <-] & H).
  apply txn_bind_ok in H as (d3 & d4 & [= <- <-] & [= <-]).
  cbn [set_interactions db_interactions db_responses].
  set (t' := update_where _ (close_interaction_row st now) (db_interactions d)).
  assert (Hother : forall rid, rid <> ia_response_id x ->
            has_open sid rid t' = has_open sid rid (db_interactions d)).
  { intros rid Hne. apply has_open_update. intros y Hy [Hyi _]%andb_true_iff.
    assert (y = x) as ->.
    { eapply (NoDup_map_inj interaction_key); [done..|].
      apply is_interaction_true in Hyi, Hxi. congruence. }
    unfold open_of_response. cbn. apply not_eq_sym, String.eqb_neq in Hne.
    by rewrite Hne, !andb_false_r. }
  split; cbn [set_interactions set_responses db_interactions db_responses].
  - unfold t'. by rewrite interaction_keys_update.
  - intros r Hr Hs. apply elem_of_update_where in Hr as (r0 & Hr0 & ->). fold t' in Hs |- *.
    destruct (is_response sid (ia_response_id x) r0) eqn:E; cbn [andb] in Hs |- *.
    + apply is_response_true in E as [Hs0 Hid]. specialize (Hw r0 Hr0 Hs0).
      assert (Hwx : rs_status r0 = Waiting).
      { apply Hw. rewrite Hid. apply has_open_true. exists x. split; [done|].
        apply open_of_response_true. apply is_interaction_true in Hxi. injection Hxi as -> _.
        by unfold open_interaction in Hxo; bool_prop. }
      rewrite Hwx. cbn [bool_decide_decide andb].
      fold (has_open sid (ia_response_id x) t').
      destruct (has_open sid (ia_response_id x) t') eqn:Eo.
      * rewrite andb_false_r. rewrite Hid, Eo. done.
      * rewrite andb_true_r. rewrite bool_decide_eq_true_2 by done. cbn. rewrite Hid, Eo. done.
    + rewrite Hother; [by apply Hw|]. intros Heq.
      assert (is_response sid (ia_response_id x) r0 = true) by (by apply is_response_true). congruence.
Qed.

Definition same_waiting (d d' : db) : Prop :=
  db_responses d' = db_responses d /\ db_interactions d' = db_interactions d.

#[export] Instance same_waiting_preorder : PreOrder same_waiting.
Proof. unfold same_waiting. split; [done|]. intros x y z. intuition congruence. Qed.

(** Linking a response's inputs touches neither responses nor interactions. *)
Lemma start_links_same sid rid ids :
  ensures same_waiting
    (match ids with
     | [] => mret tt
     | _ =>
         _ ← forM (insert_link sid rid) ids;
         _ ← update_inputs (in_ids sid ids) (set_input_response rid);
         mret tt
     end : txn db unit).
Proof.
  destruct ids as [|i ids]; [apply ensures_ret, _|]. apply ensures_bind; [apply _| |intros _].
  - apply ensures_forM; [apply _|]. intros iid. apply ensures_modify_res. intros ??.
    destruct (exists_where _ _); [by intros [= <-]|done].
  - apply ensures_bind; [apply _| |intros _; apply ensures_ret, _]. by intros ??? [= _ <-].
Qed.

Lemma waiting_same_iff sid d d' :
  db_responses d' = db_responses d -> db_interactions d' = db_interactions d -> waiting_ok sid d' <-> waiting_ok sid d.
Proof. intros Hr Hi. split; by apply waiting_same. Qed.

Lemma waiting_start sid now rid origin ids d d' :
  waiting_ok sid d -> apply_start sid now rid origin ids d = Ok (tt, d') ->
  waiting_ok sid d' <-> keeps_waiting sid d (ResponseStart rid origin ids).
Proof.
  intros Hok H. unfold apply_start in H. cbn [keeps_waiting]. apply txn_bind_ok in H as ([] & d1 & [= <-] & H).
  set (d1 := if exists_where (is_response sid rid) (db_responses d) then d
        else set_next_response_seq (db_next_response_seq d + 1)
           (set_responses (db_responses d ++
              [new_response sid rid origin (db_next_response_seq d) now])%list d)) in *.
  destruct (start_links_same _ _ _ _ _ _ H) as [E1 E2]. rewrite (waiting_same_iff sid d1 d') by done. unfold d1.
  destruct (exists_where (is_response sid rid) (db_responses d)) eqn:E; [by intuition|].
  destruct Hok as [Hu Hw]. split.
  - intros [_ Hw']. right. cbn [set_next_response_seq set_responses db_responses db_interactions] in Hw'.
    specialize (Hw' (new_response sid rid origin (db_next_response_seq d) now)). cbn [new_response rs_status rs_response_id rs_session_id] in Hw'.
    destruct (has_open sid rid (db_interactions d)); [|done]. assert (Running = Waiting); [|done]. apply Hw'; [|done|done].
    apply elem_of_app. right. by apply list_elem_of_singleton.
  - intros [|Hno]; [done|]. split; [done|]. intros r Hr Hs. cbn [set_next_response_seq set_responses db_responses db_interactions] in *.
    apply elem_of_app in Hr as [Hr|Hr%list_elem_of_singleton]; [by apply Hw|].
    subst r. cbn [new_response rs_status rs_response_id]. by rewrite Hno.
Qed.

Lemma waiting_apply sid now f d d' :
  waiting_ok sid d -> apply sid now f d = Ok (tt, d') -> waiting_ok sid d' <-> keeps_waiting sid d f.
Proof.
  intros Hw H. destruct f as [rid o ids|rid o nr u e|kind mid seq|rid iid c|iid st os|ids|ids f].
  - by eapply waiting_start.
  - split; [done|]. intros _. by eapply waiting_end.
  - split; [done|]. intros _. destruct kind; injection H as <-; [by apply (waiting_same sid d)|by apply waiting_responses].
  - by eapply waiting_open.
  - split; [done|]. intros _. by eapply waiting_close.
  - split; [done|]. intros _. destruct ids; injection H as <-; [done|by apply (waiting_same sid d)].
  - split; [done|]. intros _. destruct ids; injection H as <-; [done|by apply (waiting_same sid d)].
Qed.

(** C7: A response is [waiting] exactly while one of its interactions is open, as long as the
    facts allow it, and exactly which do.  From a store where that holds, any fact but two keeps
    it - a response's end, closing any interaction, admissions, failures and places always; the
    start of a response keeps it exactly when the response is known or nothing of it is open yet,
    and the opening of an interaction exactly when it is new and its response has not ended, or
    it is recorded already and its response does not run.  Along a batch of facts each of which
    keeps it in its turn, it holds after the batch. *)
Theorem waiting_exactly_while_open sid now d :
  waiting_ok sid d ->
  (forall f d', apply sid now f d = Ok (tt, d') -> waiting_ok sid d' <-> keeps_waiting sid d f) /\
  (forall facts d', facts_keep sid now d facts -> forM (apply sid now) facts d = Ok (tt, d') -> waiting_ok sid d').
Proof.
  intros Hw. split; [intros f d'; by apply waiting_apply|]. intros facts. revert d Hw.
  induction facts as [|f facts IH]; intros d Hw d' Hok H; cbn in H.
  - by injection H as <-.
  - apply txn_bind_ok in H as ([] & d1 & Hf & H). destruct Hok as [Hk Hok].
    apply (IH d1); [by eapply waiting_apply|by apply Hok|done].
Qed.


(** ** Published positions *)

(** A stored message: its row exists. *)
Definition stored (sid : string) (kind : position_kind) (mid : string) (d : db) : Prop :=
  stored_order sid kind mid d <> [].

Lemma elem_of_stored_order sid kind mid d o :
  o ∈ stored_order sid kind mid d <->
  match kind with
  | KInput => exists r, r ∈ db_inputs d /\ in_session_id r = sid /\ in_input_id r = mid /\
                        o = in_conversation_order r
  | KResponse => exists r, r ∈ db_responses d /\ rs_session_id r = sid /\ rs_response_id r = mid /\
                           o = rs_conversation_order r
  end.
Proof.
  destruct kind; unfold stored_order; rewrite list_elem_of_fmap; split.
  - intros (r & -> & [Hc Hr]%elem_of_select_where). unfold in_session in Hc. bool_prop. eauto.
  - intros (r & Hr & Hs & Hm & ->). exists r. split; [done|]. apply elem_of_select_where.
    unfold in_session. by rewrite Hs, Hm, !String.eqb_refl.
  - intros (r & -> & [Hc Hr]%elem_of_select_where). apply is_response_true in Hc as []. eauto.
  - intros (r & Hr & Hs & Hm & ->). exists r. split; [done|]. apply elem_of_select_where.
    split; [by apply is_response_true|done].
Qed.

Lemma stored_elem sid kind mid d : stored sid kind mid d <-> exists o, o ∈ stored_order sid kind mid d.
Proof.
  unfold stored. destruct (stored_order _ _ _ _) as [|o l]; split; [done| |exists o; left|done].
  by intros (o & ?%not_elem_of_nil).
Qed.

(** Moving forward keeps every message and every position it has. *)
Lemma stored_order_evolves sid kind mid d d' o :
  evolves d d' -> o ∈ stored_order sid kind mid d ->
  exists o', o' ∈ stored_order sid kind mid d' /\ (forall n, o = Some n -> o' = Some n).
Proof.
  intros He Ho. apply elem_of_stored_order in Ho. destruct kind; destruct Ho as (r & Hr & Hs & Hm & ->).
  - destruct (evolved_input _ _ _ He Hr) as (r' & Hr' & [? ? ? ? Hord]).
    exists (in_conversation_order r'). split; [|auto]. apply elem_of_stored_order.
    exists r'. intuition congruence.
  - destruct (evolved_response _ _ _ He Hr) as (r' & Hr' & [? ? Hord]).
    exists (rs_conversation_order r'). split; [|auto]. apply elem_of_stored_order.
    exists r'. intuition congruence.
Qed.

Lemma stored_evolves sid kind mid d d' : evolves d d' -> stored sid kind mid d -> stored sid kind mid d'.
Proof.
  rewrite !stored_elem. intros He (o & Ho).
  destruct (stored_order_evolves _ _ _ _ _ _ He Ho) as (o' & ? & _). eauto.
Qed.

(** After its fact a message has a position. *)
Lemma position_applied sid kind mid seq d d' o :
  apply_position sid kind mid seq d = Ok (tt, d') -> o ∈ stored_order sid kind mid d' ->
  is_Some o.
Proof.
  intros H Ho. apply elem_of_stored_order in Ho. destruct kind; injection H as <-;
    destruct Ho as (r & Hr & Hs & Hm & ->); cbn in Hr;
    apply elem_of_update_where in Hr as (r0 & Hr0 & ->).
  - destruct (unordered_input sid mid r0) eqn:E; cbn in *; [eauto|].
    unfold unordered_input, in_session in E. rewrite Hs, Hm, !String.eqb_refl in E. cbn in E.
    bool_prop. by apply not_eq_None_Some.
  - destruct (unordered_response sid mid r0) eqn:E; cbn in *; [eauto|].
    unfold unordered_response, is_response in E. rewrite Hs, Hm, !String.eqb_refl in E. cbn in E.
    bool_prop. by apply not_eq_None_Some.
Qed.

Lemma facts_evolve sid now facts : ensures evolves (forM (apply sid now) facts).
Proof. apply ensures_forM; [apply _|]. apply apply_ensures. Qed.

Lemma forM_app {S A} (body : A -> txn S unit) l1 l2 s s' :
  forM body (l1 ++ l2)%list s = Ok (tt, s') <->
  exists s1, forM body l1 s = Ok (tt, s1) /\ forM body l2 s1 = Ok (tt, s').
Proof.
  revert s. induction l1 as [|x l1 IH]; intros s; cbn.
  - split; [eauto|]. by intros (? & [= <-] & ?).
  - rewrite txn_bind_ok. split.
    + intros ([] & s0 & Hx & H). apply IH in H as (s1 & H1 & H2). exists s1. split; [|done].
      rewrite txn_bind_ok. eauto.
    + intros (s1 & H1 & H2). apply txn_bind_ok in H1 as ([] & s0 & Hx & H1).
      exists tt, s0. split; [done|]. apply IH. eauto.
Qed.

(** A response started by an earlier fact is stored. *)
Lemma started_stored sid now facts rid origin ids d d' :
  ResponseStart rid origin ids ∈ facts -> forM (apply sid now) facts d = Ok (tt, d') ->
  stored sid KResponse rid d'.
Proof.
  intros (f1 & f2 & ->)%list_elem_of_split (d1 & _ & H)%forM_app. cbn in H.
  apply txn_bind_ok in H as ([] & d2 & H & H2). apply facts_evolve in H2.
  apply (stored_evolves _ _ _ d2); [done|]. unfold apply_start in H.
  apply txn_bind_ok in H as ([] & d3 & Hi & Hl). apply start_links_same in Hl as [Hl _].
  apply stored_elem. injection Hi as Hi. destruct (exists_where _ _) eqn:E; subst d3.
  - apply existsb_true in E as (r & Hr & [Hs Hm]%is_response_true).
    exists (rs_conversation_order r). apply elem_of_stored_order. exists r. by rewrite Hl.
  - exists None. apply elem_of_stored_order.
    exists (new_response sid rid origin (db_next_response_seq d1) now).
    split; [|done]. rewrite Hl. cbn. set_solver.
Qed.

(** The part a position fact reserved, as materialised. *)
Lemma fact_parts_position sid f1 kind mid seq f2 output d output' d' :
  NoDup (seqs output) -> Some seq ∉ map reserved f2 ->
  fact_parts sid output (f1 ++ MessagePosition kind mid seq :: f2)%list d = Ok (output', d') ->
  exists o, stored_order sid kind mid d = [o] /\ order_part kind mid seq o ∈ output'.
Proof.
  revert output. induction f1 as [|f f1 IH]; intros output Hn Hnr H; cbn in H.
  - apply txn_bind_ok in H as (out1 & d1 & Hf & H). cbn in Hf.
    apply txn_bind_ok in Hf as (d2 & d3 & [= <- <-] & Hf).
    apply txn_bind_ok in Hf as (o & d4 & Hone & [= <- <-]). unfold one in Hone.
    destruct (stored_order _ _ _ _) as [|x [|]]; try discriminate. injection Hone as -> <-.
    exists o. split; [done|].
    destruct (fact_parts_seqs _ _ _ _ _ _ (NoDup_seqs_put (order_part kind mid seq o) _ Hn) H)
      as (_ & _ & _ & Hkeep).
    apply Hkeep; [|done]. apply elem_of_put; [done|by left].
  - apply txn_bind_ok in H as (out1 & d1 & Hf & H).
    destruct (fact_part_reads _ _ _ _ _ _ Hf) as [-> Hr]. eapply IH; [|done|done].
    destruct (reserved f); [destruct Hr as (p & _ & ->); by apply NoDup_seqs_put|by subst].
Qed.

(** the position a batch publishes for a message is the one the store holds: the
    [data-message-order] part carries a number, that number is the message's
    [conversation_order] after the commit, and a message that already had a place
    publishes that older place, not the one this batch read. *)
Theorem published_position_is_stored lease b ttl now d output d' f1 kind mid seq f2 :
  let sid := ls_session_id lease in
  record lease b ttl now d = (Ok (Some output), d') ->
  fb_facts b = (f1 ++ MessagePosition kind mid seq :: f2)%list ->
  Some seq ∉ map reserved f2 ->
  stored sid kind mid d \/
    kind = KResponse /\ (exists origin ids, ResponseStart mid origin ids ∈ f1) ->
  exists n, order_part kind mid seq (Some n) ∈ output /\
            stored_order sid kind mid d' = [Some n] /\
            (forall n0, Some n0 ∈ stored_order sid kind mid d -> n = n0).
Proof.
  intros sid H Hfacts Hnr Hst. assert (Hne : batch_nonempty b = true).
  { unfold batch_nonempty. rewrite Hfacts. destruct f1; cbn; by rewrite ?orb_true_r. }
  destruct (record_committed _ _ _ _ _ _ _ Hne H)
    as [d1 d2 parts _ [Hidx _] Hap Hparts -> _ Hin Hre _]. fold sid in Hap, Hparts.
  destruct (fold_put_seqs (fb_output b) []) as [Hn0 _]; [constructor|].
  rewrite Hfacts in Hap, Hparts.
  destruct (fact_parts_position _ _ _ _ _ _ _ _ _ _ Hn0 Hnr Hparts) as (o & Ho & Hpart).
  assert (Hstored : stored_order sid kind mid d' = stored_order sid kind mid d2).
  { destruct kind; unfold stored_order; by rewrite ?Hin, ?Hre. }
  apply forM_app in Hap as (e1 & He1 & Hap). cbn in Hap.
  apply txn_bind_ok in Hap as ([] & e2 & Hpos & Hap).
  pose proof (facts_evolve _ _ _ _ _ _ He1) as Hv1. pose proof (facts_evolve _ _ _ _ _ _ Hap) as Hv3.
  pose proof (apply_ensures sid now (MessagePosition kind mid seq) _ _ _ Hpos) as Hv2.
  assert (Hst2 : stored sid kind mid e2).
  { apply (stored_evolves _ _ _ e1); [done|]. destruct Hst as [Hst|[-> (origin & ids & Hs)]].
    - do 2 (eapply stored_evolves; [done|]). done.
    - by eapply started_stored. }
  apply stored_elem in Hst2 as (o2 & Ho2).
  destruct (position_applied _ _ _ _ _ _ _ Hpos Ho2) as [n ->].
  destruct (stored_order_evolves _ _ _ _ _ _ Hv3 Ho2) as (o3 & Ho3 & Hk).
  rewrite Ho in Ho3. apply list_elem_of_singleton in Ho3 as ->.
  rewrite (Hk n eq_refl) in Ho, Hpart. exists n. split; [by rewrite merge_sort_Permutation|].
  split; [by rewrite Hstored|]. intros n0 Hn00.
  assert (Hv : evolves d d2) by (do 3 (etransitivity; [|done]); done).
  destruct (stored_order_evolves _ _ _ _ _ _ Hv Hn00) as (o4 & Ho4 & Hk4).
  rewrite Ho in Ho4. apply list_elem_of_singleton in Ho4. specialize (Hk4 n0 eq_refl). congruence.
Qed.

(** ** Witnesses *)

Definition demo_output : list OutputPart :=
  match fst (record demo_lease demo_batch 100 30 demo_db2) with Ok (Some o) => o | _ => [] end.

Lemma demo_record :
  record demo_lease demo_batch 100 30 demo_db2 = (Ok (Some demo_output), demo_db3).
Proof. vm_compute. reflexivity. Defined.

Lemma record_appends_witness :
  db_output demo_db3 =
    (db_output demo_db2 ++ map (output_row_of "s1" 30) demo_output)%list /\
  seqs demo_output = [1; 2; 3]%Z.
Proof.
  pose proof (record_appends demo_lease demo_batch 100 30 demo_db2 (Ok (Some demo_output)) demo_db3
    eq_refl ltac:(apply NoDup_singleton) demo_record) as (_ & H & _).
  split; [exact H|]. vm_compute. reflexivity.
Defined.

Lemma published_position_is_stored_witness :
  exists n, order_part KInput "i1" 2 (Some n) ∈ demo_output /\
            stored_order "s1" KInput "i1" demo_db3 = [Some n].
Proof.
  destruct (published_position_is_stored demo_lease demo_batch 100 30 demo_db2 demo_output demo_db3
    [ResponseStart "r1" "input" ["i1"]; InputsAdmitted ["i1"]] KInput "i1" 2
    [InteractionOpen "r1" "x1" demo_contract; InteractionClose "x1" IAnswered (Some 3%Z)])
    as (n & Hn & Hs & _).
  - exact demo_record.
  - reflexivity.
  - apply (bool_decide_unpack _). vm_compute. exact I.
  - left. vm_compute. discriminate.
  - exists n. split; [exact Hn|exact Hs].
Defined.

Lemma demo_waiting : waiting_ok "s1" demo_db2.
Proof. split; [apply NoDup_nil_2|]. intros r Hr. by apply not_elem_of_nil in Hr. Defined.

Definition demo_open_facts : list Fact :=
  [ResponseStart "r1" "input" ["i1"]; InteractionOpen "r1" "x1" demo_contract].

Definition demo_waiting_db : db :=
  match forM (apply "s1" 30) demo_open_facts demo_db2 with Ok (_, d) => d | Raise _ => demo_db2 end.

(** An interaction that is settled and opened again leaves its response waiting with nothing
    open: the insert finds the row, and the update of the response goes by its status alone. *)
Definition demo_reopening : list Fact := (demo_open_facts ++ [InteractionClose "x1" IAnswered None; InteractionOpen "r1" "x1" demo_contract])%list.
Definition demo_reopened : db :=
  match forM (apply "s1" 30) demo_reopening demo_db2 with Ok (_, d) => d | Raise _ => demo_db2 end.

Lemma reopened_waits_for_nothing :
  map rs_status (db_responses demo_reopened) = [Waiting] /\ map ia_status (db_interactions demo_reopened) = [IAnswered].
Proof. split; vm_compute; reflexivity. Qed.

Lemma waiting_exactly_while_open_witness :
  waiting_ok "s1" demo_waiting_db /\ map rs_status (db_responses demo_waiting_db) = [Waiting].
Proof.
  split; [|vm_compute; reflexivity].
  apply (proj2 (waiting_exactly_while_open "s1" 30 demo_db2 demo_waiting) demo_open_facts).
  - split; [by right|]. intros d1 Hd1. vm_compute in Hd1. injection Hd1 as <-. split; [|done].
    intros r Hr _. apply list_elem_of_singleton in Hr as ->. discriminate.
  - vm_compute. reflexivity.
Defined.

End Recorded.
