(* ===== verification/Paging.v ===== *)
(** Reading a sorted set a page at a time: what comes after the last key seen is
    exactly what is left. *)

From stdpp Require Import sorting.
From S2P Require Import Prelude.

Section paging.
Context {A : Type} (lt : A -> A -> bool).

Definition sorted_by (l : list A) : Prop := StronglySorted (fun a b => lt a b = true) l.

(** [WHERE key > :after]. *)
Definition after_key (after : option A) (l : list A) : list A :=
  match after with Some b => List.filter (lt b) l | None => l end.

Context (lt_irrefl : forall a, lt a a = false).
Context (lt_trans : forall a b c, lt a b = true -> lt b c = true -> lt a c = true).

Lemma filter_all (f : A -> bool) l : (forall x, x ∈ l -> f x = true) -> List.filter f l = l.
Proof.
  induction l as [|x l IH]; intros H; [done|]. cbn. rewrite (H x) by left. f_equal.
  apply IH. intros y Hy. apply H. by right.
Qed.

Lemma filter_none (f : A -> bool) l : (forall x, x ∈ l -> f x = false) -> List.filter f l = [].
Proof.
  induction l as [|x l IH]; intros H; [done|]. cbn. rewrite (H x) by left.
  apply IH. intros y Hy. apply H. by right.
Qed.

Lemma lt_asym a b : lt a b = true -> lt b a = false.
Proof.
  intros H. destruct (lt b a) eqn:E; [|done]. by rewrite <-(lt_irrefl a), (lt_trans a b a).
Qed.

Lemma sorted_app_inv s1 b s2 :
  sorted_by (s1 ++ b :: s2) ->
  (forall x, x ∈ s1 -> lt x b = true) /\ (forall x, x ∈ s2 -> lt b x = true) /\
  sorted_by s2.
Proof.
  unfold sorted_by. induction s1 as [|x s1 IH]; cbn; intros H.
  - apply StronglySorted_inv in H as [Hs Hf]. rewrite Forall_forall in Hf.
    split; [|done]. intros x Hx. by apply not_elem_of_nil in Hx.
  - apply StronglySorted_inv in H as [Hs Hf]. destruct (IH Hs) as (H1 & H2 & H3).
    split; [|done]. rewrite Forall_forall in Hf. intros y [->|Hy]%elem_of_cons; [|auto].
    apply Hf. set_solver.
Qed.

(** After the last key read, exactly the unread rows are left. *)
Lemma after_key_split s1 b s2 :
  sorted_by (s1 ++ b :: s2) -> after_key (Some b) (s1 ++ b :: s2) = s2.
Proof.
  intros H. destruct (sorted_app_inv _ _ _ H) as (H1 & H2 & _). unfold after_key.
  rewrite List.filter_app. cbn. rewrite lt_irrefl, filter_none, filter_all; [done|done|].
  intros x Hx. apply lt_asym. auto.
Qed.
End paging.

Section sorting.
Context {A : Type} (R : relation A) `{!RelDecision R, !Transitive R, !Total R, !AntiSymm eq R}.

Lemma filter_sorted (f : A -> bool) l : StronglySorted R l -> StronglySorted R (List.filter f l).
Proof.
  induction 1 as [|x l Hs IH Hf]; cbn; [constructor|]. destruct (f x); [|done].
  constructor; [done|]. rewrite Forall_forall in *. intros y Hy. apply Hf.
  apply list_elem_of_In, filter_In in Hy as [Hy _]. by apply list_elem_of_In.
Qed.

Lemma filter_permutation (f : A -> bool) l l' :
  l ≡ₚ l' -> List.filter f l ≡ₚ List.filter f l'.
Proof.
  induction 1 as [|x l l' _ IH|x y l|l1 l2 l3 _ IH1 _ IH2]; cbn; [done| | |by rewrite IH1].
  - by destruct (f x); rewrite IH.
  - destruct (f x), (f y); try done. apply Permutation_swap.
Qed.

(** Filtering first or sorting first is the same. *)
Lemma merge_sort_filter (f : A -> bool) l :
  merge_sort R (List.filter f l) = List.filter f (merge_sort R l).
Proof.
  apply (StronglySorted_unique R).
  - apply (StronglySorted_merge_sort R).
  - apply filter_sorted, (StronglySorted_merge_sort R).
  - rewrite merge_sort_Permutation. apply filter_permutation. by rewrite merge_sort_Permutation.
Qed.
End sorting.
