(* ===== verification/Keyset.v ===== *)
(** [persistence/repository/keyset.py]: reading a set one keyset page at a time — all of
    it, a budget per tick, or one filtered page.  [fetch_page] is the caller's query, an
    argument here; its documented contract is [serves]. *)

From stdpp Require Import sorting.
From S2P Require Import Prelude PyVal Paging.

Open Scope string_scope.

Module Keyset.

(** [str(row.get(key) or "")]. *)
Definition key_str (key : string) (row : dict) : string := Py.str_or_empty (Py.get key row).

(** [last <= after]. *)
Definition not_past (lst : string) (after : option string) : bool :=
  match after with Some a => String.leb lst a | None => false end.

(** ** The whole set in one pass *)

(** How a pass ended: at the last page, by raising, or not yet within the pages given. *)
Inductive pass_end := PassDone | PassRaised (e : exn) | PassNotDone.

(** [iter_keyset_pages]: the rows yielded, and how it ended. *)
Fixpoint iter_keyset_pages (fuel : nat) (fetch_page : option string -> list dict) (key : string)
  (page_size : nat) (after : option string) : list dict * pass_end :=
  match fuel with
  | O => ([], PassNotDone)
  | S fuel =>
      let page := fetch_page after in
      if (length page <? page_size)%nat then (page, PassDone)
      else
        match last page with
        | None => (page, PassRaised IndexError)
        | Some row =>
            let lst := key_str key row in
            if Py.is_empty lst || not_past lst after then (page, PassRaised RuntimeError)
            else
              let '(rows, e) := iter_keyset_pages fuel fetch_page key page_size (Some lst) in
              ((page ++ rows)%list, e)
        end
  end.

(** ** A budget per tick *)

Record KeysetCursor := MkCursor {
  kc_key : string;
  kc_after : option string;
  kc_before : option string;
  kc_rows : list dict;
  kc_limit : nat
}.

Definition new_cursor (key : string) : KeysetCursor := MkCursor key None None [] 0.

Definition with_after (after : option string) (c : KeysetCursor) : KeysetCursor :=
  MkCursor (kc_key c) after (kc_before c) (kc_rows c) (kc_limit c).

(** [visited(count)]. *)
Definition visited (count : Z) (c : KeysetCursor) : res KeysetCursor :=
  let rows := kc_rows c in
  if (Z.of_nat (length rows) <=? count)%Z && (length rows <? kc_limit c)%nat then Ok (with_after None c)
  else if (count <=? 0)%Z then Ok (with_after (kc_before c) c)
  else
    match rows !! (Nat.min (Z.to_nat count) (length rows) - 1) with
    | None => Raise IndexError
    | Some row =>
        let lst := key_str (kc_key c) row in
        if Py.is_empty lst || not_past lst (kc_before c) then Raise RuntimeError
        else Ok (with_after (Some lst) c)
    end.

(** [page]: the rows read, and the cursor afterwards. *)
Definition page (fetch_page : option string -> nat -> list dict) (limit : nat) (c : KeysetCursor)
  : res (list dict * KeysetCursor) :=
  let rows := fetch_page (kc_after c) limit in
  let '(before, rows) :=
    match rows, kc_after c with
    | [], Some _ => (None, fetch_page None limit)
    | _, _ => (kc_after c, rows)
    end in
  c' ← visited (Z.of_nat (length rows)) (MkCursor (kc_key c) (kc_after c) before rows limit);
  Ok (rows, c').

(** A sweep that visits every row of each page it reads: [n] ticks. *)
Fixpoint ticks (n : nat) (fetch_page : option string -> nat -> list dict) (limit : nat) (c : KeysetCursor)
  : res (list (list dict) * KeysetCursor) :=
  match n with
  | O => Ok ([], c)
  | S n =>
      '(rows, c1) ← page fetch_page limit c;
      '(rest, c2) ← ticks n fetch_page limit c1;
      Ok (rows :: rest, c2)
  end.

(** ** One filtered page *)

Section Filtered.
Context {K : Type}.

(** The inner loop: [Some kept] once more than [limit] rows are kept. *)
Fixpoint keep_rows (keep : dict -> bool) (limit : nat) (rows kept : list dict) : list dict + list dict :=
  match rows with
  | [] => inl kept
  | row :: rest =>
      if keep row then
        let kept' := (kept ++ [row])%list in
        if (limit <? length kept')%nat then inr (take limit kept') else keep_rows keep limit rest kept'
      else keep_rows keep limit rest kept
  end.

(** [read_filtered_page]; [None] while its pages are not used up. *)
Fixpoint read_filtered (fuel : nat) (fetch_page : option K -> nat -> list dict) (key_of : dict -> K)
  (keep : dict -> bool) (limit page_size : nat) (after : option K) (kept : list dict)
  : option (res (list dict * bool)) :=
  match fuel with
  | O => None
  | S fuel =>
      let page := fetch_page after page_size in
      match keep_rows keep limit page kept with
      | inr full => Some (Ok (full, true))
      | inl kept' =>
          if (length page <? page_size)%nat then Some (Ok (kept', false))
          else match last page with
               | None => Some (Raise IndexError)
               | Some row => read_filtered fuel fetch_page key_of keep limit page_size (Some (key_of row)) kept'
               end
      end
  end.

Definition read_filtered_page (fuel : nat) (fetch_page : option K -> nat -> list dict) (key_of : dict -> K)
  (keep : dict -> bool) (limit page_size : nat) (after : option K) : option (res (list dict * bool)) :=
  read_filtered fuel fetch_page key_of keep limit page_size after [].
End Filtered.

(** ** The set a query reads *)

Section Rows.
Context {K : Type} (lt : K -> K -> bool) (key : dict -> K).

(** The rows past [after], in order. *)
Definition rows_after (after : option K) (l : list dict) : list dict :=
  match after with Some k => List.filter (fun r => lt k (key r)) l | None => l end.

(** Sorted by a unique key. *)
Definition keyed (l : list dict) : Prop := sorted_by (fun a b => lt (key a) (key b)) l.

(** The contract of [fetch_page]: at most [size] rows after [after], in key order. *)
Definition serves (fetch_page : option K -> nat -> list dict) (l : list dict) : Prop :=
  forall after size, fetch_page after size = take size (rows_after after l).

Context (lt_irrefl : forall a, lt a a = false).
Context (lt_trans : forall a b c, lt a b = true -> lt b c = true -> lt a c = true).

Lemma rows_after_split s1 b s2 : keyed (s1 ++ b :: s2) -> rows_after (Some (key b)) (s1 ++ b :: s2) = s2.
Proof.
  intros H. apply (after_key_split (fun a b => lt (key a) (key b))); [done| |done].
  intros x y z. apply lt_trans.
Qed.

(** After the first [n] rows, the others. *)
Lemma rows_after_drop l n r :
  keyed l -> l !! n = Some r -> rows_after (Some (key r)) l = drop (S n) l.
Proof.
  intros Hk Hn. rewrite <-(take_drop_middle l n r Hn) at 1. apply rows_after_split.
  by rewrite take_drop_middle.
Qed.
End Rows.

Lemma ltb_lt a b : String.ltb a b = true <-> String.compare a b = Lt.
Proof. unfold String.ltb. by destruct (String.compare a b). Qed.

Lemma string_ltb_irrefl a : String.ltb a a = false.
Proof.
  destruct (String.ltb a a) eqn:E; [|done]. apply ltb_lt in E.
  pose proof (String.compare_antisym a a) as H. by rewrite E in H.
Qed.

Lemma string_ltb_trans a b c : String.ltb a b = true -> String.ltb b c = true -> String.ltb a c = true.
Proof.
  rewrite !ltb_lt. revert b c. induction a as [|x a IH]; intros [|y b] [|z c]; try done. cbn.
  unfold Ascii.compare. intros H1 H2.
  destruct (N.compare_spec (Ascii.N_of_ascii x) (Ascii.N_of_ascii y)) as [E1|E1|E1]; [| |done];
  destruct (N.compare_spec (Ascii.N_of_ascii y) (Ascii.N_of_ascii z)) as [E2|E2|E2]; try done;
  destruct (N.compare_spec (Ascii.N_of_ascii x) (Ascii.N_of_ascii z)) as [E3|E3|E3]; try done; try lia.
  by eapply IH.
Qed.

Lemma leb_not_ltb a b : String.ltb a b = true -> String.leb b a = false.
Proof.
  rewrite ltb_lt. intros H. unfold String.leb. by rewrite (String.compare_antisym b a), H.
Qed.

(** A set sorted by a key no row lacks. *)
Definition key_sorted (key : string) (l : list dict) : Prop :=
  keyed String.ltb (key_str key) l /\ Forall (fun r => key_str key r <> "") l.

Lemma key_nonempty s : s <> "" -> Py.is_empty s = false.
Proof. by destruct s. Qed.

(** Each key on a later row is past the one before. *)
Lemma key_past key l i j a b :
  keyed String.ltb (key_str key) l -> l !! i = Some a -> l !! j = Some b -> i < j ->
  not_past (key_str key b) (Some (key_str key a)) = false.
Proof.
  intros Hk Hi Hj Hlt. cbn. apply leb_not_ltb. unfold keyed, sorted_by in Hk.
  rewrite <-(take_drop_middle l j b Hj) in Hk.
  apply (StronglySorted_app_1_elem_of _ _ _ a b Hk); [|left].
  apply (list_elem_of_lookup_2 _ i). by rewrite lookup_take_lt.
Qed.

Lemma string_rows_after_drop key l n r :
  keyed String.ltb (key_str key) l -> l !! n = Some r ->
  rows_after String.ltb (key_str key) (Some (key_str key r)) l = drop (S n) l.
Proof. intros. apply rows_after_drop; auto using string_ltb_irrefl. exact string_ltb_trans. Qed.

(** Where a pass stands after its first [n] rows. *)
Definition after_row (key : string) (l : list dict) (n : nat) (after : option string) : Prop :=
  match n with
  | O => after = None
  | S m => exists r, l !! m = Some r /\ after = Some (key_str key r)
  end.

Lemma after_row_rows key l n after :
  keyed String.ltb (key_str key) l -> after_row key l n after ->
  rows_after String.ltb (key_str key) after l = drop n l.
Proof.
  intros Hk Ha. destruct n as [|m]; [by rewrite Ha|]. destruct Ha as (r & Hr & ->).
  by apply string_rows_after_drop.
Qed.

(** A key past the place the pass stands at. *)
Lemma after_row_past key l n m r after :
  key_sorted key l -> after_row key l n after -> l !! m = Some r -> n <= m ->
  Py.is_empty (key_str key r) || not_past (key_str key r) after = false.
Proof.
  intros [Hk Hne] Ha Hr Hle. rewrite Forall_forall in Hne.
  rewrite key_nonempty by (apply Hne; by eapply list_elem_of_lookup_2). cbn [orb].
  destruct n as [|n]; [by rewrite Ha|]. destruct Ha as (r' & Hr' & ->). eapply key_past; [done|done|done|lia].
Qed.

Lemma last_take_drop (l : list dict) o k :
  0 < k -> o + k <= length l -> last (take k (drop o l)) = l !! (o + k - 1).
Proof.
  intros Hk Hle. rewrite last_lookup, length_take, length_drop.
  replace (pred (k `min` (length l - o))) with (k - 1) by lia.
  rewrite lookup_take_lt by lia. rewrite lookup_drop. f_equal. lia.
Qed.

Lemma iter_from key l size fetch n after fuel :
  key_sorted key l -> 0 < size ->
  (forall after, fetch after = take size (rows_after String.ltb (key_str key) after l)) ->
  n <= length l -> after_row key l n after -> (length l - n) / size < fuel ->
  iter_keyset_pages fuel fetch key size after = (drop n l, PassDone).
Proof.
  intros Hs Hsize Hfetch. revert n after. induction fuel as [|fuel IH]; intros n after Hn Ha Hf; [lia|].
  cbn [iter_keyset_pages]. destruct Hs as [Hk Hne]. rewrite Hfetch, (after_row_rows key l n after Hk Ha).
  destruct (Nat.ltb_spec (length (take size (drop n l))) size) as [Hlt|Hge]; rewrite length_take, length_drop in *.
  - rewrite take_ge by (rewrite length_drop; lia). done.
  - assert (Hle : n + size <= length l) by lia.
    rewrite last_take_drop by lia. destruct (lookup_lt_is_Some_2 l (n + size - 1)) as [r Hr]; [lia|]. rewrite Hr.
    rewrite (after_row_past key l n (n + size - 1) r after (conj Hk Hne) Ha Hr) by lia.
    rewrite (IH (n + size)).
    + rewrite <-drop_drop, take_drop. done.
    + lia.
    + destruct (n + size) as [|m] eqn:E; [lia|]. exists r. split; [|done]. by replace m with (S m - 1) by lia.
    + apply Nat.lt_le_trans with ((length l - n) / size); [|lia].
      replace (length l - n) with ((length l - (n + size)) + 1 * size) by lia.
      rewrite Nat.div_add by lia. lia.
Qed.

(** A sweep reads the whole set.  Against a query that serves a set sorted by a unique
    key, [iter_keyset_pages] yields every row once, in key order, and ends without raising
    after one page more than the set fills. *)
Theorem iter_keyset_pages_complete key l size fetch_page fuel :
  key_sorted key l -> 0 < size ->
  (forall after, fetch_page after = take size (rows_after String.ltb (key_str key) after l)) ->
  length l / size < fuel ->
  iter_keyset_pages fuel fetch_page key size None = (l, PassDone).
Proof.
  intros Hs Hsize Hf Hfuel. rewrite (iter_from key l size fetch_page 0); [done|done|done|done|lia|done|].
  by rewrite Nat.sub_0_r.
Qed.

(** ** Laps of a budgeted sweep *)

Definition nth_page (l : list dict) (limit i : nat) : list dict := take limit (drop (i * limit) l).

(** [ceil(rows / limit)]. *)
Definition lap (l : list dict) (limit : nat) : nat := (length l + limit - 1) / limit.

Lemma concat_pages l limit a k :
  concat (map (nth_page l limit) (seq a k)) = take (k * limit) (drop (a * limit) l).
Proof.
  revert a. induction k as [|k IH]; intros a; [done|]. cbn [seq map concat]. rewrite IH. unfold nth_page.
  replace (S k * limit) with (limit + k * limit) by lia. replace (S a * limit) with (a * limit + limit) by lia.
  rewrite <-drop_drop. generalize (drop (a * limit) l). intros l'.
  rewrite <-(take_drop limit l') at 3. destruct (decide (limit <= length l')).
  - rewrite take_app_ge by (rewrite length_take; lia). rewrite length_take.
    by replace (limit + k * limit - limit `min` length l') with (k * limit) by lia.
  - rewrite (drop_ge l') by lia. by rewrite take_nil, !app_nil_r, take_take, Nat.min_r by lia.
Qed.

Lemma lap_covers l limit : 0 < limit -> length l <= lap l limit * limit.
Proof.
  intros Hl. unfold lap. pose proof (Nat.div_mod_eq (length l + limit - 1) limit).
  pose proof (Nat.mod_upper_bound (length l + limit - 1) limit ltac:(lia)). lia.
Qed.

Lemma lap_short l limit p : 0 < limit -> p * limit < length l -> length l < S p * limit -> lap l limit = S p.
Proof.
  intros Hl H1 H2. unfold lap. symmetry. apply (Nat.div_unique _ _ _ (length l + limit - 1 - S p * limit)); lia.
Qed.

Lemma lap_exact l limit p : 0 < limit -> p * limit = length l -> lap l limit = p.
Proof. intros Hl H. unfold lap. symmetry. apply (Nat.div_unique _ _ _ (limit - 1)); lia. Qed.

Lemma lap_bound l limit p : 0 < limit -> p * limit < length l -> p < lap l limit.
Proof. intros Hl H. pose proof (lap_covers l limit Hl). nia. Qed.

Section Lap.
Context (key : string) (l : list dict) (limit : nat) (fetch : option string -> nat -> list dict).
Context (Hs : key_sorted key l) (Hl : 0 < limit) (Hne : 0 < length l).
Context (Hfetch : serves String.ltb (key_str key) fetch l).

(** The cursor stands before page [p]. *)
Definition at_page (p : nat) (c : KeysetCursor) : Prop :=
  kc_key c = key /\ p * limit <= length l /\ after_row key l (p * limit) (kc_after c).

(** Visiting the whole of page [p], read from where the cursor stood. *)
Lemma visit_page p before after :
  p * limit < length l -> after_row key l (p * limit) before ->
  exists c, visited (Z.of_nat (length (nth_page l limit p)))
    (MkCursor key after before (nth_page l limit p) limit) = Ok c /\
    at_page (if (S p * limit <=? length l)%nat then S p else 0) c.
Proof.
  intros Hp Hb. unfold visited. cbn [kc_rows kc_limit kc_before kc_key].
  rewrite (proj2 (Z.leb_le _ _)) by lia. cbn [andb].
  assert (Hlen : length (nth_page l limit p) = Nat.min limit (length l - p * limit))
    by (unfold nth_page; by rewrite length_take, length_drop).
  destruct (Nat.leb_spec (S p * limit) (length l)) as [Hle|Hgt].
  - rewrite (proj2 (Nat.ltb_ge _ _)) by lia. rewrite (proj2 (Z.leb_gt _ _)) by lia.
    destruct (lookup_lt_is_Some_2 l (S p * limit - 1)) as [r Hr]; [lia|].
    assert (Hrow : nth_page l limit p !!
      (Z.to_nat (Z.of_nat (length (nth_page l limit p))) `min` length (nth_page l limit p) - 1) = Some r).
    { rewrite Nat2Z.id, Nat.min_id, Hlen. unfold nth_page. rewrite lookup_take_lt by lia. rewrite lookup_drop.
      rewrite <-Hr. f_equal. lia. }
    rewrite Hrow, (after_row_past key l (p * limit) (S p * limit - 1) r before Hs Hb Hr) by lia.
    eexists. split; [done|]. split; [done|]. split; [done|]. cbn [kc_after with_after].
    destruct (S p * limit) as [|m] eqn:E; [lia|]. exists r. split; [|done]. rewrite <-Hr. f_equal. lia.
  - rewrite (proj2 (Nat.ltb_lt _ _)) by lia. eexists. split; [done|]. split; [done|]. split; [lia|done].
Qed.

Lemma page_at p c :
  at_page p c ->
  let q := p mod lap l limit in
  exists c' p', page fetch limit c = Ok (nth_page l limit q, c') /\ at_page p' c' /\
    p' mod lap l limit = S p mod lap l limit.
Proof.
  intros (Hkey & Hp & Ha). cbv zeta. destruct Hs as [Hk _].
  assert (Hread : forall q after, q * limit < length l -> after_row key l (q * limit) after ->
    fetch after limit = nth_page l limit q /\ fetch after limit <> []).
  { intros q after Hq Hq'. rewrite Hfetch, (after_row_rows key l _ _ Hk Hq'). split; [done|].
    intros H. apply (f_equal length) in H. rewrite length_take, length_drop in H. cbn in H. lia. }
  assert (Hmod : forall q, q * limit < length l ->
    (if (S q * limit <=? length l)%nat then S q else 0) mod lap l limit = S q mod lap l limit).
  { intros q Hq. destruct (Nat.leb_spec (S q * limit) (length l)); [done|].
    rewrite (lap_short l limit q Hl Hq) by lia. rewrite Nat.Div0.mod_same. by apply Nat.Div0.mod_0_l. }
  unfold page. destruct (decide (p * limit = length l)) as [He|Hlt].
  - (* past the last row: the set starts again *)
    rewrite (lap_exact l limit p Hl He). rewrite Nat.Div0.mod_same.
    assert (Hp0 : 0 < p) by (destruct p; [lia|lia]).
    assert (Hempty : fetch (kc_after c) limit = []).
    { rewrite Hfetch, (after_row_rows key l _ _ Hk Ha), drop_ge by lia. apply take_nil. }
    assert (Hsome : exists k, kc_after c = Some k).
    { destruct (p * limit) as [|m] eqn:E; [lia|]. destruct Ha as (r & _ & ->). by exists (key_str key r). }
    destruct Hsome as [k Hsome]. rewrite Hempty, Hsome.
    destruct (Hread 0 None) as [Hf _]; [lia|done|]. rewrite Hf, Hkey.
    destruct (visit_page 0 None (Some k)) as (c' & Hv & Hat); [lia|done|].
    rewrite Hv. cbn [mbind res_bind]. do 2 eexists. split; [done|]. split; [exact Hat|].
    pose proof (Hmod 0 ltac:(lia)) as Hm. rewrite (lap_exact l limit p Hl He) in Hm. rewrite Hm.
    replace (S p) with (1 + 1 * p) by lia. by rewrite Nat.Div0.mod_add.
  - assert (Hp' : p * limit < length l) by lia.
    destruct (Hread p _ Hp' Ha) as [Hf Hnn].
    rewrite (Nat.mod_small p) by (by apply lap_bound).
    destruct (visit_page p (kc_after c) (kc_after c) Hp' Ha) as (c' & Hv & Hat).
    exists c'. exists (if (S p * limit <=? length l)%nat then S p else 0). rewrite Hf in *. rewrite Hkey.
    destruct (nth_page l limit p) as [|r rest] eqn:En; [done|].
    rewrite Hv. split; [by destruct (kc_after c)|]. split; [done|]. by apply Hmod.
Qed.

Lemma ticks_at n p c :
  at_page p c ->
  exists pages c' p', ticks n fetch limit c = Ok (pages, c') /\ at_page p' c' /\
    p' mod lap l limit = (p + n) mod lap l limit /\
    pages = map (fun i => nth_page l limit ((p + i) mod lap l limit)) (seq 0 n).
Proof.
  revert p c. induction n as [|n IH]; intros p c Hat; cbn [ticks].
  - exists [], c, p. by rewrite Nat.add_0_r.
  - destruct (page_at p c Hat) as (c1 & p1 & -> & Hat1 & Hm1). cbn [mbind res_bind].
    destruct (IH p1 c1 Hat1) as (pages & c2 & p2 & -> & Hat2 & Hm2 & ->). cbn [mbind res_bind].
    do 3 eexists. split; [done|]. split; [exact Hat2|].
    assert (Hshift : forall i, (p1 + i) mod lap l limit = (p + S i) mod lap l limit).
    { intros i. rewrite <-(Nat.Div0.add_mod_idemp_l p1), Hm1, Nat.Div0.add_mod_idemp_l. f_equal. lia. }
    split; [by rewrite Hm2, Hshift|]. cbn [seq map]. rewrite Nat.add_0_r. f_equal.
    rewrite <-seq_shift, map_map. apply map_ext. intros i. by rewrite Hshift.
Qed.
End Lap.

(** One turn of the pages from any of them. *)
Lemma rotation (A : Type) (f : nat -> A) p n :
  0 < n ->
  map (fun i => f ((p + i) mod n)) (seq 0 n) =
  (map f (seq (p mod n) (n - p mod n)) ++ map f (seq 0 (p mod n)))%list.
Proof.
  intros Hn. pose proof (Nat.mod_upper_bound p n ltac:(lia)) as Hr.
  rewrite <-map_app. rewrite <-(map_map (fun i => (p + i) mod n) f). f_equal.
  set (r := p mod n) in *. apply list_eq. intros i.
  destruct (decide (i < n)) as [Hi|Hi].
  - rewrite list_lookup_fmap, lookup_seq_lt by done. cbn.
    rewrite <-(Nat.Div0.add_mod_idemp_l p). fold r.
    destruct (decide (i < n - r)).
    + rewrite lookup_app_l by (rewrite length_seq; lia). rewrite lookup_seq_lt by lia.
      by rewrite Nat.mod_small by lia.
    + rewrite lookup_app_r by (rewrite length_seq; lia). rewrite length_seq, lookup_seq_lt by lia. f_equal.
      symmetry. apply (Nat.mod_unique _ _ 1); lia.
  - rewrite !lookup_ge_None_2; [done|..]; rewrite ?length_app, ?length_map, !length_seq; lia.
Qed.

Lemma page_empty key limit fetch c :
  0 < limit -> serves String.ltb (key_str key) fetch [] -> kc_after c = None ->
  page fetch limit c = Ok ([], with_after None (MkCursor (kc_key c) None None [] limit)).
Proof.
  intros Hl Hf Hc. assert (E : fetch None limit = []) by (rewrite Hf; apply take_nil).
  unfold page. rewrite Hc, !E. destruct limit as [|k]; [lia|]. reflexivity.
Qed.

(** A budgeted sweep starves no row.  Over a set sorted by a unique key that stays as
    it is, after any number of ticks the next [ceil(rows / limit)] of them visit every row
    exactly once. *)
Theorem each_lap_visits_every_row key l limit fetch n :
  key_sorted key l -> 0 < limit -> serves String.ltb (key_str key) fetch l ->
  exists pages1 c1 pages2 c2,
    ticks n fetch limit (new_cursor key) = Ok (pages1, c1) /\
    ticks (lap l limit) fetch limit c1 = Ok (pages2, c2) /\ concat pages2 ≡ₚ l.
Proof.
  intros Hs Hl Hf. destruct (decide (length l = 0)) as [Hz|Hz].
  - apply length_zero_iff_nil in Hz as ->.
    assert (Hlap : lap [] limit = 0) by (apply lap_exact; cbn; lia). rewrite Hlap.
    enough (exists pages c, ticks n fetch limit (new_cursor key) = Ok (pages, c)) as (pages & c & ->)
      by (do 4 eexists; cbn; done).
    assert (Hafter : kc_after (new_cursor key) = None) by done. revert Hafter. generalize (new_cursor key).
    induction n as [|n IH]; intros c Hc; [by do 2 eexists|]. cbn [ticks].
    rewrite (page_empty key limit fetch c Hl Hf Hc). cbn [mbind res_bind].
    destruct (IH (with_after None (MkCursor (kc_key c) None None [] limit)) eq_refl) as (pages & c2 & ->).
    cbn. by do 2 eexists.
  - assert (Hat : at_page key l limit 0 (new_cursor key)) by (split; [done|split; [lia|done]]).
    destruct (ticks_at key l limit fetch Hs Hl ltac:(lia) Hf n 0 _ Hat) as (pages1 & c1 & p1 & -> & Hat1 & _ & _).
    destruct (ticks_at key l limit fetch Hs Hl ltac:(lia) Hf (lap l limit) p1 c1 Hat1)
      as (pages2 & c2 & p2 & H2 & _ & _ & ->).
    exists pages1, c1. do 2 eexists. split; [done|]. split; [exact H2|].
    pose proof (lap_covers l limit Hl) as Hcov.
    assert (Hpos : 0 < lap l limit) by nia.
    pose proof (Nat.mod_upper_bound p1 (lap l limit) ltac:(lia)) as Hr.
    rewrite (rotation _ (nth_page l limit)) by done. rewrite concat_app, Permutation_app_comm, <-concat_app, <-map_app.
    assert (Hseq : (seq 0 (p1 mod lap l limit) ++ seq (p1 mod lap l limit) (lap l limit - p1 mod lap l limit))%list
      = seq 0 (lap l limit)).
    { etrans; [symmetry; apply (seq_app (p1 mod lap l limit) (lap l limit - p1 mod lap l limit) 0)|]. f_equal. lia. }
    rewrite Hseq, concat_pages. cbn [Nat.mul]. rewrite drop_0. by rewrite take_ge by lia.
Qed.

(** ** Filtered pages *)

Lemma keep_rows_spec keep limit rows kept :
  length kept <= limit ->
  keep_rows keep limit rows kept =
    let all := (kept ++ List.filter keep rows)%list in
    if (limit <? length all)%nat then inr (take limit all) else inl all.
Proof.
  revert kept. induction rows as [|row rows IH]; intros kept Hk; cbn [keep_rows List.filter].
  - cbv zeta. rewrite app_nil_r. by rewrite (proj2 (Nat.ltb_ge _ _)).
  - destruct (keep row) eqn:E; [|by rewrite IH].
    cbv zeta. destruct (Nat.ltb_spec limit (length (kept ++ [row]))) as [Hlt|Hge].
    + rewrite length_app in *. cbn [length] in *. rewrite (proj2 (Nat.ltb_lt _ _)) by lia. f_equal.
      assert (limit = length kept) as -> by lia. by rewrite !take_app_length.
    + rewrite IH by lia. cbv zeta. by rewrite <-app_assoc.
Qed.

Section FilteredPage.
Context {K : Type} (lt : K -> K -> bool) (key_of : dict -> K).
Context (lt_irrefl : forall a, lt a a = false).
Context (lt_trans : forall a b c, lt a b = true -> lt b c = true -> lt a c = true).

(** The reading position: the rows after it are those from the [n]th on. *)
Definition standing (l : list dict) (n : nat) (after : option K) : Prop :=
  rows_after lt key_of after l = drop n l.

Lemma read_filtered_from l keep limit size fetch n after kept fuel :
  keyed lt key_of l -> 0 < size -> serves lt key_of fetch l ->
  n <= length l -> standing l n after -> length kept <= limit -> (length l - n) / size < fuel ->
  let all := (kept ++ List.filter keep (drop n l))%list in
  read_filtered fuel fetch key_of keep limit size after kept =
    Some (Ok (take limit all, (limit <? length all)%nat)).
Proof.
  intros Hk Hsize Hf. revert n after kept. induction fuel as [|fuel IH]; intros n after kept Hn Ha Hkept Hfuel; [lia|].
  cbn [read_filtered]. cbv zeta. rewrite !Hf, !Ha, keep_rows_spec by done. cbv zeta.
  assert (Hsplit : List.filter keep (drop n l) =
    (List.filter keep (take size (drop n l)) ++ List.filter keep (drop size (drop n l)))%list)
    by (by rewrite <-List.filter_app, take_drop).
  rewrite Hsplit, app_assoc.
  set (seen := (kept ++ List.filter keep (take size (drop n l)))%list).
  destruct (Nat.ltb_spec limit (length seen)) as [Hlt|Hge].
  - rewrite take_app_le by lia. rewrite length_app. by rewrite (proj2 (Nat.ltb_lt _ _)) by lia.
  - rewrite length_take, length_drop. destruct (Nat.ltb_spec (size `min` (length l - n)) size) as [Hs|Hs].
    + rewrite (drop_ge (drop n l)) by (rewrite length_drop; lia). cbn [List.filter]. rewrite app_nil_r.
      rewrite take_ge by lia. by rewrite (proj2 (Nat.ltb_ge _ _)).
    + rewrite last_take_drop by lia. destruct (lookup_lt_is_Some_2 l (n + size - 1)) as [r Hr]; [lia|]. rewrite Hr.
      rewrite drop_drop. rewrite (IH (n + size)); [done|lia| |done|].
      * unfold standing. rewrite (rows_after_drop lt key_of lt_irrefl lt_trans l (n + size - 1) r Hk Hr).
        f_equal. lia.
      * apply Nat.lt_le_trans with ((length l - n) / size); [|lia].
        replace (length l - n) with ((length l - (n + size)) + 1 * size) by lia.
        rewrite Nat.div_add by lia. lia.
Qed.
End FilteredPage.

(** A filtered listing skips nothing and says so when more follows.  Reading raw pages
    after the first [n] rows, [read_filtered_page] returns the first [limit] rows the filter
    keeps of all that follow, and whether there are more of them; one raw page more than
    the rest of the set fills is enough. *)
Theorem read_filtered_page_exact {K} (lt : K -> K -> bool) (key_of : dict -> K) l keep limit size fetch n after fuel :
  (forall a, lt a a = false) ->
  (forall a b c, lt a b = true -> lt b c = true -> lt a c = true) ->
  keyed lt key_of l -> 0 < size -> serves lt key_of fetch l ->
  n <= length l -> (match n with O => after = None | S m => exists r, l !! m = Some r /\ after = Some (key_of r) end) ->
  (length l - n) / size < fuel ->
  let kept := List.filter keep (drop n l) in
  read_filtered_page fuel fetch key_of keep limit size after =
    Some (Ok (take limit kept, (limit <? length kept)%nat)).
Proof.
  intros Hi Ht Hk Hsize Hf Hn Ha Hfuel. cbv zeta. unfold read_filtered_page.
  rewrite (read_filtered_from lt key_of Hi Ht l keep limit size fetch n); [done|done|done|done|done| |cbn; lia|done].
  unfold standing. destruct n as [|m]; [by subst|]. destruct Ha as (r & Hr & ->). by apply rows_after_drop.
Qed.

(** ** Witnesses *)

Definition demo_row (id : string) : dict := [("id", VStr id)].
Definition demo_set : list dict := map demo_row ["a"; "b"; "c"; "d"; "e"].

Lemma demo_key_sorted : key_sorted "id" demo_set.
Proof. split; [|repeat constructor; discriminate]. repeat constructor. Defined.

Lemma iter_keyset_pages_complete_witness :
  iter_keyset_pages 3 (fun after => take 2 (rows_after String.ltb (key_str "id") after demo_set)) "id" 2 None
  = (demo_set, PassDone).
Proof.
  apply (iter_keyset_pages_complete "id" demo_set 2); [exact demo_key_sorted|lia|reflexivity|cbn; lia].
Defined.

Lemma each_lap_visits_every_row_witness :
  exists pages1 c1 pages2 c2,
    ticks 1 (fun after n => take n (rows_after String.ltb (key_str "id") after demo_set)) 2 (new_cursor "id")
      = Ok (pages1, c1) /\
    ticks 3 (fun after n => take n (rows_after String.ltb (key_str "id") after demo_set)) 2 c1 = Ok (pages2, c2) /\
    concat pages2 ≡ₚ demo_set.
Proof.
  apply (each_lap_visits_every_row "id" demo_set 2 _ 1); [exact demo_key_sorted|lia|]. intros after n. reflexivity.
Defined.

Lemma read_filtered_page_exact_witness :
  read_filtered_page 5 (fun after n => take n (rows_after String.ltb (key_str "id") after demo_set)) (key_str "id")
    (fun r => negb (Py.eqb (Py.get "id" r) (VStr "c"))) 2 2 (Some "a")
  = Some (Ok (map demo_row ["b"; "d"], true)).
Proof.
  etrans; [apply (read_filtered_page_exact String.ltb (key_str "id") demo_set _ 2 2 _ 1 (Some "a") 5)|reflexivity];
    [exact string_ltb_irrefl|exact string_ltb_trans|exact (proj1 demo_key_sorted)|lia|intros after n; reflexivity
    |cbn; lia|exists (demo_row "a"); split; reflexivity|cbn; lia].
Defined.

End Keyset.
