(* ===== verification/HistoryPages.v ===== *)
(** Paging through a session's history ([history_page]): walking the pages back from
    the newest meets every message once, in order; and indexing positions is done once. *)

From stdpp Require Import sorting.
From S2P Require Import Prelude PyVal Schema Interaction SessionRepo SessionRecord DemoStore RepoHistory RecordFacts Paging.

Open Scope string_scope.

Module Pages.
Import Repo Rec History Recorded.

(** ** The order of entries *)

Lemma key_lt_irrefl a : key_lt a a = false.
Proof. unfold key_lt. rewrite !Z.ltb_irrefl, !Z.eqb_refl. done. Qed.

Lemma key_lt_spec a b :
  key_lt a b = true <->
  (ek_phase a < ek_phase b \/ ek_phase a = ek_phase b /\
   (ek_position a < ek_position b \/ ek_position a = ek_position b /\
    (ek_kind a < ek_kind b \/ ek_kind a = ek_kind b /\ ek_seq a < ek_seq b)))%Z.
Proof.
  unfold key_lt. rewrite !orb_true_iff, !andb_true_iff, !orb_true_iff, !andb_true_iff,
    !orb_true_iff, !andb_true_iff, !Z.ltb_lt, !Z.eqb_eq. done.
Qed.

Lemma key_lt_trans a b c : key_lt a b = true -> key_lt b c = true -> key_lt a c = true.
Proof. rewrite !key_lt_spec. lia. Qed.

Lemma key_lt_total a b : key_lt a b = false -> key_lt b a = false -> a = b.
Proof.
  rewrite <-!not_true_iff_false, !key_lt_spec. intros H1 H2.
  destruct a, b; cbn in *. f_equal; lia.
Qed.

#[export] Instance key_ge_total : Total key_ge.
Proof.
  intros a b. unfold key_ge. destruct (key_lt a b) eqn:E; [right|by left].
  destruct (key_lt b a) eqn:E2; [|done]. by rewrite <-(key_lt_irrefl a), (key_lt_trans a b a).
Qed.

#[export] Instance key_ge_trans : Transitive key_ge.
Proof.
  unfold key_ge. intros a b c H1 H2. destruct (key_lt a c) eqn:E; [|done].
  destruct (key_lt b a) eqn:Eb.
  - by rewrite <-H2, (key_lt_trans b a c).
  - assert (a = b) as -> by (by apply key_lt_total). congruence.
Qed.

#[export] Instance key_ge_antisymm : AntiSymm eq key_ge.
Proof. intros a b. apply key_lt_total. Qed.

(** Newest first. *)
Definition newer (a b : entry_key) : bool := key_lt b a.

Lemma sorted_entries l : NoDup l -> sorted_by newer (merge_sort key_ge l).
Proof.
  intros Hn. assert (Hn' : NoDup (merge_sort key_ge l)) by (by rewrite merge_sort_Permutation).
  pose proof (StronglySorted_merge_sort key_ge l) as Hs. revert Hn' Hs.
  generalize (merge_sort key_ge l). clear. intros l Hn Hs.
  induction Hs as [|a l Hs IH Hall]; [constructor|].
  apply NoDup_cons in Hn as [Hni Hn]. constructor; [by apply IH|].
  rewrite Forall_forall in *. intros b Hb. specialize (Hall _ Hb). unfold newer.
  destruct (key_lt b a) eqn:E; [done|]. assert (a = b) as -> by (by apply key_lt_total). done.
Qed.

(** What a page reads is the head of what the bound leaves of the sorted entries. *)
Lemma page_rows_sorted before limit l :
  page_rows before limit l = take (limit + 1) (after_key newer before (merge_sort key_ge l)).
Proof.
  unfold page_rows. destruct before as [b|]; [|done]. f_equal.
  exact (merge_sort_filter key_ge (newer b) l).
Qed.

(** ** Walking the pages *)

(** Follow [before] from page to page; the result is oldest first. *)
Fixpoint walk (sid : string) (limit : nat) (through_seq : option Z) (d : db) (fuel : nat)
  (before : option entry_key) : list entry_key :=
  match fuel with
  | O => []
  | S fuel =>
      let v := page_of sid before limit through_seq d in
      match hp_before v with
      | Some b => walk sid limit through_seq d fuel (Some b) ++ hp_entries v
      | None => hp_entries v
      end%list
  end.

Lemma take_last {A} (l : list A) n :
  n < length l -> 0 < n -> exists s x, take n l = (s ++ [x])%list /\ l = (s ++ x :: drop n l)%list.
Proof.
  intros Hn H0. assert (Hlen : length (take n l) = n) by (rewrite length_take; lia).
  destruct (take n l) as [|y t] eqn:E using rev_ind; [cbn in Hlen; lia|].
  exists t, y. split; [done|]. rewrite <-(take_drop n l) at 1. rewrite E. by rewrite <-app_assoc.
Qed.

(** The page after [before] starts where [rest] does. *)
Definition left_after (before : option entry_key) (all rest : list entry_key) : Prop :=
  (before = None /\ all = rest) \/ (exists pre b, before = Some b /\ all = pre ++ b :: rest)%list.

Lemma left_after_key before all rest :
  sorted_by newer all -> left_after before all rest -> after_key newer before all = rest.
Proof.
  intros Hs [[-> ->]|(pre & b & -> & ->)]; [done|]. apply after_key_split; [| |done].
  - apply key_lt_irrefl.
  - intros x y z H1 H2. by eapply key_lt_trans.
Qed.

Lemma walk_from sid limit through_seq d fuel before rest :
  0 < limit -> NoDup (entries sid through_seq d) ->
  left_after before (merge_sort key_ge (entries sid through_seq d)) rest ->
  length rest <= fuel -> walk sid limit through_seq d fuel before = reverse rest.
Proof.
  intros Hl Hn. pose proof (sorted_entries _ Hn) as Hsort.
  set (all := merge_sort key_ge (entries sid through_seq d)) in *.
  revert before rest. induction fuel as [|fuel IH]; intros before rest Hrest Hlen.
  { by destruct rest; [|cbn in Hlen; lia]. }
  cbn [walk]. unfold page_of. cbn [hp_before hp_entries].
  rewrite page_rows_sorted. fold all.
  rewrite (left_after_key _ _ _ Hsort Hrest), length_take, take_take.
  replace (limit `min` (limit + 1)) with limit by lia.
  destruct (Nat.ltb_spec limit ((limit + 1) `min` length rest)) as [Hmore|Hdone].
  - destruct (take_last rest limit) as (s & x & Ht & Hr); [lia|done|].
    rewrite Ht, reverse_app. cbn [reverse rev_append app List.hd_error].
    rewrite (IH (Some x) (drop limit rest)).
    + rewrite Hr at 2. rewrite reverse_app, reverse_cons, <-app_assoc. done.
    + right. destruct Hrest as [[-> Ha]|(pre & b & -> & Ha)].
      * exists s, x. by rewrite Ha.
      * exists (pre ++ b :: s)%list, x. split; [done|]. rewrite Ha, Hr at 1.
        by rewrite <-app_assoc.
    + rewrite length_drop. lia.
  - rewrite take_ge by lia. done.
Qed.

(** reading a conversation backwards, page by page, from the newest meets every one of
    its messages exactly once and ends up with all of them in conversation order,
    whatever the page size; and one page never carries more than [limit] of them. *)
Theorem history_pages_complete sid limit through_seq d fuel :
  0 < limit -> NoDup (entries sid through_seq d) ->
  length (entries sid through_seq d) <= fuel ->
  walk sid limit through_seq d fuel None = reverse (merge_sort key_ge (entries sid through_seq d)) /\
  walk sid limit through_seq d fuel None ≡ₚ entries sid through_seq d /\
  (forall before, length (hp_entries (page_of sid before limit through_seq d)) <= limit).
Proof.
  intros Hl Hn Hf.
  assert (E : walk sid limit through_seq d fuel None
              = reverse (merge_sort key_ge (entries sid through_seq d))).
  { apply walk_from; [done|done|by left|]. by rewrite merge_sort_Permutation. }
  split; [done|]. split.
  - by rewrite E, reverse_Permutation, merge_sort_Permutation.
  - intros before. cbn. rewrite length_reverse, length_take. lia.
Qed.

(** ** Indexing *)

(** Giving positions to rows, value by value. *)
Section fill.
Context {A : Type} (cond : string -> A -> bool) (set : Z -> A -> A) (ord : A -> option Z).
Context (cond_none : forall m r, cond m r = true -> ord r = None).
Context (ord_set : forall n r, ord (set n r) = Some n).

Definition fill (values : list (string * Z)) (r : A) : A :=
  fold_left (fun r v => if cond (fst v) r then set (snd v) r else r) values r.

Lemma fill_some values r n : ord r = Some n -> fill values r = r.
Proof.
  intros H. induction values as [|v values IH]; [done|]. cbn.
  destruct (cond (fst v) r) eqn:E; [|done]. apply cond_none in E. congruence.
Qed.

(** A row left without a position had no value meant for it. *)
Lemma fill_none values r :
  ord (fill values r) = None -> fill values r = r /\ (forall v, v ∈ values -> cond (fst v) r = false).
Proof.
  revert r. induction values as [|v values IH]; intros r H; cbn in *.
  - split; [done|]. intros v Hv. by apply not_elem_of_nil in Hv.
  - destruct (cond (fst v) r) eqn:E.
    + rewrite (fill_some _ _ (snd v)), ord_set in H by apply ord_set. done.
    + destruct (IH r H) as [Hr Hv]. split; [done|]. intros w [->|Hw]%elem_of_cons; auto.
Qed.

Lemma update_where_fill v values t :
  map (fill values) (update_where (cond (fst v)) (set (snd v)) t) = map (fill (v :: values)) t.
Proof. unfold update_where. rewrite map_map. apply map_ext. intros r. cbn. done. Qed.
End fill.

Notation fill_input sid := (fill (unordered_input sid) set_input_order).
Notation fill_response sid := (fill (unordered_response sid) set_response_order).

Lemma forM_update_inputs sid values d :
  forM (fun v => _ ← update_inputs (unordered_input sid (fst v)) (set_input_order (snd v));
                 mret tt) values d
  = Ok (tt, set_inputs (map (fill_input sid values) (db_inputs d)) d).
Proof.
  revert d. induction values as [|v values IH]; intros d.
  - cbn. unfold fill. cbn. rewrite map_id. by destruct d.
  - cbn [forM]. apply txn_bind_ok. eexists tt, _. split; [done|].
    rewrite IH. cbn [set_inputs db_inputs]. by rewrite update_where_fill.
Qed.

Lemma forM_update_responses sid values d :
  forM (fun v => _ ← update_responses (unordered_response sid (fst v)) (set_response_order (snd v));
                 mret tt) values d
  = Ok (tt, set_responses (map (fill_response sid values) (db_responses d)) d).
Proof.
  revert d. induction values as [|v values IH]; intros d.
  - cbn. unfold fill. cbn. rewrite map_id. by destruct d.
  - cbn [forM]. apply txn_bind_ok. eexists tt, _. split; [done|].
    rewrite IH. cbn [set_responses db_responses]. by rewrite update_where_fill.
Qed.

(** What an index pass computes. *)
Lemma index_body_run sid d d' :
  index_body sid d = Ok (tt, d') <->
  exists markers ins resps,
    mapM_res (fun r => read_marker (ou_part r)) (select_where (order_marker sid) (db_output d)) = Ok markers /\
    mapM_res (input_position sid d markers) (select_where (in_session sid) (db_inputs d)) = Ok ins /\
    mapM_res (response_position sid d markers)
      (select_where (fun r => rs_session_id r =s sid) (db_responses d)) = Ok resps /\
    d' = set_responses (map (fill_response sid (omap id resps)) (db_responses d))
           (set_inputs (map (fill_input sid (omap id ins)) (db_inputs d)) d).
Proof.
  unfold index_body. split.
  - intros (d0 & d1 & [= <- <-] & H)%txn_bind_ok.
    apply txn_bind_ok in H as (markers & d1 & Hm & H). unfold lift in Hm.
    destruct (mapM_res _ _) as [m|] eqn:Em in Hm; [|done]. injection Hm as -> <-.
    apply txn_bind_ok in H as (ins & d1 & Hi & H). unfold lift in Hi.
    destruct (mapM_res _ _) as [i|] eqn:Ei in Hi; [|done]. injection Hi as -> <-.
    apply txn_bind_ok in H as ([] & d1 & Hu & H). rewrite forM_update_inputs in Hu.
    injection Hu as <-. apply txn_bind_ok in H as (resps & d1 & Hr & H). unfold lift in Hr.
    destruct (mapM_res _ _) as [r|] eqn:Er in Hr; [|done]. injection Hr as -> <-.
    rewrite forM_update_responses in H. injection H as <-. by exists markers, ins, resps.
  - intros (markers & ins & resps & Hm & Hi & Hr & ->).
    apply txn_bind_ok. exists d, d. split; [done|].
    apply txn_bind_ok. exists markers, d. split; [unfold lift; by rewrite Hm|].
    apply txn_bind_ok. exists ins, d. split; [unfold lift; by rewrite Hi|].
    apply txn_bind_ok. eexists tt, _. split; [apply forM_update_inputs|].
    apply txn_bind_ok. eexists resps, _. split; [unfold lift; by rewrite Hr|].
    by rewrite forM_update_responses.
Qed.

Lemma mapM_res_none {A B} (f : A -> res (option B)) l :
  (forall x, x ∈ l -> f x = Ok None) -> exists l', mapM_res f l = Ok l' /\ omap id l' = [].
Proof.
  induction l as [|x l IH]; intros H; [by exists []|].
  destruct IH as (l' & Hl & Ho); [intros; apply H; by right|].
  exists (None :: l'). cbn. by rewrite (H x (list_elem_of_here _ _)), Hl.
Qed.

Lemma mapM_res_elem {A B} (f : A -> res B) l l' x y :
  mapM_res f l = Ok l' -> x ∈ l -> f x = Ok y -> y ∈ l'.
Proof.
  intros H Hx Hy. apply mapM_res_Forall2 in H. induction H as [|a b l l' Hab _ IH].
  - by apply not_elem_of_nil in Hx.
  - apply elem_of_cons in Hx as [->|Hx]; [|right; auto]. rewrite Hab in Hy. injection Hy as ->. left.
Qed.

Lemma mapM_res_defined {A B} (f : A -> res B) l l' x :
  mapM_res f l = Ok l' -> x ∈ l -> exists y, f x = Ok y.
Proof.
  intros H Hx. apply mapM_res_Forall2 in H. induction H as [|a b l l' Hab _ IH].
  - by apply not_elem_of_nil in Hx.
  - apply elem_of_cons in Hx as [->|Hx]; eauto.
Qed.

(** Positions depend on the log and the links alone, which indexing never writes. *)
Lemma input_position_filled sid d d' markers values r :
  db_output d' = db_output d -> db_response_inputs d' = db_response_inputs d ->
  in_conversation_order (fill_input sid values r) = None ->
  in_session sid r = true ->
  (forall v, input_position sid d markers r = Ok (Some v) -> v ∈ values) ->
  (exists y, input_position sid d markers r = Ok y) ->
  input_position sid d' markers (fill_input sid values r) = Ok None.
Proof.
  intros Ho Hl Hn Hs Hv [y Hy].
  destruct (fill_none (unordered_input sid) set_input_order in_conversation_order
    (unordered_input_none sid) (fun n r => eq_refl) values r Hn) as [Hr Hc].
  rewrite Hr in Hn |- *.
  assert (Hsame : input_position sid d' markers r = input_position sid d markers r).
  { unfold input_position, consumed_position, anchor_position, min_position. by rewrite Ho, Hl. }
  rewrite Hsame, Hy. destruct y as [v|]; [|done]. exfalso.
  assert (Hfst : fst v = in_input_id r).
  { unfold input_position in Hy. rewrite bool_decide_eq_false_2 in Hy by (rewrite Hn; by intros [? [=]]).
    apply bind_ok in Hy as (p & _ & Hp). destruct p; [|done]. by injection Hp as <-. }
  specialize (Hc v (Hv v Hy)). unfold unordered_input in Hc.
  by rewrite Hs, Hfst, String.eqb_refl, bool_decide_eq_true_2 in Hc.
Qed.

Lemma response_position_filled sid d d' markers values r :
  db_output d' = db_output d ->
  rs_conversation_order (fill_response sid values r) = None ->
  rs_session_id r =s sid = true ->
  (forall v, response_position sid d markers r = Ok (Some v) -> v ∈ values) ->
  (exists y, response_position sid d markers r = Ok y) ->
  response_position sid d' markers (fill_response sid values r) = Ok None.
Proof.
  intros Ho Hn Hs Hv [y Hy].
  destruct (fill_none (unordered_response sid) set_response_order rs_conversation_order
    (unordered_response_none sid) (fun n r => eq_refl) values r Hn) as [Hr Hc].
  rewrite Hr in Hn |- *.
  assert (Hsame : response_position sid d' markers r = response_position sid d markers r).
  { unfold response_position, min_position. by rewrite Ho. }
  rewrite Hsame, Hy. destruct y as [v|]; [|done]. exfalso.
  assert (Hfst : fst v = rs_response_id r).
  { unfold response_position in Hy. rewrite bool_decide_eq_false_2 in Hy by (rewrite Hn; by intros [? [=]]).
    apply bind_ok in Hy as (p & _ & Hp). destruct p; [|done]. by injection Hp as <-. }
  specialize (Hc v (Hv v Hy)). unfold unordered_response, is_response in Hc.
  by rewrite Hs, Hfst, String.eqb_refl, bool_decide_eq_true_2 in Hc.
Qed.

Lemma fill_input_identity sid values r :
  in_session_id (fill_input sid values r) = in_session_id r.
Proof.
  revert r. induction values as [|v values IH]; intros r; [done|]. cbn.
  unfold fill in IH. rewrite IH. by destruct (unordered_input _ _ _).
Qed.

Lemma fill_response_identity sid values r :
  rs_session_id (fill_response sid values r) = rs_session_id r.
Proof.
  revert r. induction values as [|v values IH]; intros r; [done|]. cbn.
  unfold fill in IH. rewrite IH. by destruct (unordered_response _ _ _).
Qed.

Lemma elem_of_omap_id {A} (l : list (option A)) x : Some x ∈ l -> x ∈ omap id l.
Proof. intros H. apply list_elem_of_omap. by exists (Some x). Qed.

(** A second pass right after the first writes the very same store. *)
Lemma index_body_again sid d d' : index_body sid d = Ok (tt, d') -> index_body sid d' = Ok (tt, d').
Proof.
  intros (markers & ins & resps & Hm & Hi & Hr & ->)%index_body_run. apply index_body_run.
  cbn [set_responses set_inputs db_inputs db_responses db_output db_response_inputs].
  set (d' := set_responses _ _).
  destruct (mapM_res_none (input_position sid d' markers)
    (select_where (in_session sid) (map (fill_input sid (omap id ins)) (db_inputs d)))) as (ins' & Hi' & Ei).
  { intros r' [Hs Hr']%elem_of_select_where. apply list_elem_of_fmap in Hr' as (r & -> & Hin).
    unfold in_session in Hs. rewrite fill_input_identity in Hs.
    assert (Hsel : r ∈ select_where (in_session sid) (db_inputs d)) by (by apply elem_of_select_where).
    destruct (in_conversation_order (fill_input sid (omap id ins) r)) eqn:E.
    - unfold input_position. by rewrite E.
    - apply (input_position_filled sid d); [done..| |by eapply mapM_res_defined].
      intros v Hv. apply elem_of_omap_id. by eapply mapM_res_elem. }
  destruct (mapM_res_none (response_position sid d' markers)
    (select_where (fun r => rs_session_id r =s sid)
       (map (fill_response sid (omap id resps)) (db_responses d)))) as (resps' & Hr' & Er).
  { intros r' [Hs Hr']%elem_of_select_where. apply list_elem_of_fmap in Hr' as (r & -> & Hin).
    rewrite fill_response_identity in Hs.
    assert (Hsel : r ∈ select_where (fun r => rs_session_id r =s sid) (db_responses d))
      by (by apply elem_of_select_where).
    destruct (rs_conversation_order (fill_response sid (omap id resps) r)) eqn:E.
    - unfold response_position. by rewrite E.
    - apply (response_position_filled sid d); [done..| |by eapply mapM_res_defined].
      intros v Hv. apply elem_of_omap_id. by eapply mapM_res_elem. }
  exists markers, ins', resps'. repeat split; [done..|]. rewrite Ei, Er. unfold fill. cbn.
  by rewrite !map_id.
Qed.

(** indexing older records is done once: a second pass over a conversation finds
    nothing to change, so a page read never moves a message. *)
Theorem index_idempotent sid d d' :
  index_recorded_messages sid d = Ok (tt, d') -> index_recorded_messages sid d' = Ok (tt, d').
Proof.
  unfold index_recorded_messages. intros (d0 & d1 & [= <- <-] & H)%txn_bind_ok.
  apply txn_bind_ok. exists d', d'. split; [done|].
  assert (Hd : index_body sid d = Ok (tt, d') \/ d' = d).
  { destruct (exists_where (missing_input sid d) _ || _); [by left|right]. by injection H as <-. }
  destruct (exists_where (missing_input sid d') (db_inputs d') || _) eqn:E'; [|done].
  destruct Hd as [Hd| ->]; [by eapply index_body_again|]. rewrite E' in H.
  by eapply index_body_again.
Qed.

(** ** Witnesses *)

Definition demo_page_db : db :=
  snd (accept_input (NewInput "s1" "i2" "m2" "more" None None None None [] None) 50 50 demo_db4).

Lemma history_pages_complete_witness :
  walk "s1" 1 None demo_page_db 3 None =
    reverse (merge_sort key_ge (entries "s1" None demo_page_db)) /\
  length (entries "s1" None demo_page_db) = 3.
Proof.
  split; [|vm_compute; reflexivity].
  apply (history_pages_complete "s1" 1 None demo_page_db 3).
  - lia.
  - apply (bool_decide_unpack _). vm_compute. exact I.
  - vm_compute. lia.
Defined.

(** A conversation recorded before positions were kept: the input has none yet. *)
Definition demo_unindexed : db :=
  set_inputs (map (fun r => InputRow (in_input_id r) (in_session_id r) (in_seq r)
    (in_client_message_id r) (in_author_user_id r) (in_source r) (in_content r)
    (in_content_blocks r) (in_state r) (in_response_id r) (in_failure r) (in_import_record r)
    (in_created_at r) (in_delivered_at r) (in_admitted_at r) None) (db_inputs demo_db4)) demo_db4.

Definition demo_indexed : db :=
  match index_recorded_messages "s1" demo_unindexed with Ok (_, d) => d | Raise _ => demo_db end.

Lemma index_idempotent_witness :
  index_recorded_messages "s1" demo_indexed = Ok (tt, demo_indexed) /\
  map in_conversation_order (db_inputs demo_indexed) = [Some 4%Z].
Proof.
  split; [|vm_compute; reflexivity].
  apply (index_idempotent "s1" demo_unindexed). vm_compute. reflexivity.
Defined.

End Pages.
