(* ===== verification/InputAcceptance.v ===== *)
(** Accepting an input ([accept_input]): a message is stored once under its client id,
    with all its attachments or not at all. *)

From S2P Require Import Prelude PyVal Schema Interaction SessionRepo SessionRecord DemoStore RepoHistory.

Open Scope string_scope.

Module Acceptance.
Import Repo Rec History.

(** The message a caller names is already stored. *)
Definition has_message (sid cmid : string) (d : db) : Prop :=
  exists r, r ∈ db_inputs d /\ in_session_id r = sid /\ in_client_message_id r = cmid.

Lemma has_message_evolves sid cmid d d' : evolves d d' -> has_message sid cmid d -> has_message sid cmid d'.
Proof.
  intros He (r & Hr & Hs & Hm). destruct (evolved_input _ _ _ He Hr) as (r' & Hr' & [Hi _ _ _ _]).
  exists r'. intuition congruence.
Qed.

(** A name already used stores nothing. *)
Lemma accept_known n now clock d :
  has_message (ni_session_id n) (ni_client_message_id n) d ->
  accept_body n now clock d = Ok (None, d).
Proof.
  intros (r & Hr & Hs & Hm). unfold accept_body. apply txn_bind_ok. exists d, d. split; [done|].
  assert (Hk : exists_where (same_message (input_row_of n (db_next_input_seq d) now))
                 (db_inputs d) = true).
  { apply existsb_true. exists r. split; [done|]. unfold same_message. cbn.
    by rewrite Hs, Hm, !String.eqb_refl. }
  by rewrite Hk, orb_true_r.
Qed.

(** ** Attachments *)

Definition bound_to (sid iid : string) (aid : string) (ordinal : nat) (a : attachment_row) : Prop :=
  at_attachment_id a = aid /\ at_session_id a = Some sid /\ at_input_id a = Some iid /\
  at_ordinal a = Some (Z.of_nat ordinal).

(** A bound row is never taken again. *)
Definition attachment_step (a a' : attachment_row) : Prop := at_session_id a <> None -> a' = a.

#[export] Instance attachment_step_preorder : PreOrder attachment_step.
Proof.
  split; [done|]. intros x y z H1 H2 Hx. specialize (H1 Hx) as ->. auto.
Qed.

Definition attachments_grow (d d' : db) : Prop :=
  grows attachment_step (db_attachments d) (db_attachments d').

#[export] Instance attachments_grow_preorder : PreOrder attachments_grow.
Proof. unfold attachments_grow. split; [intros ?; reflexivity|intros ???; apply transitivity]. Qed.

Lemma bind_ensures n clock att : ensures attachments_grow (bind_attachment n clock att).
Proof.
  destruct att as [ordinal [aid kind]]. unfold bind_attachment.
  apply ensures_bind; [apply _| |].
  - intros d ? ? [= _ <-]. apply grows_update; [apply _|]. intros row Ha Hne.
    unfold attachment_free in Ha. by bool_prop.
  - intros bound. destruct (_ =? 1)%nat; [apply ensures_ret, _|apply ensures_throw].
Qed.

Lemma bind_one n clock ordinal aid kind d d' :
  bind_attachment n clock (ordinal, (aid, kind)) d = Ok (tt, d') ->
  exists a, a ∈ db_attachments d' /\ bound_to (ni_session_id n) (ni_input_id n) aid ordinal a.
Proof.
  unfold bind_attachment. intros (c & d1 & [= Hc <-] & H)%txn_bind_ok.
  destruct (c =? 1)%nat eqn:E; [|done]. injection H as <-. apply Nat.eqb_eq in E. subst c.
  destruct (existsb (attachment_free n clock aid) (db_attachments d)) eqn:Ex.
  - apply existsb_true in Ex as (a & Ha & Hf). eexists. split.
    + apply elem_of_update_where. exists a. split; [done|]. by rewrite Hf.
    + unfold attachment_free in Hf. bool_prop. by repeat split.
  - rewrite (proj2 (count_where_zero _ _) (proj1 (existsb_false _ _) Ex)) in E. done.
Qed.

Lemma bind_all n clock atts d d' :
  forM (bind_attachment n clock) atts d = Ok (tt, d') ->
  forall i aid kind, (i, (aid, kind)) ∈ atts ->
  exists a, a ∈ db_attachments d' /\ bound_to (ni_session_id n) (ni_input_id n) aid i a.
Proof.
  revert d. induction atts as [|att atts IH]; intros d H i aid kind Hin; cbn in H.
  { by apply not_elem_of_nil in Hin. }
  apply txn_bind_ok in H as ([] & d1 & Hb & H). apply elem_of_cons in Hin as [<-|Hin]; [|by eapply IH].
  apply bind_one in Hb as (a & Ha & Hbound).
  assert (Hg : attachments_grow d1 d') by (eapply ensures_forM; [apply _|apply bind_ensures|done]).
  destruct (grows_elem _ _ _ _ Hg Ha) as (a' & Ha' & Hs). rewrite Hs in Ha'; [by eauto|].
  destruct Hbound as (_ & -> & _). done.
Qed.

(** ** Properties *)

(** C8: a message is stored at most once.  After an input was accepted, and whatever the
    repository did since, sending the same client message id again stores nothing, never
    reports a new input, and hands back an input stored under that id if the conversation
    still takes input. *)
Theorem retry_stores_nothing n now clock d row d1 d2 n' now' clock' :
  accept_input n now clock d = (Ok (Some (row, true)), d1) -> rtc repo_step d1 d2 ->
  ni_session_id n' = ni_session_id n -> ni_client_message_id n' = ni_client_message_id n ->
  exists answer, accept_input n' now' clock' d2 = (Ok answer, d2) /\
    match answer with
    | Some (stored, created) =>
        created = false /\ stored ∈ db_inputs d2 /\ in_session_id stored = ni_session_id n /\
        in_client_message_id stored = ni_client_message_id n
    | None => forall s, s ∈ db_sessions d2 -> ss_session_id s = ni_session_id n ->
                accepting (ni_owner_user_id n') d2 s = false
    end.
Proof.
  intros Ha He%history_evolves Hs Hm.
  assert (Hknown : has_message (ni_session_id n) (ni_client_message_id n) d2).
  { apply (has_message_evolves _ _ d1); [done|]. unfold accept_input in Ha.
    destruct (transaction _ d) as [[[r|]|] d0] eqn:Et; [|injection Ha as Ho <-|done].
    2:{ destruct (List.find _ _); discriminate. }
    injection Ha as -> <-. apply transaction_ok in Et. unfold accept_body in Et.
    apply txn_bind_ok in Et as (d3 & d4 & [= <- <-] & Et).
    destruct (_ || _); [discriminate|]. apply txn_bind_ok in Et as (u & d4 & Hins & Et).
    apply (has_message_evolves _ _ d4).
    - revert Et. match goal with |- ?m d4 = _ -> _ => assert (Hw : ensures evolves m) end.
      { unfold bind_attachment. walk. }
      apply Hw.
    - unfold modify_res in Hins. destruct (_ ≫= _) as [d5|] eqn:Eb; [|done]. injection Hins as _ ->.
      apply bind_ok in Eb as (rows & Hu & <-%Ok_inj). apply insert_unique_ok in Hu as [-> _].
      exists (input_row_of n (db_next_input_seq d) now). cbn. split; [set_solver|]. by split. }
  unfold accept_input. unfold transaction. rewrite (accept_known n' now' clock' d2) by (by rewrite Hs, Hm).
  eexists. split; [reflexivity|]. destruct (List.find _ _) as [r|] eqn:Ef.
  - apply find_some in Ef as [Hr Hc]. unfold in_session in Hc. bool_prop.
    apply list_elem_of_In in Hr. repeat split; [done|congruence|congruence].
  - intros s Hin Hsid. destruct (accepting _ d2 s) eqn:Eacc; [|done]. exfalso.
    destruct Hknown as (r & Hr & Hrs & Hrm). apply list_elem_of_In in Hr.
    pose proof (find_none _ _ Ef r Hr) as Hf. cbn in Hf.
    unfold in_session in Hf. rewrite Hs, Hm, Hrs, Hrm, !String.eqb_refl in Hf. cbn in Hf.
    apply (proj1 (existsb_false _ _)) with (r := s) in Hf; [|done].
    rewrite Hsid, String.eqb_refl, Eacc in Hf. done.
Qed.

(** C9: a message and its files are accepted together: an accepted input is pending, is
    the caller's own text, and owns every file it named, in order; any other outcome (a
    refusal, or a file no longer available) changes nothing in the store. *)
Theorem accept_all_or_nothing n now clock d answer d' :
  accept_input n now clock d = (answer, d') ->
  match answer with
  | Ok (Some (row, true)) =>
      in_state row = Pending /\ in_content row = ni_content n /\
      in_session_id row = ni_session_id n /\ row ∈ db_inputs d' /\
      forall i aid kind, ni_attachments n !! i = Some (aid, kind) ->
        exists a, a ∈ db_attachments d' /\ bound_to (ni_session_id n) (ni_input_id n) aid i a
  | _ => d' = d
  end.
Proof.
  unfold accept_input, transaction. destruct (accept_body n now clock d) as [[[row|] d0]|e] eqn:Eb.
  3:{ by intros [= <- <-]. }
  2:{ intros [= <- <-]. assert (Hd : d0 = d).
      { unfold accept_body in Eb. apply txn_bind_ok in Eb as (d3 & d4 & [= <- <-] & Eb).
        destruct (_ || _); [by injection Eb as <-|].
        do 5 apply txn_bind_ok in Eb as (? & ? & _ & Eb). apply txn_bind_ok in Eb as (? & ? & _ & [=]). }
      by destruct (List.find _ _). }
  intros [= <- <-]. unfold accept_body in Eb. apply txn_bind_ok in Eb as (d3 & d4 & [= <- <-] & Eb).
  destruct (_ || _); [discriminate|]. apply txn_bind_ok in Eb as ([] & d1 & Hins & Eb).
  apply txn_bind_ok in Eb as ([] & d2 & Hbind & Eb). apply txn_bind_ok in Eb as (c & d3 & [= _ <-] & Eb).
  apply txn_bind_ok in Eb as (d5 & d6 & [= <- <-] & Eb).
  apply txn_bind_ok in Eb as (r & d7 & Hone & Eb). apply txn_bind_ok in Eb as (u & d8 & [= _ <-] & [= -> <-]).
  unfold one in Hone. destruct (select_where _ _) as [|r' [|]] eqn:Es; try discriminate.
  injection Hone as -> <-. cbn [set_sessions set_notices db_inputs db_attachments] in *.
  assert (Hin : db_inputs d2 = (db_inputs d ++ [input_row_of n (db_next_input_seq d) now])%list).
  { assert (Hrest : ensures (fun a b => db_inputs b = db_inputs a)
      (forM (bind_attachment n clock) (imap pair (ni_attachments n)))).
    { apply ensures_forM; [split; [done|congruence]|]. intros [o [aid k]].
      intros x [] y (cnt & z & [= _ <-] & Hx)%txn_bind_ok. by destruct (_ =? 1)%nat; [injection Hx as <-|]. }
    rewrite (Hrest _ _ _ Hbind). unfold modify_res in Hins. destruct (_ ≫= _) as [d5|] eqn:E; [|done].
    injection Hins as ->. apply bind_ok in E as (rows & Hu & <-%Ok_inj).
    apply insert_unique_ok in Hu as [-> _]. done. }
  assert (Hrow : row = input_row_of n (db_next_input_seq d) now).
  { symmetry. apply list_elem_of_singleton. rewrite <-Es. apply elem_of_select_where.
    split; [apply String.eqb_refl|]. rewrite Hin. set_solver. }
  subst row. split; [done|]. split; [done|]. split; [done|]. split; [rewrite Hin; set_solver|].
  intros i aid kind Hi. apply (bind_all _ _ _ _ _ Hbind i aid kind).
  apply list_elem_of_lookup. exists i. by rewrite list_lookup_imap, Hi.
Qed.

(** ** Witnesses *)

Lemma demo_history : rtc repo_step demo_db1 demo_db3.
Proof.
  apply (rtc_l _ _ demo_db2); [eexists; unfold demo_db2; apply call_claim|].
  apply rtc_once. exists None. unfold demo_db3. apply call_record.
Defined.

Lemma retry_stores_nothing_witness :
  exists stored, accept_input demo_input 60 60 demo_db3 = (Ok (Some (stored, false)), demo_db3).
Proof.
  destruct (retry_stores_nothing demo_input 10 10 demo_db (input_row_of demo_input 1 10) demo_db1
    demo_db3 demo_input 60 60) as (answer & E & H).
  - vm_compute. reflexivity.
  - exact demo_history.
  - reflexivity.
  - reflexivity.
  - destruct answer as [[stored created]|].
    + destruct H as (-> & _). exists stored. exact E.
    + exfalso. specialize (H _ (list_elem_of_here _ _) eq_refl). vm_compute in H. discriminate H.
Defined.

Definition demo_files : new_input :=
  NewInput "s1" "i9" "m9" "see file" None None None None [("f1", "file")] (Some "u1").

Definition demo_staged : db :=
  set_attachments [AttachmentRow "f1" "u1" None None None None (Some 99%Z)] demo_db.

Lemma accept_all_or_nothing_witness :
  exists a, a ∈ db_attachments (snd (accept_input demo_files 10 10 demo_staged)) /\
            bound_to "s1" "i9" "f1" 0 a.
Proof.
  pose proof (accept_all_or_nothing demo_files 10 10 demo_staged _ _ (surjective_pairing _)) as H.
  vm_compute in H. destruct H as (_ & _ & _ & _ & H).
  destruct (H 0 "f1" "file" eq_refl) as (a & Ha & Hb). exists a. split; [exact Ha|exact Hb].
Defined.

End Acceptance.
