(* ===== verification/ReaderLease.v ===== *)
(** The reader lease over any history: generations fence.  The lease table's rows are
    keyed by session, every hand-out raises the row's generation, so at most one of the
    leases ever handed out can still write. *)

From S2P Require Import Prelude PyVal Schema Interaction SessionRepo SessionRecord DemoStore RepoHistory RecordFacts.

Open Scope string_scope.

Module Lease.
Import Repo Rec History Recorded.

(** ** The lease table *)

Definition reader_key (r : reader_row) : string * string * Z :=
  (rd_session_id r, rd_owner r, rd_generation r).

Definition same_keys (d d' : db) : Prop :=
  map reader_key (db_readers d') = map reader_key (db_readers d).

Definition unique_readers (d : db) : Prop := NoDup (map rd_session_id (db_readers d)).

(** The lease can still write. *)
Definition held (lease : ReaderLease) (d : db) : Prop :=
  exists r, r ∈ db_readers d /\ holds lease r = true.

#[export] Instance same_keys_preorder : PreOrder same_keys.
Proof. unfold same_keys. split; [done|]. intros x y z H1 H2. by rewrite H2. Qed.

Lemma holds_key lease r :
  holds lease r = true <->
  reader_key r = (ls_session_id lease, ls_owner lease, ls_generation lease).
Proof.
  unfold holds, reader_key. split; intros H.
  - bool_prop. congruence.
  - injection H as -> -> ->. by rewrite !String.eqb_refl, Z.eqb_refl.
Qed.

Lemma held_key lease d :
  held lease d <->
  (ls_session_id lease, ls_owner lease, ls_generation lease) ∈ map reader_key (db_readers d).
Proof.
  unfold held. rewrite list_elem_of_fmap. split.
  - intros (r & Hr & Hk%holds_key). by exists r.
  - intros (r & Hk & Hr). exists r. split; [done|]. by apply holds_key.
Qed.

Lemma same_keys_held d d' lease : same_keys d d' -> (held lease d' <-> held lease d).
Proof. intros H. by rewrite !held_key, H. Qed.

Lemma map_session_key t : map rd_session_id t = map (fun k => fst (fst k)) (map reader_key t).
Proof. by rewrite map_map. Qed.

Lemma same_keys_unique d d' : same_keys d d' -> unique_readers d -> unique_readers d'.
Proof. unfold unique_readers. intros H. by rewrite !map_session_key, H. Qed.

Lemma not_held_count lease d : ~ held lease d -> count_where (holds lease) (db_readers d) = 0.
Proof.
  intros H. apply count_where_zero. intros r Hr. destruct (holds lease r) eqn:E; [|done].
  destruct H. by exists r.
Qed.

Lemma set_readers_id d : set_readers (db_readers d) d = d.
Proof. by destruct d. Qed.

(** ** Calls that hand out nothing *)

Lemma expiry_same_keys cond t d :
  same_keys d (set_readers (update_where cond (set_expiry t) (db_readers d)) d).
Proof.
  unfold same_keys. cbn. unfold update_where. rewrite map_map. apply map_ext. intros r.
  by destruct (cond r).
Qed.

(** Statements on the other tables. *)
Lemma frame d d' : db_readers d' = db_readers d -> same_keys d d'.
Proof. unfold same_keys. by intros ->. Qed.

Lemma modify_frame f : (forall d, db_readers (f d) = db_readers d) -> ensures same_keys (modify f).
Proof. intros H. apply ensures_modify. intros d. apply frame, H. Qed.
Lemma modify_res_frame f :
  (forall d d', f d = Ok d' -> db_readers d' = db_readers d) -> ensures same_keys (modify_res f).
Proof. intros H. apply ensures_modify_res. intros d d' Hd. by apply frame, H. Qed.
Lemma one_frame {A} (l : list A) : ensures same_keys (one l).
Proof. destruct l as [|a [|]]; [by intros ???| |by intros ???]. apply ensures_ret, _. Qed.
Lemma lift_frame {A} (r : res A) : ensures same_keys (lift r).
Proof. intros d a d'. unfold lift. destruct r; [|done]. intros [= _ <-]. reflexivity. Qed.

Ltac statement := let d := fresh in let d' := fresh in
  intros d ? d' [= _ <-]; apply frame; reflexivity.

Ltac frame_res :=
  intros; repeat match goal with
  | H : (_ ≫= _) = Ok _ |- _ => apply bind_ok in H as (? & ? & H)
  | H : Ok _ = Ok _ |- _ => apply Ok_inj in H; subst
  | H : (if ?c then _ else _) = Ok _ |- _ => destruct c; [|discriminate H]
  end; reflexivity.

Ltac walk_keys :=
  repeat first
    [ match goal with |- forall _, _ => intro end
    | apply ensures_ret, _ | apply ensures_get, _ | apply ensures_throw
    | apply one_frame | apply lift_frame
    | apply modify_frame; intros; try (destruct (exists_where _ _)); reflexivity
    | apply modify_res_frame; frame_res
    | apply ensures_forM; [apply _|]
    | match goal with |- ensures _ (match ?x with _ => _ end) => destruct x end
    | match goal with |- ensures _ (update_inputs _ _) => statement
                    | |- ensures _ (update_responses _ _) => statement
                    | |- ensures _ (update_interactions _ _) => statement
                    | |- ensures _ (update_sessions _ _) => statement
                    | |- ensures _ (update_attachments _ _) => statement
                    | |- ensures _ (notify _ _ _) => statement end
    | apply ensures_bind; [apply _| |] ].

(** Facts and indexing never write the lease table. *)
Lemma rest_keys {A} (m : txn db A) : ensures same_rest m -> ensures same_keys m.
Proof. intros Hm d a d' H. apply frame. by destruct (Hm _ _ _ H) as (_ & ? & _). Qed.

Lemma fact_parts_keys sid output facts : ensures same_keys (fact_parts sid output facts).
Proof.
  revert output. induction facts as [|f facts IH]; intros output; cbn; [walk_keys|].
  apply ensures_bind; [apply _| |intros; apply IH]. unfold fact_part. walk_keys.
Qed.

Lemma record_keys lease b ttl now : ensures same_keys (record_body lease b ttl now).
Proof.
  unfold record_body. apply ensures_bind; [apply _| |].
  { intros d n d' [= _ <-]. apply expiry_same_keys. }
  intros n. destruct (n =? 0)%nat; [apply ensures_ret, _|].
  apply ensures_bind; [apply _|destruct (existsb _ _); [apply rest_keys, index_rest|walk_keys]|intros _].
  apply ensures_bind; [apply _|apply rest_keys, facts_rest|intros _].
  apply ensures_bind; [apply _|apply fact_parts_keys|intros out].
  unfold insert_output, write_session. walk_keys.
Qed.

Lemma accept_keys n now clock : ensures same_keys (accept_body n now clock).
Proof. unfold accept_body, bind_attachment. walk_keys. Qed.

Lemma import_keys sid fresh entries : ensures same_keys (import_history_body sid fresh entries).
Proof.
  unfold import_history_body. apply ensures_bind; [apply _|apply ensures_get, _|intros d].
  destruct (own_message sid d); [walk_keys|].
  apply ensures_bind; [apply _|apply lift_frame|intros index].
  apply ensures_bind; [apply _| |intros; apply ensures_ret, _].
  revert fresh index. induction entries as [|e entries IH]; intros fresh index; cbn; [walk_keys|].
  destruct (he_role e); [destruct fresh|]; [by walk_keys| |];
    (apply ensures_bind; [apply _| |intros; apply IH]);
    unfold import_user, import_reply, insert_input; walk_keys.
Qed.

(** ** Claiming *)

Lemma update_keeps_sessions cond set t :
  (forall r, rd_session_id (set r) = rd_session_id r) ->
  map rd_session_id (update_where cond set t) = map rd_session_id t.
Proof.
  intros H. unfold update_where. rewrite map_map. apply map_ext. intros r. by destruct (cond r).
Qed.

Lemma insert_absent_unique row t :
  NoDup (map rd_session_id t) ->
  NoDup (map rd_session_id
    (insert_if_absent (fun a b => rd_session_id a =s rd_session_id b) row t)).
Proof.
  intros H. unfold insert_if_absent. destruct (existsb _ t) eqn:E; [done|].
  rewrite map_app. apply NoDup_app. split; [done|]. split; [|apply NoDup_singleton].
  intros sid Hs ->%list_elem_of_singleton. apply list_elem_of_fmap in Hs as (r & Hr & Hin).
  apply existsb_false with (r := r) in E; [|done]. apply String.eqb_neq in E. congruence.
Qed.

Lemma insert_absent_sub row t r :
  r ∈ t -> r ∈ insert_if_absent (fun a b => rd_session_id a =s rd_session_id b) row t.
Proof. unfold insert_if_absent. destruct (existsb _ t); [done|]. set_solver. Qed.

(** The table a claim leaves behind. *)
Definition claimed (sid owner : string) (ttl now : Z) (t : list reader_row) : list reader_row :=
  update_where (claimable sid owner now)
    (fun r => ReaderRow (rd_session_id r) owner (rd_generation r + 1) (now + ttl))
    (insert_if_absent (fun a b => rd_session_id a =s rd_session_id b)
       (ReaderRow sid owner 0 (now + ttl)) t).

Lemma claim_some env sid owner ttl now d lease d' :
  unique_readers d ->
  claim_reader env sid owner ttl now d = (Ok (Some lease), d') ->
  d' = set_readers (claimed sid owner ttl now (db_readers d)) d /\
  ls_session_id lease = sid /\ unique_readers d' /\ held lease d' /\
  (forall r, r ∈ db_readers d -> rd_session_id r = sid ->
     (rd_generation r < ls_generation lease)%Z).
Proof.
  intros Hu Hc%transaction_ok. unfold claim_body in Hc.
  apply txn_bind_ok in Hc as (d0 & d1 & [= <- <-] & Hc).
  destruct (exists_where _ _); cbn [negb] in Hc; [|discriminate].
  apply txn_bind_ok in Hc as ([] & d2 & [= <-] & Hc).
  apply txn_bind_ok in Hc as (n & d3 & Hupd & Hc). injection Hupd as Hn Hd3.
  destruct (n =? 0)%nat eqn:En; [discriminate|]. apply Nat.eqb_neq in En.
  apply txn_bind_ok in Hc as (d4 & d5 & [= <- <-] & Hc).
  apply txn_bind_ok in Hc as (row & d6 & Hone & Hc). injection Hc as <- <-.
  set (t1 := insert_if_absent _ _ (db_readers d)) in *.
  assert (Hu1 : NoDup (map rd_session_id t1)) by (by apply insert_absent_unique).
  unfold one in Hone. destruct (select_where _ _) as [|row' [|]] eqn:Es; try discriminate.
  injection Hone as -> <-.
  assert (Hrow : row ∈ select_where (reader_of sid) (db_readers d3)) by (rewrite Es; by left).
  apply elem_of_select_where in Hrow as [Hsid Hrow].
  rewrite <-Hd3 in Hrow. cbn in Hrow. apply elem_of_update_where in Hrow as (r0 & Hr0 & Hr).
  assert (Hex : exists r, r ∈ t1 /\ claimable sid owner now r = true).
  { destruct (existsb (claimable sid owner now) t1) eqn:Ee; [by apply existsb_true|].
    destruct En. rewrite <-Hn. apply count_where_zero. by apply existsb_false. }
  destruct Hex as (rc & Hrc & Hcl).
  assert (Hs0 : rd_session_id r0 = sid).
  { unfold reader_of in Hsid. apply String.eqb_eq in Hsid. rewrite Hr in Hsid.
    by destruct (claimable _ _ _ r0). }
  assert (Hsc : rd_session_id rc = sid).
  { unfold claimable, reader_of in Hcl. by bool_prop. }
  assert (r0 = rc) as -> by (eapply (NoDup_map_inj rd_session_id); [done..|congruence]).
  rewrite Hcl in Hr. split; [|split; [done|split; [|split]]].
  - symmetry. exact Hd3.
  - unfold unique_readers. rewrite <-Hd3. cbn. by rewrite update_keeps_sessions.
  - exists row. rewrite <-Hd3. split.
    + apply elem_of_update_where. exists rc. by rewrite Hcl.
    + apply holds_key. rewrite Hr. unfold reader_key. cbn. by rewrite Hsc.
  - intros r Hin Hr'. assert (r = rc) as ->.
    { eapply (NoDup_map_inj rd_session_id); [done|by apply insert_absent_sub|done|congruence]. }
    cbn [ls_generation]. rewrite Hr. cbn. lia.
Qed.

(** A claim that hands out nothing writes nothing. *)
Lemma claim_none env sid owner ttl now d o d' :
  claim_reader env sid owner ttl now d = (o, d') ->
  match o with Ok (Some _) => False | _ => True end -> d' = d.
Proof.
  unfold claim_reader, transaction. destruct (claim_body _ _ _ _ _ d) as [[a d1]|] eqn:Hc;
    [|by intros [= <- <-]]. intros [= <- <-] Ha. destruct a as [|]; [done|clear Ha].
  unfold claim_body in Hc. apply txn_bind_ok in Hc as (d0 & d2 & [= <- <-] & Hc).
  destruct (exists_where _ _); cbn [negb] in Hc; [|by injection Hc as <-].
  apply txn_bind_ok in Hc as ([] & d3 & [= <-] & Hc).
  apply txn_bind_ok in Hc as (n & d4 & Hupd & Hc). injection Hupd as Hn Hd4.
  destruct (n =? 0)%nat eqn:En.
  2:{ apply txn_bind_ok in Hc as (? & ? & _ & Hc). by apply txn_bind_ok in Hc as (? & ? & _ & [=]). }
  injection Hc as <-. apply Nat.eqb_eq in En. rewrite En in Hn. rewrite <-Hd4. cbn in Hn |- *.
  pose proof (proj1 (count_where_zero _ _) Hn) as Hz.
  rewrite update_where_none by done. unfold insert_if_absent in Hz |- *.
  destruct (existsb _ (db_readers d)) eqn:E; [by destruct d|].
  exfalso. specialize (Hz (ReaderRow sid owner 0 (now + ttl))).
  assert (Hin : ReaderRow sid owner 0 (now + ttl) ∈
    (db_readers d ++ [ReaderRow sid owner 0 (now + ttl)])%list) by set_solver.
  specialize (Hz Hin). unfold claimable, reader_of in Hz. cbn in Hz.
  rewrite !String.eqb_refl, orb_true_r in Hz. discriminate.
Qed.

(** A claim touches only its own session's lease. *)
Lemma claimed_other sid owner ttl now t h :
  ls_session_id h <> sid ->
  (exists r, r ∈ claimed sid owner ttl now t /\ holds h r = true) <->
  (exists r, r ∈ t /\ holds h r = true).
Proof.
  intros Hne. assert (Hh : forall r, holds h r = true -> rd_session_id r <> sid).
  { unfold holds. intros r Hr. bool_prop. congruence. }
  split.
  - intros (r & Hr & Hk). apply elem_of_update_where in Hr as (r0 & Hr0 & ->).
    assert (Hs : rd_session_id r0 <> sid).
    { specialize (Hh _ Hk). by destruct (claimable _ _ _ r0). }
    assert (Hcl : claimable sid owner now r0 = false).
    { unfold claimable, reader_of. by apply String.eqb_neq in Hs as ->. }
    rewrite Hcl in Hk. exists r0. split; [|done]. unfold insert_if_absent in Hr0.
    destruct (existsb _ t); [done|]. apply elem_of_app in Hr0 as [Hr0|Hr0%list_elem_of_singleton]; by subst.
  - intros (r & Hr & Hk). exists r. split; [|done]. apply elem_of_update_where. exists r.
    split; [by apply insert_absent_sub|]. unfold claimable, reader_of.
    specialize (Hh _ Hk). by apply String.eqb_neq in Hh as ->.
Qed.

(** ** Every lease ever handed out *)

(** [leases d hs]: some history of calls from a store with no leases reaches [d], and
    [hs] are the leases it handed out, newest first. *)
Inductive leases : db -> list ReaderLease -> Prop :=
| leases_start d : db_readers d = [] -> leases d []
| leases_call d hs handed d' :
    leases d hs -> repo_call d handed d' -> leases d' (option_list handed ++ hs)%list.

(** What a call does to the leases. *)
Lemma repo_call_leases d handed d' :
  unique_readers d -> repo_call d handed d' ->
  (handed = None /\ same_keys d d') \/
  (exists lease, handed = Some lease /\ unique_readers d' /\ held lease d' /\
     (forall r, r ∈ db_readers d -> rd_session_id r = ls_session_id lease ->
        (rd_generation r < ls_generation lease)%Z) /\
     (forall h, ls_session_id h <> ls_session_id lease -> held h d' <-> held h d)).
Proof.
  intros Hu []; try (left; split; [done|]; try (apply frame; reflexivity)).
  - rewrite snd_accept_input. apply ensures_transaction; [apply _|apply accept_keys].
  - unfold mark_delivered. apply frame. by destruct ids.
  - apply (ensures_transaction same_keys). unfold request_answer_body. walk_keys.
  - apply (ensures_transaction same_keys). unfold request_control_body. walk_keys.
  - destruct (claim_reader env sid owner ttl now d) as [o d1] eqn:Hc. cbn [fst snd].
    destruct o as [[lease|]|e]; [|left; split; [done|]..].
    + right. exists lease. destruct (claim_some _ _ _ _ _ _ _ _ Hu Hc) as (-> & <- & ? & ? & ?).
      split; [done|]. split; [done|]. split; [done|]. split; [done|].
      intros h Hne. by apply claimed_other.
    + by rewrite (claim_none _ _ _ _ _ _ _ _ Hc).
    + by rewrite (claim_none _ _ _ _ _ _ _ _ Hc).
  - apply expiry_same_keys.
  - apply expiry_same_keys.
  - unfold record. destruct (batch_nonempty b); [|apply expiry_same_keys].
    apply ensures_transaction; [apply _|apply record_keys].
  - rewrite snd_history_page. apply ensures_transaction; [apply _|apply rest_keys, index_rest].
  - apply (ensures_transaction same_keys). apply import_keys.
Qed.

(** Which of two leases is the newer one on a session. *)
Fixpoint newest (sid : string) (hs : list ReaderLease) : option ReaderLease :=
  match hs with
  | [] => None
  | h :: rest => if ls_session_id h =s sid then Some h else newest sid rest
  end.

Lemma newest_session sid hs h : newest sid hs = Some h -> ls_session_id h = sid.
Proof.
  induction hs as [|x hs IH]; cbn; [done|].
  destruct (String.eqb_spec (ls_session_id x) sid); [congruence|done].
Qed.

Lemma unique_held d h h' :
  unique_readers d -> ls_session_id h = ls_session_id h' -> held h d -> held h' d -> h = h'.
Proof.
  intros Hu Hs (r & Hr & Hh%holds_key) (r' & Hr' & Hh'%holds_key).
  injection Hh as Hh1 Hh2 Hh3. injection Hh' as Hh1' Hh2' Hh3'.
  assert (r = r') as <- by (eapply (NoDup_map_inj rd_session_id); [done..|congruence]).
  destruct h, h'; cbn in *. congruence.
Qed.

Lemma leases_invariant d hs :
  leases d hs ->
  unique_readers d /\
  (forall h, h ∈ hs -> exists h', newest (ls_session_id h) hs = Some h' /\ held h' d /\
     (ls_generation h <= ls_generation h')%Z /\ (ls_generation h = ls_generation h' -> h = h')).
Proof.
  induction 1 as [d H0|d hs handed d' _ [Hu IH] Hc].
  - split; [unfold unique_readers; rewrite H0; constructor|]. by intros h ?%not_elem_of_nil.
  - destruct (repo_call_leases _ _ _ Hu Hc) as [[-> Hk]|(l & -> & Hu' & Hl & Hgt & Hother)].
    { split; [by eapply same_keys_unique|]. intros h Hh. destruct (IH h Hh) as (h' & ? & ? & ?).
      exists h'. split; [done|]. split; [by eapply same_keys_held|done]. }
    split; [done|]. intros h Hh. cbn. apply elem_of_cons in Hh as [->|Hh].
    + exists l. rewrite String.eqb_refl. repeat split; [done|lia].
    + destruct (IH h Hh) as (h' & Hn & Hheld & Hle & Heq).
      destruct (String.eqb_spec (ls_session_id l) (ls_session_id h)) as [Hs|Hs].
      * exists l. split; [done|]. split; [done|]. destruct Hheld as (r & Hr & Hk%holds_key).
        injection Hk as Hk1 Hk2 Hk3. apply newest_session in Hn.
        assert (rd_generation r < ls_generation l)%Z by (apply Hgt; congruence).
        split; [|intros]; lia.
      * exists h'. split; [done|]. split; [|done]. apply Hother; [|done].
        apply newest_session in Hn. congruence.
Qed.

(** ** Properties *)

(** C1: fencing.  After any history of calls, of all the leases ever handed out for a
    session only the newest can still write: recording or renewing with any other one
    reports the lease lost and changes nothing at all, while the newest still renews. *)
Theorem only_newest_lease_writes d hs h h' b ttl now :
  leases d hs -> h ∈ hs -> newest (ls_session_id h) hs = Some h' ->
  fst (renew_reader h' ttl now d) = true /\
  (h <> h' ->
     record h b ttl now d = (Ok None, d) /\ renew_reader h ttl now d = (false, d)).
Proof.
  intros Hl Hh Hn. destruct (leases_invariant _ _ Hl) as [Hu Hinv].
  destruct (Hinv h Hh) as (h0 & Hn' & Hheld & Hle & Heq). assert (h0 = h') as -> by congruence.
  split.
  { unfold renew_reader, fst. apply Nat.ltb_lt.
    destruct (count_where _ _) eqn:E; [|lia].
    destruct Hheld as (r & Hr & Hk). rewrite (proj1 (count_where_zero _ _) E r Hr) in Hk. done. }
  intros Hne. assert (Hnh : ~ held h d).
  { intros Hh'. apply Hne. eapply unique_held; [done| |done|done].
    by rewrite (newest_session _ _ _ Hn). }
  pose proof (not_held_count _ _ Hnh) as Hc.
  pose proof (update_where_none _ (set_expiry (now + ttl)) _ (proj1 (count_where_zero _ _) Hc)) as Hu'.
  assert (Hrenew : renew_reader h ttl now d = (false, d)).
  { unfold renew_reader. rewrite Hc, Hu', set_readers_id. done. }
  split; [|done]. unfold record. destruct (batch_nonempty b); [|by rewrite Hrenew].
  unfold transaction, record_body, update_readers. cbn [mbind txn_bind].
  unfold mbind, txn_bind. rewrite Hc, Hu', set_readers_id. done.
Qed.

(** generations only rise: over any history, of two leases handed out for the same
    session the later one carries the larger generation. *)
Theorem generations_strictly_rise d newer h older h' :
  leases d (newer ++ h :: older)%list -> h' ∈ older -> ls_session_id h' = ls_session_id h ->
  (ls_generation h' < ls_generation h)%Z.
Proof.
  intros Hl Hin Hs. remember (newer ++ h :: older)%list as hs0 eqn:E. revert newer E.
  induction Hl as [|d hs1 handed d' Hl IH Hc]; intros newer E; [by destruct newer|].
  destruct (leases_invariant _ _ Hl) as [Hu Hinv].
  destruct (repo_call_leases _ _ _ Hu Hc) as [[-> _]|(l & -> & _ & _ & Hgt & _)]; cbn in E.
  { by eapply IH. }
  destruct newer as [|x newer]; cbn in E; injection E as -> E; [subst hs1|by eapply IH].
  destruct (Hinv h' Hin) as (h1 & Hn & (r & Hr & Hk%holds_key) & Hle & _).
  injection Hk as Hk1 Hk2 Hk3. apply newest_session in Hn.
  assert (rd_generation r < ls_generation h)%Z by (apply Hgt; congruence). lia.
Qed.

Lemma claimed_row sid owner ttl now t r :
  NoDup (map rd_session_id t) -> r ∈ claimed sid owner ttl now t -> rd_session_id r = sid ->
  select_where (reader_of sid) (claimed sid owner ttl now t) = [r].
Proof.
  intros Hn Hr Hs. apply (select_where_unique rd_session_id); [|done|].
  - unfold claimed. rewrite update_keeps_sessions; [by apply insert_absent_unique|done].
  - intros y _. unfold reader_of. rewrite String.eqb_eq. by rewrite Hs.
Qed.

Lemma insert_absent_has sid owner ttl now t :
  exists r, r ∈ insert_if_absent (fun a b => rd_session_id a =s rd_session_id b)
                  (ReaderRow sid owner 0 (now + ttl)) t /\ rd_session_id r = sid /\
            (r ∈ t \/ rd_owner r = owner).
Proof.
  unfold insert_if_absent. destruct (existsb _ t) eqn:E.
  - apply existsb_true in E as (r & Hr & Hs%String.eqb_eq). cbn in Hs. exists r. auto.
  - exists (ReaderRow sid owner 0 (now + ttl)). split; [set_solver|]. auto.
Qed.

(** What a claim computes, given the row it finds or inserts. *)
Lemma claim_run env sid owner ttl now d r :
  unique_readers d ->
  r ∈ insert_if_absent (fun a b => rd_session_id a =s rd_session_id b)
        (ReaderRow sid owner 0 (now + ttl)) (db_readers d) ->
  rd_session_id r = sid -> r ∈ db_readers d \/ rd_owner r = owner ->
  claim_reader env sid owner ttl now d =
    if exists_where (reader_eligible env sid) (db_sessions d) && claimable sid owner now r
    then (Ok (Some (MkLease sid owner (rd_generation r + 1))),
          set_readers (claimed sid owner ttl now (db_readers d)) d)
    else (Ok None, d).
Proof.
  intros Hu Hr Hs Hin. pose proof (insert_absent_unique (ReaderRow sid owner 0 (now + ttl)) _ Hu) as Hu1.
  unfold claim_reader, transaction, claim_body, update_readers, get_state, modify.
  unfold mbind, txn_bind. destruct (exists_where _ _); cbn [negb andb]; [|done].
  cbn [set_readers db_readers db_sessions]. fold (claimed sid owner ttl now (db_readers d)).
  destruct (claimable sid owner now r) eqn:Hb.
  - destruct (count_where _ _ =? 0)%nat eqn:En.
    { apply Nat.eqb_eq in En. by rewrite (proj1 (count_where_zero _ _) En r Hr) in Hb. }
    cbn [set_readers db_readers].
    rewrite (claimed_row _ _ _ _ _ (ReaderRow (rd_session_id r) owner (rd_generation r + 1) (now + ttl)));
      [done..| |done].
    apply elem_of_update_where. exists r. by rewrite Hb.
  - assert (Hno : forall y, y ∈ insert_if_absent (fun a b => rd_session_id a =s rd_session_id b)
        (ReaderRow sid owner 0 (now + ttl)) (db_readers d) -> claimable sid owner now y = false).
    { intros y Hy. destruct (claimable sid owner now y) eqn:Ey; [|done]. rewrite <-Hb, <-Ey.
      f_equal. eapply (NoDup_map_inj rd_session_id); [done|done|done|].
      unfold claimable, reader_of in Ey. bool_prop. congruence. }
    rewrite (proj2 (count_where_zero _ _) Hno). cbn [Nat.eqb]. unfold claimed.
    rewrite update_where_none by done. destruct Hin as [Hin| <-].
    + unfold insert_if_absent. rewrite (proj2 (existsb_true _ _)); [by destruct d|].
      exists r. split; [done|]. cbn. by rewrite Hs, String.eqb_refl.
    + unfold claimable, reader_of in Hb. subst sid. by rewrite !String.eqb_refl, orb_true_r in Hb.
Qed.

(** a claim always answers, and hands out the lease exactly when the session may
    have a reader and no other owner's lease on it is still running; otherwise it
    changes nothing. *)
Theorem claim_exact env sid owner ttl now d :
  unique_readers d ->
  (exists generation,
     claim_reader env sid owner ttl now d =
       (Ok (Some (MkLease sid owner generation)),
        set_readers (claimed sid owner ttl now (db_readers d)) d) /\
     exists_where (reader_eligible env sid) (db_sessions d) = true /\
     forall r, r ∈ db_readers d -> rd_session_id r = sid ->
       (rd_expires_at r < now)%Z \/ rd_owner r = owner) \/
  (claim_reader env sid owner ttl now d = (Ok None, d) /\
   (exists_where (reader_eligible env sid) (db_sessions d) = false \/
    exists r, r ∈ db_readers d /\ rd_session_id r = sid /\
      (now <= rd_expires_at r)%Z /\ rd_owner r <> owner)).
Proof.
  intros Hu. destruct (insert_absent_has sid owner ttl now (db_readers d)) as (r & Hr & Hs & Hin).
  rewrite (claim_run env sid owner ttl now d r) by done.
  destruct (exists_where _ _) eqn:He; cbn [andb]; [|right; split; [done|by left]].
  destruct (claimable sid owner now r) eqn:Hb; unfold claimable, reader_of in Hb;
    rewrite Hs, String.eqb_refl in Hb; cbn [andb] in Hb.
  - left. eexists. split; [done|]. split; [done|]. intros y Hy Hys.
    assert (y = r) as ->.
    { eapply (NoDup_map_inj rd_session_id); [by apply insert_absent_unique|
        by apply insert_absent_sub|exact Hr|congruence]. }
    apply orb_true_iff in Hb as [Hb|Hb]; bool_prop; auto.
  - right. split; [done|]. right. bool_prop. exists r. destruct Hin; [|done]. auto.
Qed.

(** ** Witnesses *)

Lemma demo_leases :
  leases (snd (claim_reader "prod" "s1" "b" 100 200 demo_db2)) [MkLease "s1" "b" 2; demo_lease].
Proof.
  apply (leases_call demo_db2 [demo_lease] (Some (MkLease "s1" "b" 2))).
  - apply (leases_call demo_db1 [] (Some demo_lease)).
    + apply (leases_call demo_db [] None); [by apply leases_start|]. apply call_accept.
    + exact (call_claim demo_db1 "prod" "s1" "a" 100 20).
  - exact (call_claim demo_db2 "prod" "s1" "b" 100 200).
Defined.

Lemma only_newest_lease_writes_witness :
  let d := snd (claim_reader "prod" "s1" "b" 100 200 demo_db2) in
  fst (renew_reader (MkLease "s1" "b" 2) 100 210 d) = true /\
  record demo_lease demo_batch 100 210 d = (Ok None, d).
Proof.
  destruct (only_newest_lease_writes _ _ demo_lease (MkLease "s1" "b" 2) demo_batch 100 210
    demo_leases) as [H1 H2].
  - right. left.
  - reflexivity.
  - split; [exact H1|]. apply H2. discriminate.
Defined.

Lemma generations_strictly_rise_witness : (ls_generation demo_lease < 2)%Z.
Proof.
  apply (generations_strictly_rise _ [] (MkLease "s1" "b" 2) [demo_lease] demo_lease demo_leases).
  - left.
  - reflexivity.
Defined.

Lemma claim_exact_witness :
  claim_reader "prod" "s1" "b" 100 30 demo_db2 = (Ok None, demo_db2).
Proof.
  destruct (claim_exact "prod" "s1" "b" 100 30 demo_db2) as [(g & H & _)|[H _]].
  - apply (bool_decide_unpack _). vm_compute. exact I.
  - vm_compute in H. discriminate H.
  - exact H.
Defined.
End Lease.
