(* ===== verification/Reader.v ===== *)
(** [session_runtime/reader.py]: the one process that reads a session's runtime.  Its
    memory is a record; each loop body is a function on that memory and the store.  What
    the runtime client, the deployment's hooks and the tool cards answer is an argument.
    Logging, fault barriers and the asyncio scheduling of the three loops are left out:
    every interleaving of the bodies between two awaits is a sequence of these steps. *)

From stdpp Require Import sorting.
From S2P Require Import Prelude PyVal Schema Interaction SessionRepo SessionRecord.

Open Scope string_scope.

(** ** The runtime contract ([engine/runtime.py]) *)

Record RuntimeCursor := MkCursor { rc_generation : string; rc_position : dict }.

Definition cursor_as_json (c : RuntimeCursor) : dict :=
  [("generation", VStr (rc_generation c)); ("position", VDict (rc_position c))].

(** [RuntimeCursor.from_json]. *)
Definition cursor_from_json (value : option dict) : res (option RuntimeCursor) :=
  match value with
  | None | Some [] => Ok None
  | Some v =>
      let generation := Py.clean (Py.get "generation" v) in
      match Py.get "position" v with
      | VDict position =>
          if Py.is_empty generation then Raise ValueError
          else Ok (Some (MkCursor generation position))
      | _ => Raise ValueError
      end
  end.

Inductive RuntimeEvent :=
| InputAdmitted (cursor : option RuntimeCursor) (input_id : string)
| InputMessageObserved (cursor : option RuntimeCursor) (input_id : string)
| InputRefused (cursor : option RuntimeCursor) (input_id : string) (failure : dict)
| ResponseStarted (cursor : option RuntimeCursor) (response_id origin : string)
    (input_ids : list string)
| ResponseOutput (cursor : option RuntimeCursor) (response_id : option string) (frame : dict)
| InteractionOpened (cursor : option RuntimeCursor) (response_id interaction_id : string)
    (contract : dict)
| InteractionClosed (cursor : option RuntimeCursor) (interaction_id : string)
    (reason : interaction_status)
| ResponseEnded (cursor : option RuntimeCursor) (response_id outcome : string)
    (native_reason : option string) (usage error : option dict)
| StatusChanged (cursor : option RuntimeCursor) (status : string)
| RuntimeDiagnostic (cursor : option RuntimeCursor) (event_type : string) (raw : val).

Definition event_cursor (e : RuntimeEvent) : option RuntimeCursor :=
  match e with
  | InputAdmitted c _ | InputMessageObserved c _ | InputRefused c _ _ | ResponseStarted c _ _ _
  | ResponseOutput c _ _ | InteractionOpened c _ _ _ | InteractionClosed c _ _
  | ResponseEnded c _ _ _ _ _ | StatusChanged c _ | RuntimeDiagnostic c _ _ => c
  end.

(** The runtime's own account of itself. *)
Record RuntimeState := MkRuntimeState {
  st_status : string;
  st_open_responses : list (string * (string * list string));
  st_pending_interactions : list (string * (string * dict));
  st_admitted_input_ids : list string;
  st_cursor : option RuntimeCursor;
  st_closed_interactions : list (string * interaction_status);
  st_refused_inputs : list (string * dict)
}.

Module Reader.
Import Repo Rec.

Definition LEASE_TTL : Z := 30000000.

(** A part published to this process's subscribers as it is read. *)
Record LivePart := MkLive { lp_seq : Z; lp_response_id : option string; lp_part : dict }.

(** [SessionReader]'s fields; [r_live] is every part published so far, [r_permission]
    is [_permission_failure]. *)
Record reader := MkReader {
  r_lease : ReaderLease;
  r_seq : Z;
  r_batch : FactBatch;
  r_dirty : bool;
  r_urgent : bool;
  r_permission : option dict;
  r_protocol_error : bool;
  r_texted : list string;
  r_positioned : list string;
  r_live : list LivePart
}.

Definition with_batch (b : FactBatch) (r : reader) : reader :=
  MkReader (r_lease r) (r_seq r) b (r_dirty r) (r_urgent r) (r_permission r)
    (r_protocol_error r) (r_texted r) (r_positioned r) (r_live r).
Definition with_seq (n : Z) (r : reader) : reader :=
  MkReader (r_lease r) n (r_batch r) (r_dirty r) (r_urgent r) (r_permission r)
    (r_protocol_error r) (r_texted r) (r_positioned r) (r_live r).
Definition with_flags (dirty urgent : bool) (r : reader) : reader :=
  MkReader (r_lease r) (r_seq r) (r_batch r) dirty urgent (r_permission r)
    (r_protocol_error r) (r_texted r) (r_positioned r) (r_live r).
Definition with_permission (p : option dict) (r : reader) : reader :=
  MkReader (r_lease r) (r_seq r) (r_batch r) (r_dirty r) (r_urgent r) p
    (r_protocol_error r) (r_texted r) (r_positioned r) (r_live r).
Definition with_protocol_error (p : bool) (r : reader) : reader :=
  MkReader (r_lease r) (r_seq r) (r_batch r) (r_dirty r) (r_urgent r) (r_permission r) p
    (r_texted r) (r_positioned r) (r_live r).
Definition with_texted (l : list string) (r : reader) : reader :=
  MkReader (r_lease r) (r_seq r) (r_batch r) (r_dirty r) (r_urgent r) (r_permission r)
    (r_protocol_error r) l (r_positioned r) (r_live r).
Definition with_positioned (l : list string) (r : reader) : reader :=
  MkReader (r_lease r) (r_seq r) (r_batch r) (r_dirty r) (r_urgent r) (r_permission r)
    (r_protocol_error r) (r_texted r) l (r_live r).
Definition publish_live (p : LivePart) (r : reader) : reader :=
  MkReader (r_lease r) (r_seq r) (r_batch r) (r_dirty r) (r_urgent r) (r_permission r)
    (r_protocol_error r) (r_texted r) (r_positioned r) (r_live r ++ [p])%list.

Definition add_fact (f : Fact) (b : FactBatch) : FactBatch :=
  MkBatch (fb_output b) (fb_facts b ++ [f])%list (fb_cursor b) (fb_status b) (fb_protocol_error b).
Definition add_output (ps : list OutputPart) (b : FactBatch) : FactBatch :=
  MkBatch (fb_output b ++ ps)%list (fb_facts b) (fb_cursor b) (fb_status b) (fb_protocol_error b).
Definition batch_cursor (c : option dict) (b : FactBatch) : FactBatch :=
  MkBatch (fb_output b) (fb_facts b) c (fb_status b) (fb_protocol_error b).
Definition batch_status (s : option string) (b : FactBatch) : FactBatch :=
  MkBatch (fb_output b) (fb_facts b) (fb_cursor b) s (fb_protocol_error b).
Definition batch_protocol_error (s : option string) (b : FactBatch) : FactBatch :=
  MkBatch (fb_output b) (fb_facts b) (fb_cursor b) (fb_status b) s.

Definition fact (f : Fact) (r : reader) : reader := with_batch (add_fact f (r_batch r)) r.

(** [__init__] and the start of [run]: numbering continues from the resume point. *)
Definition start_reader (lease : ReaderLease) (d : db) : reader :=
  MkReader lease (fst (resume_point (ls_session_id lease) d)) empty_batch false false None false
    [] [] [].

(** ** Parts the platform words itself *)

Definition lost_response_error (reason : string) : dict :=
  [("code", VStr (Py.upper reason));
   ("message", VStr ("The agent runtime stopped before this response finished (" ++ reason ++ ")."))].

Definition lost_response_parts (response_id reason : string) : list dict :=
  [[("type", VStr "start"); ("messageId", VStr response_id);
    ("messageMetadata", VDict [("channel_delivery", VBool false)])];
   [("type", VStr "error"); ("errorText", Py.get "message" (lost_response_error reason))];
   [("type", VStr "finish");
    ("messageMetadata", VDict [("response_id", VStr response_id); ("outcome", VStr "failed")])]].

Definition input_failed_part (input_id : string) (failure : dict) : dict :=
  [("type", VStr "data-input-failed");
   ("data", VDict (Py.update [("input_id", VStr input_id)] failure))].

(** ** Reading *)

Definition message_position (kind : position_kind) (id : string) (r : reader) : reader :=
  let seq := (r_seq r + 1)%Z in fact (MessagePosition kind id seq) (with_seq seq r).

Definition close_interaction (iid : string) (status : interaction_status) (r : reader) : reader :=
  let seq := (r_seq r + 1)%Z in fact (InteractionClose iid status (Some seq)) (with_seq seq r).

Definition frame_type_is (s : string) (frame : dict) : bool := Py.eqb (Py.get "type" frame) (VStr s).

(** Content that gives its response a place in the conversation. *)
Definition positions_response (frame : dict) : bool :=
  negb (frame_type_is "start" frame || frame_type_is "message-metadata" frame ||
        frame_type_is "data-input-consumed" frame) &&
  negb (Py.is_true (Py.get "transient" frame)).

(** The [ResponseOutput] branch of [_take]. *)
Definition take_output (rid : option string) (frame : dict) (r : reader) : reader :=
  let r1 := match rid with
            | Some id =>
                if negb (Py.is_empty id) && negb (Py.in_strs id (r_positioned r)) &&
                   positions_response frame
                then message_position KResponse id (with_positioned (id :: r_positioned r) r)
                else r
            | None => r
            end in
  let r2 := match rid with
            | Some id =>
                if negb (Py.is_empty id) && frame_type_is "text-delta" frame &&
                   negb (Py.in_strs id (r_texted r1))
                then with_texted (id :: r_texted r1) r1 else r1
            | None => r1
            end in
  let seq := (r_seq r2 + 1)%Z in
  let r3 := publish_live (MkLive seq rid frame) (with_seq seq r2) in
  with_batch (add_output [MkPart seq rid frame] (r_batch r3)) r3.

(** What every branch ends with. *)
Definition take_end (cursor : option RuntimeCursor) (urgent : bool) (r : reader) : reader :=
  let r' := match cursor with
            | Some c => with_batch (batch_cursor (Some (cursor_as_json c)) (r_batch r)) r
            | None => r
            end in
  with_flags true (urgent || r_urgent r') r'.

(** [_take]. *)
Definition take (e : RuntimeEvent) (r : reader) : reader :=
  let c := event_cursor e in
  match e with
  | ResponseOutput _ rid frame => take_end c false (take_output rid frame r)
  | InputMessageObserved _ iid => take_end c true (message_position KInput iid r)
  | ResponseStarted _ rid origin ids => take_end c true (fact (ResponseStart rid origin ids) r)
  | ResponseEnded _ rid outcome reason usage error =>
      take_end c true (fact (ResponseEnd rid outcome reason usage error) r)
  | InteractionOpened _ rid iid contract => take_end c true (fact (InteractionOpen rid iid contract) r)
  | InteractionClosed _ iid reason => take_end c true (close_interaction iid reason r)
  | InputAdmitted _ iid => take_end c false (fact (InputsAdmitted [iid]) r)
  | InputRefused _ iid failure =>
      let r1 := fact (InputsFailed [iid] failure) r in
      take_end c true (take_end c false (take_output None (input_failed_part iid failure) r1))
  | StatusChanged _ status => take_end c true (with_batch (batch_status (Some status) (r_batch r)) r)
  | RuntimeDiagnostic _ _ _ => take_end c false r
  end.

(** One turn of [_read_events]: the event, then the tool cards of a tool's result. *)
Definition read_event (cards : list dict) (e : RuntimeEvent) (r : reader) : reader :=
  let r1 := take e r in
  match e with
  | ResponseOutput c rid _ =>
      fold_left (fun r part => take (ResponseOutput c rid part) r) cards r1
  | _ => r1
  end.

(** [_read]'s handler: the readable prefix is committed together with the fault. *)
Definition protocol_fault (message : string) (r : reader) : reader :=
  with_protocol_error true (with_batch (batch_protocol_error (Some message) (r_batch r)) r).

(** ** Committing *)

(** [_commit_now] up to its await: the batch is taken out. *)
Definition take_batch (r : reader) : FactBatch * reader := (r_batch r, with_flags false false (with_batch empty_batch r)).

(** What [_commit_now] does with a batch it took out; the batch as stored is what the
    deployment's consumers receive. *)
Definition record_batch (now : Z) (lease : ReaderLease) (b : FactBatch) (d : db) : res FactBatch * db :=
  match record lease b LEASE_TTL now d with
  | (Raise e, d') => (Raise e, d')
  | (Ok None, d') => (Raise LeaseLost, d')
  | (Ok (Some output), d') =>
      match cursor_from_json (fb_cursor b) with
      | Raise e => (Raise e, d')
      | Ok _ => (Ok (MkBatch output (fb_facts b) (fb_cursor b) (fb_status b) (fb_protocol_error b)), d')
      end
  end.

(** Number parts from [seq] on. *)
Fixpoint number_parts (seq : Z) (rid : option string) (parts : list dict) : list OutputPart :=
  match parts with
  | [] => []
  | p :: rest => MkPart (seq + 1) rid p :: number_parts (seq + 1) rid rest
  end.

Definition live_of (p : OutputPart) : LivePart := MkLive (op_seq p) (op_response_id p) (op_part p).

Definition publish_all (ps : list OutputPart) (r : reader) : reader :=
  fold_left (fun r p => publish_live (live_of p) r) ps r.

(** [_publish_platform] up to its commit: the parts it numbers are shown after it. *)
Definition publish_platform (rid : option string) (parts : list dict) (r : reader) : reader * list OutputPart :=
  let numbered := number_parts (r_seq r) rid parts in
  (with_batch (add_output numbered (r_batch r)) (with_seq (r_seq r + Z.of_nat (length parts)) r), numbered).

(** ** Reconciling with a runtime whose cursor expired *)

Definition str_le (a b : string) : Prop := String.leb a b = true.
#[export] Instance str_le_dec a b : Decision (str_le a b).
Proof. unfold str_le. apply _. Defined.

(** [sorted(set)]. *)
Definition sorted_set (l : list string) : list string := merge_sort str_le (remove_dups l).

Definition not_in (l : list string) (s : string) : bool := negb (Py.in_strs s l).

(** [{x.id: x for x in l}]: a later entry replaces the value, not the place. *)
Fixpoint index_by {A} (l : list (string * A)) : list (string * A) :=
  match l with
  | [] => []
  | (k, v) :: rest =>
      let last := fold_left (fun acc kv => if fst kv =s k then snd kv else acc) rest v in
      (k, last) :: List.filter (fun kv => negb (fst kv =s k)) (index_by rest)
  end.

Fixpoint assoc {A} (k : string) (l : list (string * A)) : option A :=
  match l with
  | [] => None
  | (k', v) :: rest => if k =s k' then Some v else assoc k rest
  end.

Lemma assoc_in {A} k (v : A) l : Reader.assoc k l = Some v -> (k, v) ∈ l.
Proof.
  induction l as [|[k' v'] l IH]; cbn; [done|]. destruct (k =s k') eqn:E; [|by right; apply IH].
  bool_prop. subst. intros [= ->]. left.
Qed.

Definition close_reported (closed : list (string * interaction_status)) (r : reader) (iid : string)
  : reader :=
  match assoc iid closed with Some reason => close_interaction iid reason r | None => r end.

(** One response the runtime no longer knows: its end, and the parts that close it. *)
Definition lose_response (acc : reader * list OutputPart) (rid : string) : reader * list OutputPart :=
  let '(r, lost) := acc in
  let r1 := fact (ResponseEnd rid "failed" (Some "runtime_lost") None
                    (Some (lost_response_error "runtime_lost"))) r in
  let parts := number_parts (r_seq r1) (Some rid) (lost_response_parts rid "runtime_lost") in
  (with_seq (r_seq r1 + Z.of_nat (length parts)) r1, lost ++ parts)%list.

(** [_reconcile] up to its commit, from what its two reads found open: the facts it derives,
    and the parts it shows after the commit. *)
Definition reconcile (state : RuntimeState) (recorded_open recorded : list string) (r : reader) : reader * list OutputPart :=
  let runtime_open := index_by (st_open_responses state) in
  let pending := index_by (st_pending_interactions state) in
  let closed := index_by (st_closed_interactions state) in
  let r1 := fold_left (close_reported closed)
              (sorted_set (List.filter (fun i => Py.in_strs i (map fst closed)) recorded)) r in
  let '(r2, lost) := fold_left lose_response
        (sorted_set (List.filter (not_in (map fst runtime_open)) recorded_open)) (r1, []) in
  let r3 := fold_left (fun r e => fact (ResponseStart (fst e) (fst (snd e)) (snd (snd e))) r)
              (List.filter (fun e => not_in recorded_open (fst e)) runtime_open) r2 in
  let r4 := fold_left (fun r iid => close_interaction iid IExpired r)
              (sorted_set (List.filter (fun i => not_in (map fst pending) i && not_in (map fst closed) i)
                 recorded)) r3 in
  let r5 := fold_left (fun r e => fact (InteractionOpen (fst (snd e)) (fst e) (snd (snd e))) r)
              (List.filter (fun e => not_in recorded (fst e)) pending) r4 in
  let r6 := match st_admitted_input_ids state with
            | [] => r5
            | ids => fact (InputsAdmitted ids) r5
            end in
  let r7 := fold_left (fun r e => fact (InputsFailed [fst e] (snd e)) r) (st_refused_inputs state) r6 in
  (with_batch (batch_cursor (option_map cursor_as_json (st_cursor state))
     (batch_status (Some (st_status state)) (add_output lost (r_batch r7)))) r7, lost).

(** ** Delivering *)

(** What preparing and submitting one input came to. *)
Inductive submission := Submitted | Refused (failure : dict).

(** One turn of [_deliver_pending] up to its next write: the input is handed over, or it is
    refused and a part of that is to be published. *)
Definition deliver_input (now : Z) (submit : input_row -> submission) (row : input_row) (r : reader) (d : db)
  : option dict * db :=
  match match r_permission r with Some f => Refused f | None => submit row end with
  | Submitted => (None, mark_delivered [in_input_id row] now d)
  | Refused failure => (Some failure, mark_failed (in_input_id row) failure d)
  end.

(** The rest of [_refuse]. *)
Definition refuse (iid : string) (failure : dict) (r : reader) : reader * list OutputPart :=
  publish_platform None [input_failed_part iid failure] r.

(** One turn of [_deliver_answers] up to its commit; [held] says whether the runtime still
    holds the interaction. *)
Definition deliver_answer (held : bool) (iid : string) (r : reader) : reader :=
  close_interaction iid (if held then IAnswered else IExpired) r.

(** What applying one control came to: [None], or the error's text. *)
Definition apply_control (now : Z) (outcome : control_row -> option string) (d : db) (row : control_row)
  : db :=
  let failed :=
    if ct_kind row =s "interrupt" then outcome row
    else if ct_kind row =s "stop_child" then outcome row
    else Some ("unknown control " ++ Py.repr (VStr (ct_kind row))) in
  match failed with
  | Some error => settle_control (ct_control_id row) CFailed (Some error) now d
  | None => settle_control (ct_control_id row) CDone None now d
  end.

Definition apply_controls (now : Z) (outcome : control_row -> option string) (r : reader) (d : db)
  : db := fold_left (apply_control now outcome) (pending_controls (r_lease r) d) d.

(** [_sync_permission_mode]: the refusal, if the runtime refused the mode. *)
Definition sync_permission_mode (refusal : option (string * string)) (r : reader) : reader :=
  with_permission (option_map (fun cm => [("code", VStr (fst cm)); ("message", VStr (snd cm));
                                          ("status_code", VInt 409)]) refusal) r.

(** The start of [_deliver_loop]: an earlier reader's controls are dropped first. *)
Definition expire_earlier_controls (r : reader) (d : db) : db :=
  expire_controls (ls_session_id (r_lease r)) (ls_generation (r_lease r)) d.

(** ** The three loops beside each other *)

(** A reader at work: [ru_recording] is the batch whose [record] is awaited under
    [_commit_lock], with the parts to show once that commit has ended; [ru_queue] are the
    commits that wait for the lock, in its order, each with such parts; [ru_ready] are parts
    whose commit has ended.  Commits are shielded: once asked for they go on, even after
    another one has failed and the reader is stopping. *)
Record running := Running {
  ru_reader : reader;
  ru_recording : option (FactBatch * list OutputPart);
  ru_queue : list (list OutputPart);
  ru_ready : list (list OutputPart);
  ru_failed : bool;
  ru_db : db
}.

Definition starts (lease : ReaderLease) (d : db) : running := Running (start_reader lease d) None [] [] false d.

Definition with_memory (r : reader) (y : running) : running :=
  Running r (ru_recording y) (ru_queue y) (ru_ready y) (ru_failed y) (ru_db y).
Definition with_store (d : db) (y : running) : running :=
  Running (ru_reader y) (ru_recording y) (ru_queue y) (ru_ready y) (ru_failed y) d.

(** [_commit]: a commit waits for the lock; [ps] are shown after it. *)
Definition ask_commit (rp : reader * list OutputPart) (y : running) : running :=
  Running (fst rp) (ru_recording y) (ru_queue y ++ [snd rp])%list (ru_ready y) (ru_failed y) (ru_db y).

(** The first commit that waits gets the lock and takes the batch out; an empty one is done. *)
Definition start_commit (y : running) : running :=
  match ru_recording y, ru_queue y with
  | None, ps :: queue =>
      let '(b, r) := take_batch (ru_reader y) in
      if batch_nonempty b then Running r (Some (b, ps)) queue (ru_ready y) (ru_failed y) (ru_db y)
      else Running r None queue (ru_ready y ++ [ps])%list (ru_failed y) (ru_db y)
  | _, _ => y
  end.

(** Its [record] comes back; [lost] when the database failed, which rolled it back. *)
Definition end_commit (now : Z) (lost : bool) (y : running) : running :=
  match ru_recording y with
  | None => y
  | Some (b, ps) =>
      if lost then Running (ru_reader y) None (ru_queue y) (ru_ready y) true (ru_db y)
      else match record_batch now (r_lease (ru_reader y)) b (ru_db y) with
           | (Ok _, d) => Running (ru_reader y) None (ru_queue y) (ru_ready y ++ [ps])%list (ru_failed y) d
           | (Raise _, d) => Running (ru_reader y) None (ru_queue y) (ru_ready y) true d
           end
  end.

(** A caller whose commit has ended shows its parts. *)
Definition show_ready (k : nat) (y : running) : running :=
  match ru_ready y !! k with
  | Some ps => Running (publish_all ps (ru_reader y)) (ru_recording y) (ru_queue y) (delete k (ru_ready y)) (ru_failed y) (ru_db y)
  | None => y
  end.

End Reader.
