(* ===== verification/ReaderFacts.v ===== *)
(** The reader's numbering: the log stays contiguous, every part shown live is the part
    the log keeps under the same number, and where a reader that takes over numbers the
    same events differently. *)

From stdpp Require Import sorting.
From S2P Require Import Prelude PyVal Schema Interaction SessionRepo SessionRecord DemoStore RepoHistory RecordFacts Reader.

Open Scope string_scope.

Module Numbering.
Import Repo Rec History Recorded Reader.

(** ** The numbers a batch uses *)

Definition used (b : FactBatch) : list Z := (seqs (fb_output b) ++ omap reserved (fb_facts b))%list.

(** The batch uses exactly the numbers after [base] up to the reader's. *)
Record numbered (base : Z) (r : reader) : Prop := Numbered {
  nu_distinct : NoDup (used (r_batch r));
  nu_range : forall s, s ∈ used (r_batch r) <-> (base < s <= r_seq r)%Z;
  nu_base : (base <= r_seq r)%Z
}.

(** Every part shown live is pending in the batch or already stored. *)
Definition live_ok (stored : OutputPart -> Prop) (r : reader) : Prop :=
  forall p, p ∈ r_live r -> MkPart (lp_seq p) (lp_response_id p) (lp_part p) ∈ fb_output (r_batch r) \/
            stored (MkPart (lp_seq p) (lp_response_id p) (lp_part p)).

Definition reading (base : Z) (stored : OutputPart -> Prop) (r : reader) : Prop :=
  numbered base r /\ live_ok stored r.

(** Changes that number nothing and show nothing. *)
Lemma reading_same base stored r r' :
  r_seq r' = r_seq r -> fb_output (r_batch r') = fb_output (r_batch r) ->
  omap reserved (fb_facts (r_batch r')) = omap reserved (fb_facts (r_batch r)) ->
  r_live r' = r_live r -> reading base stored r -> reading base stored r'.
Proof.
  intros Hs Ho Hf Hl [[Hd Hr Hb] Hlive]. unfold reading, live_ok, used in *.
  rewrite Hl, Ho. split; [|done]. split; unfold used; rewrite ?Ho, ?Hf, ?Hs; done.
Qed.

Lemma reading_fact base stored f r :
  reserved f = None -> reading base stored r -> reading base stored (fact f r).
Proof.
  intros Hf. apply reading_same; [done|done| |done]. cbn. rewrite omap_app. cbn.
  rewrite Hf. by rewrite app_nil_r.
Qed.

(** Reserving the next number. *)
Lemma reading_reserve base stored f r :
  reserved f = Some (r_seq r + 1)%Z -> reading base stored r ->
  reading base stored (fact f (with_seq (r_seq r + 1) r)).
Proof.
  intros Hf [[Hd Hr Hb] Hlive]. split; [|done].
  assert (Hu : used (r_batch (fact f (with_seq (r_seq r + 1) r))) =
               (used (r_batch r) ++ [(r_seq r + 1)%Z])%list).
  { unfold used. cbn. rewrite omap_app. cbn. rewrite Hf. by rewrite app_assoc. }
  split; cbn [r_seq fact with_batch with_seq].
  - rewrite Hu. apply NoDup_app. split; [done|]. split; [|apply NoDup_singleton].
    intros s Hs ->%list_elem_of_singleton. apply Hr in Hs. lia.
  - intros s. rewrite Hu, elem_of_app, Hr, list_elem_of_singleton. lia.
  - lia.
Qed.

Definition part_of (p : LivePart) : OutputPart := MkPart (lp_seq p) (lp_response_id p) (lp_part p).

(** Adding parts under the next numbers. *)
Lemma reading_output base stored ps r :
  seqs ps = map (fun i => r_seq r + 1 + Z.of_nat i)%Z (seq 0 (length ps)) -> reading base stored r ->
  reading base stored (with_batch (add_output ps (r_batch r)) (with_seq (r_seq r + Z.of_nat (length ps)) r)).
Proof.
  intros Hps [[Hd Hr Hb] Hlive]. split.
  - assert (Hu : used (add_output ps (r_batch r)) ≡ₚ (used (r_batch r) ++ seqs ps)%list).
    { unfold used, seqs. cbn. rewrite map_app, <-!app_assoc. f_equiv. apply Permutation_app_comm. }
    assert (Hin : forall s, s ∈ seqs ps <-> (r_seq r < s <= r_seq r + Z.of_nat (length ps))%Z).
    { intros s. rewrite Hps, list_elem_of_fmap. split.
      - intros (i & -> & Hi%elem_of_seq). lia.
      - intros Hs. exists (Z.to_nat (s - r_seq r - 1)). rewrite elem_of_seq. lia. }
    split; cbn [r_seq with_batch with_seq r_batch].
    + rewrite Hu. apply NoDup_app. split; [done|]. split.
      * intros s Hs Hs'. apply Hr in Hs. apply Hin in Hs'. lia.
      * rewrite Hps. apply NoDup_fmap_2; [|apply NoDup_seq]. intros i j Hij. lia.
    + intros s. rewrite Hu, elem_of_app, Hr, Hin. lia.
    + lia.
  - intros p Hp. cbn in Hp |- *. destruct (Hlive p Hp) as [H|H]; [left; set_solver|by right].
Qed.

Lemma reading_live base stored p r :
  part_of p ∈ fb_output (r_batch r) \/ stored (part_of p) -> reading base stored r ->
  reading base stored (publish_live p r).
Proof.
  intros Hp [Hn Hl]. split; [by destruct Hn|]. intros q Hq. cbn in Hq |- *.
  apply elem_of_app in Hq as [Hq|Hq%list_elem_of_singleton]; [by apply Hl|by subst].
Qed.

(** ** Taking events *)

Lemma reading_position base stored kind id r :
  reading base stored r -> reading base stored (message_position kind id r).
Proof. by apply reading_reserve. Qed.

Lemma reading_close base stored iid st r :
  reading base stored r -> reading base stored (close_interaction iid st r).
Proof. by apply reading_reserve. Qed.

Lemma reading_one_output base stored rid frame r :
  reading base stored r ->
  let seq := (r_seq r + 1)%Z in
  let r3 := publish_live (MkLive seq rid frame) (with_seq seq r) in
  reading base stored (with_batch (add_output [MkPart seq rid frame] (r_batch r3)) r3).
Proof.
  intros Hr seq r3. pose proof (reading_output base stored [MkPart seq rid frame] r) as H.
  cbn [length Z.of_nat Pos.of_succ_nat] in H.
  assert (Hs : seqs [MkPart seq rid frame] = map (fun i => r_seq r + 1 + Z.of_nat i)%Z (List.seq 0 1)).
  { cbn. f_equal. unfold seq. lia. }
  specialize (H Hs Hr). destruct H as [[Hd Hrange Hb] Hl]. split; [by split|].
  intros p Hp. cbn in Hp. apply elem_of_app in Hp as [Hp|Hp%list_elem_of_singleton].
  - exact (Hl p Hp).
  - subst p. left. cbn. set_solver.
Qed.

Lemma reading_take_output base stored rid frame r :
  reading base stored r -> reading base stored (take_output rid frame r).
Proof.
  intros Hr. unfold take_output. apply reading_one_output.
  assert (H1 : reading base stored
    match rid with
    | Some id =>
        if negb (Py.is_empty id) && negb (Py.in_strs id (r_positioned r)) && positions_response frame
        then message_position KResponse id (with_positioned (id :: r_positioned r) r) else r
    | None => r
    end).
  { destruct rid as [id|]; [|done]. destruct (_ && _); [|done]. apply reading_position.
    by apply (reading_same _ _ r). }
  destruct rid as [id|]; [|done].
  match goal with |- reading _ _ (if ?c then _ else _) => destruct c end; [|done].
  by eapply reading_same in H1; [exact H1|..].
Qed.

Lemma reading_end base stored c u r : reading base stored r -> reading base stored (take_end c u r).
Proof. intros H. eapply reading_same; [..|exact H]; by destruct c. Qed.

Lemma reading_take base stored e r : reading base stored r -> reading base stored (take e r).
Proof.
  intros H. destruct e; cbn [take]; apply reading_end;
    try (by apply reading_fact); try done.
  - by apply reading_position.
  - apply reading_end, reading_take_output. by apply reading_fact.
  - by apply reading_take_output.
  - by apply reading_close.
  - by eapply reading_same; [..|exact H].
Qed.

Lemma reading_fold {A} base stored (f : reader -> A -> reader) l r :
  (forall r x, reading base stored r -> reading base stored (f r x)) ->
  reading base stored r -> reading base stored (fold_left f l r).
Proof. intros Hf. revert r. induction l as [|x l IH]; intros r H; cbn; auto. Qed.

Lemma reading_event base stored cards e r :
  reading base stored r -> reading base stored (read_event cards e r).
Proof.
  intros H. apply (reading_take _ _ e) in H. destruct e; try exact H.
  apply reading_fold; [|exact H]. intros r1 x. apply reading_take.
Qed.

(** The lease a reader holds is the one it was given. *)
Lemma take_lease e r : r_lease (take e r) = r_lease r.
Proof.
  assert (Ho : forall rid frame r, r_lease (take_output rid frame r) = r_lease r).
  { intros [id|] frame r0; [|done]. unfold take_output.
    destruct (negb _ && _ && _); cbn; by destruct (_ && _). }
  assert (He : forall c u r, r_lease (take_end c u r) = r_lease r) by (by intros [] u []).
  destruct e; cbn [take]; rewrite ?He, ?Ho; done.
Qed.

Lemma fold_lease {A} (f : reader -> A -> reader) l r :
  (forall r x, r_lease (f r x) = r_lease r) -> r_lease (fold_left f l r) = r_lease r.
Proof. intros Hf. revert r. induction l as [|x l IH]; intros r; cbn; [done|]. by rewrite IH. Qed.

Lemma event_lease cards e r : r_lease (read_event cards e r) = r_lease r.
Proof.
  destruct e; try apply take_lease. cbn [read_event].
  rewrite fold_lease; [apply take_lease|]. intros; apply take_lease.
Qed.

(** ** Numbered parts *)

Lemma length_number_parts seq rid parts : length (number_parts seq rid parts) = length parts.
Proof. revert seq. induction parts as [|p parts IH]; intros seq; cbn; [done|]. by rewrite IH. Qed.

Lemma seqs_number_parts n rid parts :
  seqs (number_parts n rid parts) = map (fun i => n + 1 + Z.of_nat i)%Z (seq 0 (length parts)).
Proof.
  revert n. induction parts as [|p parts IH]; intros n; [done|]. cbn [number_parts seqs map].
  unfold seqs in IH |- *. rewrite IH. cbn [length seq map]. f_equal; [cbn; lia|].
  rewrite <-seq_shift, map_map. apply map_ext. intros i. lia.
Qed.

Lemma reading_number base stored rid parts r :
  reading base stored r ->
  reading base stored (with_batch (add_output (number_parts (r_seq r) rid parts) (r_batch r))
                         (with_seq (r_seq r + Z.of_nat (length parts)) r)).
Proof.
  intros H. pose proof (reading_output base stored (number_parts (r_seq r) rid parts) r) as Hr.
  rewrite length_number_parts in Hr. apply Hr; [apply seqs_number_parts|done].
Qed.

Lemma publish_all_same ps r :
  r_seq (publish_all ps r) = r_seq r /\ r_batch (publish_all ps r) = r_batch r /\
  r_lease (publish_all ps r) = r_lease r.
Proof.
  unfold publish_all. revert r. induction ps as [|p ps IH]; intros r; [done|]. cbn.
  destruct (IH (publish_live (live_of p) r)) as (-> & -> & ->). done.
Qed.

Lemma reading_publish_all base stored ps r :
  (forall p, p ∈ ps -> stored p) -> reading base stored r -> reading base stored (publish_all ps r).
Proof.
  unfold publish_all. revert r. induction ps as [|p ps IH]; intros r Hp H; [done|]. cbn.
  apply IH; [intros q Hq; apply Hp; by right|]. apply reading_live; [|done].
  right. destruct p. apply Hp. left.
Qed.

(** ** The log *)

(** The session's log is numbered 1 to [n], without gaps. *)
Definition contiguous (sid : string) (d : db) (n : Z) : Prop :=
  (0 <= n)%Z /\
  forall s, (exists o, o ∈ db_output d /\ ou_session_id o = sid /\ ou_seq o = s) <-> (1 <= s <= n)%Z.

Definition in_log (sid : string) (d : db) (p : OutputPart) : Prop :=
  exists o, o ∈ db_output d /\ ou_session_id o = sid /\ ou_seq o = op_seq p /\
            ou_response_id o = op_response_id p /\ ou_part o = op_part p.

Lemma used_reserved b s : Some s ∈ map reserved (fb_facts b) <-> s ∈ omap reserved (fb_facts b).
Proof.
  rewrite list_elem_of_omap, list_elem_of_fmap. split; intros (f & H1 & H2); by exists f.
Qed.

(** A batch that used the numbers after [base] up to [mid], once recorded, leaves the log
    numbered up to [mid]. *)
Definition uses (base mid : Z) (b : FactBatch) : Prop := NoDup (used b) /\ (forall s, s ∈ used b <-> (base < s <= mid)%Z) /\ (base <= mid)%Z.

Lemma record_stores sid base mid now lease b d c d' :
  ls_session_id lease = sid -> contiguous sid d base -> uses base mid b -> batch_nonempty b = true ->
  record_batch now lease b d = (Ok c, d') ->
  contiguous sid d' mid /\ (forall p, p ∈ fb_output b -> in_log sid d' p) /\ (forall p, in_log sid d p -> in_log sid d' p).
Proof.
  intros Hsid [Hb0 Hlog] (Hd & Hr & Hb) Hne H. unfold record_batch in H.
  destruct (record _ _ _ _ _) as [[[output|]|] d1] eqn:Hrec; [|discriminate..].
  destruct (cursor_from_json _); [|discriminate]. injection H as _ <-.
  assert (Hnd : NoDup (seqs (fb_output b))) by (apply NoDup_app in Hd; tauto).
  pose proof (record_ok_appends _ _ _ _ _ _ _ Hne Hnd Hrec) as (Hout & Hseqs & _ & Hkeep). rewrite Hsid in Hout.
  assert (Hin : forall s, s ∈ used b <-> exists p, p ∈ output /\ op_seq p = s).
  { intros s. unfold used. rewrite elem_of_app, <-used_reserved, <-Hseqs. unfold seqs. rewrite list_elem_of_fmap. split; intros (p & H1 & H2); by exists p. }
  split; [|split].
  - split; [lia|]. intros s. rewrite Hout. split.
    + intros (o & [Ho|Ho]%elem_of_app & Hs & <-).
      * assert (1 <= ou_seq o <= base)%Z by (apply Hlog; eauto). lia.
      * apply list_elem_of_fmap in Ho as (p & -> & Hp). cbn. assert (Hu : op_seq p ∈ used b) by (apply Hin; by exists p). apply Hr in Hu. lia.
    + intros Hs. destruct (decide (s <= base)%Z) as [Hle|Hgt].
      * destruct (proj2 (Hlog s)) as (o & Ho & Hos & <-); [lia|]. exists o. set_solver.
      * destruct (proj1 (Hin s)) as (p & Hp & <-); [apply Hr; lia|]. exists (output_row_of sid now p).
        split; [|done]. apply elem_of_app. right. by apply list_elem_of_fmap_2.
  - intros p Hp. assert (Hpo : p ∈ output).
    { apply Hkeep; [done|]. rewrite used_reserved. intros Hres. unfold used in Hd.
      apply NoDup_app in Hd as (_ & Hdis & _). apply (Hdis (op_seq p)); [|done]. by apply list_elem_of_fmap_2. }
    exists (output_row_of sid now p). rewrite Hout. split; [|done]. apply elem_of_app. right. by apply list_elem_of_fmap_2.
  - intros p (o & Ho & Hrest). exists o. rewrite Hout. split; [set_solver|done].
Qed.

(** A reader with parts set aside for its batch. *)
Definition plus (lost : list OutputPart) (r : reader) : reader :=
  with_batch (add_output lost (r_batch r)) r.

Lemma plus_fold {A} base stored lost (f : reader -> A -> reader) l r :
  (forall r x, reading base stored (plus lost r) -> reading base stored (plus lost (f r x))) ->
  reading base stored (plus lost r) -> reading base stored (plus lost (fold_left f l r)).
Proof. intros Hf. revert r. induction l as [|x l IH]; intros r H; cbn; auto. Qed.

Lemma plus_fact base stored lost f r :
  reserved f = None -> reading base stored (plus lost r) -> reading base stored (plus lost (fact f r)).
Proof. intros Hf H. exact (reading_fact _ _ f (plus lost r) Hf H). Qed.

Lemma plus_close base stored lost iid st r :
  reading base stored (plus lost r) -> reading base stored (plus lost (close_interaction iid st r)).
Proof. exact (reading_close _ _ iid st (plus lost r)). Qed.

Lemma plus_lose base stored rids r lost :
  reading base stored (plus lost r) ->
  let '(r', lost') := fold_left lose_response rids (r, lost) in
  reading base stored (plus lost' r') /\ r_lease r' = r_lease r.
Proof.
  revert r lost. induction rids as [|rid rids IH]; intros r lost H; [done|].
  cbn [fold_left lose_response]. rewrite length_number_parts.
  set (parts := lost_response_parts rid "runtime_lost").
  apply (plus_fact _ _ _ (ResponseEnd rid "failed" (Some "runtime_lost") None
    (Some (lost_response_error "runtime_lost")))) in H; [|done]. apply (reading_number _ _ (Some rid) parts) in H.
  match goal with |- context [fold_left lose_response rids (?r1, ?l1)] =>
    specialize (IH r1 l1); destruct (fold_left lose_response rids (r1, l1)) as [r' lost'] end.
  apply IH. eapply reading_same; [..|exact H]; try done. cbn. by rewrite app_assoc.
Qed.

Lemma close_reported_plus base stored closed lost r iid :
  reading base stored (plus lost r) -> reading base stored (plus lost (close_reported closed r iid)).
Proof. unfold close_reported. destruct (assoc iid closed); [apply plus_close|done]. Qed.

(** The facts a reconciliation derives keep the numbering, and its parts are pending. *)
Lemma reconcile_reading base stored state responses interactions r r' lost :
  reading base stored r -> reconcile state responses interactions r = (r', lost) ->
  reading base stored r' /\ r_lease r' = r_lease r /\
  (forall p, p ∈ lost -> p ∈ fb_output (r_batch r')).
Proof.
  intros Hr. unfold reconcile. set (ra := fold_left (close_reported _) _ r).
  assert (Hra : reading base stored (plus [] ra)).
  { apply plus_fold; [intros; by apply close_reported_plus|].
    eapply reading_same; [..|exact Hr]; try done. cbn. by rewrite app_nil_r. }
  assert (Hla : r_lease ra = r_lease r).
  { apply fold_lease. intros; unfold close_reported. by destruct (assoc _ _). }
  match goal with |- context [fold_left lose_response ?l (ra, [])] =>
    pose proof (plus_lose base stored l ra [] Hra) as Hlose;
    destruct (fold_left lose_response l (ra, [])) as [rb lostb] end.
  destruct Hlose as [Hrb Hlb]. set (r3 := fold_left _ _ rb). set (r4 := fold_left _ _ r3).
  set (r5 := fold_left _ _ r4). set (r6 := match st_admitted_input_ids state with [] => r5 | _ => _ end).
  set (r7 := fold_left _ _ r6). intros [= <- <-].
  assert (H3 : reading base stored (plus lostb r3)) by (apply plus_fold; [intros; by apply plus_fact|done]).
  assert (H4 : reading base stored (plus lostb r4)) by (apply plus_fold; [intros; by apply plus_close|done]).
  assert (H5 : reading base stored (plus lostb r5)) by (apply plus_fold; [intros; by apply plus_fact|done]).
  assert (H6 : reading base stored (plus lostb r6))
    by (unfold r6; destruct (st_admitted_input_ids state); [done|by apply plus_fact]).
  assert (H7 : reading base stored (plus lostb r7)) by (apply plus_fold; [intros; by apply plus_fact|done]).
  assert (Hl7 : r_lease r7 = r_lease r).
  { unfold r7. rewrite fold_lease by done. unfold r6. transitivity (r_lease r5);
      [by destruct (st_admitted_input_ids state)|]. unfold r5, r4, r3. rewrite !fold_lease by done.
    by rewrite Hlb. }
  split; [by eapply reading_same; [..|exact H7]|]. split; [done|]. intros p Hp. cbn. set_solver.
Qed.

Lemma apply_controls_output now outcome r d : db_output (apply_controls now outcome r d) = db_output d.
Proof.
  unfold apply_controls. generalize (pending_controls (r_lease r) d). intros l. revert d.
  induction l as [|row l IH]; intros d; [done|]. cbn. rewrite IH. unfold apply_control.
  destruct (ct_kind row =s "interrupt"), (ct_kind row =s "stop_child"); by try destruct (outcome row).
Qed.

(** One body of the reader's loops between two of its awaits, or anything another process
    does to the store besides recording for this session, which the lease forbids it. *)
Inductive reader_step (y : running) : running -> Prop :=
| reads_event cards e : reader_step y (with_memory (read_event cards e (ru_reader y)) y)
| reads_fault message : reader_step y (with_memory (protocol_fault message (ru_reader y)) y)
| asks : reader_step y (ask_commit (ru_reader y, []) y)
| publishes rid parts : reader_step y (ask_commit (publish_platform rid parts (ru_reader y)) y)
| reconciles state responses interactions : reader_step y (ask_commit (reconcile state responses interactions (ru_reader y)) y)
| delivers_input now submit row : reader_step y (with_store (snd (deliver_input now submit row (ru_reader y) (ru_db y))) y)
| refuses iid failure : reader_step y (ask_commit (refuse iid failure (ru_reader y)) y)
| delivers_answer held iid : reader_step y (ask_commit (deliver_answer held iid (ru_reader y), []) y)
| starts_commit : reader_step y (start_commit y)
| ends_commit now lost : reader_step y (end_commit now lost y)
| shows k : reader_step y (show_ready k y)
| applies_controls now outcome : reader_step y (with_store (apply_controls now outcome (ru_reader y) (ru_db y)) y)
| expires_controls : reader_step y (with_store (expire_earlier_controls (ru_reader y) (ru_db y)) y)
| syncs_mode refusal : reader_step y (with_memory (sync_permission_mode refusal (ru_reader y)) y)
| others_act d : db_output d = db_output (ru_db y) -> reader_step y (with_store d y).

(** What is in flight under the lock. *)
Definition in_flight (y : running) : list OutputPart := match ru_recording y with Some (b, _) => fb_output b | None => [] end.
Definition flying_or_stored (sid : string) (y : running) (p : OutputPart) : Prop := p ∈ in_flight y \/ in_log sid (ru_db y) p.

(** The log is numbered to [base], the batch in flight from there to [mid], the pending one on. *)
Record at_work (sid : string) (base mid : Z) (y : running) : Prop := AtWork {
  aw_session : ls_session_id (r_lease (ru_reader y)) = sid;
  aw_log : contiguous sid (ru_db y) base;
  aw_flight : match ru_recording y with Some (b, _) => uses base mid b /\ batch_nonempty b = true | None => mid = base end;
  aw_reading : reading mid (flying_or_stored sid y) (ru_reader y);
  aw_recording : forall b ps p, ru_recording y = Some (b, ps) -> p ∈ ps -> flying_or_stored sid y p;
  aw_queue : forall ps p, ps ∈ ru_queue y -> p ∈ ps -> p ∈ fb_output (r_batch (ru_reader y)) \/ flying_or_stored sid y p;
  aw_ready : forall ps p, ps ∈ ru_ready y -> p ∈ ps -> flying_or_stored sid y p
}.

Lemma reading_stored mid (stored stored' : OutputPart -> Prop) r :
  (forall p, stored p -> stored' p) -> reading mid stored r -> reading mid stored' r.
Proof. intros H [Hn Hl]. split; [done|]. intros p Hp. destruct (Hl p Hp); auto. Qed.

(** Steps in memory that keep what is pending. *)
Lemma memory_at_work sid base mid y r :
  r_lease r = r_lease (ru_reader y) -> (forall p, p ∈ fb_output (r_batch (ru_reader y)) -> p ∈ fb_output (r_batch r)) ->
  (forall stored, reading mid stored (ru_reader y) -> reading mid stored r) -> at_work sid base mid y -> at_work sid base mid (with_memory r y).
Proof.
  intros Hl Hb Hr [H1 H2 H3 H4 H5 H6 H7]. split; try done; [by rewrite <-H1; cbn; rewrite Hl|by apply Hr|].
  intros ps p Hps Hp. destruct (H6 ps p Hps Hp); [left; by apply Hb|by right].
Qed.

Lemma store_at_work sid base mid y d : db_output d = db_output (ru_db y) -> at_work sid base mid y -> at_work sid base mid (with_store d y).
Proof.
  intros Ho [H1 H2 H3 H4 H5 H6 H7]. destruct y as [r rec queue ready failed d0]. cbn in *. unfold flying_or_stored, in_flight, contiguous, in_log in *.
  split; cbn in *; unfold flying_or_stored, in_flight, contiguous, in_log in *; cbn in *; rewrite ?Ho; done.
Qed.

(** A commit is asked for whose parts are pending. *)
Lemma ask_at_work sid base mid y r ps :
  (forall p, p ∈ ps -> p ∈ fb_output (r_batch r)) -> at_work sid base mid (with_memory r y) -> at_work sid base mid (ask_commit (r, ps) y).
Proof.
  intros Hps [H1 H2 H3 H4 H5 H6 H7]. split; try done. cbn [ask_commit fst snd ru_queue ru_reader].
  intros qs p [Hq| ->%list_elem_of_singleton]%elem_of_app Hp; [by apply (H6 qs)|left; by apply Hps].
Qed.

(** The lock is taken. *)
Lemma start_commit_at_work sid base mid y : at_work sid base mid y -> exists mid', at_work sid base mid' (start_commit y).
Proof.
  intros Hw. unfold start_commit. destruct (ru_recording y) as [[b0 ps0]|] eqn:Er; [by exists mid|].
  destruct (ru_queue y) as [|ps queue] eqn:Eq; [by exists mid|]. destruct Hw as [H1 H2 H3 H4 H5 H6 H7]. rewrite Er in H3. subst mid.
  destruct H4 as [[Hd Hr Hb] Hlive]. cbn [take_batch]. unfold live_ok, flying_or_stored, in_flight in *. rewrite Er in *. rewrite Eq in H6.
  destruct (batch_nonempty (r_batch (ru_reader y))) eqn:Hne.
  - exists (r_seq (ru_reader y)). split; cbn; try done; unfold flying_or_stored, in_flight; cbn.
    + split; [|intros p Hp; right; destruct (Hlive p Hp) as [Hx|[Hx%not_elem_of_nil|Hx]]; [by left|done|by right]].
      split; cbn; [constructor| |lia]. intros s. split; [by intros ?%not_elem_of_nil|lia].
    + intros b qs p [= <- <-] Hp. destruct (H6 ps p (list_elem_of_here _ _) Hp) as [Hx|[Hx%not_elem_of_nil|Hx]]; [by left|done|by right].
    + intros qs p Hq Hp. right. destruct (H6 qs p (list_elem_of_further _ _ _ Hq) Hp) as [Hx|[Hx%not_elem_of_nil|Hx]]; [by left|done|by right].
    + intros qs p Hq Hp. destruct (H7 qs p Hq Hp) as [Hx%not_elem_of_nil|Hx]; [done|by right].
  - assert (He : fb_output (r_batch (ru_reader y)) = [] /\ base = r_seq (ru_reader y)).
    { unfold batch_nonempty in Hne. destruct (r_batch (ru_reader y)) as [out facts cur st pe]. unfold used in *. cbn in *.
      destruct out; [|discriminate]. destruct facts; [|discriminate]. split; [done|]. cbn in *.
      destruct (decide (base = r_seq (ru_reader y))); [done|]. exfalso. apply (not_elem_of_nil (r_seq (ru_reader y))). apply Hr. lia. }
    destruct He as [He Hs]. rewrite He in *. exists base. split; cbn; try done; unfold flying_or_stored, in_flight; cbn.
    + split; [|intros p Hp; right; destruct (Hlive p Hp) as [Hx%not_elem_of_nil|Hx]; [done|exact Hx]].
      split; cbn; [constructor| |lia]. intros s. split; [by intros ?%not_elem_of_nil|lia].
    + intros qs p Hq Hp. right. destruct (H6 qs p (list_elem_of_further _ _ _ Hq) Hp) as [Hx%not_elem_of_nil|Hx]; [done|exact Hx].
    + intros qs p [Hq| ->%list_elem_of_singleton]%elem_of_app Hp; [by apply (H7 qs)|].
      destruct (H6 ps p (list_elem_of_here _ _) Hp) as [Hx%not_elem_of_nil|Hx]; [done|exact Hx].
Qed.

(** The record comes back. *)
Lemma end_commit_at_work sid base mid now lost y :
  at_work sid base mid y -> ru_failed (end_commit now lost y) = false -> exists base', at_work sid base' mid (end_commit now lost y).
Proof.
  intros Hw. unfold end_commit. destruct (ru_recording y) as [[b ps]|] eqn:Er; [|by exists base]. destruct lost; [done|].
  destruct Hw as [H1 H2 H3 H4 H5 H6 H7]. rewrite Er in H3. destruct H3 as [Hu Hne].
  destruct (record_batch _ _ _ _) as [[c|x] d'] eqn:E; [intros _|done].
  destruct (record_stores _ _ _ _ _ _ _ _ _ H1 H2 Hu Hne E) as (Hc & Hin & Hkeep).
  assert (Hs : forall p, flying_or_stored sid y p -> in_log sid d' p).
  { unfold flying_or_stored, in_flight. rewrite Er. intros p [Hp|Hp]; auto. }
  exists mid. split; cbn; try done; unfold flying_or_stored, in_flight; cbn.
  - eapply reading_stored; [|exact H4]. intros p Hp. right. by apply Hs.
  - intros qs p Hq Hp. destruct (H6 qs p Hq Hp); [by left|right; right; by apply Hs].
  - intros qs p [Hq| ->%list_elem_of_singleton]%elem_of_app Hp; right; apply Hs; [by apply (H7 qs)|by eapply H5].
Qed.

Lemma show_ready_at_work sid base mid k y : at_work sid base mid y -> at_work sid base mid (show_ready k y).
Proof.
  intros [H1 H2 H3 H4 H5 H6 H7]. unfold show_ready. destruct (ru_ready y !! k) as [ps|] eqn:Ek; [|done].
  destruct (publish_all_same ps (ru_reader y)) as (P1 & P2 & P3). split; try done; cbn.
  - by rewrite P3.
  - apply reading_publish_all; [|exact H4]. intros p Hp. eapply H7; [|exact Hp]. by eapply list_elem_of_lookup_2.
  - intros qs p Hq Hp. rewrite P2. by eapply H6.
  - intros qs p Hq Hp. apply (H7 qs); [|done]. eapply elem_of_submseteq; [exact Hq|]. apply sublist_submseteq, sublist_delete.
Qed.

(** Publishing numbers parts and leaves them pending. *)
Lemma publish_at_work sid base mid rid parts y :
  at_work sid base mid y -> at_work sid base mid (ask_commit (publish_platform rid parts (ru_reader y)) y).
Proof.
  intros Hw. apply ask_at_work; [intros p Hp; cbn; set_solver|]. apply memory_at_work; [done|cbn; set_solver| |done].
  intros stored. apply reading_number.
Qed.

Lemma deliver_input_output now submit row r d : db_output (snd (deliver_input now submit row r d)) = db_output d.
Proof. unfold deliver_input. by destruct (match r_permission r with Some f => Refused f | None => submit row end). Qed.

(** Taking events only adds to what is pending. *)
Lemma take_output_pending rid frame r p : p ∈ fb_output (r_batch r) -> p ∈ fb_output (r_batch (take_output rid frame r)).
Proof.
  intros H. unfold take_output. destruct rid as [id|]; [|cbn; set_solver].
  destruct (negb _ && _ && _); cbn; destruct (_ && _); cbn; set_solver.
Qed.

Lemma take_end_pending c u r p : p ∈ fb_output (r_batch r) -> p ∈ fb_output (r_batch (take_end c u r)).
Proof. by destruct c. Qed.

Lemma take_pending e r p : p ∈ fb_output (r_batch r) -> p ∈ fb_output (r_batch (take e r)).
Proof. intros H. destruct e; cbn [take]; apply take_end_pending; try done; [apply take_end_pending|]; by apply take_output_pending. Qed.

Lemma event_pending cards e r p : p ∈ fb_output (r_batch r) -> p ∈ fb_output (r_batch (read_event cards e r)).
Proof.
  intros H. apply (take_pending e) in H. destruct e; try exact H. cbn [read_event]. revert H. generalize (take (ResponseOutput cursor response_id frame) r).
  induction cards as [|x cards IH]; intros r0 H; [done|]. cbn [fold_left]. by apply IH, take_pending.
Qed.

Lemma fold_pending {A} (f : reader -> A -> reader) l r :
  (forall r x, fb_output (r_batch (f r x)) = fb_output (r_batch r)) -> fb_output (r_batch (fold_left f l r)) = fb_output (r_batch r).
Proof. intros Hf. revert r. induction l as [|x l IH]; intros r; cbn; [done|]. by rewrite IH. Qed.

(** What was pending stays pending. *)
Lemma lose_pending rids r lost p :
  p ∈ fb_output (r_batch r) -> p ∈ fb_output (r_batch (fst (fold_left lose_response rids (r, lost)))).
Proof. revert r lost. induction rids as [|rid rids IH]; intros r lost H; [done|]. cbn [fold_left lose_response]. by apply IH. Qed.

Lemma reconcile_pending state responses interactions r r' lost p :
  reconcile state responses interactions r = (r', lost) -> p ∈ fb_output (r_batch r) -> p ∈ fb_output (r_batch r').
Proof.
  unfold reconcile. set (ra := fold_left (close_reported _) _ r).
  assert (Ha : fb_output (r_batch ra) = fb_output (r_batch r)).
  { apply fold_pending. intros r0 x. unfold close_reported. by destruct (assoc _ _). }
  match goal with |- context [fold_left lose_response ?l (ra, [])] =>
    pose proof (lose_pending l ra [] p) as Hl; destruct (fold_left lose_response l (ra, [])) as [rb lostb] end.
  intros [= <- <-] H. rewrite <-Ha in H. specialize (Hl H). cbn -[fold_left] in Hl |- *. apply elem_of_app. left.
  rewrite fold_pending by done. destruct (st_admitted_input_ids state); cbn -[fold_left]; rewrite !fold_pending by done; exact Hl.
Qed.

Lemma reader_step_at_work sid base mid y y' :
  reader_step y y' -> ru_failed y' = false -> at_work sid base mid y -> exists base' mid', at_work sid base' mid' y'.
Proof.
  intros Hstep Hf Hw. destruct Hstep.
  - exists base, mid. apply memory_at_work; [apply event_lease|intros p; apply event_pending|intros stored; apply reading_event|done].
  - exists base, mid. apply memory_at_work; [done..| |done]. intros stored. by apply reading_same.
  - exists base, mid. apply ask_at_work; [by intros p ?%not_elem_of_nil|]. by apply memory_at_work.
  - exists base, mid. by apply (publish_at_work sid base mid).
  - exists base, mid. destruct (reconcile state responses interactions (ru_reader y)) as [r' lost] eqn:E.
    pose proof (fun stored Hr => reconcile_reading mid stored _ _ _ _ _ _ Hr E) as Hrec.
    pose proof (aw_reading _ _ _ _ Hw) as Hr0. destruct (Hrec _ Hr0) as (_ & Hl & Hp).
    apply ask_at_work; [exact Hp|]. apply memory_at_work; [done| |intros stored Hr; by apply Hrec|done].
    intros p. by eapply reconcile_pending.
  - exists base, mid. apply store_at_work; [apply deliver_input_output|done].
  - exists base, mid. by apply (publish_at_work sid base mid).
  - exists base, mid. apply ask_at_work; [by intros p ?%not_elem_of_nil|]. apply memory_at_work; [done..| |done]. intros stored. apply reading_close.
  - exists base. by apply (start_commit_at_work sid base mid).
  - destruct (end_commit_at_work _ _ _ now lost _ Hw Hf) as [base' H]. by exists base', mid.
  - exists base, mid. by apply show_ready_at_work.
  - exists base, mid. apply store_at_work; [apply apply_controls_output|done].
  - exists base, mid. by apply store_at_work.
  - exists base, mid. apply memory_at_work; [done..| |done]. intros stored. by apply reading_same.
  - exists base, mid. by apply store_at_work.
Qed.

Lemma failed_stays y y' : reader_step y y' -> ru_failed y' = false -> ru_failed y = false.
Proof.
  intros []; try done.
  - unfold start_commit. destruct (ru_recording y), (ru_queue y); try done. cbn. by destruct (batch_nonempty _).
  - unfold end_commit. destruct (ru_recording y) as [[b ps]|]; [|done]. destruct lost; [done|]. by destruct (record_batch _ _ _ _) as [[]].
  - unfold show_ready. by destruct (ru_ready y !! k).
Qed.

Lemma max_seq_contiguous sid d n : contiguous sid d n -> max_seq sid d = n.
Proof.
  intros [H0 Hc]. unfold max_seq.
  assert (Hin : forall s, s ∈ map ou_seq (select_where (output_of sid) (db_output d)) <-> (1 <= s <= n)%Z).
  { intros s. rewrite <-Hc, list_elem_of_fmap. split.
    - intros (o & -> & [Ho%String.eqb_eq Hin]%elem_of_select_where). eauto.
    - intros (o & Ho & Hs & <-). exists o. split; [done|]. apply elem_of_select_where.
      split; [by apply String.eqb_eq|done]. }
  revert Hin. generalize (map ou_seq (select_where (output_of sid) (db_output d))). intros l Hl.
  assert (Hle : (fold_right Z.max 0 l <= n)%Z).
  { assert (Hall : forall s, s ∈ l -> (s <= n)%Z) by (intros s Hs; apply Hl in Hs; lia).
    clear -Hall H0. induction l as [|x l IH]; cbn; [lia|].
    assert (x <= n)%Z by (apply Hall; left). assert (fold_right Z.max 0 l <= n)%Z; [|lia].
    apply IH. intros s Hs. apply Hall. by right. }
  assert (Hge : forall s, s ∈ l -> (s <= fold_right Z.max 0 l)%Z).
  { clear. induction l as [|x l IH]; intros s Hs; [by apply not_elem_of_nil in Hs|]. cbn.
    apply elem_of_cons in Hs as [->|Hs]; [lia|]. specialize (IH s Hs). lia. }
  destruct (decide (n = 0)%Z) as [->|]; [|pose proof (Hge n (proj2 (Hl n) ltac:(lia))); lia].
  destruct l as [|x l]; [done|]. pose proof (proj1 (Hl x) ltac:(left)). lia.
Qed.

Lemma start_seq lease d n :
  exists_where (fun s => ss_session_id s =s ls_session_id lease) (db_sessions d) = true ->
  contiguous (ls_session_id lease) d n -> r_seq (start_reader lease d) = n.
Proof.
  intros He Hc. cbn. unfold resume_point. destruct (List.find _ _) as [s|] eqn:Ef; [by apply max_seq_contiguous|].
  exfalso. apply existsb_true in He as (s & Hin & Hs). apply list_elem_of_In in Hin.
  by rewrite (find_none _ _ Ef s Hin) in Hs.
Qed.

Lemma start_at_work lease d n :
  exists_where (fun s => ss_session_id s =s ls_session_id lease) (db_sessions d) = true ->
  contiguous (ls_session_id lease) d n -> at_work (ls_session_id lease) n n (starts lease d).
Proof.
  intros He Hc. pose proof (start_seq _ _ _ He Hc) as Hs. split; [done|done|done| |done|by intros ? ? ?%not_elem_of_nil..].
  split; [|by intros p ?%not_elem_of_nil]. split; cbn [starts ru_reader]; rewrite ?Hs; [constructor| |lia]. intros s. split; [by intros ?%not_elem_of_nil|lia].
Qed.

Lemma run_at_work lease d0 n y :
  exists_where (fun s => ss_session_id s =s ls_session_id lease) (db_sessions d0) = true ->
  contiguous (ls_session_id lease) d0 n -> rtc reader_step (starts lease d0) y -> ru_failed y = false ->
  exists base mid, at_work (ls_session_id lease) base mid y.
Proof.
  intros He Hc Hr. assert (H0 : exists base mid, at_work (ls_session_id lease) base mid (starts lease d0)) by (exists n, n; by apply start_at_work).
  revert H0. induction Hr as [|x z y Hxz Hzy IH]; [done|]. intros (base & mid & Hw) Hf. apply IH; [|done].
  apply (reader_step_at_work _ base mid x); [done| |done]. clear -Hzy Hf. induction Hzy as [|u v w Huv _ IH]; [done|]. eapply failed_stays; [exact Huv|]. by apply IH.
Qed.

(** C2: The log has no gaps and what was seen live is what is stored.  A reader starts on a log
    numbered from 1 without gaps and does what it does, its three loops beside each other:
    reads events in any number, asks for commits that wait for one another and are recorded
    while it reads on, reconciles with a replaced runtime, hands over inputs and answers,
    publishes parts of the platform.  As long as no commit of it has failed and no other reader
    records for the session, the log is numbered from 1 without gaps, the batch in flight
    continues it and the pending batch continues that, each number used once; and every part
    it showed live is in the log under its number, in flight or pending. *)
Theorem reader_log_contiguous lease d0 n y :
  exists_where (fun s => ss_session_id s =s ls_session_id lease) (db_sessions d0) = true ->
  contiguous (ls_session_id lease) d0 n ->
  rtc reader_step (starts lease d0) y -> ru_failed y = false ->
  let r := ru_reader y in
  exists base mid,
    contiguous (ls_session_id lease) (ru_db y) base /\
    (match ru_recording y with Some (b, _) => NoDup (used b) /\ forall s, s ∈ used b <-> (base < s <= mid)%Z | None => mid = base end) /\
    NoDup (used (r_batch r)) /\ (forall s, s ∈ used (r_batch r) <-> (mid < s <= r_seq r)%Z) /\
    (forall p, p ∈ r_live r ->
       part_of p ∈ fb_output (r_batch r) \/ part_of p ∈ in_flight y \/ in_log (ls_session_id lease) (ru_db y) (part_of p)).
Proof.
  intros He Hc Hr Hf r. destruct (run_at_work _ _ _ _ He Hc Hr Hf) as (base & mid & [_ Hlog Hfl [[Hd Hrange _] Hlive] _ _ _]).
  exists base, mid. split_and!; [done| |done|done|exact Hlive]. destruct (ru_recording y) as [[b ps]|]; [|done]. by destruct Hfl as [(H1 & H2 & _) _].
Qed.

(** ** Taking over *)

Definition event_response (e : RuntimeEvent) : option string :=
  match e with ResponseOutput _ rid _ => rid | _ => None end.

(** What two readers of the same stream must share to number it alike. *)
Record alike (ids : list string) (r1 r2 : reader) : Prop := Alike {
  al_seq : r_seq r1 = r_seq r2;
  al_positioned : forall id, id ∈ ids ->
    Py.in_strs id (r_positioned r1) = Py.in_strs id (r_positioned r2)
}.

(** Both show the same parts from here on. *)
Definition same_live (r1 r1' r2 r2' : reader) : Prop :=
  exists new, r_live r1' = (r_live r1 ++ new)%list /\ r_live r2' = (r_live r2 ++ new)%list.

Lemma same_live_quiet r1 r1' r2 r2' :
  r_live r1' = r_live r1 -> r_live r2' = r_live r2 -> same_live r1 r1' r2 r2'.
Proof. intros H1 H2. exists []. by rewrite H1, H2, !app_nil_r. Qed.

Lemma same_live_trans r1 r1' r1'' r2 r2' r2'' :
  same_live r1 r1' r2 r2' -> same_live r1' r1'' r2' r2'' -> same_live r1 r1'' r2 r2''.
Proof.
  intros (n1 & H1 & H2) (n2 & H3 & H4). exists (n1 ++ n2)%list.
  by rewrite H3, H4, H1, H2, !app_assoc.
Qed.

Lemma take_output_alike ids rid frame r1 r2 :
  alike ids r1 r2 -> (forall id, rid = Some id -> id ∈ ids) ->
  alike ids (take_output rid frame r1) (take_output rid frame r2) /\
  same_live r1 (take_output rid frame r1) r2 (take_output rid frame r2).
Proof.
  intros [Hs Hp] Hin. unfold take_output. destruct rid as [id|].
  2:{ split; [split; cbn; [by rewrite Hs|done]|]. eexists. cbn. rewrite Hs. by split. }
  rewrite (Hp id (Hin id eq_refl)).
  set (first := negb (Py.is_empty id) && negb (Py.in_strs id (r_positioned r2)) && positions_response frame).
  assert (Hm : forall r, r_live (if first then message_position KResponse id
                (with_positioned (id :: r_positioned r) r) else r) = r_live r) by (by destruct first).
  assert (Ha : alike ids
    (if first then message_position KResponse id (with_positioned (id :: r_positioned r1) r1) else r1)
    (if first then message_position KResponse id (with_positioned (id :: r_positioned r2) r2) else r2)).
  { destruct first; [|done]. split; [cbn; by rewrite Hs|]. intros id' Hid'.
    change (String.eqb id' id || Py.in_strs id' (r_positioned r1) =
            String.eqb id' id || Py.in_strs id' (r_positioned r2)). by rewrite Hp. }
  revert Ha. pose proof (Hm r1) as Hm1. pose proof (Hm r2) as Hm2. revert Hm1 Hm2.
  generalize (if first then message_position KResponse id (with_positioned (id :: r_positioned r1) r1) else r1).
  generalize (if first then message_position KResponse id (with_positioned (id :: r_positioned r2) r2) else r2).
  intros m2 m1 Hm1 Hm2 [Hs' Hp'].
  destruct (_ && negb (Py.in_strs id (r_texted m1))), (_ && negb (Py.in_strs id (r_texted m2)));
    (split; [split; cbn; [by rewrite Hs'|exact Hp']|]; eexists; cbn; rewrite Hm1, Hm2, Hs'; by split).
Qed.

Lemma take_end_alike ids c u r1 r2 r1' r2' :
  alike ids r1' r2' /\ same_live r1 r1' r2 r2' ->
  alike ids (take_end c u r1') (take_end c u r2') /\
  same_live r1 (take_end c u r1') r2 (take_end c u r2').
Proof. intros [[Hs Hp] Hl]. split; [by split; destruct c|by destruct c]. Qed.

Lemma take_alike ids e r1 r2 :
  alike ids r1 r2 -> (forall id, event_response e = Some id -> id ∈ ids) ->
  alike ids (take e r1) (take e r2) /\ same_live r1 (take e r1) r2 (take e r2).
Proof.
  intros Ha Hin. assert (Hpos : forall f, alike ids (fact f (with_seq (r_seq r1 + 1) r1))
    (fact f (with_seq (r_seq r2 + 1) r2))).
  { intros f. destruct Ha as [Hs Hp]. split; [cbn; by rewrite Hs|done]. }
  assert (Hfact : forall f, alike ids (fact f r1) (fact f r2)) by (intros f; by destruct Ha).
  destruct e; cbn [take event_cursor]; unfold message_position, close_interaction;
    rewrite ?(al_seq _ _ _ Ha) in *; apply take_end_alike;
    try (split; [first [apply Hfact|apply Hpos|by destruct Ha]|by apply same_live_quiet]).
  - apply take_end_alike. destruct (take_output_alike ids None
      (input_failed_part input_id failure) (fact (InputsFailed [input_id] failure) r1)
      (fact (InputsFailed [input_id] failure) r2)) as [H1 H2]; [by destruct Ha|done|by split].
  - by apply take_output_alike.
Qed.

(** a takeover numbers alike what it agrees on: two readers that stand at the same
    number, and that agree for every response the events write to on whether it was given
    its place already, show exactly the same parts under the same numbers as they read
    the same events. *)
Theorem takeover_numbers_alike events r1 r2 :
  r_seq r1 = r_seq r2 ->
  (forall id e, e ∈ events -> event_response e = Some id ->
     Py.in_strs id (r_positioned r1) = Py.in_strs id (r_positioned r2)) ->
  let r1' := fold_left (fun r e => take e r) events r1 in
  let r2' := fold_left (fun r e => take e r) events r2 in
  r_seq r1' = r_seq r2' /\ same_live r1 r1' r2 r2'.
Proof.
  intros Hs Hp. set (ids := omap event_response events).
  assert (Ha : alike ids r1 r2).
  { split; [done|]. intros id (e & He & Hid)%list_elem_of_omap. by eapply Hp. }
  assert (Hin : forall e id, e ∈ events -> event_response e = Some id -> id ∈ ids).
  { intros e id He Hid. apply list_elem_of_omap. eauto. }
  clear Hs Hp. revert r1 r2 Ha. generalize dependent ids. intros ids Hin.
  induction events as [|e events IH]; intros r1 r2 Ha; cbn [fold_left].
  - split; [by destruct Ha|by apply same_live_quiet].
  - destruct (take_alike ids e r1 r2 Ha) as [Ha' Hl]; [intros; eapply Hin; [left|done]|].
    destruct (IH ltac:(intros; eapply Hin; [by right|done]) _ _ Ha') as [Hs Hl'].
    split; [done|]. by eapply same_live_trans.
Qed.

(** Content of a response, read by a reader that gave the response its place, or by one that
    does not know of it. *)
Lemma reads_placed c id frame r :
  id <> "" -> positions_response frame = true ->
  r_live (take (ResponseOutput c (Some id) frame) r) =
    (r_live r ++ [MkLive (r_seq r + if Py.in_strs id (r_positioned r) then 1 else 2) (Some id) frame])%list.
Proof.
  intros Hid Hf. assert (He : Py.is_empty id = false) by (by destruct id).
  cbn [take event_cursor take_output]. unfold take_end, take_output. rewrite He, Hf, andb_true_r. cbn [negb andb].
  destruct (Py.in_strs id (r_positioned r)); cbn [negb].
  - by destruct c, (_ && _).
  - replace (r_seq r + 2)%Z with (r_seq r + 1 + 1)%Z by lia. by destruct c, (_ && _).
Qed.

(** C35: What a takeover renumbers.  A reader has read and recorded content of a response, in
    any run of its own in which no commit failed, and everything it read is in the log.  The
    reader that takes over resumes at the same number and reads the same content next; since
    [_positioned_responses] lives in one reader's memory, it reserves the response's place
    again, and shows and stores that content one number after the number under which the first
    reader shows it. *)
Theorem takeover_renumbers_placed lease lease' d0 n y c id frame :
  exists_where (fun s => ss_session_id s =s ls_session_id lease) (db_sessions d0) = true ->
  contiguous (ls_session_id lease) d0 n -> rtc reader_step (starts lease d0) y -> ru_failed y = false ->
  ru_recording y = None -> r_batch (ru_reader y) = empty_batch -> Py.in_strs id (r_positioned (ru_reader y)) = true ->
  exists_where (fun s => ss_session_id s =s ls_session_id lease) (db_sessions (ru_db y)) = true ->
  ls_session_id lease' = ls_session_id lease -> id <> "" -> positions_response frame = true ->
  exists m, contiguous (ls_session_id lease) (ru_db y) m /\
    r_live (take (ResponseOutput c (Some id) frame) (ru_reader y)) = (r_live (ru_reader y) ++ [MkLive (m + 1) (Some id) frame])%list /\
    let second := take (ResponseOutput c (Some id) frame) (start_reader lease' (ru_db y)) in
    r_live second = [MkLive (m + 2) (Some id) frame] /\ fb_output (r_batch second) = [MkPart (m + 2) (Some id) frame].
Proof.
  intros He Hc Hr Hf Hn Hb Hp He' Hl Hid Hfr. destruct (run_at_work _ _ _ _ He Hc Hr Hf) as (base & mid & [_ Hlog Hfl [[_ Hrange Hle] _] _ _ _]).
  rewrite Hn in Hfl. subst mid. rewrite Hb in Hrange.
  assert (Hs : r_seq (ru_reader y) = base).
  { destruct (decide (base = r_seq (ru_reader y))); [done|]. exfalso. apply (not_elem_of_nil (r_seq (ru_reader y))). apply Hrange. lia. }
  assert (Hs' : r_seq (start_reader lease' (ru_db y)) = base) by (apply start_seq; by rewrite Hl).
  exists base. split; [done|]. cbv zeta. rewrite !reads_placed, Hp, Hs, Hs' by done. split; [done|]. split; [done|].
  assert (Hemp : Py.is_empty id = false) by (by destruct id). cbn [take event_cursor]. unfold take_end, take_output.
  rewrite Hemp, Hfr. cbn [negb andb r_positioned start_reader Py.in_strs existsb].
  replace (base + 2)%Z with (base + 1 + 1)%Z by lia. destruct c, (_ && _); cbn; by rewrite <-?Hs'.
Qed.

(** ** Witnesses *)

Definition delta (text : string) : RuntimeEvent :=
  ResponseOutput None (Some "r1") [("type", VStr "text-delta"); ("delta", VStr text)].

Definition demo_start : RuntimeEvent := ResponseStarted None "r1" "input" ["i1"].

Definition demo_reader : reader := take (delta "a") (take demo_start (start_reader demo_lease demo_db2)).

(** The reader after it committed the first delta, and the store. *)
Definition demo_running : running :=
  show_ready 0 (end_commit 30 false (start_commit (ask_commit (demo_reader, []) (starts demo_lease demo_db2)))).
Definition demo_committed : reader * db := (ru_reader demo_running, ru_db demo_running).

Lemma demo_contiguous : contiguous "s1" demo_db2 0.
Proof.
  split; [lia|]. intros s. split; [|lia]. intros (o & Ho & _). by apply not_elem_of_nil in Ho.
Defined.

Lemma demo_run : rtc reader_step (starts demo_lease demo_db2) demo_running.
Proof.
  eapply rtc_l; [exact (reads_event _ [] demo_start)|]. eapply rtc_l; [exact (reads_event _ [] (delta "a"))|].
  eapply rtc_l; [apply asks|]. eapply rtc_l; [apply starts_commit|]. eapply rtc_l; [apply (ends_commit _ 30 false)|]. apply rtc_once, (shows _ 0).
Qed.

Lemma reader_log_contiguous_witness :
  ru_failed demo_running = false /\
  exists base, contiguous "s1" (snd demo_committed) base /\
    map op_seq (map part_of (r_live (fst demo_committed))) = [2]%Z.
Proof.
  split; [vm_compute; reflexivity|].
  destruct (reader_log_contiguous demo_lease demo_db2 0 demo_running) as (base & mid & Hc & _).
  - vm_compute. reflexivity.
  - exact demo_contiguous.
  - exact demo_run.
  - vm_compute. reflexivity.
  - exists base. split; [exact Hc|]. vm_compute. reflexivity.
Defined.

(** Outside of the theorem: a commit fails while another one waits for the lock.  The one that
    waits is shielded, so it goes on and records the parts read meanwhile, while those of the
    first are gone; the stored cursor is past them, so no reader reads them again. *)
Definition at_position (position : Z) (e : RuntimeEvent) : RuntimeEvent :=
  match e with
  | ResponseOutput _ rid frame => ResponseOutput (Some (MkCursor "g1" [("at", VInt position)])) rid frame
  | _ => e
  end.
Definition hear (e : RuntimeEvent) (y : running) : running := with_memory (read_event [] e (ru_reader y)) y.
Definition say (iid : string) (y : running) : running := ask_commit (refuse iid [] (ru_reader y)) y.
Definition failing (y : running) : running :=
  end_commit 31 false (start_commit (end_commit 30 true (say "i2" (hear (at_position 2 (delta "b"))
    (start_commit (ask_commit (ru_reader y, []) y)))))).
Definition before_failure : running := hear (at_position 1 (delta "a")) (hear demo_start (starts demo_lease demo_db2)).

Lemma failing_steps y : rtc reader_step y (failing y).
Proof.
  unfold failing. eapply rtc_l; [exact (asks y)|]. eapply rtc_l; [apply starts_commit|]. eapply rtc_l; [apply (reads_event _ [])|].
  eapply rtc_l; [apply (refuses _ "i2" [])|]. eapply rtc_l; [apply (ends_commit _ 30 true)|]. eapply rtc_l; [apply starts_commit|].
  apply rtc_once, (ends_commit _ 31 false).
Qed.

Lemma failed_commit_leaves_gap :
  rtc reader_step (starts demo_lease demo_db2) (failing before_failure) /\
  map ou_seq (db_output (ru_db (failing before_failure))) = [3; 4]%Z /\
  snd (resume_point "s1" (ru_db (failing before_failure))) = Some (cursor_as_json (MkCursor "g1" [("at", VInt 2)])).
Proof.
  split; [|split; vm_compute; reflexivity].
  eapply rtc_l; [exact (reads_event _ [] demo_start)|]. eapply rtc_l; [exact (reads_event _ [] (at_position 1 (delta "a")))|]. apply failing_steps.
Qed.

Lemma takeover_numbers_alike_witness :
  r_live (take (delta "x") (start_reader demo_lease demo_db2)) =
  r_live (take (delta "x") (start_reader (MkLease "s1" "b" 2) demo_db2)).
Proof.
  destruct (takeover_numbers_alike [delta "x"] (start_reader demo_lease demo_db2)
    (start_reader (MkLease "s1" "b" 2) demo_db2)) as [_ (new & H1 & H2)].
  - reflexivity.
  - intros id e _ _. reflexivity.
  - cbn [fold_left] in H1, H2. rewrite H1, H2. reflexivity.
Defined.

(** In the demo, the delta the first reader shows live as number 3 is number 4 to the
    second one, and the log keeps it there. *)
Lemma takeover_renumbers_placed_witness :
  exists m, contiguous "s1" (ru_db demo_running) m /\
    r_live (take (delta "b") (ru_reader demo_running)) =
      (r_live (ru_reader demo_running) ++ [MkLive (m + 1) (Some "r1") [("type", VStr "text-delta"); ("delta", VStr "b")]])%list /\
    let second := take (delta "b") (start_reader (MkLease "s1" "b" 2) (ru_db demo_running)) in
    r_live second = [MkLive (m + 2) (Some "r1") [("type", VStr "text-delta"); ("delta", VStr "b")]] /\
    fb_output (r_batch second) = [MkPart (m + 2) (Some "r1") [("type", VStr "text-delta"); ("delta", VStr "b")]].
Proof.
  apply (takeover_renumbers_placed demo_lease (MkLease "s1" "b" 2) demo_db2 0 demo_running None "r1");
    [vm_compute; reflexivity|exact demo_contiguous|exact demo_run|vm_compute; reflexivity..|discriminate|reflexivity].
Defined.

End Numbering.
