(* ===== verification/UiMessage.v ===== *)
(** [session_runtime/ui_message.py]: a response's stored chunks folded into the message a
    page shows, and what of a part a page may receive.  The Python builds part dicts and
    keeps references to them in its lanes; here a part is named by its index in the list
    of parts, which only grows while chunks are folded. *)

From S2P Require Import Prelude PyVal Schema Interaction SessionRepo.

Open Scope string_scope.

Module Ui.

(** ** Values *)

Definition type_is (s : string) (d : dict) : bool := Py.eqb (Py.get "type" d) (VStr s).

(** [engine/frame_translator.py: is_claude_diagnostic_part]. *)
Definition is_claude_diagnostic_part (part : dict) : bool :=
  type_is "data-raw-event" part &&
  match Py.get "data" part with
  | VDict data =>
      Py.eqb (Py.get "event_type" data) (VStr "claude_code.sdk") &&
      existsb (fun s => Py.eqb (Py.get "subtype" data) (VStr s))
        ["tool_progress"; "background_tasks_changed"; "compact_boundary"]
  | _ => false
  end.

(** ** The fold's state *)

(** A dict from keys to parts; [lane[k] = part]. *)
Definition lane := list (string * nat).

Definition lane_get (k : string) (l : lane) : option nat :=
  match List.find (fun e => fst e =s k) l with Some e => Some (snd e) | None => None end.

Fixpoint lane_set (k : string) (i : nat) (l : lane) : lane :=
  match l with
  | [] => [(k, i)]
  | (k', j) :: rest => if k' =s k then (k, i) :: rest else (k', j) :: lane_set k i rest
  end.

Record fold_state := FoldState {
  fs_parts : list dict;
  fs_metadata : dict;
  fs_texts : lane;
  fs_reasonings : lane;
  fs_tools : lane;
  fs_data : list ((string * string) * nat)
}.

Definition fold_start : fold_state := FoldState [] [] [] [] [] [].

Definition set_parts (ps : list dict) (st : fold_state) : fold_state :=
  FoldState ps (fs_metadata st) (fs_texts st) (fs_reasonings st) (fs_tools st) (fs_data st).
Definition set_metadata (m : dict) (st : fold_state) : fold_state :=
  FoldState (fs_parts st) m (fs_texts st) (fs_reasonings st) (fs_tools st) (fs_data st).
Definition set_lanes (t r : lane) (st : fold_state) : fold_state :=
  FoldState (fs_parts st) (fs_metadata st) t r (fs_tools st) (fs_data st).
Definition set_tools (t : lane) (st : fold_state) : fold_state :=
  FoldState (fs_parts st) (fs_metadata st) (fs_texts st) (fs_reasonings st) t (fs_data st).
Definition set_data (l : list ((string * string) * nat)) (st : fold_state) : fold_state :=
  FoldState (fs_parts st) (fs_metadata st) (fs_texts st) (fs_reasonings st) (fs_tools st) l.

(** [parts.append(part)]; the part's index is the list's length before. *)
Definition append (part : dict) (st : fold_state) : fold_state :=
  set_parts (fs_parts st ++ [part])%list st.

(** A change made through a reference to the part at index [i]. *)
Definition alter_part (f : dict -> dict) (i : nat) (st : fold_state) : fold_state :=
  set_parts (alter f i (fs_parts st)) st.

(** ** One chunk *)

Definition key_of (k : string) (chunk : dict) : string := Py.str_or_empty (Py.get k chunk).

Definition new_tool (chunk : dict) (call_id : string) : dict :=
  let name := key_of "toolName" chunk in
  if Py.truthy (Py.get "dynamic" chunk)
  then [("type", VStr "dynamic-tool"); ("toolCallId", VStr call_id);
        ("state", VStr "input-streaming"); ("input", VNone); ("toolName", VStr name)]
  else [("type", VStr ("tool-" ++ name)); ("toolCallId", VStr call_id);
        ("state", VStr "input-streaming"); ("input", VNone)].

(** The nested [tool(chunk)]: the call's part, created on first sight. *)
Definition tool (chunk : dict) (st : fold_state) : fold_state * nat :=
  let call_id := key_of "toolCallId" chunk in
  match lane_get call_id (fs_tools st) with
  | Some i => (st, i)
  | None =>
      let i := length (fs_parts st) in
      (append (new_tool chunk call_id) (set_tools (lane_set call_id i (fs_tools st)) st), i)
  end.

(** [tool(chunk).update(..)]. *)
Definition update_tool (chunk fields : dict) (st : fold_state) : fold_state :=
  let '(st', i) := tool chunk st in alter_part (fun p => Py.update p fields) i st'.

Definition new_streaming (chunk : dict) (type : string) : dict :=
  ([("type", VStr type); ("text", VStr ""); ("state", VStr "streaming")] ++
   match Py.get "providerMetadata" chunk with
   | VDict m => [("providerMetadata", VDict m)]
   | _ => []
   end)%list.

Definition add_delta (delta : string) (part : dict) : dict :=
  Py.set "text" (VStr (Py.str (Py.get "text" part) ++ delta)) part.

Definition at_lane (l : lane) (k : string) (f : dict -> dict) (st : fold_state) : fold_state :=
  match lane_get k l with Some i => alter_part f i st | None => st end.

(** The approval a [tool-approval-response] answers. *)
Definition answer_approval (chunk part : dict) : dict :=
  match Py.get "approval" part with
  | VDict approval =>
      if Py.eqb (Py.get "id" approval) (Py.get "approvalId" chunk)
      then
        let approval1 := Py.set "approved" (Py.get "approved" chunk) approval in
        let approval2 := if Py.truthy (Py.get "reason" chunk)
                         then Py.set "reason" (Py.get "reason" chunk) approval1 else approval1 in
        Py.set "state" (VStr "approval-responded") (Py.set "approval" (VDict approval2) part)
      else part
  | _ => part
  end.

Definition data_get (k : string * string) (l : list ((string * string) * nat)) : option nat :=
  match List.find (fun e => (fst (fst e) =s fst k) && (snd (fst e) =s snd k)) l with
  | Some e => Some (snd e)
  | None => None
  end.

(** The branch of a [data-*] chunk that is not transient. *)
Definition fold_data (kind : string) (chunk : dict) (st : fold_state) : res fold_state :=
  let data := Py.get "data" chunk in
  let part := [("type", VStr kind); ("data", data)] in
  part_id ← (if kind =s "data-interaction" then Py.vitem "interaction_id" data
             else Ok (Py.get "id" chunk));
  match part_id with
  | VNone => Ok (append part st)
  | _ =>
      let part' := Py.set "id" part_id part in
      let key := (kind, Py.str part_id) in
      match data_get key (fs_data st) with
      | Some i => Ok (alter_part (fun p => Py.set "data" data p) i st)
      | None => Ok (append part' (set_data ((key, length (fs_parts st)) :: fs_data st) st))
      end
  end.

Definition start_part (text : bool) (chunk : dict) (st : fold_state) : fold_state :=
  let i := length (fs_parts st) in
  let id := key_of "id" chunk in
  append (new_streaming chunk (if text then "text" else "reasoning"))
    (if text then set_lanes (lane_set id i (fs_texts st)) (fs_reasonings st) st
     else set_lanes (fs_texts st) (lane_set id i (fs_reasonings st)) st).

(** The body of the loop over chunks. *)
Definition fold_chunk (st : fold_state) (chunk : dict) : res fold_state :=
  if is_claude_diagnostic_part chunk then Ok st
  else
    let kind := key_of "type" chunk in
    let kind_is k := kind =s k in
    if kind_is "start" || kind_is "finish" || kind_is "message-metadata" then
      Ok (match Py.get "messageMetadata" chunk with
          | VDict m => set_metadata (Py.update (fs_metadata st) m) st
          | _ => st
          end)
    else if kind_is "start-step" then Ok (append [("type", VStr "step-start")] st)
    else if kind_is "finish-step" then Ok (set_lanes [] [] st)
    else if kind_is "text-start" then Ok (start_part true chunk st)
    else if kind_is "reasoning-start" then Ok (start_part false chunk st)
    else if kind_is "text-delta" then
      Ok (at_lane (fs_texts st) (key_of "id" chunk) (add_delta (key_of "delta" chunk)) st)
    else if kind_is "reasoning-delta" then
      Ok (at_lane (fs_reasonings st) (key_of "id" chunk) (add_delta (key_of "delta" chunk)) st)
    else if kind_is "text-end" then
      Ok (at_lane (fs_texts st) (key_of "id" chunk) (Py.set "state" (VStr "done")) st)
    else if kind_is "reasoning-end" then
      Ok (at_lane (fs_reasonings st) (key_of "id" chunk) (Py.set "state" (VStr "done")) st)
    else if kind_is "tool-input-start" then Ok (fst (tool chunk st))
    else if kind_is "tool-input-available" then
      Ok (update_tool chunk [("state", VStr "input-available"); ("input", Py.get "input" chunk)] st)
    else if kind_is "tool-input-error" then
      Ok (update_tool chunk [("state", VStr "output-error"); ("input", Py.get "input" chunk);
                             ("errorText", VStr (key_of "errorText" chunk))] st)
    else if kind_is "tool-approval-request" then
      Ok (at_lane (fs_tools st) (key_of "toolCallId" chunk)
            (fun p => Py.update p [("state", VStr "approval-requested");
               ("approval", VDict [("id", Py.get "approvalId" chunk)])]) st)
    else if kind_is "tool-approval-response" then
      Ok (fold_left (fun st e => alter_part (answer_approval chunk) (snd e) st) (fs_tools st) st)
    else if kind_is "tool-output-available" then
      Ok (update_tool chunk [("state", VStr "output-available"); ("output", Py.get "output" chunk)] st)
    else if kind_is "tool-output-error" then
      Ok (update_tool chunk [("state", VStr "output-error");
                             ("errorText", VStr (key_of "errorText" chunk))] st)
    else if kind_is "tool-output-denied" then
      Ok (update_tool chunk [("state", VStr "output-denied")] st)
    else if kind_is "source-url" || kind_is "source-document" || kind_is "file" then Ok (append chunk st)
    else if Py.startswith "data-" kind then
      if Py.is_true (Py.get "transient" chunk) then Ok st else fold_data kind chunk st
    else Ok st.

(** ** Finishing *)

Record message := Message {
  m_id : string;
  m_role : string;
  m_parts : list dict;
  m_metadata : dict
}.

(** [set(metadata.get("retracted_part_ids") or ())]. *)
Definition retracted_ids (metadata : dict) : res (list val) :=
  ids ← Interaction.iter_or_empty (Py.get "retracted_part_ids" metadata);
  if forallb Py.hashable ids then Ok ids else Raise TypeError.

(** [d.get(k, {})]. *)
Definition get_dict (k : string) (v : val) : res val :=
  match v with
  | VDict d => Ok (default (VDict []) (Py.lookup k d))
  | _ => Raise AttributeError
  end.

Definition keeps (retracted : list val) (part : dict) : res bool :=
  type ← Py.item "type" part;
  if negb (Py.eqb type (VStr "text") || Py.eqb type (VStr "reasoning")) then Ok true
  else
    astrabox ← get_dict "astrabox" (default (VDict []) (Py.lookup "providerMetadata" part));
    part_id ← Py.vget "part_id" astrabox;
    if Py.hashable part_id then Ok (negb (existsb (Py.eqb part_id) retracted))
    else Raise TypeError.

(** The parts kept, each with the index it was folded under. *)
Fixpoint keep_parts (retracted : list val) (parts : list (nat * dict)) : res (list (nat * dict)) :=
  match parts with
  | [] => Ok []
  | p :: rest =>
      kept ← keeps retracted (snd p);
      rest' ← keep_parts retracted rest;
      Ok (if kept : bool then p :: rest' else rest')
  end.

Definition streaming (part : dict) : bool := Py.eqb (Py.get "state" part) (VStr "streaming").

(** [open_parts]: the streaming parts still in a lane, by their index. *)
Definition open_parts (st : fold_state) : list (nat * string) :=
  map (fun e => (snd e, fst e))
    (List.filter (fun e => match fs_parts st !! snd e with Some p => streaming p | None => false end)
       (fs_texts st ++ fs_reasonings st)%list).

(** A comprehension keeps the last entry of a key. *)
Definition open_id (i : nat) (l : list (nat * string)) : option string :=
  match List.find (fun e => (fst e =? i)%nat) (rev l) with Some e => Some (snd e) | None => None end.

Definition continuation (open : list (nat * string)) (parts : list (nat * dict)) : list val :=
  omap (fun e => let '(index, (i, _)) := e in
          (fun id => VDict [("index", VInt (Z.of_nat index)); ("id", VStr id)]) <$> open_id i open)
    (imap pair parts).

Definition settle (part : dict) : dict :=
  if streaming part then Py.set "state" (VStr "done") part else part.

(** [fold_message]. *)
Definition fold_message (message_id : string) (chunks : list dict) : res message :=
  st ← foldM fold_chunk fold_start chunks;
  retracted ← retracted_ids (fs_metadata st);
  parts ← match retracted with
          | [] => Ok (imap pair (fs_parts st))
          | _ => keep_parts retracted (imap pair (fs_parts st))
          end;
  let open := open_parts st in
  let metadata := match open with
                  | [] => fs_metadata st
                  | _ => Py.set "continuation_parts" (VList (continuation open parts)) (fs_metadata st)
                  end in
  Ok (Message message_id "assistant" (map (fun p => settle (snd p)) parts) metadata).

(** ** What a page receives *)

Definition ENGINE_CHILD_REFS : list string := ["engineRef"; "parentEngineRef"; "controlRef"].

(** A sub-agent's part without the engine's handles. *)
Definition hide_engine_refs (public : dict) : dict :=
  match type_is "data-subagent" public, Py.get "data" public with
  | true, VDict data =>
      Py.set "data" (VDict (List.filter (fun kv => negb (Py.in_strs (fst kv) ENGINE_CHILD_REFS)) data))
        public
  | _, _ => public
  end.

Definition public_part (part : dict) (shared : bool) : res (option dict) :=
  if is_claude_diagnostic_part part then Ok None
  else
    let public := hide_engine_refs
      (List.filter (fun kv => negb (Py.startswith "__" (fst kv))) part) in
    if type_is "data-interaction" public then
      data ← Interaction.public_interaction_view (Py.get "data" public) (negb shared);
      match data with
      | None => Ok None
      | Some view =>
          iid ← Py.item "interaction_id" view;
          Ok (Some (Py.set "data" (VDict view) (Py.set "id" iid public)))
      end
    else Ok (Some public).

(** ** Lemmas *)

Lemma eqb_str v s : Py.eqb v (VStr s) = true <-> v = VStr s.
Proof.
  destruct v; cbn; try (split; [discriminate|intros [=]]).
  rewrite String.eqb_eq. split; [by intros ->|by intros [= ->]].
Qed.

Lemma type_is_true s d : type_is s d = true <-> Py.get "type" d = VStr s.
Proof. apply eqb_str. Qed.

Lemma elem_of_keys_filter f (d : dict) k :
  k ∈ Py.keys (List.filter f d) -> exists v, (k, v) ∈ d /\ f (k, v) = true.
Proof.
  unfold Py.keys. intros Hk. apply list_elem_of_fmap in Hk as ([k' v] & -> & Hin).
  apply list_elem_of_In, filter_In in Hin as [Hin Hf]. apply list_elem_of_In in Hin. eauto.
Qed.

(** What folding a chunk never changes of a part: what it is and which call it shows. *)
Definition part_identity (p : dict) : val * val := (Py.get "type" p, Py.get "toolCallId" p).

Definition keeps_identity (f : dict -> dict) : Prop := forall p, part_identity (f p) = part_identity p.

Lemma set_identity k v : k <> "type" -> k <> "toolCallId" -> keeps_identity (Py.set k v).
Proof. intros H1 H2 p. unfold part_identity. by rewrite !get_set_ne by auto. Qed.

Lemma add_delta_identity delta : keeps_identity (add_delta delta).
Proof. intros p. by apply set_identity. Qed.

Lemma update_identity fields :
  Forall (fun kv => fst kv <> "type" /\ fst kv <> "toolCallId") fields ->
  keeps_identity (fun p => Py.update p fields).
Proof.
  unfold Py.update. induction 1 as [|[k v] fields [H1 H2] _ IH]; intros p; [done|]. cbn.
  rewrite IH. by apply set_identity.
Qed.

Lemma answer_identity chunk : keeps_identity (answer_approval chunk).
Proof.
  intros p. unfold answer_approval. destruct (Py.get "approval" p); try done.
  destruct (Py.eqb _ _); [|done]. rewrite set_identity by done. by apply set_identity.
Qed.

Lemma alter_identity f i (l : list dict) :
  keeps_identity f -> map part_identity (alter f i l) = map part_identity l.
Proof.
  intros Hf. revert i. induction l as [|p l IH]; intros [|i]; cbn; [done..| |]; f_equal; auto.
Qed.

(** The identities of the parts a state has built. *)
Definition identities (st : fold_state) : list (val * val) := map part_identity (fs_parts st).

(** The tool lane names each call once, by the part that shows it. *)
Definition tools_ok (st : fold_state) : Prop :=
  NoDup (map fst (fs_tools st)) /\ NoDup (map snd (fs_tools st)) /\
  forall k i, (k, i) ∈ fs_tools st -> exists v, identities st !! i = Some (v, VStr k).

Record fold_step (st st' : fold_state) : Prop := FoldStep {
  fst_prefix : identities st `prefix_of` identities st';
  fst_tools : tools_ok st -> tools_ok st';
  fst_calls : map fst (fs_tools st) `prefix_of` map fst (fs_tools st')
}.

#[export] Instance fold_step_preorder : PreOrder fold_step.
Proof.
  split; [by split|]. intros x y z [] []. split; [by etransitivity|auto|by etransitivity].
Qed.

(** Steps that leave the tool lane alone and rewrite parts in place, or add some. *)
Lemma step_same_tools st st' :
  identities st `prefix_of` identities st' -> fs_tools st' = fs_tools st -> fold_step st st'.
Proof.
  intros Hp Ht. split; [done| |by rewrite Ht]. intros (H1 & H2 & H3). unfold tools_ok.
  rewrite Ht. split; [done|]. split; [done|]. intros k i Hin. destruct (H3 k i Hin) as [v Hv].
  exists v. by eapply prefix_lookup_Some.
Qed.

Lemma step_append part st : fold_step st (append part st).
Proof. apply step_same_tools; [|done]. unfold identities. cbn. rewrite map_app. by apply prefix_app_r. Qed.

Lemma step_alter f i st : keeps_identity f -> fold_step st (alter_part f i st).
Proof. intros Hf. apply step_same_tools; [|done]. unfold identities. cbn. by rewrite alter_identity. Qed.

Lemma step_at_lane l k f st : keeps_identity f -> fold_step st (at_lane l k f st).
Proof. intros Hf. unfold at_lane. destruct (lane_get k l); [by apply step_alter|reflexivity]. Qed.

Lemma lane_get_none k l : lane_get k l = None -> k ∉ map fst l.
Proof.
  unfold lane_get. destruct (List.find _ l) as [e|] eqn:E; [done|]. intros _ Hin.
  apply list_elem_of_fmap in Hin as (e & -> & He). apply list_elem_of_In in He.
  apply (find_none _ _ E) in He. by rewrite String.eqb_refl in He.
Qed.

Lemma lane_set_new k i l : k ∉ map fst l -> lane_set k i l = (l ++ [(k, i)])%list.
Proof.
  induction l as [|[k' j] l IH]; cbn; [done|]. intros Hni.
  destruct (String.eqb_spec k' k) as [->|]; [destruct Hni; by left|]. rewrite IH; [done|].
  intros Hin. apply Hni. by right.
Qed.

Lemma step_tool chunk st : fold_step st (fst (tool chunk st)).
Proof.
  unfold tool. destruct (lane_get _ _) as [i|] eqn:E; [reflexivity|]. cbn [fst].
  pose proof (lane_get_none _ _ E) as Hni. rewrite lane_set_new by done.
  set (call := key_of "toolCallId" chunk) in *.
  assert (Hnew : part_identity (new_tool chunk call) = (Py.get "type" (new_tool chunk call), VStr call))
    by (unfold new_tool; by destruct (Py.truthy _)).
  split.
  - unfold identities. cbn. rewrite map_app. by apply prefix_app_r.
  - intros (H1 & H2 & H3). unfold tools_ok, identities. cbn. rewrite !map_app. cbn. split; [|split].
    + apply NoDup_app. split; [done|]. split; [|apply NoDup_singleton].
      intros x Hx ->%list_elem_of_singleton. done.
    + apply NoDup_app. split; [done|]. split; [|apply NoDup_singleton].
      intros x Hx ->%list_elem_of_singleton. apply list_elem_of_fmap in Hx as ([k i] & Hi & Hin).
      cbn in Hi. subst i. destruct (H3 _ _ Hin) as [v Hv]. apply lookup_lt_Some in Hv.
      unfold identities in Hv. rewrite length_map in Hv. lia.
    + intros k i [Hin|Hin%list_elem_of_singleton]%elem_of_app.
      * destruct (H3 _ _ Hin) as [v Hv]. exists v. by apply lookup_app_l_Some.
      * injection Hin as -> ->. rewrite Hnew. eexists. rewrite lookup_app_r; rewrite length_map; [|done].
        by rewrite Nat.sub_diag.
  - cbn. rewrite map_app. by apply prefix_app_r.
Qed.

Lemma step_update_tool chunk fields st :
  Forall (fun kv => fst kv <> "type" /\ fst kv <> "toolCallId") fields ->
  fold_step st (update_tool chunk fields st).
Proof.
  intros Hf. unfold update_tool. pose proof (step_tool chunk st) as Ht.
  destruct (tool chunk st) as [st' i]. cbn in Ht. etransitivity; [exact Ht|].
  by apply step_alter, update_identity.
Qed.

Lemma step_fold {A} (f : fold_state -> A -> fold_state) l st :
  (forall st x, fold_step st (f st x)) -> fold_step st (fold_left f l st).
Proof.
  intros Hf. revert st. induction l as [|x l IH]; intros st; [reflexivity|]. cbn.
  etransitivity; [apply Hf|apply IH].
Qed.

Lemma step_data kind chunk st st' : fold_data kind chunk st = Ok st' -> fold_step st st'.
Proof.
  unfold fold_data. intros (part_id & _ & H)%bind_ok.
  assert (Hset : forall v, part_identity (Py.set "id" v [("type", VStr kind); ("data", Py.get "data" chunk)])
    = part_identity [("type", VStr kind); ("data", Py.get "data" chunk)]) by done.
  destruct part_id; try (by injection H as <-; apply step_append);
    (destruct (data_get _ _); injection H as <-;
      [by apply step_alter, set_identity|
       etransitivity; [|apply step_append]; by apply step_same_tools]).
Qed.

Ltac fold_fields := repeat constructor; discriminate.

(** One chunk only adds parts at the end and fills in the ones it names. *)
Lemma fold_chunk_step st chunk st' : fold_chunk st chunk = Ok st' -> fold_step st st'.
Proof.
  unfold fold_chunk. destruct (is_claude_diagnostic_part chunk); [by intros [= <-]|].
  intros H. repeat match type of H with
  | (if ?c then _ else _) = _ => destruct c
  end; try (by eapply step_data); try (apply Ok_inj in H; subst st'); try reflexivity.
  - destruct (Py.get "messageMetadata" chunk); try reflexivity. by apply step_same_tools.
  - apply step_append.
  - by apply step_same_tools.
  - etransitivity; [|apply step_append]. by apply step_same_tools.
  - etransitivity; [|apply step_append]. by apply step_same_tools.
  - apply step_at_lane, add_delta_identity.
  - apply step_at_lane, add_delta_identity.
  - by apply step_at_lane, set_identity.
  - by apply step_at_lane, set_identity.
  - apply step_tool.
  - apply step_update_tool. fold_fields.
  - apply step_update_tool. fold_fields.
  - apply step_at_lane, update_identity. fold_fields.
  - apply step_fold. intros s e. apply step_alter, answer_identity.
  - apply step_update_tool. fold_fields.
  - apply step_update_tool. fold_fields.
  - apply step_update_tool. fold_fields.
  - apply step_append.
Qed.

Lemma fold_chunks_step chunks st st' : foldM fold_chunk st chunks = Ok st' -> fold_step st st'.
Proof.
  apply (foldM_inv (fold_step st)); [reflexivity|]. intros a x a' Ha Hx.
  etransitivity; [exact Ha|by eapply fold_chunk_step].
Qed.

(** ** Properties *)

(** What a page receives of one part. *)
Definition safe_part (shared : bool) (out : dict) : Prop :=
  Forall (fun k => Py.startswith "__" k = false) (Py.keys out) /\
  (Py.get "type" out = VStr "data-subagent" -> forall data, Py.get "data" out = VDict data ->
     Forall (fun k => k ∉ ENGINE_CHILD_REFS) (Py.keys data)) /\
  (Py.get "type" out = VStr "data-interaction" ->
     exists view, Py.get "data" out = VDict view /\ Py.keys view ⊆ Interaction.view_keys /\
       (shared = true -> "raw_input" ∉ Py.keys view)).

Lemma view_keys_ok v include out :
  Interaction.public_interaction_view v include = Ok (Some out) ->
  Py.keys out ⊆ Interaction.view_keys /\ (include = false -> "raw_input" ∉ Py.keys out).
Proof.
  destruct v as [| | | | | |d]; try done. intros H.
  assert (Hk : forall k, k ∈ Py.keys out -> k ∈ Interaction.view_keys /\ (include = false -> k <> "raw_input"))
    by (intros k; by apply Interaction.view_keys_closed with (v := d)).
  split; [intros k Hin; by apply Hk|]. intros Hi Hin. by destruct (Hk _ Hin) as [_ H2]; apply (H2 Hi).
Qed.

Lemma private_filtered part :
  Forall (fun k => Py.startswith "__" k = false)
    (Py.keys (List.filter (fun kv => negb (Py.startswith "__" (fst kv))) part)).
Proof.
  apply Forall_forall. intros k (v & _ & Hf)%elem_of_keys_filter. by apply negb_true_iff in Hf.
Qed.

Lemma Forall_keys_set (P : string -> Prop) k v d :
  P k -> Forall P (Py.keys d) -> Forall P (Py.keys (Py.set k v d)).
Proof.
  rewrite !Forall_forall. intros Hk Hd k' [->|Hin]%elem_of_keys_set; [done|]. by apply Hd.
Qed.

(** C30: nothing private reaches a page: a part as a page receives it has no
    [__]-prefixed key, a sub-agent's part carries none of the engine's handles, and an
    interaction's part carries only the contract's public view, without the tool's input
    in a shared conversation. *)
Theorem public_part_safe part shared out :
  public_part part shared = Ok (Some out) -> safe_part shared out.
Proof.
  unfold public_part. destruct (is_claude_diagnostic_part part); [done|].
  set (public := List.filter _ part). set (public1 := hide_engine_refs public).
  assert (H1 : Forall (fun k => Py.startswith "__" k = false) (Py.keys public1)).
  { unfold public1, hide_engine_refs. destruct (type_is _ _); [|apply private_filtered].
    destruct (Py.get "data" public); try apply private_filtered.
    apply Forall_keys_set; [done|apply private_filtered]. }
  assert (Ht : Py.get "type" public1 = Py.get "type" public).
  { unfold public1, hide_engine_refs. destruct (type_is _ _); [|done].
    destruct (Py.get "data" public); try done. by apply get_set_ne. }
  assert (H2 : Py.get "type" public1 = VStr "data-subagent" -> forall data, Py.get "data" public1 = VDict data ->
     Forall (fun k => k ∉ ENGINE_CHILD_REFS) (Py.keys data)).
  { rewrite Ht. intros Hsub data. unfold public1, hide_engine_refs.
    rewrite (proj2 (type_is_true _ _) Hsub). destruct (Py.get "data" public) eqn:Ed; try (by rewrite Ed).
    rewrite get_set_eq. intros [= <-]. apply Forall_forall.
    intros k (v & _ & Hf)%elem_of_keys_filter Hin. apply negb_true_iff in Hf.
    apply in_strs_true in Hin. cbn in Hin, Hf. congruence. }
  destruct (type_is "data-interaction" public1) eqn:Ei.
  - intros (data & Hv & H)%bind_ok. destruct data as [view|]; [|discriminate].
    apply bind_ok in H as (iid & _ & [= <-]). apply view_keys_ok in Hv as [Hk Hraw].
    apply type_is_true in Ei. split; [|split].
    + do 2 (apply Forall_keys_set; [done|]). exact H1.
    + rewrite !get_set_ne by done. congruence.
    + intros _. exists view. rewrite get_set_eq. split; [done|]. split; [done|].
      intros ->. by apply Hraw.
  - intros [= <-]. split; [done|]. split; [done|]. intros Hi%type_is_true. congruence.
Qed.

(** a response's history only grows as its chunks arrive: with more chunks the parts
    already folded keep their place, their kind and the tool call they show, and a tool
    call never has two parts. *)
Theorem fold_grows chunks more st st' :
  foldM fold_chunk fold_start chunks = Ok st ->
  foldM fold_chunk fold_start (chunks ++ more)%list = Ok st' ->
  identities st `prefix_of` identities st' /\
  NoDup (map fst (fs_tools st')) /\ NoDup (map snd (fs_tools st')) /\
  (forall call i, (call, i) ∈ fs_tools st' -> exists type, identities st' !! i = Some (type, VStr call)).
Proof.
  intros Hc. rewrite foldM_app, Hc. cbn. intros Hm.
  destruct (fold_chunks_step _ _ _ Hc) as [_ Ht _]. destruct (fold_chunks_step _ _ _ Hm) as [Hp Ht' _].
  split; [done|]. apply Ht', Ht. split; [constructor|]. split; [constructor|].
  intros k i ?%not_elem_of_nil. done.
Qed.

(** ** A text block *)

Definition text_delta (id delta : string) : dict :=
  [("type", VStr "text-delta"); ("id", VStr id); ("delta", VStr delta)].
Definition text_start (id : string) : dict := [("type", VStr "text-start"); ("id", VStr id)].
Definition text_end (id : string) : dict := [("type", VStr "text-end"); ("id", VStr id)].

Definition text_part (text state : string) : dict :=
  [("type", VStr "text"); ("text", VStr text); ("state", VStr state)].

Lemma str_or_empty_str s : Py.str_or_empty (VStr s) = s.
Proof. unfold Py.str_or_empty, Py.por. cbn. by destruct (Py.is_empty s) eqn:E; [apply is_empty_true in E as ->|]. Qed.

Lemma lane_get_set_eq k i l : lane_get k (lane_set k i l) = Some i.
Proof.
  unfold lane_get. induction l as [|[k' j] l IH]; cbn; [by rewrite String.eqb_refl|].
  destruct (String.eqb_spec k' k) as [->|Hne]; cbn; [by rewrite String.eqb_refl|].
  apply String.eqb_neq in Hne. by rewrite Hne.
Qed.

Lemma alter_last (f : dict -> dict) ps p : alter f (length ps) (ps ++ [p])%list = (ps ++ [f p])%list.
Proof. induction ps as [|q ps IH]; cbn; [done|]. by rewrite IH. Qed.

Lemma fold_text_delta st id d :
  fold_chunk st (text_delta id d) = Ok (at_lane (fs_texts st) id (add_delta d) st).
Proof.
  change (Ok (at_lane (fs_texts st) (Py.str_or_empty (VStr id)) (add_delta (Py.str_or_empty (VStr d))) st)
          = Ok (at_lane (fs_texts st) id (add_delta d) st)).
  by rewrite !str_or_empty_str.
Qed.

Lemma string_app_assoc (a b c : string) : (a ++ b) ++ c = a ++ (b ++ c).
Proof.
  induction a as [|x a IH]; [done|].
  change (String x ((a ++ b) ++ c) = String x (a ++ (b ++ c))). by rewrite IH.
Qed.

Lemma string_app_nil (a : string) : a ++ "" = a.
Proof. induction a as [|x a IH]; [done|]. change (String x (a ++ "") = String x a). by rewrite IH. Qed.

Lemma concat_cons d deltas : String.concat "" (d :: deltas) = d ++ String.concat "" deltas.
Proof. destruct deltas as [|e deltas]; cbn; [by rewrite string_app_nil|done]. Qed.

Lemma fold_text_deltas id deltas ps m t r tools data text :
  lane_get id t = Some (length ps) ->
  foldM fold_chunk (FoldState (ps ++ [text_part text "streaming"])%list m t r tools data)
    (map (text_delta id) deltas)
  = Ok (FoldState (ps ++ [text_part (text ++ String.concat "" deltas) "streaming"])%list m t r tools data).
Proof.
  intros Hl. revert text. induction deltas as [|d deltas IH]; intros text.
  - cbn. by rewrite string_app_nil.
  - cbn [map foldM]. rewrite fold_text_delta. cbn [fs_texts]. unfold at_lane. rewrite Hl.
    unfold alter_part, set_parts. cbn [fs_parts fs_metadata fs_texts fs_reasonings fs_tools fs_data].
    rewrite alter_last. change (add_delta d (text_part text "streaming"))
      with (text_part (text ++ d) "streaming").
    rewrite IH, concat_cons. by rewrite string_app_assoc.
Qed.

(** a streamed text is shown whole: whatever was folded before, a text block's chunks
    add exactly one part, whose text is its deltas in order and which is done; nothing
    else of the message changes. *)
Theorem text_block_folds st id deltas :
  exists lanes,
    foldM fold_chunk st ([text_start id] ++ map (text_delta id) deltas ++ [text_end id])%list =
    Ok (set_lanes lanes (fs_reasonings st) (append (text_part (String.concat "" deltas) "done") st)).
Proof.
  destruct st as [ps m t r tools data]. exists (lane_set id (length ps) t).
  cbn [app foldM].
  assert (Hs : fold_chunk (FoldState ps m t r tools data) (text_start id) =
    Ok (FoldState (ps ++ [text_part "" "streaming"])%list m
          (lane_set (Py.str_or_empty (VStr id)) (length ps) t) r tools data)) by done.
  rewrite Hs, str_or_empty_str, foldM_app.
  rewrite fold_text_deltas by apply lane_get_set_eq. cbn [mbind res_bind foldM].
  match goal with |- context [fold_chunk ?s0 (text_end id)] =>
    assert (He : fold_chunk s0 (text_end id) = Ok (at_lane (fs_texts s0)
       (Py.str_or_empty (VStr id)) (Py.set "state" (VStr "done")) s0)) by done end.
  rewrite He, str_or_empty_str. cbn [fs_texts]. unfold at_lane. rewrite lane_get_set_eq.
  unfold alter_part, set_parts. cbn [fs_parts fs_metadata fs_texts fs_reasonings fs_tools fs_data].
  by rewrite alter_last.
Qed.

(** ** Witnesses *)

Definition demo_part : dict :=
  [("type", VStr "data-subagent"); ("__adapter", VInt 1);
   ("data", VDict [("id", VStr "c1"); ("engineRef", VStr "native")])].

Lemma public_part_safe_witness :
  safe_part true [("type", VStr "data-subagent"); ("data", VDict [("id", VStr "c1")])].
Proof. apply (public_part_safe demo_part true). vm_compute. reflexivity. Defined.

Definition demo_call (kind : string) : dict :=
  [("type", VStr kind); ("toolCallId", VStr "t1"); ("toolName", VStr "Bash")].

Definition demo_state (chunks : list dict) : fold_state :=
  match foldM fold_chunk fold_start chunks with Ok st => st | Raise _ => fold_start end.

Lemma fold_grows_witness :
  identities (demo_state [demo_call "tool-input-start"]) `prefix_of`
  identities (demo_state [demo_call "tool-input-start"; text_start "x"; demo_call "tool-output-available"]).
Proof.
  refine (proj1 (fold_grows [demo_call "tool-input-start"] [text_start "x"; demo_call "tool-output-available"]
    _ _ _ _)); vm_compute; reflexivity.
Defined.

End Ui.
