(* ===== verification/Follow.v ===== *)
(** [session_runtime/feed.py] and [session_runtime/follow.py]: a subscriber's queue of
    live parts and notices, and the page's view of the output that reads it: first what
    the log holds, then what happens next.  The listening task and its diagnostics are
    left out. *)

From stdpp Require Import sorting.
From S2P Require Import Prelude PyVal Schema Interaction SessionRepo SessionRecord UiMessage DemoStore SessionReads RepoHistory RecordFacts Reader ReaderFacts.

Open Scope string_scope.

Module Follow.
Import Repo Rec Ui Reads Reader Numbering.

(** ** One subscriber's queue *)

Definition LIVE_QUEUE_LIMIT : nat := Z.to_nat 2000.

Inductive feed_item :=
| FLive (p : LivePart)
| FNotice (kind : string) (seq : Z)
| FResync.

Record subscription := Subscription {
  sb_session_id : string;
  sb_queue : list feed_item;
  sb_live : nat;
  sb_dropped : bool
}.

Definition put_live (limit : nat) (p : LivePart) (s : subscription) : subscription :=
  if (limit <=? sb_live s)%nat then
    if sb_dropped s then s
    else Subscription (sb_session_id s) (sb_queue s ++ [FResync])%list (sb_live s) true
  else Subscription (sb_session_id s) (sb_queue s ++ [FLive p])%list (S (sb_live s)) (sb_dropped s).

Definition put (item : feed_item) (s : subscription) : subscription :=
  Subscription (sb_session_id s) (sb_queue s ++ [item])%list (sb_live s) (sb_dropped s).

(** [get]; [None] while the queue is empty, when the caller waits. *)
Definition get (s : subscription) : option (feed_item * subscription) :=
  match sb_queue s with
  | [] => None
  | item :: rest =>
      Some (item, match item with
                  | FLive _ => Subscription (sb_session_id s) rest (sb_live s - 1) (sb_dropped s)
                  | FResync => Subscription (sb_session_id s) rest (sb_live s) false
                  | FNotice _ _ => Subscription (sb_session_id s) rest (sb_live s) (sb_dropped s)
                  end)
  end.

(** ** The feed: every subscriber of this process *)

Definition feed := list subscription.

Definition subscribe (sid : string) (f : feed) : feed := (f ++ [Subscription sid [] 0 false])%list.

Definition to_session (sid : string) (g : subscription -> subscription) (f : feed) : feed :=
  map (fun s => if sb_session_id s =s sid then g s else s) f.

Definition wake (sid : string) : feed -> feed := to_session sid (put (FNotice "input" 0)).
Definition feed_publish_live (sid : string) (p : LivePart) : feed -> feed :=
  to_session sid (put_live LIVE_QUEUE_LIMIT p).
(** [_on_notice]; the second result is the [reader] callback's argument, if any. *)
Definition on_notice (n : session_notice) (f : feed) : feed * option string :=
  (to_session (sn_session_id n) (put (FNotice (sn_kind n) (sn_seq n))) f,
   if sn_kind n =s "reader" then Some (sn_session_id n) else None).
Definition broadcast (f : feed) : feed := map (put FResync) f.

(** ** Following the output *)

Definition PAGE : nat := 500.
Definition HELD_LIMIT : nat := Z.to_nat 5000.

Definition resume_cursor_part (seq : Z) : dict :=
  [("type", VStr "data-resume-cursor"); ("transient", VBool true); ("data", VDict [("seq", VInt seq)])].
Definition SESSION_CHANGED_PART : dict :=
  [("type", VStr "data-session-changed"); ("transient", VBool true); ("data", VDict [])].
Definition TRANSCRIPT_CHANGED_PART : dict :=
  [("type", VStr "data-transcript-changed"); ("transient", VBool true); ("data", VDict [])].

(** The generator's variables; [fo_emitted] records the calls of [emit]. *)
Record follower := Follower {
  fo_last : Z;
  fo_held : list (Z * dict);
  fo_emitted : list (Z * dict)
}.

Definition finishes (part : dict) : bool := type_is "finish" part || type_is "error" part.

(** [emit]. *)
Definition emit (seq : Z) (stored : dict) (f : follower) : res (list dict * follower) :=
  let f' := Follower seq (fo_held f) (fo_emitted f ++ [(seq, stored)])%list in
  part ← public_part stored false;
  match part with
  | None => Ok ([], f')
  | Some p => if type_is "error" p then Ok ([resume_cursor_part seq; p], f') else Ok ([p], f')
  end.

(** Why a read of the log stopped: its consumer met a part that ends a response and
    stopped reading; the generator returned; or it is still waiting for its next page. *)
Inductive log_end := ConsumerDone | GeneratorDone | NextPage.

(** The rows of one page. *)
Fixpoint emit_rows (rows : list output_row) (f : follower) : res (list dict * follower * log_end) :=
  match rows with
  | [] => Ok ([], f, NextPage)
  | row :: rest =>
      '(outs, f1) ← emit (ou_seq row) (ou_part row) f;
      if existsb finishes outs then Ok (outs, f1, ConsumerDone)
      else if finishes (ou_part row) then Ok (outs, f1, GeneratorDone)
      else '(outs', f2, e) ← emit_rows rest f1; Ok (outs ++ outs', f2, e)%list
  end.

(** [from_log]: page after page until one comes back short.  [reads] is the store as each
    page's query finds it, since a reader goes on writing between two of them. *)
Fixpoint from_log (reads : list db) (sid : string) (f : follower)
  : res (list dict * follower * log_end) :=
  match reads with
  | [] => Ok ([], f, NextPage)
  | d :: reads =>
      let rows := read_output sid (fo_last f) PAGE d in
      '(outs, f1, e) ← emit_rows rows f;
      match e with
      | NextPage =>
          if (length rows <? PAGE)%nat then Ok (outs, f1, GeneratorDone)
          else '(outs', f2, e') ← from_log reads sid f1; Ok (outs ++ outs', f2, e')%list
      | _ => Ok (outs, f1, e)
      end
  end.

Definition consumer_done (e : log_end) : bool := match e with ConsumerDone => true | _ => false end.

Definition held_get (seq : Z) (held : list (Z * dict)) : option dict :=
  match List.find (fun e => (fst e =? seq)%Z) held with Some e => Some (snd e) | None => None end.

Definition held_pop (seq : Z) (held : list (Z * dict)) : list (Z * dict) :=
  List.filter (fun e => negb (fst e =? seq)%Z) held.

(** [held[seq] = part]. *)
Definition held_set (seq : Z) (part : dict) (held : list (Z * dict)) : list (Z * dict) :=
  (held_pop seq held ++ [(seq, part)])%list.

(** [while not ended and last + 1 in held]. *)
Fixpoint drain_held (fuel : nat) (f : follower) : res (list dict * follower * bool) :=
  match fuel with
  | O => Ok ([], f, false)
  | S fuel =>
      let seq := (fo_last f + 1)%Z in
      match held_get seq (fo_held f) with
      | None => Ok ([], f, false)
      | Some part =>
          '(outs, f1) ← emit seq part (Follower (fo_last f) (held_pop seq (fo_held f)) (fo_emitted f));
          if finishes part then Ok (outs, f1, true)
          else '(outs', f2, ended) ← drain_held fuel f1; Ok (outs ++ outs', f2, ended)%list
      end
  end.

(** The end of a turn of the loop: forget what was passed, close the burst. *)
Definition yield_burst (burst : list dict) (ended : bool) (f : follower)
  : list dict * follower * bool :=
  let f' := Follower (fo_last f) (List.filter (fun e => (fo_last f <? fst e)%Z) (fo_held f)) (fo_emitted f) in
  match last burst with
  | None => ([], f', false)
  | Some out =>
      (if type_is "data-resume-cursor" out then burst else burst ++ [resume_cursor_part (fo_last f)],
       f', ended)%list
  end.

(** The branch on the item read from the subscription. *)
Definition follow_item (sid : string) (item : feed_item) (reads : list db) (f : follower)
  : res (list dict * follower * bool) :=
  let read := '(outs, f1, e) ← from_log reads sid f; Ok (outs, f1, consumer_done e) in
  match item with
  | FNotice kind seq =>
      if (kind =s "session") || (kind =s "reader") then Ok ([SESSION_CHANGED_PART], f, false)
      else if kind =s "transcript" then Ok ([TRANSCRIPT_CHANGED_PART], f, false)
      else if (kind =s "output") && (fo_last f <? seq)%Z then read
      else Ok ([], f, false)
  | FLive p =>
      if (fo_last f <? lp_seq p)%Z && (length (fo_held f) <? HELD_LIMIT)%nat
      then Ok ([], Follower (fo_last f) (held_set (lp_seq p) (lp_part p) (fo_held f)) (fo_emitted f), false)
      else Ok ([], f, false)
  | FResync =>
      '(outs, f1, ended) ← read;
      Ok ([SESSION_CHANGED_PART; TRANSCRIPT_CHANGED_PART] ++ outs, f1, ended)%list
  end.

(** One turn of the follower's loop: what it yields, and whether it returns. *)
Definition follow_step (sid : string) (item : feed_item) (reads : list db) (f : follower)
  : res (list dict * follower * bool) :=
  '(burst, f1, ended) ← follow_item sid item reads f;
  if (ended : bool) then Ok (yield_burst burst true f1)
  else
    '(outs, f2, ended') ← drain_held (length (fo_held f1)) f1;
    Ok (yield_burst (burst ++ outs)%list ended' f2).

(** [follow_output] up to its first wait. *)
Definition follow_start (sid : string) (after_seq : Z) (reads : list db)
  : res (list dict * follower * bool) :=
  '(outs, f, e) ← from_log reads sid (Follower after_seq [] []);
  let opening := [SESSION_CHANGED_PART; TRANSCRIPT_CHANGED_PART] in
  Ok (opening ++ outs ++
      (if consumer_done e || negb (fo_last f =? after_seq)%Z then [resume_cursor_part (fo_last f)] else []),
      f, consumer_done e)%list.

(** The whole call: its opening, then a turn per item until one ends it.  Each item comes
    with the store its read of the log would find, page by page. *)
Fixpoint follow_turns (sid : string) (items : list (feed_item * list db)) (f : follower)
  : res (list dict * follower * bool) :=
  match items with
  | [] => Ok ([], f, false)
  | (item, reads) :: rest =>
      '(outs, f1, ended) ← follow_step sid item reads f;
      if (ended : bool) then Ok (outs, f1, true)
      else '(outs', f2, ended') ← follow_turns sid rest f1; Ok (outs ++ outs', f2, ended')%list
  end.

Definition follow_output (sid : string) (after_seq : Z) (opening : list db)
    (items : list (feed_item * list db)) : res (list dict * follower * bool) :=
  '(outs, f, ended) ← follow_start sid after_seq opening;
  if (ended : bool) then Ok (outs, f, true)
  else '(outs', f2, ended') ← follow_turns sid items f; Ok (outs ++ outs', f2, ended')%list.

(** ** The queue *)

Definition is_live (i : feed_item) : bool := match i with FLive _ => true | _ => false end.

(** The queue's bookkeeping is right, and while parts are being dropped a [Resync] is on
    its way to the subscriber. *)
Record queue_ok (limit : nat) (s : subscription) : Prop := QueueOk {
  qo_live : sb_live s = length (List.filter is_live (sb_queue s));
  qo_limit : sb_live s <= limit;
  qo_resync : sb_dropped s = true -> FResync ∈ sb_queue s
}.

Inductive queue_step (limit : nat) (s : subscription) : subscription -> Prop :=
| queue_live p : queue_step limit s (put_live limit p s)
| queue_notice kind seq : queue_step limit s (put (FNotice kind seq) s)
| queue_resync : queue_step limit s (put FResync s)
| queue_get item s' : get s = Some (item, s') -> queue_step limit s s'.

Lemma filter_live_app q i :
  length (List.filter is_live (q ++ [i])) = length (List.filter is_live q) + (if is_live i then 1 else 0).
Proof. rewrite List.filter_app, length_app. cbn. by destruct (is_live i). Qed.

Lemma queue_step_ok limit s s' : queue_ok limit s -> queue_step limit s s' -> queue_ok limit s'.
Proof.
  intros [Hl Hlim Hr] [p|kind seq| |item s1 H].
  - unfold put_live. destruct (Nat.leb_spec limit (sb_live s)).
    + destruct (sb_dropped s) eqn:E; [by split; auto|]. split; cbn; [|lia|].
      * rewrite filter_live_app, Hl. cbn. lia.
      * intros _. set_solver.
    + split; cbn; [rewrite filter_live_app, Hl; cbn; lia|lia|]. intros Hd. apply elem_of_app. auto.
  - split; cbn; [rewrite filter_live_app, Hl; cbn; lia|lia|]. intros Hd. apply elem_of_app. auto.
  - split; cbn; [rewrite filter_live_app, Hl; cbn; lia|lia|]. intros _. set_solver.
  - unfold get in H. destruct (sb_queue s) as [|i q] eqn:Eq; [done|]. injection H as <- <-.
    destruct i as [p|kind seq|]; cbn in *; split; cbn; try lia; try done.
    + intros Hd. specialize (Hr Hd). apply elem_of_cons in Hr as [|]; done.
    + intros Hd. specialize (Hr Hd). apply elem_of_cons in Hr as [|]; done.
Qed.

(** a slow page never holds more than the limit of live parts, and never loses one
    silently: whatever is put on and taken off a subscription's queue, at most [limit]
    live parts wait on it, and from the moment one is dropped until the page reads the
    [Resync] that makes it read the log again, that [Resync] is in the queue. *)
Theorem queue_bounded_and_resyncs limit sid s :
  rtc (queue_step limit) (Subscription sid [] 0 false) s ->
  length (List.filter is_live (sb_queue s)) <= limit /\
  (sb_dropped s = true -> FResync ∈ sb_queue s) /\
  (forall p, put_live limit p s = s -> FResync ∈ sb_queue s).
Proof.
  intros Hr. assert (H : queue_ok limit s).
  { revert Hr. assert (H0 : queue_ok limit (Subscription sid [] 0 false)) by (split; cbn; [done|lia|done]).
    revert H0. generalize (Subscription sid [] 0 false). intros s0 H0 Hr.
    induction Hr as [|s0 s1 s2 Hs _ IH]; [done|]. apply IH. by eapply queue_step_ok. }
  destruct H as [Hl Hlim Hres]. split; [lia|]. split; [done|]. intros p Hp.
  apply Hres. unfold put_live in Hp. destruct (limit <=? sb_live s)%nat.
  - destruct (sb_dropped s) eqn:E; [done|]. apply (f_equal sb_dropped) in Hp. cbn in Hp. congruence.
  - apply (f_equal sb_live) in Hp. cbn in Hp. lia.
Qed.

(** ** What the follower emits *)

(** The parts the follower adds of its own: cursors and reread requests. *)
Definition own_part (p : dict) : bool :=
  type_is "data-resume-cursor" p || type_is "data-session-changed" p || type_is "data-transcript-changed" p.
Definition content (outs : list dict) : list dict := List.filter (fun p => negb (own_part p)) outs.

(** What a reader of this page is shown of a stored part. *)
Definition shown (e : Z * dict) : list dict :=
  match public_part (snd e) false with Ok (Some p) => [p] | _ => [] end.

(** The follower moved on: it emitted the numbers that come next, in order and once each,
    every part from [src], and what it yielded is what the page is shown of them. *)
Definition advances (src : Z * dict -> Prop) (f : follower) (outs : list dict) (f' : follower) : Prop :=
  exists new,
    fo_emitted f' = (fo_emitted f ++ new)%list /\ (fo_last f <= fo_last f')%Z /\
    map fst new = seqZ (fo_last f + 1) (fo_last f' - fo_last f) /\
    Forall src new /\ content outs = content (flat_map shown new) /\ Forall src (fo_held f').

Lemma content_app o1 o2 : content (o1 ++ o2) = (content o1 ++ content o2)%list.
Proof. apply List.filter_app. Qed.

Lemma advances_stay src f outs :
  content outs = [] -> Forall src (fo_held f) -> advances src f outs f.
Proof.
  intros Ho Hh. exists []. rewrite app_nil_r, Ho, seqZ_nil by lia.
  done.
Qed.

Lemma advances_trans src f o1 f1 o2 f2 :
  advances src f o1 f1 -> advances src f1 o2 f2 -> advances src f (o1 ++ o2) f2.
Proof.
  intros (n1 & E1 & L1 & S1 & P1 & C1 & _) (n2 & E2 & L2 & S2 & P2 & C2 & H2).
  exists (n1 ++ n2)%list. rewrite E2, E1, app_assoc, map_app, S1, S2, flat_map_app, !content_app, C1, C2.
  split; [done|]. split; [lia|]. split; [|by rewrite Forall_app].
  replace (fo_last f2 - fo_last f)%Z with ((fo_last f1 - fo_last f) + (fo_last f2 - fo_last f1))%Z by lia.
  rewrite seqZ_app by lia. f_equal. f_equal. lia.
Qed.

Lemma emit_advances (src : Z * dict -> Prop) stored f outs f' :
  Forall src (fo_held f) -> src ((fo_last f + 1)%Z, stored) ->
  emit (fo_last f + 1) stored f = Ok (outs, f') ->
  advances src f outs f' /\ fo_last f' = (fo_last f + 1)%Z.
Proof.
  intros Hh Hs H. unfold emit in H. apply bind_ok in H as (part & Hp & H).
  assert (E : f' = Follower (fo_last f + 1) (fo_held f) (fo_emitted f ++ [((fo_last f + 1)%Z, stored)])%list)
    by (destruct part as [p|]; [destruct (type_is _ p)|]; by injection H).
  subst f'. split; [|done]. exists [((fo_last f + 1)%Z, stored)]. cbn [fo_emitted fo_last fo_held].
  split; [done|]. split; [lia|]. split; [|split; [by constructor|split; [|done]]].
  - replace (fo_last f + 1 - fo_last f)%Z with 1%Z by lia. done.
  - cbn [flat_map]. rewrite app_nil_r. unfold shown. cbn [snd]. rewrite Hp.
    destruct part as [p|]; [|by injection H as <-].
    destruct (type_is "error" p); injection H as <-; [|done]. by unfold content at 1.
Qed.

Lemma emit_rows_advances (src : Z * dict -> Prop) rows f outs f' e :
  Forall src (fo_held f) -> Forall (fun r => src (ou_seq r, ou_part r)) rows ->
  map ou_seq rows = seqZ (fo_last f + 1) (Z.of_nat (length rows)) ->
  emit_rows rows f = Ok (outs, f', e) ->
  advances src f outs f' /\ (e = NextPage -> fo_last f' = (fo_last f + Z.of_nat (length rows))%Z).
Proof.
  revert f outs. induction rows as [|row rows IH]; intros f outs Hh Hr Hs H; cbn in H.
  - injection H as <- <- <-. split; [by apply advances_stay|]. cbn. lia.
  - inversion_clear Hr as [|?? Hsrc Hr']. cbn [length map] in Hs.
    rewrite Nat2Z.inj_succ, seqZ_cons in Hs by lia. injection Hs as Hrow Hs.
    apply bind_ok in H as ([outs1 f1] & He & H). rewrite Hrow in *.
    destruct (emit_advances src _ _ _ _ Hh Hsrc He) as [Ha Hl1].
    destruct (existsb _ _); [injection H as <- <- <-; by split|].
    destruct (finishes _); [injection H as <- <- <-; by split|].
    apply bind_ok in H as ([[outs2 f2] e2] & Hrest & H). injection H as <- <- <-.
    destruct (IH f1 outs2) as [Ha2 Hl2]; [by destruct Ha as (? & ? & ? & ? & ? & ? & ?)|done| |done|].
    + rewrite Hl1, Hs. f_equal; lia.
    + split; [by eapply advances_trans|]. intros He2. rewrite (Hl2 He2), Hl1. cbn [length]. lia.
Qed.

(** ** Reading the log *)

(** What a contiguous log still holds after [last] is numbered from [last + 1]. *)
Lemma unread_rows sid d n from :
  contiguous sid d n -> unique_output sid d -> (0 <= from)%Z ->
  map ou_seq (merge_sort seq_le
    (select_where (fun r => output_of sid r && (from <? ou_seq r)%Z) (db_output d)))
  = seqZ (from + 1) (n - from).
Proof.
  intros [H0 Hc] Hu Hfrom. pose proof seq_le_trans. pose proof seq_le_total.
  set (rows := select_where (fun r => output_of sid r && (from <? ou_seq r)%Z) (db_output d)).
  assert (Hsub : map ou_seq rows `sublist_of` map ou_seq (select_where (output_of sid) (db_output d))).
  { unfold rows, select_where. generalize (db_output d). clear. intros l.
    induction l as [|o l IH]; [constructor|]. rewrite !filter_cons.
    destruct (decide (output_of sid o = true)) as [E|E].
    - destruct (decide _); [by constructor|by apply sublist_cons].
    - rewrite decide_False; [done|]. intros [? _]%andb_true_iff. done. }
  apply (StronglySorted_unique Z.le).
  - pose proof (StronglySorted_merge_sort seq_le rows) as Hs. clearbody rows. revert Hs.
    generalize (merge_sort seq_le rows). intros l Hs. induction Hs as [|o l Hs IH Hall]; cbn; constructor; [done|].
    apply Forall_fmap. eapply Forall_impl; [exact Hall|]. done.
  - apply seqZ_sorted.
  - rewrite merge_sort_Permutation. apply NoDup_Permutation.
    + eapply sublist_NoDup; [exact Hu|exact Hsub].
    + apply NoDup_seqZ.
    + intros s. rewrite elem_of_seqZ, list_elem_of_fmap. split.
      * intros (o & -> & [Ho Hin]%elem_of_select_where). unfold output_of in Ho. bool_prop.
        assert (1 <= ou_seq o <= n)%Z by (apply Hc; eauto). lia.
      * intros Hs. destruct (proj2 (Hc s)) as (o & Ho & Hos & <-); [lia|]. exists o. split; [done|].
        apply elem_of_select_where. unfold output_of. rewrite Hos, String.eqb_refl.
        split; [cbn; apply Z.ltb_lt; lia|done].
Qed.

Lemma read_output_numbers sid d n from limit :
  contiguous sid d n -> unique_output sid d -> (0 <= from)%Z ->
  let rows := read_output sid from limit d in
  map ou_seq rows = seqZ (from + 1) (Z.of_nat (length rows)) /\
  length rows = Nat.min limit (Z.to_nat (n - from)).
Proof.
  intros Hc Hu Hf rows. pose proof (unread_rows _ _ _ _ Hc Hu Hf) as Hrows.
  assert (Hlen : length rows = Nat.min limit (Z.to_nat (n - from))).
  { unfold rows, read_output. rewrite length_take. f_equal.
    rewrite <-(length_map ou_seq), Hrows, length_seqZ. done. }
  split; [|done]. unfold rows at 1. unfold read_output.
  rewrite <-(firstn_map ou_seq limit _), Hrows, Hlen. unfold seqZ.
  rewrite !Nat2Z.id, <-fmap_take, take_seq. done.
Qed.

(** The log as a reader leaves it, each of its rows one of [src]. *)
Definition log_ok (src : Z * dict -> Prop) (sid : string) (d : db) : Prop :=
  (exists n, contiguous sid d n) /\ unique_output sid d /\
  Forall (fun r => output_of sid r = true -> src (ou_seq r, ou_part r)) (db_output d).

Lemma read_output_src src sid d from limit :
  log_ok src sid d -> Forall (fun r => src (ou_seq r, ou_part r)) (read_output sid from limit d).
Proof.
  intros (_ & _ & Hsrc). unfold read_output. apply Forall_take.
  eapply Permutation_Forall; [symmetry; apply merge_sort_Permutation|].
  rewrite Forall_forall in *. intros r [Hr Hin]%elem_of_select_where. apply Hsrc; [done|].
  by apply andb_true_iff in Hr as [? _].
Qed.

Section Turns.
Context (src : Z * dict -> Prop) (sid : string).

Lemma from_log_advances reads f outs f' e :
  (0 <= fo_last f)%Z -> Forall (log_ok src sid) reads -> Forall src (fo_held f) ->
  from_log reads sid f = Ok (outs, f', e) -> advances src f outs f'.
Proof.
  intros H0 Hok. revert f outs f' e H0. induction Hok as [|d reads Hd _ IH]; intros f outs f' e H0 Hf H.
  - injection H as <- <- <-. by apply advances_stay.
  - cbn [from_log] in H. apply bind_ok in H as ([[outs1 f1] e1] & He & H).
    pose proof (read_output_src _ _ _ (fo_last f) PAGE Hd) as Hsrc. destruct Hd as ((n & Hc) & Hu & _).
    destruct (read_output_numbers sid d n (fo_last f) PAGE Hc Hu H0) as [Hn _].
    destruct (emit_rows_advances src _ _ _ _ _ Hf Hsrc Hn He) as [Ha _].
    destruct e1; [by injection H as <- <- <-|by injection H as <- <- <-|].
    destruct (_ <? _)%nat; [by injection H as <- <- <-|].
    apply bind_ok in H as ([[outs2 f2] e2] & Hr & H). injection H as <- <- <-.
    eapply advances_trans; [exact Ha|]. destruct Ha as (? & _ & ? & _ & _ & _ & ?).
    eapply IH; [lia|done|exact Hr].
Qed.

Lemma held_pop_src seq held : Forall src held -> Forall src (held_pop seq held).
Proof. apply incl_Forall. intros e [He _]%filter_In. done. Qed.

Lemma drain_held_advances fuel f outs f' e :
  Forall src (fo_held f) -> drain_held fuel f = Ok (outs, f', e) -> advances src f outs f'.
Proof.
  revert f outs f' e. induction fuel as [|fuel IH]; intros f outs f' e Hf H; cbn [drain_held] in H.
  - injection H as <- <- <-. by apply advances_stay.
  - destruct (held_get _ _) as [part|] eqn:Eg; [|injection H as <- <- <-; by apply advances_stay].
    assert (Hpart : src ((fo_last f + 1)%Z, part)).
    { unfold held_get in Eg. destruct (List.find _ _) as [[s p]|] eqn:Ef; [|done].
      apply find_some in Ef as [Hin Hs%Z.eqb_eq]. cbn in Hs, Eg. rewrite <-Hs. injection Eg as <-.
      rewrite Forall_forall in Hf. apply Hf. by apply list_elem_of_In. }
    apply bind_ok in H as ([outs1 f1] & He & H).
    destruct (emit_advances src part (Follower (fo_last f) (held_pop (fo_last f + 1) (fo_held f)) (fo_emitted f))
      outs1 f1) as [Ha _]; [by apply held_pop_src|done|exact He|].
    assert (Ha' : advances src f outs1 f1) by exact Ha. clear Ha He.
    destruct (finishes part); [by injection H as <- <- <-|].
    apply bind_ok in H as ([[outs2 f2] e2] & Hr & H). injection H as <- <- <-.
    eapply advances_trans; [exact Ha'|]. eapply IH; [|exact Hr]. by destruct Ha' as (? & _ & _ & _ & _ & _ & ?).
Qed.

(** What a turn relies on: its reads find a log as a reader leaves it, and a live part is
    one of [src]. *)
Definition turn_ok (t : feed_item * list db) : Prop :=
  Forall (log_ok src sid) (snd t) /\
  match fst t with FLive p => src (lp_seq p, lp_part p) | _ => True end.

Lemma follow_item_advances item reads f outs f' e :
  (0 <= fo_last f)%Z -> turn_ok (item, reads) -> Forall src (fo_held f) ->
  follow_item sid item reads f = Ok (outs, f', e) -> advances src f outs f'.
Proof.
  intros H0 [Hok Hlive] Hf H.
  assert (Hread : forall outs f' e, ('(outs, f1, e) ← from_log reads sid f; Ok (outs, f1, consumer_done e))
    = Ok (outs, f', e) -> advances src f outs f').
  { intros o g x Hg. apply bind_ok in Hg as ([[outs1 f1] e1] & He & Hg). injection Hg as <- <- <-.
    by eapply from_log_advances. }
  destruct item as [p|kind seq|]; cbn [follow_item] in H.
  - destruct (_ && _); injection H as <- <- <-; [|by apply advances_stay].
    apply (advances_stay src (Follower _ _ _)); [done|]. apply Forall_app. split; [by apply held_pop_src|].
    by constructor.
  - destruct (_ || _); [injection H as <- <- <-; by apply advances_stay|].
    destruct (kind =s _); [injection H as <- <- <-; by apply advances_stay|].
    destruct (_ && _); [by eapply Hread|injection H as <- <- <-; by apply advances_stay].
  - apply bind_ok in H as ([[outs1 f1] e1] & He & H). injection H as <- <- <-.
    apply (advances_trans src f [SESSION_CHANGED_PART; TRANSCRIPT_CHANGED_PART] f outs1);
      [by apply advances_stay|by eapply Hread].
Qed.

Lemma yield_burst_advances f outs f1 e outs' f' e' :
  advances src f outs f1 -> yield_burst outs e f1 = (outs', f', e') -> advances src f outs' f'.
Proof.
  intros (new & E & L & S & P & C & Hh) H. unfold yield_burst in H.
  assert (Hheld : Forall src (List.filter (fun e => (fo_last f1 <? fst e)%Z) (fo_held f1))).
  { revert Hh. apply incl_Forall. by intros x [Hx _]%filter_In. }
  exists new. destruct (last outs) as [out|] eqn:El.
  - injection H as <- <- _. cbn [fo_emitted fo_last fo_held]. repeat (split; [assumption|]). split; [|done].
    destruct (type_is _ out); [done|]. by rewrite content_app, app_nil_r.
  - apply last_None in El as ->. injection H as <- <- _. done.
Qed.

Lemma follow_step_advances item reads f outs f' e :
  (0 <= fo_last f)%Z -> turn_ok (item, reads) -> Forall src (fo_held f) ->
  follow_step sid item reads f = Ok (outs, f', e) -> advances src f outs f'.
Proof.
  intros H0 Hok Hf H. unfold follow_step in H.
  apply bind_ok in H as ([[burst f1] e1] & Hi & H). apply follow_item_advances in Hi as Ha; [|done..].
  destruct e1; [injection H as H; by eapply yield_burst_advances|].
  apply bind_ok in H as ([[outs2 f2] e2] & Hd & H). injection H as H.
  eapply yield_burst_advances; [|exact H]. eapply advances_trans; [exact Ha|].
  eapply drain_held_advances; [|exact Hd]. by destruct Ha as (? & _ & _ & _ & _ & _ & ?).
Qed.

Lemma follow_turns_advances items f outs f' e :
  (0 <= fo_last f)%Z -> Forall turn_ok items -> Forall src (fo_held f) ->
  follow_turns sid items f = Ok (outs, f', e) -> advances src f outs f'.
Proof.
  intros H0 Hok. revert f outs f' e H0. induction Hok as [|[item reads] items Ht _ IH]; intros f outs f' e H0 Hf H.
  - injection H as <- <- <-. by apply advances_stay.
  - cbn [follow_turns] in H. apply bind_ok in H as ([[outs1 f1] e1] & He & H).
    apply follow_step_advances in He as Ha; [|done..].
    destruct e1; [by injection H as <- <- <-|].
    apply bind_ok in H as ([[outs2 f2] e2] & Hr & H). injection H as <- <- <-.
    eapply advances_trans; [exact Ha|]. destruct Ha as (? & _ & ? & _ & _ & _ & ?).
    eapply IH; [lia|done|exact Hr].
Qed.

Lemma follow_start_advances after_seq reads outs f e :
  (0 <= after_seq)%Z -> Forall (log_ok src sid) reads ->
  follow_start sid after_seq reads = Ok (outs, f, e) -> advances src (Follower after_seq [] []) outs f.
Proof.
  intros H0 Hok H. unfold follow_start in H. apply bind_ok in H as ([[outs1 f1] e1] & He & H).
  apply from_log_advances in He as (new & E & L & S & P & C & Hh); [|done..].
  injection H as <- <- _. exists new. repeat (split; [assumption|]). split; [|done].
  change (content ([SESSION_CHANGED_PART; TRANSCRIPT_CHANGED_PART] ++ outs1 ++
    (if consumer_done e1 || negb (fo_last f1 =? after_seq)%Z then [resume_cursor_part (fo_last f1)] else []))%list
    = content (flat_map shown new)).
  rewrite !content_app, <-C. destruct (_ || _); cbn; by rewrite app_nil_r.
Qed.
End Turns.

(** C4: A page that follows a session's output sees it in order and once each.  Whatever
    wakes it — live parts, notices, a [Resync], in any order, from readers of any process —
    and whatever the log has grown to at each of its page reads, the parts it takes up are
    numbered [after_seq + 1], [after_seq + 2], ... without a gap or a repeat; each is a part
    of the log or a live part it was handed; and what it yields besides its own cursors and
    reread requests is exactly the public form of those parts, in that order. *)
Theorem follower_yields_in_order_once (src : Z * dict -> Prop) sid after_seq opening items outs f ended :
  (0 <= after_seq)%Z ->
  Forall (log_ok src sid) opening -> Forall (turn_ok src sid) items ->
  follow_output sid after_seq opening items = Ok (outs, f, ended) ->
  map fst (fo_emitted f) = seqZ (after_seq + 1) (fo_last f - after_seq) /\
  Forall src (fo_emitted f) /\
  content outs = content (flat_map shown (fo_emitted f)).
Proof.
  intros H0 Ho Hi H. unfold follow_output in H. apply bind_ok in H as ([[outs1 f1] e1] & Hs & H).
  apply (follow_start_advances src) in Hs as Ha; [|done..].
  assert (Hfin : advances src (Follower after_seq [] []) outs f).
  { destruct e1; [by injection H as <- <- _|].
    apply bind_ok in H as ([[outs2 f2] e2] & Ht & H). injection H as <- <- _.
    eapply advances_trans; [exact Ha|]. destruct Ha as (? & _ & Hle & _ & _ & _ & ?). cbn in Hle.
    eapply follow_turns_advances; [lia|done|done|exact Ht]. }
  destruct Hfin as (new & -> & _ & Hs' & Hsrc & Hc & _). cbn [fo_emitted fo_last app] in *. done.
Qed.

(** ** The log is read to its end *)

(** A part after which the generator returns or its consumer stops. *)
Definition ends_response (e : Z * dict) : bool := finishes (snd e) || existsb finishes (shown e).

Lemma emit_ends seq stored f outs f' :
  emit seq stored f = Ok (outs, f') -> existsb finishes outs = existsb finishes (shown (seq, stored)) /\
  (seq, stored) ∈ fo_emitted f'.
Proof.
  intros H. unfold emit in H. apply bind_ok in H as (part & Hp & H). unfold shown. cbn [snd]. rewrite Hp.
  destruct part as [p|]; [destruct (type_is "error" p)|]; injection H as <- <-; cbn [fo_emitted];
    (split; [done|]); apply elem_of_app; right; by apply list_elem_of_singleton.
Qed.

Lemma emit_rows_ends rows f outs f' e :
  emit_rows rows f = Ok (outs, f', e) ->
  e = NextPage \/ exists x, x ∈ fo_emitted f' /\ ends_response x = true.
Proof.
  revert f outs f' e. induction rows as [|row rows IH]; intros f outs f' e H; cbn in H.
  - injection H as _ _ <-. by left.
  - apply bind_ok in H as ([outs1 f1] & He & H). apply emit_ends in He as [Hx Hin].
    assert (Hends : existsb finishes outs1 = true \/ finishes (ou_part row) = true ->
      exists x, x ∈ fo_emitted f1 /\ ends_response x = true).
    { intros Hor. exists (ou_seq row, ou_part row). split; [done|]. unfold ends_response. cbn [snd].
      rewrite <-Hx. apply orb_true_iff. tauto. }
    destruct (existsb _ _); [injection H as _ <- _; right; auto|].
    destruct (finishes _); [injection H as _ <- _; right; auto|].
    apply bind_ok in H as ([[outs2 f2] e2] & Hr & H). injection H as _ <- <-. by eapply IH.
Qed.

Lemma from_log_to_end sid d n k f outs f' e :
  contiguous sid d n -> unique_output sid d -> (0 <= fo_last f <= n)%Z ->
  (n - fo_last f < Z.of_nat k)%Z ->
  from_log (repeat d k) sid f = Ok (outs, f', e) ->
  e <> NextPage /\ (fo_last f' = n \/ exists x, x ∈ fo_emitted f' /\ ends_response x = true).
Proof.
  intros Hc Hu. revert f outs f' e. induction k as [|k IH]; intros f outs f' e Hf Hk H; [lia|].
  cbn [repeat from_log] in H. apply bind_ok in H as ([[outs1 f1] e1] & He & H).
  destruct (read_output_numbers sid d n (fo_last f) PAGE Hc Hu) as [Hn Hlen]; [lia|].
  set (rows := read_output sid (fo_last f) PAGE d) in *.
  assert (Htrue : forall (A : Type) (P : A -> Prop) (l : list A), (forall x, P x) -> Forall P l)
    by (intros A P l Hp; apply Forall_forall; auto).
  destruct (emit_rows_advances (fun _ => True) rows f outs1 f1 e1) as [(_ & _ & Hle & _) Hl]; [auto..|].
  destruct e1.
  1,2: destruct (emit_rows_ends _ _ _ _ _ He) as [?|Hend]; [done|]; injection H as _ <- <-; by split; [|right].
  specialize (Hl eq_refl). destruct (Nat.ltb_spec (length rows) PAGE) as [Hlt|Hge].
  - injection H as _ <- <-. split; [done|]. left. lia.
  - apply bind_ok in H as ([[outs2 f2] e2] & Hr & H). injection H as _ <- <-.
    assert (0 < PAGE)%nat by (apply Nat.ltb_lt; reflexivity).
    eapply IH; [| |exact Hr]; lia.
Qed.

Definition showable (r : output_row) : Prop := exists q, public_part (ou_part r) false = Ok q.

Lemma emit_rows_total rows f : Forall showable rows -> exists r, emit_rows rows f = Ok r.
Proof.
  intros Hs. revert f. induction Hs as [|row rows [q Hq] _ IH]; intros f; [by eexists|]. cbn [emit_rows].
  assert (exists o f1, emit (ou_seq row) (ou_part row) f = Ok (o, f1)) as (o & f1 & ->).
  { unfold emit. rewrite Hq. cbn [mbind res_bind]. destruct q as [p|]; [destruct (type_is _ p)|]; by do 2 eexists. }
  cbn [mbind res_bind]. destruct (existsb _ _); [by eexists|]. destruct (finishes _); [by eexists|].
  destruct (IH f1) as [[[o2 f2] e2] ->]. by eexists.
Qed.

Lemma from_log_total sid d k f : Forall showable (db_output d) -> exists r, from_log (repeat d k) sid f = Ok r.
Proof.
  intros Hs. revert f. induction k as [|k IH]; intros f; [by eexists|]. cbn [repeat from_log].
  destruct (emit_rows_total (read_output sid (fo_last f) PAGE d) f) as [[[o f1] e] ->].
  { unfold read_output. apply Forall_take.
    eapply Permutation_Forall; [symmetry; apply merge_sort_Permutation|].
    rewrite Forall_forall in *. intros r [_ Hin]%elem_of_select_where. auto. }
  cbn [mbind res_bind]. destruct e; [by eexists..|]. destruct (_ <? _)%nat; [by eexists|].
  destruct (IH f1) as [[[o2 f2] e2] ->]. by eexists.
Qed.

(** A page that reconnects misses nothing the log holds.  With the log numbered to
    [n] and each of its parts showable, reading it page by page from any place stops — one
    query per number it has yet to read, and one more, are enough — and by then the
    follower has taken up every number to [n], unless it met a part that ends a response,
    where the call returns for the page to connect again. *)
Theorem follower_reads_log_to_end sid d n k f :
  contiguous sid d n -> unique_output sid d -> Forall showable (db_output d) ->
  (0 <= fo_last f <= n)%Z -> (n - fo_last f < Z.of_nat k)%Z ->
  exists outs f' e, from_log (repeat d k) sid f = Ok (outs, f', e) /\ e <> NextPage /\
    (fo_last f' = n \/ exists x, x ∈ fo_emitted f' /\ ends_response x = true).
Proof.
  intros Hc Hu Hs Hf Hk. destruct (from_log_total sid d k f Hs) as [[[outs f'] e] H].
  exists outs, f', e. split; [done|]. by eapply from_log_to_end.
Qed.

(** ** Witnesses *)

Definition demo_dropped : subscription :=
  put_live 1 (MkLive 2 None []) (put_live 1 (MkLive 1 None []) (Subscription "s1" [] 0 false)).

Lemma queue_bounded_and_resyncs_witness :
  sb_dropped demo_dropped = true /\ FResync ∈ sb_queue demo_dropped.
Proof.
  split; [reflexivity|]. apply (queue_bounded_and_resyncs 1 "s1" demo_dropped); [|reflexivity].
  apply (rtc_l _ _ (put_live 1 (MkLive 1 None []) (Subscription "s1" [] 0 false))); [apply queue_live|].
  apply rtc_once, queue_live.
Defined.

(** The demo reader's log, and the store a second reader, which took the session over once
    the first one's lease ran out, commits the next delta to. *)
Definition demo_log : db := snd demo_committed.
Definition demo_taken_over : reader * db :=
  let claimed := snd (Repo.claim_reader "prod" "s1" "b" 500 30000100 demo_log) in
  let r := take (delta "b") (start_reader (MkLease "s1" "b" 2) demo_log) in
  let y := end_commit 30000110 false (start_commit (ask_commit (r, []) (Running r None [] [] false claimed))) in
  (ru_reader y, ru_db y).

(** The delta the first reader shows live before its process stops. *)
Definition demo_live : LivePart := MkLive 3 (Some "r1") [("type", VStr "text-delta"); ("delta", VStr "b")].

Lemma demo_log_ok : log_ok (fun _ => True) "s1" demo_log /\ contiguous "s1" demo_log 2.
Proof.
  assert (Hc : contiguous "s1" demo_log 2).
  { split; [lia|]. intros s. split.
    - intros (o & Ho & _ & <-). revert o Ho. apply Forall_forall. vm_compute. repeat constructor; discriminate.
    - intros Hs. assert (s = 1 \/ s = 2)%Z as [->| ->] by lia.
      + eexists. split; [apply list_elem_of_here|]. vm_compute. done.
      + eexists. split; [apply list_elem_of_further, list_elem_of_here|]. vm_compute. done. }
  split; [|exact Hc]. split; [by exists 2%Z|]. split; [|by apply Forall_forall].
  unfold unique_output. vm_compute. repeat constructor; set_solver.
Qed.

Lemma follower_yields_in_order_once_witness :
  match follow_output "s1" 0 [demo_log] [(FLive demo_live, [])] with
  | Ok (outs, f, _) => map fst (fo_emitted f) = [1; 2; 3]%Z
  | Raise _ => False
  end.
Proof.
  destruct (follow_output "s1" 0 [demo_log] [(FLive demo_live, [])]) as [[[outs f] e]|x] eqn:E.
  - destruct (follower_yields_in_order_once (fun _ => True) "s1" 0 [demo_log] [(FLive demo_live, [])] outs f e)
      as [-> _]; [lia|constructor; [apply demo_log_ok|constructor]| |exact E|].
    + constructor; [|constructor]. split; [constructor|exact I].
    + assert (Hl : fo_last f = 3%Z); [|rewrite Hl; reflexivity].
      transitivity (match follow_output "s1" 0 [demo_log] [(FLive demo_live, [])] with
        Ok (_, f, _) => fo_last f | Raise _ => 0%Z end); [by rewrite E|vm_compute; reflexivity].
  - assert (H : is_ok (follow_output "s1" 0 [demo_log] [(FLive demo_live, [])]) = true) by (vm_compute; reflexivity).
    rewrite E in H. discriminate H.
Defined.

Lemma demo_showable : Forall showable (db_output demo_log).
Proof.
  assert (H : forallb (fun r => is_ok (public_part (ou_part r) false)) (db_output demo_log) = true)
    by (vm_compute; reflexivity).
  rewrite forallb_forall in H. apply Forall_forall. intros r Hr%list_elem_of_In%H.
  unfold showable. destruct (public_part _ _) as [q|]; [by exists q|done].
Qed.

Lemma follower_reads_log_to_end_witness :
  exists outs f e, from_log (repeat demo_log 3) "s1" (Follower 0 [] []) = Ok (outs, f, e) /\ e <> NextPage.
Proof.
  destruct (follower_reads_log_to_end "s1" demo_log 2 3 (Follower 0 [] [])) as (outs & f & e & H & He & _).
  - apply demo_log_ok.
  - apply demo_log_ok.
  - exact demo_showable.
  - cbn. lia.
  - cbn. lia.
  - exists outs, f, e. split; [exact H|exact He].
Defined.

(** What a takeover in the middle of a response means to a page: connected all along, it is shown
    the delta live as number 3 and once more, from the second reader's log, as number 4. *)
Lemma follower_shows_delta_twice :
  match follow_output "s1" 0 [demo_log]
          [(FLive demo_live, []); (FNotice "output" 4, [snd demo_taken_over])] with
  | Ok (_, f, _) =>
      List.filter (fun e => type_is "text-delta" (snd e)) (fo_emitted f)
      = [(2, lp_part (live_of (MkPart 2 None [("type", VStr "text-delta"); ("delta", VStr "a")])));
         (3, lp_part demo_live); (4, lp_part demo_live)]%Z
  | Raise _ => False
  end.
Proof. vm_compute. reflexivity. Qed.

End Follow.
