(* ===== verification/HistoryMessages.v ===== *)
(** [session_runtime/ui_message.py], second half: the page's messages for one history
    page.  The durable rows are laid over each response's folded message: the response's
    own status, the decisions people took on tool calls, and how interactions settled. *)

From S2P Require Import Prelude PyVal Schema Interaction SessionRepo UiMessage Reader.

Open Scope string_scope.

Module HistoryView.
Import Ui.

(** ** A person's message *)

(** [_image_file_part]. *)
Definition image_file_part (block : dict) : dict :=
  let source := match Py.get "source" block with VDict d => d | _ => [] end in
  let media_type := key_of "media_type" source in
  [("type", VStr "file"); ("mediaType", VStr media_type);
   ("url", VStr ("data:" ++ media_type ++ ";base64," ++ key_of "data" source))].

(** [_provenance]. *)
Definition provenance (record : val) : res dict :=
  match record with
  | VDict d =>
      Ok (omap (fun key => match Py.get key d with VNone => None | v => Some (key, v) end)
            ["source_id"; "completion"; "parent_source_id"])
  | _ => Raise AttributeError
  end.

Definition input_parts (row : dict) : list dict :=
  match Py.get "content_blocks" row with
  | VList ((_ :: _) as blocks) =>
      omap (fun block => match block with
        | VDict b =>
            if type_is "text" b then Some [("type", VStr "text"); ("text", VStr (key_of "text" b))]
            else if type_is "image" b then Some (image_file_part b)
            else None
        | _ => None
        end) blocks
  | _ => [[("type", VStr "text"); ("text", VStr (key_of "content" row))]]
  end.

Definition ATTACHMENT_KEYS : list string := ["attachment_id"; "kind"; "name"; "media_type"; "size"].

(** [{key: item[key] for key in ..}]. *)
Definition attachment_view (item : val) : res val :=
  fields ← mapM_res (fun key => v ← Py.vitem key item; Ok (key, v)) ATTACHMENT_KEYS;
  Ok (VDict fields).

(** [input_message]. *)
Definition input_message (row : dict) : res message :=
  let base := map (fun key => (key, Py.get key row))
                ["input_id"; "created_at"; "conversation_order"; "state"; "author_user_id"; "source"] in
  let m1 := if Py.truthy (Py.get "failure" row) then Py.set "failure" (Py.get "failure" row) base else base in
  m2 ← (if Py.truthy (Py.get "attachments" row)
        then items ← Interaction.iter_or_empty (Py.get "attachments" row);
             views ← mapM_res attachment_view items;
             Ok (Py.set "attachments" (VList views) m1)
        else Ok m1);
  m3 ← (if Py.truthy (Py.get "import_record" row)
        then p ← provenance (Py.get "import_record" row); Ok (Py.set "history_import" (VDict p) m2)
        else Ok m2);
  Ok (Message (Py.str (Py.por (Py.get "client_message_id" row) (Py.get "input_id" row))) "user"
        (input_parts row) m3).

(** ** A response's message *)

(** The recorded decision of an interaction's row, if it has one that still counts. *)
Definition decision_of (row : dict) : res (option val) :=
  match Py.get "answer" row with
  | VNone => Ok None
  | answer =>
      status ← Py.item "status" row;
      match status with
      | VList _ | VDict _ => Raise TypeError
      | VStr s => Ok (if Py.in_strs s ["open"; "answered"] then Some answer else None)
      | _ => Ok None
      end
  end.

(** One part of [_apply_approval_decisions]. *)
Definition apply_decision (decisions : list (string * val)) (part : dict) : res dict :=
  match Py.get "approval" part with
  | VDict approval =>
      match Reader.assoc (key_of "id" approval) decisions with
      | None => Ok part
      | Some answer =>
          decision ← Py.vget "decision" answer;
          let approved := Py.eqb decision (VStr "approve") in
          let approval1 := Py.set "approved" (VBool approved) approval in
          said ← Py.vget "comment" answer;
          let comment := Py.clean said in
          let approval2 := if negb approved && negb (Py.is_empty comment)
                           then Py.set "reason" (VStr comment) approval1 else approval1 in
          let part1 := Py.set "approval" (VDict approval2) part in
          Ok (if Py.eqb (Py.get "state" part1) (VStr "approval-requested")
              then Py.set "state" (VStr "approval-responded") part1 else part1)
      end
  | _ => Ok part
  end.

(** The loop over a message's interaction parts. *)
Definition lay_settlement (settlements : list (string * dict)) (part : dict) : res dict :=
  type ← Py.item "type" part;
  if negb (Py.eqb type (VStr "data-interaction")) then Ok part
  else
    data ← Py.item "data" part;
    iid ← Py.vitem "interaction_id" data;
    match Reader.assoc (Py.str iid) settlements, data with
    | None, _ => Raise RuntimeError
    | Some row, VDict d =>
        status ← Py.item "status" row;
        let d1 := Py.set "status" status d in
        let d2 := match Py.get "answer" row with
                  | VNone => d1
                  | answer => if Py.eqb status (VStr "answered") then Py.set "answer" answer d1 else d1
                  end in
        Ok (Py.set "data" (VDict d2) part)
    | Some _, _ => Raise TypeError
    end.

(** What the response's row says of it. *)
Definition response_metadata (response metadata : dict) : res dict :=
  m1 ← (if Py.truthy (Py.get "import_record" response)
        then p ← provenance (Py.get "import_record" response); Ok (Py.set "history_import" (VDict p) metadata)
        else Ok metadata);
  rid ← Py.item "response_id" response;
  origin ← Py.item "origin" response;
  status ← Py.item "status" response;
  let m2 := Py.update m1
    [("response_id", rid); ("origin", origin); ("status", status); ("outcome", Py.get "outcome" response);
     ("native_reason", Py.get "native_reason" response); ("started_at", Py.get "started_at" response);
     ("ended_at", Py.get "ended_at" response);
     ("conversation_order", Py.get "conversation_order" response)] in
  Ok (if Py.truthy (Py.get "error" response) then Py.set "error" (Py.get "error" response) m2 else m2).

Definition response_message (settlements : list (string * dict)) (decisions : list (string * val))
  (folded : list (string * message)) (response : dict) : res message :=
  rid ← Py.item "response_id" response;
  match Reader.assoc (Py.str rid) folded with
  | None => Raise KeyError
  | Some m =>
      decided ← mapM_res (apply_decision decisions) (m_parts m);
      settled ← mapM_res (lay_settlement settlements) decided;
      metadata ← response_metadata response (m_metadata m);
      Ok (Message (m_id m) (m_role m) settled metadata)
  end.

(** ** The page *)

(** What [history_page] returns, as far as the messages read it. *)
Record history_rows := HistoryRows {
  hr_entries : list (string * Z);
  hr_inputs : list dict;
  hr_responses : list dict
}.

Definition by_seq (rows : list dict) : res (list (Z * dict)) :=
  mapM_res (fun row => v ← Py.item "seq" row; n ← Py.int v; Ok (n, row)) rows.

(** A dict comprehension keeps the last row of a key. *)
Definition row_at (seq : Z) (rows : list (Z * dict)) : res dict :=
  match List.find (fun e => (fst e =? seq)%Z) (rev rows) with
  | Some e => Ok (snd e)
  | None => Raise KeyError
  end.

Definition settlements_of (interactions : list dict) : res (list (string * dict)) :=
  rows ← mapM_res (fun row => v ← Py.item "interaction_id" row; Ok (Py.str v, row)) interactions;
  Ok (Reader.index_by rows).

Definition named_decision (e : string * dict) : res (string * option val) :=
  d ← decision_of (snd e); Ok (fst e, d).

Definition taken_decisions (ds : list (string * option val)) : list (string * val) :=
  omap (fun e => match snd e with Some a => Some (fst e, a) | None => None end) ds.

Definition decisions_of (settlements : list (string * dict)) : res (list (string * val)) :=
  ds ← mapM_res named_decision settlements;
  Ok (taken_decisions ds).

Definition entry_message (inputs responses : list (Z * dict)) (settlements : list (string * dict))
  (decisions : list (string * val)) (folded : list (string * message)) (entry : string * Z) : res message :=
  if fst entry =s "input" then row ← row_at (snd entry) inputs; input_message row
  else row ← row_at (snd entry) responses; response_message settlements decisions folded row.

(** [history_messages].  Each response has one entry, so what is laid over a folded message
    for it is never seen by another. *)
Definition history_messages (page : history_rows) (folded : list (string * message))
  (interactions : list dict) : res (list message) :=
  settlements ← settlements_of interactions;
  decisions ← decisions_of settlements;
  inputs ← by_seq (hr_inputs page);
  responses ← by_seq (hr_responses page);
  mapM_res (entry_message inputs responses settlements decisions folded) (hr_entries page).

(** ** What the overlay changes of a part *)

Lemma item_get k d v : Py.item k d = Ok v -> Py.get k d = v.
Proof. unfold Py.item, Py.get. destruct (Py.lookup k d); [by intros <-%Ok_inj|done]. Qed.

(** A decision is one a person gave, on an interaction still open or answered. *)
Definition decision_stands (settlements : list (string * dict)) (id : string) (answer : val) : Prop :=
  exists row, (id, row) ∈ settlements /\ Py.get "answer" row = answer /\ answer <> VNone /\
    (Py.get "status" row = VStr "open" \/ Py.get "status" row = VStr "answered").

Lemma decisions_stand settlements decisions :
  decisions_of settlements = Ok decisions ->
  Forall (fun e => decision_stands settlements (fst e) (snd e)) decisions.
Proof.
  intros H. unfold decisions_of in H. apply bind_ok in H as (ds & Hds & <-%Ok_inj).
  apply mapM_res_Forall2 in Hds. apply Forall_forall. intros [id a] ([id' o] & Hin & Ho)%list_elem_of_omap.
  cbn in Ho. destruct o as [a'|]; [|done]. injection Ho as -> ->.
  apply list_elem_of_lookup_1 in Hin as [i Hi].
  destruct (Forall2_lookup_r _ _ _ _ _ Hds Hi) as ([id' row] & Hrow & Hn).
  unfold named_decision in Hn. apply bind_ok in Hn as (d & Hd & Hn). injection Hn as -> ->.
  exists row. split; [by eapply list_elem_of_lookup_2|]. unfold decision_of in Hd. cbn [snd fst] in *.
  destruct (Py.get "answer" row) eqn:Ea; [done|..];
    (apply bind_ok in Hd as (st & Hst%item_get & Hd); rewrite Hst;
     destruct st as [| | | |t| |]; try done; apply Ok_inj in Hd;
     destruct (Py.in_strs t ["open"; "answered"]) eqn:Es; [|done]; injection Hd as <-;
     split; [done|]; split; [done|];
     apply in_strs_true in Es; repeat (apply elem_of_cons in Es as [->|Es]; [tauto|]);
     by apply not_elem_of_nil in Es).
Qed.

Lemma standing_decided settlements decisions id a :
  decisions_of settlements = Ok decisions -> decision_stands settlements id a -> (id, a) ∈ decisions.
Proof.
  intros H (row & Hrow & Ha & Hn & Hs). unfold decisions_of in H. apply bind_ok in H as (ds & Hds & <-%Ok_inj).
  apply mapM_res_Forall2 in Hds. apply list_elem_of_lookup in Hrow as [i Hi].
  destruct (Forall2_lookup_l _ _ _ _ _ Hds Hi) as ([id' o] & Ho & Hx). unfold named_decision in Hx.
  apply bind_ok in Hx as (d & Hd & Hx). injection Hx as <- <-. cbn [fst snd] in *.
  apply list_elem_of_omap. exists (id, d). split; [by eapply list_elem_of_lookup_2|]. cbn [fst snd].
  assert (d = Some a) as ->; [|done]. unfold decision_of in Hd. rewrite Ha in Hd.
  assert (Hst : forall st, Py.item "status" row = Ok st -> st = VStr "open" \/ st = VStr "answered").
  { intros st <-%item_get. done. }
  destruct a; [done|..]; apply bind_ok in Hd as (st & Hi2%Hst & Hd);
    destruct Hi2 as [-> | ->]; by injection Hd as <-.
Qed.

(** What one part becomes: only its approval, its state and an interaction's data change,
    and only by a decision that stands or the interaction's own row. *)
Definition decided (decisions : list (string * val)) (p0 p : dict) : Prop :=
  (forall k, k <> "approval" -> k <> "state" -> Py.get k p = Py.get k p0) /\
  match (match Py.get "approval" p0 with
         | VDict approval => Reader.assoc (key_of "id" approval) decisions
         | _ => None
         end) with
  | Some answer =>
      (exists approval d, Py.get "approval" p = VDict approval /\ Py.vget "decision" answer = Ok d /\
         Py.get "approved" approval = VBool (Py.eqb d (VStr "approve"))) /\
      Py.get "state" p <> VStr "approval-requested" /\
      (Py.get "state" p0 <> VStr "approval-requested" -> Py.get "state" p = Py.get "state" p0)
  | None => p = p0
  end.

Definition settled (settlements : list (string * dict)) (p0 p : dict) : Prop :=
  (forall k, k <> "data" -> Py.get k p = Py.get k p0) /\
  if type_is "data-interaction" p0 then
    exists data0 data row iid, Py.get "data" p0 = VDict data0 /\ Py.get "data" p = VDict data /\
      Py.get "interaction_id" data0 = iid /\ Reader.assoc (Py.str iid) settlements = Some row /\
      Py.get "status" data = Py.get "status" row /\
      (Py.get "status" row = VStr "answered" -> Py.get "answer" row <> VNone ->
         Py.get "answer" data = Py.get "answer" row)
  else p = p0.

Lemma apply_decision_spec decisions p0 p : apply_decision decisions p0 = Ok p -> decided decisions p0 p.
Proof.
  unfold apply_decision, decided. intros H. destruct (Py.get "approval" p0) as [| | | | | |approval] eqn:Ea;
    try (apply Ok_inj in H as ->; done).
  destruct (Reader.assoc _ decisions) as [answer|]; [|by apply Ok_inj in H as ->].
  apply bind_ok in H as (d & Hd & H). apply bind_ok in H as (c & _ & H). apply Ok_inj in H.
  set (ap := if _ && _ then _ else _) in H.
  assert (Hap : Py.get "approved" ap = VBool (Py.eqb d (VStr "approve"))).
  { unfold ap. destruct (_ && _); [rewrite get_set_ne by done|]; by rewrite get_set_eq. }
  clearbody ap. rewrite get_set_ne in H by done. subst p.
  destruct (Py.eqb (Py.get "state" p0) (VStr "approval-requested")) eqn:Es.
  - apply eqb_str in Es. split; [intros k H1 H2; by rewrite !get_set_ne|]. split; [|split].
    + exists ap, d. by rewrite get_set_ne, get_set_eq.
    + by rewrite get_set_eq.
    + done.
  - assert (Hne : Py.get "state" p0 <> VStr "approval-requested") by (intros E%eqb_str; congruence).
    split; [intros k H1 H2; by rewrite !get_set_ne|]. split; [|split].
    + exists ap, d. by rewrite get_set_eq.
    + by rewrite get_set_ne.
    + intros _. by rewrite get_set_ne.
Qed.

Lemma lay_settlement_spec settlements p0 p : lay_settlement settlements p0 = Ok p -> settled settlements p0 p.
Proof.
  unfold lay_settlement, settled. intros H. apply bind_ok in H as (ty & Hty%item_get & H).
  unfold type_is. rewrite Hty. destruct (Py.eqb ty _); cbn [negb] in H; [|by apply Ok_inj in H as ->].
  apply bind_ok in H as (data & Hdata%item_get & H). apply bind_ok in H as (iid & Hiid & H).
  destruct (Reader.assoc _ settlements) as [row|] eqn:Er; [|done].
  destruct data as [| | | | | |d]; try done. cbn [Py.vitem] in Hiid. apply item_get in Hiid.
  apply bind_ok in H as (st & Hst%item_get & <-%Ok_inj).
  split; [intros k Hk; by rewrite get_set_ne|].
  do 4 eexists. split; [exact Hdata|]. split; [apply get_set_eq|]. split; [exact Hiid|]. split; [exact Er|].
  rewrite Hst. split.
  - destruct (Py.get "answer" row); try apply get_set_eq;
      (destruct (Py.eqb st _); [rewrite get_set_ne by done|]; apply get_set_eq).
  - intros -> Ha. rewrite (proj2 (eqb_str (VStr "answered") "answered") eq_refl).
    destruct (Py.get "answer" row); try done; apply get_set_eq.
Qed.

Lemma response_metadata_row response metadata m :
  response_metadata response metadata = Ok m ->
  Forall (fun k => Py.get k m = Py.get k response) ["response_id"; "origin"; "status"; "outcome"; "native_reason"].
Proof.
  unfold response_metadata. intros H. apply bind_ok in H as (m1 & _ & H).
  apply bind_ok in H as (rid & Hrid%item_get & H). apply bind_ok in H as (origin & Ho%item_get & H).
  apply bind_ok in H as (status & Hs%item_get & <-%Ok_inj).
  repeat constructor;
    (destruct (Py.truthy (Py.get "error" response)); [rewrite get_set_ne by done|]; cbn [Py.update fold_left fst snd];
     rewrite ?get_set_ne by done; by rewrite get_set_eq).
Qed.

(** What one entry of the page shows. *)
Definition entry_shows (page : history_rows) (folded : list (string * message))
  (settlements : list (string * dict)) (decisions : list (string * val)) (entry : string * Z) (m : message) : Prop :=
  if fst entry =s "input"
  then exists row, row ∈ hr_inputs page /\ Py.int (Py.get "seq" row) = Ok (snd entry) /\ input_message row = Ok m
  else exists row m0, row ∈ hr_responses page /\ Py.int (Py.get "seq" row) = Ok (snd entry) /\
    Reader.assoc (Py.str (Py.get "response_id" row)) folded = Some m0 /\
    m_id m = m_id m0 /\ m_role m = m_role m0 /\
    Forall2 (fun p0 p => exists p1, decided decisions p0 p1 /\ settled settlements p1 p) (m_parts m0) (m_parts m) /\
    Forall (fun k => Py.get k (m_metadata m) = Py.get k row)
      ["response_id"; "origin"; "status"; "outcome"; "native_reason"].

Lemma row_at_found rows indexed seq row :
  by_seq rows = Ok indexed -> row_at seq indexed = Ok row ->
  row ∈ rows /\ Py.int (Py.get "seq" row) = Ok seq.
Proof.
  intros Hi H. unfold row_at in H. destruct (List.find _ _) as [[n r]|] eqn:Ef; [|done]. apply Ok_inj in H as <-.
  apply find_some in Ef as [Hin Hn%Z.eqb_eq]. cbn [fst snd] in *. subst n.
  apply in_rev, list_elem_of_In, list_elem_of_lookup_1 in Hin as [i Hin].
  apply mapM_res_Forall2 in Hi. destruct (Forall2_lookup_r _ _ _ _ _ Hi Hin) as (r' & Hr' & Hs).
  apply bind_ok in Hs as (v & Hv%item_get & Hs). apply bind_ok in Hs as (z & Hz & Hs). injection Hs as -> ->.
  split; [by eapply list_elem_of_lookup_2|]. by rewrite Hv.
Qed.

(** C31: History shows what was settled.  The messages of a page are its entries in order:
    a person's message for an input, and for a response its folded message with the same
    parts in the same places, its own row's status and outcome, every interaction part
    with the status (and answer) its durable row holds, and on a tool call exactly the
    decision a person gave on it, so that a decided call no longer asks for approval. *)
Theorem history_shows_settlements page folded interactions msgs :
  history_messages page folded interactions = Ok msgs ->
  exists settlements decisions,
    settlements_of interactions = Ok settlements /\
    (forall id answer, (id, answer) ∈ decisions <-> decision_stands settlements id answer) /\
    Forall2 (entry_shows page folded settlements decisions) (hr_entries page) msgs.
Proof.
  intros H. unfold history_messages in H. apply bind_ok in H as (settlements & Hset & H).
  apply bind_ok in H as (decisions & Hdec & H). apply bind_ok in H as (inputs & Hin & H).
  apply bind_ok in H as (responses & Hresp & H). apply mapM_res_Forall2 in H.
  exists settlements, decisions. split; [done|]. split.
  { intros id a. split; [|by apply standing_decided]. pose proof (decisions_stand _ _ Hdec) as Hall.
    rewrite Forall_forall in Hall. apply (Hall (id, a)). }
  eapply Forall2_impl; [exact H|]. intros [kind seq] m He. unfold entry_message, entry_shows in *. cbn [fst snd] in *.
  destruct (kind =s "input").
  - apply bind_ok in He as (row & Hrow & Hm). destruct (row_at_found _ _ _ _ Hin Hrow). by exists row.
  - apply bind_ok in He as (row & Hrow & Hm). destruct (row_at_found _ _ _ _ Hresp Hrow) as [Hel Hseq].
    unfold response_message in Hm. apply bind_ok in Hm as (rid & Hrid%item_get & Hm). subst rid.
    destruct (Reader.assoc _ folded) as [m0|] eqn:Ef; [|done].
    apply bind_ok in Hm as (d & Hd & Hm). apply bind_ok in Hm as (st & Hst & Hm).
    apply bind_ok in Hm as (md & Hmd & <-%Ok_inj). cbn [m_id m_role m_parts m_metadata].
    exists row, m0. repeat (split; [done|]). split; [|by apply response_metadata_row in Hmd].
    apply mapM_res_Forall2 in Hd, Hst. revert st Hst. induction Hd as [|p0 p1 l0 l1 Hp Hd IH]; intros st Hst.
    + inversion Hst. constructor.
    + inversion Hst as [|? p ? l Hp1 Hst']; subst. constructor; [|by apply IH].
      exists p1. split; [by apply apply_decision_spec|by apply lay_settlement_spec].
Qed.

(** ** Witness *)

Definition demo_page : history_rows :=
  HistoryRows [("response", 1%Z)] []
    [[("seq", VInt 1); ("response_id", VStr "r1"); ("origin", VStr "input"); ("status", VStr "ended");
      ("outcome", VStr "completed")]].

Definition demo_folded : list (string * message) :=
  [("r1", Message "r1" "assistant"
     [[("type", VStr "tool-Bash"); ("toolCallId", VStr "c1"); ("state", VStr "approval-requested");
       ("approval", VDict [("id", VStr "x1")])];
      [("type", VStr "data-interaction"); ("data", VDict [("interaction_id", VStr "x1"); ("status", VStr "open")])]]
     [])].

Definition demo_interactions : list dict :=
  [[("interaction_id", VStr "x1"); ("status", VStr "answered"); ("answer", VDict [("decision", VStr "approve")])]].

Lemma history_shows_settlements_witness :
  match history_messages demo_page demo_folded demo_interactions with
  | Ok [m] =>
      map (fun p => Py.get "state" p) (m_parts m) = [VStr "approval-responded"; VNone] /\
      exists row, row ∈ hr_responses demo_page /\ Py.get "outcome" (m_metadata m) = Py.get "outcome" row
  | _ => False
  end.
Proof.
  destruct (history_messages demo_page demo_folded demo_interactions) as [[|m [|m' ms]]|e] eqn:E;
    try (vm_compute in E; discriminate E).
  destruct (history_shows_settlements _ _ _ _ E) as (settlements & decisions & _ & _ & H).
  inversion H as [|e ? m0 ? Hm _]; subst. destruct Hm as (row & _ & Hrow & _ & _ & _ & _ & _ & Hmeta). split.
  - vm_compute in E. injection E as <-. reflexivity.
  - exists row. split; [exact Hrow|]. rewrite Forall_forall in Hmeta. apply Hmeta. set_solver.
Defined.

End HistoryView.
