(* ===== verification/HistoryBlocks.v ===== *)
(** [session_runtime/history_blocks.py]: an ended response's work folded behind headers,
    each opening to exactly the parts it stands for. *)

From stdpp Require Import sorting.
From S2P Require Import Prelude PyVal Schema Interaction SessionRepo UiMessage.

Open Scope string_scope.

Module Blocks.
Import Repo Ui.

Definition PROCESS_BLOCK_PART := "data-process-block".

(** Data parts the console shows on their own. *)
Definition STANDALONE_PARTS : list string :=
  ["data-result"; "data-raw-event"; "data-api-retry"; "data-interaction"; "data-tool-card";
   "data-input-consumed"; PROCESS_BLOCK_PART].
(** Standalone parts a fold leaves in view wherever they sit. *)
Definition ALERT_PARTS : list string :=
  ["data-result"; "data-raw-event"; "data-api-retry"; "data-interaction"; "data-input-consumed"].
Definition FAILED_TOOL_STATES : list string := ["output-error"; "output-denied"].
(** A call that never returned. *)
Definition UNFINISHED_TOOL_STATES : list string :=
  ["input-streaming"; "input-available"; "approval-requested"; "approval-responded"].

(** [summary_text] is the list its JSON text encodes. *)
Record Fold := MkFold {
  fd_parts : list dict;
  fd_details : list (string * list dict);
  fd_summary : option (list dict);
  fd_response_completed : bool
}.

Record group := MkGroup { gr_indexes : list nat; gr_process : bool }.

(** ** What kind of part it is *)

Definition type_of (part : dict) : string := key_of "type" part.

Definition is_tool (part : dict) : bool :=
  let kind := type_of part in (kind =s "dynamic-tool") || Py.startswith "tool-" kind.

Definition tool_state (part : dict) : string := key_of "state" part.

Definition tool_failed (part : dict) : bool :=
  let state := tool_state part in
  if Py.in_strs state FAILED_TOOL_STATES then true
  else (state =s "approval-responded") &&
       match Py.get "approval" part with
       | VDict approval => Py.is_false (Py.get "approved" approval)
       | _ => false
       end.

Definition is_process (part : dict) : bool :=
  (type_of part =s "reasoning") || (is_tool part && (tool_state part =s "output-available")).

(** A step boundary or a data part carried beside the work. *)
Definition is_carried (part : dict) : bool :=
  let kind := type_of part in
  (kind =s "step-start") || (Py.startswith "data-" kind && negb (Py.in_strs kind STANDALONE_PARTS)).

Definition is_blank_text (part : dict) : bool :=
  (type_of part =s "text") && Py.is_empty (Py.strip (key_of "text" part)).

(** ** Groups *)

(** One turn of the loop of [_groups]. *)
Definition add_to_groups (groups : list group) (entry : nat * dict) : list group :=
  let '(index, part) := entry in
  if is_carried part || is_blank_text part then groups
  else
    let process := is_process part in
    match last groups with
    | Some g =>
        if process && gr_process g
        then (removelast groups ++ [MkGroup (gr_indexes g ++ [index]) (gr_process g)])%list
        else (groups ++ [MkGroup [index] process])%list
    | None => (groups ++ [MkGroup [index] process])%list
    end.

Definition groups_of (parts : list dict) : list group :=
  fold_left add_to_groups (imap pair parts) [].

(** [parts[i]]; every index the fold uses is one of the list's. *)
Definition part_at (parts : list dict) (i : nat) : dict := default [] (parts !! i).

Definition indexes_of (groups : list group) : list nat := concat (map gr_indexes groups).

(** ** The fold *)

Definition has_tool (parts : list dict) (g : group) : bool :=
  existsb (fun i => is_tool (part_at parts i)) (gr_indexes g).

(** [last_tool], from 0 with [-1] for none. *)
Definition last_tool (parts : list dict) (groups : list group) : Z :=
  default (-1)%Z (last (omap (fun e => if has_tool parts (snd e) then Some (Z.of_nat (fst e)) else None)
                         (imap pair groups))).

(** [groups[: last_tool + 1]] and [groups[last_tool + 1 :]]. *)
Definition worked (parts : list dict) (groups : list group) : list group :=
  take (Z.to_nat (last_tool parts groups + 1)) groups.
Definition after_work (parts : list dict) (groups : list group) : list group :=
  drop (Z.to_nat (last_tool parts groups + 1)) groups.

Definition first_is_text (parts : list dict) (g : group) : bool :=
  match gr_indexes g with i :: _ => type_of (part_at parts i) =s "text" | [] => false end.

Definition has_conclusion (parts : list dict) (groups : list group) : bool :=
  existsb (first_is_text parts) (after_work parts groups).

(** [alert(group)], by part; [concluded] is [completed and conclusion]. *)
Definition alert_part (concluded : bool) (part : dict) : bool :=
  Py.in_strs (type_of part) ALERT_PARTS ||
  (is_tool part && (Py.in_strs (tool_state part) UNFINISHED_TOOL_STATES ||
                    (negb concluded && tool_failed part))).

Definition alert (parts : list dict) (concluded : bool) (g : group) : bool :=
  existsb (fun i => alert_part concluded (part_at parts i)) (gr_indexes g).

Definition waiting_for_approval (parts : list dict) : bool :=
  existsb (fun p => is_tool p && (tool_state p =s "approval-requested")) parts.

Definition has_input_boundary (parts : list dict) : bool :=
  existsb (fun p => type_of p =s "data-input-consumed") parts.

(** The headers: the indexes each stands for and whether a label describes it. *)
Definition headers_of (parts : list dict) (outcome : option string) : list (list nat * bool) :=
  let completed := opt_is "completed" outcome in
  let stopped := opt_is "failed" outcome || opt_is "cancelled" outcome in
  let groups := groups_of parts in
  let conclusion := has_conclusion parts groups in
  let folded := List.filter (fun g => negb (alert parts (completed && conclusion) g)) (worked parts groups) in
  if (0 <=? last_tool parts groups)%Z && negb (waiting_for_approval parts) &&
     match folded with [] => false | _ => true end && negb (has_input_boundary parts) &&
     ((completed && conclusion) || stopped)
  then [(merge_sort Nat.le (indexes_of folded), true)]
  else if completed || stopped
  then map (fun g => (gr_indexes g, false)) (List.filter gr_process groups)
  else [].

Definition block_id (message_id : string) (index : nat) : string := message_id ++ ":p" ++ pretty index.

(** [indexes[0]]. *)
Definition first_index (indexes : list nat) : nat := default 0 (head indexes).

Definition header_part (parts : list dict) (message_id session_id cursor : string)
  (h : list nat * bool) : dict :=
  let '(indexes, summarize) := h in
  let id := block_id message_id (first_index indexes) in
  [("type", VStr PROCESS_BLOCK_PART); ("id", VStr id);
   ("data", VDict [("block_id", VStr id); ("cursor", VStr cursor); ("session_id", VStr session_id);
      ("message_id", VStr message_id);
      ("tool_count", VInt (Z.of_nat (length (List.filter (fun i => is_tool (part_at parts i)) indexes))));
      ("summarize", VBool summarize); ("summary", VNone)])].

(** [details[block_id] = ..] for each header in turn. *)
Fixpoint set_detail (id : string) (ps : list dict) (details : list (string * list dict))
  : list (string * list dict) :=
  match details with
  | [] => [(id, ps)]
  | (id', qs) :: rest => if id' =s id then (id, ps) :: rest else (id', qs) :: set_detail id ps rest
  end.

Definition details_of (parts : list dict) (message_id : string) (headers : list (list nat * bool))
  : list (string * list dict) :=
  fold_left (fun ds h => set_detail (block_id message_id (first_index (fst h)))
                           (map (part_at parts) (fst h)) ds) headers [].

Definition get_detail (id : string) (details : list (string * list dict)) : option (list dict) :=
  match List.find (fun e => fst e =s id) details with Some e => Some (snd e) | None => None end.

(** [header_at.get(index)]: a later header at the same index would replace an earlier. *)
Definition header_at (headers : list (list nat * bool)) (index : nat) : option (list nat * bool) :=
  last (List.filter (fun h => (first_index (fst h) =? index)%nat) headers).

Definition hidden (headers : list (list nat * bool)) (index : nat) : bool :=
  existsb (fun h => existsb (Nat.eqb index) (fst h)) headers.

(** What one index of the response shows. *)
Definition show_index (parts : list dict) (message_id session_id cursor : string)
  (headers : list (list nat * bool)) (entry : nat * dict) : list dict :=
  let '(index, part) := entry in
  (match header_at headers index with
   | Some h => [header_part parts message_id session_id cursor h]
   | None => []
   end ++ (if hidden headers index then [] else [part]))%list.

(** [fold_parts]. *)
Definition fold_parts (parts : list dict) (outcome : option string)
  (message_id session_id cursor : string) : Fold :=
  match headers_of parts outcome with
  | [] => MkFold parts [] None false
  | ((indexes, summarize) :: _) as headers =>
      let details := details_of parts message_id headers in
      MkFold (flat_map (show_index parts message_id session_id cursor headers) (imap pair parts))
        details
        (if summarize : bool
         then Some (List.filter (fun p => (type_of p =s "text") || is_tool p)
                 (default [] (get_detail (block_id message_id (first_index indexes)) details)))
         else None)
        (opt_is "completed" outcome)
  end.

(** ** Groups stand for indexes of the response, in order *)

Lemma imap_pair_seq (parts : list dict) :
  imap pair parts = map (fun i => (i, part_at parts i)) (seq 0 (length parts)).
Proof.
  apply list_eq. intros i. rewrite list_lookup_imap. unfold part_at.
  destruct (decide (i < length parts)) as [Hi|Hi].
  - rewrite list_lookup_fmap, lookup_seq_lt by done. cbn.
    destruct (lookup_lt_is_Some_2 parts i Hi) as [p ->]. done.
  - rewrite (lookup_ge_None_2 parts) by lia. symmetry. apply lookup_ge_None_2.
    rewrite length_map, length_seq. lia.
Qed.

Definition grouped (part : dict) : bool := negb (is_carried part || is_blank_text part).

Lemma indexes_of_app g1 g2 : indexes_of (g1 ++ g2) = (indexes_of g1 ++ indexes_of g2)%list.
Proof. unfold indexes_of. by rewrite map_app, concat_app. Qed.

Lemma add_to_groups_indexes gs i p :
  indexes_of (add_to_groups gs (i, p)) = (indexes_of gs ++ if grouped p then [i] else [])%list.
Proof.
  cbn [add_to_groups]. unfold grouped. destruct (_ || _); cbn [negb]; [by rewrite app_nil_r|].
  destruct (last gs) as [g|] eqn:El; [|by rewrite indexes_of_app].
  apply last_Some in El as [gs' ->]. destruct (_ && _); [|by rewrite indexes_of_app].
  rewrite removelast_last, !indexes_of_app. unfold indexes_of at 2 4. cbn.
  by rewrite !app_nil_r, app_assoc.
Qed.

Lemma groups_from_indexes l gs :
  indexes_of (fold_left add_to_groups l gs) =
  (indexes_of gs ++ map fst (List.filter (fun e => grouped (snd e)) l))%list.
Proof.
  revert gs. induction l as [|[i p] l IH]; intros gs; cbn [fold_left]; [by rewrite app_nil_r|].
  rewrite IH, add_to_groups_indexes. cbn [List.filter snd].
  destruct (grouped p); cbn [map fst]; by rewrite <-app_assoc.
Qed.

Lemma groups_indexes parts :
  indexes_of (groups_of parts) = List.filter (fun i => grouped (part_at parts i)) (seq 0 (length parts)).
Proof.
  unfold groups_of. rewrite groups_from_indexes, imap_pair_seq. change (indexes_of []) with (@nil nat). cbn [app].
  induction (seq 0 (length parts)) as [|i l IH]; [done|]. cbn. destruct (grouped _); cbn; by rewrite IH.
Qed.

(** Every group stands for something, and a process group for process parts only. *)
Definition group_ok (parts : list dict) (g : group) : Prop :=
  gr_indexes g <> [] /\
  Forall (fun i => grouped (part_at parts i) = true) (gr_indexes g) /\
  (gr_process g = true -> Forall (fun i => is_process (part_at parts i) = true) (gr_indexes g)) /\
  (gr_process g = false -> exists i, gr_indexes g = [i]).

Lemma groups_ok parts : Forall (group_ok parts) (groups_of parts).
Proof.
  unfold groups_of. rewrite imap_pair_seq. generalize (seq 0 (length parts)). intros l.
  assert (H : Forall (group_ok parts) []) by constructor. revert H. generalize (@nil group).
  induction l as [|i l IH]; intros gs Hgs; cbn [map fold_left]; [done|]. apply IH. cbn [add_to_groups].
  destruct (_ || _) eqn:Eg; [done|].
  assert (Hnew : group_ok parts (MkGroup [i] (is_process (part_at parts i)))).
  { split; [done|]. unfold grouped. cbn [gr_indexes gr_process].
    split; [by rewrite Forall_singleton, Eg|]. split; [|eauto]. intros Hp. by rewrite Forall_singleton. }
  destruct (last gs) as [g|] eqn:El; [|apply Forall_app; split; [done|by constructor]].
  destruct (is_process _ && gr_process g) eqn:Ep; [|apply Forall_app; split; [done|by constructor]].
  apply last_Some in El as [gs' ->]. apply Forall_app in Hgs as [Hgs' [(Hne & Hall & Hpr & _) _]%Forall_cons_1].
  rewrite removelast_last. apply andb_true_iff in Ep as [Ep1 Ep2].
  apply Forall_app. split; [done|]. constructor; [|constructor]. unfold group_ok. cbn [gr_indexes gr_process].
  split; [by destruct (gr_indexes g)|]. rewrite Ep2. split; [|split; [|done]].
  - apply Forall_app. split; [done|]. constructor; [|constructor]. unfold grouped. by rewrite Eg.
  - intros _. apply Forall_app. split; [auto|by constructor].
Qed.

(** ** Headers *)

Lemma sublist_sorted {A} (R : A -> A -> Prop) (l k : list A) :
  l `sublist_of` k -> StronglySorted R k -> StronglySorted R l.
Proof.
  induction 1 as [|x l k Hs IH|x l k Hs IH]; intros Hk; [constructor|..]; inversion_clear Hk as [|?? Hk' Hx].
  - constructor; [auto|]. rewrite Forall_forall in *. intros y Hy. apply Hx.
    by eapply elem_of_submseteq, sublist_submseteq.
  - auto.
Qed.

Lemma seq_sorted a n : StronglySorted lt (seq a n).
Proof.
  revert a. induction n as [|n IH]; intros a; cbn; constructor; [done|].
  apply Forall_forall. intros x Hx%elem_of_seq. lia.
Qed.

Lemma indexes_of_sublist g1 g2 : g1 `sublist_of` g2 -> indexes_of g1 `sublist_of` indexes_of g2.
Proof.
  unfold indexes_of. induction 1 as [|g l k Hs IH|g l k Hs IH]; cbn; [done|by apply sublist_app|].
  by apply sublist_inserts_l.
Qed.

Lemma groups_sublist_sorted parts gs :
  gs `sublist_of` groups_of parts -> StronglySorted lt (indexes_of gs).
Proof.
  intros Hs. eapply sublist_sorted; [by apply indexes_of_sublist|]. rewrite groups_indexes.
  eapply sublist_sorted; [apply list_filter_sublist|apply seq_sorted].
Qed.

(** The headers stand for groups of the response, as they lie in it. *)
Lemma headers_are_groups parts outcome :
  exists gs, gs `sublist_of` groups_of parts /\
    concat (map fst (headers_of parts outcome)) = indexes_of gs /\
    Forall (fun h => fst h <> []) (headers_of parts outcome).
Proof.
  unfold headers_of. set (gs := groups_of parts).
  set (folded := List.filter _ (worked parts gs)).
  assert (Hfolded : folded `sublist_of` gs).
  { etrans; [apply list_filter_sublist|]. apply sublist_take. }
  assert (Hok : Forall (group_ok parts) gs) by apply groups_ok.
  match goal with |- context [if ?c then [(_, true)] else _] => destruct c eqn:E end.
  - exists folded. split; [done|]. cbn [map concat fst]. rewrite app_nil_r.
    assert (Hsort : merge_sort Nat.le (indexes_of folded) = indexes_of folded).
    { apply (StronglySorted_unique Nat.le); [apply StronglySorted_merge_sort; apply _| |apply merge_sort_Permutation].
      apply groups_sublist_sorted in Hfolded. induction Hfolded as [|i l Hl IH Hall]; constructor; [done|].
      eapply Forall_impl; [exact Hall|]. cbn. intros. unfold Nat.le. lia. }
    rewrite Hsort. split; [done|]. constructor; [|constructor]. cbn [fst].
    apply andb_true_iff in E as [[[_ E]%andb_true_iff _]%andb_true_iff _]. destruct folded as [|g rest] eqn:Ef; [done|].
    assert (Hg : group_ok parts g).
    { rewrite Forall_forall in Hok. apply Hok. eapply elem_of_submseteq; [|by apply sublist_submseteq].
      left. }
    destruct Hg as [Hne _]. unfold indexes_of. cbn. by destruct (gr_indexes g).
  - clear E. destruct (_ || _).
    + exists (List.filter gr_process gs). split; [apply list_filter_sublist|].
      assert (Hm : map fst (map (fun g => (gr_indexes g, false)) (List.filter gr_process gs))
        = map gr_indexes (List.filter gr_process gs)) by (rewrite map_map; done).
      rewrite Hm. split; [done|]. apply Forall_fmap, Forall_forall. intros g Hg. cbn.
      assert (Hok' : group_ok parts g).
      { rewrite Forall_forall in Hok. apply Hok. eapply elem_of_submseteq; [exact Hg|].
        apply sublist_submseteq, list_filter_sublist. }
      by destruct Hok'.
    + exists []. split; [apply sublist_nil_l|]. split; [done|constructor].
Qed.

Lemma headers_sorted parts outcome : StronglySorted lt (concat (map fst (headers_of parts outcome))).
Proof.
  destruct (headers_are_groups parts outcome) as (gs & Hs & -> & _). by apply groups_sublist_sorted in Hs.
Qed.

Lemma headers_in_range parts outcome i :
  i ∈ concat (map fst (headers_of parts outcome)) -> i < length parts /\ grouped (part_at parts i) = true.
Proof.
  destruct (headers_are_groups parts outcome) as (gs & Hs & -> & _). intros Hi.
  assert (Hi' : i ∈ indexes_of (groups_of parts)).
  { eapply elem_of_submseteq; [exact Hi|]. by apply sublist_submseteq, indexes_of_sublist. }
  rewrite groups_indexes in Hi'. apply list_elem_of_In, filter_In in Hi' as [Hi' Hg].
  apply List.in_seq in Hi'. split; [lia|done].
Qed.

(** ** Where each part goes *)

(** A shown part with, for a header, its block's id. *)
Definition labelled_index (parts : list dict) (message_id session_id cursor : string)
  (headers : list (list nat * bool)) (index : nat) : list (dict * option string) :=
  (match header_at headers index with
   | Some h => [(header_part parts message_id session_id cursor h,
                 Some (block_id message_id (first_index (fst h))))]
   | None => []
   end ++ (if hidden headers index then [] else [(part_at parts index, None)]))%list.

Lemma show_index_labelled parts mid sid cursor headers i :
  show_index parts mid sid cursor headers (i, part_at parts i) =
  map fst (labelled_index parts mid sid cursor headers i).
Proof.
  unfold show_index, labelled_index. rewrite map_app.
  by destruct (header_at headers i) as [h|], (hidden headers i).
Qed.

Lemma flat_map_cond {A B} (f : A -> list B) (g : A -> B) (p : A -> bool) (l : list A) :
  (forall a, f a = if p a then [] else [g a]) ->
  flat_map f l = map g (List.filter (fun a => negb (p a)) l).
Proof. intros Hf. induction l as [|a l IH]; cbn; [done|]. rewrite Hf, IH. by destruct (p a). Qed.

Lemma flat_map_app_perm {A B} (f g : A -> list B) l :
  flat_map (fun a => f a ++ g a)%list l ≡ₚ (flat_map f l ++ flat_map g l)%list.
Proof.
  induction l as [|a l IH]; cbn; [done|]. rewrite IH, !app_assoc. apply Permutation_app_tail.
  rewrite <-!app_assoc. apply Permutation_app_head, Permutation_app_comm.
Qed.

Lemma flat_map_at {B} (k : nat) (F : list B) (G : nat -> list B) (l : list nat) :
  NoDup l -> k ∈ l -> G k = [] ->
  flat_map (fun i => if (k =? i)%nat then F else G i) l ≡ₚ (F ++ flat_map G l)%list.
Proof.
  intros Hnd Hk HG. induction Hnd as [|i l Hi Hnd IH]; [by apply not_elem_of_nil in Hk|]. cbn.
  destruct (Nat.eqb_spec k i) as [->|Hne].
  - rewrite HG. cbn. apply Permutation_app_head.
    clear IH Hk. induction l as [|j l IH]; cbn; [done|].
    apply not_elem_of_cons in Hi as [Hij Hi]. apply NoDup_cons in Hnd as [_ Hnd].
    destruct (Nat.eqb_spec i j); [done|]. by rewrite IH.
  - apply elem_of_cons in Hk as [|Hk]; [done|]. rewrite IH by done.
    rewrite !app_assoc. apply Permutation_app_tail, Permutation_app_comm.
Qed.

Lemma filter_false {A} (f : A -> bool) l : Forall (fun a => f a = false) l -> List.filter f l = [].
Proof. induction 1 as [|a l Ha _ IH]; cbn; [done|]. by rewrite Ha. Qed.

Lemma header_at_cons h hs i :
  first_index (fst h) ∉ map (fun h => first_index (fst h)) hs ->
  header_at (h :: hs) i = if (first_index (fst h) =? i)%nat then Some h else header_at hs i.
Proof.
  intros Hn. unfold header_at. cbn [List.filter].
  destruct (Nat.eqb_spec (first_index (fst h)) i) as [<-|]; [|done].
  rewrite filter_false; [done|]. apply Forall_forall. intros x Hx. apply Nat.eqb_neq. intros Hxi. apply Hn.
  rewrite <-Hxi. by apply (list_elem_of_fmap_2 (fun h => first_index (fst h))).
Qed.

(** Each header shows once, at the first index it stands for. *)
Lemma headers_shown {B} (F : list nat * bool -> list B) hs l :
  NoDup (map (fun h => first_index (fst h)) hs) -> NoDup l ->
  Forall (fun h => first_index (fst h) ∈ l) hs ->
  flat_map (fun i => match header_at hs i with Some h => F h | None => [] end) l ≡ₚ flat_map F hs.
Proof.
  intros Hnd Hl. induction hs as [|h hs IH]; intros Hin.
  - cbn. induction l as [|i l IHl]; [done|]. cbn. apply IHl; [by inversion Hl|constructor].
  - cbn [map] in Hnd. apply NoDup_cons in Hnd as [Hh Hnd]. inversion_clear Hin as [|?? Hh' Hin'].
    cbn [flat_map]. rewrite <-(IH Hnd Hin').
    etrans; [|apply (flat_map_at (first_index (fst h))); [done|done|]].
    + apply Permutation_refl', flat_map_ext. intros i. rewrite header_at_cons by done.
      by destruct (_ =? _)%nat.
    + unfold header_at. rewrite filter_false; [done|]. apply Forall_forall. intros x Hx. apply Nat.eqb_neq.
      intros Hxi. apply Hh. rewrite <-Hxi. by apply (list_elem_of_fmap_2 (fun h => first_index (fst h))).
Qed.

Lemma hidden_true hs i : hidden hs i = true <-> i ∈ concat (map fst hs).
Proof.
  unfold hidden. rewrite existsb_true, list_elem_of_In, in_concat. split.
  - intros (h & Hh & (j & Hj & ->%Nat.eqb_eq)%existsb_true). exists (fst h).
    split; [by apply in_map, list_elem_of_In|by apply list_elem_of_In].
  - intros (ix & (h & <- & Hh)%in_map_iff & Hi). exists h. split; [by apply list_elem_of_In|].
    apply existsb_true. exists i. split; [by apply list_elem_of_In|apply Nat.eqb_refl].
Qed.

Lemma sorted_NoDup l : StronglySorted lt l -> NoDup l.
Proof.
  induction 1 as [|i l Hs IH Hall]; constructor; [|done]. intros Hi. rewrite Forall_forall in Hall.
  apply Hall in Hi. lia.
Qed.

Definition firsts (hs : list (list nat * bool)) : list nat := map (fun h => first_index (fst h)) hs.

Lemma firsts_sublist (hs : list (list nat * bool)) :
  Forall (fun h => fst h <> []) hs -> firsts hs `sublist_of` concat (map fst hs).
Proof.
  induction 1 as [|[ix b] hs Hne _ IH]; [constructor|]. cbn [firsts map concat fst] in *.
  destruct ix as [|i ix]; [done|]. cbn. constructor. by apply sublist_inserts_l.
Qed.

Lemma firsts_NoDup parts outcome : NoDup (firsts (headers_of parts outcome)).
Proof.
  pose proof (headers_sorted parts outcome) as Hs%sorted_NoDup.
  destruct (headers_are_groups parts outcome) as (_ & _ & _ & Hne).
  by eapply sublist_NoDup; [|apply firsts_sublist].
Qed.

Lemma block_id_inj mid i j : block_id mid i = block_id mid j -> i = j.
Proof. intros H. unfold block_id in H. by apply (inj (String.append _)), (inj (String.append _)), (inj pretty) in H. Qed.

Definition detail_of (parts : list dict) (mid : string) (h : list nat * bool) : string * list dict :=
  (block_id mid (first_index (fst h)), map (part_at parts) (fst h)).

Lemma set_detail_new id ps ds : id ∉ map fst ds -> set_detail id ps ds = (ds ++ [(id, ps)])%list.
Proof.
  induction ds as [|[id' qs] ds IH]; cbn; [done|]. intros [Hne Hn]%not_elem_of_cons.
  rewrite (proj2 (String.eqb_neq id' id)) by done. by rewrite IH.
Qed.

Lemma details_eq parts mid hs : NoDup (firsts hs) -> details_of parts mid hs = map (detail_of parts mid) hs.
Proof.
  intros Hnd. unfold details_of.
  enough (H : forall pre, NoDup (firsts (pre ++ hs)) ->
    fold_left (fun ds h => set_detail (block_id mid (first_index (fst h))) (map (part_at parts) (fst h)) ds) hs
      (map (detail_of parts mid) pre) = map (detail_of parts mid) (pre ++ hs)%list) by (by apply (H [])).
  clear Hnd. induction hs as [|h hs IH]; intros pre Hnd; cbn [fold_left]; [by rewrite app_nil_r|].
  rewrite set_detail_new.
  - specialize (IH (pre ++ [h])%list). rewrite map_app, <-app_assoc in IH. cbn [map app] in IH. by apply IH.
  - unfold firsts in Hnd. rewrite map_app in Hnd. cbn [map] in Hnd.
    apply NoDup_app in Hnd as (_ & Hd & _). rewrite map_map. cbn. intros (h' & Heq%block_id_inj & Hh')%list_elem_of_fmap.
    apply (Hd (first_index (fst h'))); [|rewrite <-Heq; left].
    by apply (list_elem_of_fmap_2 (fun h => first_index (fst h))).
Qed.

Lemma get_detail_of parts mid hs h :
  NoDup (firsts hs) -> h ∈ hs ->
  get_detail (fst (detail_of parts mid h)) (map (detail_of parts mid) hs) = Some (snd (detail_of parts mid h)).
Proof.
  intros Hnd Hh. unfold get_detail.
  induction hs as [|h' hs IH]; [by apply not_elem_of_nil in Hh|]. cbn [map List.find].
  apply NoDup_cons in Hnd as [Hn Hnd]. apply elem_of_cons in Hh as [->|Hh]; [by rewrite String.eqb_refl|].
  rewrite (proj2 (String.eqb_neq _ _)); [by apply IH|]. cbn [detail_of fst]. intros Heq%block_id_inj.
  apply Hn. rewrite Heq. by apply (list_elem_of_fmap_2 (fun h => first_index (fst h))).
Qed.

Lemma parts_at_all parts : map (part_at parts) (seq 0 (length parts)) = parts.
Proof.
  transitivity (map snd (imap pair parts)); [by rewrite imap_pair_seq, map_map|].
  apply list_eq. intros i. rewrite list_lookup_fmap, list_lookup_imap. by destruct (parts !! i).
Qed.

Lemma filter_split_perm {A} (f : A -> bool) l :
  l ≡ₚ (List.filter f l ++ List.filter (fun a => negb (f a)) l)%list.
Proof.
  induction l as [|a l IH]; [done|]. cbn. destruct (f a); cbn; [by constructor|].
  etrans; [by constructor; exact IH|]. apply Permutation_middle.
Qed.

Lemma map_sublist {A B} (f : A -> B) l k : l `sublist_of` k -> map f l `sublist_of` map f k.
Proof. induction 1; cbn; by constructor. Qed.

(** Sorted indexes of the response name a subsequence of its parts. *)
Lemma sorted_parts_sublist parts l :
  StronglySorted lt l -> Forall (fun i => i < length parts) l -> map (part_at parts) l `sublist_of` parts.
Proof.
  intros Hs Hl. rewrite <-(parts_at_all parts) at 2. apply map_sublist.
  assert (H : forall n a, StronglySorted lt l -> Forall (fun i => a <= i < a + n) l -> l `sublist_of` seq a n).
  { clear Hs Hl. intros n. revert l. induction n as [|n IH]; intros l a Hs Hl.
    - destruct l as [|i l]; [done|]. inversion_clear Hl. lia.
    - cbn. destruct l as [|i l]; [apply sublist_nil_l|]. inversion_clear Hs as [|?? Hs' Hall].
      inversion_clear Hl as [|?? Hi Hl']. rewrite Forall_forall in Hall, Hl'.
      destruct (decide (i = a)) as [->|Hne].
      + constructor. apply IH; [done|]. apply Forall_forall. intros j Hj.
        specialize (Hall j Hj). specialize (Hl' j Hj). cbn in Hall. lia.
      + constructor. apply IH; [by constructor; [|apply Forall_forall]|]. constructor; [lia|].
        apply Forall_forall. intros j Hj. specialize (Hall j Hj). specialize (Hl' j Hj). cbn in Hall. lia. }
  apply H; [done|]. eapply Forall_impl; [exact Hl|]. cbn. lia.
Qed.

(** What a shown part stands for once every header is opened. *)
Definition opened (details : list (string * list dict)) (shown : dict * option string) : list dict :=
  match snd shown with
  | Some id => default [] (get_detail id details)
  | None => [fst shown]
  end.

Lemma omap_flat_map {A B C} (f : B -> option C) (g : A -> list B) l :
  omap f (flat_map g l) = flat_map (fun a => omap f (g a)) l.
Proof.
  induction l as [|a l IH]; [done|]. change (flat_map g (a :: l)) with (g a ++ flat_map g l)%list.
  by rewrite omap_app, IH.
Qed.

Section Conserve.
Context (parts : list dict) (hs : list (list nat * bool)).
Context (Hfirsts : NoDup (firsts hs)) (Hne : Forall (fun h => fst h <> []) hs)
  (Hsorted : StronglySorted lt (concat (map fst hs)))
  (Hrange : Forall (fun i => i < length parts) (concat (map fst hs))).

Lemma first_in_range h : h ∈ hs -> first_index (fst h) ∈ seq 0 (length parts).
Proof.
  intros Hh. rewrite Forall_forall in Hrange. apply elem_of_seq. split; [lia|]. apply Hrange.
  eapply elem_of_submseteq; [|by apply sublist_submseteq, firsts_sublist].
  by apply (list_elem_of_fmap_2 (fun h => first_index (fst h))).
Qed.

Lemma hidden_parts : List.filter (hidden hs) (seq 0 (length parts)) ≡ₚ concat (map fst hs).
Proof.
  apply NoDup_Permutation.
  - apply NoDup_ListNoDup, List.NoDup_filter, NoDup_ListNoDup, NoDup_seq.
  - by apply sorted_NoDup.
  - intros i. rewrite <-hidden_true, list_elem_of_In, filter_In, List.in_seq. split; [by intros [_ ?]|].
    intros Hi. split; [|done]. apply hidden_true in Hi. rewrite Forall_forall in Hrange.
    specialize (Hrange i Hi). lia.
Qed.

Lemma opened_parts mid sid cursor :
  flat_map (opened (details_of parts mid hs))
    (flat_map (labelled_index parts mid sid cursor hs) (seq 0 (length parts))) ≡ₚ parts.
Proof.
  set (F := fun h : list nat * bool => map (part_at parts) (fst h)).
  assert (Hat : forall i, flat_map (opened (details_of parts mid hs)) (labelled_index parts mid sid cursor hs i)
    = ((match header_at hs i with Some h => F h | None => [] end) ++
       (if hidden hs i then [] else [part_at parts i]))%list).
  { intros i. unfold labelled_index. rewrite flat_map_app. f_equal.
    - destruct (header_at hs i) as [h|] eqn:Eh; [|done]. cbn [flat_map opened snd]. rewrite app_nil_r.
      assert (Hh : h ∈ hs).
      { apply last_Some in Eh as [l Eh]. apply list_elem_of_In, (filter_In (fun h => first_index (fst h) =? i)%nat).
        rewrite Eh. apply in_or_app. right. by left. }
      rewrite details_eq by done.
      pose proof (get_detail_of parts mid hs h Hfirsts Hh) as Hg. cbn [detail_of fst snd] in Hg. by rewrite Hg.
    - by destruct (hidden hs i). }
  assert (Hflat : forall l, flat_map (opened (details_of parts mid hs))
      (flat_map (labelled_index parts mid sid cursor hs) l)
    = flat_map (fun i => (match header_at hs i with Some h => F h | None => [] end) ++
       (if hidden hs i then [] else [part_at parts i]))%list l).
  { induction l as [|i l IH]; [done|]. cbn [flat_map]. by rewrite flat_map_app, Hat, IH. }
  rewrite Hflat, flat_map_app_perm.
  rewrite (headers_shown F) by (done || apply NoDup_seq || (apply Forall_forall, first_in_range)).
  rewrite (flat_map_cond _ (part_at parts) (hidden hs)) by done.
  assert (HF : flat_map F hs = map (part_at parts) (concat (map fst hs))).
  { clear. induction hs as [|h l IH]; [done|]. cbn. by rewrite map_app, IH. }
  rewrite HF, <-hidden_parts, <-map_app, <-filter_split_perm. by rewrite parts_at_all.
Qed.

Lemma visible_parts mid sid cursor :
  omap (fun x => match snd x with None => Some (fst x) | Some _ => None end)
    (flat_map (labelled_index parts mid sid cursor hs) (seq 0 (length parts))) `sublist_of` parts.
Proof.
  rewrite <-(parts_at_all parts) at 3. generalize (seq 0 (length parts)). intros l.
  induction l as [|i l IH]; [constructor|]. cbn [flat_map map]. rewrite omap_app.
  unfold labelled_index at 1. destruct (header_at hs i) as [h|], (hidden hs i); cbn; by constructor.
Qed.

Lemma header_ids mid sid cursor :
  omap snd (flat_map (labelled_index parts mid sid cursor hs) (seq 0 (length parts)))
  ≡ₚ map fst (details_of parts mid hs).
Proof.
  rewrite details_eq by done. rewrite map_map.
  set (F := fun h : list nat * bool => [block_id mid (first_index (fst h))]).
  assert (HF : map (fun h => fst (detail_of parts mid h)) hs = flat_map F hs).
  { clear. induction hs as [|h l IH]; [done|]. cbn [map flat_map]. by rewrite IH. }
  rewrite HF, <-(headers_shown F hs (seq 0 (length parts)))
    by (done || apply NoDup_seq || (apply Forall_forall, first_in_range)).
  rewrite omap_flat_map, (flat_map_ext _ (fun i => match header_at hs i with Some h => F h | None => [] end));
    [done|].
  intros i. unfold labelled_index. by destruct (header_at hs i), (hidden hs i).
Qed.
End Conserve.

Lemma fold_parts_eq parts outcome mid sid cursor :
  let F := fold_parts parts outcome mid sid cursor in
  let hs := headers_of parts outcome in
  fd_details F = details_of parts mid hs /\
  fd_parts F = map fst (flat_map (labelled_index parts mid sid cursor hs) (seq 0 (length parts))).
Proof.
  cbv zeta. unfold fold_parts.
  assert (Hshow : forall hs, flat_map (show_index parts mid sid cursor hs) (imap pair parts)
    = map fst (flat_map (labelled_index parts mid sid cursor hs) (seq 0 (length parts)))).
  { intros hs. rewrite imap_pair_seq. induction (seq 0 (length parts)) as [|i l IH]; [done|].
    cbn [map flat_map]. by rewrite map_app, IH, show_index_labelled. }
  destruct (headers_of parts outcome) as [|[ix b] hs]; cbn [fd_details fd_parts]; [|split; [done|apply Hshow]].
  split; [done|]. rewrite <-(parts_at_all parts) at 1. generalize (seq 0 (length parts)). intros l.
  induction l as [|i l IH]; [done|]. cbn [map flat_map]. by rewrite map_app, <-IH.
Qed.

(** A header stands for parts of the response, in their order. *)
Lemma header_parts_sublist parts outcome h :
  h ∈ headers_of parts outcome -> map (part_at parts) (fst h) `sublist_of` parts.
Proof.
  intros Hh. assert (Hsub : fst h `sublist_of` concat (map fst (headers_of parts outcome))).
  { induction (headers_of parts outcome) as [|h' l IH]; [by apply not_elem_of_nil in Hh|]. cbn.
    apply elem_of_cons in Hh as [->|Hh]; [by apply sublist_inserts_r|by apply sublist_inserts_l, IH]. }
  apply sorted_parts_sublist; [eapply sublist_sorted; [exact Hsub|apply headers_sorted]|].
  apply Forall_forall. intros i Hi. apply (headers_in_range parts outcome).
  eapply elem_of_submseteq; [exact Hi|by apply sublist_submseteq].
Qed.

(** What a header shows for the label of its block. *)
Definition is_header_of (id mid sid cursor : string) (p : dict) : Prop :=
  Py.get "type" p = VStr PROCESS_BLOCK_PART /\ Py.get "id" p = VStr id /\
  exists count summarize, Py.get "data" p = VDict [("block_id", VStr id); ("cursor", VStr cursor);
    ("session_id", VStr sid); ("message_id", VStr mid); ("tool_count", VInt count);
    ("summarize", VBool summarize); ("summary", VNone)].

(** C28: Folding loses nothing and shows nothing twice.  The parts a folded response shows
    are its own parts, in its order, and headers; the headers' ids are exactly the blocks
    the fold keeps, each once; each block keeps parts of the response in their order; and
    opening every header gives back all the response's parts, each once. *)
Theorem fold_conserves_parts parts outcome mid sid cursor :
  let F := fold_parts parts outcome mid sid cursor in
  exists view : list (dict * option string),
    map fst view = fd_parts F /\
    omap (fun x => match snd x with None => Some (fst x) | Some _ => None end) view `sublist_of` parts /\
    Forall (fun x => match snd x with Some id => is_header_of id mid sid cursor (fst x) | None => True end) view /\
    omap snd view ≡ₚ map fst (fd_details F) /\ NoDup (map fst (fd_details F)) /\
    Forall (fun e => snd e `sublist_of` parts) (fd_details F) /\
    flat_map (opened (fd_details F)) view ≡ₚ parts.
Proof.
  cbv zeta. set (hs := headers_of parts outcome).
  destruct (fold_parts_eq parts outcome mid sid cursor) as [Hd Hp]. fold hs in Hd, Hp. rewrite Hd, Hp.
  assert (Hfirsts : NoDup (firsts hs)) by apply firsts_NoDup.
  destruct (headers_are_groups parts outcome) as (_ & _ & _ & Hne).
  pose proof (headers_sorted parts outcome) as Hs. fold hs in Hne, Hs.
  assert (Hr : Forall (fun i => i < length parts) (concat (map fst hs))).
  { apply Forall_forall. intros i Hi. by apply (headers_in_range parts outcome). }
  exists (flat_map (labelled_index parts mid sid cursor hs) (seq 0 (length parts))).
  split; [done|]. split; [by apply visible_parts|]. split; [|split; [by apply header_ids|split; [|split]]].
  - apply Forall_forall. intros x (i & _ & Hx)%list_elem_of_In%in_flat_map. unfold labelled_index in Hx.
    apply in_app_or in Hx as [Hx|Hx].
    + destruct (header_at hs i) as [[ix b]|]; [|done]. destruct Hx as [<-|[]]. cbn [snd fst].
      split; [done|]. split; [done|]. by do 2 eexists.
    + destruct (hidden hs i); [done|]. by destruct Hx as [<-|[]].
  - rewrite details_eq, map_map by done. unfold firsts in Hfirsts.
    change (NoDup (map (fun h => block_id mid (first_index (fst h))) hs)).
    rewrite <-(map_map (fun h : list nat * bool => first_index (fst h)) (block_id mid)).
    apply NoDup_fmap_2; [intros i j; apply block_id_inj|done].
  - rewrite details_eq by done. apply Forall_fmap, Forall_forall. intros h Hh. cbn.
    by apply (header_parts_sublist parts outcome).
  - by apply opened_parts.
Qed.

(** ** What may be folded *)

Lemma in_strs_cases s l : Py.in_strs s l = true -> s ∈ l.
Proof. unfold Py.in_strs. intros (x & Hx & E%String.eqb_eq)%existsb_true. by subst. Qed.

Lemma process_settled p :
  is_process p = true ->
  Py.in_strs (type_of p) ALERT_PARTS = false /\
  (is_tool p = true -> Py.in_strs (tool_state p) UNFINISHED_TOOL_STATES = false /\ tool_failed p = false).
Proof.
  unfold is_process, is_tool. intros Hp. split.
  - destruct (Py.in_strs _ _) eqn:E; [|done]. apply in_strs_cases in E. unfold ALERT_PARTS in E.
    repeat (apply elem_of_cons in E as [E|E]; [rewrite E in Hp; cbn in Hp; discriminate|]).
    by apply not_elem_of_nil in E.
  - intros Ht. rewrite Ht in Hp. destruct (type_of p =s "reasoning") eqn:Er.
    + apply String.eqb_eq in Er. rewrite Er in Ht. cbn in Ht. discriminate.
    + cbn in Hp. apply String.eqb_eq in Hp. unfold tool_failed. rewrite Hp. done.
Qed.

(** The fold's one header over everything, or one per process group. *)
Lemma headers_shape parts outcome h :
  h ∈ headers_of parts outcome ->
  let concluded := opt_is "completed" outcome && has_conclusion parts (groups_of parts) in
  (opt_is "completed" outcome = true \/ opt_is "failed" outcome = true \/ opt_is "cancelled" outcome = true) /\
  ((forall i, i ∈ fst h -> exists g, g ∈ worked parts (groups_of parts) /\ i ∈ gr_indexes g /\
      alert parts concluded g = false) \/
   (exists g, g ∈ groups_of parts /\ gr_process g = true /\ fst h = gr_indexes g)).
Proof.
  intros Hh. cbv zeta. unfold headers_of in Hh.
  match type of Hh with context [if ?c then [(_, true)] else _] => destruct c eqn:E end.
  - apply andb_true_iff in E as [_ E]. apply list_elem_of_singleton in Hh as ->. split.
    { apply orb_true_iff in E as [[E _]%andb_true_iff|E%orb_true_iff]; tauto. }
    left. cbn [fst]. intros i Hi. rewrite merge_sort_Permutation in Hi.
    apply list_elem_of_In, in_concat in Hi as (ix & (g & <- & [Hg Ha]%filter_In)%in_map_iff & Hi).
    exists g. apply negb_true_iff in Ha. by repeat split; [apply list_elem_of_In|apply list_elem_of_In|].
  - clear E. match type of Hh with context [if ?c then _ else []] => destruct c eqn:E end;
      [|by apply not_elem_of_nil in Hh].
    split. { apply orb_true_iff in E as [|E]; [tauto|]. apply orb_true_iff in E. tauto. }
    right. apply list_elem_of_In, in_map_iff in Hh as (g & <- & [Hg Hp]%filter_In). exists g.
    split; [by apply list_elem_of_In|done].
Qed.

Lemma detail_part_index parts outcome mid sid cursor id ps p :
  (id, ps) ∈ fd_details (fold_parts parts outcome mid sid cursor) -> p ∈ ps ->
  exists h i, h ∈ headers_of parts outcome /\ i ∈ fst h /\ p = part_at parts i.
Proof.
  destruct (fold_parts_eq parts outcome mid sid cursor) as [-> _].
  rewrite details_eq by apply firsts_NoDup. intros (h & [= -> ->] & Hh)%list_elem_of_fmap (i & -> & Hi)%list_elem_of_fmap.
  eauto.
Qed.

Lemma worked_sublist parts gs : worked parts gs `sublist_of` gs.
Proof. apply sublist_take. Qed.

(** C29: Only settled work is folded away.  A part behind a header belongs to a response
    that completed, failed or was cancelled; it is no outcome, decision or input boundary,
    no call that is still open or waits for a person, nothing the console carries beside
    the work; and a failed call is folded only where the response completed and said
    something after its last call. *)
Theorem fold_hides_only_settled_work parts outcome mid sid cursor id ps p :
  (id, ps) ∈ fd_details (fold_parts parts outcome mid sid cursor) -> p ∈ ps ->
  (opt_is "completed" outcome = true \/ opt_is "failed" outcome = true \/ opt_is "cancelled" outcome = true) /\
  Py.in_strs (type_of p) ALERT_PARTS = false /\ is_carried p = false /\ is_blank_text p = false /\
  (is_tool p = true -> Py.in_strs (tool_state p) UNFINISHED_TOOL_STATES = false) /\
  (is_tool p = true -> tool_failed p = true ->
   opt_is "completed" outcome = true /\ has_conclusion parts (groups_of parts) = true).
Proof.
  intros Hd Hp. destruct (detail_part_index _ _ _ _ _ _ _ _ Hd Hp) as (h & i & Hh & Hi & ->).
  assert (Hg : grouped (part_at parts i) = true).
  { apply (headers_in_range parts outcome). apply list_elem_of_In, in_concat. exists (fst h).
    split; [by apply in_map, list_elem_of_In|by apply list_elem_of_In]. }
  unfold grouped in Hg. apply negb_true_iff, orb_false_iff in Hg as [Hc Hb].
  destruct (headers_shape parts outcome h Hh) as [Ho [Hall|(g & Hg & Hpr & Heq)]]; (split; [exact Ho|]).
  - destruct (Hall i Hi) as (g & Hg & Hig & Ha). unfold alert in Ha. rewrite existsb_false in Ha.
    specialize (Ha i Hig). unfold alert_part in Ha. apply orb_false_iff in Ha as [Ha Ht].
    split; [done|]. split; [done|]. split; [done|].
    split; intros Htool; rewrite Htool in Ht; cbn [andb] in Ht; apply orb_false_iff in Ht as [Hu Hf]; [done|].
    intros Hfail. rewrite Hfail, andb_true_r in Hf. apply negb_false_iff, andb_true_iff in Hf. done.
  - assert (Hproc : is_process (part_at parts i) = true).
    { pose proof (groups_ok parts) as Hok. rewrite Forall_forall in Hok.
      destruct (Hok g Hg) as (_ & _ & Hall & _). specialize (Hall Hpr). rewrite Forall_forall in Hall.
      apply Hall. by rewrite <-Heq. }
    destruct (process_settled _ Hproc) as [Ha Ht]. split; [done|]. split; [done|]. split; [done|].
    split; intros Htool; destruct (Ht Htool) as [Hu Hf]; [done|]. congruence.
Qed.

Lemma last_tool_group parts gs :
  last_tool parts gs = (-1)%Z \/
  exists k g, last_tool parts gs = Z.of_nat k /\ gs !! k = Some g /\ has_tool parts g = true.
Proof.
  unfold last_tool. destruct (last _) as [z|] eqn:E; [|by left]. right. apply last_Some in E as [l E].
  assert (Hz : z ∈ omap (fun e => if has_tool parts (snd e) then Some (Z.of_nat (fst e)) else None) (imap pair gs)).
  { rewrite E. apply elem_of_app. right. left. }
  apply list_elem_of_omap in Hz as ([k g] & Hin & Hk). cbn in Hk.
  destruct (has_tool parts g) eqn:Et; [|done]. injection Hk as <-. exists k, g. split; [done|]. split; [|done].
  apply elem_of_lookup_imap in Hin as (k' & g' & [= -> ->] & ?). done.
Qed.

Lemma earlier_group gs m k g1 g2 i j :
  StronglySorted lt (indexes_of gs) -> gs !! m = Some g1 -> gs !! k = Some g2 -> m < k ->
  i ∈ gr_indexes g1 -> j ∈ gr_indexes g2 -> i < j.
Proof.
  intros Hs Hm Hk Hlt Hi Hj. rewrite <-(take_drop_middle gs k g2 Hk), indexes_of_app in Hs.
  apply (StronglySorted_app_1_elem_of _ _ _ i j Hs).
  - apply list_elem_of_In, in_concat. exists (gr_indexes g1).
    split; [|by apply list_elem_of_In]. apply in_map, list_elem_of_In.
    apply (list_elem_of_lookup_2 _ m). by rewrite lookup_take_lt.
  - apply list_elem_of_In, in_concat. exists (gr_indexes g2). split; [by left|by apply list_elem_of_In].
Qed.

(** What the fold's one header covers has a call at its end. *)
Lemma worked_before_tool parts g i :
  g ∈ worked parts (groups_of parts) -> i ∈ gr_indexes g ->
  is_process (part_at parts i) = false -> is_tool (part_at parts i) = false ->
  exists j, i < j /\ j < length parts /\ is_tool (part_at parts j) = true.
Proof.
  intros Hg Hi Hp Ht. unfold worked in Hg.
  destruct (last_tool_group parts (groups_of parts)) as [El|(k & gk & El & Hk & Htool)]; rewrite El in Hg;
    [by apply not_elem_of_nil in Hg|].
  apply list_elem_of_lookup_1 in Hg as [m Hm].
  assert (Hmk : m <= k).
  { apply lookup_lt_Some in Hm as Hlt. rewrite length_take in Hlt. lia. }
  rewrite lookup_take_lt in Hm by lia.
  unfold has_tool in Htool. apply existsb_true in Htool as (j & Hj & Hjt). exists j.
  assert (Hlen : j < length parts).
  { assert (Hin : j ∈ indexes_of (groups_of parts)).
    { apply list_elem_of_In, in_concat. exists (gr_indexes gk).
      split; [by apply in_map, list_elem_of_In, (list_elem_of_lookup_2 _ k)|by apply list_elem_of_In]. }
    rewrite groups_indexes in Hin. apply list_elem_of_In, filter_In in Hin as [Hin%List.in_seq _]. lia. }
  split; [|done].
  destruct (decide (m = k)) as [->|Hne].
  - rewrite Hk in Hm. injection Hm as <-.
    pose proof (groups_ok parts) as Hok. rewrite Forall_forall in Hok.
    destruct (Hok gk) as (_ & _ & Hpr & Hone); [by eapply list_elem_of_lookup_2|].
    destruct (gr_process gk).
    + specialize (Hpr eq_refl). rewrite Forall_forall in Hpr. specialize (Hpr i Hi). cbn in Hpr. congruence.
    + destruct (Hone eq_refl) as [x Hx]. rewrite Hx in Hi, Hj. apply list_elem_of_singleton in Hi, Hj. congruence.
  - eapply (earlier_group (groups_of parts)); [by apply (groups_sublist_sorted parts)|exact Hm|exact Hk|lia|done|done].
Qed.

(** What the assistant said last stays in view: a text part is never folded away
    unless the response called a tool after it. *)
Theorem last_words_stay parts outcome i :
  i < length parts -> type_of (part_at parts i) = "text" ->
  hidden (headers_of parts outcome) i = true ->
  exists j, i < j /\ j < length parts /\ is_tool (part_at parts j) = true.
Proof.
  intros Hi Htext Hh. apply hidden_true, list_elem_of_In, in_concat in Hh as (ix & (h & <- & Hh)%in_map_iff & Hix).
  apply list_elem_of_In in Hh, Hix.
  assert (Hp : is_process (part_at parts i) = false /\ is_tool (part_at parts i) = false).
  { unfold is_process, is_tool. by rewrite Htext. }
  destruct Hp as [Hp Ht].
  destruct (headers_shape parts outcome h Hh) as [_ [Hall|(g & Hg & Hpr & Heq)]].
  - destruct (Hall i Hix) as (g & Hg & Hig & _). by eapply worked_before_tool.
  - pose proof (groups_ok parts) as Hok. rewrite Forall_forall in Hok.
    destruct (Hok g Hg) as (_ & _ & Hallp & _). specialize (Hallp Hpr). rewrite Forall_forall in Hallp.
    rewrite Heq in Hix. specialize (Hallp i Hix). cbn in Hallp. congruence.
Qed.

(** ** Witnesses *)

Definition demo_parts : list dict :=
  [[("type", VStr "reasoning"); ("text", VStr "hm"); ("state", VStr "done")];
   [("type", VStr "tool-Bash"); ("toolCallId", VStr "c1"); ("state", VStr "output-available")];
   [("type", VStr "text"); ("text", VStr "now the file"); ("state", VStr "done")];
   [("type", VStr "tool-Write"); ("toolCallId", VStr "c2"); ("state", VStr "output-available")];
   [("type", VStr "text"); ("text", VStr "done"); ("state", VStr "done")]].

Example demo_fold :
  map type_of (fd_parts (fold_parts demo_parts (Some "completed") "r1" "s1" "c"))
  = ["data-process-block"; "text"].
Proof. vm_compute. reflexivity. Qed.

Lemma fold_hides_only_settled_work_witness :
  is_tool (part_at demo_parts 1) = true /\
  Py.in_strs (tool_state (part_at demo_parts 1)) UNFINISHED_TOOL_STATES = false.
Proof.
  split; [reflexivity|].
  refine (proj1 (proj2 (proj2 (proj2 (proj2 (fold_hides_only_settled_work demo_parts (Some "completed") "r1" "s1" "c"
    "r1:p0" (take 4 demo_parts) (part_at demo_parts 1) _ _))))) eq_refl).
  - vm_compute. left.
  - right. left.
Defined.

Lemma last_words_stay_witness :
  exists j, 2 < j /\ j < 5 /\ is_tool (part_at demo_parts j) = true.
Proof.
  apply (last_words_stay demo_parts (Some "completed") 2); [cbn; lia|reflexivity|vm_compute; reflexivity].
Defined.

End Blocks.
