(* ===== verification/ResponseFolds.v ===== *)
(** [session_runtime/response_folds.py]: each response's folded message, kept in this
    process under the position of its last part.  Between two awaits the code runs alone,
    so a call is its lookup, the builds it started or shares, and the collection of their
    results; other calls and readers of the log run in between. *)

From stdpp Require Import sorting.
From S2P Require Import Prelude PyVal JsonText Schema Interaction SessionRepo SessionRecord SessionReads ReaderFacts UiMessage DemoStore Follow.

Open Scope string_scope.

Module Folds.
Import Repo Rec Ui Reads Numbering Follow.

(** ** The size of a kept message *)

(** [len(json.dumps(v))]. *)
Definition json_size (v : val) : Z := Z.of_nat (String.length (Json.dumps ", " ": " v)).

Definition message_value (m : message) : val :=
  VDict [("id", VStr (m_id m)); ("role", VStr (m_role m)); ("parts", VList (map VDict (m_parts m)));
         ("metadata", VDict (m_metadata m))].

(** ** The cache *)

Record kept := Kept { kp_last_seq : Z; kp_message : message; kp_size : Z }.

(** One [_build]: what it was asked for and, once it ran, what it gave. *)
Record task := Task {
  tk_session : string;
  tk_last_seqs : list (string * Z);
  tk_result : option (res (list (string * message)))
}.

Definition key : Type := string * string.

(** [rf_kept] is the [OrderedDict], the least recently read first; a task is named by its
    place in [rf_tasks]. *)
Record folds := MkFolds {
  rf_kept_bytes : Z;
  rf_kept : list (key * kept);
  rf_size : Z;
  rf_building : list ((string * string * Z) * nat);
  rf_tasks : list task
}.

Definition new_folds (kept_bytes : Z) : folds := MkFolds kept_bytes [] 0 [] [].

Definition same_key (a b : key) : bool := (fst a =s fst b) && (snd a =s snd b).
Definition same_build (a b : string * string * Z) : bool :=
  same_key (fst a) (fst b) && (snd a =? snd b)%Z.

Definition find_kept (k : key) (l : list (key * kept)) : option kept :=
  match List.find (fun e => same_key (fst e) k) l with Some e => Some (snd e) | None => None end.
Definition drop_kept (k : key) (l : list (key * kept)) : list (key * kept) :=
  List.filter (fun e => negb (same_key (fst e) k)) l.
Definition find_building (k : string * string * Z) (l : list ((string * string * Z) * nat)) : option nat :=
  match List.find (fun e => same_build (fst e) k) l with Some e => Some (snd e) | None => None end.

Definition set_kept (l : list (key * kept)) (size : Z) (f : folds) : folds :=
  MkFolds (rf_kept_bytes f) l size (rf_building f) (rf_tasks f).

(** [while self._size > self._kept_bytes]. *)
Fixpoint evict (limit : Z) (l : list (key * kept)) (size : Z) : res (list (key * kept) * Z) :=
  if (size <=? limit)%Z then Ok (l, size)
  else match l with
       | [] => Raise KeyError
       | (_, evicted) :: rest => evict limit rest (size - kp_size evicted)
       end.

(** [_keep]. *)
Definition keep (k : key) (entry : kept) (f : folds) : res folds :=
  let size := (rf_size f - match find_kept k (rf_kept f) with Some p => kp_size p | None => 0 end)%Z in
  let rest := drop_kept k (rf_kept f) in
  if (rf_kept_bytes f <? kp_size entry)%Z then Ok (set_kept rest size f)
  else
    '(l, size') ← evict (rf_kept_bytes f) (rest ++ [(k, entry)])%list (size + kp_size entry);
    Ok (set_kept l size' f).

(** [move_to_end]. *)
Definition move_to_end (k : key) (f : folds) : folds :=
  match find_kept k (rf_kept f) with
  | Some entry => set_kept (drop_kept k (rf_kept f) ++ [(k, entry)])%list (rf_size f) f
  | None => f
  end.

(** ** A call's lookup *)

Record call := MkCall {
  cl_session : string;
  cl_folded : list (string * message);
  cl_waiting : list (string * nat);
  cl_unbuilt : list (string * Z)
}.

Definition find_seq (rid : string) (l : list (string * Z)) : option Z :=
  match List.find (fun e => fst e =s rid) l with Some e => Some (snd e) | None => None end.

(** One turn of the loop over [logged]. *)
Definition look_up (sid : string) (last_seqs : list (string * Z)) (state : call * folds) (rid : string)
  : res (call * folds) :=
  let '(c, f) := state in
  let folded m := MkCall (cl_session c) (cl_folded c ++ [(rid, m)])%list (cl_waiting c) (cl_unbuilt c) in
  match find_seq rid last_seqs with
  | None => m ← fold_message rid []; Ok (folded m, f)
  | Some last =>
      match find_kept (sid, rid) (rf_kept f) with
      | Some k =>
          if (kp_last_seq k =? last)%Z then Ok (folded (kp_message k), move_to_end (sid, rid) f)
          else Ok (match find_building (sid, rid, last) (rf_building f) with
                   | Some t => MkCall (cl_session c) (cl_folded c) (cl_waiting c ++ [(rid, t)])%list (cl_unbuilt c)
                   | None => MkCall (cl_session c) (cl_folded c) (cl_waiting c) (cl_unbuilt c ++ [(rid, last)])%list
                   end, f)
      | None =>
          Ok (match find_building (sid, rid, last) (rf_building f) with
              | Some t => MkCall (cl_session c) (cl_folded c) (cl_waiting c ++ [(rid, t)])%list (cl_unbuilt c)
              | None => MkCall (cl_session c) (cl_folded c) (cl_waiting c) (cl_unbuilt c ++ [(rid, last)])%list
              end, f)
      end
  end.

(** [asyncio.create_task(self._build(..))] and the entries that share it. *)
Definition start_build (c : call) (f : folds) : call * folds :=
  match cl_unbuilt c with
  | [] => (c, f)
  | unbuilt =>
      let t := length (rf_tasks f) in
      (MkCall (cl_session c) (cl_folded c) (cl_waiting c ++ map (fun e => (fst e, t)) unbuilt)%list [],
       MkFolds (rf_kept_bytes f) (rf_kept f) (rf_size f)
         (map (fun e => ((cl_session c, fst e, snd e), t)) unbuilt ++ rf_building f)%list
         (rf_tasks f ++ [Task (cl_session c) unbuilt None])%list)
  end.

(** The chunks of a value up to the first that is not a dict, and whether all are. *)
Fixpoint leading_dicts (l : list val) : list dict * bool :=
  match l with
  | VDict d :: rest => let '(ds, all) := leading_dicts rest in (d :: ds, all)
  | [] => ([], true)
  | _ => ([], false)
  end.

(** [fold_message(response_id, record["parts"])]. *)
Definition fold_imported (rid : string) (parts : val) : res message :=
  match parts with
  | VList l =>
      let '(chunks, all) := leading_dicts l in
      if all then fold_message rid chunks
      else _ ← foldM fold_chunk fold_start chunks; Raise AttributeError
  | VDict [] | VStr EmptyString => fold_message rid []
  | VDict _ | VStr _ => Raise AttributeError
  | _ => Raise TypeError
  end.

Definition imported_message (row : response_row) : res (option (string * message)) :=
  match rs_import_record row with
  | Some ((_ :: _) as record) =>
      parts ← Py.item "parts" record;
      m ← fold_imported (rs_response_id row) parts; Ok (Some (rs_response_id row, m))
  | _ => Ok None
  end.

Definition is_imported (row : response_row) : bool :=
  match rs_import_record row with Some (_ :: _) => true | _ => false end.

(** [messages] up to where it waits for builds; [d] is the store its query reads. *)
Definition messages (sid : string) (responses : list response_row) (through_seq : option Z) (d : db) (f : folds)
  : res (call * folds) :=
  imported ← mapM_res imported_message responses;
  let logged := map rs_response_id (List.filter (fun r => negb (is_imported r)) responses) in
  let last_seqs := last_output_seqs sid logged through_seq d in
  '(c, f1) ← foldM (look_up sid last_seqs) (MkCall sid (omap id imported) [] [], f) logged;
  Ok (start_build c f1).

(** ** Builds *)

Definition highest (last_seqs : list (string * Z)) : Z :=
  match map snd last_seqs with [] => 0%Z | x :: l => fold_left Z.max l x end.

(** The messages of [_build]: [parts[response_id]] holds the rows up to its own last. *)
Definition build_messages (sid : string) (last_seqs : list (string * Z)) (d : db)
  : res (list (string * message)) :=
  let rows := output_for_responses sid (map fst last_seqs) (Some (highest last_seqs)) d in
  mapM_res (fun e : string * Z =>
    m ← fold_message (fst e)
          (map ou_part (List.filter (fun r => opt_is (fst e) (ou_response_id r) && (ou_seq r <=? snd e)%Z) rows));
    Ok (fst e, m)) last_seqs.

Definition keep_built (sid : string) (last_seqs : list (string * Z)) (f : folds) (e : string * message) : res folds :=
  match find_seq (fst e) last_seqs with
  | Some last => keep (sid, fst e) (Kept last (snd e) (json_size (message_value (snd e)))) f
  | None => Raise KeyError
  end.

Definition set_result (i : nat) (r : res (list (string * message))) (f : folds) : folds :=
  MkFolds (rf_kept_bytes f) (rf_kept f) (rf_size f) (rf_building f)
    (alter (fun t => Task (tk_session t) (tk_last_seqs t) (Some r)) i (rf_tasks f)).

(** [_build] for task [i]: [d] is the store its query reads. *)
Definition build (i : nat) (d : db) (f : folds) : folds :=
  match rf_tasks f !! i with
  | Some (Task sid last_seqs None) =>
      match build_messages sid last_seqs d with
      | Raise e => set_result i (Raise e) f
      | Ok built =>
          match foldM (keep_built sid last_seqs) f built with
          | Ok f' => set_result i (Ok built) f'
          | Raise e => set_result i (Raise e) f
          end
      end
  | _ => f
  end.

(** [_built]: the done callback of task [i]. *)
Definition built (i : nat) (f : folds) : folds :=
  MkFolds (rf_kept_bytes f) (rf_kept f) (rf_size f)
    (List.filter (fun e => negb (snd e =? i)%nat) (rf_building f)) (rf_tasks f).

(** The end of [messages]: [None] while a build it waits for has not run. *)
Fixpoint collect (waiting : list (string * nat)) (f : folds) : option (res (list (string * message))) :=
  match waiting with
  | [] => Some (Ok [])
  | (rid, t) :: rest =>
      match tk_result <$> rf_tasks f !! t with
      | Some (Some (Raise e)) => Some (Raise e)
      | Some (Some (Ok ms)) =>
          match List.find (fun e => fst e =s rid) ms with
          | None => Some (Raise KeyError)
          | Some e =>
              match collect rest f with
              | Some (Ok l) => Some (Ok ((rid, snd e) :: l))
              | other => other
              end
          end
      | _ => None
      end
  end.

Definition finish (c : call) (f : folds) : option (res (list (string * message))) :=
  match collect (cl_waiting c) f with
  | Some (Ok l) => Some (Ok (cl_folded c ++ l)%list)
  | other => other
  end.


(** ** The log under the cache *)

(** Each session's log is numbered from 1, once each: what its reader keeps
    ([reader_log_contiguous]) and the table's key enforces. *)
Definition numbered (d : db) : Prop :=
  forall sid, unique_output sid d /\ exists n, contiguous sid d n.

(** A later state of the log. *)
Definition log_grows (d d' : db) : Prop :=
  numbered d /\ numbered d' /\ db_output d `prefix_of` db_output d'.

Lemma log_grows_trans d1 d2 d3 : log_grows d1 d2 -> log_grows d2 d3 -> log_grows d1 d3.
Proof. intros (H1 & _ & P1) (_ & H3 & P2). split_and!; [done..|by etrans]. Qed.

(** The log holds the number. *)
Definition covered (sid : string) (last : Z) (d : db) : Prop :=
  exists o, o ∈ db_output d /\ ou_session_id o = sid /\ ou_seq o = last.

Lemma covered_grows sid last d d' : log_grows d d' -> covered sid last d -> covered sid last d'.
Proof.
  intros (_ & _ & [l E]) (o & Ho & Hs). exists o. rewrite E. split; [apply elem_of_app; by left|done].
Qed.

(** What a response's parts up to [last] fold to. *)
Definition fold_upto (sid rid : string) (last : Z) (d : db) : res message :=
  fold_message rid (map ou_part (output_for_responses sid [rid] (Some last) d)).

Lemma select_where_ext {R} (c1 c2 : R -> bool) (t : list R) :
  (forall r, r ∈ t -> c1 r = c2 r) -> select_where c1 t = select_where c2 t.
Proof.
  intros H. unfold select_where. induction t as [|r t IH]; [done|].
  rewrite !filter_cons, (H r) by set_solver. rewrite IH; [done|]. intros x Hx. apply H. set_solver.
Qed.

Lemma new_rows_later sid last d d' o :
  log_grows d d' -> covered sid last d -> forall rows, db_output d' = (db_output d ++ rows)%list ->
  o ∈ rows -> ou_session_id o = sid -> (last < ou_seq o)%Z.
Proof.
  intros (Hd & Hd' & _) (o1 & Ho1 & Hs1 & <-) rows E Ho Hs.
  destruct (Hd sid) as [_ [n [Hn Hc]]]. destruct (Hd' sid) as [Hu [n' [_ Hc']]].
  assert (1 <= ou_seq o1 <= n)%Z by (apply Hc; eauto).
  assert (1 <= ou_seq o <= n')%Z by (apply Hc'; exists o; rewrite E; set_solver).
  destruct (decide (ou_seq o <= n)%Z) as [Hle|]; [|lia]. exfalso.
  destruct (proj2 (Hc (ou_seq o))) as (o2 & Ho2 & Hs2 & Heq); [lia|].
  unfold unique_output, select_where in Hu. rewrite E, filter_app, map_app in Hu.
  apply NoDup_app in Hu as (_ & Hx & _). apply (Hx (ou_seq o)).
  - apply list_elem_of_fmap. exists o2. split; [done|]. apply list_elem_of_filter.
    unfold output_of. by rewrite Hs2, String.eqb_refl.
  - apply list_elem_of_fmap. exists o. split; [done|]. apply list_elem_of_filter.
    unfold output_of. by rewrite Hs, String.eqb_refl.
Qed.

Lemma fold_upto_grows sid rid last d d' :
  log_grows d d' -> covered sid last d -> fold_upto sid rid last d' = fold_upto sid rid last d.
Proof.
  intros Hg Hc. destruct (Hg) as (_ & _ & [rows E]). unfold fold_upto, output_for_responses. do 3 f_equal.
  unfold select_where. rewrite E, filter_app. replace (filter _ rows) with (@nil output_row); [by rewrite app_nil_r|].
  symmetry. apply elem_of_nil_inv. intros o [H Ho]%list_elem_of_filter. unfold output_of in H. bool_prop.
  assert (last < ou_seq o)%Z by by eapply new_rows_later. lia.
Qed.

(** ** What the queries read *)

Lemma sort_of_filter (P : output_row -> bool) (l : list output_row) :
  NoDup (map ou_seq l) ->
  List.filter P (merge_sort seq_le l) = merge_sort seq_le (List.filter P l).
Proof.
  intros Hu. pose proof seq_le_trans. pose proof seq_le_total.
  assert (Hs : StronglySorted seq_le (List.filter P (merge_sort seq_le l))).
  { generalize (StronglySorted_merge_sort seq_le l). generalize (merge_sort seq_le l). intros l1.
    induction 1 as [|o l1 Hl IH Hall]; cbn; [constructor|]. destruct (P o); [|done].
    constructor; [done|]. rewrite Forall_forall in Hall |- *. intros x [Hx _]%list_elem_of_In%List.filter_In.
    apply Hall. by apply list_elem_of_In. }
  apply (StronglySorted_unique_strong seq_le); [|done|apply StronglySorted_merge_sort; apply _|].
  - intros o1 o2 H1 H2 Hle Hge. apply list_elem_of_In, List.filter_In in H1 as [H1%list_elem_of_In _].
    rewrite merge_sort_Permutation in H1, H2. apply list_elem_of_In, List.filter_In in H2 as [H2%list_elem_of_In _].
    eapply (NoDup_map_inj ou_seq); [done..|]. unfold seq_le in *. lia.
  - rewrite (merge_sort_Permutation seq_le (List.filter P l)). apply NoDup_Permutation.
    + apply NoDup_ListNoDup, List.NoDup_filter, NoDup_ListNoDup. rewrite merge_sort_Permutation. by eapply NoDup_fmap_1.
    + apply NoDup_ListNoDup, List.NoDup_filter, NoDup_ListNoDup. by eapply NoDup_fmap_1.
    + intros x. by rewrite !list_elem_of_In, !List.filter_In, <-!list_elem_of_In, merge_sort_Permutation.
Qed.

Lemma unique_sublist sid (c : output_row -> bool) d :
  unique_output sid d -> NoDup (map ou_seq (select_where (fun r => output_of sid r && c r) (db_output d))).
Proof.
  intros Hu. eapply sublist_NoDup; [exact Hu|]. unfold select_where. generalize (db_output d). intros l.
  induction l as [|o l IH]; [constructor|]. rewrite !filter_cons.
  destruct (decide (output_of sid o = true)) as [E|E].
  - destruct (decide _); [by constructor|by apply sublist_cons].
  - rewrite decide_False; [done|]. by intros [? _]%andb_true_iff.
Qed.

(** The rows [_build] takes for one response are those a read of that response alone gives. *)
Lemma build_rows sid rids rid last hi d :
  unique_output sid d -> rid ∈ rids -> (last <= hi)%Z ->
  List.filter (fun r => opt_is rid (ou_response_id r) && (ou_seq r <=? last)%Z)
    (output_for_responses sid rids (Some hi) d)
  = output_for_responses sid [rid] (Some last) d.
Proof.
  intros Hu Hrid Hle. unfold output_for_responses. destruct rids as [|rid0 rids0]; [set_solver|].
  remember (rid0 :: rids0) as rids eqn:Er. clear Er. rewrite sort_of_filter.
  - f_equal. unfold select_where. generalize (db_output d). intros l. induction l as [|o l IH]; [done|].
    rewrite !filter_cons. destruct (decide _) as [H1|H1]; cbn.
    + destruct (opt_is rid (ou_response_id o) && (ou_seq o <=? last)%Z) eqn:E2; cbn.
      * rewrite decide_True; [by rewrite IH|]. bool_prop. unfold opt_is in *.
        destruct (ou_response_id o) as [r|]; [|done]. bool_prop. subst. rewrite H1.
        cbn. rewrite String.eqb_refl. cbn. by apply Z.leb_le.
      * rewrite decide_False; [done|]. intros H2. bool_prop. unfold opt_is in E2.
        destruct (ou_response_id o) as [r|]; [|done]. cbn in *. rewrite orb_false_r in *.
        apply andb_false_iff in E2 as [E2|E2]; [|by bool_prop; lia].
        rewrite String.eqb_sym in E2. congruence.
    + rewrite decide_False; [done|]. intros H2. apply H1. bool_prop.
      destruct (ou_response_id o) as [r|]; [|done]. cbn in *. rewrite orb_false_r in *. bool_prop. subst.
      rewrite H. cbn. rewrite (proj2 (Z.leb_le _ _)) by lia. rewrite andb_true_r.
      apply existsb_exists. exists rid. rewrite String.eqb_refl. split; [by apply list_elem_of_In|done].
  - rewrite (select_where_ext _ (fun r => output_of sid r &&
      (match ou_response_id r with Some rid => Py.in_strs rid rids | None => false end && (ou_seq r <=? hi)%Z)));
      [by apply (unique_sublist sid (fun r => _ && _))|]. intros r _. by rewrite andb_assoc.
Qed.

Lemma last_rows sid through_seq d rid last :
  last_seq_of sid through_seq d rid = Some last ->
  output_for_responses sid [rid] through_seq d = output_for_responses sid [rid] (Some last) d.
Proof.
  intros [(o1 & _ & _ & _ & Ht & <-) Hmax]%last_seq_of_some. unfold output_for_responses. f_equal.
  apply select_where_ext. intros o Ho.
  destruct (output_of sid o) eqn:Es; [|done]. destruct (ou_response_id o) as [r|] eqn:Er; [|done]. cbn.
  rewrite orb_false_r. destruct (r =s rid) eqn:E; [|done]. unfold output_of in Es. bool_prop. subst. cbn.
  change (through through_seq o = (ou_seq o <=? ou_seq o1)%Z). destruct (through through_seq o) eqn:Et.
  - symmetry. apply Z.leb_le. by apply Hmax.
  - symmetry. apply Z.leb_gt. destruct through_seq as [t|]; [|done]. cbn in *. bool_prop. lia.
Qed.

Lemma no_rows sid through_seq d rid :
  last_seq_of sid through_seq d rid = None -> output_for_responses sid [rid] through_seq d = [].
Proof.
  intros Hn. unfold output_for_responses.
  replace (select_where _ _) with (@nil output_row); [done|]. symmetry. apply elem_of_nil_inv.
  intros o [H Ho]%elem_of_select_where. bool_prop. destruct (ou_response_id o) as [r|] eqn:Er; [|done].
  cbn in *. rewrite orb_false_r in *. unfold output_of in *. bool_prop. subst.
  pose proof (last_seq_of_none _ _ _ _ _ Hn Ho eq_refl Er) as Ht. unfold through in Ht. congruence.
Qed.

Lemma find_seq_some rid l last : find_seq rid l = Some last -> (rid, last) ∈ l.
Proof.
  unfold find_seq. destruct (List.find _ l) as [[r s]|] eqn:E; [|done]. intros [= <-].
  apply List.find_some in E as [Hin Hr]. cbn in Hr. bool_prop. subst. by apply list_elem_of_In.
Qed.

Lemma find_seq_none rid l last : find_seq rid l = None -> (rid, last) ∉ l.
Proof.
  unfold find_seq. destruct (List.find _ l) eqn:E; [done|]. intros _ Hin%list_elem_of_In.
  pose proof (List.find_none _ _ E _ Hin) as Hr. cbn in Hr. by rewrite String.eqb_refl in Hr.
Qed.

(** What an uncached read of the response gives at the store [d]. *)
Definition log_message (sid rid : string) (through_seq : option Z) (d : db) : res message :=
  fold_message rid (map ou_part (output_for_responses sid [rid] through_seq d)).

#[local] Arguments fold_upto : simpl never.
#[local] Arguments log_message : simpl never.

Lemma log_message_last sid rid through_seq d last :
  last_seq_of sid through_seq d rid = Some last -> log_message sid rid through_seq d = fold_upto sid rid last d.
Proof. intros H. unfold log_message, fold_upto. by rewrite (last_rows _ _ _ _ _ H). Qed.

Lemma last_covered sid rid through_seq d last :
  last_seq_of sid through_seq d rid = Some last -> covered sid last d.
Proof. intros [(o & Ho & Hs & _ & _ & He) _]%last_seq_of_some. by exists o. Qed.

(** ** The byte budget *)

Definition total (l : list (key * kept)) : Z := fold_right Z.add 0%Z (map (fun e => kp_size (snd e)) l).

Record sized (f : folds) : Prop := {
  sz_keys : NoDup (map fst (rf_kept f));
  sz_sizes : Forall (fun e => (0 <= kp_size (snd e))%Z) (rf_kept f);
  sz_total : rf_size f = total (rf_kept f);
  sz_budget : (0 <= rf_size f <= rf_kept_bytes f)%Z
}.

Lemma same_key_true a b : same_key a b = true <-> a = b.
Proof. unfold same_key. destruct a, b. cbn. rewrite andb_true_iff, !String.eqb_eq. naive_solver. Qed.

Lemma total_app l1 l2 : total (l1 ++ l2) = (total l1 + total l2)%Z.
Proof. unfold total. induction l1 as [|e l1 IH]; cbn; [done|]. rewrite IH. lia. Qed.

Lemma elem_of_drop_kept k l e : e ∈ drop_kept k l <-> e ∈ l /\ fst e <> k.
Proof.
  unfold drop_kept. rewrite !list_elem_of_In, List.filter_In, negb_true_iff, <-not_true_iff_false, same_key_true.
  done.
Qed.

Lemma drop_kept_absent k l : k ∉ map fst l -> drop_kept k l = l.
Proof.
  intros Hk. unfold drop_kept. induction l as [|e l IH]; [done|]. cbn in *.
  destruct (same_key (fst e) k) eqn:E; [apply same_key_true in E; set_solver|]. cbn. rewrite IH; [done|set_solver].
Qed.

Lemma find_kept_some k l e : find_kept k l = Some e -> (k, e) ∈ l.
Proof.
  unfold find_kept. destruct (List.find _ l) as [[k' e']|] eqn:E; [|done]. intros [= <-].
  apply List.find_some in E as [Hin Hk]. apply same_key_true in Hk. cbn in *. subst. by apply list_elem_of_In.
Qed.

Lemma find_building_some k l t : find_building k l = Some t -> (k, t) ∈ l.
Proof.
  unfold find_building. destruct (List.find _ l) as [[k' t']|] eqn:E; [|done]. intros [= <-].
  apply List.find_some in E as [Hin Hk]. unfold same_build in Hk. cbn in Hk. bool_prop.
  destruct k as [k s], k' as [k' s']. cbn in *. match goal with H : same_key _ _ = true |- _ => apply same_key_true in H end.
  subst. by apply list_elem_of_In.
Qed.

(** Popping a key takes its size off the total. *)
Lemma drop_kept_total k l :
  NoDup (map fst l) ->
  total (drop_kept k l) = (total l - match find_kept k l with Some p => kp_size p | None => 0 end)%Z.
Proof.
  unfold find_kept. induction l as [|e l IH]; [done|]. cbn [map List.find]. intros [Hn Hl]%NoDup_cons.
  unfold drop_kept. cbn [List.filter]. destruct (same_key (fst e) k) eqn:E; cbn [negb].
  - apply same_key_true in E. subst. change (List.filter _ l) with (drop_kept (fst e) l).
    rewrite (drop_kept_absent _ _ Hn). unfold total. cbn. lia.
  - change (List.filter _ l) with (drop_kept k l). specialize (IH Hl). unfold total in *. cbn. lia.
Qed.

Lemma NoDup_drop_kept k l : NoDup (map fst l) -> NoDup (map fst (drop_kept k l)).
Proof.
  intros H. eapply sublist_NoDup; [exact H|]. unfold drop_kept. clear H.
  induction l as [|e l IH]; cbn; [constructor|]. destruct (negb _); cbn; by constructor.
Qed.

(** The eviction ends within the budget, and takes from the front. *)
Lemma evict_ok limit l :
  (0 <= limit)%Z -> exists gone l', evict limit l (total l) = Ok (l', total l') /\ l = (gone ++ l')%list /\ (total l' <= limit)%Z.
Proof.
  intros Hlim. induction l as [|[k e] l IH]; cbn [evict].
  - exists [], []. rewrite (proj2 (Z.leb_le _ _)) by done. done.
  - destruct (total ((k, e) :: l) <=? limit)%Z eqn:E.
    + exists [], ((k, e) :: l). bool_prop. done.
    + replace (total ((k, e) :: l) - kp_size e)%Z with (total l) by (unfold total; cbn; lia).
      destruct IH as (gone & l' & -> & -> & Hle). by exists ((k, e) :: gone), l'.
Qed.

Lemma total_nonneg l : Forall (fun e : key * kept => (0 <= kp_size (snd e))%Z) l -> (0 <= total l)%Z.
Proof. unfold total. induction 1; cbn; lia. Qed.

(** Every part of the cache but what it keeps. *)
Definition same_work (f f' : folds) : Prop :=
  rf_kept_bytes f' = rf_kept_bytes f /\ rf_building f' = rf_building f /\ rf_tasks f' = rf_tasks f.

Lemma keep_ok k e f :
  sized f -> (0 <= kp_size e)%Z ->
  exists f', keep k e f = Ok f' /\ sized f' /\ same_work f f' /\
    forall x, x ∈ rf_kept f' -> x = (k, e) \/ x ∈ rf_kept f.
Proof.
  intros [Hk Hs Ht Hb] He. unfold keep. rewrite Ht, <-(drop_kept_total k _ Hk).
  set (rest := drop_kept k (rf_kept f)).
  assert (Hrest : forall x, x ∈ rest -> x ∈ rf_kept f) by (intros x Hx; by apply elem_of_drop_kept in Hx as [? _]).
  assert (Hrs : Forall (fun e => (0 <= kp_size (snd e))%Z) rest).
  { rewrite Forall_forall in Hs |- *. auto. }
  assert (Hrt : (total rest <= total (rf_kept f))%Z).
  { unfold rest. rewrite drop_kept_total by done. destruct (find_kept k (rf_kept f)) eqn:E; [|lia].
    apply find_kept_some in E. rewrite Forall_forall in Hs. specialize (Hs _ E). cbn in Hs. lia. }
  pose proof (total_nonneg _ Hrs).
  destruct (rf_kept_bytes f <? kp_size e)%Z eqn:E.
  - eexists. split_and!; [done| |done|by auto]. constructor; cbn; [by apply NoDup_drop_kept|done|done|lia].
  - replace (total rest + kp_size e)%Z with (total (rest ++ [(k, e)])%list) by (rewrite total_app; unfold total; cbn; lia).
    destruct (evict_ok (rf_kept_bytes f) (rest ++ [(k, e)])%list) as (gone & l' & -> & Hl & Hle); [lia|].
    eexists. split; [done|]. assert (Hsuf : forall x, x ∈ l' -> x ∈ (rest ++ [(k, e)])%list) by (rewrite Hl; set_solver).
    assert (Hall : Forall (fun e => (0 <= kp_size (snd e))%Z) l').
    { apply Forall_forall. intros x [Hx| ->%list_elem_of_singleton]%Hsuf%elem_of_app; [|done].
      rewrite Forall_forall in Hrs. auto. }
    pose proof (total_nonneg _ Hall). split_and!; [|done|].
    + constructor; cbn; [|done|done|lia].
      assert (Hn : NoDup (map fst (rest ++ [(k, e)])%list)).
      { rewrite map_app. apply NoDup_app. split_and!; [by apply NoDup_drop_kept| |apply NoDup_singleton].
        intros x (y & -> & [_ Hy]%elem_of_drop_kept)%list_elem_of_fmap. cbn. set_solver. }
      rewrite Hl, map_app in Hn. by apply NoDup_app in Hn as (_ & _ & Hn).
    + cbn. intros x [Hx| ->%list_elem_of_singleton]%Hsuf%elem_of_app; auto.
Qed.

Lemma json_size_nonneg v : (0 <= json_size v)%Z.
Proof. unfold json_size. lia. Qed.

(** ** Calls, builds and the log, interleaved *)

(** The store, the cache, and what each build that has started read: the store its query
    saw. *)
Record system := System { sy_db : db; sy_folds : folds; sy_reads : list (nat * db) }.

(** Between two awaits one of these happens: the log grows (in any process); a call, whose
    query saw the log as it was by then, does its lookups and starts what it needs; a build
    reads its rows, later folds and keeps them; its done callback runs. *)
Inductive sys_step : system -> system -> Prop :=
| LogGrows d d' f reads : log_grows d d' -> sys_step (System d f reads) (System d' f reads)
| CallLooksUp d f reads sid responses through_seq d0 c f' :
    log_grows d0 d -> messages sid responses through_seq d0 f = Ok (c, f') ->
    sys_step (System d f reads) (System d f' reads)
| BuildReads d f reads i t :
    rf_tasks f !! i = Some t -> sys_step (System d f reads) (System d f ((i, d) :: reads))
| BuildKeeps d f reads i d0 :
    (i, d0) ∈ reads -> sys_step (System d f reads) (System d (build i d0 f) reads)
| BuildDone d f reads i r :
    tk_result <$> rf_tasks f !! i = Some (Some r) ->
    sys_step (System d f reads) (System d (built i f) reads).

(** Task [i] was asked for the response's parts up to [last]. *)
Definition asked (f : folds) (i : nat) (sid rid : string) (last : Z) : Prop :=
  exists t, rf_tasks f !! i = Some t /\ tk_session t = sid /\ (rid, last) ∈ tk_last_seqs t.

(** A finished task holds each response's fold, or one of them failed. *)
Definition result_ok (d : db) (t : task) : Prop :=
  match tk_result t with
  | None => True
  | Some (Ok ms) =>
      Forall2 (fun e m => fst m = fst e /\ fold_upto (tk_session t) (fst e) (snd e) d = Ok (snd m))
        (tk_last_seqs t) ms
  | Some (Raise e) =>
      exists rid last, (rid, last) ∈ tk_last_seqs t /\ fold_upto (tk_session t) rid last d = Raise e
  end.

Record task_ok (d : db) (t : task) : Prop := {
  to_covered : forall rid last, (rid, last) ∈ tk_last_seqs t -> covered (tk_session t) last d;
  to_one : forall rid l1 l2, (rid, l1) ∈ tk_last_seqs t -> (rid, l2) ∈ tk_last_seqs t -> l1 = l2;
  to_result : result_ok d t
}.

Record coherent (s : system) : Prop := {
  co_log : numbered (sy_db s);
  co_kept : forall sid rid e, ((sid, rid), e) ∈ rf_kept (sy_folds s) ->
    covered sid (kp_last_seq e) (sy_db s) /\ fold_upto sid rid (kp_last_seq e) (sy_db s) = Ok (kp_message e);
  co_tasks : forall i t, rf_tasks (sy_folds s) !! i = Some t -> task_ok (sy_db s) t;
  co_building : forall sid rid last i, ((sid, rid, last), i) ∈ rf_building (sy_folds s) ->
    asked (sy_folds s) i sid rid last;
  co_reads : forall i d0, (i, d0) ∈ sy_reads s -> log_grows d0 (sy_db s) /\
    exists t, rf_tasks (sy_folds s) !! i = Some t /\
              forall rid last, (rid, last) ∈ tk_last_seqs t -> covered (tk_session t) last d0;
  co_sized : sized (sy_folds s)
}.

Ltac fields := cbn [sy_db sy_folds sy_reads rf_kept_bytes rf_kept rf_size rf_building rf_tasks] in *.

Lemma task_ok_grows d d' t : log_grows d d' -> task_ok d t -> task_ok d' t.
Proof.
  intros Hg [Hc H1 Hr]. constructor; [by eauto using covered_grows|done|]. unfold result_ok in *.
  destruct (tk_result t) as [[ms|e]|]; [| |done].
  - rewrite Forall2_lookup in Hr |- *. intros i. specialize (Hr i).
    destruct (tk_last_seqs t !! i) as [[rid last]|] eqn:E; inversion Hr as [? m [Hf Hm]|]; constructor.
    split; [done|]. rewrite (fold_upto_grows _ _ _ _ _ Hg); [done|]. eapply Hc, list_elem_of_lookup_2, E.
  - destruct Hr as (rid & last & Hin & Hf). exists rid, last. split; [done|].
    rewrite (fold_upto_grows _ _ _ _ _ Hg); eauto.
Qed.

Lemma log_step d d' f reads : coherent (System d f reads) -> log_grows d d' -> coherent (System d' f reads).
Proof.
  intros [Hl Hk Ht Hb Hr Hs] Hg. constructor; fields; [apply Hg| | |done| |done].
  - intros sid rid e He. destruct (Hk _ _ _ He) as [Hc Hf].
    split; [by eapply covered_grows|]. by rewrite (fold_upto_grows _ _ _ _ _ Hg).
  - eauto using task_ok_grows.
  - intros i d0 Hin. destruct (Hr _ _ Hin) as [Hg0 Hx]. split; [by eapply log_grows_trans|done].
Qed.

(** Work that only adds tasks keeps what was asked. *)
Lemma asked_more f f' i sid rid last :
  (forall t, rf_tasks f !! i = Some t -> exists t', rf_tasks f' !! i = Some t' /\
     tk_session t' = tk_session t /\ tk_last_seqs t' = tk_last_seqs t) ->
  asked f i sid rid last -> asked f' i sid rid last.
Proof.
  intros H (t & Ht & Hs & Hin). destruct (H _ Ht) as (t' & Ht' & Hs' & Hl'). exists t'. by rewrite Hs', Hl'.
Qed.

Lemma set_result_at i r f j :
  rf_tasks (set_result i r f) !! j =
  (fun t => if decide (i = j) then Task (tk_session t) (tk_last_seqs t) (Some r) else t) <$> rf_tasks f !! j.
Proof.
  unfold set_result. fields. rewrite list_lookup_alter. destruct (decide (i = j)) as [->|]; [done|].
  by destruct (rf_tasks f !! j).
Qed.

Lemma set_result_more i r f j t :
  rf_tasks f !! j = Some t -> exists t', rf_tasks (set_result i r f) !! j = Some t' /\
    tk_session t' = tk_session t /\ tk_last_seqs t' = tk_last_seqs t.
Proof. intros Ht. rewrite set_result_at, Ht. eexists. split; [reflexivity|]. by case_decide. Qed.

(** Giving a task its right result keeps the cache coherent. *)
Lemma result_step d f reads i r :
  coherent (System d f reads) ->
  (forall t, rf_tasks f !! i = Some t -> result_ok d (Task (tk_session t) (tk_last_seqs t) (Some r))) ->
  coherent (System d (set_result i r f) reads).
Proof.
  intros [Hl Hk Ht Hb Hr Hs] Hres. constructor; fields; [done|done| | | |by destruct Hs].
  - intros j t. fold (set_result i r f). change (alter _ i (rf_tasks f)) with (rf_tasks (set_result i r f)).
    rewrite set_result_at. intros (t0 & Ht0 & ->)%fmap_Some. destruct (decide (i = j)) as [->|]; [|by eauto].
    destruct (Ht _ _ Ht0). constructor; [done|done|by apply Hres].
  - intros sid rid last j Hj. eapply asked_more; [|by apply Hb]. apply set_result_more.
  - intros j d0 Hin. destruct (Hr _ _ Hin) as [Hg (t & Hj & Hc)]. split; [done|].
    destruct (set_result_more i r _ _ _ Hj) as (t' & Hj' & Hs' & Hl'). exists t'. by rewrite Hs', Hl'.
Qed.

(** The same work with right entries kept. *)
Lemma kept_step d f f' reads :
  coherent (System d f reads) -> sized f' -> same_work f f' ->
  (forall sid rid e, ((sid, rid), e) ∈ rf_kept f' -> ((sid, rid), e) ∈ rf_kept f \/
     covered sid (kp_last_seq e) d /\ fold_upto sid rid (kp_last_seq e) d = Ok (kp_message e)) ->
  coherent (System d f' reads).
Proof.
  intros [Hl Hk Ht Hb Hr Hs] Hs' (_ & Eb & Et) Hnew. constructor; fields; [done| | | | |done].
  - intros sid rid e [He|He]%Hnew; auto.
  - intros i t. rewrite Et. apply Ht.
  - intros sid rid last i. rewrite Eb. intros Hi. eapply asked_more; [|by apply Hb]. rewrite Et. eauto.
  - intros i d0. rewrite Et. apply Hr.
Qed.

Lemma highest_ge last_seqs s : s ∈ map snd last_seqs -> (s <= highest last_seqs)%Z.
Proof.
  unfold highest. destruct (map snd last_seqs) as [|x l]; [set_solver|]. rewrite elem_of_cons. revert x s.
  induction l as [|y l IH]; cbn; intros x s H.
  - destruct H as [->|H]; [lia|]. by apply elem_of_nil in H.
  - destruct H as [->|[->|H]%elem_of_cons].
    + pose proof (IH (Z.max x y) _ (or_introl eq_refl)). lia.
    + pose proof (IH (Z.max x y) _ (or_introl eq_refl)). lia.
    + apply IH. by right.
Qed.

(** What [_build] folds from its query is what the log folds to. *)
Lemma build_messages_ok sid last_seqs d0 d r :
  log_grows d0 d -> (forall rid last, (rid, last) ∈ last_seqs -> covered sid last d0) ->
  build_messages sid last_seqs d0 = r -> result_ok d (Task sid last_seqs (Some r)).
Proof.
  intros Hg Hc H. unfold build_messages in H.
  assert (Hrow : forall e, e ∈ last_seqs ->
    fold_message (fst e) (map ou_part (List.filter (fun r => opt_is (fst e) (ou_response_id r) && (ou_seq r <=? snd e)%Z)
      (output_for_responses sid (map fst last_seqs) (Some (highest last_seqs)) d0)))
    = fold_upto sid (fst e) (snd e) d).
  { intros [rid last] Hin. cbn [fst snd]. rewrite (build_rows _ _ _ last).
    - symmetry. apply fold_upto_grows; eauto.
    - apply Hg.
    - apply list_elem_of_fmap. by exists (rid, last).
    - apply highest_ge, list_elem_of_fmap. by exists (rid, last). }
  clear Hg Hc. unfold result_ok. cbn [tk_result tk_session tk_last_seqs].
  set (row := fun e : string * Z => _) in H.
  assert (Hmap : forall e, e ∈ last_seqs -> row e = m ← fold_upto sid (fst e) (snd e) d; Ok (fst e, m)).
  { intros e He. unfold row. by rewrite Hrow. }
  clearbody row. clear Hrow. destruct r as [ms|e].
  - apply mapM_res_Forall2 in H. rewrite Forall2_lookup in H |- *. intros i. specialize (H i).
    destruct (last_seqs !! i) as [e|] eqn:E; inversion H as [? m Hm|]; constructor; subst.
    rewrite (Hmap e) in Hm by (eapply list_elem_of_lookup_2, E). run_res Hm. by injection Hm as <-.
  - apply mapM_res_raise in H as (x & Hx & H). rewrite Hmap in H by done. destruct x as [rid last].
    exists rid, last. split; [done|]. cbn [fst snd] in H.
    destruct (fold_upto sid rid last d) as [m|e']; [discriminate H|]. by injection H as ->.
Qed.

Lemma keep_built_ok d sid last_seqs f built :
  sized f ->
  Forall (fun m => exists last, (fst m, last) ∈ last_seqs /\ covered sid last d /\
                                fold_upto sid (fst m) last d = Ok (snd m)) built ->
  (forall rid l1 l2, (rid, l1) ∈ last_seqs -> (rid, l2) ∈ last_seqs -> l1 = l2) ->
  exists f', foldM (keep_built sid last_seqs) f built = Ok f' /\ sized f' /\ same_work f f' /\
    forall s rid e, ((s, rid), e) ∈ rf_kept f' -> ((s, rid), e) ∈ rf_kept f \/
      covered s (kp_last_seq e) d /\ fold_upto s rid (kp_last_seq e) d = Ok (kp_message e).
Proof.
  intros Hs Hb H1. revert f Hs. induction Hb as [|[rid m] built (last & Hin & Hc & Hm) Hb IH]; intros f Hs; cbn [foldM].
  - exists f. by split_and!; [| | |auto].
  - unfold keep_built at 1. cbn [fst snd] in *. destruct (find_seq rid last_seqs) as [l|] eqn:E.
    2:{ by apply (find_seq_none _ _ last) in E. }
    apply find_seq_some in E. rewrite (H1 _ _ _ E Hin).
    destruct (keep_ok (sid, rid) (Kept last m (json_size (message_value m))) f) as (f1 & -> & Hs1 & (W1 & W2 & W3) & Hk1);
      [done|apply json_size_nonneg|].
    destruct (IH f1 Hs1) as (f2 & -> & Hs2 & (V1 & V2 & V3) & Hk2). exists f2. split_and!; [done|done| |].
    + split_and!; congruence.
    + intros s r e [He|He]%Hk2; [|by right]. apply Hk1 in He as [He|He]; [|by left].
      right. by simplify_eq.
Qed.

Lemma build_step d f reads i d0 :
  coherent (System d f reads) -> (i, d0) ∈ reads -> coherent (System d (build i d0 f) reads).
Proof.
  intros Hco Hin. pose proof Hco as [_ _ Ht _ Hr Hs]. fields. destruct (Hr _ _ Hin) as [Hg (t & Hi & Hc)].
  unfold build. rewrite Hi. destruct t as [sid last_seqs [r|]]; [done|]. destruct (Ht _ _ Hi) as [Hcd H1 _].
  cbn [tk_session tk_last_seqs] in *.
  destruct (build_messages sid last_seqs d0) as [ms|e] eqn:E;
    pose proof (build_messages_ok _ _ _ _ _ Hg Hc E) as Hok.
  - destruct (keep_built_ok d sid last_seqs f ms Hs) as (f' & -> & Hs' & Hw & Hk'); [|done|].
    + unfold result_ok in Hok. cbn [tk_result tk_session tk_last_seqs] in Hok.
      apply Forall_lookup. intros j m Hj. rewrite Forall2_lookup in Hok. specialize (Hok j). rewrite Hj in Hok.
      inversion Hok as [[rid last] ? [Hf Hm] He|]. cbn [fst snd] in *. exists last.
      assert ((rid, last) ∈ last_seqs) by by eapply list_elem_of_lookup_2. rewrite Hf. eauto.
    + apply result_step; [by eapply kept_step|]. destruct Hw as (_ & _ & ->). intros t. rewrite Hi. by intros [= <-].
  - apply result_step; [done|]. intros t. rewrite Hi. by intros [= <-].
Qed.

Lemma built_step d f reads i : coherent (System d f reads) -> coherent (System d (built i f) reads).
Proof.
  intros [Hl Hk Ht Hb Hr Hs]. constructor; fields; [done..| |done|by destruct Hs].
  intros sid rid last j Hj. apply list_elem_of_In, List.filter_In in Hj as [Hj _]. apply Hb. by apply list_elem_of_In.
Qed.

(** ** A call's view of the log *)

Section one_call.
Variables (sid : string) (through_seq : option Z) (d0 d : db) (reads : list (nat * db)).
Hypothesis Hgrown : log_grows d0 d.

(** The build a waiting response was given to folds what the call's query saw. *)
Definition awaits (f : folds) (w : string * nat) : Prop :=
  exists last, last_seq_of sid through_seq d0 (fst w) = Some last /\ asked f (snd w) sid (fst w) last.

Record looked (imported : list (string * message)) (f0 : folds) (met : list string) (st : call * folds) : Prop := {
  lk_session : cl_session (fst st) = sid;
  lk_folded : forall e, e ∈ cl_folded (fst st) ->
    e ∈ imported \/ fst e ∈ met /\ log_message sid (fst e) through_seq d0 = Ok (snd e);
  lk_waiting : Forall (fun w => fst w ∈ met /\ awaits (snd st) w) (cl_waiting (fst st));
  lk_unbuilt : forall rid last, (rid, last) ∈ cl_unbuilt (fst st) ->
    rid ∈ met /\ last_seq_of sid through_seq d0 rid = Some last;
  lk_keys : map fst (cl_folded (fst st)) ++ map fst (cl_waiting (fst st)) ++ map fst (cl_unbuilt (fst st))
            ≡ₚ map fst imported ++ met;
  lk_coherent : coherent (System d (snd st) reads);
  lk_work : same_work f0 (snd st)
}.

Lemma log_message_now rid last :
  last_seq_of sid through_seq d0 rid = Some last ->
  log_message sid rid through_seq d0 = fold_upto sid rid last d.
Proof.
  intros H. rewrite (log_message_last _ _ _ _ _ H). symmetry. eapply fold_upto_grows; [done|by eapply last_covered].
Qed.

Lemma total_perm l1 l2 : l1 ≡ₚ l2 -> total l1 = total l2.
Proof. unfold total. induction 1; cbn; lia. Qed.

Lemma move_to_end_ok k f :
  sized f -> sized (move_to_end k f) /\ same_work f (move_to_end k f) /\
  forall e, e ∈ rf_kept (move_to_end k f) -> e ∈ rf_kept f.
Proof.
  intros [Hk Hs Ht Hb]. unfold move_to_end. destruct (find_kept k (rf_kept f)) as [entry|] eqn:E; [|by split_and!].
  assert (Hp : (drop_kept k (rf_kept f) ++ [(k, entry)])%list ≡ₚ rf_kept f).
  { apply find_kept_some in E. apply NoDup_Permutation.
    - apply NoDup_app. split_and!; [|intros x [_ Hx]%elem_of_drop_kept ->%list_elem_of_singleton; by apply Hx|
        apply NoDup_singleton].
      eapply NoDup_fmap_1. by apply NoDup_drop_kept.
    - by eapply NoDup_fmap_1.
    - intros x. rewrite elem_of_app, elem_of_drop_kept, list_elem_of_singleton. split.
      + by intros [[? _]| ->].
      + intros Hx. destruct (decide (fst x = k)) as [Hxk|]; [|by left]. right.
        by apply (NoDup_map_inj fst (rf_kept f)). }
  unfold set_kept. split_and!; [|done|].
  - constructor; fields; [by rewrite Hp|by rewrite Hp|by rewrite (total_perm _ _ Hp)|done].
  - intros e. fields. by rewrite Hp.
Qed.

Lemma look_up_ok imported f0 logged met rid st st' :
  looked imported f0 met st -> rid ∈ logged ->
  look_up sid (last_output_seqs sid logged through_seq d0) st rid = Ok st' ->
  looked imported f0 (met ++ [rid]) st'.
Proof.
  destruct st as [c f]. intros [Hs Hf Hw Hu Hk Hc Hwk] Hrid H. cbn [fst snd] in *.
  assert (Hpush : forall (a b u x m : list string), a ++ b ++ u ≡ₚ x ++ m ->
    (a ++ [rid]) ++ b ++ u ≡ₚ x ++ m ++ [rid] /\ a ++ (b ++ [rid]) ++ u ≡ₚ x ++ m ++ [rid] /\
    a ++ b ++ (u ++ [rid]) ≡ₚ x ++ m ++ [rid]).
  { intros a b u x m Hp. assert (x ++ m ++ [rid] ≡ₚ rid :: a ++ b ++ u) as -> by (rewrite Hp; solve_Permutation).
    split_and!; solve_Permutation. }
  specialize (Hpush _ _ _ _ _ Hk) as (Hp1 & Hp2 & Hp3).
  assert (Hw' : Forall (fun w => fst w ∈ (met ++ [rid])%list /\ awaits f w) (cl_waiting c)).
  { eapply Forall_impl; [exact Hw|]. intros w [? ?]. split; [set_solver|done]. }
  assert (Hu' : forall r l, (r, l) ∈ cl_unbuilt c -> r ∈ (met ++ [rid])%list /\ last_seq_of sid through_seq d0 r = Some l).
  { intros r l [? ?]%Hu. split; [set_solver|done]. }
  assert (Hfolded : forall m f', log_message sid rid through_seq d0 = Ok m ->
    coherent (System d f' reads) -> same_work f f' ->
    looked imported f0 (met ++ [rid]) (MkCall (cl_session c) (cl_folded c ++ [(rid, m)])%list (cl_waiting c) (cl_unbuilt c), f')).
  { intros m f' Hm Hc' (W1 & W2 & W3). destruct Hwk as (V1 & V2 & V3).
    constructor; cbn [fst snd cl_session cl_folded cl_waiting cl_unbuilt]; [done| | |done| |done|split_and!; congruence].
    - intros e [He| ->%list_elem_of_singleton]%elem_of_app; [|right; set_solver]. destruct (Hf _ He); set_solver.
    - eapply Forall_impl; [exact Hw'|]. intros w [Hm' (last & Hl & Ha)]. split; [done|]. exists last. split; [done|].
      eapply asked_more; [|exact Ha]. rewrite W3. eauto.
    - by rewrite map_app. }
  assert (Hmet : forall e, e ∈ cl_folded c ->
    e ∈ imported \/ fst e ∈ (met ++ [rid])%list /\ log_message sid (fst e) through_seq d0 = Ok (snd e)).
  { intros e He. destruct (Hf _ He); set_solver. }
  unfold look_up in H. destruct (find_seq rid _) as [last|] eqn:E.
  - apply find_seq_some, elem_of_last_output_seqs in E as [_ E].
    assert (Hlater : looked imported f0 (met ++ [rid])
      (match find_building (sid, rid, last) (rf_building f) with
       | Some t => MkCall (cl_session c) (cl_folded c) (cl_waiting c ++ [(rid, t)])%list (cl_unbuilt c)
       | None => MkCall (cl_session c) (cl_folded c) (cl_waiting c) (cl_unbuilt c ++ [(rid, last)])%list
       end, f)).
    { destruct (find_building _ _) as [t|] eqn:Eb; constructor; cbn [fst snd cl_session cl_folded cl_waiting cl_unbuilt];
        rewrite ?map_app; try done.
      - apply Forall_app. split; [done|]. repeat constructor; [set_solver|]. exists last. split; [done|].
        apply (co_building _ Hc). by apply find_building_some.
      - intros r l [Hin| [= -> ->]%list_elem_of_singleton]%elem_of_app; [by apply Hu'|split; [set_solver|done]]. }
    destruct (find_kept (sid, rid) (rf_kept f)) as [k|] eqn:Ek; [|by injection H as <-].
    destruct (kp_last_seq k =? last)%Z eqn:El; [|by injection H as <-]. injection H as <-. bool_prop. subst.
    destruct (move_to_end_ok (sid, rid) f (co_sized _ Hc)) as (Hms & Hmw & Hmk).
    apply find_kept_some in Ek. apply Hfolded; [|eapply kept_step; eauto|done].
    rewrite (log_message_now _ _ E). by apply (co_kept _ Hc _ _ _ Ek).
  - run_res H. injection H as <-. apply Hfolded; [|done|done]. unfold log_message. rewrite no_rows; [done|].
    destruct (last_seq_of sid through_seq d0 rid) as [last|] eqn:El; [|done].
    exfalso. apply (find_seq_none _ _ last E). by apply elem_of_last_output_seqs.
Qed.

(** Starting the build of what no one builds yet. *)
Lemma start_build_ok imported f0 met c f :
  looked imported f0 met (c, f) ->
  let '(c', f') := start_build c f in
  coherent (System d f' reads) /\ cl_folded c' = cl_folded c /\
  Forall (fun w => fst w ∈ met /\ awaits f' w) (cl_waiting c') /\
  map fst (cl_folded c') ++ map fst (cl_waiting c') ≡ₚ map fst imported ++ met.
Proof.
  intros [Hs Hf Hw Hu Hk Hc _]. cbn [fst snd] in *. unfold start_build.
  destruct (cl_unbuilt c) as [|e0 unbuilt0] eqn:Eu; [by rewrite app_nil_r in Hk; split_and!|].
  remember (e0 :: unbuilt0) as unbuilt eqn:E0. clear E0 e0 unbuilt0.
  cbn [cl_folded cl_waiting]. rewrite Hs. set (t := Task sid unbuilt None).
  set (f' := MkFolds _ _ _ _ _).
  assert (Hmore : forall i t1, rf_tasks f !! i = Some t1 -> rf_tasks f' !! i = Some t1).
  { intros i t1 Hi. unfold f'. fields. by apply lookup_app_l_Some. }
  assert (Hold : forall i sd rid last, asked f i sd rid last -> asked f' i sd rid last).
  { intros i sd rid last. apply asked_more. eauto. }
  assert (Hnew : forall rid last, (rid, last) ∈ unbuilt -> asked f' (length (rf_tasks f)) sid rid last).
  { intros rid last Hin. exists t. split; [|done]. unfold f'. fields. by rewrite lookup_app_r, Nat.sub_diag. }
  split_and!; [|done| |].
  - destruct Hc as [Hl Hkp Ht Hb Hr Hsz]. fields. constructor; fields; [done|done| | | |by destruct Hsz].
    + intros i t1 [Hi|[_ Hi]]%lookup_app_Some; [by eauto|]. apply list_lookup_singleton_Some in Hi as [_ <-].
      constructor; cbn [tk_session tk_last_seqs]; [| |done].
      * intros rid last [_ Hin]%Hu. eapply covered_grows; [exact Hgrown|]. by eapply last_covered.
      * intros rid l1 l2 [_ H1]%Hu [_ H2]%Hu. congruence.
    + intros sd rid last i [Hi|Hi]%elem_of_app; [|by apply Hold, Hb].
      apply list_elem_of_fmap in Hi as ([r l] & [= -> -> -> ->] & Hin). by apply Hnew.
    + intros i d1 Hin. destruct (Hr _ _ Hin) as [Hg (t1 & Hi & Hcv)]. eauto 6.
  - apply Forall_app. split.
    + eapply Forall_impl; [exact Hw|]. intros w [Hm (last & Hl & Ha)]. split; [done|]. exists last. auto.
    + apply Forall_fmap, Forall_forall. intros [rid last] Hin. destruct (Hu _ _ Hin) as [Hm Hl]. cbn.
      split; [done|]. exists last. auto.
  - rewrite map_app, map_map. cbn [fst]. by rewrite <-Hk.
Qed.

End one_call.

(** What history is to show of a response at the store [d]: its imported parts, or its
    parts in the log. *)
Definition row_message (sid : string) (through_seq : option Z) (d : db) (row : response_row) : res message :=
  match rs_import_record row with
  | Some ((_ :: _) as record) => parts ← Py.item "parts" record; fold_imported (rs_response_id row) parts
  | _ => log_message sid (rs_response_id row) through_seq d
  end.

Definition shows_row (sid : string) (responses : list response_row) (through_seq : option Z) (d : db)
  (e : string * message) : Prop :=
  exists row, row ∈ responses /\ rs_response_id row = fst e /\ row_message sid through_seq d row = Ok (snd e).

Lemma imported_ok responses imported :
  mapM_res imported_message responses = Ok imported ->
  map fst (omap id imported) = map rs_response_id (List.filter is_imported responses) /\
  forall sid t d e, e ∈ omap id imported -> shows_row sid responses t d e.
Proof.
  intros H%mapM_res_Forall2. induction H as [|row o responses imported Ho H [IH1 IH2]]; [split; [done|set_solver]|].
  assert (Hrest : forall sid t d e, e ∈ omap id imported -> shows_row sid (row :: responses) t d e).
  { intros sid t d e (r & Hr & Hx)%(IH2 sid t d). exists r. set_solver. }
  unfold imported_message in Ho. cbn [List.filter]. unfold is_imported at 1.
  destruct (rs_import_record row) as [[|kv record]|] eqn:E; [by injection Ho as <-| |by injection Ho as <-].
  run_res Ho. injection Ho as <-. cbn. split; [by rewrite IH1|].
  intros sid t d e [->|He]%elem_of_cons; [|by apply Hrest]. exists row. split_and!; [set_solver|done|].
  unfold row_message. rewrite E. match goal with H : Py.item _ _ = _ |- _ => rewrite H end. done.
Qed.

Lemma imported_split responses :
  map rs_response_id responses ≡ₚ
  map rs_response_id (List.filter is_imported responses) ++
  map rs_response_id (List.filter (fun r => negb (is_imported r)) responses).
Proof.
  induction responses as [|row responses IH]; [done|]. cbn. rewrite IH.
  destruct (is_imported row); cbn; [done|]. by rewrite Permutation_middle.
Qed.

Lemma logged_shown sid responses through_seq d rid m :
  rid ∈ map rs_response_id (List.filter (fun r => negb (is_imported r)) responses) ->
  log_message sid rid through_seq d = Ok m -> shows_row sid responses through_seq d (rid, m).
Proof.
  intros (row & -> & Hrow)%list_elem_of_fmap Hm. apply list_elem_of_In, List.filter_In in Hrow as [Hrow Hi].
  exists row. split_and!; [by apply list_elem_of_In|done|]. unfold row_message. unfold is_imported in Hi.
  by destruct (rs_import_record row) as [[|]|].
Qed.

(** A call's lookups keep the cache coherent, and leave each response folded or waited for. *)
Lemma messages_ok sid responses through_seq d0 d f reads c f' :
  coherent (System d f reads) -> log_grows d0 d ->
  messages sid responses through_seq d0 f = Ok (c, f') ->
  coherent (System d f' reads) /\
  (forall e, e ∈ cl_folded c -> shows_row sid responses through_seq d0 e) /\
  Forall (fun w => fst w ∈ map rs_response_id (List.filter (fun r => negb (is_imported r)) responses) /\
                   awaits sid through_seq d0 f' w) (cl_waiting c) /\
  map fst (cl_folded c) ++ map fst (cl_waiting c) ≡ₚ map rs_response_id responses.
Proof.
  intros Hc Hg H. unfold messages in H. set (logged := map _ _) in H.
  destruct (mapM_res _ responses) as [imported|] eqn:Ei; [|discriminate H]. cbn in H.
  destruct (foldM _ _ logged) as [[c1 f1]|] eqn:El; [|discriminate H]. injection H as Hb.
  destruct (imported_ok _ _ Ei) as [Hids Hshown].
  assert (Hlook : looked sid through_seq d0 d reads (omap id imported) f logged (c1, f1)).
  { eapply (foldM_loop (looked sid through_seq d0 d reads (omap id imported) f)); [| |exact El].
    - constructor; cbn; [done|by left|done|set_solver|by rewrite !app_nil_r|done|done].
    - intros met rid st st' Hst Hrid Hr. by eapply look_up_ok. }
  pose proof (start_build_ok _ _ _ _ _ Hg _ _ _ _ _ Hlook) as Hstart. rewrite Hb in Hstart.
  destruct Hstart as (Hc' & Hf & Hw & Hk). split_and!; [done| |done|].
  - rewrite Hf. intros [rid m] He. destruct (lk_folded _ _ _ _ _ _ _ _ _ Hlook _ He) as [Hin|[Hin Hm]].
    + by apply Hshown.
    + by apply logged_shown.
  - by rewrite Hk, Hids, (imported_split responses).
Qed.

(** ** Every step keeps the cache coherent *)

Lemma sys_step_coherent s s' : coherent s -> sys_step s s' -> coherent s'.
Proof.
  intros Hc Hs. destruct Hs as [d d' f reads Hg|d f reads sid responses through_seq d0 c f' Hg Hm|d f reads i t Hi|
    d f reads i d0 Hin|d f reads i r _].
  - by eapply log_step.
  - by eapply messages_ok.
  - destruct Hc as [Hl Hk Ht Hb Hr Hs]. constructor; fields; [done..| |done].
    intros j d0 [[= -> ->]|Hj]%elem_of_cons; [|by auto]. split; [by split_and!|]. exists t.
    split; [done|]. apply (Ht _ _ Hi).
  - by eapply build_step.
  - by apply built_step.
Qed.

Lemma sys_steps_coherent s s' : coherent s -> rtc sys_step s s' -> coherent s'.
Proof. intros Hc H. induction H; eauto using sys_step_coherent. Qed.

Lemma new_coherent d kept_bytes : numbered d -> (0 <= kept_bytes)%Z -> coherent (System d (new_folds kept_bytes) []).
Proof.
  intros Hd Hk. constructor; cbn; [done|set_solver|done|set_solver|set_solver|].
  constructor; cbn; [constructor|constructor|done|lia].
Qed.

(** ** What later steps leave of earlier ones *)

(** Tasks keep their place and what they were asked. *)
Definition tasks_stay (f f' : folds) : Prop :=
  forall i t, rf_tasks f !! i = Some t ->
    exists t', rf_tasks f' !! i = Some t' /\ tk_session t' = tk_session t /\ tk_last_seqs t' = tk_last_seqs t.

Lemma tasks_stay_trans f1 f2 f3 : tasks_stay f1 f2 -> tasks_stay f2 f3 -> tasks_stay f1 f3.
Proof.
  intros H1 H2 i t Hi. destruct (H1 _ _ Hi) as (t2 & H & E1 & E2). destruct (H2 _ _ H) as (t3 & H' & E3 & E4).
  exists t3. split_and!; [done|congruence..].
Qed.

Lemma tasks_stay_prefix f f' : rf_tasks f `prefix_of` rf_tasks f' -> tasks_stay f f'.
Proof. intros [l E] i t Hi. exists t. rewrite E. split; [by apply lookup_app_l_Some|done]. Qed.

Lemma look_up_tasks sid last_seqs st rid st' :
  look_up sid last_seqs st rid = Ok st' -> rf_tasks (snd st') = rf_tasks (snd st).
Proof.
  destruct st as [c f]. unfold look_up. intros H.
  destruct (find_seq _ _); [|by run_res H; injection H as <-].
  assert (Hm : rf_tasks (move_to_end (sid, rid) f) = rf_tasks f) by (unfold move_to_end; by destruct (find_kept _ _)).
  destruct (find_kept _ _); [|by injection H as <-]. destruct (_ =? _)%Z; by injection H as <-.
Qed.

Lemma messages_tasks sid responses through_seq d f c f' :
  messages sid responses through_seq d f = Ok (c, f') -> rf_tasks f `prefix_of` rf_tasks f'.
Proof.
  unfold messages. intros H. destruct (mapM_res _ responses); [|discriminate H]. cbn in H.
  destruct (foldM _ _ _) as [[c1 f1]|] eqn:E; [|discriminate H]. injection H as H.
  assert (H1 : rf_tasks f1 = rf_tasks f).
  { apply (foldM_inv (fun st => rf_tasks (snd st) = rf_tasks f)) in E; [done|done|].
    intros st rid st' Hst Hr. by rewrite (look_up_tasks _ _ _ _ _ Hr). }
  unfold start_build in H. destruct (cl_unbuilt c1); injection H as <- <-; fields; rewrite H1; [done|by eexists].
Qed.

Lemma keep_tasks k e f f' : keep k e f = Ok f' -> rf_tasks f' = rf_tasks f.
Proof.
  unfold keep. intros H. case_match; [by injection H as <-|].
  destruct (evict _ _ _) as [[l size]|]; [by injection H as <-|discriminate H].
Qed.

Lemma build_tasks i d f : tasks_stay f (build i d f).
Proof.
  assert (Hset : forall f1 r, rf_tasks f1 = rf_tasks f -> tasks_stay f (set_result i r f1)).
  { intros f1 r E j t Hj. apply set_result_more. by rewrite E. }
  unfold build. destruct (rf_tasks f !! i) as [[sid last_seqs [r|]]|]; [by apply tasks_stay_prefix| |by apply tasks_stay_prefix].
  destruct (build_messages _ _ _) as [ms|]; [|by apply Hset].
  destruct (foldM _ f ms) as [f1|] eqn:E; [|by apply Hset]. apply Hset.
  apply (foldM_inv (fun f1 => rf_tasks f1 = rf_tasks f)) in E; [done|done|].
  intros f2 [rid m] f3 H2 H3. unfold keep_built in H3. destruct (find_seq _ _); [|done].
  apply keep_tasks in H3. congruence.
Qed.

Lemma later s s' :
  coherent s -> rtc sys_step s s' ->
  coherent s' /\ log_grows (sy_db s) (sy_db s') /\ tasks_stay (sy_folds s) (sy_folds s').
Proof.
  intros Hc H. induction H as [s|s s1 s' Hs H IH].
  - split_and!; [done| |by apply tasks_stay_prefix]. split_and!; [apply Hc..|done].
  - destruct (IH (sys_step_coherent _ _ Hc Hs)) as (Hc' & Hg & Ht).
    assert (log_grows (sy_db s) (sy_db s1) /\ tasks_stay (sy_folds s) (sy_folds s1)) as [Hg1 Ht1];
      [|split_and!; [done|by eapply log_grows_trans|by eapply tasks_stay_trans]].
    assert (log_grows (sy_db s) (sy_db s)) by (split_and!; [apply Hc..|done]).
    destruct Hs; fields; (split; [done|]); try by apply tasks_stay_prefix.
    + eapply tasks_stay_prefix, messages_tasks. done.
    + apply build_tasks.
Qed.

(** ** Collecting the results *)

Lemma collect_ok sid through_seq d0 s waiting r :
  coherent s -> log_grows d0 (sy_db s) -> Forall (awaits sid through_seq d0 (sy_folds s)) waiting ->
  collect waiting (sy_folds s) = Some r ->
  match r with
  | Ok l => Forall2 (fun w m => fst m = fst w /\ log_message sid (fst w) through_seq d0 = Ok (snd m)) waiting l
  | Raise e => exists rid last, fold_upto sid rid last (sy_db s) = Raise e
  end.
Proof.
  intros Hc Hg Hw. revert r. induction Hw as [|[rid i] waiting Ha Hw IH]; intros r H; cbn in H.
  - injection H as <-. constructor.
  - destruct Ha as (last & Hl & t & Hi & Ht & Hin). cbn [fst snd] in *. rewrite Hi in H. cbn in H.
    destruct (co_tasks _ Hc _ _ Hi) as [_ H1 Hr]. unfold result_ok in Hr. rewrite Ht in Hr.
    destruct (tk_result t) as [[ms|e]|]; [| |done].
    2:{ injection H as <-. destruct Hr as (r1 & l1 & _ & Hr). eauto. }
    assert (Hms : forall m, m ∈ ms -> exists l1, (fst m, l1) ∈ tk_last_seqs t /\
                              fold_upto sid (fst m) l1 (sy_db s) = Ok (snd m)).
    { intros m (j & Hj)%list_elem_of_lookup. rewrite Forall2_lookup in Hr. specialize (Hr j). rewrite Hj in Hr.
      inversion Hr as [[r1 l1] ? [Hf Hm] He|]. cbn in *. exists l1. rewrite Hf. split; [|done].
      by eapply list_elem_of_lookup_2. }
    destruct (List.find _ ms) as [[r1 m]|] eqn:Ef.
    + apply List.find_some in Ef as [Hm%list_elem_of_In Hn]. cbn in Hn. bool_prop. subst r1.
      destruct (Hms _ Hm) as (l1 & Hl1 & Hf). cbn in *. rewrite (H1 _ _ _ Hl1 Hin) in Hf.
      destruct (collect waiting (sy_folds s)) as [[l|e]|]; [| |done]; injection H as <-; specialize (IH _ eq_refl); [|done].
      constructor; [|done]. cbn [fst snd]. split; [done|]. by rewrite (log_message_now _ _ _ _ Hg _ _ Hl).
    + exfalso. apply list_elem_of_lookup in Hin as [j Hj]. rewrite Forall2_lookup in Hr. specialize (Hr j).
      rewrite Hj in Hr. inversion Hr as [e0 [r2 m] [Hf _] He Hm|]. cbn in Hf. subst.
      symmetry in Hm. apply list_elem_of_lookup_2, list_elem_of_In in Hm.
      pose proof (List.find_none _ _ Ef _ Hm) as Hn. cbn in Hn. by rewrite String.eqb_refl in Hn.
Qed.

Lemma collect_waits f waiting :
  Forall (fun w => exists sid rid last, asked f (snd w) sid rid last) waiting -> collect waiting f = None ->
  exists rid i, (rid, i) ∈ waiting /\ tk_result <$> rf_tasks f !! i = Some None.
Proof.
  induction 1 as [|[rid i] waiting (sid & r & l & t & Hi & _) Hw IH]; cbn; [done|]. cbn in Hi. rewrite Hi. cbn. intros H.
  destruct (tk_result t) as [[ms|e]|] eqn:Et; [|done|].
  - destruct (List.find _ ms); [|done]. destruct (collect waiting f) as [[]|]; [done..|].
    destruct IH as (r1 & i1 & Hin & H1); [done|]. exists r1, i1. set_solver.
  - exists rid, i. rewrite Hi. cbn. rewrite Et. set_solver.
Qed.

Lemma set_result_here i r f t :
  rf_tasks f !! i = Some t -> tk_result <$> rf_tasks (set_result i r f) !! i = Some (Some r).
Proof. intros H. rewrite set_result_at, H. cbn. by rewrite decide_True. Qed.

Lemma build_result i d f t :
  rf_tasks f !! i = Some t -> exists r, tk_result <$> rf_tasks (build i d f) !! i = Some (Some r).
Proof.
  intros H. unfold build. rewrite H. destruct t as [sid last_seqs [r|]]; [exists r; by rewrite H|].
  destruct (build_messages _ _ _) as [ms|e]; [|eexists; by eapply set_result_here].
  destruct (foldM _ f ms) as [f1|e] eqn:E; [|eexists; by eapply set_result_here].
  eexists. eapply set_result_here. replace (rf_tasks f1) with (rf_tasks f); [exact H|]. symmetry.
  apply (foldM_inv (fun f1 => rf_tasks f1 = rf_tasks f)) in E; [done|done|].
  intros f2 m f3 H2 H3. unfold keep_built in H3. destruct (find_seq _ _); [|done]. apply keep_tasks in H3. congruence.
Qed.

Lemma step_budget s s' : sys_step s s' -> rf_kept_bytes (sy_folds s') = rf_kept_bytes (sy_folds s).
Proof.
  assert (Hkeep : forall k e f f', keep k e f = Ok f' -> rf_kept_bytes f' = rf_kept_bytes f).
  { unfold keep. intros k e f f' H. case_match; [by injection H as <-|].
    destruct (evict _ _ _) as [[l size]|]; [by injection H as <-|discriminate H]. }
  destruct 1 as [d d' f reads Hg|d f reads sid responses t d0 c f' Hg Hm|d f reads i t Hi|d f reads i d0 Hin|]; fields; try done.
  - unfold messages in Hm. destruct (mapM_res _ responses); [|discriminate Hm]. cbn in Hm.
    destruct (foldM _ _ _) as [[c1 f1]|] eqn:E; [|discriminate Hm]. injection Hm as H.
    apply (foldM_inv (fun st => rf_kept_bytes (snd st) = rf_kept_bytes f)) in E; [|done|].
    + unfold start_build in H. destruct (cl_unbuilt c1); by injection H as <- <-.
    + intros [c2 f2] rid st' Hst Hr. cbn in Hst. unfold look_up in Hr.
      destruct (find_seq _ _); [|by run_res Hr; injection Hr as <-].
      destruct (find_kept _ _) eqn:Ek; [|by injection Hr as <-]. destruct (_ =? _)%Z; injection Hr as <-; [|done].
      cbn. unfold move_to_end. by rewrite Ek.
  - unfold build. destruct (rf_tasks f !! i) as [[sid last_seqs [r|]]|]; [done| |done].
    destruct (build_messages _ _ _) as [ms|]; [|done]. destruct (foldM _ f ms) as [f1|] eqn:E; [|done].
    apply (foldM_inv (fun f1 => rf_kept_bytes f1 = rf_kept_bytes f)) in E; [done|done|].
    intros f2 m f3 H2 H3. unfold keep_built in H3. destruct (find_seq _ _); [|done]. apply Hkeep in H3. congruence.
Qed.

Lemma steps_budget s s' :
  rtc sys_step s s' -> rf_kept_bytes (sy_folds s') = rf_kept_bytes (sy_folds s).
Proof. intros H. induction H as [|s s1 s' Hs _ IH]; [done|]. by rewrite IH, (step_budget _ _ Hs). Qed.

(** The caches this process can reach: any interleaving of calls, builds and log growth. *)
Definition reachable (s : system) : Prop :=
  exists d kept_bytes, numbered d /\ (0 <= kept_bytes)%Z /\
    rtc sys_step (System d (new_folds kept_bytes) []) s.

Lemma reachable_coherent s : reachable s -> coherent s.
Proof. intros (d & kb & Hd & Hk & Hs). eapply sys_steps_coherent; [|exact Hs]. by apply new_coherent. Qed.

(** What a finished call returns. *)
Lemma finished_call d1 f1 reads sid responses through_seq d0 c f2 s3 r :
  reachable (System d1 f1 reads) -> log_grows d0 d1 ->
  messages sid responses through_seq d0 f1 = Ok (c, f2) ->
  rtc sys_step (System d1 f2 reads) s3 ->
  finish c (sy_folds s3) = Some r ->
  match r with
  | Ok ms => map fst ms ≡ₚ map rs_response_id responses /\ Forall (shows_row sid responses through_seq d0) ms
  | Raise e => exists rid last, fold_upto sid rid last (sy_db s3) = Raise e
  end.
Proof.
  intros Hr Hg Hm Hs Hfin. apply reachable_coherent in Hr.
  destruct (messages_ok _ _ _ _ _ _ _ _ _ Hr Hg Hm) as (Hc & Hf & Hw & Hk).
  destruct (later _ _ Hc Hs) as (Hc3 & Hg3 & Ht3). fields.
  assert (Hw3 : Forall (awaits sid through_seq d0 (sy_folds s3)) (cl_waiting c)).
  { eapply Forall_impl; [exact Hw|]. intros w [_ (last & Hl & Ha)]. exists last. split; [done|].
    eapply asked_more; [apply Ht3|exact Ha]. }
  unfold finish in Hfin. destruct (collect _ _) as [r1|] eqn:E; [|done].
  pose proof (collect_ok _ _ _ _ _ _ Hc3 (log_grows_trans _ _ _ Hg Hg3) Hw3 E) as Hcol.
  destruct r1 as [l|e]; injection Hfin as <-; [|done].
  assert (Hkeys : map fst l = map fst (cl_waiting c)).
  { clear -Hcol. induction Hcol as [|w m ws l [Hf _] _ IH]; [done|]. cbn. by rewrite Hf, IH. }
  split; [by rewrite map_app, Hkeys|]. apply Forall_app. split; [by apply Forall_forall|].
  apply Forall_lookup. intros j [rid m] Hj. rewrite Forall2_lookup in Hcol. specialize (Hcol j). rewrite Hj in Hcol.
  inversion Hcol as [w ? [Hfst Hlm] Hwj|]. cbn [fst snd] in *. subst rid.
  apply logged_shown; [|done]. rewrite Forall_forall in Hw. apply (Hw w). by eapply list_elem_of_lookup_2.
Qed.

(** C10: A call's messages are those of the log its query saw, whatever the cache held and
    whatever calls, builds and appends came between its lookups and its end: one message
    per response, folded from exactly the response's parts through the position asked for.
    A call fails only when some response's own parts do not fold. *)
Theorem cached_messages_match_log d1 f1 reads sid responses through_seq d0 c f2 s3 r :
  reachable (System d1 f1 reads) -> log_grows d0 d1 ->
  messages sid responses through_seq d0 f1 = Ok (c, f2) ->
  rtc sys_step (System d1 f2 reads) s3 ->
  finish c (sy_folds s3) = Some r ->
  match r with
  | Ok ms => map fst ms ≡ₚ map rs_response_id responses /\ Forall (shows_row sid responses through_seq d0) ms
  | Raise e => exists rid last, fold_upto sid rid last (sy_db s3) = Raise e
  end.
Proof. apply finished_call. Qed.

(** C33: The cache never outgrows its byte budget, counts exactly the sizes of what it keeps,
    and keeps one message per response, however builds of different positions overlap. *)
Theorem fold_cache_bounded kept_bytes d s :
  numbered d -> (0 <= kept_bytes)%Z -> rtc sys_step (System d (new_folds kept_bytes) []) s ->
  (0 <= rf_size (sy_folds s) <= kept_bytes)%Z /\
  rf_size (sy_folds s) = total (rf_kept (sy_folds s)) /\
  NoDup (map fst (rf_kept (sy_folds s))).
Proof.
  intros Hd Hk Hs. pose proof (new_coherent _ _ Hd Hk) as Hc.
  pose proof (steps_budget _ _ Hs) as Hb. cbn in Hb.
  pose proof (sys_steps_coherent _ _ Hc Hs) as [_ _ _ _ _ [Hn _ Ht Hsz]]. by rewrite Hb in Hsz.
Qed.

(** ** A call ends *)

(** The builds whose queries have answered run, one after another. *)
Definition builds (reads : list (nat * db)) (f : folds) : folds := fold_left (fun f e => build (fst e) (snd e) f) reads f.

Definition has_result (f : folds) (i : nat) : Prop := exists r, tk_result <$> rf_tasks f !! i = Some (Some r).

Lemma build_keeps_result j d f i : has_result f i -> has_result (build j d f) i.
Proof.
  intros [r Hr]. assert (Hset : forall f1 r1, rf_tasks f1 = rf_tasks f -> has_result (set_result j r1 f1) i).
  { intros f1 r1 E. unfold has_result. rewrite set_result_at, E. destruct (rf_tasks f !! i) as [t|]; [|done]. injection Hr as Hr.
    cbn. destruct (decide (j = i)); eauto. exists r. by rewrite <-Hr. }
  unfold build. destruct (rf_tasks f !! j) as [[sid last_seqs [r0|]]|]; [by exists r| |by exists r].
  destruct (build_messages _ _ _) as [ms|]; [|by apply Hset]. destruct (foldM _ f ms) as [f1|] eqn:E; [|by apply Hset].
  apply Hset. apply (foldM_inv (fun f1 => rf_tasks f1 = rf_tasks f)) in E; [done|done|].
  intros f2 m f3 H2 H3. unfold keep_built in H3. destruct (find_seq _ _); [|done]. apply keep_tasks in H3. congruence.
Qed.

Lemma builds_keep_result reads f i : has_result f i -> has_result (builds reads f) i.
Proof. revert f. induction reads as [|[j d] reads IH]; intros f H; [done|]. cbn. apply IH. by apply build_keeps_result. Qed.

Lemma builds_result reads f i d t : (i, d) ∈ reads -> rf_tasks f !! i = Some t -> has_result (builds reads f) i.
Proof.
  revert f t. induction reads as [|[j d0] reads IH]; intros f t Hi Ht; [by apply elem_of_nil in Hi|]. cbn.
  apply elem_of_cons in Hi as [[= -> ->]|Hi]; [apply builds_keep_result; by eapply build_result|].
  destruct (build_tasks j d0 f i t Ht) as (t' & Ht' & _). by eapply IH.
Qed.

Lemma builds_steps d f reads l :
  (forall e, e ∈ l -> e ∈ reads) -> rtc sys_step (System d f reads) (System d (builds l f) reads).
Proof.
  revert f. induction l as [|[i d0] l IH]; intros f Hl; [apply rtc_refl|]. cbn. eapply rtc_l.
  - apply (BuildKeeps _ _ _ i d0). apply Hl. by left.
  - apply IH. intros e He. apply Hl. by right.
Qed.

(** C34: A call that waits for builds is answered by them.  Once the queries of the builds it
    waits for have answered, and those builds have run, whatever other calls, builds and
    appends came in between, the call has its messages, which are those
    of the log its query saw; it fails only with what folding some response's own parts
    raises; and every build that ran has the folds of the log for what it was asked, or the
    error of one of them.  So no build is left without a result, and none gives an error of
    the cache's own bookkeeping. *)
Theorem folds_wait_only_for_builds d1 f1 reads sid responses through_seq d0 c f2 s3 :
  reachable (System d1 f1 reads) -> log_grows d0 d1 ->
  messages sid responses through_seq d0 f1 = Ok (c, f2) ->
  rtc sys_step (System d1 f2 reads) s3 ->
  (forall rid i, (rid, i) ∈ cl_waiting c -> exists d', (i, d') ∈ sy_reads s3) ->
  (exists r, finish c (builds (sy_reads s3) (sy_folds s3)) = Some r /\
     match r with
     | Ok ms => map fst ms ≡ₚ map rs_response_id responses /\ Forall (shows_row sid responses through_seq d0) ms
     | Raise e => exists rid last, fold_upto sid rid last (sy_db s3) = Raise e
     end) /\
  forall i d', (i, d') ∈ sy_reads s3 ->
    exists t, rf_tasks (builds (sy_reads s3) (sy_folds s3)) !! i = Some t /\ is_Some (tk_result t) /\ result_ok (sy_db s3) t.
Proof.
  intros Hr Hg Hm Hs Hreads. pose proof (reachable_coherent _ Hr) as Hc0.
  destruct (messages_ok _ _ _ _ _ _ _ _ _ Hc0 Hg Hm) as (Hc & _ & Hw & _).
  destruct s3 as [d3 f3 reads3]. destruct (later _ _ Hc Hs) as (Hc3 & _ & _). fields.
  assert (Hs4 : rtc sys_step (System d3 f3 reads3) (System d3 (builds reads3 f3) reads3)) by by apply builds_steps.
  destruct (later _ _ Hc3 Hs4) as (Hc4 & _ & _). fields.
  assert (Hran : forall i d', (i, d') ∈ reads3 -> has_result (builds reads3 f3) i).
  { intros i d' Hi. destruct (co_reads _ Hc3 _ _ Hi) as [_ (t & Ht & _)]. by eapply builds_result. }
  assert (Hall : rtc sys_step (System d1 f2 reads) (System d3 (builds reads3 f3) reads3)) by by etrans.
  split.
  - destruct (finish c (builds reads3 f3)) as [r|] eqn:E.
    + exists r. split; [done|]. exact (finished_call _ _ _ _ _ _ _ _ _ _ _ Hr Hg Hm Hall E).
    + exfalso. unfold finish in E. destruct (collect _ _) as [[]|] eqn:Ec; [done..|]. clear E.
      destruct (later _ _ Hc Hall) as (_ & _ & Ht). fields. apply collect_waits in Ec as (rid & i & Hin & Hn).
      * destruct (Hreads _ _ Hin) as [d' Hi]. destruct (Hran _ _ Hi) as [r Hres]. congruence.
      * eapply Forall_impl; [exact Hw|]. intros w [_ (last & _ & Ha)]. exists sid, (fst w), last.
        eapply asked_more; [apply Ht|exact Ha].
  - intros i d' Hi. destruct (Hran _ _ Hi) as [r Hres]. destruct (rf_tasks _ !! i) as [t|] eqn:Et; [|done].
    injection Hres as Hres. exists t. split_and!; [done|by eexists|]. apply (co_tasks _ Hc4 _ _ Et).
Qed.

End Folds.

Import Repo Rec Ui Reads Numbering Follow Folds.

(** A response of three parts. *)
Definition demo_text_batch : FactBatch :=
  MkBatch [MkPart 1 (Some "r1") [("type", VStr "text-start"); ("id", VStr "t1")];
           MkPart 2 (Some "r1") [("type", VStr "text-delta"); ("id", VStr "t1"); ("delta", VStr "hi")];
           MkPart 3 (Some "r1") [("type", VStr "text-end"); ("id", VStr "t1")]]
    [ResponseStart "r1" "input" ["i1"]] None None None.
Definition demo_text_db : db := snd (record demo_lease demo_text_batch 100 30 demo_db2).

(** A call finds nothing kept, its build runs, and it returns. *)
Definition demo_call := messages "s1" (db_responses demo_text_db) None demo_text_db (new_folds 1000).
Definition demo_looked : folds := match demo_call with Ok (_, f) => f | _ => new_folds 1000 end.
Definition demo_waiting : call := match demo_call with Ok (c, _) => c | _ => MkCall "" [] [] [] end.
Definition demo_built : folds := build 0 demo_text_db demo_looked.

(** A log of one session, numbered as its reader numbers it. *)
Lemma one_session_numbered d sid n :
  (0 <= n)%Z -> Forall (fun o => ou_session_id o = sid) (db_output d) ->
  map ou_seq (db_output d) = seqZ 1 n -> numbered d.
Proof.
  intros Hn Hs Hl s. unfold unique_output, contiguous. generalize (db_output d), Hs, Hl. clear Hs Hl. intros l Hs Hl.
  assert (Hsel : select_where (output_of s) l = if s =s sid then l else []).
  { clear -Hs. unfold select_where, output_of. induction Hs as [|o l Ho _ IH]; [by destruct (s =s sid)|].
    rewrite filter_cons, Ho, IH, String.eqb_sym. destruct (s =s sid); [by rewrite decide_True|by rewrite decide_False]. }
  assert (Hin : forall x, x ∈ map ou_seq l <-> (1 <= x <= n)%Z) by (intros x; rewrite Hl, elem_of_seqZ; lia).
  rewrite Forall_forall in Hs. rewrite Hsel. destruct (s =s sid) eqn:Ei; bool_prop.
  - subst. split; [rewrite Hl; apply NoDup_seqZ|]. exists n. split; [lia|]. intros x. rewrite <-Hin, list_elem_of_fmap.
    split; [intros (o & Ho & _ & <-); by exists o|intros (o & -> & Ho); exists o; by auto].
  - split; [constructor|]. exists 0%Z. split; [lia|]. intros x. split; [|lia].
    intros (o & Ho & Hx & _). apply Hs in Ho. congruence.
Qed.

Lemma demo_numbered : numbered demo_text_db.
Proof. apply (one_session_numbered _ "s1" 3); vm_compute; [done|by repeat constructor|done]. Qed.

Lemma demo_reads_steps :
  rtc sys_step (System demo_text_db demo_looked []) (System demo_text_db demo_built [(0, demo_text_db)]).
Proof.
  eapply rtc_l.
  - apply (BuildReads _ _ _ 0 (Task "s1" [("r1", 3%Z)] None)). vm_compute. reflexivity.
  - apply rtc_once. apply BuildKeeps. set_solver.
Qed.

Lemma demo_start : reachable (System demo_text_db (new_folds 1000) []).
Proof. exists demo_text_db, 1000%Z. split_and!; [apply demo_numbered|lia|apply rtc_refl]. Qed.

Lemma demo_grown : log_grows demo_text_db demo_text_db.
Proof. split_and!; [apply demo_numbered..|done]. Qed.

Lemma demo_called :
  messages "s1" (db_responses demo_text_db) None demo_text_db (new_folds 1000) = Ok (demo_waiting, demo_looked).
Proof. vm_compute. reflexivity. Qed.

Lemma cached_messages_match_log_witness :
  exists ms, finish demo_waiting demo_built = Some (Ok ms) /\ map fst ms ≡ₚ ["r1"] /\
    Forall (shows_row "s1" (db_responses demo_text_db) None demo_text_db) ms.
Proof.
  destruct (finish demo_waiting demo_built) as [[ms|e]|] eqn:E; [|vm_compute in E; discriminate..].
  exists ms. split; [reflexivity|].
  exact (cached_messages_match_log _ _ _ _ _ _ _ _ _ (System demo_text_db demo_built [(0, demo_text_db)]) (Ok ms)
    demo_start demo_grown demo_called demo_reads_steps E).
Defined.

Lemma fold_cache_bounded_witness :
  (0 <= rf_size demo_built <= 1000)%Z /\ rf_size demo_built = 109%Z.
Proof.
  split; [|vm_compute; reflexivity].
  assert (H0 : rtc sys_step (System demo_text_db (new_folds 1000) []) (System demo_text_db demo_built [(0, demo_text_db)])).
  { eapply rtc_l; [|exact demo_reads_steps]. exact (CallLooksUp _ _ _ _ _ _ _ _ _ demo_grown demo_called). }
  apply (fold_cache_bounded 1000 demo_text_db _ demo_numbered ltac:(lia) H0).
Defined.

Lemma folds_wait_only_for_builds_witness :
  finish demo_waiting demo_looked = None /\
  exists r, finish demo_waiting (builds [(0, demo_text_db)] demo_looked) = Some r.
Proof.
  split; [vm_compute; reflexivity|].
  destruct (folds_wait_only_for_builds _ _ _ _ _ _ _ _ _ (System demo_text_db demo_looked [(0, demo_text_db)])
    demo_start demo_grown demo_called) as [(r & Hr & _) _].
  - apply rtc_once. apply (BuildReads _ _ _ 0 (Task "s1" [("r1", 3%Z)] None)). vm_compute. reflexivity.
  - assert (E : cl_waiting demo_waiting = [("r1", 0)]) by (vm_compute; reflexivity). rewrite E.
    intros rid i Hi. apply list_elem_of_singleton in Hi. injection Hi as _ ->. exists demo_text_db. left.
  - exists r. exact Hr.
Defined.
