(* ===== verification/HistoryReads.v ===== *)
(** [session_runtime/history_blocks.py], the reads: one page of history with every ended
    response folded, one response, and the parts a header stands for.  Each awaited query
    sees the store as it is by then, so a read takes a store per query, and what the shared
    folds answer. *)

From stdpp Require Import sorting.
From S2P Require Import Prelude PyVal JsonText Cursors Schema Interaction SessionRepo SessionRecord DemoStore SessionReads Reader ReaderFacts UiMessage Follow HistoryMessages HistoryBlocks ResponseFolds.

Open Scope string_scope.

Module HistoryReads.
Import Repo Rec Ui Reads HistoryView Blocks Cursor Numbering Follow Folds.

(** ** A row as services see it ([_row]) *)

(** Digits with leading zeros. *)
Definition padded (width : nat) (z : Z) : string :=
  let s := pretty z in
  String.concat "" (repeat "0" (width - String.length s)) ++ s.

(** The civil date of a day counted from 1970-01-01. *)
Definition civil (days : Z) : Z * Z * Z :=
  let z := (days + 719468)%Z in
  let era := (z / 146097)%Z in
  let doe := (z mod 146097)%Z in
  let yoe := ((doe - doe / 1460 + doe / 36524 - doe / 146096) / 365)%Z in
  let doy := (doe - (365 * yoe + yoe / 4 - yoe / 100))%Z in
  let mp := ((5 * doy + 2) / 153)%Z in
  let day := (doy - (153 * mp + 2) / 5 + 1)%Z in
  let month := (if mp <? 10 then mp + 3 else mp - 9)%Z in
  ((yoe + era * 400 + (if month <=? 2 then 1 else 0))%Z, month, day).

(** [to_iso]: the ISO-8601 UTC string of a time in microseconds. *)
Definition to_iso (us : Z) : string :=
  let secs := (us / 1000000)%Z in
  let micros := (us mod 1000000)%Z in
  let '(year, month, day) := civil (secs / 86400)%Z in
  let s := (secs mod 86400)%Z in
  padded 4 year ++ "-" ++ padded 2 month ++ "-" ++ padded 2 day ++ "T" ++
  padded 2 (s / 3600) ++ ":" ++ padded 2 (s / 60 mod 60) ++ ":" ++ padded 2 (s mod 60) ++
  (if (micros =? 0)%Z then "" else "." ++ padded 6 micros) ++ "+00:00".

Definition opt_str (o : option string) : val := match o with Some s => VStr s | None => VNone end.
Definition opt_time (o : option Z) : val := match o with Some t => VStr (to_iso t) | None => VNone end.
Definition opt_int (o : option Z) : val := match o with Some z => VInt z | None => VNone end.

Definition input_state_text (s : input_state) : string :=
  match s with
  | Pending => "pending" | Delivered => "delivered" | AdmittedInput => "admitted"
  | Failed => "failed" | Imported => "imported"
  end.

Definition response_status_text (s : response_status) : string :=
  match s with Running => "running" | Waiting => "waiting" | Ended => "ended" end.

Definition input_view (r : input_row) : dict :=
  [("input_id", VStr (in_input_id r)); ("session_id", VStr (in_session_id r)); ("seq", VInt (in_seq r));
   ("client_message_id", VStr (in_client_message_id r)); ("author_user_id", opt_str (in_author_user_id r));
   ("source", opt_str (in_source r)); ("content", VStr (in_content r));
   ("content_blocks", match in_content_blocks r with Some l => VList l | None => VNone end);
   ("state", VStr (input_state_text (in_state r))); ("response_id", opt_str (in_response_id r));
   ("failure", opt_dict (in_failure r)); ("import_record", opt_dict (in_import_record r));
   ("created_at", VStr (to_iso (in_created_at r))); ("delivered_at", opt_time (in_delivered_at r));
   ("admitted_at", opt_time (in_admitted_at r)); ("conversation_order", opt_int (in_conversation_order r))].

Definition response_view (r : response_row) : dict :=
  [("session_id", VStr (rs_session_id r)); ("response_id", VStr (rs_response_id r)); ("seq", VInt (rs_seq r));
   ("origin", VStr (rs_origin r)); ("status", VStr (response_status_text (rs_status r)));
   ("outcome", opt_str (rs_outcome r)); ("native_reason", opt_str (rs_native_reason r));
   ("usage", opt_dict (rs_usage r)); ("error", opt_dict (rs_error r));
   ("import_record", opt_dict (rs_import_record r)); ("started_at", VStr (to_iso (rs_started_at r)));
   ("ended_at", opt_time (rs_ended_at r)); ("conversation_order", opt_int (rs_conversation_order r))].

Definition settlement_view (x : string * interaction_status * option dict) : dict :=
  let '(iid, status, answer) := x in
  [("interaction_id", VStr iid); ("status", VStr (interaction_status_text status)); ("answer", opt_dict answer)].

(** ** One page *)

Record page_reads := PageReads {
  pr_resume : db;
  pr_page : db;
  pr_messages : list response_row -> option Z -> res (list (string * message));
  pr_interactions : db;
  pr_last : db
}.

Record page_view := PageView {
  pv_messages : list message;
  pv_has_more : bool;
  pv_through_seq : Z;
  pv_next_cursor : option string;
  pv_labelled : list (string * val)
}.

Definition entry_of (k : history_key) : entry_key :=
  let '(phase, position, kind, seq) := k in EntryKey phase position kind seq.
Definition key_of_entry (e : entry_key) : history_key :=
  (ek_phase e, ek_position e, ek_kind e, ek_seq e).

Definition page_rows_view (page : history_page_view) : history_rows :=
  HistoryRows (map (fun e => (if (ek_kind e =? 0)%Z then "input" else "response", ek_seq e)) (hp_entries page))
    (map input_view (hp_inputs page)) (map response_view (hp_responses page)).

(** The responses whose parts were all stored by [through_seq]. *)
Definition ended_by (through_seq : Z) (last_seqs : list (string * Z)) (rows : list response_row) : list string :=
  map rs_response_id (List.filter (fun r => bool_decide (rs_status r = Ended) &&
    (default 0 (find_seq (rs_response_id r) last_seqs) <=? through_seq)%Z) rows).

Definition as_str (v : val) : option string := match v with VStr s => Some s | _ => None end.

(** The fold of an ended response's message. *)
Definition message_fold (sid cursor : string) (m : message) : Fold :=
  fold_parts (m_parts m) (as_str (Py.get "outcome" (m_metadata m))) (m_id m) sid cursor.

(** The body of the loop over the page's messages: the message shown, and the header a
    label goes to. *)
Definition shown_message (sid checkpoint : string) (ended : list string) (m : message)
  : message * option (string * val) :=
  let rid := key_of "response_id" (m_metadata m) in
  if (m_role m =s "assistant") && Py.in_strs rid ended then
    let fold := message_fold sid checkpoint m in
    (Message (m_id m) (m_role m) (fd_parts fold) (m_metadata m),
     match fd_summary fold with
     | Some _ =>
         match List.find (fun p => type_of p =s PROCESS_BLOCK_PART) (fd_parts fold) with
         | Some p => Some (m_id m, Py.get "data" p)
         | None => None
         end
     | None => None
     end)
  else (m, None).

Section Reads.
Variable repr_float : string -> string.
Variable levels : nat.

Definition page_position (sid : string) (cursor : option string) (d : db) : res (Z * option entry_key) :=
  match cursor with
  | None => Ok (fst (resume_point sid d), None)
  | Some c =>
      p ← decode_cursor repr_float levels c;
      match snd p with
      | None => Raise HistoryCursorError
      | Some k => Ok (fst p, Some (entry_of k))
      end
  end.

(** What the reads give before anything is folded: the page, the position it is pinned to,
    the responses ended by then, and their messages as settled. *)
Record pinned_page := PinnedPage {
  pp_page : history_page_view;
  pp_through : Z;
  pp_ended : list string;
  pp_messages : list message
}.

Definition pin_page (sid : string) (cursor : option string) (limit : nat) (rd : page_reads) : res pinned_page :=
  position ← page_position sid cursor (pr_resume rd);
  let '(through_seq, before) := position in
  page ← fst (history_page sid before limit (Some through_seq) (pr_page rd));
  let rids := map rs_response_id (hp_responses page) in
  folded ← pr_messages rd (hp_responses page) (Some through_seq);
  let interactions := map settlement_view (response_interactions sid rids (pr_interactions rd)) in
  let last_seqs := last_output_seqs sid rids None (pr_last rd) in
  let ended := ended_by through_seq last_seqs (hp_responses page) in
  messages ← history_messages (page_rows_view page) folded interactions;
  Ok (PinnedPage page through_seq ended messages).

(** [load_history_page]. *)
Definition load_history_page (sid : string) (cursor : option string) (limit : nat) (rd : page_reads)
  : res page_view :=
  p ← pin_page sid cursor limit rd;
  let shown := map (shown_message sid (encode_cursor (pp_through p) None) (pp_ended p)) (pp_messages p) in
  Ok (PageView (map fst shown) (hp_has_more (pp_page p)) (pp_through p)
    (match hp_has_more (pp_page p), hp_before (pp_page p) with
     | true, Some e => Some (encode_cursor (pp_through p) (Some (key_of_entry e)))
     | _, _ => None
     end)
    (Reader.index_by (omap snd shown))).

(** ** One response *)

Record response_reads := ResponseReads {
  rr_response : db;
  rr_messages : list response_row -> option Z -> res (list (string * message));
  rr_interactions : db;
  rr_last : db
}.

Record loaded_response := LoadedResponse {
  lr_row : response_row;
  lr_message : message;
  lr_fold : option Fold;
  lr_last_seq : Z
}.

(** [load_response]. *)
Definition load_response (sid rid : string) (through_seq : option Z) (rd : response_reads)
  : res (option loaded_response) :=
  match get_response sid rid (rr_response rd) with
  | None => Ok None
  | Some row =>
      folded ← rr_messages rd [row] through_seq;
      let interactions := map settlement_view (response_interactions sid [rid] (rr_interactions rd)) in
      let last := default 0%Z (find_seq rid (last_output_seqs sid [rid] None (rr_last rd))) in
      messages ← history_messages (HistoryRows [("response", rs_seq row)] [] [response_view row]) folded interactions;
      match messages with
      | [] => Raise IndexError
      | m :: _ =>
          Ok (Some (LoadedResponse row m
            (if bool_decide (rs_status row = Ended) && match through_seq with Some t => (last <=? t)%Z | None => true end
             then Some (fold_parts (m_parts m) (rs_outcome row) (m_id m) sid
                          (encode_cursor (default last through_seq) None))
             else None)
            last))
      end
  end.

(** [str.rpartition]: what is before and after the last [sep]. *)
Fixpoint rpartition (sep s : string) : option (string * string) :=
  match s with
  | "" => None
  | String c s' =>
      match rpartition sep s' with
      | Some (b, a) => Some (String c b, a)
      | None => if String.prefix sep s
                then Some ("", String.substring (String.length sep) (String.length s) s) else None
      end
  end.

(** [load_block_parts]. *)
Definition load_block_parts (sid block_id cursor : string) (rd : response_reads)
  : res (option (loaded_response * list dict)) :=
  p ← decode_cursor repr_float levels cursor;
  match snd p with
  | Some _ => Raise HistoryCursorError
  | None =>
      match rpartition ":p" block_id with
      | None => Ok None
      | Some (rid, _) =>
          if Py.is_empty rid then Ok None
          else
            loaded ← load_response sid rid (Some (fst p)) rd;
            match loaded with
            | None => Ok None
            | Some l =>
                match lr_fold l with
                | None => Ok None
                | Some fold =>
                    match get_detail block_id (fd_details fold) with
                    | None => Ok None
                    | Some parts => Ok (Some (l, parts))
                    end
                end
            end
      end
  end.

End Reads.

Example iso_time : to_iso 1709210096000123 = "2024-02-29T12:34:56.000123+00:00" /\ to_iso 0 = "1970-01-01T00:00:00+00:00".
Proof. vm_compute. done. Qed.

End HistoryReads.
