(* ===== verification/HistoryOpening.v ===== *)
(** A header on a history page opens to the work it stands for: the page's read and the
    later read of its block, each through whatever store their queries see, meet in the
    same fold.  The folded messages come through an interface ([FoldsAsRead]) that the
    shared cache implements. *)

From stdpp Require Import sorting.
From S2P Require Import Prelude PyVal Base64 JsonText Texts Cursors Schema Interaction SessionRepo SessionRecord DemoStore SessionReads Reader ReaderFacts UiMessage Follow HistoryMessages HistoryBlocks ResponseFolds HistoryReads.

Open Scope string_scope.

Module HistoryOpening.
Import Texts Repo Rec Ui Reads HistoryView Blocks Cursor Numbering Follow Folds HistoryReads.

(** ** A block's id names its response *)

(** "p". *)
Definition LOWER_P : Ascii.ascii := Ascii.Ascii false false false false true true true false.

Lemma rpartition_free s : free_of COLON s = true -> rpartition ":p" s = None.
Proof.
  induction s as [|c s IH]; [done|]. intros [Hc Hs]%andb_true_iff. cbn [rpartition]. rewrite IH by done.
  unfold String.prefix. change (String.String ?a ?b) with (String a b).
  destruct (Ascii.ascii_dec _ c) as [E|]; [|done]. fold COLON in E. subst c. done.
Qed.

Lemma rpartition_block rid i : exists suffix, rpartition ":p" (block_id rid i) = Some (rid, suffix).
Proof.
  unfold block_id. assert (Hf : free_of COLON (pretty i) = true).
  { apply pretty_nat_free. }
  exists (String.substring 2 (String.length (":p" ++ pretty i)) (":p" ++ pretty i)).
  induction rid as [|c rid IH].
  - rewrite app_Empty. change (":p" ++ pretty i) with (String COLON (String LOWER_P (pretty i))).
    cbn [rpartition]. rewrite (rpartition_free _ Hf). generalize (pretty i). intros q.
    assert (Hp : String.prefix ":p" (String COLON (String LOWER_P q)) = true); [|by rewrite Hp].
    destruct q; vm_compute; done.
  - rewrite app_String. cbn [rpartition]. by rewrite IH.
Qed.

(** ** Rows by key *)

Lemma last_filter_fold {A} k (l : list (string * A)) v :
  fold_left (fun acc kv => if fst kv =s k then snd kv else acc) l v =
  default v (snd <$> last (List.filter (fun e => fst e =s k) l)).
Proof.
  revert v. induction l as [|[k' v'] l IH]; intros v; [done|]. cbn [fold_left List.filter fst snd].
  rewrite IH. destruct (k' =s k); [|done]. rewrite last_cons. by destruct (last _).
Qed.

Lemma assoc_index_by {A} k (l : list (string * A)) :
  Reader.assoc k (Reader.index_by l) = snd <$> last (List.filter (fun e => fst e =s k) l).
Proof.
  induction l as [|[k' v] l IH]; [done|]. cbn [Reader.index_by Reader.assoc List.filter fst].
  rewrite String.eqb_sym. destruct (k' =s k) eqn:E.
  - bool_prop. subst k'. rewrite last_filter_fold, last_cons. by destruct (last _).
  - rewrite <-IH. clear IH. induction (Reader.index_by l) as [|[k2 v2] r IHr]; [done|]. cbn [List.filter fst].
    destruct (k2 =s k') eqn:E2; cbn [negb Reader.assoc].
    + bool_prop. subst k2. by rewrite (proj2 (String.eqb_neq k k')), IHr by congruence.
    + by rewrite IHr.
Qed.

Lemma index_by_keys {A} (l : list (string * A)) : NoDup (map fst (Reader.index_by l)).
Proof.
  induction l as [|[k v] l IH]; [constructor|]. cbn [Reader.index_by map fst]. constructor.
  - intros ([k' v'] & -> & H)%list_elem_of_fmap. apply list_elem_of_In, List.filter_In in H as [_ H].
    by rewrite String.eqb_refl in H.
  - eapply sublist_NoDup; [exact IH|]. apply map_sublist, list_filter_sublist.
Qed.

(** ** The overlay of a part depends only on the interactions the part names *)

(** The interactions a part names: the one whose approval it waits for, and its own. *)
Definition named_by (part : dict) : list string :=
  match Py.get "approval" part with VDict approval => [key_of "id" approval] | _ => [] end ++
  match Py.get "data" part with VDict data => [Py.str (Py.get "interaction_id" data)] | _ => [] end.

(** What a person's page has settled by its rows. *)
Definition settled_rows (l : list (string * interaction_status * option dict)) : list (string * dict) :=
  Reader.index_by (map (fun x => (fst (fst x), settlement_view x)) l).

Lemma settled_keys l : NoDup (map fst (settled_rows l)).
Proof. apply index_by_keys. Qed.

Lemma settlements_read l : settlements_of (map settlement_view l) = Ok (settled_rows l).
Proof.
  unfold settlements_of. assert (E : mapM_res (fun row => v ← Py.item "interaction_id" row; Ok (Py.str v, row))
    (map settlement_view l) = Ok (map (fun x => (fst (fst x), settlement_view x)) l)); [|by rewrite E].
  apply mapM_res_Forall2. induction l as [|[[iid st] ans] l IH]; constructor; [done|exact IH].
Qed.

(** The last row of an interaction is the one that counts. *)
Definition row_of (iid : string) (l : list (string * interaction_status * option dict))
  : option (string * interaction_status * option dict) :=
  last (List.filter (fun x => fst (fst x) =s iid) l).

Lemma assoc_settled iid l : Reader.assoc iid (settled_rows l) = settlement_view <$> row_of iid l.
Proof.
  unfold settled_rows, row_of. rewrite assoc_index_by.
  assert (E : List.filter (fun e : string * dict => fst e =s iid) (map (fun x => (fst (fst x), settlement_view x)) l) =
    map (fun x => (fst (fst x), settlement_view x)) (List.filter (fun x => fst (fst x) =s iid) l)).
  { induction l as [|x l IH]; [done|]. cbn. destruct (_ =s _); cbn; by rewrite IH. }
  rewrite E, fmap_last. by destruct (last _).
Qed.

Lemma decisions_assoc settlements decisions id :
  NoDup (map fst settlements) -> decisions_of settlements = Ok decisions ->
  Reader.assoc id decisions =
    match Reader.assoc id settlements with
    | Some row => match decision_of row with Ok o => o | Raise _ => None end
    | None => None
    end.
Proof.
  intros Hnd H. unfold decisions_of in H. apply bind_ok in H as (ds & Hds & <-%Ok_inj).
  apply mapM_res_Forall2 in Hds. induction Hds as [|[k row] [k' o] rows ds Hn _ IH]; [done|].
  unfold named_decision in Hn. cbn [fst snd] in Hn. apply bind_ok in Hn as (o' & Ho & [= <- <-]).
  cbn [map fst] in Hnd. apply NoDup_cons in Hnd as [Hk Hnd]. specialize (IH Hnd).
  cbn [Reader.assoc]. unfold taken_decisions in *. cbn [omap list_omap snd fst].
  destruct (id =s k) eqn:E.
  - bool_prop. subst k. rewrite Ho. destruct o'; cbn [Reader.assoc]; [by rewrite String.eqb_refl|]. rewrite IH.
    assert (Hn : Reader.assoc id rows = None); [|by rewrite Hn]. clear -Hk.
    induction rows as [|[k v] rows IH]; [done|]. cbn in *. apply not_elem_of_cons in Hk as [Hne Hk].
    rewrite (proj2 (String.eqb_neq id k)) by done. by apply IH.
  - destruct o'; cbn [Reader.assoc]; [by rewrite E|done].
Qed.

(** Two sets of settled rows that agree on an interaction. *)
Definition agree_on (l1 l2 : list (string * interaction_status * option dict)) (iid : string) : Prop :=
  row_of iid l1 = row_of iid l2.

Lemma apply_decision_names ds part part1 : apply_decision ds part = Ok part1 -> named_by part1 = named_by part.
Proof.
  intros H. pose proof (apply_decision_spec _ _ _ H) as [Hget _]. unfold named_by.
  rewrite (Hget "data") by done. f_equal. clear Hget. unfold apply_decision in H.
  destruct (Py.get "approval" part) as [| | | | | |approval] eqn:Ea; try (apply Ok_inj in H as <-; by rewrite Ea).
  destruct (Reader.assoc _ ds) as [answer|]; [|apply Ok_inj in H as <-; by rewrite Ea].
  apply bind_ok in H as (d & _ & H). apply bind_ok in H as (c & _ & <-%Ok_inj).
  set (part2 := Py.set "approval" _ part). assert (Hp : Py.get "approval" part2 = VDict (
    if negb (Py.eqb d (VStr "approve")) && negb (Py.is_empty (Py.clean c))
    then Py.set "reason" (VStr (Py.clean c)) (Py.set "approved" (VBool (Py.eqb d (VStr "approve"))) approval)
    else Py.set "approved" (VBool (Py.eqb d (VStr "approve"))) approval)) by apply get_set_eq.
  destruct (Py.eqb (Py.get "state" part2) _); [rewrite get_set_ne by done|]; rewrite Hp; unfold key_of;
    destruct (_ && _); by rewrite !get_set_ne.
Qed.

Lemma lay_settlement_names ss part part1 : lay_settlement ss part = Ok part1 -> named_by part1 = named_by part.
Proof.
  intros H. unfold lay_settlement in H. apply bind_ok in H as (ty & _ & H).
  destruct (negb _); [by apply Ok_inj in H as <-|]. apply bind_ok in H as (data & Hd%item_get & H).
  apply bind_ok in H as (iid & Hi & H). destruct (Reader.assoc _ ss) as [row|]; [|done].
  destruct data as [| | | | | |d]; try done. apply bind_ok in H as (st & _ & <-%Ok_inj). unfold named_by.
  rewrite get_set_ne, get_set_eq, Hd by done. f_equal. do 2 f_equal.
  destruct (Py.get "answer" row); try by rewrite get_set_ne.
  all: destruct (Py.eqb st _); by rewrite !get_set_ne.
Qed.

Lemma apply_decision_same l1 l2 ds1 ds2 part :
  decisions_of (settled_rows l1) = Ok ds1 -> decisions_of (settled_rows l2) = Ok ds2 ->
  Forall (agree_on l1 l2) (named_by part) -> apply_decision ds2 part = apply_decision ds1 part.
Proof.
  intros H1 H2 Ha. unfold apply_decision, named_by in *.
  destruct (Py.get "approval" part) as [| | | | | |approval]; try done.
  assert (E : Reader.assoc (key_of "id" approval) ds2 = Reader.assoc (key_of "id" approval) ds1); [|by rewrite E].
  rewrite (decisions_assoc _ _ _ (settled_keys _) H1), (decisions_assoc _ _ _ (settled_keys _) H2).
  rewrite !assoc_settled. by rewrite (Forall_inv Ha).
Qed.

Lemma lay_settlement_same l1 l2 part part1 :
  Forall (agree_on l1 l2) (named_by part) -> lay_settlement (settled_rows l1) part = Ok part1 ->
  lay_settlement (settled_rows l2) part = Ok part1.
Proof.
  intros Ha H. unfold lay_settlement in *. apply bind_ok in H as (ty & Hty & H). rewrite Hty. cbn [mbind res_bind] in *.
  destruct (negb _); [done|]. apply bind_ok in H as (data & Hd & H). rewrite Hd. cbn [mbind res_bind] in *.
  apply bind_ok in H as (iid & Hi & H). rewrite Hi. cbn [mbind res_bind] in *. rewrite assoc_settled in *.
  destruct data as [| | | | | |d]; try done; [by destruct (row_of _ l1) in H..|].
  unfold named_by in Ha. apply item_get in Hd. rewrite Hd in Ha. apply Forall_app in Ha as [_ Ha%Forall_inv].
  cbn [Py.vitem] in Hi. apply item_get in Hi. rewrite Hi in Ha. by rewrite <-Ha.
Qed.

(** What a response's own row says of how it is to be shown. *)
Definition same_reply (row row' : response_row) : Prop :=
  rs_status row' = rs_status row /\ rs_outcome row' = rs_outcome row /\ rs_import_record row' = rs_import_record row.

Lemma response_metadata_same row row' md m :
  same_reply row row' -> response_metadata (response_view row) md = Ok m ->
  exists m', response_metadata (response_view row') md = Ok m'.
Proof.
  intros (_ & _ & Hi) H. unfold response_metadata in *.
  change (Py.get "import_record" (response_view ?r)) with (opt_dict (rs_import_record r)) in *. rewrite Hi.
  apply bind_ok in H as (m1 & -> & _). by eexists.
Qed.

(** The message a row overlays, laid again at a later read. *)
Lemma response_message_same l1 l2 ds1 ds2 folded1 folded2 row row' m :
  decisions_of (settled_rows l1) = Ok ds1 -> decisions_of (settled_rows l2) = Ok ds2 ->
  same_reply row row' ->
  Reader.assoc (rs_response_id row') folded2 = Reader.assoc (rs_response_id row) folded1 ->
  (forall part, part ∈ m_parts m -> Forall (agree_on l1 l2) (named_by part)) ->
  response_message (settled_rows l1) ds1 folded1 (response_view row) = Ok m ->
  exists m', response_message (settled_rows l2) ds2 folded2 (response_view row') = Ok m' /\
    m_parts m' = m_parts m /\ m_id m' = m_id m.
Proof.
  intros H1 H2 Hsame Hf Ha H. unfold response_message in *.
  change (Py.item "response_id" (response_view ?r)) with (Ok (VStr (rs_response_id r))) in *.
  cbn [mbind res_bind Py.str] in *. rewrite Hf. destruct (Reader.assoc _ folded1) as [raw|]; [|done].
  apply bind_ok in H as (decided & Hd & H). apply bind_ok in H as (settled & Hs & H).
  apply bind_ok in H as (md & Hmd & <-%Ok_inj). cbn [m_parts m_id] in *.
  apply mapM_res_Forall2 in Hd, Hs.
  assert (Hd2 : mapM_res (apply_decision ds2) (m_parts raw) = Ok decided).
  { apply mapM_res_Forall2. apply Forall2_same_length_lookup_2; [by eapply Forall2_length|].
    intros i p0 p1 Hp0 Hp1. pose proof (Forall2_lookup_lr _ _ _ _ _ _ Hd Hp0 Hp1) as Hx.
    destruct (Forall2_lookup_l _ _ _ _ _ Hs Hp1) as (p & Hp & Hy).
    rewrite (apply_decision_same l1 l2 ds1 ds2) by (try done;
      rewrite <-(apply_decision_names _ _ _ Hx), <-(lay_settlement_names _ _ _ Hy); apply Ha;
      by eapply list_elem_of_lookup_2). done. }
  assert (Hs2 : mapM_res (lay_settlement (settled_rows l2)) decided = Ok settled).
  { apply mapM_res_Forall2. apply Forall2_same_length_lookup_2; [by eapply Forall2_length|].
    intros i p1 p Hp1 Hp. pose proof (Forall2_lookup_lr _ _ _ _ _ _ Hs Hp1 Hp) as Hy.
    apply (lay_settlement_same l1); [|done]. rewrite <-(lay_settlement_names _ _ _ Hy). apply Ha.
    by eapply list_elem_of_lookup_2. }
  destruct (response_metadata_same _ row' _ _ Hsame Hmd) as [md' Hmd'].
  rewrite Hd2. cbn [mbind res_bind]. rewrite Hs2. cbn [mbind res_bind]. rewrite Hmd'. cbn [mbind res_bind].
  eexists. split; [reflexivity|done].
Qed.

(** ** A page's message and its row *)

Lemma assoc_elem {A} k (v : A) l : NoDup (map fst l) -> (k, v) ∈ l -> Reader.assoc k l = Some v.
Proof.
  induction l as [|[k' v'] l IH]; intros Hnd H; [by apply not_elem_of_nil in H|]. cbn in Hnd |- *.
  apply NoDup_cons in Hnd as [Hk Hnd]. apply elem_of_cons in H as [[= -> ->]|H]; [by rewrite String.eqb_refl|].
  rewrite (proj2 (String.eqb_neq k k')); [by apply IH|]. intros ->. apply Hk. by apply (list_elem_of_fmap_2 fst _ (k', v)).
Qed.

Lemma decisions_total l : exists ds, decisions_of (settled_rows l) = Ok ds.
Proof.
  assert (H : Forall (fun e => exists o, named_decision e = Ok o) (settled_rows l)).
  { apply Forall_forall. intros [k row] He. apply (assoc_elem _ _ _ (settled_keys l)) in He.
    rewrite assoc_settled in He. destruct (row_of k l) as [[[iid st] ans]|]; [|done]. injection He as <-.
    unfold named_decision, decision_of. destruct ans as [a|]; [|by eexists]. destruct st; by eexists. }
  apply mapM_res_total in H as [ds Hds]. exists (taken_decisions ds). unfold decisions_of. by rewrite Hds.
Qed.

Lemma history_messages_with l inputs responses entries folded ins rows ds :
  by_seq inputs = Ok ins -> by_seq responses = Ok rows -> decisions_of (settled_rows l) = Ok ds ->
  history_messages (HistoryRows entries inputs responses) folded (map settlement_view l) =
  mapM_res (entry_message ins rows (settled_rows l) ds folded) entries.
Proof. intros Hi Hr Hd. unfold history_messages. cbn [hr_inputs hr_responses hr_entries].
  rewrite settlements_read. cbn [mbind res_bind]. rewrite Hd. cbn [mbind res_bind]. rewrite Hi. cbn [mbind res_bind]. by rewrite Hr.
Qed.

Lemma input_message_role row m : input_message row = Ok m -> m_role m = "user".
Proof. intros H. unfold input_message in H. by apply bind_ok in H as (? & _ & (? & _ & <-%Ok_inj)%bind_ok). Qed.

Lemma message_row_metadata settlements ds folded row m :
  response_message settlements ds folded (response_view row) = Ok m ->
  key_of "response_id" (m_metadata m) = rs_response_id row /\
  as_str (Py.get "outcome" (m_metadata m)) = rs_outcome row.
Proof.
  intros H. unfold response_message in H. apply bind_ok in H as (rid & _ & H).
  destruct (Reader.assoc _ folded) as [raw|]; [|done]. apply bind_ok in H as (? & _ & H).
  apply bind_ok in H as (? & _ & H). apply bind_ok in H as (md & Hmd & <-%Ok_inj).
  apply response_metadata_row in Hmd. rewrite Forall_forall in Hmd. cbn [m_metadata]. unfold key_of.
  rewrite (Hmd "response_id"), (Hmd "outcome") by set_solver.
  change (Py.get "outcome" (response_view row)) with (opt_str (rs_outcome row)).
  change (Py.get "response_id" (response_view row)) with (VStr (rs_response_id row)). cbn.
  destruct (rs_response_id row), (rs_outcome row); done.
Qed.

Section Page.
Context (repr_float : string -> string) (levels : nat) (sid : string) (cursor : option string) (limit : nat).

(** The interactions the page's read saw. *)
Definition page_interactions (p : pinned_page) (rd : page_reads) :=
  response_interactions sid (map rs_response_id (hp_responses (pp_page p))) (pr_interactions rd).

Lemma page_message rd p m :
  pin_page repr_float levels sid cursor limit rd = Ok p -> m ∈ pp_messages p -> m_role m = "assistant" ->
  exists folded ds row,
    pr_messages rd (hp_responses (pp_page p)) (Some (pp_through p)) = Ok folded /\
    decisions_of (settled_rows (page_interactions p rd)) = Ok ds /\
    row ∈ hp_responses (pp_page p) /\
    response_message (settled_rows (page_interactions p rd)) ds folded (response_view row) = Ok m.
Proof.
  intros H Hm Hrole. unfold pin_page in H. apply bind_ok in H as ([t before] & _ & H).
  apply bind_ok in H as (page & _ & H). apply bind_ok in H as (folded & Hf & H).
  apply bind_ok in H as (messages & Hms & <-%Ok_inj). cbn [pp_page pp_through pp_messages] in *.
  unfold page_interactions. cbn [pp_page]. set (l := response_interactions _ _ _) in *.
  destruct (decisions_total l) as [ds Hds]. unfold history_messages in Hms. rewrite settlements_read in Hms.
  cbn [mbind res_bind] in Hms. rewrite Hds in Hms. cbn [mbind res_bind] in Hms.
  apply bind_ok in Hms as (ins & Hins & Hms). apply bind_ok in Hms as (rows & Hrows & Hms).
  apply mapM_res_Forall2 in Hms. apply list_elem_of_lookup in Hm as [i Hi].
  destruct (Forall2_lookup_r _ _ _ _ _ Hms Hi) as ([kind n] & _ & He). unfold entry_message in He. cbn [fst snd] in He.
  destruct (kind =s "input").
  { apply bind_ok in He as (row & _ & Hr%input_message_role). by rewrite Hr in Hrole. }
  apply bind_ok in He as (v & Hv & He). destruct (row_at_found _ _ _ _ Hrows Hv) as [Hin _].
  cbn [page_rows_view hr_responses] in Hin. apply list_elem_of_fmap in Hin as (row & -> & Hrow).
  by exists folded, ds, row.
Qed.

Lemma ended_row rid t last_seqs rows :
  Py.in_strs rid (ended_by t last_seqs rows) = true ->
  exists row, row ∈ rows /\ rs_response_id row = rid /\ rs_status row = Ended.
Proof.
  intros H%in_strs_true%list_elem_of_fmap. destruct H as (row & -> & H%list_elem_of_In). apply List.filter_In in H as [H Hc].
  apply andb_true_iff in Hc as [Hs _]. exists row. split_and!; [by apply list_elem_of_In|done|by apply bool_decide_eq_true in Hs].
Qed.

Lemma pinned_ended rd p :
  pin_page repr_float levels sid cursor limit rd = Ok p ->
  (0 <= pp_through p)%Z /\
  exists last_seqs, pp_ended p = ended_by (pp_through p) last_seqs (hp_responses (pp_page p)).
Proof.
  intros H. unfold pin_page in H. apply bind_ok in H as ([t before] & Hp & H).
  apply bind_ok in H as (page & _ & H). apply bind_ok in H as (folded & _ & H).
  apply bind_ok in H as (messages & _ & <-%Ok_inj). cbn [pp_page pp_through pp_ended]. split; [|by eexists].
  unfold page_position in Hp. destruct cursor as [c|].
  - apply bind_ok in Hp as ([t' k] & Hc & Hp). pose proof (decode_cursor_result repr_float levels c) as Hr. rewrite Hc in Hr.
    cbn [snd fst] in Hp. destruct k; [|done]. by injection Hp as -> _.
  - injection Hp as <- _. unfold resume_point. destruct (List.find _ _); [|done]. cbn. unfold max_seq.
    induction (map ou_seq _) as [|x l IH]; cbn; lia.
Qed.
End Page.

(** ** What a read of folded messages promises *)

(** Whatever keeps or builds them, the messages a read answers are those the log of its
    query's store gives, one per response. *)
Class FoldsAsRead (sid : string) (d : db) (answer : list response_row -> option Z -> res (list (string * message))) : Prop := {
  one_message_each rows t ms : answer rows t = Ok ms -> map fst ms ≡ₚ map rs_response_id rows;
  messages_as_read rows t ms : answer rows t = Ok ms -> Forall (shows_row sid rows t d) ms
}.

(** An answer of the shared cache: a call whose query saw the store [d], finished after
    whatever else ran in between. *)
Definition cache_run (sid : string) (d : db) (rows : list response_row) (t : option Z) (ms : list (string * message)) : Prop :=
  exists d1 f1 reads c f2 s3,
    reachable (System d1 f1 reads) /\ log_grows d d1 /\ messages sid rows t d f1 = Ok (c, f2) /\
    rtc sys_step (System d1 f2 reads) s3 /\ finish c (sy_folds s3) = Some (Ok ms).

#[export] Instance cache_as_read sid d answer :
  (forall rows t ms, answer rows t = Ok ms -> cache_run sid d rows t ms) -> FoldsAsRead sid d answer.
Proof.
  intros H. split; intros rows t ms (d1 & f1 & reads & c & f2 & s3 & Hr & Hg & Hm & Hs & Hf)%H;
    by destruct (finished_call _ _ _ _ _ _ _ _ _ _ _ Hr Hg Hm Hs Hf).
Qed.

Lemma fold_message_id rid chunks m : fold_message rid chunks = Ok m -> m_id m = rid.
Proof. intros H. unfold fold_message in H. by do 3 apply bind_ok in H as (? & _ & H); apply Ok_inj in H as <-. Qed.

Lemma row_message_id sid t d row m : row_message sid t d row = Ok m -> m_id m = rs_response_id row.
Proof.
  unfold row_message. destruct (rs_import_record row) as [[|kv record]|]; try apply fold_message_id.
  intros H. apply bind_ok in H as (parts & _ & H). unfold fold_imported in H.
  destruct parts as [| | | |[|]|l|[|]]; try done; try by apply fold_message_id in H.
  destruct (leading_dicts l) as [chunks [|]]; [by apply fold_message_id in H|]. by apply bind_ok in H as (? & _ & H).
Qed.

(** What a page was pinned to does not change as the log grows. *)
Lemma log_message_stays sid rid t d d' :
  log_grows d d' -> (t <= max_seq sid d)%Z -> log_message sid rid (Some t) d' = log_message sid rid (Some t) d.
Proof.
  intros Hg Ht. pose proof Hg as (Hd & Hd' & [rows E]). unfold log_message, output_for_responses. do 3 f_equal.
  unfold select_where. rewrite E, filter_app. replace (filter _ rows) with (@nil output_row); [by rewrite app_nil_r|].
  symmetry. apply elem_of_nil_inv. intros o [H Ho]%list_elem_of_filter. unfold output_of in H. bool_prop.
  enough (max_seq sid d < ou_seq o)%Z by lia. destruct (Hd sid) as [_ [n Hn]].
  rewrite (max_seq_contiguous _ _ _ Hn). destruct Hn as [Hn0 Hn]. destruct (Hd' sid) as [_ [n' [_ Hn']]].
  destruct (decide (n = 0)%Z) as [->|].
  - assert (1 <= ou_seq o <= n')%Z; [|lia]. apply Hn'. exists o. rewrite E. set_solver.
  - eapply new_rows_later; [exact Hg| |exact E|done..]. destruct (proj2 (Hn n)) as (o' & ?); [lia|]. by exists o'.
Qed.

(** ** A header opens to its work *)

(** A block's header as the page carries it, and what it opens to. *)
Lemma fold_parts_opens parts outcome mid sid cursor part :
  let F := fold_parts parts outcome mid sid cursor in
  part ∈ fd_parts F ->
  part ∈ parts \/
  exists i ps, is_header_of (block_id mid i) mid sid cursor part /\
    get_detail (block_id mid i) (fd_details F) = Some ps /\ ps `sublist_of` parts /\ ps <> [].
Proof.
  cbv zeta. destruct (fold_parts_eq parts outcome mid sid cursor) as [Hd Hp].
  set (hs := headers_of parts outcome) in *. rewrite Hp, Hd.
  intros ([part' lab] & Hpart & Hin)%list_elem_of_fmap. cbn [fst] in Hpart. subst part'.
  apply list_elem_of_In, in_flat_map in Hin as (i & Hi & Hin). unfold labelled_index in Hin.
  apply in_app_or in Hin as [Hin|Hin].
  - destruct (header_at hs i) as [h|] eqn:Eh; [|done]. destruct Hin as [[= <- _]|[]]. right.
    assert (Hh : h ∈ hs).
    { unfold header_at in Eh. apply last_Some_elem_of in Eh. by apply list_elem_of_In, List.filter_In in Eh as [Eh%list_elem_of_In _]. }
    assert (Hnd : NoDup (firsts hs)) by apply firsts_NoDup.
    exists (first_index (fst h)), (map (part_at parts) (fst h)). split; [|split; [|split]].
    + destruct h as [ix b]. split; [done|]. split; [done|]. by do 2 eexists.
    + rewrite details_eq by done. exact (get_detail_of parts mid hs h Hnd Hh).
    + by apply (header_parts_sublist parts outcome).
    + destruct (headers_are_groups parts outcome) as (_ & _ & _ & Hne). rewrite Forall_forall in Hne.
      intros E%fmap_nil_inv. by apply (Hne h).
  - destruct (hidden hs i); [done|]. destruct Hin as [[= <- _]|[]]. left. apply list_elem_of_In, elem_of_seq in Hi.
    unfold part_at. destruct (lookup_lt_is_Some_2 parts i) as [x Hx]; [lia|]. rewrite Hx. by eapply list_elem_of_lookup_2.
Qed.

Lemma last_of_one sid rid t d : find_seq rid (last_output_seqs sid [rid] t d) = last_seq_of sid t d rid.
Proof.
  unfold last_output_seqs. change (remove_dups [rid]) with [rid]. cbn. destruct (last_seq_of sid t d rid); [|done].
  unfold find_seq. cbn. by rewrite String.eqb_refl.
Qed.

(** A response read alone is its page's only entry. *)
Lemma one_entry settlements ds folded row m :
  response_message settlements ds folded (response_view row) = Ok m ->
  entry_message [] [(rs_seq row, response_view row)] settlements ds folded ("response", rs_seq row) = Ok m.
Proof.
  intros H. unfold entry_message. change (fst ("response", rs_seq row) =s "input") with false. cbv iota.
  unfold row_at. cbn [rev app List.find fst snd]. rewrite Z.eqb_refl. exact H.
Qed.

Section Opening.
Context (repr_float : string -> string) (levels : nat) (sid : string) (cursor : option string) (limit : nat).
Context (rd : page_reads) (rd' : response_reads) (d d' : db).
Context `{!FoldsAsRead sid d (pr_messages rd)} `{!FoldsAsRead sid d' (rr_messages rd')}.

(** What a later read of the page's response finds: the response as it ended, and the
    interactions its parts name as they were settled. *)
Record stands (p : pinned_page) (m : message) (rid : string) (row' : response_row) : Prop := {
  st_row : get_response sid rid (rr_response rd') = Some row';
  st_reply : forall row, row ∈ hp_responses (pp_page p) -> rs_response_id row = rid -> same_reply row row';
  st_settled : forall part, part ∈ m_parts m ->
    Forall (agree_on (page_interactions sid p rd) (response_interactions sid [rid] (rr_interactions rd'))) (named_by part)
}.

(** No part of the response was stored past the page's position, as the later read sees it. *)
Definition no_later_part (p : pinned_page) (rid : string) : bool :=
  (default 0 (last_seq_of sid None (rr_last rd') rid) <=? pp_through p)%Z.

Lemma later_message rows t rid row' raw ms ms' :
  log_grows d d' -> (t <= max_seq sid d)%Z ->
  (forall row, row ∈ rows -> rs_response_id row = rid -> same_reply row row') -> rs_response_id row' = rid ->
  pr_messages rd rows (Some t) = Ok ms -> Reader.assoc rid ms = Some raw ->
  rr_messages rd' [row'] (Some t) = Ok ms' ->
  Reader.assoc rid ms' = Some raw.
Proof.
  intros Hg Ht Hsame Hid Hms Hraw Hms'. apply Reader.assoc_in in Hraw. pose proof (messages_as_read _ _ _ Hms) as Hsh.
  rewrite Forall_forall in Hsh. destruct (Hsh _ Hraw) as (row & Hrow & Hrid & Hm). cbn [fst snd] in *.
  destruct (Hsame row Hrow Hrid) as (_ & _ & Himp).
  pose proof (one_message_each _ _ _ Hms') as Hk. pose proof (messages_as_read _ _ _ Hms') as Hsh'.
  cbn [map] in Hk. apply Permutation_singleton_r in Hk. destruct ms' as [|[k raw'] [|]]; try done.
  injection Hk as ->. apply Forall_inv in Hsh' as (row2 & ->%list_elem_of_singleton & _ & Hm'). cbn [snd] in Hm'.
  assert (E : row_message sid (Some t) d' row' = row_message sid (Some t) d row).
  { unfold row_message. rewrite Himp, Hid, Hrid. by rewrite (log_message_stays _ _ _ d d'). }
  rewrite E, Hm in Hm'. injection Hm' as <-. rewrite <-Hid at 1. cbn. by rewrite String.eqb_refl.
Qed.

Lemma page_message_id p m :
  pin_page repr_float levels sid cursor limit rd = Ok p -> m ∈ pp_messages p -> m_role m = "assistant" ->
  m_id m = key_of "response_id" (m_metadata m).
Proof.
  intros Hpin Hm Hrole. destruct (page_message _ _ _ _ _ _ _ _ Hpin Hm Hrole) as (folded & ds & row & Hf & _ & _ & Hmsg).
  destruct (message_row_metadata _ _ _ _ _ Hmsg) as [-> _]. unfold response_message in Hmsg.
  change (Py.item "response_id" (response_view row)) with (Ok (VStr (rs_response_id row))) in Hmsg.
  cbn [mbind res_bind Py.str] in Hmsg. destruct (Reader.assoc _ folded) as [raw|] eqn:Ea; [|done].
  do 3 apply bind_ok in Hmsg as (? & _ & Hmsg). apply Ok_inj in Hmsg as <-. cbn [m_id].
  apply Reader.assoc_in in Ea. pose proof (messages_as_read _ _ _ Hf) as Hsh. rewrite Forall_forall in Hsh.
  destruct (Hsh _ Ea) as (row0 & _ & Hid & Hraw). cbn [fst snd] in *. apply row_message_id in Hraw. congruence.
Qed.

(** The later read folds the message the page folded, when no part came after the page. *)
Lemma later_response p m rid row' ms' :
  log_grows d d' -> pin_page repr_float levels sid cursor limit rd = Ok p -> (pp_through p <= max_seq sid d)%Z ->
  m ∈ pp_messages p -> m_role m = "assistant" -> rid = key_of "response_id" (m_metadata m) ->
  Py.in_strs rid (pp_ended p) = true -> stands p m rid row' ->
  rr_messages rd' [row'] (Some (pp_through p)) = Ok ms' ->
  exists l, load_response sid rid (Some (pp_through p)) rd' = Ok (Some l) /\
    lr_fold l = if no_later_part p rid then Some (message_fold sid (encode_cursor (pp_through p) None) m) else None.
Proof.
  intros Hg Hpin Ht Hm Hrole Hrid Hended [Hrow' Hreply Hset] Hms'.
  destruct (page_message _ _ _ _ _ _ _ _ Hpin Hm Hrole) as (folded & ds & row & Hf & Hds & Hrow & Hmsg).
  destruct (message_row_metadata _ _ _ _ _ Hmsg) as [Hid Hout]. rewrite <-Hrid in Hid.
  destruct (pinned_ended _ _ _ _ _ _ _ Hpin) as (_ & last_seqs & E). rewrite E in Hended.
  destruct (ended_row _ _ _ _ Hended) as (row2 & Hrow2 & Hid2 & Hst2).
  destruct (Hreply _ Hrow2 Hid2) as (Hst & _ & _). rewrite Hst2 in Hst.
  pose proof (Hreply _ Hrow (eq_sym Hid)) as Hsame.
  assert (Hid' : rs_response_id row' = rid).
  { apply List.find_some in Hrow' as [_ Hr]. unfold is_response in Hr. by bool_prop. }
  pose proof Hmsg as Hraw. unfold response_message in Hraw.
  change (Py.item "response_id" (response_view row)) with (Ok (VStr (rs_response_id row))) in Hraw.
  cbn [mbind res_bind Py.str] in Hraw. rewrite <-Hid in Hraw. destruct (Reader.assoc rid folded) as [raw|] eqn:Ea; [|done].
  apply bind_ok in Hraw as (? & _ & Hraw). apply bind_ok in Hraw as (? & _ & Hraw).
  apply bind_ok in Hraw as (? & _ & Hraw). apply Ok_inj in Hraw.
  pose proof (later_message _ _ _ _ _ _ _ Hg Ht Hreply Hid' Hf Ea Hms') as Ea'.
  destruct (decisions_total (response_interactions sid [rid] (rr_interactions rd'))) as [ds' Hds'].
  destruct (response_message_same _ _ _ _ folded ms' row row' m Hds Hds' Hsame) as (m' & Hm' & Hparts & Hmid); [|done..|].
  { by rewrite Hid', <-Hid, Ea, Ea'. }
  unfold load_response. rewrite Hrow', Hms'. cbn [mbind res_bind].
  rewrite (history_messages_with _ _ _ _ _ [] [(rs_seq row', response_view row')] ds') by done.
  cbn [mapM_res]. rewrite (one_entry _ _ _ _ _ Hm'). cbn [mbind res_bind]. eexists. split; [reflexivity|].
  cbn [lr_fold]. rewrite last_of_one, Hst, bool_decide_true by done. unfold no_later_part. cbn [andb].
  destruct (_ <=? _)%Z; [|done]. unfold message_fold. destruct Hsame as (_ & Ho & _). rewrite Hparts, Hmid, Hout, Ho. done.
Qed.

(** What a header of the page gives when it is opened later: the work it stands for as long
    as no part of its response was stored past the page's position; from then on nothing;
    and the error of the query for its message if that raised. *)
Definition opens (p : pinned_page) (m : message) (row' : response_row) (opened : res (option (loaded_response * list dict))) : Prop :=
  match rr_messages rd' [row'] (Some (pp_through p)) with
  | Raise e => opened = Raise e
  | Ok _ =>
      if no_later_part p (rs_response_id row')
      then exists l ps, opened = Ok (Some (l, ps)) /\ ps `sublist_of` m_parts m /\ ps <> []
      else opened = Ok None
  end.

(** C13: What a history page folds away can be opened.  A page shows of an ended response its
    own parts and headers; each header carries a block id and a cursor which are sent back
    later, when the log has grown, other stores answer the queries, and the messages come from
    whatever the shared cache did in between.  As long as the response's row and the
    interactions its parts name are as the page read them: if no part of the response was
    stored past the page's position, they give a non-empty selection of the response's parts,
    in their order; if one was, they give nothing; and if the later query for the message
    raised, they raise what it raised.  So never another response's work. *)
Theorem header_opens_to_its_work p m row' :
  (2 <= levels)%nat -> log_grows d d' -> pin_page repr_float levels sid cursor limit rd = Ok p ->
  (pp_through p <= max_seq sid d)%Z -> narrow (pp_through p) -> m ∈ pp_messages p -> m_role m = "assistant" ->
  Py.in_strs (key_of "response_id" (m_metadata m)) (pp_ended p) = true ->
  key_of "response_id" (m_metadata m) <> "" -> stands p m (key_of "response_id" (m_metadata m)) row' ->
  exists view shown, load_history_page repr_float levels sid cursor limit rd = Ok view /\ shown ∈ pv_messages view /\
    m_id shown = m_id m /\
    forall part, part ∈ m_parts shown ->
      part ∈ m_parts m \/
      exists block at_cursor, is_header_of block (m_id m) sid at_cursor part /\
        opens p m row' (load_block_parts repr_float levels sid block at_cursor rd').
Proof.
  intros Hlev Hg Hpin Ht Hnarrow Hm Hrole Hended Hne Hst.
  destruct (pinned_ended _ _ _ _ _ _ _ Hpin) as (Ht0 & _).
  eexists _, (fst (shown_message sid (encode_cursor (pp_through p) None) (pp_ended p) m)).
  split; [unfold load_history_page; rewrite Hpin; reflexivity|]. cbn [pv_messages]. split.
  { apply list_elem_of_fmap_2, list_elem_of_fmap_2. exact Hm. }
  unfold shown_message. rewrite Hrole, Hended. change ("assistant" =s "assistant") with true. cbv iota.
  cbn [andb fst m_id m_parts]. split; [reflexivity|]. intros part Hp.
  destruct (fold_parts_opens _ _ _ _ _ _ Hp) as [Hp'|(i & ps & Hh & Hg' & Hsub & Hn)]; [by left|right].
  exists (block_id (m_id m) i), (encode_cursor (pp_through p) None). split; [done|]. unfold opens.
  assert (Hid' : rs_response_id row' = key_of "response_id" (m_metadata m)).
  { destruct Hst as [Hr%List.find_some _ _]. destruct Hr as [_ Hr]. unfold is_response in Hr. by bool_prop. }
  assert (Hemp : Py.is_empty (key_of "response_id" (m_metadata m)) = false) by (by destruct (key_of _ _)).
  pose proof (page_message_id _ _ Hpin Hm Hrole) as Hmid.
  assert (Hload : load_block_parts repr_float levels sid (block_id (m_id m) i) (encode_cursor (pp_through p) None) rd' =
    (loaded ← load_response sid (m_id m) (Some (pp_through p)) rd';
     match loaded with
     | None => Ok None
     | Some l => Ok (match lr_fold l with None => None | Some fold =>
         match get_detail (block_id (m_id m) i) (fd_details fold) with Some parts => Some (l, parts) | None => None end end)
     end)).
  { unfold load_block_parts. rewrite decode_encode by done. cbn [mbind res_bind snd fst].
    destruct (rpartition_block (m_id m) i) as [suffix ->]. rewrite <-Hmid in Hemp. rewrite Hemp.
    destruct (load_response _ _ _ _) as [[l|]|e]; [|done..]. cbn [mbind res_bind].
    destruct (lr_fold l) as [f|]; [|done]. by case_match. }
  rewrite Hload, Hmid, Hid'. clear Hload. destruct (rr_messages rd' _ _) as [ms'|e] eqn:Ems.
  - destruct (later_response _ _ _ _ _ Hg Hpin Ht Hm Hrole eq_refl Hended Hst Ems) as (l & Hl & Hfold).
    rewrite Hl. cbn [mbind res_bind]. rewrite Hfold. destruct (no_later_part _ _); [|done].
    unfold message_fold. rewrite <-Hmid, Hg'. by exists l, ps.
  - unfold load_response. rewrite (st_row _ _ _ _ Hst), Ems. done.
Qed.
End Opening.

(** ** Witness *)

(** A page's cache in a process that just started: a read does its lookups, what it waits
    for is built, and it returns. *)
Definition cold_cache (sid : string) (d : db) (rows : list response_row) (t : option Z)
  : res (list (string * message)) :=
  match messages sid rows t d (new_folds 1000) with
  | Ok (c, f) => default (Raise RuntimeError) (finish c (build 0 d f))
  | Raise e => Raise e
  end.

Lemma cold_cache_run sid d rows t ms :
  numbered d -> cold_cache sid d rows t = Ok ms -> cache_run sid d rows t ms.
Proof.
  intros Hd H. unfold cold_cache in H. destruct (messages _ _ _ _ _) as [[c f]|] eqn:Em; [|done].
  destruct (finish c (build 0 d f)) as [r|] eqn:Ef; [|done]. cbn in H. subst r.
  assert (Hg : log_grows d d) by done.
  destruct (rf_tasks f !! 0) as [tk|] eqn:Et.
  - exists d, (new_folds 1000), [], c, f, (System d (build 0 d f) [(0, d)]). split_and!; try done.
    + exists d, 1000%Z. split_and!; [done|lia|apply rtc_refl].
    + eapply rtc_l; [by eapply (BuildReads _ _ _ 0)|]. apply rtc_once, BuildKeeps. set_solver.
  - exists d, (new_folds 1000), [], c, f, (System d f []). split_and!; try done.
    + exists d, 1000%Z. split_and!; [done|lia|apply rtc_refl].
    + unfold build in Ef. by rewrite Et in Ef.
Qed.

(** A response that ran a command and ended with words. *)
Definition demo_work_batch : FactBatch :=
  MkBatch
    [MkPart 1 (Some "r1") [("type", VStr "tool-input-available"); ("toolCallId", VStr "c1"); ("toolName", VStr "Bash");
                           ("input", VDict [])];
     MkPart 2 (Some "r1") [("type", VStr "tool-output-available"); ("toolCallId", VStr "c1"); ("output", VStr "ok")];
     MkPart 3 (Some "r1") [("type", VStr "text-start"); ("id", VStr "t1")];
     MkPart 4 (Some "r1") [("type", VStr "text-delta"); ("id", VStr "t1"); ("delta", VStr "done")];
     MkPart 5 (Some "r1") [("type", VStr "text-end"); ("id", VStr "t1")]]
    [ResponseStart "r1" "input" ["i1"]; InputsAdmitted ["i1"]; MessagePosition KInput "i1" 6;
     MessagePosition KResponse "r1" 7; ResponseEnd "r1" "completed" None None None] None None None.
Definition demo_work_db : db := snd (record demo_lease demo_work_batch 100 30 demo_db2).

Definition demo_page_reads : page_reads :=
  PageReads demo_work_db demo_work_db (cold_cache "s1" demo_work_db) demo_work_db demo_work_db.
Definition demo_block_reads : response_reads :=
  ResponseReads demo_work_db (cold_cache "s1" demo_work_db) demo_work_db demo_work_db.

Definition demo_pinned : pinned_page :=
  match pin_page (fun s => s) 900 "s1" None 10 demo_page_reads with
  | Ok p => p
  | Raise _ => PinnedPage (HistoryPage [] [] [] [] false None) 0 [] []
  end.
Definition demo_message : message := default (Message "" "" [] []) (pp_messages demo_pinned !! 1).
Definition demo_row : response_row :=
  default (ResponseRow "" "" 0 "" Ended None None None None None 0 None None) (db_responses demo_work_db !! 0).

Lemma demo_work_numbered : numbered demo_work_db.
Proof. apply (one_session_numbered _ "s1" 7); vm_compute; [done|by repeat constructor|done]. Qed.

#[local] Instance demo_cache : FoldsAsRead "s1" demo_work_db (cold_cache "s1" demo_work_db).
Proof. apply cache_as_read. intros rows t ms. apply cold_cache_run, demo_work_numbered. Qed.

Lemma demo_stands : stands "s1" demo_page_reads demo_block_reads demo_pinned demo_message "r1" demo_row.
Proof.
  split.
  - vm_compute. reflexivity.
  - assert (E : hp_responses (pp_page demo_pinned) = [demo_row]) by (vm_compute; reflexivity).
    rewrite E. intros row Hrow _. apply list_elem_of_singleton in Hrow as ->. repeat split.
  - assert (E : forallb (fun part => match named_by part with [] => true | _ => false end) (m_parts demo_message) = true)
      by (vm_compute; reflexivity).
    intros part Hp%list_elem_of_In. pose proof (proj1 (forallb_forall _ _) E part Hp) as Hn. cbv beta in Hn.
    destruct (named_by part); [constructor|discriminate].
Qed.

Lemma header_opens_to_its_work_witness :
  exists view shown, load_history_page (fun s => s) 900 "s1" None 10 demo_page_reads = Ok view /\ shown ∈ pv_messages view /\
    m_id shown = m_id demo_message /\
    forall part, part ∈ m_parts shown ->
      part ∈ m_parts demo_message \/
      exists block at_cursor, is_header_of block (m_id demo_message) "s1" at_cursor part /\
        exists l ps, load_block_parts (fun s => s) 900 "s1" block at_cursor demo_block_reads = Ok (Some (l, ps)) /\
          ps `sublist_of` m_parts demo_message /\ ps <> [].
Proof.
  destruct (header_opens_to_its_work (fun s => s) 900 "s1" None 10 demo_page_reads demo_block_reads demo_work_db demo_work_db
    demo_pinned demo_message demo_row) as (view & shown & Hv & Hs & Hi & Hparts).
  - lia.
  - split_and!; [apply demo_work_numbered..|done].
  - vm_compute. reflexivity.
  - vm_compute. done.
  - vm_compute. done.
  - apply list_elem_of_lookup_2 with 1. vm_compute. reflexivity.
  - vm_compute. reflexivity.
  - vm_compute. reflexivity.
  - vm_compute. discriminate.
  - assert (E : key_of "response_id" (m_metadata demo_message) = "r1") by (vm_compute; reflexivity).
    rewrite E. exact demo_stands.
  - exists view, shown. split; [exact Hv|]. split; [exact Hs|]. split; [exact Hi|]. intros part Hp.
    destruct (Hparts part Hp) as [H|(block & at_cursor & Hh & Ho)]; [left; exact H|right].
    exists block, at_cursor. split; [exact Hh|]. unfold opens in Ho.
    assert (E : exists ms, rr_messages demo_block_reads [demo_row] (Some (pp_through demo_pinned)) = Ok ms)
      by (eexists; vm_compute; reflexivity).
    destruct E as [ms E]. rewrite E in Ho.
    assert (En : no_later_part "s1" demo_block_reads demo_pinned (rs_response_id demo_row) = true) by (vm_compute; reflexivity).
    rewrite En in Ho. exact Ho.
Defined.

End HistoryOpening.
