(* ===== verification/Uuid.v ===== *)
(** Name-based identifiers: [uuid.uuid5] of Python's standard library, which hashes a name
    with SHA-1 (FIPS 180-4) under a name space.  Words are 32 bits wide and bytes 8, both
    as [Z] with their wrap-around written out. *)

From S2P Require Import Prelude PyVal Base64 JsonText.

Open Scope string_scope.

Module Uuid.
Import Base64.
Open Scope Z_scope.

Definition word (z : Z) : Z := z mod 2 ^ 32.
Definition rotl (n x : Z) : Z := Z.lor (word (Z.shiftl x n)) (Z.shiftr x (32 - n)).
Definition bytes_of (s : string) : list Z := map byte (String.list_ascii_of_string s).

(** The [n] big-endian bytes of a number. *)
Fixpoint big_endian (n : nat) (z : Z) : list Z :=
  match n with
  | O => []
  | S n' => (Z.shiftr z (8 * Z.of_nat n') mod 256) :: big_endian n' z
  end.

Definition number_of (bs : list Z) : Z := fold_left (fun acc b => 256 * acc + b) bs 0.

(** The message, a one bit, zeros, and its length in bits, filling blocks of 64 bytes. *)
Definition padded_message (msg : list Z) : list Z :=
  let n := Z.of_nat (length msg) in
  msg ++ [128] ++ repeat 0 (Z.to_nat ((55 - n) mod 64)) ++ big_endian 8 (8 * n).

Fixpoint chunks (k n : nat) (l : list Z) : list (list Z) :=
  match n with
  | O => []
  | S n' => match l with [] => [] | _ => firstn k l :: chunks k n' (skipn k l) end
  end.

(** The message schedule, its newest word first. *)
Fixpoint schedule (n : nat) (w : list Z) : list Z :=
  match n with
  | O => w
  | S n' =>
      let at_ i := nth i w 0 in
      schedule n' (rotl 1 (Z.lxor (Z.lxor (at_ 2%nat) (at_ 7%nat)) (Z.lxor (at_ 13%nat) (at_ 15%nat))) :: w)
  end.

Definition round_mix (t b c d : Z) : Z :=
  if t <? 20 then Z.lor (Z.land b c) (Z.land (Z.lxor b (2 ^ 32 - 1)) d)
  else if t <? 40 then Z.lxor (Z.lxor b c) d
  else if t <? 60 then Z.lor (Z.lor (Z.land b c) (Z.land b d)) (Z.land c d)
  else Z.lxor (Z.lxor b c) d.

Definition round_key (t : Z) : Z :=
  if t <? 20 then 1518500249 else if t <? 40 then 1859775393 else if t <? 60 then 2400959708 else 3395469782.

Definition state : Type := Z * Z * Z * Z * Z.

Definition round (st : state * Z) (w : Z) : state * Z :=
  let '((a, b, c, d, e), t) := st in
  ((word (rotl 5 a + round_mix t b c d + e + round_key t + w), a, rotl 30 b, c, d), t + 1).

Definition compress (h : state) (block : list Z) : state :=
  let ws := map number_of (chunks 4 16 block) in
  let '(a, b, c, d, e) := h in
  let '((a', b', c', d', e'), _) := fold_left round (rev (schedule 64 (rev ws))) (h, 0) in
  (word (a + a'), word (b + b'), word (c + c'), word (d + d'), word (e + e')).

Definition sha1 (msg : list Z) : list Z :=
  let m := padded_message msg in
  let '(a, b, c, d, e) :=
    fold_left compress (chunks 64 (length m) m) (1732584193, 4023233417, 2562383102, 271733878, 3285377520) in
  concat (map (big_endian 4) [a; b; c; d; e]).

(** A UUID's sixteen bytes as its text. *)
Definition hex_byte (b : Z) : string := Json.one (byte (Json.hex_digit (b / 16))) ++ Json.one (byte (Json.hex_digit (b mod 16))).

Definition uuid_text (bs : list Z) : string :=
  let hex l := String.concat "" (map hex_byte l) in
  hex (firstn 4 bs) ++ "-" ++ hex (firstn 2 (skipn 4 bs)) ++ "-" ++ hex (firstn 2 (skipn 6 bs)) ++ "-" ++
  hex (firstn 2 (skipn 8 bs)) ++ "-" ++ hex (firstn 6 (skipn 10 bs)).

(** [uuid5(namespace, name)]: the version and variant bits over the hash. *)
Definition uuid5 (namespace : list Z) (name : string) : list Z :=
  let h := firstn 16 (sha1 (namespace ++ bytes_of name)) in
  let version b := Z.lor (Z.land b 15) 80 in
  let variant b := Z.lor (Z.land b 63) 128 in
  firstn 6 h ++ [version (nth 6 h 0)] ++ firstn 1 (skipn 7 h) ++ [variant (nth 8 h 0)] ++ skipn 9 h.

(** [uuid.UUID(text)]: thirty-two hexadecimal digits, whatever hyphens, braces or URN prefix
    are about them.  A sign, a [0x] or underscores, which [int(.., 16)] would take as well,
    are not modelled. *)
Fixpoint remove_from (sub : string) (skip : nat) (s : string) : string :=
  match s with
  | EmptyString => EmptyString
  | String c s' =>
      match skip with
      | S k => remove_from sub k s'
      | O => if String.prefix sub s then remove_from sub (pred (String.length sub)) s'
             else String c (remove_from sub O s')
      end
  end.
Definition removed (sub s : string) : string := remove_from sub O s.

Definition brace (c : Ascii.ascii) : bool := (byte c =? 123) || (byte c =? 125).
Fixpoint drop_braces (s : list Ascii.ascii) : list Ascii.ascii :=
  match s with c :: s' => if brace c then drop_braces s' else s | [] => [] end.
Definition unbraced (s : list Ascii.ascii) : list Ascii.ascii := rev (drop_braces (rev (drop_braces s))).

Fixpoint hex_bytes (l : list Ascii.ascii) : option (list Z) :=
  match l with
  | [] => Some []
  | a :: b :: l' =>
      match Json.hex_value a, Json.hex_value b, hex_bytes l' with
      | Some x, Some y, Some bs => Some (16 * x + y :: bs)
      | _, _, _ => None
      end
  | _ => None
  end.

Definition uuid_of (text : string) : res (list Z) :=
  let digits := List.filter (fun c => negb (byte c =? 45))
    (unbraced (String.list_ascii_of_string (removed "uuid:" (removed "urn:" text)))) in
  if negb (length digits =? 32)%nat then Raise ValueError
  else match hex_bytes digits with Some bs => Ok bs | None => Raise ValueError end.

(** [uuid.NAMESPACE_URL]. *)
Definition NAMESPACE_URL : list Z :=
  [107; 167; 184; 17; 157; 173; 17; 209; 128; 180; 0; 192; 79; 212; 48; 200].

(** The standard's own vector. *)
Example sha1_abc : String.concat "" (map hex_byte (sha1 (bytes_of "abc"))) = "a9993e364706816aba3e25717850c26c9cd0d89d"%string.
Proof. vm_compute. reflexivity. Qed.

Example uuid5_url : uuid_text (uuid5 NAMESPACE_URL "https://astrabox.ai/resources/child-run") = "47fa3961-835a-5146-881c-ce897bb65068"%string.
Proof. vm_compute. reflexivity. Qed.

Example uuid_read : fmap uuid_text (uuid_of "urn:uuid:{47FA3961-835a-5146-881c-ce897bb65068}") = Ok "47fa3961-835a-5146-881c-ce897bb65068"%string.
Proof. vm_compute. reflexivity. Qed.

End Uuid.
