(* ===== verification/ChildFacts.v ===== *)
(** [engine/child_runs.py]: the facts an engine reports of its sub-agents, checked and put
    into one form, and the public identifiers minted for them.  Parents named by a batch of
    facts must form no cycle. *)

From stdpp Require Import relations.
From S2P Require Import Prelude PyVal Base64 JsonText Uuid Interaction Reader.

Open Scope string_scope.

Module ChildFacts.
Import Uuid.

(** ** Public identifiers *)

Definition CHILD_RUN_NAMESPACE : list Z :=
  Eval vm_compute in uuid5 NAMESPACE_URL "https://astrabox.ai/resources/child-run".
Definition CHILD_MESSAGE_NAMESPACE : list Z :=
  Eval vm_compute in uuid5 NAMESPACE_URL "https://astrabox.ai/resources/child-run-message".

Definition NUL : Ascii.ascii := Base64.char 0.
Definition nul_join (l : list string) : string := String.concat (String NUL "") l.

(** [s.split("\0")]. *)
Fixpoint nul_split (s : string) : list string :=
  match s with
  | "" => [""]
  | String c s' =>
      if Ascii.eqb c NUL then "" :: nul_split s'
      else match nul_split s' with
           | p :: rest => String c p :: rest
           | [] => [String c ""]
           end
  end.

(** [public_child_run_id]. *)
Definition public_child_run_id (session_id engine_kind engine_ref : string) : res string :=
  let parts := [Py.strip session_id; Py.strip engine_kind; Py.strip engine_ref] in
  if existsb Py.is_empty parts then Raise ChildRunProjectionError
  else Ok (uuid_text (uuid5 CHILD_RUN_NAMESPACE (nul_join parts))).

(** [public_child_message_id]. *)
Definition public_child_message_id (session_id engine_kind engine_ref message_ref : string) : res string :=
  if Py.is_empty (Py.strip message_ref) then Raise ChildRunProjectionError
  else
    let material := nul_join [Py.strip session_id; Py.strip engine_kind; Py.strip engine_ref; Py.strip message_ref] in
    if existsb Py.is_empty (nul_split material) then Raise ChildRunProjectionError
    else Ok (uuid_text (uuid5 CHILD_MESSAGE_NAMESPACE material)).

(** ** One fact *)

Definition CHILD_RUN_EVENTS : list string := ["opened"; "updated"; "closed"].
Definition CHILD_RUN_OPERATIONS : list string := ["stop"].
Definition PUBLIC_FIELDS : list string := ["childRunId"; "parentChildRunId"; "controlId"].

(** [str(data.get(key) or "").strip()]. *)
Definition clean_of (key : string) (data : dict) : string := Py.clean (Py.get key data).

Definition refuse (c : bool) : res unit := raise_if c ChildRunProjectionError.

(** One word an engine may give: absent, or not blank. *)
Definition clean_word (data : dict) (field : string) : res dict :=
  if Py.has field data then
    _ ← refuse (Py.is_empty (clean_of field data));
    Ok (Py.set field (VStr (clean_of field data)) data)
  else Ok data.

Definition add_operation (operations : list string) (raw : val) : res (list string) :=
  let operation := Py.clean raw in
  _ ← refuse (negb (Py.in_strs operation CHILD_RUN_OPERATIONS));
  _ ← refuse (Py.in_strs operation operations);
  Ok (operations ++ [operation])%list.

(** The [kind == "lifecycle"] branch. *)
Definition canonical_lifecycle (data : dict) : res dict :=
  let event := clean_of "event" data in
  _ ← refuse (negb (Py.in_strs event CHILD_RUN_EVENTS));
  let engine_event := clean_of "engineEvent" data in
  let native_state := Py.get "nativeState" data in
  _ ← refuse (match native_state with VNone | VDict (_ :: _) => false | _ => true end);
  _ ← refuse (Py.is_empty engine_event && Py.is_none native_state);
  let d1 := Py.set "event" (VStr event) data in
  let d2 := if Py.is_empty engine_event then Py.pop "engineEvent" d1
            else Py.set "engineEvent" (VStr engine_event) d1 in
  d3 ← foldM clean_word d2 ["engineStatus"; "engineReason"];
  match Py.get "operations" d3 with
  | VList operations_raw =>
      operations ← foldM add_operation [] operations_raw;
      _ ← refuse (Py.in_strs "stop" operations && Py.is_empty (clean_of "controlRef" d3));
      _ ← refuse ((event =s "closed") && match operations with [] => false | _ => true end);
      Ok (Py.set "operations" (VList (map VStr operations)) d3)
  | _ => Raise ChildRunProjectionError
  end.

(** [canonical_child_run_data]. *)
Definition canonical_child_run_data (raw : dict) (engine_kind : string) : res dict :=
  let clean_engine_kind := Py.strip engine_kind in
  _ ← refuse (Py.is_empty clean_engine_kind);
  let kind := clean_of "kind" raw in
  _ ← refuse (negb (Py.in_strs kind ["lifecycle"; "message"]));
  _ ← refuse (existsb (fun key => Py.has key raw) PUBLIC_FIELDS);
  let engine_ref := clean_of "engineRef" raw in
  _ ← refuse (Py.is_empty engine_ref);
  let parent_engine_ref := clean_of "parentEngineRef" raw in
  _ ← refuse (parent_engine_ref =s engine_ref);
  let projected_engine_kind := clean_of "engineKind" raw in
  _ ← refuse (negb (Py.is_empty projected_engine_kind) && negb (projected_engine_kind =s clean_engine_kind));
  let d1 := Py.set "engineKind" (VStr clean_engine_kind) (Py.set "engineRef" (VStr engine_ref) raw) in
  let d2 := if Py.is_empty parent_engine_ref then Py.pop "parentEngineRef" d1
            else Py.set "parentEngineRef" (VStr parent_engine_ref) d1 in
  d3 ← clean_word d2 "controlRef";
  d4 ← (if kind =s "lifecycle" then canonical_lifecycle d3 else Ok d3);
  _ ← refuse ((kind =s "message") && negb (Py.is_list (Py.get "content" d4)));
  Ok d4.

(** ** A batch of blocks *)

Record lineage := Lineage { ln_refs : list string; ln_parents : list (string * string) }.

(** The facts of one block that is a child's: its reference, and its parent's if any. *)
Definition note_parent (data : dict) (l : lineage) : res lineage :=
  let engine_ref := Py.str (Py.get "engineRef" data) in
  let parent_engine_ref := Py.str_or_empty (Py.get "parentEngineRef" data) in
  let refs := if Py.in_strs engine_ref (ln_refs l) then ln_refs l else (ln_refs l ++ [engine_ref])%list in
  if Py.is_empty parent_engine_ref then Ok (Lineage refs (ln_parents l))
  else
    match Reader.assoc engine_ref (ln_parents l) with
    | Some existing =>
        _ ← refuse (negb (Py.is_empty existing) && negb (existing =s parent_engine_ref));
        Ok (Lineage refs (map (fun e => if fst e =s engine_ref then (fst e, parent_engine_ref) else e) (ln_parents l)))
    | None => Ok (Lineage refs (ln_parents l ++ [(engine_ref, parent_engine_ref)])%list)
    end.

Definition is_child_block (block : dict) : bool := clean_of "type" block =s "subagent".

(** A block with its fact, if it is a child's, in canonical form. *)
Definition checked_block (engine_kind : string) (raw : dict) : res dict :=
  if negb (is_child_block raw) then Ok raw
  else
    match Py.get "data" raw with
    | VDict data_raw =>
        data ← canonical_child_run_data data_raw engine_kind;
        _ ← refuse (Py.is_empty (clean_of "id" raw));
        Ok (Py.set "data" (VDict data) raw)
    | _ => Raise ChildRunProjectionError
    end.

Definition note_block (l : lineage) (block : dict) : res lineage :=
  if is_child_block block then
    match Py.get "data" block with VDict data => note_parent data l | _ => Ok l end
  else Ok l.

(** One turn of the first loop. *)
Definition canonical_block (engine_kind : string) (st : list dict * lineage) (raw : dict) : res (list dict * lineage) :=
  block ← checked_block engine_kind raw;
  l ← note_block (snd st) block;
  Ok ((fst st ++ [block])%list, l).

(** The walk up from one child; [None] is out of fuel, which does not happen. *)
Fixpoint walk_up (fuel : nat) (parents : list (string * string)) (seen : list string) (current : string)
  : option (res unit) :=
  match fuel with
  | O => None
  | S fuel' =>
      match Reader.assoc current parents with
      | None => Some (Ok tt)
      | Some parent =>
          if Py.in_strs current seen then Some (Raise ChildRunProjectionError)
          else walk_up fuel' parents (current :: seen) parent
      end
  end.

Definition check_parents (l : lineage) : res unit :=
  foldM (fun _ engine_ref =>
           default (Raise RuntimeError) (walk_up (S (S (length (ln_parents l)))) (ln_parents l) [] engine_ref))
    tt (ln_refs l).

(** [canonicalize_child_run_blocks]. *)
Definition canonicalize_child_run_blocks (blocks : list dict) (engine_kind : string) : res (list dict) :=
  st ← foldM (canonical_block engine_kind) ([], Lineage [] []) blocks;
  _ ← check_parents (snd st);
  Ok (fst st).

(** ** A canonical fact *)

(** A word as the checks leave it. *)
Definition cleaned (s : string) : Prop := Py.strip s = s /\ Py.is_empty s = false.

Definition word_ok (k : string) (d : dict) : Prop :=
  Py.lookup k d = None \/ exists s, cleaned s /\ Py.lookup k d = Some (VStr s).

(** The fields the checks may rewrite. *)
Definition LIFECYCLE_FIELDS : list string := ["event"; "engineEvent"; "engineStatus"; "engineReason"; "operations"].
Definition CHECKED_FIELDS : list string := ["engineKind"; "engineRef"; "parentEngineRef"; "controlRef"] ++ LIFECYCLE_FIELDS.

Definition same_but (keys : list string) (d d' : dict) : Prop :=
  forall k, k ∉ keys -> Py.lookup k d' = Py.lookup k d.

Record lifecycle_fact (d : dict) (event : string) (operations : list string) : Prop := {
  lf_event : Py.lookup "event" d = Some (VStr event);
  lf_event_known : event ∈ CHILD_RUN_EVENTS;
  lf_said : word_ok "engineEvent" d;
  lf_state : Py.get "nativeState" d = VNone \/ exists e s, Py.get "nativeState" d = VDict (e :: s);
  lf_told : Py.lookup "engineEvent" d <> None \/ Py.get "nativeState" d <> VNone;
  lf_status : word_ok "engineStatus" d;
  lf_reason : word_ok "engineReason" d;
  lf_operations : Py.lookup "operations" d = Some (VList (map VStr operations));
  lf_once : NoDup operations;
  lf_known : operations ⊆ CHILD_RUN_OPERATIONS;
  lf_stop : "stop" ∈ operations -> Py.is_empty (clean_of "controlRef" d) = false;
  lf_closed : event = "closed" -> operations = []
}.

Lemma set_same k v d : Py.lookup k d = Some v -> Py.set k v d = d.
Proof.
  induction d as [|[k' v'] d IH]; cbn; [done|]. destruct (k =s k'); [by intros [= ->]|]. intros H. by rewrite IH.
Qed.

Lemma pop_same k d : Py.lookup k d = None -> Py.pop k d = d.
Proof.
  induction d as [|[k' v'] d IH]; cbn; [done|]. destruct (k =s k'); [done|]. cbn. intros H. f_equal. by apply IH.
Qed.

Lemma clean_of_cleaned k d : Py.is_empty (clean_of k d) = false -> cleaned (clean_of k d).
Proof. split; [apply strip_idem|done]. Qed.

Lemma clean_of_word k d s : cleaned s -> Py.lookup k d = Some (VStr s) -> clean_of k d = s.
Proof. intros [Hs _] H. unfold clean_of, Py.get. rewrite H.
  change (Py.clean (VStr s) = s). by rewrite clean_str. Qed.

Lemma clean_of_absent k d : Py.lookup k d = None -> clean_of k d = "".
Proof. intros H. unfold clean_of, Py.get. by rewrite H. Qed.

Lemma refuse_ok c u : refuse c = Ok u -> c = false.
Proof. apply raise_if_ok. Qed.

Lemma clean_word_ok d f d' :
  clean_word d f = Ok d' -> word_ok f d' /\ same_but [f] d d'.
Proof.
  unfold clean_word, word_ok, same_but, Py.has. destruct (Py.lookup f d) eqn:E.
  - intros (u & Hu%refuse_ok & <-%Ok_inj)%bind_ok. split.
    + right. exists (clean_of f d). split; [by apply clean_of_cleaned|apply lookup_set_eq].
    + intros k Hk. apply lookup_set_ne. set_solver.
  - intros <-%Ok_inj. split; [by left|done].
Qed.

Lemma clean_word_id d f : word_ok f d -> clean_word d f = Ok d.
Proof.
  unfold clean_word, Py.has. intros [->|(s & Hs & E)]; [done|]. rewrite E, (clean_of_word _ _ _ Hs E).
  destruct Hs as [_ ->]. cbn [refuse raise_if mbind res_bind]. by rewrite set_same.
Qed.

Lemma add_operations ops raw acc :
  foldM add_operation acc raw = Ok ops -> NoDup acc -> acc ⊆ CHILD_RUN_OPERATIONS ->
  NoDup ops /\ ops ⊆ CHILD_RUN_OPERATIONS.
Proof.
  intros H Hn Hs. refine (foldM_inv (fun a => NoDup a /\ a ⊆ CHILD_RUN_OPERATIONS) _ _ _ _ (conj Hn Hs) _ H).
  intros a x a1 [Ha Hk] Hx. unfold add_operation in Hx. apply bind_ok in Hx as (u & Hu%refuse_ok & Hx).
  apply bind_ok in Hx as (u' & Hu'%refuse_ok & <-%Ok_inj). bool_prop. apply in_strs_true in Hu. split.
  - apply NoDup_app. split; [done|]. split; [|apply NoDup_singleton]. intros y Hy ->%list_elem_of_singleton.
    apply in_strs_true in Hy. congruence.
  - intros y [Hy| ->%list_elem_of_singleton]%elem_of_app; auto.
Qed.

Lemma add_operations_again ops acc :
  NoDup (acc ++ ops) -> ops ⊆ CHILD_RUN_OPERATIONS -> foldM add_operation acc (map VStr ops) = Ok (acc ++ ops)%list.
Proof.
  revert acc. induction ops as [|op ops IH]; intros acc Hn Hs; [by rewrite app_nil_r|]. cbn [map foldM].
  assert (Hop : op = "stop") by (specialize (Hs op ltac:(left)); by apply list_elem_of_singleton in Hs).
  assert (Hnew : Py.in_strs op acc = false).
  { destruct (Py.in_strs op acc) eqn:E; [|done]. apply in_strs_true in E. apply NoDup_app in Hn as (_ & Hd & _).
    destruct (Hd op E). left. }
  assert (Hadd : add_operation acc (VStr op) = Ok (acc ++ [op])%list).
  { unfold add_operation. rewrite clean_str. subst op. change (Py.strip "stop") with "stop". by rewrite Hnew. }
  rewrite Hadd. replace (acc ++ op :: ops)%list with ((acc ++ [op]) ++ ops)%list in * by (by rewrite <-app_assoc).
  apply IH; [done|set_solver].
Qed.

Lemma same_but_trans ks d1 d2 d3 : same_but ks d1 d2 -> same_but ks d2 d3 -> same_but ks d1 d3.
Proof. intros H1 H2 k Hk. by rewrite (H2 k Hk), (H1 k Hk). Qed.

Lemma same_but_weaken ks ks' d d' : ks ⊆ ks' -> same_but ks d d' -> same_but ks' d d'.
Proof. intros Hk H k Hn. apply H. set_solver. Qed.

Lemma same_but_set k v d : same_but [k] d (Py.set k v d).
Proof. intros k' Hk. apply lookup_set_ne. set_solver. Qed.

Lemma same_but_pop k d : same_but [k] d (Py.pop k d).
Proof. intros k' Hk. rewrite lookup_pop. by rewrite (proj2 (String.eqb_neq k' k)) by set_solver. Qed.

Lemma same_word ks k d d' : same_but ks d d' -> k ∉ ks -> word_ok k d -> word_ok k d'.
Proof. intros H Hk [E|(s & Hs & E)]; [left|right; exists s; split; [done|]]; by rewrite (H k Hk). Qed.

(** [data[key] = s] or [data.pop(key, None)]. *)
Lemma set_or_pop k d :
  let d' := if Py.is_empty (clean_of k d) then Py.pop k d else Py.set k (VStr (clean_of k d)) d in
  word_ok k d' /\ same_but [k] d d' /\ clean_of k d' = clean_of k d.
Proof.
  cbv zeta. destruct (Py.is_empty (clean_of k d)) eqn:E.
  - assert (Hn : Py.lookup k (Py.pop k d) = None) by (by rewrite lookup_pop, String.eqb_refl).
    split; [by left|]. split; [apply same_but_pop|]. rewrite (clean_of_absent _ _ Hn).
    by apply is_empty_true in E.
  - assert (Hc := clean_of_cleaned _ _ E). split; [right; exists (clean_of k d); split; [done|apply lookup_set_eq]|].
    split; [apply same_but_set|]. by apply clean_of_word; [|apply lookup_set_eq].
Qed.

Lemma set_or_pop_id k d :
  word_ok k d -> (if Py.is_empty (clean_of k d) then Py.pop k d else Py.set k (VStr (clean_of k d)) d) = d.
Proof.
  intros [E|(s & Hs & E)]; [rewrite (clean_of_absent _ _ E); by apply pop_same|].
  rewrite (clean_of_word _ _ _ Hs E). destruct Hs as [_ ->]. by apply set_same.
Qed.

Lemma get_lookup k d : Py.get k d = default VNone (Py.lookup k d).
Proof. done. Qed.

Lemma same_get ks k d d' : same_but ks d d' -> k ∉ ks -> Py.get k d' = Py.get k d.
Proof. intros H Hk. by rewrite !get_lookup, (H k Hk). Qed.

Lemma same_clean ks k d d' : same_but ks d d' -> k ∉ ks -> clean_of k d' = clean_of k d.
Proof. intros H Hk. unfold clean_of. by rewrite (same_get _ _ _ _ H Hk). Qed.

(** A field that is not in a list of literals, and a list of literals in another. *)
Ltac not_a_field := solve [by apply (bool_decide_unpack _); vm_compute].
Ltac fields_in := solve [let k := fresh in let H := fresh in
  intros k H; repeat (apply elem_of_cons in H as [->|H]; [by apply (bool_decide_unpack _); vm_compute|]);
  by apply not_elem_of_nil in H].

Lemma lifecycle_checked d d' :
  canonical_lifecycle d = Ok d' ->
  exists operations, lifecycle_fact d' (clean_of "event" d) operations /\ same_but LIFECYCLE_FIELDS d d'.
Proof.
  unfold canonical_lifecycle. intros H. set (event := clean_of "event" d) in *.
  apply bind_ok in H as (u1 & Hevent%refuse_ok & H). apply bind_ok in H as (u2 & Hstate%refuse_ok & H).
  apply bind_ok in H as (u3 & Htold%refuse_ok & H). bool_prop. apply in_strs_true in Hevent.
  set (d1 := Py.set "event" (VStr event) d) in *. assert (S1 : same_but ["event"] d d1) by apply same_but_set.
  rewrite <-(same_clean _ "engineEvent" _ _ S1) in H by set_solver.
  rewrite <-(same_clean _ "engineEvent" _ _ S1) in Htold by set_solver.
  rewrite <-(same_get _ "nativeState" _ _ S1) in Hstate, Htold by set_solver.
  destruct (set_or_pop "engineEvent" d1) as (Hsaid & S2 & Hce).
  set (d2 := if Py.is_empty (clean_of "engineEvent" d1) then _ else _) in *.
  cbn [foldM] in H. apply bind_ok in H as (d4 & H4 & H).
  destruct (clean_word d2 "engineStatus") as [d3|] eqn:H3; [|done]. destruct (clean_word d3 "engineReason") as [d4'|] eqn:H4'; [|done].
  apply Ok_inj in H4. subst d4'. destruct (clean_word_ok _ _ _ H3) as [Hstatus S3]. destruct (clean_word_ok _ _ _ H4') as [Hreason S4].
  destruct (Py.get "operations" d4) as [| | | | |raw|] eqn:Eraw; try done.
  apply bind_ok in H as (ops & Hops & H). apply bind_ok in H as (u5 & Hstop%refuse_ok & H).
  apply bind_ok in H as (u6 & Hclosed%refuse_ok & <-%Ok_inj).
  destruct (add_operations _ _ _ Hops ltac:(constructor) ltac:(set_solver)) as [Hnd Hsub].
  set (d5 := Py.set "operations" (VList (map VStr ops)) d4) in *.
  assert (S5 : same_but ["operations"] d4 d5) by apply same_but_set.
  assert (S35 : same_but ["engineReason"; "operations"] d3 d5)
    by (eapply same_but_trans; [eapply (same_but_weaken ["engineReason"])|eapply (same_but_weaken ["operations"])]; try done; fields_in).
  assert (S25 : same_but ["engineStatus"; "engineReason"; "operations"] d2 d5)
    by (eapply same_but_trans; [eapply (same_but_weaken ["engineStatus"])|eapply same_but_weaken, S35]; try done; fields_in).
  assert (S15 : same_but ["engineEvent"; "engineStatus"; "engineReason"; "operations"] d1 d5)
    by (eapply same_but_trans; [eapply (same_but_weaken ["engineEvent"])|eapply same_but_weaken, S25]; try done; fields_in).
  exists ops. split; [|eapply same_but_trans; [eapply (same_but_weaken ["event"])|eapply same_but_weaken, S15]; try done; fields_in].
  split; [|done|..|done|done| |].
  - rewrite (S15 "event") by not_a_field. apply lookup_set_eq.
  - eapply same_word; [exact S25|not_a_field|done].
  - rewrite (same_get _ _ _ _ S15) by not_a_field. destruct (Py.get "nativeState" d1) as [| | | | | |[|e s]]; try done; [by left|right; by eexists _, _].
  - rewrite (same_get _ _ _ _ S15) by not_a_field. rewrite (S25 "engineEvent") by not_a_field.
    destruct (Py.get "nativeState" d1); try (by right). left. rewrite andb_true_r in Htold. intros Hn.
    rewrite <-Hce, (clean_of_absent _ _ Hn) in Htold. done.
  - eapply same_word; [exact S35|not_a_field|done].
  - eapply same_word; [exact S5|not_a_field|done].
  - apply lookup_set_eq.
  - intros Hin%in_strs_true. rewrite Hin in Hstop. by rewrite (same_clean _ _ _ _ S5) by not_a_field.
  - intros He. rewrite He in Hclosed. by destruct ops.
Qed.

Lemma lifecycle_again d event operations : lifecycle_fact d event operations -> canonical_lifecycle d = Ok d.
Proof.
  intros [He Hk Hsaid Hstate Htold Hst Hre Hops Hnd Hsub Hstop Hclosed]. unfold canonical_lifecycle.
  assert (Hev : clean_of "event" d = event).
  { apply clean_of_word; [|done]. unfold CHILD_RUN_EVENTS in Hk. set_unfold in Hk. by destruct Hk as [->|[->|[->|[]]]]. }
  rewrite Hev, (proj2 (in_strs_true _ _) Hk). cbn [negb refuse raise_if mbind res_bind].
  replace (match Py.get "nativeState" d with VNone | VDict (_ :: _) => false | _ => true end) with false
    by (destruct Hstate as [->|(e & s & ->)]; done). cbn [refuse raise_if mbind res_bind].
  replace (Py.is_empty (clean_of "engineEvent" d) && Py.is_none (Py.get "nativeState" d)) with false.
  2:{ symmetry. apply andb_false_iff. destruct Htold as [H|H]; [left|right; by destruct (Py.get "nativeState" d)].
      destruct Hsaid as [E|(s & Hs & E)]; [done|]. rewrite (clean_of_word _ _ _ Hs E). by destruct Hs. }
  cbn [refuse raise_if mbind res_bind]. rewrite (set_same "event") by done. rewrite set_or_pop_id by done.
  cbn [foldM]. rewrite clean_word_id, clean_word_id by done. cbn [mbind res_bind].
  rewrite get_lookup, Hops. change (default VNone (Some ?v)) with v. cbn match.
  rewrite (add_operations_again operations []) by done. cbn [mbind res_bind app].
  replace (Py.in_strs "stop" operations && Py.is_empty (clean_of "controlRef" d)) with false.
  2:{ symmetry. destruct (Py.in_strs "stop" operations) eqn:E; [|done]. apply in_strs_true in E. by apply Hstop. }
  replace ((event =s "closed") && match operations with [] => false | _ => true end) with false.
  2:{ symmetry. destruct (event =s "closed") eqn:E; [|done]. bool_prop. by rewrite (Hclosed E). }
  cbn [refuse raise_if mbind res_bind]. by rewrite set_same.
Qed.
(** What the platform may rely on of a fact it accepted. *)
Record child_fact (engine_kind : string) (d : dict) : Prop := {
  cf_kind : clean_of "kind" d ∈ ["lifecycle"; "message"];
  cf_private : Forall (fun k => Py.lookup k d = None) PUBLIC_FIELDS;
  cf_engine : cleaned engine_kind /\ Py.lookup "engineKind" d = Some (VStr engine_kind);
  cf_ref : exists r, cleaned r /\ Py.lookup "engineRef" d = Some (VStr r) /\ clean_of "parentEngineRef" d <> r;
  cf_parent : word_ok "parentEngineRef" d;
  cf_control : word_ok "controlRef" d;
  cf_lifecycle : clean_of "kind" d = "lifecycle" -> exists event operations, lifecycle_fact d event operations;
  cf_message : clean_of "kind" d = "message" -> Py.is_list (Py.get "content" d) = true
}.

Lemma public_absent d : existsb (fun key => Py.has key d) PUBLIC_FIELDS = false <-> Forall (fun k => Py.lookup k d = None) PUBLIC_FIELDS.
Proof.
  unfold PUBLIC_FIELDS, Py.has. rewrite !Forall_cons, Forall_nil. cbn.
  destruct (Py.lookup "childRunId" d), (Py.lookup "parentChildRunId" d), (Py.lookup "controlId" d); naive_solver.
Qed.

Lemma fact_checked raw engine_kind d :
  canonical_child_run_data raw engine_kind = Ok d ->
  child_fact (Py.strip engine_kind) d /\ same_but CHECKED_FIELDS raw d /\
  Py.lookup "engineRef" d = Some (VStr (clean_of "engineRef" raw)).
Proof.
  unfold canonical_child_run_data. intros H. set (ek := Py.strip engine_kind) in *.
  apply bind_ok in H as (u1 & Hek%refuse_ok & H). apply bind_ok in H as (u2 & Hkind%refuse_ok & H).
  apply bind_ok in H as (u3 & Hpub%refuse_ok & H). apply bind_ok in H as (u4 & Href%refuse_ok & H).
  apply bind_ok in H as (u5 & Hself%refuse_ok & H). apply bind_ok in H as (u6 & _ & H).
  apply bind_ok in H as (d3 & H3 & H). apply bind_ok in H as (d4 & H4 & H). apply bind_ok in H as (u7 & Hmsg%refuse_ok & <-%Ok_inj).
  set (d1 := Py.set "engineKind" _ _) in *.
  assert (S1 : same_but ["engineRef"; "engineKind"] raw d1).
  { eapply same_but_trans; [eapply same_but_weaken, same_but_set|eapply same_but_weaken, same_but_set]; fields_in. }
  rewrite <-(same_clean _ "parentEngineRef" _ _ S1) in H3 by set_solver.
  destruct (set_or_pop "parentEngineRef" d1) as (Hparent & S2 & Hcp).
  set (d2 := if Py.is_empty (clean_of "parentEngineRef" d1) then _ else _) in *.
  destruct (clean_word_ok _ _ _ H3) as [Hcontrol S3].
  assert (S4 : same_but LIFECYCLE_FIELDS d3 d4).
  { destruct (clean_of "kind" raw =s "lifecycle"); [|by apply Ok_inj in H4 as <-]. by destruct (lifecycle_checked _ _ H4) as (? & _ & ?). }
  assert (S24 : same_but ("controlRef" :: LIFECYCLE_FIELDS) d2 d4)
    by (eapply same_but_trans; [eapply (same_but_weaken ["controlRef"])|eapply same_but_weaken, S4]; try done; fields_in).
  assert (S14 : same_but ("parentEngineRef" :: "controlRef" :: LIFECYCLE_FIELDS) d1 d4)
    by (eapply same_but_trans; [eapply (same_but_weaken ["parentEngineRef"])|eapply same_but_weaken, S24]; try done; fields_in).
  assert (S04 : same_but CHECKED_FIELDS raw d4)
    by (eapply same_but_trans; [eapply same_but_weaken, S1|eapply same_but_weaken, S14]; fields_in).
  assert (Ek : clean_of "kind" d4 = clean_of "kind" raw) by (eapply same_clean; [exact S04|not_a_field]).
  assert (Eref : Py.lookup "engineRef" d4 = Some (VStr (clean_of "engineRef" raw))).
  { rewrite (S14 "engineRef") by not_a_field. unfold d1. rewrite lookup_set_ne by done. apply lookup_set_eq. }
  split; [|done]. bool_prop. apply in_strs_true in Hkind. split; rewrite ?Ek.
  - done.
  - apply public_absent in Hpub. unfold PUBLIC_FIELDS in *. rewrite !Forall_cons, Forall_nil in *.
    rewrite !S04 by not_a_field. done.
  - split; [split; [apply strip_idem|done]|]. rewrite (S14 "engineKind") by not_a_field. apply lookup_set_eq.
  - exists (clean_of "engineRef" raw). split; [by apply clean_of_cleaned|]. split; [done|].
    rewrite (same_clean _ _ _ _ S24), Hcp, (same_clean _ _ _ _ S1) by not_a_field. done.
  - eapply same_word; [exact S24|not_a_field|done].
  - eapply same_word; [exact S4|not_a_field|done].
  - intros E. rewrite (proj2 (String.eqb_eq _ _) E) in H4. destruct (lifecycle_checked _ _ H4) as (ops & Hl & _). by eexists _, _.
  - intros E. rewrite (proj2 (String.eqb_eq _ _) E) in Hmsg. by destruct (Py.is_list _).
Qed.

Lemma fact_again engine_kind d : child_fact (Py.strip engine_kind) d -> canonical_child_run_data d engine_kind = Ok d.
Proof.
  intros [Hkind Hpub [[_ Hek] Ee] (r & Hr & Er & Hp) Hparent Hcontrol Hlife Hmsg]. unfold canonical_child_run_data.
  assert (Hr' := clean_of_word _ _ _ Hr Er). rewrite Hek, (proj2 (in_strs_true _ _) Hkind), (proj2 (public_absent d) Hpub), Hr'.
  destruct Hr as [Hrs Hre]. rewrite Hre, (proj2 (String.eqb_neq _ _) Hp). cbn [negb refuse raise_if mbind res_bind].
  assert (Ek : clean_of "engineKind" d = Py.strip engine_kind) by (by apply clean_of_word; [split; [apply strip_idem|]|]).
  rewrite Ek, Hek, String.eqb_refl. cbn [negb andb refuse raise_if mbind res_bind].
  rewrite (set_same "engineRef"), (set_same "engineKind"), set_or_pop_id, clean_word_id by done. cbn [mbind res_bind].
  destruct (clean_of "kind" d =s "lifecycle") eqn:E1.
  - bool_prop. destruct (Hlife E1) as (ev & ops & Hl). rewrite (lifecycle_again _ _ _ Hl). cbn [mbind res_bind]. by rewrite E1.
  - cbn [mbind res_bind]. destruct (clean_of "kind" d =s "message") eqn:E2; [|done]. bool_prop. by rewrite Hmsg.
Qed.

(** C38: Facts about sub-agents reach the platform in one form.  A fact that is accepted
    names its engine and child by non-blank words, is not its own parent, carries no public
    id, and of a lifecycle knows the event and offers only known operations, none after the
    child closed and stop only with a handle; everything else the engine said is kept; and
    checking an accepted fact again (as folding the log does) accepts it unchanged. *)
Theorem child_fact_canonical raw engine_kind d :
  canonical_child_run_data raw engine_kind = Ok d ->
  child_fact (Py.strip engine_kind) d /\ same_but CHECKED_FIELDS raw d /\
  canonical_child_run_data d engine_kind = Ok d.
Proof. intros H. destruct (fact_checked _ _ _ H) as (Hf & Hs & _). split; [done|]. split; [done|]. by apply fact_again. Qed.

(** ** Parents form no cycle *)

(** The child and parent a canonical block names. *)
Definition edge_of (block : dict) : option (string * string) :=
  if is_child_block block then
    match Py.get "data" block with
    | VDict data =>
        let parent := Py.str_or_empty (Py.get "parentEngineRef" data) in
        if Py.is_empty parent then None else Some (Py.str (Py.get "engineRef" data), parent)
    | _ => None
    end
  else None.

Definition edges (blocks : list dict) : list (string * string) := omap edge_of blocks.

(** A child has one parent, and is not its own ancestor. *)
Definition one_parent (es : list (string * string)) : Prop :=
  forall c p q, (c, p) ∈ es -> (c, q) ∈ es -> p = q.
Definition parent_in (es : list (string * string)) (c p : string) : Prop := (c, p) ∈ es.
Definition acyclic (es : list (string * string)) : Prop := forall c, ~ tc (parent_in es) c c.

Lemma blocks_loop engine_kind blocks st st' :
  foldM (canonical_block engine_kind) st blocks = Ok st' <->
  exists out, mapM_res (checked_block engine_kind) blocks = Ok out /\ fst st' = (fst st ++ out)%list /\
    foldM note_block (snd st) out = Ok (snd st').
Proof.
  revert st. induction blocks as [|raw blocks IH]; intros [acc l]; cbn [foldM mapM_res fst snd].
  - split; [intros <-%Ok_inj; exists []; by rewrite app_nil_r|].
    intros (out & <-%Ok_inj & E1 & E2). rewrite app_nil_r in E1. destruct st'. cbn in *. by injection E2 as ->; subst.
  - unfold canonical_block at 1. destruct (checked_block engine_kind raw) as [block|e]; cbn [mbind res_bind fst snd];
      [|split; [done|by intros (? & ? & _)]].
    split.
    + destruct (note_block l block) as [l1|] eqn:El; [|done]. cbn [mbind res_bind].
      intros (out & -> & E1 & E2)%IH. cbn [fst snd] in *. exists (block :: out). cbn [mbind res_bind foldM].
      split; [done|]. split; [by rewrite E1, <-app_assoc|]. by rewrite El.
    + intros (out & Hout & E1 & E2). destruct (mapM_res _ blocks) as [out'|] eqn:Em; [|done]. injection Hout as <-.
      cbn [foldM] in E2. destruct (note_block l block) as [l1|] eqn:El; [|done]. cbn [mbind res_bind]. apply IH.
      exists out'. cbn [fst snd]. by rewrite <-app_assoc.
Qed.

Record lineage_of (l : lineage) : Prop := {
  lo_keys : NoDup (map fst (ln_parents l));
  lo_refs : forall c p, (c, p) ∈ ln_parents l -> c ∈ ln_refs l;
  lo_named : forall c p, (c, p) ∈ ln_parents l -> p <> ""
}.

Lemma assoc_parents c p (es : list (string * string)) : NoDup (map fst es) -> Reader.assoc c es = Some p <-> (c, p) ∈ es.
Proof.
  induction es as [|[c' p'] es IH]; intros Hn; cbn; [split; [done|by intros ?%not_elem_of_nil]|].
  apply NoDup_cons in Hn as [Hc Hn]. rewrite elem_of_cons. destruct (c =s c') eqn:E; bool_prop.
  - subst c'. split; [intros [= ->]; by left|]. intros [[= ->]|Hin]; [done|]. destruct Hc.
    by apply (list_elem_of_fmap_2 fst _ (c, p)).
  - rewrite IH by done. split; [by right|]. intros [[= -> ->]|Hin]; [done|done].
Qed.

(** One block either adds its edge or names a second parent. *)
Lemma note_block_spec l block :
  lineage_of l ->
  match note_block l block with
  | Ok l' => lineage_of l' /\ ln_refs l ⊆ ln_refs l' /\
      forall c p, (c, p) ∈ ln_parents l' <-> (c, p) ∈ ln_parents l \/ edge_of block = Some (c, p)
  | Raise e => e = ChildRunProjectionError /\
      exists c p q, (c, p) ∈ ln_parents l /\ edge_of block = Some (c, q) /\ p <> q
  end.
Proof.
  intros Hl. unfold note_block, edge_of. destruct (is_child_block block); [|split_and!; [done..|naive_solver]].
  destruct (Py.get "data" block) as [| | | | | |data]; try (split_and!; [done..|naive_solver]).
  unfold note_parent. set (r := Py.str _). set (q := Py.str_or_empty _).
  set (refs := if Py.in_strs r (ln_refs l) then ln_refs l else (ln_refs l ++ [r])%list).
  assert (Hsub : ln_refs l ⊆ refs) by (unfold refs; destruct (Py.in_strs r _); set_solver).
  assert (Hr : r ∈ refs).
  { unfold refs. destruct (Py.in_strs r (ln_refs l)) eqn:E; [by apply in_strs_true|set_solver]. }
  destruct Hl as [Hn Hrefs Hne]. destruct (Py.is_empty q) eqn:Eq.
  { split; [split; cbn; [done|by eauto|done]|]. cbn. naive_solver. }
  apply is_empty_false in Eq. destruct (Reader.assoc r (ln_parents l)) as [p|] eqn:Ea.
  - apply assoc_parents in Ea; [|done]. assert (Hp := Hne _ _ Ea). unfold refuse, raise_if.
    rewrite (proj2 (is_empty_false p) Hp). destruct (p =s q) eqn:E; bool_prop; cbn [negb andb mbind res_bind].
    + subst p. set (es := map _ _). assert (Hes : es = ln_parents l).
      { unfold es. clear -Hn Ea. induction (ln_parents l) as [|[c p] es IH]; [done|]. cbn in *.
        apply NoDup_cons in Hn as [Hc Hn]. apply elem_of_cons in Ea as [[= <- <-]|Ea].
        - rewrite String.eqb_refl. f_equal. clear -Hc. induction es as [|[c p] es IH]; [done|]. cbn in *.
          apply not_elem_of_cons in Hc as [Hne Hc]. rewrite (proj2 (String.eqb_neq c r)) by done. by rewrite IH.
        - rewrite (proj2 (String.eqb_neq c r)); [by rewrite IH|]. intros ->. destruct Hc.
          by apply (list_elem_of_fmap_2 fst _ (r, q)). }
      rewrite Hes. split; [split; cbn; [done|by eauto|done]|]. cbn. naive_solver.
    + split; [done|]. exists r, p, q. done.
  - split; [split; cbn|cbn; split; [done|]].
    + rewrite map_app. apply NoDup_app. split; [done|]. split; [|apply NoDup_singleton].
      intros c Hc ->%list_elem_of_singleton. apply list_elem_of_fmap in Hc as ([c p] & E & Hin). cbn [fst] in E. subst c.
      apply assoc_parents in Hin; [|done]. congruence.
    + intros c p [Hin|[= -> ->]%list_elem_of_singleton]%elem_of_app; [by eauto|done].
    + intros c p [Hin|[= -> ->]%list_elem_of_singleton]%elem_of_app; [by eauto|done].
    + intros c p. rewrite elem_of_app, list_elem_of_singleton. naive_solver.
Qed.

Lemma note_blocks_spec blocks l :
  lineage_of l ->
  match foldM note_block l blocks with
  | Ok l' => lineage_of l' /\ one_parent (ln_parents l ++ edges blocks) /\
      forall c p, (c, p) ∈ ln_parents l' <-> (c, p) ∈ ln_parents l \/ (c, p) ∈ edges blocks
  | Raise e => ~ one_parent (ln_parents l ++ edges blocks)
  end.
Proof.
  revert l. induction blocks as [|b blocks IH]; intros l Hl; cbn [foldM].
  - change (edges []) with (@nil (string * string)). rewrite app_nil_r. split; [done|]. split; [|set_solver].
    intros c p q Hp%assoc_parents Hq%assoc_parents; [congruence|apply Hl..].
  - pose proof (note_block_spec l b Hl) as Hb. destruct (note_block l b) as [l1|e].
    + destruct Hb as (Hl1 & _ & Hadd). specialize (IH _ Hl1).
      assert (Hiff : forall c p, (c, p) ∈ (ln_parents l1 ++ edges blocks)%list <-> (c, p) ∈ (ln_parents l ++ edges (b :: blocks))%list).
      { intros c p. rewrite !elem_of_app, Hadd. unfold edges. cbn [omap list_omap]. destruct (edge_of b) as [e|].
        - rewrite elem_of_cons. naive_solver.
        - naive_solver. }
      destruct (foldM note_block l1 blocks) as [l2|].
      * destruct IH as (H2 & Hone & Hin). split; [done|]. split.
        -- intros c p q Hp%Hiff Hq%Hiff. by eapply Hone.
        -- intros c p. rewrite Hin, <-!elem_of_app. apply Hiff.
      * intros Hone. apply IH. intros c p q Hp%Hiff Hq%Hiff. by eapply Hone.
    + destruct Hb as (_ & c & p & q & Hp & He & Hne). intros Hone. apply Hne, (Hone c); rewrite elem_of_app; [by left|right].
      unfold edges. cbn [omap list_omap]. rewrite He. left.
Qed.
(** ** The walk *)

Lemma walk_ends es seen current fuel :
  NoDup (map fst es) -> acyclic es -> NoDup seen -> seen ⊆ map fst es ->
  Forall (fun s => tc (parent_in es) s current) seen -> (length es < fuel + length seen)%nat ->
  walk_up fuel es seen current = Some (Ok tt).
Proof.
  intros Hn Hac. revert seen current. induction fuel as [|fuel IH]; intros seen current Hs Hsub Htc Hf.
  { assert (Hle : (length seen <= length (map fst es))%nat) by (by apply submseteq_length, NoDup_submseteq). rewrite length_map in Hle. lia. }
  cbn [walk_up]. destruct (Reader.assoc current es) as [p|] eqn:Ea; [|done]. apply assoc_parents in Ea; [|done].
  assert (Hnew : current ∉ seen) by (intros Hin; rewrite Forall_forall in Htc; by apply (Hac current), Htc).
  destruct (Py.in_strs current seen) eqn:E; [by apply in_strs_true in E|]. apply IH.
  - by constructor.
  - intros s [->|Hin]%elem_of_cons; [by apply (list_elem_of_fmap_2 fst _ (current, p))|exact (Hsub _ Hin)].
  - constructor; [by apply tc_once|]. eapply Forall_impl; [exact Htc|]. intros s H. eapply tc_r; [exact H|exact Ea].
  - cbn [length]. lia.
Qed.

(** A walk from inside a cycle never reaches a root. *)
Lemma walk_caught es seen current fuel :
  NoDup (map fst es) -> (forall x, rtc (parent_in es) current x -> exists y, parent_in es x y) ->
  walk_up fuel es seen current <> Some (Ok tt).
Proof.
  intros Hn. revert seen current. induction fuel as [|fuel IH]; intros seen current Hf; [done|]. cbn [walk_up].
  destruct (Hf current) as [p Hp]; [done|]. rewrite (proj2 (assoc_parents _ _ _ Hn) Hp).
  destruct (Py.in_strs current seen); [done|]. apply IH. intros x Hx. apply Hf. by eapply rtc_l.
Qed.

Lemma cycle_closed es c x :
  one_parent es -> tc (parent_in es) c c -> rtc (parent_in es) c x -> tc (parent_in es) x x.
Proof.
  intros Hone Hc Hx. induction Hx as [|c y x Hcy _ IH]; [done|]. apply IH.
  assert (Hyc : rtc (parent_in es) y c).
  { inversion Hc as [? ? Hcc|? z ? Hz Htc]; subst; [by rewrite (Hone _ _ _ Hcy Hcc)|].
    rewrite (Hone _ _ _ Hcy Hz). by apply tc_rtc. }
  eapply tc_rtc_l; [exact Hyc|by apply tc_once].
Qed.

Lemma check_parents_spec l :
  lineage_of l -> one_parent (ln_parents l) -> check_parents l = Ok tt <-> acyclic (ln_parents l).
Proof.
  intros [Hn Hrefs _] Hone. unfold check_parents. split.
  - intros H c Hc. assert (Hin : c ∈ ln_refs l).
    { inversion Hc as [? ? H0|? ? ? H0]; subst; by eapply Hrefs. }
    set (es := ln_parents l) in *. set (fuel := S (S (length es))) in *. revert H Hin.
    generalize (ln_refs l). intros refs. induction refs as [|r refs IH]; intros H Hin; [by apply not_elem_of_nil in Hin|].
    cbn [foldM] in H. destruct (walk_up fuel es [] r) as [[[]|e]|] eqn:E; [|done..].
    cbn [default mbind res_bind] in H. apply elem_of_cons in Hin as [->|Hin]; [|by apply IH].
    refine (walk_caught es [] r fuel Hn _ E). intros x Hx. pose proof (cycle_closed _ _ _ Hone Hc Hx) as Hxx.
    inversion Hxx; by eexists.
  - intros Hac. clear Hrefs. induction (ln_refs l) as [|r refs IH]; [done|]. cbn [foldM].
    rewrite walk_ends; [exact IH|done..|constructor|set_solver|constructor|cbn; lia].
Qed.

Lemma acyclic_ext es es' : (forall c p, (c, p) ∈ es <-> (c, p) ∈ es') -> acyclic es -> acyclic es'.
Proof.
  intros H Hac c Hc. apply (Hac c). revert Hc. generalize c at 1 3. intros c0 Hc.
  induction Hc as [c p Hp|c q p Hq _ IH]; [apply tc_once, (H c p), Hp|].
  eapply tc_l; [apply (H c q), Hq|exact IH].
Qed.

(** Sub-agents form a forest.  A batch of blocks is accepted exactly when each of its
    child facts is, no child is given two parents, and no child is its own ancestor, however
    long the chain; what is accepted are the same blocks, in order, with their facts in
    canonical form; and the check always ends. *)
Theorem child_blocks_exact blocks engine_kind out :
  canonicalize_child_run_blocks blocks engine_kind = Ok out <->
  mapM_res (checked_block engine_kind) blocks = Ok out /\ one_parent (edges out) /\ acyclic (edges out).
Proof.
  unfold canonicalize_child_run_blocks.
  assert (H0 : lineage_of (Lineage [] [])) by (split; cbn; [constructor|by intros ? ? ?%not_elem_of_nil..]).
  split.
  - intros H. apply bind_ok in H as ([out' l] & Hloop & H). apply bind_ok in H as ([] & Hcheck & <-%Ok_inj). cbn [fst snd] in *.
    apply blocks_loop in Hloop as (out & Hout & E & Hnote). cbn [fst snd] in *. subst out'. split; [done|].
    pose proof (note_blocks_spec out _ H0) as Hs. rewrite Hnote in Hs. destruct Hs as (Hl & Hone & Hin).
    cbn [ln_parents] in *. assert (Hiff : forall c p, (c, p) ∈ ln_parents l <-> (c, p) ∈ edges out).
    { intros c p. rewrite Hin. split; [by intros [?%not_elem_of_nil|]|by right]. }
    split; [done|]. eapply acyclic_ext; [exact Hiff|]. apply check_parents_spec; [done| |done].
    intros c p q Hp%Hiff Hq%Hiff. by eapply Hone.
  - intros (Hout & Hone & Hac). pose proof (note_blocks_spec out _ H0) as Hs.
    destruct (foldM note_block (Lineage [] []) out) as [l|e] eqn:Hnote; [|by destruct Hs].
    destruct Hs as (Hl & _ & Hin). cbn [ln_parents] in *.
    assert (Hiff : forall c p, (c, p) ∈ edges out <-> (c, p) ∈ ln_parents l).
    { intros c p. rewrite Hin. split; [by right|by intros [?%not_elem_of_nil|]]. }
    assert (Hloop : foldM (canonical_block engine_kind) ([], Lineage [] []) blocks = Ok (out, l)).
    { apply blocks_loop. exists out. done. }
    rewrite Hloop. cbn [mbind res_bind fst snd].
    assert (Hcheck : check_parents l = Ok tt); [|by rewrite Hcheck].
    apply check_parents_spec; [done| |by eapply acyclic_ext]. intros c p q Hp%Hiff Hq%Hiff. by eapply Hone.
Qed.

(** ** Witness *)

Definition demo_fact : dict :=
  [("kind", VStr "lifecycle"); ("engineRef", VStr " a1 "); ("parentEngineRef", VStr ""); ("event", VStr "opened");
   ("engineEvent", VStr "task_started"); ("controlRef", VStr "t1"); ("operations", VList [VStr "stop"])].

Lemma child_fact_canonical_witness :
  match canonical_child_run_data demo_fact "claude" with
  | Ok d => Py.lookup "engineRef" d = Some (VStr "a1") /\ canonical_child_run_data d "claude" = Ok d
  | Raise _ => False
  end.
Proof.
  destruct (canonical_child_run_data demo_fact "claude") as [d|e] eqn:E; [|vm_compute in E; discriminate].
  destruct (child_fact_canonical _ _ _ E) as (_ & _ & H). split; [|exact H].
  vm_compute in E. injection E as <-. reflexivity.
Defined.

(** Two children that name each other as parents. *)
Example demo_cycle :
  canonicalize_child_run_blocks
    (map (fun e => [("type", VStr "subagent"); ("id", VStr (fst e));
                    ("data", VDict [("kind", VStr "message"); ("engineRef", VStr (fst e)); ("parentEngineRef", VStr (snd e)); ("content", VList [])])])
       [("a", "b"); ("b", "a")]) "claude" = Raise ChildRunProjectionError.
Proof. vm_compute. reflexivity. Qed.

End ChildFacts.
