(* ===== verification/Emissions.v ===== *)
(** [engine/frame_scope.py] and [engine/emissions.py]: what an engine adapter hands the
    platform.  A translated frame becomes exactly one emission; only its class decides
    whether a browser may see it. *)

From S2P Require Import Prelude PyVal.

Open Scope string_scope.

Module Emissions.

(** ** Who owns a frame *)

Definition FRAME_SCOPE_FIELD := "__engine_frame_scope".
Definition PUBLIC_UI_FRAME_FIELD := "__engine_public_ui".
Definition VALID_FRAME_SCOPES : list string := ["turn"; "session"].

Definition mark_engine_public_ui_frame (frame : dict) : dict := Py.set PUBLIC_UI_FRAME_FIELD (VBool true) frame.

Definition session_scoped_engine_frame (frame : dict) : dict :=
  Py.set "transient" (VBool true) (Py.set FRAME_SCOPE_FIELD (VStr "session") frame).

(** [engine_frame_scope]. *)
Definition engine_frame_scope (frame : dict) : res string :=
  let raw_scope := Py.strip (Py.str (Py.por (Py.get FRAME_SCOPE_FIELD frame) (VStr "turn"))) in
  if Py.in_strs raw_scope VALID_FRAME_SCOPES then Ok raw_scope else Raise RuntimeError.

(** [pop_engine_frame_scope]: the scope, and the frame it leaves. *)
Definition pop_engine_frame_scope (frame : dict) : res (string * dict) :=
  scope ← engine_frame_scope frame; Ok (scope, Py.pop FRAME_SCOPE_FIELD frame).

(** ** Emissions *)

Inductive turn_outcome := Completed | FailedTurn | Cancelled.

Inductive emission :=
| PublicUIFrame (frame : dict)
| InputConsumed (frame : dict) (input_id response_message_id content : string)
| InteractionRequested (frame : dict) (interaction_id : string) (contract : dict)
| ChildResourceFact (frame : dict)
| BackgroundTasksOpened (frame : dict) (manifest : dict) (manifest_id : string)
| ResponseCompleted (frame : dict) (public_data : dict)
| TurnTerminal (frame : dict) (outcome : turn_outcome) (finish_reason : string)
    (usage error : option dict) (native_reason : option string) (private_data : option dict)
    (closes_interaction : bool)
| PrivateDiagnostic (frame : dict) (event_type subtype : string) (raw : val).

(** [as_frame]. *)
Definition as_frame (e : emission) : dict :=
  match e with
  | PublicUIFrame f | InputConsumed f _ _ _ | InteractionRequested f _ _ | ChildResourceFact f
  | BackgroundTasksOpened f _ _ | ResponseCompleted f _ | TurnTerminal f _ _ _ _ _ _ _
  | PrivateDiagnostic f _ _ _ => f
  end.

Definition engine_sequence_number (e : emission) : option Z :=
  match Py.get "__engine_sequence_number" (as_frame e) with VInt z => Some z | _ => None end.

Definition engine_output_cursor (e : emission) : res (option dict) :=
  match Py.get "__engine_output_cursor" (as_frame e) with
  | VNone => Ok None
  | VDict d => Ok (Some d)
  | _ => Raise ValueError
  end.

Record session_message_fact := SessionMessageFact { sm_message_id : string; sm_content : string; sm_is_response : bool }.

(** [SessionMessageFact(..)] with its check. *)
Definition new_session_message_fact (message_id content : string) (is_response : bool) : res session_message_fact :=
  if Py.is_empty (Py.strip message_id) || Py.is_empty (Py.strip content) then Raise ValueError
  else Ok (SessionMessageFact message_id content is_response).

(** [_copied_frame]. *)
Definition copied_frame (frame : dict) : res dict :=
  let frame_type := Py.clean (Py.get "type" frame) in
  if Py.is_empty frame_type then Raise ValueError else Ok (Py.set "type" (VStr frame_type) frame).

Definition DYNAMIC_TOOL_FRAMES : list string := ["tool-input-start"; "tool-input-available"; "tool-input-error"].

(** [public_ui_frame]. *)
Definition public_ui_frame (frame : dict) : res dict :=
  copied ← copied_frame frame;
  Ok (if Py.in_strs (Py.str (Py.get "type" copied)) DYNAMIC_TOOL_FRAMES
      then Py.set "dynamic" (VBool true) copied else copied).

(** The platform's own envelope names; every other name is an adapter's public frame. *)
Inductive category :=
| CatChild | CatDiagnostic | CatInput | CatInteraction | CatTasks | CatResponse | CatTerminal | CatPublic.

Definition PLATFORM_ENVELOPE_CATEGORIES : list (string * category) :=
  [("data-raw-event", CatDiagnostic); ("data-input-consumed", CatInput); ("interaction.request", CatInteraction);
   ("background-tasks-opened", CatTasks); ("response-result", CatResponse); ("result", CatTerminal)].

Definition category_of (frame_type : string) (session_scoped : bool) : category :=
  if session_scoped then CatChild
  else match List.find (fun e => fst e =s frame_type) PLATFORM_ENVELOPE_CATEGORIES with
       | Some e => snd e
       | None => CatPublic
       end.

Definition session_scoped (frame : dict) : bool := Py.clean (Py.get FRAME_SCOPE_FIELD frame) =s "session".

Definition dict_of (v : val) : option dict := match v with VDict d => Some d | _ => None end.

(** What a terminal frame carries beside its named fields. *)
Definition private_fields (frame : dict) : dict :=
  List.filter (fun kv => negb (Py.in_strs (fst kv) ["type"; "finishReason"; "usage"; "error"]) &&
                         negb (Py.startswith "__" (fst kv))) frame.

Definition terminal_of (copied : dict) : res emission :=
  let finish_reason := Py.lower (Py.clean (Py.get "finishReason" copied)) in
  outcome ← (if finish_reason =s "stop" then Ok Completed
             else if finish_reason =s "error" then Ok FailedTurn
             else if finish_reason =s "cancelled" then Ok Cancelled
             else Raise ValueError);
  let native_reason := Py.clean (Py.get "__engine_terminal_reason" copied) in
  Ok (TurnTerminal copied outcome finish_reason (dict_of (Py.get "usage" copied)) (dict_of (Py.get "error" copied))
        (if Py.is_empty native_reason then None else Some native_reason)
        (match private_fields copied with [] => None | d => Some d end)
        (Py.is_true (Py.get "__interaction_closed" copied))).

(** [emission_from_translated_frame]. *)
Definition emission_from_translated_frame (frame : dict) : res emission :=
  copied ← copied_frame frame;
  match category_of (Py.str (Py.get "type" copied)) (session_scoped copied) with
  | CatChild => Ok (ChildResourceFact copied)
  | CatDiagnostic =>
      let data := match Py.get "data" copied with VDict d => d | _ => [] end in
      Ok (PrivateDiagnostic copied (Py.str (Py.por (Py.get "event_type" data) (VStr "engine")))
            (Py.str (Py.por (Py.get "subtype" data) (VStr "unknown"))) (Py.get "raw" data))
  | CatInput =>
      match Py.get "data" copied with
      | VDict data =>
          let input_id := Py.clean (Py.get "inputId" data) in
          let response_message_id := Py.clean (Py.get "responseMessageId" data) in
          match Py.get "content" data with
          | VStr content =>
              if Py.is_empty input_id || Py.is_empty response_message_id then Raise ValueError
              else Ok (InputConsumed copied input_id response_message_id content)
          | _ => Raise ValueError
          end
      | _ => Raise ValueError
      end
  | CatInteraction =>
      match Py.get "payload" copied with
      | VDict contract => Ok (InteractionRequested copied (Py.clean (Py.get "interactionId" copied)) contract)
      | _ => Raise ValueError
      end
  | CatTasks =>
      match Py.get "manifest" copied with
      | VDict manifest =>
          let manifest_id := Py.clean (Py.get "manifest_id" copied) in
          if Py.is_empty manifest_id then Raise ValueError
          else Ok (BackgroundTasksOpened copied manifest manifest_id)
      | _ => Raise ValueError
      end
  | CatResponse =>
      match Py.get "data" copied with
      | VDict data => Ok (ResponseCompleted copied data)
      | _ => Raise ValueError
      end
  | CatTerminal => terminal_of copied
  | CatPublic => f ← public_ui_frame copied; Ok (PublicUIFrame f)
  end.

(** ** What may reach a browser *)

Definition is_public (e : emission) : bool := match e with PublicUIFrame _ => true | _ => false end.

Definition reserved (frame_type : string) : bool := Py.in_strs frame_type (map fst PLATFORM_ENVELOPE_CATEGORIES).

(** The kind of emission each category becomes. *)
Definition of_category (c : category) (e : emission) : bool :=
  match c, e with
  | CatChild, ChildResourceFact _ | CatDiagnostic, PrivateDiagnostic _ _ _ _ | CatInput, InputConsumed _ _ _ _
  | CatInteraction, InteractionRequested _ _ _ | CatTasks, BackgroundTasksOpened _ _ _
  | CatResponse, ResponseCompleted _ _ | CatTerminal, TurnTerminal _ _ _ _ _ _ _ _
  | CatPublic, PublicUIFrame _ => true
  | _, _ => false
  end.

(** What a frame keeps whatever it becomes. *)
Definition kept_fields (frame frame' : dict) : Prop :=
  Py.get "type" frame' = VStr (Py.clean (Py.get "type" frame)) /\
  forall k, k <> "type" -> k <> "dynamic" -> Py.lookup k frame' = Py.lookup k frame.

Lemma copied_frame_ok frame copied :
  copied_frame frame = Ok copied ->
  Py.is_empty (Py.clean (Py.get "type" frame)) = false /\ kept_fields frame copied.
Proof.
  unfold copied_frame. destruct (Py.is_empty _); [done|]. intros <-%Ok_inj. split; [done|].
  split; [apply get_set_eq|]. intros k Hk _. by apply lookup_set_ne.
Qed.

Lemma kept_twice f1 f2 f3 : kept_fields f1 f2 -> kept_fields f2 f3 -> kept_fields f1 f3.
Proof.
  intros [T1 K1] [T2 K2]. split; [|intros k H1 H2; by rewrite (K2 k H1 H2), (K1 k H1 H2)].
  rewrite T2, T1, clean_str. f_equal. apply strip_idem.
Qed.

Lemma public_frame_ok frame f : public_ui_frame frame = Ok f -> kept_fields frame f.
Proof.
  unfold public_ui_frame. intros (c & Hc & <-%Ok_inj)%bind_ok. destruct (copied_frame_ok _ _ Hc) as [_ Hk].
  destruct (Py.in_strs _ _); [|done]. eapply kept_twice; [exact Hk|]. destruct Hk as [Ht _]. split.
  - rewrite get_set_ne by done. rewrite Ht, clean_str. f_equal. symmetry. apply strip_idem.
  - intros k _ Hd. by apply lookup_set_ne.
Qed.

Lemma public_frame_total frame copied : copied_frame frame = Ok copied -> exists f, public_ui_frame copied = Ok f.
Proof.
  intros H. destruct (copied_frame_ok _ _ H) as [He [Ht _]]. unfold public_ui_frame, copied_frame. rewrite Ht, clean_str.
  assert (Hs : Py.strip (Py.clean (Py.get "type" frame)) = Py.clean (Py.get "type" frame)) by apply strip_idem.
  rewrite Hs, He. by eexists.
Qed.

Lemma category_public t s : category_of t s = CatPublic <-> s = false /\ reserved t = false.
Proof.
  unfold category_of, reserved. destruct s; [split; [done|by intros [? _]]|].
  assert (Hall : Forall (fun e => snd e <> CatPublic) PLATFORM_ENVELOPE_CATEGORIES) by (by repeat constructor).
  generalize dependent PLATFORM_ENVELOPE_CATEGORIES. intros l Hall.
  induction Hall as [|[n c] l Hc _ IH]; [split; done|]. cbn [List.find map fst snd] in *.
  unfold Py.in_strs in *. cbn [existsb]. rewrite String.eqb_sym. destruct (t =s n); [|exact IH].
  split; [done|by intros [_ ?]].
Qed.

Lemma emission_kept frame e :
  emission_from_translated_frame frame = Ok e ->
  kept_fields frame (as_frame e) /\
  of_category (category_of (Py.clean (Py.get "type" frame)) (session_scoped frame)) e = true.
Proof.
  intros H. unfold emission_from_translated_frame in H. apply bind_ok in H as (copied & Hc & H).
  destruct (copied_frame_ok _ _ Hc) as [_ Hk]. pose proof Hk as [Ht Hkept].
  assert (Hs : session_scoped copied = session_scoped frame).
  { unfold session_scoped, Py.get. by rewrite (Hkept FRAME_SCOPE_FIELD) by done. }
  rewrite Ht, Hs in H. cbn [Py.str] in H.
  destruct (category_of (Py.clean (Py.get "type" frame)) (session_scoped frame)).
  - by injection H as <-.
  - by injection H as <-.
  - destruct (Py.get "data" copied) as [| | | | | |data]; try done. destruct (Py.get "content" data); try done.
    destruct (_ || _); [done|]. by injection H as <-.
  - destruct (Py.get "payload" copied); try done. by injection H as <-.
  - destruct (Py.get "manifest" copied); try done. destruct (Py.is_empty _); [done|]. by injection H as <-.
  - destruct (Py.get "data" copied); try done. by injection H as <-.
  - unfold terminal_of in H. apply bind_ok in H as (o & _ & <-%Ok_inj). done.
  - apply bind_ok in H as (f & Hf & <-%Ok_inj). split; [|done]. eapply kept_twice; [exact Hk|by apply public_frame_ok].
Qed.

(** Only what an adapter declares public is public.  A frame becomes a browser's frame
    exactly when it names a type, is not owned by a child, and its type is none of the
    platform's own envelopes; every other accepted frame becomes the one private emission
    its name says, so a diagnostic can never be shown because a vendor adds a field; and no
    frame loses a field on the way. *)
Theorem emission_public_exactly frame :
  let frame_type := Py.clean (Py.get "type" frame) in
  ((exists f, emission_from_translated_frame frame = Ok (PublicUIFrame f)) <->
     Py.is_empty frame_type = false /\ session_scoped frame = false /\ reserved frame_type = false) /\
  forall e, emission_from_translated_frame frame = Ok e ->
    kept_fields frame (as_frame e) /\ of_category (category_of frame_type (session_scoped frame)) e = true.
Proof.
  cbv zeta. split; [|apply emission_kept]. split.
  - intros (f & H). destruct (emission_kept _ _ H) as [_ Hcat].
    assert (Hp : category_of (Py.clean (Py.get "type" frame)) (session_scoped frame) = CatPublic) by (by destruct (category_of _ _)).
    apply category_public in Hp as [Hs Hr]. split; [|done]. unfold emission_from_translated_frame in H.
    apply bind_ok in H as (copied & Hc & _). by destruct (copied_frame_ok _ _ Hc).
  - intros (He & Hs & Hr). unfold emission_from_translated_frame.
    destruct (copied_frame frame) as [copied|] eqn:Hc; [|unfold copied_frame in Hc; by rewrite He in Hc].
    destruct (copied_frame_ok _ _ Hc) as [_ [Ht Hkept]]. cbn [mbind res_bind]. rewrite Ht. cbn [Py.str].
    assert (Hs' : session_scoped copied = false).
    { unfold session_scoped, Py.get in *. by rewrite (Hkept FRAME_SCOPE_FIELD) by done. }
    rewrite Hs', (proj2 (category_public _ _)) by done. destruct (public_frame_total _ _ Hc) as [f ->]. by exists f.
Qed.

(** A vendor's diagnostic that also claims to be dynamic stays private. *)
Lemma emission_public_exactly_witness :
  match emission_from_translated_frame [("type", VStr " data-raw-event "); ("dynamic", VBool true)] with
  | Ok e => is_public e = false /\ Py.lookup "x" (as_frame e) = None /\
      of_category CatDiagnostic e = true
  | Raise _ => False
  end.
Proof.
  destruct (emission_from_translated_frame [("type", VStr " data-raw-event "); ("dynamic", VBool true)]) as [e|] eqn:E;
    [|vm_compute in E; discriminate].
  destruct (proj2 (emission_public_exactly [("type", VStr " data-raw-event "); ("dynamic", VBool true)]) e E) as [[_ Hk] Hc].
  split; [|split; [|exact Hc]].
  - vm_compute in E. injection E as <-. reflexivity.
  - rewrite (Hk "x"); [reflexivity|discriminate..].
Defined.

End Emissions.
