(* ===== verification/MessageBlocks.v ===== *)
(** [tool_result_semantics.py] and [message_blocks.py]: the blocks of a projected message,
    how a tool result settles, and how a later fragment merges into what is there. *)

From S2P Require Import Prelude PyVal JsonText Reader.

Open Scope string_scope.

Module MessageBlocks.

(** ** Tool results *)

Definition TOOL_RESULT_STATE_AVAILABLE := "output-available".
Definition TOOL_RESULT_STATE_ERROR := "output-error".
Definition TOOL_RESULT_STATE_DENIED := "output-denied".
Definition TOOL_RESULT_STATES : list string :=
  [TOOL_RESULT_STATE_AVAILABLE; TOOL_RESULT_STATE_ERROR; TOOL_RESULT_STATE_DENIED].

Definition DENIED_TOOL_RESULT_MARKERS : list string :=
  ["the user doesn't want to proceed with this tool use"; "user rejected claude's plan";
   "user declined to answer questions"; "do not exit plan mode yet"; "user interrupted the session"].

(** [tool_result_state_from_content]. *)
Definition tool_result_state_from_content (content : val) (is_error : bool) : string :=
  if negb is_error then TOOL_RESULT_STATE_AVAILABLE
  else
    let normalized := Py.lower (Py.clean content) in
    if existsb (fun marker => Py.contains marker normalized) DENIED_TOOL_RESULT_MARKERS
    then TOOL_RESULT_STATE_DENIED else TOOL_RESULT_STATE_ERROR.

Definition block_type (block : dict) : string := Py.clean (Py.get "type" block).

Definition settled_state (raw_state : string) (content : val) (is_error : bool) : string :=
  if Py.in_strs raw_state TOOL_RESULT_STATES then raw_state else tool_result_state_from_content content is_error.

(** [normalize_tool_result_block]. *)
Definition normalize_tool_result_block (block : dict) : dict :=
  if negb (block_type block =s "tool_result") then block
  else
    let state := settled_state (Py.clean (Py.get "tool_result_state" block)) (Py.get "content" block)
                   (Py.is_true (Py.get "is_error" block)) in
    Py.set "is_error" (VBool (negb (state =s TOOL_RESULT_STATE_AVAILABLE)))
      (Py.set "tool_result_state" (VStr state) block).

(** [tool_result_block]. *)
Definition tool_result_block (tool_call_id : string) (content : val) (tool_result_state : option string)
  (is_error : option bool) : dict :=
  let state := settled_state (Py.strip (default "" tool_result_state)) content (default false is_error) in
  [("type", VStr "tool_result"); ("tool_use_id", VStr tool_call_id);
   ("content", VStr (match content with VDict _ | VList _ => Json.dumps_raw ", " ": " content | _ => Py.str_or_empty content end));
   ("is_error", VBool (negb (state =s TOOL_RESULT_STATE_AVAILABLE))); ("tool_result_state", VStr state)].

(** ** Blocks *)

(** [normalize_message_blocks]. *)
Definition normalize_message_blocks (value : val) : list dict :=
  match value with
  | VList items => omap (fun item => match item with VDict b => Some (normalize_tool_result_block b) | _ => None end) items
  | _ => []
  end.

(** [_block_signature]; every JSON value is serializable. *)
Definition block_signature (block : dict) : string := Json.dumps_raw "," ":" (Json.sort_keys (VDict block)).

(** [l1] lies in [l2] as a whole. *)
Definition lies_in (l1 l2 : list string) : bool :=
  (length l1 <=? length l2)%nat &&
  existsb (fun start => bool_decide (take (length l1) (drop start l2) = l1)) (seq 0 (length l2 - length l1 + 1)).

(** The longest end of [l1] that begins [l2]. *)
Definition overlap_of (l1 l2 : list string) : nat :=
  default 0%nat (List.find (fun size => bool_decide (drop (length l1 - size) l1 = take size l2))
                   (rev (seq 1 (Nat.min (length l1) (length l2))))).

Definition merge_normalized (merged new_blocks : list dict) : list dict :=
  match new_blocks, merged with
  | [], _ => merged
  | _, [] => new_blocks
  | _, _ =>
      let merged_signatures := map block_signature merged in
      let new_signatures := map block_signature new_blocks in
      if lies_in new_signatures merged_signatures then merged
      else (merged ++ drop (overlap_of merged_signatures new_signatures) new_blocks)%list
  end.

(** [merge_message_blocks]. *)
Definition merge_message_blocks (existing incoming : val) : list dict :=
  merge_normalized (normalize_message_blocks existing) (normalize_message_blocks incoming).

Definition stable_key : Type := string * string.

(** [ui_data_block_key]. *)
Definition ui_data_block_key (block : dict) : option stable_key :=
  if negb (block_type block =s "ui_data") then None
  else
    match Py.get "part" block with
    | VDict part =>
        let part_type := Py.clean (Py.get "type" part) in
        let part_id := Py.clean (Py.get "id" part) in
        if Py.startswith "data-" part_type && negb (Py.is_empty part_id)
        then Some ("ui_data", Json.dumps_raw "," ":" (VList [VStr part_type; VStr part_id])) else None
    | _ => None
    end.

Definition keyed (kind id : string) : option stable_key := if Py.is_empty id then None else Some (kind, id).

(** [_stable_block_key]. *)
Definition stable_block_key (block : dict) : option stable_key :=
  let kind := block_type block in
  if kind =s "tool_use" then keyed kind (Py.clean (Py.get "id" block))
  else if kind =s "tool_result" then keyed kind (Py.clean (Py.get "tool_use_id" block))
  else if Py.in_strs kind ["result"; "api_retry"] then Some (kind, "__single__")
  else if kind =s "ui_data" then ui_data_block_key block
  else if kind =s "raw_event" then keyed kind (Py.clean (Py.get "subtype" block))
  else None.

Definition dict_or_empty (v : val) : dict := match v with VDict d => d | _ => [] end.

(** [_merge_tool_use_block]. *)
Definition merge_tool_use_block (existing incoming : dict) : dict :=
  let merged := Py.update existing incoming in
  let existing_name := Py.clean (Py.get "name" existing) in
  let incoming_name := Py.clean (Py.get "name" incoming) in
  let named := if Py.is_empty incoming_name && negb (Py.is_empty existing_name)
               then Py.set "name" (VStr existing_name) merged else merged in
  Py.set "input" (VDict (match dict_or_empty (Py.get "input" incoming) with
                         | [] => dict_or_empty (Py.get "input" existing)
                         | d => d
                         end)) named.

(** [_merge_tool_result_block]. *)
Definition merge_tool_result_block (existing incoming : dict) : dict :=
  let merged := Py.update existing incoming in
  let content := Py.a_or (Py.str_or_empty (Py.get "content" incoming)) (Py.str_or_empty (Py.get "content" existing)) in
  let m1 := Py.set "content" (VStr content) merged in
  let m2 := if negb (Py.has "is_error" incoming) && Py.has "is_error" existing
            then Py.set "is_error" (Py.get "is_error" existing) m1 else m1 in
  normalize_tool_result_block m2.

(** [value in (None, "", {}, [])]. *)
Definition blank (v : val) : bool :=
  match v with VNone | VStr "" | VDict [] | VList [] => true | _ => false end.

Definition merge_field (merged : dict) (kv : string * val) : dict :=
  let '(key, value) := kv in
  if key =s "type" then Py.set key value merged
  else if blank value then (if Py.has key merged then merged else Py.set key value merged)
  else Py.set key value merged.

(** [_merge_result_block]. *)
Definition merge_result_block (existing incoming : dict) : dict := fold_left merge_field incoming existing.

(** The merge for a block's kind. *)
Definition merge_block (kind : string) (existing incoming : dict) : dict :=
  if kind =s "tool_use" then merge_tool_use_block existing incoming
  else if kind =s "tool_result" then merge_tool_result_block existing incoming
  else merge_result_block existing incoming.

Definition same_key (a b : option stable_key) : bool := bool_decide (a = b).

(** The existing block of a key, as [existing_by_key] has it: the last. *)
Definition block_of_key (merged : list dict) (k : stable_key) : option dict :=
  List.find (fun b => same_key (stable_block_key b) (Some k)) (rev merged).

(** One incoming block, with what is there under its key. *)
Definition resolved (merged : list dict) (block : dict) : dict :=
  match stable_block_key block with
  | Some k => match block_of_key merged k with
              | Some existing_block => merge_block (fst k) existing_block block
              | None => block
              end
  | None => block
  end.

Definition keys_of (blocks : list dict) : list stable_key := omap stable_block_key blocks.

Definition in_keys (k : option stable_key) (ks : list stable_key) : bool :=
  match k with Some k => bool_decide (k ∈ ks) | None => false end.

(** The first block of the key, replaced in place. *)
Fixpoint replace_keyed (k : stable_key) (block : dict) (merged : list dict) : option (list dict) :=
  match merged with
  | [] => None
  | b :: rest =>
      if same_key (stable_block_key b) (Some k) then Some (merge_block (fst k) b block :: rest)
      else match replace_keyed k block rest with Some r => Some (b :: r) | None => None end
  end.

Definition merge_resolved (merged new_blocks : list dict) : list dict :=
  merge_normalized
    (normalize_message_blocks (VList (map VDict
       (List.filter (fun b => negb (in_keys (stable_block_key b) (keys_of new_blocks))) merged))))
    (normalize_message_blocks (VList (map VDict (map (resolved merged) new_blocks)))).

(** [merge_projected_message_blocks]. *)
Definition merge_projected_message_blocks (existing incoming : val) : list dict :=
  let merged := normalize_message_blocks existing in
  let new_blocks := normalize_message_blocks incoming in
  match new_blocks, merged with
  | [], _ => merged
  | _, [] => new_blocks
  | [block], _ =>
      match stable_block_key block with
      | Some k => match replace_keyed k block merged with
                  | Some replaced => replaced
                  | None => merge_resolved merged new_blocks
                  end
      | None => merge_resolved merged new_blocks
      end
  | _, _ => merge_resolved merged new_blocks
  end.

(** [deduplicate_message_blocks]: one turn of its loop. *)
Record dedup := Dedup { de_uses : list string; de_results : list string; de_result : bool; de_blocks : list dict }.

Definition dedup_block (st : dedup) (block : dict) : dedup :=
  let kind := block_type block in
  let keep uses results result := Dedup uses results result (de_blocks st ++ [block])%list in
  if kind =s "result" then
    if de_result st then st else keep (de_uses st) (de_results st) true
  else if kind =s "tool_use" then
    let id := Py.clean (Py.get "id" block) in
    if negb (Py.is_empty id) && Py.in_strs id (de_uses st) then st
    else keep (if Py.is_empty id then de_uses st else id :: de_uses st) (de_results st) (de_result st)
  else if kind =s "tool_result" then
    let id := Py.clean (Py.get "tool_use_id" block) in
    if negb (Py.is_empty id) && Py.in_strs id (de_results st) then st
    else keep (de_uses st) (if Py.is_empty id then de_results st else id :: de_results st) (de_result st)
  else keep (de_uses st) (de_results st) (de_result st).

Definition deduplicate_message_blocks (blocks : list dict) : list dict :=
  de_blocks (fold_left dedup_block blocks (Dedup [] [] false [])).

(** ** A merged block keeps its key *)

Lemma lookup_update k d e :
  Py.wf_dict e -> Py.lookup k (Py.update d e) = match Py.lookup k e with Some v => Some v | None => Py.lookup k d end.
Proof.
  unfold Py.wf_dict, Py.update. revert d. induction e as [|[k' v'] e IH]; intros d Hn; [done|].
  cbn in Hn. apply NoDup_cons in Hn as [Hk Hn]. cbn [fold_left fst snd Py.lookup]. rewrite IH by done.
  destruct (k =s k') eqn:E; bool_prop.
  - subst k'. rewrite (proj2 (lookup_None_keys k e)) by done. apply lookup_set_eq.
  - by rewrite lookup_set_ne.
Qed.

Lemma blank_clean v : blank v = true -> Py.clean v = "".
Proof. by destruct v as [| | | |[|]|[|]|[|]]. Qed.

Lemma lookup_merge_result k v e b :
  Py.wf_dict b -> Py.lookup k b = Some v -> k = "type" \/ blank v = false ->
  Py.lookup k (merge_result_block e b) = Some v.
Proof.
  unfold merge_result_block, Py.wf_dict. revert e. induction b as [|[k' v'] b IH]; intros e Hn Hb Hk; [done|].
  cbn in Hn, Hb. apply NoDup_cons in Hn as [Hk' Hn]. cbn [fold_left]. destruct (k =s k') eqn:E; bool_prop; [|by apply IH].
  subst k'. injection Hb as ->. clear IH.
  assert (Hset : Py.lookup k (merge_field e (k, v)) = Some v).
  { unfold merge_field. destruct (k =s "type") eqn:Et; [apply lookup_set_eq|]. bool_prop. destruct Hk as [-> | ->]; [done|]. apply lookup_set_eq. }
  revert Hset. generalize (merge_field e (k, v)). intros d Hd. revert d Hd.
  induction b as [|[k2 v2] b IHb]; intros d Hd; [done|]. cbn in Hk', Hn. apply not_elem_of_cons in Hk' as [Hne Hk'].
  apply NoDup_cons in Hn as [_ Hn]. cbn [fold_left]. apply IHb; [done..|]. unfold merge_field.
  destruct (k2 =s "type"), (blank v2), (Py.has k2 d); rewrite ?lookup_set_ne by done; done.
Qed.

(** A block's key depends on these fields alone. *)
Definition KEY_FIELDS : list string := ["type"; "id"; "tool_use_id"; "part"; "subtype"].

Lemma stable_key_fields b b' :
  Forall (fun k => Py.get k b' = Py.get k b) KEY_FIELDS -> stable_block_key b' = stable_block_key b.
Proof.
  unfold KEY_FIELDS. rewrite !Forall_cons. intros (Ht & Hi & Hu & Hp & Hs & _).
  unfold stable_block_key, ui_data_block_key, block_type. by rewrite Ht, Hi, Hu, Hp, Hs.
Qed.

Lemma block_type_fields b b' : Py.get "type" b' = Py.get "type" b -> block_type b' = block_type b.
Proof. unfold block_type. by intros ->. Qed.

Lemma normalize_fields k b : k <> "is_error" -> k <> "tool_result_state" -> Py.get k (normalize_tool_result_block b) = Py.get k b.
Proof. intros H1 H2. unfold normalize_tool_result_block. destruct (negb _); [done|]. by rewrite !get_set_ne. Qed.

Lemma normalize_key b : stable_block_key (normalize_tool_result_block b) = stable_block_key b.
Proof. apply stable_key_fields. repeat constructor; by apply normalize_fields. Qed.

Lemma settled_state_known s c e : Py.in_strs (settled_state s c e) TOOL_RESULT_STATES = true.
Proof.
  unfold settled_state. destruct (Py.in_strs s TOOL_RESULT_STATES) eqn:E; [done|].
  unfold tool_result_state_from_content. by repeat case_match.
Qed.

Lemma known_state_strip s : Py.in_strs s TOOL_RESULT_STATES = true -> Py.strip s = s.
Proof. intros H%in_strs_true. unfold TOOL_RESULT_STATES in H. repeat (apply elem_of_cons in H as [->|H]; [done|]). by apply not_elem_of_nil in H. Qed.

Lemma normalize_idem b : normalize_tool_result_block (normalize_tool_result_block b) = normalize_tool_result_block b.
Proof.
  unfold normalize_tool_result_block at 1.
  rewrite (block_type_fields b) by (by apply normalize_fields).
  destruct (block_type b =s "tool_result") eqn:Et; [|done]. cbn [negb]. unfold normalize_tool_result_block. rewrite Et. cbn [negb].
  set (st := settled_state (Py.clean (Py.get "tool_result_state" b)) _ _).
  rewrite (get_set_ne "tool_result_state" "is_error"), get_set_eq, clean_str by done.
  assert (Hst := settled_state_known (Py.clean (Py.get "tool_result_state" b)) (Py.get "content" b) (Py.is_true (Py.get "is_error" b))).
  fold st in Hst. rewrite (known_state_strip _ Hst). unfold settled_state at 1 2. rewrite Hst.
  assert (Hsame : forall k v d, Py.lookup k d = Some v -> Py.set k v d = d).
  { intros k v d. clear. induction d as [|[k' v'] d IH]; cbn; [done|]. destruct (k =s k'); [by intros [= ->]|]. intros H. by rewrite IH. }
  rewrite (Hsame "tool_result_state") by (rewrite lookup_set_ne by done; apply lookup_set_eq).
  apply Hsame, lookup_set_eq.
Qed.

(** A merge keeps every field of the incoming block that says something. *)
Definition takes_over (b b' : dict) : Prop :=
  Forall (fun k => blank (Py.get k b) = false -> Py.get k b' = Py.get k b) KEY_FIELDS.

Lemma clean_not_blank v : Py.is_empty (Py.clean v) = false -> blank v = false.
Proof. destruct (blank v) eqn:E; [|done]. by rewrite (blank_clean _ E). Qed.

Lemma keyed_some kind id k : keyed kind id = Some k -> k = (kind, id) /\ Py.is_empty id = false.
Proof. unfold keyed. destruct (Py.is_empty id); [done|]. by intros [= <-]. Qed.

Lemma key_kept b b' k :
  stable_block_key b = Some k -> takes_over b b' -> stable_block_key b' = Some k /\ fst k = block_type b.
Proof.
  unfold takes_over, KEY_FIELDS. rewrite !Forall_cons. intros Hk (Ht & Hi & Hu & Hp & Hs & _).
  assert (Htype : Py.is_empty (block_type b) = false -> block_type b' = block_type b).
  { intros H. apply block_type_fields, Ht. by apply clean_not_blank. }
  unfold stable_block_key in *. destruct (block_type b =s "tool_use") eqn:E1; bool_prop.
  { rewrite Htype, E1 by (by rewrite E1). cbn [String.eqb]. destruct (keyed_some _ _ _ Hk) as [-> Hn].
    rewrite Hi by (by apply clean_not_blank). split; [|done]. unfold keyed. by rewrite Hn, E1. }
  destruct (block_type b =s "tool_result") eqn:E2; bool_prop.
  { rewrite Htype, E2 by (by rewrite E2). destruct (keyed_some _ _ _ Hk) as [-> Hn].
    rewrite Hu by (by apply clean_not_blank). split; [|done]. unfold keyed. by rewrite Hn, E2. }
  destruct (Py.in_strs (block_type b) ["result"; "api_retry"]) eqn:E3.
  { injection Hk as <-. apply in_strs_true in E3.
    assert (Hne : Py.is_empty (block_type b) = false)
      by (repeat (apply elem_of_cons in E3 as [->|E3]; [done|]); by apply not_elem_of_nil in E3).
    rewrite Htype by done. rewrite (proj2 (String.eqb_neq _ _) E1), (proj2 (String.eqb_neq _ _) E2).
    by rewrite (proj2 (in_strs_true _ _) E3). }
  destruct (block_type b =s "ui_data") eqn:E4; bool_prop.
  { unfold ui_data_block_key in *. rewrite Htype, E4 in * by (by rewrite E4).
    change (negb ("ui_data" =s "ui_data")) with false in *. cbv iota in *.
    destruct (Py.get "part" b) as [| | | | | |part] eqn:Ep; try done.
    rewrite Hp by (destruct part; [by vm_compute in Hk|done]).
    change ("ui_data" =s "tool_use") with false. change ("ui_data" =s "tool_result") with false.
    change (Py.in_strs "ui_data" ["result"; "api_retry"]) with false. cbv iota. split; [done|].
    destruct (_ && _); [|done]. by injection Hk as <-. }
  destruct (block_type b =s "raw_event") eqn:E5; bool_prop; [|done].
  rewrite Htype, E5 by (by rewrite E5). destruct (keyed_some _ _ _ Hk) as [-> Hn].
  rewrite Hs by (by apply clean_not_blank). split; [|done]. unfold keyed. by rewrite Hn, E5.
Qed.

Lemma update_takes_over e b k : Py.wf_dict b -> blank (Py.get k b) = false -> Py.get k (Py.update e b) = Py.get k b.
Proof.
  intros Hw Hb. unfold Py.get in *. rewrite (lookup_update _ _ _ Hw). by destruct (Py.lookup k b).
Qed.

Lemma merge_takes_over kind e b : Py.wf_dict b -> takes_over b (merge_block kind e b).
Proof.
  intros Hw. unfold merge_block, takes_over. destruct (kind =s "tool_use"); [|destruct (kind =s "tool_result")].
  - unfold merge_tool_use_block, KEY_FIELDS. repeat constructor; intros Hb; (rewrite get_set_ne by done;
      destruct (_ && _); [rewrite get_set_ne by done|]; by apply update_takes_over).
  - unfold merge_tool_result_block, KEY_FIELDS. repeat constructor; intros Hb; (rewrite normalize_fields by done;
      destruct (_ && _); [rewrite get_set_ne by done|]; rewrite get_set_ne by done; by apply update_takes_over).
  - unfold KEY_FIELDS. repeat constructor; intros Hb; (unfold Py.get in *;
      match goal with |- context [Py.lookup ?k b] => destruct (Py.lookup k b) as [v|] eqn:E end; [|done];
      erewrite lookup_merge_result; [reflexivity|done..|by right]).
Qed.

(** What a keyed block merges to. *)
Lemma merge_block_spec k e b :
  Py.wf_dict b -> stable_block_key b = Some k ->
  stable_block_key (merge_block (fst k) e b) = Some k /\
  normalize_tool_result_block (merge_block (fst k) e b) = merge_block (fst k) e b.
Proof.
  intros Hw Hk. pose proof (merge_takes_over (fst k) e b Hw) as Ht. destruct (key_kept _ _ _ Hk Ht) as [Hk' Hkind].
  split; [done|]. unfold merge_block in *. destruct (fst k =s "tool_use") eqn:E1; [|destruct (fst k =s "tool_result") eqn:E2].
  - bool_prop. assert (Hty : block_type (merge_tool_use_block e b) = "tool_use").
    { rewrite <-E1, Hkind. apply block_type_fields. unfold takes_over, KEY_FIELDS in Ht.
      apply Forall_inv in Ht. apply Ht, clean_not_blank. fold (block_type b). by rewrite <-Hkind, E1. }
    unfold normalize_tool_result_block. by rewrite Hty.
  - unfold merge_tool_result_block. apply normalize_idem.
  - unfold normalize_tool_result_block. pose proof Hk' as Hx. apply (key_kept _ (merge_result_block e b)) in Hx as [_ Hx].
    + rewrite <-Hx, E2. done.
    + unfold takes_over, KEY_FIELDS. by repeat constructor.
Qed.

(** ** Merging loses nothing *)

Lemma lies_in_true l1 l2 s : lies_in l1 l2 = true -> s ∈ l1 -> s ∈ l2.
Proof.
  unfold lies_in. intros [_ H]%andb_true_iff Hs. apply existsb_exists in H as (start & _ & E%bool_decide_eq_true).
  rewrite <-E in Hs. eapply elem_of_submseteq; [exact Hs|]. apply sublist_submseteq.
  etrans; [apply sublist_take|apply sublist_drop].
Qed.

Lemma overlap_of_spec l1 l2 s : s ∈ take (overlap_of l1 l2) l2 -> s ∈ l1.
Proof.
  unfold overlap_of. destruct (List.find _ _) as [n|] eqn:E; cbn [default]; [|by intros ?%not_elem_of_nil].
  apply List.find_some in E as [_ E%bool_decide_eq_true]. intros H.
  change (s ∈ take n l2) in H. rewrite <-E in H. eapply elem_of_submseteq; [exact H|]. apply sublist_submseteq, sublist_drop.
Qed.

Lemma merge_normalized_spec M N :
  exists n, (merge_normalized M N = (M ++ drop n N)%list) /\
    forall b, b ∈ N -> exists r, r ∈ merge_normalized M N /\ block_signature r = block_signature b.
Proof.
  unfold merge_normalized. destruct N as [|b0 N]; [exists 0%nat; split; [by rewrite app_nil_r|by intros ? ?%not_elem_of_nil]|].
  destruct M as [|m0 M]; [exists 0%nat; split; [done|by eauto]|].
  set (M' := m0 :: M). set (N' := b0 :: N).
  assert (Hsig : forall b, block_signature b ∈ map block_signature M' -> exists r, r ∈ M' /\ block_signature r = block_signature b).
  { intros b (r & E & Hr)%list_elem_of_fmap. by exists r. }
  destruct (lies_in _ _) eqn:El.
  - exists (length N'). rewrite drop_all, app_nil_r. split; [done|]. intros b Hb. apply Hsig.
    eapply lies_in_true; [exact El|]. by apply list_elem_of_fmap_2.
  - set (n := overlap_of _ _). exists n. split; [done|]. intros b Hb. rewrite <-(take_drop n N') in Hb.
    apply elem_of_app in Hb as [Hb|Hb].
    + destruct (Hsig b) as (r & Hr & E); [|exists r; split; [apply elem_of_app; by left|done]].
      apply (overlap_of_spec _ (map block_signature N')). fold n. rewrite <-fmap_take. by apply list_elem_of_fmap_2.
    + exists b. split; [apply elem_of_app; by right|done].
Qed.
Lemma normalize_dicts l : normalize_message_blocks (VList (map VDict l)) = map normalize_tool_result_block l.
Proof. unfold normalize_message_blocks. induction l as [|b l IH]; [done|]. cbn. by rewrite IH. Qed.

Definition normalized (b : dict) : Prop := normalize_tool_result_block b = b.

Lemma normalized_blocks v : Forall normalized (normalize_message_blocks v).
Proof.
  destruct v as [| | | | |l|]; try constructor. cbn. apply Forall_forall. intros b (item & _ & H)%list_elem_of_omap.
  destruct item; try done. injection H as <-. apply normalize_idem.
Qed.

Lemma map_normalized l : Forall normalized l -> map normalize_tool_result_block l = l.
Proof. induction 1 as [|b l Hb _ IH]; [done|]. cbn. by rewrite Hb, IH. Qed.

Lemma block_of_key_some M k e : block_of_key M k = Some e -> e ∈ M /\ stable_block_key e = Some k.
Proof.
  unfold block_of_key. intros [Hin Hk]%List.find_some. split; [by apply list_elem_of_In, in_rev|].
  by apply bool_decide_eq_true in Hk.
Qed.

Lemma block_of_key_none M k e : block_of_key M k = None -> e ∈ M -> stable_block_key e <> Some k.
Proof.
  unfold block_of_key. intros H He E. apply list_elem_of_In, in_rev in He. pose proof (List.find_none _ _ H _ He) as Hn.
  unfold same_key in Hn. by apply bool_decide_eq_false in Hn.
Qed.

Lemma key_unique M k x y :
  NoDup (keys_of M) -> x ∈ M -> y ∈ M -> stable_block_key x = Some k -> stable_block_key y = Some k -> x = y.
Proof.
  unfold keys_of. induction M as [|b M IH]; intros Hn Hx Hy Ex Ey; [by apply not_elem_of_nil in Hx|]. cbn in Hn.
  assert (Hhead : forall z, z ∈ M -> stable_block_key z = Some k -> stable_block_key b <> Some k).
  { intros z Hz Ez Eb. rewrite Eb in Hn. apply NoDup_cons in Hn as [Hn _]. apply Hn. apply list_elem_of_omap. by exists z. }
  apply elem_of_cons in Hx as [->|Hx]; apply elem_of_cons in Hy as [->|Hy]; [done|by edestruct Hhead..|].
  apply IH; try done. destruct (stable_block_key b); [by apply NoDup_cons in Hn as [_ Hn]|done].
Qed.

Lemma resolved_spec M b :
  Py.wf_dict b -> normalized b -> stable_block_key (resolved M b) = stable_block_key b /\ normalized (resolved M b).
Proof.
  intros Hw Hn. unfold resolved. destruct (stable_block_key b) as [k|] eqn:Ek; [|done].
  destruct (block_of_key M k) as [e|]; [|done]. by apply merge_block_spec.
Qed.

Lemma replace_keyed_spec k b M R :
  replace_keyed k b M = Some R ->
  exists l e r, M = (l ++ e :: r)%list /\ R = (l ++ merge_block (fst k) e b :: r)%list /\ stable_block_key e = Some k.
Proof.
  revert R. induction M as [|m M IH]; intros R H; [done|]. cbn in H. destruct (same_key _ _) eqn:E.
  - injection H as <-. apply bool_decide_eq_true in E. by exists [], m, M.
  - destruct (replace_keyed k b M) as [R'|]; [|done]. injection H as <-. destruct (IH _ eq_refl) as (l & e & r & -> & -> & Hk).
    by exists (m :: l), e, r.
Qed.

(** A block without an identity. *)
Definition keyless (b : dict) : bool := match stable_block_key b with None => true | Some _ => false end.

(** What a merge owes its two sides. *)
Record merges (M N R : list dict) : Prop := {
  mg_unkeyed : List.filter keyless M `sublist_of` R;
  mg_incoming : forall b, b ∈ N -> exists r, r ∈ R /\ block_signature r = block_signature (resolved M b);
  mg_existing : forall b, b ∈ M -> in_keys (stable_block_key b) (keys_of N) = false -> b ∈ R;
  mg_once : NoDup (keys_of R)
}.

Lemma keys_of_app l r : keys_of (l ++ r) = (keys_of l ++ keys_of r)%list.
Proof. apply omap_app. Qed.

Lemma keys_of_sublist l r : l `sublist_of` r -> keys_of l `sublist_of` keys_of r.
Proof.
  unfold keys_of. induction 1 as [|x l r H IH|x l r H IH]; cbn; [constructor|..];
    (destruct (stable_block_key x); [|done]); [by apply sublist_skip|by apply sublist_cons].
Qed.

Lemma merge_resolved_ok M N :
  Forall normalized M -> Forall normalized N -> Forall Py.wf_dict N -> NoDup (keys_of M) -> NoDup (keys_of N) ->
  merges M N (merge_resolved M N).
Proof.
  intros HM HN Hw Hkm Hkn. unfold merge_resolved. rewrite !normalize_dicts.
  set (F := List.filter (fun b => negb (in_keys (stable_block_key b) (keys_of N))) M).
  assert (HF : F `sublist_of` M) by apply list_filter_sublist.
  rewrite (map_normalized F).
  2:{ apply Forall_forall. intros b Hb. rewrite Forall_forall in HM. apply HM. eapply elem_of_submseteq; [exact Hb|by apply sublist_submseteq]. }
  assert (HR : Forall2 (fun b r => r = resolved M b /\ stable_block_key r = stable_block_key b /\ normalized r) N (map (resolved M) N)).
  { clear -HN Hw. induction HN as [|b N Hb _ IH]; [constructor|]. apply Forall_cons in Hw as [Hwb Hw]. cbn. constructor; [|by apply IH].
    split; [done|]. by apply resolved_spec. }
  assert (HRn : Forall normalized (map (resolved M) N)) by (clear -HR; induction HR as [|b r N l (_ & _ & Hn) _ IH]; by constructor).
  rewrite (map_normalized _ HRn).
  assert (Hkeys : keys_of (map (resolved M) N) = keys_of N).
  { clear -HR. unfold keys_of. induction HR as [|b r N l (_ & Hk & _) _ IH]; [done|]. cbn. by rewrite Hk, IH. }
  destruct (merge_normalized_spec F (map (resolved M) N)) as (n & E & Hsig). split.
  - rewrite E. apply sublist_inserts_r. unfold F. clear. induction M as [|b M IH]; [constructor|]. cbn [List.filter].
    unfold keyless at 1. destruct (stable_block_key b) as [k|]; cbn [negb in_keys]; [|by constructor].
    destruct (bool_decide _); [done|by apply sublist_cons].
  - intros b Hb. destruct (Hsig (resolved M b)) as (r & Hr & Es); [by apply list_elem_of_fmap_2|]. by exists r.
  - intros b Hb Hk. rewrite E. apply elem_of_app. left. apply list_elem_of_In, List.filter_In. split; [by apply list_elem_of_In|by rewrite Hk].
  - rewrite E, keys_of_app. apply NoDup_app. split; [by eapply sublist_NoDup, keys_of_sublist, HF|]. split.
    + intros k HkF HkN. assert (Hin : k ∈ keys_of N).
      { rewrite <-Hkeys. eapply elem_of_submseteq; [exact HkN|]. apply sublist_submseteq, keys_of_sublist, sublist_drop. }
      apply list_elem_of_omap in HkF as (b & Hb & Ek). apply list_elem_of_In, List.filter_In in Hb as [_ Hb].
      rewrite Ek in Hb. unfold in_keys in Hb. by rewrite bool_decide_eq_true_2 in Hb.
    + eapply sublist_NoDup, keys_of_sublist, sublist_drop. by rewrite Hkeys.
Qed.

(** Merging a fragment of a message loses nothing.  Every block of the message without
    an identity stays, in order; a block with one stays unless the fragment has the same
    identity, and then what the two merge to is there, as is every other block of the
    fragment; and no identity appears twice. *)
Theorem projected_merge_loses_nothing existing incoming :
  let M := normalize_message_blocks existing in
  let N := normalize_message_blocks incoming in
  NoDup (keys_of M) -> NoDup (keys_of N) -> Forall Py.wf_dict N ->
  merges M N (merge_projected_message_blocks existing incoming).
Proof.
  cbv zeta. unfold merge_projected_message_blocks. pose proof (normalized_blocks existing) as HM.
  pose proof (normalized_blocks incoming) as HN.
  generalize dependent (normalize_message_blocks existing). generalize dependent (normalize_message_blocks incoming).
  intros N HN M HM Hkm Hkn Hw. pose proof (merge_resolved_ok M N HM HN Hw Hkm Hkn) as Hres.
  destruct N as [|b N].
  { split; [apply list_filter_sublist|by intros ? ?%not_elem_of_nil|done|done]. }
  destruct M as [|m M].
  { replace (match N with [] | _ => b :: N end) with (b :: N) by (by destruct N).
    split; [apply sublist_nil_l| |by intros ? ?%not_elem_of_nil|done]. intros b' Hb'. exists b'. split; [done|].
    unfold resolved. by destruct (stable_block_key b'). }
  destruct N as [|b2 N]; [|exact Hres]. destruct (stable_block_key b) as [k|] eqn:Ek; [|exact Hres].
  destruct (replace_keyed k b (m :: M)) as [R|] eqn:Er; [|exact Hres].
  apply replace_keyed_spec in Er as (l & e & r & EM & -> & Ee). rewrite EM in *. apply Forall_inv in Hw.
  destruct (merge_block_spec k e b Hw Ek) as [Hmk Hmn].
  assert (Hkeys : keys_of (l ++ merge_block (fst k) e b :: r) = keys_of (l ++ e :: r)).
  { rewrite !keys_of_app. unfold keys_of. cbn. by rewrite Hmk, Ee. }
  assert (He : e ∈ (l ++ e :: r)%list) by (apply elem_of_app; right; left).
  split.
  - clear Hres Hkeys EM HM Hkm. rewrite List.filter_app. cbn [List.filter]. unfold keyless at 2. rewrite Ee.
    apply sublist_app; [apply list_filter_sublist|]. apply sublist_cons, list_filter_sublist.
  - intros b' ->%list_elem_of_singleton. exists (merge_block (fst k) e b). split; [set_solver|]. unfold resolved. rewrite Ek.
    destruct (block_of_key (l ++ e :: r) k) as [e'|] eqn:Eb.
    + apply block_of_key_some in Eb as [Hin Ee']. by rewrite (key_unique _ _ _ _ Hkm Hin He Ee' Ee).
    + by destruct (block_of_key_none _ _ e Eb He).
  - intros b' Hb' Hk. assert (Hne : b' <> e).
    { intros ->. rewrite Ee in Hk. unfold keys_of, in_keys in Hk. cbn in Hk. rewrite Ek in Hk. apply bool_decide_eq_false in Hk. set_solver. }
    set_solver.
  - by rewrite Hkeys.
Qed.

(** A fragment of two blocks moves what it upgrades, and arriving again repeats its text:
    only a single block is merged in place. *)
Example fragment_repeats :
  let use := [("type", VStr "tool_use"); ("id", VStr "t1"); ("input", VDict [])] in
  let text := [("type", VStr "text"); ("text", VStr "hi")] in
  let once := merge_projected_message_blocks (VList [VDict [("type", VStr "text"); ("text", VStr "go")]]) (VList [VDict use; VDict text]) in
  map block_type once = ["text"; "tool_use"; "text"] /\
  map block_type (merge_projected_message_blocks (VList (map VDict once)) (VList [VDict use; VDict text])) =
    ["text"; "text"; "tool_use"; "text"].
Proof. vm_compute. done. Qed.

Lemma projected_merge_loses_nothing_witness :
  let use := fun input => VDict [("type", VStr "tool_use"); ("id", VStr "t1"); ("input", VDict input)] in
  let M := VList [use []; VDict [("type", VStr "text"); ("text", VStr "hi")]] in
  let N := VList [use [("command", VStr "ls")]] in
  NoDup (keys_of (merge_projected_message_blocks M N)) /\ length (merge_projected_message_blocks M N) = 2%nat.
Proof.
  cbv zeta. split; [|vm_compute; reflexivity]. refine (mg_once _ _ _ (projected_merge_loses_nothing _ _ _ _ _)).
  - apply (bool_decide_unpack _). vm_compute. exact I.
  - apply (bool_decide_unpack _). vm_compute. exact I.
  - apply (bool_decide_unpack _). vm_compute. exact I.
Defined.

End MessageBlocks.
