(* ===== verification/ChildRuns.v ===== *)
(** [session_runtime/child_runs.py]: a session's sub-agents, folded from the output log into
    one entry per child, parents before their children.  An entry is the dict the code
    keeps, private keys and all.  What an engine says of its own facts comes through the
    interface [Engines]. *)

From stdpp Require Import sorting relations.
From S2P Require Import Prelude PyVal JsonText Reader ChildFacts Emissions MessageBlocks.

Open Scope string_scope.

Module ChildRuns.
Import ChildFacts Emissions MessageBlocks.

(** ** Engines *)

(** The adapter methods child runs are read through; the optional ones are the protocols an
    adapter may implement. *)
Record adapter := Adapter {
  ad_content : list val -> res (list val);
  ad_is_active : dict -> res bool;
  ad_reopens : dict -> bool;
  ad_stored_runs : option (list dict -> res (list emission));
  ad_stored_transcript : option (string -> bool -> dict -> list dict -> res (list emission));
  ad_stored_results : option (string -> list dict -> list dict -> res (list dict))
}.

(** [_REGISTRY]. *)
Class Engines := engine_adapter : string -> option adapter.

(** [get_engine_adapter]. *)
Definition get_engine_adapter `{Engines} (engine_kind : string) : res adapter :=
  match engine_adapter engine_kind with Some a => Ok a | None => Raise KeyError end.

(** The base adapter's [canonical_child_message_content] and [child_run_fact_reopens]. *)
Definition base_content (content : list val) : res (list val) := Ok content.
Definition base_reopens (data : dict) : bool := true.

(** Claude Code's [child_run_fact_reopens]. *)
Definition claude_reopens (data : dict) : bool :=
  let engine_event := clean_of "engineEvent" data in
  if engine_event =s "task_progress" then false
  else if engine_event =s "task_updated" then negb (Py.is_empty (clean_of "engineStatus" data))
  else true.

(** The DeepSeek harness's [child_run_is_active]. *)
Definition deepseek_is_active (child_run : dict) : res bool :=
  if Py.is_true (Py.get "closed" child_run) then Ok false
  else
    match Py.get "engine_status" child_run with
    | VStr activity =>
        if Py.in_strs activity ["running"; "inactive"] then Ok (activity =s "running")
        else Raise ChildRunProjectionError
    | VList _ | VDict _ => Raise TypeError
    | _ => Raise ChildRunProjectionError
    end.

(** ** One child's entry *)

(** [_new_entry]. *)
Definition new_entry (child_run_id engine_kind engine_ref : string) (order : Z) : dict :=
  [("child_run_id", VStr child_run_id); ("engine_kind", VStr engine_kind); ("depth", VInt 1);
   ("closed", VBool false); ("operations", VList []); ("tool_call_ids", VList []); ("messages", VList []);
   ("_engine_ref", VStr engine_ref); ("_message_indexes", VDict []); ("_first_seen", VInt order)].

(** [str(entry.get(key) or "")]. *)
Definition word_of (key : string) (entry : dict) : string := Py.str_or_empty (Py.get key entry).

(** [_apply_parent]. *)
Definition apply_parent (entry : dict) (parent_child_run_id : string) : res dict :=
  if Py.is_empty parent_child_run_id then Ok entry
  else
    _ ← refuse (parent_child_run_id =s Py.str (Py.get "child_run_id" entry));
    let existing := word_of "parent_child_run_id" entry in
    _ ← refuse (negb (Py.is_empty existing) && negb (existing =s parent_child_run_id));
    Ok (Py.set "parent_child_run_id" (VStr parent_child_run_id) entry).

Definition list_of (v : val) : list val := match v with VList l => l | _ => [] end.

(** [entry["tool_call_ids"].append(..)] unless it is there. *)
Definition note_tool_call (data entry : dict) : dict :=
  match Py.get "toolCallId" data with
  | VStr ((String _ _) as id) =>
      let ids := list_of (Py.get "tool_call_ids" entry) in
      if existsb (Py.eqb (VStr id)) ids then entry
      else Py.set "tool_call_ids" (VList (ids ++ [VStr id])) entry
  | _ => entry
  end.

Definition note_control (data entry : dict) : res dict :=
  let control_ref := clean_of "controlRef" data in
  if Py.is_empty control_ref then Ok entry
  else
    let existing := word_of "_control_ref" entry in
    _ ← refuse (negb (Py.is_empty existing) && negb (existing =s control_ref));
    Ok (Py.set "_control_ref" (VStr control_ref) entry).

Definition SHOWN_WORDS : list (string * string) :=
  [("description", "description"); ("taskType", "task_type"); ("lastToolName", "last_tool_name");
   ("summary", "summary"); ("model", "model")].

Definition note_word (data entry : dict) (names : string * string) : dict :=
  match Py.get (fst names) data with
  | VStr s => if Py.is_empty (Py.strip s) then entry else Py.set (snd names) (VStr (Py.strip s)) entry
  | _ => entry
  end.

Definition note_usage (data entry : dict) : dict :=
  match Py.get "usage" data with
  | VDict usage =>
      let before := match Py.get "usage" entry with VDict u => u | _ => [] end in
      Py.set "usage" (VDict (Py.update before usage)) entry
  | _ => entry
  end.

(** [if source in data: entry[target] = str(data[source])]. *)
Definition copy_word (data entry : dict) (names : string * string) : dict :=
  match Py.lookup (fst names) data with
  | Some v => Py.set (snd names) (VStr (Py.str v)) entry
  | None => entry
  end.

(** [dict(data["nativeState"])]. *)
Definition note_native_state (data entry : dict) : res dict :=
  match Py.lookup "nativeState" data with
  | None => Ok entry
  | Some (VDict d) => Ok (Py.set "_native_state" (VDict d) entry)
  | Some _ => Raise TypeError
  end.

Definition closed (entry : dict) : bool := Py.truthy (Py.get "closed" entry).

(** The rest of [_apply_lifecycle], once the fact counts. *)
Definition take_lifecycle (event : string) (data entry : dict) : res dict :=
  e1 ← apply_parent entry (word_of "parentChildRunId" data);
  e2 ← note_control data (note_tool_call data e1);
  let e3 := note_usage data (fold_left (note_word data) SHOWN_WORDS e2) in
  let e4 := if event =s "opened" then Py.pop "engine_reason" (Py.pop "engine_status" e3) else e3 in
  let e5 := if closed e4 && negb (event =s "closed") then Py.set "closed" (VBool false) e4 else e4 in
  let e6 := copy_word data e5 ("engineEvent", "engine_event") in
  e7 ← note_native_state data e6;
  let e8 := fold_left (copy_word data) [("engineStatus", "engine_status"); ("engineReason", "engine_reason")] e7 in
  let e9 := Py.set "operations" (VList (list_of (Py.get "operations" data))) e8 in
  Ok (if event =s "closed" then Py.set "closed" (VBool true) e9 else e9).

(** [_apply_lifecycle]. *)
Definition apply_lifecycle `{Engines} (entry data : dict) : res dict :=
  let event := Py.str (Py.get "event" data) in
  ignored ← (if closed entry && negb (event =s "closed")
             then a ← get_engine_adapter (Py.str (Py.get "engine_kind" entry)); Ok (negb (ad_reopens a data))
             else Ok false);
  if ignored : bool then Ok entry else take_lifecycle event data entry.

(** The blocks of a new message: dicts, copied. *)
Definition dict_blocks (content : val) : list val :=
  List.filter (fun b => Py.is_dict b) (list_of content).

Definition message_key (data : dict) (block_id : string) : string :=
  let message_ref := clean_of "messageId" data in
  if Py.is_empty message_ref
  then "block:" ++ block_id ++ ":" ++ Json.compact (Json.sort_keys (VDict data))
  else "message:" ++ message_ref.

Definition message_indexes (entry : dict) : dict :=
  match Py.get "_message_indexes" entry with VDict d => d | _ => [] end.

(** One message with a further fragment. *)
Definition extend_message (role : string) (content existing : val) : res val :=
  match existing with
  | VDict m =>
      _ ← refuse (negb (Py.eqb (Py.get "role" m) (VStr role)));
      Ok (VDict (Py.set "content" (VList (map VDict (merge_projected_message_blocks (Py.get "content" m) content))) m))
  | _ => Raise TypeError
  end.

(** [_apply_message]. *)
Definition apply_message (entry data : dict) (block_id public_message_id : string) : res dict :=
  e1 ← apply_parent entry (word_of "parentChildRunId" data);
  let role := word_of "role" data in
  let content := Py.get "content" data in
  _ ← refuse (negb (Py.in_strs role ["assistant"; "user"]) || negb (Py.is_list content));
  let key := message_key data block_id in
  let messages := list_of (Py.get "messages" e1) in
  match Py.get key (message_indexes e1) with
  | VInt i =>
      match messages !! Z.to_nat i with
      | Some existing =>
          m ← extend_message role content existing;
          Ok (Py.set "messages" (VList (<[Z.to_nat i := m]> messages)) e1)
      | None => Raise IndexError
      end
  | _ =>
      let e2 := Py.set "_message_indexes" (VDict (Py.set key (VInt (Z.of_nat (length messages))) (message_indexes e1))) e1 in
      Ok (Py.set "messages" (VList (messages ++
            [VDict [("role", VStr role); ("content", VList (dict_blocks content)); ("message_id", VStr public_message_id)]])) e2)
  end.

(** ** The tree *)

Definition id_of (entry : dict) : string := Py.str (Py.get "child_run_id" entry).
Definition parent_id (entry : dict) : string := word_of "parent_child_run_id" entry.
Definition first_seen (entry : dict) : Z := match Py.get "_first_seen" entry with VInt z => z | _ => 0%Z end.

Definition seen_le (a b : dict) : Prop := (first_seen a <= first_seen b)%Z.
#[export] Instance seen_le_dec a b : Decision (seen_le a b).
Proof. unfold seen_le. apply _. Defined.

Definition is_root (entries : list (string * dict)) (entry : dict) : bool :=
  Py.is_empty (parent_id entry) || negb (Py.in_strs (parent_id entry) (map fst entries)).

(** [roots] and [children[parent]], sorted as they are walked. *)
Definition roots_of (entries : list (string * dict)) : list dict :=
  merge_sort seen_le (List.filter (is_root entries) (map snd entries)).
Definition children_of (entries : list (string * dict)) (parent : string) : list dict :=
  merge_sort seen_le (List.filter (fun e => negb (is_root entries e) && (parent_id e =s parent)) (map snd entries)).

(** [ordered] and [visited]. *)
Record walk_state := Walk { wk_ordered : list dict; wk_visited : list string }.

(** [visit]; [fuel] bounds the nesting. *)
Fixpoint visit (fuel : nat) (entries : list (string * dict)) (st : walk_state) (entry : dict) (depth : Z)
  (ancestors : list string) : res walk_state :=
  match fuel with
  | O => Raise RuntimeError
  | S fuel' =>
      let child_run_id := id_of entry in
      _ ← refuse (Py.in_strs child_run_id ancestors);
      if Py.in_strs child_run_id (wk_visited st) then Ok st
      else
        foldM (fun st child => visit fuel' entries st child (depth + 1) (child_run_id :: ancestors))
          (Walk (wk_ordered st ++ [Py.set "depth" (VInt depth) entry])%list (child_run_id :: wk_visited st))
          (children_of entries child_run_id)
  end.

(** [_tree_order]. *)
Definition tree_order (entries : list (string * dict)) : res (list dict) :=
  let fuel := S (length entries) in
  st ← foldM (fun st root => visit fuel entries st root 1 []) (Walk [] []) (roots_of entries);
  st ← foldM (fun st entry => if Py.in_strs (id_of entry) (wk_visited st) then Ok st
                              else visit fuel entries st entry 1 [])
         st (merge_sort seen_le (map snd entries));
  Ok (wk_ordered st).

(** ** The fold *)

Section Runs.
Context `{Engines}.
Variable session_id : string.

Record fold_runs := FoldRuns { fr_entries : list (string * dict); fr_signatures : list (string * string) }.

(** A part's fact: [None] where it repeats one already folded. *)
Definition part_fact (with_messages : bool) (signatures : list (string * string)) (part : dict)
  : res (option (string * string * string * dict)) :=
  let block_id := clean_of "id" part in
  match Py.get "data" part with
  | VDict raw0 =>
      if Py.is_empty block_id then Raise ChildRunProjectionError
      else
        let raw := if negb with_messages && Py.eqb (Py.get "kind" raw0) (VStr "message")
                   then Py.set "content" (VList []) raw0 else raw0 in
        let engine_kind := clean_of "engineKind" raw in
        data0 ← canonical_child_run_data raw engine_kind;
        data ← (if Py.eqb (Py.get "kind" data0) (VStr "message") && with_messages
                then a ← get_engine_adapter engine_kind;
                     content ← ad_content a (list_of (Py.get "content" data0));
                     Ok (Py.set "content" (VList content) data0)
                else Ok data0);
        let signature := Json.compact (Json.sort_keys (VDict data)) in
        match Reader.assoc block_id signatures with
        | Some previous => _ ← refuse (negb (previous =s signature)); Ok None
        | None => Ok (Some (block_id, engine_kind, signature, data))
        end
  | _ => Raise ChildRunProjectionError
  end.

(** [data["parentChildRunId"] = ..]. *)
Definition name_parent (engine_kind : string) (data : dict) : res dict :=
  let parent_ref := word_of "parentEngineRef" data in
  if Py.is_empty parent_ref then Ok data
  else p ← public_child_run_id session_id engine_kind parent_ref; Ok (Py.set "parentChildRunId" (VStr p) data).

(** What a fact does to its child's entry. *)
Definition apply_fact (with_messages : bool) (engine_kind block_id : string) (data entry : dict) : res dict :=
  if Py.eqb (Py.get "kind" data) (VStr "lifecycle") then apply_lifecycle entry data
  else if with_messages then
    let message_ref := clean_of "messageId" data in
    public_message_id ← public_child_message_id session_id engine_kind (Py.str (Py.get "engineRef" data))
                          (Py.a_or message_ref block_id);
    apply_message entry data block_id public_message_id
  else apply_parent entry (word_of "parentChildRunId" data).

(** [entries[id] = entry]: in place, or a new child at the end. *)
Fixpoint put_entry (id : string) (entry : dict) (entries : list (string * dict)) : list (string * dict) :=
  match entries with
  | [] => [(id, entry)]
  | (id', e) :: rest => if id' =s id then (id, entry) :: rest else (id', e) :: put_entry id entry rest
  end.

(** The child's entry, new or as it is. *)
Definition entry_for (entries : list (string * dict)) (child_run_id engine_kind engine_ref : string) (order : Z) : res dict :=
  match Reader.assoc child_run_id entries with
  | None => Ok (new_entry child_run_id engine_kind engine_ref order)
  | Some entry =>
      _ ← refuse (negb (Py.eqb (Py.get "engine_kind" entry) (VStr engine_kind)) ||
                  negb (Py.eqb (Py.get "_engine_ref" entry) (VStr engine_ref)));
      Ok entry
  end.

(** One turn of the loop over the parts. *)
Definition fold_part (with_messages : bool) (st : fold_runs) (ordered : Z * dict) : res fold_runs :=
  let '(order, part) := ordered in
  fact ← part_fact with_messages (fr_signatures st) part;
  match fact with
  | None => Ok st
  | Some (block_id, engine_kind, signature, data0) =>
      let engine_ref := Py.str (Py.get "engineRef" data0) in
      child_run_id ← public_child_run_id session_id engine_kind engine_ref;
      data ← name_parent engine_kind data0;
      entry ← entry_for (fr_entries st) child_run_id engine_kind engine_ref order;
      entry' ← apply_fact with_messages engine_kind block_id data entry;
      Ok (FoldRuns (put_entry child_run_id entry' (fr_entries st)) (fr_signatures st ++ [(block_id, signature)])%list)
  end.

(** A child must have been reported, not only have spoken. *)
Definition reported (entry : dict) : bool :=
  negb (Py.is_empty (clean_of "engine_event" entry)) || Py.truthy (Py.get "_native_state" entry).

Definition fold_parts_loop (with_messages : bool) (parts : list dict) : res fold_runs :=
  foldM (fold_part with_messages) (FoldRuns [] []) (imap (fun i p => (Z.of_nat i, p)) parts).

(** [fold_child_runs]. *)
Definition fold_child_runs (parts : list dict) (with_messages : bool) : res (list dict) :=
  st ← fold_parts_loop with_messages parts;
  ordered ← tree_order (fr_entries st);
  _ ← refuse (negb (forallb reported ordered));
  Ok ordered.

(** ** Reads *)

(** [public_child_run]. *)
Definition public_child_run (entry : dict) : res dict :=
  let public := List.filter (fun kv => negb (Py.startswith "_" (fst kv)) && negb (fst kv =s "messages")) entry in
  a ← get_engine_adapter (Py.str (Py.get "engine_kind" entry));
  active ← ad_is_active a (match Py.lookup "_native_state" entry with
                           | Some v => Py.set "_native_state" v public
                           | None => public
                           end);
  let with_active := Py.set "active" (VBool active) public in
  Ok (if Py.has "engine_event" with_active then with_active else Py.set "engine_event" VNone with_active).

(** [dict(frame["data"])]. *)
Definition dict_arg (v : val) : res dict :=
  match v with
  | VDict d => Ok d
  | VStr "" | VList [] => Ok []
  | VStr _ => Raise ValueError
  | _ => Raise TypeError
  end.

(** A fact an engine's own registry keeps, as a part to fold. *)
Definition stored_part (known : list string) (engine_kind : string) (fact : emission) : res (option dict) :=
  popped ← pop_engine_frame_scope (as_frame fact);
  let '(scope, frame) := popped in
  _ ← refuse (negb (scope =s "session") || negb (Py.eqb (Py.get "type" frame) (VStr "data-subagent")));
  frame_data ← Py.item "data" frame;
  raw ← dict_arg frame_data;
  data ← canonical_child_run_data raw engine_kind;
  _ ← refuse (negb (Py.eqb (Py.get "kind" data) (VStr "lifecycle")));
  child_id ← public_child_run_id session_id engine_kind (Py.str (Py.get "engineRef" data));
  if Py.in_strs child_id known then Ok None
  else id ← Py.item "id" frame; Ok (Some [("id", id); ("data", VDict data)]).

(** The children an engine's registry knows beside those streamed. *)
Definition stored_parts (stored_scopes : string -> list dict) (known : list string) (engine_kind : string) : res (list dict) :=
  a ← get_engine_adapter engine_kind;
  match ad_stored_runs a with
  | None => Ok []
  | Some facts_of =>
      facts ← facts_of (stored_scopes engine_kind);
      found ← mapM_res (stored_part known engine_kind) facts;
      Ok (omap id found)
  end.

(** [dict.fromkeys(l)]: each once, at its first place. *)
Definition from_keys (l : list string) : list string := rev (remove_dups (rev l)).

(** [_child_run_entries]: [parts] is what [child_run_parts] reads and [stored_scopes] what
    the transcript repository keeps for an engine. *)
Definition child_run_entries (parts : list dict) (stored_scopes : string -> list dict) : res (list dict) :=
  entries ← fold_child_runs parts false;
  let known := map id_of entries in
  more ← mapM_res (stored_parts stored_scopes known)
           (from_keys (map (fun e => Py.str (Py.get "engine_kind" e)) entries));
  fold_child_runs (parts ++ concat more)%list false.

(** [list_child_runs]. *)
Definition list_child_runs (parts : list dict) (stored_scopes : string -> list dict) : res (list dict) :=
  entries ← child_run_entries parts stored_scopes; mapM_res public_child_run entries.

(** [find_child_run]. *)
Definition find_child_run (parts : list dict) (stored_scopes : string -> list dict) (child_run_id : string)
  : res (option dict) :=
  entries ← child_run_entries parts stored_scopes;
  Ok (List.find (fun e => id_of e =s child_run_id) entries).

(** One fact of a stored transcript. *)
Definition stored_message (engine_kind engine_ref : string) (folded : dict) (fact : emission) : res dict :=
  match fact with
  | ChildResourceFact _ =>
      popped ← pop_engine_frame_scope (as_frame fact);
      let '(scope, frame) := popped in
      _ ← refuse (negb (scope =s "session") || negb (Py.eqb (Py.get "type" frame) (VStr "data-subagent")));
      frame_data ← Py.item "data" frame;
      raw ← dict_arg frame_data;
      data ← canonical_child_run_data raw engine_kind;
      _ ← refuse (negb (Py.eqb (Py.get "kind" data) (VStr "message")) ||
                  negb (Py.eqb (Py.get "engineRef" data) (VStr engine_ref)));
      let block_id := word_of "id" frame in
      public_message_id ← public_child_message_id session_id engine_kind engine_ref
                            (Py.a_or (clean_of "messageId" data) block_id);
      apply_message folded data block_id public_message_id
  | _ => Raise ChildRunProjectionError
  end.

Definition messages_of (entry : dict) : list dict :=
  omap (fun m => match m with VDict d => Some d | _ => None end) (list_of (Py.get "messages" entry)).

(** [_stored_messages]. *)
Definition stored_messages (entry : dict) (facts : list emission) : res (list dict) :=
  let engine_kind := Py.str (Py.get "engine_kind" entry) in
  let engine_ref := Py.str (Py.get "_engine_ref" entry) in
  folded ← foldM (stored_message engine_kind engine_ref) (new_entry (id_of entry) engine_kind engine_ref 0) facts;
  Ok (messages_of folded).

(** [child_run_messages]: [own_parts] is what [child_run_parts] reads for the child alone, with
    its content, and [scopes] what [child_transcript_scopes] reads. *)
Definition child_run_messages (parts : list dict) (stored_scopes : string -> list dict) (own_parts : list dict)
  (scopes : list dict) (child_run_id : string) : res (option (list dict)) :=
  found ← find_child_run parts stored_scopes child_run_id;
  match found with
  | None => Ok None
  | Some entry =>
      let engine_ref := Py.str (Py.get "_engine_ref" entry) in
      a ← get_engine_adapter (Py.str (Py.get "engine_kind" entry));
      stored ← match ad_stored_transcript a with
               | Some transcript => transcript engine_ref (closed entry)
                                      (match Py.get "_native_state" entry with VDict d => d | _ => [] end) scopes
               | None => Ok []
               end;
      match stored with
      | _ :: _ => ms ← stored_messages entry stored; Ok (Some ms)
      | [] =>
          folded ← fold_child_runs own_parts true;
          let messages := match List.find (fun e => id_of e =s child_run_id) folded with
                          | Some child => messages_of child
                          | None => []
                          end in
          match closed entry, ad_stored_results a with
          | true, Some enrich => ms ← enrich engine_ref scopes messages; Ok (Some ms)
          | _, _ => Ok (Some messages)
          end
      end
  end.

End Runs.

End ChildRuns.
