(* ===== verification/ChildTree.v ===== *)
(** The order sub-agents are listed in ([_tree_order] of [session_runtime/child_runs.py]): a
    walk of the parent forest that ends, meets every child once, below its parent, and fails
    exactly on a cycle of parents. *)

From stdpp Require Import sorting relations.
From S2P Require Import Prelude PyVal JsonText Reader ChildFacts Emissions MessageBlocks ChildRuns.

Open Scope string_scope.

Module ChildTree.
Import ChildFacts ChildRuns.

Section Tree.
Variable entries : list (string * dict).
Hypothesis Hkeys : Forall (fun e => fst e = id_of (snd e)) entries.
Hypothesis Hnodup : NoDup (map fst entries).

Definition tree_edges : list (string * string) :=
  omap (fun e => if is_root entries e then None else Some (id_of e, parent_id e)) (map snd entries).

Lemma ids_eq : map id_of (map snd entries) = map fst entries.
Proof. clear Hnodup. induction Hkeys as [|[k e] l Hk _ IH]; [done|]. cbn in *. inversion Hkeys; subst. by rewrite IH. Qed.

Lemma edge_iff c p :
  (c, p) ∈ tree_edges <-> exists e, e ∈ map snd entries /\ is_root entries e = false /\ id_of e = c /\ parent_id e = p.
Proof.
  unfold tree_edges. rewrite list_elem_of_omap. split.
  - intros (e & He & H). destruct (is_root entries e) eqn:Er; [done|]. injection H as <- <-. by exists e.
  - intros (e & He & Er & <- & <-). exists e. by rewrite Er.
Qed.

Lemma child_iff p e :
  e ∈ children_of entries p <-> e ∈ map snd entries /\ is_root entries e = false /\ parent_id e = p.
Proof.
  unfold children_of. rewrite merge_sort_Permutation, list_elem_of_In, List.filter_In, andb_true_iff, negb_true_iff, String.eqb_eq.
  by rewrite <-list_elem_of_In.
Qed.

Lemma entry_unique e e' : e ∈ map snd entries -> e' ∈ map snd entries -> id_of e = id_of e' -> e = e'.
Proof.
  rewrite <-ids_eq in Hnodup. generalize dependent (map snd entries). clear. intros l Hn He He' E.
  apply list_elem_of_lookup in He as [i Hi]. apply list_elem_of_lookup in He' as [j Hj].
  assert (i = j) as <-; [|congruence].
  eapply (NoDup_lookup (map id_of l)); [exact Hn|..]; rewrite list_lookup_fmap; [by rewrite Hi|]. rewrite Hj. cbn. by rewrite E.
Qed.

(** ** The walk does not run out of fuel *)

Definition enough (fuel : nat) (ancestors : list string) : Prop :=
  NoDup ancestors /\ ancestors ⊆ map fst entries /\ (length entries < fuel + length ancestors)%nat.

Lemma enough_pos fuel ancestors : enough fuel ancestors -> fuel <> 0%nat.
Proof.
  intros (Hn & Hs & Hf) ->. assert (Hle : (length ancestors <= length (map fst entries))%nat)
    by (by apply submseteq_length, NoDup_submseteq). rewrite length_map in Hle. lia.
Qed.

Lemma enough_below fuel ancestors e :
  enough (S fuel) ancestors -> e ∈ map snd entries -> id_of e ∉ ancestors -> enough fuel (id_of e :: ancestors).
Proof.
  intros (Hn & Hs & Hf) He Hx. split; [by constructor|]. split; [|cbn; lia].
  intros x [->|Hin]%elem_of_cons; [|by apply Hs]. rewrite <-ids_eq. by apply list_elem_of_fmap_2.
Qed.

Lemma visit_fails fuel st e depth ancestors x :
  enough fuel ancestors -> e ∈ map snd entries ->
  visit fuel entries st e depth ancestors = Raise x -> x = ChildRunProjectionError.
Proof.
  revert st e depth ancestors. induction fuel as [|fuel IH]; intros st e depth ancestors Hen He H; [by destruct (enough_pos _ _ Hen)|].
  cbn [visit] in H. destruct (Py.in_strs (id_of e) ancestors) eqn:Ea; [by injection H as <-|]. cbn [refuse raise_if mbind res_bind] in H.
  destruct (Py.in_strs _ (wk_visited st)); [done|].
  assert (Hx : id_of e ∉ ancestors) by (intros Hin%in_strs_true; congruence).
  pose proof (enough_below _ _ _ Hen He Hx) as Hen'. revert H. generalize (Walk (wk_ordered st ++ [Py.set "depth" (VInt depth) e])%list (id_of e :: wk_visited st)).
  assert (Hc : Forall (fun c => c ∈ map snd entries) (children_of entries (id_of e))) by (apply Forall_forall; by intros c [? _]%child_iff).
  induction Hc as [|c cs Hc _ IHc]; intros st1 H; [done|]. cbn [foldM] in H.
  destruct (visit fuel entries st1 c _ _) as [st2|x'] eqn:E; [by eapply IHc|]. injection H as ->. by eapply IH.
Qed.

(** ** What the walk builds *)

(** Each child met stands below its parent, which was met before, or is a root. *)
Definition placed (ordered : list dict) (i : nat) (o : dict) : Prop :=
  exists depth, Py.get "depth" o = VInt depth /\
    if is_root entries o then depth = 1%Z
    else exists j p, (j < i)%nat /\ ordered !! j = Some p /\ id_of p = parent_id o /\ Py.get "depth" p = VInt (depth - 1).

Record walked (st : walk_state) : Prop := {
  wl_visited : wk_visited st ≡ₚ map id_of (wk_ordered st);
  wl_once : NoDup (map id_of (wk_ordered st));
  wl_entries : Forall (fun o => exists e depth, e ∈ map snd entries /\ o = Py.set "depth" (VInt depth) e) (wk_ordered st);
  wl_placed : forall i o, wk_ordered st !! i = Some o -> placed (wk_ordered st) i o
}.

(** Where an entry is about to be put. *)
Definition may_stand (st : walk_state) (e : dict) (depth : Z) : Prop :=
  if is_root entries e then depth = 1%Z
  else exists p, p ∈ wk_ordered st /\ id_of p = parent_id e /\ Py.get "depth" p = VInt (depth - 1).

Lemma set_depth d e : id_of (Py.set "depth" d e) = id_of e /\ parent_id (Py.set "depth" d e) = parent_id e /\
  is_root entries (Py.set "depth" d e) = is_root entries e.
Proof. unfold id_of, is_root, parent_id, word_of. by rewrite !get_set_ne. Qed.

Lemma may_stand_later st st' e depth :
  wk_ordered st `prefix_of` wk_ordered st' -> may_stand st e depth -> may_stand st' e depth.
Proof.
  unfold may_stand. destruct (is_root entries e); [done|]. intros [l ->] (p & Hp & H). exists p. split; [|done].
  apply elem_of_app. by left.
Qed.

Lemma walked_put st e depth :
  walked st -> e ∈ map snd entries -> id_of e ∉ wk_visited st -> may_stand st e depth ->
  walked (Walk (wk_ordered st ++ [Py.set "depth" (VInt depth) e])%list (id_of e :: wk_visited st)).
Proof.
  intros [Hv Ho Hall Hp] He Hn Hm. destruct (set_depth (VInt depth) e) as (Hid & Hpar & Hroot). split; cbn [wk_ordered wk_visited].
  - rewrite map_app. cbn [map]. rewrite Hid, Hv. apply Permutation_cons_append.
  - rewrite map_app. cbn [map]. rewrite Hid. apply NoDup_app. split; [done|]. split; [|apply NoDup_singleton].
    intros x Hx ->%list_elem_of_singleton. by rewrite <-Hv in Hx.
  - apply Forall_app. split; [done|]. constructor; [|constructor]. by exists e, depth.
  - intros i o Hi. apply lookup_app_Some in Hi as [Hi|[Hlen Hi]].
    + destruct (Hp i o Hi) as (d & Hd & H). exists d. split; [done|]. destruct (is_root entries o); [done|].
      destruct H as (j & p & Hj & Hpj & H). exists j, p. split; [done|]. split; [by apply lookup_app_l_Some|done].
    + apply list_lookup_singleton_Some in Hi as [Hi <-]. exists depth. split; [apply get_set_eq|]. rewrite Hroot, Hpar.
      unfold may_stand in Hm. destruct (is_root entries e); [done|]. destruct Hm as (p & Hin & H).
      apply list_elem_of_lookup in Hin as [j Hj]. exists j, p. split; [|split; [by apply lookup_app_l_Some|done]].
      apply lookup_lt_Some in Hj. lia.
Qed.

(** What a walk from [st] has gained at [st']: the children of all that is new are there. *)
Record gained (st st' : walk_state) : Prop := {
  gn_prefix : wk_ordered st `prefix_of` wk_ordered st';
  gn_visited : wk_visited st ⊆ wk_visited st';
  gn_closed : forall v, v ∈ wk_visited st' -> v ∉ wk_visited st ->
    forall c, c ∈ children_of entries v -> id_of c ∈ wk_visited st'
}.

Lemma gained_refl st : gained st st.
Proof. by split. Qed.

Lemma gained_trans st1 st2 st3 : gained st1 st2 -> gained st2 st3 -> gained st1 st3.
Proof.
  intros [P1 V1 C1] [P2 V2 C2]. split; [by etrans|by etrans|]. intros v Hv Hn c Hc.
  destruct (decide (v ∈ wk_visited st2)) as [H2|H2]; [|by eapply C2]. apply V2. by eapply C1.
Qed.
(** ** Without a cycle the walk succeeds *)

Section Acyclic.
Hypothesis Hac : acyclic tree_edges.

(** The ancestors a walk carries are ancestors. *)
Definition above (e : dict) (ancestors : list string) : Prop :=
  Forall (fun a => tc (parent_in tree_edges) (id_of e) a) ancestors.

Lemma child_above e c ancestors :
  c ∈ children_of entries (id_of e) -> above e ancestors -> above c (id_of e :: ancestors).
Proof.
  intros (Hc & Hr & Hp)%child_iff Ha.
  assert (Hedge : parent_in tree_edges (id_of c) (id_of e)) by (apply edge_iff; by exists c).
  constructor; [by apply tc_once|]. eapply Forall_impl; [exact Ha|]. intros a H. by eapply tc_l.
Qed.

Definition visits (fuel : nat) : Prop := forall st e depth ancestors,
  enough fuel ancestors -> e ∈ map snd entries -> above e ancestors -> walked st -> may_stand st e depth ->
  exists st', visit fuel entries st e depth ancestors = Ok st' /\ walked st' /\ gained st st' /\ id_of e ∈ wk_visited st'.

(** A loop over entries that may stand. *)
Lemma visit_all fuel st es depth ancestors :
  visits fuel -> enough fuel ancestors -> walked st ->
  Forall (fun e => e ∈ map snd entries /\ above e ancestors /\ may_stand st e depth) es ->
  exists st', foldM (fun st e => visit fuel entries st e depth ancestors) st es = Ok st' /\
    walked st' /\ gained st st' /\ Forall (fun e => id_of e ∈ wk_visited st') es.
Proof.
  intros Hv Hen. revert st. induction es as [|e es IH]; intros st Hw Hes; cbn [foldM].
  { exists st. split; [done|]. split; [done|]. split; [apply gained_refl|constructor]. }
  apply Forall_cons in Hes as [(He & Ha & Hm) Hes].
  destruct (Hv st e depth ancestors Hen He Ha Hw Hm) as (st1 & -> & Hw1 & Hg1 & Hin1). cbn [mbind res_bind].
  destruct (IH st1 Hw1) as (st2 & Hf & Hw2 & Hg2 & Hall).
  { eapply Forall_impl; [exact Hes|]. intros x (H1 & H2 & H3). split; [done|]. split; [done|].
    eapply may_stand_later; [apply Hg1|done]. }
  exists st2. split; [exact Hf|]. split; [done|]. split; [by eapply gained_trans|].
  constructor; [by apply Hg2|done].
Qed.

Lemma visit_works fuel : visits fuel.
Proof.
  induction fuel as [|fuel IH]; intros st e depth ancestors Hen He Ha Hw Hm; [by destruct (enough_pos _ _ Hen)|].
  cbn [visit]. assert (Hx : id_of e ∉ ancestors).
  { intros Hin. unfold above in Ha. rewrite Forall_forall in Ha. by apply (Hac (id_of e)), Ha. }
  destruct (Py.in_strs (id_of e) ancestors) eqn:Ea; [by apply in_strs_true in Ea|]. cbn [refuse raise_if mbind res_bind].
  destruct (Py.in_strs (id_of e) (wk_visited st)) eqn:Ev.
  { apply in_strs_true in Ev. exists st. split; [done|]. split; [done|]. split; [apply gained_refl|done]. }
  assert (Hnew : id_of e ∉ wk_visited st) by (intros Hin%in_strs_true; congruence).
  set (st1 := Walk _ _). assert (Hw1 : walked st1) by by apply walked_put.
  destruct (set_depth (VInt depth) e) as (Hid & Hpar & Hroot).
  destruct (visit_all fuel st1 (children_of entries (id_of e)) (depth + 1) (id_of e :: ancestors) IH) as (st2 & Hf & Hw2 & Hg2 & Hall);
    [by apply enough_below|done| |].
  { apply Forall_forall. intros c Hc. pose proof Hc as (Hin & Hr & Hp)%child_iff. split; [done|].
    split; [by apply child_above|]. unfold may_stand. rewrite Hr. exists (Py.set "depth" (VInt depth) e).
    split; [apply elem_of_app; right; left|]. rewrite Hid, get_set_eq. split; [done|]. f_equal. lia. }
  exists st2. split; [exact Hf|]. split; [done|]. destruct Hg2 as [P V C]. split; [|apply V; left]. split.
  - etrans; [|exact P]. by eexists.
  - intros x Hxv. apply V. by right.
  - intros v Hv Hn c Hc. destruct (decide (v = id_of e)) as [->|Hne].
    + rewrite Forall_forall in Hall. by apply Hall.
    + apply (C v); [done| |done]. cbn. intros [|]%elem_of_cons; done.
Qed.

Lemma climbs c : sn (parent_in tree_edges) c.
Proof.
  apply tc_finite_sn; [intros x Hx; by apply (Hac x)|]. exists (map snd tree_edges). intros p Hp.
  induction Hp as [c p Hp|c q p _ _ IH]; [|exact IH]. exact (list_elem_of_fmap_2 snd _ (c, p) Hp).
Qed.

(** A walk that met the roots, and the children of all it met, met everyone. *)
Lemma all_met st e :
  gained (Walk [] []) st -> Forall (fun r => id_of r ∈ wk_visited st) (roots_of entries) ->
  e ∈ map snd entries -> id_of e ∈ wk_visited st.
Proof.
  intros [_ _ Hclosed] Hroots He. remember (id_of e) as c eqn:Ec.
  revert e He Ec. induction (climbs c) as [c _ IH]. intros e He ->. destruct (is_root entries e) eqn:Er.
  - rewrite Forall_forall in Hroots. apply Hroots. unfold roots_of.
    rewrite merge_sort_Permutation. apply list_elem_of_In, List.filter_In. by rewrite <-list_elem_of_In.
  - assert (Hedge : parent_in tree_edges (id_of e) (parent_id e)) by (apply edge_iff; by exists e).
    pose proof Er as Hp. unfold is_root in Hp. apply orb_false_iff in Hp as [_ Hp]. apply negb_false_iff, in_strs_true in Hp.
    rewrite <-ids_eq in Hp. apply list_elem_of_fmap in Hp as (p & Ep & Hpin).
    assert (Hv : parent_id e ∈ wk_visited st) by (rewrite Ep; eapply IH; [|exact Hpin|done]; by rewrite <-Ep).
    apply (Hclosed _ Hv); [by apply not_elem_of_nil|]. by apply child_iff.
Qed.

Lemma walked_start : walked (Walk [] []).
Proof. split; cbn; [done|constructor|constructor|done]. Qed.

Lemma enough_start : enough (S (length entries)) [].
Proof. split; [constructor|]. split; [by intros ? ?%not_elem_of_nil|]. cbn. lia. Qed.

Lemma tree_order_works :
  exists st, tree_order entries = Ok (wk_ordered st) /\ walked st /\
    forall e, e ∈ map snd entries -> id_of e ∈ wk_visited st.
Proof.
  destruct (visit_all _ (Walk [] []) (roots_of entries) 1 [] (visit_works _) enough_start walked_start) as (st & Hf & Hw & Hg & Hr).
  { apply Forall_forall. intros e He. unfold roots_of in He. rewrite merge_sort_Permutation in He.
    apply list_elem_of_In, List.filter_In in He as [He Hroot]. split; [by apply list_elem_of_In|]. split; [constructor|].
    unfold may_stand. by rewrite Hroot. }
  assert (Hall : forall e, e ∈ map snd entries -> id_of e ∈ wk_visited st) by (intros e He; by apply all_met).
  exists st. split; [|done]. unfold tree_order. rewrite Hf. cbn [mbind res_bind].
  assert (Hrest : forall l, l ⊆ map snd entries ->
    foldM (fun st entry => if Py.in_strs (id_of entry) (wk_visited st) then Ok st
                           else visit (S (length entries)) entries st entry 1 []) st l = Ok st).
  { intros l. induction l as [|e l IH]; intros Hl; [done|]. cbn [foldM].
    rewrite (proj2 (in_strs_true _ _)) by (apply Hall, Hl; left). apply IH. intros x Hx. apply Hl. by right. }
  rewrite Hrest; [done|]. intros x Hx. by rewrite merge_sort_Permutation in Hx.
Qed.
End Acyclic.

(** ** A walk that succeeds met no cycle *)

(** The order children are finished in: a child before its parent. *)
Record finished (st : walk_state) (ancestors fin : list string) : Prop := {
  fi_visited : forall v, v ∈ wk_visited st <-> v ∈ fin \/ v ∈ ancestors;
  fi_apart : forall v, v ∈ fin -> v ∉ ancestors;
  fi_below : forall i v, fin !! i = Some v -> forall c, c ∈ children_of entries v ->
    exists j, (j < i)%nat /\ fin !! j = Some (id_of c)
}.

Lemma visit_finishes fuel st e depth ancestors st' fin :
  visit fuel entries st e depth ancestors = Ok st' -> finished st ancestors fin ->
  exists fin', finished st' ancestors (fin ++ fin') /\ id_of e ∈ (fin ++ fin')%list.
Proof.
  revert st e depth ancestors st' fin. induction fuel as [|fuel IH]; intros st e depth ancestors st' fin H Hfin; [done|].
  cbn [visit] in H. apply bind_ok in H as (u & Hx%refuse_ok & H).
  assert (Hnot : id_of e ∉ ancestors) by (intros Hin%in_strs_true; congruence).
  destruct (Py.in_strs (id_of e) (wk_visited st)) eqn:Ev.
  { apply Ok_inj in H as <-. exists []. rewrite app_nil_r. split; [done|]. apply in_strs_true in Ev.
    by apply (fi_visited _ _ _ Hfin) in Ev as [?|?]. }
  assert (Hnew : id_of e ∉ wk_visited st) by (intros Hin%in_strs_true; congruence).
  set (st1 := Walk _ _) in H.
  assert (Hloop : forall cs st1 st2 fin1, foldM (fun st c => visit fuel entries st c (depth + 1) (id_of e :: ancestors)) st1 cs = Ok st2 ->
    finished st1 (id_of e :: ancestors) fin1 ->
    exists fin2, finished st2 (id_of e :: ancestors) (fin1 ++ fin2) /\ Forall (fun c => id_of c ∈ (fin1 ++ fin2)%list) cs).
  { intros cs. induction cs as [|c cs IHc]; intros s1 s2 fin1 Hf Hs1; cbn [foldM] in Hf.
    - injection Hf as <-. exists []. rewrite app_nil_r. by split.
    - destruct (visit fuel entries s1 c _ _) as [s3|] eqn:Ec; [|done].
      destruct (IH _ _ _ _ _ _ Ec Hs1) as (f3 & Hs3 & Hin3). destruct (IHc _ _ _ Hf Hs3) as (f4 & Hs4 & Hall).
      exists (f3 ++ f4)%list. rewrite app_assoc. split; [done|]. constructor; [apply elem_of_app; by left|done]. }
  destruct (Hloop _ _ _ fin H) as (fin2 & [Fv Fa Fb] & Hall).
  { destruct Hfin as [Fv Fa Fb]. split; cbn.
    - intros v. rewrite !elem_of_cons, Fv. tauto.
    - intros v Hv [->|Hin]%elem_of_cons; [apply Hnew, Fv; by left|by eapply Fa].
    - done. }
  exists (fin2 ++ [id_of e])%list. rewrite app_assoc. split; [|apply elem_of_app; right; left]. split.
  - intros v. rewrite Fv, (elem_of_app (fin ++ fin2)), elem_of_cons, list_elem_of_singleton. tauto.
  - intros v [Hv| ->%list_elem_of_singleton]%elem_of_app; [|done]. apply Fa in Hv. by intros Hin; apply Hv; right.
  - intros i v Hi c Hc. apply lookup_app_Some in Hi as [Hi|[Hlen Hi]].
    + destruct (Fb _ _ Hi c Hc) as (j & Hj & Hcj). exists j. split; [done|]. by apply lookup_app_l_Some.
    + apply list_lookup_singleton_Some in Hi as [Hi <-]. rewrite Forall_forall in Hall. specialize (Hall c Hc).
      apply list_elem_of_lookup in Hall as [j Hj]. exists j. split; [apply lookup_lt_Some in Hj; lia|by apply lookup_app_l_Some].
Qed.

Lemma tree_order_forest ordered : tree_order entries = Ok ordered -> acyclic tree_edges.
Proof.
  intros H. unfold tree_order in H. apply bind_ok in H as (st1 & H1 & H). apply bind_ok in H as (st2 & H2 & _).
  assert (Hloop : forall es st st' fin, foldM (fun st r => visit (S (length entries)) entries st r 1 []) st es = Ok st' ->
    finished st [] fin -> exists fin', finished st' [] fin').
  { intros es. induction es as [|e es IH]; intros st st' fin Hf Hs; cbn [foldM] in Hf; [injection Hf as <-; by exists fin|].
    destruct (visit _ entries st e 1 []) as [s|] eqn:E; [|done]. destruct (visit_finishes _ _ _ _ _ _ _ E Hs) as (f & Hs' & _).
    by eapply IH. }
  destruct (Hloop _ _ _ [] H1) as (fin1 & Hfin1).
  { split; cbn; [intros v; split; [by intros ?%not_elem_of_nil|by intros [?%not_elem_of_nil|?%not_elem_of_nil]]|by intros ? ?%not_elem_of_nil|done]. }
  assert (Hrest : forall es st st' fin,
    foldM (fun st entry => if Py.in_strs (id_of entry) (wk_visited st) then Ok st
                           else visit (S (length entries)) entries st entry 1 []) st es = Ok st' ->
    finished st [] fin -> exists fin', finished st' [] (fin ++ fin') /\ Forall (fun e => id_of e ∈ (fin ++ fin')%list) es).
  { intros es. induction es as [|e es IH]; intros st st' fin Hf Hs; cbn [foldM] in Hf.
    { injection Hf as <-. exists []. rewrite app_nil_r. by split. }
    destruct (Py.in_strs (id_of e) (wk_visited st)) eqn:Ev.
    - destruct (IH _ _ _ Hf Hs) as (f & Hs' & Hall). exists f. split; [done|]. constructor; [|done].
      apply in_strs_true in Ev. apply (fi_visited _ _ _ Hs) in Ev as [Hin|?%not_elem_of_nil]; [|done]. apply elem_of_app. by left.
    - destruct (visit _ entries st e 1 []) as [s|] eqn:E; [|done]. destruct (visit_finishes _ _ _ _ _ _ _ E Hs) as (f & Hs' & Hin).
      destruct (IH _ _ _ Hf Hs') as (f' & Hs2 & Hall). exists (f ++ f')%list. rewrite app_assoc. split; [done|].
      constructor; [apply elem_of_app; by left|done]. }
  destruct (Hrest _ _ _ _ H2 Hfin1) as (fin2 & [Fv Fa Fb] & Hall). set (fin := (fin1 ++ fin2)%list) in *.
  assert (Hpos : forall c p, tc (parent_in tree_edges) c p -> forall i, fin !! i = Some p -> exists j, (j < i)%nat /\ fin !! j = Some c).
  { intros c p Hcp. induction Hcp as [c p Hcp|c q p Hcq _ IH]; intros i Hi.
    - apply edge_iff in Hcp as (e & He & Hr & <- & <-). apply (Fb _ _ Hi). by apply child_iff.
    - destruct (IH _ Hi) as (j & Hj & Hq). apply edge_iff in Hcq as (e & He & Hr & <- & <-).
      destruct (Fb _ _ Hq e) as (k & Hk & Hc); [by apply child_iff|]. exists k. split; [lia|done]. }
  intros c Hc. assert (Hin : exists i, fin !! i = Some c).
  { assert (He : exists e, e ∈ map snd entries /\ id_of e = c).
    { inversion Hc as [? ? H0|? ? ? H0]; subst; apply edge_iff in H0 as (e & He & _ & E & _); by exists e. }
    destruct He as (e & He & <-). rewrite Forall_forall in Hall. apply list_elem_of_lookup, Hall. by rewrite merge_sort_Permutation. }
  assert (Hdesc : forall n i, (i < n)%nat -> fin !! i <> Some c).
  { intros n. induction n as [|n IH]; intros i Hi E; [lia|]. destruct (Hpos c c Hc i E) as (j & Hj & Ej). apply (IH j); [lia|done]. }
  destruct Hin as [i Hi]. by apply (Hdesc (S i) i); [lia|].
Qed.

Lemma tree_order_fails x : tree_order entries = Raise x -> x = ChildRunProjectionError.
Proof.
  intros H. unfold tree_order in H.
  assert (Hen : enough (S (length entries)) []) by (split; [constructor|]; split; [by intros ? ?%not_elem_of_nil|cbn; lia]).
  destruct (foldM _ _ (roots_of entries)) as [st|x1] eqn:E1; cbn [mbind res_bind] in H.
  - destruct (foldM _ st _) as [st2|x2] eqn:E2; [done|]. injection H as ->.
    apply foldM_raise in E2 as (s & e & He & H). destruct (Py.in_strs _ _); [done|].
    eapply visit_fails; [exact Hen| |exact H]. by rewrite merge_sort_Permutation in He.
  - injection H as ->. apply foldM_raise in E1 as (s & e & He & H).
    eapply visit_fails; [exact Hen| |exact H]. unfold roots_of in He. rewrite merge_sort_Permutation in He.
    apply list_elem_of_In, List.filter_In in He as [He _]. by apply list_elem_of_In.
Qed.
End Tree.

(** C37: The list of sub-agents is the parent forest, walked from its roots.  Listing ends;
    it fails exactly when some child is its own ancestor; and otherwise it lists every child
    once, changed only by its depth, each below its parent, which comes before it, one level
    deeper, and the others at level one. *)
Theorem child_tree_exact entries :
  Forall (fun e => fst e = id_of (snd e)) entries -> NoDup (map fst entries) ->
  match tree_order entries with
  | Ok ordered =>
      acyclic (tree_edges entries) /\ map id_of ordered ≡ₚ map fst entries /\
      Forall (fun o => exists e depth, e ∈ map snd entries /\ o = Py.set "depth" (VInt depth) e) ordered /\
      forall i o, ordered !! i = Some o -> placed entries ordered i o
  | Raise e => e = ChildRunProjectionError /\ ~ acyclic (tree_edges entries)
  end.
Proof.
  intros Hk Hn. destruct (tree_order entries) as [ordered|x] eqn:E.
  - pose proof (tree_order_forest _ _ E) as Hac. split; [done|].
    destruct (tree_order_works entries Hk Hac) as (st & E' & [Hv Ho Hall Hp] & Hmet).
    rewrite E in E'. injection E' as ->. split; [|done]. apply NoDup_Permutation; [done..|]. intros x. rewrite <-(ids_eq entries Hk). split.
    + intros (o & -> & Hin)%list_elem_of_fmap. rewrite Forall_forall in Hall. destruct (Hall o Hin) as (e & d & He & ->).
      destruct (set_depth entries (VInt d) e) as (-> & _). by apply list_elem_of_fmap_2.
    + intros (e & -> & He)%list_elem_of_fmap. rewrite <-Hv. by apply Hmet.
  - split; [by eapply tree_order_fails|]. intros Hac. destruct (tree_order_works entries Hk Hac) as (st & E' & _). congruence.
Qed.

(** A child listed before its parent is put below it. *)
Definition demo_entries : list (string * dict) :=
  [("b", Py.set "parent_child_run_id" (VStr "a") (new_entry "b" "claude" "2" 0)); ("a", new_entry "a" "claude" "1" 1)].

Lemma child_tree_exact_witness :
  match tree_order demo_entries with
  | Ok ordered => map id_of ordered = ["a"; "b"] /\ acyclic (tree_edges demo_entries)
  | Raise _ => False
  end.
Proof.
  assert (Hk : Forall (fun e => fst e = id_of (snd e)) demo_entries) by (repeat constructor).
  assert (Hn : NoDup (map fst demo_entries)) by (repeat constructor; set_solver).
  pose proof (child_tree_exact demo_entries Hk Hn) as H.
  destruct (tree_order demo_entries) as [ordered|x] eqn:E; [|vm_compute in E; discriminate].
  split; [vm_compute in E; injection E as <-; reflexivity|exact (proj1 H)].
Defined.
End ChildTree.
