(* ===== verification/ChildRunFacts.v ===== *)
(** What the fold of a session's sub-agents keeps: each child's identity, and what was said
    of it, whatever is folded later; and the children the log names, each listed once. *)

From stdpp Require Import relations.
From S2P Require Import Prelude PyVal JsonText Reader ChildFacts Emissions MessageBlocks ChildRuns ChildTree.

Open Scope string_scope.

Module ChildRunFacts.
Import ChildFacts ChildRuns ChildTree.

(** ** An entry only grows *)

Definition FIXED_FIELDS : list string := ["child_run_id"; "engine_kind"; "_engine_ref"; "_first_seen"].
Definition GROWING_FIELDS : list string :=
  FIXED_FIELDS ++ ["parent_child_run_id"; "_control_ref"; "tool_call_ids"; "messages"].

(** A later state of one message: more content, from the same speaker. *)
Definition same_message (m m' : val) : Prop :=
  m' = m \/ exists d d', m = VDict d /\ m' = VDict d' /\ same_but ["content"] d d'.

Record entry_grows (e e' : dict) : Prop := {
  eg_fixed : Forall (fun k => Py.lookup k e' = Py.lookup k e) FIXED_FIELDS;
  eg_parent : parent_id e <> "" -> parent_id e' = parent_id e;
  eg_control : word_of "_control_ref" e <> "" -> word_of "_control_ref" e' = word_of "_control_ref" e;
  eg_calls : list_of (Py.get "tool_call_ids" e) `prefix_of` list_of (Py.get "tool_call_ids" e');
  eg_messages : forall i m, list_of (Py.get "messages" e) !! i = Some m ->
    exists m', list_of (Py.get "messages" e') !! i = Some m' /\ same_message m m'
}.

Lemma same_message_trans m1 m2 m3 : same_message m1 m2 -> same_message m2 m3 -> same_message m1 m3.
Proof.
  intros [->|(d1 & d2 & -> & -> & H1)] H2; [done|]. destruct H2 as [->|(d2' & d3 & E & -> & H2)]; right.
  - by exists d1, d2.
  - injection E as <-. exists d1, d3. split_and!; [done..|by eapply same_but_trans].
Qed.

Lemma entry_grows_refl e : entry_grows e e.
Proof. split; try done; [by repeat constructor|]. intros i m Hm. exists m. split; [done|by left]. Qed.

Lemma entry_grows_trans e1 e2 e3 : entry_grows e1 e2 -> entry_grows e2 e3 -> entry_grows e1 e3.
Proof.
  intros [F1 P1 C1 T1 M1] [F2 P2 C2 T2 M2]. split.
  - unfold FIXED_FIELDS in *. rewrite !Forall_cons in *. destruct F1 as (? & ? & ? & ? & _), F2 as (? & ? & ? & ? & _).
    split_and!; [congruence..|constructor].
  - intros H. rewrite <-(P1 H). apply P2. by rewrite (P1 H).
  - intros H. rewrite <-(C1 H). apply C2. by rewrite (C1 H).
  - by etrans.
  - intros i m Hm. destruct (M1 i m Hm) as (m2 & H2 & S2). destruct (M2 i m2 H2) as (m3 & H3 & S3).
    exists m3. split; [done|by eapply same_message_trans].
Qed.

(** A change of other fields. *)
Lemma grows_elsewhere ks e e' : same_but ks e e' -> forallb (fun k => negb (Py.in_strs k ks)) GROWING_FIELDS = true -> entry_grows e e'.
Proof.
  intros Hs Hk. assert (Hl : forall k, k ∈ GROWING_FIELDS -> Py.lookup k e' = Py.lookup k e).
  { intros k Hin. apply Hs. intros Hks%in_strs_true. apply list_elem_of_In in Hin.
    pose proof (proj1 (forallb_forall _ _) Hk k Hin) as Hn. cbv beta in Hn. by rewrite Hks in Hn. }
  assert (Hg : forall k, k ∈ GROWING_FIELDS -> Py.get k e' = Py.get k e) by (intros k Hin; unfold Py.get; by rewrite Hl).
  split.
  - apply Forall_forall. intros k Hin. apply Hl. unfold GROWING_FIELDS. apply elem_of_app. by left.
  - intros _. unfold parent_id, word_of. by rewrite Hg by not_a_field.
  - intros _. unfold word_of. by rewrite Hg by not_a_field.
  - by rewrite Hg by not_a_field.
  - rewrite Hg by not_a_field. intros i m Hm. exists m. split; [done|by left].
Qed.

Ltac elsewhere := solve [vm_compute; reflexivity].

Lemma grows_set k v e : forallb (fun k' => negb (Py.in_strs k' [k])) GROWING_FIELDS = true -> entry_grows e (Py.set k v e).
Proof. apply (grows_elsewhere [k]), same_but_set. Qed.

Lemma grows_pop k e : forallb (fun k' => negb (Py.in_strs k' [k])) GROWING_FIELDS = true -> entry_grows e (Py.pop k e).
Proof. apply (grows_elsewhere [k]), same_but_pop. Qed.

(** Setting one growing field leaves the others. *)
Lemma fixed_set k v e : k ∉ FIXED_FIELDS -> Forall (fun k' => Py.lookup k' (Py.set k v e) = Py.lookup k' e) FIXED_FIELDS.
Proof. intros Hk. apply Forall_forall. intros k' Hin. apply lookup_set_ne. intros ->. done. Qed.

Lemma apply_parent_grows e p e' : apply_parent e p = Ok e' -> entry_grows e e'.
Proof.
  unfold apply_parent. destruct (Py.is_empty p) eqn:Ep; [intros <-%Ok_inj; apply entry_grows_refl|].
  intros H. apply bind_ok in H as (u & _ & H). apply bind_ok in H as (u' & Hold%refuse_ok & <-%Ok_inj).
  split.
  - apply fixed_set. not_a_field.
  - intros Hne. unfold parent_id, word_of in *. rewrite get_set_eq. apply is_empty_false in Hne. rewrite Hne in Hold.
    cbn [negb andb] in Hold. apply negb_false_iff, String.eqb_eq in Hold. rewrite Hold. by destruct p.
  - intros _. unfold word_of. by rewrite get_set_ne.
  - by rewrite get_set_ne.
  - rewrite get_set_ne by done. intros i m Hm. exists m. split; [done|by left].
Qed.

Lemma note_tool_call_grows data e : entry_grows e (note_tool_call data e).
Proof.
  unfold note_tool_call. destruct (Py.get "toolCallId" data) as [| | | |[|c s]| |]; try apply entry_grows_refl.
  destruct (existsb _ _); [apply entry_grows_refl|]. split.
  - apply fixed_set. not_a_field.
  - intros _. unfold parent_id, word_of. by rewrite get_set_ne.
  - intros _. unfold word_of. by rewrite get_set_ne.
  - rewrite get_set_eq. by eexists.
  - rewrite get_set_ne by done. intros i m Hm. exists m. split; [done|by left].
Qed.

Lemma note_control_grows data e e' : note_control data e = Ok e' -> entry_grows e e'.
Proof.
  unfold note_control. destruct (Py.is_empty (clean_of "controlRef" data)) eqn:Ep; [intros <-%Ok_inj; apply entry_grows_refl|].
  intros H. apply bind_ok in H as (u' & Hold%refuse_ok & <-%Ok_inj). split.
  - apply fixed_set. not_a_field.
  - intros _. unfold parent_id, word_of. by rewrite get_set_ne.
  - intros Hne. unfold word_of in *. rewrite get_set_eq. apply is_empty_false in Hne. rewrite Hne in Hold.
    cbn [negb andb] in Hold. apply negb_false_iff, String.eqb_eq in Hold. rewrite Hold. by destruct (clean_of _ _).
  - by rewrite get_set_ne.
  - rewrite get_set_ne by done. intros i m Hm. exists m. split; [done|by left].
Qed.

Lemma note_words_grow data e : entry_grows e (fold_left (note_word data) SHOWN_WORDS e).
Proof.
  unfold SHOWN_WORDS. cbn [fold_left].
  assert (H : forall names d, forallb (fun k' => negb (Py.in_strs k' [snd names])) GROWING_FIELDS = true ->
    entry_grows d (note_word data d names)).
  { intros [s t] d Hk. unfold note_word. cbn [fst snd] in *. destruct (Py.get s data); try apply entry_grows_refl.
    destruct (Py.is_empty _); [apply entry_grows_refl|by apply grows_set]. }
  repeat (eapply entry_grows_trans; [|apply H; elsewhere]). apply entry_grows_refl.
Qed.

Lemma note_usage_grows data e : entry_grows e (note_usage data e).
Proof. unfold note_usage. destruct (Py.get "usage" data); try apply entry_grows_refl. apply grows_set. elsewhere. Qed.

Lemma copy_word_grows data e s t :
  forallb (fun k' => negb (Py.in_strs k' [t])) GROWING_FIELDS = true -> entry_grows e (copy_word data e (s, t)).
Proof. intros H. unfold copy_word. cbn [fst snd]. destruct (Py.lookup s data); [by apply grows_set|apply entry_grows_refl]. Qed.

Lemma note_native_state_grows data e e' : note_native_state data e = Ok e' -> entry_grows e e'.
Proof.
  unfold note_native_state. destruct (Py.lookup "nativeState" data) as [[]|]; try done;
    intros <-%Ok_inj; [|apply entry_grows_refl]. apply grows_set. elsewhere.
Qed.

Lemma take_lifecycle_grows event data e e' : take_lifecycle event data e = Ok e' -> entry_grows e e'.
Proof.
  unfold take_lifecycle. intros H. apply bind_ok in H as (e1 & H1%apply_parent_grows & H).
  apply bind_ok in H as (e2 & H2%note_control_grows & H). set (e3 := note_usage _ _) in H.
  set (e4 := if event =s "opened" then _ else _) in H. set (e5 := if closed e4 && _ then _ else _) in H.
  set (e6 := copy_word _ _ _) in H. apply bind_ok in H as (e7 & H7%note_native_state_grows & <-%Ok_inj).
  eapply entry_grows_trans; [exact H1|]. eapply entry_grows_trans; [apply note_tool_call_grows|].
  eapply entry_grows_trans; [exact H2|]. eapply entry_grows_trans; [apply note_words_grow|].
  eapply entry_grows_trans; [apply (note_usage_grows data)|]. fold e3.
  assert (H4 : entry_grows e3 e4).
  { unfold e4. destruct (event =s "opened"); [|apply entry_grows_refl].
    eapply entry_grows_trans; apply grows_pop; elsewhere. }
  eapply entry_grows_trans; [exact H4|].
  assert (H5 : entry_grows e4 e5) by (unfold e5; destruct (_ && _); [apply grows_set; elsewhere|apply entry_grows_refl]).
  eapply entry_grows_trans; [exact H5|]. eapply entry_grows_trans; [apply (copy_word_grows data e5 "engineEvent" "engine_event"); elsewhere|].
  eapply entry_grows_trans; [exact H7|]. cbn [fold_left].
  eapply entry_grows_trans; [apply (copy_word_grows data e7 "engineStatus" "engine_status"); elsewhere|].
  eapply entry_grows_trans; [apply (copy_word_grows data _ "engineReason" "engine_reason"); elsewhere|].
  eapply entry_grows_trans; [apply (grows_set "operations"); elsewhere|].
  destruct (event =s "closed"); [apply grows_set; elsewhere|apply entry_grows_refl].
Qed.

Lemma extend_message_same role content m m' : extend_message role content m = Ok m' -> same_message m m'.
Proof.
  unfold extend_message. destruct m as [| | | | | |d]; try done. intros H. apply bind_ok in H as (u & _ & <-%Ok_inj).
  right. exists d. eexists. split_and!; [done..|apply same_but_set].
Qed.

Lemma set_messages_grows e ms :
  (forall i m, list_of (Py.get "messages" e) !! i = Some m -> exists m', ms !! i = Some m' /\ same_message m m') ->
  entry_grows e (Py.set "messages" (VList ms) e).
Proof.
  intros Hm. split.
  - apply fixed_set. not_a_field.
  - intros _. unfold parent_id, word_of. by rewrite get_set_ne.
  - intros _. unfold word_of. by rewrite get_set_ne.
  - by rewrite get_set_ne.
  - rewrite get_set_eq. exact Hm.
Qed.

Lemma apply_message_grows e data b pid e' : apply_message e data b pid = Ok e' -> entry_grows e e'.
Proof.
  unfold apply_message. intros H. apply bind_ok in H as (e1 & H1%apply_parent_grows & H).
  apply bind_ok in H as (u & _ & H). eapply entry_grows_trans; [exact H1|].
  assert (Hnew : forall m idx, entry_grows e1
    (Py.set "messages" (VList (list_of (Py.get "messages" e1) ++ [m])) (Py.set "_message_indexes" idx e1))).
  { intros m idx. eapply entry_grows_trans; [apply (grows_set "_message_indexes"); elsewhere|].
    apply set_messages_grows. rewrite get_set_ne by done. intros i m0 Hi. exists m0.
    split; [by apply lookup_app_l_Some|by left]. }
  destruct (Py.get (message_key data b) (message_indexes e1)); try (injection H as <-; apply Hnew).
  destruct (list_of (Py.get "messages" e1) !! Z.to_nat z) as [m|] eqn:Em; [|done].
  apply bind_ok in H as (m' & Hm%extend_message_same & <-%Ok_inj). apply set_messages_grows. intros i m0 Hi.
  destruct (decide (i = Z.to_nat z)) as [->|Hne].
  - rewrite Em in Hi. injection Hi as <-. exists m'. split; [|done]. apply list_lookup_insert_eq. by eapply lookup_lt_Some.
  - exists m0. split; [by rewrite list_lookup_insert_ne|by left].
Qed.

Section Facts.
Context `{Engines}.
Variable session_id : string.

Lemma apply_lifecycle_grows data e e' : apply_lifecycle e data = Ok e' -> entry_grows e e'.
Proof.
  unfold apply_lifecycle. intros H0. apply bind_ok in H0 as ([] & _ & H0); [injection H0 as <-; apply entry_grows_refl|].
  by eapply take_lifecycle_grows.
Qed.

Lemma apply_fact_grows wm kind b data e e' : apply_fact session_id wm kind b data e = Ok e' -> entry_grows e e'.
Proof.
  unfold apply_fact. destruct (Py.eqb _ _); [apply apply_lifecycle_grows|]. destruct wm; [|apply apply_parent_grows].
  intros H0. apply bind_ok in H0 as (pid & _ & H0). by eapply apply_message_grows.
Qed.
End Facts.

(** ** The entries *)

Lemma assoc_put id e l k :
  Reader.assoc k (put_entry id e l) = if k =s id then Some e else Reader.assoc k l.
Proof.
  induction l as [|[k' e'] l IH]; cbn; [by destruct (k =s id)|]. destruct (k' =s id) eqn:E; bool_prop.
  - subst k'. cbn. by destruct (k =s id).
  - cbn. rewrite IH. destruct (k =s k') eqn:Ek; [|done]. bool_prop. subst k'. by rewrite (proj2 (String.eqb_neq k id)).
Qed.

Lemma keys_put id e l k : k ∈ map fst (put_entry id e l) <-> k = id \/ k ∈ map fst l.
Proof.
  induction l as [|[k' e'] l IH]; cbn; [set_solver|]. destruct (k' =s id) eqn:E; cbn; bool_prop.
  - subst. rewrite !elem_of_cons. tauto.
  - rewrite !elem_of_cons, IH. tauto.
Qed.

Lemma NoDup_put id e l : NoDup (map fst l) -> NoDup (map fst (put_entry id e l)).
Proof.
  induction l as [|[k' e'] l IH]; cbn; [by intros; apply NoDup_singleton|]. intros [Hk Hn]%NoDup_cons.
  destruct (k' =s id) eqn:E; cbn; bool_prop; [subst; by constructor|]. constructor; [|by apply IH].
  rewrite keys_put. by intros [?|?].
Qed.

Lemma put_keyed id e l :
  Forall (fun x => fst x = id_of (snd x)) l -> id_of e = id -> Forall (fun x => fst x = id_of (snd x)) (put_entry id e l).
Proof.
  induction 1 as [|[k' e'] l Hk Hl IH]; intros Hid; cbn; [by constructor|]. destruct (k' =s id); by constructor; auto.
Qed.

Lemma assoc_keyed k e l : Forall (fun x => fst x = id_of (snd x)) l -> Reader.assoc k l = Some e -> id_of e = k.
Proof.
  induction 1 as [|[k' e'] l Hk Hl IH]; cbn; [done|]. destruct (k =s k') eqn:E; [|exact IH].
  bool_prop. subst. cbn in Hk. by intros [= <-].
Qed.

Record runs_ok (st : fold_runs) : Prop := {
  ro_keyed : Forall (fun x => fst x = id_of (snd x)) (fr_entries st);
  ro_once : NoDup (map fst (fr_entries st))
}.

Definition runs_grow (st st' : fold_runs) : Prop := forall id e,
  Reader.assoc id (fr_entries st) = Some e -> exists e', Reader.assoc id (fr_entries st') = Some e' /\ entry_grows e e'.

Lemma runs_grow_refl st : runs_grow st st.
Proof. intros id e H. exists e. split; [done|apply entry_grows_refl]. Qed.

Lemma runs_grow_trans st1 st2 st3 : runs_grow st1 st2 -> runs_grow st2 st3 -> runs_grow st1 st3.
Proof.
  intros H1 H2 id e He. destruct (H1 id e He) as (e2 & He2 & G1). destruct (H2 id e2 He2) as (e3 & He3 & G2).
  exists e3. split; [done|by eapply entry_grows_trans].
Qed.

Section Fold.
Context `{Engines}.
Variable session_id : string.

(** The public id of the child a part is about. *)
Definition child_of (part : dict) : res string :=
  match Py.get "data" part with
  | VDict raw => public_child_run_id session_id (clean_of "engineKind" raw) (clean_of "engineRef" raw)
  | _ => Raise ChildRunProjectionError
  end.

Lemma part_fact_spec wm sigs part r :
  part_fact wm sigs part = Ok r ->
  match r with
  | None => exists s, Reader.assoc (clean_of "id" part) sigs = Some s
  | Some (b, kind, sig, data) =>
      b = clean_of "id" part /\ exists raw, Py.get "data" part = VDict raw /\ kind = clean_of "engineKind" raw /\
        Py.get "engineRef" data = VStr (clean_of "engineRef" raw)
  end.
Proof.
  unfold part_fact. destruct (Py.get "data" part) as [| | | | | |raw0]; try done. destruct (Py.is_empty _); [done|].
  set (raw := if negb wm && _ then _ else _). assert (Hraw : same_but ["content"] raw0 raw).
  { unfold raw. destruct (_ && _); [apply same_but_set|done]. }
  intros H0. apply bind_ok in H0 as (data0 & Hd & H0). destruct (fact_checked _ _ _ Hd) as (_ & _ & Href).
  apply bind_ok in H0 as (data & Hdata & H0).
  assert (Hr : Py.get "engineRef" data = VStr (clean_of "engineRef" raw0)).
  { rewrite <-(same_clean _ "engineRef" _ _ Hraw) by not_a_field. destruct (_ && wm).
    - apply bind_ok in Hdata as (a & _ & Hdata). apply bind_ok in Hdata as (c & _ & <-%Ok_inj). rewrite get_set_ne by done.
      unfold Py.get. by rewrite Href.
    - apply Ok_inj in Hdata as <-. unfold Py.get. by rewrite Href. }
  destruct (Reader.assoc (clean_of "id" part) sigs) as [s|].
  - apply bind_ok in H0 as (u & _ & <-%Ok_inj). by exists s.
  - apply Ok_inj in H0 as <-. split; [done|]. exists raw0. split; [done|]. split; [|done].
    by rewrite (same_clean _ "engineKind" _ _ Hraw) by not_a_field.
Qed.

Lemma fold_part_spec wm st order part st' :
  runs_ok st -> fold_part session_id wm st (order, part) = Ok st' ->
  runs_ok st' /\ runs_grow st st' /\
  ((st' = st /\ exists s, Reader.assoc (clean_of "id" part) (fr_signatures st) = Some s) \/
   exists id sig, child_of part = Ok id /\ (forall k, k ∈ map fst (fr_entries st') <-> k = id \/ k ∈ map fst (fr_entries st)) /\
     fr_signatures st' = (fr_signatures st ++ [(clean_of "id" part, sig)])%list).
Proof.
  intros [Hk Hn] H0. cbn [fold_part] in H0. apply bind_ok in H0 as (fact & Hfact%part_fact_spec & H0).
  destruct fact as [[[[b kind] sig] data0]|].
  2:{ apply Ok_inj in H0 as <-. split; [done|]. split; [apply runs_grow_refl|by left]. }
  destruct Hfact as (-> & raw & Hraw & -> & Href). rewrite Href in H0. cbn [Py.str] in H0.
  apply bind_ok in H0 as (id & Hid & H0). apply bind_ok in H0 as (data & _ & H0).
  apply bind_ok in H0 as (entry & Hentry & H0). apply bind_ok in H0 as (entry' & Hg%apply_fact_grows & <-%Ok_inj).
  assert (Hide : id_of entry = id /\ forall e, Reader.assoc id (fr_entries st) = Some e -> e = entry).
  { unfold entry_for in Hentry. destruct (Reader.assoc id (fr_entries st)) as [e|] eqn:Ea.
    - apply bind_ok in Hentry as (u & _ & <-%Ok_inj). split; [by eapply assoc_keyed|]. by intros e' [= <-].
    - apply Ok_inj in Hentry as <-. by split. }
  destruct Hide as [Hide Hsame].
  assert (Hide' : id_of entry' = id).
  { rewrite <-Hide. pose proof (Forall_inv (eg_fixed _ _ Hg)) as E. unfold id_of, Py.get. by rewrite E. }
  split; [split; cbn; [by apply put_keyed|by apply NoDup_put]|]. split.
  - intros k e He. cbn. rewrite assoc_put. destruct (k =s id) eqn:E; [|exists e; split; [done|apply entry_grows_refl]].
    bool_prop. subst k. exists entry'. split; [done|]. by rewrite (Hsame e He).
  - right. exists id, sig. split; [unfold child_of; by rewrite Hraw|]. split; [|done]. intros k. apply keys_put.
Qed.

(** What the log said of a sub-agent stands.  However the fold goes on, each child
    keeps its public id, engine, engine reference and place; a parent or control handle once
    known never changes; the tool calls it is known by only get more; and each of its messages
    keeps its place, speaker and id, only its content being merged into. *)
Theorem child_entries_grow with_messages st parts st' :
  runs_ok st -> foldM (fold_part session_id with_messages) st parts = Ok st' ->
  runs_ok st' /\ runs_grow st st'.
Proof.
  intros Hok. revert st Hok. induction parts as [|[order part] parts IH]; intros st Hok H0; cbn [foldM] in H0.
  - injection H0 as <-. split; [done|apply runs_grow_refl].
  - destruct (fold_part session_id with_messages st (order, part)) as [st1|] eqn:E; [|done].
    destruct (fold_part_spec _ _ _ _ _ Hok E) as (Hok1 & Hg1 & _). destruct (IH _ Hok1 H0) as [Hok2 Hg2].
    split; [done|by eapply runs_grow_trans].
Qed.

(** What the loop has met. *)
Record folded (met : list (Z * dict)) (st : fold_runs) : Prop := {
  fo_ok : runs_ok st;
  fo_children : forall id, id ∈ map fst (fr_entries st) <-> exists x, x ∈ met /\ child_of (snd x) = Ok id;
  fo_blocks : forall b s, (b, s) ∈ fr_signatures st -> exists x, x ∈ met /\ clean_of "id" (snd x) = b
}.

Lemma fold_met with_messages parts st :
  (forall p q, p ∈ parts -> q ∈ parts -> clean_of "id" p = clean_of "id" q -> Py.get "data" p = Py.get "data" q) ->
  fold_parts_loop session_id with_messages parts = Ok st -> folded (imap (fun i p => (Z.of_nat i, p)) parts) st.
Proof.
  intros Hsame H0. unfold fold_parts_loop in H0. set (l := imap _ _) in *.
  assert (Hl : forall x, x ∈ l -> snd x ∈ parts).
  { intros x Hx. apply elem_of_lookup_imap in Hx as (i & p & -> & Hp). cbn. by eapply list_elem_of_lookup_2. }
  assert (Hmet : folded l st /\ l ⊆ l); [|by destruct Hmet].
  refine (foldM_loop (fun met st => folded met st /\ met ⊆ l) _ _ _ _ _ _ H0).
  - split; [|by intros ? ?%not_elem_of_nil]. split; cbn; [split; constructor| |by intros ? ? ?%not_elem_of_nil].
    intros id. split; [by intros ?%not_elem_of_nil|]. by intros (x & ?%not_elem_of_nil & _).
  - intros met [order part] st0 st1 [[Hok Hch Hb] Hsub] Hin Hf. destruct (fold_part_spec _ _ _ _ _ Hok Hf) as (Hok1 & _ & Hcase).
    split; [|intros x [Hx| ->%list_elem_of_singleton]%elem_of_app; [by apply Hsub|done]].
    destruct Hcase as [[-> (s & Hs)]|(id & sig & Hid & Hkeys & Hsig)].
    + apply Reader.assoc_in in Hs. destruct (Hb _ _ Hs) as ([o2 p2] & Hp2 & E2). cbn [snd] in E2.
      assert (Hdata : Py.get "data" p2 = Py.get "data" part).
      { apply Hsame; [by apply (Hl (o2, p2)), Hsub|by apply (Hl (order, part))|done]. }
      assert (Hc : child_of p2 = child_of part) by (unfold child_of; by rewrite Hdata).
      split; [done| |intros b s' (x & Hx & E)%Hb; exists x; split; [apply elem_of_app; by left|done]].
      intros id. rewrite Hch. split; intros (x & Hx & E).
      * exists x. split; [apply elem_of_app; by left|done].
      * apply elem_of_app in Hx as [Hx| ->%list_elem_of_singleton]; [by exists x|]. exists (o2, p2). cbn in *. by rewrite Hc.
    + split; [done| |].
      * intros k. rewrite Hkeys, Hch. split.
        -- intros [->|(x & Hx & E)]; [exists (order, part); split; [apply elem_of_app; right; left|done]|].
           exists x. split; [apply elem_of_app; by left|done].
        -- intros (x & [Hx| ->%list_elem_of_singleton]%elem_of_app & E); [right; by exists x|left]. cbn in E. congruence.
      * intros b s Hin2. rewrite Hsig in Hin2. apply elem_of_app in Hin2 as [(x & Hx & E)%Hb|[= -> ->]%list_elem_of_singleton].
        -- exists x. split; [apply elem_of_app; by left|done].
        -- exists (order, part). split; [apply elem_of_app; right; left|done].
Qed.

(** The listed children, by their ids. *)
Definition by_id (ordered : list dict) : list (string * dict) := map (fun e => (id_of e, e)) ordered.

Lemma in_strs_ext x l l' : (forall y, y ∈ l <-> y ∈ l') -> Py.in_strs x l = Py.in_strs x l'.
Proof. intros Hl. apply eq_true_iff_eq. rewrite !in_strs_true. apply Hl. Qed.

Lemma placed_ext entries entries' ordered i e :
  (forall id, id ∈ map fst entries <-> id ∈ map fst entries') -> placed entries ordered i e -> placed entries' ordered i e.
Proof. intros Hl. unfold placed, is_root. by rewrite (in_strs_ext _ _ _ Hl). Qed.

(** A session's list of sub-agents is exact.  When the log folds to a list, it lists
    each child the log names, once, and no other; every one was reported by its engine, not
    only heard; and each stands below its parent, which comes before it, one level deeper, or
    at level one when the log names no such parent. *)
Theorem child_runs_listed parts with_messages ordered :
  (forall p q, p ∈ parts -> q ∈ parts -> clean_of "id" p = clean_of "id" q -> Py.get "data" p = Py.get "data" q) ->
  fold_child_runs session_id parts with_messages = Ok ordered ->
  NoDup (map id_of ordered) /\
  (forall id, id ∈ map id_of ordered <-> exists p, p ∈ parts /\ child_of p = Ok id) /\
  Forall (fun e => reported e = true) ordered /\
  forall i e, ordered !! i = Some e -> placed (by_id ordered) ordered i e.
Proof.
  intros Hsame H0. unfold fold_child_runs in H0. apply bind_ok in H0 as (st & Hst & H0).
  apply bind_ok in H0 as (ordered' & Hord & H0). apply bind_ok in H0 as (u & Hrep%refuse_ok & <-%Ok_inj).
  destruct (fold_met _ _ _ Hsame Hst) as [[Hk Hn] Hch _]. pose proof (tree_order_forest _ _ Hord) as Hac.
  destruct (tree_order_works _ Hk Hac) as (w & E & [Hv Ho Hall Hp] & Hmet). rewrite Hord in E. injection E as ->.
  assert (Hids : forall id, id ∈ map fst (fr_entries st) <-> id ∈ map id_of (wk_ordered w)).
  { intros id. rewrite <-(ids_eq _ Hk), <-Hv. split.
    - intros (e & -> & He)%list_elem_of_fmap. by apply Hmet.
    - rewrite Hv. intros (o & -> & Hin)%list_elem_of_fmap. rewrite Forall_forall in Hall.
      destruct (Hall o Hin) as (e & d & He & ->). destruct (set_depth (fr_entries st) (VInt d) e) as (-> & _).
      by apply list_elem_of_fmap_2. }
  split; [done|]. split; [|split].
  - intros id. rewrite <-Hids, Hch. split.
    + intros (x & Hx & E). apply elem_of_lookup_imap in Hx as (i & p & -> & Hi). exists p.
      split; [by eapply list_elem_of_lookup_2|done].
    + intros (p & Hin & E). apply list_elem_of_lookup in Hin as [i Hi]. exists (Z.of_nat i, p).
      split; [|done]. apply elem_of_lookup_imap. by exists i, p.
  - apply negb_false_iff in Hrep. apply Forall_forall. intros e He.
    eapply (proj1 (forallb_forall _ _)); [exact Hrep|]. by apply list_elem_of_In.
  - intros i e Hi. eapply placed_ext; [|by apply Hp]. intros id. rewrite Hids. unfold by_id. by rewrite map_map.
Qed.
End Fold.

(** ** Witness *)

(** One engine, with the base adapter's methods. *)
#[local] Instance demo_engines : Engines :=
  fun kind => if kind =s "claude" then Some (Adapter base_content deepseek_is_active base_reopens None None None) else None.

Definition demo_part (block_id : string) (data : dict) : dict := [("id", VStr block_id); ("data", VDict data)].

(** A child that speaks before it is reported, below one that is reported after it. *)
Definition demo_parts : list dict :=
  [demo_part "1" [("kind", VStr "message"); ("engineKind", VStr "claude"); ("engineRef", VStr "b"); ("role", VStr "assistant");
                  ("parentEngineRef", VStr "a"); ("content", VList [VDict [("type", VStr "text"); ("text", VStr "hi")]])];
   demo_part "2" [("kind", VStr "lifecycle"); ("engineKind", VStr "claude"); ("engineRef", VStr "a"); ("event", VStr "opened");
                  ("engineEvent", VStr "task_started"); ("operations", VList [])];
   demo_part "3" [("kind", VStr "lifecycle"); ("engineKind", VStr "claude"); ("engineRef", VStr "b"); ("event", VStr "closed");
                  ("engineEvent", VStr "task_done"); ("parentEngineRef", VStr "a"); ("operations", VList [])]].

Lemma child_entries_grow_witness :
  match foldM (fold_part "s" true) (FoldRuns [] []) (imap (fun i p => (Z.of_nat i, p)) (take 1 demo_parts)) with
  | Ok st =>
      length (fr_entries st) = 1%nat /\
      match foldM (fold_part "s" true) st (imap (fun i p => (Z.of_nat (S i), p)) (drop 1 demo_parts)) with
      | Ok st' => length (fr_entries st') = 2%nat /\ runs_grow st st'
      | Raise _ => False
      end
  | Raise _ => False
  end.
Proof.
  assert (H0 : runs_ok (FoldRuns [] [])) by (split; constructor).
  destruct (foldM _ (FoldRuns [] []) _) as [st|e] eqn:E; [|vm_compute in E; discriminate].
  destruct (child_entries_grow _ _ _ _ _ H0 E) as [H1 _].
  vm_compute in E. apply Ok_inj in E. subst st. split; [reflexivity|].
  destruct (foldM _ (FoldRuns _ _) _) as [st'|e] eqn:E'; [|vm_compute in E'; discriminate].
  split; [vm_compute in E'; injection E' as <-; reflexivity|]. exact (proj2 (child_entries_grow _ _ _ _ _ H1 E')).
Defined.

Lemma child_runs_listed_witness :
  match fold_child_runs "s" demo_parts true with
  | Ok ordered => length ordered = 2%nat /\ NoDup (map id_of ordered)
  | Raise _ => False
  end.
Proof.
  assert (Hsame : forall p q, p ∈ demo_parts -> q ∈ demo_parts -> clean_of "id" p = clean_of "id" q ->
    Py.get "data" p = Py.get "data" q).
  { assert (H : Forall (fun p => Forall (fun q => clean_of "id" p = clean_of "id" q -> Py.get "data" p = Py.get "data" q) demo_parts) demo_parts)
      by (repeat constructor; intros E; first [reflexivity|discriminate E]).
    intros p q Hp Hq. rewrite Forall_forall in H. specialize (H p Hp). rewrite Forall_forall in H. exact (H q Hq). }
  destruct (fold_child_runs "s" demo_parts true) as [ordered|e] eqn:E; [|vm_compute in E; discriminate].
  split; [|exact (proj1 (child_runs_listed _ _ _ _ Hsame E))].
  vm_compute in E. injection E as <-. reflexivity.
Defined.

End ChildRunFacts.
