(* ===== verification/SandboxLedger.v ===== *)
(** [persistence/repository/sandbox_quota_repository.py] over the tables of
    [persistence/sql/models/sandboxes.py]: each environment and backend's quota ledger, its
    inventory and its reservations, one row per box. *)

From stdpp Require Import sorting.
From S2P Require Import Prelude PyVal.

Open Scope string_scope.

Module Ledger.

(** ** Tables *)

Record capacity := Capacity { cp_backend : string; cp_environment : string; cp_inventory_at : option Z }.

Inductive reservation_state := Creating | Created.

#[export] Instance reservation_state_dec : EqDecision reservation_state.
Proof. solve_decision. Defined.

Record reservation := Reservation {
  rv_backend : string;
  rv_environment : string;
  rv_key : string;
  rv_state : reservation_state;
  rv_cpu : Z;  (** millicores *)
  rv_memory : Z;
  rv_reason : string;
  rv_session_id : option string;
  rv_assignment_id : string;
  rv_sandbox_id : option string;
  rv_reserved_at : Z;
  rv_box_created_at : option Z
}.

(** What a listing says of one box. *)
Record listed_box := ListedBox {
  lb_sandbox_id : string;
  lb_cpu : Z;
  lb_memory : Z;
  lb_released : bool;
  lb_state : string;
  lb_session_id : option string
}.

#[export] Instance listed_box_dec : EqDecision listed_box.
Proof. solve_decision. Defined.

(** A row of the inventory. *)
Record inventory_row := InventoryRow { iv_backend : string; iv_environment : string; iv_box : listed_box }.

#[export] Instance inventory_row_dec : EqDecision inventory_row.
Proof. solve_decision. Defined.

Record ledger := MkLedger { lg_capacity : list capacity; lg_reservations : list reservation; lg_inventory : list inventory_row }.

Definition with_capacity (t : list capacity) (l : ledger) : ledger := MkLedger t (lg_reservations l) (lg_inventory l).
Definition with_reservations (t : list reservation) (l : ledger) : ledger := MkLedger (lg_capacity l) t (lg_inventory l).
Definition with_inventory (t : list inventory_row) (l : ledger) : ledger := MkLedger (lg_capacity l) (lg_reservations l) t.

(** ** Usage *)

Section Repository.
Variables backend environment : string.

(** [_backend_owner] on each table. *)
Definition owns_capacity (r : capacity) : bool := (cp_backend r =s backend) && (cp_environment r =s environment).
Definition owns_reservation (r : reservation) : bool := (rv_backend r =s backend) && (rv_environment r =s environment).
Definition owns_box (r : inventory_row) : bool := (iv_backend r =s backend) && (iv_environment r =s environment).

(** [_held_by_inventory]: SQL's [NULL] sandbox id equals none. *)
Definition holds (r : reservation) (box : inventory_row) : bool :=
  (iv_backend box =s rv_backend r) && (iv_environment box =s rv_environment r) &&
  bool_decide (rv_sandbox_id r = Some (lb_sandbox_id (iv_box box))) && negb (lb_released (iv_box box)).

Definition held_by_inventory (l : ledger) (r : reservation) : bool := exists_where (holds r) (lg_inventory l).

Record usage := Usage { us_boxes : Z; us_memory : Z; us_cpu : Z; us_creating : Z }.

Definition total (l : list Z) : Z := foldr Z.add 0%Z l.

(** The boxes the inventory charges. *)
Definition charged (l : ledger) : list inventory_row :=
  select_where (fun r => owns_box r && negb (lb_released (iv_box r))) (lg_inventory l).

(** The reservations for boxes it does not. *)
Definition pending (l : ledger) : list reservation :=
  select_where (fun r => owns_reservation r && negb (held_by_inventory l r)) (lg_reservations l).

(** [_usage_statement]. *)
Definition usage_statement (l : ledger) : usage :=
  Usage (Z.of_nat (length (charged l)) + Z.of_nat (length (pending l)))
    (total (map (fun r => lb_memory (iv_box r)) (charged l)) + total (map rv_memory (pending l)))
    (total (map (fun r => lb_cpu (iv_box r)) (charged l)) + total (map rv_cpu (pending l)))
    (Z.of_nat (count_where (fun r => bool_decide (rv_state r = Creating)) (pending l))).

(** ** Methods *)

(** When the ledger's inventory was taken, of its row. *)
Definition inventory_at (l : ledger) : option Z :=
  match select_where owns_capacity (lg_capacity l) with c :: _ => cp_inventory_at c | [] => None end.

Definition same_reservation (a b : reservation) : bool :=
  (rv_backend a =s rv_backend b) && (rv_environment a =s rv_environment b) && (rv_key a =s rv_key b).

(** [admit]: [now] is the database's clock, [refuse] judges the usage under the lock. *)
Definition admit_body {T} (now : Z) (key : string) (cpu memory : Z) (reason : string) (session_id : option string)
  (assignment_id : string) (refuse : option (usage -> option T)) : txn ledger (option T) :=
  l ← get_state;
  match inventory_at l with
  | None => throw InventoryNotTaken
  | Some _ =>
      match refuse ≫= (fun judge => judge (usage_statement l)) with
      | Some refusal => mret (Some refusal)
      | None =>
          let row := Reservation backend environment key Creating cpu memory reason session_id assignment_id None now None in
          _ ← modify_res (fun l => t ← insert_unique same_reservation row (lg_reservations l); Ok (with_reservations t l));
          mret None
      end
  end.

Definition admit_reservation {T} (now : Z) (key : string) (cpu memory : Z) (reason : string) (session_id : option string)
  (assignment_id : string) (refuse : option (usage -> option T)) : ledger -> res (option T) * ledger :=
  transaction (admit_body now key cpu memory reason session_id assignment_id refuse).

Definition keyed (key : string) (r : reservation) : bool := owns_reservation r && (rv_key r =s key).

Definition set_created (now : Z) (sandbox_id : string) (r : reservation) : reservation :=
  Reservation (rv_backend r) (rv_environment r) (rv_key r) Created (rv_cpu r) (rv_memory r) (rv_reason r)
    (rv_session_id r) (rv_assignment_id r) (Some sandbox_id) (rv_reserved_at r) (Some now).

(** [mark_created]. *)
Definition mark_created (now : Z) (key sandbox_id : string) (l : ledger) : ledger :=
  with_reservations (update_where (keyed key) (set_created now sandbox_id) (lg_reservations l)) l.

(** [release]. *)
Definition release (key : string) (l : ledger) : ledger :=
  with_reservations (delete_where (keyed key) (lg_reservations l)) l.

(** [{str(box["sandbox_id"]): box for box in boxes}]. *)
Fixpoint put_listed (box : listed_box) (listed : list listed_box) : list listed_box :=
  match listed with
  | [] => [box]
  | b :: rest => if lb_sandbox_id b =s lb_sandbox_id box then box :: rest else b :: put_listed box rest
  end.
Definition index_listed (boxes : list listed_box) : list listed_box := fold_left (fun acc b => put_listed b acc) boxes [].

Definition row_of (box : listed_box) : inventory_row := InventoryRow backend environment box.

Definition is_box (id : string) (r : inventory_row) : bool := owns_box r && (lb_sandbox_id (iv_box r) =s id).

(** The rows that are new or differ from the stored ones. *)
Definition changed_rows (listed : list listed_box) (t : list inventory_row) : list inventory_row :=
  List.filter (fun row => match select_where (is_box (lb_sandbox_id (iv_box row))) t with
                          | existing :: _ => negb (bool_decide (iv_box existing = iv_box row))
                          | [] => true
                          end) (map row_of listed).

(** One row of the upsert, by primary key. *)
Definition upsert_row (t : list inventory_row) (row : inventory_row) : list inventory_row :=
  let id := lb_sandbox_id (iv_box row) in
  if exists_where (is_box id) t then update_where (is_box id) (fun _ => row) t else (t ++ [row])%list.

(** The inventory after a listing: rows it does not name are gone. *)
Definition replace_inventory (listed : list listed_box) (t : list inventory_row) : list inventory_row :=
  let kept := delete_where (fun r => owns_box r && negb (Py.in_strs (lb_sandbox_id (iv_box r)) (map lb_sandbox_id listed))) t in
  fold_left upsert_row (changed_rows listed kept) kept.

(** A reservation settled without its box in the inventory: gone again, or never answered. *)
Definition settled (taken_at create_grace : Z) (r : reservation) : bool :=
  match rv_state r with
  | Created => match rv_box_created_at r with Some at_ => (at_ <? taken_at)%Z | None => false end
  | Creating => (rv_reserved_at r <? taken_at - create_grace)%Z
  end.

Definition set_inventory_at (taken_at : Z) (c : capacity) : capacity :=
  Capacity (cp_backend c) (cp_environment c) (Some taken_at).

Definition older (taken_at : Z) (c : capacity) : bool :=
  owns_capacity c && match cp_inventory_at c with None => true | Some t => (t <? taken_at)%Z end.

Definition same_capacity (a b : capacity) : bool :=
  (cp_backend a =s cp_backend b) && (cp_environment a =s cp_environment b).

(** [fold_inventory]: how many reservations it released, [None] when a later inventory is
    already there. *)
Definition fold_inventory (taken_at : Z) (boxes : list listed_box) (create_grace : Z) (l : ledger)
  : option nat * ledger :=
  let listed := index_listed boxes in
  let l0 := with_capacity (insert_if_absent same_capacity (Capacity backend environment None) (lg_capacity l)) l in
  if negb (count_where (older taken_at) (lg_capacity l0) =? 1)%nat then (None, l0)
  else
    let l1 := with_capacity (update_where (older taken_at) (set_inventory_at taken_at) (lg_capacity l0)) l0 in
    let l2 := with_inventory (replace_inventory listed (lg_inventory l1)) l1 in
    let l3 := with_reservations (delete_where (fun r => owns_reservation r && held_by_inventory l2 r) (lg_reservations l2)) l2 in
    let gone := fun r => owns_reservation r && settled taken_at create_grace r in
    (Some (count_where gone (lg_reservations l3)), with_reservations (delete_where gone (lg_reservations l3)) l3).

(** [inventory_box]. *)
Definition inventory_box (sandbox_id : string) (l : ledger) : option listed_box :=
  iv_box <$> head (select_where (is_box sandbox_id) (lg_inventory l)).

(** [list_inventory]. *)
Definition row_le (a b : inventory_row) : Prop :=
  String.leb (lb_sandbox_id (iv_box a)) (lb_sandbox_id (iv_box b)) = true.
#[export] Instance row_le_dec a b : Decision (row_le a b).
Proof. unfold row_le. apply _. Defined.
Definition list_inventory (l : ledger) : list listed_box :=
  map iv_box (merge_sort row_le (select_where owns_box (lg_inventory l))).

(** [list_pending_reservations]. *)
Definition reserved_le (a b : reservation) : Prop :=
  (rv_reserved_at a < rv_reserved_at b)%Z \/ rv_reserved_at a = rv_reserved_at b /\ String.leb (rv_key a) (rv_key b) = true.
#[export] Instance reserved_le_dec a b : Decision (reserved_le a b).
Proof. unfold reserved_le. apply _. Defined.
Definition list_pending_reservations (l : ledger) : list reservation := merge_sort reserved_le (pending l).

(** [ledger]. *)
Definition read_ledger (l : ledger) : usage * option Z := (usage_statement l, inventory_at l).
End Repository.

End Ledger.
