(* ===== verification/SandboxQuota.v ===== *)
(** [runtime/sandbox_quota.py]: what each sandbox backend may run.  Every box is reserved
    before its backend is asked for it; a refused one reconciles the ledger with what the
    backend lists, once, before it is refused.  Cores are counted in billionths, exactly; the
    code computes them in floating point, with the same billionth as tolerance. *)

From S2P Require Import Prelude PyVal SandboxLedger.

Open Scope string_scope.

Module Quota.
Import Ledger.

Definition QUOTA_CPU_METADATA_KEY := "astrabox.quota-cpu-millicores".
Definition QUOTA_MEMORY_METADATA_KEY := "astrabox.quota-memory-bytes".

(** [_GIB], [_HOST_RESERVE_BYTES] and [_CREATE_GRACE] (in microseconds). *)
Definition GIB : Z := 2 ^ 30.
Definition HOST_RESERVE_BYTES : Z := 4 * 2 ^ 30.
Definition CREATE_GRACE : Z := 15 * 60 * 1000000.

(** ** Charges, ceilings and usage *)

Record sandbox_charge := SandboxCharge { ch_cpu : Z; ch_memory : Z }.

#[export] Instance sandbox_charge_dec : EqDecision sandbox_charge.
Proof. solve_decision. Defined.

(** [round]: to the nearest, halves to even. *)
Definition round_div (n d : Z) : Z :=
  let q := (n / d)%Z in
  let r := (n mod d)%Z in
  if (2 * r <? d)%Z then q else if (d <? 2 * r)%Z then (q + 1)%Z else if Z.even q then q else (q + 1)%Z.

Definition NANO_PER_MILLI : Z := 1000000.

Definition cpu_millicores (c : sandbox_charge) : Z := round_div (ch_cpu c) NANO_PER_MILLI.

(** [metadata]. *)
Definition charge_metadata (c : sandbox_charge) : dict :=
  [(QUOTA_CPU_METADATA_KEY, VStr (pretty (cpu_millicores c))); (QUOTA_MEMORY_METADATA_KEY, VStr (pretty (ch_memory c)))].

Record sandbox_quota := SandboxQuota {
  qt_boxes : option Z; qt_memory : option Z; qt_cpu : option Z; qt_concurrent_creates : option Z }.

Definition no_quota : sandbox_quota := SandboxQuota None None None None.

(** [SandboxUsage.from_ledger]: cores from millicores. *)
Definition from_ledger (u : usage) : usage :=
  Usage (us_boxes u) (us_memory u) (us_cpu u * NANO_PER_MILLI) (us_creating u).

(** [_QUOTAS] and [quota_for]. *)
Definition quota_for (quotas : list (string * sandbox_quota)) (backend : string) : sandbox_quota :=
  match List.find (fun q => fst q =s backend) quotas with Some q => snd q | None => no_quota end.

(** The ceiling a box would pass. *)
Inductive ceiling := Boxes | Memory | Cpu | ConcurrentCreates.

(** [SandboxCapacityExhausted]. *)
Definition capacity_exhausted : exn := APIError "SANDBOX_CAPACITY_EXHAUSTED" 429.

Definition over (limit : option Z) (use : Z) : bool := match limit with Some l => (l <? use)%Z | None => false end.

(** [_refusal], on a usage of [from_ledger]. *)
Definition refusal (quota : sandbox_quota) (u : usage) (charge : sandbox_charge) : option ceiling :=
  if over (qt_boxes quota) (us_boxes u + 1) then Some Boxes
  else if over (qt_memory quota) (us_memory u + ch_memory charge) then Some Memory
  else if over (Z.add 1 <$> qt_cpu quota) (us_cpu u + ch_cpu charge) then Some Cpu
  else if over (qt_concurrent_creates quota) (us_creating u + 1) then Some ConcurrentCreates
  else None.

(** [_has_ceiling]. *)
Definition has_ceiling (quota : sandbox_quota) : bool :=
  match quota with SandboxQuota None None None None => false | _ => true end.

(** ** Providers *)

(** What the quota asks of a [SandboxProvider]; what it lists is an argument. *)
Record provider := Provider {
  pv_name : string;
  pv_overhead_cpu : Z;
  pv_overhead_memory : Z;
  pv_paused_box_releases_resources : bool;
  pv_supports_inventory_listing : bool;
  pv_supports_correlated_create : bool
}.

(** [box_charge], of limits read as quantities. *)
Definition box_charge (p : provider) (cpu memory : Z) : sandbox_charge :=
  SandboxCharge (cpu + pv_overhead_cpu p) (memory + pv_overhead_memory p).

(** One item of a listing. *)
Record listed_item := ListedItem { li_sandbox_id : string; li_metadata : dict; li_state : string; li_session_id : option string }.

(** The charge a box was created with, or the larger kind's. *)
Definition recorded_charge (unknown : sandbox_charge) (metadata : dict) : res (Z * Z) :=
  let read := cpu ← Py.item QUOTA_CPU_METADATA_KEY metadata;
              c ← Py.int cpu;
              memory ← Py.item QUOTA_MEMORY_METADATA_KEY metadata;
              m ← Py.int memory;
              Ok (c, m) in
  match read with
  | Raise KeyError | Raise ValueError => Ok (cpu_millicores unknown, ch_memory unknown)
  | r => r
  end.

(** One item of [_inventory]. *)
Definition inventory_item (p : provider) (unknown : sandbox_charge) (item : listed_item) : res listed_box :=
  charge ← recorded_charge unknown (li_metadata item);
  Ok (ListedBox (li_sandbox_id item) (fst charge) (snd charge)
        (pv_paused_box_releases_resources p && (Py.upper (li_state item) =s "PAUSED"))
        (li_state item) (li_session_id item)).

(** One page: a later item of a box takes the place of an earlier. *)
Fixpoint inventory_page (p : provider) (unknown : sandbox_charge) (items : list listed_item) (boxes : list listed_box)
  : res (list listed_box) :=
  match items with
  | [] => Ok boxes
  | item :: rest => box ← inventory_item p unknown item; inventory_page p unknown rest (put_listed box boxes)
  end.

(** [_inventory], from what it has of the pages before; each page is listed when the one
    before it is taken in, so the pages see the backend at different times. *)
Fixpoint inventory (p : provider) (unknown : sandbox_charge) (pages : list (list listed_item)) (boxes : list listed_box)
  : res (list listed_box) :=
  match pages with
  | [] => Ok boxes
  | items :: rest => boxes ← inventory_page p unknown items boxes; inventory p unknown rest boxes
  end.

Section Service.
Variable environment : string.
Variable quotas : list (string * sandbox_quota).
(** What a box of unknown charge is taken for: [box_charge(provider, _shared_limits())]. *)
Variable unknown : sandbox_charge.

(** [reconcile_sandbox_quota]: the clock, then the listing, page by page, then the fold. *)
Definition reconcile_sandbox_quota (p : provider) (clock : Z) (pages : list (list listed_item)) (l : ledger)
  : res (nat * nat) * ledger :=
  match inventory p unknown pages [] with
  | Raise e => (Raise e, l)
  | Ok boxes =>
      let '(released, l') := fold_inventory (pv_name p) environment clock boxes CREATE_GRACE l in
      (Ok (length boxes, default 0%nat released), l')
  end.

Definition judge (p : provider) (charge : sandbox_charge) : option (usage -> option ceiling) :=
  let quota := quota_for quotas (pv_name p) in
  if has_ceiling quota then Some (fun u => refusal quota (from_ledger u) charge) else None.

(** The inner [admit] of [reserve]. *)
Definition admit_box (p : provider) (charge : sandbox_charge) (now : Z) (key reason session_id assignment_id : string)
  : ledger -> res (option ceiling) * ledger :=
  admit_reservation (pv_name p) environment now key (cpu_millicores charge) (ch_memory charge) reason
    (if Py.is_empty session_id then None else Some session_id) assignment_id (judge p charge).

(** [reserve]: [first] and [second] are the clock and the pages its reconciles see. *)
Definition reserve (p : provider) (charge : sandbox_charge) (now : Z) (key reason session_id assignment_id : string)
  (first second : Z * list (list listed_item)) (l : ledger) : res string * ledger :=
  let admit_now := admit_box p charge now key reason session_id assignment_id in
  let '(answer, l1) :=
    match admit_now l with
    | (Raise InventoryNotTaken, l0) =>
        match reconcile_sandbox_quota p (fst first) (snd first) l0 with
        | (Ok _, l0') => admit_now l0'
        | (Raise e, l0') => (Raise e, l0')
        end
    | r => r
    end in
  match answer with
  | Raise e => (Raise e, l1)
  | Ok None => (Ok key, l1)
  | Ok (Some _) =>
      match reconcile_sandbox_quota p (fst second) (snd second) l1 with
      | (Raise e, l2) => (Raise e, l2)
      | (Ok _, l2) =>
          match admit_now l2 with
          | (Raise e, l3) => (Raise e, l3)
          | (Ok None, l3) => (Ok key, l3)
          | (Ok (Some _), l3) => (Raise capacity_exhausted, l3)
          end
      end
  end.

(** [reserve_resume]: the charge a paused box's resume must reserve, if any. *)
Definition resume_charge (p : provider) (sandbox_id : string) (l : ledger) : option sandbox_charge :=
  if negb (pv_paused_box_releases_resources p) || negb (pv_supports_inventory_listing p) then None
  else match inventory_box (pv_name p) environment sandbox_id l with
       | Some box => if negb (lb_released box) then None
                     else Some (SandboxCharge (lb_cpu box * NANO_PER_MILLI) (lb_memory box))
       | None => Some unknown
       end.

Definition reserve_resume (p : provider) (sandbox_id : string) (now : Z) (key : string)
  (first second : Z * list (list listed_item)) (l : ledger) : res (option string) * ledger :=
  match resume_charge p sandbox_id l with
  | None => (Ok None, l)
  | Some charge =>
      match reserve p charge now key "resume" "" sandbox_id first second l with
      | (Ok k, l') => (Ok (Some k), l')
      | (Raise e, l') => (Raise e, l')
      end
  end.

(** [settle_failed_create]: [existing] is what [find_sandbox_by_assignment] answers. *)
Definition settle_failed_create (p : provider) (key : string) (existing : option string) (now : Z) (l : ledger) : ledger :=
  if negb (pv_supports_correlated_create p) then l
  else match existing with
       | None => release (pv_name p) environment key l
       | Some sandbox_id => mark_created (pv_name p) environment now key sandbox_id l
       end.

(** What [quota_report] says of one backend, but for where its ceilings come from. *)
Record backend_report := BackendReport {
  br_backend : string;
  br_quota : sandbox_quota;
  br_usage : usage;
  br_inventory_at : option Z;
  br_boxes : list (string * Z * Z * string * option string);  (** id, millicores, bytes, state, session *)
  br_reservations : list reservation
}.

(** A released box holds none of its charge. *)
Definition shown_box (box : listed_box) : string * Z * Z * string * option string :=
  (lb_sandbox_id box, if lb_released box then 0%Z else lb_cpu box, if lb_released box then 0%Z else lb_memory box,
   lb_state box, lb_session_id box).

Definition report_of (l : ledger) (p : provider) : backend_report :=
  let name := pv_name p in
  let '(u, at_) := read_ledger name environment l in
  BackendReport name (quota_for quotas name) (from_ledger u) at_
    (map shown_box (list_inventory name environment l)) (list_pending_reservations name environment l).

(** [quota_report]. *)
Definition quota_report (providers : list provider) (l : ledger) : list backend_report :=
  map (report_of l) (List.filter pv_supports_inventory_listing providers).
End Service.

(** ** Startup *)

(** A memory ceiling: configured, unlimited, or what the host has left. *)
Definition memory_ceiling (unlimited : bool) (configured host : option Z) : option Z :=
  if unlimited then None
  else match configured with
       | Some m => Some m
       | None => (fun h => Z.max (h - HOST_RESERVE_BYTES) 0) <$> host
       end.

(** One provider of [configure_sandbox_quotas]. *)
Definition configure_one (boxes cpu creates : option Z) (unlimited_memory : bool) (memory : option Z)
  (p : provider * option Z) : res (string * sandbox_quota) :=
  let quota := SandboxQuota boxes (memory_ceiling unlimited_memory memory (snd p)) cpu creates in
  _ ← raise_if (has_ceiling quota && negb (pv_supports_inventory_listing (fst p))) RuntimeError;
  Ok (pv_name (fst p), quota).

(** [configure_sandbox_quotas]: each provider with its [host_memory_bytes]. *)
Definition configure_sandbox_quotas (boxes cpu creates : option Z) (unlimited_memory : bool) (memory : option Z)
  (providers : list (provider * option Z)) : res (list (string * sandbox_quota)) :=
  mapM_res (configure_one boxes cpu creates unlimited_memory memory) providers.

End Quota.
