(* ===== verification/QuotaFacts.v ===== *)
(** The sandbox quota holds: whatever creates, answers, losses and sweeps interleave, the
    boxes a backend runs stay within its ceilings. *)

From stdpp Require Import relations.
From S2P Require Import Prelude PyVal JsonText SandboxLedger SandboxQuota.

Open Scope string_scope.

Module QuotaFacts.
Import Ledger Quota.

(** ** A charge is read back from a box's metadata *)

Lemma digit_unspaced c : ((48 <=? Z.of_nat (Ascii.nat_of_ascii c)) && (Z.of_nat (Ascii.nat_of_ascii c) <=? 57))%Z = true -> Py.is_space c = false.
Proof.
  intros H. bool_prop. unfold Py.is_space. apply orb_false_iff. split; apply andb_false_iff; rewrite !Nat.leb_gt; lia.
Qed.

Lemma digits_unspaced a s z : Py.digits a s = Some z -> Py.rstrip s = s.
Proof.
  revert a. induction s as [|c s IH]; intros a H; [done|]. cbn [Py.digits] in H.
  destruct ((48 <=? _)%Z && _) eqn:E; [|done]. cbn [Py.rstrip]. rewrite (IH _ H), (digit_unspaced _ E).
  by destruct s.
Qed.

Lemma parse_pretty z : (0 <= z)%Z -> Py.parse_int (pretty z) = Some z.
Proof.
  intros Hz. destruct z as [|p|p]; [done| |lia]. change (pretty (Z.pos p)) with (pretty (N.pos p)).
  destruct (Json.number_digits (N.pos p) "" ltac:(done)) as (ip & Hp & Hne & _ & Hd & Hhead & _).
  rewrite !str_app_nil in Hp. rewrite Hp. destruct ip as [|c t]; [done|]. specialize (Hhead c t eq_refl).
  pose proof Hd as Hd'. cbn [Py.digits] in Hd'. destruct ((48 <=? Z.of_nat (Ascii.nat_of_ascii c)) && _)%Z eqn:E; [|done].
  unfold Py.parse_int, Py.strip. cbn [Py.lstrip]. rewrite (digit_unspaced _ E), (digits_unspaced _ _ _ Hd).
  assert (Hne' : forall n, (n < 48)%nat -> Ascii.eqb c (Ascii.ascii_of_nat n) = false).
  { intros n Hn. apply Ascii.eqb_neq. intros ->. bool_prop. rewrite Ascii.nat_ascii_embedding in * by lia. lia. }
  by rewrite !Hne' by lia.
Qed.

Lemma metadata_charge unknown c :
  (0 <= cpu_millicores c)%Z -> (0 <= ch_memory c)%Z ->
  recorded_charge unknown (charge_metadata c) = Ok (cpu_millicores c, ch_memory c).
Proof.
  intros Hc Hm. unfold recorded_charge, charge_metadata.
  change (Py.item QUOTA_CPU_METADATA_KEY _) with (@Ok val (VStr (pretty (cpu_millicores c)))).
  change (Py.item QUOTA_MEMORY_METADATA_KEY _) with (@Ok val (VStr (pretty (ch_memory c)))).
  cbn [mbind res_bind Py.int]. by rewrite !parse_pretty.
Qed.

Lemma round_nonneg n d : (0 < d)%Z -> (0 <= n)%Z -> (0 <= round_div n d)%Z.
Proof. intros Hd Hn. unfold round_div. pose proof (Z.div_pos n d Hn Hd). repeat case_match; lia. Qed.

(** Rounding adds or takes at most half a unit. *)
Lemma round_above n d : (0 < d)%Z -> (2 * (round_div n d * d) <= 2 * n + d)%Z.
Proof.
  intros Hd. unfold round_div. pose proof (Z.div_mod n d ltac:(lia)). pose proof (Z.mod_pos_bound n d Hd).
  repeat case_match; bool_prop; nia.
Qed.

Lemma round_below n d : (0 < d)%Z -> (2 * n <= 2 * (round_div n d * d) + d)%Z.
Proof.
  intros Hd. unfold round_div. pose proof (Z.div_mod n d ltac:(lia)). pose proof (Z.mod_pos_bound n d Hd).
  repeat case_match; bool_prop; nia.
Qed.

(** ** Sums *)

Lemma total_weights_app l l' : total (l ++ l') = (total l + total l')%Z.
Proof. induction l as [|x l IH]; [done|]. change (total ((x :: l) ++ l')) with (x + total (l ++ l'))%Z. change (total (x :: l)) with (x + total l)%Z. lia. Qed.

Lemma weights_nonneg {A} (f : A -> Z) l : (forall x, x ∈ l -> 0 <= f x)%Z -> (0 <= total (map f l))%Z.
Proof.
  induction l as [|x l IH]; intros H; [done|]. cbn. pose proof (H x ltac:(left)). specialize (IH ltac:(intros; apply H; by right)).
  unfold total in *. lia.
Qed.

Lemma total_sublist {A} (f : A -> Z) l l' :
  l `sublist_of` l' -> (forall x, x ∈ l' -> 0 <= f x)%Z -> (total (map f l) <= total (map f l'))%Z.
Proof.
  induction 1 as [|x l l' _ IH|x l l' _ IH]; intros H; [done|..]; specialize (IH ltac:(intros y Hy; apply H; by right));
    pose proof (H x ltac:(left)); cbn; unfold total in *; lia.
Qed.

#[export] Instance total_perm {A} (f : A -> Z) : Proper ((≡ₚ) ==> (=)) (fun l => total (map f l)).
Proof. induction 1 as [|x l l' _ IH|x y l|l1 l2 l3 _ IH1 _ IH2]; cbn; unfold total in *; cbn [foldr] in *; lia. Qed.

Lemma filter_less {A} (f g : A -> bool) l l' :
  l `sublist_of` l' -> (forall x, f x = true -> g x = true) -> List.filter f l `sublist_of` List.filter g l'.
Proof.
  intros Hs Hfg. induction Hs as [|x l l' _ IH|x l l' _ IH]; cbn [List.filter]; [done|..].
  - destruct (f x) eqn:E; [rewrite (Hfg _ E); by apply sublist_skip|]. destruct (g x); [by apply sublist_cons|done].
  - destruct (g x); [by apply sublist_cons|done].
Qed.

Lemma total_ones {A} (l : list A) : total (map (fun _ => 1%Z) l) = Z.of_nat (length l).
Proof. induction l as [|x l IH]; [done|]. cbn [map length]. change (total (1%Z :: ?t)) with (1 + total t)%Z. unfold total in *. cbn [foldr]. lia. Qed.

(** What is matched one to one with heavier rows weighs no more. *)
Lemma total_matched {A B K} (f : A -> Z) (g : B -> Z) (ka : A -> K) (kb : B -> K) l m :
  NoDup (map ka l) -> (forall y, y ∈ m -> 0 <= g y)%Z ->
  (forall x, x ∈ l -> exists y, y ∈ m /\ kb y = ka x /\ (f x <= g y)%Z) ->
  (total (map f l) <= total (map g m))%Z.
Proof.
  revert m. induction l as [|x l IH]; intros m Hn Hg Hm; [by apply weights_nonneg|].
  apply NoDup_cons in Hn as [Hx Hn]. destruct (Hm x ltac:(left)) as (y & Hy & Hk & Hle).
  apply list_elem_of_split in Hy as (m1 & m2 & ->). rewrite map_app, total_weights_app. cbn.
  assert (Hrec : (total (map f l) <= total (map g (m1 ++ m2)))%Z).
  { apply IH; [done|intros z Hz; apply Hg; set_solver|]. intros x' Hx'. destruct (Hm x' ltac:(by right)) as (y' & Hy' & Hk' & Hle').
    exists y'. split; [|done]. apply elem_of_app in Hy' as [?|[->|?]%elem_of_cons]; [set_solver| |set_solver].
    destruct Hx. rewrite <-Hk, Hk'. by apply list_elem_of_fmap_2. }
  rewrite map_app, total_weights_app in Hrec. unfold total in *. lia.
Qed.

(** ** A fold replaces the inventory *)

Section Folds.
Variables backend environment : string.
Notation row_id := (fun r => lb_sandbox_id (iv_box r)).
Notation owned := (Forall (fun r => owns_box backend environment r = true)).

Lemma delete_where_in {R} cond (t : list R) r : r ∈ delete_where cond t <-> cond r = false /\ r ∈ t.
Proof. unfold delete_where. by rewrite list_elem_of_filter. Qed.

Lemma delete_where_sublist {R} cond (t : list R) : delete_where cond t `sublist_of` t.
Proof. unfold delete_where. induction t as [|r t IH]; [done|]. rewrite filter_cons. case_decide; [by apply sublist_skip|by apply sublist_cons]. Qed.

Lemma is_box_true id r : is_box backend environment id r = true <-> owns_box backend environment r = true /\ row_id r = id.
Proof. unfold is_box. by rewrite andb_true_iff, String.eqb_eq. Qed.

Lemma put_listed_ids b l x : x ∈ map lb_sandbox_id (put_listed b l) <-> x = lb_sandbox_id b \/ x ∈ map lb_sandbox_id l.
Proof.
  induction l as [|c l IH]; cbn; [set_solver|]. destruct (lb_sandbox_id c =s lb_sandbox_id b) eqn:E; cbn.
  - bool_prop. rewrite !elem_of_cons, E. tauto.
  - rewrite !elem_of_cons, IH. tauto.
Qed.

Lemma put_listed_new b l : lb_sandbox_id b ∉ map lb_sandbox_id l -> put_listed b l = (l ++ [b])%list.
Proof.
  induction l as [|c l IH]; [done|]. cbn. intros [Hne Hn]%not_elem_of_cons.
  destruct (lb_sandbox_id c =s lb_sandbox_id b) eqn:E; [bool_prop; congruence|]. by rewrite IH.
Qed.

Lemma index_listed_id l : NoDup (map lb_sandbox_id l) -> index_listed l = l.
Proof.
  intros Hn. unfold index_listed. change l with ([] ++ l)%list at 2. revert Hn. change l with ([] ++ l)%list at 1.
  generalize (@nil listed_box). induction l as [|b l IH]; intros acc Hn; [by rewrite app_nil_r|]. cbn.
  rewrite put_listed_new.
  - rewrite IH, <-app_assoc; [done|]. by rewrite <-app_assoc.
  - rewrite map_app in Hn. apply NoDup_app in Hn as (_ & Hd & _). intros Hin. apply (Hd _ Hin). left.
Qed.

Lemma upsert_spec t row :
  owned t -> NoDup (map row_id t) -> owns_box backend environment row = true ->
  owned (upsert_row backend environment t row) /\ NoDup (map row_id (upsert_row backend environment t row)) /\
  forall r, r ∈ upsert_row backend environment t row <-> r = row \/ r ∈ t /\ row_id r <> row_id row.
Proof.
  intros Ho Hn Hrow. unfold upsert_row. set (id := row_id row). destruct (exists_where _ t) eqn:E.
  - set (u := update_where _ _ t). assert (Hu : forall r, r ∈ u <-> r = row \/ r ∈ t /\ row_id r <> id).
    { intros r. unfold u. rewrite elem_of_update_where. split.
      - intros (r0 & Hr0 & ->). destruct (is_box _ _ id r0) eqn:Eb; [by left|right]. split; [done|]. intros Hid.
        rewrite Forall_forall in Ho. specialize (Ho r0 Hr0). assert (is_box backend environment id r0 = true) by (by apply is_box_true). congruence.
      - intros [->|[Hr Hid]].
        + unfold exists_where in E. apply existsb_exists in E as (r0 & Hr0 & Eb). exists r0. split; [by apply list_elem_of_In|by rewrite Eb].
        + exists r. split; [done|]. destruct (is_box _ _ id r) eqn:Eb; [|done]. apply is_box_true in Eb as [_ Eb]. done. }
    split; [|split; [|exact Hu]].
    + apply Forall_forall. intros r [->|[Hr _]]%Hu; [done|]. rewrite Forall_forall in Ho. by apply Ho.
    + unfold u, update_where. rewrite map_map. erewrite map_ext_in; [exact Hn|]. intros r _. cbn.
      destruct (is_box _ _ id r) eqn:Eb; [|done]. apply is_box_true in Eb as [_ Eb]. symmetry. exact Eb.
  - assert (Hnew : forall r, r ∈ t -> row_id r <> id).
    { intros r Hr Hid. rewrite existsb_false in E. specialize (E r Hr).
      rewrite Forall_forall in Ho. assert (is_box backend environment id r = true) by (apply is_box_true; split; [by apply Ho|done]). congruence. }
    split; [|split].
    + apply Forall_app. split; [done|by constructor].
    + rewrite map_app. apply NoDup_app. split; [done|]. split; [|apply NoDup_singleton].
      intros x (r & -> & Hr)%list_elem_of_fmap Hx%list_elem_of_singleton. by apply (Hnew r).
    + intros r. rewrite elem_of_app, list_elem_of_singleton. split; [intros [Hr| ->]; [right; split; [done|by apply Hnew]|by left]|].
      intros [->|[Hr _]]; [by right|by left].
Qed.

Lemma upserts_spec rows t :
  owned t -> NoDup (map row_id t) -> owned rows -> NoDup (map row_id rows) ->
  let t' := fold_left (upsert_row backend environment) rows t in
  owned t' /\ NoDup (map row_id t') /\ forall r, r ∈ t' <-> r ∈ rows \/ r ∈ t /\ row_id r ∉ map row_id rows.
Proof.
  revert t. induction rows as [|row rows IH]; intros t Ho Hn Hor Hnr; cbn.
  { split; [done|]. split; [done|]. intros r. split; [intros Hr; right; split; [done|apply not_elem_of_nil]|].
    by intros [?%not_elem_of_nil|[? _]]. }
  apply Forall_cons in Hor as [Hrow Hor]. apply NoDup_cons in Hnr as [Hx Hnr].
  destruct (upsert_spec t row Ho Hn Hrow) as (Ho1 & Hn1 & H1). destruct (IH _ Ho1 Hn1 Hor Hnr) as (Ho2 & Hn2 & H2).
  split; [done|]. split; [done|]. intros r. rewrite H2, H1, !elem_of_cons. split.
  - intros [?|[[->|[Hr Hne]] Hnin]]; [by left; right|by left; left|]. right. split; [done|]. by intros [?|?].
  - intros [[->|?]|[Hr Hn']]; [|by left|].
    + right. split; [by left|done].
    + right. split; [right; split; [done|]|]; intros ?; apply Hn'; [by left|by right].
Qed.

Lemma replace_spec listed t :
  owned t -> NoDup (map row_id t) -> NoDup (map lb_sandbox_id listed) ->
  let t' := replace_inventory backend environment listed t in
  owned t' /\ NoDup (map row_id t') /\
  forall r, r ∈ t' <-> exists b, b ∈ listed /\ r = row_of backend environment b.
Proof.
  intros Ho Hn Hl. unfold replace_inventory. set (kept := delete_where _ t). set (ch := changed_rows _ _ _ _).
  assert (Hk : forall r, r ∈ kept <-> r ∈ t /\ row_id r ∈ map lb_sandbox_id listed).
  { intros r. unfold kept. rewrite delete_where_in. split.
    - intros [Hc Hr]. split; [done|]. rewrite Forall_forall in Ho. rewrite (Ho r Hr) in Hc. cbn in Hc.
      apply negb_false_iff in Hc. by apply in_strs_true.
    - intros [Hr Hin%in_strs_true]. split; [|done]. by rewrite Hin, andb_false_r. }
  assert (Hko : owned kept) by (apply Forall_forall; intros r [Hr _]%Hk; rewrite Forall_forall in Ho; by apply Ho).
  assert (Hkn : NoDup (map row_id kept)) by (eapply sublist_NoDup, fmap_sublist, delete_where_sublist; exact Hn).
  assert (Hrows : map row_id (map (row_of backend environment) listed) = map lb_sandbox_id listed) by (by rewrite map_map).
  assert (Hown : owned (map (row_of backend environment) listed)).
  { apply Forall_forall. intros r (b & -> & _)%list_elem_of_fmap. unfold owns_box. cbn. by rewrite !String.eqb_refl. }
  assert (Hch : ch `sublist_of` map (row_of backend environment) listed) by apply list_filter_sublist.
  assert (Hcin : forall r, r ∈ ch -> r ∈ map (row_of backend environment) listed)
    by (intros r Hr; eapply elem_of_submseteq; [exact Hr|by apply sublist_submseteq]).
  destruct (upserts_spec ch kept Hko Hkn) as (Ho' & Hn' & H').
  { apply Forall_forall. intros r Hr%Hcin. rewrite Forall_forall in Hown. by apply Hown. }
  { eapply sublist_NoDup, fmap_sublist, Hch. change (NoDup (map row_id (map (row_of backend environment) listed))). by rewrite Hrows. }
  split; [done|]. split; [done|]. intros r. rewrite H'.
  assert (Hsame : forall b, b ∈ listed -> row_of backend environment b ∈ ch \/ row_of backend environment b ∈ kept).
  { intros b Hb. unfold ch, changed_rows. destruct (select_where (is_box backend environment (lb_sandbox_id b)) kept) as [|x xs] eqn:Es.
    - left. apply list_elem_of_In, List.filter_In. split; [by apply list_elem_of_In, list_elem_of_fmap_2|]. by cbn; rewrite Es.
    - destruct (decide (iv_box x = b)) as [Ex|Ex].
      + right. assert (Hx : x ∈ select_where (is_box backend environment (lb_sandbox_id b)) kept) by (rewrite Es; left).
        apply elem_of_select_where in Hx as [Hbx Hx]. rewrite Forall_forall in Hko. specialize (Hko x Hx). unfold owns_box in Hko.
        bool_prop. destruct x; cbn in *; subst. exact Hx.
      + left. apply list_elem_of_In, List.filter_In. split; [by apply list_elem_of_In, list_elem_of_fmap_2|]. cbn. rewrite Es.
        by rewrite bool_decide_eq_false_2. }
  split.
  - intros [Hr|[Hr Hnin]].
    + apply Hcin in Hr. apply list_elem_of_fmap in Hr as (b & -> & Hb). by exists b.
    + pose proof Hr as Hr0. apply Hk in Hr as [_ Hin]. apply list_elem_of_fmap in Hin as (b & Eb & Hb). exists b. split; [done|].
      destruct (Hsame b Hb) as [Hc|Hc]; [destruct Hnin; rewrite Eb; by apply (list_elem_of_fmap_2 row_id _ (row_of backend environment b))|].
      by eapply (NoDup_map_inj row_id kept).
  - intros (b & Hb & ->). destruct (Hsame b Hb) as [Hc|Hc]; [by left|]. destruct (decide (row_of backend environment b ∈ ch)) as [?|Hnc]; [by left|].
    right. split; [done|]. intros (r & Er & Hr)%list_elem_of_fmap. apply Hnc. pose proof Hr as Hr0. apply Hcin in Hr.
    apply list_elem_of_fmap in Hr as (b' & -> & Hb'). cbn in Er. assert (b = b') as <-; [|done]. by eapply (NoDup_map_inj lb_sandbox_id listed).
Qed.
End Folds.

(** ** The world a backend and its ledger live in *)

Section World.
Variable environment : string.
Variable quotas : list (string * sandbox_quota).
Variable unknown : sandbox_charge.
Variable p : provider.
Notation backend := (pv_name p).

(** A box the backend runs, and the reservation it was made under. *)
Record box := Box { bx_id : string; bx_key : string; bx_charge : sandbox_charge }.

(** A create that was admitted and has no box yet. *)
Record create := Create { cr_key : string; cr_charge : sandbox_charge; cr_reserved_at : Z }.

(** A listing under way: the boxes that ran when it began, and what its pages named so far. *)
Record listing := Listing { ls_owed : list string; ls_boxes : list listed_box }.

(** A reconcile in flight: its clock, and its listing once that has begun. *)
Record sweep := Sweep { sw_taken_at : Z; sw_listing : option listing }.

Record world := World {
  w_now : Z;
  w_ledger : ledger;
  w_creates : list create;
  w_made : list (string * string);  (** every box ever made: reservation key and id *)
  w_boxes : list box;
  w_sweeps : list sweep
}.

Definition item_of (b : box) : listed_item := ListedItem (bx_id b) (charge_metadata (bx_charge b)) "Running" None.

(** One thing happens.  A create has its box within the grace or not at all; an answer may
    be recorded late or again, for a box that is gone; no box is paused.  A page names boxes
    that run when it is taken, and a listing that ends has named every box that ran all
    through it.  A sweep is not overtaken: it takes no page once one with a later clock has
    begun its listing. *)
Inductive step : world -> world -> Prop :=
| Ticked w now : (w_now w <= now)%Z ->
    step w (World now (w_ledger w) (w_creates w) (w_made w) (w_boxes w) (w_sweeps w))
| AdmittedBox w charge key reason session_id assignment_id l :
    (0 <= ch_cpu charge)%Z -> (0 <= ch_memory charge)%Z ->
    key ∉ map cr_key (w_creates w) -> key ∉ map fst (w_made w) ->
    admit_box environment quotas p charge (w_now w) key reason session_id assignment_id (w_ledger w) = (Ok None, l) ->
    step w (World (w_now w) l (Create key charge (w_now w) :: w_creates w) (w_made w) (w_boxes w) (w_sweeps w))
| Made w c1 c c2 id :
    w_creates w = (c1 ++ c :: c2)%list -> (w_now w <= cr_reserved_at c + CREATE_GRACE)%Z -> id ∉ map snd (w_made w) ->
    step w (World (w_now w) (w_ledger w) (c1 ++ c2) ((cr_key c, id) :: w_made w)
             (Box id (cr_key c) (cr_charge c) :: w_boxes w) (w_sweeps w))
| Answered w key id : (key, id) ∈ w_made w ->
    step w (World (w_now w) (mark_created backend environment (w_now w) key id (w_ledger w)) (w_creates w) (w_made w)
             (w_boxes w) (w_sweeps w))
| Failed w c1 c c2 (settled : bool) :
    w_creates w = (c1 ++ c :: c2)%list ->
    step w (World (w_now w) (if settled then release backend environment (cr_key c) (w_ledger w) else w_ledger w) (c1 ++ c2)
             (w_made w) (w_boxes w) (w_sweeps w))
| Destroyed w b1 b b2 :
    w_boxes w = (b1 ++ b :: b2)%list ->
    step w (World (w_now w) (w_ledger w) (w_creates w) (w_made w) (b1 ++ b2) (w_sweeps w))
| Swept w :
    step w (World (w_now w) (w_ledger w) (w_creates w) (w_made w) (w_boxes w) (Sweep (w_now w) None :: w_sweeps w))
| Began w s1 s s2 :
    w_sweeps w = (s1 ++ s :: s2)%list -> sw_listing s = None ->
    step w (World (w_now w) (w_ledger w) (w_creates w) (w_made w) (w_boxes w)
             (s1 ++ Sweep (sw_taken_at s) (Some (Listing (map bx_id (w_boxes w)) [])) :: s2))
| Paged w s1 s s2 owed boxes page boxes' :
    w_sweeps w = (s1 ++ s :: s2)%list -> sw_listing s = Some (Listing owed boxes) ->
    (forall s', s' ∈ w_sweeps w -> sw_listing s' <> None -> (sw_taken_at s' <= sw_taken_at s)%Z) ->
    (forall b, b ∈ page -> b ∈ w_boxes w) -> inventory_page p unknown (map item_of page) boxes = Ok boxes' ->
    step w (World (w_now w) (w_ledger w) (w_creates w) (w_made w) (w_boxes w)
             (s1 ++ Sweep (sw_taken_at s) (Some (Listing owed boxes')) :: s2))
| Folded w s1 s s2 owed boxes r l :
    w_sweeps w = (s1 ++ s :: s2)%list -> sw_listing s = Some (Listing owed boxes) ->
    (forall b, b ∈ w_boxes w -> bx_id b ∈ owed -> bx_id b ∈ map lb_sandbox_id boxes) ->
    fold_inventory backend environment (sw_taken_at s) boxes CREATE_GRACE (w_ledger w) = (r, l) ->
    step w (World (w_now w) l (w_creates w) (w_made w) (w_boxes w) (s1 ++ s2))
| SweepLost w s1 s s2 :
    w_sweeps w = (s1 ++ s :: s2)%list ->
    step w (World (w_now w) (w_ledger w) (w_creates w) (w_made w) (w_boxes w) (s1 ++ s2)).

(** Nothing made yet. *)
Definition start (now : Z) : world := World now (MkLedger [] [] []) [] [] [] [].

(** ** What the ledger accounts for *)

(** A weighing of boxes. *)
Definition weight := Z -> Z -> Z.  (** of millicores and bytes *)
Definition weigh (wt : weight) (c : sandbox_charge) : Z := wt (cpu_millicores c) (ch_memory c).

Definition alive (w : world) (c : create) : bool := (w_now w <=? cr_reserved_at c + CREATE_GRACE)%Z.
Definition alive_creates (w : world) : list create := List.filter (alive w) (w_creates w).

(** What runs, or may still come to run. *)
Definition load (wt : weight) (w : world) : Z :=
  (total (map (fun b => weigh wt (bx_charge b)) (w_boxes w)) +
   total (map (fun c => weigh wt (cr_charge c)) (alive_creates w)))%Z.

Definition row_weight (wt : weight) (r : inventory_row) : Z := wt (lb_cpu (iv_box r)) (lb_memory (iv_box r)).
Definition reservation_weight (wt : weight) (r : reservation) : Z := wt (rv_cpu r) (rv_memory r).

Definition use (wt : weight) (l : ledger) : Z :=
  (total (map (row_weight wt) (charged backend environment l)) +
   total (map (reservation_weight wt) (pending backend environment l)))%Z.

Definition listed_as (b : box) : listed_box :=
  ListedBox (bx_id b) (cpu_millicores (bx_charge b)) (ch_memory (bx_charge b)) false "Running" None.

(** A reservation still standing for a box or a create. *)
Definition stands (key : string) (charge : sandbox_charge) (id : option string) (r : reservation) : Prop :=
  rv_key r = key /\ rv_cpu r = cpu_millicores charge /\ rv_memory r = ch_memory charge /\
  match rv_state r with Creating => True | Created => exists i, id = Some i /\ rv_sandbox_id r = Some i end.

Definition standing (l : ledger) (b : box) (r : reservation) : Prop :=
  r ∈ lg_reservations l /\ stands (bx_key b) (bx_charge b) (Some (bx_id b)) r.

(** What a fold at [taken_at] leaves. *)
Definition unsettled (taken_at : Z) (r : reservation) : Prop := settled taken_at CREATE_GRACE r = false.

Definition passed (l : ledger) (taken_at : Z) : Prop :=
  exists t, inventory_at backend environment l = Some t /\ (taken_at <= t)%Z.

Record accounted (w : world) : Prop := {
  ac_keys : NoDup (map cr_key (w_creates w) ++ map fst (w_made w))%list;
  ac_ids : NoDup (map snd (w_made w));
  ac_boxes : forall b, b ∈ w_boxes w -> (bx_key b, bx_id b) ∈ w_made w;
  ac_once : NoDup (map bx_id (w_boxes w));
  ac_charges : forall b, b ∈ w_boxes w -> (0 <= cpu_millicores (bx_charge b))%Z /\ (0 <= ch_memory (bx_charge b))%Z;
  ac_create_charges : forall c, c ∈ w_creates w -> (0 <= cpu_millicores (cr_charge c))%Z /\ (0 <= ch_memory (cr_charge c))%Z;
  ac_reservations : Forall (fun r => owns_reservation backend environment r = true /\ (0 <= rv_cpu r)%Z /\ (0 <= rv_memory r)%Z /\
                                     (rv_state r = Creating -> rv_sandbox_id r = None)) (lg_reservations (w_ledger w));
  ac_reserved_once : NoDup (map rv_key (lg_reservations (w_ledger w)));
  ac_inventory : Forall (fun r => owns_box backend environment r = true /\ (0 <= lb_cpu (iv_box r))%Z /\ (0 <= lb_memory (iv_box r))%Z /\
                                  lb_sandbox_id (iv_box r) ∈ map snd (w_made w)) (lg_inventory (w_ledger w));
  ac_inventory_once : NoDup (map (fun r => lb_sandbox_id (iv_box r)) (lg_inventory (w_ledger w)));
  ac_capacity : lg_capacity (w_ledger w) = [] \/ exists t, lg_capacity (w_ledger w) = [Capacity backend environment t];
  ac_creates : forall c, c ∈ w_creates w -> alive w c = true ->
    exists r, r ∈ lg_reservations (w_ledger w) /\ stands (cr_key c) (cr_charge c) None r /\ rv_reserved_at r = cr_reserved_at c;
  ac_covered : forall b, b ∈ w_boxes w ->
    row_of backend environment (listed_as b) ∈ lg_inventory (w_ledger w) \/ exists r, standing (w_ledger w) b r;
  ac_same : forall b r, b ∈ w_boxes w -> r ∈ lg_inventory (w_ledger w) -> lb_sandbox_id (iv_box r) = bx_id b ->
    r = row_of backend environment (listed_as b);
  ac_sweeps : forall s, s ∈ w_sweeps w -> (sw_taken_at s <= w_now w)%Z /\
    forall owed boxes, sw_listing s = Some (Listing owed boxes) -> exists bs,
      boxes = map listed_as bs /\ NoDup (map bx_id bs) /\ (forall b, b ∈ bs -> (0 <= cpu_millicores (bx_charge b))%Z /\
        (0 <= ch_memory (bx_charge b))%Z /\ bx_id b ∈ map snd (w_made w)) /\
      forall b, b ∈ w_boxes w -> b ∈ bs \/
        bx_id b ∉ map bx_id bs /\ (bx_id b ∈ owed \/ passed (w_ledger w) (sw_taken_at s) \/
          exists r, standing (w_ledger w) b r /\ unsettled (sw_taken_at s) r);
  ac_order : forall s1 s2 i1 i2 b, s1 ∈ w_sweeps w -> s2 ∈ w_sweeps w -> sw_listing s1 = Some i1 -> sw_listing s2 = Some i2 ->
    b ∈ w_boxes w -> bx_id b ∉ ls_owed i1 -> bx_id b ∉ map lb_sandbox_id (ls_boxes i1) ->
    bx_id b ∈ map lb_sandbox_id (ls_boxes i2) -> (sw_taken_at s1 <= sw_taken_at s2)%Z
}.

(** ** Helpers *)

Lemma owns_row b : owns_box backend environment (row_of backend environment b) = true.
Proof. unfold owns_box. cbn. by rewrite !String.eqb_refl. Qed.

Lemma held_iff l r :
  owns_reservation backend environment r = true -> Forall (fun x => owns_box backend environment x = true) (lg_inventory l) ->
  held_by_inventory l r = true <->
  exists x, x ∈ lg_inventory l /\ rv_sandbox_id r = Some (lb_sandbox_id (iv_box x)) /\ lb_released (iv_box x) = false.
Proof.
  intros Hr Ho. unfold held_by_inventory, exists_where. rewrite existsb_exists. unfold holds, owns_reservation in *.
  split.
  - intros (x & Hx%list_elem_of_In & H). bool_prop. by exists x.
  - intros (x & Hx & Hid & Hrel). exists x. split; [by apply list_elem_of_In|]. rewrite Forall_forall in Ho. specialize (Ho x Hx).
    unfold owns_box in Ho. bool_prop. rewrite Hrel, bool_decide_eq_true_2 by done. cbn. rewrite !andb_true_r.
    apply andb_true_iff. rewrite !String.eqb_eq. split; congruence.
Qed.

Lemma at_single l t : lg_capacity l = [Capacity backend environment t] -> inventory_at backend environment l = t.
Proof.
  intros H. unfold inventory_at, select_where. rewrite H, filter_cons, decide_True; [done|].
  unfold owns_capacity. cbn. by rewrite !String.eqb_refl.
Qed.

Lemma fold_spec l taken_at boxes r l' :
  (lg_capacity l = [] \/ exists t, lg_capacity l = [Capacity backend environment t]) ->
  fold_inventory backend environment taken_at boxes CREATE_GRACE l = (r, l') ->
  (passed l taken_at /\ l' = l) \/
  (~ passed l taken_at /\ lg_capacity l' = [Capacity backend environment (Some taken_at)] /\
   lg_inventory l' = replace_inventory backend environment (index_listed boxes) (lg_inventory l) /\
   lg_reservations l' `sublist_of` lg_reservations l /\
   forall x, x ∈ lg_reservations l' <-> x ∈ lg_reservations l /\
     (owns_reservation backend environment x = true -> held_by_inventory l' x = false /\ settled taken_at CREATE_GRACE x = false)).
Proof.
  intros Hcap. unfold fold_inventory. set (l0 := with_capacity _ l).
  assert (H0 : exists t, lg_capacity l0 = [Capacity backend environment t] /\ inventory_at backend environment l = t /\
    (lg_capacity l = [] -> t = None) /\ (t <> None -> l0 = l)).
  { destruct Hcap as [Hc|(t & Hc)].
    - exists None. unfold l0, inventory_at. cbn [lg_capacity with_capacity]. by rewrite Hc.
    - exists t. rewrite (at_single _ _ Hc). assert (E : l0 = l).
      { unfold l0, with_capacity, insert_if_absent, same_capacity. rewrite Hc. cbn [existsb cp_backend cp_environment].
        rewrite !String.eqb_refl. cbn [andb orb]. destruct l; cbn in *. by rewrite Hc. }
      rewrite E, Hc. split_and!; try done. }
  destruct H0 as (t & Hc0 & Hat & Hnone & Hsame). rewrite Hc0.
  set (fresh := match t with None => true | Some x => (x <? taken_at)%Z end).
  assert (Hold : older backend environment taken_at (Capacity backend environment t) = fresh).
  { unfold older, owns_capacity. cbn. by rewrite !String.eqb_refl. }
  assert (Hcount : (count_where (older backend environment taken_at) [Capacity backend environment t] =? 1)%nat = fresh).
  { unfold count_where. rewrite filter_cons, filter_nil. destruct fresh; [by rewrite decide_True|by rewrite decide_False by congruence]. }
  rewrite Hcount.
  assert (Hpass : passed l taken_at <-> exists x, t = Some x /\ (taken_at <= x)%Z) by (unfold passed; by rewrite Hat).
  destruct fresh eqn:E; unfold fresh in E; cbn [negb].
  - intros [= <- <-]. right. split; [|split; [|split; [|split]]].
    + rewrite Hpass. intros (x & -> & Hx). bool_prop. lia.
    + cbn [with_reservations with_inventory with_capacity lg_capacity update_where map]. by rewrite Hold.
    + done.
    + cbn. etrans; apply delete_where_sublist.
    + intros x. cbn [lg_reservations with_reservations]. rewrite delete_where_in. cbn [lg_reservations with_reservations].
      rewrite delete_where_in. split.
      * intros (H1 & H2 & H3). split; [done|]. intros Ho. rewrite Ho in H1, H2. by split.
      * intros [H3 H12]. destruct (owns_reservation backend environment x) eqn:Ho; [|done]. destruct (H12 eq_refl). by split_and!.
  - intros [= <- <-]. left. destruct t as [x|]; [|done]. bool_prop.
    split; [apply Hpass; exists x; split; [done|lia]|by apply Hsame].
Qed.

(** ** The ledger charges all that runs *)

Lemma create_keys w : accounted w -> NoDup (map cr_key (w_creates w)).
Proof. intros Hac. by pose proof (ac_keys _ Hac) as [? _]%NoDup_app. Qed.

Lemma made_keys w : accounted w -> NoDup (map fst (w_made w)).
Proof. intros Hac. by pose proof (ac_keys _ Hac) as (_ & _ & ?)%NoDup_app. Qed.

Lemma made_key w k i i' : accounted w -> (k, i) ∈ w_made w -> (k, i') ∈ w_made w -> i = i'.
Proof.
  intros Hac H1 H2. assert (E : (k, i) = (k, i')); [|by injection E].
  eapply (NoDup_map_inj fst); [|exact H1|exact H2|done]. by apply made_keys.
Qed.

Lemma box_of_id w b b' : accounted w -> b ∈ w_boxes w -> b' ∈ w_boxes w -> bx_id b = bx_id b' -> b = b'.
Proof. intros Hac. apply NoDup_map_inj, (ac_once _ Hac). Qed.

Lemma box_of_key w b b' : accounted w -> b ∈ w_boxes w -> b' ∈ w_boxes w -> bx_key b = bx_key b' -> b = b'.
Proof.
  intros Hac Hb Hb' E. eapply box_of_id; [done..|]. eapply made_key; [done|by apply (ac_boxes _ Hac)|]. rewrite E. by apply (ac_boxes _ Hac).
Qed.

Lemma create_apart w c k i : accounted w -> c ∈ w_creates w -> (k, i) ∈ w_made w -> cr_key c <> k.
Proof.
  intros Hac Hc Hm E. pose proof (ac_keys _ Hac) as Hn. apply NoDup_app in Hn as (_ & Hd & _).
  apply (Hd (cr_key c)); [by apply list_elem_of_fmap_2|]. rewrite E. by apply (list_elem_of_fmap_2 fst _ (k, i)).
Qed.

Lemma inventory_owned w : accounted w -> Forall (fun r => owns_box backend environment r = true) (lg_inventory (w_ledger w)).
Proof. intros Hac. eapply Forall_impl; [exact (ac_inventory _ Hac)|]. by intros r (? & _). Qed.

(** A standing reservation counts unless its box is in the inventory. *)
Lemma standing_pending w key charge id r :
  accounted w -> r ∈ lg_reservations (w_ledger w) -> stands key charge id r ->
  (forall x i, id = Some i -> x ∈ lg_inventory (w_ledger w) -> lb_sandbox_id (iv_box x) <> i) ->
  r ∈ pending backend environment (w_ledger w).
Proof.
  intros Hac Hr Hs Hx. pose proof (ac_reservations _ Hac) as Hall. rewrite Forall_forall in Hall.
  destruct (Hall r Hr) as (Ho & _ & _ & Hnone). apply elem_of_select_where. split; [|done]. rewrite Ho. cbn.
  apply negb_true_iff, not_true_iff_false. rewrite held_iff by (done || by apply inventory_owned).
  intros (x & Hin & Hid & _). destruct Hs as (_ & _ & _ & Hs). destruct (rv_state r).
  - rewrite Hnone in Hid by done. done.
  - destruct Hs as (i & -> & E). apply (Hx x i); [done..|congruence].
Qed.

Definition counted_at (w : world) (x : box + create) : string + string :=
  match x with
  | inl b => if decide (row_of backend environment (listed_as b) ∈ lg_inventory (w_ledger w)) then inl (bx_id b) else inr (bx_key b)
  | inr c => inr (cr_key c)
  end.

Lemma counted_once w :
  accounted w -> NoDup (map (counted_at w) (map inl (w_boxes w) ++ map inr (alive_creates w)))%list.
Proof.
  intros Hac. apply (NoDup_fmap_2_strong (counted_at w)).
  - assert (Hal : forall c, c ∈ alive_creates w -> c ∈ w_creates w)
      by (intros c Hc; by apply list_elem_of_In, List.filter_In, proj1, list_elem_of_In in Hc).
    intros x y [(b & -> & Hb)%list_elem_of_fmap|(c & -> & Hc%Hal)%list_elem_of_fmap]%elem_of_app
      [(b' & -> & Hb')%list_elem_of_fmap|(c' & -> & Hc'%Hal)%list_elem_of_fmap]%elem_of_app E; cbn in E.
    + destruct (decide _), (decide _); try done; injection E as E; f_equal; [by eapply box_of_id|by eapply box_of_key].
    + destruct (decide _); [done|]. injection E as E. by destruct (create_apart _ _ _ _ Hac Hc' (ac_boxes _ Hac _ Hb)).
    + destruct (decide _); [done|]. injection E as E. by destruct (create_apart _ _ _ _ Hac Hc (ac_boxes _ Hac _ Hb')).
    + injection E as E. f_equal. eapply (NoDup_map_inj cr_key); [|done..]. by apply create_keys.
  - apply NoDup_app. split; [|split].
    + apply (NoDup_fmap_2 inl). apply (NoDup_fmap_1 bx_id), (ac_once _ Hac).
    + intros x (b & -> & _)%list_elem_of_fmap (c & E & _)%list_elem_of_fmap. done.
    + apply (NoDup_fmap_2 inr). eapply sublist_NoDup; [|apply list_filter_sublist]. apply (NoDup_fmap_1 cr_key).
      by apply create_keys.
Qed.

Lemma load_within_use wt w :
  (forall c m, 0 <= c -> 0 <= m -> 0 <= wt c m)%Z -> accounted w -> (load wt w <= use wt (w_ledger w))%Z.
Proof.
  intros Hwt Hac. set (l := (map inl (w_boxes w) ++ map inr (alive_creates w))%list).
  set (m := (map inl (charged backend environment (w_ledger w)) ++ map inr (pending backend environment (w_ledger w)))%list).
  set (f := fun x : box + create => match x with inl b => weigh wt (bx_charge b) | inr c => weigh wt (cr_charge c) end).
  set (g := fun y : inventory_row + reservation => match y with inl r => row_weight wt r | inr r => reservation_weight wt r end).
  set (kb := fun y : inventory_row + reservation => match y with inl r => inl (lb_sandbox_id (iv_box r)) | inr r => inr (rv_key r) end : string + string).
  assert (Hf : load wt w = total (map f l)) by (unfold l; by rewrite map_app, total_weights_app, !map_map).
  assert (Hg : use wt (w_ledger w) = total (map g m)) by (unfold m; by rewrite map_app, total_weights_app, !map_map).
  rewrite Hf, Hg. pose proof (ac_reservations _ Hac) as Hres. pose proof (ac_inventory _ Hac) as Hinv. rewrite Forall_forall in Hres. rewrite Forall_forall in Hinv.
  apply (total_matched f g (counted_at w) kb).
  - by apply counted_once.
  - intros y [(r & -> & [_ Hr]%elem_of_select_where)%list_elem_of_fmap|(r & -> & [_ Hr]%elem_of_select_where)%list_elem_of_fmap]%elem_of_app; cbn.
    + destruct (Hinv r Hr) as (_ & ? & ? & _). by apply Hwt.
    + destruct (Hres r Hr) as (_ & ? & ? & _). by apply Hwt.
  - assert (Hstand : forall key charge id r, r ∈ lg_reservations (w_ledger w) -> stands key charge id r ->
      (forall x i, id = Some i -> x ∈ lg_inventory (w_ledger w) -> lb_sandbox_id (iv_box x) <> i) ->
      exists y, y ∈ m /\ kb y = inr key /\ (weigh wt charge <= g y)%Z).
    { intros key charge id r Hr Hs Hx. exists (inr r). split; [apply elem_of_app; right; apply list_elem_of_fmap_2; by eapply standing_pending|].
      destruct Hs as (Hk & Hc & Hm & _). cbn. unfold reservation_weight, weigh. rewrite Hk, Hc, Hm. split; [done|lia]. }
    intros x [(b & -> & Hb)%list_elem_of_fmap|(c & -> & Hc)%list_elem_of_fmap]%elem_of_app; cbn.
    + destruct (decide _) as [Hin|Hnin].
      * exists (inl (row_of backend environment (listed_as b))). split; [|split; [done|cbn; unfold row_weight, weigh; cbn; lia]].
        apply elem_of_app. left. apply list_elem_of_fmap_2, elem_of_select_where. split; [by rewrite owns_row|done].
      * destruct (ac_covered _ Hac b Hb) as [?|(r & Hr & Hs)]; [done|]. eapply Hstand; [exact Hr|exact Hs|].
        intros x i [= <-] Hx E. apply Hnin. by rewrite <-(ac_same _ Hac b x Hb Hx E).
    + apply list_elem_of_In, List.filter_In in Hc as [Hc Ha]. apply list_elem_of_In in Hc.
      destruct (ac_creates _ Hac c Hc Ha) as (r & Hr & Hs & _). by eapply Hstand.
Qed.

(** ** Every step keeps the account *)

(** A change of reservations and creates. *)
Lemma accounted_reservations w l' creates' :
  accounted w -> lg_inventory l' = lg_inventory (w_ledger w) -> lg_capacity l' = lg_capacity (w_ledger w) ->
  NoDup (map cr_key creates' ++ map fst (w_made w))%list ->
  Forall (fun r => owns_reservation backend environment r = true /\ (0 <= rv_cpu r)%Z /\ (0 <= rv_memory r)%Z /\
                   (rv_state r = Creating -> rv_sandbox_id r = None)) (lg_reservations l') ->
  NoDup (map rv_key (lg_reservations l')) ->
  (forall c, c ∈ creates' -> (0 <= cpu_millicores (cr_charge c))%Z /\ (0 <= ch_memory (cr_charge c))%Z) ->
  (forall c, c ∈ creates' -> alive w c = true ->
    exists r, r ∈ lg_reservations l' /\ stands (cr_key c) (cr_charge c) None r /\ rv_reserved_at r = cr_reserved_at c) ->
  (forall b r, b ∈ w_boxes w -> standing (w_ledger w) b r -> exists r', standing l' b r' /\
    forall t, (t <= w_now w)%Z -> unsettled t r -> unsettled t r') ->
  accounted (World (w_now w) l' creates' (w_made w) (w_boxes w) (w_sweeps w)).
Proof.
  intros Hac Hinv Hcap Hk Hres Honce Hcc Hcr Hst. destruct Hac. split; cbn; rewrite ?Hinv, ?Hcap; try done.
  - intros b Hb. destruct (ac_covered0 b Hb) as [?|(r & Hr)]; [by left|right].
    destruct (Hst b r Hb Hr) as (r' & Hr' & _). by exists r'.
  - intros s Hs. destruct (ac_sweeps0 s Hs) as [Ht Hl]. split; [done|]. intros owed boxes Hi.
    destruct (Hl owed boxes Hi) as (bs & -> & Hn & Hbs & Hcov). exists bs. split_and!; try done. intros b Hb.
    destruct (Hcov b Hb) as [?|[Hni Hor]]; [by left|right]. split; [done|]. destruct Hor as [?|[Hp|(r & Hr & Hu)]]; [by left|right|right].
    + left. unfold passed, inventory_at in *. by rewrite Hcap.
    + right. destruct (Hst b r Hb Hr) as (r' & Hr' & Hu'). exists r'. split; [done|]. by apply Hu'.
Qed.

Lemma reservation_owned w r : accounted w -> r ∈ lg_reservations (w_ledger w) -> owns_reservation backend environment r = true.
Proof. intros Hac Hr. pose proof (ac_reservations _ Hac) as H. rewrite Forall_forall in H. by destruct (H r Hr). Qed.

Lemma keyed_iff w key r : accounted w -> r ∈ lg_reservations (w_ledger w) -> keyed backend environment key r = true <-> rv_key r = key.
Proof. intros Hac Hr. unfold keyed. by rewrite (reservation_owned _ _ Hac Hr), andb_true_l, String.eqb_eq. Qed.

Lemma admit_stores w charge key reason session_id assignment_id l :
  admit_box environment quotas p charge (w_now w) key reason session_id assignment_id (w_ledger w) = (Ok None, l) ->
  exists session,
    let row := Reservation backend environment key Creating (cpu_millicores charge) (ch_memory charge) reason session assignment_id
                 None (w_now w) None in
    existsb (same_reservation row) (lg_reservations (w_ledger w)) = false /\
    l = with_reservations (lg_reservations (w_ledger w) ++ [row]) (w_ledger w) /\
    judge quotas p charge ≫= (fun j => j (usage_statement backend environment (w_ledger w))) = None.
Proof.
  unfold admit_box, admit_reservation. rewrite transaction_ok. unfold admit_body. intros (l0 & l1 & [= <- <-] & H)%txn_bind_ok.
  destruct (inventory_at _ _ _); [|done]. eexists. cbv zeta. destruct (judge quotas p charge ≫= _) eqn:Ej; [done|].
  apply txn_bind_ok in H as (u & l2 & H & [= <-]). unfold modify_res in H.
  destruct (insert_unique _ _ _) as [t|] eqn:Ei; [|done]. cbn [mbind res_bind] in H. injection H as <- <-.
  apply insert_unique_ok in Ei as [-> Ei]. done.
Qed.

Lemma fresh_key w key row :
  accounted w -> rv_key row = key -> rv_backend row = backend -> rv_environment row = environment ->
  existsb (same_reservation row) (lg_reservations (w_ledger w)) = false -> key ∉ map rv_key (lg_reservations (w_ledger w)).
Proof.
  intros Hac Hk Hb He Hx (r & E & Hr)%list_elem_of_fmap. rewrite existsb_false in Hx. specialize (Hx r Hr).
  pose proof (reservation_owned _ _ Hac Hr) as Ho. unfold same_reservation, owns_reservation in *. bool_prop.
  rewrite Hb, He, Hk, <-E in Hx. destruct (String.eqb_spec backend (rv_backend r)); [|congruence].
  destruct (String.eqb_spec environment (rv_environment r)); [|congruence]. by rewrite String.eqb_refl in Hx.
Qed.

Lemma admitted_accounted w charge key reason session_id assignment_id l :
  accounted w -> (0 <= ch_cpu charge)%Z -> (0 <= ch_memory charge)%Z ->
  key ∉ map cr_key (w_creates w) -> key ∉ map fst (w_made w) ->
  admit_box environment quotas p charge (w_now w) key reason session_id assignment_id (w_ledger w) = (Ok None, l) ->
  accounted (World (w_now w) l (Create key charge (w_now w) :: w_creates w) (w_made w) (w_boxes w) (w_sweeps w)).
Proof.
  intros Hac Hc Hm Hk1 Hk2 (session & Hx & -> & _)%admit_stores.
  assert (Hcpu : (0 <= cpu_millicores charge)%Z) by by apply round_nonneg.
  apply accounted_reservations; try done; cbn [lg_reservations with_reservations].
  - cbn. constructor; [|by apply ac_keys]. rewrite elem_of_app. by intros [|].
  - apply Forall_app. split; [by apply ac_reservations|]. repeat constructor; cbn; try done.
    unfold owns_reservation. cbn. by rewrite !String.eqb_refl.
  - rewrite map_app. apply NoDup_app. split; [by apply ac_reserved_once|]. split; [|apply NoDup_singleton].
    intros x Hin ->%list_elem_of_singleton. cbn in Hin. by eapply fresh_key in Hx.
  - intros c [->|Hin]%elem_of_cons; [done|by apply (ac_create_charges _ Hac)].
  - intros c [->|Hin]%elem_of_cons Ha.
    + eexists. split; [apply elem_of_app; right; left|]. by repeat split.
    + destruct (ac_creates _ Hac c Hin Ha) as (r & Hr & H). exists r. split; [apply elem_of_app; by left|done].
  - intros b r Hb [Hr Hs]. exists r. split; [split; [apply elem_of_app; by left|done]|done].
Qed.

Lemma answered_accounted w key id :
  accounted w -> (key, id) ∈ w_made w ->
  accounted (World (w_now w) (mark_created backend environment (w_now w) key id (w_ledger w)) (w_creates w) (w_made w) (w_boxes w) (w_sweeps w)).
Proof.
  intros Hac Hm. pose proof (keyed_iff w key) as Hkey. apply accounted_reservations; try done; try by apply Hac.
  - cbn. apply Forall_forall. intros r (r0 & Hr0 & ->)%elem_of_update_where. pose proof (ac_reservations _ Hac) as H.
    rewrite Forall_forall in H. destruct (H r0 Hr0) as (? & ? & ? & ?). by destruct (keyed _ _ key r0).
  - cbn. unfold update_where. rewrite map_map. erewrite map_ext; [by apply ac_reserved_once|]. intros r. by destruct (keyed _ _ key r).
  - intros c Hc Ha. destruct (ac_creates _ Hac c Hc Ha) as (r & Hr & Hs & Hat). exists r. split; [|done]. cbn.
    apply elem_of_update_where. exists r. split; [done|]. destruct (keyed backend environment key r) eqn:E; [|done].
    apply Hkey in E; [|done..]. destruct Hs as (Hk & _). by destruct (create_apart _ _ _ _ Hac Hc Hm); congruence.
  - intros b r Hb [Hr Hs]. exists (if keyed backend environment key r then set_created (w_now w) id r else r). split; [split|].
    + cbn. apply elem_of_update_where. by exists r.
    + destruct (keyed backend environment key r) eqn:E; [|done]. apply Hkey in E; [|done..]. destruct Hs as (Hk & Hc & Hmem & _).
      repeat split; try done. exists id. split; [|done]. f_equal. eapply made_key; [done|by apply (ac_boxes _ Hac)|]. by rewrite <-Hk, E.
    + intros t Ht Hu. destruct (keyed _ _ _ r); [|done]. unfold unsettled, settled. cbn. apply Z.ltb_ge. lia.
Qed.

Lemma failed_accounted w c1 c c2 (b : bool) :
  accounted w -> w_creates w = (c1 ++ c :: c2)%list ->
  accounted (World (w_now w) (if b then release backend environment (cr_key c) (w_ledger w) else w_ledger w) (c1 ++ c2)
               (w_made w) (w_boxes w) (w_sweeps w)).
Proof.
  intros Hac Ec. assert (Hsub : forall x, x ∈ (c1 ++ c2)%list -> x ∈ w_creates w) by (rewrite Ec; set_solver).
  pose proof (ac_keys _ Hac) as Hkeys. rewrite Ec, map_app in Hkeys. cbn in Hkeys. rewrite <-app_assoc in Hkeys. cbn in Hkeys.
  assert (Hne : forall x, x ∈ (c1 ++ c2)%list -> cr_key x <> cr_key c).
  { intros x Hx E. apply NoDup_app in Hkeys as (_ & Hd & [Hn _]%NoDup_cons).
    apply elem_of_app in Hx as [Hx|Hx]; [apply (Hd (cr_key x)); [by apply list_elem_of_fmap_2|rewrite E; left]|].
    apply Hn. rewrite <-E. apply elem_of_app. left. by apply list_elem_of_fmap_2. }
  assert (Hin : forall r, r ∈ lg_reservations (if b then release backend environment (cr_key c) (w_ledger w) else w_ledger w) <->
    r ∈ lg_reservations (w_ledger w) /\ (b = true -> rv_key r <> cr_key c)).
  { intros r. destruct b; cbn; [|by split; [intros ?; split|intros []]]. rewrite delete_where_in. split.
    - intros [Hk Hr]. split; [done|]. intros _ E. apply (keyed_iff w) in E; [|done..]. congruence.
    - intros [Hr Hk]. split; [|done]. apply not_true_iff_false. rewrite (keyed_iff w) by done. by apply Hk. }
  apply accounted_reservations; try done.
  - by destruct b.
  - by destruct b.
  - rewrite map_app, <-app_assoc. apply NoDup_app in Hkeys as (H1 & H2 & [_ H3]%NoDup_cons). apply NoDup_app. split; [done|]. split; [|done].
    intros x Hx Hy. apply (H2 x Hx). by right.
  - apply Forall_forall. intros r [Hr _]%Hin. pose proof (ac_reservations _ Hac) as H. rewrite Forall_forall in H. by apply H.
  - destruct b; [|by apply ac_reserved_once]. cbn. eapply sublist_NoDup, fmap_sublist, delete_where_sublist. by apply ac_reserved_once.
  - intros x Hx. by apply (ac_create_charges _ Hac), Hsub.
  - intros x Hx Ha. destruct (ac_creates _ Hac x (Hsub x Hx) Ha) as (r & Hr & Hs & Hat). exists r. split; [|done].
    apply Hin. split; [done|]. intros _. destruct Hs as (-> & _). by apply Hne.
  - intros bx r Hb [Hr Hs]. exists r. split; [|done]. split; [|done]. apply Hin. split; [done|]. intros _. destruct Hs as (-> & _).
    intros E. eapply create_apart; [exact Hac| |by apply (ac_boxes _ Hac)|by rewrite E]. rewrite Ec. set_solver.
Qed.

(** Time passes, boxes and sweeps go. *)
Lemma accounted_less w now boxes sweeps :
  accounted w -> (w_now w <= now)%Z -> boxes `sublist_of` w_boxes w -> (forall s, s ∈ sweeps -> s ∈ w_sweeps w) ->
  accounted (World now (w_ledger w) (w_creates w) (w_made w) boxes sweeps).
Proof.
  intros Hac Hnow Hsub Hs. assert (Hb : forall b, b ∈ boxes -> b ∈ w_boxes w)
    by (intros b Hb; eapply elem_of_submseteq; [exact Hb|by apply sublist_submseteq]).
  destruct Hac. split; cbn; try done; try (by intros b r ?%Hb; eauto); try (by intros b ?%Hb; eauto).
  - by eapply sublist_NoDup, fmap_sublist, Hsub.
  - intros c Hc Ha. apply ac_creates0; [done|]. unfold alive in *. cbn in Ha. bool_prop. apply Z.leb_le. lia.
  - intros s ?%Hs. destruct (ac_sweeps0 s) as [Ht Hl]; [done|]. split; [lia|]. intros owed boxes0 Hi.
    destruct (Hl owed boxes0 Hi) as (bs & ? & ? & ? & Hcov). exists bs. split_and!; try done. intros b ?%Hb. by apply Hcov.
  - intros s1 s2 i1 i2 b ?%Hs ?%Hs ? ? ?%Hb. by apply ac_order0.
Qed.

Lemma settled_creating t r : rv_state r = Creating -> settled t CREATE_GRACE r = (rv_reserved_at r <? t - CREATE_GRACE)%Z.
Proof. unfold settled. by intros ->. Qed.

Lemma stands_none key charge r : stands key charge None r -> rv_state r = Creating.
Proof. intros (_ & _ & _ & H). destruct (rv_state r); [done|]. by destruct H as (i & ? & _). Qed.

Lemma listed_ids bs : map lb_sandbox_id (map listed_as bs) = map bx_id bs.
Proof. by rewrite map_map. Qed.

Lemma made_accounted w c1 c c2 id :
  accounted w -> w_creates w = (c1 ++ c :: c2)%list -> alive w c = true -> id ∉ map snd (w_made w) ->
  accounted (World (w_now w) (w_ledger w) (c1 ++ c2) ((cr_key c, id) :: w_made w)
               (Box id (cr_key c) (cr_charge c) :: w_boxes w) (w_sweeps w)).
Proof.
  intros Hac Ec Ha Hid. assert (Hc : c ∈ w_creates w) by (rewrite Ec; set_solver).
  assert (Hsub : forall x, x ∈ (c1 ++ c2)%list -> x ∈ w_creates w) by (rewrite Ec; set_solver).
  destruct (ac_creates _ Hac c Hc Ha) as (r & Hr & Hs & Hat). pose proof (stands_none _ _ _ Hs) as Hst.
  assert (Hstand : standing (w_ledger w) (Box id (cr_key c) (cr_charge c)) r).
  { split; [done|]. destruct Hs as (? & ? & ? & _). repeat split; try done. cbn. by rewrite Hst. }
  assert (Hold : forall b, b ∈ w_boxes w -> bx_id b <> id).
  { intros b Hb <-. apply Hid. apply (list_elem_of_fmap_2 snd _ (bx_key b, bx_id b)). by apply (ac_boxes _ Hac). }
  pose proof Hac as Hac0. destruct Hac. split; cbn; try done.
  - rewrite Ec in ac_keys0. revert ac_keys0. rewrite !map_app. cbn [map]. rewrite <-!app_assoc. cbn [app fst].
    intros Hn. by rewrite <-(Permutation_middle (map cr_key c2)).
  - by constructor.
  - intros b [->|Hb]%elem_of_cons; [left|right; by apply ac_boxes0].
  - constructor; [|done]. intros (b & E & Hb)%list_elem_of_fmap. by apply (Hold b Hb).
  - intros b [->|Hb]%elem_of_cons; [by apply ac_create_charges0|by apply ac_charges0].
  - intros x Hx. by apply ac_create_charges0, Hsub.
  - eapply Forall_impl; [exact ac_inventory0|]. cbn. intros x (? & ? & ? & ?). split_and!; try done. by right.
  - intros x Hx. by apply ac_creates0, Hsub.
  - intros b [->|Hb]%elem_of_cons; [right; by exists r|by apply ac_covered0].
  - intros b x [->|Hb]%elem_of_cons Hx E; [|by apply ac_same0]. cbn in E. rewrite Forall_forall in ac_inventory0.
    destruct (ac_inventory0 x Hx) as (_ & _ & _ & Hm). by rewrite E in Hm.
  - intros s Hs0. destruct (ac_sweeps0 s Hs0) as [Ht Hl]. split; [done|]. intros owed boxes Hi.
    destruct (Hl owed boxes Hi) as (bs & -> & Hn & Hbs & Hcov). exists bs. split_and!; try done.
    { intros b Hb. destruct (Hbs b Hb) as (? & ? & ?). split_and!; try done. by right. }
    intros b [->|Hb]%elem_of_cons; [right|by apply Hcov]. split.
    + intros (b & E & Hb)%list_elem_of_fmap. destruct (Hbs b Hb) as (_ & _ & Hm). cbn in E. by rewrite <-E in Hm.
    + do 2 right. exists r. split; [done|]. unfold unsettled. rewrite settled_creating by done. apply Z.ltb_ge. rewrite Hat.
      unfold alive in Ha. bool_prop. lia.
  - intros s1 s2 i1 i2 b H1 H2 E1 E2 [->|Hb]%elem_of_cons; [|by eapply ac_order0].
    intros _ _ Hin. destruct i2 as [owed boxes]. destruct (ac_sweeps0 s2 H2) as [_ Hl]. destruct (Hl owed boxes E2) as (bs & -> & _ & Hbs & _).
    cbn in Hin. rewrite listed_ids in Hin. apply list_elem_of_fmap in Hin as (b & E & Hb). destruct (Hbs b Hb) as (_ & _ & Hm). cbn in E. by rewrite <-E in Hm.
Qed.

Lemma swept_accounted w :
  accounted w -> accounted (World (w_now w) (w_ledger w) (w_creates w) (w_made w) (w_boxes w) (Sweep (w_now w) None :: w_sweeps w)).
Proof.
  intros Hac. destruct Hac. split; cbn; try done.
  - intros s [->|Hs]%elem_of_cons; [by split|by apply ac_sweeps0].
  - intros s1 s2 i1 i2 b [->|H1]%elem_of_cons [->|H2]%elem_of_cons; try done. by apply ac_order0.
Qed.

(** A sweep replaced by another of the same clock. *)
Lemma sweep_replaced w s1 s s2 n :
  w_sweeps w = (s1 ++ s :: s2)%list -> forall x, x ∈ (s1 ++ n :: s2)%list -> x = n \/ x ∈ w_sweeps w.
Proof. intros ->. intros x. rewrite !elem_of_app, !elem_of_cons. tauto. Qed.

Lemma began_accounted w s1 s s2 :
  accounted w -> w_sweeps w = (s1 ++ s :: s2)%list ->
  accounted (World (w_now w) (w_ledger w) (w_creates w) (w_made w) (w_boxes w)
               (s1 ++ Sweep (sw_taken_at s) (Some (Listing (map bx_id (w_boxes w)) [])) :: s2)).
Proof.
  intros Hac Es. set (n := Sweep _ _). pose proof (sweep_replaced w s1 s s2 n Es) as Hsplit.
  assert (Hs : s ∈ w_sweeps w) by (rewrite Es; set_solver).
  destruct Hac. split; cbn; try done.
  - intros x [->|Hx]%Hsplit; [|by apply ac_sweeps0]. destruct (ac_sweeps0 s Hs) as [Ht _]. split; [done|].
    intros owed boxes [= <- <-]. exists []. split_and!; try done; [constructor|by intros b ?%not_elem_of_nil|].
    intros b Hb. right. split; [apply not_elem_of_nil|left]. by apply list_elem_of_fmap_2.
  - intros x1 x2 i1 i2 b [->|H1]%Hsplit [->|H2]%Hsplit E1 E2 Hb Ho Hn Hin; cbn.
    + lia.
    + injection E1 as <-. destruct Ho. by apply list_elem_of_fmap_2.
    + injection E2 as <-. by apply not_elem_of_nil in Hin.
    + by eapply ac_order0.
Qed.

(** A page is read back as the boxes it names. *)
Lemma item_read b :
  (0 <= cpu_millicores (bx_charge b))%Z -> (0 <= ch_memory (bx_charge b))%Z -> inventory_item p unknown (item_of b) = Ok (listed_as b).
Proof.
  intros H1 H2. unfold inventory_item, item_of. cbn [li_metadata li_sandbox_id li_state li_session_id].
  rewrite (metadata_charge _ _ H1 H2). cbn [mbind res_bind fst snd]. unfold listed_as. f_equal. f_equal. apply andb_false_r.
Qed.

Lemma listed_again b bs : NoDup (map bx_id bs) -> b ∈ bs -> put_listed (listed_as b) (map listed_as bs) = map listed_as bs.
Proof.
  induction bs as [|c bs IH]; intros Hn Hb; [by apply not_elem_of_nil in Hb|]. apply NoDup_cons in Hn as [Hx Hn]. cbn.
  destruct (String.eqb_spec (bx_id c) (bx_id b)) as [E|E].
  - apply elem_of_cons in Hb as [->|Hb]; [done|]. destruct Hx. rewrite E. by apply list_elem_of_fmap_2.
  - apply elem_of_cons in Hb as [->|Hb]; [done|]. by rewrite IH.
Qed.

Lemma page_read boxes page bs boxes' :
  (forall b, b ∈ page -> (0 <= cpu_millicores (bx_charge b))%Z /\ (0 <= ch_memory (bx_charge b))%Z) ->
  (forall b, b ∈ page -> b ∈ boxes) -> NoDup (map bx_id boxes) ->
  NoDup (map bx_id bs) -> (forall b, b ∈ boxes -> b ∈ bs \/ bx_id b ∉ map bx_id bs) ->
  inventory_page p unknown (map item_of page) (map listed_as bs) = Ok boxes' ->
  exists bs', boxes' = map listed_as bs' /\ NoDup (map bx_id bs') /\ (forall b, b ∈ bs' -> b ∈ bs \/ b ∈ boxes) /\
    (forall b, b ∈ bs -> b ∈ bs') /\ forall b, b ∈ boxes -> b ∈ bs' \/ bx_id b ∉ map bx_id bs'.
Proof.
  revert bs. induction page as [|b page IH]; intros bs Hc Hp Hb Hn Hcov H; cbn [map inventory_page] in H.
  { apply Ok_inj in H as <-. exists bs. split_and!; try done. intros b Hin. by left. }
  destruct (Hc b ltac:(left)) as [H1 H2]. rewrite (item_read _ H1 H2) in H. cbn [mbind res_bind] in H.
  assert (Hc' : forall x, x ∈ page -> (0 <= cpu_millicores (bx_charge x))%Z /\ (0 <= ch_memory (bx_charge x))%Z)
    by (intros x Hx; apply Hc; by right).
  assert (Hp' : forall x, x ∈ page -> x ∈ boxes) by (intros x Hx; apply Hp; by right).
  destruct (Hcov b (Hp b ltac:(left))) as [Hin|Hni]; [rewrite listed_again in H by done; by apply IH|].
  rewrite put_listed_new in H by by rewrite listed_ids. change [listed_as b] with (map listed_as [b]) in H. rewrite <-map_app in H.
  destruct (IH (bs ++ [b])%list Hc' Hp' Hb) as (bs' & E & Hn' & Hfrom & Hkeep & Hcov'); [..|exact H|].
  - rewrite map_app. apply NoDup_app. split; [done|]. split; [|apply NoDup_singleton].
    intros x Hx ->%list_elem_of_singleton. done.
  - intros x Hx. destruct (Hcov x Hx) as [?|Hxi]; [left; apply elem_of_app; by left|].
    destruct (String.eqb_spec (bx_id x) (bx_id b)) as [E|E].
    + left. apply elem_of_app. right. apply list_elem_of_singleton.
      apply (NoDup_map_inj bx_id boxes x b Hb Hx (Hp b ltac:(left)) E).
    + right. rewrite map_app. by intros [?|?%list_elem_of_singleton]%elem_of_app.
  - exists bs'. split_and!; try done.
    + intros x [[?| ->%list_elem_of_singleton]%elem_of_app|?]%Hfrom; [by left| |by right]. right. apply Hp. left.
    + intros x Hx. apply Hkeep, elem_of_app. by left.
Qed.

Lemma paged_accounted w s1 s s2 owed boxes page boxes' :
  accounted w -> w_sweeps w = (s1 ++ s :: s2)%list -> sw_listing s = Some (Listing owed boxes) ->
  (forall s', s' ∈ w_sweeps w -> sw_listing s' <> None -> (sw_taken_at s' <= sw_taken_at s)%Z) ->
  (forall b, b ∈ page -> b ∈ w_boxes w) -> inventory_page p unknown (map item_of page) boxes = Ok boxes' ->
  accounted (World (w_now w) (w_ledger w) (w_creates w) (w_made w) (w_boxes w)
               (s1 ++ Sweep (sw_taken_at s) (Some (Listing owed boxes')) :: s2)).
Proof.
  intros Hac Es Hi Hord Hpage H. set (n := Sweep _ _). pose proof (sweep_replaced w s1 s s2 n Es) as Hsplit.
  assert (Hs : s ∈ w_sweeps w) by (rewrite Es; set_solver). destruct (ac_sweeps _ Hac s Hs) as [Ht Hl].
  destruct (Hl _ _ Hi) as (bs & -> & Hn & Hbs & Hcov).
  destruct (page_read (w_boxes w) page bs boxes') as (bs' & -> & Hn' & Hfrom & Hkeep & Hcov'); try done.
  { intros b Hb. by apply (ac_charges _ Hac), Hpage. }
  { apply (ac_once _ Hac). }
  { intros b Hb. destruct (Hcov b Hb) as [?|[? _]]; [by left|by right]. }
  destruct Hac. split; cbn; try done.
  - intros x [->|Hx]%Hsplit; [|by apply ac_sweeps0]. split; [done|]. intros owed0 boxes0 [= <- <-]. exists bs'. split_and!; try done.
    + intros b [Hb|Hb]%Hfrom; [by apply Hbs|]. destruct (ac_charges0 b Hb). split_and!; try done.
      apply (list_elem_of_fmap_2 snd _ (bx_key b, bx_id b)). by apply ac_boxes0.
    + intros b Hb. destruct (Hcov' b Hb) as [?|Hni]; [by left|right]. split; [done|].
      destruct (Hcov b Hb) as [Hin|[_ ?]]; [|done]. destruct Hni. by apply list_elem_of_fmap_2, Hkeep.
  - intros x1 x2 i1 i2 b [->|H1]%Hsplit [->|H2]%Hsplit E1 E2 Hb Ho Hni Hin; cbn.
    + lia.
    + injection E1 as <-. cbn in Ho, Hni. rewrite listed_ids in Hni.
      apply (ac_order0 s x2 (Listing owed (map listed_as bs)) i2 b); try done. cbn. rewrite listed_ids.
      intros (b' & E & Hb'%Hkeep)%list_elem_of_fmap. apply Hni. rewrite E. by apply list_elem_of_fmap_2.
    + apply Hord; [done|congruence].
    + by eapply ac_order0.
Qed.

Section Fold.
Variables (w : world) (s : sweep) (bs : list box) (l : ledger) (rest : list sweep).
Hypothesis Hac : accounted w.
Hypothesis Hs : s ∈ w_sweeps w.
Hypothesis Hrest : forall x, x ∈ rest -> x ∈ w_sweeps w.
Variable owed : list string.
Hypothesis Hlisting : sw_listing s = Some (Listing owed (map listed_as bs)).
Hypothesis Hn : NoDup (map bx_id bs).
Hypothesis Hbs : forall b, b ∈ bs -> (0 <= cpu_millicores (bx_charge b))%Z /\ (0 <= ch_memory (bx_charge b))%Z /\ bx_id b ∈ map snd (w_made w).
Hypothesis Hcov : forall b, b ∈ w_boxes w -> b ∈ bs \/ bx_id b ∉ map bx_id bs /\
  exists r, standing (w_ledger w) b r /\ unsettled (sw_taken_at s) r.
Hypothesis Hnew : ~ passed (w_ledger w) (sw_taken_at s).
Hypothesis Hcap : lg_capacity l = [Capacity backend environment (Some (sw_taken_at s))].
Hypothesis Hinv : Forall (fun r => owns_box backend environment r = true) (lg_inventory l) /\
  NoDup (map (fun r => lb_sandbox_id (iv_box r)) (lg_inventory l)) /\
  forall x, x ∈ lg_inventory l <-> exists b, b ∈ map listed_as bs /\ x = row_of backend environment b.
Hypothesis Hsub : lg_reservations l `sublist_of` lg_reservations (w_ledger w).
Hypothesis Hres : forall x, x ∈ lg_reservations l <-> x ∈ lg_reservations (w_ledger w) /\
  (owns_reservation backend environment x = true -> held_by_inventory l x = false /\ settled (sw_taken_at s) CREATE_GRACE x = false).

Lemma new_row x : x ∈ lg_inventory l -> exists b, b ∈ bs /\ x = row_of backend environment (listed_as b).
Proof. intros (lb & (b & -> & Hb)%list_elem_of_fmap & ->)%Hinv. by exists b. Qed.

Lemma passes t : (t <= sw_taken_at s)%Z -> passed l t.
Proof. intros Ht. exists (sw_taken_at s). split; [by apply at_single|done]. Qed.

Lemma stays r id :
  r ∈ lg_reservations (w_ledger w) -> unsettled (sw_taken_at s) r ->
  (rv_state r = Creating \/ rv_sandbox_id r = Some id /\ id ∉ map bx_id bs) -> r ∈ lg_reservations l.
Proof.
  intros Hr Hu Hcase. apply Hres. split; [done|]. intros Ho. split; [|exact Hu]. apply not_true_iff_false.
  rewrite held_iff by (done || apply Hinv). intros (x & (b & Hb & ->)%new_row & Hid & _). destruct Hcase as [Hc|[Hsid Hni]].
  - pose proof (ac_reservations _ Hac) as H. rewrite Forall_forall in H. destruct (H r Hr) as (_ & _ & _ & Hnone). rewrite Hnone in Hid; done.
  - rewrite Hsid in Hid. injection Hid as ->. apply Hni. cbn. by apply list_elem_of_fmap_2.
Qed.

Lemma still_stands b : b ∈ w_boxes w -> b ∉ bs -> bx_id b ∉ map bx_id bs /\
  exists r, standing (w_ledger w) b r /\ standing l b r.
Proof.
  intros Hb Hnb. destruct (Hcov b Hb) as [?|(Hni & r & Hr & Hu)]; [done|]. split; [done|]. exists r. split; [done|].
  destruct Hr as [Hr Hst]. split; [|done]. apply (stays r (bx_id b)); [done..|]. destruct Hst as (_ & _ & _ & Hst).
  destruct (rv_state r); [by left|right]. by destruct Hst as (i & [= <-] & ->).
Qed.

#[local] Instance box_dec : EqDecision box.
Proof. solve_decision. Defined.

Lemma fold_accounted : accounted (World (w_now w) l (w_creates w) (w_made w) (w_boxes w) rest).
Proof.
  pose proof Hac as Hac0. destruct Hac0. split; cbn; try done.
  - apply Forall_forall. intros r [Hr _]%Hres. rewrite Forall_forall in ac_reservations0. by apply ac_reservations0.
  - by eapply sublist_NoDup, fmap_sublist, Hsub.
  - apply Forall_forall. intros x Hx. destruct (new_row x Hx) as (b & Hb & ->). destruct (Hbs b Hb) as (? & ? & ?).
    split_and!; try done. apply owns_row.
  - apply Hinv.
  - right. by eexists.
  - intros c Hc Ha. destruct (ac_creates0 c Hc Ha) as (r & Hr & Hst & Hat). exists r. split; [|done].
    pose proof (stands_none _ _ _ Hst) as Hcr. apply (stays r ""); [done| |by left]. unfold unsettled. rewrite settled_creating by done.
    apply Z.ltb_ge. rewrite Hat. destruct (ac_sweeps0 s Hs) as [Ht _]. unfold alive in Ha. bool_prop. cbn in Ha. lia.
  - intros b Hb. destruct (decide (b ∈ bs)) as [Hin|Hnin].
    + left. apply Hinv. exists (listed_as b). split; [by apply list_elem_of_fmap_2|done].
    + right. destruct (still_stands b Hb Hnin) as (_ & r & _ & Hr). by exists r.
  - intros b x Hb Hx E. destruct (new_row x Hx) as (b' & Hb' & ->). cbn in E. f_equal. f_equal.
    destruct (decide (b ∈ bs)) as [Hin|Hnin]; [by eapply (NoDup_map_inj bx_id bs)|].
    destruct (still_stands b Hb Hnin) as [Hni _]. destruct Hni. rewrite <-E. by apply list_elem_of_fmap_2.
  - intros s' Hs'%Hrest. destruct (ac_sweeps0 s' Hs') as [Ht Hl]. split; [done|]. intros owed' boxes' Hi.
    destruct (Hl owed' boxes' Hi) as (bs' & -> & Hn' & Hbs' & Hcov'). exists bs'. split_and!; try done. intros b Hb.
    destruct (Hcov' b Hb) as [?|[Hni Hor]]; [by left|right]. split; [done|].
    destruct (decide (bx_id b ∈ owed')) as [?|Hno]; [by left|right]. destruct (decide (b ∈ bs)) as [Hin|Hnin].
    { left. apply passes. eapply (ac_order0 s' s); [done..|by cbn; rewrite listed_ids|]. cbn. rewrite listed_ids.
      by apply list_elem_of_fmap_2. }
    destruct Hor as [?|[(t & Et & Hle)|(r & [Hr Hst] & Hu)]]; [done|..].
    + left. apply passes. destruct (decide (sw_taken_at s' <= sw_taken_at s)%Z); [done|]. destruct Hnew. exists t. split; [done|lia].
    + right. destruct (still_stands b Hb Hnin) as (_ & r2 & [Hr2 Hst2] & Hnow). exists r. split; [|done].
      assert (r = r2) as ->; [|done]. eapply (NoDup_map_inj rv_key); [exact ac_reserved_once0|done..|].
      destruct Hst as (-> & _), Hst2 as (-> & _). done.
  - intros x1 x2 i1 i2 b ?%Hrest ?%Hrest. by apply ac_order0.
Qed.
End Fold.

Lemma folded_accounted w s1 s s2 owed boxes r l :
  accounted w -> w_sweeps w = (s1 ++ s :: s2)%list -> sw_listing s = Some (Listing owed boxes) ->
  (forall b, b ∈ w_boxes w -> bx_id b ∈ owed -> bx_id b ∈ map lb_sandbox_id boxes) ->
  fold_inventory backend environment (sw_taken_at s) boxes CREATE_GRACE (w_ledger w) = (r, l) ->
  accounted (World (w_now w) l (w_creates w) (w_made w) (w_boxes w) (s1 ++ s2)).
Proof.
  intros Hac Es Hi Hall Hf. assert (Hs : s ∈ w_sweeps w) by (rewrite Es; set_solver).
  assert (Hrest : forall x, x ∈ (s1 ++ s2)%list -> x ∈ w_sweeps w) by (rewrite Es; set_solver).
  destruct (ac_sweeps _ Hac s Hs) as [_ Hl]. destruct (Hl _ _ Hi) as (bs & -> & Hn & Hbs & Hcov).
  destruct (fold_spec _ _ _ _ _ (ac_capacity _ Hac) Hf) as [[_ ->]|(Hnew & Hcap & Hin & Hsub & Hres)]; [by apply accounted_less|].
  rewrite index_listed_id in Hin by by rewrite listed_ids.
  apply (fold_accounted w s bs l (s1 ++ s2)) with (owed := owed); try done.
  - intros b Hb. destruct (Hcov b Hb) as [?|[Hni Hor]]; [by left|]. destruct Hor as [Ho|[Hp|Hr]]; [|done|by right].
    destruct Hni. rewrite <-listed_ids. by apply Hall.
  - rewrite Hin. apply replace_spec; [by apply inventory_owned|by apply (ac_inventory_once _ Hac)|by rewrite listed_ids].
Qed.

Lemma step_accounted w w' : step w w' -> accounted w -> accounted w'.
Proof.
  destruct 1 as [| | | |w c1 c c2 b E|w b1 b b2 E| | | | |w s1 s s2 E]; intros Hac.
  - by apply accounted_less.
  - by eapply admitted_accounted.
  - eapply made_accounted; [done..| |done]. by apply Z.leb_le.
  - by apply answered_accounted.
  - by apply failed_accounted.
  - apply accounted_less; [done..| |done]. rewrite E. apply sublist_app; [done|by apply sublist_cons].
  - by apply swept_accounted.
  - by apply began_accounted.
  - by eapply paged_accounted.
  - by eapply folded_accounted.
  - apply accounted_less; [done..|]. rewrite E. set_solver.
Qed.

Lemma start_accounted now : accounted (start now).
Proof.
  split; cbn; try (by constructor); try (by left); try (by intros ? ?%not_elem_of_nil); try (by intros ? ? ?%not_elem_of_nil).
  by intros ? ? ? ? ? ?%not_elem_of_nil.
Qed.

(** ** The ceilings *)

(** What may run is within the quota; rounding to millicores may add half of one. *)
Record within (quota : sandbox_quota) (w : world) : Prop := {
  wi_boxes : over (qt_boxes quota) (load (fun _ _ => 1%Z) w) = false;
  wi_memory : over (qt_memory quota) (load (fun _ m => m) w) = false;
  wi_cpu : over ((fun q => 2 * (q + 1) + NANO_PER_MILLI)%Z <$> qt_cpu quota) (2 * (load (fun c _ => c) w * NANO_PER_MILLI)) = false;
  wi_creates : over (qt_concurrent_creates quota) (Z.of_nat (length (alive_creates w))) = false
}.

Lemma over_less limit x y : (x <= y)%Z -> over limit y = false -> over limit x = false.
Proof. destruct limit; [|done]. cbn. rewrite !Z.ltb_ge. lia. Qed.

(** Nothing but an admission adds to the load. *)
Definition lighter (w' w : world) : Prop :=
  (forall wt, (forall c m, 0 <= c -> 0 <= m -> 0 <= wt c m)%Z -> (load wt w' <= load wt w)%Z) /\
  (length (alive_creates w') <= length (alive_creates w))%nat.

Lemma within_lighter quota w w' : lighter w' w -> within quota w -> within quota w'.
Proof.
  intros [Hl Hc] [H1 H2 H3 H4]. split.
  - eapply over_less; [|exact H1]. by apply Hl.
  - eapply over_less; [|exact H2]. by apply Hl.
  - eapply over_less; [|exact H3]. specialize (Hl (fun c _ => c) ltac:(done)). unfold NANO_PER_MILLI. lia.
  - eapply over_less; [|exact H4]. lia.
Qed.

Definition is_creating (r : reservation) : bool := bool_decide (rv_state r = Creating).

Lemma use_boxes l : use (fun _ _ => 1%Z) l = us_boxes (usage_statement backend environment l).
Proof. unfold use, usage_statement, row_weight, reservation_weight. cbn [us_boxes]. by rewrite !total_ones. Qed.

Lemma alive_counted w :
  accounted w -> (Z.of_nat (length (alive_creates w)) <= us_creating (usage_statement backend environment (w_ledger w)))%Z.
Proof.
  intros Hac. cbn. unfold count_where. rewrite <-!total_ones.
  apply (total_matched (fun _ => 1%Z) (fun _ => 1%Z) cr_key rv_key); [|done|].
  - eapply sublist_NoDup, fmap_sublist, list_filter_sublist. by apply create_keys.
  - intros c Hc. apply list_elem_of_In, List.filter_In in Hc as [Hc Ha]. apply list_elem_of_In in Hc.
    destruct (ac_creates _ Hac c Hc Ha) as (r & Hr & Hst & _). exists r. split; [|by destruct Hst as (? & _)].
    apply list_elem_of_filter. rewrite bool_decide_eq_true. split; [by eapply stands_none|]. by eapply standing_pending.
Qed.

Lemma box_weight_nonneg wt w :
  accounted w -> (forall c m, 0 <= c -> 0 <= m -> 0 <= wt c m)%Z ->
  (forall b, b ∈ w_boxes w -> (0 <= weigh wt (bx_charge b))%Z) /\ (forall c, c ∈ w_creates w -> (0 <= weigh wt (cr_charge c))%Z).
Proof.
  intros Hac Hwt. split; [intros b [? ?]%(ac_charges _ Hac)|intros c [? ?]%(ac_create_charges _ Hac)]; by apply Hwt.
Qed.

(** Fewer boxes and creates, later. *)
Lemma lighter_less w now l made sweeps boxes creates :
  accounted w -> (w_now w <= now)%Z -> boxes `sublist_of` w_boxes w -> creates `sublist_of` w_creates w ->
  lighter (World now l creates made boxes sweeps) w.
Proof.
  intros Hac Hnow Hb Hc. assert (Ha : alive_creates (World now l creates made boxes sweeps) `sublist_of` alive_creates w).
  { apply filter_less; [done|]. intros c. unfold alive. cbn. rewrite !Z.leb_le. lia. }
  split; [|by apply sublist_length]. intros wt Hwt. destruct (box_weight_nonneg wt w Hac Hwt) as [H1 H2].
  unfold load. cbn [w_boxes]. apply Z.add_le_mono; apply total_sublist; try done.
  intros c [Hin _]%list_elem_of_In%List.filter_In. by apply H2, list_elem_of_In.
Qed.

Lemma lighter_made w c1 c c2 id l made sweeps :
  w_creates w = (c1 ++ c :: c2)%list -> alive w c = true ->
  lighter (World (w_now w) l (c1 ++ c2) made (Box id (cr_key c) (cr_charge c) :: w_boxes w) sweeps) w.
Proof.
  intros Ec Ha. set (w' := World _ _ _ _ _ _). assert (E : alive_creates w ≡ₚ c :: alive_creates w').
  { unfold alive_creates. rewrite Ec. cbn [w_creates w']. rewrite !List.filter_app. cbn [List.filter]. rewrite Ha.
    by rewrite Permutation_middle. }
  split; [|rewrite E; cbn; lia]. intros wt _. unfold load. cbn [w_boxes w' map].
  assert (Ht : total (map (fun c => weigh wt (cr_charge c)) (alive_creates w)) =
    (weigh wt (cr_charge c) + total (map (fun c => weigh wt (cr_charge c)) (alive_creates w')))%Z).
  { exact (total_perm _ _ _ E). }
  rewrite Ht. cbn. unfold total in *. lia.
Qed.

Lemma admitted_within w charge key reason session_id assignment_id l :
  accounted w -> within (quota_for quotas backend) w ->
  admit_box environment quotas p charge (w_now w) key reason session_id assignment_id (w_ledger w) = (Ok None, l) ->
  within (quota_for quotas backend) (World (w_now w) l (Create key charge (w_now w) :: w_creates w) (w_made w) (w_boxes w) (w_sweeps w)).
Proof.
  intros Hac Hw (session & _ & _ & Hj)%admit_stores. set (w' := World _ _ _ _ _ _).
  assert (Ha : alive_creates w' = Create key charge (w_now w) :: alive_creates w).
  { assert (Hal : alive w' (Create key charge (w_now w)) = true) by (apply Z.leb_le; cbn; unfold CREATE_GRACE; lia).
    unfold alive_creates. cbn [w_creates w' List.filter]. fold w'. by rewrite Hal. }
  assert (Hl : forall wt, load wt w' = (load wt w + weigh wt charge)%Z).
  { intros wt. unfold load. rewrite Ha. cbn [w_boxes w' map cr_charge]. cbn. unfold total in *. lia. }
  unfold judge in Hj. destruct (has_ceiling _) eqn:Ehas.
  2:{ destruct (quota_for quotas backend) as [[] [] [] []]; try done; by split. }
  cbn in Hj. unfold refusal in Hj. destruct (over (qt_boxes _) _) eqn:E1; [done|]. destruct (over (qt_memory _) _) eqn:E2; [done|].
  destruct (over (Z.add 1 <$> _) _) eqn:E3; [done|]. destruct (over (qt_concurrent_creates _) _) eqn:E4; [done|].
  split.
  - eapply over_less; [|exact E1]. rewrite Hl. cbn -[usage_statement]. unfold weigh.
    pose proof (load_within_use (fun _ _ => 1%Z) w ltac:(done) Hac) as H. rewrite use_boxes in H. lia.
  - eapply over_less; [|exact E2]. rewrite Hl. cbn -[usage_statement]. unfold weigh.
    pose proof (load_within_use (fun _ m => m) w ltac:(done) Hac) as H. exact (proj1 (Z.add_le_mono_r _ _ _) H).
  - pose proof (load_within_use (fun c _ => c) w ltac:(done) Hac) as H. rewrite Hl. unfold weigh.
    pose proof (round_above (ch_cpu charge) NANO_PER_MILLI ltac:(done)) as Hr. fold (cpu_millicores charge) in Hr.
    destruct (qt_cpu _) as [q|]; [|done]. cbn -[usage_statement Z.mul] in *. rewrite Z.ltb_ge in *.
    change (use (fun c _ => c) (w_ledger w)) with (us_cpu (usage_statement backend environment (w_ledger w))) in H.
    unfold NANO_PER_MILLI in *. lia.
  - eapply over_less; [|exact E4]. rewrite Ha. pose proof (alive_counted w Hac). cbn [length from_ledger us_creating]. lia.
Qed.

Lemma step_within w w' : step w w' -> accounted w -> within (quota_for quotas backend) w -> within (quota_for quotas backend) w'.
Proof.
  destruct 1 as [|w charge| |w|w c1 c c2 b E|w b1 b b2 E| | | | |]; intros Hac Hw;
    try (eapply within_lighter; [|exact Hw]; by apply lighter_less).
  - by eapply admitted_within.
  - eapply within_lighter; [|exact Hw]. apply lighter_made; [done|]. by apply Z.leb_le.
  - eapply within_lighter; [|exact Hw]. apply lighter_less; try done. rewrite E. apply sublist_app; [done|by apply sublist_cons].
  - eapply within_lighter; [|exact Hw]. apply lighter_less; try done. rewrite E. apply sublist_app; [done|by apply sublist_cons].
Qed.

Definition reachable (w : world) : Prop := exists now, rtc step (start now) w.

Record sensible (quota : sandbox_quota) : Prop := {
  se_boxes : over (qt_boxes quota) 0 = false;
  se_memory : over (qt_memory quota) 0 = false;
  se_cpu : over (qt_cpu quota) 0 = false;
  se_creates : over (qt_concurrent_creates quota) 0 = false
}.

Lemma reachable_ok w :
  reachable w -> accounted w /\ (sensible (quota_for quotas backend) -> within (quota_for quotas backend) w).
Proof.
  intros (now & H). assert (H0 : accounted (start now) /\ (sensible (quota_for quotas backend) -> within (quota_for quotas backend) (start now))).
  { split; [apply start_accounted|]. intros [H1 H2 H3 H4]. split; [exact H1|exact H2| |exact H4].
    change (load (fun c _ => c) (start now)) with 0%Z. destruct (qt_cpu _) as [q|]; [|done].
    cbn -[Z.mul] in *. rewrite Z.ltb_ge in *. unfold NANO_PER_MILLI. lia. }
  revert H0. induction H as [w|w1 w2 w3 Hs _ IH]; [done|]. intros [Hac Hw]. apply IH. split; [by eapply step_accounted|].
  intros Hq. eapply step_within; [exact Hs|done|by apply Hw].
Qed.


(** Cores of charges rounded to millicores: each may count half a millicore short. *)
Lemma cores_rounded (boxes : list box) :
  (2 * total (map (fun b => ch_cpu (bx_charge b)) boxes) <=
   2 * (total (map (fun b => cpu_millicores (bx_charge b)) boxes) * NANO_PER_MILLI) + Z.of_nat (length boxes) * NANO_PER_MILLI)%Z.
Proof.
  induction boxes as [|b boxes IH]; [done|]. cbn [map length]. change (total (?x :: ?l)) with (x + total l)%Z.
  change (total (?x :: ?l)) with (x + total l)%Z.
  pose proof (round_below (ch_cpu (bx_charge b)) NANO_PER_MILLI ltac:(done)) as H. fold (cpu_millicores (bx_charge b)) in H.
  unfold NANO_PER_MILLI in *. lia.
Qed.

End World.

(** ** Witness, and what the two guards are for *)

Definition demo_provider : provider := Provider "os" 0 0 true true true.
Definition demo_charge : sandbox_charge := SandboxCharge 1000000000 1024.
Definition demo_quotas : list (string * sandbox_quota) := [("os", SandboxQuota (Some 1%Z) (Some 2048%Z) (Some 2000000000%Z) (Some 1%Z))].
Definition demo_box : box := Box "b1" "k1" demo_charge.

Definition demo_taken : ledger := snd (fold_inventory "os" "prod" 5 [] CREATE_GRACE (MkLedger [] [] [])).
Definition demo_admitted : ledger :=
  snd (admit_box "prod" demo_quotas demo_provider demo_charge 5 "k1" "agent" "s1" "a1" demo_taken).

Definition demo_idle : ledger := MkLedger [] [] [].

(** A sweep of an idle backend, then a create, then a sweep whose one page names its box. *)
Lemma demo_reachable :
  reachable "prod" demo_quotas demo_charge demo_provider
    (World 5 demo_admitted [] [("k1", "b1")] [demo_box] [Sweep 5 (Some (Listing ["b1"] [listed_as demo_box]))]).
Proof.
  pose proof (Swept "prod" demo_quotas demo_charge demo_provider) as Hs.
  pose proof (Began "prod" demo_quotas demo_charge demo_provider) as Hb.
  pose proof (Folded "prod" demo_quotas demo_charge demo_provider (World 5 demo_idle [] [] [] [Sweep 5 (Some (Listing [] []))])
    [] (Sweep 5 (Some (Listing [] []))) [] [] [] (Some 0%nat) demo_taken eq_refl eq_refl) as Hf.
  pose proof (AdmittedBox "prod" demo_quotas demo_charge demo_provider (World 5 demo_taken [] [] [] []) demo_charge "k1" "agent" "s1" "a1"
    demo_admitted) as Ha.
  pose proof (Made "prod" demo_quotas demo_charge demo_provider (World 5 demo_admitted [Create "k1" demo_charge 5] [] [] [])
    [] (Create "k1" demo_charge 5) [] "b1" eq_refl) as Hm.
  pose proof (Paged "prod" demo_quotas demo_charge demo_provider
    (World 5 demo_admitted [] [("k1", "b1")] [demo_box] [Sweep 5 (Some (Listing ["b1"] []))])
    [] (Sweep 5 (Some (Listing ["b1"] []))) [] ["b1"] [] [demo_box] [listed_as demo_box] eq_refl eq_refl) as Hp.
  exists 5%Z. eapply rtc_l; [exact (Hs (start 5))|]. eapply rtc_l; [by apply (Hb (World 5 demo_idle [] [] [] [Sweep 5 None]) [] (Sweep 5 None) [])|].
  eapply rtc_l; [by apply Hf; [intros b ?%not_elem_of_nil|vm_compute]|].
  eapply rtc_l; [apply Ha; [done|done|apply not_elem_of_nil|apply not_elem_of_nil|by vm_compute]|].
  eapply rtc_l; [apply Hm; [by vm_compute|apply not_elem_of_nil]|]. eapply rtc_l; [exact (Hs (World 5 demo_admitted [] [("k1", "b1")] [demo_box] []))|].
  eapply rtc_l; [by apply (Hb (World 5 demo_admitted [] [("k1", "b1")] [demo_box] [Sweep 5 None]) [] (Sweep 5 None) [])|].
  apply rtc_once. apply Hp; [by intros s' ->%list_elem_of_singleton|done|by vm_compute].
Qed.



(** A sweep that is overtaken loses a box: the later clock listed before the box was made,
    the earlier one after; the earlier folds first and takes over the reservation, the later
    then drops the box from the inventory, and a running box is charged nowhere. *)
Example overtaken_sweep_loses_box :
  let created := mark_created "os" "prod" 25 "k1" "b1" demo_admitted in
  let folded := snd (fold_inventory "os" "prod" 10 [listed_as demo_box] CREATE_GRACE created) in
  usage_statement "os" "prod" folded = Usage 1 1024 1000 0 /\
  usage_statement "os" "prod" (snd (fold_inventory "os" "prod" 20 [] CREATE_GRACE folded)) = Usage 0 0 0 0.
Proof. vm_compute. done. Qed.

(** A resume that reads the ledger before a sweep marks its box released reserves nothing,
    and the sweep then takes the box's charge away. *)
Example resume_races_sweep :
  let paused := ListedBox "b1" 1000 1024 true "Paused" None in
  let folded := snd (fold_inventory "os" "prod" 10 [listed_as demo_box] CREATE_GRACE demo_taken) in
  resume_charge "prod" demo_charge demo_provider "b1" folded = None /\
  usage_statement "os" "prod" (snd (fold_inventory "os" "prod" 20 [paused] CREATE_GRACE folded)) = Usage 0 0 0 0.
Proof. vm_compute. done. Qed.
End QuotaFacts.
