(* ===== verification/ClaudeChildren.v ===== *)
(** [engine/claude_child_runs.py]: what Claude Code's messages say of its sub-agents.  A
    lifecycle notice, a launch receipt and a child's message each name a child differently;
    [identities] is what the adapter has learnt of which names are one. *)

From S2P Require Import Prelude Effects PyVal JsonText ChildFacts Reader.

Open Scope string_scope.

Module ClaudeChildren.
Import ChildFacts.

Definition CLAUDE_CODE_ENGINE_KIND := "claude_code".

Definition LIFECYCLE_SUBTYPES : list string := ["task_started"; "task_progress"; "task_notification"; "task_updated"].
Definition LIFECYCLE_SDK_TYPES : list string :=
  ["TaskStartedMessage"; "TaskProgressMessage"; "TaskNotificationMessage"; "TaskUpdatedMessage"].
Definition MESSAGE_ROLES : list (string * string) := [("AssistantMessage", "assistant"); ("UserMessage", "user")].
Definition CHILD_LAUNCH_TOOL_NAMES : list string := ["Agent"].
Definition SDK_BLOCK_TYPES : list (string * string) :=
  [("ToolUseBlock", "tool_use"); ("ToolResultBlock", "tool_result"); ("TextBlock", "text"); ("ThinkingBlock", "thinking")].

Definition word (table : list (string * string)) (k : string) : string := default "" (Reader.assoc k table).

(** ** Reading one message *)

(** [claude_envelope_value]. *)
Definition claude_envelope_value (raw : dict) (key : string) : val :=
  match Py.get key raw with
  | VNone => match Py.get "data" raw with VDict native => Py.get key native | _ => VNone end
  | v => v
  end.

(** [str(claude_envelope_value(raw, key) or "").strip()]. *)
Definition envelope_word (raw : dict) (key : string) : string := Py.clean (claude_envelope_value raw key).

Definition claude_lifecycle_subtype (raw : dict) : string :=
  let subtype := envelope_word raw "subtype" in
  if negb (Py.in_strs subtype LIFECYCLE_SUBTYPES) then ""
  else if (Py.lower (envelope_word raw "type") =s "system") || Py.in_strs (clean_of "__sdk_type" raw) LIFECYCLE_SDK_TYPES
  then subtype else "".

Definition claude_message_role (raw : dict) : string :=
  let raw_type := Py.lower (clean_of "type" raw) in
  if Py.in_strs raw_type ["assistant"; "user"] then raw_type else word MESSAGE_ROLES (clean_of "__sdk_type" raw).

Definition claude_child_context_id (raw : dict) : string := envelope_word raw "parent_tool_use_id".
Definition claude_lifecycle_child_run_id (raw : dict) : string := envelope_word raw "task_id".
Definition claude_lifecycle_parent_child_run_id (raw : dict) : string := envelope_word raw "parent_tool_use_id".

(** A message of a child: one that carries its launching call, or a side chain's. *)
Definition of_child (raw : dict) : bool :=
  negb (Py.is_empty (claude_child_context_id raw)) || Py.is_true (Py.get "isSidechain" raw).

(** [_canonical_content_block]. *)
Definition drop_null (block : dict) (field : string) : dict :=
  if Py.is_none (Py.get field block) then Py.pop field block else block.

Definition canonical_content_block (block : dict) : dict :=
  let typed :=
    if Py.is_empty (clean_of "type" block) then
      let block_type := word SDK_BLOCK_TYPES (clean_of "__sdk_type" block) in
      if Py.is_empty block_type then block else Py.set "type" (VStr block_type) block
    else block in
  let canonical := Py.pop "__sdk_type" typed in
  if Py.eqb (Py.get "type" canonical) (VStr "tool_result") then fold_left drop_null ["content"; "is_error"] canonical
  else canonical.

Definition dicts (l : list val) : list dict := omap (fun v => match v with VDict d => Some d | _ => None end) l.

Definition text_block (s : string) : dict := [("type", VStr "text"); ("text", VStr s)].

(** [claude_content_blocks]. *)
Definition claude_content_blocks (raw : dict) : list dict :=
  match Py.get "content" raw with
  | VStr s => [text_block s]
  | VList l => map canonical_content_block (dicts l)
  | _ =>
      match Py.get "message" raw with
      | VDict message =>
          match Py.get "content" message with
          | VStr s => [text_block s]
          | VList l => map canonical_content_block (dicts l)
          | _ => []
          end
      | _ => []
      end
  end.

(** [claude_spawned_child_run_ids]. *)
Definition spawned_id (block : dict) : option string :=
  let block_type := Py.a_or (clean_of "type" block) (word SDK_BLOCK_TYPES (clean_of "__sdk_type" block)) in
  let child_run_id := clean_of "id" block in
  if (block_type =s "tool_use") && Py.in_strs (clean_of "name" block) CHILD_LAUNCH_TOOL_NAMES && negb (Py.is_empty child_run_id)
  then Some child_run_id else None.

Definition add_new (ids : list string) (id : string) : list string :=
  if Py.in_strs id ids then ids else (ids ++ [id])%list.

Definition claude_spawned_child_run_ids (content : list dict) : list string := fold_left add_new (omap spawned_id content) [].

(** The text [repr] gives for the float a literal of a JSON text reads as. *)
Class PyFloats := repr_float : string -> string.

Abbreviation names := (gmap string string).

Section Observing.
Context {floats : PyFloats}.

(** ** The receipt of a launched or resumed child *)

Definition is_tool_result (block : dict) : bool := Py.eqb (Py.get "type" block) (VStr "tool_result").

(** [v in {..}] needs a hashable value. *)
Definition in_set (v : val) (l : list string) : res bool :=
  if Py.hashable v then Ok (existsb (fun s => Py.eqb v (VStr s)) l) else Raise TypeError.

(** A result kept in the one tool result's own text. *)
Definition receipt_text (results : list dict) : option dict :=
  match results with
  | [result] =>
      if Py.is_true (Py.get "is_error" result) then None
      else
        let content := match Py.get "content" result with VList [VDict d] => Py.get "text" d | v => v end in
        match content with
        | VStr text =>
            match Json.loads repr_float text with
            | Some (VDict d) => if Py.truthy (Py.get "resumedAgentId" d) then Some d else None
            | _ => None
            end
        | _ => None
        end
  | _ => None
  end.

Definition claude_tool_receipt (raw : dict) : res (option (string * dict)) :=
  if negb (claude_message_role raw =s "user") then Ok None
  else
    let results := List.filter is_tool_result (claude_content_blocks raw) in
    let native := match Py.lookup "tool_use_result" raw with Some v => v | None => Py.get "toolUseResult" raw end in
    match (match native with VDict d => Some d | _ => receipt_text results end) with
    | None => Ok None
    | Some result =>
        _ ← refuse (Py.eqb (Py.get "status" result) (VStr "async_launched") && negb (Py.truthy (Py.get "agentId" result)) &&
                    negb (Py.truthy (Py.get "taskId" result)) && negb (of_child raw));
        settled ← in_set (Py.get "status" result) ["async_launched"; "completed"];
        let is_agent_result := settled && Py.truthy (Py.get "agentId" result) in
        let is_resumed_result := Py.is_true (Py.get "success" result) && Py.truthy (Py.get "resumedAgentId" result) in
        if negb (is_agent_result || is_resumed_result) then Ok None
        else
          match results with
          | [block] =>
              let tool_id := clean_of "tool_use_id" block in
              _ ← refuse (Py.is_empty tool_id);
              Ok (if Py.is_true (Py.get "is_error" block) then None else Some (tool_id, result))
          | _ => Raise ChildRunProjectionError
          end
    end.

(** ** Identities *)

(** [ClaudeChildIdentities]. *)
Record identities := Identities {
  id_agent_by_tool : names;
  id_task_types : names;
  id_parent_by_tool : names;
  id_parent_by_agent : names;
  id_send_message_targets : names
}.

Definition no_identities : identities := Identities ∅ ∅ ∅ ∅ ∅.

Definition note_agent (tool agent : string) (i : identities) : identities :=
  Identities (<[tool := agent]> (id_agent_by_tool i)) (id_task_types i) (id_parent_by_tool i) (id_parent_by_agent i) (id_send_message_targets i).
Definition note_type (task type : string) (i : identities) : identities :=
  Identities (id_agent_by_tool i) (<[task := type]> (id_task_types i)) (id_parent_by_tool i) (id_parent_by_agent i) (id_send_message_targets i).
Definition note_tool_parent (tool parent : string) (i : identities) : identities :=
  Identities (id_agent_by_tool i) (id_task_types i) (<[tool := parent]> (id_parent_by_tool i)) (id_parent_by_agent i) (id_send_message_targets i).
Definition note_agent_parent (agent parent : string) (i : identities) : identities :=
  Identities (id_agent_by_tool i) (id_task_types i) (id_parent_by_tool i) (<[agent := parent]> (id_parent_by_agent i)) (id_send_message_targets i).
Definition note_target (tool target : string) (i : identities) : identities :=
  Identities (id_agent_by_tool i) (id_task_types i) (id_parent_by_tool i) (id_parent_by_agent i) (<[tool := target]> (id_send_message_targets i)).

(** [existing and existing != value]. *)
Definition conflicts (existing : option string) (value : string) : bool :=
  match existing with Some e => negb (Py.is_empty e) && negb (e =s value) | None => false end.

Definition refuse_if (c : bool) : act identities unit := refuse_call c ChildRunProjectionError.

Definition bind_parent (agent_id parent_id : string) : act identities unit :=
  i ← self;
  _ ← refuse_if (conflicts (id_parent_by_agent i !! agent_id) parent_id);
  change (note_agent_parent agent_id parent_id).

Definition bind (tool_id agent_id : string) : act identities unit :=
  _ ← refuse_if (Py.is_empty tool_id || Py.is_empty agent_id);
  i ← self;
  _ ← refuse_if (conflicts (id_agent_by_tool i !! tool_id) agent_id);
  _ ← change (note_agent tool_id agent_id);
  let parent := default "" (id_parent_by_tool i !! tool_id) in
  if Py.is_empty parent then mret tt else bind_parent agent_id parent.

Definition message_ref (raw : dict) : act identities string :=
  let tool_id := claude_child_context_id raw in
  let agent_id := clean_of "agentId" raw in
  _ ← (if negb (Py.is_empty agent_id) && negb (Py.is_empty tool_id) then bind tool_id agent_id else mret tt);
  if Py.is_empty tool_id && negb (Py.is_true (Py.get "isSidechain" raw) && negb (Py.is_empty agent_id)) then mret ""
  else if negb (Py.is_empty agent_id) then mret agent_id
  else
    i ← self;
    match id_agent_by_tool i !! tool_id with
    | Some agent => mret agent
    | None => call (Raise ChildRunProjectionError)
    end.

Definition lifecycle_ref (i : identities) (raw : dict) : string :=
  let task_id := claude_lifecycle_child_run_id raw in
  if bool_decide (id_task_types i !! task_id = Some "local_bash") then "" else task_id.

(** The [task_type] of a lifecycle notice. *)
Definition learn_type (task_id task_type : string) : act identities unit :=
  i ← self;
  _ ← refuse_if (conflicts (id_task_types i !! task_id) task_type);
  change (note_type task_id task_type).

Definition observe_lifecycle (raw : dict) : act identities unit :=
  let task_id := claude_lifecycle_child_run_id raw in
  let task_type := envelope_word raw "task_type" in
  _ ← (if negb (Py.is_empty task_id) && negb (Py.is_empty task_type) then learn_type task_id task_type else mret tt);
  let tool_id := envelope_word raw "tool_use_id" in
  i ← self;
  if negb (Py.is_empty tool_id) && negb (Py.is_empty (lifecycle_ref i raw)) then bind tool_id task_id else mret tt.

Definition observe_send (block : dict) : act identities unit :=
  if Py.eqb (Py.get "type" block) (VStr "tool_use") && Py.eqb (Py.get "name" block) (VStr "SendMessage") then
    let target := match Py.get "input" block with VDict input => clean_of "to" input | _ => "" end in
    let tool_id := clean_of "id" block in
    if negb (Py.is_empty tool_id) && negb (Py.is_empty target) then change (note_target tool_id target) else mret tt
  else mret tt.

Definition named_agent (target : string) (i : identities) : bool :=
  existsb (fun e => snd e =s target) (map_to_list (id_agent_by_tool i)).

(** The agent a receipt names, and whether it runs detached. *)
Definition receipt_agent (tool_id : string) (result : dict) : act identities (string * option string) :=
  let agent_id := clean_of "agentId" result in
  let resumed_id := clean_of "resumedAgentId" result in
  if negb (Py.is_empty resumed_id) && Py.is_true (Py.get "success" result) then
    i ← self;
    match id_send_message_targets i !! tool_id with
    | None => call (Raise ChildRunProjectionError)
    | Some target =>
        _ ← refuse_if (named_agent target i && negb (target =s resumed_id));
        mret (resumed_id, Some resumed_id)
    end
  else if negb (Py.is_empty agent_id) && Py.eqb (Py.get "status" result) (VStr "async_launched")
  then mret (agent_id, Some agent_id) else mret (agent_id, None).

Definition observe_receipt (raw : dict) : act identities (option string) :=
  receipt ← call (claude_tool_receipt raw);
  match receipt with
  | None => mret None
  | Some (tool_id, result) =>
      named ← receipt_agent tool_id result;
      let agent_id := fst named in
      _ ← (if Py.is_empty agent_id then mret tt
           else _ ← bind tool_id agent_id; learn_type agent_id "local_agent");
      mret (snd named)
  end.

Definition note_spawned (parent_id tool_id : string) : act identities unit :=
  i ← self;
  _ ← refuse_if (conflicts (id_parent_by_tool i !! tool_id) parent_id);
  _ ← change (note_tool_parent tool_id parent_id);
  let child_id := default "" (id_agent_by_tool i !! tool_id) in
  if Py.is_empty child_id then mret tt else bind_parent child_id parent_id.

Definition observe_spawned (raw : dict) : act identities unit :=
  match claude_spawned_child_run_ids (claude_content_blocks raw) with
  | [] => mret tt
  | spawned_tools =>
      if of_child raw then parent_id ← message_ref raw; each (note_spawned parent_id) spawned_tools else mret tt
  end.

(** [observe]: the agent a receipt says runs detached. *)
Definition observe (include_messages : bool) (raw : dict) : act identities (option string) :=
  if negb (Py.is_empty (claude_lifecycle_subtype raw)) then _ ← observe_lifecycle raw; mret None
  else
    _ ← each observe_send (claude_content_blocks raw);
    detached_id ← observe_receipt raw;
    _ ← (if include_messages then observe_spawned raw else mret tt);
    mret (if of_child raw then None else detached_id).

(** [from_messages]: receipts first, then who launched whom. *)
Definition from_messages (raw_items : list dict) : act identities unit :=
  _ ← each (fun raw => _ ← observe false raw; mret tt) raw_items;
  each (fun raw => _ ← observe true raw; mret tt) raw_items.

End Observing.

(** ** Lineage of a batch of blocks *)

(** The launching agent of each child a message's blocks launched. *)
Definition note_launch (i : identities) (parent : string) (parents : names) (tool_id : string) : res names :=
  let engine_ref := default "" (id_agent_by_tool i !! tool_id) in
  if Py.is_empty engine_ref then Ok parents
  else
    _ ← refuse (conflicts (parents !! engine_ref) parent);
    Ok (<[engine_ref := parent]> parents).

(** A child's message with its agent and what it launched. *)
Definition launches (block : dict) : option (string * list string) :=
  if negb (clean_of "type" block =s "subagent") then None
  else match Py.get "data" block with
       | VDict data =>
           if negb (Py.str_or_empty (Py.get "kind" data) =s "message") then None
           else match Py.get "content" data with
                | VList content =>
                    let parent := clean_of "engineRef" data in
                    if Py.is_empty parent then None else Some (parent, claude_spawned_child_run_ids (dicts content))
                | _ => None
                end
       | _ => None
       end.

Definition note_launches (i : identities) (parents : names) (block : dict) : res names :=
  match launches block with
  | Some (parent, tools) => foldM (note_launch i parent) parents tools
  | None => Ok parents
  end.

(** One turn of the second loop. *)
Definition link_block (parents : names) (block : dict) : res dict :=
  if clean_of "type" block =s "subagent" then
    match Py.get "data" block with
    | VDict data =>
        let inferred := default "" (parents !! clean_of "engineRef" data) in
        let explicit := clean_of "parentEngineRef" data in
        _ ← refuse (negb (Py.is_empty explicit) && negb (Py.is_empty inferred) && negb (explicit =s inferred));
        Ok (Py.set "data" (VDict (if Py.is_empty inferred then data else Py.set "parentEngineRef" (VStr inferred) data)) block)
    | _ => Ok block
    end
  else Ok block.

(** [infer_claude_child_run_parents]. *)
Definition infer_claude_child_run_parents (i : identities) (blocks : list dict) : res (list dict) :=
  parents ← foldM (note_launches i) ∅ blocks;
  mapM_res (link_block parents) blocks.

End ClaudeChildren.
