(* ===== verification/ClaudeChildFacts.v ===== *)
(** What the adapter learns of Claude's sub-agents stands, and the lineage of a batch does
    not depend on its order. *)

From S2P Require Import Prelude Effects PyVal ChildFacts ClaudeChildren.

Open Scope string_scope.

Module ClaudeChildFacts.
Import ChildFacts ClaudeChildren.

(** ** Learning *)

(** Every name a table gives, it goes on giving. *)
Definition names_grow (m m' : names) : Prop := forall k v, m !! k = Some v -> v <> "" -> m' !! k = Some v.

#[export] Instance names_grow_preorder : PreOrder names_grow.
Proof. split; [by intros m k v|]. intros m1 m2 m3 H1 H2 k v H Hv. by apply H2, Hv; apply H1. Qed.

Record grown (i i' : identities) : Prop := {
  gr_agents : names_grow (id_agent_by_tool i) (id_agent_by_tool i');
  gr_types : names_grow (id_task_types i) (id_task_types i');
  gr_tool_parents : names_grow (id_parent_by_tool i) (id_parent_by_tool i');
  gr_agent_parents : names_grow (id_parent_by_agent i) (id_parent_by_agent i')
}.

#[export] Instance grown_preorder : PreOrder grown.
Proof.
  split; [intros i; by split|]. intros i1 i2 i3 [] []. by split; (etransitivity; [eassumption|]).
Qed.

Lemma insert_grows m k v : conflicts (m !! k) v = false -> names_grow m (<[k := v]> m).
Proof.
  intros Hc k' v' Hk Hv. destruct (decide (k = k')) as [<-|]; [|by rewrite lookup_insert_ne].
  rewrite Hk in Hc. cbn in Hc. rewrite lookup_insert_eq. f_equal.
  apply andb_false_iff in Hc as [Hc|Hc]; bool_prop; [by apply is_empty_true in Hc|done].
Qed.

(** A guard, and a write before what follows. *)
Lemma refuse_then {A} c (m : act identities A) i :
  (c = false -> grown i (snd (m i))) -> grown i (snd ((refuse_if c ≫= fun _ => m) i)).
Proof. intros Hm. unfold refuse_if, refuse_call, call, raise_if. destruct c; cbn; [done|by apply Hm]. Qed.

Lemma change_then {A} f (m : act identities A) i :
  grown i (f i) -> keeps grown m -> grown i (snd ((change f ≫= fun _ => m) i)).
Proof. intros Hf Hm. etransitivity; [exact Hf|apply Hm]. Qed.

Section Learning.
Context {floats : PyFloats}.

Lemma bind_parent_grows agent parent : keeps grown (bind_parent agent parent).
Proof.
  apply keeps_self_bind. intros i. apply refuse_then. intros Hc. cbn. split; cbn; try reflexivity. by apply insert_grows.
Qed.

Lemma bind_grows tool agent : keeps grown (bind tool agent).
Proof.
  apply (keeps_bind _); [apply (keeps_refuse _)|]. intros _. apply keeps_self_bind. intros i. apply refuse_then. intros Hc.
  apply change_then; [split; cbn; try reflexivity; by apply insert_grows|].
  cbv zeta. destruct (Py.is_empty _); [apply (keeps_ret _)|apply bind_parent_grows].
Qed.

Lemma message_ref_grows raw : keeps grown (message_ref raw).
Proof.
  apply (keeps_bind _); [destruct (_ && _); [apply bind_grows|apply (keeps_ret _)]|]. intros _.
  repeat (destruct (negb _) || destruct (_ && _)); try apply (keeps_ret _);
    (apply (keeps_bind _); [apply (keeps_self _)|]; intros i; destruct (_ !! _); [apply (keeps_ret _)|apply (keeps_call _)]).
Qed.

Lemma learn_type_grows task type : keeps grown (learn_type task type).
Proof.
  apply keeps_self_bind. intros i. apply refuse_then. intros Hc. cbn. split; cbn; try reflexivity. by apply insert_grows.
Qed.

Lemma lifecycle_grows raw : keeps grown (observe_lifecycle raw).
Proof.
  apply (keeps_bind _); [destruct (_ && _); [apply learn_type_grows|apply (keeps_ret _)]|]. intros _.
  apply (keeps_bind _); [apply (keeps_self _)|]. intros i. destruct (_ && _); [apply bind_grows|apply (keeps_ret _)].
Qed.

Lemma send_grows block : keeps grown (observe_send block).
Proof.
  unfold observe_send. destruct (_ && _); [|apply (keeps_ret _)]. destruct (_ && _); [|apply (keeps_ret _)].
  apply (keeps_change _). intros i. by split.
Qed.

Lemma receipt_agent_grows tool result : keeps grown (receipt_agent tool result).
Proof.
  unfold receipt_agent. destruct (_ && _); [|destruct (_ && _); apply (keeps_ret _)].
  apply (keeps_bind _); [apply (keeps_self _)|]. intros i. destruct (_ !! _); [|apply (keeps_call _)].
  apply (keeps_bind _); [apply (keeps_refuse _)|]. intros _. apply (keeps_ret _).
Qed.

Lemma receipt_grows raw : keeps grown (observe_receipt raw).
Proof.
  apply (keeps_bind _); [apply (keeps_call _)|]. intros [[tool result]|]; [|apply (keeps_ret _)].
  apply (keeps_bind _); [apply receipt_agent_grows|]. intros named.
  apply (keeps_bind _); [|intros _; apply (keeps_ret _)]. destruct (Py.is_empty _); [apply (keeps_ret _)|].
  apply (keeps_bind _); [apply bind_grows|]. intros _. apply learn_type_grows.
Qed.

Lemma spawned_grows parent tool : keeps grown (note_spawned parent tool).
Proof.
  apply keeps_self_bind. intros i. apply refuse_then. intros Hc.
  apply change_then; [split; cbn; try reflexivity; by apply insert_grows|].
  cbv zeta. destruct (Py.is_empty _); [apply (keeps_ret _)|apply bind_parent_grows].
Qed.

Lemma observe_spawned_grows raw : keeps grown (observe_spawned raw).
Proof.
  unfold observe_spawned. destruct (claude_spawned_child_run_ids _) as [|t ts]; [apply (keeps_ret _)|].
  destruct (of_child raw); [|apply (keeps_ret _)]. apply (keeps_bind _); [apply message_ref_grows|].
  intros parent. apply (keeps_each _). intros tool. apply spawned_grows.
Qed.

Lemma observe_grows include raw : keeps grown (observe include raw).
Proof.
  unfold observe. destruct (negb _).
  - apply (keeps_bind _); [apply lifecycle_grows|]. intros _. apply (keeps_ret _).
  - apply (keeps_bind _); [apply (keeps_each _), send_grows|]. intros _.
    apply (keeps_bind _); [apply receipt_grows|]. intros d.
    apply (keeps_bind _); [destruct include; [apply observe_spawned_grows|apply (keeps_ret _)]|]. intros _. apply (keeps_ret _).
Qed.

(** What the adapter does with its identities, each call raising or not. *)
Inductive use :=
| Observed (include_messages : bool) (raw : dict)
| Referred (raw : dict)
| ParentBound (agent parent : string).

Definition apply_use (i : identities) (u : use) : identities :=
  match u with
  | Observed include raw => snd (observe include raw i)
  | Referred raw => snd (message_ref raw i)
  | ParentBound agent parent => snd (bind_parent agent parent i)
  end.

Lemma uses_grow us i : grown i (fold_left apply_use us i).
Proof.
  revert i. induction us as [|u us IH]; intros i; cbn; [reflexivity|]. etransitivity; [|apply IH].
  destruct u; [apply observe_grows|apply message_ref_grows|apply bind_parent_grows].
Qed.

Lemma bind_noted tool agent i u i' : bind tool agent i = (Ok u, i') -> id_agent_by_tool i' !! tool = Some agent.
Proof.
  unfold bind, refuse_if. intros (u1 & i1 & H1 & H)%act_bind_ok. apply refuse_call_ok in H1 as [_ ->].
  apply act_bind_ok in H as (i2 & i3 & [= <- <-] & H). apply act_bind_ok in H as (u2 & i4 & H2 & H).
  apply refuse_call_ok in H2 as [_ ->]. apply act_bind_ok in H as (u3 & i5 & [= <- <-] & H).
  set (i5 := note_agent tool agent i) in *. assert (Hn : id_agent_by_tool i5 !! tool = Some agent) by apply lookup_insert_eq.
  cbv zeta in H. destruct (Py.is_empty _); [by injection H as _ <-|].
  unfold bind_parent in H. apply act_bind_ok in H as (i6 & i7 & [= <- <-] & H).
  apply act_bind_ok in H as (u4 & i8 & H4 & H). apply refuse_call_ok in H4 as [_ ->]. injection H as _ <-. exact Hn.
Qed.

(** What a reference is: nothing at the root, else the message's own word or the table's. *)
Definition at_root (raw : dict) : bool :=
  Py.is_empty (claude_child_context_id raw) &&
  negb (Py.is_true (Py.get "isSidechain" raw) && negb (Py.is_empty (clean_of "agentId" raw))).

Lemma message_ref_value raw i a i' :
  message_ref raw i = (Ok a, i') ->
  if at_root raw then a = ""
  else if Py.is_empty (clean_of "agentId" raw) then id_agent_by_tool i' !! claude_child_context_id raw = Some a
  else a = clean_of "agentId" raw.
Proof.
  unfold message_ref. intros (u & i1 & _ & H)%act_bind_ok. fold (at_root raw) in H.
  destruct (at_root raw); [by injection H as <- _|].
  destruct (Py.is_empty (clean_of "agentId" raw)); cbn [negb] in H; [|by injection H as <- _].
  apply act_bind_ok in H as (i2 & i3 & [= <- <-] & H). destruct (_ !! _) eqn:El; [|done]. by injection H as <- <-.
Qed.

(** What the adapter has learnt of Claude's sub-agents stands.  However many messages it
    observes afterwards, raising or not, every name bound to an agent, every task's type and
    every parent stays, and a child's message is never answered with another agent. *)
Theorem identities_only_learn raw a i i1 us b i2 :
  message_ref raw i = (Ok a, i1) -> a <> "" ->
  let later := fold_left apply_use us i1 in
  grown i later /\ (message_ref raw later = (Ok b, i2) -> b = a).
Proof.
  intros Ha Hne later. pose proof (uses_grow us i1) as Hg. fold later in Hg. split.
  { etransitivity; [|exact Hg]. pose proof (message_ref_grows raw i) as Hr. by rewrite Ha in Hr. }
  intros Hb. pose proof (message_ref_grows raw later) as Hl. rewrite Hb in Hl. cbn in Hl.
  apply message_ref_value in Ha, Hb. destruct (at_root raw); [by subst|]. destruct (Py.is_empty _); [|by subst].
  destruct Hg as [Hg _ _ _], Hl as [Hl _ _ _]. pose proof (Hl _ _ (Hg _ _ Ha Hne) Hne). congruence.
Qed.
End Learning.

(** ** The lineage of a batch *)

(** Who launched whom, by the batch's messages in order. *)
Definition launched_by (i : identities) (parent : string) (tools : list string) : list (string * string) :=
  omap (fun tool => let child := default "" (id_agent_by_tool i !! tool) in if Py.is_empty child then None else Some (child, parent)) tools.

Definition launched_in (i : identities) (block : dict) : list (string * string) :=
  match launches block with Some (parent, tools) => launched_by i parent tools | None => [] end.

Definition launched (i : identities) (blocks : list dict) : list (string * string) := concat (map (launched_in i) blocks).

Definition note_pair (m : names) (e : string * string) : res names :=
  _ ← refuse (conflicts (m !! fst e) (snd e)); Ok (<[fst e := snd e]> m).

Lemma note_launch_pairs i parent tools m :
  foldM (note_launch i parent) m tools = foldM note_pair m (launched_by i parent tools).
Proof.
  revert m. induction tools as [|t tools IH]; intros m; [done|]. cbn [foldM launched_by omap list_omap].
  unfold note_launch at 1. cbv zeta. destruct (Py.is_empty _); [apply IH|]. cbn [foldM].
  unfold note_pair at 1. cbn [fst snd]. destruct (refuse _) as [[]|e]; cbn; [apply IH|done].
Qed.

Lemma note_launches_pairs i blocks m : foldM (note_launches i) m blocks = foldM note_pair m (launched i blocks).
Proof.
  revert m. induction blocks as [|b blocks IH]; intros m; [done|]. cbn [foldM launched map concat].
  rewrite foldM_app. unfold note_launches at 1, launched_in.
  destruct (launches b) as [[parent tools]|]; [rewrite note_launch_pairs|]; cbn [foldM mbind res_bind].
  - destruct (foldM note_pair m _); cbn; [apply IH|done].
  - apply IH.
Qed.

(** [m] holds exactly the pairs of [es]. *)
Definition tabulates (m : names) (es : list (string * string)) : Prop := forall c p, m !! c = Some p <-> (c, p) ∈ es.

Definition named (es : list (string * string)) : Prop := Forall (fun e => snd e <> "") es.

Lemma note_pair_ok m es c p m' :
  tabulates m es -> named es -> note_pair m (c, p) = Ok m' -> tabulates m' (es ++ [(c, p)]).
Proof.
  intros Hm Hn H. unfold note_pair in H. cbn [fst snd] in H. run_res H. apply refuse_ok in E. injection H as <-.
  intros c' p'. rewrite elem_of_app, list_elem_of_singleton. destruct (decide (c = c')) as [<-|Hne].
  - rewrite lookup_insert_eq. split; [intros [= <-]; by right|]. intros [Hin|[= <-]]; [|done]. f_equal.
    pose proof (proj2 (Hm _ _) Hin) as Hl. rewrite Hl in E. cbn in E. apply andb_false_iff in E as [E|E]; bool_prop; [|done].
    apply is_empty_true in E. unfold named in Hn. rewrite Forall_forall in Hn. by destruct (Hn _ Hin).
  - rewrite lookup_insert_ne by done. rewrite (Hm c' p'). split; [by left|]. by intros [|[=]].
Qed.

Lemma note_pair_free m es c p : tabulates m es -> one_parent (es ++ [(c, p)]) -> exists m', note_pair m (c, p) = Ok m'.
Proof.
  intros Hm H1. unfold note_pair. cbn [fst snd]. destruct (conflicts (m !! c) p) eqn:Ec; [|by eexists]. exfalso.
  destruct (m !! c) as [p'|] eqn:E; [|done]. cbn in Ec. bool_prop. apply Hm in E.
  assert (p' = p); [|done]. apply (H1 c); apply elem_of_app; [by left|right; by apply list_elem_of_singleton].
Qed.

Lemma note_pairs es : forall es0 m,
  tabulates m es0 -> named (es0 ++ es) ->
  (forall m', foldM note_pair m es = Ok m' -> tabulates m' (es0 ++ es)) /\
  (one_parent (es0 ++ es) -> exists m', foldM note_pair m es = Ok m').
Proof.
  induction es as [|[c p] es IH]; intros es0 m Hm Hn.
  { rewrite app_nil_r. split; [by intros m' [= <-]|by eexists]. }
  assert (E : (es0 ++ (c, p) :: es = (es0 ++ [(c, p)]) ++ es)%list) by by rewrite <-app_assoc.
  assert (Hn0 : named es0) by by apply Forall_app in Hn as [? _].
  rewrite E in *. cbn [foldM]. split.
  - intros m' H. destruct (note_pair m (c, p)) as [m1|] eqn:E1; [|done].
    by apply (IH (es0 ++ [(c, p)])%list m1 (note_pair_ok _ _ _ _ _ Hm Hn0 E1) Hn).
  - intros H1. destruct (note_pair_free m es0 c p Hm) as [m1 E1].
    { intros x y z Hy Hz. apply (H1 x); apply elem_of_app; by left. }
    rewrite E1. by apply (IH (es0 ++ [(c, p)])%list m1 (note_pair_ok _ _ _ _ _ Hm Hn0 E1) Hn).
Qed.

Lemma launched_named i blocks : named (launched i blocks).
Proof.
  unfold named, launched. apply Forall_concat, Forall_map, Forall_forall. intros b _. unfold launched_in, launches.
  destruct (negb _); [done|]. destruct (Py.get "data" b) as [| | | | | |data]; try done. destruct (negb _); [done|].
  destruct (Py.get "content" data) as [| | | | |content|]; try done. destruct (Py.is_empty (clean_of "engineRef" data)) eqn:E; [done|].
  unfold launched_by. apply Forall_forall. intros e (t & _ & He)%list_elem_of_omap. cbv zeta in He.
  destruct (Py.is_empty (default _ _)); [done|]. injection He as <-. cbn. intros Hz. rewrite Hz in E. done.
Qed.

(** What linking a block makes of it: its data names the parent that launched it, if any;
    everything else is as it was. *)
Definition linked (es : list (string * string)) (block block' : dict) : Prop :=
  match (if clean_of "type" block =s "subagent" then Py.get "data" block else VNone) with
  | VDict data =>
      let child := clean_of "engineRef" data in
      (exists p, (child, p) ∈ es /\ (clean_of "parentEngineRef" data = "" \/ clean_of "parentEngineRef" data = p) /\
         block' = Py.set "data" (VDict (Py.set "parentEngineRef" (VStr p) data)) block) \/
      (forall p, (child, p) ∉ es) /\ block' = block
  | _ => block' = block
  end.

Lemma link_block_spec m es block block' :
  tabulates m es -> named es -> link_block m block = Ok block' -> linked es block block'.
Proof.
  intros Hm Hn H. unfold link_block, linked in *. destruct (_ =s "subagent"); [|by injection H].
  destruct (Py.get "data" block) as [| | | | | |data] eqn:Ed; try by injection H. cbv zeta in H |- *.
  run_res H. apply refuse_ok in E. injection H as <-.
  destruct (m !! clean_of "engineRef" data) as [p|] eqn:El.
  - change (default "" (Some p)) with p in *. pose proof (proj1 (Hm _ _) El) as Hin. unfold named in Hn. rewrite Forall_forall in Hn.
    assert (Hp : Py.is_empty p = false) by apply is_empty_false, (Hn _ Hin). rewrite Hp in *.
    left. exists p. split_and!; [done| |done]. rewrite andb_true_r in E.
    apply andb_false_iff in E as [E|E]; bool_prop; [left; by apply is_empty_true in E|by right].
  - change (default "" None) with "". right. cbn [Py.is_empty]. split; [intros p Hin%Hm; congruence|].
    apply set_same. rewrite get_lookup in Ed. destruct (Py.lookup "data" block); cbn in Ed; [by subst|done].
Qed.

Lemma mapM_res_perm {A B} (f : A -> res B) l l' out :
  l ≡ₚ l' -> mapM_res f l = Ok out -> exists out', mapM_res f l' = Ok out' /\ out ≡ₚ out'.
Proof.
  intros Hp. revert out. induction Hp as [|x l l' _ IH|x y l|l1 l2 l3 _ IH1 _ IH2]; intros out H; cbn [mapM_res] in *.
  - by exists out.
  - run_res H. destruct (IH _ eq_refl) as (o & -> & Ho). injection H as <-. eexists. split; [done|]. by constructor.
  - run_res H. run_res E0. injection H as <-. injection E0 as <-. cbn. eexists. split; [done|]. constructor.
  - destruct (IH1 _ H) as (o1 & H1 & P1). destruct (IH2 _ H1) as (o2 & H2 & P2). exists o2. split; [done|]. by etransitivity.
Qed.

(** The lineage of a batch of blocks is its own, whatever their order: linking succeeds
    with each child naming the agent that launched it and nothing else changed, and the same
    blocks in another order are linked the same. *)
Theorem lineage_order_free i blocks out :
  infer_claude_child_run_parents i blocks = Ok out ->
  Forall2 (linked (launched i blocks)) blocks out /\
  forall blocks', blocks ≡ₚ blocks' ->
  exists out', infer_claude_child_run_parents i blocks' = Ok out' /\ out ≡ₚ out'.
Proof.
  unfold infer_claude_child_run_parents. rewrite note_launches_pairs. intros H. run_res H. rename a into m.
  pose proof (launched_named i blocks) as Hn. assert (H0 : tabulates ∅ []) by (intros c p; by rewrite lookup_empty, elem_of_nil).
  pose proof (proj1 (note_pairs _ [] ∅ H0 Hn) _ E) as Hm. cbn in Hm. split.
  - apply mapM_res_Forall2 in H. eapply Forall2_impl; [exact H|]. intros b b'. by apply link_block_spec.
  - intros blocks' Hp. rewrite note_launches_pairs.
    assert (Hl : launched i blocks ≡ₚ launched i blocks') by (unfold launched; rewrite <-!flat_map_concat_map; by apply Permutation_flat_map).
    destruct (proj2 (note_pairs _ [] ∅ H0 (launched_named i blocks'))) as [m' E'].
    { intros c p p' Hc Hc'. cbn in Hc, Hc'. rewrite <-Hl in Hc, Hc'. apply Hm in Hc, Hc'. congruence. }
    rewrite E'. cbn [mbind res_bind].
    assert (m' = m) as ->.
    { apply map_eq. intros c. apply option_eq. intros p. rewrite (Hm c p), Hl.
      by apply (proj1 (note_pairs _ [] ∅ H0 (launched_named i blocks'))). }
    by apply (mapM_res_perm _ _ _ _ Hp).
Qed.

(** ** Witnesses *)

#[local] Instance demo_floats : PyFloats := fun literal => literal.

Definition demo_started (task tool : string) : dict :=
  [("type", VStr "system"); ("subtype", VStr "task_started"); ("task_id", VStr task); ("tool_use_id", VStr tool);
   ("task_type", VStr "local_agent")].

Definition demo_launch : list val := [VDict [("type", VStr "tool_use"); ("name", VStr "Agent"); ("id", VStr "t2")]].

Definition demo_message : dict :=
  [("type", VStr "assistant"); ("parent_tool_use_id", VStr "t1"); ("content", VList demo_launch)].

Definition demo_known : identities := snd (observe true (demo_started "a1" "t1") no_identities).

Definition demo_uses : list use :=
  [Observed true demo_message; Observed true (demo_started "a2" "t2"); Observed true (demo_started "a9" "t1"); ParentBound "a2" "a3"].

(** The child named twice and the second parent are refused, and a1 stays a1. *)
Lemma identities_only_learn_witness :
  fst (message_ref demo_message (fold_left apply_use demo_uses demo_known)) = Ok "a1" /\
  id_parent_by_agent (fold_left apply_use demo_uses demo_known) !! "a2" = Some "a1" /\
  grown demo_known (fold_left apply_use demo_uses demo_known).
Proof.
  split_and!; [by vm_compute|by vm_compute|].
  exact (proj1 (identities_only_learn demo_message "a1" demo_known demo_known demo_uses "a1" demo_known
    ltac:(by vm_compute) ltac:(done))).
Defined.

Definition demo_child_block (ref kind : string) (more : dict) : dict :=
  [("type", VStr "subagent"); ("data", VDict ([("kind", VStr kind); ("engineRef", VStr ref)] ++ more))].

Definition demo_blocks : list dict :=
  [demo_child_block "a2" "lifecycle" []; demo_child_block "a1" "message" [("content", VList demo_launch)]].

Definition demo_identities : identities := fold_left apply_use demo_uses demo_known.

Lemma lineage_order_free_witness :
  infer_claude_child_run_parents demo_identities demo_blocks =
    Ok [demo_child_block "a2" "lifecycle" [("parentEngineRef", VStr "a1")];
        demo_child_block "a1" "message" [("content", VList demo_launch)]] /\
  exists out, infer_claude_child_run_parents demo_identities (rev demo_blocks) = Ok out.
Proof.
  split; [by vm_compute|].
  destruct (proj2 (lineage_order_free demo_identities demo_blocks _ eq_refl) (rev demo_blocks) (Permutation_rev _))
    as (out & H & _). by exists out.
Defined.
End ClaudeChildFacts.
