(* ===== verification/FileChanges.v ===== *)
(** [engine/file_changes.py] and [engine/claude_file_changes.py]: what a finished tool did to
    files, as the page shows it. *)

From S2P Require Import Prelude PyVal ClaudeChildren.

Open Scope string_scope.

Module FileChanges.

(** A diff in one of the page's formats; its texts are the supplier's own values. *)
Inductive file_diff :=
| ContentDiff (before after : val)
| UnifiedDiff (patch : val)
| HunkDiff (hunks : val)
| ExcerptDiff (excerpts : list (val * val)).

Definition content_dict (before after : val) : dict :=
  [("before", before); ("after", after); ("format", VStr "contents")].

(** [asdict]. *)
Definition diff_dict (d : file_diff) : dict :=
  match d with
  | ContentDiff before after => content_dict before after
  | UnifiedDiff patch => [("patch", patch); ("format", VStr "unified")]
  | HunkDiff hunks => [("hunks", hunks); ("format", VStr "hunks")]
  | ExcerptDiff excerpts =>
      [("excerpts", VList (map (fun e => VDict (content_dict (fst e) (snd e))) excerpts)); ("format", VStr "excerpts")]
  end.

Record file_change := FileChange { fc_path : val; fc_diff : option file_diff }.

(** [FileChange(..)] with its check. *)
Definition new_file_change (path : val) (diff : option file_diff) : res file_change :=
  if Py.truthy path then Ok (FileChange path diff) else Raise ValueError.

Definition change_dict (c : file_change) : dict :=
  [("path", fc_path c); ("diff", match fc_diff c with Some d => VDict (diff_dict d) | None => VNone end)].

(** [file_changes_frame]. *)
Definition file_changes_frame (tool_call_id tool_name : string) (changes : list file_change) : res dict :=
  if Py.is_empty tool_call_id || Py.is_empty tool_name || match changes with [] => true | _ => false end
  then Raise ValueError
  else Ok [("type", VStr "data-file-changes"); ("id", VStr ("file-changes:" ++ tool_call_id));
           ("data", VDict [("toolCallId", VStr tool_call_id); ("toolName", VStr tool_name);
                           ("files", VList (map (fun c => VDict (change_dict c)) changes))])].

(** [claude_file_changes]: the diff of a finished write or edit. *)
Definition claude_diff (is_write : bool) (result : dict) : res (option file_diff) :=
  let hunks := Py.get "structuredPatch" result in
  let original := Py.get "originalFile" result in
  if Py.truthy hunks then Ok (Some (HunkDiff hunks))
  else if is_write && Py.eqb (Py.get "type" result) (VStr "create") then
    after ← Py.item "content" result; Ok (Some (ContentDiff (VStr "") after))
  else if is_write && Py.is_str original then
    after ← Py.item "content" result; Ok (Some (ContentDiff original after))
  else Ok None.

Definition claude_file_changes (tool_call_id : string) (result : dict) : res (option dict) :=
  is_write ← ClaudeChildren.in_set (Py.get "type" result) ["create"; "update"];
  let is_edit := Py.has "oldString" result && Py.has "newString" result in
  if negb is_write && negb is_edit then Ok None
  else
    path ← Py.item "filePath" result;
    diff ← claude_diff is_write result;
    change ← new_file_change path diff;
    frame ← file_changes_frame tool_call_id (if is_write then "Write" else "Edit") [change];
    Ok (Some frame).

End FileChanges.
