(* ===== verification/ClaudeStream.v ===== *)
(** The Claude half of [engine/frame_translator.py], with [engine/input_ids.py] and
    [system_events.py]: one message of Claude's SDK becomes the parts a page shows.  The
    translator remembers which content blocks are open, what it showed that no complete
    message confirmed yet, and whether the response showed any text. *)

From S2P Require Import Prelude Effects PyVal JsonText Uuid Reader Emissions ChildFacts ClaudeChildren FileChanges.

Open Scope string_scope.

Module ClaudeStream.
Import ChildFacts Emissions ClaudeChildren.

(** The statuses the vendor's SDK calls terminal. *)
Class ClaudeSdk := TERMINAL_TASK_STATUSES : list string.

Definition CLAUDE_SDK_TASK_MESSAGE_TYPES : list string :=
  ["TaskStartedMessage"; "TaskProgressMessage"; "TaskUpdatedMessage"; "TaskNotificationMessage"].
Definition CLAUDE_SDK_MESSAGE_TYPES : list string :=
  ["AssistantMessage"; "UserMessage"; "SystemMessage"; "HookEventMessage"; "StreamEvent"; "ResultMessage";
   "ConversationResetMessage"] ++ CLAUDE_SDK_TASK_MESSAGE_TYPES.

Definition CLAUDE_RESULT_SUCCESS_SUBTYPE := "success".
Definition BLOCK_INDEX_FIELD := "__engine_block_index".
Definition NATIVE_MESSAGE_ID_FIELD := "__claude_stream_message_id".

(** ** The translator's state *)

(** One open content block. *)
Record lane := Lane { la_kind : string; la_id : string; la_tool_call_id : string }.

(** [ClaudeStreamCursor], but for the identities it shares with the client. *)
Record cursor := Cursor {
  cu_blocks : gmap Z lane;
  cu_streamed_text : bool;
  cu_stream_message_id : string;
  cu_emitted_text : bool;
  cu_confirmed_text : bool;
  cu_partial_part_ids : list string;
  cu_retracted_part_ids : list string;
  cu_retry : option dict;
  cu_started_tool_ids : list string
}.

(** [reset]. *)
Definition new_cursor : cursor := Cursor ∅ false "" false false [] [] None [].

Definition with_blocks (b : gmap Z lane) (c : cursor) : cursor :=
  Cursor b (cu_streamed_text c) (cu_stream_message_id c) (cu_emitted_text c) (cu_confirmed_text c)
    (cu_partial_part_ids c) (cu_retracted_part_ids c) (cu_retry c) (cu_started_tool_ids c).
Definition with_streamed (b : bool) (c : cursor) : cursor :=
  Cursor (cu_blocks c) b (cu_stream_message_id c) (cu_emitted_text c) (cu_confirmed_text c)
    (cu_partial_part_ids c) (cu_retracted_part_ids c) (cu_retry c) (cu_started_tool_ids c).
Definition with_message_id (s : string) (c : cursor) : cursor :=
  Cursor (cu_blocks c) (cu_streamed_text c) s (cu_emitted_text c) (cu_confirmed_text c)
    (cu_partial_part_ids c) (cu_retracted_part_ids c) (cu_retry c) (cu_started_tool_ids c).
Definition with_emitted (b : bool) (c : cursor) : cursor :=
  Cursor (cu_blocks c) (cu_streamed_text c) (cu_stream_message_id c) b (cu_confirmed_text c)
    (cu_partial_part_ids c) (cu_retracted_part_ids c) (cu_retry c) (cu_started_tool_ids c).
Definition with_retry (r : option dict) (c : cursor) : cursor :=
  Cursor (cu_blocks c) (cu_streamed_text c) (cu_stream_message_id c) (cu_emitted_text c) (cu_confirmed_text c)
    (cu_partial_part_ids c) (cu_retracted_part_ids c) r (cu_started_tool_ids c).
Definition note_tool (id : string) (c : cursor) : cursor :=
  Cursor (cu_blocks c) (cu_streamed_text c) (cu_stream_message_id c) (cu_emitted_text c) (cu_confirmed_text c)
    (cu_partial_part_ids c) (cu_retracted_part_ids c) (cu_retry c) (add_new (cu_started_tool_ids c) id).
Definition note_partial (id : string) (c : cursor) : cursor :=
  Cursor (cu_blocks c) (cu_streamed_text c) (cu_stream_message_id c) (cu_emitted_text c) (cu_confirmed_text c)
    (add_new (cu_partial_part_ids c) id) (cu_retracted_part_ids c) (cu_retry c) (cu_started_tool_ids c).

(** [register]. *)
Definition register (index : Z) (l : lane) (c : cursor) : cursor := with_blocks (<[index := l]> (cu_blocks c)) c.

(** A complete native message confirms what was shown. *)
Definition confirm (c : cursor) : cursor :=
  Cursor (cu_blocks c) (cu_streamed_text c) (cu_stream_message_id c) (cu_emitted_text c) (cu_emitted_text c)
    [] (cu_retracted_part_ids c) (cu_retry c) (cu_started_tool_ids c).

(** What [discard_partial_content] does to a cursor with partial parts. *)
Definition retract (c : cursor) : cursor :=
  Cursor ∅ false (cu_stream_message_id c) (cu_confirmed_text c) (cu_confirmed_text c) []
    (cu_retracted_part_ids c ++ Reader.sorted_set (cu_partial_part_ids c)) (cu_retry c) (cu_started_tool_ids c).

(** The translator: the cursor, and the identities the client holds as well. *)
Record translator := Translator { tr_children : identities; tr_stream : cursor }.

Definition put_children (i : identities) (t : translator) : translator := Translator i (tr_stream t).
Definition put_stream (c : cursor) (t : translator) : translator := Translator (tr_children t) c.

Abbreviation tgen A := (gen translator dict A).

Definition children {A} (m : act identities A) : tgen A := on_part tr_children put_children m.
Definition stream : tgen cursor := t ← self_gen; mret (tr_stream t).
Definition change_stream (f : cursor -> cursor) : tgen unit := change_gen (fun t => put_stream (f (tr_stream t)) t).
Definition fail {A} (e : exn) : tgen A := call_gen (Raise e).
Definition ui_frame (frame : dict) : tgen unit := f ← call_gen (public_ui_frame frame); yield [f].

(** ** Frames *)

Definition text_start (id : string) : dict := [("type", VStr "text-start"); ("id", VStr id)].
Definition text_delta (id text : string) : dict := [("type", VStr "text-delta"); ("id", VStr id); ("delta", VStr text)].
Definition text_end (id : string) : dict := [("type", VStr "text-end"); ("id", VStr id)].
Definition reasoning_start (id : string) : dict := [("type", VStr "reasoning-start"); ("id", VStr id)].
Definition reasoning_delta (id text : string) : dict := [("type", VStr "reasoning-delta"); ("id", VStr id); ("delta", VStr text)].
Definition reasoning_end (id : string) : dict := [("type", VStr "reasoning-end"); ("id", VStr id)].

(** What a live part's opening frame carries besides. *)
Definition live_fields (index : Z) (id : string) : dict :=
  [(BLOCK_INDEX_FIELD, VInt index);
   ("providerMetadata", VDict [("astrabox", VDict [("part_id", VStr id)])])].

(** [_claude_raw_frame]. *)
Definition claude_raw_frame (subtype : string) (message : dict) : dict :=
  [("type", VStr "data-raw-event");
   ("data", VDict [("event_type", VStr "claude_code.sdk"); ("subtype", VStr subtype); ("raw", VDict message)])].

(** [_claude_message_id]. *)
Definition claude_message_id (message : dict) : string :=
  let nested := match Py.get "message" message with VDict d => clean_of "id" d | _ => "" end in
  if negb (Py.is_empty nested) then nested
  else Py.clean (Py.por (Py.get "message_id" message) (Py.get "id" message)).

(** [claude_result_data]. *)
Definition keep_value (message public : dict) (key : string) : dict :=
  match Py.get key message with VNone => public | v => Py.set key v public end.

Definition claude_result_data (message : dict) : dict :=
  let public := fold_left (keep_value message) ["duration_ms"; "total_cost_usd"; "num_turns"; "stop_reason"] [] in
  match Py.get "usage" message with VDict usage => Py.set "usage" (VDict usage) public | _ => public end.

(** [input_response_message_id]. *)
Definition input_response_message_id (input_id : string) : res string :=
  normalized ← Uuid.uuid_of (Py.strip input_id);
  Ok (Uuid.uuid_text (Uuid.uuid5 normalized "astrabox-sdk-response")).

(** [api_retry_payload]. *)
Definition keep_int (candidate visible : dict) (key : string) : dict :=
  match Py.get key candidate with VInt z => Py.set key (VInt z) visible | _ => visible end.

Definition api_retry_payload (raw : dict) : option dict :=
  let candidate := match Py.get "data" raw with VDict d => d | _ => raw end in
  if negb (Py.lower (clean_of "subtype" raw) =s "api_retry") && negb (Py.lower (clean_of "subtype" candidate) =s "api_retry")
  then None
  else
    let visible := fold_left (keep_int candidate) ["attempt"; "max_retries"; "error_status"] [] in
    Some (match Py.get "error" candidate with
          | VStr error => if Py.is_empty error then visible else Py.set "error" (VStr error) visible
          | _ => visible
          end).

(** ** The cursor's own generators *)

(** [discard_partial_content]. *)
Definition discard_partial_content : tgen unit :=
  c ← stream;
  match cu_partial_part_ids c with
  | [] => mret tt
  | _ =>
      _ ← change_stream retract;
      c' ← stream;
      yield [[("type", VStr "message-metadata");
              ("messageMetadata", VDict [("retracted_part_ids", VList (map VStr (cu_retracted_part_ids c')))])]]
  end.

Definition retry_frame (retry : dict) : dict :=
  [("type", VStr "data-api-retry"); ("id", VStr "api-retry"); ("data", VDict retry)].

(** [settle_retry]. *)
Definition settle_retry : tgen unit :=
  c ← stream;
  match cu_retry c with
  | Some retry =>
      if Py.truthy (Py.get "active" retry) then
        let settled := Py.set "active" (VBool false) retry in
        _ ← change_stream (with_retry (Some settled));
        yield [retry_frame settled]
      else mret tt
  | None => mret tt
  end.

(** [message_was_started] and [content_was_streamed]. *)
Definition message_was_started (message : dict) (c : cursor) : bool :=
  negb (Py.is_empty (cu_stream_message_id c)) && (claude_message_id message =s cu_stream_message_id c) &&
  Py.is_none (Py.get "error" message).
Definition content_was_streamed (message : dict) (c : cursor) : bool := cu_streamed_text c && message_was_started message c.

(** ** Sub-agents *)

(** [_claude_task_status]. *)
Definition claude_task_status (message : dict) (subtype : string) : res string :=
  let status := envelope_word message "status" in
  if subtype =s "task_updated" then
    Ok (match claude_envelope_value message "patch" with
        | VDict patch => Py.strip (Py.str (Py.por (Py.get "status" patch) (VStr status)))
        | _ => status
        end)
  else if (subtype =s "task_notification") && Py.is_empty status then Raise UnknownWireEvent
  else Ok status.

Definition FIELD_MAP : list (string * string) :=
  [("tool_use_id", "toolCallId"); ("description", "description"); ("task_type", "taskType"); ("usage", "usage");
   ("last_tool_name", "lastToolName"); ("summary", "summary")].

Definition copy_field (message data : dict) (field : string * string) : dict :=
  match claude_envelope_value message (fst field) with
  | VDict d => Py.set (snd field) (VDict d) data
  | VStr s => if Py.is_empty s then data else Py.set (snd field) (VStr s) data
  | _ => data
  end.

Definition set_word (k s : string) (d : dict) : dict := if Py.is_empty s then d else Py.set k (VStr s) d.

(** The agent that launched a lifecycle notice's child. *)
Definition lifecycle_parent (message : dict) (engine_ref : string) : act identities string :=
  let parent_tool_id := claude_lifecycle_parent_child_run_id message in
  if negb (Py.is_empty parent_tool_id) then
    parent ← message_ref [("parent_tool_use_id", VStr parent_tool_id)];
    _ ← bind_parent engine_ref parent;
    mret parent
  else i ← self; mret (default "" (id_parent_by_agent i !! engine_ref)).

Definition subagent_frame (id : string) (data : dict) : dict :=
  session_scoped_engine_frame [("type", VStr "data-subagent"); ("id", VStr id); ("data", VDict data)].

Section Translate.
Context {floats : PyFloats} {sdk : ClaudeSdk}.

(** [_translate_claude_subagent_lifecycle]. *)
Definition translate_claude_subagent_lifecycle (message : dict) : act identities (option dict) :=
  let subtype := claude_lifecycle_subtype message in
  if Py.is_empty subtype then mret None
  else
    let task_id := envelope_word message "task_id" in
    i ← self;
    let engine_ref := lifecycle_ref i message in
    if Py.is_empty engine_ref then mret None
    else
      engine_status ← call (claude_task_status message subtype);
      let event := if Py.in_strs engine_status TERMINAL_TASK_STATUSES then "closed"
                   else if subtype =s "task_started" then "opened" else "updated" in
      let d1 := set_word "engineStatus" engine_status
        [("kind", VStr "lifecycle"); ("engineRef", VStr engine_ref); ("event", VStr event); ("engineEvent", VStr subtype);
         ("operations", VList (if negb (Py.is_empty task_id) && negb (event =s "closed") then [VStr "stop"] else []))] in
      parent_engine_ref ← lifecycle_parent message engine_ref;
      let d2 := fold_left (copy_field message) FIELD_MAP (set_word "parentEngineRef" parent_engine_ref d1) in
      frame_data ← call (canonical_child_run_data (set_word "controlRef" task_id d2) CLAUDE_CODE_ENGINE_KIND);
      let uuid_value := envelope_word message "uuid" in
      mret (Some (subagent_frame
        (if Py.is_empty uuid_value then "subagent:lifecycle:" ++ engine_ref ++ ":" ++ subtype
         else "subagent:lifecycle:" ++ uuid_value) frame_data)).

(** [_translate_claude_subagent_message]. *)
Definition translate_claude_subagent_message (message : dict) : act identities (option dict) :=
  if Py.is_empty (claude_child_context_id message) then mret None
  else
    let role := claude_message_role message in
    let content := claude_content_blocks message in
    if negb (Py.in_strs role ["assistant"; "user"]) || match content with [] => true | _ => false end then mret None
    else
      engine_ref ← message_ref message;
      i ← self;
      let parent := default "" (id_parent_by_agent i !! engine_ref) in
      let message_id := claude_message_id message in
      let data := set_word "messageId" message_id (set_word "parentEngineRef" parent
        [("kind", VStr "message"); ("engineRef", VStr engine_ref); ("role", VStr role); ("content", VList (map VDict content))]) in
      frame_data ← call (canonical_child_run_data data CLAUDE_CODE_ENGINE_KIND);
      let uuid_value := clean_of "uuid" message in
      mret (Some (subagent_frame
        (if Py.is_empty uuid_value then "subagent:msg:" ++ Py.a_or message_id engine_ref else "subagent:msg:" ++ uuid_value)
        frame_data)).

(** ** Complete messages *)

(** [(block or {}).get(key)] of a list's element. *)
Definition block_get (key : string) (block : val) : res val := Py.vget key (Py.por block (VDict [])).

Definition block_id (kind : string) (seq : Z) (index : nat) : string :=
  "claude-" ++ kind ++ ":" ++ pretty seq ++ ":" ++ pretty (Z.of_nat index).

Definition optional_delta (text : string) (delta : dict) : list dict := if Py.is_empty text then [] else [delta].

(** One block of an assistant message. *)
Definition translate_block (seq : Z) (live : bool) (index : nat) (block : val) : tgen unit :=
  block_type ← call_gen (Py.str_or_empty <$> block_get "__sdk_type" block);
  if live && Py.in_strs block_type ["TextBlock"; "ThinkingBlock"] then mret tt
  else if block_type =s "TextBlock" then
    text ← call_gen (Py.str_or_empty <$> Py.vget "text" block);
    let id := block_id "text" seq index in
    _ ← (if Py.is_empty text then mret tt else change_stream (with_emitted true));
    yield ([text_start id] ++ optional_delta text (text_delta id text) ++ [text_end id])
  else if block_type =s "ThinkingBlock" then
    text ← call_gen (Py.str_or_empty <$> Py.vget "thinking" block);
    let id := block_id "reasoning" seq index in
    yield ([reasoning_start id] ++ optional_delta text (reasoning_delta id text) ++ [reasoning_end id])
  else if block_type =s "ToolUseBlock" then
    raw_id ← call_gen (Py.vget "id" block);
    raw_name ← call_gen (Py.vget "name" block);
    input ← call_gen (Py.vget "input" block);
    let tool_call_id := Py.str (Py.por raw_id (VStr (block_id "tool" seq index))) in
    let tool_name := Py.str (Py.por raw_name (VStr "tool")) in
    c ← stream;
    _ ← (if Py.in_strs tool_call_id (cu_started_tool_ids c) then mret tt
         else ui_frame [("type", VStr "tool-input-start"); ("toolCallId", VStr tool_call_id);
                        ("toolName", VStr tool_name); ("dynamic", VBool true)]);
    ui_frame [("type", VStr "tool-input-available"); ("toolCallId", VStr tool_call_id);
              ("toolName", VStr tool_name); ("dynamic", VBool true); ("input", input)]
  else fail UnknownWireEvent.

(** [_translate_claude_assistant_blocks]. *)
Definition translate_claude_assistant_blocks (message : dict) (seq : Z) : tgen unit :=
  match Py.get "content" message with
  | VList blocks =>
      c ← stream;
      let live := content_was_streamed message c in
      each_gen (fun ib => translate_block seq live (fst ib) (snd ib)) (imap pair blocks)
  | _ => fail UnknownWireEvent
  end.

(** One tool result of a user message; whether the block was one. *)
Definition tool_result_type (block : val) : res string :=
  sdk_type ← block_get "__sdk_type" block;
  type ← block_get "type" block;
  Ok (Py.str (Py.por sdk_type (Py.por type (VStr "")))).

Definition translate_tool_result (message : dict) (block : val) : tgen unit :=
  tool_call_id ← call_gen (Py.str_or_empty <$> Py.vget "tool_use_id" block);
  is_error ← call_gen (Py.vget "is_error" block);
  content ← call_gen (Py.vget "content" block);
  if Py.truthy is_error then
    yield [[("type", VStr "tool-output-error"); ("toolCallId", VStr tool_call_id);
            ("errorText", VStr (Py.str (Py.por content (VStr "tool failed"))))]]
  else
    _ ← yield [[("type", VStr "tool-output-available"); ("toolCallId", VStr tool_call_id); ("output", content)]];
    match Py.get "tool_use_result" message with
    | VDict result =>
        change_frame ← call_gen (FileChanges.claude_file_changes tool_call_id result);
        match change_frame with Some frame => yield [frame] | None => mret tt end
    | _ => mret tt
    end.

Fixpoint translate_results (message : dict) (emitted : bool) (blocks : list val) : tgen unit :=
  match blocks with
  | [] => if emitted then mret tt else yield [claude_raw_frame "user_echo" message]
  | block :: rest =>
      block_type ← call_gen (tool_result_type block);
      if Py.in_strs block_type ["ToolResultBlock"; "tool_result"]
      then _ ← translate_tool_result message block; translate_results message true rest
      else translate_results message emitted rest
  end.

Definition consumed_frame (input_id response_id content : string) : dict :=
  [("type", VStr "data-input-consumed"); ("id", VStr ("input-consumed:" ++ input_id)); ("transient", VBool true);
   ("data", VDict [("inputId", VStr input_id); ("responseMessageId", VStr response_id); ("content", VStr content)])].

(** [_translate_claude_user_message]. *)
Definition translate_claude_user_message (message : dict) : tgen unit :=
  match Py.get "content" message with
  | VList blocks => translate_results message false blocks
  | VStr content =>
      let input_id := clean_of "uuid" message in
      response_id ← call_gen (input_response_message_id input_id);
      yield [consumed_frame input_id response_id content]
  | _ => fail UnknownWireEvent
  end.

(** ** The live stream *)

(** [_live_block_id]. *)
Definition live_block_id (uuid : string) (index : Z) : string := "claude-live:" ++ uuid ++ ":" ++ pretty index.

(** The end of a text or reasoning block. *)
Definition lane_end (l : lane) : list dict :=
  if la_kind l =s "text" then [text_end (la_id l)]
  else if la_kind l =s "thinking" then [reasoning_end (la_id l)] else [].

(** The [content_block_start] branch. *)
Definition open_block (message : dict) (uuid : string) (index : Z) (block : dict) : tgen unit :=
  let kind := Py.str_or_empty (Py.get "type" block) in
  let id := live_block_id uuid index in
  c ← stream;
  _ ← yield (match cu_blocks c !! index with Some superseded => lane_end superseded | None => [] end);
  if kind =s "text" then
    _ ← change_stream (fun c => note_partial id (with_emitted true (with_streamed true (register index (Lane "text" id "") c))));
    yield [(text_start id ++ live_fields index id)%list]
  else if kind =s "thinking" then
    _ ← change_stream (fun c => note_partial id (with_streamed true (register index (Lane "thinking" id "") c)));
    yield [(reasoning_start id ++ live_fields index id)%list]
  else if kind =s "tool_use" then
    let tool_call_id := Py.str (Py.por (Py.get "id" block) (VStr id)) in
    _ ← change_stream (fun c => note_tool tool_call_id (register index (Lane "tool_use" id tool_call_id) c));
    ui_frame [("type", VStr "tool-input-start"); ("toolCallId", VStr tool_call_id);
              ("toolName", VStr (Py.str (Py.por (Py.get "name" block) (VStr "tool")))); ("dynamic", VBool true);
              (BLOCK_INDEX_FIELD, VInt index)]
  else yield [claude_raw_frame ("live_block:" ++ kind) message].

(** The kind of block a delta belongs to. *)
Definition synth_kind (delta_type : string) : option string :=
  Reader.assoc delta_type [("text_delta", "text"); ("thinking_delta", "thinking"); ("input_json_delta", "tool_use")].

Definition synth_block (kind : string) : dict := [("type", VStr kind)].
Definition synth_message (uuid : string) (index : Z) (kind : string) : dict :=
  [("uuid", VStr uuid); ("event", VDict [("type", VStr "content_block_start"); ("index", VInt index);
                                         ("content_block", VDict (synth_block kind))])].

Definition delta_frames (l : lane) (delta_type : string) (delta : dict) : list dict :=
  let text key := Py.str_or_empty (Py.get key delta) in
  if delta_type =s "text_delta" then [text_delta (la_id l) (text "text")]
  else if delta_type =s "thinking_delta" then [reasoning_delta (la_id l) (text "thinking")]
  else if delta_type =s "input_json_delta" then
    [[("type", VStr "tool-input-delta"); ("toolCallId", VStr (Py.a_or (la_tool_call_id l) (la_id l)));
      ("inputTextDelta", VStr (text "partial_json"))]]
  else [].

(** The [content_block_delta] branch: a lost start is made up first. *)
Definition take_delta (uuid : string) (index : Z) (delta : dict) : tgen unit :=
  let delta_type := Py.str_or_empty (Py.get "type" delta) in
  c ← stream;
  _ ← match cu_blocks c !! index, synth_kind delta_type with
      | None, Some kind => open_block (synth_message uuid index kind) uuid index (synth_block kind)
      | _, _ => mret tt
      end;
  c' ← stream;
  match cu_blocks c' !! index with
  | Some l => yield (delta_frames l delta_type delta)
  | None => mret tt
  end.

(** The [content_block_stop] branch. *)
Definition close_block (index : Z) : tgen unit :=
  c ← stream;
  match cu_blocks c !! index with
  | None => mret tt
  | Some l => _ ← change_stream (fun c => with_blocks (delete index (cu_blocks c)) c); yield (lane_end l)
  end.

Definition event_index (event : dict) : res Z := Py.int (Py.por (Py.get "index" event) (VInt 0)).

(** [x.get(key) or {}], read as a dict. *)
Definition dict_at (key : string) (event : dict) : res dict :=
  match Py.por (Py.get key event) (VDict []) with VDict d => Ok d | _ => Raise AttributeError end.

(** [translate_claude_stream_event]. *)
Definition translate_claude_stream_event (message : dict) : tgen unit :=
  if Py.truthy (Py.get "parent_tool_use_id" message) then
    yield [session_scoped_engine_frame (claude_raw_frame "subagent_stream_event" message)]
  else
    let uuid := Py.str_or_empty (Py.get "uuid" message) in
    event ← call_gen (dict_at "event" message);
    let event_type := Py.str_or_empty (Py.get "type" event) in
    if event_type =s "content_block_start" then
      index ← call_gen (event_index event);
      block ← call_gen (dict_at "content_block" event);
      open_block message uuid index block
    else if event_type =s "content_block_delta" then
      index ← call_gen (event_index event);
      delta ← call_gen (dict_at "delta" event);
      take_delta uuid index delta
    else if event_type =s "content_block_stop" then
      index ← call_gen (event_index event);
      close_block index
    else if event_type =s "message_start" then
      _ ← discard_partial_content;
      _ ← settle_retry;
      let id := claude_message_id event in
      _ ← change_stream (fun c => with_streamed false (with_message_id id c));
      yield [[("type", VStr "start-step"); (NATIVE_MESSAGE_ID_FIELD, VStr id)]]
    else if event_type =s "message_stop" then yield [[("type", VStr "finish-step")]]
    else mret tt.

(** ** The result *)

(** [for item in v or []]. *)
Definition items_of (v : val) : res (list val) :=
  match Py.por v (VList []) with
  | VList l => Ok l
  | VStr s => Ok (map (fun p => VStr (Json.encode_point p)) (default [] (Json.points s)))
  | VDict d => Ok (map VStr (Py.keys d))
  | _ => Raise TypeError
  end.

Definition VERBATIM_KEYS : list string :=
  ["terminal_reason"; "num_turns"; "total_cost_usd"; "api_error_status"; "permission_denials"; "deferred_tool_use"; "model_usage"].

Definition result_succeeded (message : dict) : bool :=
  (Py.str_or_empty (Py.get "subtype" message) =s CLAUDE_RESULT_SUCCESS_SUBTYPE) && negb (Py.is_true (Py.get "is_error" message)).

Definition result_error (message : dict) : res dict :=
  let subtype := Py.str_or_empty (Py.get "subtype" message) in
  let code := if subtype =s CLAUDE_RESULT_SUCCESS_SUBTYPE then "" else subtype in
  items ← items_of (Py.get "errors" message);
  let errors := List.filter (fun s => negb (Py.is_empty (Py.strip s))) (map Py.str items) in
  Ok [("code", VStr (Py.a_or (Py.a_or code (Py.str_or_empty (Py.get "terminal_reason" message))) "ENGINE_ERROR"));
      ("message", VStr (Py.a_or (String.concat "; " errors) (Py.str_or_empty (Py.get "result" message))))].

(** The frame that carries the SDK's verdict. *)
Definition result_frame (message : dict) : res dict :=
  let succeeded := result_succeeded message in
  let f0 := [("type", VStr "result"); ("finishReason", VStr (if succeeded then "stop" else "error"))] in
  let f1 := set_word "__engine_terminal_reason" (clean_of "terminal_reason" message) f0 in
  let f2 := if Py.is_dict (Py.get "deferred_tool_use" message) then Py.set "__interaction_closed" (VBool true) f1 else f1 in
  let f3 := match Py.get "usage" message with VDict usage => Py.set "usage" (VDict usage) f2 | _ => f2 end in
  let f4 := fold_left (keep_value message) VERBATIM_KEYS f3 in
  if succeeded then Ok f4 else error ← result_error message; Ok (Py.set "error" (VDict error) f4).

Definition translate_result (message : dict) (seq : Z) : tgen unit :=
  _ ← settle_retry;
  let text := Py.str_or_empty (Py.get "result" message) in
  c ← stream;
  _ ← (if result_succeeded message && negb (cu_emitted_text c) && negb (Py.is_empty text) then
         let id := "claude-result:" ++ pretty seq in
         _ ← change_stream (with_emitted true);
         yield [text_start id; text_delta id text; text_end id]
       else mret tt);
  frame ← call_gen (result_frame message);
  yield [frame].

(** ** One message *)

Definition translate_assistant (message : dict) (seq : Z) : tgen unit :=
  _ ← (if Py.is_none (Py.get "error" message) then mret tt else yield [claude_raw_frame "assistant_message_error" message]);
  c ← stream;
  let streamed := message_was_started message c in
  _ ← (if streamed then mret tt else discard_partial_content);
  _ ← settle_retry;
  _ ← (if streamed then mret tt
       else _ ← change_stream (fun c => with_streamed false (with_message_id "" c)); yield [[("type", VStr "start-step")]]);
  _ ← translate_claude_assistant_blocks message seq;
  _ ← (if streamed then mret tt else yield [[("type", VStr "finish-step")]]);
  change_stream confirm.

Definition translate_system (message : dict) : tgen unit :=
  if Py.lower (clean_of "subtype" message) =s "thinking_tokens" then mret tt
  else
    match api_retry_payload message with
    | Some retry =>
        _ ← discard_partial_content;
        let active := Py.set "active" (VBool true) retry in
        _ ← change_stream (with_retry (Some active));
        yield [retry_frame active]
    | None => yield [claude_raw_frame (Py.str (Py.por (Py.get "subtype" message) (VStr "system"))) message]
    end.

(** A message of the session itself, by its type. *)
Definition translate_root (sdk_type : string) (message : dict) (seq : Z) : tgen unit :=
  if sdk_type =s "AssistantMessage" then translate_assistant message seq
  else if sdk_type =s "UserMessage" then translate_claude_user_message message
  else if Py.in_strs sdk_type ["SystemMessage"; "HookEventMessage"] then translate_system message
  else if Py.in_strs sdk_type CLAUDE_SDK_TASK_MESSAGE_TYPES then
    yield [claude_raw_frame (Py.str (Py.por (Py.get "subtype" message) (VStr sdk_type))) message]
  else if sdk_type =s "StreamEvent" then translate_claude_stream_event message
  else translate_result message seq.

(** [translate_claude_sdk_message]. *)
Definition translate_claude_sdk_message (message : dict) (seq : Z) : tgen unit :=
  let sdk_type := Py.str_or_empty (Py.get "__sdk_type" message) in
  if sdk_type =s "NativeSDKMessage" then
    match Py.get "data" message with
    | VDict native => yield [claude_raw_frame (Py.str (Py.por (Py.get "type" native) (VStr "unknown"))) native]
    | _ => fail ValueError
    end
  else if negb (Py.in_strs sdk_type CLAUDE_SDK_MESSAGE_TYPES) then fail UnknownWireEvent
  else
    _ ← children (observe true message);
    if sdk_type =s "ConversationResetMessage" then
      _ ← change_stream (fun _ => new_cursor);
      yield [claude_raw_frame "conversation_reset" message]
    else
      lifecycle_frame ← children (translate_claude_subagent_lifecycle message);
      match lifecycle_frame with
      | Some frame => yield [frame]
      | None =>
          if negb (Py.is_empty (claude_child_context_id message)) then
            subagent ← children (translate_claude_subagent_message message);
            match subagent with Some frame => yield [frame] | None => mret tt end
          else translate_root sdk_type message seq
      end.

End Translate.
End ClaudeStream.
