(* ===== verification/ClaudeStreamFacts.v ===== *)
(** The live translator in small steps.  Whatever message it is given, what
    [translate_claude_sdk_message] does to the cursor and yields is a sequence of a few
    primitive steps; what a page may rely on is proved on those. *)

From S2P Require Import Prelude Effects PyVal Texts Reader Emissions ClaudeChildren FileChanges ClaudeStream.

Open Scope string_scope.

Module ClaudeStreamFacts.
Import Emissions ClaudeChildren ClaudeStream.

(** ** Primitive steps *)

Definition content_lane (l : lane) : bool := (la_kind l =s "text") || (la_kind l =s "thinking").

(** The frames a page follows parts by. *)
Definition PART_TYPES : list string :=
  ["text-start"; "text-delta"; "text-end"; "reasoning-start"; "reasoning-delta"; "reasoning-end"; "message-metadata";
   "finish-step"].
Definition frame_type (f : dict) : string := match Py.get "type" f with VStr s => s | _ => "" end.
Definition neutral (f : dict) : bool := Py.is_str (Py.get "type" f) && negb (Py.in_strs (frame_type f) PART_TYPES).

(** No block is open that a page shows as text. *)
Definition idle (c : cursor) : bool := forallb (fun e => negb (content_lane (snd e))) (map_to_list (cu_blocks c)).
Definition finish_step : dict := [("type", VStr "finish-step")].

(** A change no page sees: it opens no part. *)
Record quiet (c c' : cursor) : Prop := {
  qu_emitted : cu_emitted_text c' = cu_emitted_text c;
  qu_confirmed : cu_confirmed_text c' = cu_confirmed_text c;
  qu_partial : cu_partial_part_ids c' = cu_partial_part_ids c;
  qu_retracted : cu_retracted_part_ids c' = cu_retracted_part_ids c;
  qu_blocks : forall i l, content_lane l = true -> cu_blocks c' !! i = Some l -> cu_blocks c !! i = Some l
}.

Definition metadata_frame (ids : list string) : dict :=
  [("type", VStr "message-metadata"); ("messageMetadata", VDict [("retracted_part_ids", VList (map VStr ids))])].

(** The parts of a complete block: they are nobody's live part. *)
Definition whole_id (id : string) : Prop := String.prefix "claude-live:" id = false.

(** A flag beside the cursor says whether complete text was shown since the last
    confirmation.  [resets] allows the steps of a reset and of a result's own text. *)
Inductive prim (resets : bool) : bool * cursor -> list dict -> bool * cursor -> Prop :=
| Neutral d c f : neutral f = true -> prim resets (d, c) [f] (d, c)
| Step d c : idle c = true -> prim resets (d, c) [finish_step] (d, c)
| Quiet d c c' : quiet c c' -> prim resets (d, c) [] (d, c')
| Close d c i l : cu_blocks c !! i = Some l -> prim resets (d, c) (lane_end l) (d, with_blocks (delete i (cu_blocks c)) c)
| StartText d c i u : cu_blocks c !! i = None ->
    let id := live_block_id u i in
    prim resets (d, c) [(text_start id ++ live_fields i id)%list]
      (d, note_partial id (with_emitted true (with_streamed true (register i (Lane "text" id "") c))))
| StartThinking d c i u : cu_blocks c !! i = None ->
    let id := live_block_id u i in
    prim resets (d, c) [(reasoning_start id ++ live_fields i id)%list]
      (d, note_partial id (with_streamed true (register i (Lane "thinking" id "") c)))
| Delta d c i l text : cu_blocks c !! i = Some l -> la_kind l = "text" -> prim resets (d, c) [text_delta (la_id l) text] (d, c)
| ThinkingDelta d c i l text : cu_blocks c !! i = Some l -> la_kind l = "thinking" ->
    prim resets (d, c) [reasoning_delta (la_id l) text] (d, c)
| Retract c : cu_partial_part_ids c <> [] ->
    prim resets (false, c) [metadata_frame (cu_retracted_part_ids (retract c))] (false, retract c)
| WholeText d c id text : whole_id id -> text <> "" ->
    prim resets (d, c) [text_start id; text_delta id text; text_end id] (true, with_emitted true c)
| WholeBlank d c id : whole_id id -> prim resets (d, c) [text_start id; text_end id] (d, c)
| WholeThinking d c id text : whole_id id ->
    prim resets (d, c) ([reasoning_start id] ++ optional_delta text (reasoning_delta id text) ++ [reasoning_end id])%list (d, c)
| Loosen d c : prim resets (d, c) [] (true, c)
| Confirm d c : prim resets (d, c) [] (false, confirm c)
| Reset d c : resets = true -> prim resets (d, c) [] (d, new_cursor)
| Answer d c id text : resets = true -> whole_id id ->
    prim resets (d, c) [text_start id; text_delta id text; text_end id] (d, with_emitted true c).

Inductive prims (resets : bool) : bool * cursor -> list dict -> bool * cursor -> Prop :=
| prims_nil s : prims resets s [] s
| prims_snoc s ys s1 zs s2 : prims resets s ys s1 -> prim resets s1 zs s2 -> prims resets s (ys ++ zs) s2.

Lemma prims_one resets s ys s' : prim resets s ys s' -> prims resets s ys s'.
Proof. intros H. apply (prims_snoc _ _ [] s); [constructor|done]. Qed.

Lemma prims_app resets s ys s1 zs s2 : prims resets s ys s1 -> prims resets s1 zs s2 -> prims resets s (ys ++ zs) s2.
Proof.
  intros H1 H2. revert H1. induction H2 as [|s1 zs s2 ws s3 _ IH Hp]; intros H1; [by rewrite app_nil_r|].
  rewrite app_assoc. eapply prims_snoc; [by apply IH|done].
Qed.

Lemma quiet_refl c : quiet c c.
Proof. by split. Qed.

Lemma quiet_prims resets d c c' : quiet c c' -> prims resets (d, c) [] (d, c').
Proof. intros H. by apply prims_one, Quiet. Qed.

(** ** Runs in primitive steps *)

Section Runs.
Context {floats : PyFloats} {sdk : ClaudeSdk} (resets : bool).

(** A run is primitive steps; when it returns, the flag is [d']. *)
Definition steps {A} (d d' : bool) (m : tgen A) (t : translator) : Prop :=
  let '(ys, (r, t')) := m t in
  exists d1, prims resets (d, tr_stream t) ys (d1, tr_stream t') /\ (is_ok r = true -> d1 = d').

Lemma steps_ret {A} d (a : A) t : steps d d (mret a) t.
Proof. exists d. split; [constructor|done]. Qed.

Lemma steps_bind {A B} d d1 d2 (m : tgen A) (f : A -> tgen B) t :
  steps d d1 m t -> (forall a t', snd (m t) = (Ok a, t') -> steps d1 d2 (f a) t') -> steps d d2 (m ≫= f) t.
Proof.
  unfold steps. intros Hm Hf. unfold mbind, gen_bind. destruct (m t) as [ys [[a|e] t']].
  - destruct Hm as (e1 & H1 & He). specialize (He eq_refl) as ->. specialize (Hf a t' eq_refl). destruct (f a t') as [zs [r t'']].
    destruct Hf as (e2 & H2 & Hd). exists e2. split; [by eapply prims_app|done].
  - destruct Hm as (e1 & H1 & _). by exists e1.
Qed.

Lemma steps_stream {A} d d' (f : cursor -> tgen A) t : steps d d' (f (tr_stream t)) t -> steps d d' (stream ≫= f) t.
Proof. unfold steps, stream, mbind, gen_bind, self_gen, mret, gen_ret. cbn. by destruct (f _ t) as [ys r]. Qed.

Lemma steps_call {A} d d' (r : res A) t : (is_ok r = true -> d = d') -> steps d d' (call_gen r) t.
Proof. intros H. exists d. split; [constructor|done]. Qed.

Lemma steps_read {A B} d d' (r : res A) (f : A -> tgen B) t :
  (forall a, r = Ok a -> steps d d' (f a) t) -> steps d d' (call_gen r ≫= f) t.
Proof. intros H. eapply steps_bind; [by apply (steps_call d d)|]. intros a t' [= -> ->]. by apply H. Qed.

Lemma steps_fail {A} d d' e t : steps d d' (fail e : tgen A) t.
Proof. by apply steps_call. Qed.

Lemma steps_yield d d' ys t : prims resets (d, tr_stream t) ys (d', tr_stream t) -> steps d d' (yield ys) t.
Proof. intros H. by exists d'. Qed.

Lemma steps_change d d' f t : prims resets (d, tr_stream t) [] (d', f (tr_stream t)) -> steps d d' (change_stream f) t.
Proof. intros H. by exists d'. Qed.

Lemma steps_children {A} d (m : act identities A) t : steps d d (children m) t.
Proof.
  unfold steps, children, on_part. destruct (m _) as [r i]. exists d. split; [constructor|done].
Qed.

Lemma steps_neutral d f t : neutral f = true -> steps d d (yield [f]) t.
Proof. intros H. by apply steps_yield, prims_one, Neutral. Qed.

(** The object after a change and what it yields. *)
Lemma steps_change_yield d d' f ys t :
  prims resets (d, tr_stream t) ys (d', f (tr_stream t)) -> steps d d' (change_stream f ≫= fun _ => yield ys) t.
Proof. intros H. by exists d'. Qed.

Lemma steps_ui d type rest t :
  Py.in_strs type DYNAMIC_TOOL_FRAMES = true -> steps d d (ui_frame (("type", VStr type) :: rest)) t.
Proof.
  intros H. apply in_strs_true in H. unfold ui_frame. apply steps_read. intros f Hf. apply steps_neutral.
  apply elem_of_cons in H as [-> | H]; [by injection Hf as <-|]. apply elem_of_cons in H as [-> | H]; [by injection Hf as <-|].
  apply list_elem_of_singleton in H as ->. by injection Hf as <-.
Qed.

Lemma steps_settle d t : steps d d settle_retry t.
Proof.
  apply steps_stream. destruct (cu_retry _) as [retry|]; [|apply steps_ret]. destruct (Py.truthy _); [|apply steps_ret].
  apply steps_change_yield. apply (prims_snoc _ _ [] (d, with_retry (Some (Py.set "active" (VBool false) retry)) (tr_stream t)));
    [by apply quiet_prims|by apply Neutral].
Qed.

Lemma steps_discard t : steps false false discard_partial_content t.
Proof.
  unfold discard_partial_content. apply steps_stream. destruct (cu_partial_part_ids _) as [|p ps] eqn:E; [apply steps_ret|].
  exists false. split; [|done]. apply prims_one, Retract. by rewrite E.
Qed.

(** ** Each branch *)

(** A start over an open block is of a kind the page knows. *)
Definition known_kind (kind : string) : bool := Py.in_strs kind ["text"; "thinking"; "tool_use"].

Definition opens_known (c : cursor) (index : Z) (block : dict) : bool :=
  match cu_blocks c !! index with Some _ => known_kind (Py.str_or_empty (Py.get "type" block)) | None => true end.

Definition ends_at (c : cursor) (index : Z) : list dict :=
  match cu_blocks c !! index with Some l => lane_end l | None => [] end.
Definition closed_at (c : cursor) (index : Z) : cursor := with_blocks (delete index (cu_blocks c)) c.

(** The superseded block is closed before the new one opens. *)
Lemma superseded_closed d c index : prims resets (d, c) (ends_at c index) (d, closed_at c index).
Proof.
  unfold ends_at. destruct (cu_blocks c !! index) as [l|] eqn:E; [by apply prims_one, Close|].
  apply quiet_prims. split; try done. intros i l _. cbn. rewrite lookup_delete_Some. by intros [].
Qed.

Lemma closed_free c index : cu_blocks (closed_at c index) !! index = None.
Proof. apply lookup_delete_eq. Qed.

Lemma register_closed index l c : register index l (closed_at c index) = register index l c.
Proof. unfold register, closed_at, with_blocks. cbn. by rewrite insert_delete_eq. Qed.

(** What follows a yield and a change. *)
Lemma steps_after {A} d d1 d2 ys f (m : tgen A) t :
  prims resets (d, tr_stream t) ys (d1, f (tr_stream t)) -> steps d1 d2 m (put_stream (f (tr_stream t)) t) ->
  steps d d2 (yield ys ≫= fun _ => change_stream f ≫= fun _ => m) t.
Proof.
  unfold steps, mbind, gen_bind, yield, change_stream, change_gen. intros H Hm. cbn in *.
  destruct (m _) as [zs [r t']]. destruct Hm as (e & He & Hd). exists e. split; [by eapply prims_app|done].
Qed.

Lemma steps_open d message uuid index block t :
  opens_known (tr_stream t) index block = true -> steps d d (open_block message uuid index block) t.
Proof.
  intros Hk. apply steps_stream. unfold opens_known in Hk. set (c := tr_stream t) in *. fold (ends_at c index).
  set (kind := Py.str_or_empty _) in *.
  destruct (kind =s "text") eqn:E1; [|destruct (kind =s "thinking") eqn:E2; [|destruct (kind =s "tool_use") eqn:E3]].
  - exists d. split; [|done]. cbn. eapply prims_app; [apply superseded_closed|]. fold c. rewrite <-register_closed.
    apply prims_one. apply (StartText _ d (closed_at c index) index uuid), closed_free.
  - exists d. split; [|done]. cbn. eapply prims_app; [apply superseded_closed|]. fold c. rewrite <-register_closed.
    apply prims_one. apply (StartThinking _ d (closed_at c index) index uuid), closed_free.
  - apply (steps_after d d); [|by apply steps_ui]. fold c. rewrite <-register_closed, <-(app_nil_r (ends_at c index)).
    eapply prims_app; [apply superseded_closed|]. apply quiet_prims. split; try done.
    intros i l Hl. cbn. destruct (decide (i = index)) as [->|Hne]; [|by rewrite lookup_insert_ne].
    rewrite lookup_insert_eq. by intros [= <-].
  - unfold known_kind in Hk. cbn [Py.in_strs existsb] in Hk. rewrite E1, E2, E3 in Hk. unfold ends_at.
    destruct (cu_blocks c !! index); [done|]. by apply steps_neutral.
Qed.

(** A delta is of its block's kind. *)
Definition delta_fits (c : cursor) (index : Z) (delta : dict) : bool :=
  match cu_blocks c !! index, synth_kind (Py.str_or_empty (Py.get "type" delta)) with
  | Some l, Some kind => la_kind l =s kind
  | _, _ => true
  end.

Lemma delta_frames_prims d c index l delta :
  cu_blocks c !! index = Some l ->
  (forall kind, synth_kind (Py.str_or_empty (Py.get "type" delta)) = Some kind -> la_kind l = kind) ->
  prims resets (d, c) (delta_frames l (Py.str_or_empty (Py.get "type" delta)) delta) (d, c).
Proof.
  intros Hl Hk. unfold delta_frames, synth_kind in *. cbn [Reader.assoc] in Hk. set (ty := Py.str_or_empty _) in *.
  destruct (ty =s "text_delta"); [apply prims_one; eapply Delta; eauto|].
  destruct (ty =s "thinking_delta"); [apply prims_one; eapply ThinkingDelta; eauto|].
  destruct (ty =s "input_json_delta"); [by apply prims_one, Neutral|constructor].
Qed.

Lemma opened_lane message uuid index kind t t' :
  known_kind kind = true -> snd (open_block message uuid index (synth_block kind) t) = (Ok tt, t') ->
  exists l, cu_blocks (tr_stream t') !! index = Some l /\ la_kind l = kind.
Proof.
  intros Hk. unfold known_kind in Hk. apply in_strs_true in Hk.
  apply elem_of_cons in Hk as [-> | Hk]; [|apply elem_of_cons in Hk as [-> | Hk]; [|apply list_elem_of_singleton in Hk as ->]].
  all: intros [= <-]; cbn; rewrite lookup_insert_eq; by eexists.
Qed.

Lemma steps_delta d uuid index delta t :
  delta_fits (tr_stream t) index delta = true -> steps d d (take_delta uuid index delta) t.
Proof.
  intros Hf. apply steps_stream. unfold delta_fits in Hf. set (c := tr_stream t) in *. set (ty := Py.str_or_empty _) in *.
  destruct (cu_blocks c !! index) as [l|] eqn:El.
  - eapply (steps_bind d d); [apply steps_ret|]. intros [] t' [= <-]. apply steps_stream. fold c. rewrite El.
    apply steps_yield. apply (delta_frames_prims _ _ index); [done|]. intros kind Hk. fold ty in Hk. rewrite Hk in Hf. by bool_prop.
  - destruct (synth_kind ty) as [kind|] eqn:Ek.
    + assert (Hkind : known_kind kind = true).
      { unfold synth_kind in Ek. cbn [Reader.assoc] in Ek. by repeat (destruct (ty =s _); [by injection Ek as <-|]). }
      eapply (steps_bind d d); [apply steps_open; unfold opens_known; fold c; by rewrite El|]. intros [] t' H.
      destruct (opened_lane _ _ _ _ _ _ Hkind H) as (l & Hl & Hlk). apply steps_stream. rewrite Hl.
      apply steps_yield. apply (delta_frames_prims _ _ index); [done|]. intros kind' Hk'. fold ty in Hk'. congruence.
    + eapply (steps_bind d d); [apply steps_ret|]. intros [] t' [= <-]. apply steps_stream. fold c. rewrite El. apply steps_ret.
Qed.

Lemma steps_close d index t : steps d d (close_block index) t.
Proof.
  apply steps_stream. destruct (cu_blocks _ !! index) as [l|] eqn:E; [|apply steps_ret].
  apply steps_change_yield. by apply prims_one, Close.
Qed.

(** ** Complete messages *)

Lemma steps_loosen {A} d d' (m : tgen A) t : steps true d' m t -> steps d d' m t.
Proof.
  unfold steps. destruct (m t) as [ys [r t']]. intros (d1 & H & Hd). exists d1. split; [|done].
  apply (prims_app _ _ [] (true, tr_stream t)); [by apply prims_one, Loosen|done].
Qed.

Lemma steps_each {A} d (body : A -> tgen unit) l t :
  (forall x t, steps d d (body x) t) -> steps d d (each_gen body l) t.
Proof.
  intros H. revert t. induction l as [|x l IH]; intros t; [exact (steps_ret d tt t)|]. cbn [each_gen].
  eapply steps_bind; [apply H|]. intros [] t' _. apply IH.
Qed.

Lemma steps_if d d' (b : bool) (m : tgen unit) t :
  (b = true -> d = d') -> (b = false -> steps d d' m t) -> steps d d' (if b then mret tt else m) t.
Proof. destruct b; intros H1 H2; [rewrite (H1 eq_refl); apply (steps_ret d' tt)|by apply H2]. Qed.

Lemma whole_text seq index : whole_id (block_id "text" seq index).
Proof. done. Qed.
Lemma whole_reasoning seq index : whole_id (block_id "reasoning" seq index).
Proof. done. Qed.

Lemma steps_block seq live index block t : steps true true (translate_block seq live index block) t.
Proof.
  apply steps_read. intros ty _. destruct (live && _); [apply steps_ret|].
  destruct (ty =s "TextBlock").
  { apply steps_read. intros text _. unfold optional_delta. destruct (Py.is_empty text) eqn:E.
    - eapply steps_bind; [apply (steps_ret true tt)|]. intros [] t' [= <-]. apply steps_yield, prims_one.
      apply WholeBlank, whole_text.
    - apply steps_change_yield. apply prims_one, WholeText; [apply whole_text|by apply is_empty_false]. }
  destruct (ty =s "ThinkingBlock").
  { apply steps_read. intros text _. apply steps_yield, prims_one. apply WholeThinking, whole_reasoning. }
  destruct (ty =s "ToolUseBlock"); [|apply steps_fail].
  apply steps_read. intros id _. apply steps_read. intros name _. apply steps_read. intros input _.
  apply steps_stream. eapply (steps_bind true true); [apply steps_if; [done|]; intros _; by apply steps_ui|].
  intros [] t' _. by apply steps_ui.
Qed.

Lemma steps_blocks message seq t : steps true true (translate_claude_assistant_blocks message seq) t.
Proof.
  unfold translate_claude_assistant_blocks. destruct (Py.get "content" message); try apply steps_fail.
  apply steps_stream. apply steps_each. intros x t'. apply steps_block.
Qed.

(** *** A complete message opens no block *)

Definition stays_idle {A} (m : tgen A) : Prop :=
  forall t, idle (tr_stream t) = true -> idle (tr_stream (snd (snd (m t)))) = true.

Lemma idle_ret {A} (a : A) : stays_idle (mret a).
Proof. by intros t. Qed.
Lemma idle_call {A} (r : res A) : stays_idle (call_gen r).
Proof. by intros t. Qed.
Lemma idle_yield ys : stays_idle (yield ys).
Proof. by intros t. Qed.
Lemma idle_change f : (forall c, cu_blocks (f c) = cu_blocks c) -> stays_idle (change_stream f).
Proof. intros H t. unfold idle. cbn. by rewrite H. Qed.
Lemma idle_bind {A B} (m : tgen A) (f : A -> tgen B) : stays_idle m -> (forall a, stays_idle (f a)) -> stays_idle (m ≫= f).
Proof.
  intros Hm Hf t Ht. specialize (Hm t Ht). unfold mbind, gen_bind. destruct (m t) as [ys [[a|e] t']]; [|done].
  specialize (Hf a t' Hm). by destruct (f a t') as [zs [r t'']].
Qed.
Lemma idle_stream {A} (f : cursor -> tgen A) : (forall c, stays_idle (f c)) -> stays_idle (stream ≫= f).
Proof. intros H t Ht. specialize (H (tr_stream t) t Ht). unfold stream, mbind, gen_bind, self_gen, mret, gen_ret. cbn. by destruct (f _ t). Qed.
Lemma idle_each {A} (body : A -> tgen unit) l : (forall x, stays_idle (body x)) -> stays_idle (each_gen body l).
Proof. intros H. induction l as [|x l IH]; [apply idle_ret|]. cbn [each_gen]. by apply idle_bind. Qed.
Lemma idle_if (b : bool) (m1 m2 : tgen unit) : stays_idle m1 -> stays_idle m2 -> stays_idle (if b then m1 else m2).
Proof. by destruct b. Qed.

Lemma ui_idle f : stays_idle (ui_frame f).
Proof. apply idle_bind; [apply idle_call|]. intros. apply idle_yield. Qed.

Lemma block_idle seq live index block : stays_idle (translate_block seq live index block).
Proof.
  apply idle_bind; [apply idle_call|]. intros ty. apply idle_if; [apply idle_ret|]. destruct (ty =s "TextBlock").
  { apply idle_bind; [apply idle_call|]. intros text. apply idle_bind; [|intros; apply idle_yield].
    apply idle_if; [apply idle_ret|by apply idle_change]. }
  destruct (ty =s "ThinkingBlock"); [apply idle_bind; [apply idle_call|intros; apply idle_yield]|].
  destruct (ty =s "ToolUseBlock"); [|apply idle_call].
  do 3 (apply idle_bind; [apply idle_call|intros ?]). apply idle_stream. intros c.
  apply idle_bind; [apply idle_if; [apply idle_ret|apply ui_idle]|]. intros _. apply ui_idle.
Qed.

Lemma blocks_idle message seq : stays_idle (translate_claude_assistant_blocks message seq).
Proof.
  unfold translate_claude_assistant_blocks. destruct (Py.get "content" message); try apply idle_call.
  apply idle_stream. intros c. apply idle_each. intros x. apply block_idle.
Qed.

Lemma settle_idle : stays_idle settle_retry.
Proof.
  apply idle_stream. intros c. destruct (cu_retry c); [|apply idle_ret]. destruct (Py.truthy _); [|apply idle_ret].
  apply idle_bind; [by apply idle_change|]. intros. apply idle_yield.
Qed.

(** Nothing that a page still adds to would be cut off: what is open is withdrawn first. *)
Definition may_step (c : cursor) : bool := match cu_partial_part_ids c with [] => idle c | _ => true end.

Lemma discard_idle t t' : may_step (tr_stream t) = true -> snd (discard_partial_content t) = (Ok tt, t') -> idle (tr_stream t') = true.
Proof.
  unfold may_step, discard_partial_content, stream, mbind, gen_bind, self_gen, mret, gen_ret. cbn.
  destruct (cu_partial_part_ids (tr_stream t)); [by intros H [= <-]|]. by intros _ [= <-].
Qed.

Lemma after_idle {A} (m : tgen A) t a t' : stays_idle m -> idle (tr_stream t) = true -> snd (m t) = (Ok a, t') -> idle (tr_stream t') = true.
Proof. intros Hm Ht H. specialize (Hm t Ht). by rewrite H in Hm. Qed.

Definition may_complete (c : cursor) (message : dict) : bool := message_was_started message c || may_step c.

Lemma steps_assistant message seq t :
  may_complete (tr_stream t) message = true -> steps false false (translate_assistant message seq) t.
Proof.
  intros Hok.
  eapply (steps_bind false false); [apply steps_if; [done|]; intros _; by apply steps_neutral|]. intros [] t1 H1.
  assert (t1 = t) as -> by (destruct (Py.is_none _); by injection H1).
  apply steps_stream. unfold may_complete in Hok. destruct (message_was_started message (tr_stream t)).
  - eapply steps_bind; [apply (steps_ret false tt)|]. intros [] t2 _. eapply steps_bind; [apply steps_settle|]. intros [] t3 _.
    eapply steps_bind; [apply (steps_ret false tt)|]. intros [] t4 _. eapply (steps_bind _ true); [apply steps_loosen, steps_blocks|].
    intros [] t5 _. eapply steps_bind; [apply (steps_ret true tt)|]. intros [] t6 _. apply steps_change, prims_one, Confirm.
  - eapply steps_bind; [apply steps_discard|]. intros [] t2 H2. pose proof (discard_idle _ _ Hok H2) as I2.
    eapply steps_bind; [apply steps_settle|]. intros [] t3 H3. pose proof (after_idle _ _ _ _ settle_idle I2 H3) as I3.
    eapply (steps_bind false false).
    { apply steps_change_yield.
      apply (prims_snoc _ _ [] (false, with_streamed false (with_message_id "" (tr_stream t3)))); [by apply quiet_prims|by apply Neutral]. }
    intros [] t4 H4. assert (I4 : idle (tr_stream t4) = true) by by injection H4 as <-.
    eapply (steps_bind _ true); [apply steps_loosen, steps_blocks|]. intros [] t5 H5.
    pose proof (after_idle _ _ _ _ (blocks_idle message seq) I4 H5) as I5.
    eapply steps_bind; [apply (steps_yield true true); by apply prims_one, Step|]. intros [] t6 _.
    apply steps_change, prims_one, Confirm.
Qed.

Lemma file_changes_neutral id result f : FileChanges.claude_file_changes id result = Ok (Some f) -> neutral f = true.
Proof.
  unfold FileChanges.claude_file_changes. intros H. run_res H. destruct (negb _ && negb _); [done|].
  run_res H. injection H as <-. unfold FileChanges.file_changes_frame in *. destruct (_ || _) in *; [done|]. by simplify_eq.
Qed.

Lemma steps_tool_result d message block t : steps d d (translate_tool_result message block) t.
Proof.
  apply steps_read. intros id _. apply steps_read. intros is_error _. apply steps_read. intros content _.
  destruct (Py.truthy is_error); [by apply steps_neutral|].
  eapply steps_bind; [by apply steps_neutral|]. intros [] t' _.
  destruct (Py.get "tool_use_result" message); try apply steps_ret.
  apply steps_read. intros [f|] Hf; [by apply steps_neutral, (file_changes_neutral _ _ _ Hf)|apply steps_ret].
Qed.

Lemma steps_results d message blocks emitted t : steps d d (translate_results message emitted blocks) t.
Proof.
  revert emitted t. induction blocks as [|b blocks IH]; intros emitted t; cbn [translate_results].
  - apply steps_if; [done|]. intros _. by apply steps_neutral.
  - apply steps_read. intros ty _. destruct (Py.in_strs _ _); [|apply IH].
    eapply steps_bind; [apply steps_tool_result|]. intros [] t' _. apply IH.
Qed.

Lemma steps_user d message t : steps d d (translate_claude_user_message message) t.
Proof.
  unfold translate_claude_user_message. destruct (Py.get "content" message); try apply steps_fail; [|apply steps_results].
  apply steps_read. intros id _. by apply steps_neutral.
Qed.

Lemma steps_system message t : steps false false (translate_system message) t.
Proof.
  unfold translate_system. destruct (_ =s _); [apply steps_ret|]. destruct (api_retry_payload message) as [retry|]; [|by apply steps_neutral].
  eapply steps_bind; [apply steps_discard|]. intros [] t' _. apply steps_change_yield.
  apply (prims_snoc _ _ [] (false, with_retry (Some (Py.set "active" (VBool true) retry)) (tr_stream t'))); [by apply quiet_prims|by apply Neutral].
Qed.

(** What the vendor's stream keeps to, as far as the parts of a page depend on it. *)
Definition event_fits (c : cursor) (event : dict) : bool :=
  let type := Py.str_or_empty (Py.get "type" event) in
  if type =s "message_stop" then idle c
  else match event_index event with
  | Raise _ => true
  | Ok index =>
      if type =s "content_block_start" then
        match dict_at "content_block" event with Ok block => opens_known c index block | Raise _ => true end
      else if type =s "content_block_delta" then
        match dict_at "delta" event with Ok delta => delta_fits c index delta | Raise _ => true end
      else true
  end.

Definition in_protocol (c : cursor) (message : dict) : bool :=
  if Py.str_or_empty (Py.get "__sdk_type" message) =s "StreamEvent" then
    match dict_at "event" message with Ok event => event_fits c event | Raise _ => true end
  else if (Py.str_or_empty (Py.get "__sdk_type" message) =s "AssistantMessage") && Py.is_empty (claude_child_context_id message)
  then may_complete c message
  else true.

Lemma steps_stream_event message t :
  match dict_at "event" message with Ok event => event_fits (tr_stream t) event | Raise _ => true end = true ->
  steps false false (translate_claude_stream_event message) t.
Proof.
  intros Hf. unfold translate_claude_stream_event. destruct (Py.truthy _); [by apply steps_neutral|].
  apply steps_read. intros event He. rewrite He in Hf. unfold event_fits in Hf. set (ty := Py.str_or_empty (Py.get "type" event)) in *.
  destruct (ty =s "content_block_start") eqn:E1; [assert (Hm : ty =s "message_stop" = false) by (bool_prop; by rewrite E1); rewrite Hm in Hf|].
  { apply steps_read. intros i Hi. apply steps_read. intros b Hb. rewrite Hi, Hb in Hf. by apply steps_open. }
  destruct (ty =s "content_block_delta") eqn:E2; [assert (Hm : ty =s "message_stop" = false) by (bool_prop; by rewrite E2); rewrite Hm in Hf|].
  { apply steps_read. intros i Hi. apply steps_read. intros b Hb. rewrite Hi, Hb in Hf. by apply steps_delta. }
  destruct (ty =s "content_block_stop"); [apply steps_read; intros i _; apply steps_close|].
  destruct (ty =s "message_start"); [|destruct (ty =s "message_stop"); [by apply steps_yield, prims_one, Step|apply steps_ret]].
  eapply steps_bind; [apply steps_discard|]. intros [] t1 _. eapply steps_bind; [apply steps_settle|]. intros [] t2 _.
  apply steps_change_yield.
  apply (prims_snoc _ _ [] (false, with_streamed false (with_message_id (claude_message_id event) (tr_stream t2))));
    [by apply quiet_prims|by apply Neutral].
Qed.

Lemma type_set k v f : k <> "type" -> frame_type (Py.set k v f) = frame_type f.
Proof. intros Hk. unfold frame_type. by rewrite get_set_ne. Qed.

Lemma type_word k s f : k <> "type" -> frame_type (set_word k s f) = frame_type f.
Proof. intros Hk. unfold set_word. destruct (Py.is_empty s); [done|by apply type_set]. Qed.

Lemma type_values message keys f : "type" ∉ keys -> frame_type (fold_left (keep_value message) keys f) = frame_type f.
Proof.
  revert f. induction keys as [|k keys IH]; intros f Hk; [done|]. apply not_elem_of_cons in Hk as [Hk Hks]. cbn [fold_left].
  rewrite IH by done. unfold keep_value. destruct (Py.get k message); try (by rewrite type_set); done.
Qed.

Lemma typed_neutral f s : frame_type f = s -> s <> "" -> Py.in_strs s PART_TYPES = false -> neutral f = true.
Proof. unfold neutral, frame_type. destruct (Py.get "type" f); intros <- Hs ->; done. Qed.

Lemma result_neutral message f : result_frame message = Ok f -> neutral f = true.
Proof.
  unfold result_frame. intros H.
  assert (Ht : frame_type f = "result"); [|by apply (typed_neutral _ _ Ht)].
  match type of H with (if _ then Ok ?x else _) = _ => set (f4 := x) in H end.
  assert (H4 : frame_type f4 = "result").
  { unfold f4. rewrite type_values by (apply (bool_decide_unpack _); by vm_compute).
    destruct (Py.get "usage" message), (Py.is_dict _); rewrite ?type_set, type_word by done; done. }
  destruct (result_succeeded message); [by injection H as <-|]. run_res H. injection H as <-. by rewrite type_set.
Qed.

Lemma steps_result d message seq t : resets = true -> steps d d (translate_result message seq) t.
Proof.
  intros Hr. eapply steps_bind; [apply steps_settle|]. intros [] t1 _. apply steps_stream.
  eapply (steps_bind d d).
  { destruct (_ && _); [|apply steps_ret]. apply steps_change_yield. by apply prims_one, Answer. }
  intros [] t2 _. apply steps_read. intros f Hf. by apply steps_neutral, (result_neutral message).
Qed.

Definition is_reset (sdk_type : string) : bool := Py.in_strs sdk_type ["ResultMessage"; "ConversationResetMessage"].

Lemma lifecycle_neutral message :
  returns (fun o => forall f, o = Some f -> neutral f = true) (translate_claude_subagent_lifecycle message).
Proof.
  unfold translate_claude_subagent_lifecycle. destruct (Py.is_empty _); [by apply returns_ret|]. apply returns_bind. intros i.
  cbv zeta. destruct (Py.is_empty _); [by apply returns_ret|]. do 3 (apply returns_bind; intros ?). apply returns_ret. by intros f [= <-].
Qed.

Lemma message_neutral message :
  returns (fun o => forall f, o = Some f -> neutral f = true) (translate_claude_subagent_message message).
Proof.
  unfold translate_claude_subagent_message. destruct (Py.is_empty _); [by apply returns_ret|]. cbv zeta.
  destruct (_ || _); [by apply returns_ret|]. do 3 (apply returns_bind; intros ?). apply returns_ret. by intros f [= <-].
Qed.

Lemma steps_child_frame d m k t :
  returns (fun o => forall f, o = Some f -> neutral f = true) m ->
  (forall t', tr_stream t' = tr_stream t -> steps d d k t') ->
  steps d d (children m ≫= fun o => match o with Some f => yield [f] | None => k end) t.
Proof.
  intros Hm Hk. eapply steps_bind; [apply steps_children|]. intros o t' H. unfold children, on_part in H.
  destruct (m (tr_children t)) as [r i] eqn:E. cbn in H. injection H as -> <-.
  destruct o as [f|]; [|by apply Hk]. by apply steps_neutral, (Hm _ _ _ E).
Qed.

(** Whatever a message is, its translation is primitive steps. *)
Lemma steps_message message seq t :
  (resets = false -> is_reset (Py.str_or_empty (Py.get "__sdk_type" message)) = false) ->
  in_protocol (tr_stream t) message = true ->
  steps false false (translate_claude_sdk_message message seq) t.
Proof.
  unfold translate_claude_sdk_message, in_protocol. set (ty := Py.str_or_empty _). intros Hr Hp.
  destruct (ty =s "NativeSDKMessage"); [destruct (Py.get "data" message); try apply steps_fail; by apply steps_neutral|].
  destruct (negb (Py.in_strs ty _)) eqn:Hty; [apply steps_fail|]. apply negb_false_iff, in_strs_true in Hty.
  eapply steps_bind; [apply steps_children|]. intros ? t1 H1. unfold children, on_part in H1.
  destruct (observe _ _ _) as [r1 i1]. cbn in H1. injection H1 as _ <-.
  destruct (ty =s "ConversationResetMessage") eqn:Ec.
  { apply steps_change_yield. apply (prims_snoc _ _ [] (false, new_cursor)); [|by apply Neutral]. apply prims_one, Reset.
    destruct resets; [done|]. unfold is_reset in Hr. cbn [Py.in_strs existsb] in Hr. rewrite Ec, orb_true_r in Hr. by specialize (Hr eq_refl). }
  apply steps_child_frame; [apply lifecycle_neutral|]. intros t2 Ht2. destruct (negb (Py.is_empty (claude_child_context_id message))) eqn:Eroot.
  { apply (steps_child_frame _ _ (mret tt)); [apply message_neutral|]. intros t3 _. apply steps_ret. }
  unfold translate_root. apply negb_false_iff in Eroot. rewrite Eroot, andb_true_r in Hp.
  destruct (ty =s "AssistantMessage") eqn:E1.
  { apply steps_assistant. rewrite Ht2. assert (Hs : ty =s "StreamEvent" = false) by (bool_prop; by rewrite E1). by rewrite Hs in Hp. }
  destruct (ty =s "UserMessage") eqn:E2; [apply steps_user|]. destruct (Py.in_strs ty ["SystemMessage"; _]) eqn:E3; [apply steps_system|].
  destruct (Py.in_strs ty CLAUDE_SDK_TASK_MESSAGE_TYPES) eqn:E4; [by apply steps_neutral|].
  destruct (ty =s "StreamEvent") eqn:E5; [apply steps_stream_event; by rewrite Ht2|].
  apply steps_result. destruct resets; [done|]. specialize (Hr eq_refl). exfalso. unfold is_reset in Hr.
  cbn [Py.in_strs existsb] in Hr, E3. bool_prop. unfold CLAUDE_SDK_MESSAGE_TYPES in Hty. apply elem_of_app in Hty as [Hty|Hty];
    [|apply in_strs_true in Hty; congruence]. set_solver.
Qed.
End Runs.
End ClaudeStreamFacts.
