(* ===== verification/ClaudePage.v ===== *)
(** What a page may rely on of Claude's translated messages: text always arrives at a part
    that is open, and a result's own text is shown exactly when no other text was. *)

From S2P Require Import Prelude Effects PyVal Texts Reader UiMessage Emissions ClaudeChildren FileChanges ClaudeStream ClaudeStreamFacts.

Open Scope string_scope.

Module ClaudePage.
Import Emissions ClaudeChildren ClaudeStream ClaudeStreamFacts.

(** ** Following parts *)

Inductive move := Starts | Adds | Ends.

#[export] Instance move_dec : EqDecision move.
Proof. solve_decision. Defined.

Definition PART_MOVES : list (string * (string * move)) :=
  [("text-start", ("text", Starts)); ("text-delta", ("text", Adds)); ("text-end", ("text", Ends));
   ("reasoning-start", ("thinking", Starts)); ("reasoning-delta", ("thinking", Adds)); ("reasoning-end", ("thinking", Ends))].

Definition part_id (f : dict) : string := match Py.get "id" f with VStr s => s | _ => "" end.

(** The parts a frame withdraws. *)
Definition strings_of (v : val) : list string :=
  match v with VList l => omap (fun v => match v with VStr s => Some s | _ => None end) l | _ => [] end.
Definition withdrawn (f : dict) : list string :=
  match Py.get "messageMetadata" f with VDict m => strings_of (Py.get "retracted_part_ids" m) | _ => [] end.

Abbreviation open_parts := (list (string * string)).

(** A page's open parts: a step's end closes them all; adding to a part or ending it needs
    it open. *)
Definition follow (open : open_parts) (f : dict) : option open_parts :=
  if frame_type f =s "finish-step" then Some []
  else match Reader.assoc (frame_type f) PART_MOVES with
       | Some (kind, Starts) => Some ((kind, part_id f) :: open)
       | Some (kind, Adds) => if bool_decide ((kind, part_id f) ∈ open) then Some open else None
       | Some (kind, Ends) =>
           if bool_decide ((kind, part_id f) ∈ open) then Some (filter (fun p => p <> (kind, part_id f)) open) else None
       | None => Some (if frame_type f =s "message-metadata" then filter (fun p => snd p ∉ withdrawn f) open else open)
       end.

Fixpoint follow_all (open : open_parts) (frames : list dict) : option open_parts :=
  match frames with
  | [] => Some open
  | f :: rest => match follow open f with Some open' => follow_all open' rest | None => None end
  end.

Lemma follow_all_app open fs gs :
  follow_all open (fs ++ gs) = match follow_all open fs with Some open' => follow_all open' gs | None => None end.
Proof. revert open. induction fs as [|f fs IH]; intros open; [done|]. cbn. destruct (follow open f); [apply IH|done]. Qed.

(** ** The parts of the translator *)

Lemma live_id_index u u' i i' : live_block_id u i = live_block_id u' i' -> i = i'.
Proof.
  unfold live_block_id. rewrite <-(str_app_assoc "claude-live:" u), <-(str_app_assoc "claude-live:" u'). apply Texts.number_read.
Qed.

Lemma live_not_whole u i id : whole_id id -> live_block_id u i <> id.
Proof.
  unfold whole_id. intros H <-. unfold live_block_id in H. generalize dependent (u ++ ":" ++ pretty i). intros s H.
  assert (E : String.prefix "claude-live:" ("claude-live:" ++ s) = true) by (clear H; by destruct s). congruence.
Qed.

(** The open blocks are parts the page has open, each under an id of its own index. *)
Record shown (c : cursor) (open : open_parts) : Prop := {
  sh_ids : forall i l, cu_blocks c !! i = Some l -> content_lane l = true -> exists u, la_id l = live_block_id u i;
  sh_open : forall i l, cu_blocks c !! i = Some l -> content_lane l = true -> (la_kind l, la_id l) ∈ open
}.

Lemma content_kind l : content_lane l = true -> la_kind l = "text" \/ la_kind l = "thinking".
Proof. unfold content_lane. intros [H|H]%orb_true_iff; bool_prop; auto. Qed.

Lemma shown_less c c' open open' :
  shown c open -> (forall i l, content_lane l = true -> cu_blocks c' !! i = Some l -> cu_blocks c !! i = Some l) ->
  (forall p, p ∈ open -> p ∈ open') -> shown c' open'.
Proof. intros [H1 H2] Hb Ho. split; intros i l Hl Hc; [by eapply H1; [apply Hb|]|]. by eapply Ho, H2; [apply Hb|]. Qed.

Lemma shown_none c open : cu_blocks c = ∅ -> shown c open.
Proof. intros E. split; intros i l; by rewrite E, lookup_empty. Qed.

Lemma shown_idle c open : idle c = true -> shown c open.
Proof.
  unfold idle. intros H. assert (Hn : forall i l, cu_blocks c !! i = Some l -> content_lane l = true -> False).
  { intros i l Hl Hc. rewrite forallb_forall in H. specialize (H (i, l)). cbn in H. rewrite Hc in H.
    discriminate H. apply list_elem_of_In. by apply elem_of_map_to_list. }
  split; intros i l Hl Hc; by destruct (Hn i l).
Qed.

(** A frame that moves no part leaves the open ones open. *)
Lemma follow_neutral open f : neutral f = true -> follow open f = Some open.
Proof.
  unfold neutral, follow. intros [_ H]%andb_true_iff. apply negb_true_iff in H.
  cbn [Py.in_strs existsb PART_TYPES] in H. cbn [Reader.assoc PART_MOVES].
  repeat match type of H with (?b || _) = false => apply orb_false_iff in H as [-> H] end. done.
Qed.

Lemma follow_one open f open' : follow open f = Some open' -> follow_all open [f] = Some open'.
Proof. cbn. by intros ->. Qed.

Lemma follow_adds open f kind :
  frame_type f =s "finish-step" = false -> Reader.assoc (frame_type f) PART_MOVES = Some (kind, Adds) -> (kind, part_id f) ∈ open ->
  follow open f = Some open.
Proof. unfold follow. intros -> -> H. by rewrite bool_decide_eq_true_2. Qed.

Lemma follow_ends open f kind :
  frame_type f =s "finish-step" = false -> Reader.assoc (frame_type f) PART_MOVES = Some (kind, Ends) -> (kind, part_id f) ∈ open ->
  follow open f = Some (filter (fun p => p <> (kind, part_id f)) open).
Proof. unfold follow. intros -> -> H. by rewrite bool_decide_eq_true_2. Qed.

Lemma shown_start c open i u kind c' :
  shown c open -> cu_blocks c' = <[i := Lane kind (live_block_id u i) ""]> (cu_blocks c) -> shown c' ((kind, live_block_id u i) :: open).
Proof.
  intros [H1 H2] E. split; intros j l; rewrite E; intros [[<- <-]|[Hne Hl]]%lookup_insert_Some Hc; cbn.
  - by exists u.
  - by eapply H1.
  - left.
  - right. by eapply H2.
Qed.

(** A part of its own comes and goes. *)
Lemma shown_whole c c' open kind id f fs :
  whole_id id -> shown c open -> cu_blocks c' = cu_blocks c -> follow open f = Some ((kind, id) :: open) ->
  follow_all ((kind, id) :: open) fs = Some (filter (fun p => p <> (kind, id)) ((kind, id) :: open)) ->
  exists open', follow_all open (f :: fs) = Some open' /\ shown c' open'.
Proof.
  intros Hw [H1 H2] Eb Ef E. cbn [follow_all]. rewrite Ef, E. eexists. split; [done|].
  split; intros i l; rewrite Eb; intros Hl Hc; [by eapply H1|]. apply list_elem_of_filter. split.
  - intros [= _ Hid]. destruct (H1 i l Hl Hc) as [u Hu]. rewrite Hu in Hid. by apply (live_not_whole u i id).
  - right. by eapply H2.
Qed.

Lemma follow_prim resets d c ys d' c' open :
  prim resets (d, c) ys (d', c') -> shown c open -> exists open', follow_all open ys = Some open' /\ shown c' open'.
Proof.
  intros H Hs. remember (d, c) as s eqn:E1. remember (d', c') as s' eqn:E2.
  destruct H as [d0 c0 f Hf|d0 c0 Hi|d0 c0 c1 Hq|d0 c0 i l Hl|d0 c0 i u Hn id|d0 c0 i u Hn id|d0 c0 i l text Hl Hk|d0 c0 i l text Hl Hk
    |c0 Hp|d0 c0 id text Hw Ht|d0 c0 id Hw|d0 c0 id text Hw|d0 c0|d0 c0|d0 c0 Hr|d0 c0 id text Hr Hw];
    simplify_eq.
  - exists open. split; [by apply follow_one, follow_neutral|done].
  - exists []. split; [done|by apply shown_idle].
  - exists open. split; [done|]. eapply shown_less; [done| |done]. intros i l Hc. by apply (qu_blocks _ _ Hq).
  - destruct (content_lane l) eqn:Hc.
    + pose proof (sh_open _ _ Hs i l Hl Hc) as Hin. exists (filter (fun p => p <> (la_kind l, la_id l)) open). split.
      * unfold lane_end. destruct (content_kind _ Hc) as [Ek|Ek]; rewrite Ek in *; cbn; by rewrite bool_decide_eq_true_2.
      * split; intros j m; cbn; rewrite lookup_delete_Some; intros [Hne Hm] Hcm; [by eapply sh_ids|].
        apply list_elem_of_filter. split; [|by eapply sh_open]. intros [= _ Hid].
        destruct (sh_ids _ _ Hs j m Hm Hcm) as [u Hu]. destruct (sh_ids _ _ Hs i l Hl Hc) as [u' Hu'].
        rewrite Hu, Hu' in Hid. by apply live_id_index in Hid.
    + exists open. assert (E : lane_end l = []).
      { unfold content_lane in Hc. apply orb_false_iff in Hc as [Hc1 Hc2]. unfold lane_end. by rewrite Hc1, Hc2. }
      rewrite E. split; [done|]. eapply shown_less; [done| |done]. intros j m _. cbn. rewrite lookup_delete_Some. by intros [].
  - exists (("text", id) :: open). split; [done|]. by apply (shown_start c open i u).
  - exists (("thinking", id) :: open). split; [done|]. by apply (shown_start c open i u).
  - exists open. split; [|done]. apply follow_one. apply (follow_adds _ _ "text"); [done..|]. rewrite <-Hk. eapply sh_open; [done..|].
    unfold content_lane. by rewrite Hk.
  - exists open. split; [|done]. apply follow_one. apply (follow_adds _ _ "thinking"); [done..|]. rewrite <-Hk. eapply sh_open; [done..|].
    unfold content_lane. by rewrite Hk.
  - eexists. split; [done|]. by apply shown_none.
  - eapply (shown_whole c); [done..|]. cbn. rewrite !bool_decide_eq_true_2 by (left). done.
  - eapply (shown_whole c); [done..|]. cbn. rewrite !bool_decide_eq_true_2 by (left). done.
  - cbn [app]. eapply (shown_whole c); [done..|]. unfold optional_delta.
    destruct (Py.is_empty text); cbn; rewrite !bool_decide_eq_true_2 by (left); done.
  - by exists open.
  - exists open. split; [done|]. eapply shown_less; done.
  - exists open. split; [done|]. by apply shown_none.
  - eapply (shown_whole c); [done..|]. cbn. rewrite !bool_decide_eq_true_2 by (left). done.
Qed.

Lemma follow_prims resets s ys s' open :
  prims resets s ys s' -> shown (snd s) open -> exists open', follow_all open ys = Some open' /\ shown (snd s') open'.
Proof.
  induction 1 as [s|s ys [d1 c1] zs [d2 c2] _ IH Hp]; intros Hs; [by exists open|].
  destruct (IH Hs) as (open1 & H1 & Hs1). destruct (follow_prim _ _ _ _ _ _ _ Hp Hs1) as (open2 & H2 & Hs2).
  exists open2. split; [by rewrite follow_all_app, H1|done].
Qed.

(** ** The fold of the page *)

(** [fold_message]'s lane for parts of a kind. *)
Definition lane_of (kind : string) (st : Ui.fold_state) : Ui.lane :=
  if kind =s "text" then Ui.fs_texts st else Ui.fs_reasonings st.
Definition part_type (kind : string) : string := if kind =s "text" then "text" else "reasoning".

(** Part [id] of [kind] is where the fold would add to it. *)
Definition placed (st : Ui.fold_state) (p : string * string) : Prop :=
  exists n, Ui.lane_get (snd p) (lane_of (fst p) st) = Some n /\
            fst <$> (Ui.identities st !! n) = Some (VStr (part_type (fst p))).

Lemma same_tool chunk st : Ui.fs_texts (fst (Ui.tool chunk st)) = Ui.fs_texts st /\ Ui.fs_reasonings (fst (Ui.tool chunk st)) = Ui.fs_reasonings st.
Proof. unfold Ui.tool. by destruct (Ui.lane_get _ _). Qed.

Lemma same_update_tool chunk fields st :
  Ui.fs_texts (Ui.update_tool chunk fields st) = Ui.fs_texts st /\ Ui.fs_reasonings (Ui.update_tool chunk fields st) = Ui.fs_reasonings st.
Proof. unfold Ui.update_tool. pose proof (same_tool chunk st) as H. by destruct (Ui.tool chunk st). Qed.

Lemma same_at_lane l k f st :
  Ui.fs_texts (Ui.at_lane l k f st) = Ui.fs_texts st /\ Ui.fs_reasonings (Ui.at_lane l k f st) = Ui.fs_reasonings st.
Proof. unfold Ui.at_lane. by destruct (Ui.lane_get _ _). Qed.

Lemma same_data kind chunk st st' :
  Ui.fold_data kind chunk st = Ok st' -> Ui.fs_texts st' = Ui.fs_texts st /\ Ui.fs_reasonings st' = Ui.fs_reasonings st.
Proof.
  unfold Ui.fold_data. intros (part_id & _ & H)%bind_ok.
  destruct part_id; try (by injection H as <-); destruct (Ui.data_get _ _); by injection H as <-.
Qed.

Lemma same_answers chunk l st :
  Ui.fs_texts (fold_left (fun st (e : string * nat) => Ui.alter_part (Ui.answer_approval chunk) (snd e) st) l st) = Ui.fs_texts st /\
  Ui.fs_reasonings (fold_left (fun st (e : string * nat) => Ui.alter_part (Ui.answer_approval chunk) (snd e) st) l st) = Ui.fs_reasonings st.
Proof. revert st. induction l as [|e l IH]; intros st; [done|]. cbn [fold_left]. by destruct (IH (Ui.alter_part (Ui.answer_approval chunk) (snd e) st)) as [-> ->]. Qed.

(** Only three kinds of chunk touch the lanes of text. *)
Lemma lanes_stay st chunk st' :
  Ui.fold_chunk st chunk = Ok st' ->
  Py.in_strs (Ui.key_of "type" chunk) ["finish-step"; "text-start"; "reasoning-start"] = false ->
  Ui.fs_texts st' = Ui.fs_texts st /\ Ui.fs_reasonings st' = Ui.fs_reasonings st.
Proof.
  unfold Ui.fold_chunk. intros H Hk. cbn [Py.in_strs existsb] in Hk. apply orb_false_iff in Hk as [K1 Hk].
  apply orb_false_iff in Hk as [K2 Hk]. apply orb_false_iff in Hk as [K3 _]. rewrite K1, K2, K3 in H. clear K1 K2 K3.
  destruct (Ui.is_claude_diagnostic_part chunk); [by injection H as <-|].
  repeat match type of H with (if ?c then _ else _) = _ => destruct c end;
    try (by eapply same_data); apply Ok_inj in H; subst st'; try done;
    try apply same_update_tool; try apply same_at_lane; try apply same_answers; try apply same_tool.
  by destruct (Py.get "messageMetadata" chunk).
Qed.

Lemma placed_grows st st' p :
  Ui.fold_step st st' -> Ui.fs_texts st' = Ui.fs_texts st -> Ui.fs_reasonings st' = Ui.fs_reasonings st -> placed st p -> placed st' p.
Proof.
  intros [Hp _ _] Ht Hr (n & Hn & Hi). exists n. unfold lane_of in *. rewrite Ht, Hr. split; [done|].
  destruct (Ui.identities st !! n) as [x|] eqn:E; [|done]. by rewrite (prefix_lookup_Some _ _ _ _ E Hp).
Qed.

Lemma lane_get_other k k' i l : k <> k' -> Ui.lane_get k (Ui.lane_set k' i l) = Ui.lane_get k l.
Proof.
  intros Hne. unfold Ui.lane_get. induction l as [|[k1 j] l IH]; cbn.
  - by destruct (String.eqb_spec k' k).
  - destruct (String.eqb_spec k1 k') as [->|]; cbn; [by destruct (String.eqb_spec k' k)|]. by destruct (k1 =s k).
Qed.

(** A frame as the translator makes them. *)
Definition typed (f : dict) : Prop :=
  Py.get "type" f = VStr (frame_type f) /\
  (is_Some (Reader.assoc (frame_type f) PART_MOVES) -> Py.get "id" f = VStr (part_id f)).

Definition start_type (text : bool) : string := if text then "text-start" else "reasoning-start".
Definition kind_of (text : bool) : string := if text then "text" else "thinking".

Lemma start_chunk text f st :
  typed f -> frame_type f = start_type text -> Ui.fold_chunk st f = Ok (Ui.start_part text f st) /\ Ui.key_of "id" f = part_id f.
Proof.
  intros [Ht Hi] E. rewrite E in *. split.
  - unfold Ui.fold_chunk, Ui.is_claude_diagnostic_part, Ui.type_is, Ui.key_of. rewrite Ht. by destruct text.
  - unfold Ui.key_of. rewrite Hi by (destruct text; by eexists). apply Ui.str_or_empty_str.
Qed.

Lemma start_placed text f st st' open :
  typed f -> frame_type f = start_type text -> Ui.fold_chunk st f = Ok st' ->
  Forall (placed st) open -> Forall (placed st') ((kind_of text, part_id f) :: open).
Proof.
  intros Ht E H Hf. pose proof (Ui.fold_chunk_step _ _ _ H) as [Hp _ _].
  destruct (start_chunk text f st Ht E) as [Es Ei]. rewrite Es in H. injection H as E'. symmetry in E'.
  unfold Ui.start_part in E'. rewrite Ei in E'. set (id := part_id f) in *.
  assert (Hnew : forall kind, (kind =s "text") = text -> placed st' (kind, id)).
  { intros kind Hk. exists (length (Ui.fs_parts st)). rewrite E'. unfold lane_of, part_type, Ui.identities, Ui.append. cbn [fst snd].
    rewrite Hk. destruct text; cbn; rewrite Ui.lane_get_set_eq;
      (split; [done|]); rewrite map_app, lookup_app_r, length_map, Nat.sub_diag by (by rewrite length_map); done. }
  constructor; [apply Hnew; by destruct text|].
  eapply Forall_impl; [exact Hf|]. intros [kind id'] (n & Hn & Hi). cbn [fst snd] in *.
  destruct (decide (id' = id /\ (kind =s "text") = text)) as [[-> Hk]|Hne]; [by apply Hnew|].
  exists n. split.
  - rewrite <-Hn, E'. unfold lane_of, Ui.append. cbn [fst snd]. destruct text, (kind =s "text") eqn:Ek; cbn; try done;
      apply lane_get_other; intros ->; by apply Hne.
  - cbn [fst snd]. destruct (Ui.identities st !! n) as [x|] eqn:Ex; [|done]. by rewrite (prefix_lookup_Some _ _ _ _ Ex Hp).
Qed.

Lemma moves_cases f kind m :
  Reader.assoc (frame_type f) PART_MOVES = Some (kind, m) ->
  (m = Starts /\ exists text, kind = kind_of text /\ frame_type f = start_type text) \/
  (m <> Starts /\ Py.in_strs (frame_type f) ["finish-step"; "text-start"; "reasoning-start"] = false).
Proof.
  cbn [Reader.assoc PART_MOVES]. repeat (destruct (_ =s _) eqn:E; [bool_prop; rewrite E; intros [= <- <-]|clear E]); try done; auto.
  - left. split; [done|]. by exists true.
  - left. split; [done|]. by exists false.
Qed.

(** Following a frame keeps every open part where the fold would add to it. *)
Lemma follow_placed f st st' open open' :
  typed f -> follow open f = Some open' -> Ui.fold_chunk st f = Ok st' -> Forall (placed st) open -> Forall (placed st') open'.
Proof.
  intros Ht Hf H Hp. unfold follow in Hf. destruct (frame_type f =s "finish-step") eqn:Efin; [injection Hf as <-; constructor|].
  assert (Hother : Py.in_strs (frame_type f) ["finish-step"; "text-start"; "reasoning-start"] = false -> Forall (placed st') open).
  { intros Hk. destruct (lanes_stay st f st' H) as [H1 H2].
    { unfold Ui.key_of. by rewrite (proj1 Ht), Ui.str_or_empty_str. }
    eapply Forall_impl; [exact Hp|]. intros p. apply placed_grows; [by eapply Ui.fold_chunk_step|done|done]. }
  destruct (Reader.assoc _ _) as [[kind m]|] eqn:Ea.
  - destruct (moves_cases _ _ _ Ea) as [[-> (text & -> & Et)]|[Hm Hk]].
    + injection Hf as <-. by apply (start_placed text f st).
    + specialize (Hother Hk). destruct m; [done| |]; destruct (bool_decide _); try done; injection Hf as <-; [done|].
      rewrite Forall_forall in *. intros p [_ Hin]%list_elem_of_filter. by apply Hother.
  - specialize (Hother ltac:(cbn [Py.in_strs existsb]; rewrite Efin; cbn [Reader.assoc PART_MOVES] in Ea;
      by repeat (destruct (_ =s _); [done|]))).
    apply (inj Some) in Hf. subst open'. destruct (frame_type f =s "message-metadata"); [|exact Hother]. rewrite Forall_forall in *. intros p [_ Hin]%list_elem_of_filter. by apply Hother.
Qed.

Lemma prim_typed resets s ys s' : prim resets s ys s' -> Forall typed ys.
Proof.
  intros H. destruct H as [d c f Hf| | | | | | | | | | | | | | |]; try (repeat constructor; done).
  - constructor; [|constructor]. unfold neutral in Hf. apply andb_true_iff in Hf as [Hs Hn]. split.
    + unfold frame_type. by destruct (Py.get "type" f).
    + intros [[kind m] Ha]. apply negb_true_iff in Hn. exfalso.
      cbn [Reader.assoc PART_MOVES Py.in_strs existsb PART_TYPES] in *. by repeat (destruct (frame_type f =s _); [done|]).
  - constructor; [|constructor]. split; [done|by intros [? [=]]].
  - unfold lane_end. destruct (_ =s _); [by repeat constructor|]. destruct (_ =s _); by repeat constructor.
  - constructor; [|constructor]. split; [done|by intros [? [=]]].
  - unfold optional_delta. destruct (Py.is_empty text); by repeat constructor.
Qed.

Lemma prims_typed resets s ys s' : prims resets s ys s' -> Forall typed ys.
Proof. induction 1; [constructor|]. apply Forall_app. split; [done|by eapply prim_typed]. Qed.

(** ** A run of messages *)

Section Messages.
Context {floats : PyFloats} {sdk : ClaudeSdk}.

(** The messages in turn; one that raises leaves what it yielded and changed before. *)
Fixpoint translate_all (ms : list (dict * Z)) (t : translator) : list dict * translator :=
  match ms with
  | [] => ([], t)
  | (message, seq) :: rest =>
      let '(ys, (_, t')) := translate_claude_sdk_message message seq t in
      let '(zs, t'') := translate_all rest t' in
      ((ys ++ zs)%list, t'')
  end.

(** Every message keeps to the vendor's stream, as the cursor stands when it comes. *)
Fixpoint protocol_kept (ms : list (dict * Z)) (t : translator) : bool :=
  match ms with
  | [] => true
  | (message, seq) :: rest =>
      in_protocol (tr_stream t) message && protocol_kept rest (snd (snd (translate_claude_sdk_message message seq t)))
  end.

Lemma all_followed ms t open :
  protocol_kept ms t = true -> shown (tr_stream t) open ->
  exists open', follow_all open (fst (translate_all ms t)) = Some open' /\ shown (tr_stream (snd (translate_all ms t))) open' /\
    Forall typed (fst (translate_all ms t)).
Proof.
  revert t open. induction ms as [|[message seq] ms IH]; intros t open; cbn [protocol_kept translate_all]; [by exists open|].
  intros [Hp Hk]%andb_true_iff Hs. pose proof (steps_message true message seq t ltac:(done) Hp) as H. unfold steps in H.
  destruct (translate_claude_sdk_message message seq t) as [ys [r t']]. cbn [snd] in Hk. destruct H as (d & H & _).
  destruct (follow_prims _ _ _ _ _ H Hs) as (open1 & H1 & Hs1). destruct (IH t' open1 Hk Hs1) as (open2 & H2 & Hs2 & Ht).
  destruct (translate_all ms t') as [zs t'']. exists open2. cbn [fst snd] in *. split_and!; [by rewrite follow_all_app, H1|done|].
  apply Forall_app. split; [by eapply prims_typed|done].
Qed.

Lemma all_placed fs open open' st st' :
  Forall typed fs -> follow_all open fs = Some open' -> foldM Ui.fold_chunk st fs = Ok st' ->
  Forall (placed st) open -> Forall (placed st') open'.
Proof.
  revert open st. induction fs as [|f fs IH]; intros open st Ht Hf H Hp; cbn in *; [by simplify_eq|].
  apply Forall_cons in Ht as [Ht Hts]. destruct (follow open f) as [open1|] eqn:E1; [|done].
  destruct (Ui.fold_chunk st f) as [st1|] eqn:E2; [|done]. eapply IH; [done..|]. by eapply follow_placed.
Qed.

End Messages.

(** ** A run *)

#[local] Instance demo_floats : PyFloats := fun literal => literal.
#[local] Instance demo_sdk : ClaudeSdk := ["completed"; "failed"; "killed"].

Definition demo_event (n : Z) (event : dict) : dict * Z :=
  ([("__sdk_type", VStr "StreamEvent"); ("uuid", VStr ("e" ++ pretty n)); ("event", VDict event)], n).
Definition demo_start (index : Z) (kind : string) : dict :=
  [("type", VStr "content_block_start"); ("index", VInt index); ("content_block", VDict [("type", VStr kind)])].
Definition demo_delta (index : Z) (delta : dict) : dict :=
  [("type", VStr "content_block_delta"); ("index", VInt index); ("delta", VDict delta)].
Definition demo_stop (index : Z) : dict := [("type", VStr "content_block_stop"); ("index", VInt index)].
Definition demo_begins (id : string) : dict := [("type", VStr "message_start"); ("message", VDict [("id", VStr id)])].
Definition demo_ends : dict := [("type", VStr "message_stop")].
Definition demo_words (text : string) : dict := [("type", VStr "text_delta"); ("text", VStr text)].

(** A streamed message whose thinking lost its start, cut off by a retry; then another. *)
Definition demo_stream : list (dict * Z) :=
  [demo_event 1 (demo_begins "m1"); demo_event 2 (demo_start 0 "text"); demo_event 3 (demo_delta 0 (demo_words "Hel"));
   demo_event 4 (demo_delta 1 [("type", VStr "thinking_delta"); ("thinking", VStr "hm")]);
   demo_event 5 (demo_begins "m2"); demo_event 6 (demo_start 0 "text"); demo_event 7 (demo_delta 0 (demo_words "Hello"));
   demo_event 8 (demo_stop 0);
   ([("__sdk_type", VStr "AssistantMessage"); ("message_id", VStr "m2");
     ("content", VList [VDict [("__sdk_type", VStr "TextBlock"); ("text", VStr "Hello")]])], 9%Z);
   demo_event 10 demo_ends].

Definition demo_translator : translator := Translator no_identities new_cursor.
Definition demo_frames : list dict := fst (translate_all demo_stream demo_translator).


(** ** Outside the vendor's stream *)

(** A start of a kind the translator does not know, over an open block whose stop was lost,
    ends the block on the page and keeps it in the cursor: its words then go to a part that
    has ended, and its stop ends it twice. *)
Example unknown_start_over_open :
  let ms := [demo_event 1 (demo_start 0 "text"); demo_event 2 (demo_start 0 "server_tool_use");
             demo_event 3 (demo_delta 0 (demo_words "late")); demo_event 4 (demo_stop 0)] in
  map frame_type (fst (translate_all ms demo_translator)) = ["text-start"; "text-end"; "data-raw-event"; "text-delta"; "text-end"] /\
  protocol_kept ms demo_translator = false /\ follow_all [] (fst (translate_all ms demo_translator)) = None.
Proof. by vm_compute. Qed.

(** The input of a block of an unknown kind is shown as that of a tool nobody called. *)
Example phantom_tool_input :
  let ms := [demo_event 1 (demo_start 0 "server_tool_use");
             demo_event 2 (demo_delta 0 [("type", VStr "input_json_delta"); ("partial_json", VStr "{")]); demo_event 3 (demo_stop 0)] in
  map (fun f => (frame_type f, Py.get "toolName" f)) (fst (translate_all ms demo_translator)) =
    [("data-raw-event", VNone); ("tool-input-start", VStr "tool"); ("tool-input-delta", VNone)].
Proof. by vm_compute. Qed.
End ClaudePage.
