(* ===== verification/ClaudeAnswer.v ===== *)
(** A successful result's own text is shown when the response showed no other text, and only
    then. *)

From stdpp Require Import sorting.
From S2P Require Import Prelude Effects PyVal Texts Reader UiMessage Emissions ClaudeChildren FileChanges ClaudeStream ClaudeStreamFacts ClaudePage.

Open Scope string_scope.

Module ClaudeAnswer.
Import Emissions ClaudeChildren ClaudeStream ClaudeStreamFacts ClaudePage.

(** ** What stands on the page *)

(** The frame starts a part of live text, or gives a part text. *)
Definition shows_text (f : dict) : bool :=
  (frame_type f =s "text-delta") || (frame_type f =s "text-start") && String.prefix "claude-live:" (part_id f).

(** The text parts a frame leaves standing. *)
Definition stand (parts : list string) (f : dict) : list string :=
  if shows_text f then part_id f :: parts
  else if frame_type f =s "message-metadata" then filter (fun p => p ∉ withdrawn f) parts
  else parts.

(** The parts of text that stand on the page: begun live or given text, and not withdrawn since. *)
Definition standing (frames : list dict) : list string := fold_left stand frames [].

(** Every part a page was told to start. *)
Definition is_start (f : dict) : bool := Py.in_strs (frame_type f) ["text-start"; "reasoning-start"].
Definition starts (frames : list dict) : list string := map part_id (List.filter is_start frames).

Lemma elem_of_sorted_set x l : x ∈ Reader.sorted_set l <-> x ∈ l.
Proof. unfold Reader.sorted_set. by rewrite merge_sort_Permutation, elem_of_remove_dups. Qed.

Lemma elem_of_add_new x l id : x ∈ add_new l id <-> x ∈ l \/ x = id.
Proof.
  unfold add_new. destruct (Py.in_strs id l) eqn:E; [|by rewrite elem_of_app, list_elem_of_singleton].
  apply in_strs_true in E. split; [by left|]. by intros [| ->].
Qed.

(** ** The invariant *)

Record answered (d : bool) (c : cursor) (frames : list dict) : Prop := {
  an_confirmed : cu_confirmed_text c = true -> cu_emitted_text c = true;
  an_texted : forall id, id ∈ standing frames -> cu_emitted_text c = true /\
    (id ∈ cu_partial_part_ids c \/ cu_confirmed_text c = true \/ d = true);
  an_lanes : forall i l, cu_blocks c !! i = Some l -> la_kind l = "text" -> cu_emitted_text c = true /\
    (la_id l ∈ cu_partial_part_ids c \/ cu_confirmed_text c = true) /\ la_id l ∈ starts frames;
  an_started : forall id, id ∈ cu_partial_part_ids c \/ id ∈ cu_retracted_part_ids c \/ id ∈ standing frames -> id ∈ starts frames;
  an_emitted : cu_emitted_text c = true -> exists id, id ∈ standing frames /\ id ∉ cu_retracted_part_ids c;
  an_kept : cu_confirmed_text c = true ->
    exists id, id ∈ standing frames /\ id ∉ cu_retracted_part_ids c /\ id ∉ cu_partial_part_ids c
}.

Lemma new_answered : answered false new_cursor [].
Proof. 
  split; [done|by intros ? ?%not_elem_of_nil| | |done|done].
  - intros i l. change (cu_blocks new_cursor) with (∅ : gmap Z lane). by rewrite lookup_empty.
  - intros id. cbn. rewrite !elem_of_nil. by intros [|[|]].
Qed.

Lemma standing_app fs gs : standing (fs ++ gs) = fold_left stand gs (standing fs).
Proof. apply fold_left_app. Qed.

Lemma live_shows i u : shows_text (text_start (live_block_id u i) ++ live_fields i (live_block_id u i))%list = true.
Proof. unfold shows_text, live_block_id. cbn. by destruct (u ++ _). Qed.

Lemma whole_shows id f : whole_id id -> frame_type f <> "text-delta" -> part_id f = id -> shows_text f = false.
Proof. unfold whole_id, shows_text. intros H Hd ->. apply String.eqb_neq in Hd. by rewrite Hd, H, andb_false_r. Qed.
Lemma starts_app fs gs : starts (fs ++ gs) = (starts fs ++ starts gs)%list.
Proof. unfold starts. by rewrite List.filter_app, map_app. Qed.

(** A frame that moves no part. *)
Lemma neutral_stands f : neutral f = true ->
  (forall fs, standing (fs ++ [f]) = standing fs) /\ (forall fs, starts (fs ++ [f]) = starts fs).
Proof.
  unfold neutral. intros [_ H]%andb_true_iff. apply negb_true_iff in H. cbn [Py.in_strs existsb PART_TYPES] in H.
  apply orb_false_iff in H as [H1 H]. apply orb_false_iff in H as [H2 H]. apply orb_false_iff in H as [_ H].
  apply orb_false_iff in H as [H3 H]. do 2 apply orb_false_iff in H as [_ H]. apply orb_false_iff in H as [H4 _].
  split; intros fs.
  - rewrite standing_app. cbn. unfold stand, shows_text. by rewrite H1, H2, H4.
  - rewrite starts_app. unfold starts at 2. cbn [List.filter]. unfold is_start. cbn [Py.in_strs existsb]. rewrite H1, H3. cbn.
    apply app_nil_r.
Qed.

(** Frames that leave everything as it stands. *)
Lemma answered_same d c fs gs :
  standing (fs ++ gs) = standing fs -> starts (fs ++ gs) = starts fs -> answered d c fs -> answered d c (fs ++ gs).
Proof. intros E1 E2 [H1 H2 H3 H4 H5 H6]. by split; rewrite ?E1, ?E2. Qed.

(** A change of the cursor that shows nothing. *)
Lemma answered_quiet d c c' fs : quiet c c' -> answered d c fs -> answered d c' fs.
Proof.
  intros [Q1 Q2 Q3 Q4 Q5] [H1 H2 H3 H4 H5 H6]. split; rewrite ?Q1, ?Q2, ?Q3, ?Q4; try done.
  intros i l Hl Hk. apply (H3 i l); [|done]. apply Q5; [|done]. unfold content_lane. by rewrite Hk.
Qed.

Lemma fresh_start fs id gs : NoDup (starts fs ++ id :: gs) -> id ∉ starts fs.
Proof. intros (_ & H & _)%NoDup_app Hin. apply (H id Hin). left. Qed.

(** A part started now, of its own or live. *)
Lemma answered_starts d c fs id rest :
  answered d c fs -> id ∉ starts fs ->
  standing (fs ++ rest) = id :: standing fs -> starts (fs ++ rest) = (starts fs ++ [id])%list ->
  (forall x, x ∈ cu_partial_part_ids c \/ x ∈ cu_retracted_part_ids c \/ x ∈ standing (fs ++ rest) -> x ∈ starts (fs ++ rest)) /\
  (cu_confirmed_text c = true -> exists x, x ∈ standing (fs ++ rest) /\ x ∉ cu_retracted_part_ids c /\ x ∉ cu_partial_part_ids c /\ x <> id) /\
  (exists x, x ∈ standing (fs ++ rest) /\ x ∉ cu_retracted_part_ids c).
Proof.
  intros [_ _ _ H4 _ H6] Hf E1 E2. rewrite E1, E2. split_and!.
  - intros x Hx. rewrite elem_of_app, list_elem_of_singleton. destruct Hx as [Hx|[Hx|Hx]]; [left; apply H4; auto..|].
    apply elem_of_cons in Hx as [-> |Hx]; [by right|]. left. apply H4. auto.
  - intros Hc. destruct (H6 Hc) as (x & Hx & Hr & Hp). exists x. split_and!; [by right|done|done|]. intros ->. apply Hf, H4. auto.
  - exists id. split; [left|]. intros Hr. apply Hf, H4. auto.
Qed.

Lemma answered_text d c fs i u :
  let id := live_block_id u i in
  let f := (text_start id ++ live_fields i id)%list in
  id ∉ starts fs -> answered d c fs ->
  answered d (note_partial id (with_emitted true (with_streamed true (register i (Lane "text" id "") c)))) (fs ++ [f]).
Proof.
  intros id f Hfresh Ha. assert (E1 : standing (fs ++ [f]) = id :: standing fs) by (rewrite standing_app; unfold f, id; cbn [fold_left]; unfold stand; by rewrite live_shows).
  assert (E2 : starts (fs ++ [f]) = (starts fs ++ [id])%list) by by rewrite starts_app.
  destruct (answered_starts d c fs id [f] Ha Hfresh E1 E2) as (S & K & X). destruct Ha as [H1 H2 H3 H4 H5 H6]. clearbody f. split; cbn.
  - done.
  - rewrite E1. intros x. rewrite elem_of_add_new. intros [-> |Hx]%elem_of_cons; [by auto|]. split; [done|]. destruct (H2 x Hx) as [_ [|]]; auto.
  - intros j m. rewrite elem_of_add_new, E2, elem_of_app, list_elem_of_singleton. intros [[<- <-]|[Hne Hm]]%lookup_insert_Some Hk; [by auto|].
    destruct (H3 j m Hm Hk) as (_ & [|] & ?); auto.
  - intros x. rewrite elem_of_add_new. intros [[Hx | ->]|Hx]; [apply S; auto|rewrite E2, elem_of_app; right; left|apply S; auto].
  - done.
  - intros Hc. destruct (K Hc) as (x & Hx & Hr & Hp & Hne). exists x. rewrite elem_of_add_new. split_and!; [done..|]. by intros [|].
Qed.

Lemma answered_thinking d c fs i u :
  let id := live_block_id u i in
  let f := (reasoning_start id ++ live_fields i id)%list in
  id ∉ starts fs -> answered d c fs ->
  answered d (note_partial id (with_streamed true (register i (Lane "thinking" id "") c))) (fs ++ [f]).
Proof.
  intros id f Hfresh [H1 H2 H3 H4 H5 H6].
  assert (E : standing (fs ++ [f]) = standing fs) by by rewrite standing_app.
  assert (E'' : starts (fs ++ [f]) = (starts fs ++ [id])%list) by by rewrite starts_app.
  clearbody f. split; cbn; try setoid_rewrite E; rewrite ?E''; try done.
  - intros x Hx. destruct (H2 x Hx) as [He Hx']. split; [done|]. rewrite elem_of_add_new. destruct Hx' as [|[|]]; auto.
  - intros j m. rewrite elem_of_add_new, elem_of_app. intros [[<- <-]|[Hne Hm]]%lookup_insert_Some Hk; [done|].
    destruct (H3 j m Hm Hk) as (He & [|] & ?); auto.
  - intros x. rewrite elem_of_add_new, elem_of_app. intros [[Hx | ->]|Hx]; [left; apply H4; auto|right; left|left; apply H4; auto].
  - intros Hc. destruct (H6 Hc) as (x & Hx & Hr & Hp). exists x. rewrite elem_of_add_new. split_and!; [done..|].
    intros [| ->]; [done|]. apply Hfresh, H4. auto.
Qed.

Lemma withdrawn_metadata ids : withdrawn (metadata_frame ids) = ids.
Proof. unfold withdrawn, metadata_frame. cbn. induction ids as [|x l IH]; cbn; [done|]. by rewrite IH. Qed.

Lemma answered_retract c fs :
  answered false c fs -> answered false (retract c) (fs ++ [metadata_frame (cu_retracted_part_ids (retract c))]).
Proof.
  set (ids := cu_retracted_part_ids (retract c)). intros [H1 H2 H3 H4 H5 H6].
  assert (E1 : standing (fs ++ [metadata_frame ids]) = filter (fun p => p ∉ ids) (standing fs)).
  { rewrite standing_app. cbn [fold_left]. unfold stand. by rewrite withdrawn_metadata. }
  assert (E3 : starts (fs ++ [metadata_frame ids]) = starts fs) by by rewrite starts_app, app_nil_r.
  assert (Hids : forall x, x ∈ ids <-> x ∈ cu_retracted_part_ids c \/ x ∈ cu_partial_part_ids c).
  { intros x. unfold ids. cbn. by rewrite elem_of_app, elem_of_sorted_set. }
  assert (K : cu_confirmed_text c = true -> exists x, x ∈ filter (fun p => p ∉ ids) (standing fs) /\ x ∉ ids).
  { intros Hc. destruct (H6 Hc) as (x & Hx & Hr & Hp'). exists x. rewrite list_elem_of_filter, Hids. naive_solver. }
  split; fold ids; cbn [retract cu_confirmed_text cu_emitted_text cu_partial_part_ids cu_blocks]; rewrite ?E1, ?E3.
  - done.
  - intros x [Hx1 Hx2]%list_elem_of_filter. destruct (H2 x Hx2) as [He [Hp'|[Hc|]]]; [|by auto|done]. destruct Hx1. apply Hids. auto.
  - intros j m. by rewrite lookup_empty.
  - intros x. rewrite elem_of_nil, Hids, list_elem_of_filter. intros [[]|[[Hx|Hx]|[_ Hx]]]; apply H4; auto.
  - done.
  - intros Hc. destruct (K Hc) as (x & Hx & Hx'). exists x. split_and!; [done|done|]. apply not_elem_of_nil.
Qed.

(** A part that comes whole, with text. *)
Lemma answered_whole d c fs id rest :
  id ∉ starts fs -> answered d c fs -> standing (fs ++ rest) = id :: standing fs -> starts (fs ++ rest) = (starts fs ++ [id])%list ->
  answered true (with_emitted true c) (fs ++ rest).
Proof.
  intros Hfresh Ha E1 E2. destruct (answered_starts d c fs id rest Ha Hfresh E1 E2) as (S & K & X).
  destruct Ha as [H1 H2 H3 H4 H5 H6]. split; cbn; try done.
  - intros x _. by auto.
  - intros j m Hm Hk. destruct (H3 j m Hm Hk) as (_ & ? & ?). rewrite E2, elem_of_app. auto.
  - intros Hc. destruct (K Hc) as (x & Hx & Hr & Hp & _). by exists x.
Qed.

(** A part that comes whole and shows no text. *)
Lemma answered_blank d c fs id rest :
  answered d c fs -> standing (fs ++ rest) = standing fs -> starts (fs ++ rest) = (starts fs ++ [id])%list -> answered d c (fs ++ rest).
Proof.
  intros [H1 H2 H3 H4 H5 H6] E1 E2. split; rewrite ?E1, ?E2; try done.
  - intros j m Hm Hk. destruct (H3 j m Hm Hk) as (? & ? & ?). rewrite elem_of_app. auto.
  - intros x Hx. apply elem_of_app. auto.
Qed.

Lemma answered_confirm d c fs : answered d c fs -> answered false (confirm c) fs.
Proof.
  intros [H1 H2 H3 H4 H5 H6]. split; cbn; try done.
  - intros x Hx. destruct (H2 x Hx) as [He _]. auto.
  - intros j m Hm Hk. destruct (H3 j m Hm Hk) as (He & _ & ?). auto.
  - intros x. rewrite elem_of_nil. intros [[]|Hx]. apply H4. auto.
  - intros He. destruct (H5 He) as (x & Hx & Hr). exists x. split_and!; [done..|]. apply not_elem_of_nil.
Qed.

Lemma answered_prim d c fs ys d' c' :
  prim false (d, c) ys (d', c') -> NoDup (starts (fs ++ ys)) -> answered d c fs -> answered d' c' (fs ++ ys).
Proof.
  intros H Hn Ha. rewrite starts_app in Hn. remember (d, c) as s eqn:E1. remember (d', c') as s' eqn:E2.
  assert (Hsame : standing (fs ++ ys) = standing fs -> starts (fs ++ ys) = starts fs ->
    answered d c (fs ++ ys)) by (intros; by apply answered_same).
  destruct H as [d0 c0 f Hf|d0 c0 Hi|d0 c0 c1 Hq|d0 c0 i l Hl|d0 c0 i u Hn0 id|d0 c0 i u Hn0 id|d0 c0 i l text Hl Hk|d0 c0 i l text Hl Hk
    |c0 Hp|d0 c0 id text Hw Ht|d0 c0 id Hw|d0 c0 id text Hw|d0 c0|d0 c0|d0 c0 Hr|d0 c0 id text Hr Hw]; simplify_eq.
  - destruct (neutral_stands f Hf) as (S1 & S2). by apply Hsame.
  - by apply Hsame; rewrite ?standing_app, ?starts_app, ?app_nil_r.
  - rewrite app_nil_r. by eapply answered_quiet.
  - apply (answered_quiet _ c).
    { split; try done. intros j m _. cbn. rewrite lookup_delete_Some. by intros []. }
    unfold lane_end in *. destruct (_ =s _); [|destruct (_ =s _)]; apply Hsame; by rewrite ?standing_app, ?starts_app, ?app_nil_r.
  - apply answered_text; [exact (fresh_start _ _ [] Hn)|done].
  - apply answered_thinking; [exact (fresh_start _ _ [] Hn)|done].
  - destruct Ha as [H1 H2 H3 H4 H5 H6]. destruct (H3 i l Hl Hk) as (He & Hin & Hst).
    assert (E : standing (fs ++ [text_delta (la_id l) text]) = la_id l :: standing fs) by by rewrite standing_app.
    assert (E' : starts (fs ++ [text_delta (la_id l) text]) = starts fs) by by rewrite starts_app, app_nil_r.
    split; rewrite ?E, ?E'; try done.
    + intros x [-> |Hx]%elem_of_cons; [|by apply H2]. destruct Hin; auto.
    + intros x [Hx|[Hx|[-> |Hx]%elem_of_cons]]; [apply H4; auto..|done|apply H4; auto].
    + intros Hc. destruct (H5 Hc) as (x & Hx & ?). exists x. split; [by right|done].
    + intros Hc. destruct (H6 Hc) as (x & Hx & ?). exists x. split; [by right|done].
  - by apply Hsame; rewrite ?standing_app, ?starts_app, ?app_nil_r.
  - by apply answered_retract.
  - eapply (answered_whole _ _ _ id); [exact (fresh_start _ _ [] Hn)|done|..]; [|by rewrite starts_app].
    rewrite standing_app. cbn [fold_left]. unfold stand. by rewrite (whole_shows id (text_start id)), (whole_shows id (text_end id)) by done.
  - eapply (answered_blank _ _ _ id); [done|..]; [|by rewrite starts_app].
    rewrite standing_app. cbn [fold_left]. unfold stand. by rewrite (whole_shows id (text_start id)), (whole_shows id (text_end id)) by done.
  - unfold optional_delta. apply (answered_blank _ _ _ id); [done|rewrite standing_app|rewrite starts_app]; by destruct (Py.is_empty text).
  - rewrite app_nil_r. destruct Ha as [H1 H2 H3 H4 H5 H6]. split; try done. intros x Hx. destruct (H2 x Hx) as [He _]. auto.
  - rewrite app_nil_r. by eapply answered_confirm.
Qed.
Lemma answered_prims s ys s' fs :
  prims false s ys s' -> NoDup (starts (fs ++ ys)) -> answered (fst s) (snd s) fs -> answered (fst s') (snd s') (fs ++ ys).
Proof.
  induction 1 as [s|s ys [d1 c1] zs [d2 c2] _ IH Hp]; [by rewrite app_nil_r|]. rewrite app_assoc. intros Hn Ha.
  eapply answered_prim; [done..|]. apply IH; [|done]. rewrite starts_app in Hn. by apply NoDup_app in Hn as [].
Qed.

(** ** A run of messages and its result *)

Section Messages.
Context {floats : PyFloats} {sdk : ClaudeSdk}.

Definition sdk_type_of (message : dict) : string := Py.str_or_empty (Py.get "__sdk_type" message).

(** No message of the run raises, and none is a result or resets the conversation. *)
Fixpoint undisturbed (ms : list (dict * Z)) (t : translator) : bool :=
  match ms with
  | [] => true
  | (message, seq) :: rest =>
      negb (is_reset (sdk_type_of message)) &&
      let '(_, (r, t')) := translate_claude_sdk_message message seq t in is_ok r && undisturbed rest t'
  end.

Lemma answered_all ms t fs :
  protocol_kept ms t = true -> undisturbed ms t = true -> NoDup (starts (fs ++ fst (translate_all ms t))) ->
  answered false (tr_stream t) fs ->
  answered false (tr_stream (snd (translate_all ms t))) (fs ++ fst (translate_all ms t)).
Proof.
  revert t fs. induction ms as [|[message seq] ms IH]; intros t fs; cbn [protocol_kept undisturbed translate_all].
  { by rewrite app_nil_r. }
  intros [Hp Hk]%andb_true_iff [Hr Hu]%andb_true_iff. apply negb_true_iff in Hr.
  pose proof (steps_message false message seq t ltac:(done) Hp) as H. unfold steps in H.
  destruct (translate_claude_sdk_message message seq t) as [ys [r t']]. cbn [snd] in Hk. destruct H as (d & H & Hd).
  apply andb_true_iff in Hu as [Hok Hu]. rewrite (Hd Hok) in H. specialize (IH t' (fs ++ ys)%list Hk Hu).
  destruct (translate_all ms t') as [zs t'']. cbn [fst snd] in *. rewrite app_assoc. intros Hn Ha. apply IH; [done|].
  apply (answered_prims _ _ _ _ H); [|done]. rewrite starts_app in Hn. by apply NoDup_app in Hn as [].
Qed.

(** The frames of a result that show text. *)
Definition shown_texts (frames : list dict) : list dict := List.filter (fun f => frame_type f =s "text-delta") frames.

Lemma settled_result message t :
  exists ys zs t', settle_retry t = (ys, (Ok tt, t')) /\ cu_emitted_text (tr_stream t') = cu_emitted_text (tr_stream t) /\
    shown_texts ys = [] /\ shown_texts zs = [] /\
    forall text seq, Py.str_or_empty (Py.get "result" message) = text -> text <> "" -> result_succeeded message = true ->
      let id := "claude-result:" ++ pretty seq in
      fst (translate_result message seq t) =
        (ys ++ (if cu_emitted_text (tr_stream t) then [] else [text_start id; text_delta id text; text_end id]) ++ zs)%list.
Proof.
  set (zs := match result_frame message with Ok f => [f] | Raise _ => [] end).
  assert (Hz : shown_texts zs = []).
  { unfold zs. destruct (result_frame message) as [f|] eqn:E; [|done]. apply result_neutral in E. unfold neutral in E.
    apply andb_true_iff in E as [_ E]. cbn [Py.in_strs existsb PART_TYPES] in E. unfold shown_texts. cbn [List.filter].
    destruct (frame_type f =s "text-delta"); [|done]. by rewrite orb_true_r in E. }
  assert (Hs : exists ys t', settle_retry t = (ys, (Ok tt, t')) /\ cu_emitted_text (tr_stream t') = cu_emitted_text (tr_stream t) /\
    shown_texts ys = []).
  { unfold settle_retry, stream, mbind, gen_bind, self_gen, mret, gen_ret. cbn.
    destruct (cu_retry (tr_stream t)) as [retry|]; [|by eexists _, _].
    destruct (Py.truthy (Py.get "active" retry)); by eexists _, _. }
  destruct Hs as (ys & t' & E & Et & Hy). exists ys, zs, t'. split_and!; [done..|]. intros text seq Hx Hne Hs. cbv zeta.
  assert (Hemp : Py.is_empty text = false) by by destruct text.
  unfold translate_result, stream. rewrite Hx, Hs, Hemp. unfold mbind at 1, gen_bind at 1. rewrite E, <-Et.
  unfold mbind, gen_bind, stream, self_gen, mret, gen_ret, call_gen, change_stream, change_gen, yield. cbn. unfold zs.
  destruct (cu_emitted_text (tr_stream t')); cbn; destruct (result_frame message); cbn; rewrite ?app_nil_r; done.
Qed.

End Messages.

#[local] Instance demo_floats : PyFloats := fun literal => literal.
#[local] Instance demo_sdk : ClaudeSdk := ["completed"; "failed"; "killed"].

Definition demo_result : dict :=
  [("__sdk_type", VStr "ResultMessage"); ("subtype", VStr "success"); ("is_error", VBool false); ("result", VStr "Hello")].

End ClaudeAnswer.
