(* ===== verification/ClaudeCodec.v ===== *)
(** [engine/claude_interaction_codec.py]: how Claude's gated tools become interaction
    contracts, and how an answer goes back to the gate. *)

From S2P Require Import Prelude PyVal Interaction.

Open Scope string_scope.

Module ClaudeCodec.
Import Interaction.

Definition PLAN_APPROVE_MODE_CHOICES : list string := ["bypassPermissions"; "acceptEdits"; "default"].
Definition PLAN_REVIEW_MODE := "plan".

(** ** Building a contract *)

(** [derive_native_question_key]. *)
Definition derive_native_question_key (item : dict) (question_id : string) (index : nat) : string :=
  Py.a_or (Py.clean (Py.get "question" item))
    (Py.a_or (Py.clean (Py.get "header" item))
       (Py.a_or question_id ("Question " ++ pretty (S index)))).

Definition question_id_of (item : dict) (index : nat) : string :=
  Py.a_or (Py.clean (Py.get "id" item)) ("question_" ++ pretty (S index)).

(** The value the first candidate with one has. *)
Fixpoint first_answer (raw_answers : dict) (candidates : list string) : string :=
  match candidates with
  | [] => ""
  | candidate :: rest =>
      if Py.is_empty candidate then first_answer raw_answers rest
      else let current := Py.clean (Py.get candidate raw_answers) in
           if Py.is_empty current then first_answer raw_answers rest else current
  end.

(** [normalize_pending_preset_answers]. *)
Fixpoint preset_answers (raw_answers : dict) (index : nat) (raw_questions : list dict) (normalized : dict) : dict :=
  match raw_questions with
  | [] => normalized
  | item :: rest =>
      let question_id := question_id_of item index in
      let value := first_answer raw_answers
        [question_id; derive_native_question_key item question_id index; Py.clean (Py.get "header" item)] in
      preset_answers raw_answers (S index) rest
        (if Py.is_empty value then normalized else Py.set question_id (VStr value) normalized)
  end.
Definition normalize_pending_preset_answers (raw_questions : list dict) (raw_answers : dict) : val :=
  match preset_answers raw_answers 0 raw_questions [] with [] => VNone | d => VDict d end.

Definition str_or_null (s : string) : val := if Py.is_empty s then VNone else VStr s.

Definition form_option (raw_option : val) : option val :=
  match raw_option with
  | VDict o =>
      let label := Py.clean (Py.get "label" o) in
      if Py.is_empty label then None
      else Some (VDict [("label", VStr label); ("description", str_or_null (Py.clean (Py.get "description" o)))])
  | _ => None
  end.

Definition form_question (index : nat) (item : dict) : dict :=
  let question_id := question_id_of item index in
  [("id", VStr question_id);
   ("header", str_or_null (Py.clean (Py.get "header" item)));
   ("question", str_or_null (Py.clean (Py.get "question" item)));
   ("native_answer_key", VStr (derive_native_question_key item question_id index));
   ("multi_select", if Py.has "multiSelect" item then VBool (Py.truthy (Py.get "multiSelect" item)) else VNone);
   ("allow_free_text", VBool true);
   ("allow_empty_text", VBool false);
   ("options", VList match Py.get "options" item with VList options => omap form_option options | _ => [] end)].

(** [for index, item in enumerate(raw_questions)]. *)
Fixpoint form_questions (index : nat) (raw_questions : list val) : list dict :=
  match raw_questions with
  | [] => []
  | VDict item :: rest => form_question index item :: form_questions (S index) rest
  | _ :: rest => form_questions (S index) rest
  end.

(** [_form_contract]. *)
Definition form_contract (tool_name : string) (input_payload : dict) : dict :=
  let raw_questions := match Py.get "questions" input_payload with VList l => l | _ => [] end in
  [("tool_name", VStr tool_name);
   ("presentation", VStr PRESENTATION_FORM);
   ("prompt", VStr "Please answer the following questions");
   ("raw_input", VDict input_payload);
   ("questions", VList (map VDict (form_questions 0 raw_questions)));
   ("preset_answers", match Py.get "answers" input_payload with
                      | VDict raw_answers => normalize_pending_preset_answers (dicts_of raw_questions) raw_answers
                      | _ => VNone
                      end)].

Definition plan_reply (words : string) : val := VStr ("Response to your pending plan confirmation:" ++ newline ++ words).

(** [_plan_decision_contract]. *)
Definition PLAN_OPTIONS : list val :=
  [VDict [("id", VStr "approve"); ("denial", VBool false);
          ("reply", plan_reply "I approve exiting plan mode. Proceed with the plan you proposed.");
          ("permission_mode_choices", VList (map VStr PLAN_APPROVE_MODE_CHOICES));
          ("default_permission_mode", VStr "default")];
   VDict [("id", VStr "revise"); ("denial", VBool true);
          ("reply", plan_reply "Do not exit plan mode yet. Stay in plan mode and continue refining the plan.");
          ("comment_prefix", VStr "Focus next on"); ("applies_permission_mode", VStr PLAN_REVIEW_MODE)];
   VDict [("id", VStr "reject"); ("denial", VBool true); ("reply", plan_reply "User rejected Claude's plan.");
          ("applies_permission_mode", VStr PLAN_REVIEW_MODE)]].
Definition plan_decision_contract (tool_name : string) (input_payload : dict) : dict :=
  [("tool_name", VStr tool_name);
   ("presentation", VStr PRESENTATION_DECISION);
   ("prompt", VStr "Please confirm whether to exit plan mode");
   ("raw_input", VDict input_payload);
   ("body", str_or_null (Py.clean (Py.get "plan" input_payload)));
   ("options", VList PLAN_OPTIONS)].

(** [build_claude_interaction_contract]. *)
Definition build_claude_interaction_contract (tool_name : string) (input_payload : dict) : dict :=
  if tool_name =s "AskUserQuestion" then form_contract tool_name input_payload
  else if tool_name =s "ExitPlanMode" then plan_decision_contract tool_name input_payload
  else [("tool_name", VStr tool_name);
        ("presentation", VStr PRESENTATION_TOOL_APPROVAL);
        ("prompt", VStr ("Allow " ++ tool_name ++ " to continue?"));
        ("raw_input", VDict input_payload)].

(** ** Encoding an answer *)

(** The answers by the question's native key, the last one standing. *)
Fixpoint sdk_answers (rows : list answer_row) (answers : dict) : dict :=
  match rows with
  | [] => answers
  | row :: rest =>
      let question := ar_question row in
      let question_id := Py.clean (Py.get "id" question) in
      let answer_key := Py.a_or (Py.clean (Py.get "native_answer_key" question))
                          (derive_native_question_key question question_id (length answers)) in
      sdk_answers rest (Py.set answer_key (VStr (ar_response_text row)) answers)
  end.

(** [_ask_user_updated_input]. *)
Definition ask_user_updated_input (input_payload pending interaction_response : dict) : res dict :=
  match Py.get "questions" input_payload with
  | VList (q :: qs) =>
      rows ← validated_question_answer_rows pending interaction_response;
      Ok [("questions", VList (q :: qs)); ("answers", VDict (sdk_answers rows []))]
  | _ => invalid_request 409
  end.

(** The answer on the runner's wire: whether the tool may run, on which input, and what
    the model is told otherwise. *)
Record answer_fields := AnswerFields {
  af_allow : bool;
  af_updated_input : option dict;
  af_message : option string
}.

(** [claude_answer_fields]. *)
Definition claude_answer_fields (pending interaction_response : dict) : res answer_fields :=
  if Py.clean (Py.get "presentation" pending) =s PRESENTATION_FORM then
    if Py.is_true (Py.get "decline" interaction_response) then
      reply ← render_interaction_reply pending interaction_response; Ok (AnswerFields false None (Some reply))
    else
      match Py.get "raw_input" pending with
      | VDict raw_input =>
          updated ← ask_user_updated_input raw_input pending interaction_response;
          Ok (AnswerFields true (Some updated) None)
      | _ => invalid_request 409
      end
  else
    denied ← is_denied_interaction_response pending interaction_response;
    if denied : bool then
      reply ← render_interaction_reply pending interaction_response; Ok (AnswerFields false None (Some reply))
    else Ok (AnswerFields true None None).

(** ** Which gates have a contract *)

(** The ids Claude's questions get. *)
Fixpoint question_ids (index : nat) (raw_questions : list val) : list string :=
  match raw_questions with
  | [] => []
  | VDict item :: rest => question_id_of item index :: question_ids (S index) rest
  | _ :: rest => question_ids (S index) rest
  end.

(** What a gate must be for the platform to show it. *)
Definition showable (tool_name : string) (input_payload : dict) : bool :=
  negb (Py.is_empty (Py.strip tool_name)) &&
  (if tool_name =s "AskUserQuestion"
   then match Py.get "questions" input_payload with
        | VList l => match question_ids 0 l with [] => false | ids => bool_decide (NoDup ids) end
        | _ => false
        end
   else true).
(** [interaction_record] of [engine/claude_runtime_client.py]. *)
Definition interaction_record (interaction_id response_id tool_use_id tool_name : string) (tool_input : val) : res dict :=
  let contract := build_claude_interaction_contract tool_name (match tool_input with VDict d => d | _ => [] end) in
  _ ← validate_interaction_contract (VDict contract);
  let record := ([("interaction_id", VStr interaction_id); ("response_id", VStr response_id)] ++ contract)%list in
  Ok (if Py.is_empty tool_use_id then record else Py.set "tool_call_id" (VStr tool_use_id) record).

(** ** Facts *)

Lemma nonblank_head c s : Py.is_space c = false -> Py.is_empty (Py.strip (String c s)) = false.
Proof.
  intros Hc. unfold Py.strip. cbn [Py.lstrip]. rewrite Hc. cbn [Py.rstrip]. rewrite Hc. by destruct (Py.rstrip s).
Qed.

Lemma nonblank_app c s t : Py.is_space c = false -> Py.is_empty (Py.strip (String c s ++ t)) = false.
Proof. rewrite app_String. apply nonblank_head. Qed.

Lemma nonblank_clean v : Py.is_empty (Py.clean v) = false -> Py.nonblank_str (VStr (Py.clean v)) = true.
Proof. unfold Py.clean. cbn. rewrite strip_idem. by intros ->. Qed.

Lemma nonblank_or v s : Py.nonblank_str (VStr s) = true -> Py.nonblank_str (VStr (Py.a_or (Py.clean v) s)) = true.
Proof. intros H. unfold Py.a_or. destruct (Py.is_empty (Py.clean v)) eqn:E; [done|by apply nonblank_clean]. Qed.

Lemma question_id_nonblank item index : Py.nonblank_str (VStr (question_id_of item index)) = true.
Proof. apply nonblank_or. cbn. by rewrite nonblank_app. Qed.

Lemma native_key_nonblank item index :
  Py.nonblank_str (VStr (derive_native_question_key item (question_id_of item index) index)) = true.
Proof.
  unfold derive_native_question_key. do 2 apply nonblank_or. unfold Py.a_or.
  pose proof (question_id_nonblank item index) as H. destruct (question_id_of item index); [done|exact H].
Qed.

Lemma options_valid l : foldM (fun _ o => validate_question_option o) tt (omap form_option l) = Ok tt.
Proof.
  induction l as [|o l IH]; [done|]. cbn [omap list_omap]. destruct (form_option o) as [o'|] eqn:E; [|done].
  cbn [foldM]. enough (Hv : validate_question_option o' = Ok tt) by by rewrite Hv.
  destruct o as [| | | | | |d]; try done. unfold form_option in E. destruct (Py.is_empty (Py.clean (Py.get "label" d))) eqn:El; [done|].
  injection E as <-. cbn. pose proof (nonblank_clean _ El) as Hn. cbn in Hn. by rewrite Hn.
Qed.

Lemma question_valid seen index item :
  validate_question seen (VDict (form_question index item)) =
    if Py.in_strs (question_id_of item index) seen then Raise InteractionContractError else Ok (question_id_of item index :: seen).
Proof.
  cbn. pose proof (question_id_nonblank item index) as Hn. cbn in Hn. rewrite Hn. cbn.
  destruct (Py.in_strs _ seen); [done|]. cbn. set (options := match Py.get "options" item with VList l => omap form_option l | _ => [] end).
  assert (H : foldM (fun _ o => validate_question_option o) tt options = Ok tt).
  { unfold options. destruct (Py.get "options" item); try done. apply options_valid. }
  by rewrite H.
Qed.

Lemma questions_valid index l seen :
  foldM validate_question seen (map VDict (form_questions index l)) =
    if bool_decide (NoDup (question_ids index l) /\ Forall (fun x => x ∉ seen) (question_ids index l))
    then Ok (rev (question_ids index l) ++ seen)%list else Raise InteractionContractError.
Proof.
  revert index seen. induction l as [|v l IH]; intros index seen.
  { rewrite bool_decide_eq_true_2; [done|]. by split; constructor. }
  destruct v as [| | | | | |item]; try apply IH. cbn [form_questions question_ids map foldM]. rewrite question_valid.
  set (id := question_id_of item index). destruct (Py.in_strs id seen) eqn:Hin.
  - apply in_strs_true in Hin. rewrite bool_decide_eq_false_2; [done|]. by intros [_ [H _]%Forall_cons].
  - assert (Hni : id ∉ seen) by (rewrite <-in_strs_true; congruence). cbn [mbind res_bind]. rewrite IH.
    rewrite (bool_decide_ext _ (NoDup (id :: question_ids (S index) l) /\ Forall (fun x => x ∉ seen) (id :: question_ids (S index) l))).
    + destruct (bool_decide _); [|done]. cbn [rev]. by rewrite <-app_assoc.
    + rewrite NoDup_cons, Forall_cons, !Forall_forall. setoid_rewrite not_elem_of_cons. split.
      * intros [Hn H]. split_and!; [by intros [Hid _]%H|done|done|]. intros x Hx. by apply H.
      * intros [[Hid Hn] [_ H]]. split; [done|]. intros x Hx. split; [by intros -> |]. by apply H.
Qed.

Lemma form_questions_ids index l : map VDict (form_questions index l) = [] <-> question_ids index l = [].
Proof. revert index. induction l as [|v l IH]; intros index; [done|]. by destruct v; cbn; [apply IH..|]. Qed.

Definition presentation_of (tool_name : string) : string :=
  if tool_name =s "AskUserQuestion" then PRESENTATION_FORM
  else if tool_name =s "ExitPlanMode" then PRESENTATION_DECISION else PRESENTATION_TOOL_APPROVAL.

(** What is left to check of a contract of the platform's shape. *)
Lemma validate_rest c presentation tool_name prompt :
  Py.in_strs presentation INTERACTION_PRESENTATIONS = true -> Py.get "presentation" c = VStr presentation ->
  Py.get "tool_name" c = VStr tool_name -> Py.get "prompt" c = VStr prompt -> Py.is_empty (Py.strip prompt) = false ->
  Py.is_dict (Py.get "raw_input" c) = true -> known_keys (CONTRACT_KEYS_BY_PRESENTATION presentation) c = true ->
  validate_interaction_contract (VDict c) =
    if Py.is_empty (Py.strip tool_name) then Raise InteractionContractError
    else _ ← (if presentation =s PRESENTATION_FORM then validate_form_contract c
              else if presentation =s PRESENTATION_DECISION then validate_decision_contract c else Ok tt);
         Ok presentation.
Proof.
  intros Hin E1 E2 E3 Hp Hr Hk. unfold validate_interaction_contract, require_str. rewrite E1, E2, E3, Hp.
  assert (Hs : Py.is_empty (Py.strip presentation) = false /\ Py.strip presentation = presentation).
  { apply in_strs_true in Hin. unfold INTERACTION_PRESENTATIONS in Hin.
    repeat (apply elem_of_cons in Hin as [-> | Hin]; [by vm_compute|]). by apply not_elem_of_nil in Hin. }
  destruct Hs as [Hs1 Hs2]. rewrite Hs1. cbn [mbind res_bind]. rewrite Hs2. unfold require.
  rewrite Hin, Hr, Hk. cbn [mbind res_bind negb raise_if].
  by destruct (Py.is_empty (Py.strip tool_name)).
Qed.

Lemma form_valid input_payload :
  validate_interaction_contract (VDict (form_contract "AskUserQuestion" input_payload)) =
    if showable "AskUserQuestion" input_payload then Ok PRESENTATION_FORM else Raise InteractionContractError.
Proof.
  rewrite (validate_rest _ PRESENTATION_FORM "AskUserQuestion" "Please answer the following questions") by done.
  unfold showable. change (Py.is_empty (Py.strip "AskUserQuestion")) with false. cbn [negb andb].
  change (PRESENTATION_FORM =s PRESENTATION_FORM) with true. change ("AskUserQuestion" =s "AskUserQuestion") with true. cbn iota.
  unfold validate_form_contract.
  set (preset := Py.get "preset_answers" (form_contract "AskUserQuestion" input_payload)).
  assert (Hp : (Py.is_none preset || Py.is_dict preset) = true).
  { unfold preset, form_contract. change (Py.get "preset_answers" _) with (match Py.get "answers" input_payload with VDict raw => normalize_pending_preset_answers (dicts_of (match Py.get "questions" input_payload with VList l => l | _ => [] end)) raw | _ => VNone end).
    destruct (Py.get "answers" input_payload) as [| | | | | |d]; try done. unfold normalize_pending_preset_answers.
    by destruct (preset_answers _ _ _ _). }
  assert (E : Py.get "questions" (form_contract "AskUserQuestion" input_payload) =
    VList (map VDict (form_questions 0 (match Py.get "questions" input_payload with VList l => l | _ => [] end)))) by done.
  rewrite E. fold preset. unfold require. rewrite Hp.
  destruct (Py.get "questions" input_payload) as [| | | | |l|]; try done.
  pose proof (form_questions_ids 0 l) as He. pose proof (questions_valid 0 l []) as Hq.
  destruct (map VDict (form_questions 0 l)) as [|q qs]; [by rewrite (proj1 He eq_refl)|].
  destruct (question_ids 0 l) as [|id ids] eqn:Ei; [by destruct He as [_ He]; specialize (He eq_refl)|]. rewrite Hq.
  rewrite (bool_decide_ext _ (NoDup (id :: ids))); [|split; [by intros []|]; intros H; split; [done|]; apply Forall_forall; intros x _; apply not_elem_of_nil].
  by destruct (bool_decide (NoDup (id :: ids))).
Qed.

Lemma approval_valid tool_name input_payload :
  (tool_name =s "AskUserQuestion") = false -> (tool_name =s "ExitPlanMode") = false ->
  validate_interaction_contract (VDict (build_claude_interaction_contract tool_name input_payload)) =
    if negb (Py.is_empty (Py.strip tool_name)) then Ok PRESENTATION_TOOL_APPROVAL else Raise InteractionContractError.
Proof.
  intros E1 E2. unfold build_claude_interaction_contract. rewrite E1, E2.
  rewrite (validate_rest _ PRESENTATION_TOOL_APPROVAL tool_name ("Allow " ++ tool_name ++ " to continue?"));
    [by destruct (Py.is_empty (Py.strip tool_name))|done..|by rewrite nonblank_app|done|done].
Qed.

Lemma plan_options_valid : exists o os ids, PLAN_OPTIONS = o :: os /\ foldM validate_decision_option [] (o :: os) = Ok ids.
Proof. do 3 eexists. split; [reflexivity|by vm_compute]. Qed.

Lemma plan_valid input_payload :
  validate_interaction_contract (VDict (plan_decision_contract "ExitPlanMode" input_payload)) = Ok PRESENTATION_DECISION.
Proof.
  rewrite (validate_rest _ PRESENTATION_DECISION "ExitPlanMode" "Please confirm whether to exit plan mode") by done.
  change (Py.is_empty (Py.strip "ExitPlanMode")) with false. cbn iota.
  change (PRESENTATION_DECISION =s PRESENTATION_FORM) with false. change (PRESENTATION_DECISION =s PRESENTATION_DECISION) with true. cbn iota.
  unfold validate_decision_contract.
  set (body := Py.get "body" (plan_decision_contract "ExitPlanMode" input_payload)).
  assert (Hb : (Py.is_none body || Py.is_str body) = true).
  { unfold body. change (Py.get "body" _) with (str_or_null (Py.clean (Py.get "plan" input_payload))). unfold str_or_null.
    by destruct (Py.is_empty _). }
  rewrite Hb. change (Py.get "options" _) with (VList PLAN_OPTIONS). destruct plan_options_valid as (o & os & ids & -> & H).
  cbn [require raise_if negb mbind res_bind]. by rewrite H.
Qed.

Lemma contract_valid tool_name input_payload :
  validate_interaction_contract (VDict (build_claude_interaction_contract tool_name input_payload)) =
    if showable tool_name input_payload then Ok (presentation_of tool_name) else Raise InteractionContractError.
Proof.
  unfold presentation_of. destruct (tool_name =s "AskUserQuestion") eqn:E1.
  { bool_prop. subst. apply form_valid. }
  destruct (tool_name =s "ExitPlanMode") eqn:E2; [bool_prop; subst; apply plan_valid|].
  rewrite approval_valid by done. unfold showable. by rewrite E1, andb_true_r.
Qed.
(** ** An answer on its way back *)

Definition native_key (row : answer_row) : string := Py.clean (Py.get "native_answer_key" (ar_question row)).

(** The text given last for a native key. *)
Definition answer_for (rows : list answer_row) (key : string) : option val :=
  (fun row => VStr (ar_response_text row)) <$> List.find (fun row => native_key row =s key) (rev rows).

Lemma find_app {A} (f : A -> bool) l1 l2 :
  List.find f (l1 ++ l2) = match List.find f l1 with Some x => Some x | None => List.find f l2 end.
Proof. induction l1 as [|x l1 IH]; [done|]. cbn. by destruct (f x). Qed.

Lemma sdk_answers_last rows answers key :
  Forall (fun row => Py.is_empty (native_key row) = false) rows ->
  Py.lookup key (sdk_answers rows answers) =
    match answer_for rows key with Some v => Some v | None => Py.lookup key answers end.
Proof.
  revert answers. induction rows as [|row rows IH]; intros answers; [done|]. intros [Hr Hs]%Forall_cons. cbn [sdk_answers].
  rewrite IH by done. unfold answer_for. cbn [rev]. rewrite find_app. cbn [List.find].
  fold (native_key row). unfold Py.a_or. rewrite Hr.
  destruct (List.find _ (rev rows)) as [x|]; [done|]. cbn [fmap option_fmap option_map]. rewrite lookup_set.
  rewrite (String.eqb_sym key). by destruct (native_key row =s key).
Qed.

Lemma answered_questions answers index questions rows :
  answer_questions answers index questions = Ok rows -> Forall (fun row => VDict (ar_question row) ∈ questions) rows.
Proof.
  revert index rows. induction questions as [|q qs IH]; intros index rows; cbn [answer_questions].
  { intros [= <-]. constructor. }
  assert (Hrest : forall rs, answer_questions answers (S index) qs = Ok rs -> Forall (fun row => VDict (ar_question row) ∈ q :: qs) rs).
  { intros rs H. eapply Forall_impl; [by apply IH in H|]. intros row Hrow. by right. }
  destruct q as [| | | | | |item]; try apply Hrest. intros (row & Hrow & H)%bind_ok. apply bind_ok in H as (rs & Hrs & H).
  injection H as <-. constructor; [|by apply Hrest]. unfold answer_question in Hrow.
  destruct (find_answer _ _); [|done]. destruct (_ && _); [done|]. destruct (_ && _); [done|]. injection Hrow as <-. left.
Qed.

Lemma form_keys index l item : VDict item ∈ map VDict (form_questions index l) ->
  Py.is_empty (Py.clean (Py.get "native_answer_key" item)) = false.
Proof.
  revert index. induction l as [|v l IH]; intros index; cbn [form_questions]; [by intros ?%not_elem_of_nil|].
  destruct v as [| | | | | |raw]; try apply IH. cbn [map]. intros [H|H]%elem_of_cons; [|by apply IH in H]. injection H as ->.
  pose proof (native_key_nonblank raw index) as H.
  change (Py.get "native_answer_key" _) with (VStr (derive_native_question_key raw (question_id_of raw index) index)).
  rewrite clean_str. unfold Py.nonblank_str in H. by apply negb_true_iff in H.
Qed.

(** What a gate's record says is what the contract says. *)
Lemma record_reads interaction_id response_id tool_use_id tool_name tool_input r :
  interaction_record interaction_id response_id tool_use_id tool_name tool_input = Ok r ->
  let payload := match tool_input with VDict d => d | _ => [] end in
  showable tool_name payload = true /\
  forall k, Py.in_strs k ["interaction_id"; "response_id"; "tool_call_id"] = false ->
    Py.get k r = Py.get k (build_claude_interaction_contract tool_name payload).
Proof.
  unfold interaction_record. intros (u & Hv & H)%bind_ok. rewrite contract_valid in Hv.
  set (payload := match tool_input with VDict d => d | _ => [] end) in *. split; [by destruct (showable _ _)|].
  apply Ok_inj in H. intros k Hk. cbn [Py.in_strs existsb] in Hk. apply orb_false_iff in Hk as [K1 Hk].
  apply orb_false_iff in Hk as [K2 Hk]. apply orb_false_iff in Hk as [K3 _].
  assert (E : Py.get k ([("interaction_id", VStr interaction_id); ("response_id", VStr response_id)] ++
    build_claude_interaction_contract tool_name payload)%list = Py.get k (build_claude_interaction_contract tool_name payload)).
  { unfold Py.get. cbn [app Py.lookup]. by rewrite K1, K2. }
  subst r. destruct (Py.is_empty tool_use_id); [done|]. rewrite get_set_ne; [done|]. intros ->. by rewrite String.eqb_refl in K3.
Qed.

Lemma built_reads tool_name payload :
  Py.get "presentation" (build_claude_interaction_contract tool_name payload) = VStr (presentation_of tool_name) /\
  Py.get "raw_input" (build_claude_interaction_contract tool_name payload) = VDict payload.
Proof.
  unfold build_claude_interaction_contract, presentation_of. destruct (tool_name =s "AskUserQuestion"); [done|].
  by destruct (tool_name =s "ExitPlanMode").
Qed.

Lemma presentation_cases tool_name :
  (presentation_of tool_name = PRESENTATION_FORM /\ tool_name = "AskUserQuestion") \/
  (presentation_of tool_name = PRESENTATION_DECISION /\ tool_name <> "AskUserQuestion") \/
  (presentation_of tool_name = PRESENTATION_TOOL_APPROVAL /\ tool_name <> "AskUserQuestion").
Proof.
  unfold presentation_of. destruct (String.eqb_spec tool_name "AskUserQuestion"); [by left|]. destruct (tool_name =s "ExitPlanMode"); auto.
Qed.

Lemma form_payload payload :
  showable "AskUserQuestion" payload = true -> exists q qs, Py.get "questions" payload = VList (q :: qs).
Proof.
  unfold showable. intros Hs. change (Py.is_empty (Py.strip "AskUserQuestion")) with false in Hs. cbn [negb andb] in Hs.
  change ("AskUserQuestion" =s "AskUserQuestion") with true in Hs. cbn iota in Hs.
  destruct (Py.get "questions" payload) as [| | | | |[|q qs]|]; try done. by eexists _, _.
Qed.

Lemma form_rows payload r response rows :
  Py.get "questions" r = Py.get "questions" (build_claude_interaction_contract "AskUserQuestion" payload) ->
  validated_question_answer_rows r response = Ok rows -> Forall (fun row => Py.is_empty (native_key row) = false) rows.
Proof.
  intros Eq. change (Py.get "questions" (build_claude_interaction_contract "AskUserQuestion" payload)) with
    (VList (map VDict (form_questions 0 (match Py.get "questions" payload with VList l => l | _ => [] end)))) in Eq.
  unfold validated_question_answer_rows. destruct (Py.get "answers" response) as [| | | | |[|a raw]|]; try done.
  rewrite Eq. set (l := match Py.get "questions" payload with VList l => l | _ => [] end).
  destruct (map VDict (form_questions 0 l)) as [|q qs] eqn:E; [done|]. rewrite <-E. clear E. intros H%answered_questions.
  eapply Forall_impl; [exact H|]. intros row Hrow. exact (form_keys 0 l _ Hrow).
Qed.

(** C27: A person's answer always reaches Claude's gate.  For the record the platform keeps of
    any gate, an answer is refused on its way back exactly when the platform's own gate refuses
    it, with the same error; otherwise the tool is allowed exactly when the answer does not
    deny, a denial carries the reply rendered for it, and the answers to a question go into
    the tool's own input, each under the question's native key, the last one standing. *)
Theorem answer_reaches_gate interaction_id response_id tool_use_id tool_name tool_input r response :
  interaction_record interaction_id response_id tool_use_id tool_name tool_input = Ok r ->
  (forall e, claude_answer_fields r response = Raise e <-> validate_interaction_response r response = Raise e) /\
  forall f, claude_answer_fields r response = Ok f ->
    is_denied_interaction_response r response = Ok (negb (af_allow f)) /\
    (af_allow f = false -> exists reply, render_interaction_reply r response = Ok reply /\ f = AnswerFields false None (Some reply)) /\
    (af_allow f = true -> tool_name <> "AskUserQuestion" -> f = AnswerFields true None None) /\
    (af_allow f = true -> tool_name = "AskUserQuestion" -> exists rows answers,
      validated_question_answer_rows r response = Ok rows /\ (forall key, Py.lookup key answers = answer_for rows key) /\
      f = AnswerFields true (Some [("questions", Py.get "questions" (match tool_input with VDict d => d | _ => [] end));
                                   ("answers", VDict answers)]) None).
Proof.
  intros Hr. destruct (record_reads _ _ _ _ _ _ Hr) as [Hs Hget]. set (payload := match tool_input with VDict d => d | _ => [] end) in *.
  destruct (built_reads tool_name payload) as [Ep Ei]. pose proof (Hget "presentation" eq_refl) as Gp. rewrite Ep in Gp.
  pose proof (Hget "raw_input" eq_refl) as Gi. rewrite Ei in Gi. unfold claude_answer_fields. rewrite Gp, Gi.
  unfold validate_interaction_response, is_denied_interaction_response, render_interaction_reply, interaction_presentation. rewrite Gp.
  destruct (presentation_cases tool_name) as [[-> ->]|[[-> Hne]|[-> Hne]]].
  - change (Py.clean (VStr PRESENTATION_FORM)) with PRESENTATION_FORM.
    change (PRESENTATION_FORM =s PRESENTATION_FORM) with true. change (Py.in_strs PRESENTATION_FORM INTERACTION_PRESENTATIONS) with true.
    cbn [mbind res_bind]. change (PRESENTATION_FORM =s PRESENTATION_FORM) with true. cbn iota.
    destruct (Py.is_true (Py.get "decline" response)).
    { split; [done|]. intros f [= <-]. split_and!; [done|by eexists|done|done]. }
    unfold ask_user_updated_input. destruct (form_payload _ Hs) as (q & qs & Eq). rewrite Eq.
    pose proof (fun rows => form_rows payload r response rows (Hget "questions" eq_refl)) as Hrows.
    destruct (validated_question_answer_rows r response) as [rows|e]; cbn [mbind res_bind]; [|split; [by intros ?; split; intros [= ->]|done]]. split; [done|].
    intros f [= <-]. split_and!; [done..|]. intros _ _. exists rows, (sdk_answers rows []). split_and!; [done| |done].
    intros key. rewrite sdk_answers_last by auto. by destruct (answer_for rows key).
  - change (Py.clean (VStr PRESENTATION_DECISION)) with PRESENTATION_DECISION.
    change (PRESENTATION_DECISION =s PRESENTATION_FORM) with false. change (Py.in_strs PRESENTATION_DECISION INTERACTION_PRESENTATIONS) with true.
    cbn [mbind res_bind]. change (PRESENTATION_DECISION =s PRESENTATION_FORM) with false.
    change (PRESENTATION_DECISION =s PRESENTATION_DECISION) with true. cbn iota.
    destruct (selected_decision_option r response) as [o|e]; cbn [mbind res_bind]; [|split; [by intros ?; split; intros [= ->]|done]].
    destruct (Py.truthy (Py.get "denial" o)); (split; [done|intros f [= <-]; split_and!; try done; by eexists]).
  - change (Py.clean (VStr PRESENTATION_TOOL_APPROVAL)) with PRESENTATION_TOOL_APPROVAL.
    change (PRESENTATION_TOOL_APPROVAL =s PRESENTATION_FORM) with false. change (Py.in_strs PRESENTATION_TOOL_APPROVAL INTERACTION_PRESENTATIONS) with true.
    cbn [mbind res_bind]. change (PRESENTATION_TOOL_APPROVAL =s PRESENTATION_FORM) with false.
    change (PRESENTATION_TOOL_APPROVAL =s PRESENTATION_DECISION) with false. cbn iota.
    destruct (validated_tool_approval_decision response) as [d|e]; cbn [mbind res_bind]; [|split; [by intros ?; split; intros [= ->]|done]].
    destruct (d =s "reject"); (split; [done|intros f [= <-]; split_and!; try done; by eexists]).
Qed.
(** Which gates the platform can show.  The contract built for any tool and input is
    valid exactly when the tool has a name and, for a question, when its questions name at
    least one and no id twice; every other gate is refused with the contract's error. *)
Theorem contract_shown_exactly tool_name payload :
  validate_interaction_contract (VDict (build_claude_interaction_contract tool_name payload)) =
    if showable tool_name payload then Ok (presentation_of tool_name) else Raise InteractionContractError.
Proof. apply contract_valid. Qed.

Definition demo_questions : val :=
  VDict [("questions", VList [VDict [("question", VStr "Which one?"); ("options", VList [VDict [("label", VStr "A")]])];
                              VDict [("question", VStr "Why?")]])].
Definition demo_response : dict :=
  [("answers", VList [VDict [("question_id", VStr "question_1"); ("option_label", VStr "A")];
                      VDict [("question_id", VStr "question_2"); ("free_text", VStr "It fits")]])].

Definition demo_record : dict :=
  Eval vm_compute in match interaction_record "i1" "r1" "t1" "AskUserQuestion" demo_questions with Ok r => r | Raise _ => [] end.

Definition demo_answers : dict := [("Which one?", VStr "A"); ("Why?", VStr "It fits")].

Lemma answer_reaches_gate_witness :
  claude_answer_fields demo_record demo_response =
    Ok (AnswerFields true (Some [("questions", VList [VDict [("question", VStr "Which one?"); ("options", VList [VDict [("label", VStr "A")]])];
                                                     VDict [("question", VStr "Why?")]]); ("answers", VDict demo_answers)]) None) /\
  is_denied_interaction_response demo_record demo_response = Ok false.
Proof.
  assert (E : interaction_record "i1" "r1" "t1" "AskUserQuestion" demo_questions = Ok demo_record) by (vm_compute; reflexivity).
  destruct (claude_answer_fields demo_record demo_response) as [f|e] eqn:Ef; [|vm_compute in Ef; discriminate Ef].
  destruct (proj2 (answer_reaches_gate _ _ _ _ _ _ demo_response E) f Ef) as (Hd & _).
  split; [rewrite <-Ef; vm_compute; reflexivity|]. rewrite Hd. vm_compute in Ef. injection Ef as <-. reflexivity.
Defined.
End ClaudeCodec.
