(* ===== verification/ClaudeRuntime.v ===== *)
(** [engine/claude_runtime_client.py]: Claude Code behind the runtime contract.  The client
    reads the journal of the runner in the sandbox and reports each frame as runtime events.

    A frame's message is translated by a generator whose frames are taken up one by one;
    here the generator runs to its end first.  Nothing it does after a yield reads what the
    taking up of that frame changes.  The runner's answers are arguments. *)

From S2P Require Import Prelude Effects PyVal Schema SessionRepo SessionRecord JsonText Interaction Reader Emissions ClaudeChildren FileChanges ClaudeStream ClaudeCodec.

Open Scope string_scope.

Module ClaudeRuntime.
Import Emissions ClaudeChildren ClaudeStream ClaudeCodec.

Definition ABORTED_TERMINAL_REASONS : list string := ["aborted_streaming"; "aborted_tools"].
(** A frame index past every event one frame can produce. *)
Definition WHOLE_FRAME : Z := Z.shiftl 1 30.

Section Client.
Context {floats : PyFloats} {sdk : ClaudeSdk}.

(** ** [_Translation] *)

Record translation := Translation {
  tl_translator : translator;
  tl_response_id : option string;
  tl_interrupt_target : option string;
  tl_input_ids : list string;
  tl_interrupted_response_id : option string;
  tl_closed_for_interaction : bool;
  tl_interactions : list (string * dict);
  tl_engine_session_key : option string
}.

Definition new_translation : translation :=
  Translation (Translator no_identities new_cursor) None None [] None false [] None.

Definition with_translator (x : translator) (t : translation) : translation :=
  Translation x (tl_response_id t) (tl_interrupt_target t) (tl_input_ids t) (tl_interrupted_response_id t)
    (tl_closed_for_interaction t) (tl_interactions t) (tl_engine_session_key t).
Definition with_inputs (ids : list string) (t : translation) : translation :=
  Translation (tl_translator t) (tl_response_id t) (tl_interrupt_target t) ids (tl_interrupted_response_id t)
    (tl_closed_for_interaction t) (tl_interactions t) (tl_engine_session_key t).
Definition with_interrupted (id : option string) (t : translation) : translation :=
  Translation (tl_translator t) (tl_response_id t) (tl_interrupt_target t) (tl_input_ids t) id
    (tl_closed_for_interaction t) (tl_interactions t) (tl_engine_session_key t).
Definition with_closed (b : bool) (t : translation) : translation :=
  Translation (tl_translator t) (tl_response_id t) (tl_interrupt_target t) (tl_input_ids t) (tl_interrupted_response_id t)
    b (tl_interactions t) (tl_engine_session_key t).
Definition with_interactions (l : list (string * dict)) (t : translation) : translation :=
  Translation (tl_translator t) (tl_response_id t) (tl_interrupt_target t) (tl_input_ids t) (tl_interrupted_response_id t)
    (tl_closed_for_interaction t) l (tl_engine_session_key t).
Definition with_key (k : option string) (t : translation) : translation :=
  Translation (tl_translator t) (tl_response_id t) (tl_interrupt_target t) (tl_input_ids t) (tl_interrupted_response_id t)
    (tl_closed_for_interaction t) (tl_interactions t) k.

(** [self.interactions[interaction_id] = record]. *)
Fixpoint put_interaction (id : string) (record : dict) (l : list (string * dict)) : list (string * dict) :=
  match l with
  | [] => [(id, record)]
  | (k, r) :: rest => if k =s id then (k, record) :: rest else (k, r) :: put_interaction id record rest
  end.
Definition drop_interaction (id : string) (l : list (string * dict)) : list (string * dict) :=
  List.filter (fun e => negb (fst e =s id)) l.
Definition of_response (response_id : string) (e : string * dict) : bool :=
  Py.eqb (Py.get "response_id" (snd e)) (VStr response_id).

Abbreviation events := (list RuntimeEvent).
Abbreviation tract A := (act translation A).

(** [ResponseOutput(..)] with its [__post_init__]. *)
Definition response_output (response_id : option string) (frame : dict) (channel_delivery : bool) : res RuntimeEvent :=
  frame' ← public_ui_frame frame;
  if channel_delivery then Ok (ResponseOutput None response_id frame')
  else
    _ ← raise_if (negb (Py.eqb (Py.get "type" frame') (VStr "start"))) ValueError;
    metadata ← (match Py.lookup "messageMetadata" frame' with
                | None => Ok []
                | Some (VDict m) => Ok m
                | Some _ => Raise TypeError
                end);
    Ok (ResponseOutput None response_id
          (Py.set "messageMetadata" (VDict (Py.set "channel_delivery" (VBool false) metadata)) frame')).

Definition outputs (response_id : option string) (parts : list dict) : tract events :=
  call (mapM_res (fun part => response_output response_id part true) parts).

(** [_finish]. *)
Definition finish (reason : string) : dict := [("type", VStr "finish"); ("finishReason", VStr reason)].

(** [_command_failure]. *)
Definition command_failure (native : val) : dict :=
  let native := match native with VDict d => d | _ => [] end in
  let state := Py.str (Py.por (Py.get "state" native) (VStr "refused")) in
  [("code", VStr state); ("message", VStr ("Native command " ++ state)); ("native", VDict native)].

(** *** Response boundaries *)

(** [dict.fromkeys]. *)
Definition distinct (l : list string) : list string := fold_left add_new l [].

Definition start_part (response_id origin : string) (input_ids : list string) : dict :=
  [("type", VStr "start"); ("messageId", VStr response_id);
   ("messageMetadata", VDict [("response_id", VStr response_id); ("input_ids", VList (map VStr input_ids));
                              ("origin", VStr origin)])].

(** [_start]. *)
Definition start (response_id origin : string) (input_ids : list string) (interrupt_target : string)
  (channel_delivery : bool) : tract events :=
  _ ← refuse_call (Py.is_empty response_id) ValueError;
  t ← self;
  match tl_response_id t with
  | Some open =>
      match input_ids with
      | [] => mret []
      | _ =>
          let ids := distinct (tl_input_ids t ++ input_ids)%list in
          _ ← change (with_inputs ids);
          o ← outputs (Some open) [[("type", VStr "message-metadata");
                                    ("messageMetadata", VDict [("input_ids", VList (map VStr ids))])]];
          mret (ResponseStarted None open origin input_ids :: o)
      end
  | None =>
      _ ← change (fun t =>
        Translation (put_stream new_cursor (tl_translator t)) (Some response_id) (Some interrupt_target) input_ids None false
          (tl_interactions t) (tl_engine_session_key t));
      e ← call (response_output (Some response_id) (start_part response_id origin input_ids) channel_delivery);
      mret [ResponseStarted None response_id origin input_ids; e]
  end.

Definition reopen_part (response_id : string) : dict := [("type", VStr "start"); ("messageId", VStr response_id)].

(** [_reopen]. *)
Definition reopen : tract events :=
  t ← self;
  match tl_closed_for_interaction t, tl_response_id t with
  | true, Some response_id =>
      _ ← change (with_closed false);
      o ← outputs (Some response_id) [reopen_part response_id];
      mret (StatusChanged None "working" :: o)
  | _, _ => mret []
  end.

Definition assert {A} : tract A := call (Raise AssertionError).

(** [_end]. *)
Definition end_response (outcome : string) (native_reason : option string) (usage error : option dict) (parts : list dict)
  : tract events :=
  t ← self;
  match tl_response_id t with
  | None => assert
  | Some response_id =>
      reopened ← reopen;
      o ← outputs (Some response_id) parts;
      _ ← change (fun t =>
        Translation (tl_translator t) None None [] (tl_interrupted_response_id t) false
          (List.filter (fun e => negb (of_response response_id e)) (tl_interactions t)) (tl_engine_session_key t));
      mret (reopened ++ o ++ [ResponseEnded None response_id outcome native_reason usage error])%list
  end.

(** [_output]. *)
Definition output (part : dict) (tail_response_id : option string) : tract events :=
  reopened ← reopen;
  t ← self;
  o ← outputs (match tl_response_id t with Some r => Some r | None => tail_response_id end) [part];
  mret (reopened ++ o)%list.

(** *** Frames *)

(** [_session_start_message]. *)
Definition session_start_message (message : dict) : option (string * string) :=
  if negb (Py.eqb (Py.get "__sdk_type" message) (VStr "HookEventMessage")) ||
     negb (Py.eqb (Py.get "subtype" message) (VStr "hook_response")) ||
     negb (Py.eqb (Py.get "hook_event_name" message) (VStr "SessionStart"))
  then None
  else
    match Py.get "data" message with
    | VDict data =>
        match Py.get "output" data with
        | VStr output =>
            if Py.is_empty (Py.strip output) then None
            else
              match Json.loads repr_float output with
              | Some (VDict payload) =>
                  let event_id := Py.clean (Py.get "uuid" message) in
                  match Py.get "systemMessage" payload with
                  | VStr content =>
                      if Py.is_empty (Py.strip content) || Py.is_empty event_id then None
                      else Some ("session-start:" ++ event_id, content)
                  | _ => None
                  end
              | _ => None
              end
        | _ => None
        end
    | _ => None
    end.

Definition text_parts (block text : string) : list dict := [text_start block; text_delta block text; text_end block].

(** [_greeting]. *)
Definition greeting (event_id text : string) : tract events :=
  let parts := text_parts (event_id ++ ":text") text in
  t ← self;
  match tl_response_id t with
  | Some response_id => reopened ← reopen; o ← outputs (Some response_id) parts; mret (reopened ++ o)%list
  | None =>
      started ← start event_id "engine" [] event_id false;
      ended ← end_response "completed" (Some "session_start") None None (parts ++ [finish "stop"])%list;
      mret (started ++ ended)%list
  end.

(** [x or y], the second only read when the first is false. *)
Definition or_item (v : val) (k : string) (frame : dict) : res val := if Py.truthy v then Ok v else Py.item k frame.

Definition strs_of (v : val) : res (list string) := l ← Interaction.iter_or_empty v; Ok (map Py.str l).
Definition opt_str (s : string) : option string := if Py.is_empty s then None else Some s.

(** [_native_output]. *)
Definition native_output (parts : list dict) (message frame : dict) (standalone : bool) : tract events :=
  t ← self;
  match tl_response_id t, standalone with
  | Some response_id, false => outputs (Some response_id) parts
  | _, _ =>
      native_id ← call (or_item (Py.por (Py.get "uuid" message)
                                   (match Py.get "data" message with VDict data => Py.get "uuid" data | _ => VStr "" end)) "seq" frame);
      let response_id := "claude-native:" ++ Py.str native_id in
      input_ids ← call (strs_of (Py.get "unadmitted_result_input_ids" frame));
      let failed := Py.is_true (Py.get "is_error" message) in
      let chunks :=
        ([("type", VStr "start"); ("messageId", VStr response_id);
          ("messageMetadata", VDict [("native_message", VBool true); ("response_id", VStr response_id);
                                     ("input_ids", VList (map VStr input_ids))])]
         :: parts ++ [finish (if failed then "error" else "stop")])%list in
      let native_reason := Py.str_or_empty (Py.por (Py.get "terminal_reason" message)
                             (Py.por (Py.get "subtype" message) (Py.get "type" message))) in
      o ← outputs (Some response_id) chunks;
      mret (map (InputMessageObserved None) input_ids ++
            [ResponseStarted None response_id (match input_ids with [] => "engine" | _ => "input" end) input_ids] ++ o ++
            [ResponseEnded None response_id (if failed then "failed" else "completed") (opt_str native_reason) None None])%list
  end.

Definition raw_part (subtype : string) (message : dict) : dict :=
  [("type", VStr "data-raw-event");
   ("data", VDict [("event_type", VStr "claude_code.sdk"); ("subtype", VStr subtype); ("raw", VDict message)])].

(** [_standalone_result]. *)
Definition standalone_result (message frame : dict) : tract events :=
  let text :=
    match Py.truthy (Py.get "result" message), Py.get "errors" message with
    | false, VList items => VStr (String.concat Interaction.newline (Interaction.str_values (VList items)))
    | _, _ => Py.get "result" message
    end in
  texts ← (match text with
           | VStr s =>
               if Py.is_empty s then mret []
               else uuid ← call (or_item (Py.get "uuid" message) "seq" frame); mret (text_parts (Py.str uuid ++ ":text") s)
           | _ => mret []
           end : tract (list dict));
  native_output (texts ++ [raw_part "result" message])%list message frame true.

(** [_result]. *)
Definition result (message terminal : dict) : tract events :=
  t ← self;
  match tl_response_id t with
  | None =>
      _ ← change (with_interrupted None);
      mret [RuntimeDiagnostic None "claude_code.result_outside_response" (VDict message)]
  | Some response_id =>
      let terminal_reason := Py.clean (Py.get "terminal_reason" message) in
      let finish_reason := Py.str_or_empty (Py.get "finishReason" terminal) in
      let '(outcome, reason) :=
        if Py.in_strs terminal_reason ABORTED_TERMINAL_REASONS then ("cancelled", "other")
        else if finish_reason =s "stop" then ("completed", "stop") else ("failed", "error") in
      let error := if outcome =s "failed" then Py.get "error" terminal else VNone in
      error_parts ← call (if Py.truthy error
                          then m ← Py.vget "message" error; c ← Py.vget "code" error;
                               Ok [[("type", VStr "error"); ("errorText", VStr (Py.str_or_empty (Py.por m c)))]]
                          else Ok []);
      let parts := ([[("type", VStr "data-result"); ("data", VDict (claude_result_data message))]] ++ error_parts ++ [finish reason])%list in
      let closures :=
        if Py.is_true (Py.get "__interaction_closed" terminal)
        then map (fun e => InteractionClosed None (fst e) IExpired) (List.filter (of_response response_id) (tl_interactions t))
        else [] in
      ended ← end_response outcome (opt_str (Py.a_or terminal_reason (Py.str_or_empty (Py.get "subtype" message))))
                (dict_of (Py.get "usage" message)) (dict_of error) parts;
      mret (closures ++ ended)%list
  end.

(** [_interaction]. *)
Definition interaction (frame : dict) : tract events :=
  let interaction_id := Py.clean (Py.get "interaction_id" frame) in
  let boundary := Py.is_true (Py.get "engine_boundary" frame) in
  started ← (if boundary then
               let resumed_id := Py.clean (Py.get "response_id" frame) in
               t ← self;
               _ ← refuse_call (Py.is_empty resumed_id || bool_decide (is_Some (tl_response_id t))) ValueError;
               start resumed_id "engine" [] resumed_id true
             else mret []);
  t ← self;
  match tl_response_id t with
  | None => call (Raise ValueError)
  | Some response_id =>
      _ ← refuse_call (Py.is_empty interaction_id) ValueError;
      record ← call (interaction_record interaction_id response_id (Py.clean (Py.get "tool_use_id" frame))
                       (Py.clean (Py.get "tool_name" frame)) (Py.get "tool_input" frame));
      _ ← change (fun t => with_interactions (put_interaction interaction_id record (tl_interactions t)) t);
      let intent :=
        if boundary
        then [[("type", VStr "tool-input-available"); ("toolCallId", VStr (Py.str_or_empty (Py.get "tool_use_id" frame)));
               ("toolName", VStr (Py.str_or_empty (Py.get "tool_name" frame))); ("input", Py.get "tool_input" frame)]]
        else [] in
      let approval := match Interaction.build_tool_approval_request_frame record with Some f => [f] | None => [] end in
      let parts := (intent ++ approval ++ [[("type", VStr "data-interaction"); ("data", VDict record)]; finish "tool-calls"])%list in
      reopened ← reopen;
      o ← outputs (Some response_id) parts;
      _ ← change (with_closed true);
      mret (started ++ reopened ++ [InteractionOpened None response_id interaction_id record] ++ o ++ [StatusChanged None "waiting"])%list
  end.

(** [_observe_session_key]. *)
Definition observe_session_key (message : dict) : tract unit :=
  match Py.get "__sdk_type" message with
  | VStr ty =>
      let key := Py.clean (Py.get "session_id" message) in
      if Py.in_strs ty ["ResultMessage"; "StreamEvent"] && negb (Py.is_empty key) then change (with_key (Some key)) else mret tt
  | ty => refuse_call (negb (Py.hashable ty)) TypeError
  end.

(** One frame of a translated message, taken up. *)
Definition take_up (message translated : dict) : tract events :=
  emission ← call (emission_from_translated_frame translated);
  match emission with
  | InputConsumed consumed input_id response_message_id _ =>
      t ← self;
      let additional_input := bool_decide (is_Some (tl_response_id t)) in
      started ← start response_message_id "input" [input_id] input_id true;
      t' ← self;
      data ← call (Py.item "data" consumed);
      data' ← call (match data with
                    | VDict d => Ok (Py.set "responseMessageId" (match tl_response_id t' with Some r => VStr r | None => VNone end) d)
                    | _ => Raise TypeError
                    end);
      let consumed' := Py.set "transient" (VBool (negb additional_input)) (Py.set "data" (VDict data') consumed) in
      o ← outputs (tl_response_id t') [consumed'];
      mret ([InputMessageObserved None input_id; InputAdmitted None input_id] ++ started ++ o)%list
  | PrivateDiagnostic _ event_type subtype raw => mret [RuntimeDiagnostic None (event_type ++ "." ++ subtype) raw]
  | TurnTerminal _ _ _ _ _ _ _ _ => result message translated
  | _ =>
      t ← self;
      let tail := if Py.in_strs (Py.str_or_empty (Py.get "__sdk_type" message)) ["StreamEvent"; "AssistantMessage"] &&
                     Py.is_none (Py.get "parent_tool_use_id" message)
                  then tl_interrupted_response_id t else None in
      output (as_frame emission) tail
  end.

Fixpoint take_all (message : dict) (frames : list dict) : tract events :=
  match frames with
  | [] => mret []
  | f :: rest => es ← take_up message f; es' ← take_all message rest; mret (es ++ es')%list
  end.

(** The translator's generator, run to its end: what it yielded, and how it ended. *)
Definition generated (m : tgen unit) : tract (list dict * res unit) := fun t =>
  let '(ys, (r, x)) := m (tl_translator t) in (Ok (ys, r), with_translator x t).

Definition type_is (message : dict) (ty : string) : bool := Py.eqb (Py.get "__sdk_type" message) (VStr ty).

(** The rest of [_event], once the message is neither a greeting nor on its own. *)
Definition event_frames (message frame : dict) : tract events :=
  boundary ← (if Py.is_true (Py.get "engine_boundary" frame)
              then let response_id := Py.clean (Py.get "uuid" message) in start response_id "engine" [] response_id true
              else mret []);
  seq ← call (v ← Py.item "seq" frame; Py.int v);
  generator ← generated (translate_claude_sdk_message message seq);
  let '(frames, ended) := generator in
  es ← take_all message frames;
  _ ← call ended;
  mret (boundary ++ es)%list.

(** [_event]. *)
Definition event (frame : dict) : tract events :=
  match Py.get "message" frame with
  | VDict message =>
      _ ← observe_session_key message;
      _ ← (if type_is message "ConversationResetMessage"
           then change (fun t => with_interrupted None (with_key None t)) else mret tt);
      match session_start_message message with
      | Some (event_id, text) => greeting event_id text
      | None =>
          t ← self;
          let outside := negb (bool_decide (is_Some (tl_response_id t))) && negb (bool_decide (is_Some (tl_interrupted_response_id t))) in
          if type_is message "ResultMessage" && (outside || Py.truthy (Py.get "unadmitted_result_input_ids" frame))
          then standalone_result message frame
          else if type_is message "AssistantMessage" && Py.is_none (Py.get "parent_tool_use_id" message) && outside &&
                  negb (Py.is_true (Py.get "engine_boundary" frame))
          then native_output [raw_part "assistant" message] message frame true
          else event_frames message frame
      end
  | _ => mret [RuntimeDiagnostic None "claude_code.unserialized_event" (VDict frame)]
  end.

(** [translate]. *)
Definition translate (frame : dict) : tract events :=
  let op := Py.get "op" frame in
  let is_op s := Py.eqb op (VStr s) in
  if is_op "event" then event frame
  else if is_op "interaction" then interaction frame
  else if is_op "interaction_closed" then
    let interaction_id := Py.clean (Py.get "interaction_id" frame) in
    match Py.is_empty interaction_id, Py.get "reason" frame with
    | false, VStr reason =>
        if Py.in_strs reason ["answered"; "expired"]
        then _ ← change (fun t => with_interactions (drop_interaction interaction_id (tl_interactions t)) t);
             mret [InteractionClosed None interaction_id (if reason =s "answered" then IAnswered else IExpired)]
        else call (Raise ValueError)
    | _, _ => call (Raise ValueError)
    end
  else if is_op "status" then
    if Py.eqb (Py.get "state" frame) (VStr "busy") then mret [StatusChanged None "working"]
    else if Py.eqb (Py.get "state" frame) (VStr "idle") then mret [StatusChanged None "idle"]
    else call (Raise ValueError)
  else if is_op "turn_interrupted" then
    t ← self;
    match tl_response_id t, tl_interrupt_target t with
    | Some response_id, Some target =>
        if Py.eqb (Py.get "command_id" frame) (VStr target) then
          es ← end_response "cancelled" (Some "interrupted") None None [finish "other"];
          _ ← change (with_interrupted (Some response_id));
          mret es
        else mret []
    | _, _ => mret []
    end
  else if is_op "error" then
    let code := Py.str (Py.por (Py.get "error_class" frame) (VStr "RUNNER_ERROR")) in
    let message := Py.str_or_empty (Py.get "detail" frame) in
    t ← self;
    ended ← (match tl_response_id t with
             | None => mret []
             | Some _ =>
                 end_response "failed" (Some code) None (Some [("code", VStr code); ("message", VStr message)])
                   [[("type", VStr "error"); ("errorText", VStr (Py.a_or message code))]; finish "error"]
             end);
    mret (RuntimeDiagnostic None "claude_code.runner_error" (VDict frame) :: ended)
  else if is_op "input_ack" then mret []
  else if negb (Py.hashable op) then call (Raise TypeError)
  else if is_op "input_completed" || is_op "input_refused" then
    let input_id := Py.clean (Py.get "input_id" frame) in
    _ ← refuse_call (Py.is_empty input_id) ValueError;
    mret (if is_op "input_completed" then [InputAdmitted None input_id]
          else [InputRefused None input_id (command_failure (Py.get "native" frame))])
  else mret [RuntimeDiagnostic None ("claude_code.unknown_op." ++ Py.str op) (VDict frame)].

(** ** [ClaudeRuntimeClient] *)

Record client := Client {
  cl_session_id : string;
  cl_boot_id : string;
  cl_translation : translation;
  cl_next_sequence : option Z;
  cl_reading : bool;
  cl_children_restored : bool
}.

(** [__init__]. *)
Definition new_client (session_id : string) (hello : dict) (resume_session_key : option string) : res client :=
  let boot_id := Py.clean (Py.get "boot_id" hello) in
  if Py.is_empty boot_id then Raise ValueError
  else Ok (Client session_id boot_id (with_key resume_session_key new_translation) None false false).

Definition put_translation (t : translation) (c : client) : client :=
  Client (cl_session_id c) (cl_boot_id c) t (cl_next_sequence c) (cl_reading c) (cl_children_restored c).
Definition with_reading (b : bool) (c : client) : client :=
  Client (cl_session_id c) (cl_boot_id c) (cl_translation c) (cl_next_sequence c) b (cl_children_restored c).
Definition with_next (n : option Z) (c : client) : client :=
  Client (cl_session_id c) (cl_boot_id c) (cl_translation c) n (cl_reading c) (cl_children_restored c).
(** [_restore_children], given the identities the stored transcript has. *)
Definition restore_children (stored : identities) (c : client) : client :=
  let t := cl_translation c in
  Client (cl_session_id c) (cl_boot_id c) (with_translator (put_children stored (tl_translator t)) t)
    (cl_next_sequence c) (cl_reading c) true.

(** [submit]: what is delivered, given the link's state if it is asked for. *)
Definition submit (last_delivery_sequence : Z) (c : client) : Z * client :=
  let sequence := match cl_next_sequence c with Some n => n | None => (last_delivery_sequence + 1)%Z end in
  (sequence, with_next (Some (sequence + 1)%Z) c).

(** *** The event stream *)

Definition put_cursor (cursor : RuntimeCursor) (e : RuntimeEvent) : RuntimeEvent :=
  let c := Some cursor in
  match e with
  | InputAdmitted _ i => InputAdmitted c i
  | InputMessageObserved _ i => InputMessageObserved c i
  | InputRefused _ i f => InputRefused c i f
  | ResponseStarted _ r o i => ResponseStarted c r o i
  | ResponseOutput _ r f => ResponseOutput c r f
  | InteractionOpened _ r i k => InteractionOpened c r i k
  | InteractionClosed _ i r => InteractionClosed c i r
  | ResponseEnded _ r o n u e => ResponseEnded c r o n u e
  | StatusChanged _ s => StatusChanged c s
  | RuntimeDiagnostic _ t r => RuntimeDiagnostic c t r
  end.

Definition cursor_at (boot_id : string) (seq index : Z) : RuntimeCursor :=
  MkCursor boot_id [("seq", VInt seq); ("index", VInt index)].

(** [d.get(k, default)]. *)
Definition get_or (k : string) (default_value : val) (d : dict) : val := default default_value (Py.lookup k d).

Definition position_of (c : RuntimeCursor) : res (Z * Z) :=
  seq ← Py.int (get_or "seq" (VInt 0) (rc_position c));
  index ← Py.int (get_or "index" (VInt WHOLE_FRAME) (rc_position c));
  Ok (seq, index).

(** [a <= b] of pairs. *)
Definition pair_le (a b : Z * Z) : bool := ((fst a <? fst b) || ((fst a =? fst b) && (snd a <=? snd b)))%Z.

(** The events of a frame that come after the cursor, each with its own. *)
Fixpoint numbered (boot_id : string) (through : Z * Z) (seq index : Z) (es : events) : events :=
  match es with
  | [] => []
  | e :: rest =>
      let position := match rest with [] => WHOLE_FRAME | _ => index end in
      ((if pair_le (seq, index) through then [] else [put_cursor (cursor_at boot_id seq position) e]) ++
       numbered boot_id through seq (index + 1) rest)%list
  end.

(** [_recorded_result]: the response a retained result ended, if the database holds exactly
    what it ended with.  The repository's three reads are of one moment: the reader whose
    client this is is the only one to write. *)
Definition protocol_error {A} : res A := Raise (APIError "RUNTIME_PROTOCOL_INCOMPATIBLE" 502).

Definition same_dict (a b : option dict) : bool :=
  match a, b with Some x, Some y => Py.eqb (VDict x) (VDict y) | None, None => true | _, _ => false end.
Definition same_word (a b : option string) : bool :=
  match a, b with Some x, Some y => x =s y | None, None => true | _, _ => false end.

Definition output_frame (e : RuntimeEvent) : option dict := match e with ResponseOutput _ _ f => Some f | _ => None end.

Definition probe (response_id : string) : translation :=
  Translation (Translator no_identities (with_emitted true new_cursor)) (Some response_id) None [] None false [] None.

Definition recorded_result (session_id : string) (after : option RuntimeCursor) (frame : dict) (d : db) : res string :=
  let '(output_seq, stored_cursor) := Repo.resume_point session_id d in
  let activity := Rec.activity session_id d in
  match after, Rec.av_last_response activity with
  | Some cursor, Some response =>
      _ ← raise_if (negb (same_dict stored_cursor (Some (cursor_as_json cursor))) ||
                    negb (bool_decide (Rec.av_open_responses activity = [])) ||
                    Py.truthy (Py.get "unadmitted_result_input_ids" frame)) (APIError "RUNTIME_PROTOCOL_INCOMPATIBLE" 502);
      let response_id := rs_response_id response in
      let tail := fst (Rec.response_output_tail session_id response_id 3 d) in
      match Py.get "message" frame with
      | VDict message =>
          seq ← (v ← Py.item "seq" frame; Py.int v);
          let '(frames, (r, x)) := translate_claude_sdk_message message seq (tl_translator (probe response_id)) in
          _ ← r;
          match last frames with
          | None => Raise IndexError
          | Some terminal =>
              expected ← fst (result message terminal (with_translator x (probe response_id)));
              let parts := omap output_frame expected in
              match last expected, last tail with
              | Some (ResponseEnded _ _ outcome native_reason usage error), Some newest =>
                  if (length parts <=? length tail)%nat && (ou_seq newest =? output_seq)%Z &&
                     Py.eqb (VList (map (fun r => VDict (ou_part r)) (drop (length tail - length parts) tail))) (VList (map VDict parts)) &&
                     same_word (rs_outcome response) (Some outcome) && same_word (rs_native_reason response) native_reason &&
                     same_dict (rs_usage response) usage && same_dict (rs_error response) error
                  then Ok response_id else protocol_error
              | Some (ResponseEnded _ _ _ _ _ _), None => protocol_error
              | _, _ => Raise AssertionError
              end
          end
      | _ => Raise AttributeError
      end
  | _, _ => protocol_error
  end.

Definition is_result_frame (frame : dict) : bool :=
  match Py.get "message" frame with VDict m => type_is m "ResultMessage" | _ => false end.

Abbreviation cgen A := (gen client RuntimeEvent A).

(** The loop over the journal's frames; [stored] and [d] are what a read of the transcript
    and of the session's facts finds. *)
Fixpoint read_frames (stored : identities) (d : db) (after : option RuntimeCursor) (through : Z * Z) (first_retained : option Z)
  (frames : list dict) : cgen unit :=
  match frames with
  | [] => mret tt
  | frame :: rest =>
      if Py.eqb (Py.get "op" frame) (VStr "gap") then
        match Py.int_of (Py.get "first_retained_sequence" frame) with
        | Some first =>
            _ ← call_gen (raise_if (fst through + 1 <? first)%Z RuntimeCursorExpired);
            read_frames stored d after through (Some first) rest
        | None => call_gen (Raise RuntimeCursorExpired)
        end
      else
        c ← self_gen;
        _ ← (if cl_children_restored c then mret tt else change_gen (restore_children stored));
        seq ← call_gen (v ← Py.item "seq" frame; Py.int v);
        _ ← (if bool_decide (first_retained = Some seq) && (seq =? fst through)%Z && (snd through <? WHOLE_FRAME)%Z &&
                negb (bool_decide (is_Some (tl_response_id (cl_translation c)))) && is_result_frame frame
             then
               response_id ← call_gen (recorded_result (cl_session_id c) after frame d);
               yield [RuntimeDiagnostic (Some (cursor_at (cl_boot_id c) seq WHOLE_FRAME)) "claude_code.compacted_result_committed"
                        (VDict [("seq", VInt seq); ("response_id", VStr response_id)])]
             else
               es ← on_part cl_translation put_translation (translate frame);
               yield (numbered (cl_boot_id c) through seq 0 es));
        read_frames stored d after through first_retained rest
  end.

(** [try: m finally: f]. *)
Definition finally {A} (f : client -> client) (m : cgen A) : cgen A := fun c =>
  let '(es, (r, c')) := m c in (es, (r, f c')).

(** [events]. *)
Definition read_events (stored : identities) (d : db) (after : option RuntimeCursor) (frames : list dict) (protocol_fault : bool)
  : cgen unit :=
  c ← self_gen;
  _ ← call_gen (raise_if (match after with Some a => negb (rc_generation a =s cl_boot_id c) | None => false end) RuntimeCursorExpired);
  _ ← call_gen (raise_if (cl_reading c) RuntimeError);
  _ ← change_gen (with_reading true);
  through ← call_gen (match after with Some a => position_of a | None => Ok (0, WHOLE_FRAME)%Z end);
  finally (with_reading false)
    (_ ← read_frames stored d after through None frames;
     call_gen (if protocol_fault then protocol_error else Ok tt)).

(** *** The runtime's own account *)

(** [x.items()] of [x or {}]. *)
Definition items_or_empty (v : val) : res dict :=
  match Py.por v (VDict []) with VDict d => Ok d | _ => Raise AttributeError end.

Definition pending_item (response_id : option string) (item : val) : res (string * (string * dict)) :=
  match response_id with
  | None => Raise ValueError
  | Some r =>
      interaction_id ← Py.vitem "interaction_id" item;
      tool_use_id ← Py.vget "tool_use_id" item;
      tool_name ← Py.vget "tool_name" item;
      tool_input ← Py.vget "tool_input" item;
      record ← interaction_record (Py.str interaction_id) r (Py.str_or_empty tool_use_id) (Py.str_or_empty tool_name) tool_input;
      Ok (Py.str interaction_id, (r, record))
  end.

Definition closed_ids (reason : interaction_status) (ids : list string) : list (string * interaction_status) :=
  map (fun id => (id, reason)) ids.

(** [state], given the runner's snapshot. *)
Definition runtime_state (boot_id : string) (snapshot : dict) : res RuntimeState :=
  _ ← raise_if (negb (Py.eqb (Py.get "boot_id" snapshot) (VStr boot_id))) RuntimeCursorExpired;
  running ← strs_of (Py.get "running_input_ids" snapshot);
  let engine_response := Py.clean (Py.get "engine_response_id" snapshot) in
  open_responses ← (if negb (Py.is_empty engine_response) then Ok [(engine_response, ("engine", []))]
                    else match running with
                         | [] => Ok []
                         | input_id :: _ => r ← input_response_message_id input_id; Ok [(r, ("input", running))]
                         end);
  let response_id := match open_responses with (r, _) :: _ => Some r | [] => None end in
  items ← Interaction.iter_or_empty (Py.get "pending_interactions" snapshot);
  pending ← mapM_res (pending_item response_id) items;
  let status := match pending with
                | _ :: _ => "waiting"
                | [] => if Py.truthy (Py.get "busy" snapshot) then "working" else "idle"
                end in
  through ← (match Py.int_of (Py.get "run_start_seq" snapshot) with
             | Some n => Ok (n - 1)%Z
             | None => Py.int (Py.por (Py.get "last_seq" snapshot) (VInt 0))
             end);
  unpersisted ← Py.item "first_unpersisted_event_seq" snapshot;
  through' ← (if Py.is_none unpersisted then Ok through else n ← Py.int unpersisted; Ok (Z.min through (n - 1)));
  queued ← strs_of (Py.get "queued_input_ids" snapshot);
  consumed ← strs_of (Py.get "consumed_input_ids" snapshot);
  completed ← strs_of (Py.get "completed_input_ids" snapshot);
  refused ← items_or_empty (Py.get "refused_inputs" snapshot);
  answered ← strs_of (Py.get "answered_interaction_ids" snapshot);
  expired ← strs_of (Py.get "expired_interaction_ids" snapshot);
  Ok (MkRuntimeState status open_responses pending (distinct (consumed ++ completed)) (Some (cursor_at boot_id through' WHOLE_FRAME))
        (closed_ids IAnswered answered ++ closed_ids IExpired expired)
        (map (fun e => (fst e, command_failure (snd e))) refused)).

(** [answer]: what goes to the gate, or [None] when the runtime has it answered already. *)
Definition answer (state : RuntimeState) (interaction_id : string) (response : dict) : res (option answer_fields) :=
  match Reader.assoc interaction_id (st_closed_interactions state) with
  | Some IAnswered => Ok None
  | Some _ => Raise InteractionNotOpen
  | None =>
      match Reader.assoc interaction_id (st_pending_interactions state) with
      | None => Raise InteractionNotOpen
      | Some (_, contract) =>
          fields ← claude_answer_fields contract response;
          Ok (Some (if af_allow fields then AnswerFields true (af_updated_input fields) None
                    else AnswerFields false None (Some (match af_message fields with
                                                        | Some m => Py.a_or m "user denied"
                                                        | None => "user denied"
                                                        end))))
      end
  end.

(** The link's verdict on what was sent. *)
Definition answered (accepted : bool) : res unit := raise_if (negb accepted) InteractionNotOpen.

(** [interrupt]: whom the runner is told to stop. *)
Definition interrupt (state : RuntimeState) (cancel_queued : bool) : res (option string) :=
  if cancel_queued then Raise NotImplementedError
  else match st_open_responses state with
       | [] => Ok None
       | (response_id, (origin, input_ids)) :: _ =>
           if origin =s "input" then match input_ids with i :: _ => Ok (Some i) | [] => Raise IndexError end
           else Ok (Some response_id)
       end.

(** [committed]: the last frame the runner may forget. *)
Definition committed (boot_id : string) (cursor : RuntimeCursor) : res (option Z) :=
  if rc_generation cursor =s boot_id then
    seq ← Py.int (get_or "seq" (VInt 0) (rc_position cursor));
    index ← Py.int (get_or "index" (VInt WHOLE_FRAME) (rc_position cursor));
    Ok (Some (if index =? WHOLE_FRAME then seq else seq - 1)%Z)
  else Ok None.
End Client.
End ClaudeRuntime.
