(* ===== verification/ClaudeContract.v ===== *)
(** The runtime contract as Claude's client keeps it: an abstract account of what a session
    may hear about its responses, and that every journal is reported within it. *)

From S2P Require Import Prelude Effects PyVal Schema Interaction Reader Emissions ClaudeChildren FileChanges ClaudeStream ClaudeCodec ClaudeRuntime.

Open Scope string_scope.

Module ClaudeContract.
Import Emissions ClaudeChildren ClaudeStream ClaudeCodec ClaudeRuntime.

(** ** The contract *)

Definition part_type (f : dict) : string := Py.clean (Py.get "type" f).

(** A response as a page and a channel follow it: its message is open, closed while a
    person is asked, or closed for good; [Cut] when it was interrupted, whose last parts
    may still arrive. *)
Inductive phase := Begun | Talking (asked : bool) | Paused | Closing | Over | Cut.

#[export] Instance phase_dec : EqDecision phase.
Proof. solve_decision. Defined.

Definition asks (f : dict) : bool :=
  match Py.get "data" f with VDict d => negb (Py.is_empty (Py.str_or_empty (Py.get "interaction_id" d))) | _ => false end.

(** What may join a message while it is closed for a question: that an input was taken. *)
Definition receipts : list string := ["message-metadata"; "data-input-consumed"].

(** What a part of a response's output does to it; [None] is a part the contract forbids. *)
Definition part_step (p : phase) (f : dict) : option phase :=
  if part_type f =s "start" then
    match p with
    | Begun => if Py.has "messageMetadata" f then Some (Talking false) else None
    | Paused => if Py.has "messageMetadata" f then None else Some (Talking false)
    | _ => None
    end
  else if part_type f =s "finish" then
    match p with Talking true => Some Paused | Talking false => Some Closing | _ => None end
  else if part_type f =s "data-interaction" then
    match p with Talking _ => if asks f then Some (Talking true) else None | _ => None end
  else
    match p with
    | Talking _ | Cut => Some p
    | Paused => if Py.in_strs (part_type f) receipts then Some p else None
    | _ => None
    end.

(** How a response stands once it has ended. *)
Definition ended (outcome : string) (native_reason : option string) : phase :=
  if (outcome =s "cancelled") && bool_decide (native_reason = Some "interrupted") then Cut else Over.
Definition past (p : phase) : Prop := p = Over \/ p = Cut.

Abbreviation phases := (gmap string phase).

(** A part's type is a plain word. *)
Definition named (f : dict) : bool := match Py.get "type" f with VStr ty => Py.strip ty =s ty | _ => false end.

Definition event_step (s : phases) (e : RuntimeEvent) : option phases :=
  match e with
  | ResponseStarted _ r _ _ =>
      match s !! r with
      | None => Some (<[r := Begun]> s)
      | Some (Talking _ | Paused) => Some s
      | _ => None
      end
  | ResponseOutput _ (Some r) f =>
      match s !! r with
      | Some p => match part_step p f with Some p' => if named f then Some (<[r := p']> s) else None | None => None end
      | None => None
      end
  | InteractionOpened _ r _ _ => match s !! r with Some (Talking _) => Some s | _ => None end
  | ResponseEnded _ r outcome native_reason _ _ =>
      match s !! r with Some Closing => Some (<[r := ended outcome native_reason]> s) | _ => None end
  | _ => Some s
  end.

Fixpoint event_steps (s : phases) (es : list RuntimeEvent) : option phases :=
  match es with
  | [] => Some s
  | e :: rest => match event_step s e with Some s' => event_steps s' rest | None => None end
  end.

(** The responses that begin, by the part their message opens with. *)
Definition opening (e : RuntimeEvent) : option string :=
  match e with
  | ResponseOutput _ (Some r) f => if (part_type f =s "start") && Py.has "messageMetadata" f then Some r else None
  | _ => None
  end.
Definition openings (es : list RuntimeEvent) : list string := omap opening es.

Lemma event_steps_app s es es' :
  event_steps s (es ++ es') = match event_steps s es with Some s' => event_steps s' es' | None => None end.
Proof. revert s. induction es as [|e es IH]; intros s; [done|]. cbn. destruct (event_step s e); [apply IH|done]. Qed.

(** ** The translator's frames open and close nothing *)

Definition plain (f : dict) : Prop := Py.in_strs (part_type f) ["start"; "finish"; "data-interaction"] = false.

Lemma plain_typed ty rest : Py.in_strs (Py.strip ty) ["start"; "finish"; "data-interaction"] = false -> plain (("type", VStr ty) :: rest).
Proof. unfold plain, part_type. change (Py.get "type" _) with (VStr ty). by rewrite clean_str. Qed.

Lemma public_frame_type f f' : public_ui_frame f = Ok f' -> Py.get "type" f' = VStr (part_type f) /\ part_type f' = part_type f.
Proof.
  intros H%public_frame_ok. destruct H as [H _]. split; [done|]. unfold part_type at 1. rewrite H, clean_str. apply strip_idem.
Qed.

Lemma public_named f f' : public_ui_frame f = Ok f' -> named f' = true.
Proof. intros [H E]%public_frame_type. unfold named. rewrite H. apply String.eqb_eq. unfold part_type, Py.clean. apply strip_idem. Qed.

Lemma plain_public f f' : public_ui_frame f = Ok f' -> plain f -> plain f'.
Proof. intros [_ H]%public_frame_type. unfold plain. by rewrite H. Qed.

Section Frames.
Context {floats : PyFloats} {sdk : ClaudeSdk}.

Abbreviation quiet m := (yields plain m).

Lemma quiet_ui rest ty :
  Py.in_strs (Py.strip ty) ["start"; "finish"; "data-interaction"] = false -> quiet (ui_frame (("type", VStr ty) :: rest)).
Proof.
  intros H. apply yields_read. intros f Hf. apply yields_yield. constructor; [|constructor].
  eapply plain_public; [exact Hf|by apply plain_typed].
Qed.

Ltac quiet_step :=
  lazymatch goal with
  | |- quiet (if ?c then _ else _) => destruct c
  | |- quiet (match ?x with _ => _ end) => destruct x
  | |- quiet (call_gen ?r ≫= _) => apply yields_read; intros ? ?
  | |- quiet (stream ≫= _) => apply yields_bind; [apply yields_bind; [apply yields_self|intros; apply yields_ret]|intros ?]
  | |- quiet (_ ≫= _) => apply yields_bind; [|intros ?]
  | |- quiet (change_stream _) => apply yields_change
  | |- quiet (children _) => apply yields_part
  | |- quiet (fail _) => apply yields_call
  | |- quiet (ui_frame _) => apply quiet_ui; reflexivity
  | |- quiet (yield _) => apply yields_yield
  | |- quiet (let _ := _ in _) => cbv zeta
  | |- quiet (each_gen _ _) => apply yields_each; intros ?
  | |- quiet _ => first [apply yields_ret | apply yields_call]
  | |- Forall plain (match ?x with _ => _ end) => destruct x
  | |- Forall plain [] => constructor
  | |- Forall plain (_ ++ _)%list => apply Forall_app; split
  | |- Forall plain (_ :: _) => constructor
  | |- plain _ => apply plain_typed; reflexivity
  end.
Ltac quiet := repeat quiet_step.

Lemma discard_quiet : quiet discard_partial_content.
Proof. unfold discard_partial_content. quiet. Qed.
Lemma settle_quiet : quiet settle_retry.
Proof. unfold settle_retry. quiet. Qed.
Lemma block_quiet seq live index block : quiet (translate_block seq live index block).
Proof. unfold translate_block, optional_delta. quiet. Qed.
Lemma blocks_quiet message seq : quiet (translate_claude_assistant_blocks message seq).
Proof. unfold translate_claude_assistant_blocks. quiet; apply block_quiet. Qed.

Lemma changes_plain id name changes f : FileChanges.file_changes_frame id name changes = Ok f -> plain f.
Proof. unfold FileChanges.file_changes_frame. destruct (_ || _); [done|]. by intros [= <-]. Qed.

Lemma claude_changes_plain id result f : FileChanges.claude_file_changes id result = Ok (Some f) -> plain f.
Proof.
  unfold FileChanges.claude_file_changes. intros (w & _ & H)%bind_ok. cbv zeta in H. destruct (_ && _); [done|].
  apply bind_ok in H as (path & _ & H). apply bind_ok in H as (diff & _ & H). apply bind_ok in H as (change & _ & H).
  apply bind_ok in H as (frame & Hf & H). injection H as <-. by eapply changes_plain.
Qed.

Lemma tool_result_quiet message block : quiet (translate_tool_result message block).
Proof.
  unfold translate_tool_result. quiet. match goal with H : FileChanges.claude_file_changes _ _ = Ok (Some _) |- _ => by eapply claude_changes_plain in H end.
Qed.

Lemma results_quiet message emitted blocks : quiet (translate_results message emitted blocks).
Proof. revert emitted. induction blocks as [|b l IH]; intros emitted; cbn [translate_results]; quiet; try apply tool_result_quiet; apply IH. Qed.

Lemma user_quiet message : quiet (translate_claude_user_message message).
Proof. unfold translate_claude_user_message. quiet; apply results_quiet. Qed.

Lemma lane_end_plain l : Forall plain (lane_end l).
Proof. unfold lane_end. quiet. Qed.

Lemma open_quiet message uuid index block : quiet (open_block message uuid index block).
Proof. unfold open_block. quiet; apply lane_end_plain. Qed.

Lemma delta_quiet uuid index delta : quiet (take_delta uuid index delta).
Proof. unfold take_delta, delta_frames. quiet; apply open_quiet. Qed.

Lemma close_quiet index : quiet (close_block index).
Proof. unfold close_block. quiet; apply lane_end_plain. Qed.

Lemma session_scoped_plain f : plain f -> plain (session_scoped_engine_frame f).
Proof. unfold plain, part_type, session_scoped_engine_frame. by rewrite !get_set_ne. Qed.

Lemma stream_event_quiet message : quiet (translate_claude_stream_event message).
Proof.
  unfold translate_claude_stream_event. quiet;
    first [apply open_quiet|apply delta_quiet|apply close_quiet|apply discard_quiet|apply settle_quiet|apply session_scoped_plain; quiet].
Qed.

Lemma set_plain k v f : k <> "type" -> plain f -> plain (Py.set k v f).
Proof. unfold plain, part_type. intros Hk. by rewrite get_set_ne. Qed.

Lemma set_word_plain k w f : k <> "type" -> plain f -> plain (set_word k w f).
Proof. intros Hk Hf. unfold set_word. destruct (Py.is_empty w); [done|by apply set_plain]. Qed.

Lemma keep_plain message keys f : "type" ∉ keys -> plain f -> plain (fold_left (keep_value message) keys f).
Proof.
  revert f. induction keys as [|k keys IH]; intros f Hk Hf; [done|]. apply not_elem_of_cons in Hk as [Hk Hks]. cbn [fold_left].
  apply IH; [done|]. unfold keep_value. by destruct (Py.get k message); try apply set_plain.
Qed.

Lemma result_plain message f : result_frame message = Ok f -> plain f.
Proof.
  unfold result_frame. match goal with |- (if _ then Ok ?x else _) = _ -> _ => set (f4 := x) end.
  assert (H4 : plain f4).
  { unfold f4. apply keep_plain; [apply (bool_decide_unpack _); by vm_compute|].
    assert (H0 : plain [("type", VStr "result"); ("finishReason", VStr (if result_succeeded message then "stop" else "error"))])
      by by apply plain_typed.
    destruct (Py.get "usage" message), (Py.is_dict _); repeat (apply set_plain; [done|]); by apply set_word_plain. }
  destruct (result_succeeded message); [by intros [= <-]|]. intros (e & _ & H)%bind_ok. injection H as <-. by apply set_plain.
Qed.

Lemma result_quiet message seq : quiet (translate_result message seq).
Proof. unfold translate_result. quiet; first [apply settle_quiet|by eapply result_plain]. Qed.

Lemma assistant_quiet message seq : quiet (translate_assistant message seq).
Proof. unfold translate_assistant. quiet; first [apply discard_quiet|apply settle_quiet|apply blocks_quiet]. Qed.

Lemma system_quiet message : quiet (translate_system message).
Proof. unfold translate_system. quiet; apply discard_quiet. Qed.

Lemma root_quiet ty message seq : quiet (translate_root ty message seq).
Proof.
  unfold translate_root. quiet;
    first [apply assistant_quiet|apply user_quiet|apply system_quiet|apply stream_event_quiet|apply result_quiet].
Qed.

Lemma lifecycle_plain message : returns (fun o => forall f, o = Some f -> plain f) (translate_claude_subagent_lifecycle message).
Proof.
  unfold translate_claude_subagent_lifecycle. destruct (Py.is_empty _); [by apply returns_ret|]. apply returns_bind. intros i.
  cbv zeta. destruct (Py.is_empty _); [by apply returns_ret|]. do 3 (apply returns_bind; intros ?). apply returns_ret. by intros f [= <-].
Qed.

Lemma child_message_plain message : returns (fun o => forall f, o = Some f -> plain f) (translate_claude_subagent_message message).
Proof.
  unfold translate_claude_subagent_message. destruct (Py.is_empty _); [by apply returns_ret|]. cbv zeta.
  destruct (_ || _); [by apply returns_ret|]. do 3 (apply returns_bind; intros ?). apply returns_ret. by intros f [= <-].
Qed.

Lemma child_quiet m k :
  returns (fun o => forall f, o = Some f -> plain f) m -> quiet k ->
  quiet (children m ≫= fun o => match o with Some f => yield [f] | None => k end).
Proof.
  intros Hm Hk t. unfold mbind, gen_bind, children, on_part. specialize (Hm (tr_children t)).
  destruct (m (tr_children t)) as [[[f|]|e] i]; [|by specialize (Hk (put_children i t)); destruct (k _)|constructor].
  cbn. constructor; [by eapply Hm|constructor].
Qed.

(** No frame of Claude's opens or closes a message or asks a person. *)
Lemma message_quiet message seq : quiet (translate_claude_sdk_message message seq).
Proof.
  unfold translate_claude_sdk_message. cbv zeta. destruct (_ =s _); [destruct (Py.get "data" message); quiet|].
  destruct (negb _); [quiet|]. apply yields_bind; [apply yields_part|]. intros _. destruct (_ =s _); [quiet|].
  apply child_quiet; [apply lifecycle_plain|]. destruct (negb _); [|apply root_quiet]. apply child_quiet; [apply child_message_plain|quiet].
Qed.

(** ** The client keeps the contract *)

Abbreviation events := (list RuntimeEvent).
Abbreviation tract A := (act translation A).

(** Where the open response stands, and that every other has ended. *)
Record keeps_track (t : translation) (s : phases) : Prop := {
  kt_open : forall r, tl_response_id t = Some r -> s !! r = Some (if tl_closed_for_interaction t then Paused else Talking false);
  kt_tail : forall r, tl_interrupted_response_id t = Some r -> s !! r = Some Cut;
  kt_over : forall r p, s !! r = Some p -> tl_response_id t = Some r \/ past p
}.

Definition fresh (s : phases) (es : list RuntimeEvent) : Prop :=
  NoDup (openings es) /\ forall r, r ∈ openings es -> s !! r = None.

(** Events that the contract allows from one state to another; only openings add a response. *)
Record allowed (s : phases) (es : list RuntimeEvent) (s' : phases) : Prop := {
  al_steps : event_steps s es = Some s';
  al_new : forall r, s !! r = None -> r ∉ openings es -> s' !! r = None
}.

Definition follows (m : tract events) : Prop :=
  forall t es t' s, m t = (Ok es, t') -> keeps_track t s -> fresh s es -> exists s', allowed s es s' /\ keeps_track t' s'.

Lemma openings_app es es' : openings (es ++ es') = (openings es ++ openings es')%list.
Proof. apply omap_app. Qed.

Lemma fresh_app s es es' : fresh s (es ++ es') -> fresh s es.
Proof.
  unfold fresh. rewrite openings_app. intros [(Hn & _)%NoDup_app H]. split; [done|]. intros r Hr. apply H. apply elem_of_app. by left.
Qed.

Lemma fresh_later s es s' es' : fresh s (es ++ es') -> allowed s es s' -> fresh s' es'.
Proof.
  unfold fresh. rewrite openings_app. intros [(_ & Hd & Hn)%NoDup_app H] [_ Ha]. split; [done|]. intros r Hr. apply Ha.
  - apply H. apply elem_of_app. by right.
  - intros Hr'. by apply (Hd r Hr').
Qed.

Lemma allowed_app s es s' es' s'' : allowed s es s' -> allowed s' es' s'' -> allowed s (es ++ es') s''.
Proof.
  intros [H1 N1] [H2 N2]. split; [by rewrite event_steps_app, H1|]. intros r Hr Hni. rewrite openings_app, not_elem_of_app in Hni.
  destruct Hni as [Hn1 Hn2]. apply N2; [by apply N1|done].
Qed.

Lemma allowed_nil s : allowed s [] s.
Proof. by split. Qed.

Lemma follows_ret_nil : follows (mret []).
Proof. intros t es t' s [= <- <-] Hk _. exists s. split; [apply allowed_nil|done]. Qed.

(** Events beside every response. *)
Definition beside (e : RuntimeEvent) : Prop := (forall s, event_step s e = Some s) /\ opening e = None.

Lemma beside_allowed s es : Forall beside es -> allowed s es s.
Proof.
  induction 1 as [|e es [He Ho] _ [IH1 IH2]]; [apply allowed_nil|]. split; [cbn; by rewrite He|].
  intros r Hr. unfold openings. cbn [omap list_omap]. rewrite Ho. by apply IH2.
Qed.

Lemma follows_seq (m m' : tract events) :
  follows m -> follows m' -> follows (es ← m; es' ← m'; mret (es ++ es')%list).
Proof.
  intros Hm Hm' t es t' s H Hk Hf. apply act_bind_ok in H as (e1 & t1 & H1 & H). apply act_bind_ok in H as (e2 & t2 & H2 & H).
  injection H as <- <-. destruct (Hm _ _ _ _ H1 Hk (fresh_app _ _ _ Hf)) as (s1 & A1 & K1).
  destruct (Hm' _ _ _ _ H2 K1 (fresh_later _ _ _ _ Hf A1)) as (s2 & A2 & K2). exists s2. split; [by eapply allowed_app|done].
Qed.

(** *** Parts of the open response *)

Lemma part_type_public part f : public_ui_frame part = Ok f ->
  part_type f = part_type part /\ Py.has "messageMetadata" f = Py.has "messageMetadata" part /\ asks f = asks part.
Proof.
  intros H. destruct (public_frame_type _ _ H) as [_ Ht]. destruct (public_frame_ok _ _ H) as [_ Hk]. split; [done|].
  unfold Py.has, asks, Py.get. by rewrite !Hk.
Qed.

Lemma part_step_public p part f : public_ui_frame part = Ok f -> part_step p f = part_step p part.
Proof. intros H. destruct (part_type_public _ _ H) as (E & E' & E''). unfold part_step. by rewrite E, E', E''. Qed.

Fixpoint part_steps (p : phase) (parts : list dict) : option phase :=
  match parts with
  | [] => Some p
  | f :: rest => match part_step p f with Some p' => part_steps p' rest | None => None end
  end.

Definition begins (f : dict) : bool := (part_type f =s "start") && Py.has "messageMetadata" f.

(** The parts of a response that is known. *)
Lemma outputs_allowed r parts t es t' s p p' :
  outputs (Some r) parts t = (Ok es, t') -> s !! r = Some p -> part_steps p parts = Some p' ->
  allowed s es (<[r := p']> s) /\ t' = t.
Proof.
  unfold outputs, call. intros [= H <-] Hr Hp. split; [|done]. revert es s p H Hr Hp.
  induction parts as [|f parts IH]; intros es s p H Hr Hp; cbn in H, Hp.
  { injection H as <-. injection Hp as ->. rewrite insert_id by done. apply allowed_nil. }
  destruct (part_step p f) as [p1|] eqn:E1; [|done]. apply bind_ok in H as (e & He & H). apply bind_ok in H as (es' & Hes & H).
  injection H as <-. unfold response_output in He. apply bind_ok in He as (f' & Hf & He). injection He as <-.
  destruct (IH es' (<[r := p1]> s) p1 Hes) as [I1 I2]; [by rewrite lookup_insert_eq|done|]. rewrite insert_insert_eq in I1, I2.
  split.
  - cbn [event_steps event_step]. rewrite Hr, (part_step_public _ _ _ Hf), E1, (public_named _ _ Hf). done.
  - intros r' Hr' Hni. apply I2; [rewrite lookup_insert_ne; [done|]; congruence|]. intros Hin. apply Hni.
    unfold openings. cbn [omap list_omap]. destruct (opening _); [by right|done].
Qed.

Lemma allowed_one s e s' : event_step s e = Some s' -> (forall r, s !! r = None -> opening e <> Some r -> s' !! r = None) -> allowed s [e] s'.
Proof.
  intros H Hn. split; [cbn; by rewrite H|]. intros r Hr Hni. apply Hn; [done|]. intros E. apply Hni. unfold openings.
  cbn [omap list_omap]. rewrite E. left.
Qed.

Lemma allowed_stay s e : event_step s e = Some s -> allowed s [e] s.
Proof. intros H. by apply allowed_one. Qed.

Lemma allowed_cons s e s1 es s2 : allowed s [e] s1 -> allowed s1 es s2 -> allowed s (e :: es) s2.
Proof. apply (allowed_app s [e]). Qed.

Lemma track_open t s r t' p :
  keeps_track t s -> tl_response_id t = Some r -> tl_response_id t' = Some r ->
  tl_interrupted_response_id t' = tl_interrupted_response_id t -> p = (if tl_closed_for_interaction t' then Paused else Talking false) ->
  keeps_track t' (<[r := p]> s).
Proof.
  intros [Ko Kt Kv] Er Er' Ei ->. split.
  - intros r0 E. rewrite Er' in E. injection E as <-. apply lookup_insert_eq.
  - intros r0 E. rewrite Ei in E. rewrite lookup_insert_ne; [by apply Kt|]. intros <-. specialize (Ko r Er). rewrite (Kt _ E) in Ko.
    by destruct (tl_closed_for_interaction t).
  - intros r0 p0 [[<- <-]|[Hne H]]%lookup_insert_Some; [by left|]. destruct (Kv r0 p0 H) as [E|E]; [congruence|by right].
Qed.

Lemma ended_past outcome reason : past (ended outcome reason).
Proof. unfold ended, past. case_match; auto. Qed.

Lemma track_over t s r t' p :
  keeps_track t s -> tl_response_id t = Some r -> tl_response_id t' = None -> past p ->
  tl_interrupted_response_id t' = tl_interrupted_response_id t -> keeps_track t' (<[r := p]> s).
Proof.
  intros [Ko Kt Kv] Er Er' Hp Ei. split; rewrite ?Er'; [done| |].
  - intros r0 E. rewrite Ei in E. rewrite lookup_insert_ne; [by apply Kt|]. intros <-. specialize (Ko r Er). rewrite (Kt _ E) in Ko.
    by destruct (tl_closed_for_interaction t).
  - intros r0 p0 [[<- <-]|[Hne H]]%lookup_insert_Some; [by right|]. destruct (Kv r0 p0 H) as [E|E]; [congruence|by right].
Qed.

Lemma track_same t s t' :
  keeps_track t s -> tl_response_id t' = tl_response_id t -> tl_interrupted_response_id t' = tl_interrupted_response_id t ->
  tl_closed_for_interaction t' = tl_closed_for_interaction t -> keeps_track t' s.
Proof. intros [Ko Kt Kv] E1 E2 E3. by split; rewrite ?E1, ?E2, ?E3. Qed.

(** Reopening leaves a response whose message is open. *)
Lemma reopen_follows t es t' s :
  reopen t = (Ok es, t') -> keeps_track t s ->
  exists s', allowed s es s' /\ keeps_track t' s' /\ tl_response_id t' = tl_response_id t /\
    tl_interrupted_response_id t' = tl_interrupted_response_id t /\
    (forall r, tl_response_id t = Some r -> s' !! r = Some (Talking false) /\ tl_closed_for_interaction t' = false).
Proof.
  unfold reopen. intros H Hk. apply act_bind_ok in H as (t0 & t1 & [= <- <-] & H).
  destruct (tl_closed_for_interaction t) eqn:Ec, (tl_response_id t) as [r|] eqn:Er.
  2-4: injection H as <- <-; exists s; split_and!; [apply allowed_nil|done..|]; intros r' E; rewrite ?Er in E; try done;
    injection E as <-; pose proof (kt_open _ _ Hk r Er) as Ho; by rewrite Ec in Ho.
  apply act_bind_ok in H as (u & t1 & [= <- <-] & H). apply act_bind_ok in H as (o & t2 & Ho & H). injection H as <- <-.
  pose proof (kt_open _ _ Hk r Er) as Hp. rewrite Ec in Hp.
  destruct (outputs_allowed r _ _ _ _ s Paused (Talking false) Ho Hp eq_refl) as [A ->].
  exists (<[r := Talking false]> s). split_and!; [|by eapply track_open|done|done|].
  - eapply allowed_cons; [by apply allowed_stay|done].
  - intros r' [= <-]. split; [apply lookup_insert_eq|done].
Qed.

Lemma end_follows outcome reason usage error parts t es t' s :
  part_steps (Talking false) parts = Some Closing ->
  end_response outcome reason usage error parts t = (Ok es, t') -> keeps_track t s ->
  exists s', allowed s es s' /\ keeps_track t' s' /\ forall r, tl_response_id t = Some r -> s' !! r = Some (ended outcome reason).
Proof.
  unfold end_response. intros Hp H Hk. apply act_bind_ok in H as (t0 & t1 & [= <- <-] & H).
  destruct (tl_response_id t) as [r|] eqn:Er; [|done].
  apply act_bind_ok in H as (e1 & t1 & H1 & H). destruct (reopen_follows _ _ _ _ H1 Hk) as (s1 & A1 & K1 & R1 & I1 & P1).
  destruct (P1 r Er) as [Pr _]. apply act_bind_ok in H as (o & t2 & Ho & H).
  destruct (outputs_allowed r _ _ _ _ s1 _ _ Ho Pr Hp) as [A2 ->]. apply act_bind_ok in H as (u & t3 & [= <- <-] & H).
  injection H as <- <-. exists (<[r := ended outcome reason]> s1). split_and!.
  - eapply allowed_app; [exact A1|]. eapply allowed_app; [exact A2|]. apply allowed_one.
    + cbn. rewrite lookup_insert_eq. by rewrite insert_insert_eq.
    + intros r0 Hr0 _. destruct (decide (r0 = r)) as [->|Hne]; [by rewrite lookup_insert_eq in Hr0|].
      rewrite lookup_insert_ne in Hr0 |- * by done. done.
  - eapply track_over; [exact K1|by rewrite R1|done|apply ended_past|done].
  - intros r' [= <-]. apply lookup_insert_eq.
Qed.

Lemma start_output r origin ids b e :
  response_output (Some r) (start_part r origin ids) b = Ok e ->
  opening e = Some r /\ forall s, s !! r = Some Begun -> event_step s e = Some (<[r := Talking false]> s).
Proof. destruct b; intros [= <-]; (split; [done|]); intros s Hr; cbn; by rewrite Hr. Qed.

Lemma opened_allowed s r origin ids e :
  s !! r = None -> opening e = Some r -> (forall s, s !! r = Some Begun -> event_step s e = Some (<[r := Talking false]> s)) ->
  allowed s [ResponseStarted None r origin ids; e] (<[r := Talking false]> s).
Proof.
  intros Hr Ho He. split.
  - cbn [event_steps event_step]. rewrite Hr. rewrite He by (by rewrite lookup_insert_eq). by rewrite insert_insert_eq.
  - intros r0 Hr0 Hni. rewrite lookup_insert_ne; [done|]. intros <-. apply Hni. unfold openings. cbn. rewrite Ho. left.
Qed.

Lemma start_follows r origin ids target b : follows (start r origin ids target b).
Proof.
  intros t es t' s H Hk Hf. unfold start in H. apply act_bind_ok in H as (u & t0 & H0 & H). apply refuse_call_ok in H0 as [_ ->].
  apply act_bind_ok in H as (t1 & t2 & [= <- <-] & H). destruct (tl_response_id t) as [open|] eqn:Er.
  - destruct ids as [|i ids]; [injection H as <- <-; exists s; split; [apply allowed_nil|done]|].
    apply act_bind_ok in H as (u' & t1 & [= <- <-] & H). apply act_bind_ok in H as (o & t2 & Ho & H). injection H as <- <-.
    pose proof (kt_open _ _ Hk open Er) as Hp. set (p := if tl_closed_for_interaction t then Paused else Talking false) in *.
    assert (Hstep : part_steps p [[("type", VStr "message-metadata"); ("messageMetadata", VDict [("input_ids", VList (map VStr (distinct (tl_input_ids t ++ i :: ids))))])]] = Some p)
      by (unfold p; by destruct (tl_closed_for_interaction t)).
    destruct (outputs_allowed open _ _ _ _ s p p Ho Hp Hstep) as [A ->]. rewrite insert_id in A by done. exists s. split.
    + eapply allowed_cons; [apply allowed_stay|exact A]. cbn. rewrite Hp. unfold p. by destruct (tl_closed_for_interaction t).
    + by eapply track_same.
  - apply act_bind_ok in H as (u' & t1 & [= <- <-] & H). apply act_bind_ok in H as (e & t2 & He & H). injection He as He <-.
    injection H as <- <-. destruct (start_output _ _ _ _ _ He) as [Ho Hs]. exists (<[r := Talking false]> s).
    assert (Hr : s !! r = None). { apply Hf. unfold openings. cbn. rewrite Ho. left. }
    split; [by apply opened_allowed|]. destruct Hk as [Ko Kt Kv]. split; cbn.
    + intros r0 [= <-]. apply lookup_insert_eq.
    + done.
    + intros r0 p0 [[<- <-]|[Hne H]]%lookup_insert_Some; [by left|]. destruct (Kv r0 p0 H) as [E|E]; [congruence|by right].
Qed.

(** A part that opens and closes nothing leaves an open message as it is, and one that was
    interrupted; a receipt also leaves one that waits for a person. *)
Definition joins (p : phase) : Prop := (exists b, p = Talking b) \/ p = Cut.

Lemma plain_step p f : plain f -> joins p \/ (p = Paused /\ Py.in_strs (part_type f) receipts = true) -> part_step p f = Some p.
Proof.
  unfold plain, part_step. cbn [Py.in_strs existsb]. intros H Hp. apply orb_false_iff in H as [-> H]. apply orb_false_iff in H as [-> H].
  apply orb_false_iff in H as [-> _]. destruct Hp as [[[b ->] | ->] | [-> Hr]]; [done..|]. by rewrite Hr.
Qed.

Lemma plain_steps p parts : Forall plain parts -> joins p -> part_steps p parts = Some p.
Proof. intros H Hp. induction H as [|f parts Hf _ IH]; [done|]. cbn. rewrite plain_step by auto. done. Qed.

Lemma part_steps_app p parts parts' :
  part_steps p (parts ++ parts') = match part_steps p parts with Some p' => part_steps p' parts' | None => None end.
Proof. revert p. induction parts as [|f parts IH]; intros p; [done|]. cbn. destruct (part_step p f); [apply IH|done]. Qed.

Lemma finish_step reason : part_step (Talking false) (finish reason) = Some Closing.
Proof. done. Qed.

Lemma talking_plain parts : Forall plain parts -> part_steps (Talking false) parts = Some (Talking false).
Proof. intros H. apply plain_steps; [done|left; eauto]. Qed.

Lemma closed_parts parts reason : Forall plain parts -> part_steps (Talking false) (parts ++ [finish reason]) = Some Closing.
Proof. intros H. by rewrite part_steps_app, talking_plain. Qed.

Lemma output_follows part tail t es t' s :
  plain part -> (forall r, tail = Some r -> tl_interrupted_response_id t = Some r) ->
  output part tail t = (Ok es, t') -> keeps_track t s -> exists s', allowed s es s' /\ keeps_track t' s'.
Proof.
  intros Hp Ht H Hk. unfold output in H. apply act_bind_ok in H as (e1 & t1 & H1 & H).
  destruct (reopen_follows _ _ _ _ H1 Hk) as (s1 & A1 & K1 & R1 & I1 & P1).
  apply act_bind_ok in H as (t2 & t3 & [= <- <-] & H). apply act_bind_ok in H as (o & t2 & Ho & H). injection H as <- <-.
  exists s1. assert (Hin : forall r p, s1 !! r = Some p -> joins p ->
    outputs (Some r) [part] t1 = (Ok o, t2) -> allowed s1 o s1 /\ t2 = t1).
  { intros r p Hr Hph Hout. rewrite <-(insert_id s1 r p Hr) at 2. eapply outputs_allowed; [done..|]. apply plain_steps; [by repeat constructor|done]. }
  destruct (tl_response_id t1) as [r|] eqn:Er.
  - destruct (P1 r) as [Pr _]; [congruence|]. destruct (Hin r _ Pr ltac:(left; eauto) Ho) as [A ->]. split; [by eapply allowed_app|done].
  - destruct tail as [r|].
    + specialize (Ht r eq_refl). destruct (Hin r Cut (kt_tail _ _ K1 r ltac:(congruence)) ltac:(by right) Ho) as [A ->]. split; [by eapply allowed_app|done].
    + unfold outputs, call in Ho. injection Ho as Ho <-. cbn in Ho. apply bind_ok in Ho as (e & He & Ho). injection Ho as <-.
      unfold response_output in He. apply bind_ok in He as (f & _ & He). injection He as <-.
      split; [|done]. eapply allowed_app; [exact A1|]. by apply allowed_stay.
Qed.

Lemma text_plain block text : Forall plain (text_parts block text).
Proof. by repeat constructor. Qed.

(** A run that does nothing but give events beside every response. *)
Lemma follows_beside es : Forall beside es -> follows (mret es).
Proof. intros H t es' t' s [= <- <-] Hk _. exists s. split; [by apply beside_allowed|done]. Qed.

Lemma greeting_follows id text : follows (greeting id text).
Proof.
  intros t es t' s H Hk Hf. unfold greeting in H. apply act_bind_ok in H as (t0 & t1 & [= <- <-] & H).
  destruct (tl_response_id t) as [r|] eqn:Er.
  - apply act_bind_ok in H as (e1 & t1 & H1 & H). destruct (reopen_follows _ _ _ _ H1 Hk) as (s1 & A1 & K1 & R1 & I1 & P1).
    apply act_bind_ok in H as (o & t2 & Ho & H). injection H as <- <-. destruct (P1 r Er) as [Pr _].
    destruct (outputs_allowed r _ _ _ _ s1 _ _ Ho Pr (talking_plain _ (text_plain _ _))) as [A ->].
    rewrite insert_id in A by done. exists s1. split; [by eapply allowed_app|done].
  - apply act_bind_ok in H as (e1 & t1 & H1 & H). apply act_bind_ok in H as (e2 & t2 & H2 & H). injection H as <- <-.
    destruct (start_follows _ _ _ _ _ _ _ _ _ H1 Hk (fresh_app _ _ _ Hf)) as (s1 & A1 & K1).
    destruct (end_follows _ _ _ _ _ _ _ _ s1 (closed_parts _ _ (text_plain _ _)) H2 K1) as (s2 & A2 & K2 & _).
    exists s2. split; [by eapply allowed_app|done].
Qed.

Lemma observed_beside ids : Forall beside (map (InputMessageObserved None) ids).
Proof. induction ids; constructor; done. Qed.

Lemma openings_started c r origin ids es : openings (ResponseStarted c r origin ids :: es) = openings es.
Proof. done. Qed.

Lemma outputs_opening r part parts t es t' :
  begins part = true -> outputs (Some r) (part :: parts) t = (Ok es, t') -> r ∈ openings es.
Proof.
  unfold outputs, call. intros Hb [= H _]. apply bind_ok in H as (e & He & H). apply bind_ok in H as (o & _ & H). injection H as <-.
  unfold response_output in He. apply bind_ok in He as (f & Hf & He). injection He as <-. unfold openings. cbn [omap list_omap opening].
  unfold begins in Hb. destruct (part_type_public _ _ Hf) as (-> & -> & _). rewrite Hb. left.
Qed.

Lemma native_follows parts message frame : Forall plain parts -> follows (native_output parts message frame true).
Proof.
  intros Hp t es t' s H Hk Hf. unfold native_output in H. apply act_bind_ok in H as (t0 & t1 & [= <- <-] & H).
  match type of H with context [match _ with Some _ => _ | None => ?k end] => assert (Hb : k t = (Ok es, t')) by by destruct (tl_response_id t) end.
  clear H. apply act_bind_ok in Hb as (native & t1 & [= Hn <-] & H). apply act_bind_ok in H as (ids & t1 & [= Hi <-] & H). cbv zeta in H.
  set (r := ("claude-native:" ++ Py.str native)%string) in *. set (failed := Py.is_true _) in *.
  apply act_bind_ok in H as (o & t1 & Ho & H). injection H as <- <-.
  set (origin := match ids with [] => "engine" | _ => "input" end) in *.
  assert (Hopen : r ∈ openings o) by (by eapply outputs_opening; [|exact Ho]). assert (Hr : s !! r = None).
  { apply Hf. rewrite openings_app. apply elem_of_app. right. cbn [app]. rewrite openings_started, openings_app. apply elem_of_app. by left. }
  destruct (outputs_allowed r _ _ _ _ (<[r := Begun]> s) Begun Closing Ho (lookup_insert_eq _ _ _)) as [A ->].
  { cbn [part_steps]. change (part_step Begun _) with (Some (Talking false)). by apply closed_parts. }
  assert (Hover : forall reason, ended (if failed then "failed" else "completed") reason = Over) by (intros; by destruct failed).
  rewrite insert_insert_eq in A. exists (<[r := Over]> s). split.
  - eapply allowed_app; [apply beside_allowed, observed_beside|]. split.
    + cbn [app event_steps event_step]. rewrite Hr. rewrite event_steps_app, (al_steps _ _ _ A).
      cbn [event_steps event_step]. rewrite lookup_insert_eq, Hover. by rewrite insert_insert_eq.
    + intros r0 Hr0 Hni. rewrite lookup_insert_ne; [done|]. intros <-. apply Hni. cbn [app].
      rewrite openings_started, openings_app. apply elem_of_app. by left.
  - destruct Hk as [Ko Kt Kv]. split.
    + intros r0 E. rewrite lookup_insert_ne; [by apply Ko|]. intros <-. specialize (Ko _ E). congruence.
    + intros r0 E. rewrite lookup_insert_ne; [by apply Kt|]. intros <-. specialize (Kt _ E). congruence.
    + intros r0 p0 [[<- <-]|[Hne H0]]%lookup_insert_Some; [right; by left|by apply Kv].
Qed.

Lemma raw_plain subtype message : plain (raw_part subtype message).
Proof. done. Qed.

Lemma standalone_follows message frame : follows (standalone_result message frame).
Proof.
  intros t es t' s H Hk Hf. unfold standalone_result in H. cbv zeta in H. apply act_bind_ok in H as (texts & t1 & H1 & H).
  assert (E : Forall plain texts /\ t1 = t).
  { match type of H1 with (match ?v with _ => _ end) t = _ => destruct v end; try (by injection H1 as <- <-; split; [constructor|]).
    destruct (Py.is_empty s0); [by injection H1 as <- <-; split; [constructor|]|].
    apply act_bind_ok in H1 as (u & t2 & [= Hu <-] & [= <- <-]). split; [apply text_plain|done]. }
  destruct E as [Hp ->]. eapply (native_follows _ _ _ _ t es t' s); [exact H|done..].
  Unshelve. apply Forall_app. split; [done|]. constructor; [apply raw_plain|constructor].
Qed.

(** Events of a frame, however it came to have them: the rest of a run. *)
Lemma follows_end outcome reason usage error parts :
  part_steps (Talking false) parts = Some Closing -> follows (end_response outcome reason usage error parts).
Proof. intros Hp t es t' s H Hk _. destruct (end_follows _ _ _ _ _ _ _ _ _ Hp H Hk) as (s' & A & K & _). by exists s'. Qed.

Lemma closures_beside l : Forall beside (map (fun e : string * dict => InteractionClosed None (fst e) IExpired) l).
Proof. induction l; constructor; done. Qed.

Lemma result_follows message terminal : follows (result message terminal).
Proof.
  intros t es t' s H Hk Hf. unfold result in H. apply act_bind_ok in H as (t0 & t1 & [= <- <-] & H).
  destruct (tl_response_id t) as [r|] eqn:Er.
  2: { apply act_bind_ok in H as (u & t1 & [= <- <-] & H). injection H as <- <-. exists s. split; [by apply allowed_stay|].
       destruct Hk as [Ko Kt Kv]. by split. }
  destruct (if Py.in_strs _ _ then _ else _) as [outcome reason]. cbv zeta in H. set (error := if outcome =s "failed" then _ else _) in H.
  apply act_bind_ok in H as (error_parts & t1 & [= He <-] & H).
  assert (Hp : Forall plain error_parts).
  { destruct (Py.truthy error); [|by injection He as <-]. apply bind_ok in He as (m & _ & He). apply bind_ok in He as (c & _ & He).
    injection He as <-. by repeat constructor. }
  apply act_bind_ok in H as (ended & t1 & H1 & H). injection H as <- <-.
  assert (Hs : part_steps (Talking false) ([[("type", VStr "data-result"); ("data", VDict (claude_result_data message))]] ++
    error_parts ++ [finish reason]) = Some Closing).
  { rewrite app_assoc. apply closed_parts. constructor; [done|exact Hp]. }
  destruct (end_follows _ _ _ _ _ _ _ _ s Hs H1 Hk) as (s' & A & K & _). exists s'. split; [|done].
  eapply allowed_app; [|exact A]. apply beside_allowed. destruct (Py.is_true _); [apply closures_beside|constructor].
Qed.

Lemma record_asks interaction_id response_id tool_use_id tool_name tool_input record :
  interaction_record interaction_id response_id tool_use_id tool_name tool_input = Ok record ->
  Py.get "interaction_id" record = VStr interaction_id.
Proof.
  unfold interaction_record. intros (u & _ & H)%bind_ok. injection H as <-.
  by destruct (Py.is_empty tool_use_id).
Qed.

Lemma approval_plain record f : Interaction.build_tool_approval_request_frame record = Some f -> plain f.
Proof. unfold Interaction.build_tool_approval_request_frame. destruct (negb _); [done|]. destruct (Py.is_empty _); [done|]. by intros [= <-]. Qed.

Lemma asking_parts record parts :
  Forall plain parts -> Py.is_empty (Py.str_or_empty (Py.get "interaction_id" record)) = false ->
  part_steps (Talking false) (parts ++ [[("type", VStr "data-interaction"); ("data", VDict record)]; finish "tool-calls"]) = Some Paused.
Proof.
  intros Hp Hi. rewrite part_steps_app, talking_plain by done. cbn [part_steps].
  assert (E : part_step (Talking false) [("type", VStr "data-interaction"); ("data", VDict record)] = Some (Talking true)); [|by rewrite E].
  unfold part_step, asks. cbn. by rewrite Hi.
Qed.

Lemma interaction_follows frame : follows (interaction frame).
Proof.
  intros t es t' s H Hk Hf. unfold interaction in H. cbv zeta in H. set (iid := Py.clean (Py.get "interaction_id" frame)) in *.
  apply act_bind_ok in H as (started & t1 & H1 & H). apply act_bind_ok in H as (t2 & t3 & [= <- <-] & H).
  destruct (tl_response_id t1) as [r|] eqn:Er; [|done]. apply act_bind_ok in H as (u & t2 & H2 & H). apply refuse_call_ok in H2 as [Hi ->].
  apply act_bind_ok in H as (record & t2 & [= Hrec <-] & H). apply act_bind_ok in H as (u' & t2 & [= <- <-] & H).
  apply act_bind_ok in H as (reopened & t2 & H2 & H). apply act_bind_ok in H as (o & t3 & Ho & H).
  apply act_bind_ok in H as (u' & t4 & [= <- <-] & H). injection H as <- <-.
  assert (Hstart : exists s1, allowed s started s1 /\ keeps_track t1 s1).
  { destruct (Py.is_true _); [|by injection H1 as <- <-; exists s; split; [apply allowed_nil|]].
    apply act_bind_ok in H1 as (t4 & t5 & [= <- <-] & H1). apply act_bind_ok in H1 as (w & t4 & H0 & H1). apply refuse_call_ok in H0 as [_ ->].
    by apply (start_follows _ _ _ _ _ _ _ _ _ H1 Hk (fresh_app _ _ _ Hf)). }
  destruct Hstart as (s1 & A1 & K1).
  assert (K1' : keeps_track (with_interactions (put_interaction iid record (tl_interactions t1)) t1) s1) by by eapply track_same.
  destruct (reopen_follows _ _ _ _ H2 K1') as (s2 & A2 & K2 & R2 & I2 & P2). cbn in R2, I2. destruct (P2 r Er) as [Pr _].
  match type of Ho with outputs _ (?i ++ ?a ++ ?l)%list _ = _ => assert (Hp : part_steps (Talking false) (i ++ a ++ l) = Some Paused) end.
  { rewrite app_assoc. apply asking_parts.
    - apply Forall_app. split; [by destruct (Py.is_true _); repeat constructor|].
      destruct (Interaction.build_tool_approval_request_frame record) eqn:Ea; constructor; [by eapply approval_plain|constructor].
    - rewrite (record_asks _ _ _ _ _ _ Hrec). unfold Py.str_or_empty, Py.por. cbn. rewrite Hi. cbn. exact Hi. }
  destruct (outputs_allowed r _ _ _ _ s2 _ _ Ho Pr Hp) as [A3 ->]. exists (<[r := Paused]> s2). split.
  - eapply allowed_app; [exact A1|]. eapply allowed_app; [exact A2|]. eapply (allowed_app _ [_]); [apply (allowed_stay s2); cbn; by rewrite Pr|].
    eapply allowed_app; [exact A3|]. by apply allowed_stay.
  - eapply track_open; [exact K2|congruence|cbn; congruence|done|done].
Qed.

(** A receipt joins the open response whether or not a person is asked. *)
Lemma open_receipt f r t es t' s :
  plain f -> Py.in_strs (part_type f) receipts = true -> tl_response_id t = Some r -> outputs (Some r) [f] t = (Ok es, t') ->
  keeps_track t s -> allowed s es s /\ t' = t.
Proof.
  intros Hp Hr Er Ho Hk. pose proof (kt_open _ _ Hk r Er) as Hs. rewrite <-(insert_id _ _ _ Hs) at 2.
  eapply outputs_allowed; [done..|]. cbn [part_steps]. rewrite plain_step; [done..|].
  destruct (tl_closed_for_interaction t); [by right|]. left. left. eauto.
Qed.

Lemma consumed_type f g input_id rid content :
  emission_from_translated_frame f = Ok (InputConsumed g input_id rid content) -> part_type g = "data-input-consumed".
Proof.
  intros H. destruct (emission_kept _ _ H) as [[Ht _] Hc]. cbn [as_frame] in Ht. unfold part_type. rewrite Ht, clean_str.
  unfold Py.clean at 1. rewrite strip_idem. fold (Py.clean (Py.get "type" f)) in *. revert Hc. unfold category_of.
  destruct (session_scoped f); [done|]. destruct (List.find _ _) as [[k c]|] eqn:E; [|done].
  apply find_some in E as [Hin Hk%String.eqb_eq]. cbn [fst snd] in *. rewrite <-Hk.
  cbn [In PLATFORM_ENVELOPE_CATEGORIES] in Hin. repeat (destruct Hin as [[= <- <-]|Hin]; [done|]). done.
Qed.

Lemma take_up_follows message f : plain f -> follows (take_up message f).
Proof.
  intros Hp t es t' s H Hk Hf. unfold take_up in H. apply act_bind_ok in H as (e & t1 & [= He <-] & H).
  assert (Hpe : plain (as_frame e)).
  { destruct (emission_kept _ _ He) as [[Ht _] _]. unfold plain, part_type. rewrite Ht, clean_str. unfold Py.clean. rewrite strip_idem. exact Hp. }
  assert (Hout : forall tail, (forall r, tail = Some r -> tl_interrupted_response_id t = Some r) ->
    output (as_frame e) tail t = (Ok es, t') -> exists s', allowed s es s' /\ keeps_track t' s').
  { intros tail Ht Ho. by eapply output_follows. }
  assert (Hrest : (t0 ← self; output (as_frame e) (if Py.in_strs (Py.str_or_empty (Py.get "__sdk_type" message)) ["StreamEvent"; "AssistantMessage"] &&
      Py.is_none (Py.get "parent_tool_use_id" message) then tl_interrupted_response_id t0 else None)) t = (Ok es, t') ->
    exists s', allowed s es s' /\ keeps_track t' s').
  { intros Ho. apply act_bind_ok in Ho as (t1 & t2 & [= <- <-] & Ho). eapply Hout; [|exact Ho]. by destruct (_ && _). }
  destruct e as [g|g input_id rid content|g iid contract|g|g m mid|g data|g o fr us er nr pd ci|g ty st raw]; try (by apply Hrest).
  - apply act_bind_ok in H as (t1 & t2 & [= <- <-] & H). apply act_bind_ok in H as (started & t1 & H1 & H).
    apply act_bind_ok in H as (t2 & t3 & [= <- <-] & H). apply act_bind_ok in H as (data & t2 & [= Hd <-] & H).
    apply act_bind_ok in H as (data' & t2 & [= Hd' <-] & H). apply act_bind_ok in H as (o & t2 & Ho & H). injection H as <- <-.
    destruct (start_follows _ _ _ _ _ _ _ _ s H1 Hk) as (s1 & A1 & K1).
    { change (InputMessageObserved None input_id :: InputAdmitted None input_id :: started ++ o) with
        ([InputMessageObserved None input_id; InputAdmitted None input_id] ++ started ++ o)%list in Hf.
      eapply (fresh_app s started o). unfold fresh in *. by rewrite openings_app in Hf. }
    exists s1. destruct (tl_response_id t1) as [r|] eqn:Er.
    + destruct (open_receipt (Py.set "transient" (VBool (negb (bool_decide (is_Some (tl_response_id t))))) (Py.set "data" (VDict data') g))
        r t1 o t2 s1) as [A ->]; [by apply set_plain, set_plain| |done..|].
      { unfold part_type. rewrite !get_set_ne by done. change (Py.clean (Py.get "type" g)) with (part_type g). by rewrite (consumed_type _ _ _ _ _ He). }
      split; [|done]. eapply (allowed_app _ [_; _]); [by apply beside_allowed; repeat constructor|]. by eapply allowed_app.
    + exfalso. unfold start in H1. apply act_bind_ok in H1 as (u & t3 & H0 & H1). apply refuse_call_ok in H0 as [_ ->].
      apply act_bind_ok in H1 as (t3 & t4 & [= <- <-] & H1). destruct (tl_response_id t) eqn:Et.
      * apply act_bind_ok in H1 as (u' & t3 & [= <- <-] & H1). apply act_bind_ok in H1 as (x & t3 & [= _ <-] & [= _ <-]). cbn in Er. congruence.
      * apply act_bind_ok in H1 as (u' & t3 & [= <- <-] & H1). apply act_bind_ok in H1 as (x & t3 & [= _ <-] & [= _ <-]). done.
  - by eapply result_follows.
  - injection H as <- <-. exists s. split; [by apply allowed_stay|done].
Qed.

Lemma take_all_follows message frames : Forall plain frames -> follows (take_all message frames).
Proof.
  induction 1 as [|f frames Hf _ IH]; [apply follows_ret_nil|]. cbn [take_all].
  by apply follows_seq; [apply take_up_follows|].
Qed.

Lemma follows_bind {A} (m : tract A) (f : A -> tract events) :
  (forall t a t' s, m t = (Ok a, t') -> keeps_track t s -> keeps_track t' s) -> (forall a, follows (f a)) -> follows (m ≫= f).
Proof.
  intros Hm Hf t es t' s H Hk Hfr. apply act_bind_ok in H as (a & t1 & H1 & H). by eapply Hf; [exact H|eapply Hm|].
Qed.

Lemma event_frames_follows message frame : follows (event_frames message frame).
Proof.
  intros t es t' s H Hk Hf. unfold event_frames in H. apply act_bind_ok in H as (b & t1 & H1 & H).
  apply act_bind_ok in H as (seq & t2 & [= Hq <-] & H). apply act_bind_ok in H as ([frames ended] & t2 & H2 & H).
  apply act_bind_ok in H as (es' & t3 & H3 & H). apply act_bind_ok in H as (u & t4 & [= _ <-] & [= <- <-]).
  unfold generated in H2. pose proof (message_quiet message seq (tl_translator t1)) as Hq'.
  destruct (translate_claude_sdk_message message seq (tl_translator t1)) as [ys [r x]]. cbn [fst] in Hq'. injection H2 as <- <- <-.
  assert (Hb : exists s1, allowed s b s1 /\ keeps_track t1 s1).
  { destruct (Py.is_true _); [|by injection H1 as <- <-; exists s; split; [apply allowed_nil|]].
    by apply (start_follows _ _ _ _ _ _ _ _ _ H1 Hk (fresh_app _ _ _ Hf)). }
  destruct Hb as (s1 & A1 & K1). assert (K1' : keeps_track (with_translator x t1) s1) by by eapply track_same.
  destruct (take_all_follows message ys Hq' _ _ _ _ H3 K1' (fresh_later _ _ _ _ Hf A1)) as (s2 & A2 & K2).
  exists s2. split; [by eapply allowed_app|done].
Qed.

Lemma event_follows frame : follows (event frame).
Proof.
  unfold event. destruct (Py.get "message" frame) as [| | | | | |message]; try (apply follows_beside; repeat constructor; done).
  apply follows_bind.
  { intros t a t' s H Hk. unfold observe_session_key in H. destruct (Py.get "__sdk_type" message); try (by apply refuse_call_ok in H as [_ ->]).
    destruct (_ && _); injection H as _ <-; [by eapply track_same|done]. }
  intros _. apply follows_bind.
  { intros t a t' s H Hk. destruct (type_is _ _); injection H as _ <-; [|done]. destruct Hk as [Ko Kt Kv]. by split. }
  intros _. destruct (session_start_message message) as [[id text]|]; [apply greeting_follows|].
  apply follows_bind; [by intros t a t' s [= _ <-]|]. intros t0. cbv zeta.
  destruct (_ && _); [apply standalone_follows|]. destruct (_ && _ && _ && _); [|apply event_frames_follows].
  apply native_follows. by repeat constructor.
Qed.

Lemma follows_raise e : follows (call (Raise e)).
Proof. by intros t es t' s [=]. Qed.

Lemma interrupted_follows frame :
  follows (t ← self;
    match tl_response_id t, tl_interrupt_target t with
    | Some response_id, Some target =>
        if Py.eqb (Py.get "command_id" frame) (VStr target) then
          es ← end_response "cancelled" (Some "interrupted") None None [finish "other"];
          _ ← change (with_interrupted (Some response_id));
          mret es
        else mret []
    | _, _ => mret []
    end).
Proof.
  intros t es t' s H Hk Hf. apply act_bind_ok in H as (t0 & t1 & [= <- <-] & H).
  destruct (tl_response_id t) as [r|] eqn:Er; [|by eapply follows_ret_nil].
  destruct (tl_interrupt_target t) as [target|]; [|by eapply follows_ret_nil].
  destruct (Py.eqb _ _); [|by eapply follows_ret_nil]. apply act_bind_ok in H as (e1 & t1 & H1 & H).
  apply act_bind_ok in H as (u & t2 & [= <- <-] & [= <- <-]).
  assert (Hn : tl_response_id t1 = None).
  { unfold end_response in H1. apply act_bind_ok in H1 as (t2 & t3 & [= <- <-] & H1). rewrite Er in H1.
    do 3 apply act_bind_ok in H1 as (? & ? & ? & H1). injection H1 as <- <-. match goal with E : change _ _ = _ |- _ => by injection E as <- <- end. }
  destruct (end_follows _ _ _ _ [finish "other"] _ _ _ s eq_refl H1 Hk) as (s' & A & K & Ho). exists s'. split; [done|].
  destruct K as [Ko Kt Kv]. split; cbn; [done|intros r0 [= <-]; by apply Ho|done].
Qed.

Lemma translate_follows frame : follows (translate frame).
Proof.
  unfold translate. cbv zeta. destruct (Py.eqb _ _); [apply event_follows|]. destruct (Py.eqb _ _); [apply interaction_follows|].
  destruct (Py.eqb _ _).
  { destruct (Py.is_empty _); [apply follows_raise|]. destruct (Py.get "reason" frame); try apply follows_raise.
    destruct (Py.in_strs _ _); [|apply follows_raise]. apply follows_bind; [by intros t a t' s0 [= _ <-] Hk; eapply track_same|].
    intros _. apply follows_beside. by repeat constructor. }
  destruct (Py.eqb _ _).
  { destruct (Py.eqb _ _); [apply follows_beside; by repeat constructor|]. destruct (Py.eqb _ _); [apply follows_beside; by repeat constructor|].
    apply follows_raise. }
  destruct (Py.eqb _ _); [apply interrupted_follows|]. destruct (Py.eqb _ _).
  { intros t es t' s H Hk Hf. apply act_bind_ok in H as (t0 & t1 & [= <- <-] & H). apply act_bind_ok in H as (ended & t1 & H1 & [= <- <-]).
    destruct (tl_response_id t) eqn:Er.
    - assert (Hs : exists s', allowed s ended s' /\ keeps_track t1 s') by (by eapply follows_end; [|exact H1|done..]).
      destruct Hs as (s' & A & K).
      exists s'. split; [|done]. eapply allowed_cons; [by apply allowed_stay|done].
    - injection H1 as <- <-. exists s. split; [by apply allowed_stay|done]. }
  destruct (Py.eqb _ _); [apply follows_ret_nil|]. destruct (negb (Py.hashable _)); [apply follows_raise|]. destruct (_ || _); [|apply follows_beside; by repeat constructor].
  apply follows_bind; [by intros t a t' s [_ ->]%refuse_call_ok|]. intros _. destruct (Py.eqb _ _); apply follows_beside; by repeat constructor.
Qed.

(** A journal's frames in turn. *)
Fixpoint translate_journal (frames : list dict) : tract events :=
  match frames with
  | [] => mret []
  | frame :: rest => es ← translate frame; es' ← translate_journal rest; mret (es ++ es')%list
  end.

Lemma journal_follows frames : follows (translate_journal frames).
Proof. induction frames as [|f frames IH]; [apply follows_ret_nil|]. by apply follows_seq; [apply translate_follows|]. Qed.

Lemma new_track k : keeps_track (with_key k new_translation) ∅.
Proof. split; [done|done|]. intros r p. by rewrite lookup_empty. Qed.

(** C14: Claude's client keeps the runtime contract.  Whatever a journal holds, as long as no
    frame raises and the responses that begin have ids of their own: a response begins before
    its output; its message opens once, is closed by a question or for good, and opens again
    only after a question; while a person is asked nothing joins its closed message but the
    receipts of inputs, and anything else opens it again first; once it is closed for good
    nothing joins it, unless the response was interrupted, whose last parts may still arrive;
    it ends exactly when its message is closed for good; and at the end every response but
    the one the client has open has ended. *)
Theorem client_keeps_contract frames k es t :
  translate_journal frames (with_key k new_translation) = (Ok es, t) -> NoDup (openings es) ->
  exists s, event_steps ∅ es = Some s /\
    (forall r, tl_response_id t = Some r -> s !! r = Some (if tl_closed_for_interaction t then Paused else Talking false)) /\
    (forall r p, s !! r = Some p -> tl_response_id t <> Some r -> past p).
Proof.
  intros H Hn. destruct (journal_follows frames _ _ _ ∅ H (new_track k)) as (s & [A _] & [Ko _ Kv]).
  { split; [done|]. intros r _. apply lookup_empty. }
  exists s. split_and!; [done|done|]. intros r p Hp Hne. by destruct (Kv r p Hp).
Qed.
End Frames.

(** ** A run *)

#[local] Instance demo_floats : PyFloats := fun literal => literal.
#[local] Instance demo_sdk : ClaudeSdk := ["completed"; "failed"; "killed"].

Definition demo_said (n : Z) (message : dict) : dict := [("op", VStr "event"); ("seq", VInt n); ("message", VDict message)].
Definition demo_input_id : string := "018f0000-0000-7000-8000-000000000001".
Definition demo_response_id : string := "87ec1efb-f373-5c2b-be2d-cb54abc5be95".

(** A person speaks, the engine answers, asks to run a command and is allowed. *)
Definition demo_journal : list dict :=
  [demo_said 1 [("__sdk_type", VStr "UserMessage"); ("uuid", VStr demo_input_id); ("content", VStr "hi")];
   demo_said 2 [("__sdk_type", VStr "AssistantMessage"); ("message_id", VStr "m1");
                ("content", VList [VDict [("__sdk_type", VStr "TextBlock"); ("text", VStr "Hello")]])];
   [("op", VStr "interaction"); ("seq", VInt 3); ("interaction_id", VStr "x1"); ("tool_use_id", VStr "u1");
    ("tool_name", VStr "Bash"); ("tool_input", VDict [("command", VStr "ls")])];
   [("op", VStr "interaction_closed"); ("seq", VInt 4); ("interaction_id", VStr "x1"); ("reason", VStr "answered")];
   demo_said 5 [("__sdk_type", VStr "ResultMessage"); ("subtype", VStr "success"); ("result", VStr "Hello")]].
Definition demo_heard : list RuntimeEvent :=
  Eval vm_compute in match fst (translate_journal demo_journal (with_key None new_translation)) with Ok es => es | Raise _ => [] end.
Definition demo_left : translation := snd (translate_journal demo_journal (with_key None new_translation)).

Lemma demo_translated : translate_journal demo_journal (with_key None new_translation) = (Ok demo_heard, demo_left).
Proof.
  assert (E : fst (translate_journal demo_journal (with_key None new_translation)) = Ok demo_heard) by (vm_compute; reflexivity).
  unfold demo_left. rewrite <-E. by destruct (translate_journal _ _).
Qed.

Definition demo_phases : phases := Eval vm_compute in default ∅ (event_steps ∅ demo_heard).

Lemma demo_kept : event_steps ∅ demo_heard = Some demo_phases.
Proof. vm_compute. reflexivity. Qed.

Lemma client_keeps_contract_witness : exists s, event_steps ∅ demo_heard = Some s /\ s !! demo_response_id = Some Over.
Proof.
  destruct (client_keeps_contract demo_journal None demo_heard demo_left demo_translated) as (s & Hs & _ & _).
  - assert (E : openings demo_heard = [demo_response_id]) by (vm_compute; reflexivity). rewrite E. apply NoDup_singleton.
  - exists s. split; [exact Hs|]. rewrite demo_kept in Hs. injection Hs as <-. vm_compute. reflexivity.
Defined.
End ClaudeContract.
