(* ===== verification/ChannelReplies.v ===== *)
(** [channel_replies.py]: what a channel delivers of a session's output, one reply per
    message segment of a response. *)

From stdpp Require Import sorting.
From S2P Require Import Prelude Effects PyVal Schema SessionRepo SessionRecord UiMessage.

Open Scope string_scope.

Module Replies.
Import Repo Rec.

Definition OUTPUT_PAGE : nat := 500.

Record ChannelReply := MkReply {
  cr_reply_id : string;
  cr_response_id : string;
  cr_first_seq : Z;
  cr_last_seq : Z;
  cr_complete : bool;
  cr_text : string;
  cr_interaction_id : option string;
  cr_error : option string;
  cr_channel_delivery : bool
}.

Definition kind_is (kind : string) (row : output_row) : bool := Ui.type_is kind (ou_part row).

(** [str((part.get("data") or {}).get("interaction_id") or "") or None]. *)
Definition asked_of (part : dict) : res (option string) :=
  v ← Py.vget "interaction_id" (Py.por (Py.get "data" part) (VDict []));
  let id := Py.str_or_empty v in
  Ok (if Py.is_empty id then None else Some id).

Definition paragraph : string := Py.ascii_char 10 ++ Py.ascii_char 10.

Definition reply_text (parts : list dict) : string :=
  String.concat paragraph
    (omap (fun p => if Ui.type_is "text" p && Py.truthy (Py.get "text" p) then Some (Py.str (Py.get "text" p)) else None) parts).

Definition delivery_of (part : dict) : res bool :=
  match Py.por (Py.get "messageMetadata" part) (VDict []) with
  | VDict metadata =>
      match Py.lookup "channel_delivery" metadata with
      | None => Ok true
      | Some (VBool b) => Ok b
      | Some _ => Raise ValueError
      end
  | _ => Raise AttributeError
  end.

(** [segment_reply]. *)
Definition segment_reply (reply_id response_id : string) (rows : list output_row) : res ChannelReply :=
  match rows, last rows with
  | first :: _, Some newest =>
      let parts := map ou_part rows in
      folded ← Ui.fold_message reply_id parts;
      channel_delivery ← delivery_of (ou_part first);
      interaction_id ← match List.find (Ui.type_is "data-interaction") parts with Some p => asked_of p | None => Ok None end;
      let error := match List.find (Ui.type_is "error") parts with
                   | Some p => Some (Py.a_or (Py.str_or_empty (Py.get "errorText" p)) "the response failed")
                   | None => None
                   end in
      Ok (MkReply reply_id response_id (ou_seq first) (ou_seq newest) (kind_is "finish" newest) (reply_text (Ui.m_parts folded))
            interaction_id error channel_delivery)
  | _, _ => Raise ValueError
  end.

(** The loop of [reply_segments]. *)
Record walk := Walk {
  wk_replies : list ChannelReply;
  wk_segment : option (list output_row);
  wk_reply_id : string;
  wk_last_interaction : option string
}.

Definition walk_row (response_id : string) (w : walk) (row : output_row) : res walk :=
  asked ← (if kind_is "data-interaction" row then asked_of (ou_part row) else Ok (wk_last_interaction w));
  match wk_segment w with
  | None =>
      if negb (kind_is "start" row) then Ok (Walk (wk_replies w) None (wk_reply_id w) asked)
      else
        reply_id ← match wk_replies w, asked with
                   | [], _ => Ok response_id
                   | _, None => Raise ValueError
                   | _, Some i => Ok (response_id ++ "~" ++ i)
                   end;
        Ok (Walk (wk_replies w) (Some [row]) reply_id asked)
  | Some segment =>
      let segment' := (segment ++ [row])%list in
      if kind_is "finish" row
      then reply ← segment_reply (wk_reply_id w) response_id segment';
           Ok (Walk (wk_replies w ++ [reply]) None (wk_reply_id w) asked)
      else Ok (Walk (wk_replies w) (Some segment') (wk_reply_id w) asked)
  end.

Definition finish_walk (response_id : string) (w : walk) : res (list ChannelReply) :=
  match wk_segment w with
  | None => Ok (wk_replies w)
  | Some segment => reply ← segment_reply (wk_reply_id w) response_id segment; Ok (wk_replies w ++ [reply])%list
  end.

(** [reply_segments]. *)
Definition reply_segments (response_id : string) (rows : list output_row) : res (list ChannelReply) :=
  w ← foldM (walk_row response_id) (Walk [] None "" None) rows;
  finish_walk response_id w.

(** ** [ReplyReader] *)

Record reply_reader := ReplyReader {
  rr_session_id : string;
  rr_reply_id : string;
  rr_first_seq : Z;
  rr_after : Z;
  rr_response_id : option string;
  rr_rows : list output_row;
  rr_complete : bool
}.

(** [__init__]. *)
Definition new_reply_reader (session_id reply_id : string) (first_seq : Z) : reply_reader :=
  ReplyReader session_id reply_id first_seq (first_seq - 1) None [] false.

Definition with_after (z : Z) (r : reply_reader) : reply_reader :=
  ReplyReader (rr_session_id r) (rr_reply_id r) (rr_first_seq r) z (rr_response_id r) (rr_rows r) (rr_complete r).
Definition with_response (id : string) (r : reply_reader) : reply_reader :=
  ReplyReader (rr_session_id r) (rr_reply_id r) (rr_first_seq r) (rr_after r) (Some id) (rr_rows r) (rr_complete r).
Definition keep_row (row : output_row) (r : reply_reader) : reply_reader :=
  ReplyReader (rr_session_id r) (rr_reply_id r) (rr_first_seq r) (rr_after r) (rr_response_id r) (rr_rows r ++ [row])
    (rr_complete r || kind_is "finish" row).

(** One row of a page. *)
Definition take_row (row : output_row) : act reply_reader unit :=
  _ ← change (with_after (ou_seq row));
  r ← self;
  match rr_response_id r with
  | None =>
      _ ← refuse_call (negb (ou_seq row =? rr_first_seq r)%Z || negb (kind_is "start" row)) RuntimeError;
      _ ← change (with_response (default "" (ou_response_id row)));
      change (keep_row row)
  | Some response_id => if opt_is response_id (ou_response_id row) then change (keep_row row) else mret tt
  end.

(** A page's rows, up to the reply's last. *)
Fixpoint take_rows (rows : list output_row) : act reply_reader unit :=
  match rows with
  | [] => mret tt
  | row :: rest => _ ← take_row row; r ← self; if rr_complete r then mret tt else take_rows rest
  end.

(** The loop of [read]; each page is read from the store of its moment, and [false] says
    that no store was left for a page. *)
Fixpoint read_pages (stores : list db) : act reply_reader bool :=
  r ← self;
  if rr_complete r then mret true
  else match stores with
       | [] => mret false
       | d :: rest =>
           let rows := read_output (rr_session_id r) (rr_after r) OUTPUT_PAGE d in
           _ ← take_rows rows;
           if (length rows <? OUTPUT_PAGE)%nat then mret true else read_pages rest
       end.

(** [read]. *)
Definition read (stores : list db) : act reply_reader (option ChannelReply) :=
  ended ← read_pages stores;
  r ← self;
  if negb ended then mret None
  else match rr_response_id r with
       | None => call (Raise RuntimeError)
       | Some response_id => reply ← call (segment_reply (rr_reply_id r) response_id (rr_rows r)); mret (Some reply)
       end.
End Replies.
