(* ===== verification/ReplyFacts.v ===== *)
(** Replies of channels: reading one as it is recorded gives what reading it at once gives,
    and what the response's parts say. *)

From stdpp Require Import sorting.
From S2P Require Import Prelude Effects PyVal Schema SessionRepo SessionRecord UiMessage SessionReads ReaderFacts Reader Follow ResponseFolds DemoStore ChannelReplies.

Open Scope string_scope.

Module ReplyFacts.
Import Repo Rec Replies.

(** ** A reply's rows *)

(** Rows up to the first finish, and with it. *)
Fixpoint through_finish (rows : list output_row) : list output_row :=
  match rows with
  | [] => []
  | row :: rest => if kind_is "finish" row then [row] else row :: through_finish rest
  end.

Definition response_of (row : output_row) : string := default "" (ou_response_id row).
Definition in_response (rid : string) (row : output_row) : bool := opt_is rid (ou_response_id row).

(** The reply that starts with the first of these rows. *)
Definition reply_rows (rows : list output_row) : list output_row :=
  match rows with
  | [] => []
  | row :: rest => row :: through_finish (List.filter (in_response (response_of row)) rest)
  end.

Definition finished (rows : list output_row) : bool := existsb (kind_is "finish") rows.

Lemma through_finish_app rows rows' :
  through_finish (rows ++ rows') = if finished rows then through_finish rows else (rows ++ through_finish rows')%list.
Proof.
  induction rows as [|row rows IH]; [done|]. cbn. destruct (kind_is "finish" row); [done|]. cbn.
  rewrite IH. fold (finished rows). by destruct (finished rows).
Qed.

Lemma finished_through rows : finished (through_finish rows) = finished rows.
Proof. induction rows as [|row rows IH]; [done|]. cbn. destruct (kind_is "finish" row) eqn:E; cbn; rewrite E; [done|]. cbn. exact IH. Qed.

Lemma through_unfinished rows : finished rows = false -> through_finish rows = rows.
Proof. induction rows as [|row rows IH]; [done|]. cbn. destruct (kind_is "finish" row); [done|]. cbn. intros H. by rewrite IH. Qed.

(** ** A row at a time *)

(** What a reader holds after the rows from its first on. *)
Record reads (first : Z) (l : list output_row) (r : reply_reader) : Prop := {
  re_first : rr_first_seq r = first;
  re_rows : rr_rows r = reply_rows l;
  re_response : rr_response_id r = response_of <$> List.hd_error l;
  re_complete : rr_complete r = finished (reply_rows l)
}.

(** A log whose first row from [first] on starts a reply there. *)
Definition starts_at (first : Z) (l : list output_row) : Prop :=
  match l with [] => True | row :: _ => ou_seq row = first /\ kind_is "start" row = true end.

Lemma start_no_finish row : kind_is "start" row = true -> kind_is "finish" row = false.
Proof. unfold kind_is, Ui.type_is. destruct (Py.get "type" (ou_part row)); try done. cbn. intros ->%String.eqb_eq. done. Qed.

Lemma reply_rows_snoc l row :
  l <> [] -> finished (reply_rows l) = false ->
  reply_rows (l ++ [row]) = if in_response (response_of (List.hd row l)) row then (reply_rows l ++ [row])%list else reply_rows l.
Proof.
  destruct l as [|x l]; [done|]. intros _ Hf. cbn [reply_rows app List.hd] in *. cbn [finished existsb] in Hf.
  apply orb_false_iff in Hf as [_ Hf]. fold (finished (through_finish (List.filter (in_response (response_of x)) l))) in Hf.
  rewrite finished_through in Hf. rewrite List.filter_app, through_finish_app, Hf, (through_unfinished _ Hf). cbn [List.filter].
  destruct (in_response (response_of x) row); [|by rewrite app_nil_r]. cbn. by destruct (kind_is "finish" row).
Qed.

Lemma finished_app rows rows' : finished (rows ++ rows') = finished rows || finished rows'.
Proof. apply existsb_app. Qed.

Lemma take_row_reads first l row r :
  reads first l r -> rr_complete r = false -> starts_at first (l ++ [row]) ->
  exists r', take_row row r = (Ok tt, r') /\ reads first (l ++ [row]) r' /\ rr_after r' = ou_seq row /\
    rr_session_id r' = rr_session_id r /\ rr_reply_id r' = rr_reply_id r.
Proof.
  intros [H1 H2 H3 H4] Hc Hs. rewrite H4 in Hc. destruct l as [|x l].
  - cbn in Hs, H2, H3. destruct Hs as [Es Ek]. eexists. split.
    + unfold take_row, change, self, refuse_call, call, raise_if, mbind, act_bind. cbn. rewrite H3, H1, Es, Z.eqb_refl, Ek. cbn. reflexivity.
    + split_and!; [|done..]. split; cbn; rewrite ?H2, ?H3, ?H4; [done|done|done|]. by rewrite orb_false_r.
  - pose proof (reply_rows_snoc (x :: l) row ltac:(done) Hc) as E. cbn [List.hd] in E. cbn [List.hd_error fmap option_fmap option_map] in H3.
    destruct (in_response (response_of x) row) eqn:Ei.
    + eexists. split; [unfold take_row, change, self, mbind, act_bind; cbn; rewrite H3; unfold in_response in Ei; rewrite Ei; reflexivity|].
      split_and!; [|done..]. split; cbn [keep_row with_after rr_first_seq rr_rows rr_response_id rr_complete].
      * done.
      * by rewrite H2, E.
      * done.
      * rewrite H4, E, finished_app. unfold finished at 3. cbn [existsb]. by rewrite orb_false_r.
    + eexists. split; [unfold take_row, change, self, mbind, act_bind; cbn; rewrite H3; unfold in_response in Ei; rewrite Ei; reflexivity|].
      split_and!; [|done..]. split; cbn [with_after rr_first_seq rr_rows rr_response_id rr_complete]; rewrite ?E; done.
Qed.

(** A reply that is finished does not change. *)
Lemma finished_stays first l l' :
  l <> [] -> starts_at first l -> finished (reply_rows l) = true -> reply_rows (l ++ l') = reply_rows l.
Proof.
  destruct l as [|x l]; [done|]. intros _ [_ Hx] Hf. cbn [reply_rows app] in *. cbn [finished existsb] in Hf.
  rewrite (start_no_finish _ Hx) in Hf. cbn [orb] in Hf. fold (finished (through_finish (List.filter (in_response (response_of x)) l))) in Hf.
  rewrite finished_through in Hf. by rewrite List.filter_app, through_finish_app, Hf.
Qed.

(** The rows of a page, as far as the reply goes. *)
Lemma take_rows_reads first l rows r :
  reads first l r -> rr_complete r = false -> starts_at first (l ++ rows) ->
  exists r', take_rows rows r = (Ok tt, r') /\ rr_session_id r' = rr_session_id r /\ rr_reply_id r' = rr_reply_id r /\
    exists done_rows rest, rows = (done_rows ++ rest)%list /\ reads first (l ++ done_rows) r' /\
      rr_after r' = match last done_rows with Some row => ou_seq row | None => rr_after r end /\
      (rr_complete r' = false -> rest = []) /\ (rr_complete r' = true -> done_rows <> []).
Proof.
  revert l r. induction rows as [|row rows IH]; intros l r Hr Hc Hs.
  { exists r. split_and!; [done..|]. exists [], []. split_and!; [done|by rewrite app_nil_r|done|done|congruence]. }
  assert (Hs1 : starts_at first (l ++ [row])) by by destruct l.
  destruct (take_row_reads _ _ _ _ Hr Hc Hs1) as (r1 & E1 & R1 & A1 & S1 & I1). cbn [take_rows].
  unfold mbind at 1, act_bind at 1. rewrite E1. unfold self, mbind, act_bind, mret, act_ret. destruct (rr_complete r1) eqn:Ec1.
  - exists r1. split_and!; [done..|]. exists [row], rows. split_and!; [done|done|done|congruence|done].
  - destruct (IH (l ++ [row])%list r1 R1 Ec1) as (r2 & E2 & S2 & I2 & done_rows & rest & Er & R2 & A2 & C2 & N2); [by rewrite <-app_assoc|].
    exists r2. split_and!; [done|congruence|congruence|]. exists (row :: done_rows), rest. rewrite <-app_assoc in R2.
    split_and!; [by rewrite Er|done| |done|done]. rewrite A2, A1, last_cons. by destruct (last done_rows).
Qed.

(** ** A session's log *)

Definition session_log (sid : string) (d : db) : list output_row := merge_sort seq_le (select_where (output_of sid) (db_output d)).

Lemma log_rows sid d : Folds.numbered d -> StronglySorted Z.lt (map ou_seq (session_log sid d)).
Proof.
  intros [Hu _]%(fun H => H sid). unfold Reads.unique_output in Hu. unfold session_log. set (rows := select_where (output_of sid) (db_output d)) in *.
  assert (Hn : NoDup (map ou_seq (merge_sort seq_le rows))) by (by rewrite merge_sort_Permutation).
  pose proof Reads.seq_le_trans. pose proof Reads.seq_le_total. pose proof (StronglySorted_merge_sort seq_le rows) as Hs.
  revert Hn Hs. generalize (merge_sort seq_le rows). intros l Hn Hs. induction Hs as [|o l Hs IH Hall]; cbn in *; [constructor|].
  apply NoDup_cons in Hn as [Ho Hn]. constructor; [by apply IH|]. apply Forall_map. rewrite Forall_forall in Hall |- *. intros x Hx.
  specialize (Hall x Hx). unfold seq_le in Hall. assert (ou_seq o <> ou_seq x); [|lia]. intros E. apply Ho. rewrite E. by apply list_elem_of_fmap_2.
Qed.

Lemma read_output_log sid after limit d :
  Folds.numbered d -> read_output sid after limit d = take limit (List.filter (fun r => (after <? ou_seq r)%Z) (session_log sid d)).
Proof.
  intros [Hu _]%(fun H => H sid). unfold read_output, session_log. rewrite Folds.sort_of_filter by exact Hu. do 2 f_equal.
  unfold select_where. generalize (db_output d). intros l. induction l as [|o l IH]; [done|]. rewrite !filter_cons.
  destruct (output_of sid o) eqn:E; cbn [andb].
  - rewrite (decide_True (P := true = true)) by done. cbn [List.filter]. destruct (after <? ou_seq o)%Z.
    + rewrite decide_True by done. by rewrite IH.
    + by rewrite decide_False.
  - rewrite !decide_False by done. exact IH.
Qed.

Lemma log_appends sid d d' : Folds.log_grows d d' -> exists new, session_log sid d' = (session_log sid d ++ new)%list.
Proof.
  intros (Hd & Hd' & [rows E]). exists (merge_sort seq_le (select_where (output_of sid) rows)). unfold session_log, select_where.
  rewrite E, filter_app. destruct (Hd sid) as [Hu [n [Hn Hc]]]. destruct (Hd' sid) as [Hu' [n' [_ Hc']]].
  unfold Reads.unique_output, select_where in Hu, Hu'. rewrite E, filter_app, map_app in Hu'. 
  pose proof Reads.seq_le_trans. pose proof Reads.seq_le_total. apply (StronglySorted_unique_strong seq_le).
  - intros x1 x2 H1 H2 Hle Hge. rewrite merge_sort_Permutation in H1. rewrite !merge_sort_Permutation in H2.
    rewrite <-map_app in Hu'. eapply (NoDup_map_inj ou_seq); [exact Hu'|done|done|]. unfold seq_le in *. lia.
  - apply StronglySorted_merge_sort; apply _.
  - apply StronglySorted_app_2; [|apply StronglySorted_merge_sort; apply _..]. intros x1 x2 H1 H2. rewrite merge_sort_Permutation in H1, H2.
    apply list_elem_of_filter in H1 as [O1 H1], H2 as [O2 H2]. unfold output_of in O1, O2. bool_prop.
    assert (1 <= ou_seq x1 <= n)%Z by (apply Hc; eauto). assert (1 <= ou_seq x2 <= n')%Z by (apply Hc'; exists x2; rewrite E; set_solver).
    destruct (decide (ou_seq x2 <= n)%Z) as [Hle|]; [|unfold seq_le; lia]. exfalso.
    destruct (proj2 (Hc (ou_seq x2))) as (o2 & Ho2 & Hs2 & Heq); [lia|]. apply NoDup_app in Hu' as (_ & Hx & _). apply (Hx (ou_seq x2)).
    + apply list_elem_of_fmap. exists o2. split; [done|]. apply list_elem_of_filter. unfold output_of. by rewrite Hs2, String.eqb_refl.
    + apply list_elem_of_fmap. exists x2. split; [done|]. apply list_elem_of_filter. unfold output_of. by rewrite O2, String.eqb_refl.
  - by rewrite !merge_sort_Permutation.
Qed.

Definition from_seq (first : Z) (l : list output_row) : list output_row := List.filter (fun r => (first - 1 <? ou_seq r)%Z) l.
Definition upto (z : Z) (l : list output_row) : list output_row := List.filter (fun r => (ou_seq r <=? z)%Z) l.

Abbreviation increasing l := (StronglySorted Z.lt (map ou_seq l)).

Lemma increasing_app l l' : increasing (l ++ l') -> increasing l /\ increasing l' /\ forall x y, x ∈ l -> y ∈ l' -> (ou_seq x < ou_seq y)%Z.
Proof.
  rewrite map_app. intros (H & H1 & H2)%StronglySorted_app. split_and!; [done..|]. intros x y Hx Hy.
  apply H; by apply list_elem_of_fmap_2.
Qed.

Lemma rows_all (P : output_row -> bool) l : (forall x, x ∈ l -> P x = true) -> List.filter P l = l.
Proof.
  induction l as [|x l IH]; intros H; [done|]. cbn. rewrite (H x) by left. f_equal. apply IH. intros y Hy. apply H. by right.
Qed.

Lemma rows_none (P : output_row -> bool) l : (forall x, x ∈ l -> P x = false) -> List.filter P l = [].
Proof.
  induction l as [|x l IH]; intros H; [done|]. cbn. rewrite (H x) by left. apply IH. intros y Hy. apply H. by right.
Qed.

Lemma split_at z l : increasing l -> l = (upto z l ++ List.filter (fun r => (z <? ou_seq r)%Z) l)%list.
Proof.
  induction l as [|x l IH]; [done|]. cbn [map]. intros [Hs Hx]%StronglySorted_inv. unfold upto in *. cbn [List.filter].
  destruct (Z.leb_spec (ou_seq x) z) as [H|H].
  - rewrite (proj2 (Z.ltb_ge z (ou_seq x))) by lia. cbn. f_equal. by apply IH.
  - rewrite (proj2 (Z.ltb_lt z (ou_seq x))) by lia. rewrite (rows_none _ l), (rows_all (fun r => (z <? ou_seq r)%Z) l); [done|..];
      intros y Hy; rewrite Forall_forall in Hx; specialize (Hx (ou_seq y) (list_elem_of_fmap_2 _ _ _ Hy)); [apply Z.ltb_lt|apply Z.leb_gt]; lia.
Qed.

Lemma upto_app z l l' : upto z (l ++ l') = (upto z l ++ upto z l')%list.
Proof. apply List.filter_app. Qed.

(** Where a reader stands in the log of a store. *)
Record at_log (sid : string) (first : Z) (d : db) (r : reply_reader) : Prop := {
  at_session : rr_session_id r = sid;
  at_reads : reads first (upto (rr_after r) (from_seq first (session_log sid d))) r;
  at_after : rr_after r = (first - 1)%Z \/ rr_after r ∈ map ou_seq (from_seq first (session_log sid d))
}.

Lemma at_after_le sid first d r : at_log sid first d r -> (first - 1 <= rr_after r)%Z.
Proof.
  intros [_ _ [->|H]]; [lia|]. apply list_elem_of_fmap in H as (o & -> & H). apply list_elem_of_In, List.filter_In in H as [_ H].
  apply Z.ltb_lt in H. lia.
Qed.

Lemma new_at_log sid reply_id first d : at_log sid first d (new_reply_reader sid reply_id first).
Proof.
  split; [done| |by left]. cbn. unfold upto, from_seq. rewrite rows_none; [by split|].
  intros x [_ Hx]%list_elem_of_In%List.filter_In. apply Z.ltb_lt in Hx. apply Z.leb_gt. lia.
Qed.

Lemma from_increasing first l : increasing l -> increasing (from_seq first l).
Proof.
  intros Hs. rewrite (split_at (first - 1) l Hs) in Hs. apply increasing_app in Hs as (_ & Hs & _). exact Hs.
Qed.

(** The reader holds the reply as the log has it. *)
Definition caught_up (sid : string) (first : Z) (d : db) (r : reply_reader) : Prop :=
  reads first (from_seq first (session_log sid d)) r.

Lemma page_of first l after : increasing l -> (first - 1 <= after)%Z ->
  List.filter (fun r => (after <? ou_seq r)%Z) l = List.filter (fun r => (after <? ou_seq r)%Z) (from_seq first l).
Proof.
  intros _ Hle. unfold from_seq. induction l as [|x l IH]; [done|]. cbn.
  destruct (Z.ltb_spec after (ou_seq x)) as [H|H].
  - rewrite (proj2 (Z.ltb_lt (first - 1) (ou_seq x))) by lia. cbn. rewrite (proj2 (Z.ltb_lt after (ou_seq x))) by done. by rewrite IH.
  - destruct (first - 1 <? ou_seq x)%Z; [|done]. cbn. by rewrite (proj2 (Z.ltb_ge after (ou_seq x))) by done.
Qed.

Lemma complete_caught_up sid first d r :
  Folds.numbered d -> starts_at first (from_seq first (session_log sid d)) -> at_log sid first d r -> rr_complete r = true ->
  caught_up sid first d r.
Proof.
  intros Hd Hs [_ [R1 R2 R3 R4] _] Hc. unfold caught_up. set (l := from_seq first (session_log sid d)) in *.
  pose proof (split_at (rr_after r) l (from_increasing _ _ (log_rows sid d Hd))) as E. rewrite Hc in R4. symmetry in R4.
  destruct (upto (rr_after r) l) as [|x u] eqn:Eu; [done|]. rewrite E in Hs. cbn in Hs.
  assert (Er : reply_rows l = reply_rows (x :: u)). { rewrite E. by apply (finished_stays first). }
  split; [done|by rewrite Er|by rewrite R3, E|by rewrite Er, R4].
Qed.

(** ** A page *)

Lemma starts_prefix first l l' : starts_at first (l ++ l') -> starts_at first l.
Proof. by destruct l. Qed.

Lemma upto_prefix l l' y : increasing (l ++ l') -> last l = Some y -> upto (ou_seq y) (l ++ l') = l.
Proof.
  intros Hs Hl. apply last_Some in Hl as [m ->]. rewrite <-app_assoc in Hs. cbn in Hs. pose proof Hs as (_ & Hr & Hlt)%increasing_app.
  rewrite !upto_app. apply (increasing_app [y]) in Hr as (_ & _ & Hlt'). unfold upto.
  rewrite (rows_all _ m), (rows_all _ [y]), (rows_none _ l'); [by rewrite app_nil_r|..].
  - intros x Hx. apply Z.leb_gt. apply Hlt'; [left|done].
  - intros x ->%list_elem_of_singleton. apply Z.leb_refl.
  - intros x Hx. apply Z.leb_le. specialize (Hlt x y Hx ltac:(left)). lia.
Qed.

Lemma page_step sid first d r :
  Folds.numbered d -> starts_at first (from_seq first (session_log sid d)) -> at_log sid first d r -> rr_complete r = false ->
  let page := read_output sid (rr_after r) OUTPUT_PAGE d in
  exists r', take_rows page r = (Ok tt, r') /\ rr_reply_id r' = rr_reply_id r /\ at_log sid first d r' /\
    ((length page <? OUTPUT_PAGE)%nat = true -> caught_up sid first d r') /\
    (rr_complete r' = false -> upto (rr_after r') (from_seq first (session_log sid d)) =
                               (upto (rr_after r) (from_seq first (session_log sid d)) ++ page)%list).
Proof.
  intros Hd Hs Ha Hc page. pose proof (at_after_le _ _ _ _ Ha) as Hle. pose proof (log_rows sid d Hd) as Hinc.
  set (l := from_seq first (session_log sid d)) in *. pose proof (from_increasing first _ Hinc) as Hl. fold l in Hl.
  pose proof (split_at (rr_after r) l Hl) as E. unfold page. rewrite read_output_log by done.
  rewrite (page_of first _ _ Hinc Hle). fold l. set (rest := List.filter (fun r0 => (rr_after r <? ou_seq r0)%Z) l) in *.
  destruct Ha as [Hsid Hr Hat]. fold l in Hr, Hat. set (l0 := upto (rr_after r) l) in *. set (pg := take OUTPUT_PAGE rest).
  assert (Ep : rest = (pg ++ drop OUTPUT_PAGE rest)%list) by (symmetry; apply take_drop).
  destruct (take_rows_reads first l0 pg r Hr Hc) as (r' & H1 & S1 & I1 & done_rows & more & Epg & R1 & A1 & C1 & N1).
  { apply (starts_prefix _ _ (drop OUTPUT_PAGE rest)). by rewrite <-app_assoc, <-Ep, <-E. }
  assert (El : l = ((l0 ++ done_rows) ++ more ++ drop OUTPUT_PAGE rest)%list) by (rewrite E, Ep at 1; rewrite Epg, <-!app_assoc; done).
  assert (Eu : upto (rr_after r') l = (l0 ++ done_rows)%list).
  { rewrite A1. destruct (last done_rows) as [y|] eqn:Ey; [|apply last_None in Ey as ->; by rewrite app_nil_r].
    rewrite El at 1. apply upto_prefix; [by rewrite <-El|]. by rewrite last_app, Ey. }
  assert (Hat' : at_log sid first d r').
  { split; [congruence|by fold l; rewrite Eu|]. fold l. rewrite A1. destruct (last done_rows) as [y|] eqn:Ey; [|done].
    right. apply last_Some in Ey as [m ->]. rewrite El. rewrite !map_app. set_solver. }
  exists r'. split_and!; [done|done|done| |].
  - intros Hlen%Nat.ltb_lt. destruct (rr_complete r') eqn:Ec; [by apply complete_caught_up|].
    unfold caught_up. fold l. rewrite El, (C1 eq_refl), drop_ge; [by rewrite app_nil_r|]. unfold pg in Hlen. rewrite length_take in Hlen. lia.
  - intros Ec. by rewrite Eu, Epg, (C1 Ec), app_nil_r.
Qed.

(** Stores of later and later moments. *)
Fixpoint later (d : db) (stores : list db) : Prop :=
  match stores with [] => True | d' :: rest => Folds.log_grows d d' /\ later d' rest end.

Lemma starts_grows sid first d d' :
  Folds.log_grows d d' -> starts_at first (from_seq first (session_log sid d')) -> starts_at first (from_seq first (session_log sid d)).
Proof. intros Hg. destruct (log_appends sid d d' Hg) as [new ->]. unfold from_seq. rewrite List.filter_app. apply starts_prefix. Qed.

Fixpoint latest (d : db) (stores : list db) : db := match stores with [] => d | d' :: rest => latest d' rest end.

Lemma grows_refl d : Folds.numbered d -> Folds.log_grows d d.
Proof. intros Hd. split; [done|split; [done|exists []; by rewrite app_nil_r]]. Qed.

Lemma latest_grows d stores : Folds.numbered d -> later d stores -> Folds.log_grows d (latest d stores).
Proof.
  revert d. induction stores as [|d1 stores IH]; intros d Hd; [by intros _; apply grows_refl|]. intros [Hg Hl].
  eapply Folds.log_grows_trans; [exact Hg|]. exact (IH d1 (proj1 (proj2 Hg)) Hl).
Qed.

(** What the log holds up to the reader's place stays. *)
Lemma upto_grows sid first d d' r :
  Folds.log_grows d d' -> at_log sid first d r ->
  upto (rr_after r) (from_seq first (session_log sid d')) = upto (rr_after r) (from_seq first (session_log sid d)).
Proof.
  intros Hg Ha. pose proof (at_after_le _ _ _ _ Ha) as Hle. destruct (log_appends sid d d' Hg) as [new E].
  pose proof (log_rows sid d' (proj1 (proj2 Hg))) as Hs. rewrite E in Hs. apply increasing_app in Hs as (_ & _ & Hlt).
  destruct Ha as [_ _ H3]. rewrite E. unfold from_seq. rewrite List.filter_app.
  fold (from_seq first (session_log sid d)) (from_seq first new). rewrite upto_app.
  assert (Hn : upto (rr_after r) (from_seq first new) = []); [|by rewrite Hn, app_nil_r]. apply rows_none.
  intros x [Hx Hf]%list_elem_of_In%List.filter_In. apply Z.ltb_lt in Hf. apply Z.leb_gt. destruct H3 as [->|H3]; [lia|].
  apply list_elem_of_fmap in H3 as (o & -> & [Ho _]%list_elem_of_In%List.filter_In). apply Hlt; by apply list_elem_of_In.
Qed.

(** The log may have grown since. *)
Lemma at_log_grows sid first d d' r : Folds.log_grows d d' -> at_log sid first d r -> at_log sid first d' r.
Proof.
  intros Hg Ha. pose proof (upto_grows _ _ _ _ _ Hg Ha) as E. destruct Ha as [H1 H2 H3]. split; [done|by rewrite E|].
  destruct H3 as [H3|H3]; [by left|right]. destruct (log_appends sid d d' Hg) as [new ->]. unfold from_seq.
  rewrite List.filter_app, map_app. apply elem_of_app. by left.
Qed.

(** ** The loop of a read *)

Lemma read_pages_log sid first stores d r :
  Folds.numbered d -> later d stores -> starts_at first (from_seq first (session_log sid (latest d stores))) -> at_log sid first d r ->
  exists b r', read_pages stores r = (Ok b, r') /\ rr_reply_id r' = rr_reply_id r /\ at_log sid first (latest d stores) r' /\
    (b = true -> exists d', d' ∈ d :: stores /\ caught_up sid first d' r') /\
    (b = false -> length (upto (rr_after r) (from_seq first (session_log sid d))) + length stores * OUTPUT_PAGE
                  <= length (from_seq first (session_log sid (latest d stores)))).
Proof.
  revert d r. induction stores as [|d1 stores IH]; intros d r Hd Hl Hs Ha.
  all: assert (Hall : starts_at first (from_seq first (session_log sid d)))
    by (apply (starts_grows sid first d _ (latest_grows _ _ Hd Hl) Hs)).
  - destruct (rr_complete r) eqn:Ec; (eexists _, r; split; [cbn; unfold self, mbind, act_bind; rewrite Ec; reflexivity|]); split_and!; try done.
    + intros _. exists d. split; [left|by apply complete_caught_up].
    + intros _. cbn [latest length Nat.mul]. rewrite Nat.add_0_r. unfold upto. apply List.filter_length_le.
  - destruct Hl as [Hg Hl]. pose proof (proj1 (proj2 Hg)) as Hd1. cbn [latest] in *.
    pose proof (at_log_grows _ _ _ _ _ (Folds.log_grows_trans _ _ _ Hg (latest_grows _ _ Hd1 Hl)) Ha) as Hend.
    destruct (rr_complete r) eqn:Ec.
    { exists true, r. split; [cbn; unfold self, mbind, act_bind; by rewrite Ec|]. split_and!; [done|done| |done].
      intros _. exists d. split; [left|by apply complete_caught_up]. }
    pose proof (at_log_grows _ _ _ _ _ Hg Ha) as Ha1.
    pose proof (starts_grows sid first d1 _ (latest_grows _ _ Hd1 Hl) Hs) as Hs1.
    destruct (page_step sid first d1 r Hd1 Hs1 Ha1 Ec) as (r1 & E1 & I1 & A1 & C1 & U1). cbn [read_pages].
    unfold self, mbind, act_bind at 1. rewrite Ec. unfold mbind, act_bind. rewrite (at_session _ _ _ _ Ha), E1.
    destruct (length (read_output sid (rr_after r) OUTPUT_PAGE d1) <? OUTPUT_PAGE)%nat eqn:El.
    { exists true, r1. split; [done|]. split_and!; [done| | |done].
      - exact (at_log_grows _ _ _ _ _ (latest_grows _ _ Hd1 Hl) A1).
      - intros _. exists d1. split; [right; left|by apply C1]. }
    destruct (IH d1 r1 Hd1 Hl Hs A1) as (b & r2 & E2 & I2 & A2 & T2 & F2). exists b, r2. split_and!; [done|congruence|done| |].
    + intros Hb. destruct (T2 Hb) as (d' & Hin & Hc). exists d'. split; [by right|done].
    + intros Hb. specialize (F2 Hb). destruct (rr_complete r1) eqn:Ec1.
      { assert (b = true) as ->; [|done]. destruct stores; cbn in E2; unfold self, mbind, act_bind in E2; rewrite Ec1 in E2; by injection E2. }
      rewrite (U1 eq_refl), length_app, (upto_grows _ _ _ _ _ Hg Ha) in F2. apply Nat.ltb_ge in El. cbn [length]. lia.
Qed.

(** What reading a reply at once gives. *)
Definition reply_in (sid reply_id : string) (first : Z) (d : db) : res (option ChannelReply) :=
  match from_seq first (session_log sid d) with
  | [] => Raise RuntimeError
  | row :: rest => reply ← segment_reply reply_id (response_of row) (reply_rows (row :: rest)); Ok (Some reply)
  end.

Lemma read_log sid first stores d r :
  Folds.numbered d -> later d stores -> starts_at first (from_seq first (session_log sid (latest d stores))) -> at_log sid first d r ->
  at_log sid first (latest d stores) (read stores r).2 /\ rr_reply_id (read stores r).2 = rr_reply_id r /\
  ((read stores r).1 = Ok None /\ length stores * OUTPUT_PAGE <= length (from_seq first (session_log sid (latest d stores))) \/
   exists d', d' ∈ d :: stores /\ (read stores r).1 = reply_in sid (rr_reply_id r) first d').
Proof.
  intros Hd Hl Hs Ha. destruct (read_pages_log sid first stores d r Hd Hl Hs Ha) as (b & r' & E & I & A & T & F).
  unfold read, mbind, act_bind. rewrite E. unfold self. destruct b; cbn [negb].
  - destruct (T eq_refl) as (d' & Hin & [R1 R2 R3 R4]). rewrite R3. unfold reply_in.
    destruct (from_seq first (session_log sid d')) as [|x l] eqn:El; cbn [List.hd_error fmap option_fmap option_map].
    + split_and!; [done|done|]. right. exists d'. split; [done|]. by rewrite El.
    + unfold call, act_bind. rewrite I, R2. cbn [List.hd_error fmap option_fmap option_map].
      destruct (segment_reply (rr_reply_id r) (response_of x) (reply_rows (x :: l))) as [reply|e] eqn:Er; cbn [fst snd mret act_ret].
      all: split_and!; [done|done|]; right; exists d'; split; [done|]; rewrite El; cbn [mbind res_bind]; by rewrite Er.
  - split_and!; [done|done|]. left. split; [done|]. specialize (F eq_refl). lia.
Qed.

(** Readings one after another. *)
Fixpoint read_before (sessions : list (list db)) (r : reply_reader) : reply_reader :=
  match sessions with [] => r | stores :: rest => read_before rest (read stores r).2 end.

Lemma later_app d l l' : later d (l ++ l') <-> later d l /\ later (latest d l) l'.
Proof. revert d. induction l as [|x l IH]; intros d; cbn; [tauto|]. rewrite IH. tauto. Qed.

Lemma latest_app d l l' : latest d (l ++ l') = latest (latest d l) l'.
Proof. revert d. induction l as [|x l IH]; intros d; [done|]. exact (IH x). Qed.

Lemma latest_numbered d l : Folds.numbered d -> later d l -> Folds.numbered (latest d l).
Proof. intros Hd Hl. exact (proj1 (proj2 (latest_grows _ _ Hd Hl))). Qed.

Lemma in_later d l d' : Folds.numbered d -> later d l -> d' ∈ d :: l -> Folds.log_grows d d'.
Proof.
  revert d. induction l as [|x l IH]; intros d Hd Hl Hin.
  - apply list_elem_of_singleton in Hin as ->. by apply grows_refl.
  - destruct Hl as [Hg Hl]. apply elem_of_cons in Hin as [->|Hin]; [by apply grows_refl|].
    eapply Folds.log_grows_trans; [exact Hg|]. exact (IH x (proj1 (proj2 Hg)) Hl Hin).
Qed.

Lemma read_before_log sid first sessions stores d r :
  Folds.numbered d -> later d (concat sessions ++ stores) ->
  starts_at first (from_seq first (session_log sid (latest d (concat sessions ++ stores)))) -> at_log sid first d r ->
  at_log sid first (latest d (concat sessions)) (read_before sessions r) /\ rr_reply_id (read_before sessions r) = rr_reply_id r.
Proof.
  revert d r. induction sessions as [|l sessions IH]; intros d r Hd Hl Hs Ha; [done|]. cbn [concat read_before] in *.
  rewrite <-app_assoc in Hl, Hs. rewrite latest_app in *. apply later_app in Hl as [Hl1 Hl2]. pose proof (latest_numbered _ _ Hd Hl1) as Hd1.
  destruct (read_log sid first l d r Hd Hl1 (starts_grows _ _ _ _ (latest_grows _ _ Hd1 Hl2) Hs) Ha) as (A1 & I1 & _).
  destruct (IH (latest d l) (read l r).2 Hd1 Hl2 Hs A1) as [A2 I2]. by split; [|congruence].
Qed.

(** ** The replies of a response *)

Lemma segment_reply_fields id rid x seg reply :
  segment_reply id rid (x :: seg) = Ok reply ->
  cr_reply_id reply = id /\ cr_response_id reply = rid /\ cr_first_seq reply = ou_seq x /\
  delivery_of (ou_part x) = Ok (cr_channel_delivery reply) /\ exists y, last (x :: seg) = Some y /\ cr_complete reply = kind_is "finish" y.
Proof.
  unfold segment_reply. destruct (last (x :: seg)) as [y|] eqn:Ey; [|done]. intros (folded & _ & H)%bind_ok.
  apply bind_ok in H as (delivery & Hd & H). apply bind_ok in H as (i & _ & [= <-]). cbn. split_and!; [done..|]. by exists y.
Qed.

(** A reply is a cut of the rows, from a start through its finish. *)
Definition cut (rid : string) (rows : list output_row) (reply : ChannelReply) : Prop :=
  exists a x seg b, rows = (a ++ x :: seg ++ b)%list /\ kind_is "start" x = true /\ through_finish (seg ++ b) = seg /\
    (cr_complete reply = true -> finished seg = true) /\ segment_reply (cr_reply_id reply) rid (x :: seg) = Ok reply.

Lemma cut_later rid rows rows' reply : cr_complete reply = true -> cut rid rows reply -> cut rid (rows ++ rows') reply.
Proof.
  intros Hc (a & x & seg & b & -> & Hx & Ht & Hf & Hs). exists a, x, seg, (b ++ rows')%list. specialize (Hf Hc). split_and!; [|done| |done|done].
  - by rewrite <-!app_assoc, <-app_comm_cons, <-!app_assoc.
  - rewrite through_finish_app, Hf in Ht |- *. done.
Qed.

Definition walk_cut (rid : string) (done_rows : list output_row) (w : walk) : Prop :=
  Forall (fun reply => cut rid done_rows reply /\ cr_complete reply = true) (wk_replies w) /\
  match wk_segment w with
  | None => True
  | Some segment => exists a x seg, segment = x :: seg /\ done_rows = (a ++ segment)%list /\ kind_is "start" x = true /\ finished seg = false
  end.

Lemma through_finish_snoc seg row : finished seg = false -> kind_is "finish" row = true -> through_finish (seg ++ [row]) = (seg ++ [row])%list.
Proof. intros Hs Hr. rewrite through_finish_app, Hs. cbn. by rewrite Hr. Qed.

Lemma walk_row_cut rid done_rows w row w' :
  walk_cut rid done_rows w -> walk_row rid w row = Ok w' -> walk_cut rid (done_rows ++ [row]) w'.
Proof.
  intros [Hr Hs] H. unfold walk_row in H. apply bind_ok in H as (asked & _ & H).
  assert (Hr' : Forall (fun reply => cut rid (done_rows ++ [row]) reply /\ cr_complete reply = true) (wk_replies w)).
  { eapply Forall_impl; [exact Hr|]. intros reply [H1 H2]. split; [by apply cut_later|done]. }
  destruct (wk_segment w) as [segment|]; [|destruct (kind_is "start" row) eqn:Ek; cbn [negb] in H].
  - destruct Hs as (a & x & seg & -> & -> & Hx & Hf). destruct (kind_is "finish" row) eqn:Ek; cbn [negb] in H.
    + apply bind_ok in H as (reply & H & [= <-]). split; [|done]. apply Forall_app. split; [done|]. apply Forall_singleton.
      destruct (segment_reply_fields _ _ _ _ _ H) as (Hi & _ & _ & _ & y & Hy & Hc). rewrite app_comm_cons, last_snoc in Hy.
      injection Hy as <-. split; [|by rewrite Hc]. exists a, x, (seg ++ [row])%list, []. rewrite !app_nil_r, <-app_assoc, Hi.
      split_and!; [done|done|by apply through_finish_snoc| |done]. intros _. rewrite finished_app. cbn. rewrite Ek. by destruct (finished seg).
    + injection H as <-. split; [done|]. exists a, x, (seg ++ [row])%list. rewrite <-app_assoc. split_and!; [done..|].
      rewrite finished_app, Hf. cbn. by rewrite Ek.
  - apply bind_ok in H as (id & _ & [= <-]). split; [done|]. by exists done_rows, row, [].
  - injection H as <-. by split.
Qed.

Lemma segments_cut rid rows replies : reply_segments rid rows = Ok replies -> Forall (cut rid rows) replies.
Proof.
  unfold reply_segments. intros (w & Hw & H)%bind_ok.
  assert (Hc : walk_cut rid rows w).
  { revert Hw. apply foldM_loop; [by split|]. intros met row w0 w1 H0 _ H1. by eapply walk_row_cut. }
  destruct Hc as [Hr Hs]. unfold finish_walk in H. destruct (wk_segment w) as [segment|].
  - apply bind_ok in H as (reply & H & [= <-]). apply Forall_app. split; [by eapply Forall_impl; [exact Hr|]; intros ? [? _]|].
    apply Forall_singleton. destruct Hs as (a & x & seg & -> & -> & Hx & Hf).
    destruct (segment_reply_fields _ _ _ _ _ H) as (Hi & _ & _ & _ & y & Hy & Hc). exists a, x, seg, []. rewrite app_nil_r, Hi.
    split_and!; [done|done|by apply through_unfinished| |done]. rewrite Hc. intros Hk. exfalso.
    apply last_Some in Hy as [m Em]. destruct m as [|m0 m]; injection Em as -> ->.
    + rewrite (start_no_finish _ Hx) in Hk. done.
    + rewrite finished_app in Hf. cbn in Hf. rewrite Hk, orb_true_r in Hf. done.
  - injection H as <-. eapply Forall_impl; [exact Hr|]. by intros ? [? _].
Qed.

(** ** The projector and the reader *)

Lemma upto_filter P z l : upto z (List.filter P l) = List.filter (fun r => P r && (ou_seq r <=? z)%Z) l.
Proof. unfold upto. induction l as [|x l IH]; [done|]. cbn. destruct (P x); cbn; [|done]. by destruct (ou_seq x <=? z)%Z; rewrite IH. Qed.

Lemma response_log sid rid seq d :
  Folds.numbered d ->
  output_for_responses sid [rid] (Some seq) d = upto seq (List.filter (in_response rid) (session_log sid d)).
Proof.
  intros [Hu _]%(fun H => H sid). unfold output_for_responses, session_log. rewrite upto_filter, Folds.sort_of_filter by exact Hu. f_equal.
  unfold select_where. generalize (db_output d). intros l. induction l as [|o l IH]; [done|]. rewrite !filter_cons.
  destruct (output_of sid o) eqn:E; cbn [andb]; [|rewrite !decide_False by done; exact IH].
  rewrite (decide_True (P := true = true)) by done. cbn [List.filter]. rewrite <-IH. unfold in_response at 1.
  replace (match ou_response_id o with Some rid0 => Py.in_strs rid0 [rid] | None => false end) with (opt_is rid (ou_response_id o)).
  - destruct (opt_is rid (ou_response_id o) && (ou_seq o <=? seq)%Z); [by rewrite decide_True by done|by rewrite decide_False by done].
  - destruct (ou_response_id o) as [x|]; [|done]. cbn. by rewrite orb_false_r, String.eqb_sym.
Qed.

(** The log from a row on. *)
Lemma from_row (P : output_row -> bool) l a x t :
  increasing l -> List.filter P l = (a ++ x :: t)%list -> P x = true ->
  exists l', from_seq (ou_seq x) l = x :: l' /\ List.filter P l' = t.
Proof.
  revert a. induction l as [|y l IH]; intros a Hs E HP; [by destruct a|]. cbn [map] in Hs. apply StronglySorted_inv in Hs as [Hs Hy].
  assert (Hlt : forall z, z ∈ l -> (ou_seq y < ou_seq z)%Z) by (intros z Hz; rewrite Forall_forall in Hy; by apply Hy, list_elem_of_fmap_2).
  assert (Hhead : a = [] -> P y = true -> exists l', from_seq (ou_seq x) (y :: l) = x :: l' /\ List.filter P l' = t).
  { intros -> Hp. cbn in E. rewrite Hp in E. injection E as -> <-. exists l. split; [|done]. unfold from_seq. apply rows_all.
    intros z [->|Hz]%elem_of_cons; apply Z.ltb_lt; [lia|specialize (Hlt z Hz); lia]. }
  assert (Hrest : forall a', List.filter P l = (a' ++ x :: t)%list -> exists l', from_seq (ou_seq x) (y :: l) = x :: l' /\ List.filter P l' = t).
  { intros a' E'. destruct (IH a' Hs E' HP) as (l' & Hl & Ht). exists l'. split; [|done]. unfold from_seq in *. cbn [List.filter].
    rewrite (proj2 (Z.ltb_ge _ _)); [done|]. assert (Hx : x ∈ l); [|specialize (Hlt x Hx); lia].
    assert (Hin : x ∈ List.filter P l) by (rewrite E'; set_solver). by apply list_elem_of_In, List.filter_In in Hin as [Hin%list_elem_of_In _]. }
  destruct (P y) eqn:Ep; cbn in E; rewrite Ep in E; [|by apply (Hrest a)]. destruct a as [|a0 a]; [by apply Hhead|].
  injection E as -> E. by apply (Hrest a).
Qed.

(** What a projected reply becomes once the log has grown. *)
Lemma cut_reply_in sid rid seq d d' replies reply :
  Folds.log_grows d d' -> reply_segments rid (output_for_responses sid [rid] (Some seq) d) = Ok replies -> reply ∈ replies ->
  exists x l', from_seq (cr_first_seq reply) (session_log sid d') = x :: l' /\ ou_seq x = cr_first_seq reply /\ kind_is "start" x = true /\
    response_of x = rid /\ delivery_of (ou_part x) = Ok (cr_channel_delivery reply) /\
    (cr_complete reply = true -> segment_reply (cr_reply_id reply) rid (reply_rows (x :: l')) = Ok reply).
Proof.
  intros Hg Hs Hin. pose proof Hg as (Hd & Hd' & _). rewrite (response_log _ _ _ _ Hd) in Hs. apply segments_cut in Hs.
  rewrite Forall_forall in Hs. destruct (Hs reply Hin) as (a & x & seg & b & E & Hx & Ht & Hf & Hr).
  destruct (log_appends sid d d' Hg) as [new En]. pose proof (log_rows sid d Hd) as Hinc.
  set (rows := List.filter (in_response rid) (session_log sid d)) in *.
  assert (Hrows : increasing rows).
  { unfold rows. revert Hinc. generalize (session_log sid d). intros l. induction l as [|y l IH]; [done|]. cbn [map].
    intros [Hl Hy]%StronglySorted_inv. cbn [List.filter]. destruct (in_response rid y); [|by apply IH]. cbn [map]. constructor; [by apply IH|].
    apply Forall_map. rewrite Forall_map in Hy. rewrite !Forall_forall in Hy |- *. intros z [Hz _]%list_elem_of_In%List.filter_In.
    by apply Hy, list_elem_of_In. }
  pose proof (split_at seq rows Hrows) as Esplit. rewrite E in Esplit.
  assert (HP : in_response rid x = true).
  { assert (Hxr : x ∈ rows) by (rewrite Esplit; set_solver). by apply list_elem_of_In, List.filter_In in Hxr as [_ ?]. }
  set (more := (List.filter (fun r => (seq <? ou_seq r)%Z) rows ++ List.filter (in_response rid) new)%list).
  assert (Ed' : List.filter (in_response rid) (session_log sid d') = (a ++ x :: seg ++ b ++ more)%list).
  { rewrite En, List.filter_app. fold rows. rewrite Esplit. unfold more. by rewrite <-!app_assoc, <-app_comm_cons, <-!app_assoc. }
  destruct (from_row _ _ _ _ _ (log_rows sid d' Hd') Ed' HP) as (l' & El & Hl').
  destruct (segment_reply_fields _ _ _ _ _ Hr) as (_ & _ & Hfirst & Hdel & _). exists x, l'. rewrite Hfirst.
  assert (Hresp : response_of x = rid).
  { unfold response_of. unfold in_response, opt_is in HP. destruct (ou_response_id x); [|done]. by apply String.eqb_eq in HP. }
  split_and!; [done..|]. intros Hc. specialize (Hf Hc). cbn [reply_rows]. rewrite Hresp, Hl', through_finish_app, Hf.
  rewrite through_finish_app, Hf in Ht. by rewrite Ht.
Qed.
(** C16: What a channel delivers of a projected reply is that reply. Take a response's replies
    as the projector saw them at some output of the log, and any of them. A reader given its
    id and its first output, in as many readings as are wanted and over a log that has grown
    since, gives when a reading ends: that very reply, when the projector saw it complete;
    and otherwise a reply with the same id, response, first output and delivery declaration, its text what the response's rows fold
    to from there on in the log of one of the reading's moments, each row taken once. A
    reading given pages enough for the log ends. *)
Theorem delivered_reply_is_projected (sid rid : string) (seq : Z) (d : db) (sessions : list (list db)) (stores : list db)
    (replies : list ChannelReply) (reply : ChannelReply) :
  Folds.numbered d -> later d (concat sessions ++ stores) ->
  reply_segments rid (output_for_responses sid [rid] (Some seq) d) = Ok replies -> reply ∈ replies ->
  let reader := new_reply_reader sid (cr_reply_id reply) (cr_first_seq reply) in
  let out := (read stores (read_before sessions reader)).1 in
  let now := latest d (concat sessions) in
  (length (from_seq (cr_first_seq reply) (session_log sid (latest now stores))) < length stores * OUTPUT_PAGE -> out <> Ok None) /\
  (out <> Ok None -> exists d', d' ∈ now :: stores /\ out = reply_in sid (cr_reply_id reply) (cr_first_seq reply) d') /\
  (cr_complete reply = true -> out <> Ok None -> out = Ok (Some reply)) /\
  (forall reply', out = Ok (Some reply') ->
     cr_reply_id reply' = cr_reply_id reply /\ cr_response_id reply' = rid /\ cr_first_seq reply' = cr_first_seq reply /\
     cr_channel_delivery reply' = cr_channel_delivery reply).
Proof.
  intros Hd Hl Hs Hin reader out now.
  assert (Hcut : forall d', Folds.log_grows d d' -> starts_at (cr_first_seq reply) (from_seq (cr_first_seq reply) (session_log sid d')) /\
    (cr_complete reply = true -> reply_in sid (cr_reply_id reply) (cr_first_seq reply) d' = Ok (Some reply)) /\
    forall reply', reply_in sid (cr_reply_id reply) (cr_first_seq reply) d' = Ok (Some reply') ->
     cr_reply_id reply' = cr_reply_id reply /\ cr_response_id reply' = rid /\ cr_first_seq reply' = cr_first_seq reply /\
     cr_channel_delivery reply' = cr_channel_delivery reply).
  { intros d' Hg. destruct (cut_reply_in _ _ _ _ _ _ _ Hg Hs Hin) as (x & l' & El & Ex & Hx & Hrid & Hdel & Hc). unfold reply_in. rewrite El, Hrid.
    split_and!; [done|intros H; by rewrite (Hc H)|]. intros reply' (r & Hr & [= <-])%bind_ok. cbn [reply_rows] in Hr.
    destruct (segment_reply_fields _ _ _ _ _ Hr) as (H1 & H2 & H3 & H4 & _). rewrite Hdel in H4. injection H4 as H4. split_and!; congruence. }
  pose proof (latest_grows _ _ Hd Hl) as Hall. destruct (Hcut _ Hall) as [Hst _].
  destruct (read_before_log _ _ _ _ _ _ Hd Hl Hst (new_at_log sid (cr_reply_id reply) (cr_first_seq reply) d)) as [A I].
  rewrite latest_app in Hst. apply later_app in Hl as [Hl1 Hl2]. pose proof (latest_numbered _ _ Hd Hl1) as Hd1.
  destruct (read_log sid _ stores _ _ Hd1 Hl2 Hst A) as (_ & _ & H). rewrite I in H. cbn [new_reply_reader rr_reply_id] in H.
  fold reader out now in H. destruct H as [[H Hlen]|(d' & Hd' & H)]; [rewrite H; split_and!; [|done..]|].
  { intros Hlt. exfalso. revert Hlt. apply Nat.le_ngt. exact Hlen. }
  destruct (Hcut d') as (_ & Hc & Hids).
  { eapply Folds.log_grows_trans; [exact (latest_grows _ _ Hd Hl1)|]. exact (in_later _ _ _ Hd1 Hl2 Hd'). }
  rewrite H. split_and!; [|intros _; exists d'; exact (conj Hd' eq_refl)|intros Hk _; exact (Hc Hk)|exact Hids].
  intros _ E. unfold reply_in in E. case_match; [discriminate|]. by apply bind_ok in E as (? & _ & [=]).
Qed.
End ReplyFacts.

Import Repo Rec Replies ReplyFacts.

(** A response asks, is answered, and goes on. *)
Definition demo_part (n : Z) (rid type : string) (more : dict) : OutputPart := MkPart n (Some rid) (("type", VStr type) :: more).
Definition demo_asked_batch : FactBatch :=
  MkBatch [demo_part 1 "r1" "start" []; demo_part 2 "r1" "text-start" [("id", VStr "t1")];
           demo_part 3 "r1" "text-delta" [("id", VStr "t1"); ("delta", VStr "May I?")]; demo_part 4 "r1" "text-end" [("id", VStr "t1")];
           demo_part 5 "r1" "data-interaction" [("data", VDict [("interaction_id", VStr "x1")])]; demo_part 6 "r1" "finish" []]
    [ResponseStart "r1" "input" ["i1"]] None None None.
Definition demo_more_batch : FactBatch :=
  MkBatch [demo_part 7 "r1" "start" []; demo_part 8 "r1" "text-start" [("id", VStr "t2")];
           demo_part 9 "r1" "text-delta" [("id", VStr "t2"); ("delta", VStr "Done.")]] [] None None None.
Definition demo_asked : db := snd (record demo_lease demo_asked_batch 100 30 demo_db2).
Definition demo_more : db := snd (record demo_lease demo_more_batch 100 40 demo_asked).

Lemma demo_asked_numbered : Folds.numbered demo_asked.
Proof. apply (one_session_numbered _ "s1" 6); vm_compute; [done|by repeat constructor|done]. Qed.
Lemma demo_more_numbered : Folds.numbered demo_more.
Proof. apply (one_session_numbered _ "s1" 9); vm_compute; [done|by repeat constructor|done]. Qed.
Lemma demo_more_grows : Folds.log_grows demo_asked demo_more.
Proof. split_and!; [apply demo_asked_numbered|apply demo_more_numbered|]. eexists. vm_compute. reflexivity. Qed.

Example demo_replies :
  reply_segments "r1" (output_for_responses "s1" ["r1"] (Some 9%Z) demo_more)
  = Ok [MkReply "r1" "r1" 1 6 true "May I?" (Some "x1") None true; MkReply "r1~x1" "r1" 7 9 false "Done." None None true].
Proof. vm_compute. reflexivity. Qed.

(** The question's reply, read again and again as the session goes on. *)
Lemma delivered_reply_is_projected_witness :
  let reply := MkReply "r1" "r1" 1 6 true "May I?" (Some "x1") None true in
  (read [demo_more] (read_before [[demo_asked]; [demo_more]] (new_reply_reader "s1" "r1" 1))).1 = Ok (Some reply).
Proof.
  intros reply.
  destruct (delivered_reply_is_projected "s1" "r1" 6 demo_asked [[demo_asked]; [demo_more]] [demo_more] [reply] reply) as (H1 & _ & H3 & _).
  - apply demo_asked_numbered.
  - exact (conj (grows_refl _ demo_asked_numbered) (conj demo_more_grows (conj (grows_refl _ demo_more_numbered) I))).
  - vm_compute. reflexivity.
  - left.
  - apply H3; [reflexivity|]. apply H1. vm_compute. lia.
Defined.
