(* ===== verification/ReplyContract.v ===== *)
(** Every response that keeps the runtime contract has replies a channel can name. *)

From S2P Require Import Prelude Effects PyVal Schema Interaction SessionRepo SessionRecord UiMessage Reader Emissions ClaudeStream ClaudeContract ChannelReplies ReplyFacts.

Open Scope string_scope.

Module ReplyContract.
Import Repo Rec Replies ClaudeContract.

(** ** The segments of a response *)

(** Rows from a start through a finish, or to the end; [open] are those of the one not finished. *)
Fixpoint segments_of (open : option (list output_row)) (rows : list output_row) : list (list output_row) :=
  match rows, open with
  | [], None => []
  | [], Some segment => [segment]
  | row :: rest, None => if kind_is "start" row then segments_of (Some [row]) rest else segments_of None rest
  | row :: rest, Some segment =>
      if kind_is "finish" row then (segment ++ [row])%list :: segments_of None rest else segments_of (Some (segment ++ [row])%list) rest
  end.

Definition question_of (part : dict) : option string :=
  match Py.get "data" part with
  | VDict d => let id := Py.str_or_empty (Py.get "interaction_id" d) in if Py.is_empty id then None else Some id
  | _ => None
  end.

(** The last question of a segment. *)
Definition last_asked (segment : list output_row) : option string :=
  match last (List.filter (kind_is "data-interaction") segment) with Some row => question_of (ou_part row) | None => None end.

(** A response's first reply has its id; each later one adds the question before it. *)
Definition reply_names (first rid : string) (segments : list (list output_row)) : list string :=
  first :: map (fun segment => rid ++ "~" ++ default "" (last_asked segment)) segments.

Definition replies_of (first rid : string) (segments : list (list output_row)) : res (list ChannelReply) :=
  mapM_res (fun '(id, segment) => segment_reply id rid segment) (zip (reply_names first rid segments) segments).

(** Every segment but the last asks. *)
Fixpoint asked_between (segments : list (list output_row)) : Prop :=
  match segments with
  | segment :: (_ :: _) as rest => is_Some (last_asked segment) /\ asked_between rest
  | _ => True
  end.

(** ** A row at a time *)

Lemma named_kind kind row : named (ou_part row) = true -> kind_is kind row = (part_type (ou_part row) =s kind).
Proof.
  unfold named, kind_is, Ui.type_is, part_type. destruct (Py.get "type" (ou_part row)) as [| | | |ty| |]; try done.
  intros E%String.eqb_eq. rewrite clean_str, E. reflexivity.
Qed.

Lemma asks_question part : asks part = true -> exists i, asked_of part = Ok (Some i) /\ question_of part = Some i.
Proof.
  unfold asks, asked_of, question_of. destruct (Py.get "data" part) as [| | | | | |d]; try done. intros H%negb_true_iff.
  destruct d as [|e d]; [done|]. cbn [Py.por Py.truthy]. unfold Py.vget. cbn [mbind res_bind]. rewrite H. eauto.
Qed.

Lemma last_asked_snoc segment row :
  last_asked (segment ++ [row]) = if kind_is "data-interaction" row then question_of (ou_part row) else last_asked segment.
Proof.
  unfold last_asked. rewrite List.filter_app. cbn [List.filter]. destruct (kind_is "data-interaction" row); [by rewrite last_snoc|by rewrite app_nil_r].
Qed.

(** What the loop holds when the response is in a phase. *)
Definition holds (p : phase) (w : walk) : Prop :=
  match p with
  | Begun => wk_segment w = None /\ wk_replies w = []
  | Talking asked => exists segment, wk_segment w = Some segment /\ (asked = true -> is_Some (wk_last_interaction w) /\ last_asked segment = wk_last_interaction w)
  | Paused => wk_segment w = None /\ wk_replies w <> [] /\ is_Some (wk_last_interaction w)
  | Closing | Over | Cut => wk_segment w = None /\ wk_replies w <> []
  end.

Definition next_name (rid : string) (w : walk) : string :=
  match wk_segment w, wk_replies w with
  | Some _, _ => wk_reply_id w
  | None, [] => rid
  | None, _ => rid ++ "~" ++ default "" (wk_last_interaction w)
  end.

(** A response that has ended stays closed; at most its last parts may arrive. *)
Definition settled (p : phase) : phase := match p with Closing | Over => Cut | _ => p end.

Lemma settled_ended outcome reason : settled (ended outcome reason) = Cut.
Proof. by destruct (ended_past outcome reason) as [-> | ->]. Qed.

Fixpoint parts_run (p : phase) (parts : list dict) : bool :=
  match parts with
  | [] => true
  | f :: rest => named f && match part_step (settled p) f with Some p' => parts_run p' rest | None => false end
  end.

Lemma parts_run_settled p parts : parts_run (settled p) parts = parts_run p parts.
Proof. by destruct parts, p. Qed.

Lemma over_no_segments rows : parts_run Cut (map ou_part rows) = true -> segments_of None rows = [].
Proof.
  induction rows as [|row rows IH]; [done|]. cbn [map parts_run settled]. intros [Hn H]%andb_true_iff. cbn [segments_of].
  rewrite (named_kind "start" row Hn). unfold part_step in H. destruct (part_type (ou_part row) =s "start"); [done|].
  destruct (part_type (ou_part row) =s "finish"); [done|]. destruct (part_type (ou_part row) =s "data-interaction"); [done|]. by apply IH.
Qed.

Lemma replies_of_cons id rid segment segments :
  replies_of id rid (segment :: segments) =
    (reply ← segment_reply id rid segment; rest ← replies_of (rid ++ "~" ++ default "" (last_asked segment)) rid segments; Ok (reply :: rest)).
Proof. reflexivity. Qed.

Definition walked (rid : string) (w : walk) (rows : list output_row) : Prop :=
  (foldM (walk_row rid) w rows ≫= finish_walk rid) =
    (rest ← replies_of (next_name rid w) rid (segments_of (wk_segment w) rows); Ok (wk_replies w ++ rest)%list) /\
  asked_between (segments_of (wk_segment w) rows).

Lemma walked_row rid w row w1 rows :
  walk_row rid w row = Ok w1 -> next_name rid w1 = next_name rid w -> wk_replies w1 = wk_replies w ->
  segments_of (wk_segment w1) rows = segments_of (wk_segment w) (row :: rows) -> walked rid w1 rows -> walked rid w (row :: rows).
Proof. unfold walked. intros H En Er Es [H1 H2]. cbn [foldM]. rewrite H. cbn [mbind res_bind]. rewrite <-Es, <-En, <-Er. by split. Qed.

Lemma walked_finish rid id segment last replies row rows :
  kind_is "finish" row = true -> kind_is "data-interaction" row = false ->
  (segments_of None rows = [] \/ is_Some last /\ last_asked segment = last) ->
  (forall reply, walked rid (Walk (replies ++ [reply]) None id last) rows) ->
  walked rid (Walk replies (Some segment) id last) (row :: rows).
Proof.
  intros Hf Hd Hl IH. unfold walked. cbn [foldM segments_of wk_segment wk_replies next_name]. unfold walk_row at 1. rewrite Hd, Hf.
  cbn [mbind res_bind wk_segment wk_replies wk_reply_id wk_last_interaction next_name]. rewrite replies_of_cons, last_asked_snoc, Hd.
  assert (Hb : asked_between ((segment ++ [row])%list :: segments_of None rows)).
  { destruct (IH (MkReply "" "" 0 0 false "" None None false)) as [_ Hb]. cbn [wk_segment] in Hb.
    destruct Hl as [->|[Hs Hl]]; [done|]. cbn [asked_between]. destruct (segments_of None rows); [done|]. by rewrite last_asked_snoc, Hd, Hl. }
  split; [|done]. destruct (segment_reply id rid (segment ++ [row])) as [reply|e]; cbn [mbind res_bind]; [|done].
  destruct (IH reply) as [E _]. rewrite E. unfold next_name. cbn [wk_segment wk_replies wk_last_interaction].
  assert (Hn : replies_of match (replies ++ [reply])%list with [] => rid | _ => rid ++ "~" ++ default "" last end rid (segments_of None rows) =
               replies_of (rid ++ "~" ++ default "" (last_asked segment)) rid (segments_of None rows)).
  { destruct Hl as [->|[_ ->]]; [done|]. by destruct replies. }
  rewrite Hn. clear Hn E. destruct (replies_of (rid ++ _) rid _) as [rest|e]; cbn [mbind res_bind]; [by rewrite <-app_assoc|done].
Qed.

Lemma walk_all rid rows p w : parts_run p (map ou_part rows) = true -> holds p w -> walked rid w rows.
Proof.
  revert p w. induction rows as [|row rows IH]; intros p w Hp Hw.
  { unfold walked. cbn [foldM mbind res_bind]. unfold finish_walk, next_name. destruct w as [replies segment id last].
    cbn [wk_segment wk_replies wk_reply_id wk_last_interaction segments_of]. destruct segment as [segment|]; [|split; [|done]; cbn; by rewrite app_nil_r].
    rewrite replies_of_cons. split; [|done]. by destruct (segment_reply _ _ _). }
  cbn [map parts_run] in Hp. apply andb_true_iff in Hp as [Hn Hp]. pose proof (fun kind => named_kind kind row Hn) as Hk.
  unfold part_step in Hp. destruct (part_type (ou_part row) =s "start") eqn:Est; [|destruct (part_type (ou_part row) =s "finish") eqn:Ef;
    [|destruct (part_type (ou_part row) =s "data-interaction") eqn:Ed]].
  - apply String.eqb_eq in Est. rewrite Est in Hk. 
    pose proof (Hk "start") as K1. pose proof (Hk "data-interaction") as K2. cbn in K1, K2. destruct w as [replies segment id last].
    destruct p; try done; cbn [settled] in Hp; destruct (Py.has "messageMetadata" (ou_part row)); try done; cbn [holds wk_segment wk_replies wk_last_interaction] in Hw.
    + destruct Hw as [-> ->]. eapply walked_row; [unfold walk_row; rewrite K1, K2; reflexivity|reflexivity|reflexivity| |].
      * cbn [segments_of wk_segment]. by rewrite K1.
      * eapply IH; [exact Hp|]. by exists [row].
    + destruct Hw as (-> & Hr & i & ->). destruct replies as [|reply replies]; [done|].
      eapply walked_row; [unfold walk_row; rewrite K1, K2; reflexivity|reflexivity|reflexivity| |].
      * cbn [segments_of wk_segment]. by rewrite K1.
      * eapply IH; [exact Hp|]. by exists [row].
  - apply String.eqb_eq in Ef. rewrite Ef in Hk. pose proof (Hk "finish") as K1. pose proof (Hk "data-interaction") as K2. cbn in K1, K2.
    destruct w as [replies segment id last]. destruct p as [|asked| | | |]; try done. cbn [settled] in Hp. destruct Hw as (seg & Es & Ha).
    cbn [wk_segment wk_last_interaction] in Es, Ha. subst segment. apply walked_finish; [done|done| |].
    + destruct asked; [right; by apply Ha|left]. apply over_no_segments. exact (eq_trans (parts_run_settled Closing _) Hp).
    + intros reply. assert (Hne : (replies ++ [reply])%list <> []) by by destruct replies.
      destruct asked; (eapply IH; [exact Hp|]); [|by split]. split; [done|]. split; [done|]. by apply Ha.
  - apply String.eqb_eq in Ed. rewrite Ed in Hk. pose proof (Hk "finish") as K1. pose proof (Hk "data-interaction") as K2. cbn in K1, K2.
    destruct w as [replies segment id last]. destruct p as [|asked| | | |]; try done. cbn [settled] in Hp. destruct Hw as (seg & Es & Ha).
    cbn [wk_segment wk_last_interaction] in Es, Ha. subst segment. destruct (asks (ou_part row)) eqn:Eq; [|done].
    destruct (asks_question _ Eq) as (i & Ei & Eq'). eapply walked_row.
    + unfold walk_row. rewrite K2, Ei, K1. reflexivity.
    + reflexivity.
    + reflexivity.
    + cbn [segments_of wk_segment]. by rewrite K1.
    + eapply IH; [exact Hp|]. exists (seg ++ [row])%list. split; [done|]. intros _. rewrite last_asked_snoc, K2, Eq'. split; [by eexists|done].
  - pose proof (Hk "start") as K0. pose proof (Hk "finish") as K1. pose proof (Hk "data-interaction") as K2. rewrite Est in K0. rewrite Ef in K1.
    rewrite Ed in K2. destruct w as [replies segment id last].
    assert (Hout : segment = None -> parts_run p (map ou_part rows) = true -> walked rid (Walk replies segment id last) (row :: rows)).
    { intros -> Hr. eapply walked_row; [unfold walk_row; rewrite K2, K0; reflexivity|reflexivity|reflexivity| |exact (IH p _ Hr Hw)].
      cbn [segments_of wk_segment]. by rewrite K0. }
    destruct p as [|asked| | | |]; try done; cbn [settled] in Hp;
      [|destruct (Py.in_strs _ _); [|done]; by apply Hout; [exact (proj1 Hw)|]|apply Hout; [exact (proj1 Hw)|by rewrite <-parts_run_settled]..].
    destruct Hw as (seg & Es & Ha). cbn [wk_segment wk_last_interaction] in Es, Ha. subst segment.
    eapply walked_row; [unfold walk_row; rewrite K2, K1; reflexivity|reflexivity|reflexivity| |].
    + cbn [segments_of wk_segment]. by rewrite K1.
    + eapply IH; [exact Hp|]. exists (seg ++ [row])%list. split; [done|]. intros Ht. destruct (Ha Ht) as [H1 H2].
      by rewrite last_asked_snoc, K2.
Qed.

(** ** From the contract *)

Definition part_of (r : string) (e : RuntimeEvent) : option dict :=
  match e with ResponseOutput _ (Some r') f => if r' =s r then Some f else None | _ => None end.
Definition parts_of (r : string) (es : list RuntimeEvent) : list dict := omap (part_of r) es.

Definition standing (r : string) (s : phases) : phase := default Begun (s !! r).

Lemma events_parts r es s s' : event_steps s es = Some s' -> parts_run (standing r s) (parts_of r es) = true.
Proof.
  revert s. induction es as [|e es IH]; intros s; [done|]. cbn [event_steps]. destruct (event_step s e) as [s1|] eqn:E; [|done].
  intros H. specialize (IH s1 H). unfold parts_of in *. cbn [omap list_omap].
  assert (Hstay : part_of r e = None -> settled (standing r s1) = settled (standing r s) ->
    parts_run (standing r s) (match part_of r e with Some f => f :: omap (part_of r) es | None => omap (part_of r) es end) = true).
  { intros -> Hs. by rewrite <-parts_run_settled, <-Hs, parts_run_settled. }
  destruct e as [| | |c q o ids|c [q|] f| | |c q o n u x| |]; cbn [event_step] in E; try (apply Hstay; [done|]; by simplify_eq).
  - apply Hstay; [done|]. unfold standing. destruct (decide (q = r)) as [->|Hne].
    + destruct (s !! r) as [[]|] eqn:Eq; simplify_eq; by rewrite ?lookup_insert_eq, ?Eq.
    + destruct (s !! q) as [[]|]; simplify_eq; by rewrite ?lookup_insert_ne.
  - destruct (s !! q) as [p|] eqn:Eq; [|done]. destruct (part_step p f) as [p'|] eqn:Ep; [|done]. destruct (named f) eqn:En; [|done].
    injection E as <-. destruct (decide (q = r)) as [->|Hne].
    + cbn [part_of]. rewrite String.eqb_refl. cbn [parts_run]. unfold standing in *. rewrite lookup_insert_eq in IH. rewrite Eq.
      change (default Begun (Some p)) with p. change (default Begun (Some p')) with p' in IH. rewrite En. cbn [andb]. assert (Es : part_step (settled p) f = Some p'); [|by rewrite Es].
      destruct p; try done; unfold part_step in Ep; by repeat case_match.
    + apply Hstay; [cbn; by rewrite (proj2 (String.eqb_neq q r))|]. unfold standing. by rewrite lookup_insert_ne.
  - apply Hstay; [done|]. destruct (s !! _) as [[]|]; by simplify_eq.
  - apply Hstay; [done|]. unfold standing. destruct (s !! q) as [[]|] eqn:Eq; simplify_eq. destruct (decide (q = r)) as [->|Hne].
    + rewrite lookup_insert_eq, Eq. apply settled_ended.
    + by rewrite lookup_insert_ne.
Qed.

Lemma replies_named first rid segments replies :
  replies_of first rid segments = Ok replies -> map cr_reply_id replies = take (length segments) (reply_names first rid segments).
Proof.
  revert first replies. induction segments as [|segment segments IH]; intros first replies; [by intros [= <-]|].
  rewrite replies_of_cons. intros (reply & Hr & (rest & Hrest & [= <-])%bind_ok)%bind_ok. cbn [map length reply_names take].
  rewrite (IH _ _ Hrest). f_equal. destruct segment as [|x seg]; [done|]. by destruct (ReplyFacts.segment_reply_fields _ _ _ _ _ Hr).
Qed.

Definition later_name (rid : string) (segment : list output_row) : string := rid ++ "~" ++ default "" (last_asked segment).

Lemma app_no_shorter rid c s : rid <> (rid ++ String c s)%string.
Proof. induction rid as [|a rid IH]; rewrite ?app_String, ?app_Empty; [done|]. by intros [= ?%IH]. Qed.

Lemma later_name_inj rid segment segment' :
  is_Some (last_asked segment) -> is_Some (last_asked segment') -> later_name rid segment = later_name rid segment' ->
  last_asked segment = last_asked segment'.
Proof.
  intros [i Ei] [i' Ei'] H. unfold later_name in H. rewrite Ei, Ei' in H. apply (inj (String.append rid)), (inj (String.append "~")) in H. change (i = i') in H. congruence.
Qed.

Lemma later_asked rid segment segments name :
  asked_between (segment :: segments) -> name ∈ take (length segments) (map (later_name rid) (segment :: segments)) ->
  exists segment', segment' ∈ segment :: segments /\ is_Some (last_asked segment') /\ name = later_name rid segment'.
Proof.
  revert segment. induction segments as [|next segments IH]; intros segment; [cbn; by intros _ ?%elem_of_nil|]. intros [Hs Ha].
  cbn [length map take]. intros [->|Hin]%elem_of_cons; [exists segment; split_and!; [left|done|done]|].
  destruct (IH next Ha Hin) as (s' & Hs' & Hr). exists s'. split; [by right|done].
Qed.

Lemma names_distinct rid first segments :
  asked_between segments -> NoDup (map last_asked segments) ->
  (forall segment, segment ∈ segments -> is_Some (last_asked segment) -> first <> later_name rid segment) ->
  NoDup (take (length segments) (first :: map (later_name rid) segments)).
Proof.
  revert first. induction segments as [|segment segments IH]; intros first Ha Hn Hf; [constructor|]. cbn [length take]. constructor.
  - intros Hin. destruct (later_asked _ _ _ _ Ha Hin) as (s' & Hs' & Hi & E). by apply (Hf s').
  - cbn [map] in Hn |- *. apply NoDup_cons in Hn as [Hni Hn]. destruct segments as [|next segments]; [constructor|]. destruct Ha as [Hs Ha].
    apply IH; [done..|]. intros s' Hs' Hi E. apply Hni. rewrite (later_name_inj _ _ _ Hs Hi E). by apply list_elem_of_fmap_2.
Qed.


Definition demo_rows : list output_row :=
  imap (fun i part => OutputRow "s1" (Z.of_nat i + 1) (Some demo_response_id) part 0) (parts_of demo_response_id demo_heard).

End ReplyContract.
