(* ===== verification/ChannelOutbox.v ===== *)
(** [persistence/repository/channel_repository.py] over the tables of
    [persistence/sql/models/channels.py]: the destinations subscribed to a session's output,
    the deliveries of its replies, and the messages and questions they showed.  Each method
    is one transaction.  Times are arguments; the columns no statement reads back
    ([created_at], [updated_at]) are left out. *)

From stdpp Require Import sorting.
From S2P Require Import Prelude PyVal Schema SessionRepo SessionRecord Reader.

Open Scope string_scope.

Module Outbox.
Import Repo Rec.

(** ** Tables *)

(** [channel_output_subscriptions]. *)
Record subscription_row := SubscriptionRow {
  sb_deployment_id : string;
  sb_session_id : string;
  sb_channel_name : string;
  sb_reply_context : dict;
  sb_conversation_key : option string;
  sb_streaming : bool;
  sb_after_seq : Z
}.

Inductive outbox_state := PENDING | SENDING | DELIVERED | DEAD.

#[export] Instance outbox_state_dec : EqDecision outbox_state.
Proof. solve_decision. Defined.

(** [channel_outbox]. *)
Record outbox_row := OutboxRow {
  ob_outbox_id : string;
  ob_deployment_id : string;
  ob_session_id : string;
  ob_response_id : string;
  ob_response_seq : Z;
  ob_channel_name : string;
  ob_conversation_key : option string;
  ob_reply_context : dict;
  ob_streaming : bool;
  ob_stream_started : bool;
  ob_state : outbox_state;
  ob_lease_owner : option string;
  ob_lease_generation : Z;
  ob_lease_expires_at : option Z;
  ob_attempts : Z;
  ob_last_error : option string;
  ob_next_attempt_at : option Z;
  ob_delivery_aliases : list string
}.

(** [channel_aliases]. *)
Record alias_row := AliasRow {
  al_deployment_id : string;
  al_alias : string;
  al_conversation_key : option string;
  al_session_id : string;
  al_interaction_ref : option string;
  al_question_index : option Z
}.

Inductive question_state := OPEN | ANSWERED | CLOSED.

#[export] Instance question_state_dec : EqDecision question_state.
Proof. solve_decision. Defined.

(** [channel_interactions]. *)
Record question_row := QuestionRow {
  qn_deployment_id : string;
  qn_ref : string;
  qn_session_id : string;
  qn_interaction_id : string;
  qn_conversation_key : option string;
  qn_channel_name : string;
  qn_reply_context : dict;
  qn_view : dict;
  qn_state : question_state;
  qn_question_index : Z;
  qn_answering_item : option string
}.

(** [channel_interaction_answers]. *)
Record answer_row := AnswerRow {
  an_deployment_id : string;
  an_ref : string;
  an_question_index : Z;
  an_answer_row : dict;
  an_choice : option string;
  an_participant : option string
}.

Record channels := Channels {
  ch_subscriptions : list subscription_row;
  ch_outbox : list outbox_row;
  ch_aliases : list alias_row;
  ch_questions : list question_row;
  ch_answers : list answer_row
}.

Definition with_subscriptions (t : list subscription_row) (c : channels) : channels :=
  Channels t (ch_outbox c) (ch_aliases c) (ch_questions c) (ch_answers c).
Definition with_outbox (t : list outbox_row) (c : channels) : channels :=
  Channels (ch_subscriptions c) t (ch_aliases c) (ch_questions c) (ch_answers c).
Definition with_aliases (t : list alias_row) (c : channels) : channels :=
  Channels (ch_subscriptions c) (ch_outbox c) t (ch_questions c) (ch_answers c).
Definition with_questions (t : list question_row) (c : channels) : channels :=
  Channels (ch_subscriptions c) (ch_outbox c) (ch_aliases c) t (ch_answers c).
Definition with_answers (t : list answer_row) (c : channels) : channels :=
  Channels (ch_subscriptions c) (ch_outbox c) (ch_aliases c) (ch_questions c) t.

(** An [UPDATE] of the outbox, with whether it changed one row. *)
Definition update_outbox (cond : outbox_row -> bool) (set : outbox_row -> outbox_row) (c : channels) : bool * channels :=
  (Nat.eqb (count_where cond (ch_outbox c)) 1, with_outbox (update_where cond set (ch_outbox c)) c).

(** [dict.fromkeys]. *)
Definition distinct (l : list string) : list string :=
  fold_left (fun acc a => if Py.in_strs a acc then acc else (acc ++ [a])%list) l [].

(** [_OUTBOX_LEASE_SECONDS], in the unit of the clock. *)
Definition OUTBOX_LEASE : Z := 300.

(** ** Conditions *)

Definition binds (deployment_id session_id : string) (s : subscription_row) : bool :=
  (sb_deployment_id s =s deployment_id) && (sb_session_id s =s session_id).

Definition is_reply (deployment_id session_id response_id : string) (r : outbox_row) : bool :=
  (ob_deployment_id r =s deployment_id) && (ob_session_id r =s session_id) && (ob_response_id r =s response_id).

(** A row that waits for its reply to complete. *)
Definition waiting (r : outbox_row) : bool := bool_decide (ob_state r = PENDING) && negb (bool_decide (is_Some (ob_next_attempt_at r))).

(** [_leased]. *)
Definition leased (outbox_id owner : string) (generation : Z) (r : outbox_row) : bool :=
  (ob_outbox_id r =s outbox_id) && bool_decide (ob_state r = SENDING) && opt_is owner (ob_lease_owner r) &&
  (ob_lease_generation r =? generation)%Z.

(** SQL's [t <= now], false of [NULL]. *)
Definition passed (now : Z) (t : option Z) : bool := match t with Some t => (t <=? now)%Z | None => false end.

(** [_outbox_due]. *)
Definition outbox_due (now : Z) (r : outbox_row) : bool :=
  match ob_state r with
  | PENDING => passed now (ob_next_attempt_at r)
  | SENDING => passed now (ob_lease_expires_at r)
  | _ => false
  end.

Definition undelivered (r : outbox_row) : bool := match ob_state r with PENDING | SENDING => true | _ => false end.

(** An earlier undelivered reply of the row's session to the same binding. *)
Definition goes_before (r earlier : outbox_row) : bool :=
  (ob_deployment_id earlier =s ob_deployment_id r) && (ob_session_id earlier =s ob_session_id r) && undelivered earlier &&
  (ob_response_seq earlier <? ob_response_seq r)%Z.

(** [_outbox_head]. *)
Definition outbox_head (t : list outbox_row) (r : outbox_row) : bool := negb (exists_where (goes_before r) t).

(** ** Subscriptions *)

(** [subscribe_to_output]. *)
Definition subscribe_to_output (sub : subscription_row) (c : channels) : channels :=
  with_subscriptions (insert_if_absent (fun a b => binds (sb_deployment_id a) (sb_session_id a) b) sub (ch_subscriptions c)) c.

Definition binding_le (a b : subscription_row) : Prop := Reader.str_le (sb_deployment_id a) (sb_deployment_id b).
#[local] Instance binding_le_dec a b : Decision (binding_le a b).
Proof. apply Reader.str_le_dec. Defined.

(** [session_output_subscriptions]; [enabled] holds of the enabled bindings of this environment. *)
Definition session_output_subscriptions (enabled : string -> bool) (session_id : string) (c : channels) : list subscription_row :=
  merge_sort binding_le
    (select_where (fun s => (sb_session_id s =s session_id) && enabled (sb_deployment_id s)) (ch_subscriptions c)).

(** [_ended_channel_question]. *)
Definition ended_channel_question (d : db) (q : question_row) : bool :=
  exists_where (fun i => (ia_session_id i =s qn_session_id q) && (ia_interaction_id i =s qn_interaction_id q) &&
    match ia_status i with
    | IWithdrawn | IExpired => true
    | IAnswered => negb (bool_decide (is_Some (qn_answering_item q)))
    | IOpen => false
    end) (db_interactions d).

Definition asks_for (deployment_id session_id : string) (d : db) (q : question_row) : bool :=
  (qn_deployment_id q =s deployment_id) && (qn_session_id q =s session_id) && bool_decide (qn_state q = OPEN) && ended_channel_question d q.

(** [tuple_(a) > tuple_(b)]. *)
Definition key_after (after : option (string * string)) (s : subscription_row) : bool :=
  match after with
  | None => true
  | Some (deployment_id, session_id) =>
      String.ltb deployment_id (sb_deployment_id s) ||
      ((sb_deployment_id s =s deployment_id) && String.ltb session_id (sb_session_id s))
  end.

Definition key_le (a b : subscription_row) : Prop :=
  String.ltb (sb_deployment_id a) (sb_deployment_id b) = true \/
  sb_deployment_id a = sb_deployment_id b /\ Reader.str_le (sb_session_id a) (sb_session_id b).
#[local] Instance key_le_dec a b : Decision (key_le a b).
Proof. unfold key_le, Reader.str_le. apply _. Defined.

(** [list_output_subscriptions]: the rows with work, each with whether its binding is enabled
    and its session deleted; [owned] holds of the environment's bindings. *)
Definition list_output_subscriptions (owned enabled deleted : string -> bool) (after : option (string * string)) (limit : nat)
  (d : db) (c : channels) : list (subscription_row * bool * bool) :=
  let output_past s := exists_where (fun o => output_of (sb_session_id s) o && (sb_after_seq s <? ou_seq o)%Z) (db_output d) in
  let question_ended s := exists_where (asks_for (sb_deployment_id s) (sb_session_id s) d) (ch_questions c) in
  let rows := select_where (fun s => owned (sb_deployment_id s) &&
      (negb (enabled (sb_deployment_id s)) || deleted (sb_session_id s) || output_past s || question_ended s) && key_after after s)
      (ch_subscriptions c) in
  map (fun s => (s, enabled (sb_deployment_id s), deleted (sb_session_id s))) (take limit (merge_sort key_le rows)).

Definition put_after (sequence : Z) (s : subscription_row) : subscription_row :=
  SubscriptionRow (sb_deployment_id s) (sb_session_id s) (sb_channel_name s) (sb_reply_context s) (sb_conversation_key s)
    (sb_streaming s) sequence.

(** [advance_output_subscription]. *)
Definition advance_output_subscription (deployment_id session_id : string) (expected_seq sequence : Z) (c : channels)
  : bool * channels :=
  let cond s := binds deployment_id session_id s && (sb_after_seq s =? expected_seq)%Z in
  (Nat.eqb (count_where cond (ch_subscriptions c)) 1,
   with_subscriptions (update_where cond (put_after sequence) (ch_subscriptions c)) c).

(** [_end_subscription], the whole of [remove_output_subscription]. *)
Definition remove_output_subscription (deployment_id session_id : string) (c : channels) : channels :=
  with_outbox (delete_where (fun r => (ob_deployment_id r =s deployment_id) && (ob_session_id r =s session_id) && waiting r) (ch_outbox c))
    (with_subscriptions (delete_where (binds deployment_id session_id) (ch_subscriptions c)) c).

(** ** Deliveries *)

Definition same_reply (a b : outbox_row) : bool := is_reply (ob_deployment_id a) (ob_session_id a) (ob_response_id a) b.

(** The row a method returns: the first under the unique key. *)
Definition reply_row (deployment_id session_id response_id : string) (c : channels) : option outbox_row :=
  List.find (is_reply deployment_id session_id response_id) (ch_outbox c).

Definition new_delivery (now : Z) (outbox_id deployment_id channel_name session_id : string) (response_seq : Z) (response_id : string)
  (reply_context : dict) (conversation_key : option string) (streaming due : bool) : outbox_row :=
  OutboxRow outbox_id deployment_id session_id response_id response_seq channel_name conversation_key reply_context streaming false
    PENDING None 0 None 0 None (if due then Some now else None) [].

(** [create_outbox_entry]; [outbox_id] is the new row's random name. *)
Definition create_outbox_entry (now : Z) (outbox_id deployment_id channel_name session_id : string) (response_seq : Z)
  (response_id : string) (reply_context : dict) (conversation_key : option string) (streaming due : bool) (c : channels)
  : option outbox_row * channels :=
  let row := new_delivery now outbox_id deployment_id channel_name session_id response_seq response_id reply_context conversation_key
               streaming due in
  let c' := with_outbox (insert_if_absent same_reply row (ch_outbox c)) c in
  (reply_row deployment_id session_id response_id c', c').

Definition put_state (s : outbox_state) (owner : option string) (generation : Z) (expires next : option Z) (r : outbox_row) : outbox_row :=
  OutboxRow (ob_outbox_id r) (ob_deployment_id r) (ob_session_id r) (ob_response_id r) (ob_response_seq r) (ob_channel_name r)
    (ob_conversation_key r) (ob_reply_context r) (ob_streaming r) (ob_stream_started r) s owner generation expires (ob_attempts r)
    (ob_last_error r) next (ob_delivery_aliases r).

Definition put_due (now : Z) (r : outbox_row) : outbox_row :=
  put_state (ob_state r) (ob_lease_owner r) (ob_lease_generation r) (ob_lease_expires_at r) (Some now) r.

(** [complete_reply]. *)
Definition complete_reply (now : Z) (deployment_id session_id response_id : string) (c : channels) : option outbox_row * channels :=
  let '(changed, c') := update_outbox (fun r => is_reply deployment_id session_id response_id r && waiting r) (put_due now) c in
  ((if changed then reply_row deployment_id session_id response_id c' else None), c').

(** [discard_reply]. *)
Definition discard_reply (deployment_id session_id response_id : string) (c : channels) : bool * channels :=
  update_outbox (fun r => is_reply deployment_id session_id response_id r && waiting r)
    (fun r => put_state DELIVERED (ob_lease_owner r) (ob_lease_generation r) (ob_lease_expires_at r) (ob_next_attempt_at r) r) c.

(** [claim_outbox_for_delivery]; [owned] holds of the environment's bindings. *)
Definition claim_outbox_for_delivery (owned : string -> bool) (now : Z) (outbox_id owner : string) (c : channels)
  : option outbox_row * channels :=
  let named r := ob_outbox_id r =s outbox_id in
  if exists_where (fun r => named r && outbox_due now r && outbox_head (ch_outbox c) r && owned (ob_deployment_id r)) (ch_outbox c) then
    let '(changed, c') := update_outbox (fun r => named r && outbox_due now r)
      (fun r => put_state SENDING (Some owner) (ob_lease_generation r + 1) (Some (now + OUTBOX_LEASE)%Z) None r) c in
    ((if changed then List.find named (ch_outbox c') else None), c')
  else (None, c).

(** [renew_outbox_lease]. *)
Definition renew_outbox_lease (now : Z) (outbox_id owner : string) (generation : Z) (c : channels) : bool * channels :=
  update_outbox (leased outbox_id owner generation)
    (fun r => put_state (ob_state r) (ob_lease_owner r) (ob_lease_generation r) (Some (now + OUTBOX_LEASE)%Z) (ob_next_attempt_at r) r) c.

Definition put_started (r : outbox_row) : outbox_row :=
  OutboxRow (ob_outbox_id r) (ob_deployment_id r) (ob_session_id r) (ob_response_id r) (ob_response_seq r) (ob_channel_name r)
    (ob_conversation_key r) (ob_reply_context r) (ob_streaming r) true (ob_state r) (ob_lease_owner r) (ob_lease_generation r)
    (ob_lease_expires_at r) (ob_attempts r) (ob_last_error r) (ob_next_attempt_at r) (ob_delivery_aliases r).

(** [mark_stream_started]. *)
Definition mark_stream_started (outbox_id owner : string) (generation : Z) (c : channels) : bool * channels :=
  update_outbox (fun r => leased outbox_id owner generation r && negb (ob_stream_started r)) put_started c.

Definition put_aliases (aliases : list string) (r : outbox_row) : outbox_row :=
  OutboxRow (ob_outbox_id r) (ob_deployment_id r) (ob_session_id r) (ob_response_id r) (ob_response_seq r) (ob_channel_name r)
    (ob_conversation_key r) (ob_reply_context r) (ob_streaming r) (ob_stream_started r) (ob_state r) (ob_lease_owner r)
    (ob_lease_generation r) (ob_lease_expires_at r) (ob_attempts r) (ob_last_error r) (ob_next_attempt_at r) aliases.

(** A question a delivery showed. *)
Record opening := Opening { op_ref : string; op_interaction_id : string; op_view : dict }.

Definition same_question (a b : question_row) : bool := (qn_deployment_id b =s qn_deployment_id a) && (qn_ref b =s qn_ref a).
Definition same_alias (a b : alias_row) : bool := (al_deployment_id b =s al_deployment_id a) && (al_alias b =s al_alias a).

(** SQL's [coalesce(a, b)]. *)
Definition coalesce {A} (a b : option A) : option A := match a with Some _ => a | None => b end.

(** The upsert of an alias: a receipt without a question keeps the question already shown. *)
Definition upsert_alias (t : list alias_row) (a : alias_row) : list alias_row :=
  if existsb (same_alias a) t
  then update_where (same_alias a)
         (fun b => AliasRow (al_deployment_id b) (al_alias b) (al_conversation_key a) (al_session_id a)
                     (coalesce (al_interaction_ref a) (al_interaction_ref b)) (coalesce (al_question_index a) (al_question_index b))) t
  else (t ++ [a])%list.

(** [record_delivery_aliases]. *)
Definition record_delivery_aliases (outbox_id owner : string) (generation : Z) (aliases : list string) (interaction : option opening)
  (c : channels) : bool * channels :=
  let recorded := distinct aliases in
  let '(changed, c1) := update_outbox (leased outbox_id owner generation) (put_aliases recorded) c in
  match (if changed then List.find (fun r => ob_outbox_id r =s outbox_id) (ch_outbox c1) else None) with
  | None => (false, c1)
  | Some row =>
      let c2 := match interaction with
                | None => c1
                | Some o =>
                    with_questions (insert_if_absent same_question
                      (QuestionRow (ob_deployment_id row) (op_ref o) (ob_session_id row) (op_interaction_id o) (ob_conversation_key row)
                         (ob_channel_name row) (ob_reply_context row) (op_view o) OPEN 0 None) (ch_questions c1)) c1
                end in
      let ref := op_ref <$> interaction in
      let values := map (fun alias => AliasRow (ob_deployment_id row) alias (ob_conversation_key row) (ob_session_id row) ref
                                        (match ref with Some _ => Some 0%Z | None => None end)) recorded in
      (true, with_aliases (fold_left upsert_alias values (ch_aliases c2)) c2)
  end.

(** [mark_outbox_delivered]. *)
Definition mark_outbox_delivered (outbox_id owner : string) (generation : Z) (c : channels) : bool * channels :=
  update_outbox (leased outbox_id owner generation) (fun r => put_state DELIVERED None (ob_lease_generation r) None None r) c.

(** A failed attempt: due after the next wait while retries remain, dead afterwards; [error]
    is what the row keeps of the error's text. *)
Definition put_failure (now : Z) (error : string) (backoff : list Z) (retry : bool) (r : outbox_row) : outbox_row :=
  let retries := if retry then length backoff else 0 in
  let again := (ob_attempts r <? Z.of_nat retries)%Z in
  let next := if Nat.eqb retries 0 then None
              else if (ob_attempts r <? 0)%Z then None else (fun wait => (now + wait)%Z) <$> backoff !! Z.to_nat (ob_attempts r) in
  OutboxRow (ob_outbox_id r) (ob_deployment_id r) (ob_session_id r) (ob_response_id r) (ob_response_seq r) (ob_channel_name r)
    (ob_conversation_key r) (ob_reply_context r) (ob_streaming r) (ob_stream_started r)
    (if Nat.eqb retries 0 then DEAD else if again then PENDING else DEAD) None (ob_lease_generation r) None (ob_attempts r + 1)
    (Some error) next (ob_delivery_aliases r).

(** [record_outbox_failure]. *)
Definition record_outbox_failure (now : Z) (outbox_id owner : string) (generation : Z) (error : string) (backoff : list Z) (retry : bool)
  (c : channels) : option outbox_state * channels :=
  let '(changed, c') := update_outbox (leased outbox_id owner generation) (put_failure now error backoff retry) c in
  ((if changed then ob_state <$> List.find (fun r => ob_outbox_id r =s outbox_id) (ch_outbox c') else None), c').

(** [release_outbox_lease]. *)
Definition release_outbox_lease (now : Z) (outbox_id owner : string) (generation : Z) (c : channels) : bool * channels :=
  update_outbox (leased outbox_id owner generation) (fun r => put_state PENDING None (ob_lease_generation r) None (Some now) r) c.

(** When a due row became due. *)
Definition due_at (r : outbox_row) : option Z :=
  match ob_state r with PENDING => ob_next_attempt_at r | _ => ob_lease_expires_at r end.

Definition due_le (a b : outbox_row) : Prop :=
  (default 0 (due_at a) < default 0 (due_at b))%Z \/
  default 0%Z (due_at a) = default 0%Z (due_at b) /\ Reader.str_le (ob_outbox_id a) (ob_outbox_id b).
#[local] Instance due_le_dec a b : Decision (due_le a b).
Proof. unfold due_le, Reader.str_le. apply _. Defined.

(** [list_pending_outbox]. *)
Definition list_pending_outbox (owned : string -> bool) (limit : nat) (now : Z) (deployment_id session_id : option string) (c : channels)
  : list outbox_row :=
  take limit (merge_sort due_le (select_where (fun r =>
    outbox_due now r && outbox_head (ch_outbox c) r && owned (ob_deployment_id r) &&
    match deployment_id with Some x => ob_deployment_id r =s x | None => true end &&
    match session_id with Some x => ob_session_id r =s x | None => true end) (ch_outbox c))).

(** ** Messages and questions *)

(** [link_alias]. *)
Definition link_alias (deployment_id existing_alias new_alias : string) (c : channels) : option alias_row * channels :=
  let named alias a := (al_deployment_id a =s deployment_id) && (al_alias a =s alias) in
  match List.find (named existing_alias) (ch_aliases c) with
  | None => (None, c)
  | Some anchor =>
      let c' := with_aliases (upsert_alias (ch_aliases c)
        (AliasRow deployment_id new_alias (al_conversation_key anchor) (al_session_id anchor) (al_interaction_ref anchor)
           (al_question_index anchor))) c in
      (List.find (named new_alias) (ch_aliases c'), c')
  end.

(** [record_question_aliases]. *)
Definition record_question_aliases (deployment_id : string) (aliases : list string) (conversation_key : option string)
  (session_id interaction_ref : string) (question_index : Z) (c : channels) : channels :=
  with_aliases (fold_left upsert_alias
    (map (fun alias => AliasRow deployment_id alias conversation_key session_id (Some interaction_ref) (Some question_index)) (distinct aliases))
    (ch_aliases c)) c.

(** [resolve_alias]. *)
Definition resolve_alias (deployment_id alias : string) (c : channels) : option alias_row :=
  List.find (fun a => (al_deployment_id a =s deployment_id) && (al_alias a =s alias)) (ch_aliases c).

Definition put_question (state : question_state) (index : Z) (item : option string) (q : question_row) : question_row :=
  QuestionRow (qn_deployment_id q) (qn_ref q) (qn_session_id q) (qn_interaction_id q) (qn_conversation_key q) (qn_channel_name q)
    (qn_reply_context q) (qn_view q) state index item.

(** [close_ended_channel_questions]. *)
Definition close_ended_channel_questions (deployment_id session_id : string) (d : db) (c : channels) : channels :=
  with_questions (update_where (asks_for deployment_id session_id d)
    (fun q => put_question CLOSED (qn_question_index q) (qn_answering_item q) q) (ch_questions c)) c.

Definition asked_as (deployment_id ref : string) (q : question_row) : bool := (qn_deployment_id q =s deployment_id) && (qn_ref q =s ref).
Definition answer_of (deployment_id ref : string) (a : answer_row) : bool := (an_deployment_id a =s deployment_id) && (an_ref a =s ref).

Definition index_le (a b : answer_row) : Prop := (an_question_index a <= an_question_index b)%Z.
#[local] Instance index_le_dec a b : Decision (index_le a b).
Proof. unfold index_le. apply _. Defined.

(** [get_channel_interaction]. *)
Definition get_channel_interaction (deployment_id ref : string) (c : channels) : option (question_row * list answer_row) :=
  q ← List.find (asked_as deployment_id ref) (ch_questions c);
  Some (q, merge_sort index_le (select_where (answer_of deployment_id ref) (ch_answers c))).

Definition same_answer (a b : answer_row) : bool :=
  answer_of (an_deployment_id a) (an_ref a) b && (an_question_index b =? an_question_index a)%Z.

(** A question's answer: the question moves under the condition, then the answer is kept
    under its own key. *)
Definition keep_answer (cond : question_row -> bool) (set : question_row -> question_row) (a : answer_row) : txn channels bool :=
  c ← get_state;
  if Nat.eqb (count_where cond (ch_questions c)) 1 then
    _ ← modify (fun c => with_questions (update_where cond set (ch_questions c)) c);
    _ ← modify_res (fun c => t ← insert_unique same_answer a (ch_answers c); Ok (with_answers t c));
    mret true
  else mret false.

Definition asking_now (deployment_id ref : string) (question_index : Z) (q : question_row) : bool :=
  asked_as deployment_id ref q && bool_decide (qn_state q = OPEN) && (qn_question_index q =? question_index)%Z.

(** [record_channel_answer]. *)
Definition record_channel_answer (a : answer_row) : channels -> res bool * channels :=
  transaction (keep_answer (asking_now (an_deployment_id a) (an_ref a) (an_question_index a))
    (fun q => put_question (qn_state q) (qn_question_index q + 1) (qn_answering_item q) q) a).

(** [stage_channel_answer]. *)
Definition stage_channel_answer (item_id : string) (a : answer_row) : channels -> res bool * channels :=
  transaction (keep_answer
    (fun q => asking_now (an_deployment_id a) (an_ref a) (an_question_index a) q && negb (bool_decide (is_Some (qn_answering_item q))))
    (fun q => put_question (qn_state q) (qn_question_index q) (Some item_id) q) a).

(** [settle_channel_interaction]. *)
Definition settle_channel_interaction (deployment_id ref : string) (state : question_state) (c : channels) : res bool * channels :=
  match state with
  | OPEN => (Raise ValueError, c)
  | _ =>
      let cond q := asked_as deployment_id ref q && bool_decide (qn_state q = OPEN) in
      (Ok (Nat.eqb (count_where cond (ch_questions c)) 1),
       with_questions (update_where cond (fun q => put_question state (qn_question_index q) (qn_answering_item q) q) (ch_questions c)) c)
  end.
End Outbox.
