(* ===== verification/ChannelProjector.v ===== *)
(** The deliveries of [channel_ingress_service.py]: how a subscription turns the replies of
    its session into rows of the outbox, one await after another. *)

From stdpp Require Import sorting.
From S2P Require Import Prelude PyVal Schema SessionRepo SessionRecord UiMessage ChannelReplies ChannelOutbox.

Open Scope string_scope.

Module Projector.
Import Repo Rec Replies Outbox.

(** [REPLY_BOUNDARY_PARTS]. *)
Definition REPLY_BOUNDARY_PARTS : list string := ["start"; "finish"].

(** [part.get("type") in REPLY_BOUNDARY_PARTS]. *)
Definition is_boundary (part : dict) : res bool :=
  let kind := Py.get "type" part in
  if Py.hashable kind then Ok (existsb (fun s => Py.eqb kind (VStr s)) REPLY_BOUNDARY_PARTS) else Raise TypeError.

(** [any(..)] over a batch's parts: whether [on_facts] projects. *)
Fixpoint any_boundary (parts : list dict) : res bool :=
  match parts with
  | [] => Ok false
  | part :: rest => b ← is_boundary part; if b : bool then Ok true else any_boundary rest
  end.

Definition concerns_channels (batch : FactBatch) : res bool := any_boundary (map op_part (fb_output batch)).

(** [_reply_through]. *)
Definition reply_through (session_id response_id : string) (seq : Z) (d : db) : res (option ChannelReply) :=
  replies ← reply_segments response_id (output_for_responses session_id [response_id] (Some seq) d);
  Ok (last replies).

(** The body of the loop over a page's rows: the delivery that became due, if one did.  The
    reply is read and its row written in two awaits; what is read is of the log up to the
    row, which no later write changes. *)
Definition project_row (now : Z) (outbox_id : string) (sub : subscription_row) (row : output_row) (d : db) (c : channels)
  : res (option outbox_row) * channels :=
  let session_id := sb_session_id sub in
  let deployment_id := sb_deployment_id sub in
  let response_id := default "" (ou_response_id row) in
  let seq := ou_seq row in
  if Py.is_empty response_id then (Ok None, c)
  else
    match is_boundary (ou_part row) with
    | Raise e => (Raise e, c)
    | Ok false => (Ok None, c)
    | Ok true =>
        match reply_through session_id response_id seq d with
        | Raise e => (Raise e, c)
        | Ok None => (Ok None, c)
        | Ok (Some reply) =>
            if negb (cr_channel_delivery reply) then (Ok None, c)
            else if kind_is "start" row && (cr_first_seq reply =? seq)%Z then
              let '(entry, c') := create_outbox_entry now outbox_id deployment_id (sb_channel_name sub) session_id (cr_first_seq reply)
                                    (cr_reply_id reply) (sb_reply_context sub) (sb_conversation_key sub) (sb_streaming sub)
                                    (sb_streaming sub) c in
              match entry with
              | None => (Raise AssertionError, c')
              | Some entry => (Ok (if sb_streaming sub && bool_decide (ob_state entry = PENDING) then Some entry else None), c')
              end
            else if kind_is "finish" row && negb (sb_streaming sub) && cr_complete reply && (cr_last_seq reply =? seq)%Z then
              if negb (Py.is_empty (Py.strip (cr_text reply))) || bool_decide (is_Some (cr_interaction_id reply)) then
                let '(completed, c') := complete_reply now deployment_id session_id (cr_reply_id reply) c in (Ok completed, c')
              else (Ok None, snd (discard_reply deployment_id session_id (cr_reply_id reply) c))
            else (Ok None, c)
        end
    end.

(** ** [_project_subscription] *)

(** A call in flight: the subscription it was given, its cursor, the page it is in with the
    rows not taken yet, and the deliveries due so far. *)
Record projector := MkProjector {
  pj_sub : subscription_row;
  pj_cursor : Z;
  pj_page : option (list output_row * list output_row);
  pj_due : list outbox_row
}.

Definition begin (sub : subscription_row) : projector := MkProjector sub (sb_after_seq sub) None [].

(** The call up to its loop: the questions that ended are closed first. *)
Definition start_projection (sub : subscription_row) (d : db) (c : channels) : projector * channels :=
  (begin sub, close_ended_channel_questions (sb_deployment_id sub) (sb_session_id sub) d c).

(** Where an await leaves the call: in flight, returned with what became due, or raised. *)
Inductive call := Running (p : projector) | Returned (due : list outbox_row) | Raised (e : exn).

Definition next_page (d : db) (p : projector) : call :=
  match read_output (sb_session_id (pj_sub p)) (pj_cursor p) OUTPUT_PAGE d with
  | [] => Returned (pj_due p)
  | rows => Running (MkProjector (pj_sub p) (pj_cursor p) (Some (rows, rows)) (pj_due p))
  end.

Definition project_next (now : Z) (outbox_id : string) (page rest : list output_row) (row : output_row) (d : db) (p : projector) (c : channels)
  : call * channels :=
  match project_row now outbox_id (pj_sub p) row d c with
  | (Ok due, c') =>
      (Running (MkProjector (pj_sub p) (pj_cursor p) (Some (page, rest)) (pj_due p ++ match due with Some e => [e] | None => [] end)%list), c')
  | (Raise e, c') => (Raised e, c')
  end.

Definition move_on (page : list output_row) (p : projector) (c : channels) : call * channels :=
  let last_seq := match last page with Some row => ou_seq row | None => pj_cursor p end in
  let '(moved, c') := advance_output_subscription (sb_deployment_id (pj_sub p)) (sb_session_id (pj_sub p)) (pj_cursor p) last_seq c in
  if negb moved then (Returned (pj_due p), c')
  else if (length page <? OUTPUT_PAGE)%nat then (Returned (pj_due p), c')
  else (Running (MkProjector (pj_sub p) last_seq None (pj_due p)), c').

(** One await of the call. *)
Definition resume (now : Z) (outbox_id : string) (d : db) (p : projector) (c : channels) : call * channels :=
  match pj_page p with
  | None => (next_page d p, c)
  | Some (page, row :: rest) => project_next now outbox_id page rest row d p c
  | Some (page, []) => move_on page p c
  end.
End Projector.
