(* ===== verification/ProjectorFacts.v ===== *)
(** Deliveries: every reply of a subscribed session gets one, whatever projectors, crashes
    and deliverers interleave, and they leave in the session's order. *)

From stdpp Require Import sorting.
From S2P Require Import Prelude Effects PyVal Schema SessionRepo SessionRecord UiMessage SessionReads ReaderFacts Reader Follow ResponseFolds DemoStore ChannelReplies ReplyFacts ChannelOutbox ChannelProjector.

Open Scope string_scope.

Module ProjectorFacts.
Import Repo Rec Replies ReplyFacts Outbox Projector.

(** ** What the log says of deliveries *)

Lemma put_after_same s : put_after (sb_after_seq s) s = s.
Proof. by destruct s. Qed.

Section Binding.
(** The binding, its session and the subscription it made. *)
Variable sub0 : subscription_row.
Abbreviation dep := (sb_deployment_id sub0).
Abbreviation sid := (sb_session_id sub0).
Abbreviation s0 := (sb_after_seq sub0).

Definition part_response (row : output_row) : string := default "" (ou_response_id row).

(** The reply a row starts or ends, if channels get it. *)
Record speaks (d : db) (row : output_row) (reply : ChannelReply) : Prop := {
  sp_row : row ∈ session_log sid d;
  sp_response : Py.is_empty (part_response row) = false;
  sp_reply : reply_through sid (part_response row) (ou_seq row) d = Ok (Some reply);
  sp_channel : cr_channel_delivery reply = true
}.

Definition opens (d : db) (row : output_row) (reply : ChannelReply) : Prop :=
  speaks d row reply /\ kind_is "start" row = true /\ cr_first_seq reply = ou_seq row.

Definition ends (d : db) (row : output_row) (reply : ChannelReply) : Prop :=
  speaks d row reply /\ kind_is "finish" row = true /\ cr_complete reply = true /\ cr_last_seq reply = ou_seq row.

(** Replies have names of their own. *)
Definition named_apart (d : db) : Prop :=
  forall row row' reply reply', opens d row reply -> opens d row' reply' -> cr_reply_id reply = cr_reply_id reply' -> row = row'.

Lemma reply_through_grows d d' row rid :
  Folds.log_grows d d' -> row ∈ session_log sid d -> reply_through sid rid (ou_seq row) d' = reply_through sid rid (ou_seq row) d.
Proof.
  intros Hg Hrow. pose proof Hg as (Hd & Hd' & _). unfold reply_through. rewrite !response_log by done.
  destruct (log_appends sid d d' Hg) as [new E]. pose proof (log_rows sid d' Hd') as Hs. rewrite E in Hs |- *.
  apply increasing_app in Hs as (_ & _ & Hlt). rewrite List.filter_app, upto_app.
  assert (Hn : upto (ou_seq row) (List.filter (in_response rid) new) = []); [|by rewrite Hn, app_nil_r]. apply rows_none.
  intros x [Hx _]%list_elem_of_In%List.filter_In. apply Z.leb_gt. apply Hlt; [done|by apply list_elem_of_In].
Qed.

Lemma log_grows_in d d' row : Folds.log_grows d d' -> row ∈ session_log sid d -> row ∈ session_log sid d'.
Proof. intros Hg Hr. destruct (log_appends sid d d' Hg) as [new ->]. apply elem_of_app. by left. Qed.

Lemma speaks_grows d d' row reply : Folds.log_grows d d' -> speaks d row reply -> speaks d' row reply.
Proof. intros Hg [H1 H2 H3 H4]. split; [by eapply log_grows_in|done|by erewrite reply_through_grows|done]. Qed.

Lemma speaks_back d d' row reply : Folds.log_grows d d' -> row ∈ session_log sid d -> speaks d' row reply -> speaks d row reply.
Proof. intros Hg Hr [_ H2 H3 H4]. split; [done|done|by erewrite <-reply_through_grows|done]. Qed.

(** Rows of the log come in the order of their numbers, once each. *)
Lemma increasing_NoDup (l : list Z) : StronglySorted Z.lt l -> NoDup l.
Proof.
  induction 1 as [|z l Hs IH Hz]; [constructor|]. constructor; [|done]. intros Hin. rewrite Forall_forall in Hz. specialize (Hz z Hin). lia.
Qed.

Lemma log_seq_inj d row row' :
  Folds.numbered d -> row ∈ session_log sid d -> row' ∈ session_log sid d -> ou_seq row = ou_seq row' -> row = row'.
Proof. intros Hd Hr Hr' E. eapply (NoDup_map_inj ou_seq); [|done..]. by apply increasing_NoDup, log_rows. Qed.

(** A place in the log: where the subscription began, or a row's number. *)
Definition reached (d : db) (z : Z) : Prop := z = s0 \/ exists row, row ∈ session_log sid d /\ ou_seq row = z.

Lemma reached_grows d d' z : Folds.log_grows d d' -> reached d z -> reached d' z.
Proof. intros Hg [->|(row & Hr & E)]; [by left|right]. exists row. split; [by eapply log_grows_in|done]. Qed.

(** What the log has gained lies past every place in it. *)
Lemma grown_row d d' row z :
  Folds.log_grows d d' -> row ∈ session_log sid d' -> reached d z -> (s0 < ou_seq row <= z)%Z -> row ∈ session_log sid d.
Proof.
  intros Hg Hr [->|(row0 & H0 & <-)] Hle; [lia|]. destruct (log_appends sid d d' Hg) as [new E].
  pose proof (log_rows sid d' (proj1 (proj2 Hg))) as Hs. rewrite E in Hr, Hs. apply increasing_app in Hs as (_ & _ & Hlt).
  apply elem_of_app in Hr as [Hr|Hr]; [done|]. specialize (Hlt row0 row H0 Hr). lia.
Qed.

(** ** What the outbox holds of them *)

Definition bound (r : outbox_row) : Prop := ob_deployment_id r = dep /\ ob_session_id r = sid.

(** The binding's row of a reply. *)
Definition row_of (reply : ChannelReply) (r : outbox_row) : Prop := bound r /\ ob_response_id r = cr_reply_id reply.

(** Every reply that starts up to a place has its row. *)
Definition opened_upto (d : db) (t : list outbox_row) (z : Z) : Prop :=
  forall row reply, opens d row reply -> (s0 < ou_seq row <= z)%Z -> exists r, r ∈ t /\ row_of reply r.

(** No reply that ended up to a place waits. *)
Definition ended_upto (d : db) (t : list outbox_row) (z : Z) : Prop :=
  sb_streaming sub0 = false -> forall row reply, ends d row reply -> (s0 < ou_seq row <= z)%Z ->
  forall r, r ∈ t -> row_of reply r -> ob_response_seq r = cr_first_seq reply -> waiting r = false.

Definition done_upto (d : db) (t : list outbox_row) (z : Z) : Prop := reached d z /\ opened_upto d t z /\ ended_upto d t z.

Lemma opens_back d d' row reply z :
  Folds.log_grows d d' -> reached d z -> (s0 < ou_seq row <= z)%Z -> opens d' row reply -> opens d row reply.
Proof.
  intros Hg Hz Hle [H H']. split; [|done]. eapply speaks_back; [done| |done]. eapply grown_row; [done|apply (sp_row _ _ _ H)|done..].
Qed.

Lemma ends_back d d' row reply z :
  Folds.log_grows d d' -> reached d z -> (s0 < ou_seq row <= z)%Z -> ends d' row reply -> ends d row reply.
Proof.
  intros Hg Hz Hle [H H']. split; [|done]. eapply speaks_back; [done| |done]. eapply grown_row; [done|apply (sp_row _ _ _ H)|done..].
Qed.

Lemma done_grows d d' t z : Folds.log_grows d d' -> done_upto d t z -> done_upto d' t z.
Proof.
  intros Hg (Hz & Ho & He). split_and!; [by eapply reached_grows| |].
  - intros row reply Hr Hle. apply (Ho row); [|done]. by eapply opens_back.
  - intros Hs row reply Hr Hle. apply (He Hs row); [|done]. by eapply ends_back.
Qed.

(** *** Changes of the outbox *)

Definition key (r : outbox_row) : string * string * string := (ob_deployment_id r, ob_session_id r, ob_response_id r).

(** A row changes but for what it is; it is claimed only at the head of its session's rows,
    and does not begin to wait. *)
Record row_moves (t : list outbox_row) (r r' : outbox_row) : Prop := {
  mv_id : ob_outbox_id r' = ob_outbox_id r;
  mv_key : key r' = key r;
  mv_seq : ob_response_seq r' = ob_response_seq r;
  mv_generation : ob_lease_generation r' = ob_lease_generation r \/ outbox_head t r = true;
  mv_attempts : (0 <= ob_attempts r)%Z -> (0 <= ob_attempts r')%Z;
  mv_settled : undelivered r = false -> undelivered r' = false;
  mv_waits : waiting r' = true -> waiting r = true
}.

(** The binding's rows move; no row is added. *)
Record moves (t t' : list outbox_row) : Prop := {
  mo_to : forall r, r ∈ t -> bound r -> exists r', r' ∈ t' /\ row_moves t r r';
  mo_from : forall r', r' ∈ t' -> bound r' -> exists r, r ∈ t /\ row_moves t r r';
  mo_keys : map key t' `sublist_of` map key t;
  mo_ids : map ob_outbox_id t' `sublist_of` map ob_outbox_id t;
  mo_sound : Forall (fun r => (0 <= ob_attempts r)%Z) t -> Forall (fun r => (0 <= ob_attempts r)%Z) t'
}.

Lemma row_moves_refl t r : row_moves t r r.
Proof. split; auto. Qed.

Lemma moves_refl t : moves t t.
Proof. split; try done; intros r Hr _; exists r; (split; [done|apply row_moves_refl]). Qed.

Lemma moves_update cond set t : (forall r, r ∈ t -> cond r = true -> row_moves t r (set r)) -> moves t (update_where cond set t).
Proof.
  intros H. assert (Hr : forall r, r ∈ t -> row_moves t r (if cond r then set r else r)).
  { intros r Hr. destruct (cond r) eqn:E; [by apply H|apply row_moves_refl]. }
  split.
  - intros r Hin _. exists (if cond r then set r else r). split; [apply elem_of_update_where; eauto|by apply Hr].
  - intros r' (r & Hin & ->)%elem_of_update_where _. exists r. split; [done|by apply Hr].
  - unfold update_where. rewrite map_map. erewrite (map_ext_in _ key); [done|]. intros r Hin%list_elem_of_In. apply Hr, Hin.
  - unfold update_where. rewrite map_map. erewrite (map_ext_in _ ob_outbox_id); [done|]. intros r Hin%list_elem_of_In. apply Hr, Hin.
  - intros Hs. apply Forall_forall. intros r' (r & Hin & ->)%elem_of_update_where. rewrite Forall_forall in Hs. apply Hr; [done|by apply Hs].
Qed.

Lemma bound_key r r' : key r' = key r -> bound r <-> bound r'.
Proof. unfold key, bound. intros [= E1 E2 _]. by rewrite E1, E2. Qed.

Lemma row_of_key reply r r' : key r' = key r -> row_of reply r <-> row_of reply r'.
Proof. unfold key, row_of, bound. intros [= E1 E2 E3]. by rewrite E1, E2, E3. Qed.

Lemma opened_moves d t t' z : moves t t' -> opened_upto d t z -> opened_upto d t' z.
Proof.
  intros Hm Ho row reply Hr Hle. destruct (Ho row reply Hr Hle) as (r & Hin & Hrow). destruct (mo_to _ _ Hm r Hin (proj1 Hrow)) as (r' & Hin' & Hm').
  exists r'. split; [done|]. by apply (row_of_key _ _ _ (mv_key _ _ _ Hm')).
Qed.

Lemma done_moves d t t' z : moves t t' -> done_upto d t z -> done_upto d t' z.
Proof.
  intros Hm (Hz & Ho & He). split_and!; [done|by eapply opened_moves|].
  intros Hs row reply Hr Hle r' Hin' Hrow' Hseq. destruct (mo_from _ _ Hm r' Hin' (proj1 Hrow')) as (r & Hin & Hm').
  apply not_true_iff_false. intros Hw%(mv_waits _ _ _ Hm'). rewrite (He Hs row reply Hr Hle r Hin) in Hw; [done| |].
  - by apply (row_of_key _ _ _ (mv_key _ _ _ Hm')).
  - by rewrite <-(mv_seq _ _ _ Hm').
Qed.

Lemma first_before d row reply : Folds.numbered d -> speaks d row reply -> (cr_first_seq reply <= ou_seq row)%Z.
Proof.
  intros Hd [_ _ Hr _]. unfold reply_through in Hr. apply bind_ok in Hr as (replies & Hs & [= Hl]). rewrite response_log in Hs by done.
  apply segments_cut in Hs. apply last_Some in Hl as [l' ->]. apply Forall_app in Hs as [_ (a & x & seg & b & E & _ & _ & _ & Hx)%Forall_singleton].
  destruct (segment_reply_fields _ _ _ _ _ Hx) as (_ & _ & -> & _).
  assert (Hin : x ∈ upto (ou_seq row) (List.filter (in_response (part_response row)) (session_log sid d))) by (rewrite E; set_solver).
  apply list_elem_of_In, List.filter_In in Hin as [_ Hle]. by apply Z.leb_le in Hle.
Qed.

(** A new row for a reply that has none. *)
Lemma done_insert d t z row reply r :
  Folds.numbered d -> opens d row reply -> (s0 < ou_seq row)%Z -> row_of reply r -> ob_response_seq r = ou_seq row ->
  (forall r', r' ∈ t -> row_of reply r' -> False) -> done_upto d t z -> done_upto d (t ++ [r]) z.
Proof.
  intros Hd Hop Hs Hr Hseq Hnew (Hz & Ho & He). split_and!; [done| |].
  - intros row' reply' Hr' Hle. destruct (Ho row' reply' Hr' Hle) as (r' & Hin & H'). exists r'. split; [apply elem_of_app; by left|done].
  - intros Hst row' reply' Hend Hle r' [Hin| ->%list_elem_of_singleton]%elem_of_app Hrow' Hseq'; [by eapply He|]. exfalso.
    destruct Hop as (Hsp & Hk & Hf). pose proof (first_before _ _ _ Hd (proj1 Hend)) as Hfirst.
    destruct (Ho row reply) as (r0 & H0 & Hr0); [by split|lia|]. by eapply Hnew.
Qed.

(** ** The methods that deliveries call *)

Definition sound (t : list outbox_row) : Prop := Forall (fun r => (0 <= ob_attempts r)%Z) t.

Inductive delivers (c : channels) : channels -> Prop :=
| Claims owned now id owner : delivers c (snd (claim_outbox_for_delivery owned now id owner c))
| Renews now id owner generation : delivers c (snd (renew_outbox_lease now id owner generation c))
| StartsStream id owner generation : delivers c (snd (mark_stream_started id owner generation c))
| Records id owner generation aliases shown : delivers c (snd (record_delivery_aliases id owner generation aliases shown c))
| Marks id owner generation : delivers c (snd (mark_outbox_delivered id owner generation c))
| Fails now id owner generation error backoff retry :
    delivers c (snd (record_outbox_failure now id owner generation error backoff retry c))
| Releases now id owner generation : delivers c (snd (release_outbox_lease now id owner generation c)).

Lemma leased_sending id owner generation r : leased id owner generation r = true -> ob_state r = SENDING.
Proof. unfold leased. intros H. bool_prop. done. Qed.

Lemma due_undelivered now r : outbox_due now r = true -> undelivered r = true.
Proof. unfold outbox_due, undelivered. by destruct (ob_state r). Qed.

Lemma failure_moves t now error backoff retry r :
  (0 <= ob_attempts r)%Z -> ob_state r = SENDING -> row_moves t r (put_failure now error backoff retry r).
Proof.
  intros Ha Hs. split; try done; cbn; [by left|lia| |].
  - unfold undelivered at 1. by rewrite Hs.
  - unfold waiting. cbn. destruct (Nat.eqb (if retry then length backoff else 0) 0) eqn:E0; [done|].
    destruct (ob_attempts r <? _)%Z eqn:E1; [|done]. rewrite (proj2 (Z.ltb_ge _ _) Ha). apply Z.ltb_lt in E1.
    destruct (lookup_lt_is_Some_2 backoff (Z.to_nat (ob_attempts r))) as [wait ->]; [destruct retry; lia|]. cbn. by rewrite andb_false_r.
Qed.

Lemma claim_moves owned now id owner c :
  NoDup (map ob_outbox_id (ch_outbox c)) -> moves (ch_outbox c) (ch_outbox (snd (claim_outbox_for_delivery owned now id owner c))).
Proof.
  intros Hn. unfold claim_outbox_for_delivery. destruct (exists_where _ _) eqn:E; [|apply moves_refl]. cbn. apply moves_update.
  apply existsb_true in E as (r0 & H0 & E). bool_prop. intros r Hr [Hid Hdue%due_undelivered]%andb_true_iff. bool_prop.
  assert (r = r0) as -> by (eapply (NoDup_map_inj ob_outbox_id); [done..|congruence]). split; try done; cbn; [by right|congruence].
Qed.

Lemma lease_moves id owner generation set c :
  (forall r, ob_state r = SENDING -> r ∈ ch_outbox c -> row_moves (ch_outbox c) r (set r)) ->
  moves (ch_outbox c) (update_where (leased id owner generation) set (ch_outbox c)).
Proof. intros H. apply moves_update. intros r Hr Hl%leased_sending. by apply H. Qed.

Lemma delivers_moves c c' :
  sound (ch_outbox c) -> NoDup (map ob_outbox_id (ch_outbox c)) -> delivers c c' ->
  moves (ch_outbox c) (ch_outbox c') /\ ch_subscriptions c' = ch_subscriptions c.
Proof.
  intros Hs Hn Hd. destruct Hd; cbn [snd].
  - split; [by apply claim_moves|]. unfold claim_outbox_for_delivery. by destruct (exists_where _ _).
  - split; [|done]. apply lease_moves. intros r _ _. split; auto.
  - split; [|done]. apply moves_update. intros r _ _. split; auto.
  - unfold record_delivery_aliases, update_outbox. cbn. set (t := update_where _ _ _).
    assert (Ht : moves (ch_outbox c) t) by (apply lease_moves; intros r _ _; split; auto).
    destruct (Nat.eqb _ _); [|by split]. destruct (List.find _ _) as [row|]; [|by split]. by destruct shown.
  - split; [|done]. apply lease_moves. intros r _ _. split; auto; done.
  - split; [|done]. apply lease_moves. intros r Hr Hin. unfold sound in Hs. rewrite Forall_forall in Hs. apply failure_moves; auto.
  - split; [|done]. apply lease_moves. intros r Hr _. split; auto; cbn; [|done]. unfold undelivered. by rewrite Hr.
Qed.

(** ** One row projected *)

Lemma same_reply_key a b : same_reply a b = true <-> key b = key a.
Proof. unfold same_reply, is_reply, key. rewrite !andb_true_iff, !String.eqb_eq. split; [intros [[-> ->] ->]; done|intros [= -> -> ->]; done]. Qed.

(** What projecting a row does to the outbox, whatever it returns. *)
Inductive projects (d : db) (sub : subscription_row) (row : output_row) (id : string) (t t' : list outbox_row) : Prop :=
| Moved : moves t t' -> projects d sub row id t t'
| Inserted reply r : Py.is_empty (part_response row) = false ->
    reply_through (sb_session_id sub) (part_response row) (ou_seq row) d = Ok (Some reply) -> cr_channel_delivery reply = true ->
    kind_is "start" row = true -> cr_first_seq reply = ou_seq row ->
    t' = (t ++ [r])%list -> existsb (same_reply r) t = false -> ob_outbox_id r = id ->
    key r = (sb_deployment_id sub, sb_session_id sub, cr_reply_id reply) -> ob_response_seq r = ou_seq row ->
    ob_lease_generation r = 0%Z -> ob_attempts r = 0%Z -> projects d sub row id t t'.

Lemma waiting_pending r : waiting r = true -> ob_state r = PENDING.
Proof. unfold waiting. intros H. by bool_prop. Qed.

Lemma complete_moves now dep' sid' rid c : moves (ch_outbox c) (ch_outbox (snd (complete_reply now dep' sid' rid c))).
Proof.
  unfold complete_reply, update_outbox. cbn. apply moves_update. intros r _ [_ H]%andb_true_iff. split; auto; done.
Qed.

Lemma discard_moves dep' sid' rid c : moves (ch_outbox c) (ch_outbox (snd (discard_reply dep' sid' rid c))).
Proof.
  unfold discard_reply, update_outbox. cbn. apply moves_update. intros r _ [_ H]%andb_true_iff. split; auto; done.
Qed.

Lemma project_row_projects now id sub row d c :
  projects d sub row id (ch_outbox c) (ch_outbox (project_row now id sub row d c).2) /\
  ch_subscriptions (project_row now id sub row d c).2 = ch_subscriptions c.
Proof.
  unfold project_row. fold (part_response row). destruct (Py.is_empty _) eqn:Ee; [by split; [apply Moved, moves_refl|]|].
  destruct (is_boundary _) as [[]|e]; [|by split; [apply Moved, moves_refl|]..].
  destruct (reply_through _ _ _ _) as [[reply|]|e] eqn:Er; [|by split; [apply Moved, moves_refl|]..].
  destruct (cr_channel_delivery reply) eqn:Ec; cbn [negb]; [|by split; [apply Moved, moves_refl|]]. destruct (kind_is "start" row && _) eqn:Es.
  - apply andb_true_iff in Es as [Ek Eseq%Z.eqb_eq]. unfold create_outbox_entry. cbv zeta. set (r := new_delivery _ _ _ _ _ _ _ _ _ _ _).
    assert (H : projects d sub row id (ch_outbox c) (insert_if_absent same_reply r (ch_outbox c))).
    { unfold insert_if_absent. destruct (existsb (same_reply r) (ch_outbox c)) eqn:E; [apply Moved, moves_refl|].
      by apply (Inserted _ _ _ _ _ _ reply r). }
    destruct (reply_row _ _ _ _); by split.
  - destruct (kind_is "finish" row && _ && _ && _); [|by split; [apply Moved, moves_refl|]]. destruct (_ || _).
    + pose proof (complete_moves now (sb_deployment_id sub) (sb_session_id sub) (cr_reply_id reply) c) as H.
      destruct (complete_reply _ _ _ _ _) as [completed c'] eqn:E. split; [by apply Moved|].
      unfold complete_reply, update_outbox in E. by injection E as _ <-.
    + split; [apply Moved, discard_moves|done].
Qed.

Lemma kind_boundary kind row : kind_is kind row = true -> Py.in_strs kind REPLY_BOUNDARY_PARTS = true -> is_boundary (ou_part row) = Ok true.
Proof.
  unfold kind_is, Ui.type_is, is_boundary. destruct (Py.get "type" (ou_part row)) as [| | | |ty| |]; try done.
  cbn. intros ->%String.eqb_eq H. by rewrite H.
Qed.

Lemma find_existsb {A} (f : A -> bool) l : existsb f l = true -> is_Some (List.find f l).
Proof. induction l as [|x l IH]; cbn; [done|]. destruct (f x); [by eexists|exact IH]. Qed.

Lemma is_reply_row reply r : is_reply dep sid (cr_reply_id reply) r = true <-> row_of reply r.
Proof. unfold is_reply, row_of, bound. rewrite !andb_true_iff, !String.eqb_eq. tauto. Qed.

(** A reply that starts has its row afterwards. *)
Lemma projected_start now id y row d c due c' reply :
  project_row now id (put_after y sub0) row d c = (Ok due, c') -> opens d row reply -> exists r, r ∈ ch_outbox c' /\ row_of reply r.
Proof.
  intros H ([_ Hr Hrep Hch] & Hk & Hf). unfold project_row in H. cbn [put_after sb_session_id sb_deployment_id sb_streaming] in H.
  fold (part_response row) in H. rewrite Hr, (kind_boundary _ _ Hk eq_refl), Hrep, Hch, Hk, (proj2 (Z.eqb_eq _ _) Hf) in H. cbn [negb andb] in H.
  unfold create_outbox_entry in H. cbv zeta in H. set (r := new_delivery _ _ _ _ _ _ _ _ _ _ _) in H.
  destruct (reply_row _ _ _ _); [|discriminate]. injection H as _ <-. cbn. unfold insert_if_absent. destruct (existsb (same_reply r) (ch_outbox c)) eqn:E.
  - apply existsb_true in E as (r' & Hin & E). exists r'. split; [done|]. by apply is_reply_row.
  - exists r. split; [set_solver|]. done.
Qed.

(** A reply that ends does not wait afterwards. *)
Lemma projected_end now id y row d c due c' reply r :
  sb_streaming sub0 = false -> project_row now id (put_after y sub0) row d c = (Ok due, c') -> ends d row reply ->
  r ∈ ch_outbox c' -> row_of reply r -> waiting r = false.
Proof.
  intros Hst H ([_ Hr Hrep Hch] & Hk & Hc & Hl) Hin Hrow. unfold project_row in H. cbn [put_after sb_session_id sb_deployment_id sb_streaming] in H.
  fold (part_response row) in H. assert (Hns : kind_is "start" row = false).
  { destruct (kind_is "start" row) eqn:E; [|done]. apply start_no_finish in E. congruence. }
  rewrite Hr, (kind_boundary _ _ Hk eq_refl), Hrep, Hch, Hk, Hns, Hc, (proj2 (Z.eqb_eq _ _) Hl), Hst in H. cbn [negb andb] in H.
  assert (Hup : forall set t, (forall r, waiting (set r) = false) -> r ∈ update_where (fun r => is_reply dep sid (cr_reply_id reply) r && waiting r) set t ->
    waiting r = false).
  { intros set t Hset (r0 & _ & ->)%elem_of_update_where. destruct (_ && _) eqn:E; [apply Hset|]. apply andb_false_iff in E as [E|E]; [|done].
    exfalso. by rewrite (proj2 (is_reply_row reply r0) Hrow) in E. }
  destruct (_ || _); [unfold complete_reply, update_outbox in H|unfold discard_reply, update_outbox in H]; injection H as _ <-; cbn in Hin.
  - eapply Hup; [|exact Hin]. intros r'. unfold waiting. cbn. by rewrite andb_false_r.
  - eapply Hup; [|exact Hin]. done.
Qed.

(** ** Projectors, deliverers and crashes in any order *)

Record world := World { w_log : db; w_channels : channels; w_projectors : list projector }.

Definition running_list (r : call) : list projector := match r with Running p => [p] | _ => [] end.

Inductive step : world -> world -> Prop :=
| LogGrows d d' c ps : Folds.log_grows d d' -> named_apart d' -> step (World d c ps) (World d' c ps)
| Begins d c ps sub : sub ∈ ch_subscriptions c -> step (World d c ps) (World d c (ps ++ [begin sub]))
| Resumes now id d c c' p p' ps1 ps2 :
    (forall r, r ∈ ch_outbox c -> ob_outbox_id r <> id) -> resume now id d p c = (p', c') ->
    step (World d c (ps1 ++ p :: ps2)) (World d c' (ps1 ++ running_list p' ++ ps2))
| Stops d c p ps1 ps2 : step (World d c (ps1 ++ p :: ps2)) (World d c (ps1 ++ ps2))
| Delivers d c c' ps : delivers c c' -> step (World d c ps) (World d c' ps)
| Asks d c c' ps : ch_subscriptions c' = ch_subscriptions c -> ch_outbox c' = ch_outbox c -> step (World d c ps) (World d c' ps)
| Subscribes d c ps sub : step (World d c ps) (World d (subscribe_to_output sub c) ps)
| Unsubscribes d c ps dep' sid' : (dep', sid') <> (dep, sid) -> step (World d c ps) (World d (remove_output_subscription dep' sid' c) ps).

(** The binding has just subscribed. *)
Record subscribed (w : world) : Prop := {
  su_numbered : Folds.numbered (w_log w);
  su_named : named_apart (w_log w);
  su_row : sub0 ∈ ch_subscriptions (w_channels w);
  su_only : forall s, s ∈ ch_subscriptions (w_channels w) -> binds dep sid s = true -> s = sub0;
  su_none : forall r, r ∈ ch_outbox (w_channels w) -> ~ bound r;
  su_keys : NoDup (map key (ch_outbox (w_channels w)));
  su_ids : NoDup (map ob_outbox_id (ch_outbox (w_channels w)));
  su_sound : sound (ch_outbox (w_channels w));
  su_quiet : forall p, p ∈ w_projectors w -> binds dep sid (pj_sub p) = false
}.

(** Where a projector of the binding is in the log: what comes next of its page is what comes
    next in the log. *)
Definition at_place (d : db) (p : projector) (z : Z) : Prop :=
  match pj_page p with
  | None => z = pj_cursor p
  | Some (page, rest) => exists taken beyond, page = (taken ++ rest)%list /\ page <> [] /\
      List.filter (fun r => (z <? ou_seq r)%Z) (session_log sid d) = (rest ++ beyond)%list /\
      z = match last taken with Some row => ou_seq row | None => pj_cursor p end
  end.

Definition own (s : subscription_row) : Prop := s = put_after (sb_after_seq s) sub0.

(** What holds of the binding's rows. *)
Record rows_hold (d : db) (t : list outbox_row) : Prop := {
  rh_sound : sound t;
  rh_keys : NoDup (map key t);
  rh_ids : NoDup (map ob_outbox_id t);
  rh_rows : forall r, r ∈ t -> bound r -> exists row reply,
    opens d row reply /\ (s0 < ou_seq row)%Z /\ row_of reply r /\ ob_response_seq r = ou_seq row /\ opened_upto d t (ou_seq row);
  rh_order : forall r1 r2, r1 ∈ t -> r2 ∈ t -> bound r1 -> bound r2 -> (ob_response_seq r1 < ob_response_seq r2)%Z ->
    (1 <= ob_lease_generation r2)%Z -> undelivered r1 = false
}.

Definition projector_holds (d : db) (t : list outbox_row) (p : projector) : Prop :=
  binds dep sid (pj_sub p) = true -> own (pj_sub p) /\ (s0 <= pj_cursor p)%Z /\ exists z, (s0 <= z)%Z /\ done_upto d t z /\ at_place d p z.

Definition subscription_holds (d : db) (t : list outbox_row) (s : subscription_row) : Prop :=
  binds dep sid s = true -> own s /\ (s0 <= sb_after_seq s)%Z /\ done_upto d t (sb_after_seq s).

Record holds (w : world) : Prop := {
  ho_numbered : Folds.numbered (w_log w);
  ho_named : named_apart (w_log w);
  ho_row : exists s, s ∈ ch_subscriptions (w_channels w) /\ binds dep sid s = true;
  ho_subs : Forall (subscription_holds (w_log w) (ch_outbox (w_channels w))) (ch_subscriptions (w_channels w));
  ho_rows : rows_hold (w_log w) (ch_outbox (w_channels w));
  ho_projectors : Forall (projector_holds (w_log w) (ch_outbox (w_channels w))) (w_projectors w)
}.

Lemma own_sub0 : own sub0.
Proof. unfold own. by rewrite put_after_same. Qed.

Lemma own_binds s : own s -> binds dep sid s = true.
Proof. intros ->. unfold binds. cbn. by rewrite !String.eqb_refl. Qed.

Lemma done_start d t : done_upto d t s0.
Proof. split_and!; [by left|intros ? ? _ ?; lia|intros _ ? ? _ ?; lia]. Qed.

Lemma subscribed_holds w : subscribed w -> holds w.
Proof.
  intros [H1 H2 H3 H4 H5 H6 H7 H8 H9]. split; [done|done| | | |].
  - exists sub0. split; [done|]. apply own_binds, own_sub0.
  - apply Forall_forall. intros s Hs Hb. rewrite (H4 s Hs Hb). split_and!; [apply own_sub0|lia|apply done_start].
  - split; [done..| |].
    + intros r Hr Hb. by destruct (H5 r Hr).
    + intros r1 r2 Hr1 _ Hb. by destruct (H5 r1 Hr1).
  - apply Forall_forall. intros p Hp Hb. by rewrite (H9 p Hp) in Hb.
Qed.

(** *** The log grows *)

Lemma opens_grows d d' row reply : Folds.log_grows d d' -> opens d row reply -> opens d' row reply.
Proof. intros Hg [H H']. split; [by eapply speaks_grows|done]. Qed.

Lemma opened_grows d d' t z : Folds.log_grows d d' -> reached d z -> opened_upto d t z -> opened_upto d' t z.
Proof. intros Hg Hz Ho row reply Hr Hle. apply (Ho row); [|done]. by eapply opens_back. Qed.

Lemma opens_reached d row reply : opens d row reply -> reached d (ou_seq row).
Proof. intros [[H _ _ _] _]. right. by exists row. Qed.

Lemma rows_grow d d' t : Folds.log_grows d d' -> rows_hold d t -> rows_hold d' t.
Proof.
  intros Hg [H1 H2 H3 H4 H5]. split; try done. intros r Hr Hb. destruct (H4 r Hr Hb) as (row & reply & Ho & Hs & Hrow & Hseq & Hup).
  exists row, reply. split_and!; [by eapply opens_grows|done|done|done|]. eapply opened_grows; [done|by eapply opens_reached|done].
Qed.

Lemma place_grows d d' p z : Folds.log_grows d d' -> at_place d p z -> at_place d' p z.
Proof.
  intros Hg. unfold at_place. destruct (pj_page p) as [[page rest]|]; [|done]. intros (taken & beyond & E & Hn & Hf & Hz).
  destruct (log_appends sid d d' Hg) as [new ->]. exists taken, (beyond ++ List.filter (fun r => (z <? ou_seq r)%Z) new)%list.
  split_and!; [done|done| |done]. by rewrite List.filter_app, Hf, <-app_assoc.
Qed.

Lemma projector_grows d d' t p : Folds.log_grows d d' -> projector_holds d t p -> projector_holds d' t p.
Proof.
  intros Hg H Hb. destruct (H Hb) as (Ho & Hc & z & Hz & Hd & Hp). split_and!; [done|done|]. exists z.
  split_and!; [done|by eapply done_grows|by eapply place_grows].
Qed.

Lemma subscription_grows d d' t s : Folds.log_grows d d' -> subscription_holds d t s -> subscription_holds d' t s.
Proof. intros Hg H Hb. destruct (H Hb) as (Ho & Hc & Hd). split_and!; [done|done|by eapply done_grows]. Qed.

(** *** Rows move *)

Lemma goes_before_bound r r1 :
  bound r -> bound r1 -> undelivered r1 = true -> (ob_response_seq r1 < ob_response_seq r)%Z -> goes_before r r1 = true.
Proof.
  intros [E1 E2] [E3 E4] Hu Hlt. unfold goes_before. rewrite E1, E2, E3, E4, !String.eqb_refl, Hu. by apply Z.ltb_lt.
Qed.

Lemma rows_move d t t' : moves t t' -> rows_hold d t -> rows_hold d t'.
Proof.
  intros Hm [H1 H2 H3 H4 H5]. split.
  - by apply (mo_sound _ _ Hm).
  - eapply sublist_NoDup; [done|apply (mo_keys _ _ Hm)].
  - eapply sublist_NoDup; [done|apply (mo_ids _ _ Hm)].
  - intros r' Hr' Hb'. destruct (mo_from _ _ Hm r' Hr' Hb') as (r & Hr & Hmv).
    destruct (H4 r Hr) as (row & reply & Ho & Hs & Hrow & Hseq & Hup); [by apply (bound_key _ _ (mv_key _ _ _ Hmv))|].
    exists row, reply. split_and!; [done|done|by apply (row_of_key _ _ _ (mv_key _ _ _ Hmv))|by rewrite (mv_seq _ _ _ Hmv)|].
    by eapply opened_moves.
  - intros r1' r2' Hr1' Hr2' Hb1' Hb2' Hlt Hgen.
    destruct (mo_from _ _ Hm r1' Hr1' Hb1') as (r1 & Hr1 & M1). destruct (mo_from _ _ Hm r2' Hr2' Hb2') as (r2 & Hr2 & M2).
    assert (Hb1 : bound r1) by by apply (bound_key _ _ (mv_key _ _ _ M1)).
    assert (Hb2 : bound r2) by by apply (bound_key _ _ (mv_key _ _ _ M2)).
    rewrite (mv_seq _ _ _ M1), (mv_seq _ _ _ M2) in Hlt. apply (mv_settled _ _ _ M1). destruct (mv_generation _ _ _ M2) as [E|Hhead].
    + apply (H5 r1 r2); try done. by rewrite <-E.
    + destruct (undelivered r1) eqn:Eu; [|done]. exfalso. unfold outbox_head in Hhead. apply negb_true_iff in Hhead.
      unfold exists_where in Hhead. apply existsb_false with (r := r1) in Hhead; [|done]. by rewrite goes_before_bound in Hhead.
Qed.

Lemma projector_moves d t t' p : moves t t' -> projector_holds d t p -> projector_holds d t' p.
Proof.
  intros Hm H Hb. destruct (H Hb) as (Ho & Hc & z & Hz & Hd & Hp). split_and!; [done|done|]. exists z. split_and!; [done|by eapply done_moves|done].
Qed.

Lemma subscription_moves d t t' s : moves t t' -> subscription_holds d t s -> subscription_holds d t' s.
Proof. intros Hm H Hb. destruct (H Hb) as (Ho & Hc & Hd). split_and!; [done|done|by eapply done_moves]. Qed.

(** *** A row is added *)

Lemma unbound_insert d t z r : ~ bound r -> done_upto d t z -> done_upto d (t ++ [r]) z.
Proof.
  intros Hb (Hz & Ho & He). split_and!; [done| |].
  - intros row reply Hr Hle. destruct (Ho row reply Hr Hle) as (r' & Hin & H'). exists r'. split; [apply elem_of_app; by left|done].
  - intros Hs row reply Hr Hle r' [Hin| ->%list_elem_of_singleton]%elem_of_app Hrow; [by eapply He|]. by destruct Hrow.
Qed.

(** The binding's new row, or another's. *)
Definition fresh (d : db) (t : list outbox_row) (r : outbox_row) : Prop :=
  bound r -> exists row reply, opens d row reply /\ (s0 < ou_seq row)%Z /\ row_of reply r /\ ob_response_seq r = ou_seq row /\
    exists z, done_upto d t z /\ forall row' reply', opens d row' reply' -> (z < ou_seq row' <= ou_seq row)%Z -> row' = row.

Lemma fresh_none t r reply r' : existsb (same_reply r) t = false -> row_of reply r -> r' ∈ t -> row_of reply r' -> False.
Proof.
  intros Hn [[E1 E2] E3] Hin [[E4 E5] E6]. apply existsb_false with (r := r') in Hn; [|done].
  apply not_true_iff_false in Hn. apply Hn, same_reply_key. unfold key. congruence.
Qed.

Lemma done_fresh d t z r :
  Folds.numbered d -> existsb (same_reply r) t = false -> fresh d t r -> done_upto d t z -> done_upto d (t ++ [r]) z.
Proof.
  intros Hd Hn Hf Hz. destruct (decide (ob_deployment_id r = dep /\ ob_session_id r = sid)) as [Hb|Hb]; [|by apply unbound_insert].
  destruct (Hf Hb) as (row & reply & Ho & Hs & Hrow & Hseq & _). apply (done_insert _ _ _ row reply); try done. intros r' Hr' Hx. by eapply fresh_none.
Qed.

Lemma opens_same d row reply reply' : opens d row reply -> opens d row reply' -> reply = reply'.
Proof. intros ([_ _ E1 _] & _) ([_ _ E2 _] & _). congruence. Qed.

Lemma rows_insert d t r :
  Folds.numbered d -> existsb (same_reply r) t = false -> (forall r', r' ∈ t -> ob_outbox_id r' <> ob_outbox_id r) ->
  ob_lease_generation r = 0%Z -> ob_attempts r = 0%Z -> fresh d t r -> rows_hold d t -> rows_hold d (t ++ [r]).
Proof.
  intros Hd Hn Hid Hg Ha Hf [H1 H2 H3 H4 H5].
  assert (Hup : forall z, opened_upto d t z -> opened_upto d (t ++ [r]) z).
  { intros z Ho row reply Hr Hle. destruct (Ho row reply Hr Hle) as (r' & Hin & H'). exists r'. split; [apply elem_of_app; by left|done]. }
  split.
  - apply Forall_app. split; [done|]. apply Forall_singleton. lia.
  - rewrite map_app. apply NoDup_app. split_and!; [done| |apply NoDup_singleton]. intros k (r' & -> & Hr')%list_elem_of_fmap E%list_elem_of_singleton.
    apply existsb_false with (r := r') in Hn; [|done]. apply not_true_iff_false in Hn. by apply Hn, same_reply_key.
  - rewrite map_app. apply NoDup_app. split_and!; [done| |apply NoDup_singleton].
    intros k (r' & -> & Hr')%list_elem_of_fmap E%list_elem_of_singleton. by apply (Hid r').
  - intros r' [Hr'| ->%list_elem_of_singleton]%elem_of_app Hb.
    + destruct (H4 r' Hr' Hb) as (row & reply & Ho & Hs & Hrow & Hseq & Hu). exists row, reply. split_and!; try done. by apply Hup.
    + destruct (Hf Hb) as (row & reply & Ho & Hs & Hrow & Hseq & z & (_ & Hz & _) & Hnext). exists row, reply. split_and!; try done.
      intros row' reply' Hr' Hle. destruct (Z.le_gt_cases (ou_seq row') z) as [Hz'|Hz'].
      * apply (Hup _ Hz row' reply' Hr'). lia.
      * rewrite (Hnext row' reply' Hr' ltac:(lia)) in Hr'. rewrite <-(opens_same _ _ _ _ Ho Hr'). exists r. split; [set_solver|done].
  - intros r1 r2 [Hr1| ->%list_elem_of_singleton]%elem_of_app [Hr2| ->%list_elem_of_singleton]%elem_of_app Hb1 Hb2 Hlt Hgen; [by apply (H5 r1 r2)|lia| |lia].
    exfalso. destruct (Hf Hb1) as (row & reply & Ho & Hs & Hrow & Hseq & _). destruct (H4 r2 Hr2 Hb2) as (row2 & _ & _ & _ & _ & Hseq2 & Hu).
    destruct (Hu row reply Ho ltac:(lia)) as (r' & Hr' & Hrow'). by eapply fresh_none.
Qed.

(** *** A projector goes on *)

Lemma after_row z row l l' :
  increasing l -> List.filter (fun r => (z <? ou_seq r)%Z) l = row :: l' ->
  row ∈ l /\ (z < ou_seq row)%Z /\ List.filter (fun r => (ou_seq row <? ou_seq r)%Z) l = l' /\
  forall row', row' ∈ l -> (z < ou_seq row' <= ou_seq row)%Z -> row' = row.
Proof.
  intros Hl E. pose proof (split_at z l Hl) as El. rewrite E in El.
  assert (Hin : row ∈ List.filter (fun r => (z <? ou_seq r)%Z) l) by (rewrite E; left).
  apply list_elem_of_In, List.filter_In in Hin as [Hrow Hz%Z.ltb_lt]. apply list_elem_of_In in Hrow.
  pose proof Hl as Hl'. rewrite El in Hl'. apply increasing_app in Hl' as (_ & Hr & _). apply (increasing_app [row]) in Hr as (_ & _ & Hlt).
  split_and!; [done|done| |].
  - rewrite El at 1. rewrite List.filter_app. cbn [List.filter]. rewrite Z.ltb_irrefl. rewrite rows_none, rows_all; [done|..].
    + intros x Hx. apply Z.ltb_lt, Hlt; [left|done].
    + intros x [_ Hx%Z.leb_le]%list_elem_of_In%List.filter_In. apply Z.ltb_ge. lia.
  - intros row' Hin Hle. assert (Hf : row' ∈ row :: l').
    { rewrite <-E. apply list_elem_of_In, List.filter_In. split; [by apply list_elem_of_In|]. apply Z.ltb_lt. lia. }
    apply elem_of_cons in Hf as [->|Hf]; [done|]. specialize (Hlt row row' ltac:(left) Hf). lia.
Qed.

Lemma page_place d sub cursor due rows :
  Folds.numbered d -> read_output sid cursor OUTPUT_PAGE d = rows -> rows <> [] -> at_place d (MkProjector sub cursor (Some (rows, rows)) due) cursor.
Proof.
  intros Hd <- Hn. exists [], (drop OUTPUT_PAGE (List.filter (fun r => (cursor <? ou_seq r)%Z) (session_log sid d))).
  split_and!; [done|done| |done]. rewrite read_output_log by done. by rewrite take_drop.
Qed.

Lemma row_place d p page row rest z :
  Folds.numbered d -> pj_page p = Some (page, row :: rest) -> at_place d p z ->
  row ∈ session_log sid d /\ (z < ou_seq row)%Z /\ (forall row', row' ∈ session_log sid d -> (z < ou_seq row' <= ou_seq row)%Z -> row' = row) /\
  forall due, at_place d (MkProjector (pj_sub p) (pj_cursor p) (Some (page, rest)) due) (ou_seq row).
Proof.
  intros Hd Ep Hp. unfold at_place in Hp. rewrite Ep in Hp. destruct Hp as (taken & beyond & E & Hn & Hf & Hz).
  destruct (after_row _ _ _ _ (log_rows sid d Hd) Hf) as (H1 & H2 & H3 & H4). split_and!; [done..|]. intros due.
  exists (taken ++ [row])%list, beyond. cbn. split_and!; [by rewrite <-app_assoc|done|done|by rewrite last_snoc].
Qed.

(** The place moves past a row that was projected. *)
Lemma done_next d t z row :
  row ∈ session_log sid d -> (z < ou_seq row)%Z -> (forall row', row' ∈ session_log sid d -> (z < ou_seq row' <= ou_seq row)%Z -> row' = row) ->
  (forall reply, opens d row reply -> exists r, r ∈ t /\ row_of reply r) ->
  (sb_streaming sub0 = false -> forall reply r, ends d row reply -> r ∈ t -> row_of reply r -> waiting r = false) ->
  done_upto d t z -> done_upto d t (ou_seq row).
Proof.
  intros Hrow Hlt Honly Hop Hend (Hz & Ho & He). split_and!; [right; by exists row| |].
  - intros row' reply Hr Hle. destruct (Z.le_gt_cases (ou_seq row') z) as [H|H]; [apply (Ho row' reply Hr); lia|].
    rewrite (Honly row' (sp_row _ _ _ (proj1 Hr)) ltac:(lia)) in Hr. by apply Hop.
  - intros Hs row' reply Hr Hle r Hin Hrow' Hseq. destruct (Z.le_gt_cases (ou_seq row') z) as [H|H]; [eapply (He Hs row' reply Hr); [lia|done..]|].
    rewrite (Honly row' (sp_row _ _ _ (proj1 Hr)) ltac:(lia)) in Hr. by eapply Hend.
Qed.

(** What a change of the outbox must keep. *)
Lemma holds_change d c c' ps :
  ch_subscriptions c' = ch_subscriptions c ->
  (forall z, done_upto d (ch_outbox c) z -> done_upto d (ch_outbox c') z) -> rows_hold d (ch_outbox c') ->
  holds (World d c ps) -> holds (World d c' ps).
Proof.
  intros Es Hd Hr [H1 H2 H3 H4 H5 H6]. split; cbn in *; rewrite ?Es; try done.
  - eapply Forall_impl; [exact H4|]. intros s Hs Hb. destruct (Hs Hb) as (? & ? & ?). split_and!; auto.
  - eapply Forall_impl; [exact H6|]. intros p Hp Hb. destruct (Hp Hb) as (? & ? & z & ? & ? & ?). split_and!; [done|done|]. exists z. split_and!; auto.
Qed.

Lemma holds_moves d c c' ps :
  ch_subscriptions c' = ch_subscriptions c -> moves (ch_outbox c) (ch_outbox c') -> holds (World d c ps) -> holds (World d c' ps).
Proof.
  intros Es Hm H. eapply holds_change; [done| | |done]; [intros z; by apply done_moves|]. eapply rows_move; [done|apply H].
Qed.

Lemma holds_without d c ps1 p ps2 : holds (World d c (ps1 ++ p :: ps2)) -> holds (World d c (ps1 ++ ps2)).
Proof.
  intros [H1 H2 H3 H4 H5 H6]. split; try done. cbn in *. apply Forall_app in H6 as [Ha Hb]. apply Forall_cons in Hb as [_ Hb]. by apply Forall_app.
Qed.

Lemma holds_with d c ps1 p ps2 :
  holds (World d c (ps1 ++ ps2)) -> projector_holds d (ch_outbox c) p -> holds (World d c (ps1 ++ p :: ps2)).
Proof.
  intros [H1 H2 H3 H4 H5 H6] Hp. split; try done. cbn in *. apply Forall_app in H6 as [Ha Hb]. apply Forall_app. split; [done|]. by constructor.
Qed.

(** A row projected by a call keeps everything. *)
Lemma projected_holds d c ps now id sub row :
  holds (World d c ps) -> (forall r, r ∈ ch_outbox c -> ob_outbox_id r <> id) ->
  (binds dep sid sub = true -> own sub /\ exists z, (s0 <= z)%Z /\ done_upto d (ch_outbox c) z /\ row ∈ session_log sid d /\ (z < ou_seq row)%Z /\
     forall row', row' ∈ session_log sid d -> (z < ou_seq row' <= ou_seq row)%Z -> row' = row) ->
  holds (World d (project_row now id sub row d c).2 ps) /\
  forall z, done_upto d (ch_outbox c) z -> done_upto d (ch_outbox (project_row now id sub row d c).2) z.
Proof.
  intros H Hid Hsub. destruct (project_row_projects now id sub row d c) as [Hp Es]. destruct (project_row now id sub row d c) as [due c']. cbn [snd] in *.
  destruct Hp as [Hm|reply r Hne Hrep Hch Hk Hf Et Hnone Eid Ekey Eseq Egen Eatt].
  { split; [by eapply holds_moves|]. intros z. by apply done_moves. }
  assert (Hfresh : fresh d (ch_outbox c) r).
  { intros [E1 E2]. unfold key in Ekey. injection Ekey as K1 K2 K3. destruct Hsub as (Ho & z & Hz & Hd & Hrow & Hlt & Honly).
    { unfold binds. rewrite <-K1, <-K2, E1, E2. by rewrite !String.eqb_refl. }
    exists row, reply. rewrite Ho in Hrep. cbn in Hrep. split_and!; [by split; [split|]|lia|by split|done|].
    exists z. split; [done|]. intros row' reply' Hr' Hle. apply Honly; [apply (sp_row _ _ _ (proj1 Hr'))|done]. }
  pose proof (ho_numbered _ H) as Hnum. cbn in Hnum.
  assert (Hdone : forall z, done_upto d (ch_outbox c) z -> done_upto d (ch_outbox c') z) by (intros z; rewrite Et; by apply done_fresh).
  split; [|done]. eapply holds_change; [done|done| |done]. rewrite Et. apply rows_insert; try done; [|apply H]. intros r' Hr'. rewrite Eid. by apply Hid.
Qed.

(** The subscription's position moves over a page that was projected. *)
Lemma advanced_holds d c ps dep' sid' expected z :
  holds (World d c ps) -> (dep' = dep -> sid' = sid -> (s0 <= z)%Z /\ done_upto d (ch_outbox c) z) ->
  holds (World d (advance_output_subscription dep' sid' expected z c).2 ps).
Proof.
  intros [H1 H2 H3 H4 H5 H6] Hz. unfold advance_output_subscription. cbn [snd] in *. split; cbn in *; try done.
  - destruct H3 as (s & Hs & Hb). set (cond := fun s => binds dep' sid' s && (sb_after_seq s =? expected)%Z).
    exists (if cond s then put_after z s else s). split; [apply elem_of_update_where; by exists s|]. by destruct (cond s).
  - apply Forall_forall. intros s' (s & Hs & ->)%elem_of_update_where. rewrite Forall_forall in H4. specialize (H4 s Hs).
    destruct (_ && _) eqn:E; [|done]. apply andb_true_iff in E as [E _]. intros Hb. destruct (H4 Hb) as (Ho & _).
    unfold binds in E, Hb. cbn in Hb. bool_prop. destruct Hz as [Hz Hd]; [congruence|congruence|]. cbn. split_and!; [|done|done].
    unfold own in *. rewrite Ho at 1. done.
Qed.

Lemma own_place sub : own sub -> sb_deployment_id sub = dep /\ sb_session_id sub = sid.
Proof. by intros ->. Qed.

Lemma resume_holds now id d p c p' c' ps1 ps2 :
  (forall r, r ∈ ch_outbox c -> ob_outbox_id r <> id) -> resume now id d p c = (p', c') ->
  holds (World d c (ps1 ++ p :: ps2)) -> holds (World d c' (ps1 ++ running_list p' ++ ps2)).
Proof.
  intros Hid Hrun H. pose proof (holds_without _ _ _ _ _ H) as Hw.
  assert (Hp : projector_holds d (ch_outbox c) p). { destruct H as [_ _ _ _ _ H6]. cbn in H6. apply Forall_app in H6 as [_ H6]. by apply Forall_cons in H6 as [H6 _]. }
  pose proof (ho_numbered _ H) as Hd. cbn in Hd. unfold resume in Hrun. destruct (pj_page p) as [[page [|row rest]]|] eqn:Ep.
  - (* the page is done *)
    unfold move_on in Hrun. set (z := match last page with Some row => ou_seq row | None => pj_cursor p end) in Hrun.
    pose proof (advanced_holds d c (ps1 ++ ps2) (sb_deployment_id (pj_sub p)) (sb_session_id (pj_sub p)) (pj_cursor p) z Hw) as Hadv.
    assert (Hplace : binds dep sid (pj_sub p) = true -> (s0 <= z)%Z /\ done_upto d (ch_outbox c) z).
    { intros Hb. destruct (Hp Hb) as (_ & _ & z' & Hz' & Hdone & Hat). unfold at_place in Hat. rewrite Ep in Hat.
      destruct Hat as (taken & beyond & E & _ & _ & Ez). rewrite app_nil_r in E. subst taken. fold z in Ez. by rewrite <-Ez. }
    specialize (Hadv ltac:(intros E1 E2; apply Hplace; unfold binds; by rewrite E1, E2, !String.eqb_refl)).
    destruct (advance_output_subscription _ _ _ _ _) as [moved c1] eqn:Ea. cbn [snd] in Hadv.
    assert (Hkeep : ch_outbox c1 = ch_outbox c) by (unfold advance_output_subscription in Ea; by injection Ea as _ <-).
    destruct (negb moved); [injection Hrun as <- <-; exact Hadv|]. destruct (_ <? _)%nat; injection Hrun as <- <-; [exact Hadv|].
    apply holds_with; [exact Hadv|]. intros Hb. cbn in Hb. destruct (Hp Hb) as (Ho & _). destruct (Hplace Hb) as [Hz Hdone]. split_and!; [done|done|].
    exists z. split_and!; [done|by rewrite Hkeep|done].
  - (* a row *)
    unfold project_next in Hrun. pose proof (projected_holds d c (ps1 ++ ps2) now id (pj_sub p) row Hw Hid) as Hproj.
    assert (Hown : binds dep sid (pj_sub p) = true -> own (pj_sub p) /\ exists z, (s0 <= z)%Z /\ done_upto d (ch_outbox c) z /\ row ∈ session_log sid d /\
      (z < ou_seq row)%Z /\ (forall row', row' ∈ session_log sid d -> (z < ou_seq row' <= ou_seq row)%Z -> row' = row) /\
      forall due, at_place d (MkProjector (pj_sub p) (pj_cursor p) (Some (page, rest)) due) (ou_seq row)).
    { intros Hb. destruct (Hp Hb) as (Ho & _ & z & Hz & Hdone & Hat). destruct (row_place _ _ _ _ _ _ Hd Ep Hat) as (R1 & R2 & R3 & R4).
      split; [done|]. by exists z. }
    destruct Hproj as [Hh Hkeep]. { intros Hb. destruct (Hown Hb) as (Ho & z & ? & ? & ? & ? & ? & _). split; [done|]. by exists z. }
    destruct (project_row now id (pj_sub p) row d c) as [[due|e] c1] eqn:Er; cbn [snd] in *; injection Hrun as <- <-; [|exact Hh].
    apply holds_with; [exact Hh|]. intros Hb. destruct (Hown Hb) as (Ho & z & Hz & Hdone & Hrow & Hlt & Honly & Hat). destruct (Hp Hb) as (_ & Hc & _).
    split_and!; [done|done|]. exists (ou_seq row). split_and!; [lia| |apply Hat]. eapply done_next; [done|exact Hlt|done| | |by apply Hkeep].
    + intros reply Hop. rewrite Ho in Er. by eapply projected_start.
    + intros Hs reply r Hen Hin Hrow'. rewrite Ho in Er. by eapply projected_end.
  - (* a page is read *)
    injection Hrun as <- <-. unfold next_page. destruct (read_output _ _ _ _) as [|x rows] eqn:Er; [exact Hw|]. apply holds_with; [exact Hw|].
    intros Hb. cbn in Hb. destruct (Hp Hb) as (Ho & Hc & z & Hz & Hdone & Hat). unfold at_place in Hat. rewrite Ep in Hat. subst z.
    split_and!; [done|done|]. exists (pj_cursor p). split_and!; [done|done|]. apply page_place; [done| |done].
    by rewrite <-(proj2 (own_place _ Ho)).
Qed.

(** *** Other subscriptions *)

Lemma sublist_map {A B} (f : A -> B) l l' : l `sublist_of` l' -> map f l `sublist_of` map f l'.
Proof. induction 1; constructor; done. Qed.

Lemma subscribe_holds d c ps sub : holds (World d c ps) -> holds (World d (subscribe_to_output sub c) ps).
Proof.
  intros [H1 H2 H3 H4 H5 H6]. cbn in *. destruct H3 as (s & Hs & Hb). unfold subscribe_to_output, insert_if_absent.
  destruct (existsb _ _) eqn:E; [by split; try done; exists s|]. split; cbn; try done.
  - exists s. split; [set_solver|done].
  - apply Forall_app. split; [done|]. apply Forall_singleton. intros Hsub. exfalso.
    apply existsb_false with (r := s) in E; [|done]. unfold binds in *. bool_prop. apply not_true_iff_false in E. apply E.
    rewrite !andb_true_iff, !String.eqb_eq. split; congruence.
Qed.

Lemma unsubscribe_holds d c ps dep' sid' :
  (dep', sid') <> (dep, sid) -> holds (World d c ps) -> holds (World d (remove_output_subscription dep' sid' c) ps).
Proof.
  intros Hne H.
  assert (Hout : forall s, binds dep sid s = true -> binds dep' sid' s = false).
  { intros s Hb. apply not_true_iff_false. intros Hb'. unfold binds in *. bool_prop. apply Hne. congruence. }
  set (gone := fun r => (ob_deployment_id r =s dep') && (ob_session_id r =s sid') && waiting r).
  assert (Hkept : forall r, bound r -> gone r = false).
  { intros r [E1 E2]. apply not_true_iff_false. unfold gone. intros Hg. bool_prop. apply Hne. congruence. }
  assert (Hm : moves (ch_outbox c) (delete_where gone (ch_outbox c))).
  { assert (Hsub : delete_where gone (ch_outbox c) `sublist_of` ch_outbox c) by apply sublist_filter. split.
    - intros r Hr Hb. exists r. split; [apply list_elem_of_filter; split; [by apply Hkept|done]|apply row_moves_refl].
    - intros r [_ Hr]%list_elem_of_filter _. exists r. split; [done|apply row_moves_refl].
    - by apply sublist_map.
    - by apply sublist_map.
    - rewrite !Forall_forall. intros Hs r [_ Hr]%list_elem_of_filter. by apply Hs. }
  pose proof H as [H1 H2 H3 H4 H5 H6]. cbn in *. split; cbn; try done.
  - destruct H3 as (s & Hs & Hb). exists s. split; [apply list_elem_of_filter; split; [by apply Hout|done]|done].
  - apply Forall_forall. intros s [_ Hs]%list_elem_of_filter. rewrite Forall_forall in H4. eapply subscription_moves; [done|by apply H4].
  - by eapply rows_move.
  - eapply Forall_impl; [exact H6|]. intros p. by apply projector_moves.
Qed.

Lemma step_holds w w' : step w w' -> holds w -> holds w'.
Proof.
  intros Hst H. destruct Hst as [d d' c ps Hg Hn|d c ps sub Hin|now id d c c' p p' ps1 ps2 Hid Hrun|d c p ps1 ps2|d c c' ps Hd|d c c' ps E1 E2|d c ps sub|d c ps dep' sid' Hne].
  - destruct H as [H1 H2 H3 H4 H5 H6]. cbn in *. split; cbn; [apply Hg|done|done| | |].
    + eapply Forall_impl; [exact H4|]. intros s. by apply subscription_grows.
    + by eapply rows_grow.
    + eapply Forall_impl; [exact H6|]. intros p. by apply projector_grows.
  - apply holds_with; [by rewrite app_nil_r|]. intros Hb. pose proof (ho_subs _ H) as Hs. cbn in Hs. rewrite Forall_forall in Hs.
    destruct (Hs sub Hin Hb) as (Ho & Hz & Hd). split_and!; [done|done|]. by exists (sb_after_seq sub).
  - by eapply resume_holds.
  - by eapply holds_without.
  - destruct (delivers_moves c c') as [Hm Es]; [apply H|apply H|done|]. by eapply holds_moves.
  - eapply holds_change; [done| | |done]; rewrite E2; [done|apply H].
  - by apply subscribe_holds.
  - by apply unsubscribe_holds.
Qed.

Lemma steps_hold w w' : rtc step w w' -> holds w -> holds w'.
Proof. induction 1; eauto using step_holds. Qed.


(** C25: A session's replies leave in its order.  In every state that projectors, deliverers,
    crashes and other bindings lead to, a reply of the binding that was ever claimed for
    delivery has no earlier reply still undelivered: all of them were delivered or gave up. *)
Theorem replies_leave_in_order w0 w r1 r2 :
  subscribed w0 -> rtc step w0 w -> r1 ∈ ch_outbox (w_channels w) -> r2 ∈ ch_outbox (w_channels w) -> bound r1 -> bound r2 ->
  (ob_response_seq r1 < ob_response_seq r2)%Z -> (1 <= ob_lease_generation r2)%Z -> ob_state r1 = DELIVERED \/ ob_state r1 = DEAD.
Proof.
  intros H0 Hs H1 H2 B1 B2 Hlt Hg. pose proof (steps_hold _ _ Hs (subscribed_holds _ H0)) as [_ _ _ _ [_ _ _ _ Ho] _].
  specialize (Ho r1 r2 H1 H2 B1 B2 Hlt Hg). unfold undelivered in Ho. destruct (ob_state r1); auto; done.
Qed.

(** ** A call that runs alone *)

Fixpoint run (fuel : nat) (now : Z) (names : nat -> string) (d : db) (p : projector) (c : channels) : call * channels :=
  match fuel with
  | 0 => (Running p, c)
  | S fuel => match resume now (names fuel) d p c with (Running p', c') => run fuel now names d p' c' | stopped => stopped end
  end.

(** An await names at most one new row. *)
Lemma resume_ids now id d p c p' c' r :
  resume now id d p c = (p', c') -> r ∈ ch_outbox c' -> (exists r0, r0 ∈ ch_outbox c /\ ob_outbox_id r0 = ob_outbox_id r) \/ ob_outbox_id r = id.
Proof.
  intros Hrun Hr. assert (Hsame : ch_outbox c' = ch_outbox c -> (exists r0, r0 ∈ ch_outbox c /\ ob_outbox_id r0 = ob_outbox_id r) \/ ob_outbox_id r = id).
  { intros E. left. exists r. by rewrite <-E. }
  unfold resume in Hrun. destruct (pj_page p) as [[page [|row rest]]|].
  - apply Hsame. unfold move_on in Hrun. destruct (advance_output_subscription _ _ _ _ _) as [moved c1] eqn:Ea.
    unfold advance_output_subscription in Ea. injection Ea as _ <-. by repeat case_match; simplify_eq.
  - unfold project_next in Hrun. destruct (project_row_projects now id (pj_sub p) row d c) as [Hp _].
    destruct (project_row now id (pj_sub p) row d c) as [o c1]. cbn [snd] in Hp. assert (c1 = c') as -> by (by destruct o; injection Hrun as _ <-).
    destruct Hp as [Hm|reply r' _ _ _ _ _ E _ Hid _ _ _ _].
    + left. assert (Hin : ob_outbox_id r ∈ map ob_outbox_id (ch_outbox c)).
      { eapply elem_of_submseteq; [by apply list_elem_of_fmap_2|]. apply sublist_submseteq, (mo_ids _ _ Hm). }
      apply list_elem_of_fmap in Hin as (r0 & E & H0). by exists r0.
    + rewrite E in Hr. apply elem_of_app in Hr as [Hr| ->%list_elem_of_singleton]; [left; by exists r|by right].
  - apply Hsame. by injection Hrun as _ <-.
Qed.

(** A call that runs alone takes steps. *)
Lemma run_steps fuel now names d p c p' c' :
  (forall n m, names n = names m -> n = m) -> (forall r n, r ∈ ch_outbox c -> n < fuel -> ob_outbox_id r <> names n) ->
  run fuel now names d p c = (p', c') -> rtc step (World d c [p]) (World d c' (running_list p')).
Proof.
  intros Hinj. revert p c. induction fuel as [|fuel IH]; intros p c Hfree H; cbn in H; [by injection H as <- <-|].
  destruct (resume now (names fuel) d p c) as [p1 c1] eqn:E. eapply rtc_l.
  - apply (Resumes now (names fuel) d c c1 p p1 [] []); [|exact E]. intros r Hr. apply Hfree; [done|lia].
  - cbn. rewrite app_nil_r. destruct p1 as [p1|due|e]; [|by injection H as <- <-..]. apply IH; [|done]. intros r n Hr Hn Heq.
    destruct (resume_ids _ _ _ _ _ _ _ _ E Hr) as [(r0 & H0 & E0)|E0].
    + apply (Hfree r0 n H0); [lia|congruence].
    + rewrite Heq in E0. apply Hinj in E0. lia.
Qed.

(** The replies of the log can be read at every boundary. *)
Definition readable (d : db) : Prop :=
  forall row, row ∈ session_log sid d -> exists b, is_boundary (ou_part row) = Ok b /\
    (b = true -> exists o, reply_through sid (part_response row) (ou_seq row) d = Ok o).

Lemma project_row_total now id y row d c :
  readable d -> row ∈ session_log sid d -> exists o c', project_row now id (put_after y sub0) row d c = (Ok o, c') /\ ch_subscriptions c' = ch_subscriptions c.
Proof.
  intros Hr Hin. destruct (Hr row Hin) as (b & Eb & Ho). pose proof (project_row_projects now id (put_after y sub0) row d c) as [_ Es].
  destruct (project_row now id (put_after y sub0) row d c) as [[o|e] c'] eqn:E; [by exists o, c'|]. exfalso. clear Es. revert E.
  unfold project_row. cbn [put_after sb_session_id sb_deployment_id]. fold (part_response row). destruct (Py.is_empty _); [done|]. rewrite Eb.
  destruct b; [|done]. destruct (Ho eq_refl) as [[reply|] ->]; [|done]. destruct (negb _); [done|]. destruct (_ && _).
  - unfold create_outbox_entry. cbv zeta. set (r := new_delivery _ _ _ _ _ _ _ _ _ _ _).
    assert (Hs : is_Some (reply_row dep sid (cr_reply_id reply) (with_outbox (insert_if_absent same_reply r (ch_outbox c)) c))).
    { apply find_existsb. cbn. unfold insert_if_absent. destruct (existsb (same_reply r) (ch_outbox c)) eqn:E; [exact E|].
      rewrite existsb_app. apply orb_true_iff. right. cbn. unfold is_reply. cbn. by rewrite !String.eqb_refl. }
    destruct Hs as [entry ->]. done.
  - destruct (_ && _); [|done]. destruct (_ || _); [|done]. by destruct (complete_reply _ _ _ _ _).
Qed.

(** The binding's one subscription, at a place. *)
Definition stands_at (z : Z) (c : channels) : Prop :=
  count_where (binds dep sid) (ch_subscriptions c) = 1 /\
  forall s, s ∈ ch_subscriptions c -> binds dep sid s = true -> sb_after_seq s = z.

Lemma count_update {R} (cond cond' : R -> bool) set (t : list R) :
  (forall r, r ∈ t -> cond (if cond' r then set r else r) = cond r) -> count_where cond (update_where cond' set t) = count_where cond t.
Proof.
  unfold count_where, update_where. induction t as [|r t IH]; intros H; [done|]. cbn [map]. rewrite !filter_cons, (H r) by left.
  case_decide; cbn [length]; [f_equal|]; apply IH; intros x Hx; apply H; by right.
Qed.

Lemma stands_advance z z' c :
  stands_at z c -> (advance_output_subscription dep sid z z' c).1 = true /\ stands_at z' (advance_output_subscription dep sid z z' c).2.
Proof.
  intros [Hc Hz]. unfold advance_output_subscription. cbn [fst snd]. set (cond := fun s => binds dep sid s && (sb_after_seq s =? z)%Z).
  assert (E : forall s, s ∈ ch_subscriptions c -> cond s = binds dep sid s).
  { intros s Hs. unfold cond. destruct (binds dep sid s) eqn:Eb; [|done]. by rewrite (Hz s Hs Eb), Z.eqb_refl. }
  split; [|split; cbn [ch_subscriptions with_subscriptions]].
  - rewrite <-Hc. apply Nat.eqb_eq. change (length (select_where cond (ch_subscriptions c)) = length (select_where (binds dep sid) (ch_subscriptions c))).
    f_equal. by apply Folds.select_where_ext.
  - rewrite count_update; [done|]. intros s _. by destruct (cond s).
  - intros s' (s & Hs & ->)%elem_of_update_where Hb. rewrite (E s Hs) in Hb |- *. destruct (binds dep sid s) eqn:Eb; [done|]. congruence.
Qed.

Lemma run_rows y now names d page rest cursor due c fuel :
  readable d -> (forall row, row ∈ rest -> row ∈ session_log sid d) ->
  exists due' c', ch_subscriptions c' = ch_subscriptions c /\
    run (length rest + fuel) now names d (MkProjector (put_after y sub0) cursor (Some (page, rest)) due) c =
    run fuel now names d (MkProjector (put_after y sub0) cursor (Some (page, [])) due') c'.
Proof.
  intros Hr. revert due c. induction rest as [|row rest IH]; intros due c Hin; [by exists due, c|].
  destruct (project_row_total now (names (length rest + fuel)) y row d c Hr) as (o & c1 & E & Es); [apply Hin; left|].
  cbn [length Nat.add run]. unfold resume. cbn [pj_page]. unfold project_next. cbn [pj_sub pj_cursor pj_due]. rewrite E.
  destruct (IH (due ++ match o with Some e => [e] | None => [] end)%list c1) as (due' & c' & Es' & Er'); [intros x Hx; apply Hin; by right|].
  exists due', c'. split; [congruence|exact Er'].
Qed.

Lemma after_page cursor l page rest y :
  increasing l -> List.filter (fun r => (cursor <? ou_seq r)%Z) l = (page ++ rest)%list -> last page = Some y ->
  List.filter (fun r => (ou_seq y <? ou_seq r)%Z) l = rest.
Proof.
  intros Hl E (m & ->)%last_Some. revert cursor E. induction m as [|x m IH]; intros cursor E.
  - by destruct (after_row _ _ _ _ Hl E) as (_ & _ & ? & _).
  - cbn [app] in E. destruct (after_row _ _ _ _ Hl E) as (_ & _ & Hf & _). by apply (IH (ou_seq x)).
Qed.

Lemma run_from y now names d n : forall cursor due c rows fuel,
  Folds.numbered d -> readable d -> rows = List.filter (fun r => (cursor <? ou_seq r)%Z) (session_log sid d) -> length rows <= n ->
  stands_at cursor c -> 3 * length rows + 3 <= fuel ->
  exists due' c', run fuel now names d (MkProjector (put_after y sub0) cursor None due) c = (Returned due', c') /\
    stands_at (match last rows with Some row => ou_seq row | None => cursor end) c'.
Proof.
  induction n as [n IH] using lt_wf_ind. intros cursor due c rows fuel Hd Hr Erows Hn Hst Hfuel.
  destruct fuel as [|fuel]; [lia|]. cbn [run]. unfold resume. cbn [pj_page]. unfold next_page. cbn [pj_sub pj_cursor put_after sb_session_id].
  rewrite read_output_log by done. rewrite <-Erows. destruct (take OUTPUT_PAGE rows) as [|x page] eqn:Ep.
  { exists due, c. split; [done|]. destruct rows; [done|]. done. }
  cbn [pj_due]. assert (Hpos : 1 <= length (x :: page)) by (cbn; lia).
  assert (Hne : x :: page <> []) by done. revert Hpos Hne Ep. generalize (x :: page). intros pg Hpos Hne Ep.
  assert (Esplit : rows = (pg ++ drop OUTPUT_PAGE rows)%list) by (rewrite <-Ep; symmetry; apply take_drop).
  assert (Hlen : length rows = length pg + length (drop OUTPUT_PAGE rows)) by (rewrite Esplit at 1; apply length_app).
  destruct (run_rows y now names d pg pg cursor due c (fuel - length pg) Hr) as (due' & c1 & Es & Erun).
  { intros row Hrow. assert (Hin : row ∈ rows) by (rewrite Esplit; apply elem_of_app; by left). rewrite Erows in Hin.
    apply list_elem_of_In, List.filter_In in Hin as [Hin _]. by apply list_elem_of_In. }
  replace (length pg + (fuel - length pg)) with fuel in Erun by lia. rewrite Erun. destruct (fuel - length pg) as [|f] eqn:Ef; [lia|].
  cbn [run]. unfold resume. cbn [pj_page]. unfold move_on. cbn [pj_sub pj_cursor put_after sb_deployment_id sb_session_id].
  assert (Hlast : is_Some (last pg)) by by apply last_is_Some. destruct Hlast as [z Hz]. rewrite Hz.
  destruct (stands_advance cursor (ou_seq z) c1) as [H1 H2]. { unfold stands_at. by rewrite Es. }
  destruct (advance_output_subscription _ _ _ _ _) as [moved c2]. cbn [fst snd] in H1, H2. rewrite H1. cbn [negb].
  destruct (length pg <? OUTPUT_PAGE)%nat eqn:El.
  - exists due', c2. split; [done|]. apply Nat.ltb_lt in El. rewrite <-Ep, length_take in El.
    rewrite Esplit, drop_ge, app_nil_r by lia. by rewrite Hz.
  - assert (Erest : drop OUTPUT_PAGE rows = List.filter (fun r => (ou_seq z <? ou_seq r)%Z) (session_log sid d)).
    { symmetry. eapply after_page; [by apply log_rows| |exact Hz]. by rewrite <-Erows. }
    destruct (IH (length (drop OUTPUT_PAGE rows)) ltac:(lia) (ou_seq z) due' c2 (drop OUTPUT_PAGE rows) f Hd Hr Erest (le_n _) H2 ltac:(lia)) as (due2 & c' & E & Hs').
    exists due2, c'. split; [exact E|]. rewrite Esplit, last_app. destruct (last (drop OUTPUT_PAGE rows)); [done|by rewrite Hz].
Qed.

(** C26: A projection left alone catches up.  When no other call moves the subscription and the
    replies of the log can be read, the call ends - after as many awaits as three times the
    rows it has to read, and three more - with the subscription at the end of the log. *)
Theorem projection_catches_up now names d c fuel :
  Folds.numbered d -> readable d -> stands_at s0 c ->
  let rows := List.filter (fun r => (s0 <? ou_seq r)%Z) (session_log sid d) in
  3 * length rows + 3 <= fuel ->
  let '(p, c0) := start_projection sub0 d c in
  exists due c', run fuel now names d p c0 = (Returned due, c') /\ stands_at (match last rows with Some row => ou_seq row | None => s0 end) c'.
Proof.
  intros Hd Hr Hs rows Hf. unfold start_projection. set (c0 := close_ended_channel_questions _ _ d c).
  pose proof (run_from s0 now names d (length rows) s0 [] c0 rows fuel Hd Hr eq_refl (le_n _) Hs Hf) as H.
  by rewrite put_after_same in H.
Qed.
End Binding.
End ProjectorFacts.

Import Repo Rec Replies ReplyFacts Outbox Projector ProjectorFacts.

(** ** A session of two replies *)

Definition demo_sub (streaming : bool) : subscription_row := SubscriptionRow "dep" "s1" "slack" [] None streaming 0.
Definition demo_channels (streaming : bool) : channels := Channels [demo_sub streaming] [] [] [] [].
Definition demo_world (streaming : bool) : world := World demo_more (demo_channels streaming) [].
Definition demo_names (n : nat) : string := pretty n.

(** The channel's tables after a projection. *)
Definition demo_projected (streaming : bool) : channels := snd (run 30 100 demo_names demo_more (begin (demo_sub streaming)) (demo_channels streaming)).

Lemma demo_named streaming : named_apart (demo_sub streaming) demo_more.
Proof.
  intros row row' reply reply' (S1 & K1 & _) (S2 & K2 & _) E.
  set (starts := List.filter (kind_is "start") (session_log "s1" demo_more)).
  assert (Hin : row ∈ starts /\ row' ∈ starts).
  { split; apply list_elem_of_In, List.filter_In; (split; [apply list_elem_of_In|done]); [apply S1|apply S2]. }
  destruct S1 as [_ _ R1 _], S2 as [_ _ R2 _]. cbn [sb_session_id demo_sub] in R1, R2.
  assert (Es : exists x y, starts = [x; y] /\ reply_through "s1" (part_response x) (ou_seq x) demo_more <> reply_through "s1" (part_response y) (ou_seq y) demo_more /\
    forall a b, reply_through "s1" (part_response x) (ou_seq x) demo_more = Ok (Some a) ->
      reply_through "s1" (part_response y) (ou_seq y) demo_more = Ok (Some b) -> cr_reply_id a <> cr_reply_id b).
  { eexists _, _. split; [vm_compute; reflexivity|]. split; [vm_compute; discriminate|]. intros a b Ha Hb. vm_compute in Ha, Hb.
    injection Ha as <-. injection Hb as <-. done. }
  destruct Es as (x & y & Es & _ & Hne). rewrite Es in Hin. destruct Hin as [H1 H2].
  apply elem_of_cons in H1 as [->|H1%list_elem_of_singleton], H2 as [->|H2%list_elem_of_singleton]; subst; try done.
  - by destruct (Hne _ _ R1 R2).
  - by destruct (Hne _ _ R2 R1).
Qed.

Lemma demo_subscribed streaming : subscribed (demo_sub streaming) (demo_world streaming).
Proof.
  split; cbn; [apply demo_more_numbered|apply demo_named|left| | |constructor|constructor|constructor|].
  - by intros s ->%list_elem_of_singleton.
  - by intros r ?%elem_of_nil.
  - by intros p ?%elem_of_nil.
Qed.

Lemma demo_steps streaming :
  rtc (step (demo_sub streaming)) (demo_world streaming) (World demo_more (demo_projected streaming) []).
Proof.
  eapply rtc_l; [apply (Begins _ _ _ _ (demo_sub streaming)); left|]. cbn [app].
  assert (E : exists due, run 30 100 demo_names demo_more (begin (demo_sub streaming)) (demo_channels streaming) = (Returned due, demo_projected streaming)).
  { unfold demo_projected. destruct streaming; eexists; vm_compute; reflexivity. }
  destruct E as [due E]. apply (run_steps (demo_sub streaming) 30 100 demo_names demo_more (begin (demo_sub streaming)) (demo_channels streaming) (Returned due)).
  - intros n m E'. by apply (inj pretty) in E'.
  - by intros r n ?%elem_of_nil.
  - exact E.
Qed.


(** The streamed replies: the first is claimed and delivered, then the second is claimed. *)
Definition demo_first : outbox_row := default (new_delivery 0 "" "" "" "" 0 "" [] None false false) (ch_outbox (demo_projected true) !! 0).
Definition demo_second : outbox_row := default (new_delivery 0 "" "" "" "" 0 "" [] None false false) (ch_outbox (demo_projected true) !! 1).
Definition demo_claimed : channels := snd (claim_outbox_for_delivery (fun _ => true) 100 (ob_outbox_id demo_first) "a" (demo_projected true)).
Definition demo_sent : channels := snd (mark_outbox_delivered (ob_outbox_id demo_first) "a" 1 demo_claimed).
Definition demo_both : channels := snd (claim_outbox_for_delivery (fun _ => true) 100 (ob_outbox_id demo_second) "b" demo_sent).

Example demo_second_waits :
  fst (claim_outbox_for_delivery (fun _ => true) 100 (ob_outbox_id demo_second) "b" demo_claimed) = None.
Proof. vm_compute. reflexivity. Qed.

Lemma replies_leave_in_order_witness :
  exists r1 r2, ch_outbox demo_both = [r1; r2] /\ ob_lease_generation r2 = 1%Z /\ (ob_state r1 = DELIVERED \/ ob_state r1 = DEAD).
Proof.
  assert (Hs : rtc (step (demo_sub true)) (demo_world true) (World demo_more demo_both [])).
  { etrans; [apply (demo_steps true)|]. eapply rtc_l; [apply Delivers, (Claims _ (fun _ => true) 100 (ob_outbox_id demo_first) "a")|].
    eapply rtc_l; [apply Delivers, (Marks _ (ob_outbox_id demo_first) "a" 1)|].
    apply rtc_once. apply Delivers, (Claims _ (fun _ => true) 100 (ob_outbox_id demo_second) "b"). }
  assert (E : exists r1 r2, ch_outbox demo_both = [r1; r2] /\ ob_lease_generation r2 = 1%Z /\ bound (demo_sub true) r1 /\ bound (demo_sub true) r2 /\
    (ob_response_seq r1 < ob_response_seq r2)%Z).
  { eexists _, _. split; [vm_compute; reflexivity|]. by vm_compute. }
  destruct E as (r1 & r2 & E & Hg & B1 & B2 & Hlt). exists r1, r2. split; [exact E|]. split; [exact Hg|].
  apply (replies_leave_in_order (demo_sub true) _ _ r1 r2 (demo_subscribed true) Hs); cbn [w_channels]; rewrite ?E; [left|right; left|done|done|done|lia].
Defined.

Lemma demo_readable streaming : readable (demo_sub streaming) demo_more.
Proof.
  assert (E : forallb (fun row => match is_boundary (ou_part row) with
     | Ok true => match reply_through "s1" (part_response row) (ou_seq row) demo_more with Ok _ => true | _ => false end
     | Ok false => true | _ => false end) (session_log "s1" demo_more) = true) by (vm_compute; reflexivity).
  intros row Hrow%list_elem_of_In. pose proof (proj1 (forallb_forall _ _) E row Hrow) as H. cbv beta in H. cbn [sb_session_id demo_sub].
  destruct (is_boundary (ou_part row)) as [b|]; [|discriminate]. exists b. split; [done|]. intros ->.
  destruct (reply_through _ _ _ _) as [o|]; [by exists o|discriminate].
Qed.

Lemma projection_catches_up_witness :
  exists due c', run 30 100 demo_names demo_more (begin (demo_sub false)) (demo_channels false) = (Returned due, c') /\ stands_at (demo_sub false) 9 c'.
Proof.
  exact (projection_catches_up (demo_sub false) 100 demo_names demo_more (demo_channels false) 30 demo_more_numbered (demo_readable false)
    (conj eq_refl (fun s Hs Hb => f_equal sb_after_seq (proj1 (list_elem_of_singleton s (demo_sub false)) Hs))) ltac:(vm_compute; lia)).
Defined.

(** ** A subscription that ends under a projector *)

(** A projector has read its page when the binding is disabled: its rows and subscription are
    removed.  It then writes the reply's row all the same, which no projection completes once
    the session's next input subscribes again past the reply.  The binding's next reply is
    never due. *)
Definition late_projector : channels * call :=
  let '(p, c) := resume 100 "" demo_asked (begin (demo_sub false)) (demo_channels false) in
  match p with
  | Running p => let '(p', c') := resume 101 "late" demo_asked p (remove_output_subscription "dep" "s1" c) in (c', p')
  | _ => (c, p)
  end.
Definition demo_last_batch : FactBatch :=
  MkBatch [demo_part 10 "r1" "text-end" [("id", VStr "t2")]; demo_part 11 "r1" "finish" []] [] None None None.
Definition demo_last : db := snd (record demo_lease demo_last_batch 100 50 demo_more).
Definition demo_again : channels :=
  let sub := SubscriptionRow "dep" "s1" "slack" [] None false 6 in
  snd (run 30 200 demo_names demo_last (begin sub) (subscribe_to_output sub (fst late_projector))).


Example late_projector_blocks_binding :
  map (fun r => (ob_response_id r, waiting r, outbox_due 300 r)) (ch_outbox demo_again) = [("r1", true, false); ("r1~x1", false, true)] /\
  map (fun r => fst (claim_outbox_for_delivery (fun _ => true) 300 (ob_outbox_id r) "a" demo_again)) (ch_outbox demo_again) = [None; None] /\
  list_pending_outbox (fun _ => true) 10 300 None None demo_again = [].
Proof. vm_compute. done. Qed.
