(* ===== verification/ChannelInbound.v ===== *)
(** [persistence/repository/channel_repository.py], its inbound half: the work items of
    platform messages, the retained context they quote, the conversations they continue and
    the locks that serialize a conversation's drives.  Each method is one transaction.  Times
    and random names are arguments, and so is what a text column keeps of a longer text. *)

From stdpp Require Import sorting.
From S2P Require Import Prelude PyVal Schema SessionRepo Reader ChannelOutbox.

Open Scope string_scope.

Module Inbound.
Import Repo Outbox.

(** ** Tables *)

Inductive inbound_state :=
| INBOUND_RECEIVED | INBOUND_DISPATCHING | INBOUND_SETTLED | INBOUND_IGNORED | INBOUND_DEAD | INBOUND_OBSERVED | INBOUND_AUTHORIZED.

#[export] Instance inbound_state_dec : EqDecision inbound_state.
Proof. solve_decision. Defined.

(** The columns a worker's fence and the retries are made of. *)
Record inbound_work := InboundWork {
  iw_state : inbound_state;
  iw_owner_token : option string;
  iw_generation : Z;
  iw_lease_expires_at : option Z;
  iw_authorization_expires_at : option Z;
  iw_attempts : Z;
  iw_last_error : option string;
  iw_ignored_reason : option string
}.

Record judgment := Judgment { jd_respond : bool; jd_reason : string; jd_judge : option string; jd_judged_at : Z }.

(** What the drives of a message left on it. *)
Record inbound_marks := InboundMarks {
  im_session_id : option string;
  im_resolved_conversation_key : option string;
  im_judgment : option judgment;
  im_explicit_attention : bool;
  im_answer : option (string * Z);
  im_recall : option (string * string);
  im_frozen_content : option string;
  im_frozen_context_ids : list string;
  im_context_excluded : bool;
  im_context_submitted : bool
}.

(** [channel_inbound]; [ib_columns] are the columns of the admitted input, by name. *)
Record inbound_row := InboundRow {
  ib_item_id : string;
  ib_deployment_id : string;
  ib_dedup_key : option string;
  ib_channel_name : string;
  ib_agent_id : option string;
  ib_assistant_id : option string;
  ib_columns : dict;
  ib_work : inbound_work;
  ib_marks : inbound_marks
}.

(** [channel_conversations]. *)
Record conversation_row := ConversationRow {
  cv_deployment_id : string;
  cv_execution_user_id : string;
  cv_conversation_key : string;
  cv_session_id : string
}.

(** [channel_conversation_locks]. *)
Record lock_row := LockRow {
  lk_deployment_id : string;
  lk_execution_user_id : string;
  lk_conversation_key : string;
  lk_owner : option string;
  lk_generation : Z;
  lk_expires_at : option Z
}.

(** [channel_account_links]. *)
Record link_row := LinkRow {
  ln_deployment_id : string;
  ln_participant : string;
  ln_user_id : string;
  ln_linked_by : string;
  ln_linked_at : Z
}.

Record ingress := Ingress {
  ig_inbound : list inbound_row;
  ig_conversations : list conversation_row;
  ig_locks : list lock_row;
  ig_links : list link_row;
  ig_channels : channels
}.

Definition with_inbound (t : list inbound_row) (s : ingress) : ingress :=
  Ingress t (ig_conversations s) (ig_locks s) (ig_links s) (ig_channels s).
Definition with_conversations (t : list conversation_row) (s : ingress) : ingress :=
  Ingress (ig_inbound s) t (ig_locks s) (ig_links s) (ig_channels s).
Definition with_locks (t : list lock_row) (s : ingress) : ingress :=
  Ingress (ig_inbound s) (ig_conversations s) t (ig_links s) (ig_channels s).
Definition with_links (t : list link_row) (s : ingress) : ingress :=
  Ingress (ig_inbound s) (ig_conversations s) (ig_locks s) t (ig_channels s).
Definition with_channels (c : channels) (s : ingress) : ingress :=
  Ingress (ig_inbound s) (ig_conversations s) (ig_locks s) (ig_links s) c.

Definition put_work (f : inbound_work -> inbound_work) (r : inbound_row) : inbound_row :=
  InboundRow (ib_item_id r) (ib_deployment_id r) (ib_dedup_key r) (ib_channel_name r) (ib_agent_id r) (ib_assistant_id r)
    (ib_columns r) (f (ib_work r)) (ib_marks r).
Definition put_marks (f : inbound_marks -> inbound_marks) (r : inbound_row) : inbound_row :=
  InboundRow (ib_item_id r) (ib_deployment_id r) (ib_dedup_key r) (ib_channel_name r) (ib_agent_id r) (ib_assistant_id r)
    (ib_columns r) (ib_work r) (f (ib_marks r)).
Definition put_columns (columns : dict) (r : inbound_row) : inbound_row :=
  InboundRow (ib_item_id r) (ib_deployment_id r) (ib_dedup_key r) (ib_channel_name r) (ib_agent_id r) (ib_assistant_id r)
    columns (ib_work r) (ib_marks r).

(** Changes of the work columns. *)
Definition taken (state : inbound_state) (owner : string) (expires : Z) (w : inbound_work) : inbound_work :=
  InboundWork state (Some owner) (iw_generation w + 1) (Some expires) (iw_authorization_expires_at w) (iw_attempts w)
    (iw_last_error w) (iw_ignored_reason w).
Definition put_lease (state : inbound_state) (expires : option Z) (w : inbound_work) : inbound_work :=
  InboundWork state (iw_owner_token w) (iw_generation w) expires (iw_authorization_expires_at w) (iw_attempts w)
    (iw_last_error w) (iw_ignored_reason w).
Definition put_ignored (reason : string) (w : inbound_work) : inbound_work :=
  InboundWork INBOUND_IGNORED (iw_owner_token w) (iw_generation w) (iw_lease_expires_at w) (iw_authorization_expires_at w)
    (iw_attempts w) (iw_last_error w) (Some reason).

(** Changes of the marks. *)
Definition put_session (session_id conversation_key : option string) (m : inbound_marks) : inbound_marks :=
  InboundMarks session_id conversation_key (im_judgment m) (im_explicit_attention m) (im_answer m) (im_recall m)
    (im_frozen_content m) (im_frozen_context_ids m) (im_context_excluded m) (im_context_submitted m).
Definition put_judgment (j : option judgment) (m : inbound_marks) : inbound_marks :=
  InboundMarks (im_session_id m) (im_resolved_conversation_key m) j (im_explicit_attention m) (im_answer m) (im_recall m)
    (im_frozen_content m) (im_frozen_context_ids m) (im_context_excluded m) (im_context_submitted m).
Definition put_attention (m : inbound_marks) : inbound_marks :=
  InboundMarks (im_session_id m) (im_resolved_conversation_key m) (im_judgment m) true (im_answer m) (im_recall m)
    (im_frozen_content m) (im_frozen_context_ids m) (im_context_excluded m) (im_context_submitted m).
Definition put_answer (ref : string) (index : Z) (m : inbound_marks) : inbound_marks :=
  InboundMarks (im_session_id m) (im_resolved_conversation_key m) (im_judgment m) (im_explicit_attention m) (Some (ref, index))
    (im_recall m) (im_frozen_content m) (im_frozen_context_ids m) (im_context_excluded m) (im_context_submitted m).
Definition put_recall (event_id timestamp : string) (m : inbound_marks) : inbound_marks :=
  InboundMarks (im_session_id m) (im_resolved_conversation_key m) (im_judgment m) (im_explicit_attention m) (im_answer m)
    (Some (event_id, timestamp)) (im_frozen_content m) (im_frozen_context_ids m) (im_context_excluded m) (im_context_submitted m).
Definition put_frozen (content : string) (ids : list string) (m : inbound_marks) : inbound_marks :=
  InboundMarks (im_session_id m) (im_resolved_conversation_key m) (im_judgment m) (im_explicit_attention m) (im_answer m)
    (im_recall m) (Some content) ids (im_context_excluded m) (im_context_submitted m).
Definition put_excluded (m : inbound_marks) : inbound_marks :=
  InboundMarks (im_session_id m) (im_resolved_conversation_key m) (im_judgment m) (im_explicit_attention m) (im_answer m)
    (im_recall m) (im_frozen_content m) (im_frozen_context_ids m) true (im_context_submitted m).
Definition put_submitted (submitted : bool) (m : inbound_marks) : inbound_marks :=
  InboundMarks (im_session_id m) (im_resolved_conversation_key m) (im_judgment m) (im_explicit_attention m) (im_answer m)
    (im_recall m) (im_frozen_content m) (im_frozen_context_ids m) (im_context_excluded m) submitted.

Definition no_marks : inbound_marks := InboundMarks None None None false None None None [] false false.

Definition state_of (r : inbound_row) : inbound_state := iw_state (ib_work r).
Definition generation_of (r : inbound_row) : Z := iw_generation (ib_work r).
Definition in_state_of (states : list inbound_state) (r : inbound_row) : bool := bool_decide (state_of r ∈ states).
Definition expired (now : Z) (r : inbound_row) : bool := passed now (iw_lease_expires_at (ib_work r)).

(** A text column: its text, or [NULL]. *)
Definition as_text (v : val) : option string := match v with VStr t => Some t | _ => None end.
Definition text (name : string) (r : inbound_row) : option string := as_text (Py.get name (ib_columns r)).
Definition text_is (name value : string) (r : inbound_row) : bool := opt_is value (text name r).

Definition named (item_id : string) (r : inbound_row) : bool := ib_item_id r =s item_id.

Definition update_inbound (cond : inbound_row -> bool) (set : inbound_row -> inbound_row) (s : ingress) : bool * ingress :=
  (Nat.eqb (count_where cond (ig_inbound s)) 1, with_inbound (update_where cond set (ig_inbound s)) s).

(** The row a method reads back after its one update. *)
Definition readback (item_id : string) (changed : bool * ingress) : option inbound_row * ingress :=
  ((if fst changed then List.find (named item_id) (ig_inbound (snd changed)) else None), snd changed).

(** ** Constants *)

Definition LIVE_STATES : list inbound_state := [INBOUND_RECEIVED; INBOUND_DISPATCHING].
Definition UNADMITTED_STATES : list inbound_state := [INBOUND_OBSERVED; INBOUND_AUTHORIZED].
Definition CLAIM_STATES : list inbound_state := [INBOUND_RECEIVED; INBOUND_OBSERVED; INBOUND_AUTHORIZED; INBOUND_IGNORED].
Definition AUTHORIZATION_WAIT : Z := 86400.
Definition INBOUND_LEASE_FLOOR : Z := 300.
Definition CONVERSATION_LOCK : Z := 300.
Definition CONTEXT_WINDOW_MESSAGES : nat := 50.

(** [_inbound_lease_seconds]; [None] for a setting that is no number. *)
Definition inbound_lease (setting : option Z) : Z := match setting with Some s => Z.max INBOUND_LEASE_FLOOR s | None => 900 end.

Inductive claim_outcome :=
| CLAIM_OUTCOME_CLAIMED | CLAIM_OUTCOME_DUPLICATE | CLAIM_OUTCOME_IN_PROGRESS | CLAIM_OUTCOME_IGNORED | CLAIM_OUTCOME_OBSERVED
| CLAIM_OUTCOME_AUTHORIZED.

#[export] Instance claim_outcome_dec : EqDecision claim_outcome.
Proof. solve_decision. Defined.

(** [_WRITTEN_OUTCOMES]. *)
Definition WRITTEN_OUTCOMES (s : inbound_state) : option claim_outcome :=
  match s with
  | INBOUND_RECEIVED => Some CLAIM_OUTCOME_CLAIMED
  | INBOUND_OBSERVED => Some CLAIM_OUTCOME_OBSERVED
  | INBOUND_AUTHORIZED => Some CLAIM_OUTCOME_AUTHORIZED
  | INBOUND_IGNORED => Some CLAIM_OUTCOME_IGNORED
  | _ => None
  end.

Definition PAYLOAD_FIELDS : list string :=
  ["content"; "reply_text"; "attachments"; "action"; "conversation_key"; "conversation"; "reply_context"; "reference"; "participant";
   "provider_ignore_reason"; "creator_user_id"; "execution_user_id"; "execution_mode"; "retain_context"; "message_timestamp";
   "binding_revision"; "prompt_prefix"; "selection"; "selection_reason"; "participated"].
Definition TEXT_PAYLOAD_FIELDS : list string := ["content"; "creator_user_id"; "execution_user_id"; "prompt_prefix"].

(** [_payload_columns]. *)
Definition payload_column (payload : dict) (field : string) : string * val :=
  let v := Py.get field payload in
  (field, if Py.in_strs field TEXT_PAYLOAD_FIELDS then VStr (Py.str_or_empty v)
          else if field =s "retain_context" then VBool (Py.truthy v) else v).

Definition payload_columns (payload : dict) : res dict :=
  if forallb (fun k => Py.in_strs k PAYLOAD_FIELDS || (k =s "response_policy")) (Py.keys payload) then
    let policy := Py.por (Py.get "response_policy" payload) (VDict []) in
    mode ← Py.vget "mode" policy;
    instruction ← Py.vget "instruction" policy;
    Ok (map (payload_column payload) PAYLOAD_FIELDS ++ [("response_policy_mode", mode); ("response_instruction", instruction)])%list
  else Raise ValueError.

(** The [payload] of [_inbound_view]. *)
Definition payload_of (r : inbound_row) : dict :=
  let columns := ib_columns r in
  (map (fun field => (field, Py.get field columns)) PAYLOAD_FIELDS ++
   [("response_policy",
     if Py.truthy (Py.get "response_policy_mode" columns)
     then VDict [("mode", Py.get "response_policy_mode" columns);
                 ("instruction", Py.por (Py.get "response_instruction" columns) (VStr ""))]
     else VNone)])%list.

(** [_owned]. *)
Definition owned_in (states : list inbound_state) (item_id owner : string) (generation : Z) (r : inbound_row) : bool :=
  named item_id r && in_state_of states r && opt_is owner (iw_owner_token (ib_work r)) && (generation_of r =? generation)%Z.
Definition owned : string -> string -> Z -> inbound_row -> bool := owned_in LIVE_STATES.
Definition owned_dispatching : string -> string -> Z -> inbound_row -> bool := owned_in [INBOUND_DISPATCHING].

(** ** Admission *)

(** One platform message on one binding; a message without a platform id is its own. *)
Definition message_of (deployment_id : string) (dedup_key : option string) (r : inbound_row) : bool :=
  (ib_deployment_id r =s deployment_id) && match dedup_key with Some k => opt_is k (ib_dedup_key r) | None => false end.

(** [claim_inbound]; [here] holds of the environment's bindings, [item_id] and [owner] are
    the new record's random names. *)
Record inbound_claim := InboundClaim {
  ic_deployment_id : string;
  ic_dedup_key : option string;
  ic_channel_name : string;
  ic_agent_id : string;
  ic_assistant_id : string;
  ic_payload : dict;
  ic_state : inbound_state;
  ic_ignored_reason : string;
  ic_context_excluded : bool
}.

Definition claim_key (c : inbound_claim) : option string :=
  match ic_dedup_key c with Some k => if Py.is_empty k then None else Some k | None => None end.

Definition claimed_row (now lease : Z) (item_id owner : string) (c : inbound_claim) (columns : dict) : inbound_row :=
  let live := bool_decide (ic_state c = INBOUND_RECEIVED) in
  let ignored := bool_decide (ic_state c = INBOUND_IGNORED) in
  let assisted := negb (Py.is_empty (ic_assistant_id c)) in
  InboundRow item_id (ic_deployment_id c) (claim_key c) (ic_channel_name c) (if assisted then None else Some (ic_agent_id c))
    (if assisted then Some (ic_assistant_id c) else None) columns
    (InboundWork (ic_state c) (if live then Some owner else None) 1 (if live then Some (now + lease)%Z else None)
       (if bool_decide (ic_state c = INBOUND_AUTHORIZED) then Some (now + AUTHORIZATION_WAIT)%Z else None) 0 None
       (if ignored then Some (ic_ignored_reason c) else None))
    (if ignored && ic_context_excluded c then put_excluded no_marks else no_marks).

(** A live item whose lease expired, or a dead one. *)
Definition claimable (now : Z) (r : inbound_row) : bool :=
  in_state_of LIVE_STATES r && expired now r || bool_decide (state_of r = INBOUND_DEAD).

Definition claim_answer (written admits : bool) (record : inbound_row) : res (inbound_row * claim_outcome) :=
  if written then match WRITTEN_OUTCOMES (state_of record) with Some o => Ok (record, o) | None => Raise KeyError end
  else match state_of record with
       | INBOUND_SETTLED => Ok (record, CLAIM_OUTCOME_DUPLICATE)
       | INBOUND_IGNORED => Ok (record, CLAIM_OUTCOME_IGNORED)
       | INBOUND_OBSERVED => Ok (record, CLAIM_OUTCOME_OBSERVED)
       | INBOUND_AUTHORIZED => Ok (record, CLAIM_OUTCOME_AUTHORIZED)
       | INBOUND_DEAD => Ok (record, if admits then CLAIM_OUTCOME_IN_PROGRESS else CLAIM_OUTCOME_DUPLICATE)
       | _ => Ok (record, CLAIM_OUTCOME_IN_PROGRESS)
       end.

Definition claim_inbound (here : string -> bool) (now lease : Z) (item_id owner : string) (c : inbound_claim) (s : ingress)
  : res (inbound_row * claim_outcome) * ingress :=
  if negb (bool_decide (ic_state c ∈ CLAIM_STATES)) then (Raise ValueError, s)
  else match payload_columns (ic_payload c) with
  | Raise e => (Raise e, s)
  | Ok columns =>
      if negb (here (ic_deployment_id c)) then (Raise ValueError, s)
      else
        let row := claimed_row now lease item_id owner c columns in
        let identity := message_of (ic_deployment_id c) (claim_key c) in
        let admits := bool_decide (ic_state c = INBOUND_RECEIVED) || bool_decide (ic_state c = INBOUND_AUTHORIZED) in
        if negb (exists_where identity (ig_inbound s)) then
          (claim_answer true admits row, with_inbound (ig_inbound s ++ [row]) s)
        else
          let '(written, s') := if admits then update_inbound (fun r => identity r && claimable now r)
                                                 (put_work (taken INBOUND_RECEIVED owner (now + lease))) s
                                else (false, s) in
          match List.find identity (ig_inbound s') with
          | None => (Raise RuntimeError, s)
          | Some record => match claim_answer written admits record with
                           | Raise e => (Raise e, s)
                           | answer => (answer, s')
                           end
          end
  end.

Definition expected_in (item_id : string) (state : inbound_state) (generation : Z) (r : inbound_row) : bool :=
  named item_id r && bool_decide (state_of r = state) && (generation_of r =? generation)%Z.

(** [promote_inbound]. *)
Definition promote_inbound (now lease : Z) (owner item_id : string) (expected_state : inbound_state) (expected_generation : Z)
  (payload : dict) (s : ingress) : res (option inbound_row) * ingress :=
  if negb (bool_decide (expected_state ∈ UNADMITTED_STATES)) then (Raise ValueError, s)
  else match payload_columns payload with
  | Raise e => (Raise e, s)
  | Ok columns =>
      let '(row, s') := readback item_id (update_inbound
        (fun r => expected_in item_id expected_state expected_generation r && negb (bool_decide (is_Some (im_recall (ib_marks r)))))
        (fun r => put_columns columns (put_work (taken INBOUND_RECEIVED owner (now + lease)) r)) s) in
      (Ok row, s')
  end.

Definition put_observed (w : inbound_work) : inbound_work :=
  InboundWork INBOUND_OBSERVED (iw_owner_token w) (iw_generation w + 1) (iw_lease_expires_at w) (iw_authorization_expires_at w)
    (iw_attempts w) (iw_last_error w) (iw_ignored_reason w).

(** [observe_authorized_inbound]. *)
Definition observe_authorized_inbound (item_id : string) (expected_generation : Z) (payload : dict) (s : ingress)
  : res (option inbound_row) * ingress :=
  match payload_columns payload with
  | Raise e => (Raise e, s)
  | Ok columns =>
      let '(row, s') := readback item_id (update_inbound (expected_in item_id INBOUND_AUTHORIZED expected_generation)
        (fun r => put_columns columns (put_work put_observed r)) s) in
      (Ok row, s')
  end.

(** [refuse_unadmitted_inbound]; [reason] is what the row keeps of the reason. *)
Definition refuse_unadmitted_inbound (item_id : string) (expected_state : inbound_state) (expected_generation : Z) (reason : string)
  (s : ingress) : res bool * ingress :=
  if negb (bool_decide (expected_state ∈ UNADMITTED_STATES)) then (Raise ValueError, s)
  else
    let '(changed, s') := update_inbound (expected_in item_id expected_state expected_generation)
                            (fun r => put_marks put_excluded (put_work (put_ignored reason) r)) s in
    (Ok changed, s').

Definition put_dead (error : string) (w : inbound_work) : inbound_work :=
  InboundWork INBOUND_DEAD (iw_owner_token w) (iw_generation w) (iw_lease_expires_at w) (iw_authorization_expires_at w)
    (iw_attempts w) (Some error) (iw_ignored_reason w).

Definition waits_le (a b : inbound_row) : Prop :=
  (default 0 (iw_authorization_expires_at (ib_work a)) <= default 0 (iw_authorization_expires_at (ib_work b)))%Z.
#[local] Instance waits_le_dec a b : Decision (waits_le a b).
Proof. unfold waits_le. apply _. Defined.

(** [expire_authorizations]. *)
Definition expire_authorizations (here : string -> bool) (limit : nat) (now : Z) (s : ingress) : list inbound_row * ingress :=
  let due r := bool_decide (state_of r = INBOUND_AUTHORIZED) && here (ib_deployment_id r) &&
               passed now (iw_authorization_expires_at (ib_work r)) in
  let keys := map ib_item_id (take limit (merge_sort waits_le (select_where due (ig_inbound s)))) in
  let listed r := Py.in_strs (ib_item_id r) keys in
  let s' := with_inbound (update_where (fun r => listed r && bool_decide (state_of r = INBOUND_AUTHORIZED))
    (put_work (put_dead "the observation of this authorized message never arrived")) (ig_inbound s)) s in
  (select_where listed (ig_inbound s'), s').

(** ** The owner's writes *)

(** [begin_inbound_dispatch]. *)
Definition begin_inbound_dispatch (now lease : Z) (item_id owner : string) (generation : Z) : ingress -> bool * ingress :=
  update_inbound (owned item_id owner generation) (put_work (put_lease INBOUND_DISPATCHING (Some (now + lease)%Z))).

(** [renew_inbound_lease]. *)
Definition renew_inbound_lease (now lease : Z) (item_id owner : string) (generation : Z) : ingress -> bool * ingress :=
  update_inbound (owned item_id owner generation) (put_work (fun w => put_lease (iw_state w) (Some (now + lease)%Z) w)).

(** [bind_inbound_dispatch]. *)
Definition bind_inbound_dispatch (item_id owner : string) (generation : Z) (session_id conversation_key : option string)
  : ingress -> bool * ingress :=
  update_inbound (owned item_id owner generation)
    (put_marks (fun m => put_session (coalesce session_id (im_session_id m))
                           (coalesce conversation_key (im_resolved_conversation_key m)) m)).

(** [capture_inbound_account]. *)
Definition capture_inbound_account (item_id owner : string) (generation : Z) (user_id : string) (s : ingress) : option dict * ingress :=
  let '(row, s') := readback item_id (update_inbound
    (fun r => owned item_id owner generation r && text_is "execution_user_id" "" r)
    (fun r => put_columns (Py.set "execution_user_id" (VStr user_id) (Py.set "creator_user_id" (VStr user_id) (ib_columns r))) r) s) in
  (payload_of <$> row, s').

(** [mark_inbound_answer]. *)
Definition mark_inbound_answer (item_id owner : string) (generation : Z) (ref : string) (question_index : Z) : ingress -> bool * ingress :=
  update_inbound (owned item_id owner generation) (put_marks (put_answer ref question_index)).

(** [topic_has_participation]. *)
Definition topic_has_participation (deployment_id conversation binding_revision : string) (s : ingress) : bool :=
  exists_where (fun r => (ib_deployment_id r =s deployment_id) && text_is "conversation" conversation r &&
    text_is "binding_revision" binding_revision r && bool_decide (state_of r = INBOUND_SETTLED)) (ig_inbound s).

(** [record_inbound_judgment]. *)
Definition record_inbound_judgment (item_id owner : string) (generation : Z) (j : judgment) : ingress -> bool * ingress :=
  update_inbound (fun r => owned_dispatching item_id owner generation r && negb (bool_decide (is_Some (im_judgment (ib_marks r)))))
    (put_marks (put_judgment (Some j))).

Definition put_released (w : inbound_work) : inbound_work :=
  InboundWork INBOUND_OBSERVED None (iw_generation w + 1) None (iw_authorization_expires_at w) (iw_attempts w) (iw_last_error w)
    (iw_ignored_reason w).

(** [suppress_judged_inbound]. *)
Definition suppress_judged_inbound (item_id owner : string) (generation : Z) (s : ingress) : option inbound_row * ingress :=
  readback item_id (update_inbound
    (fun r => owned_dispatching item_id owner generation r && negb (im_explicit_attention (ib_marks r))) (put_work put_released) s).

(** [note_explicit_attention]. *)
Definition note_explicit_attention (item_id : string) : ingress -> bool * ingress :=
  update_inbound (fun r => named item_id r && in_state_of LIVE_STATES r && text_is "selection" "judge" r) (put_marks put_attention).

(** [settle_inbound]. *)
Definition settle_inbound (item_id owner : string) (generation : Z) (session_id : string) (submit_context : bool)
  : ingress -> res bool * ingress :=
  transaction (
    s ← get_state;
    let '(changed, s1) := update_inbound (owned_dispatching item_id owner generation)
      (fun r => put_marks (fun m => put_submitted (im_context_submitted m || submit_context)
                                      (put_session (Some session_id) (im_resolved_conversation_key m) m))
                  (put_work (fun w => put_lease INBOUND_SETTLED (iw_lease_expires_at w) w) r)) s in
    _ ← modify (fun _ => s1);
    match (if changed then List.find (named item_id) (ig_inbound s1) else None) with
    | None => mret false
    | Some settled =>
        if negb submit_context then mret true
        else match im_frozen_content (ib_marks settled) with
        | None => throw RuntimeError
        | Some _ =>
            let quoted := im_frozen_context_ids (ib_marks settled) in
            let marked r := (ib_deployment_id r =s ib_deployment_id settled) && Py.in_strs (ib_item_id r) quoted in
            match quoted with
            | [] => mret true
            | _ =>
                if Nat.eqb (count_where marked (ig_inbound s1)) (length quoted)
                then _ ← modify (fun s => with_inbound (update_where marked (put_marks (put_submitted true)) (ig_inbound s)) s); mret true
                else throw RuntimeError
            end
        end
    end).

(** [mark_inbound_ignored]. *)
Definition mark_inbound_ignored (item_id owner : string) (generation : Z) (reason : string) (exclude_from_context : bool)
  : ingress -> bool * ingress :=
  update_inbound (owned item_id owner generation)
    (fun r => let r := put_work (put_ignored reason) r in if exclude_from_context then put_marks put_excluded r else r).

(** A failed drive: due again after the next wait while retries remain, dead afterwards. *)
Definition put_failed (now : Z) (error : string) (backoff : list Z) (w : inbound_work) : inbound_work :=
  let retries := length backoff in
  InboundWork
    (if Nat.eqb retries 0 then INBOUND_DEAD else if (iw_attempts w <? Z.of_nat retries)%Z then INBOUND_RECEIVED else INBOUND_DEAD)
    (iw_owner_token w) (iw_generation w)
    (match (if (iw_attempts w <? 0)%Z then None else backoff !! Z.to_nat (iw_attempts w)) with
     | Some wait => Some (now + wait)%Z
     | None => iw_lease_expires_at w
     end)
    (iw_authorization_expires_at w) (iw_attempts w + 1) (Some error) (iw_ignored_reason w).

(** [fail_inbound]. *)
Definition fail_inbound (now : Z) (item_id owner : string) (generation : Z) (error : string) (backoff : list Z) (s : ingress)
  : option inbound_state * ingress :=
  let '(row, s') := readback item_id (update_inbound (owned item_id owner generation) (put_work (put_failed now error backoff)) s) in
  (state_of <$> row, s').

(** [release_inbound_lease]. *)
Definition release_inbound_lease (now : Z) (item_id owner : string) (generation : Z) : ingress -> bool * ingress :=
  update_inbound (owned item_id owner generation) (put_work (fun w => put_lease (iw_state w) (Some now) w)).

Definition lapsed_le (a b : inbound_row) : Prop :=
  let at_ r := default 0%Z (iw_lease_expires_at (ib_work r)) in
  (at_ a < at_ b)%Z \/ at_ a = at_ b /\ Reader.str_le (ib_item_id a) (ib_item_id b).
#[local] Instance lapsed_le_dec a b : Decision (lapsed_le a b).
Proof. unfold lapsed_le, Reader.str_le. apply _. Defined.

(** [list_recoverable_inbound]. *)
Definition list_recoverable_inbound (here : string -> bool) (limit : nat) (now : Z) (s : ingress) : list inbound_row :=
  take limit (merge_sort lapsed_le
    (select_where (fun r => in_state_of LIVE_STATES r && here (ib_deployment_id r) && expired now r) (ig_inbound s))).

(** [claim_inbound_for_recovery]. *)
Definition claim_inbound_for_recovery (here : string -> bool) (now lease : Z) (owner item_id : string) (expected_generation : Z)
  (s : ingress) : option inbound_row * ingress :=
  readback item_id (update_inbound
    (fun r => named item_id r && here (ib_deployment_id r) && in_state_of LIVE_STATES r &&
              (generation_of r =? expected_generation)%Z && expired now r)
    (put_work (fun w => taken (iw_state w) owner (now + lease) w)) s).

(** [get_inbound]. *)
Definition get_inbound (item_id : string) (s : ingress) : option inbound_row := List.find (named item_id) (ig_inbound s).

(** [get_message_record]. *)
Definition get_message_record (deployment_id dedup_key : string) (s : ingress) : option inbound_row :=
  List.find (message_of deployment_id (Some dedup_key)) (ig_inbound s).

(** ** Recalls and context *)

(** An authorization that does not know its conversation yet. *)
Definition awaiting_content (r : inbound_row) : bool :=
  bool_decide (state_of r = INBOUND_AUTHORIZED) && Py.is_empty (default "" (text "conversation_key" r)).

(** [record_recall]. *)
Definition record_recall (deployment_id conversation_key event_id message_id timestamp : string) (s : ingress) : res bool * ingress :=
  if existsb Py.is_empty [deployment_id; conversation_key; event_id; message_id; timestamp] then (Raise ValueError, s)
  else if event_id =s message_id then (Raise ValueError, s)
  else
    let '(recorded, s') := update_inbound
      (fun r => message_of deployment_id (Some message_id) r && negb (bool_decide (is_Some (im_recall (ib_marks r)))) &&
                (text_is "conversation_key" conversation_key r || awaiting_content r))
      (put_marks (put_recall event_id timestamp)) s in
    if recorded then (Ok true, s')
    else match get_message_record deployment_id message_id s' with
    | None => (Ok false, s')
    | Some target =>
        let key := Py.get "conversation_key" (ib_columns target) in
        if negb (bool_decide (state_of target = INBOUND_AUTHORIZED) && negb (Py.truthy key)) && negb (Py.eqb key (VStr conversation_key))
        then (Raise RuntimeError, s')
        else if negb (bool_decide (im_recall (ib_marks target) = Some (event_id, timestamp))) then (Raise RuntimeError, s')
        else (Ok true, s')
    end.

(** [_context_candidates]. *)
Definition context_candidate (deployment_id : string) (conversation binding_revision : option string) (r : inbound_row) : bool :=
  (ib_deployment_id r =s deployment_id) && bool_decide (text "conversation" r = conversation) &&
  bool_decide (text "binding_revision" r = binding_revision) &&
  Py.truthy (Py.get "retain_context" (ib_columns r)) && negb (im_context_submitted (ib_marks r)) &&
  negb (im_context_excluded (ib_marks r)) && negb (bool_decide (is_Some (text "provider_ignore_reason" r))).

(** SQL's [a <= b] of two texts, false of [NULL]; [NULL = b] is written [IS NULL] when [b] is. *)
Definition text_le (a b : option string) : bool :=
  match a, b with Some a, Some b => negb (String.ltb b a) | _, _ => false end.

Definition context_key (r : inbound_row) : string * string := (default "" (text "message_timestamp" r), default "" (ib_dedup_key r)).
Definition pair_lt (a b : string * string) : bool := String.ltb (fst a) (fst b) || ((fst a =s fst b) && String.ltb (snd a) (snd b)).

(** SQL's [(message_timestamp, dedup_key) < (timestamp, message_id)]. *)
Definition before (timestamp message_id : string) (r : inbound_row) : bool :=
  match text "message_timestamp" r with
  | None => false
  | Some t => String.ltb t timestamp || ((t =s timestamp) && match ib_dedup_key r with Some k => String.ltb k message_id | None => false end)
  end.

Definition older_le (a b : inbound_row) : Prop := pair_lt (context_key b) (context_key a) = false.
Definition newer_le (a b : inbound_row) : Prop := older_le b a.
#[local] Instance older_le_dec a b : Decision (older_le a b).
Proof. unfold older_le. apply _. Defined.
#[local] Instance newer_le_dec a b : Decision (newer_le a b).
Proof. unfold newer_le. apply _. Defined.

(** A retained message as a turn quotes it. *)
Record context_entry := ContextEntry {
  ce_item_id : string;
  ce_message_id : option string;
  ce_timestamp : option string;
  ce_participant : option string;
  ce_content : option string;
  ce_attachments : option val;
  ce_recall : option (string * string)
}.

Definition context_of (r : inbound_row) : context_entry :=
  let recall := im_recall (ib_marks r) in
  let carried := Py.get "attachments" (ib_columns r) in
  ContextEntry (ib_item_id r) (ib_dedup_key r) (text "message_timestamp" r) (text "participant" r)
    (match recall with Some (_, at_) => Some ("[该消息已于 " ++ at_ ++ " 被撤回]") | None => text "reply_text" r end)
    (if Py.truthy carried && negb (bool_decide (is_Some recall)) then Some carried else None) recall.

(** [collect_unsubmitted_context] of an item with its payload. *)
Definition collect_unsubmitted_context (item_id deployment_id : string) (payload : dict) (s : ingress) : res (list context_entry) :=
  let column name := as_text (Py.get name payload) in
  if negb (Py.truthy (Py.get "retain_context" payload)) then Ok []
  else if negb (forallb (fun k => Py.truthy (Py.get k payload)) ["conversation"; "binding_revision"; "message_timestamp"])
  then Raise RuntimeError
  else
    let window := take CONTEXT_WINDOW_MESSAGES (merge_sort newer_le (select_where (fun r =>
      context_candidate deployment_id (column "conversation") (column "binding_revision") r &&
      text_le (text "message_timestamp" r) (column "message_timestamp") && negb (named item_id r)) (ig_inbound s))) in
    Ok (map context_of (merge_sort older_le window)).

(** [freeze_inbound_input]: the content and the messages it quotes. *)
Definition freeze_inbound_input (item_id owner : string) (generation : Z) (content : string) (context : list context_entry) (s : ingress)
  : option (string * list string) * ingress :=
  let quoted := map ce_item_id context in
  let '(changed, s1) := update_inbound
    (fun r => owned_dispatching item_id owner generation r && negb (bool_decide (is_Some (im_frozen_content (ib_marks r)))))
    (put_marks (put_frozen content quoted)) s in
  match (if changed then List.find (named item_id) (ig_inbound s1) else None) with
  | Some frozen =>
      let s2 := match context with
                | oldest :: _ =>
                    if (CONTEXT_WINDOW_MESSAGES <=? length context)%nat then
                      with_inbound (update_where (fun r =>
                        context_candidate (ib_deployment_id frozen) (text "conversation" frozen) (text "binding_revision" frozen) r &&
                        negb (named item_id r) &&
                        before (default "None" (ce_timestamp oldest)) (default "None" (ce_message_id oldest)) r)
                        (put_marks (put_submitted true)) (ig_inbound s1)) s1
                    else s1
                | [] => s1
                end in
      (Some (content, quoted), s2)
  | None =>
      match List.find (owned_dispatching item_id owner generation) (ig_inbound s1) with
      | Some r => ((fun c => (c, im_frozen_context_ids (ib_marks r))) <$> im_frozen_content (ib_marks r), s1)
      | None => (None, s1)
      end
  end.

(** [exclude_inbound_from_context]. *)
Definition exclude_inbound_from_context (item_id owner : string) (generation : Z) (s : ingress) : res unit * ingress :=
  let '(changed, s') := update_inbound (owned item_id owner generation) (put_marks put_excluded) s in
  (if changed then Ok tt else Raise RuntimeError, s').

(** ** Conversations and their locks *)

Definition is_conversation (deployment_id conversation_key execution_user_id : string) (c : conversation_row) : bool :=
  (cv_deployment_id c =s deployment_id) && (cv_execution_user_id c =s execution_user_id) && (cv_conversation_key c =s conversation_key).
Definition same_conversation (a b : conversation_row) : bool :=
  is_conversation (cv_deployment_id a) (cv_conversation_key a) (cv_execution_user_id a) b.

(** [get_conversation]. *)
Definition get_conversation (deployment_id conversation_key execution_user_id : string) (s : ingress) : option conversation_row :=
  List.find (is_conversation deployment_id conversation_key execution_user_id) (ig_conversations s).

(** [upsert_conversation]. *)
Definition upsert_conversation (deployment_id conversation_key session_id : string) (replaces_session_id : option string)
  (execution_user_id : string) (s : ingress) : option conversation_row * ingress :=
  match replaces_session_id with
  | None =>
      let s' := with_conversations (insert_if_absent same_conversation
        (ConversationRow deployment_id execution_user_id conversation_key session_id) (ig_conversations s)) s in
      (get_conversation deployment_id conversation_key execution_user_id s', s')
  | Some old =>
      let cond c := is_conversation deployment_id conversation_key execution_user_id c && (cv_session_id c =s old) in
      let s' := with_conversations (update_where cond (fun c =>
        ConversationRow (cv_deployment_id c) (cv_execution_user_id c) (cv_conversation_key c) session_id) (ig_conversations s)) s in
      match (if Nat.eqb (count_where cond (ig_conversations s)) 1
             then get_conversation deployment_id conversation_key execution_user_id s' else None) with
      | None => (None, s')
      | Some row => (Some row, with_channels (remove_output_subscription deployment_id old (ig_channels s')) s')
      end
  end.

Definition is_lock (deployment_id conversation_key execution_user_id : string) (l : lock_row) : bool :=
  (lk_deployment_id l =s deployment_id) && (lk_execution_user_id l =s execution_user_id) && (lk_conversation_key l =s conversation_key).
Definition same_lock (a b : lock_row) : bool := is_lock (lk_deployment_id a) (lk_conversation_key a) (lk_execution_user_id a) b.
Definition put_lock (owner : option string) (generation : Z) (expires : option Z) (l : lock_row) : lock_row :=
  LockRow (lk_deployment_id l) (lk_execution_user_id l) (lk_conversation_key l) owner generation expires.
Definition lock_free (now : Z) (l : lock_row) : bool := negb (bool_decide (is_Some (lk_owner l))) || passed now (lk_expires_at l).
Definition lock_held (deployment_id conversation_key execution_user_id owner : string) (generation : Z) (l : lock_row) : bool :=
  is_lock deployment_id conversation_key execution_user_id l && opt_is owner (lk_owner l) && (lk_generation l =? generation)%Z.

(** [acquire_conversation_lock]. *)
Definition acquire_conversation_lock (now : Z) (deployment_id conversation_key owner execution_user_id : string) (s : ingress)
  : option Z * ingress :=
  let this := is_lock deployment_id conversation_key execution_user_id in
  let t := insert_if_absent same_lock (LockRow deployment_id execution_user_id conversation_key None 0 None) (ig_locks s) in
  let cond l := this l && lock_free now l in
  let t' := update_where cond (fun l => put_lock (Some owner) (lk_generation l + 1) (Some (now + CONVERSATION_LOCK)%Z) l) t in
  ((if Nat.eqb (count_where cond t) 1 then lk_generation <$> List.find this t' else None), with_locks t' s).

(** [renew_conversation_lock]. *)
Definition renew_conversation_lock (now : Z) (deployment_id conversation_key owner : string) (generation : Z) (execution_user_id : string)
  (s : ingress) : bool * ingress :=
  let cond := lock_held deployment_id conversation_key execution_user_id owner generation in
  (Nat.eqb (count_where cond (ig_locks s)) 1,
   with_locks (update_where cond (fun l => put_lock (lk_owner l) (lk_generation l) (Some (now + CONVERSATION_LOCK)%Z) l) (ig_locks s)) s).

(** [release_conversation_lock]. *)
Definition release_conversation_lock (deployment_id conversation_key owner execution_user_id : string) (generation : Z) (s : ingress)
  : ingress :=
  with_locks (update_where (lock_held deployment_id conversation_key execution_user_id owner generation)
    (fun l => put_lock None (lk_generation l) None l) (ig_locks s)) s.

(** ** Account links *)

Definition is_link (deployment_id participant : string) (l : link_row) : bool :=
  (ln_deployment_id l =s deployment_id) && (ln_participant l =s participant).

Definition link_le (a b : link_row) : Prop := Reader.str_le (ln_participant a) (ln_participant b).
#[local] Instance link_le_dec a b : Decision (link_le a b).
Proof. apply Reader.str_le_dec. Defined.

(** [list_account_links]. *)
Definition list_account_links (deployment_id : string) (s : ingress) : list link_row :=
  merge_sort link_le (select_where (fun l => ln_deployment_id l =s deployment_id) (ig_links s)).

(** [get_account_link]. *)
Definition get_account_link (deployment_id participant : string) (s : ingress) : option link_row :=
  List.find (is_link deployment_id participant) (ig_links s).

(** [put_account_link]. *)
Definition put_account_link (now : Z) (deployment_id participant user_id linked_by : string) (s : ingress) : option link_row * ingress :=
  let row := LinkRow deployment_id participant user_id linked_by now in
  let this := is_link deployment_id participant in
  let s' := with_links (if existsb this (ig_links s) then update_where this (fun _ => row) (ig_links s) else (ig_links s ++ [row])%list) s in
  (get_account_link deployment_id participant s', s').

(** [delete_account_link]. *)
Definition delete_account_link (deployment_id participant : string) (s : ingress) : bool * ingress :=
  let this := is_link deployment_id participant in
  (Nat.eqb (count_where this (ig_links s)) 1, with_links (delete_where this (ig_links s)) s).
End Inbound.
