(* ===== verification/ChannelDrive.v ===== *)
(** [_drive_work_item] of [channel_ingress_service.py] and what it calls: how one worker takes
    an admitted platform message into its conversation, one await after another.  What other
    services, providers and people answer at an await is the argument [outside]. *)

From S2P Require Import Prelude PyVal Schema SessionRepo SessionRecord ChannelOutbox ChannelInbound.

Open Scope string_scope.

Module Drive.
Import Repo Rec Outbox Inbound.

(** ** What a turn says *)

Definition newline : string := Py.ascii_char 10.

(** A value in an f-string. *)
Definition shown (o : option string) : string := default "None" o.

(** [channel_turn_content]. *)
Definition context_line (m : context_entry) : string :=
  "- [" ++ shown (ce_timestamp m) ++ "] " ++ shown (ce_participant m) ++ "：" ++
  match ce_recall m with Some (_, at_) => "[该消息已于 " ++ at_ ++ " 被撤回]" | None => shown (ce_content m) end.

Definition channel_turn_content (content : string) (context : list context_entry) : string :=
  match context with
  | [] => content
  | _ => String.concat newline
           ("以下是 Bot 未参与期间、当前会话中的群聊记录（按时间顺序）：" :: map context_line context ++ [""; "当前唤起 Bot 的消息："; content])
  end.

(** ** A worker *)

(** The refusals a participant is told of. *)
Definition REFUSAL_NOTICES : list string :=
  ["ENVIRONMENT_ACCESS_DENIED"; "CHANNEL_REFERENCE_OWNER_MISMATCH"; "CHANNEL_PARTICIPANT_REQUIRED"; "CHANNEL_PARTICIPANT_NOT_LINKED";
   "CHANNEL_ACCOUNT_NOT_AUTHORIZED"].
Definition EXECUTION_LINKED : string := "linked".
Definition CONVERSATION_LOCK_POLLS : nat := 60.
Definition INBOUND_RETRY_BACKOFF : list Z := [10; 60; 300; 900]%Z.

(** The await a worker is at.  [Resolve] and [Choose] run in [_admit], before the drive, or
    in the drive; [Binding], [Fetch] and [Stage] in [_carried_attachments], the files that are
    still to come with them; [Nap] between two polls of the lock. *)
Inductive place :=
| Resolve (admitting : bool)
| Choose (admitting : bool)
| Begin
| Access
| Judge
| Ask
| Decide (j : judgment)
| Suppress
| Reread
| Lock (polls : nat)
| Nap (polls : nat)
| GiveBack
| ResumePoint
| Subscribe (seq : Z)
| LookUp
| Fence
| Question
| Exclude
| FenceAgain
| Collect
| Freeze (content : string) (context : list context_entry)
| Binding (content : string)
| Fetch (content : string) (index : nat) (source : val) (rest : list val) (files : list (string * string)) (lines : list string)
| Stage (content : string) (index : nat) (kind : string) (rest : list val) (files : list (string * string)) (lines : list string)
| Send (content : string) (files : list (string * string))
| Settle (submit_context : bool)
| Refuse (code : string)
| Fail (error : string)
| Cancel
| Finish.

(** A task's local state: the item it was given and what it changed in it. *)
Record worker := Worker {
  wk_item : inbound_row;
  wk_payload : dict;
  wk_session : option string;
  wk_key : option string;
  wk_judgment : option judgment;
  wk_frozen : option (string * list string);
  wk_lock : option (string * string * Z);
  wk_at : place
}.

Definition wk_id (w : worker) : string := ib_item_id (wk_item w).
Definition wk_deployment (w : worker) : string := ib_deployment_id (wk_item w).
Definition wk_owner (w : worker) : string := default "" (iw_owner_token (ib_work (wk_item w))).
Definition wk_generation (w : worker) : Z := generation_of (wk_item w).

(** A task that starts with the item it was handed. *)
Definition employ (item : inbound_row) (at_ : place) : worker :=
  let marks := ib_marks item in
  Worker item (payload_of item) (im_session_id marks) (im_resolved_conversation_key marks) (im_judgment marks)
    ((fun c => (c, im_frozen_context_ids marks)) <$> im_frozen_content marks) None at_.

Definition goto (at_ : place) (w : worker) : worker :=
  Worker (wk_item w) (wk_payload w) (wk_session w) (wk_key w) (wk_judgment w) (wk_frozen w) (wk_lock w) at_.
Definition with_payload (p : dict) (w : worker) : worker :=
  Worker (wk_item w) p (wk_session w) (wk_key w) (wk_judgment w) (wk_frozen w) (wk_lock w) (wk_at w).
Definition with_session (session_id : string) (key : option string) (w : worker) : worker :=
  Worker (wk_item w) (wk_payload w) (Some session_id) (match key with Some _ => key | None => wk_key w end) (wk_judgment w) (wk_frozen w)
    (wk_lock w) (wk_at w).
Definition with_judgment (j : judgment) (w : worker) : worker :=
  Worker (wk_item w) (wk_payload w) (wk_session w) (wk_key w) (Some j) (wk_frozen w) (wk_lock w) (wk_at w).
Definition with_frozen (f : string * list string) (w : worker) : worker :=
  Worker (wk_item w) (wk_payload w) (wk_session w) (wk_key w) (wk_judgment w) (Some f) (wk_lock w) (wk_at w).
Definition with_lock (l : option (string * string * Z)) (w : worker) : worker :=
  Worker (wk_item w) (wk_payload w) (wk_session w) (wk_key w) (wk_judgment w) (wk_frozen w) l (wk_at w).

(** [str(x.get(k) or "")] of the payload. *)
Definition said (k : string) (w : worker) : string := Py.str_or_empty (Py.get k (wk_payload w)).
Definition retains (w : worker) : bool := Py.truthy (Py.get "retain_context" (wk_payload w)).
Definition judged (w : worker) : bool := said "selection" w =s "judge".
(** A text that is there: [str(x or "") or None]. *)
Definition nonempty (o : option string) : option string := match o with Some t => if Py.is_empty t then None else Some t | None => None end.

(** ** What comes from outside *)

(** The answers of one await: the binding's target; the account a participant is linked to and
    whether it may use the target; whether the account may use the environment; the judge's
    decision; the session the target, the conversations and the reply chain give the message,
    with its conversation; whether the message was used up as an answer; the delivery binding
    with its credentials; a file as its provider gives it (why it failed, or whether its data
    is an image the engine takes) and the id it is staged under; the refusal of the session service before it stores an input, for an
    input it does not accept, and after it stored one. *)
Record outside := Outside {
  os_target : res unit;
  os_account : res string;
  os_may_start : bool;
  os_access : res unit;
  os_decision : res judgment;
  os_chosen : res (string * option string);
  os_handled : res bool;
  os_streams : bool;
  os_binding : res unit;
  os_fetched : string + bool;
  os_staged : res string;
  os_refused : option exn;
  os_input_id : string;
  os_blocks : option (list val);
  os_rendered : string -> string;
  os_unaccepted : exn;
  os_ensured : option exn;
  os_error : exn -> string
}.

Record site := Site { st_ingress : ingress; st_db : db }.
Definition put_ingress (i : ingress) (s : site) : site := Site i (st_db s).
Definition put_db (d : db) (s : site) : site := Site (st_ingress s) d.

(** [input_for_client_message]. *)
Definition input_for_client_message (session_id client_message_id : string) (d : db) : option input_row :=
  List.find (fun r => in_session session_id r && (in_client_message_id r =s client_message_id)) (db_inputs d).

(** Where an exception leads: the refusals a participant is told of end the message, everything
    else is a failed drive; in [_admit] it leaves the task. *)
Definition raised (o : outside) (guarded admitting : bool) (e : exn) : place :=
  match e with
  | APIError code _ => if guarded && Py.in_strs code REFUSAL_NOTICES then Refuse code
                       else if admitting then Finish else Fail (os_error o e)
  | _ => if admitting then Finish else Fail (os_error o e)
  end.

(** [_capture_linked_account]. *)
Definition linked_account (o : outside) (w : worker) : res string :=
  if Py.is_empty (Py.strip (said "participant" w)) then Raise (APIError "CHANNEL_PARTICIPANT_REQUIRED" 409)
  else
    account ← os_account o;
    let account := Py.strip account in
    if Py.is_empty account then Raise (APIError "CHANNEL_PARTICIPANT_NOT_LINKED" 403)
    else if negb (os_may_start o) then Raise (APIError "CHANNEL_ACCOUNT_NOT_AUTHORIZED" 403)
    else Ok account.

Definition capture_account (o : outside) (w : worker) (i : ingress) : res worker * ingress :=
  if (said "execution_mode" w =s EXECUTION_LINKED) && Py.is_empty (said "execution_user_id" w) then
    match (_ ← os_target o; linked_account o w) with
    | Raise e => (Raise e, i)
    | Ok account =>
        match capture_inbound_account (wk_id w) (wk_owner w) (wk_generation w) account i with
        | (None, i') => (Raise RuntimeError, i')
        | (Some payload, i') => (Ok (with_payload payload w), i')
        end
    end
  else (Ok w, i).

(** The sources of the files a turn carries; what is frozen of a turn is the content and the
    names of the messages it quotes. *)
Definition frozen_view (f : string * list string) : dict :=
  [("content", VStr (fst f)); ("context_item_ids", VList (map VStr (snd f)))].
Definition items_of (v : val) : list val := match v with VList l => l | _ => [] end.
Definition carried_sources (w : worker) : list val :=
  let frozen := match wk_frozen w with Some f => frozen_view f | None => [] end in
  let context := items_of (Py.get "context" frozen) in
  (concat (map (fun entry => match entry with VDict e => items_of (Py.get "attachments" e) | _ => [] end) context) ++
   items_of (Py.get "attachments" (wk_payload w)))%list.

Definition MAX_ATTACHMENTS : nat := 10.

(** A [ChannelAttachment] of the fields a source has. *)
Definition channel_attachment (source : val) : res dict :=
  match source with
  | VDict d =>
      let kind := default (VStr "file") (Py.lookup "kind" d) in
      if negb (Py.has "src" d) || existsb (fun e => negb (Py.in_strs (fst e) ["src"; "kind"; "title"])) d then Raise TypeError
      else if negb (Py.truthy (Py.get "src" d)) || negb (Py.eqb kind (VStr "image") || Py.eqb kind (VStr "file")) then Raise ValueError
      else Ok (Py.set "kind" kind d)
  | _ => Raise TypeError
  end.

(** What a file is called when it cannot be fetched. *)
Definition label (attachment : dict) (index : nat) : string :=
  if Py.truthy (Py.get "title" attachment) then Py.str (Py.get "title" attachment)
  else Py.str (Py.get "kind" attachment) ++ " " ++ pretty (Z.of_nat index).

(** The sources that are fetched, and what is said of the others. *)
Definition latest (sources : list val) : list val := drop (length sources - MAX_ATTACHMENTS) sources.
Definition left_out (sources : list val) : list string :=
  if (MAX_ATTACHMENTS <? length sources)%nat
  then [pretty (Z.of_nat (length sources - MAX_ATTACHMENTS)) ++ " earlier files: a message carries up to " ++
        pretty (Z.of_nat MAX_ATTACHMENTS)]
  else [].

(** The turn's text with the files that could not be fetched. *)
Definition told (content : string) (unavailable : list string) : string :=
  match unavailable with
  | [] => content
  | _ => content ++ newline ++ newline ++ "These attachments of the message could not be fetched:" ++ newline ++
         String.concat newline (map (fun line => "- " ++ line) unavailable)
  end.

(** The next turn of the loop over the sources, or what follows it. *)
Definition carry_on (w : worker) (content : string) (index : nat) (rest : list val) (files : list (string * string)) (lines : list string) : place :=
  match rest with
  | source :: rest => Fetch content index source rest files lines
  | [] => Send (told content (lines ++ left_out (carried_sources w))) files
  end.

(** [_carried_attachments] up to its first await. *)
Definition carry (w : worker) (content : string) : place :=
  match carried_sources w with [] => Send content [] | _ => Binding content end.

(** The input [send_as] stores under the item's id, which has no blanks to strip; the files'
    names are added to its content. *)
Definition turn_input (o : outside) (session_id content : string) (files : list (string * string)) (w : worker) : new_input :=
  let author := said "creator_user_id" w in
  NewInput session_id (os_input_id o) (wk_id w) (os_rendered o content) (os_blocks o) None (Some author) (Some "channel") files (Some author).

(** ** The awaits *)

Definition next (w : worker) (at_ : place) : option worker := Some (goto at_ w).

(** After the account and the judge: the session. *)
Definition after_access (w : worker) : place := if judged w then Judge else Resolve false.

(** After the session: the conversation's lock, when the message has one. *)
Definition lock_place (w : worker) : place :=
  match nonempty (wk_key w) with Some _ => Lock CONVERSATION_LOCK_POLLS | None => ResumePoint end.
Definition after_session (admitting : bool) (w : worker) : place := if admitting then Begin else lock_place w.

(** After the lock: the destination, when the message has one. *)
Definition replies (w : worker) : bool := match Py.get "reply_context" (wk_payload w) with VDict (_ :: _) => true | _ => false end.
Definition context_dict (w : worker) : dict := match Py.get "reply_context" (wk_payload w) with VDict d => d | _ => [] end.

Definition session_of (w : worker) : string := default "" (wk_session w).

(** What a granted fence leads to before the message is sent. *)
Definition before_send (w : worker) : place :=
  if retains w then match wk_frozen w with Some (content, _) => carry w content | None => Collect end
  else carry w (said "content" w).

Definition drive_step (o : outside) (now lease : Z) (w : worker) (s : site) : option worker * site :=
  let id := wk_id w in let owner := wk_owner w in let generation := wk_generation w in
  let i := st_ingress s in
  let fails e := (next w (raised o false false e), s) in
  match wk_at w with
  | Resolve admitting =>
      match nonempty (wk_session w) with
      | Some _ => (next w (after_session admitting w), s)
      | None => match capture_account o w i with
                | (Raise e, i') => (next w (raised o true admitting e), put_ingress i' s)
                | (Ok w', i') => (next w' (Choose admitting), put_ingress i' s)
                end
      end
  | Choose admitting =>
      match os_chosen o with
      | Raise e => (next w (raised o true admitting e), s)
      | Ok (session_id, key) =>
          if Py.is_empty session_id then
            (next w (if admitting then Begin else Fail "conversation start returned no session"), s)
          else
            let '(_, i') := bind_inbound_dispatch id owner generation (Some session_id) (nonempty key) i in
            let w' := with_session session_id (nonempty key) w in
            (next w' (after_session admitting w'), put_ingress i' s)
      end
  | Begin =>
      let '(ok, i') := begin_inbound_dispatch now lease id owner generation i in
      (next w (if ok : bool then Access else Finish), put_ingress i' s)
  | Access =>
      match capture_account o w i with
      | (Raise e, i') => (next w (raised o true false e), put_ingress i' s)
      | (Ok w', i') => (next w' (match os_access o with Raise e => raised o true false e | Ok _ => after_access w' end), put_ingress i' s)
      end
  | Judge =>
      match wk_judgment w with
      | Some j => (next w (if jd_respond j then Resolve false else Suppress), s)
      | None =>
          if im_explicit_attention (ib_marks (default (wk_item w) (get_inbound id i)))
          then (next w (Decide (Judgment true "explicit_attention" None now)), s) else (next w Ask, s)
      end
  | Ask =>
      match collect_unsubmitted_context id (wk_deployment w) (wk_payload w) i with
      | Raise e => (next w (raised o true false e), s)
      | Ok _ => (next w (match os_decision o with Raise e => raised o true false e | Ok j => Decide j end), s)
      end
  | Decide j =>
      let '(ok, i') := record_inbound_judgment id owner generation j i in
      (next (with_judgment j w) (if ok : bool then (if jd_respond j then Resolve false else Suppress) else Finish), put_ingress i' s)
  | Suppress =>
      let '(row, i') := suppress_judged_inbound id owner generation i in
      (next w (match row with Some _ => Finish | None => Reread end), put_ingress i' s)
  | Reread =>
      let attended := match get_inbound id i with
                      | Some r => im_explicit_attention (ib_marks r) && opt_is owner (iw_owner_token (ib_work r))
                      | None => false
                      end in
      (next w (if attended then Resolve false else Finish), s)
  | Lock polls =>
      let key := default "" (wk_key w) in
      let account := said "execution_user_id" w in
      match acquire_conversation_lock now (wk_deployment w) key owner account i with
      | (Some g, i') => (next (with_lock (Some (key, account, g)) w) ResumePoint, put_ingress i' s)
      | (None, i') => (next w (match polls with S polls => Nap polls | 0 => GiveBack end), put_ingress i' s)
      end
  | Nap polls => (next w (Lock polls), s)
  | GiveBack => let '(_, i') := release_inbound_lease now id owner generation i in (next w Finish, put_ingress i' s)
  | ResumePoint =>
      if replies w then (next w (Subscribe (fst (resume_point (session_of w) (st_db s)))), s) else (next w LookUp, s)
  | Subscribe seq =>
      let sub := SubscriptionRow (wk_deployment w) (session_of w) (ib_channel_name (wk_item w)) (context_dict w) (nonempty (wk_key w))
                   (os_streams o) seq in
      (next w LookUp, put_ingress (with_channels (subscribe_to_output sub (ig_channels i)) i) s)
  | LookUp =>
      match input_for_client_message (session_of w) id (st_db s) with
      | Some _ => (next w (Settle (retains w)), s)
      | None => (next w Fence, s)
      end
  | Fence => let '(ok, i') := renew_inbound_lease now lease id owner generation i in
             (next w (if ok : bool then Question else Finish), put_ingress i' s)
  | Question =>
      match os_handled o with
      | Raise e => fails e
      | Ok true => (next w (if retains w then Exclude else Settle false), s)
      | Ok false => (next w FenceAgain, s)
      end
  | Exclude => let '(answer, i') := exclude_inbound_from_context id owner generation i in
               (next w (match answer with Ok _ => Settle false | Raise e => raised o false false e end), put_ingress i' s)
  | FenceAgain => let '(ok, i') := renew_inbound_lease now lease id owner generation i in
                  (next w (if ok : bool then before_send w else Finish), put_ingress i' s)
  | Collect =>
      match collect_unsubmitted_context id (wk_deployment w) (wk_payload w) i with
      | Raise e => fails e
      | Ok context => (next w (Freeze (channel_turn_content (said "content" w) context) context), s)
      end
  | Freeze content context =>
      let '(frozen, i') := freeze_inbound_input id owner generation content context i in
      match frozen with
      | None => (next w Finish, put_ingress i' s)
      | Some f => (next (with_frozen f w) (carry (with_frozen f w) (fst f)), put_ingress i' s)
      end
  | Binding content =>
      match os_binding o with
      | Raise e => fails e
      | Ok _ => (next w (carry_on w content 1 (latest (carried_sources w)) [] []), s)
      end
  | Fetch content index source rest files lines =>
      match channel_attachment source with
      | Raise e => fails e
      | Ok attachment =>
          match os_fetched o with
          | inl failure =>
              (next w (carry_on w content (S index) rest files (lines ++ [label attachment index ++ ": " ++ failure])), s)
          | inr is_image =>
              let kind := if Py.eqb (Py.get "kind" attachment) (VStr "image") && is_image then "image" else "file" in
              (next w (Stage content index kind rest files lines), s)
          end
      end
  | Stage content index kind rest files lines =>
      match os_staged o with
      | Raise e => fails e
      | Ok id => (next w (carry_on w content (S index) rest (files ++ [(id, kind)]) lines), s)
      end
  | Send content files =>
      match os_refused o with
      | Some e => fails e
      | None =>
          let files := if bool_decide (is_Some (input_for_client_message (session_of w) id (st_db s))) then [] else files in
          match accept_input (turn_input o (session_of w) content files w) now now (st_db s) with
          | (Raise e, d) => (next w (raised o false false e), put_db d s)
          | (Ok None, d) => (next w (raised o false false (os_unaccepted o)), put_db d s)
          | (Ok (Some _), d) =>
              (next w (match os_ensured o with Some e => raised o false false e | None => Settle (retains w) end), put_db d s)
          end
      end
  | Settle submit =>
      let '(answer, i') := settle_inbound id owner generation (session_of w) submit i in
      (next w (match answer with Ok _ => Finish | Raise e => raised o false false e end), put_ingress i' s)
  | Refuse code =>
      let '(_, i') := mark_inbound_ignored id owner generation code true i in (next w Finish, put_ingress i' s)
  | Fail error =>
      let '(_, i') := fail_inbound now id owner generation error INBOUND_RETRY_BACKOFF i in (next w Finish, put_ingress i' s)
  | Cancel => let '(_, i') := release_inbound_lease now id owner generation i in (next w Finish, put_ingress i' s)
  | Finish =>
      match wk_lock w with
      | Some (key, account, g) => (None, put_ingress (release_conversation_lock (wk_deployment w) key owner account g i) s)
      | None => (None, s)
      end
  end.
End Drive.
