(* ===== verification/InboundFacts.v ===== *)
(** The records of platform messages over any history of repository calls: what stands of a
    record once it is written, and who may change it. *)

From S2P Require Import Prelude PyVal Schema SessionRepo ChannelOutbox ChannelInbound.

Open Scope string_scope.

Module InboundFacts.
Import Repo Outbox Inbound.

(** ** What every call keeps of a record *)

Definition live (r : inbound_row) : bool := in_state_of LIVE_STATES r.
Definition owner_of (r : inbound_row) : option string := iw_owner_token (ib_work r).
Definition over (r : inbound_row) : Prop := state_of r = INBOUND_SETTLED \/ state_of r = INBOUND_IGNORED.

(** Once written, the value stays. *)
Definition kept {A} (a b : option A) : Prop := is_Some a -> b = a.
Definition set_once (a b : bool) : Prop := a = true -> b = true.

(** The owner and the generation stay, and the item is not taken up again; or a later
    generation has it. *)
Definition fenced (r r' : inbound_row) : Prop :=
  (generation_of r' = generation_of r /\ owner_of r' = owner_of r /\ (live r' = true -> live r = true)) \/
  (generation_of r < generation_of r')%Z.

Record stands (r r' : inbound_row) : Prop := {
  st_id : ib_item_id r' = ib_item_id r;
  st_deployment : ib_deployment_id r' = ib_deployment_id r;
  st_dedup : ib_dedup_key r' = ib_dedup_key r;
  st_fence : fenced r r';
  st_over : over r -> state_of r' = state_of r;
  st_recall : kept (im_recall (ib_marks r)) (im_recall (ib_marks r'));
  st_judgment : kept (im_judgment (ib_marks r)) (im_judgment (ib_marks r'));
  st_frozen : kept ((fun c => (c, im_frozen_context_ids (ib_marks r))) <$> im_frozen_content (ib_marks r))
                   ((fun c => (c, im_frozen_context_ids (ib_marks r'))) <$> im_frozen_content (ib_marks r'));
  st_attention : set_once (im_explicit_attention (ib_marks r)) (im_explicit_attention (ib_marks r'));
  st_excluded : set_once (im_context_excluded (ib_marks r)) (im_context_excluded (ib_marks r'));
  st_submitted : set_once (im_context_submitted (ib_marks r)) (im_context_submitted (ib_marks r'))
}.

(** What all calls but the owner's own [bind_inbound_dispatch] and [settle_inbound] keep. *)
Record turn (r r' : inbound_row) : Prop := {
  tn_stands : stands r r';
  tn_session : im_session_id (ib_marks r') = im_session_id (ib_marks r);
  tn_settled : state_of r' = INBOUND_SETTLED -> state_of r = INBOUND_SETTLED
}.

Lemma kept_trans {A} (a b c : option A) : kept a b -> kept b c -> kept a c.
Proof. unfold kept. intros H1 H2 H. specialize (H1 H). subst b. auto. Qed.

Lemma once_refl a : set_once a a.
Proof. by unfold set_once. Qed.
Lemma once_true a : set_once a true.
Proof. by unfold set_once. Qed.
#[export] Hint Resolve once_refl once_true : core.

#[export] Instance stands_preorder : PreOrder stands.
Proof.
  split.
  - intros r. split; try done. by left.
  - intros x y z [A1 A2 A3 A4 A5 A6 A7 A8 A9 A10 A11] [B1 B2 B3 B4 B5 B6 B7 B8 B9 B10 B11].
    split; try congruence; try (by eapply kept_trans); try (unfold set_once in *; tauto).
    + unfold fenced in *. destruct A4 as [(G & O & L)|G], B4 as [(G' & O' & L')|G']; [left; split_and!; [lia|congruence|tauto]|right; lia..].
    + intros Hx. rewrite B5; [auto|]. unfold over in *. by rewrite A5.
Qed.

#[export] Instance turn_preorder : PreOrder turn.
Proof.
  split; [intros r; split; [reflexivity|done..]|]. intros x y z [A1 A2 A3] [B1 B2 B3]. split; [by transitivity y|congruence|auto].
Qed.

Lemma stands_generation r r' : stands r r' -> (generation_of r <= generation_of r')%Z.
Proof. intros [_ _ _ [(? & _)|?] _ _ _ _ _ _ _]; lia. Qed.

(** *** The ways a record changes *)

Lemma turn_work f r :
  let r' := put_work f r in fenced r r' -> (over r -> state_of r' = state_of r) -> (state_of r' = INBOUND_SETTLED -> state_of r = INBOUND_SETTLED) ->
  turn r r'.
Proof. intros r' H1 H2 H3. by split; [split|..]. Qed.

Lemma stands_marks f r :
  let m := ib_marks r in
  kept (im_recall m) (im_recall (f m)) -> kept (im_judgment m) (im_judgment (f m)) ->
  kept ((fun c => (c, im_frozen_context_ids m)) <$> im_frozen_content m) ((fun c => (c, im_frozen_context_ids (f m))) <$> im_frozen_content (f m)) ->
  set_once (im_explicit_attention m) (im_explicit_attention (f m)) -> set_once (im_context_excluded m) (im_context_excluded (f m)) ->
  set_once (im_context_submitted m) (im_context_submitted (f m)) -> stands r (put_marks f r).
Proof. intros m H1 H2 H3 H4 H5 H6. split; try done. by left. Qed.

Lemma turn_marks f r : stands r (put_marks f r) -> im_session_id (f (ib_marks r)) = im_session_id (ib_marks r) -> turn r (put_marks f r).
Proof. by split. Qed.

Lemma turn_columns columns r : turn r (put_columns columns r).
Proof. split; [split|..]; try done. by left. Qed.

Lemma live_cases r : live r = true <-> state_of r = INBOUND_RECEIVED \/ state_of r = INBOUND_DISPATCHING.
Proof. unfold live, in_state_of, LIVE_STATES. by rewrite bool_decide_eq_true, elem_of_cons, list_elem_of_singleton. Qed.

Lemma live_not_over r : live r = true -> ~ over r.
Proof. unfold over. rewrite live_cases. intros [-> | ->] [H|H]; discriminate. Qed.

(** A live record is moved by its owner. *)
Lemma stands_lease f r :
  live r = true -> iw_generation (f (ib_work r)) = generation_of r -> iw_owner_token (f (ib_work r)) = owner_of r -> stands r (put_work f r).
Proof. intros Hl Hg Ho. split; try done; [left; by split_and!|]. intros H. by destruct (live_not_over r Hl). Qed.

Lemma turn_lease f r :
  live r = true -> iw_generation (f (ib_work r)) = generation_of r -> iw_owner_token (f (ib_work r)) = owner_of r ->
  (iw_state (f (ib_work r)) = INBOUND_SETTLED -> state_of r = INBOUND_SETTLED) -> turn r (put_work f r).
Proof.
  intros Hl Hg Ho Hs. apply turn_work; [left|intros Hv; by destruct (live_not_over r Hl)|done]. split; [done|by split].
Qed.

(** A later generation takes a record that is not over. *)
Lemma turn_taken f r :
  ~ over r -> iw_generation (f (ib_work r)) = (generation_of r + 1)%Z -> iw_state (f (ib_work r)) <> INBOUND_SETTLED -> turn r (put_work f r).
Proof. intros Hn Hg Hs. apply turn_work; [right; unfold generation_of in *; cbn; lia|done|done]. Qed.

(** A record that is not over is ended without a settlement. *)
Lemma turn_ended f r :
  ~ over r -> iw_generation (f (ib_work r)) = generation_of r -> iw_owner_token (f (ib_work r)) = owner_of r ->
  bool_decide (iw_state (f (ib_work r)) ∈ LIVE_STATES) = false -> iw_state (f (ib_work r)) <> INBOUND_SETTLED -> turn r (put_work f r).
Proof.
  intros Hn Hg Ho Hs Hs'. apply turn_work; [left; split; [done|split; [done|]]|done|done].
  unfold live, in_state_of, state_of. cbn. by rewrite Hs.
Qed.

Lemma stands_excluded r : stands r (put_marks put_excluded r).
Proof. apply stands_marks; done. Qed.
Lemma turn_excluded r : turn r (put_marks put_excluded r).
Proof. apply turn_marks; [apply stands_excluded|done]. Qed.
Lemma turn_submitted r : turn r (put_marks (put_submitted true) r).
Proof. apply turn_marks; [apply stands_marks; done|done]. Qed.

Lemma owned_live states id owner g r : (forall s, s ∈ states -> s ∈ LIVE_STATES) -> owned_in states id owner g r = true -> live r = true.
Proof. intros H Ho. unfold owned_in, live, in_state_of in *. bool_prop. rewrite bool_decide_eq_true. auto. Qed.

Lemma owned_is_live id owner g r : owned id owner g r = true -> live r = true.
Proof. by apply owned_live. Qed.
Lemma dispatching_is_live id owner g r : owned_dispatching id owner g r = true -> live r = true.
Proof. apply owned_live. intros s ->%list_elem_of_singleton. right. left. Qed.

(** ** Tables *)

Definition turns (i i' : ingress) : Prop := Forall2 turn (ig_inbound i) (ig_inbound i').

Lemma turns_refl i i' : ig_inbound i' = ig_inbound i -> turns i i'.
Proof. unfold turns. intros ->. apply Forall_Forall2_diag, Forall_forall. intros r _. reflexivity. Qed.

#[export] Instance turns_preorder : PreOrder turns.
Proof.
  split; [intros i; by apply turns_refl|]. intros x y z. unfold turns. intros H. revert z. generalize (ig_inbound y) (ig_inbound x) H. clear.
  intros ty tx H z. revert H. generalize (ig_inbound z). intros tz H H'. revert tz H'. induction H as [|a b la lb Hab _ IH]; intros tz H'.
  - inversion H'. constructor.
  - inversion H' as [|? c ? lc Hbc Hl]; subst. constructor; [by transitivity b|by apply IH].
Qed.

Lemma where_turns cond set t : (forall r, r ∈ t -> cond r = true -> turn r (set r)) -> Forall2 turn t (update_where cond set t).
Proof.
  induction t as [|r t IH]; intros H; [constructor|]. cbn. constructor.
  - destruct (cond r) eqn:E; [apply H; [left|done]|reflexivity].
  - apply IH. intros x Hx. apply H. by right.
Qed.

Lemma update_turns cond set i : (forall r, cond r = true -> turn r (set r)) -> turns i (snd (update_inbound cond set i)).
Proof. intros H. apply where_turns. auto. Qed.

Lemma readback_snd id x : snd (readback id x) = snd x.
Proof. done. Qed.

(** A call that runs under the owner's fence. *)
Lemma owned_turns states id owner g extra set i :
  (forall s, s ∈ states -> s ∈ LIVE_STATES) -> (forall r, live r = true -> extra r = true -> turn r (set r)) ->
  turns i (snd (update_inbound (fun r => owned_in states id owner g r && extra r) set i)).
Proof. intros Hs H. apply update_turns. intros r [Ho He]%andb_true_iff. apply H; [by eapply owned_live|done]. Qed.

Lemma live_turns id owner g set i : (forall r, live r = true -> turn r (set r)) -> turns i (snd (update_inbound (owned id owner g) set i)).
Proof. intros H. apply update_turns. intros r Ho%owned_is_live. by apply H. Qed.

Lemma begin_turns now lease id owner g i : turns i (snd (begin_inbound_dispatch now lease id owner g i)).
Proof. apply live_turns. intros r Hl. by apply turn_lease. Qed.

Lemma renew_turns now lease id owner g i : turns i (snd (renew_inbound_lease now lease id owner g i)).
Proof.
  apply live_turns. intros r Hl. by apply turn_lease.
Qed.

Lemma release_turns now id owner g i : turns i (snd (release_inbound_lease now id owner g i)).
Proof.
  apply live_turns. intros r Hl. by apply turn_lease.
Qed.

Lemma answer_turns id owner g ref q i : turns i (snd (mark_inbound_answer id owner g ref q i)).
Proof. apply live_turns. intros r _. apply turn_marks; [by apply stands_marks|done]. Qed.

Lemma capture_turns id owner g user i : turns i (snd (capture_inbound_account id owner g user i)).
Proof.
  unfold capture_inbound_account. destruct (readback _ _) as [row i'] eqn:E. cbn. apply (f_equal snd) in E. rewrite readback_snd in E. cbn [snd] in E.
  subst i'. apply (owned_turns LIVE_STATES); [done|]. intros r _ _. apply turn_columns.
Qed.

Lemma judgment_turns id owner g j i : turns i (snd (record_inbound_judgment id owner g j i)).
Proof.
  apply (owned_turns [INBOUND_DISPATCHING]); [intros s ->%list_elem_of_singleton; right; left|]. intros r _ Hn. bool_prop.
  apply turn_marks; [apply stands_marks; try done|done]. by intros ?.
Qed.

Lemma suppress_turns id owner g i : turns i (snd (suppress_judged_inbound id owner g i)).
Proof.
  unfold suppress_judged_inbound. rewrite readback_snd. apply (owned_turns [INBOUND_DISPATCHING]); [intros s ->%list_elem_of_singleton; right; left|].
  intros r Hl _. apply turn_taken; [by apply live_not_over|done|done].
Qed.

Lemma attention_turns id i : turns i (snd (note_explicit_attention id i)).
Proof. apply update_turns. intros r _. apply turn_marks; [by apply stands_marks|done]. Qed.

Lemma ignored_turns id owner g reason out i : turns i (snd (mark_inbound_ignored id owner g reason out i)).
Proof.
  apply live_turns. intros r Hl. cbv zeta. assert (H : turn r (put_work (put_ignored reason) r)).
  { apply turn_ended; [by apply live_not_over|done|done|done|done]. }
  destruct out; [|done]. etrans; [exact H|apply turn_excluded].
Qed.

Lemma fail_turns now id owner g error backoff i : turns i (snd (fail_inbound now id owner g error backoff i)).
Proof.
  unfold fail_inbound. destruct (readback _ _) as [row i'] eqn:E. apply (f_equal snd) in E. rewrite readback_snd in E. cbn [snd] in *. subst i'.
  apply live_turns. intros r Hl. apply turn_lease; [done..|]. cbn. by repeat case_match.
Qed.

Lemma exclude_turns id owner g i : turns i (snd (exclude_inbound_from_context id owner g i)).
Proof.
  unfold exclude_inbound_from_context. destruct (update_inbound _ _ i) as [b i'] eqn:E. apply (f_equal snd) in E. cbn [snd] in *. subst i'.
  apply live_turns. intros r _. apply turn_excluded.
Qed.

Lemma freeze_turns id owner g content context i : turns i (snd (freeze_inbound_input id owner g content context i)).
Proof.
  unfold freeze_inbound_input. destruct (update_inbound _ _ i) as [b i1] eqn:E. apply (f_equal snd) in E. cbn [snd] in E.
  assert (H1 : turns i i1).
  { subst i1. apply (owned_turns [INBOUND_DISPATCHING]); [intros s ->%list_elem_of_singleton; right; left|]. intros r _ Hn. bool_prop.
    apply turn_marks; [apply stands_marks; try done|done]. intros H. destruct (im_frozen_content (ib_marks r)); [|by destruct H].
    by destruct Hn. }
  destruct (if b then _ else _).
  - cbn [snd]. destruct context; [done|]. destruct (_ <=? _)%nat; [|done]. etrans; [exact H1|]. apply where_turns. intros r _ _. apply turn_submitted.
  - destruct (List.find _ _); done.
Qed.

Lemma observe_turns id g payload i : turns i (snd (observe_authorized_inbound id g payload i)).
Proof.
  unfold observe_authorized_inbound. destruct (payload_columns payload); [|done]. destruct (readback _ _) as [row i'] eqn:E.
  apply (f_equal snd) in E. rewrite readback_snd in E. cbn [snd] in *. subst i'. apply update_turns. intros r Hr. unfold expected_in in Hr.
  bool_prop. etrans; [|apply turn_columns]. apply turn_taken; [unfold over; intros [H'|H']; congruence|done|done].
Qed.

Lemma refuse_turns id state g reason i : turns i (snd (refuse_unadmitted_inbound id state g reason i)).
Proof.
  unfold refuse_unadmitted_inbound. destruct (negb _) eqn:Es; [done|]. destruct (update_inbound _ _ i) as [b i'] eqn:E.
  apply (f_equal snd) in E. cbn [snd] in *. subst i'. apply update_turns. intros r Hr. unfold expected_in in Hr. bool_prop.
  unfold UNADMITTED_STATES in *. rewrite elem_of_cons, list_elem_of_singleton in Es.
  etrans; [|apply turn_excluded]. apply turn_ended; [|done..]. intros [H'|H']; destruct Es; congruence.
Qed.

Lemma expire_turns here limit now i : turns i (snd (expire_authorizations here limit now i)).
Proof.
  apply where_turns. intros r _ Hr. bool_prop. apply turn_ended; [|done|done|done|done]. unfold over. intros [H'|H']; congruence.
Qed.

Lemma recall_turns deployment key event message at_ i : turns i (snd (record_recall deployment key event message at_ i)).
Proof.
  unfold record_recall. destruct (existsb _ _); [done|]. destruct (_ =s _); [done|]. destruct (update_inbound _ _ i) as [b i'] eqn:E.
  apply (f_equal snd) in E. cbn [snd] in E. assert (H : turns i i').
  { subst i'. apply update_turns. intros r Hr. bool_prop. apply turn_marks; [apply stands_marks; try done|done]. by intros ?. }
  destruct b; [done|]. repeat case_match; done.
Qed.

(** ** The owner's own writes *)

(** What [bind_inbound_dispatch] and [settle_inbound] do besides: the owner's row gets its session. *)
Definition owners (id owner : string) (g : Z) (session : option string) (r r' : inbound_row) : Prop :=
  turn r r' \/ (stands r r' /\ owned id owner g r = true /\ im_session_id (ib_marks r') = session).

Lemma owners_stands id owner g session r r' : owners id owner g session r r' -> stands r r'.
Proof. by intros [[H _ _]|[H _]]. Qed.

Lemma bind_owners id owner g session key i :
  Forall2 (fun r r' => (turn r r' /\ owned id owner g r = false) \/
      (stands r r' /\ owned id owner g r = true /\ im_session_id (ib_marks r') = Some session /\ state_of r' = state_of r))
    (ig_inbound i) (ig_inbound (snd (bind_inbound_dispatch id owner g (Some session) key i))).
Proof.
  unfold bind_inbound_dispatch, update_inbound. cbn. induction (ig_inbound i) as [|r t IH]; constructor; [|exact IH].
  destruct (owned id owner g r) eqn:E; [right|left; split; [reflexivity|done]]. split; [apply stands_marks; done|]. by split_and!.
Qed.

Lemma turns_owners id owner g session t t' : Forall2 turn t t' -> Forall2 (owners id owner g session) t t'.
Proof. induction 1; constructor; [by left|done]. Qed.

(** A settlement of the owner's item. *)
Lemma settle_owners id owner g session submit i :
  Forall2 (owners id owner g (Some session)) (ig_inbound i) (ig_inbound (snd (settle_inbound id owner g session submit i))).
Proof.
  unfold settle_inbound. set (set := fun r => put_marks _ (put_work _ r)). destruct (update_inbound (owned_dispatching id owner g) set i) as [b i1] eqn:E.
  assert (H1 : Forall2 (owners id owner g (Some session)) (ig_inbound i) (ig_inbound i1)).
  { apply (f_equal snd) in E. cbn [snd] in E. subst i1. cbn. induction (ig_inbound i) as [|r t IH]; constructor; [|exact IH].
    destruct (owned_dispatching id owner g r) eqn:Ho; [right|left; reflexivity]. pose proof (dispatching_is_live _ _ _ _ Ho) as Hl.
    assert (Hg : owned id owner g r = true).
    { unfold owned, owned_dispatching, owned_in in *. bool_prop. rewrite !andb_true_iff. split_and!; try done. by apply Z.eqb_eq. }
    split; [|by split]. etrans; [apply (stands_lease (fun w => put_lease INBOUND_SETTLED (iw_lease_expires_at w) w)); done|].
    apply stands_marks; try done. intros H. cbn in H |- *. by rewrite H. }
  assert (Hmark : forall marked, Forall2 (owners id owner g (Some session)) (ig_inbound i)
    (ig_inbound (with_inbound (update_where marked (put_marks (put_submitted true)) (ig_inbound i1)) i1))).
  { intros marked. cbn. revert H1. generalize (ig_inbound i1) (ig_inbound i). clear. intros t1 t H.
    induction H as [|r r1 t t1 Hr _ IH]; constructor; [|exact IH]. destruct (marked r1); [|done].
    destruct Hr as [Hr|(Hr & Ho & Hs)]; [left; etrans; [exact Hr|apply turn_submitted]|right].
    split_and!; [etrans; [exact Hr|apply (tn_stands _ _ (turn_submitted _))]|done|done]. }
  assert (H0 : Forall2 (owners id owner g (Some session)) (ig_inbound i) (ig_inbound i)) by (apply turns_owners, turns_refl; done).
  unfold transaction, mbind, txn_bind, get_state, modify. rewrite E. cbn. destruct (if b then _ else _) as [settled|]; [|done].
  destruct (negb submit); [done|]. destruct (im_frozen_content _); [|done]. destruct (im_frozen_context_ids _); [done|].
  destruct (_ =? _)%nat; [apply Hmark|done].
Qed.

(** ** Hand-overs *)

(** The unique keys of the table. *)
Record keyed (i : ingress) : Prop := {
  ky_ids : NoDup (map ib_item_id (ig_inbound i));
  ky_messages : forall r r' k, r ∈ ig_inbound i -> r' ∈ ig_inbound i -> ib_deployment_id r = ib_deployment_id r' ->
    ib_dedup_key r = Some k -> ib_dedup_key r' = Some k -> r = r'
}.

Lemma keyed_item i r r' : keyed i -> r ∈ ig_inbound i -> r' ∈ ig_inbound i -> ib_item_id r = ib_item_id r' -> r = r'.
Proof. intros [H _] Hr Hr' E. by eapply NoDup_map_inj. Qed.

Definition all_stand (i i' : ingress) : Prop := Forall2 stands (ig_inbound i) (ig_inbound i').

Lemma turns_stand i i' : turns i i' -> all_stand i i'.
Proof. unfold turns, all_stand. induction 1 as [|r r' t t' H]; constructor; [apply H|done]. Qed.

Lemma stand_ids t t' : Forall2 stands t t' -> map ib_item_id t' = map ib_item_id t.
Proof. induction 1 as [|r r' t t' H _ IH]; [done|]. cbn. by rewrite (st_id _ _ H), IH. Qed.

Lemma stand_to i i' r : all_stand i i' -> r ∈ ig_inbound i -> exists r', r' ∈ ig_inbound i' /\ stands r r'.
Proof.
  intros H [n Hn]%list_elem_of_lookup. destruct (Forall2_lookup_l _ _ _ _ _ H Hn) as (r' & H' & Hs).
  exists r'. split; [by eapply list_elem_of_lookup_2|done].
Qed.

Lemma stand_from i i' r' : all_stand i i' -> r' ∈ ig_inbound i' -> exists r, r ∈ ig_inbound i /\ stands r r'.
Proof.
  intros H [n Hn]%list_elem_of_lookup. destruct (Forall2_lookup_r _ _ _ _ _ H Hn) as (r & H' & Hs).
  exists r. split; [by eapply list_elem_of_lookup_2|done].
Qed.

Lemma keyed_stands i i' : keyed i -> all_stand i i' -> keyed i'.
Proof.
  intros [H1 H2] H. split; [by rewrite (stand_ids _ _ H)|]. intros r r' k Hr Hr' Ed E E'.
  destruct (stand_from _ _ _ H Hr) as (x & Hx & Sx), (stand_from _ _ _ H Hr') as (x' & Hx' & Sx').
  assert (x = x') as <-.
  { apply (H2 x x' k); [done|done| | |]; [rewrite <-(st_deployment _ _ Sx), <-(st_deployment _ _ Sx'); done|by rewrite <-(st_dedup _ _ Sx)|by rewrite <-(st_dedup _ _ Sx')]. }
  apply (NoDup_map_inj ib_item_id (ig_inbound i')); [by rewrite (stand_ids _ _ H)|done|done|].
  by rewrite (st_id _ _ Sx), (st_id _ _ Sx').
Qed.

(** An update that changed one row changed a row of the table. *)
Lemma update_one cond set i : fst (update_inbound cond set i) = true -> exists r, r ∈ ig_inbound i /\ cond r = true.
Proof.
  unfold update_inbound. cbn. intros H%Nat.eqb_eq. destruct (existsb cond (ig_inbound i)) eqn:E; [by apply existsb_true|].
  rewrite (proj2 (count_where_zero _ _)) in H; [done|]. by apply existsb_false.
Qed.

Lemma updated_in cond set i r : r ∈ ig_inbound i -> cond r = true -> set r ∈ ig_inbound (snd (update_inbound cond set i)).
Proof. intros Hr Hc. apply elem_of_update_where. exists r. split; [done|]. by rewrite Hc. Qed.

(** A worker is handed a record of a later generation, as the table has it. *)
Definition handed_over (i i' : ingress) (rec : inbound_row) : Prop :=
  rec ∈ ig_inbound i' /\ exists r, r ∈ ig_inbound i /\ ib_item_id rec = ib_item_id r /\ (generation_of r < generation_of rec)%Z.

Lemma readback_handed id cond set i i' rec :
  keyed i -> (forall r, cond r = true -> ib_item_id r = id /\ turn r (set r) /\ (generation_of r < generation_of (set r))%Z) ->
  readback id (update_inbound cond set i) = (Some rec, i') -> turns i i' /\ handed_over i i' rec.
Proof.
  intros Hk H E. pose proof (f_equal snd E) as E2. rewrite readback_snd in E2. cbn [snd] in E2. subst i'.
  assert (Ht : turns i (snd (update_inbound cond set i))) by (apply update_turns; intros r Hr; apply (H r Hr)).
  split; [exact Ht|]. apply (f_equal fst) in E. unfold readback in E. cbn [fst snd] in E.
  destruct (fst (update_inbound cond set i)) eqn:Eb; [|discriminate]. destruct (update_one _ _ _ Eb) as (r & Hr & Hc).
  apply find_some in E as [Hin%list_elem_of_In Hn]. unfold named in Hn. bool_prop. destruct (H r Hc) as (Hid & Hturn & Hg).
  assert (rec = set r) as ->.
  { eapply keyed_item; [eapply keyed_stands; [exact Hk|by apply turns_stand]|done|by apply updated_in|].
    rewrite (st_id _ _ (tn_stands _ _ Hturn)). congruence. }
  split; [by apply updated_in|]. exists r. split_and!; [done|by rewrite (st_id _ _ (tn_stands _ _ Hturn))|done].
Qed.

Lemma promote_handed now lease owner id state g payload i i' rec :
  keyed i -> promote_inbound now lease owner id state g payload i = (Ok (Some rec), i') -> turns i i' /\ handed_over i i' rec.
Proof.
  intros Hk. unfold promote_inbound. destruct (negb _) eqn:Es; [done|]. destruct (payload_columns payload) as [columns|]; [|done].
  destruct (readback _ _) as [row i1] eqn:E. intros [= -> ->]. eapply readback_handed; [exact Hk| |exact E].
  intros r Hr. unfold expected_in, named in Hr. bool_prop. unfold UNADMITTED_STATES in *. rewrite elem_of_cons, list_elem_of_singleton in Es.
  split_and!; [done| |cbn; unfold generation_of; cbn; lia]. etrans; [|apply turn_columns].
  apply turn_taken; [|done|done]. intros [H'|H']; destruct Es; congruence.
Qed.

Lemma recovery_turn id here now lease owner g :
  let cond := fun r => named id r && here (ib_deployment_id r) && in_state_of LIVE_STATES r && (generation_of r =? g)%Z && expired now r in
  forall r, cond r = true -> ib_item_id r = id /\ turn r (put_work (fun w => taken (iw_state w) owner (now + lease) w) r) /\
    (generation_of r < generation_of (put_work (fun w => taken (iw_state w) owner (now + lease)%Z w) r))%Z.
Proof.
  intros cond r Hr. unfold cond, named in Hr. bool_prop. split_and!; [done| |unfold generation_of; cbn; lia].
  assert (Hl : live r = true) by done. apply turn_taken; [by apply live_not_over|done|].
  apply live_cases in Hl as [Hl|Hl]; unfold state_of in Hl; cbn; congruence.
Qed.

Lemma recovery_handed here now lease owner id g i i' rec :
  keyed i -> claim_inbound_for_recovery here now lease owner id g i = (Some rec, i') -> turns i i' /\ handed_over i i' rec.
Proof. intros Hk E. eapply readback_handed; [exact Hk|apply (recovery_turn id here now lease owner g)|exact E]. Qed.

(** *** Claims *)

Lemma message_of_eq deployment key r : message_of deployment key r = true ->
  ib_deployment_id r = deployment /\ exists k, key = Some k /\ ib_dedup_key r = Some k.
Proof.
  unfold message_of, opt_is. intros H. destruct key as [k|]; [|by rewrite andb_false_r in H]. bool_prop. split; [done|]. exists k.
  destruct (ib_dedup_key r); [|done]. by bool_prop; subst.
Qed.

Lemma claimable_turn now lease owner r :
  claimable now r = true -> turn r (put_work (taken INBOUND_RECEIVED owner (now + lease)) r) /\
    (generation_of r < generation_of (put_work (taken INBOUND_RECEIVED owner (now + lease)%Z) r))%Z.
Proof.
  intros Hc. split; [|unfold generation_of; cbn; lia]. apply turn_taken; [|done|done]. unfold claimable in Hc.
  apply orb_true_iff in Hc as [Hc|Hc]; bool_prop; [by apply live_not_over|]. unfold over. intros [H'|H']; congruence.
Qed.

(** What a claim does: it records a new message, or takes an item up, or leaves it. *)
Inductive claims (i : ingress) (id : string) : res (inbound_row * claim_outcome) -> ingress -> Prop :=
| ClaimsNew rec o i' : ib_item_id rec = id -> ig_inbound i' = (ig_inbound i ++ [rec])%list -> im_session_id (ib_marks rec) = None ->
    state_of rec <> INBOUND_SETTLED -> (forall r k, r ∈ ig_inbound i -> ib_deployment_id r = ib_deployment_id rec ->
      ib_dedup_key rec = Some k -> ib_dedup_key r <> Some k) -> claims i id (Ok (rec, o)) i'
| ClaimsTaken rec o i' : turns i i' -> handed_over i i' rec -> claims i id (Ok (rec, o)) i'
| ClaimsLeft answer i' : turns i i' -> (forall rec, answer <> Ok (rec, CLAIM_OUTCOME_CLAIMED)) -> claims i id answer i'.

Lemma claim_claims here now lease id owner c i answer i' :
  keyed i -> claim_inbound here now lease id owner c i = (answer, i') -> claims i id answer i'.
Proof.
  intros Hk H. unfold claim_inbound in H. destruct (negb (bool_decide _)) eqn:Es; [injection H as <- <-; by apply ClaimsLeft; [apply turns_refl|]|].
  destruct (payload_columns _) as [columns|e]; [|injection H as <- <-; by apply ClaimsLeft; [apply turns_refl|]].
  destruct (negb (here _)); [injection H as <- <-; by apply ClaimsLeft; [apply turns_refl|]|].
  set (row := claimed_row _ _ _ _ _ _) in H. set (identity := message_of _ _) in H. cbv zeta in H.
  destruct (exists_where identity (ig_inbound i)) eqn:Ex; cbn [negb] in H.
  - set (admits := bool_decide _ || bool_decide _) in H. set (cond := fun r => identity r && claimable now r) in H.
    set (set_ := put_work _) in H. destruct admits.
    + destruct (update_inbound cond set_ i) as [written i1] eqn:E. pose proof (f_equal snd E) as E2. cbn [snd] in E2.
      assert (Ht : turns i i1).
      { subst i1. apply update_turns. intros r Hr. unfold cond in Hr. bool_prop. by apply claimable_turn. }
      destruct (List.find identity (ig_inbound i1)) as [record|] eqn:Ef; [|injection H as <- <-; by apply ClaimsLeft; [apply turns_refl|]].
      destruct written.
      * assert (Hh : handed_over i i1 record).
        { destruct (update_one cond set_ i) as (r & Hr & Hc); [by rewrite E|]. pose proof Hc as Hc'. unfold cond in Hc'.
          apply andb_true_iff in Hc' as [Hi Hcl]. destruct (claimable_turn now lease owner r Hcl) as [Hturn Hg].
          apply find_some in Ef as [Hrec%list_elem_of_In Hri]. unfold identity in Hi, Hri.
          destruct (message_of_eq _ _ _ Hi) as (D1 & k & K & K1), (message_of_eq _ _ _ Hri) as (D2 & k' & K' & K2).
          assert (record = set_ r) as ->.
          { assert (Hin : set_ r ∈ ig_inbound i1) by (subst i1; by apply updated_in).
            apply (ky_messages i1 (keyed_stands _ _ Hk (turns_stand _ _ Ht)) _ _ k); [done|done|cbn; congruence|congruence|done]. }
          split; [done|]. exists r. by split_and!. }
        destruct (claim_answer true true record) as [[rec o]|e] eqn:Ea; injection H as <- <-.
        -- assert (rec = record) as ->. { unfold claim_answer in Ea. destruct (WRITTEN_OUTCOMES _); [|done]. by injection Ea as <- <-. }
           by apply ClaimsTaken.
        -- apply ClaimsLeft; [apply turns_refl; done|done].
      * assert (Hn : forall rec, claim_answer false true record <> Ok (rec, CLAIM_OUTCOME_CLAIMED)).
        { intros rec. unfold claim_answer. by destruct (state_of record). }
        destruct (claim_answer false true record) as [[rec o]|e] eqn:Ea; injection H as <- <-; (apply ClaimsLeft; [first [done|by apply turns_refl]|done]).
    + destruct (List.find identity (ig_inbound i)) as [record|] eqn:Ef; [|injection H as <- <-; by apply ClaimsLeft; [apply turns_refl|]].
      assert (Hn : forall rec, claim_answer false false record <> Ok (rec, CLAIM_OUTCOME_CLAIMED)).
      { intros rec. unfold claim_answer. by destruct (state_of record). }
      destruct (claim_answer false false record) as [[rec o]|e] eqn:Ea; injection H as <- <-; (apply ClaimsLeft; [by apply turns_refl|done]).
  - set (admits := bool_decide (ic_state c = INBOUND_RECEIVED) || _) in H. injection H as Ha <-.
    change (claim_answer true admits row = answer) in Ha. subst answer. bool_prop. unfold CLAIM_STATES in Es.
    rewrite !elem_of_cons, elem_of_nil in Es. assert (Hst : state_of row = ic_state c) by done.
    destruct (claim_answer true admits row) as [[rec o]|e] eqn:Ea.
    + assert (rec = row) as ->. { unfold claim_answer in Ea. destruct (WRITTEN_OUTCOMES _); [|done]. by injection Ea as <- <-. }
      apply ClaimsNew; [done|done| | |].
      * unfold row, claimed_row. cbn. by destruct (_ && _).
      * rewrite Hst. intros E. rewrite E in Es. naive_solver.
      * intros r k Hr D K K'. apply existsb_false with (r := r) in Ex; [|done]. unfold identity, message_of in Ex.
        change (ib_deployment_id row) with (ic_deployment_id c) in D. change (ib_dedup_key row) with (claim_key c) in K.
        rewrite D, String.eqb_refl, K in Ex. unfold opt_is in Ex. by rewrite K', String.eqb_refl in Ex.
    + exfalso. unfold claim_answer in Ea. rewrite Hst in Ea. destruct Es as [Es|[Es|[Es|[Es|[]]]]]; by rewrite Es in Ea.
Qed.
End InboundFacts.
