(* ===== verification/DriveFacts.v ===== *)
(** Drives of platform messages beside each other: whatever is taken over, repeated or lost on
    the way, a message enters one conversation, once. *)

From S2P Require Import Prelude PyVal Schema Interaction SessionRepo SessionRecord DemoStore RepoHistory InputAcceptance ChannelOutbox ChannelInbound ChannelDrive InboundFacts.

Open Scope string_scope.

Module DriveFacts.
Import Repo Rec History Acceptance Outbox Inbound Drive InboundFacts.

(** ** The inputs of a message *)

(** The sessions that hold an input of the item, one entry for each input. *)
Definition sent_as (item : string) (d : db) : list string :=
  map in_session_id (select_where (fun r => in_client_message_id r =s item) (db_inputs d)).

Definition keeps_inputs (d d' : db) : Prop := db_inputs d' = db_inputs d.
#[export] Instance keeps_inputs_preorder : PreOrder keeps_inputs.
Proof. unfold keeps_inputs. split; [done|]. intros x y z H1 H2. congruence. Qed.

Lemma rest_keeps n clock now :
  ensures keeps_inputs (_ ← forM (bind_attachment n clock) (imap pair (ni_attachments n));
    _ ← update_sessions (fun s => ss_session_id s =s ni_session_id n) (touch_session now);
    d' ← get_state;
    stored ← one (select_where (fun r => in_input_id r =s ni_input_id n) (db_inputs d'));
    _ ← notify (ni_session_id n) "input" 0;
    mret (Some stored)).
Proof.
  apply ensures_bind; [apply _| |].
  - apply ensures_forM; [apply _|]. intros [ordinal [aid kind]]. unfold bind_attachment. apply ensures_bind; [apply _| |].
    + by intros d a d' [= _ <-].
    + intros b. destruct (_ =? _)%nat; [apply ensures_ret, _|apply ensures_throw].
  - intros _. apply ensures_bind; [apply _|by intros d a d' [= _ <-]|]. intros _. apply ensures_bind; [apply _|apply ensures_get, _|].
    intros d0. apply ensures_bind; [apply _| |].
    + intros d a d'. unfold one. destruct (select_where _ _) as [|x [|y l]]; try done. by intros [= _ <-].
    + intros x. apply ensures_bind; [apply _|by intros d a d' [= _ <-]|]. intros _. apply ensures_ret, _.
Qed.

Lemma sent_app item inputs row d :
  db_inputs d = (inputs ++ [row])%list ->
  sent_as item d = (map in_session_id (select_where (fun r => in_client_message_id r =s item) inputs) ++
                    if in_client_message_id row =s item then [in_session_id row] else [])%list.
Proof.
  intros E. unfold sent_as, select_where. rewrite E, filter_app, map_app. f_equal. destruct (in_client_message_id row =s item) eqn:Ei.
  - by rewrite filter_cons_True.
  - by rewrite filter_cons_False by (by rewrite Ei).
Qed.

Lemma has_sent sid item d : has_message sid item d <-> sid ∈ sent_as item d.
Proof.
  unfold has_message, sent_as. rewrite list_elem_of_fmap. split.
  - intros (r & Hr & Hs & Hm). exists r. split; [done|]. apply elem_of_select_where. by rewrite Hm, String.eqb_refl.
  - intros (r & Hs & [Hm Hr]%elem_of_select_where). bool_prop. by exists r.
Qed.

(** What an acceptance does to the inputs of the messages. *)
Lemma accept_sent n now clock d answer d' :
  accept_input n now clock d = (answer, d') ->
  (forall item, sent_as item d' = sent_as item d) \/
  ((forall item, item <> ni_client_message_id n -> sent_as item d' = sent_as item d) /\
   sent_as (ni_client_message_id n) d' = (sent_as (ni_client_message_id n) d ++ [ni_session_id n])%list /\
   ni_session_id n ∉ sent_as (ni_client_message_id n) d).
Proof.
  intros H. apply (f_equal snd) in H. rewrite snd_accept_input in H. cbn [snd] in H. unfold transaction in H.
  destruct (accept_body n now clock d) as [[a d1]|e] eqn:E; cbn [snd] in H; subst d'; [|by left].
  unfold accept_body in E. apply txn_bind_ok in E as (d2 & d3 & [= <- <-] & E).
  destruct (_ || _) eqn:Eor; [injection E as _ <-; by left|]. apply orb_false_iff in Eor as [_ Enew]. right.
  apply txn_bind_ok in E as (u & d4 & Hins & E).
  assert (Hk : db_inputs d1 = db_inputs d4) by (exact (rest_keeps n clock now d4 _ _ E)).
  unfold modify_res in Hins. destruct (_ ≫= _) as [d5|] eqn:Eb; [|done]. injection Hins as _ ->.
  apply bind_ok in Eb as (rows & Hu & <-%Ok_inj). apply insert_unique_ok in Hu as [-> _]. cbn in Hk.
  set (row := input_row_of n (db_next_input_seq d) now) in *.
  assert (Hs : forall item, sent_as item d1 = (sent_as item d ++ if ni_client_message_id n =s item then [ni_session_id n] else [])%list).
  { intros item. by rewrite (sent_app item _ row d1 Hk). }
  split_and!.
  - intros item Hne. rewrite Hs. rewrite (proj2 (String.eqb_neq _ _)) by congruence. apply app_nil_r.
  - by rewrite Hs, String.eqb_refl.
  - rewrite <-has_sent. intros (r & Hr & H1 & H2). apply existsb_false with (r := r) in Enew; [|done].
    unfold same_message in Enew. cbn in Enew. by rewrite H1, H2, !String.eqb_refl in Enew.
Qed.

Lemma accepted_sent n now clock d row d' :
  accept_input n now clock d = (Ok (Some row), d') -> sent_as (ni_client_message_id n) d' <> [].
Proof.
  intros H. pose proof (accept_sent _ _ _ _ _ _ H) as Hs. destruct Hs as [Hs|(_ & -> & _)]; [|by destruct (sent_as _ d)].
  unfold accept_input in H. destruct (transaction (accept_body n now clock) d) as [[[r|]|] d1] eqn:E; [| |done].
  - injection H as <- <-. apply transaction_ok in E. unfold accept_body in E. apply txn_bind_ok in E as (d2 & d3 & [= <- <-] & E).
    destruct (_ || _) eqn:Eor; [done|]. apply orb_false_iff in Eor as [_ Enew]. apply txn_bind_ok in E as (u & d4 & Hins & E).
    assert (Hk : db_inputs d1 = db_inputs d4) by (exact (rest_keeps n clock now d4 _ _ E)).
    unfold modify_res in Hins. destruct (_ ≫= _) as [d5|] eqn:Eb; [|done]. injection Hins as _ ->.
    apply bind_ok in Eb as (rows & Hu & <-%Ok_inj). apply insert_unique_ok in Hu as [-> _]. cbn in Hk.
    rewrite (sent_app _ _ _ _ Hk). cbn. rewrite String.eqb_refl. by destruct (map _ _).
  - injection H as H <-. destruct (List.find _ _) as [r|] eqn:Ef; [|done]. apply find_some in Ef as [Hr Hc]. bool_prop.
    assert (Hin : in_session_id r ∈ sent_as (ni_client_message_id n) d1).
    { apply has_sent. exists r. split; [by apply list_elem_of_In|done]. }
    intros E0. rewrite E0 in Hin. by apply elem_of_nil in Hin.
Qed.

Lemma looked_up sid item d r : input_for_client_message sid item d = Some r -> sent_as item d <> [].
Proof.
  unfold input_for_client_message. intros H%find_some. destruct H as [Hr Hc]. unfold in_session in Hc. bool_prop.
  assert (Hin : sid ∈ sent_as item d) by (apply has_sent; exists r; split; [by apply list_elem_of_In|done]).
  intros E0. rewrite E0 in Hin. by apply elem_of_nil in Hin.
Qed.

(** ** Workers beside each other *)

(** [sc_answered] remembers the items whose message was used up as an answer. *)
Record scene := Scene { sc_site : site; sc_workers : list worker; sc_answered : list string }.

Definition table (c : scene) : list inbound_row := ig_inbound (st_ingress (sc_site c)).

(** A recorded message that was handed to a task. *)
Definition admitted (rec : inbound_row) : worker := let w := employ rec Begin in if judged w then w else goto (Resolve true) w.

Definition answers_of (o : outside) (w : worker) : list string :=
  match wk_at w, os_handled o with Question, Ok true => [wk_id w] | _, _ => [] end.

(** The calls other parts make meanwhile. *)
Inductive quiet (i : ingress) : ingress -> Prop :=
| Renews now lease id owner g : quiet i (snd (renew_inbound_lease now lease id owner g i))
| Releases now id owner g : quiet i (snd (release_inbound_lease now id owner g i))
| MarksAnswer id owner g ref q : quiet i (snd (mark_inbound_answer id owner g ref q i))
| Observes id g payload : quiet i (snd (observe_authorized_inbound id g payload i))
| RefusesUnadmitted id state g reason : quiet i (snd (refuse_unadmitted_inbound id state g reason i))
| Expires here limit now : quiet i (snd (expire_authorizations here limit now i))
| Recalls deployment key event message at_ : quiet i (snd (record_recall deployment key event message at_ i))
| Attends id : quiet i (snd (note_explicit_attention id i))
| Elsewhere i' : ig_inbound i' = ig_inbound i -> quiet i i'.

Lemma quiet_turns i i' : quiet i i' -> turns i i'.
Proof.
  intros [now lease id owner g|now id owner g|id owner g ref q|id g payload|id state g reason|here limit now|deployment key event message at_|id|i'' E].
  - apply renew_turns.
  - apply release_turns.
  - apply answer_turns.
  - apply observe_turns.
  - apply refuse_turns.
  - apply expire_turns.
  - apply recall_turns.
  - apply attention_turns.
  - by apply turns_refl.
Qed.

(** Where a task goes when an await raises or the task is cancelled. *)
Definition breaks (at_ : place) : Prop := match at_ with Fail _ | Cancel | Finish => True | _ => False end.

Inductive step : scene -> scene -> Prop :=
| Drives o now lease w w' s s' ws1 ws2 ans :
    drive_step o now lease w s = (w', s') ->
    step (Scene s (ws1 ++ w :: ws2) ans) (Scene s' (ws1 ++ option_list w' ++ ws2) (answers_of o w ++ ans))
| Breaks at_ w s ws1 ws2 ans : breaks at_ -> step (Scene s (ws1 ++ w :: ws2) ans) (Scene s (ws1 ++ goto at_ w :: ws2) ans)
| Vanishes w s ws1 ws2 ans : step (Scene s (ws1 ++ w :: ws2) ans) (Scene s (ws1 ++ ws2) ans)
| Calls i i' d ws ans : quiet i i' -> step (Scene (Site i d) ws ans) (Scene (Site i' d) ws ans)
| Arrives here now lease id owner claim answer i i' d ws ans :
    claim_inbound here now lease id owner claim i = (answer, i') ->
    (forall r, r ∈ ig_inbound i -> ib_item_id r <> id) -> sent_as id d = [] ->
    step (Scene (Site i d) ws ans)
      (Scene (Site i' d) (ws ++ match answer with Ok (rec, CLAIM_OUTCOME_CLAIMED) => [admitted rec] | _ => [] end) ans)
| Promotes now lease owner id state g payload rec i i' d ws ans :
    promote_inbound now lease owner id state g payload i = (Ok (Some rec), i') ->
    step (Scene (Site i d) ws ans) (Scene (Site i' d) (ws ++ [admitted rec]) ans)
| Recovers here now lease owner id g rec i i' d ws ans :
    claim_inbound_for_recovery here now lease owner id g i = (Some rec, i') ->
    step (Scene (Site i d) ws ans) (Scene (Site i' d) (ws ++ [employ rec Begin]) ans)
| SessionMoves i d d' ws ans :
    repo_step d d' -> (forall r, r ∈ ig_inbound i -> sent_as (ib_item_id r) d' = sent_as (ib_item_id r) d) ->
    step (Scene (Site i d) ws ans) (Scene (Site i d') ws ans).

(** ** What holds of a scene *)

Definition mine (w : worker) (r : inbound_row) : bool := owned (wk_id w) (wk_owner w) (wk_generation w) r.

(** The item reached a session, or was used up as an answer. *)
Definition dealt_with (d : db) (ans : list string) (item : string) : Prop := sent_as item d <> [] \/ item ∈ ans.

Record row_sound (d : db) (ans : list string) (r : inbound_row) : Prop := {
  rs_sent : forall sid, sid ∈ sent_as (ib_item_id r) d -> im_session_id (ib_marks r) = Some sid;
  rs_once : length (sent_as (ib_item_id r) d) <= 1;
  rs_settled : state_of r = INBOUND_SETTLED -> dealt_with d ans (ib_item_id r);
  rs_named : im_session_id (ib_marks r) <> Some ""
}.

(** What a task's place tells of its item. *)
Definition at_sound (d : db) (ans : list string) (w : worker) (session : option string) : Prop :=
  match wk_at w with
  | Choose _ => wk_session w = None
  | Lock _ | Nap _ | GiveBack | ResumePoint | Subscribe _ | LookUp | Fence | Question | FenceAgain => is_Some (wk_session w)
  | Exclude => is_Some (wk_session w) /\ wk_id w ∈ ans
  | Settle _ => is_Some (wk_session w) /\ dealt_with d ans (wk_id w)
  | Collect | Freeze _ _ | Binding _ | Fetch _ _ _ _ _ _ | Stage _ _ _ _ _ _ | Send _ _ => is_Some (wk_session w) /\ session = wk_session w
  | _ => True
  end.

(** The task's row: it knows the session the row names as long as the row is its own. *)
Record knows (d : db) (ans : list string) (w : worker) (r : inbound_row) : Prop := {
  kn_id : ib_item_id r = wk_id w;
  kn_generation : (wk_generation w <= generation_of r)%Z;
  kn_session : mine w r = true -> im_session_id (ib_marks r) = wk_session w;
  kn_at : at_sound d ans w (im_session_id (ib_marks r))
}.

Definition worker_sound (d : db) (ans : list string) (t : list inbound_row) (w : worker) : Prop :=
  wk_session w <> Some "" /\ exists r, r ∈ t /\ knows d ans w r.

Definition badge (w : worker) : string * Z := (wk_id w, wk_generation w).

Record sound (c : scene) : Prop := {
  so_keyed : keyed (st_ingress (sc_site c));
  so_rows : Forall (row_sound (st_db (sc_site c)) (sc_answered c)) (table c);
  so_workers : Forall (worker_sound (st_db (sc_site c)) (sc_answered c) (table c)) (sc_workers c);
  so_apart : NoDup (map badge (sc_workers c))
}.

(** *** The table changes *)

(** The row stands with its session, and is settled only when its item is dealt with. *)
Definition soft (d : db) (ans : list string) (r r' : inbound_row) : Prop :=
  stands r r' /\ im_session_id (ib_marks r') = im_session_id (ib_marks r) /\
  (state_of r' = INBOUND_SETTLED -> state_of r = INBOUND_SETTLED \/ dealt_with d ans (ib_item_id r)).

Lemma turn_soft d ans r r' : turn r r' -> soft d ans r r'.
Proof. intros [H1 H2 H3]. split_and!; [done|done|auto]. Qed.

Lemma mine_back w r r' : stands r r' -> (wk_generation w <= generation_of r)%Z -> mine w r' = true -> mine w r = true.
Proof.
  intros Hs Hle Hm. unfold mine, owned, owned_in in *. bool_prop. destruct (st_fence _ _ Hs) as [(G & O & L)|G]; [|lia].
  rewrite !andb_true_iff. split_and!; [unfold named in *; by rewrite <-(st_id _ _ Hs)|by apply L|unfold owner_of in O; by rewrite <-O|apply Z.eqb_eq; lia].
Qed.

Lemma knows_soft d ans w r r' : soft d ans r r' -> knows d ans w r -> knows d ans w r'.
Proof.
  intros (Hs & Hsession & _) [K1 K2 K3 K4]. split.
  - by rewrite (st_id _ _ Hs).
  - pose proof (stands_generation _ _ Hs). lia.
  - intros Hm. rewrite Hsession. apply K3. by eapply mine_back.
  - by rewrite Hsession.
Qed.

Lemma row_soft d ans r r' : soft d ans r r' -> row_sound d ans r -> row_sound d ans r'.
Proof.
  intros (Hs & Hsession & Hset) [R1 R2 R3 R4]. split; rewrite ?Hsession, ?(st_id _ _ Hs); try done. intros [H|H]%Hset; [by apply R3|done].
Qed.

Lemma soft_stand d ans t t' : Forall2 (soft d ans) t t' -> Forall2 stands t t'.
Proof. induction 1 as [|r r' t t' H]; constructor; [apply H|done]. Qed.

Lemma Forall2_to {A} (R : A -> A -> Prop) t t' r : Forall2 R t t' -> r ∈ t -> exists r', r' ∈ t' /\ R r r'.
Proof.
  intros H [n Hn]%list_elem_of_lookup. destruct (Forall2_lookup_l _ _ _ _ _ H Hn) as (r' & H' & Hs).
  exists r'. split; [by eapply list_elem_of_lookup_2|done].
Qed.

Lemma Forall2_from {A} (R : A -> A -> Prop) t t' r' : Forall2 R t t' -> r' ∈ t' -> exists r, r ∈ t /\ R r r'.
Proof.
  intros H [n Hn]%list_elem_of_lookup. destruct (Forall2_lookup_r _ _ _ _ _ H Hn) as (r & H' & Hs).
  exists r. split; [by eapply list_elem_of_lookup_2|done].
Qed.

Lemma sound_soft i i' d ws ans :
  Forall2 (soft d ans) (ig_inbound i) (ig_inbound i') -> sound (Scene (Site i d) ws ans) -> sound (Scene (Site i' d) ws ans).
Proof.
  intros H [S1 S2 S3 S4]. unfold table in *. cbn in *. split; unfold table; cbn; [| | |done].
  - eapply keyed_stands; [exact S1|]. by eapply soft_stand.
  - apply Forall_forall. intros r' Hr'. destruct (Forall2_from _ _ _ _ H Hr') as (r & Hr & Hs). rewrite Forall_forall in S2.
    by eapply row_soft; [|apply S2].
  - eapply Forall_impl; [exact S3|]. intros w (Hw & r & Hr & Hk). split; [done|]. destruct (Forall2_to _ _ _ _ H Hr) as (r' & Hr' & Hs).
    exists r'. split; [done|by eapply knows_soft].
Qed.

Lemma sound_turns i i' d ws ans : turns i i' -> sound (Scene (Site i d) ws ans) -> sound (Scene (Site i' d) ws ans).
Proof.
  intros H. apply sound_soft. unfold turns in H. induction H; constructor; [by apply turn_soft|done].
Qed.

(** *** A task moves on, leaves or begins *)

Lemma at_rises d ans d' ans' w session :
  (dealt_with d ans (wk_id w) -> dealt_with d' ans' (wk_id w)) -> (wk_id w ∈ ans -> wk_id w ∈ ans') ->
  at_sound d ans w session -> at_sound d' ans' w session.
Proof. unfold at_sound. intros H1 H2. destruct (wk_at w); tauto. Qed.

Lemma answered_rises d ans more item : dealt_with d ans item -> dealt_with d (more ++ ans) item.
Proof. unfold dealt_with. intros [H|H]; [by left|right]. apply elem_of_app. by right. Qed.

(** More answers are remembered. *)
Lemma sound_answers s ws ans more : sound (Scene s ws ans) -> sound (Scene s ws (more ++ ans)).
Proof.
  intros [S1 S2 S3 S4]. unfold table in *. cbn in *. split; unfold table; cbn; [done| | |done].
  - eapply Forall_impl; [exact S2|]. intros r [R1 R2 R3 R4]. split; try done. intros H. by apply answered_rises, R3.
  - eapply Forall_impl; [exact S3|]. intros w (Hw & r & Hr & [K1 K2 K3 K4]). split; [done|]. exists r. split; [done|]. split; try done.
    eapply at_rises; [apply answered_rises| |exact K4]. intros. apply elem_of_app. by right.
Qed.

(** A task at a new place. *)
Lemma sound_replace s ws1 w w' ws2 ans :
  badge w' = badge w -> wk_owner w' = wk_owner w -> wk_session w' = wk_session w ->
  (forall r, r ∈ table (Scene s [] ans) -> knows (st_db s) ans w r -> at_sound (st_db s) ans w' (im_session_id (ib_marks r))) ->
  sound (Scene s (ws1 ++ w :: ws2) ans) -> sound (Scene s (ws1 ++ w' :: ws2) ans).
Proof.
  intros [= Ei Eg] Eo Es H [S1 S2 S3 S4]. unfold table in *. cbn in *. split; unfold table; cbn; [done|done| |].
  - apply Forall_app in S3 as [F1 F2]. apply Forall_cons in F2 as [Fw F2]. apply Forall_app. split; [done|]. apply Forall_cons. split; [|done].
    destruct Fw as (Hw & r & Hr & Hk). split; [by rewrite Es|]. exists r. split; [done|]. specialize (H r Hr Hk). destruct Hk as [K1 K2 K3 K4].
    split; [congruence|lia| |done]. rewrite Es. unfold mine in *. by rewrite Ei, Eg, Eo.
  - revert S4. rewrite !map_app. cbn. unfold badge. by rewrite Ei, Eg.
Qed.

Lemma sound_leave s ws1 w ws2 ans : sound (Scene s (ws1 ++ w :: ws2) ans) -> sound (Scene s (ws1 ++ ws2) ans).
Proof.
  intros [S1 S2 S3 S4]. unfold table in *. cbn in *. split; unfold table; cbn; [done|done| |].
  - apply Forall_app in S3 as [F1 F2]. apply Forall_cons in F2 as [_ F2]. by apply Forall_app.
  - eapply sublist_NoDup; [exact S4|]. rewrite !map_app. cbn. apply sublist_app; [done|]. by constructor.
Qed.

(** A task is handed a record of a later generation. *)
Lemma sound_begin i i' d ws ans rec w :
  sound (Scene (Site i d) ws ans) -> turns i i' -> handed_over i i' rec ->
  wk_id w = ib_item_id rec -> wk_generation w = generation_of rec -> wk_session w = im_session_id (ib_marks rec) ->
  at_sound d ans w (im_session_id (ib_marks rec)) -> sound (Scene (Site i' d) (ws ++ [w]) ans).
Proof.
  intros H Ht [Hin (r & Hr & Hid & Hg)] Ei Eg Es Hat. assert (Hrows : Forall (worker_sound d ans (ig_inbound i)) ws) by apply H.
  assert (Hfresh : forall w0, w0 ∈ ws -> badge w0 <> badge w).
  { intros w0 Hw0 [= E1 E2]. rewrite Forall_forall in Hrows. destruct (Hrows w0 Hw0) as (_ & r0 & Hr0 & [K1 K2 _ _]).
    assert (r0 = r) as -> by (eapply keyed_item; [apply H|done|done|congruence]). lia. }
  pose proof (sound_turns _ _ _ _ _ Ht H) as [S1 S2 S3 S4]. unfold table in *. cbn in *. split; unfold table; cbn; [done|done| |].
  - apply Forall_app. split; [done|]. apply Forall_singleton. rewrite Forall_forall in S2. split.
    + rewrite Es. apply (S2 rec Hin).
    + exists rec. split; [done|]. split; [done|lia|by rewrite Es|done].
  - rewrite map_app. apply NoDup_app. split_and!; [done| |apply NoDup_singleton]. intros b (w0 & -> & Hw0)%list_elem_of_fmap E%list_elem_of_singleton.
    by destruct (Hfresh w0 Hw0).
Qed.

(** *** One await of a drive *)

(** The table turns while the task goes to its next place. *)
Lemma sound_quiet i i' d ws1 w w' ws2 ans more :
  turns i i' -> wk_item w' = wk_item w -> wk_session w' = wk_session w ->
  (forall r, r ∈ ig_inbound i -> knows d ans w r -> at_sound d (more ++ ans) w' (im_session_id (ib_marks r))) ->
  sound (Scene (Site i d) (ws1 ++ w :: ws2) ans) -> sound (Scene (Site i' d) (ws1 ++ w' :: ws2) (more ++ ans)).
Proof.
  intros Ht Ei Es Hat H. apply (sound_turns _ _ _ _ _ Ht). pose proof H as [_ _ H3 _]. cbn in H3.
  apply Forall_app in H3 as [_ H3]. apply Forall_cons in H3 as [(_ & r0 & Hr0 & Hk0) _]. unfold table in Hr0. cbn in Hr0.
  apply sound_replace with w; [unfold badge, wk_id, wk_generation; by rewrite Ei|unfold wk_owner; by rewrite Ei|done| |by apply sound_answers].
  intros r Hr Hk. unfold table in Hr. cbn in Hr |- *. apply Hat; [done|].
  assert (r = r0) as -> by (eapply keyed_item; [apply H|done|done|rewrite (kn_id _ _ _ _ Hk), (kn_id _ _ _ _ Hk0); done]). done.
Qed.

Lemma raised_sound d ans o guarded admitting e w session : at_sound d ans (goto (raised o guarded admitting e) w) session.
Proof. unfold at_sound, raised. cbn. by repeat case_match. Qed.

Lemma captured o w i a i' :
  capture_account o w i = (a, i') -> turns i i' /\ forall w1, a = Ok w1 -> wk_item w1 = wk_item w /\ wk_session w1 = wk_session w.
Proof.
  unfold capture_account. intros H. destruct (_ && _); [|injection H as <- <-; split; [by apply turns_refl|by intros w1 [= <-]]].
  destruct (_ ← os_target o; linked_account o w) as [account|e]; [|injection H as <- <-; split; [by apply turns_refl|done]].
  pose proof (capture_turns (wk_id w) (wk_owner w) (wk_generation w) account i) as Ht. destruct (capture_inbound_account _ _ _ _ i) as [[p|] i1].
  - injection H as <- <-. split; [exact Ht|]. by intros w1 [= <-].
  - injection H as <- <-. by split.
Qed.

Lemma nonempty_some o t : nonempty o = Some t -> o = Some t.
Proof. unfold nonempty. destruct o as [u|]; [|done]. by destruct (Py.is_empty u); [|intros [= ->]]. Qed.

Lemma nonempty_none o : nonempty o = None -> o <> Some "" -> o = None.
Proof. unfold nonempty. destruct o as [u|]; [|done]. destruct u; [done|discriminate]. Qed.

Lemma lock_sound d ans w w' session : wk_session w' = wk_session w -> is_Some (wk_session w) -> at_sound d ans (goto (lock_place w) w') session.
Proof. intros E H. unfold at_sound, lock_place. cbn. rewrite E. by destruct (nonempty (wk_key w)). Qed.

(** The fence a task was granted is its row's. *)
Lemma granted i d ws1 w ws2 ans set r :
  sound (Scene (Site i d) (ws1 ++ w :: ws2) ans) -> r ∈ ig_inbound i -> knows d ans w r ->
  fst (update_inbound (owned (wk_id w) (wk_owner w) (wk_generation w)) set i) = true -> im_session_id (ib_marks r) = wk_session w.
Proof.
  intros H Hr [K1 K2 K3 K4] Hf. destruct (update_one _ _ _ Hf) as (r0 & Hr0 & Ho). apply K3. pose proof Ho as Hn.
  unfold owned, owned_in, named in Hn. bool_prop. by assert (r = r0) as -> by (eapply keyed_item; [apply H|done|done|congruence]).
Qed.

(** The places of [_carried_attachments] and the send after it. *)
Lemma carry_sound d ans w session content :
  is_Some (wk_session w) -> session = wk_session w -> at_sound d ans (goto (carry w content) w) session.
Proof. intros H E. unfold at_sound, carry. cbn. by destruct (carried_sources w). Qed.

Lemma carry_on_sound d ans w session content index rest files lines :
  is_Some (wk_session w) -> session = wk_session w -> at_sound d ans (goto (carry_on w content index rest files lines) w) session.
Proof. intros H E. unfold at_sound, carry_on. cbn. by destruct rest. Qed.

Lemma before_send_sound d ans w session : is_Some (wk_session w) -> session = wk_session w -> at_sound d ans (goto (before_send w) w) session.
Proof. intros H E. unfold before_send. destruct (retains w); [destruct (wk_frozen w) as [[? ?]|]|]; by try apply carry_sound. Qed.

(** The session service takes the input. *)
Lemma sound_sent i d d' ws1 w ws2 ans now answer n :
  sound (Scene (Site i d) (ws1 ++ w :: ws2) ans) -> (exists content files, wk_at w = Send content files) ->
  ni_session_id n = session_of w -> ni_client_message_id n = wk_id w -> accept_input n now now d = (answer, d') ->
  sound (Scene (Site i d') (ws1 ++ w :: ws2) ans).
Proof.
  intros H (content & files & Ew) En Em Ha. pose proof H as [S1 S2 S3 S4]. unfold table in *. cbn in *.
  assert (Hw : exists r sid, r ∈ ig_inbound i /\ knows d ans w r /\ wk_session w = Some sid /\ im_session_id (ib_marks r) = Some sid).
  { apply Forall_app in S3 as [_ S3]. apply Forall_cons in S3 as [(_ & r & Hr & Hk) _]. pose proof (kn_at _ _ _ _ Hk) as Hat.
    unfold at_sound in Hat. rewrite Ew in Hat. destruct Hat as [[sid Es] E]. exists r, sid. split_and!; [done|done|done|congruence]. }
  destruct Hw as (r & sid & Hr & Hk & Es & Er). assert (En' : ni_session_id n = sid) by (rewrite En; unfold session_of; by rewrite Es).
  destruct (accept_sent _ _ _ _ _ _ Ha) as [Hsame|(Hsame & Hnew & Hout)].
  - assert (Hdealt : forall item, dealt_with d ans item -> dealt_with d' ans item) by (unfold dealt_with; intros item; by rewrite Hsame).
    split; unfold table; cbn; [done| | |done].
    + eapply Forall_impl; [exact S2|]. intros x [R1 R2 R3 R4]. split; rewrite ?Hsame; auto.
    + eapply Forall_impl; [exact S3|]. intros x (Hx & y & Hy & [K1 K2 K3 K4]). split; [done|]. exists y. split; [done|]. split; try done.
      by eapply at_rises; [apply Hdealt| |].
  - rewrite Em, En' in *. assert (Hempty : sent_as (wk_id w) d = []).
    { rewrite Forall_forall in S2. destruct (S2 r Hr) as [R1 _ _ _]. rewrite (kn_id _ _ _ _ Hk) in R1.
      destruct (sent_as (wk_id w) d) as [|x l] eqn:E; [done|]. exfalso. apply Hout. specialize (R1 x ltac:(left)). rewrite Er in R1. injection R1 as <-. left. }
    rewrite Hempty in Hnew. cbn in Hnew.
    assert (Hdealt : forall item, dealt_with d ans item -> dealt_with d' ans item).
    { unfold dealt_with. intros item [Hd|Hd]; [left|by right]. destruct (decide (item = wk_id w)) as [->|Hne]; [by rewrite Hnew|by rewrite Hsame]. }
    split; unfold table; cbn; [done| | |done].
    + apply Forall_forall. intros x Hx. rewrite Forall_forall in S2. destruct (S2 x Hx) as [R1 R2 R3 R4].
      destruct (decide (ib_item_id x = wk_id w)) as [E|Hne].
      * assert (x = r) as -> by (eapply keyed_item; [exact S1|done|done|by rewrite (kn_id _ _ _ _ Hk)]).
        split; [|by rewrite E, Hnew| |done]; [rewrite E, Hnew; by intros ? ->%list_elem_of_singleton|auto].
      * split; [by rewrite Hsame|by rewrite Hsame|auto|done].
    + eapply Forall_impl; [exact S3|]. intros x (Hx & y & Hy & [K1 K2 K3 K4]). split; [done|]. exists y. split; [done|]. split; try done.
      by eapply at_rises; [apply Hdealt| |].
Qed.

(** The task's own row. *)
Lemma own_row i d ws1 w ws2 ans : sound (Scene (Site i d) (ws1 ++ w :: ws2) ans) ->
  wk_session w <> Some "" /\ exists r, r ∈ ig_inbound i /\ knows d ans w r /\ forall r', r' ∈ ig_inbound i -> named (wk_id w) r' = true -> r' = r.
Proof.
  intros H. pose proof H as [_ _ S3 _]. cbn in S3. apply Forall_app in S3 as [_ S3]. apply Forall_cons in S3 as [(Hw & r & Hr & Hk) _].
  split; [done|]. exists r. split_and!; [done|done|]. intros r' Hr' Hn. unfold named in Hn. bool_prop.
  eapply keyed_item; [apply H|done|done|]. by rewrite (kn_id _ _ _ _ Hk).
Qed.

Lemma apart ws1 w ws2 x : NoDup (map badge (ws1 ++ w :: ws2)) -> x ∈ (ws1 ++ ws2)%list -> badge x <> badge w.
Proof.
  rewrite map_app. cbn. intros (_ & H1 & [H2 _]%NoDup_cons)%NoDup_app [Hx|Hx]%elem_of_app E.
  - apply (H1 (badge x)); [by apply list_elem_of_fmap_2|]. rewrite E. left.
  - apply H2. rewrite <-E. by apply list_elem_of_fmap_2.
Qed.

Lemma Forall2_within {A} (R Q : A -> A -> Prop) t t' : Forall2 R t t' -> (forall r r', r ∈ t -> R r r' -> Q r r') -> Forall2 Q t t'.
Proof.
  induction 1 as [|r r' t t' Hr _ IH]; intros H; constructor; [apply H; [left|done]|]. apply IH. intros x x' Hx. apply H. by right.
Qed.

(** The item is bound to its session. *)
Lemma sound_bound i d ws1 w ws2 ans sid key bkey at_ admitting :
  sound (Scene (Site i d) (ws1 ++ w :: ws2) ans) -> wk_at w = Choose admitting -> sid <> "" ->
  at_sound d ans (goto at_ (with_session sid key w)) (Some sid) -> (forall s1 s2, at_sound d ans (goto at_ (with_session sid key w)) s1 -> at_sound d ans (goto at_ (with_session sid key w)) s2) ->
  sound (Scene (Site (snd (bind_inbound_dispatch (wk_id w) (wk_owner w) (wk_generation w) (Some sid) bkey i)) d)
    (ws1 ++ goto at_ (with_session sid key w) :: ws2) ans).
Proof.
  intros H Ew Hsid Hat Hany. destruct (own_row _ _ _ _ _ _ H) as (_ & r0 & Hr0 & Hk0 & Hown).
  pose proof (bind_owners (wk_id w) (wk_owner w) (wk_generation w) sid bkey i) as Hb. revert Hb.
  generalize (snd (bind_inbound_dispatch (wk_id w) (wk_owner w) (wk_generation w) (Some sid) bkey i)). intros i' Hb.
  assert (Hnone : wk_session w = None). { pose proof (kn_at _ _ _ _ Hk0) as Ha. unfold at_sound in Ha. by rewrite Ew in Ha. }
  assert (Hstand : all_stand i i').
  { unfold all_stand. eapply Forall2_impl; [exact Hb|]. by intros r r' [[Ht _]|(Hs & _)]; [apply Ht|]. }
  assert (Htaken : forall r, r ∈ ig_inbound i -> owned (wk_id w) (wk_owner w) (wk_generation w) r = true -> r = r0 /\ im_session_id (ib_marks r) = None).
  { intros r Hr Ho. assert (r = r0) as ->. { apply Hown; [done|]. unfold owned, owned_in in Ho. by bool_prop. }
    split; [done|]. rewrite <-Hnone. by apply (kn_session _ _ _ _ Hk0). }
  destruct H as [S1 S2 S3 S4]. unfold table in *. cbn in *. split; unfold table; cbn.
  - by eapply keyed_stands.
  - apply Forall_forall. intros r' Hr'. destruct (Forall2_from _ _ _ _ Hb Hr') as (r & Hr & Hcase). rewrite Forall_forall in S2.
    destruct Hcase as [[Ht _]|(Hs & Ho & E & Est)]; [eapply row_soft; [by apply turn_soft|by apply S2]|].
    destruct (Htaken r Hr Ho) as [_ En]. destruct (S2 r Hr) as [R1 R2 R3 R4]. split; rewrite ?(st_id _ _ Hs); try done.
    + intros x Hx%R1. congruence.
    + rewrite Est. exact R3.
    + rewrite E. by intros [= ->].
  - assert (Hothers : forall x, x ∈ (ws1 ++ ws2)%list -> worker_sound d ans (ig_inbound i) x -> worker_sound d ans (ig_inbound i') x).
    { intros x Hx (Hxs & y & Hy & Hky). split; [done|]. destruct (Forall2_to _ _ _ _ Hb Hy) as (y' & Hy' & Hcase). exists y'. split; [done|].
      destruct Hcase as [[Ht _]|(Hs & Ho & E & Est)]; [eapply knows_soft; [by apply turn_soft|done]|].
      destruct (Htaken y Hy Ho) as [-> En]. pose proof Hky as [K1 K2 K3 K4]. split.
      - by rewrite (st_id _ _ Hs).
      - pose proof (stands_generation _ _ Hs). lia.
      - intros Hm%(mine_back _ _ _ Hs K2). exfalso. eapply apart; [exact S4|exact Hx|].
        unfold badge. unfold mine, owned, owned_in, named in Hm, Ho. bool_prop. congruence.
      - revert K4. rewrite E, En. unfold at_sound. destruct (wk_at x); try done; by intros [[z Hz] Hz2]; rewrite Hz in Hz2. }
    rewrite Forall_app, Forall_cons in S3 |- *. destruct S3 as (F1 & _ & F2). split_and!.
    + apply Forall_forall. intros x Hx. rewrite Forall_forall in F1. apply Hothers; [set_solver|by apply F1].
    + split; [cbn; by intros [= ->]|]. destruct (Forall2_to _ _ _ _ Hb Hr0) as (r' & Hr' & Hcase). exists r'. split; [done|].
      destruct Hk0 as [K1 K2 K3 K4].
      assert (Hs : stands r0 r') by (destruct Hcase as [[Ht _]|(Hs & _)]; [apply Ht|done]). split.
      * by rewrite (st_id _ _ Hs).
      * pose proof (stands_generation _ _ Hs). unfold wk_generation in *. cbn in *. lia.
      * intros Hm. assert (Hm0 : mine w r0 = true) by (by eapply mine_back). destruct Hcase as [[_ Hn]|(_ & _ & E & _)]; [|exact E].
        unfold mine in Hm0. congruence.
      * by eapply Hany.
    + apply Forall_forall. intros x Hx. rewrite Forall_forall in F2. apply Hothers; [set_solver|by apply F2].
  - revert S4. by rewrite !map_app.
Qed.

(** The item is settled. *)
Lemma sound_settled i d ws1 w ws2 ans submit submitted :
  sound (Scene (Site i d) (ws1 ++ w :: ws2) ans) -> wk_at w = Settle submit ->
  sound (Scene (Site (snd (settle_inbound (wk_id w) (wk_owner w) (wk_generation w) (session_of w) submitted i)) d) (ws1 ++ w :: ws2) ans).
Proof.
  intros H Ew. destruct (own_row _ _ _ _ _ _ H) as (_ & r0 & Hr0 & Hk0 & Hown). pose proof (kn_at _ _ _ _ Hk0) as Hat.
  unfold at_sound in Hat. rewrite Ew in Hat. destruct Hat as [[sid Es] Hdealt]. refine (sound_soft _ _ _ _ _ _ H).
  eapply Forall2_within; [apply settle_owners|]. intros r r' Hr [Ht|(Hs & Ho & E)]; [by apply turn_soft|].
  assert (r = r0) as -> by (apply Hown; [done|]; unfold owned, owned_in in Ho; by bool_prop).
  split_and!; [done| |intros _; right; by rewrite (kn_id _ _ _ _ Hk0)].
  rewrite E, (kn_session _ _ _ _ Hk0 Ho). unfold session_of. by rewrite Es.
Qed.

(** ** Every step keeps a scene sound *)

Lemma turned {A} (f : A * ingress) a i i' : f = (a, i') -> turns i (snd f) -> turns i i'.
Proof. by intros ->. Qed.

(** The task goes on beside a call that turns the table: [Ht] shows the turn. *)
Ltac goes H Hs Ew Ht :=
  injection H as <- <-; cbn [option_list app];
  lazymatch type of Ew with wk_at ?w0 = _ => eapply (sound_quiet _ _ _ _ w0 _ _ _ []) end;
  [exact Ht|try reflexivity|try reflexivity
  |let r := fresh "r" in let Hr := fresh "Hr" in let Hk := fresh "Hk" in let Hat := fresh "Hat" in
   intros r Hr Hk; pose proof (kn_at _ _ _ _ Hk) as Hat; unfold at_sound in Hat; rewrite Ew in Hat; cbn [app st_db]; try apply raised_sound
  |exact Hs].

Section OneAwait.
Context (o : outside) (now lease : Z) (w : worker) (i : ingress) (d : db) (ws1 ws2 : list worker) (ans : list string).
Context (Hs : sound (Scene (Site i d) (ws1 ++ w :: ws2) ans)).

Local Notation leads := (forall w' s', drive_step o now lease w (Site i d) = (w', s') ->
  sound (Scene s' (ws1 ++ option_list w' ++ ws2) (answers_of o w ++ ans))).

Ltac start Ew := intros w' s' H; unfold drive_step, next in H; cbn [st_ingress st_db put_ingress put_db] in H; unfold answers_of; rewrite Ew in H |- *.

Lemma resolve_sound adm : wk_at w = Resolve adm -> leads.
Proof.
  intros Ew. start Ew. destruct (own_row _ _ _ _ _ _ Hs) as (Hnamed & _). assert (Hrefl : turns i i) by reflexivity.
  destruct (nonempty (wk_session w)) as [t|] eqn:En.
  - goes H Hs Ew Hrefl. apply nonempty_some in En. destruct adm; [done|]. by apply lock_sound.
  - destruct (capture_account o w i) as [[w1|e] i1] eqn:Ec; destruct (captured _ _ _ _ _ Ec) as [Ht Hw].
    + destruct (Hw w1 eq_refl) as [E1 E2]. goes H Hs Ew Ht; [exact E1|exact E2|]. unfold at_sound. cbn. rewrite E2. by apply nonempty_none.
    + goes H Hs Ew Ht.
Qed.

Lemma choose_sound adm : wk_at w = Choose adm -> leads.
Proof.
  intros Ew. start Ew. assert (Hrefl : turns i i) by reflexivity. destruct (os_chosen o) as [[sid key]|e]; [|goes H Hs Ew Hrefl].
  destruct (Py.is_empty sid) eqn:Ee.
  - goes H Hs Ew Hrefl. by destruct adm.
  - destruct (bind_inbound_dispatch _ _ _ _ _ i) as [b i1] eqn:Eb. injection H as <- <-. cbn [option_list app].
    assert (E : i1 = snd (bind_inbound_dispatch (wk_id w) (wk_owner w) (wk_generation w) (Some sid) (nonempty key) i)) by (by rewrite Eb).
    rewrite E. assert (Hany : forall s1, at_sound d ans (goto (after_session adm (with_session sid (nonempty key) w)) (with_session sid (nonempty key) w)) s1).
    { intros s1. destruct adm; [done|]. by apply lock_sound. }
    eapply sound_bound; [exact Hs|exact Ew| |apply Hany|intros s1 s2 _; apply Hany]. intros ->. by vm_compute in Ee.
Qed.

Lemma begin_sound : wk_at w = Begin -> leads.
Proof.
  intros Ew. start Ew. destruct (begin_inbound_dispatch _ _ _ _ _ i) as [b i1] eqn:E. pose proof (turned _ _ _ _ E (begin_turns _ _ _ _ _ _)) as Ht.
  goes H Hs Ew Ht. by destruct b.
Qed.

Lemma access_sound : wk_at w = Access -> leads.
Proof.
  intros Ew. start Ew. destruct (capture_account o w i) as [[w1|e] i1] eqn:Ec; destruct (captured _ _ _ _ _ Ec) as [Ht Hw].
  - destruct (Hw w1 eq_refl) as [E1 E2]. destruct (os_access o) as [u|e].
    + goes H Hs Ew Ht; [exact E1|exact E2|]. unfold at_sound, after_access. cbn. by destruct (judged w1).
    + goes H Hs Ew Ht; [exact E1|exact E2].
  - goes H Hs Ew Ht.
Qed.

Lemma judging_sound : (wk_at w = Judge \/ wk_at w = Ask \/ (exists j, wk_at w = Decide j) \/ wk_at w = Suppress \/ wk_at w = Reread) -> leads.
Proof.
  assert (Hrefl : turns i i) by reflexivity. intros [Ew|[Ew|[[j Ew]|[Ew|Ew]]]]; start Ew.
  - destruct (wk_judgment w) as [j|]; [goes H Hs Ew Hrefl; by destruct (jd_respond j)|]. destruct (im_explicit_attention _); goes H Hs Ew Hrefl; done.
  - destruct (collect_unsubmitted_context _ _ _ i) as [c|e]; [|goes H Hs Ew Hrefl]. destruct (os_decision o) as [j|e]; goes H Hs Ew Hrefl. done.
  - destruct (record_inbound_judgment _ _ _ _ i) as [b i1] eqn:E. pose proof (turned _ _ _ _ E (judgment_turns _ _ _ _ _)) as Ht.
    goes H Hs Ew Ht. unfold at_sound. cbn. by destruct b, (jd_respond j).
  - destruct (suppress_judged_inbound _ _ _ i) as [row i1] eqn:E. pose proof (turned _ _ _ _ E (suppress_turns _ _ _ _)) as Ht.
    goes H Hs Ew Ht. by destruct row.
  - goes H Hs Ew Hrefl. by destruct (match get_inbound _ _ with Some _ => _ | None => _ end).
Qed.

(** Changes of other tables leave the records. *)
Lemma same_turns i' : ig_inbound i' = ig_inbound i -> turns i i'.
Proof. apply turns_refl. Qed.

Lemma locking_sound : ((exists n, wk_at w = Lock n \/ wk_at w = Nap n) \/ wk_at w = GiveBack \/ wk_at w = ResumePoint \/ (exists seq, wk_at w = Subscribe seq)) -> leads.
Proof.
  assert (Hrefl : turns i i) by reflexivity. intros [[n [Ew|Ew]]|[Ew|[Ew|[seq Ew]]]]; start Ew; [|by goes H Hs Ew Hrefl|..].
  - destruct (acquire_conversation_lock _ _ _ _ _ i) as [[g|] i1] eqn:E;
      (assert (Ht : turns i i1) by (apply same_turns; unfold acquire_conversation_lock in E; injection E as _ <-; done)).
    + goes H Hs Ew Ht. done.
    + goes H Hs Ew Ht. by destruct n.
  - destruct (release_inbound_lease _ _ _ _ i) as [b i1] eqn:E. pose proof (turned _ _ _ _ E (release_turns _ _ _ _ _)) as Ht. goes H Hs Ew Ht. done.
  - destruct (replies w); goes H Hs Ew Hrefl; done.
  - assert (Ht : turns i (with_channels (subscribe_to_output (SubscriptionRow (wk_deployment w) (session_of w) (ib_channel_name (wk_item w))
      (context_dict w) (nonempty (wk_key w)) (os_streams o) seq) (ig_channels i)) i)) by (by apply same_turns). goes H Hs Ew Ht. done.
Qed.

Lemma lookup_sound : wk_at w = LookUp -> leads.
Proof.
  intros Ew. start Ew. assert (Hrefl : turns i i) by reflexivity. destruct (input_for_client_message _ _ d) as [r|] eqn:El; goes H Hs Ew Hrefl; [|done].
  split; [done|]. left. by eapply looked_up.
Qed.

Lemma fence_sound : wk_at w = Fence -> leads.
Proof.
  intros Ew. start Ew. destruct (renew_inbound_lease _ _ _ _ _ i) as [b i1] eqn:E. pose proof (turned _ _ _ _ E (renew_turns _ _ _ _ _ _)) as Ht.
  goes H Hs Ew Ht. by destruct b.
Qed.

Lemma question_sound : wk_at w = Question -> leads.
Proof.
  intros Ew. start Ew. assert (Hrefl : turns i i) by reflexivity. destruct (os_handled o) as [[|]|e]; [|by goes H Hs Ew Hrefl|goes H Hs Ew Hrefl].
  injection H as <- <-. cbn [option_list app]. apply (sound_quiet i i d ws1 w _ ws2 ans [wk_id w]); [exact Hrefl|done|done| |exact Hs].
  intros r Hr Hk. pose proof (kn_at _ _ _ _ Hk) as Hat. unfold at_sound in Hat |- *. rewrite Ew in Hat. cbn.
  destruct (retains w); (split; [done|]); [|right]; set_solver.
Qed.

Lemma exclude_sound : wk_at w = Exclude -> leads.
Proof.
  intros Ew. start Ew. destruct (exclude_inbound_from_context _ _ _ i) as [[u|e] i1] eqn:E; pose proof (turned _ _ _ _ E (exclude_turns _ _ _ _)) as Ht;
    goes H Hs Ew Ht. destruct Hat as [H1 H2]. split; [done|by right].
Qed.

Lemma fence_again_sound : wk_at w = FenceAgain -> leads.
Proof.
  intros Ew. start Ew. destruct (renew_inbound_lease _ _ _ _ _ i) as [b i1] eqn:E. pose proof (turned _ _ _ _ E (renew_turns _ _ _ _ _ _)) as Ht.
  goes H Hs Ew Ht. destruct b; [|done]. apply before_send_sound; [exact Hat|]. eapply granted; [exact Hs|exact Hr|exact Hk|].
  by apply (f_equal fst) in E.
Qed.

Lemma freezing_sound : (wk_at w = Collect \/ exists content context, wk_at w = Freeze content context) -> leads.
Proof.
  assert (Hrefl : turns i i) by reflexivity. intros [Ew|(content & context & Ew)]; start Ew.
  - destruct (collect_unsubmitted_context _ _ _ i) as [c|e]; goes H Hs Ew Hrefl. exact Hat.
  - destruct (freeze_inbound_input _ _ _ _ _ i) as [f i1] eqn:E. pose proof (turned _ _ _ _ E (freeze_turns _ _ _ _ _ _)) as Ht.
    destruct f as [f|]; goes H Hs Ew Ht; [|done]. destruct Hat as [H1 H2]. by apply (carry_sound _ _ (with_frozen f w)).
Qed.

Lemma carrying_sound :
  ((exists content, wk_at w = Binding content) \/ (exists content k source rest files lines, wk_at w = Fetch content k source rest files lines) \/
   exists content k kind rest files lines, wk_at w = Stage content k kind rest files lines) -> leads.
Proof.
  assert (Hrefl : turns i i) by reflexivity.
  intros [[content Ew]|[(content & k & source & rest & files & lines & Ew)|(content & k & kind & rest & files & lines & Ew)]]; start Ew.
  - destruct (os_binding o); goes H Hs Ew Hrefl. destruct Hat. by apply carry_on_sound.
  - destruct (channel_attachment source) as [a|e]; [|goes H Hs Ew Hrefl].
    destruct (os_fetched o) as [failure|b]; goes H Hs Ew Hrefl; [destruct Hat; by apply carry_on_sound|exact Hat].
  - destruct (os_staged o); goes H Hs Ew Hrefl. destruct Hat. by apply carry_on_sound.
Qed.

Lemma send_sound content files : wk_at w = Send content files -> leads.
Proof.
  intros Ew. start Ew. assert (Hrefl : turns i i) by reflexivity.
  destruct (os_refused o) as [e|]; [goes H Hs Ew Hrefl|]. set (n := turn_input _ _ _ _ _) in H.
  destruct (accept_input n now now d) as [answer d1] eqn:Ea.
  assert (Hsent : sound (Scene (Site i d1) (ws1 ++ w :: ws2) ans)).
  { apply (sound_sent i d d1 ws1 w ws2 ans now answer n); [exact Hs|by exists content, files|done|done|exact Ea]. }
  destruct answer as [[row|]|e]; [|goes H Hsent Ew Hrefl|goes H Hsent Ew Hrefl].
  destruct (os_ensured o) as [e|]; goes H Hsent Ew Hrefl. destruct Hat as [H1 _]. split; [exact H1|left]. by apply (accepted_sent _ _ _ _ _ _ Ea).
Qed.

Lemma settle_sound submit : wk_at w = Settle submit -> leads.
Proof.
  intros Ew. start Ew. destruct (settle_inbound _ _ _ _ _ i) as [answer i1] eqn:E.
  assert (Hset : sound (Scene (Site i1 d) (ws1 ++ w :: ws2) ans)).
  { pose proof (sound_settled _ _ _ _ _ _ _ submit Hs Ew) as Hx. by rewrite E in Hx. }
  assert (Hrefl : turns i1 i1) by reflexivity. destruct answer as [u|e]; goes H Hset Ew Hrefl. done.
Qed.

Lemma ending_sound : ((exists code, wk_at w = Refuse code) \/ (exists error, wk_at w = Fail error) \/ wk_at w = Cancel) -> leads.
Proof.
  intros [[code Ew]|[[error Ew]|Ew]]; start Ew.
  - destruct (mark_inbound_ignored _ _ _ _ _ i) as [b i1] eqn:E. pose proof (turned _ _ _ _ E (ignored_turns _ _ _ _ _ _)) as Ht. goes H Hs Ew Ht. done.
  - destruct (fail_inbound _ _ _ _ _ _ i) as [b i1] eqn:E. pose proof (turned _ _ _ _ E (fail_turns _ _ _ _ _ _ _)) as Ht. goes H Hs Ew Ht. done.
  - destruct (release_inbound_lease _ _ _ _ i) as [b i1] eqn:E. pose proof (turned _ _ _ _ E (release_turns _ _ _ _ _)) as Ht. goes H Hs Ew Ht. done.
Qed.

Lemma finish_sound : wk_at w = Finish -> leads.
Proof.
  intros Ew. start Ew. pose proof (sound_leave _ _ _ _ _ Hs) as Hl. destruct (wk_lock w) as [[[key account] g]|]; injection H as <- <-; cbn [option_list app]; [|exact Hl].
  eapply sound_turns; [|exact Hl]. by apply same_turns.
Qed.

Lemma drive_sound : leads.
Proof.
  destruct (wk_at w) eqn:Ew.
  - by eapply resolve_sound.
  - by eapply choose_sound.
  - by apply begin_sound.
  - by apply access_sound.
  - apply judging_sound. by left.
  - apply judging_sound. by right; left.
  - apply judging_sound. right; right; left. by eexists.
  - apply judging_sound. by right; right; right; left.
  - apply judging_sound. by right; right; right; right.
  - apply locking_sound. left. eexists. by left.
  - apply locking_sound. left. eexists. by right.
  - apply locking_sound. by right; left.
  - apply locking_sound. by right; right; left.
  - apply locking_sound. right; right; right. by eexists.
  - by apply lookup_sound.
  - by apply fence_sound.
  - by apply question_sound.
  - by apply exclude_sound.
  - by apply fence_again_sound.
  - apply freezing_sound. by left.
  - apply freezing_sound. right. by do 2 eexists.
  - apply carrying_sound. left. by eexists.
  - apply carrying_sound. right. left. by do 6 eexists.
  - apply carrying_sound. right. right. by do 6 eexists.
  - by eapply send_sound.
  - by eapply settle_sound.
  - apply ending_sound. left. by eexists.
  - apply ending_sound. right; left. by eexists.
  - apply ending_sound. by right; right.
  - by apply finish_sound.
Qed.
End OneAwait.

(** A message that is recorded for the first time. *)
Lemma sound_new i i' d ws ans rec :
  sound (Scene (Site i d) ws ans) -> ig_inbound i' = (ig_inbound i ++ [rec])%list -> im_session_id (ib_marks rec) = None ->
  state_of rec <> INBOUND_SETTLED -> sent_as (ib_item_id rec) d = [] -> (forall r, r ∈ ig_inbound i -> ib_item_id r <> ib_item_id rec) ->
  (forall r k, r ∈ ig_inbound i -> ib_deployment_id r = ib_deployment_id rec -> ib_dedup_key rec = Some k -> ib_dedup_key r <> Some k) ->
  sound (Scene (Site i' d) ws ans) /\ forall w, w ∈ ws -> wk_id w <> ib_item_id rec.
Proof.
  intros [S1 S2 S3 S4] E Hn Hs Hsent Hid Hkey. unfold table in *. cbn in *. split; [split; unfold table; cbn; rewrite ?E|].
  - destruct S1 as [K1 K2]. split; rewrite E.
    + rewrite map_app. apply NoDup_app. split_and!; [done| |apply NoDup_singleton]. intros x (r & -> & Hr)%list_elem_of_fmap Hx%list_elem_of_singleton.
      by destruct (Hid r Hr).
    + intros r r' k [Hr| ->%list_elem_of_singleton]%elem_of_app [Hr'| ->%list_elem_of_singleton]%elem_of_app D E1 E2; [by apply (K2 r r' k)| | |done].
      * by destruct (Hkey r k Hr D E2).
      * by destruct (Hkey r' k Hr' (eq_sym D) E1).
  - apply Forall_app. split; [done|]. apply Forall_singleton. split; [rewrite Hsent; by intros ? ?%elem_of_nil|rewrite Hsent; cbn; lia|done|by rewrite Hn].
  - eapply Forall_impl; [exact S3|]. intros w (Hw & r & Hr & Hk). split; [done|]. exists r. split; [set_solver|done].
  - done.
  - intros w Hw Heq. rewrite Forall_forall in S3. destruct (S3 w Hw) as (_ & r & Hr & [K1 _ _ _]). apply (Hid r Hr). congruence.
Qed.

Lemma admitted_item rec : wk_item (admitted rec) = rec /\ wk_session (admitted rec) = im_session_id (ib_marks rec).
Proof. unfold admitted. by destruct (judged _). Qed.

Lemma admitted_sound d ans rec session : at_sound d ans (admitted rec) session.
Proof. unfold admitted. by destruct (judged _). Qed.

Lemma sound_admitted i i' d ws ans rec :
  sound (Scene (Site i d) ws ans) -> turns i i' -> handed_over i i' rec -> sound (Scene (Site i' d) (ws ++ [admitted rec]) ans).
Proof.
  intros H Ht Hh. destruct (admitted_item rec) as [E1 E2].
  apply (sound_begin i i' d ws ans rec); [done|done|done|unfold wk_id; by rewrite E1|unfold wk_generation; by rewrite E1|done|apply admitted_sound].
Qed.

Lemma session_moves i d d' ws ans :
  (forall r, r ∈ ig_inbound i -> sent_as (ib_item_id r) d' = sent_as (ib_item_id r) d) ->
  sound (Scene (Site i d) ws ans) -> sound (Scene (Site i d') ws ans).
Proof.
  intros E [S1 S2 S3 S4]. unfold table in *. cbn in *. split; unfold table; cbn; [done| | |done].
  - apply Forall_forall. intros r Hr. rewrite Forall_forall in S2. destruct (S2 r Hr) as [R1 R2 R3 R4].
    split; unfold dealt_with in *; rewrite ?(E r Hr); done.
  - eapply Forall_impl; [exact S3|]. intros w (Hw & r & Hr & [K1 K2 K3 K4]). split; [done|]. exists r. split; [done|]. split; try done.
    eapply at_rises; [|exact (fun H => H)|exact K4]. unfold dealt_with. by rewrite <-K1, (E r Hr).
Qed.

Lemma arrives_sound here now lease id owner claim answer i i' d ws ans :
  claim_inbound here now lease id owner claim i = (answer, i') -> (forall r, r ∈ ig_inbound i -> ib_item_id r <> id) -> sent_as id d = [] ->
  sound (Scene (Site i d) ws ans) ->
  sound (Scene (Site i' d) (ws ++ match answer with Ok (rec, CLAIM_OUTCOME_CLAIMED) => [admitted rec] | _ => [] end) ans).
Proof.
  intros Hc Hfresh Hsent H. destruct (claim_claims _ _ _ _ _ _ _ _ _ (so_keyed _ H) Hc) as [rec o i' Eid Et En Es Hkey|rec o i' Ht Hh|answer i' Ht Hno].
  - destruct (sound_new i i' d ws ans rec) as [Hnew Hws]; [done..|by rewrite Eid|by rewrite Eid|done|].
    assert (Hadm : sound (Scene (Site i' d) (ws ++ [admitted rec]) ans)).
    { destruct (admitted_item rec) as [E1 E2]. destruct Hnew as [S1 S2 S3 S4]. unfold table in *. cbn in *. split; unfold table; cbn; [done|done| |].
      - apply Forall_app. split; [done|]. apply Forall_singleton. split; [rewrite E2, En; done|]. exists rec. split; [rewrite Et; set_solver|].
        split; [unfold wk_id; by rewrite E1|unfold wk_generation; rewrite E1; lia|by rewrite E2|apply admitted_sound].
      - rewrite map_app. apply NoDup_app. split_and!; [done| |apply NoDup_singleton].
        intros b (w0 & -> & Hw0)%list_elem_of_fmap E%list_elem_of_singleton. injection E as E _. apply (Hws w0 Hw0). rewrite E. unfold wk_id. by rewrite E1. }
    destruct o; by rewrite ?app_nil_r.
  - pose proof (sound_admitted _ _ _ _ _ _ H Ht Hh). pose proof (sound_turns _ _ _ _ _ Ht H). destruct o; by rewrite ?app_nil_r.
  - pose proof (sound_turns _ _ _ _ _ Ht H). destruct answer as [[rec o]|e]; [|by rewrite app_nil_r]. destruct o; rewrite ?app_nil_r; try done.
    by destruct (Hno rec).
Qed.

Lemma step_sound c c' : step c c' -> sound c -> sound c'.
Proof.
  intros [o now lease w w' s s' ws1 ws2 ans Hd|at_ w s ws1 ws2 ans Hb|w s ws1 ws2 ans|i i' d ws ans Hq|here now lease id owner claim answer i i' d ws ans Hc Hf Hsent
         |now lease owner id state g payload rec i i' d ws ans Hp|here now lease owner id g rec i i' d ws ans Hr|i d d' ws ans _ E] H.
  - destruct s as [i d]. by eapply drive_sound.
  - apply (sound_replace s ws1 w (goto at_ w)); [done|done|done| |done]. intros r _ _. by destruct at_.
  - by eapply sound_leave.
  - eapply sound_turns; [by apply quiet_turns|exact H].
  - by eapply arrives_sound.
  - destruct (promote_handed _ _ _ _ _ _ _ _ _ _ (so_keyed _ H) Hp) as [Ht Hh]. by eapply sound_admitted.
  - destruct (recovery_handed _ _ _ _ _ _ _ _ _ (so_keyed _ H) Hr) as [Ht Hh]. by apply (sound_begin i i' d ws ans rec).
  - by eapply session_moves.
Qed.

(** No message is recorded yet. *)
Definition opened (c : scene) : Prop := table c = [] /\ sc_workers c = [].

Lemma opened_sound c : opened c -> sound c.
Proof.
  intros [Et Ew]. split; rewrite ?Et, ?Ew; try constructor; unfold table in Et; rewrite Et; [constructor|]. by intros r r' k ?%elem_of_nil.
Qed.

Lemma reached_sound c0 c : opened c0 -> rtc step c0 c -> sound c.
Proof.
  intros H%opened_sound Hr. induction Hr as [|x y z Hxy _ IH]; [done|]. by eapply IH, step_sound.
Qed.
End DriveFacts.
