(* ===== verification/DriveRuns.v ===== *)
(** What the drives of platform messages come to: each message enters at most one session and
    at most once, a settled one was dealt with, and every drive ends. *)

From S2P Require Import Prelude PyVal Schema SessionRepo SessionRecord DemoStore ChannelOutbox ChannelInbound ChannelDrive InboundFacts DriveFacts.

Open Scope string_scope.

Module DriveRuns.
Import Repo Rec Outbox Inbound Drive InboundFacts DriveFacts.

(** ** Every drive ends *)

(** How many steps may still come. *)
Definition rank (p : place) : nat :=
  match p with
  | Resolve true => 165 | Choose true => 164 | Begin => 163 | Access => 162 | Judge => 161 | Ask => 160 | Decide _ => 159
  | Suppress => 158 | Reread => 157 | Resolve false => 156 | Choose false => 155
  | Lock polls => 34 + 2 * polls | Nap polls => 35 + 2 * polls
  | GiveBack => 33 | ResumePoint => 32 | Subscribe _ => 31 | LookUp => 30 | Fence => 29 | Question => 28 | Exclude => 27
  | FenceAgain => 27 | Collect => 26 | Freeze _ _ => 25
  | Binding _ => 24 | Fetch _ _ _ rest _ _ => 5 + 2 * length rest | Stage _ _ _ rest _ _ => 4 + 2 * length rest
  | Send _ _ => 3 | Settle _ => 2
  | Refuse _ | Fail _ | Cancel => 1
  | Finish => 0
  end.

Lemma raised_rank o guarded admitting e : rank (raised o guarded admitting e) <= 1.
Proof. unfold raised. repeat case_match; cbn; lia. Qed.

Lemma after_session_rank adm w : rank (after_session adm w) < rank (Choose adm).
Proof. unfold after_session, lock_place, CONVERSATION_LOCK_POLLS. repeat case_match; cbn; lia. Qed.

Lemma carry_rank w content : rank (carry w content) <= 24.
Proof. unfold carry. case_match; cbn; lia. Qed.

Lemma carry_on_rank w content k rest files lines : rank (carry_on w content k rest files lines) <= 3 + 2 * length rest.
Proof. destruct rest; cbn; lia. Qed.

(** At most the last ten files are fetched. *)
Lemma binding_rank w content : rank (carry_on w content 1 (latest (carried_sources w)) [] []) < rank (Binding content).
Proof.
  eapply Nat.le_lt_trans; [apply carry_on_rank|]. unfold latest, MAX_ATTACHMENTS. rewrite length_drop. cbn. lia.
Qed.

Lemma before_send_rank w : rank (before_send w) < rank FenceAgain.
Proof. unfold before_send. repeat case_match; cbn [rank]; try lia; (eapply Nat.le_lt_trans; [apply carry_rank|lia]). Qed.

Lemma access_rank w : rank (after_access w) < rank Access.
Proof. unfold after_access. case_match; cbn; lia. Qed.

Lemma descends o now lease w s w' s' : drive_step o now lease w s = (Some w', s') -> rank (wk_at w') < rank (wk_at w).
Proof.
  intros H. unfold drive_step, next in H.
  pose proof (raised_rank o) as Hr. pose proof after_session_rank as Ha. pose proof before_send_rank as Hb. pose proof access_rank as Hc.
  destruct (wk_at w) as [[]|[]|?|?|?|?|?|?|?|?|?|?|?|?|?|?|?|?|?|?|?|?|?|?|?|?|?|?|?|?] eqn:Ew.
  all: repeat case_match; simplify_eq/=; try lia.
  all: first [eapply Nat.le_lt_trans; [apply Hr|lia]|apply (Ha true)|apply (Ha false)|apply Hb|apply Hc|eapply Nat.lt_trans; [apply (Ha false)|lia]
    |apply binding_rank|eapply Nat.le_lt_trans; [apply carry_rank|cbn; lia]|eapply Nat.le_lt_trans; [apply carry_on_rank|cbn; lia]].
Qed.

(** What a task meets at one await: the answers from outside, the time, and what everyone
    else did to the tables before it. *)
Record moment := Moment { mo_outside : outside; mo_now : Z; mo_lease : Z; mo_others : site -> site }.

Fixpoint drive (n : nat) (m : nat -> moment) (w : worker) (s : site) : option worker * site :=
  match n with
  | 0 => (Some w, s)
  | S n =>
      match drive_step (mo_outside (m 0)) (mo_now (m 0)) (mo_lease (m 0)) w (mo_others (m 0) s) with
      | (Some w', s') => drive n (fun k => m (S k)) w' s'
      | (None, s') => (None, s')
      end
  end.

Lemma drive_over n m w s : rank (wk_at w) < n -> fst (drive n m w s) = None.
Proof.
  revert m w s. induction n as [|n IH]; intros m w s H; [lia|]. cbn. destruct (drive_step _ _ _ w _) as [[w'|] s'] eqn:E; [|done].
  apply descends in E. apply IH. lia.
Qed.

(** C19: Every drive of a message ends, be it of a message just recorded or of one taken up
    again.  Whatever the other services, providers and people answer, and whatever everyone
    else does to the tables in between, it takes at most 166 steps: 61 tries of the
    conversation's lock and the 60 naps between them, the fetch and the staging of each of
    the at most ten files a message carries, and every other stage once.  A step is one await
    of the drive; the access check, the judge, the choice of the session, the answering of a
    question and the send are one step each, whose own awaits come back with their answer. *)
Theorem drive_ends m rec s :
  fst (drive 166 m (admitted rec) s) = None /\ fst (drive 166 m (employ rec Begin) s) = None.
Proof.
  split; apply drive_over; [|cbn; lia]. unfold admitted. destruct (judged _); cbn; lia.
Qed.

(** ** Each message once *)

(** C17: Whatever drives of messages run beside each other, break off, lose their leases to
    others and run on, and whatever else befalls the records meanwhile: a recorded message
    entered at most one session and there once, the one its record names, and a platform
    message has one record. *)
Theorem message_sent_once c0 c r :
  opened c0 -> rtc step c0 c -> r ∈ table c ->
  length (sent_as (ib_item_id r) (st_db (sc_site c))) <= 1 /\
  (forall sid, sid ∈ sent_as (ib_item_id r) (st_db (sc_site c)) -> im_session_id (ib_marks r) = Some sid) /\
  (forall r' k, r' ∈ table c -> message_of (ib_deployment_id r') (Some k) r = true -> ib_dedup_key r' = Some k -> r' = r).
Proof.
  intros H0 H Hr. pose proof (reached_sound _ _ H0 H) as [S1 S2 _ _]. rewrite Forall_forall in S2.
  destruct (S2 r Hr) as [R1 R2 _ _]. split_and!; [done|done|]. intros r' k Hr' Hm Hk. unfold message_of, opt_is in Hm.
  destruct (ib_dedup_key r) as [k'|] eqn:Ek; bool_prop; [|done]. subst. by eapply (ky_messages _ S1).
Qed.


(** ** A run: a drive loses its lease before it sends *)

(** The same answers at every await. *)
Fixpoint drive_for (n : nat) (o : outside) (now lease : Z) (w : worker) (s : site) : option worker * site :=
  match n with
  | 0 => (Some w, s)
  | S n => match drive_step o now lease w s with (Some w', s') => drive_for n o now lease w' s' | (None, s') => (None, s') end
  end.

Lemma drives_steps n o now lease w s w' s' ws1 ws2 ans :
  os_handled o = Ok false -> drive_for n o now lease w s = (w', s') ->
  rtc step (Scene s (ws1 ++ w :: ws2) ans) (Scene s' (ws1 ++ option_list w' ++ ws2) ans).
Proof.
  intros Ho. revert w s. induction n as [|n IH]; intros w s; cbn; [by intros [= <- <-]|].
  destruct (drive_step o now lease w s) as [w1 s1] eqn:E. intros H.
  assert (Hstep : step (Scene s (ws1 ++ w :: ws2) ans) (Scene s1 (ws1 ++ option_list w1 ++ ws2) ans)).
  { pose proof (Drives o now lease w w1 s s1 ws1 ws2 ans E) as Hd. unfold answers_of in Hd. rewrite Ho in Hd. by destruct (wk_at w). }
  destruct w1 as [w1|]; [eapply rtc_l; [exact Hstep|by apply IH]|]. injection H as <- <-. by apply rtc_once.
Qed.

Definition demo_payload : dict :=
  [("content", VStr "hello"); ("reply_text", VStr "hello"); ("conversation_key", VStr "c1"); ("creator_user_id", VStr "u1");
   ("execution_user_id", VStr "u1"); ("execution_mode", VStr "owner"); ("participant", VStr "p1")].
Definition demo_message : inbound_claim := InboundClaim "d1" (Some "om1") "chat" "a1" "" demo_payload INBOUND_RECEIVED "" false.
Definition demo_outside : outside :=
  Outside (Ok tt) (Ok "u1") true (Ok tt) (Ok (Judgment true "" None 0)) (Ok ("s1", Some "c1")) (Ok false) true (Ok tt) (inr false) (Ok "a1") None
    "i1" None (fun t => t) ValueError None (fun _ => "failed").
Definition nothing : ingress := Ingress [] [] [] [] (Channels [] [] [] [] []).

Definition everywhere : string -> bool := fun _ => true.
Definition claimed := claim_inbound everywhere 0 300 "x1" "A" demo_message nothing.
Definition first : worker := match fst claimed with Ok (rec, _) => admitted rec | _ => employ (claimed_row 0 0 "" "" demo_message []) Begin end.
(** The first task stands before [send_as]. *)
Definition before_sending := drive_for 11 demo_outside 10 300 first (Site (snd claimed) demo_db).
(** Its lease runs out, and a second task takes the item up and settles it. *)
Definition recovered := claim_inbound_for_recovery everywhere 400 300 "B" "x1" 1 (st_ingress (snd before_sending)).
Definition second : worker := employ (default (wk_item first) (fst recovered)) Begin.
Definition settled := drive_for 40 demo_outside 410 300 second (Site (snd recovered) demo_db).
(** The first task sends after all. *)
Definition late : worker := default first (fst before_sending).
Definition ended := drive_for 40 demo_outside 420 300 late (snd settled).
Definition demo_scene : scene := Scene (snd ended) (option_list (fst ended)) [].

Lemma demo_opened : opened (Scene (Site nothing demo_db) [] []).
Proof. done. Qed.

Definition demo_scene1 : scene := Scene (Site (snd claimed) demo_db) [first] [].
Definition demo_scene2 : scene := Scene (snd before_sending) [late] [].
Definition demo_scene3 : scene := Scene (Site (snd recovered) demo_db) [late; second] [].
Definition demo_scene4 : scene := Scene (snd settled) [late] [].

Lemma two_drives1 : step (Scene (Site nothing demo_db) [] []) demo_scene1.
Proof.
  apply (Arrives everywhere 0 300 "x1" "A" demo_message (fst claimed) nothing (snd claimed) demo_db [] []); [by apply surjective_pairing| |done].
  by intros r ?%elem_of_nil.
Qed.

Lemma two_drives2 : rtc step demo_scene1 demo_scene2.
Proof. apply (drives_steps 11 demo_outside 10 300 first _ (Some late) _ [] [] []); [done|]. vm_compute. reflexivity. Qed.

Lemma two_drives3 : step demo_scene2 demo_scene3.
Proof.
  assert (E : snd before_sending = Site (st_ingress (snd before_sending)) demo_db) by (vm_compute; reflexivity).
  unfold demo_scene2. rewrite E.
  apply (Recovers everywhere 400 300 "B" "x1" 1 (default (wk_item first) (fst recovered)) _ _ demo_db [late] []). vm_compute. reflexivity.
Qed.

Lemma two_drives4 : rtc step demo_scene3 demo_scene4.
Proof. apply (drives_steps 40 demo_outside 410 300 second _ None _ [late] [] []); [done|]. vm_compute. reflexivity. Qed.

Lemma two_drives5 : rtc step demo_scene4 demo_scene.
Proof. apply (drives_steps 40 demo_outside 420 300 late _ None _ [] [] []); [done|]. vm_compute. reflexivity. Qed.

Lemma two_drives : rtc step (Scene (Site nothing demo_db) [] []) demo_scene.
Proof.
  eapply rtc_l; [exact two_drives1|]. etrans; [exact two_drives2|]. eapply rtc_l; [exact two_drives3|]. etrans; [exact two_drives4|exact two_drives5].
Qed.

Definition demo_record : inbound_row := default (wk_item first) (get_inbound "x1" (st_ingress (sc_site demo_scene))).
Lemma two_drives_record : demo_record ∈ table demo_scene.
Proof. unfold table. vm_compute. left. Qed.

Lemma message_sent_once_witness :
  wk_at late = Send "hello" [] /\ sent_as "x1" (st_db (snd settled)) = ["s1"] /\ sent_as "x1" (st_db (sc_site demo_scene)) = ["s1"] /\
  length (sent_as (ib_item_id demo_record) (st_db (sc_site demo_scene))) <= 1.
Proof.
  split_and!; [vm_compute; reflexivity..|].
  exact (proj1 (message_sent_once _ demo_scene demo_record demo_opened two_drives two_drives_record)).
Defined.


(** A message with two files, one of which its provider does not give: the drive of it, which
    has no more than its files to wait for, tells the agent of that one. *)
Definition two_files : inbound_claim :=
  InboundClaim "d1" (Some "om2") "chat" "a1" ""
    (demo_payload ++ [("attachments", VList [VDict [("src", VStr "f1"); ("title", VStr "plan.pdf")]; VDict [("src", VStr "f2"); ("kind", VStr "image")]])])%list
    INBOUND_RECEIVED "" false.
Definition two_claimed := claim_inbound everywhere 0 300 "x3" "A" two_files nothing.
Definition two_worker : worker := match fst two_claimed with Ok (rec, _) => employ rec Begin | _ => first end.
Definition lost_file : outside :=
  Outside (Ok tt) (Ok "u1") true (Ok tt) (Ok (Judgment true "" None 0)) (Ok ("s1", Some "c1")) (Ok false) true (Ok tt)
    (inl "it is gone") (Ok "a1") None "i1" None (fun t => t) ValueError None (fun _ => "failed").

Example lost_file_told :
  let '(w, _) := drive_for 13 lost_file 10 300 two_worker (Site (snd two_claimed) demo_db) in
  wk_at <$> w = Some (Send (told "hello" ["plan.pdf: it is gone"; "image 2: it is gone"]) []).
Proof. vm_compute. reflexivity. Qed.

Lemma drive_ends_witness :
  is_Some (fst (drive_for 12 demo_outside 10 300 two_worker (Site (snd two_claimed) demo_db))) /\
  fst (drive 166 (fun _ => Moment demo_outside 10 300 (fun s => s)) (employ (wk_item two_worker) Begin) (Site (snd two_claimed) demo_db)) = None.
Proof. split; [vm_compute; by eexists|apply drive_ends]. Defined.

(** ** Two things the code does not mean to do *)

(** A turn carries its own message's files only: what is frozen of the messages it quotes are
    their names, under another key than the one the files are looked for. *)
Lemma quoted_files_left_behind w : carried_sources w = items_of (Py.get "attachments" (wk_payload w)).
Proof. unfold carried_sources. destruct (wk_frozen w) as [[content ids]|]; reflexivity. Qed.

(** A message is authorized before its content is seen, recalled, and expires; the platform
    repeats the authorization. *)
Definition authorization : inbound_claim := InboundClaim "d1" (Some "om1") "chat" "a1" "" [] INBOUND_AUTHORIZED "" false.
Definition authorized := snd (claim_inbound everywhere 0 300 "x1" "A" authorization nothing).
Definition recalled := snd (record_recall "d1" "c1" "e1" "om1" "t1" authorized).
Definition waited_out := snd (expire_authorizations everywhere 10 (AUTHORIZATION_WAIT + 1) recalled).
Definition revived := claim_inbound everywhere 90000 300 "x2" "B" authorization waited_out.

(** The recalled message comes back as one to drive, with no content. *)
Example recalled_message_revived :
  map state_of (ig_inbound waited_out) = [INBOUND_DEAD] /\
  match fst revived with
  | Ok (rec, CLAIM_OUTCOME_CLAIMED) =>
      state_of rec = INBOUND_RECEIVED /\ im_recall (ib_marks rec) = Some ("e1", "t1") /\ text "content" rec = Some ""
  | _ => False
  end.
Proof. vm_compute. done. Qed.
End DriveRuns.
