(* ===== verification/Sha256.v ===== *)
(** [hashlib.sha256] of Python's standard library (FIPS 180-4), over bytes and 32-bit words as
    [Z] with their wrap-around written out. *)

From S2P Require Import Prelude PyVal Base64 JsonText Uuid.

Open Scope string_scope.

Module Sha256.
Import Base64 Uuid.
Open Scope Z_scope.

Definition rotr (n x : Z) : Z := Z.lor (Z.shiftr x n) (word (Z.shiftl x (32 - n))).
Definition xor3 (a b c : Z) : Z := Z.lxor (Z.lxor a b) c.

Definition round_keys : list Z :=
  [1116352408; 1899447441; 3049323471; 3921009573; 961987163; 1508970993; 2453635748; 2870763221;
   3624381080; 310598401; 607225278; 1426881987; 1925078388; 2162078206; 2614888103; 3248222580;
   3835390401; 4022224774; 264347078; 604807628; 770255983; 1249150122; 1555081692; 1996064986;
   2554220882; 2821834349; 2952996808; 3210313671; 3336571891; 3584528711; 113926993; 338241895;
   666307205; 773529912; 1294757372; 1396182291; 1695183700; 1986661051; 2177026350; 2456956037;
   2730485921; 2820302411; 3259730800; 3345764771; 3516065817; 3600352804; 4094571909; 275423344;
   430227734; 506948616; 659060556; 883997877; 958139571; 1322822218; 1537002063; 1747873779;
   1955562222; 2024104815; 2227730452; 2361852424; 2428436474; 2756734187; 3204031479; 3329325298].

(** The message schedule, its newest word first. *)
Fixpoint schedule (n : nat) (w : list Z) : list Z :=
  match n with
  | O => w
  | S n' =>
      let at_ i := nth i w 0 in
      let s0 := xor3 (rotr 7 (at_ 14%nat)) (rotr 18 (at_ 14%nat)) (Z.shiftr (at_ 14%nat) 3) in
      let s1 := xor3 (rotr 17 (at_ 1%nat)) (rotr 19 (at_ 1%nat)) (Z.shiftr (at_ 1%nat) 10) in
      schedule n' (word (at_ 15%nat + s0 + at_ 6%nat + s1) :: w)
  end.

Definition state : Type := Z * Z * Z * Z * (Z * Z * Z * Z).

Definition round (st : state) (kw : Z * Z) : state :=
  let '(a, b, c, d, (e, f, g, h)) := st in
  let t1 := h + xor3 (rotr 6 e) (rotr 11 e) (rotr 25 e) + Z.lxor (Z.land e f) (Z.land (Z.lxor e (2 ^ 32 - 1)) g) + fst kw + snd kw in
  let t2 := xor3 (rotr 2 a) (rotr 13 a) (rotr 22 a) + xor3 (Z.land a b) (Z.land a c) (Z.land b c) in
  (word (t1 + t2), a, b, c, (word (d + t1), e, f, g)).

Definition compress (st : state) (block : list Z) : state :=
  let ws := rev (schedule 48 (rev (map number_of (chunks 4 16 block)))) in
  let '(a, b, c, d, (e, f, g, h)) := st in
  let '(a', b', c', d', (e', f', g', h')) := fold_left round (combine round_keys ws) st in
  (word (a + a'), word (b + b'), word (c + c'), word (d + d'), (word (e + e'), word (f + f'), word (g + g'), word (h + h'))).

Definition sha256 (msg : list Z) : list Z :=
  let m := padded_message msg in
  let '(a, b, c, d, (e, f, g, h)) :=
    fold_left compress (chunks 64 (length m) m)
      (1779033703, 3144134277, 1013904242, 2773480762, (1359893119, 2600822924, 528734635, 1541459225)) in
  concat (map (big_endian 4) [a; b; c; d; e; f; g; h]).

Definition hexdigest (msg : list Z) : string := String.concat "" (map hex_byte (sha256 msg)).

Example sha256_abc :
  hexdigest (bytes_of "abc") = "ba7816bf8f01cfea414140de5dae2223b00361a396177a9cb410ff61f20015ad".
Proof. vm_compute. reflexivity. Qed.
End Sha256.
