(* ===== verification/ChannelQuestions.v ===== *)
(** [channel_interactions.py]: how a question an agent waits on is shown in a channel, and
    how a reply or a pressed button becomes the answer its contract accepts.  Blanks, digits
    and letter case are those of ASCII. *)

From S2P Require Import Prelude PyVal Interaction Base64 JsonText Uuid Sha256.

Open Scope string_scope.

Module Questions.
Import Interaction.

Definition ACTION_PREFIX : string := "ix1".
Definition TOOL_INPUT_LIMIT : nat := 600.
Definition APPROVAL_LABELS : list string := ["Approve"; "Reject"].

(** [interaction_ref]. *)
Definition interaction_ref (deployment_id session_id interaction_id : string) : string :=
  let nul := Py.ascii_char 0 in
  String.substring 0 16 (Sha256.hexdigest (Uuid.bytes_of (deployment_id ++ nul ++ session_id ++ nul ++ interaction_id))).

(** ** Showing a question *)

(** [ChannelChoice] and [ChannelInteraction]. *)
Record choice := Choice {
  ch_number : Z;
  ch_label : string;
  ch_description : string;
  ch_action : string
}.

Record shown_question := ShownQuestion {
  sq_interaction_id : string;
  sq_presentation : string;
  sq_title : string;
  sq_detail : string;
  sq_choices : list choice;
  sq_multi_select : bool;
  sq_free_text : bool;
  sq_position : Z * Z;
  sq_text : string
}.

(** [_questions]. *)
Definition questions_of (view : dict) : res (list dict) :=
  rows ← iter_or_empty (Py.get "questions" view);
  Ok (dicts_of rows).

(** [question_count]. *)
Definition question_count (view : dict) : res Z :=
  if Py.eqb (Py.get "presentation" view) (VStr PRESENTATION_FORM) then
    questions ← questions_of view;
    Ok (Z.of_nat (length questions))
  else Ok 1%Z.

(** [json.dumps(v, ensure_ascii=False, indent=2)] from a depth on. *)
Definition new_line (depth : nat) : string := newline ++ String.concat "" (repeat "  " depth).

Fixpoint dumps_indented (depth : nat) (v : val) : string :=
  match v with
  | VList (x :: l) =>
      "[" ++ new_line (S depth) ++
      String.concat ("," ++ new_line (S depth)) (map (dumps_indented (S depth)) (x :: l)) ++ new_line depth ++ "]"
  | VDict (kv :: d) =>
      "{" ++ new_line (S depth) ++
      String.concat ("," ++ new_line (S depth))
        (map (fun kv => Json.raw_str (fst kv) ++ ": " ++ dumps_indented (S depth) (snd kv)) (kv :: d)) ++ new_line depth ++ "}"
  | v => Json.dumps_raw "," ":" v
  end.

(** [len(s)] and [s[:n]], in code points. *)
Fixpoint text_length (s : string) : nat :=
  match s with
  | "" => 0
  | String c s' => if Json.tail_byte c then text_length s' else S (text_length s')
  end.

Fixpoint take_text (n : nat) (s : string) : string :=
  match s with
  | "" => ""
  | String c s' =>
      if Json.tail_byte c then String c (take_text n s')
      else match n with 0 => "" | S n => String c (take_text n s') end
  end.

(** [_tool_input_summary]. *)
Definition tool_input_summary (raw_input : val) : string :=
  if existsb (Py.eqb raw_input) [VNone; VDict []; VStr ""] then ""
  else
    let text := match raw_input with
                | VDict [("command", command)] => Py.str command
                | _ => dumps_indented 0 raw_input
                end in
    if (TOOL_INPUT_LIMIT <? text_length text)%nat then take_text TOOL_INPUT_LIMIT text ++ "..." else text.

(** [_render]. *)
Definition choice_line (c : choice) : string :=
  pretty (ch_number c) ++ ". " ++ ch_label c ++ (if Py.is_empty (ch_description c) then "" else " - " ++ ch_description c).

Definition how_to_reply (choices : list choice) (multi_select free_text : bool) : string :=
  match choices with
  | [] => "Reply to this message with your answer."
  | _ => (if multi_select then "Reply with the numbers of your choices, for example " ++ Py.dquote ++ "1, 3" ++ Py.dquote ++ "."
          else "Reply with a number.") ++
         (if free_text then " Or reply to this message with your own answer." else "")
  end.

Definition render_question (title detail : string) (choices : list choice) (multi_select free_text : bool) (position : Z * Z) : string :=
  join_lines
    ([if (1 <? snd position)%Z then "Question " ++ pretty (fst position) ++ " of " ++ pretty (snd position) ++ ": " ++ title else title] ++
     (if Py.is_empty detail then [] else [""; detail]) ++
     (match choices with [] => [] | _ => "" :: map choice_line choices end) ++
     [""; how_to_reply choices multi_select free_text]).

(** What a presentation shows of question [index]: title, detail, labels with descriptions,
    whether several may be chosen, and whether own words may answer. *)
Record asked := Asked {
  as_title : string;
  as_detail : string;
  as_labels : list (string * string);
  as_multi_select : bool;
  as_free_text : bool
}.

Definition form_question (question : dict) : res asked :=
  let header := Py.clean (Py.get "header" question) in
  let text := Py.clean (Py.get "question" question) in
  options ← iter_or_empty (Py.get "options" question);
  Ok (Asked
    (if negb (Py.is_empty header) && negb (Py.is_empty text) && negb (header =s text) then header ++ ": " ++ text else Py.a_or text header)
    ""
    (map (fun o => (Py.str_or_empty (Py.get "label" o), Py.str_or_empty (Py.get "description" o))) (dicts_of options))
    (Py.is_true (Py.get "multi_select" question)) (Py.is_true (Py.get "allow_free_text" question))).

Definition asked_question (view : dict) (index : Z) : res asked :=
  let presentation := Py.str_or_empty (Py.get "presentation" view) in
  if presentation =s PRESENTATION_FORM then
    questions ← questions_of view;
    match questions !! Z.to_nat index with Some q => form_question q | None => Raise IndexError end
  else if presentation =s PRESENTATION_DECISION then
    options ← iter_or_empty (Py.get "options" view);
    Ok (Asked (Py.clean (Py.get "prompt" view)) (Py.clean (Py.get "body" view))
          (map (fun o => (Py.str_or_empty (Py.get "id" o), "")) (dicts_of options)) false false)
  else if presentation =s PRESENTATION_TOOL_APPROVAL then
    Ok (Asked (Py.clean (Py.get "prompt" view)) (tool_input_summary (Py.get "raw_input" view))
          (map (fun l => (l, "")) APPROVAL_LABELS) false false)
  else Raise ValueError.

(** The id a choice's button carries. *)
Definition action_id (ref : string) (index number : Z) : string :=
  ACTION_PREFIX ++ ":" ++ ref ++ ":" ++ pretty index ++ ":" ++ pretty number.

Definition choice_of (ref : string) (index : Z) (actions : bool) (n : nat) (label : string * string) : choice :=
  let number := Z.of_nat (S n) in
  Choice number (fst label) (snd label) (if actions then action_id ref index number else "").

(** [channel_interaction]. *)
Definition channel_interaction (view : dict) (index : Z) (ref : string) (actions : bool) : res shown_question :=
  total ← question_count view;
  if negb ((0 <=? index) && (index <? total))%Z then Raise ValueError
  else
    a ← asked_question view index;
    let choices := imap (choice_of ref index (actions && negb (as_multi_select a))) (as_labels a) in
    let position := ((index + 1)%Z, total) in
    Ok (ShownQuestion (Py.str_or_empty (Py.get "interaction_id" view)) (Py.str_or_empty (Py.get "presentation" view))
          (as_title a) (as_detail a) choices (as_multi_select a) (as_free_text a) position
          (render_question (as_title a) (as_detail a) choices (as_multi_select a) (as_free_text a) position)).

(** ** Reading an answer *)

Record action_target := ActionTarget { at_ref : string; at_question_index : Z; at_number : Z }.

(** [match.group] of [n] lower-case hexadecimal digits, and what follows. *)
Definition is_hex (c : Ascii.ascii) : bool := Json.is_digit c || ((97 <=? Base64.byte c) && (Base64.byte c <=? 102))%Z.
Fixpoint take_hex (n : nat) (s : string) : option (string * string) :=
  match n with
  | 0 => Some ("", s)
  | S n => match s with
           | String c s' => if is_hex c then match take_hex n s' with Some (h, r) => Some (String c h, r) | None => None end else None
           | "" => None
           end
  end.

Fixpoint after_prefix (p s : string) : option string :=
  match p, s with
  | "", _ => Some s
  | String c p', String d s' => if Ascii.eqb c d then after_prefix p' s' else None
  | String _ _, "" => None
  end.

(** One to [n] digits. *)
Definition take_digits (n : nat) (s : string) : option (Z * string) :=
  let '(ds, r) := Json.span_digits s in
  if Py.is_empty ds || (n <? String.length ds)%nat then None
  else match Py.digits 0 ds with Some z => Some (z, r) | None => None end.

(** [parse_action]: the pattern's [$] also stands before a newline at the end. *)
Definition parse_action (action : string) : option action_target :=
  match after_prefix (ACTION_PREFIX ++ ":") action with
  | None => None
  | Some s =>
  match take_hex 16 s with
  | None => None
  | Some (ref, s) =>
  match after_prefix ":" s with
  | None => None
  | Some s =>
  match take_digits 2 s with
  | None => None
  | Some (index, s) =>
  match after_prefix ":" s with
  | None => None
  | Some s =>
  match take_digits 3 s with
  | None => None
  | Some (number, rest) => if Py.is_empty rest || (rest =s newline) then Some (ActionTarget ref index number) else None
  end end end end end end.

(** [QuestionAnswer] and [Refusal]. *)
Record question_answer := QuestionAnswer { qa_row : dict; qa_choice : option string }.
Inductive outcome :=
| Answer (a : question_answer)
| Refusal (message : string).

(** [,], [，] and [、]. *)
Definition after_comma (s : string) : option string :=
  match after_prefix "," s with
  | Some r => Some r
  | None => match after_prefix "，" s with Some r => Some r | None => after_prefix "、" s end
  end.

(** The digit runs of a text the selector pattern matches. *)
Fixpoint selector_runs (fuel : nat) (s : string) : option (list string) :=
  match fuel with
  | 0 => None
  | S fuel =>
      let '(ds, r) := Json.span_digits (Py.lstrip s) in
      if Py.is_empty ds then None
      else
        let r := Py.lstrip r in
        if Py.is_empty r then Some [ds]
        else cons ds <$> selector_runs fuel (default r (after_comma r))
  end.

Definition int_of_run (ds : string) : res Z :=
  if (Json.MAX_INT_DIGITS <? String.length ds)%nat then Raise ValueError
  else match Py.digits 0 ds with Some z => Ok z | None => Raise ValueError end.

Definition add_number (numbers : list Z) (ds : string) : res (list Z) :=
  n ← int_of_run ds;
  Ok (if bool_decide (n ∈ numbers) then numbers else (numbers ++ [n])%list).

(** [_selected_numbers]. *)
Definition selected_numbers (reply : string) : res (option (list Z)) :=
  match selector_runs (S (String.length reply)) reply with
  | None => Ok None
  | Some runs => numbers ← foldM add_number [] runs; Ok (Some numbers)
  end.

(** [_how_to_answer]. *)
Definition how_to_answer (shown : shown_question) : string :=
  let count := pretty (Z.of_nat (length (sq_choices shown))) in
  match sq_choices shown with
  | [] => "Reply to the question's message with your answer."
  | choices =>
      if sq_multi_select shown then "Reply with numbers from 1 to " ++ count ++ ", for example " ++ Py.dquote ++ "1, 3" ++ Py.dquote ++ "."
      else match choices with [_] => "Reply with 1." | _ => "Reply with a number from 1 to " ++ count ++ "." end
  end.

(** [_question_id]. *)
Definition question_id (view : dict) (index : Z) : res string :=
  questions ← questions_of view;
  match questions !! Z.to_nat index with Some q => Ok (Py.str_or_empty (Py.get "id" q)) | None => Raise IndexError end.

(** [_choose]; [numbers] is not empty. *)
Definition choose (view : dict) (shown : shown_question) (index : Z) (numbers : list Z) : res outcome :=
  let count := Z.of_nat (length (sq_choices shown)) in
  if (count =? 0)%Z || existsb (fun n => negb ((1 <=? n) && (n <=? count))%Z) numbers then Ok (Refusal (how_to_answer shown))
  else if (1 <? length numbers)%nat && negb (sq_multi_select shown) then Ok (Refusal (how_to_answer shown))
  else
    let labels := omap (fun n => ch_label <$> sq_choices shown !! Z.to_nat (n - 1)) numbers in
    match labels with
    | [] => Raise IndexError
    | label :: _ =>
        if negb (sq_presentation shown =s PRESENTATION_FORM) then Ok (Answer (QuestionAnswer [] (Some label)))
        else
          id ← question_id view index;
          Ok (Answer (QuestionAnswer
            [("question_id", VStr id);
             if sq_multi_select shown then ("option_labels", VList (map VStr labels)) else ("option_label", VStr label)] None))
    end.

(** [read_reply]. *)
Definition labelled (reply : string) (c : choice) : bool :=
  negb (Py.is_empty reply) && (Py.lower (Py.strip (ch_label c)) =s Py.lower reply).

Definition named_numbers (shown : shown_question) (reply : string) : res (option (list Z)) :=
  numbers ← selected_numbers reply;
  Ok (match numbers with
      | Some _ => numbers
      | None => match List.filter (labelled reply) (sq_choices shown) with [] => None | cs => Some (map ch_number cs) end
      end).

Definition NO_REF : string := "0000000000000000".

Definition read_reply (view : dict) (index : Z) (text : string) (quoted : bool) : res (option outcome) :=
  shown ← channel_interaction view index NO_REF false;
  let reply := Py.strip text in
  numbers ← named_numbers shown reply;
  match numbers with
  | Some numbers => a ← choose view shown index numbers; Ok (Some a)
  | None =>
      if quoted && sq_free_text shown && negb (Py.is_empty reply) then
        id ← question_id view index;
        Ok (Some (Answer (QuestionAnswer [("question_id", VStr id); ("free_text", VStr reply)] None)))
      else Ok None
  end.

(** [answer_action]. *)
Definition answer_action (view : dict) (target : action_target) : res outcome :=
  shown ← channel_interaction view (at_question_index target) NO_REF false;
  choose view shown (at_question_index target) [at_number target].

(** ** The engine's answer *)

(** [engine_answer]. *)
Definition engine_answer (view : dict) (answers : list question_answer) : res dict :=
  let presentation := Py.str_or_empty (Py.get "presentation" view) in
  if presentation =s PRESENTATION_FORM then Ok [("answers", VList (map (fun a => VDict (qa_row a)) answers))]
  else match last answers with
  | None => Raise IndexError
  | Some a =>
      let choice := default "" (qa_choice a) in
      if presentation =s PRESENTATION_TOOL_APPROVAL then
        Ok [("decision", VStr (if choice =s "Approve" then "approve" else "reject"))]
      else
        options ← iter_or_empty (Py.get "options" view);
        match List.find (fun o => Py.str_or_empty (Py.get "id" o) =s choice) (dicts_of options) with
        | None => Raise StopIteration
        | Some option =>
            let default_mode := Py.clean (Py.get "default_permission_mode" option) in
            Ok (("decision", VStr choice) ::
                (if Py.truthy (Py.get "permission_mode_choices" option) && negb (Py.is_empty default_mode)
                 then [("permission_mode", VStr default_mode)] else []))
        end
  end.

(** [answered_summary]. *)
Definition answer_words (a : question_answer) : res string :=
  match qa_choice a with
  | Some c => Ok c
  | None =>
      match Py.lookup "option_labels" (qa_row a) with
      | Some labels => l ← iter_or_empty labels; Ok (String.concat ", " (map Py.str l))
      | None => Ok (Py.str (Py.por (Py.por (Py.get "option_label" (qa_row a)) (Py.get "free_text" (qa_row a))) (VStr "")))
      end
  end.

Definition answered_summary (answers : list question_answer) : res string :=
  parts ← mapM_res answer_words answers;
  Ok ("Answered: " ++ String.concat "; " (List.filter (fun p => negb (Py.is_empty p)) parts)).
End Questions.
