(* ===== verification/QuestionFacts.v ===== *)
(** Questions shown in a channel: their buttons are read back, every choice can be chosen, and
    what participants answer is what the engine is told. *)

From S2P Require Import Prelude PyVal Interaction Base64 JsonText Uuid Sha256 ChannelQuestions.

Open Scope string_scope.

Module QuestionFacts.
Import Interaction Questions.

(** ** Numbers and hexadecimal texts *)

Lemma pretty_go_long k n s : (10 ^ N.of_nat k <= n)%N -> (k + 1 + String.length s <= String.length (pretty_N_go n s))%nat.
Proof.
  revert n s. induction k as [|k IH]; intros n s H.
  - cbn in H. rewrite pretty_N_go_step by lia.
    assert (Hgo : forall m t, (String.length t <= String.length (pretty_N_go m t))%nat).
    { intros m. induction (N.lt_wf_0 m) as [m _ IHm]. intros t. destruct (decide (0 < m)%N) as [Hm|Hm].
      - rewrite pretty_N_go_step by done. etrans; [|apply IHm, N.div_lt; lia]. cbn. lia.
      - assert (m = 0%N) as -> by lia. by rewrite pretty_N_go_0. }
    etrans; [|apply Hgo]. cbn. lia.
  - rewrite Nat2N.inj_succ, N.pow_succ_r' in H. assert (Hpos : (0 < 10 ^ N.of_nat k)%N) by (apply N.neq_0_lt_0, N.pow_nonzero; lia).
    rewrite pretty_N_go_step by lia. etrans; [|apply IH]; [cbn; lia|]. apply N.div_le_lower_bound; lia.
Qed.

Lemma pretty_go_short k n s : (n < 10 ^ N.of_nat k)%N -> (String.length (pretty_N_go n s) <= k + String.length s)%nat.
Proof.
  revert n s. induction k as [|k IH]; intros n s H.
  - cbn in H. assert (n = 0%N) as -> by lia. by rewrite pretty_N_go_0.
  - destruct (decide (0 < n)%N) as [Hn|Hn]; [|assert (n = 0%N) as -> by lia; rewrite pretty_N_go_0; lia].
    rewrite pretty_N_go_step by done. rewrite Nat2N.inj_succ, N.pow_succ_r' in H.
    etrans; [apply IH|cbn; lia]. apply N.Div0.div_lt_upper_bound. lia.
Qed.

Definition no_digit_first (t : string) : Prop := forall c t', t = String c t' -> Json.is_digit c = false.

(** The digits of a number: as many as it needs. *)
Lemma pretty_digits z : (0 <= z)%Z ->
  Json.digits_only (pretty z) /\ Py.digits 0 (pretty z) = Some z /\ Py.is_empty (pretty z) = false /\
  forall k, (0 < k)%nat -> (k <? String.length (pretty z))%nat = negb (z <? 10 ^ Z.of_nat k)%Z.
Proof.
  intros Hz. destruct z as [|p|p]; [| |lia].
  - change (pretty 0%Z) with "0". split_and!; [apply Json.digits_only_cons; [done|apply Json.digits_only_nil]|done|done|]. intros k Hk.
    replace (0 <? 10 ^ Z.of_nat k)%Z with true by (symmetry; apply Z.ltb_lt; lia). apply Nat.ltb_ge. cbn. lia.
  - change (pretty (Z.pos p)) with (pretty_N_go (N.pos p) "").
    destruct (Json.pretty_go_digits (N.pos p) "" Json.digits_only_nil) as [H1 H2]. split_and!; [done|by rewrite H2| |].
    + destruct (Json.pretty_go_head (N.pos p) "") as (d & t & _ & ->); [lia|done].
    + intros k Hk. assert (Hpow : (10 ^ Z.of_nat k)%Z = Z.of_N (10 ^ N.of_nat k)) by (by rewrite N2Z.inj_pow, nat_N_Z).
      rewrite Hpow. destruct (Z.ltb_spec (Z.pos p) (Z.of_N (10 ^ N.of_nat k))) as [H|H]; cbn [negb].
      * apply Nat.ltb_ge. etrans; [apply (pretty_go_short k); lia|cbn; lia].
      * apply Nat.ltb_lt. enough (k + 1 + 0 <= String.length (pretty_N_go (N.pos p) ""))%nat by lia. apply (pretty_go_long k (N.pos p) ""). lia.
Qed.

(** A number of at most [k] digits is read, a longer one is not. *)
Lemma take_digits_pretty k z t : (0 < k)%nat -> (0 <= z)%Z -> no_digit_first t ->
  take_digits k (pretty z ++ t) = if (z <? 10 ^ Z.of_nat k)%Z then Some (z, t) else None.
Proof.
  intros Hk Hz Ht. destruct (pretty_digits z Hz) as (Hd & Hv & He & Hl). unfold take_digits.
  rewrite (Hd t) by exact Ht. rewrite He, (Hl k Hk), Hv. by destruct (z <? _)%Z.
Qed.

Fixpoint all_hex (s : string) : bool := match s with "" => true | String c s' => is_hex c && all_hex s' end.

Lemma take_hex_app h t : all_hex h = true -> take_hex (String.length h) (h ++ t) = Some (h, t).
Proof.
  induction h as [|c h IH]; [done|]. cbn [all_hex]. intros [Hc Hh]%andb_true_iff. cbn [String.length take_hex].
  change (String c h ++ t) with (String c (h ++ t)). cbn [take_hex]. by rewrite Hc, IH.
Qed.

Lemma after_prefix_app p t : after_prefix p (p ++ t) = Some t.
Proof. induction p as [|c p IH]; [done|]. change (String c p ++ t) with (String c (p ++ t)). cbn [after_prefix]. by rewrite Ascii.eqb_refl. Qed.

Lemma all_hex_app a b : all_hex (a ++ b) = all_hex a && all_hex b.
Proof. induction a as [|c a IH]; [done|]. change (String c a ++ b) with (String c (a ++ b)). cbn. by rewrite IH, andb_assoc. Qed.

Lemma hex_byte_hex b : (0 <= b < 256)%Z -> all_hex (Uuid.hex_byte b) = true /\ String.length (Uuid.hex_byte b) = 2.
Proof.
  intros Hb. assert (Hall : forallb (fun z => all_hex (Uuid.hex_byte z) && (String.length (Uuid.hex_byte z) =? 2)%nat) (seqZ 0 256) = true)
    by (vm_compute; reflexivity).
  rewrite forallb_forall in Hall. specialize (Hall b). rewrite andb_true_iff, Nat.eqb_eq in Hall. apply Hall, list_elem_of_In, elem_of_seqZ. lia.
Qed.

Definition bytes (l : list Z) : Prop := Forall (fun b => 0 <= b < 256)%Z l.

Lemma concat_hex bs : bytes bs -> all_hex (String.concat "" (map Uuid.hex_byte bs)) = true /\
  String.length (String.concat "" (map Uuid.hex_byte bs)) = 2 * length bs.
Proof.
  induction 1 as [|b bs Hb _ [IH1 IH2]]; [done|]. destruct (hex_byte_hex b Hb) as [H1 H2].
  destruct bs as [|b' bs]; [by cbn; rewrite H1, H2|].
  change (String.concat "" (map Uuid.hex_byte (b :: b' :: bs))) with
    (Uuid.hex_byte b ++ "" ++ String.concat "" (map Uuid.hex_byte (b' :: bs))).
  rewrite !all_hex_app, H1, IH1. split; [done|]. rewrite !Json.str_length_app, H2, IH2. cbn. lia.
Qed.

Lemma big_endian_bytes n z : bytes (Uuid.big_endian n z) /\ length (Uuid.big_endian n z) = n.
Proof.
  induction n as [|n [IH1 IH2]]; [by repeat constructor|]. cbn. split; [|by rewrite IH2]. constructor; [|done]. apply Z.mod_pos_bound. lia.
Qed.

Lemma sha256_bytes msg : bytes (Sha256.sha256 msg) /\ length (Sha256.sha256 msg) = 32%nat.
Proof.
  unfold Sha256.sha256. destruct (fold_left _ _ _) as [[[[a b] c] d] [[[e f] g] h]].
  cbn [map concat]. rewrite !length_app. split; [|by rewrite !(proj2 (big_endian_bytes _ _))].
  unfold bytes. rewrite !Forall_app. split_and!; try apply big_endian_bytes. constructor.
Qed.

Lemma substring_hex n s : all_hex s = true -> (n <= String.length s)%nat ->
  all_hex (String.substring 0 n s) = true /\ String.length (String.substring 0 n s) = n.
Proof.
  revert s. induction n as [|n IH]; intros [|c s] Hs Hn; cbn in Hn |- *; try done; try lia.
  cbn in Hs. apply andb_true_iff in Hs as [Hc Hs]. destruct (IH s Hs) as [H1 H2]; [lia|]. by rewrite Hc, H1, H2.
Qed.

(** A question's name is sixteen hexadecimal digits. *)
Lemma interaction_ref_hex d s i :
  all_hex (interaction_ref d s i) = true /\ String.length (interaction_ref d s i) = 16.
Proof.
  unfold interaction_ref. generalize (Uuid.bytes_of (d ++ Py.ascii_char 0 ++ s ++ Py.ascii_char 0 ++ i)). intros msg.
  destruct (sha256_bytes msg) as [Hb Hl]. destruct (concat_hex _ Hb) as [H1 H2]. apply substring_hex; [exact H1|].
  unfold Sha256.hexdigest. rewrite H2, Hl. lia.
Qed.

Lemma colon_no_digit t : no_digit_first (":" ++ t).
Proof. intros c t' [= <- _]. done. Qed.

(** A button's id is read back as the question and the choice it was made for, as long as the
    question is among the first hundred of its form and the choice among its first 999. *)
Lemma action_read d s i index number :
  (0 <= index)%Z -> (0 <= number)%Z ->
  parse_action (action_id (interaction_ref d s i) index number) =
  if (index <=? 99)%Z && (number <=? 999)%Z then Some (ActionTarget (interaction_ref d s i) index number) else None.
Proof.
  intros Hi Hn. destruct (interaction_ref_hex d s i) as [Hh Hl]. revert Hh Hl. generalize (interaction_ref d s i). intros ref Hh Hl.
  unfold parse_action, action_id. change (ACTION_PREFIX ++ ":" ++ ref ++ ?r) with ((ACTION_PREFIX ++ ":") ++ ref ++ r).
  rewrite after_prefix_app. rewrite <-Hl, take_hex_app by done. rewrite (after_prefix_app ":").
  rewrite take_digits_pretty by (try apply colon_no_digit; lia). change (10 ^ Z.of_nat 2)%Z with 100%Z.
  replace (index <? 100)%Z with (index <=? 99)%Z by (destruct (Z.leb_spec index 99), (Z.ltb_spec index 100); lia).
  destruct (index <=? 99)%Z; [|done]. rewrite (after_prefix_app ":"). rewrite <-(str_app_nil (pretty number)).
  rewrite take_digits_pretty by (first [lia|by intros ? ? [=]]). change (10 ^ Z.of_nat 3)%Z with 1000%Z.
  replace (number <? 1000)%Z with (number <=? 999)%Z by (destruct (Z.leb_spec number 999), (Z.ltb_spec number 1000); lia).
  by destruct (number <=? 999)%Z.
Qed.

(** ** Every choice shown can be chosen *)

Definition choices_of (ref : string) (index : Z) (actions : bool) (a : asked) : list choice :=
  imap (choice_of ref index (actions && negb (as_multi_select a))) (as_labels a).

Lemma shown_inv view index ref actions shown :
  channel_interaction view index ref actions = Ok shown ->
  exists total a, question_count view = Ok total /\ (0 <= index < total)%Z /\ asked_question view index = Ok a /\
    sq_choices shown = choices_of ref index actions a /\ sq_multi_select shown = as_multi_select a /\
    sq_free_text shown = as_free_text a /\ sq_presentation shown = Py.str_or_empty (Py.get "presentation" view).
Proof.
  unfold channel_interaction. intros H. apply bind_ok in H as (total & Ht & H). destruct (negb _) eqn:E; [done|].
  apply bind_ok in H as (a & Ha & <-%Ok_inj). bool_prop. exists total, a. split_and!; done || lia.
Qed.

Lemma shown_again view index ref actions shown ref' actions' :
  channel_interaction view index ref actions = Ok shown ->
  exists shown', channel_interaction view index ref' actions' = Ok shown' /\
    map ch_label (sq_choices shown') = map ch_label (sq_choices shown) /\ map ch_number (sq_choices shown') = map ch_number (sq_choices shown) /\
    sq_multi_select shown' = sq_multi_select shown /\ sq_free_text shown' = sq_free_text shown /\ sq_presentation shown' = sq_presentation shown.
Proof.
  intros H. destruct (shown_inv _ _ _ _ _ H) as (total & a & Ht & Hi & Ha & Hc & Hm & Hf & Hp).
  unfold channel_interaction. rewrite Ht. cbn [mbind res_bind]. replace (negb _) with false by (symmetry; apply negb_false_iff, andb_true_iff; lia).
  rewrite Ha. cbn [mbind res_bind]. eexists. split; [reflexivity|]. cbn. rewrite Hc, Hm, Hf, Hp. unfold choices_of.
  split_and!; [| |done|done|done].
  - etrans; [apply fmap_imap|]. symmetry. etrans; [apply fmap_imap|]. by apply imap_ext.
  - etrans; [apply fmap_imap|]. symmetry. etrans; [apply fmap_imap|]. by apply imap_ext.
Qed.

(** A form's question that is shown has an id. *)
Lemma shown_question_id view index a :
  asked_question view index = Ok a -> Py.str_or_empty (Py.get "presentation" view) = PRESENTATION_FORM ->
  exists id, question_id view index = Ok id.
Proof.
  unfold asked_question, question_id. intros H Hp. rewrite Hp in H. change (PRESENTATION_FORM =s PRESENTATION_FORM) with true in H.
  apply bind_ok in H as (qs & Hq & H). rewrite Hq. cbn [mbind res_bind]. destruct (qs !! Z.to_nat index); [by eexists|done].
Qed.

(** What an answer names: a label for a decision or an approval, and a row of a form. *)
Definition row_of (shown : shown_question) (id : string) (labels : list string) : dict :=
  [("question_id", VStr id);
   if sq_multi_select shown then ("option_labels", VList (map VStr labels)) else ("option_label", VStr (default "" (head labels)))].

Definition names (shown : shown_question) (labels : list string) (view : dict) (index : Z) (a : question_answer) : Prop :=
  if negb (sq_presentation shown =s PRESENTATION_FORM) then a = QuestionAnswer [] (head labels)
  else exists id, question_id view index = Ok id /\ a = QuestionAnswer (row_of shown id labels) None.

Definition out_of_range (shown : shown_question) (numbers : list Z) : bool :=
  let count := Z.of_nat (length (sq_choices shown)) in
  (count =? 0)%Z || existsb (fun n => negb ((1 <=? n) && (n <=? count))%Z) numbers.

Lemma labels_named {shown : shown_question} numbers :
  existsb (fun n => negb ((1 <=? n) && (n <=? Z.of_nat (length (sq_choices shown))))%Z) numbers = false ->
  length (omap (fun n => ch_label <$> sq_choices shown !! Z.to_nat (n - 1)) numbers) = length numbers.
Proof.
  induction numbers as [|n numbers IH]; [done|]. cbn [existsb]. intros [Hn Hr]%orb_false_iff. bool_prop.
  destruct (lookup_lt_is_Some_2 (sq_choices shown) (Z.to_nat (n - 1))) as [c Hc]; [lia|]. cbn. rewrite Hc. cbn. f_equal. by apply IH.
Qed.

(** [_choose] answers with the labels chosen, or explains how to answer. *)
Lemma choose_cases view shown index numbers a0 :
  asked_question view index = Ok a0 -> sq_presentation shown = Py.str_or_empty (Py.get "presentation" view) -> numbers <> [] ->
  exists o, choose view shown index numbers = Ok o /\
    match o with
    | Refusal m => m = how_to_answer shown /\ (out_of_range shown numbers = true \/ (1 <? length numbers)%nat && negb (sq_multi_select shown) = true)
    | Answer a => names shown (omap (fun n => ch_label <$> sq_choices shown !! Z.to_nat (n - 1)) numbers) view index a
    end.
Proof.
  intros Ha Hp Hn. unfold choose. fold (out_of_range shown numbers). destruct (out_of_range shown numbers) eqn:Eor; [eexists; split; [reflexivity|cbn; by auto]|].
  apply orb_false_iff in Eor as [_ Ee]. destruct (_ && negb _) eqn:Em; [eexists; split; [reflexivity|cbn; by auto]|]. pose proof (labels_named _ Ee) as Hl. unfold names, row_of.
  destruct (omap _ numbers) as [|l ls]; [destruct numbers; done|]. destruct (negb (sq_presentation shown =s _)) eqn:Ef.
  - eexists. split; [reflexivity|]. done.
  - bool_prop. rewrite Hp in Ef. destruct (shown_question_id _ _ _ Ha Ef) as [id Hid]. rewrite Hid. cbn [mbind res_bind].
    eexists. split; [reflexivity|]. exists id. by destruct (sq_multi_select shown).
Qed.

Lemma names_same shown shown' labels view index a :
  sq_multi_select shown' = sq_multi_select shown -> sq_presentation shown' = sq_presentation shown ->
  names shown' labels view index a -> names shown labels view index a.
Proof. unfold names, row_of. by intros -> ->. Qed.

Lemma choice_inv ref index actions a c :
  c ∈ choices_of ref index actions a -> exists n label, as_labels a !! n = Some label /\ c = choice_of ref index (actions && negb (as_multi_select a)) n label.
Proof. unfold choices_of. intros (n & label & -> & Hl)%elem_of_lookup_imap. by exists n, label. Qed.

Lemma small_number n : (1 <= n <= 999)%Z -> selected_numbers (Py.strip (pretty n)) = Ok (Some [n]).
Proof.
  intros Hn. assert (Hall : forallb (fun z => bool_decide (selected_numbers (Py.strip (pretty z)) = Ok (Some [z]))) (seqZ 1 999) = true)
    by (vm_compute; reflexivity).
  rewrite forallb_forall in Hall. specialize (Hall n). eapply bool_decide_eq_true_1, Hall, list_elem_of_In, elem_of_seqZ. lia.
Qed.

(** The choice numbered [n + 1] answers when it is chosen alone. *)
Lemma choose_alone view shown index a0 c n :
  asked_question view index = Ok a0 -> sq_presentation shown = Py.str_or_empty (Py.get "presentation" view) ->
  sq_choices shown !! n = Some c -> exists a, choose view shown index [Z.of_nat (S n)] = Ok (Answer a) /\ names shown [ch_label c] view index a.
Proof.
  intros Ha Hp Hc. pose proof (lookup_lt_Some _ _ _ Hc) as Hn.
  destruct (choose_cases view shown index [Z.of_nat (S n)] a0 Ha Hp) as (o & Ho & Hcase); [done|].
  destruct o as [a|m].
  - exists a. split; [done|]. cbn [omap list_omap] in Hcase. replace (Z.to_nat (Z.of_nat (S n) - 1)) with n in Hcase by lia. by rewrite Hc in Hcase.
  - destruct Hcase as [_ [H|H]]; [|done]. unfold out_of_range in H. cbn [existsb] in H. rewrite orb_false_r, orb_true_iff, negb_true_iff, andb_false_iff, Z.eqb_eq, !Z.leb_gt in H. lia.
Qed.

(** C23: Every choice a channel shows can be chosen: a reply of nothing but its number answers
    with its label, and where a choice has a button, pressing it gives the same answer - as
    long as the question is among the first hundred of its form and the choice among its first
    999; the id of a later question's button is not read as one at all. *)
Theorem choice_answers view index d s i shown c :
  channel_interaction view index (interaction_ref d s i) true = Ok shown -> c ∈ sq_choices shown -> (ch_number c <= 999)%Z ->
  exists a, names shown [ch_label c] view index a /\
    (forall quoted, read_reply view index (pretty (ch_number c)) quoted = Ok (Some (Answer a))) /\
    (sq_multi_select shown = false ->
       if (index <=? 99)%Z
       then exists t, parse_action (ch_action c) = Some t /\ answer_action view t = Ok (Answer a)
       else parse_action (ch_action c) = None).
Proof.
  intros H Hc Hn. pose proof (shown_inv _ _ _ _ _ H) as (total & a0 & _ & Hi & Ha & Ech & Em & _ & Ep).
  rewrite Ech in Hc. destruct (choice_inv _ _ _ _ _ Hc) as (n & label & Hl & Ec).
  destruct (shown_again _ _ _ _ _ NO_REF false H) as (shown' & H' & El & _ & Em' & Ef' & Ep').
  pose proof (shown_inv _ _ _ _ _ H') as (_ & a1 & _ & _ & Ha1 & Ech' & _). assert (a1 = a0) as -> by congruence.
  assert (Hlook : sq_choices shown' !! n = Some (choice_of NO_REF index (false && negb (as_multi_select a0)) n label)).
  { rewrite Ech'. unfold choices_of. by rewrite list_lookup_imap, Hl. }
  destruct (choose_alone _ _ _ _ _ _ Ha ltac:(rewrite Ep'; exact Ep) Hlook) as (a & Hcho & Hnames). cbn [ch_label choice_of] in Hnames.
  assert (Enum : ch_number c = Z.of_nat (S n)) by (by rewrite Ec). assert (Elab : ch_label c = fst label) by (by rewrite Ec).
  exists a. rewrite Enum, Elab in *. split_and!.
  - by eapply names_same.
  - intros quoted. unfold read_reply. rewrite H'. cbn [mbind res_bind]. unfold named_numbers. rewrite small_number by lia. cbn [mbind res_bind].
    by rewrite Hcho.
  - intros Hm. assert (Eact : ch_action c = action_id (interaction_ref d s i) index (Z.of_nat (S n))) by (rewrite Ec; cbn; by rewrite <-Em, Hm).
    rewrite Eact, action_read by lia. replace (Z.of_nat (S n) <=? 999)%Z with true by (symmetry; apply Z.leb_le; lia).
    destruct (index <=? 99)%Z; [|done]. eexists. split; [reflexivity|]. unfold answer_action. cbn [at_question_index at_number]. rewrite H'. done.
Qed.

(** ** What participants answer is what the engine is told *)

(** The words of an answer the platform accepts: of every question of a form, of the option
    chosen, or of the approval. *)
Definition told_words (pending response : dict) : res (list string) :=
  presentation ← interaction_presentation pending;
  if presentation =s PRESENTATION_FORM then
    rows ← validated_question_answer_rows pending response; Ok (map ar_response_text rows)
  else if presentation =s PRESENTATION_DECISION then
    option ← selected_decision_option pending response; Ok [Py.str (Py.get "id" option)]
  else
    decision ← validated_tool_approval_decision response; Ok [if decision =s "approve" then "Approve" else "Reject"].

(** A participant's answer to question [index]: a reply or a button. *)
Definition given (view : dict) (index : Z) (a : question_answer) : Prop :=
  (exists text quoted, read_reply view index text quoted = Ok (Some (Answer a))) \/
  (exists t, at_question_index t = index /\ answer_action view t = Ok (Answer a)).

(** The ids a contract declares differ by more than the blanks around them. *)
Definition ids_apart (c : dict) : Prop :=
  forall key l, key ∈ ["questions"; "options"] -> Py.get key c = VList l ->
    NoDup (map (fun q => Py.clean (Py.get "id" q)) (dicts_of l)).

(** *** The view of a contract *)

Lemma contract_status c p : validate_interaction_contract (VDict c) = Ok p -> public_status c = Ok [] /\ is_answered c = false.
Proof.
  intros H. destruct (contract_presentation _ _ H) as [_ Hk].
  assert (Hns : Py.lookup "status" c = None).
  { apply lookup_None_keys. intros Hin. unfold known_keys in Hk. rewrite forallb_forall in Hk.
    apply list_elem_of_In in Hin. specialize (Hk _ Hin). unfold CONTRACT_KEYS_BY_PRESENTATION in Hk. split_hyp Hk. }
  unfold public_status, is_answered, Py.get. by rewrite Hns.
Qed.

(** What a runtime stores of a contract: the contract, under the names of the interaction. *)
Definition RECORD_KEYS : list string := ["interaction_id"; "response_id"; "tool_call_id"].
Definition records (c d : dict) : Prop := forall k, k ∉ RECORD_KEYS -> Py.lookup k d = Py.lookup k c.

Lemma records_get c d k : records c d -> Py.in_strs k RECORD_KEYS = false -> Py.get k d = Py.get k c.
Proof. intros H Hk. unfold Py.get. rewrite H; [done|]. intros Hin%in_strs_true. congruence. Qed.

Lemma records_project c d ks : records c d -> existsb (fun k => Py.in_strs k RECORD_KEYS) ks = false -> project ks d = project ks c.
Proof.
  intros H. unfold project. induction ks as [|k ks IH]; [done|]. cbn [existsb]. intros [Hk Hks]%orb_false_iff.
  cbn [omap list_omap]. rewrite H; [|intros Hin%in_strs_true; congruence]. by rewrite IH.
Qed.

(** The view of a stored contract. *)
Definition shows (p : string) (c view : dict) : Prop :=
  exists d body, records c d /\
    (if p =s PRESENTATION_FORM then public_form c else if p =s PRESENTATION_DECISION then public_decision c else Ok []) = Ok body /\
    view = (project PUBLIC_INTERACTION_COMMON_KEYS d ++ project ["raw_input"] c ++ body)%list.

Lemma view_inv c d p view :
  validate_interaction_contract (VDict c) = Ok p -> records c d -> public_interaction_view (VDict d) true = Ok (Some view) -> shows p c view.
Proof.
  intros H Hr Hv. destruct (contract_presentation _ _ H) as [Hp _]. destruct (contract_status _ _ H) as [Hs Ha].
  assert (Hpd : interaction_presentation d = Ok p) by (unfold interaction_presentation in *; by rewrite (records_get c d _ Hr)).
  assert (Hsd : public_status d = Ok []) by (unfold public_status in *; by rewrite Hr by (apply (bool_decide_unpack _); vm_compute; exact I)).
  assert (Had : is_answered d = false) by (unfold is_answered in *; by rewrite (records_get c d _ Hr)).
  assert (Hf : public_form d = public_form c).
  { unfold public_form. rewrite Ha, Had, !(records_get c d _ Hr) by done. by rewrite (records_project c d ["preset_answers"] Hr). }
  assert (Hd : public_decision d = public_decision c).
  { unfold public_decision. rewrite (records_get c d _ Hr) by done. by rewrite (records_project c d ["body"] Hr). }
  unfold public_interaction_view in Hv. rewrite Hpd, Hsd, Hf, Hd in Hv. cbn [mbind res_bind] in Hv.
  apply bind_ok in Hv as (body & Hb & <-%Ok_inj%(inj Some)). exists d, body. split_and!; [done|exact Hb|].
  rewrite app_nil_l. by rewrite (records_project c d ["raw_input"] Hr).
Qed.

Lemma view_get k d c body : k ∈ ["questions"; "options"] ->
  Py.get k (project PUBLIC_INTERACTION_COMMON_KEYS d ++ project ["raw_input"] c ++ body)%list = Py.get k body.
Proof.
  intros Hk. unfold Py.get. rewrite !lookup_app, !lookup_project.
  apply elem_of_cons in Hk as [->|Hk%list_elem_of_singleton]; [done|by subst].
Qed.

Lemma view_presentation c body p :
  Py.get "presentation" c = VStr p -> Py.get "presentation" (project PUBLIC_INTERACTION_COMMON_KEYS c ++ body)%list = VStr p.
Proof.
  unfold Py.get. intros H. rewrite lookup_app, lookup_project. change (Py.in_strs "presentation" PUBLIC_INTERACTION_COMMON_KEYS) with true.
  cbn iota. by destruct (Py.lookup "presentation" c).
Qed.

Lemma shows_presentation p c view : Py.get "presentation" c = VStr p -> shows p c view -> Py.get "presentation" view = VStr p.
Proof. intros Hp (d & body & Hr & _ & ->). apply view_presentation. by rewrite (records_get c d _ Hr). Qed.

Lemma get_project k ks d : Py.in_strs k ks = true -> Py.get k (project ks d) = Py.get k d.
Proof. intros H. unfold Py.get. by rewrite lookup_project, H. Qed.

(** A question row and its public form. *)
Record row_shown (r q : dict) : Prop := {
  rw_id : exists id, Py.get "id" r = VStr id /\ Py.is_empty (Py.strip id) = false;
  rw_same : Py.get "id" q = Py.get "id" r;
  rw_free : Py.get "allow_free_text" q = Py.get "allow_free_text" r;
  rw_options : exists os, Py.get "options" q = VList (map VDict os) /\
    Forall (fun o => exists l, Py.get "label" o = VStr l /\ Py.is_empty (Py.strip l) = false) os
}.

Lemma nonblank_inv v : Py.nonblank_str v = true -> exists s, v = VStr s /\ Py.is_empty (Py.strip s) = false.
Proof. destruct v; try done. cbn. intros H%negb_true_iff. by eexists. Qed.

Lemma option_shown o o' : validate_question_option o = Ok tt -> public_option o = Ok o' ->
  exists d, o' = VDict d /\ exists l, Py.get "label" d = VStr l /\ Py.is_empty (Py.strip l) = false.
Proof.
  destruct o as [| | | | | |d]; try done. intros H Hp. apply Ok_inj in Hp as <-. eexists. split; [reflexivity|].
  unfold validate_question_option in H. apply bind_ok in H as (u & _ & H). apply require_ok in H. rewrite get_project by done. by apply nonblank_inv.
Qed.

Lemma question_shown seen seen' row v :
  validate_question seen row = Ok seen' -> public_question row = Ok v -> exists r q, row = VDict r /\ v = VDict q /\ row_shown r q.
Proof.
  destruct row as [| | | | | |r]; try done. intros H Hp. unfold validate_question in H. run_require.
  destruct (Py.get "options" r) as [| | | | |options|] eqn:Eo; try done. apply bind_ok in H as ([] & Hopts & _).
  unfold public_question in Hp. rewrite Eo in Hp. apply bind_ok in Hp as (l & Hl & Hp). apply bind_ok in Hp as (os & Hos & <-%Ok_inj).
  assert (l = options) as -> by (destruct options; by injection Hl as <-).
  eexists r, _. split_and!; [done|reflexivity|]. split.
  - by apply nonblank_inv.
  - rewrite get_set_ne by done. by apply get_project.
  - rewrite get_set_ne by done. by apply get_project.
  - apply mapM_res_Forall2 in Hos. rewrite get_set_eq.
    assert (Hv : Forall (fun o => validate_question_option o = Ok tt) options).
    { eapply foldM_Forall; [|exact Hopts]. intros [] x [] Hx. exact Hx. }
    clear -Hos Hv. induction Hos as [|o o' l l' Ho _ IH]; [by exists []|]. apply Forall_cons in Hv as [H1 H2].
    destruct (IH H2) as (ds & [= ->] & Hds). destruct (option_shown _ _ H1 Ho) as (d & -> & Hd). exists (d :: ds). by split; [|constructor].
Qed.

Lemma dicts_of_map l : dicts_of (map VDict l) = l.
Proof. unfold dicts_of. induction l as [|d l IH]; [done|]. cbn. by f_equal. Qed.

Lemma iter_list l : iter_or_empty (VList l) = Ok l.
Proof. by destruct l. Qed.

(** A form's questions are shown one by one. *)
Lemma form_view c view :
  validate_interaction_contract (VDict c) = Ok PRESENTATION_FORM -> shows PRESENTATION_FORM c view ->
  exists rs qs, Py.get "questions" c = VList (map VDict rs) /\ questions_of view = Ok qs /\ Forall2 row_shown rs qs /\ rs <> [].
Proof.
  intros H (d & body & Hrec & Hb & ->). change (PRESENTATION_FORM =s PRESENTATION_FORM) with true in Hb. cbn iota in Hb.
  destruct (contract_body _ _ H) as [[_ Hf]|[[? _]|?]]; [|done|done]. unfold validate_form_contract in Hf.
  destruct (Py.get "questions" c) as [| | | | |[|row rows]|] eqn:Eq; try done. apply bind_ok in Hf as (seen & Hq & _).
  unfold public_form in Hb. rewrite Eq in Hb. apply bind_ok in Hb as (l & [= <-] & Hb). apply bind_ok in Hb as (vs & Hvs & Hb).
  apply bind_ok in Hb as (ans & _ & <-%Ok_inj). apply mapM_res_Forall2 in Hvs.
  assert (Hall : Forall2 (fun row v => exists r q, row = VDict r /\ v = VDict q /\ row_shown r q) (row :: rows) vs).
  { assert (Hval : Forall (fun row => exists a a', validate_question a row = Ok a') (row :: rows)).
    { eapply foldM_Forall; [|exact Hq]. intros a x a' Hx. by exists a, a'. }
    clear -Hvs Hval. induction Hvs as [|x v l l' Hx _ IH]; [constructor|]. apply Forall_cons in Hval as [(a & a' & Ha) Hval].
    constructor; [by eapply question_shown|by apply IH]. }
  assert (Hd : exists rs qs, row :: rows = map VDict rs /\ vs = map VDict qs /\ Forall2 row_shown rs qs).
  { clear -Hall. induction Hall as [|x v l l' (r & q & -> & -> & Hr) _ (rs & qs & -> & -> & IH)]; [by exists [], []|].
    exists (r :: rs), (q :: qs). by split_and!; [| |constructor]. }
  destruct Hd as (rs & qs & Er & -> & Hrs). exists rs, qs. rewrite Er. split_and!; [done| |done|by intros ->].
  unfold questions_of. rewrite view_get by left. change (Py.get "questions" _) with (VList (map VDict qs)) at 1.
  rewrite iter_list. cbn [mbind res_bind]. by rewrite dicts_of_map.
Qed.

(** *** Forms *)

(** A row that answers question [q] with the words [w]. *)
Record row_answers (q : dict) (a : question_answer) (w : string) : Prop := {
  ra_choice : qa_choice a = None;
  ra_id : Py.get "question_id" (qa_row a) = VStr (Py.str_or_empty (Py.get "id" q));
  ra_text : answer_text (qa_row a) = w;
  ra_some : Py.is_empty w = false;
  ra_words : answer_words a = Ok w;
  ra_free : Py.is_str (Py.get "free_text" (qa_row a)) = true -> Py.is_true (Py.get "allow_free_text" q) = true
}.

Lemma str_values_list labels : str_values (VList (map VStr labels)) = labels.
Proof. unfold str_values. induction labels as [|l labels IH]; [done|]. cbn in *. by f_equal. Qed.

Lemma concat_some sep l ls : Py.is_empty l = false -> Py.is_empty (String.concat sep (l :: ls)) = false.
Proof. destruct l; [done|]. by destruct ls. Qed.

Lemma row_answers_labels (multi : bool) q l ls :
  Py.is_empty l = false ->
  row_answers q (QuestionAnswer [("question_id", VStr (Py.str_or_empty (Py.get "id" q)));
    if multi then ("option_labels", VList (map VStr (l :: ls))) else ("option_label", VStr l)] None)
    (if multi then String.concat ", " (l :: ls) else l).
Proof.
  intros Hl. destruct multi; split; try done.
  - unfold answer_text. change (Py.get "option_labels" _) with (VList (map VStr (l :: ls))). by rewrite str_values_list.
  - by apply concat_some.
  - unfold answer_words. change (Py.lookup "option_labels" _) with (Some (VList (map VStr (l :: ls)))). cbn [qa_choice]. rewrite iter_list.
    cbn [mbind res_bind]. do 2 f_equal. rewrite map_map. by apply map_id.
  - unfold answer_words. cbn. by destruct l.
Qed.

Lemma row_answers_text q w :
  Py.is_empty w = false -> Py.is_true (Py.get "allow_free_text" q) = true ->
  row_answers q (QuestionAnswer [("question_id", VStr (Py.str_or_empty (Py.get "id" q))); ("free_text", VStr w)] None) w.
Proof. intros Hw Hf. split; try done. unfold answer_words. cbn. by destruct w. Qed.

Lemma numbers_kept runs acc ns : foldM add_number acc runs = Ok ns -> acc <> [] \/ runs <> [] -> ns <> [].
Proof.
  revert acc. induction runs as [|ds runs IH]; intros acc H Hne; [injection H as <-; by destruct Hne|].
  cbn [foldM] in H. apply bind_ok in H as (acc' & Ha & H). eapply IH; [exact H|]. left. unfold add_number in Ha.
  apply bind_ok in Ha as (n & _ & <-%Ok_inj). case_bool_decide as Hin; [by intros ->; apply elem_of_nil in Hin|by destruct acc].
Qed.

(** A reply that names choices names at least one. *)
Lemma named_some shown reply numbers : named_numbers shown reply = Ok (Some numbers) -> numbers <> [].
Proof.
  unfold named_numbers. intros H. apply bind_ok in H as (sel & Hsel & [= H]). destruct sel as [ns|].
  - injection H as <-. unfold selected_numbers in Hsel. destruct (selector_runs _ _) as [runs|] eqn:Er; [|done].
    apply bind_ok in Hsel as (ns' & Hf & [= <-]). eapply numbers_kept; [exact Hf|]. right. intros ->.
    cbn [selector_runs] in Er. destruct (Json.span_digits _) as [ds r]. destruct (Py.is_empty ds); [done|].
    destruct (Py.is_empty (Py.lstrip r)); [done|]. by destruct (selector_runs _ _).
  - destruct (List.filter _ _) as [|c cs]; [done|]. by injection H as <-.
Qed.

(** What a participant's answer can be: labels that are shown, or words of their own. *)
Lemma given_inv view index a :
  given view index a -> exists total a0, question_count view = Ok total /\ (0 <= index < total)%Z /\ asked_question view index = Ok a0 /\
    ((exists shown labels, sq_presentation shown = Py.str_or_empty (Py.get "presentation" view) /\ labels <> [] /\
        Forall (fun l => l ∈ map fst (as_labels a0)) labels /\ (sq_multi_select shown = as_multi_select a0) /\ names shown labels view index a) \/
     (exists w id, Py.is_empty w = false /\ as_free_text a0 = true /\ question_id view index = Ok id /\
        a = QuestionAnswer [("question_id", VStr id); ("free_text", VStr w)] None)).
Proof.
  assert (Hchosen : forall ref act shown numbers, channel_interaction view index ref act = Ok shown -> numbers <> [] ->
    choose view shown index numbers = Ok (Answer a) -> exists total a0, question_count view = Ok total /\ (0 <= index < total)%Z /\
      asked_question view index = Ok a0 /\ exists shown labels, sq_presentation shown = Py.str_or_empty (Py.get "presentation" view) /\ labels <> [] /\
        Forall (fun l => l ∈ map fst (as_labels a0)) labels /\ (sq_multi_select shown = as_multi_select a0) /\ names shown labels view index a).
  { intros ref act shown numbers Hs Hn Hc. destruct (shown_inv _ _ _ _ _ Hs) as (total & a0 & Ht & Hi & Ha & Ech & Em & Ef & Ep).
    exists total, a0. split_and!; [done|lia|lia|done|]. destruct (choose_cases view shown index numbers a0 Ha Ep Hn) as (o & Ho & Hcase).
    assert (o = Answer a) as -> by congruence. eexists shown, _. split_and!; [done| | |done|exact Hcase].
    - unfold choose in Hc. fold (out_of_range shown numbers) in Hc. destruct (out_of_range shown numbers) eqn:Er; [done|].
      apply orb_false_iff in Er as [_ Er]. pose proof (labels_named _ Er) as Hl. intros E. rewrite E in Hl. by destruct numbers.
    - apply Forall_forall. intros l (n & Hn' & Hl)%list_elem_of_omap. destruct (sq_choices shown !! _) as [c|] eqn:Ec; [|done]. injection Hl as <-.
      apply list_elem_of_lookup_2 in Ec. rewrite Ech in Ec. destruct (choice_inv _ _ _ _ _ Ec) as (k & label & Hk & ->).
      apply list_elem_of_fmap. exists label. split; [done|]. by eapply list_elem_of_lookup_2. }
  intros [(text & quoted & H)|(t & Et & H)].
  - unfold read_reply in H. apply bind_ok in H as (shown & Hs & H). apply bind_ok in H as (numbers & Hnum & H).
    destruct numbers as [numbers|].
    + apply bind_ok in H as (o & Ho & [= ->]).
      destruct (Hchosen _ _ _ _ Hs (named_some _ _ _ Hnum) Ho) as (total & a0 & H1 & H2 & H3 & H4). exists total, a0. by auto.
    + destruct (_ && negb _) eqn:Ec; [|done]. apply bind_ok in H as (id & Hid & [= <-]). bool_prop.
      destruct (shown_inv _ _ _ _ _ Hs) as (total & a0 & Ht & Hi & Ha & _ & _ & Ef & _). exists total, a0. split_and!; [done|lia|lia|done|].
      right. exists (Py.strip text), id. split_and!; [done|congruence|done|done].
  - unfold answer_action in H. rewrite Et in H. apply bind_ok in H as (shown & Hs & Hc).
    destruct (Hchosen _ _ _ [at_number t] Hs ltac:(by intros [=]) Hc) as (total & a0 & H1 & H2 & H3 & H4). exists total, a0. by auto.
Qed.

Lemma blank_empty s : Py.is_empty (Py.strip s) = false -> Py.is_empty s = false.
Proof. by destruct s. Qed.

Lemma str_or_empty_text s : Py.str_or_empty (VStr s) = s.
Proof. by destruct s. Qed.

(** A participant's answer to a form's question is a row that answers it. *)
Lemma given_row view qs i r q a :
  Py.get "presentation" view = VStr PRESENTATION_FORM -> questions_of view = Ok qs -> qs !! i = Some q -> row_shown r q ->
  given view (Z.of_nat i) a -> exists w, row_answers q a w.
Proof.
  intros Hp Hqs Hi Hr Hg. destruct (given_inv _ _ _ Hg) as (total & a0 & _ & _ & Ha & Hcase).
  assert (Ep : Py.str_or_empty (Py.get "presentation" view) = PRESENTATION_FORM) by (by rewrite Hp).
  assert (Hid : question_id view (Z.of_nat i) = Ok (Py.str_or_empty (Py.get "id" q))).
  { unfold question_id. rewrite Hqs. cbn [mbind res_bind]. by rewrite Nat2Z.id, Hi. }
  unfold asked_question in Ha. rewrite Ep in Ha. change (PRESENTATION_FORM =s PRESENTATION_FORM) with true in Ha. cbn iota in Ha.
  rewrite Hqs in Ha. cbn [mbind res_bind] in Ha. rewrite Nat2Z.id, Hi in Ha. unfold form_question in Ha.
  destruct (rw_options _ _ Hr) as (os & Eos & Hos). rewrite Eos, iter_list in Ha. cbn [mbind res_bind] in Ha.
  rewrite dicts_of_map in Ha. injection Ha as <-. cbn [as_labels as_multi_select as_free_text] in Hcase.
  destruct Hcase as [(shown & labels & Eps & Hne & Hall & Em & Hn)|(w & id & Hw & Hf & Hid' & ->)].
  - unfold names in Hn. rewrite Eps, Ep in Hn. change (negb (PRESENTATION_FORM =s PRESENTATION_FORM)) with false in Hn. cbn iota in Hn.
    destruct Hn as (id & Hid' & ->). assert (id = Py.str_or_empty (Py.get "id" q)) as -> by congruence.
    destruct labels as [|l ls]; [done|]. unfold row_of. cbn [head]. eexists. apply row_answers_labels.
    apply Forall_cons in Hall as [Hl _]. rewrite map_map in Hl. apply list_elem_of_fmap in Hl as (o & -> & Ho). rewrite Forall_forall in Hos.
    destruct (Hos o Ho) as (l' & El & Hb). cbn [fst]. rewrite El, str_or_empty_text. by apply blank_empty.
  - assert (id = Py.str_or_empty (Py.get "id" q)) as -> by congruence. exists w. by apply row_answers_text.
Qed.

(** Rows under different ids are found under their own. *)
Definition row_key (a : question_answer) : string := Py.clean (Py.get "question_id" (qa_row a)).

Lemma index_snoc rows row : index_answers (rows ++ [row])%list =
  match row with
  | VDict a => if Py.is_empty (Py.clean (Py.get "question_id" a)) then index_answers rows else (Py.clean (Py.get "question_id" a), a) :: index_answers rows
  | _ => index_answers rows
  end.
Proof. unfold index_answers. by rewrite fold_left_app. Qed.

Lemma row_found answers a :
  Forall (fun a => Py.is_empty (row_key a) = false) answers -> NoDup (map row_key answers) -> a ∈ answers ->
  find_answer (row_key a) (index_answers (map (fun a => VDict (qa_row a)) answers)) = Some (qa_row a).
Proof.
  induction answers as [|x answers IH] using rev_ind; intros Hk Hd Ha; [by apply elem_of_nil in Ha|].
  rewrite map_app. cbn [map]. rewrite index_snoc. apply Forall_app in Hk as [Hk Hx]. apply Forall_cons in Hx as [Hx _].
  fold (row_key x). rewrite Hx. cbn [find_answer].
  rewrite map_app in Hd. cbn [map] in Hd. apply NoDup_app in Hd as (Hd & Hnot & _).
  apply elem_of_app in Ha as [Ha|Ha%list_elem_of_singleton].
  - destruct (String.eqb_spec (row_key a) (row_key x)) as [E|]; [|by apply IH]. exfalso.
    apply (Hnot (row_key a)); [by apply list_elem_of_fmap_2|rewrite E; left].
  - subst. by rewrite String.eqb_refl.
Qed.

(** The rows of a form: question, its public form, answer and words. *)
Inductive answered_rows : list dict -> list question_answer -> list string -> Prop :=
| rows_nil : answered_rows [] [] []
| rows_cons r q a w rs answers words :
    row_shown r q -> row_answers q a w -> answered_rows rs answers words -> answered_rows (r :: rs) (a :: answers) (w :: words).

Lemma row_key_id r q a w : row_shown r q -> row_answers q a w -> row_key a = Py.clean (Py.get "id" r) /\ Py.is_empty (row_key a) = false.
Proof.
  intros [(id & Eid & Hid) Es _ _] [_ Hq _ _ _ _]. unfold row_key. rewrite Hq, Es, Eid, str_or_empty_text, !clean_str. done.
Qed.

Lemma rows_keys rs answers words : answered_rows rs answers words ->
  map row_key answers = map (fun r => Py.clean (Py.get "id" r)) rs /\ Forall (fun a => Py.is_empty (row_key a) = false) answers /\
  mapM_res answer_words answers = Ok words.
Proof.
  induction 1 as [|r q a w rs answers words Hr Ha _ (IH1 & IH2 & IH3)]; [by split_and!|]. destruct (row_key_id _ _ _ _ Hr Ha) as [E1 E2].
  split_and!; [cbn; by rewrite E1, IH1|by constructor|]. cbn [mapM_res]. rewrite (ra_words _ _ _ Ha). cbn [mbind res_bind]. by rewrite IH3.
Qed.

Lemma rows_accepted index rs answers words k :
  answered_rows rs answers words -> (forall a, a ∈ answers -> find_answer (row_key a) index = Some (qa_row a)) ->
  exists rows, answer_questions index k (map VDict rs) = Ok rows /\ map ar_response_text rows = words.
Proof.
  intros H. revert k. induction H as [|r q a w rs answers words Hr Ha _ IH]; intros k Hf; [by exists []|].
  destruct (IH (S k)) as (rows & Hrows & Hw); [intros x Hx; apply Hf; by right|]. destruct (row_key_id _ _ _ _ Hr Ha) as [E1 E2].
  cbn [map answer_questions]. unfold answer_question. rewrite <-E1, Hf by left. destruct Ha as [_ _ Ht Hs _ Hfree]. rewrite Ht, Hs.
  replace (Py.is_str _ && negb _) with false.
  - cbn [andb mbind res_bind]. rewrite Hrows. eexists. split; [reflexivity|]. cbn. by rewrite Hw.
  - symmetry. destruct (Py.is_str _); [|done]. rewrite <-(rw_free _ _ Hr), Hfree by done. done.
Qed.

Lemma rows_of rs qs answers :
  Forall2 row_shown rs qs -> Forall2 (fun q a => exists w, row_answers q a w) qs answers -> exists words, answered_rows rs answers words.
Proof.
  intros H. revert answers. induction H as [|r q rs qs Hr _ IH]; intros answers Ha; inversion Ha as [|? a ? answers' [w Hw] Ha']; subst.
  - exists []. constructor.
  - destruct (IH _ Ha') as [words Hwords]. exists (w :: words). by econstructor.
Qed.

Lemma form_told c view answers qs :
  validate_interaction_contract (VDict c) = Ok PRESENTATION_FORM -> Py.get "presentation" c = VStr PRESENTATION_FORM -> ids_apart c ->
  shows PRESENTATION_FORM c view -> questions_of view = Ok qs -> length answers = length qs ->
  (forall i a, answers !! i = Some a -> given view (Z.of_nat i) a) ->
  exists rows, validated_question_answer_rows c [("answers", VList (map (fun a => VDict (qa_row a)) answers))] = Ok rows /\
    mapM_res answer_words answers = Ok (map ar_response_text rows).
Proof.
  intros H Hp Hid Hv Hqs Hlen Hg. destruct (form_view _ _ H Hv) as (rs & qs' & Erows & Hqs' & Hrs & Hne).
  assert (qs' = qs) as -> by congruence. pose proof (shows_presentation _ _ _ Hp Hv) as Hpv.
  assert (Hrows : Forall2 (fun q a => exists w, row_answers q a w) qs answers).
  { apply Forall2_same_length_lookup_2; [done|]. intros i q a Hq Ha. destruct (Forall2_lookup_r _ _ _ _ _ Hrs Hq) as (r & _ & Hr).
    by eapply given_row; [..|apply Hg]. }
  destruct (rows_of _ _ _ Hrs Hrows) as [words Hw]. destruct (rows_keys _ _ _ Hw) as (Ek & Hk & Hwords).
  assert (Hd : NoDup (map row_key answers)).
  { rewrite Ek. specialize (Hid "questions" _ ltac:(left) Erows). by rewrite dicts_of_map in Hid. }
  destruct (rows_accepted (index_answers (map (fun a => VDict (qa_row a)) answers)) _ _ _ 0 Hw) as (rows & Hr & Et).
  { intros a Ha. by apply row_found. }
  exists rows. split; [|by rewrite Et]. unfold validated_question_answer_rows. rewrite Erows.
  change (Py.get "answers" _) with (VList (map (fun a => VDict (qa_row a)) answers)).
  destruct answers as [|a answers]; [by destruct rs, qs; inversion Hrs|]. destruct rs as [|r rs]; [done|]. exact Hr.
Qed.

(** *** Decisions and approvals *)

Lemma find_unique {A} (f : A -> string) l x : NoDup (map f l) -> x ∈ l -> List.find (fun y => f y =s f x) l = Some x.
Proof.
  induction l as [|y l IH]; [by intros _ ?%elem_of_nil|]. cbn [map]. intros [Hn Hd]%NoDup_cons Hx. cbn [List.find].
  destruct (String.eqb_spec (f y) (f x)) as [E|E]; apply elem_of_cons in Hx as [->|Hx]; try done; [|by apply IH].
  exfalso. apply Hn. rewrite E. by apply list_elem_of_fmap_2.
Qed.

(** Chosen among the labels shown. *)
Lemma given_choice view a a0 :
  Py.str_or_empty (Py.get "presentation" view) <> PRESENTATION_FORM -> asked_question view 0 = Ok a0 -> as_free_text a0 = false ->
  given view 0 a -> exists l, qa_choice a = Some l /\ l ∈ map fst (as_labels a0).
Proof.
  intros Hp Ha Hf Hg. destruct (given_inv _ _ _ Hg) as (total & a1 & _ & _ & Ha1 & Hcase). assert (a1 = a0) as -> by congruence.
  destruct Hcase as [(shown & labels & Eps & Hne & Hall & _ & Hn)|(w & id & _ & Hf' & _)]; [|congruence].
  unfold names in Hn. rewrite Eps in Hn. apply String.eqb_neq in Hp. rewrite Hp in Hn. cbn [negb] in Hn. subst a.
  destruct labels as [|l ls]; [done|]. apply Forall_cons in Hall as [Hl _]. by exists l.
Qed.

Lemma decision_told c view a :
  validate_interaction_contract (VDict c) = Ok PRESENTATION_DECISION -> Py.get "presentation" c = VStr PRESENTATION_DECISION -> ids_apart c ->
  shows PRESENTATION_DECISION c view -> given view 0 a ->
  exists r w o, engine_answer view [a] = Ok r /\ Py.lookup "decline" r = None /\ selected_decision_option c r = Ok o /\
    Py.get "id" o = VStr w /\ answer_words a = Ok w.
Proof.
  intros H Hp Hid Hv Hg. pose proof (shows_presentation _ _ _ Hp Hv) as Hpv. destruct Hv as (stored & body & _ & Hb & Ev).
  change (PRESENTATION_DECISION =s PRESENTATION_FORM) with false in Hb. change (PRESENTATION_DECISION =s PRESENTATION_DECISION) with true in Hb. cbn iota in Hb.
  destruct (contract_body _ _ H) as [[? _]|[[_ Hd]|?]]; [done| |done].
  destruct (valid_decision_options _ Hd) as (o1 & os1 & Eo & Hall).
  assert (Hds : exists ds, o1 :: os1 = map VDict ds /\ Forall (fun d => Py.nonblank_str (Py.get "id" d) = true) ds).
  { clear -Hall. induction Hall as [|x l (d & -> & Hx) _ (ds & -> & IH)]; [by exists []|]. exists (d :: ds). by split; [|constructor]. }
  destruct Hds as (ds & Eds & Hnb). rewrite Eds in Eo. clear Eds Hall o1 os1.
  unfold public_decision in Hb. rewrite Eo, iter_list in Hb. cbn [mbind res_bind] in Hb. rewrite dicts_of_map in Hb. apply Ok_inj in Hb.
  set (shown_options := map (project PUBLIC_DECISION_OPTION_KEYS) ds).
  assert (Evo : Py.get "options" view = VList (map VDict shown_options)).
  { rewrite Ev, view_get by (right; left). rewrite <-Hb. unfold Py.get. rewrite lookup_app, lookup_project. cbn [Py.in_strs existsb].
    change ("options" =s "body") with false. cbn [orb Py.lookup]. change ("options" =s "options") with true. cbn [default].
    unfold shown_options. by rewrite map_map. }
  assert (Ep : Py.str_or_empty (Py.get "presentation" view) = PRESENTATION_DECISION) by (by rewrite Hpv).
  assert (Hasked : asked_question view 0 = Ok (Asked (Py.clean (Py.get "prompt" view)) (Py.clean (Py.get "body" view))
          (map (fun o => (Py.str_or_empty (Py.get "id" o), "")) shown_options) false false)).
  { unfold asked_question. rewrite Ep. change (PRESENTATION_DECISION =s PRESENTATION_FORM) with false.
    change (PRESENTATION_DECISION =s PRESENTATION_DECISION) with true. cbn iota. rewrite Evo, iter_list. cbn [mbind res_bind]. by rewrite dicts_of_map. }
  destruct (given_choice view a _ ltac:(by rewrite Ep) Hasked eq_refl Hg) as (l & Hl & Hin). cbn [as_labels] in Hin.
  rewrite map_map in Hin. apply list_elem_of_fmap in Hin as (o' & El & (d & -> & Hd')%list_elem_of_fmap). cbn [fst] in El.
  rewrite get_project in El by done. rewrite Forall_forall in Hnb. destruct (nonblank_inv _ (Hnb d Hd')) as (w & Ew & Hw).
  rewrite Ew, str_or_empty_text in El. subst l.
  destruct (List.find (fun o => Py.str_or_empty (Py.get "id" o) =s w) shown_options) as [o''|] eqn:Ef; cycle 1.
  { exfalso. pose proof (find_none _ _ Ef (project PUBLIC_DECISION_OPTION_KEYS d)) as Hf. cbv beta in Hf. rewrite get_project, Ew, str_or_empty_text in Hf by done.
    rewrite String.eqb_refl in Hf. specialize (Hf ltac:(by apply list_elem_of_In, list_elem_of_fmap_2)). done. }
  eexists _, w, d. split_and!.
  - unfold engine_answer. rewrite Ep. change (PRESENTATION_DECISION =s PRESENTATION_FORM) with false.
    change (PRESENTATION_DECISION =s PRESENTATION_TOOL_APPROVAL) with false. cbn iota. cbn [last]. rewrite Hl, Evo, iter_list.
    cbn [mbind res_bind]. change (default "" (Some w)) with w. rewrite dicts_of_map, Ef. reflexivity.
  - cbn [Py.lookup]. change ("decline" =s "decision") with false. by destruct (_ && _).
  - unfold selected_decision_option. change (Py.get "decision" _) with (VStr w). rewrite Eo, iter_list. cbn [mbind res_bind]. rewrite dicts_of_map.
    rewrite <-Ew. rewrite (find_unique (fun o => Py.clean (Py.get "id" o)) ds d); [done| |done].
    specialize (Hid "options" _ ltac:(by right; left) Eo). by rewrite dicts_of_map in Hid.
  - done.
  - unfold answer_words. by rewrite Hl.
Qed.

Lemma approval_told view a :
  Py.get "presentation" view = VStr PRESENTATION_TOOL_APPROVAL -> given view 0 a ->
  exists r d w, engine_answer view [a] = Ok r /\ Py.lookup "decline" r = None /\ validated_tool_approval_decision r = Ok d /\
    w = (if d =s "approve" then "Approve" else "Reject") /\ answer_words a = Ok w.
Proof.
  intros Hpv Hg. assert (Ep : Py.str_or_empty (Py.get "presentation" view) = PRESENTATION_TOOL_APPROVAL) by (by rewrite Hpv).
  assert (Hasked : asked_question view 0 = Ok (Asked (Py.clean (Py.get "prompt" view)) (tool_input_summary (Py.get "raw_input" view))
          (map (fun l => (l, "")) APPROVAL_LABELS) false false)) by (unfold asked_question; by rewrite Ep).
  destruct (given_choice view a _ ltac:(by rewrite Ep) Hasked eq_refl Hg) as (l & Hl & Hin). cbn in Hin.
  unfold engine_answer. rewrite Ep. change (PRESENTATION_TOOL_APPROVAL =s PRESENTATION_FORM) with false.
  change (PRESENTATION_TOOL_APPROVAL =s PRESENTATION_TOOL_APPROVAL) with true. cbn iota. cbn [last]. rewrite Hl.
  change (default "" (Some l)) with l. unfold answer_words. rewrite Hl.
  apply elem_of_cons in Hin as [-> | ->%list_elem_of_singleton]; eexists _, _, _; (split_and!; [reflexivity|done|reflexivity|done|done]).
Qed.

Lemma told_accepted c r p : interaction_presentation c = Ok p -> Py.lookup "decline" r = None ->
  (exists words, told_words c r = Ok words) -> validate_interaction_response c r = Ok tt.
Proof.
  intros Hp Hdec [words H]. unfold told_words in H. unfold validate_interaction_response. rewrite Hp in *. cbn [mbind res_bind] in *.
  unfold Py.get in *. rewrite Hdec. cbn [default Py.is_true]. destruct (p =s PRESENTATION_FORM).
  - by apply bind_ok in H as (rows & -> & _).
  - destruct (p =s PRESENTATION_DECISION); by apply bind_ok in H as (o & -> & _).
Qed.

Lemma count_of view p qs :
  Py.get "presentation" view = VStr p -> (p = PRESENTATION_FORM -> questions_of view = Ok qs) ->
  question_count view = Ok (if p =s PRESENTATION_FORM then Z.of_nat (length qs) else 1%Z).
Proof.
  intros Hp Hq. unfold question_count. rewrite Hp. cbn [Py.eqb]. destruct (String.eqb_spec p PRESENTATION_FORM) as [E|]; [|done].
  by rewrite Hq.
Qed.

Lemma records_told c d r p : validate_interaction_contract (VDict c) = Ok p -> records c d ->
  interaction_presentation d = Ok p /\ validated_question_answer_rows d r = validated_question_answer_rows c r /\
  selected_decision_option d r = selected_decision_option c r.
Proof.
  intros H Hr. destruct (contract_presentation _ _ H) as [Hp _]. unfold interaction_presentation, validated_question_answer_rows, selected_decision_option in *.
  by rewrite !(records_get c d _ Hr).
Qed.

Lemma answers_told c d p view answers :
  validate_interaction_contract (VDict c) = Ok p -> Py.get "presentation" c = VStr p -> ids_apart c -> records c d ->
  shows p c view -> question_count view = Ok (Z.of_nat (length answers)) -> (forall i a, answers !! i = Some a -> given view (Z.of_nat i) a) ->
  exists r words, engine_answer view answers = Ok r /\ validate_interaction_response d r = Ok tt /\
    told_words d r = Ok words /\ mapM_res answer_words answers = Ok words.
Proof.
  intros H Hp Hid Hrec Hv Hcount Hg. destruct (records_told c d [] p H Hrec) as (Hpres & _ & _).
  assert (Hrows : forall r, validated_question_answer_rows d r = validated_question_answer_rows c r) by (intros r; apply (records_told c d r p H Hrec)).
  assert (Hsel : forall r, selected_decision_option d r = selected_decision_option c r) by (intros r; apply (records_told c d r p H Hrec)).
  pose proof (shows_presentation _ _ _ Hp Hv) as Hpv.
  assert (Htold : forall r words, Py.lookup "decline" r = None -> engine_answer view answers = Ok r -> told_words d r = Ok words ->
    mapM_res answer_words answers = Ok words -> exists r words, engine_answer view answers = Ok r /\ validate_interaction_response d r = Ok tt /\
    told_words d r = Ok words /\ mapM_res answer_words answers = Ok words).
  { intros r words Hdec He Ht Hw. exists r, words. split_and!; try done. eapply told_accepted; [exact Hpres|exact Hdec|by exists words]. }
  assert (Hone : p <> PRESENTATION_FORM -> exists a, answers = [a] /\ given view 0 a).
  { intros Hne. rewrite (count_of view p [] Hpv) in Hcount by done. apply String.eqb_neq in Hne. rewrite Hne in Hcount.
    destruct answers as [|a [|b answers]]; [done| |cbn in Hcount; injection Hcount; lia]. exists a. split; [done|]. by apply (Hg 0). }
  destruct (contract_body _ _ H) as [[-> _]|[[-> _]| ->]].
  - destruct (form_view _ _ H Hv) as (rs & qs & _ & Hqs & _ & _). rewrite (count_of view _ qs Hpv) in Hcount by done.
    change (PRESENTATION_FORM =s PRESENTATION_FORM) with true in Hcount. injection Hcount as Hcount.
    destruct (form_told c view answers qs H Hp Hid Hv Hqs) as (rows & Hr & Hw); [lia|exact Hg|].
    eapply Htold; [| | |exact Hw]; [|unfold engine_answer; rewrite Hpv; reflexivity|]; [done|]. unfold told_words. rewrite Hpres. cbn [mbind res_bind].
    change (PRESENTATION_FORM =s PRESENTATION_FORM) with true. cbn iota. by rewrite Hrows, Hr.
  - destruct Hone as (a & -> & Ha); [done|]. destruct (decision_told c view a H Hp Hid Hv Ha) as (r & w & o & He & Hdec & Ho & Ew & Hw).
    eapply (Htold r [w]); [done|done| |]; [|cbn [mapM_res]; by rewrite Hw]. unfold told_words. rewrite Hpres. cbn [mbind res_bind].
    change (PRESENTATION_DECISION =s PRESENTATION_FORM) with false. change (PRESENTATION_DECISION =s PRESENTATION_DECISION) with true. cbn iota.
    rewrite Hsel, Ho. cbn [mbind res_bind]. by rewrite Ew.
  - destruct Hone as (a & -> & Ha); [done|]. destruct (approval_told view a Hpv Ha) as (r & decision & w & He & Hdec & Ho & Ew & Hw).
    eapply (Htold r [w]); [done|done| |]; [|cbn [mapM_res]; by rewrite Hw]. unfold told_words. rewrite Hpres. cbn [mbind res_bind].
    change (PRESENTATION_TOOL_APPROVAL =s PRESENTATION_FORM) with false. change (PRESENTATION_TOOL_APPROVAL =s PRESENTATION_DECISION) with false. cbn iota.
    rewrite Ho. cbn [mbind res_bind]. by rewrite Ew.
Qed.

(** Answering a question in a channel is answering it: whatever replies and buttons a
    participant answered the questions of a waiting agent with, once each has an answer the
    platform assembles one the contract's gate accepts, and what the engine is told are the
    words chosen or written, question by question. *)
Theorem channel_answer_told c d p view answers :
  validate_interaction_contract (VDict c) = Ok p -> Py.get "presentation" c = VStr p -> ids_apart c -> records c d ->
  public_interaction_view (VDict d) true = Ok (Some view) -> question_count view = Ok (Z.of_nat (length answers)) ->
  (forall i a, answers !! i = Some a -> given view (Z.of_nat i) a) ->
  exists r words, engine_answer view answers = Ok r /\ validate_interaction_response d r = Ok tt /\
    told_words d r = Ok words /\ mapM_res answer_words answers = Ok words.
Proof. intros H Hp Hid Hr Hv. eapply answers_told; [done|done|done|done|by eapply view_inv]. Qed.
(** ** A form answered in a channel *)

Definition one_option (label : string) : val := VDict [("label", VStr label)].
Definition two_questions : dict :=
  [("tool_name", VStr "AskUserQuestion"); ("presentation", VStr "form"); ("prompt", VStr "Two questions"); ("raw_input", VDict []);
   ("questions", VList
     [VDict [("id", VStr "q1"); ("question", VStr "Which?"); ("multi_select", VBool true); ("allow_free_text", VBool false);
             ("allow_empty_text", VBool false); ("options", VList [one_option "A"; one_option "B"])];
      VDict [("id", VStr "q2"); ("question", VStr "Where?"); ("multi_select", VBool false); ("allow_free_text", VBool true);
             ("allow_empty_text", VBool false); ("options", VList [one_option "here"; one_option "there"])]])].

Definition two_record : dict := ("interaction_id", VStr "x1") :: two_questions.
Definition two_view : dict := match public_interaction_view (VDict two_record) true with Ok (Some v) => v | _ => [] end.
Definition reads (index : Z) (text : string) (quoted : bool) : question_answer :=
  match read_reply two_view index text quoted with Ok (Some (Answer a)) => a | _ => QuestionAnswer [] None end.

(** The first question is answered by numbers, the second in the participant's own words. *)
Definition two_answers : list question_answer := [reads 0 " 2, 1" false; reads 1 "over there" true].

Lemma two_ids_apart : ids_apart two_questions.
Proof.
  intros key l [-> | ->%list_elem_of_singleton]%elem_of_cons H; vm_compute in H; [|done]. injection H as <-. apply (bool_decide_unpack _). vm_compute. exact I.
Qed.

Lemma two_stored : records two_questions two_record.
Proof. intros k Hk. unfold two_record. cbn [Py.lookup]. destruct (String.eqb_spec k "interaction_id") as [->|]; [|done]. exfalso. apply Hk. left. Qed.

Lemma channel_answer_told_witness :
  mapM_res answer_words two_answers = Ok ["B, A"; "over there"] /\
  exists r words, engine_answer two_view two_answers = Ok r /\ validate_interaction_response two_record r = Ok tt /\
    told_words two_record r = Ok words /\ mapM_res answer_words two_answers = Ok words.
Proof.
  split; [vm_compute; reflexivity|].
  apply (channel_answer_told two_questions two_record PRESENTATION_FORM two_view two_answers).
  - vm_compute. reflexivity.
  - reflexivity.
  - exact two_ids_apart.
  - exact two_stored.
  - vm_compute. reflexivity.
  - vm_compute. reflexivity.
  - intros [|[|i]] a H; cbn in H; [| |done]; injection H as <-; left.
    + exists " 2, 1", false. vm_compute. reflexivity.
    + exists "over there", true. vm_compute. reflexivity.
Defined.

(** A button of the second question. *)
Definition two_shown : shown_question :=
  match channel_interaction two_view 1 (interaction_ref "d1" "s1" "x1") true with
  | Ok s => s | _ => ShownQuestion "" "" "" "" [] false false (0, 0)%Z "" end.
Definition there : choice := default (Choice 0 "" "" "") (sq_choices two_shown !! 1%nat).

Lemma choice_answers_witness :
  ch_label there = "there" /\
  exists a, names two_shown ["there"] two_view 1 a /\
    exists t, parse_action (ch_action there) = Some t /\ answer_action two_view t = Ok (Answer a).
Proof.
  split; [vm_compute; reflexivity|].
  destruct (choice_answers two_view 1 "d1" "s1" "x1" two_shown there) as (a & Hn & _ & Hb).
  - vm_compute. reflexivity.
  - eapply (list_elem_of_lookup_2 _ 1%nat). vm_compute. reflexivity.
  - vm_compute. done.
  - exists a. split; [exact Hn|]. apply Hb. vm_compute. reflexivity.
Defined.

(** Ids that differ only by blanks, which a contract may declare, are one id to the gate: the
    answer to the last of them stands for all. *)
Definition blank_ids : dict :=
  [("tool_name", VStr "AskUserQuestion"); ("presentation", VStr "form"); ("prompt", VStr "Two"); ("raw_input", VDict []);
   ("questions", VList
     [VDict [("id", VStr "q"); ("header", VStr "first"); ("allow_free_text", VBool false); ("allow_empty_text", VBool false); ("options", VList [one_option "A"])];
      VDict [("id", VStr "q "); ("header", VStr "second"); ("allow_free_text", VBool false); ("allow_empty_text", VBool false); ("options", VList [one_option "B"])]])].
Definition blank_response : dict :=
  [("answers", VList [VDict [("question_id", VStr "q"); ("option_label", VStr "A")]; VDict [("question_id", VStr "q "); ("option_label", VStr "B")]])].

Example blank_ids_collide :
  validate_interaction_contract (VDict blank_ids) = Ok PRESENTATION_FORM /\
  validate_interaction_response blank_ids blank_response = Ok tt /\ told_words blank_ids blank_response = Ok ["B"; "B"].
Proof. vm_compute. done. Qed.
End QuestionFacts.
