(* ===== verification/ChannelAnswers.v ===== *)
(** [_settle_pending_interaction] of [channel_ingress_service.py] and what it calls: how a
    platform message becomes the answer to the question a conversation shows, one await after
    another, and [answer] of [session_runtime/service.py], which hands it to the session.  What
    providers and other services answer is the argument [beyond]. *)

From S2P Require Import Prelude PyVal Schema Interaction SessionRepo SessionRecord ChannelOutbox ChannelInbound ChannelDrive ChannelQuestions.

Open Scope string_scope.

Module Answers.
Import Repo Rec Interaction Outbox Inbound Drive Questions.

(** A question's row with the answers kept for it. *)
Abbreviation record := (question_row * list answer_row)%type.

(** What comes from outside at one await: whether the author owns the session, the runtime
    takes a permission mode, and an interrupt is accepted; and the names the platform gave a
    message sent to it. *)
Record beyond := Beyond {
  by_owner : option exn;
  by_mode : option exn;
  by_interrupted : res bool;
  by_delivered : res (list string)
}.

(** The await a message is at. *)
Inductive stage :=
| AskPending
| AskResumed (pending : option dict)
| Press (pending : option dict) (target : action_target)
| CloseGone (deployment_id ref : string)
| AskClosed (pending : option dict)
| AskClosedRecord (pending : option dict) (ref : string) (index : Z)
| FindOpen (pending : dict)
| AskQuoted (pending : dict) (r : record)
| MarkAnswer (pending : dict) (r : record) (a : question_answer) (confirm : bool)
| KeepAnswer (pending : dict) (r : record) (kept : answer_row)
| StageAnswer (pending : dict) (r : record) (kept : answer_row) (confirm : bool)
| ShowNext (pending : dict) (q : question_row) (index : Z)
| NameShown (q : question_row) (aliases : list string) (index : Z)
| ReadStaged (pending : dict) (deployment_id ref : string) (confirm : bool)
| AnswerEngine (pending : option dict) (r : record) (confirm redrive : bool)
| StoreAnswer (pending : option dict) (r : record) (confirm redrive : bool) (contract answer : dict)
| SetMode (pending : option dict) (r : record) (confirm redrive : bool)
| CloseUnanswered (deployment_id ref : string)
| SettleAnswered (pending : option dict) (r : record) (confirm : bool)
| Supersede (interaction_id : string) (r : option record)
| CloseSuperseded (deployment_id ref : string)
| Tell (text : string)
| Handled (answered : bool).

Definition NO_LONGER_OPEN : string := "This question is no longer open.".
Definition NO_LONGER_OPEN_SEND : string := "This question is no longer open. Send a new message to continue.".
Definition ALREADY_ANSWERED : string := "That question was already answered.".
Definition ANSWER_GONE_CODES : list string := ["INTERACTION_NOT_FOUND"; "INTERACTION_NOT_OPEN"].

(** [_pending_interaction]. *)
Definition pending_interaction (session_id : string) (d : db) : res (option dict) :=
  match List.find (fun r => bool_decide (ia_answer r = None)) (av_open_interactions (activity session_id d)) with
  | Some r => public_interaction_view (VDict (ia_contract r)) true
  | None => Ok None
  end.

(** The pending question is the one of the row. *)
Definition asks (pending : option dict) (q : question_row) : bool :=
  match pending with Some p => Py.str_or_empty (Py.get "interaction_id" p) =s qn_interaction_id q | None => false end.

(** An answer as it is kept, and the kept answers as they are read back. *)
Definition kept_answer (w : worker) (q : question_row) (a : question_answer) : answer_row :=
  AnswerRow (qn_deployment_id q) (qn_ref q) (qn_question_index q) (qa_row a) (qa_choice a) (as_text (Py.get "participant" (wk_payload w))).
Definition answers_kept (r : record) : list question_answer := map (fun a => QuestionAnswer (an_answer_row a) (an_choice a)) (snd r).

Definition answer_mark (w : worker) : option (string * Z) :=
  match im_answer (ib_marks (wk_item w)) with Some (ref, index) => if Py.is_empty ref then None else Some (ref, index) | None => None end.
Definition pressed (w : worker) : bool := Py.truthy (Py.get "action" (wk_payload w)).

(** After the closed questions: a message goes on when nothing is pending. *)
Definition after_closed (pending : option dict) : stage :=
  match pending with None => Handled false | Some p => FindOpen p end.

(** After an answer begun before: a button, or a reply. *)
Definition after_resumed (w : worker) (pending : option dict) : res stage :=
  if pressed w then
    match parse_action (Py.str (Py.get "action" (wk_payload w))) with
    | None => Raise RuntimeError
    | Some target => Ok (Press pending target)
    end
  else Ok (if Py.is_empty (said "reference" w) then after_closed pending else AskClosed pending).

(** [_resume_answer] and what follows it. *)
Definition resumed (w : worker) (pending : option dict) (marked : Z) (r : record) : res stage :=
  let q := fst r in
  if bool_decide (qn_answering_item q = Some (wk_id w)) then Ok (AnswerEngine pending r (pressed w) true)
  else
    let open_now := bool_decide (qn_state q = OPEN) && asks pending q in
    let current := qn_question_index q in
    if (current <=? marked)%Z then
      if open_now then after_resumed w pending else Ok (Tell NO_LONGER_OPEN_SEND)
    else match pending with
         | Some p => if open_now then
                       count ← question_count p;
                       Ok (if (current <? count)%Z then ShowNext p q current else Handled true)
                     else Ok (Handled true)
         | None => Ok (Handled true)
         end.

(** [_take_answer] of an outcome. *)
Definition take_outcome (pending : dict) (r : record) (o : outcome) (confirm : bool) : stage :=
  match o with Refusal message => Tell message | Answer a => MarkAnswer pending r a confirm end.

(** A pressed button, and [_question_is_open]. *)
Definition press (session_id : string) (pending : option dict) (target : action_target) (r : record) : res stage :=
  let q := fst r in
  if bool_decide (qn_state q = ANSWERED) then Ok (Tell "This question was already answered.")
  else if negb (qn_session_id q =s session_id) then Ok (Tell NO_LONGER_OPEN)
  else match pending with
       | Some p =>
           if bool_decide (qn_state q = OPEN) && asks pending q then
             if negb (at_question_index target =? qn_question_index q)%Z then Ok (Tell ALREADY_ANSWERED)
             else o ← answer_action p target; Ok (take_outcome p r o true)
           else Ok (CloseGone (qn_deployment_id q) (qn_ref q))
       | None => Ok (CloseGone (qn_deployment_id q) (qn_ref q))
       end.

(** A reply to the question shown last; anything else replaces the question. *)
Definition reply (w : worker) (pending : dict) (r : record) (quoted : bool) : res stage :=
  o ← read_reply pending (qn_question_index (fst r)) (said "reply_text" w) quoted;
  Ok (match o with
      | Some o => take_outcome pending r o false
      | None => Supersede (Py.str_or_empty (Py.get "interaction_id" pending)) (Some r)
      end).

(** The session's answer was not stored: the question is gone. *)
Definition gone (pending : option dict) (r : record) (confirm redrive : bool) (e : exn) : res stage :=
  match e with
  | APIError code _ =>
      if Py.in_strs code ANSWER_GONE_CODES then
        Ok (if redrive then SettleAnswered pending r confirm else CloseUnanswered (qn_deployment_id (fst r)) (qn_ref (fst r)))
      else Raise e
  | _ => Raise e
  end.

(** [SessionRuntimeService.answer], up to its write. *)
Definition session_answer (o : beyond) (session_id interaction_id : string) (answer : dict) (d : db) : res dict :=
  match by_owner o with
  | Some e => Raise e
  | None =>
      match get_interaction session_id interaction_id d with
      | None => Raise (APIError "INTERACTION_NOT_FOUND" 404)
      | Some i =>
          if open_interaction i && bool_decide (ia_answer i = None) then
            _ ← validate_interaction_response (ia_contract i) answer;
            Ok (ia_contract i)
          else Raise (APIError "INTERACTION_NOT_OPEN" 409)
      end
  end.

Definition put_channels (c : channels) (s : site) : site := put_ingress (with_channels c (st_ingress s)) s.

Definition answer_step (o : beyond) (now : Z) (w : worker) (session_id : string) (at_ : stage) (s : site) : res stage * site :=
  let c := ig_channels (st_ingress s) in
  let deployment := wk_deployment w in
  let stays r := (r, s) in
  match at_ with
  | AskPending =>
      stays (pending ← pending_interaction session_id (st_db s);
             match answer_mark w with Some _ => Ok (AskResumed pending) | None => after_resumed w pending end)
  | AskResumed pending =>
      match answer_mark w with
      | None => stays (after_resumed w pending)
      | Some (ref, marked) =>
          match get_channel_interaction deployment ref c with
          | None => stays (after_resumed w pending)
          | Some r => stays (resumed w pending marked r)
          end
      end
  | Press pending target =>
      match get_channel_interaction deployment (at_ref target) c with
      | None => stays (Ok (Handled true))
      | Some r => stays (press session_id pending target r)
      end
  | CloseGone deployment ref =>
      let '(_, c') := settle_channel_interaction deployment ref CLOSED c in (Ok (Tell NO_LONGER_OPEN), put_channels c' s)
  | AskClosed pending =>
      match resolve_alias deployment (said "reference" w) c with
      | Some a => match nonempty (al_interaction_ref a) with
                  | Some ref => stays (Ok (AskClosedRecord pending ref (default 0%Z (al_question_index a))))
                  | None => stays (Ok (after_closed pending))
                  end
      | None => stays (Ok (after_closed pending))
      end
  | AskClosedRecord pending ref index =>
      match get_channel_interaction deployment ref c with
      | None => stays (Ok (after_closed pending))
      | Some (q, _) =>
          if bool_decide (qn_state q = OPEN) && asks pending q then stays (Ok (after_closed pending))
          else stays (o ← read_reply (qn_view q) index (said "reply_text" w) false;
                      Ok (match o with None => after_closed pending | Some _ => Tell NO_LONGER_OPEN_SEND end))
      end
  | FindOpen pending =>
      let interaction_id := Py.str_or_empty (Py.get "interaction_id" pending) in
      match get_channel_interaction deployment (interaction_ref deployment session_id interaction_id) c with
      | Some r =>
          if bool_decide (qn_state (fst r) = OPEN) then
            stays (if Py.is_empty (said "reference" w) then reply w pending r false else Ok (AskQuoted pending r))
          else stays (Ok (Supersede interaction_id (Some r)))
      | None => stays (Ok (Supersede interaction_id None))
      end
  | AskQuoted pending r =>
      match resolve_alias deployment (said "reference" w) c with
      | Some a =>
          if opt_is (qn_ref (fst r)) (al_interaction_ref a) then
            if negb (default 0%Z (al_question_index a) =? qn_question_index (fst r))%Z
            then stays (Ok (Tell "That question was already answered; reply to the latest one."))
            else stays (reply w pending r true)
          else stays (reply w pending r false)
      | None => stays (reply w pending r false)
      end
  | MarkAnswer pending r a confirm =>
      let q := fst r in
      let '(marked, i) := mark_inbound_answer (wk_id w) (wk_owner w) (wk_generation w) (qn_ref q) (qn_question_index q) (st_ingress s) in
      let kept := kept_answer w q a in
      ((if marked then
          count ← question_count pending;
          Ok (if (qn_question_index q + 1 <? count)%Z then KeepAnswer pending r kept else StageAnswer pending r kept confirm)
        else Ok (Handled true)), put_ingress i s)
  | KeepAnswer pending r kept =>
      let '(answer, c') := record_channel_answer kept c in
      ((recorded ← answer; Ok (if recorded : bool then ShowNext pending (fst r) (qn_question_index (fst r) + 1) else Tell ALREADY_ANSWERED)),
       put_channels c' s)
  | StageAnswer pending r kept confirm =>
      let '(answer, c') := stage_channel_answer (wk_id w) kept c in
      ((staged ← answer;
        Ok (if staged : bool then ReadStaged pending (qn_deployment_id (fst r)) (qn_ref (fst r)) confirm else Tell ALREADY_ANSWERED)),
       put_channels c' s)
  | ShowNext pending q index =>
      stays (_ ← channel_interaction pending index (qn_ref q) true;
             aliases ← by_delivered o;
             Ok (match aliases with [] => Handled true | _ => NameShown q aliases index end))
  | NameShown q aliases index =>
      (Ok (Handled true),
       put_channels (record_question_aliases (qn_deployment_id q) aliases (qn_conversation_key q) (qn_session_id q) (qn_ref q) index c) s)
  | ReadStaged pending deployment ref confirm =>
      match get_channel_interaction deployment ref c with
      | None => stays (Raise RuntimeError)
      | Some r => stays (Ok (AnswerEngine (Some pending) r confirm false))
      end
  | AnswerEngine pending r confirm redrive =>
      match pending with
      | Some p =>
          if asks pending (fst r) then
            match engine_answer p (answers_kept r) with
            | Raise e => stays (Raise e)
            | Ok answer =>
                match session_answer o (qn_session_id (fst r)) (qn_interaction_id (fst r)) answer (st_db s) with
                | Ok contract => stays (Ok (StoreAnswer pending r confirm redrive contract answer))
                | Raise e => stays (gone pending r confirm redrive e)
                end
            end
          else stays (Ok (SettleAnswered pending r confirm))
      | None => stays (Ok (SettleAnswered pending r confirm))
      end
  | StoreAnswer pending r confirm redrive contract answer =>
      let '(stored, d) := request_answer (qn_session_id (fst r)) (qn_interaction_id (fst r)) answer (said "creator_user_id" w) now (st_db s) in
      ((stored ← stored;
        if stored : bool then
          mode ← resolve_interaction_permission_mode (Some contract) (Some answer);
          Ok (match mode with Some _ => SetMode pending r confirm redrive | None => SettleAnswered pending r confirm end)
        else gone pending r confirm redrive (APIError "INTERACTION_NOT_OPEN" 409)), put_db d s)
  | SetMode pending r confirm redrive =>
      stays (match by_mode o with None => Ok (SettleAnswered pending r confirm) | Some e => gone pending r confirm redrive e end)
  | CloseUnanswered deployment ref =>
      let '(_, c') := settle_channel_interaction deployment ref CLOSED c in (Ok (Tell NO_LONGER_OPEN_SEND), put_channels c' s)
  | SettleAnswered pending r confirm =>
      let '(_, c') := settle_channel_interaction (qn_deployment_id (fst r)) (qn_ref (fst r)) ANSWERED c in
      ((match pending with
        | Some _ => if confirm then text ← answered_summary (answers_kept r); Ok (Tell text) else Ok (Handled true)
        | None => Ok (Handled true)
        end), put_channels c' s)
  | Supersede interaction_id r =>
      stays (if Py.is_empty interaction_id then Raise RuntimeError
             else
               accepted ← by_interrupted o;
               if accepted : bool then
                 Ok (match r with Some (q, _) => CloseSuperseded (qn_deployment_id q) (qn_ref q) | None => Handled false end)
               else Raise RuntimeError)
  | CloseSuperseded deployment ref =>
      let '(_, c') := settle_channel_interaction deployment ref CLOSED c in (Ok (Handled false), put_channels c' s)
  | Tell text =>
      stays (if replies w then _ ← by_delivered o; Ok (Handled true) else Ok (Handled true))
  | Handled answered => stays (Ok (Handled answered))
  end.
End Answers.
