(* ===== verification/AnswerFacts.v ===== *)
(** Answers given in channels, from any number of messages at once: each question of a waiting
    agent is answered once and in its place, and what is handed to the session is accepted and
    says what the participants answered. *)

From stdpp Require Import sorting.
From S2P Require Import Prelude PyVal Schema Interaction SessionRepo SessionRecord RepoHistory ChannelOutbox ChannelInbound ChannelDrive ChannelQuestions QuestionFacts ChannelAnswers.

Open Scope string_scope.

Module AnswerFacts.
Import Repo Rec History Interaction Outbox Inbound Drive Questions QuestionFacts Answers.

(** ** The interactions answered *)

(** What a runtime stores of a question: a contract the gate accepts, under the names of the
    interaction, the ids of its questions and options apart. *)
Definition sound_interaction (i : interaction_row) : Prop :=
  Py.get "interaction_id" (ia_contract i) = VStr (ia_interaction_id i) /\
  exists c p, validate_interaction_contract (VDict c) = Ok p /\ Py.get "presentation" c = VStr p /\ ids_apart c /\ records c (ia_contract i).

Definition interaction_key (i : interaction_row) : string * string := (ia_session_id i, ia_interaction_id i).
Definition contracts_sound (d : db) : Prop :=
  NoDup (map interaction_key (db_interactions d)) /\ Forall sound_interaction (db_interactions d).

Definition view_of_interaction (i : interaction_row) : option dict :=
  match public_interaction_view (VDict (ia_contract i)) true with Ok v => v | Raise _ => None end.

(** The view of the interaction a question shows. *)
Definition view_of (d : db) (q : question_row) : option dict :=
  i ← get_interaction (qn_session_id q) (qn_interaction_id q) d; view_of_interaction i.

(** [p] is the view of an interaction of the session. *)
Definition shown_in (d : db) (session_id : string) (p : dict) : Prop :=
  exists i, i ∈ db_interactions d /\ ia_session_id i = session_id /\ view_of_interaction i = Some p.

Lemma find_grows (f : interaction_row -> bool) t t' i :
  (forall r r', interaction_step r r' -> f r' = f r) -> grows interaction_step t t' -> List.find f t = Some i ->
  exists i', List.find f t' = Some i' /\ interaction_step i i'.
Proof.
  intros Hf (old & new & -> & H). induction H as [|r r' t old Hr _ IH]; [done|]. cbn. rewrite (Hf r r' Hr).
  destruct (f r); [intros [= <-]; by exists r'|exact IH].
Qed.

Lemma is_interaction_step sid iid r r' : interaction_step r r' -> is_interaction sid iid r' = is_interaction sid iid r.
Proof. intros [(E1 & E2 & _) _ _]. unfold is_interaction. by rewrite E1, E2. Qed.

Lemma view_of_step i i' : interaction_step i i' -> view_of_interaction i' = view_of_interaction i.
Proof. intros [(_ & _ & _ & E) _ _]. unfold view_of_interaction. by rewrite E. Qed.

Lemma view_of_evolves d d' q p : evolves d d' -> view_of d q = Some p -> view_of d' q = Some p.
Proof.
  intros He. unfold view_of, get_interaction. intros H. apply bind_Some in H as (i & Hi & Hv).
  destruct (find_grows _ _ _ i (is_interaction_step _ _) (ev_interactions _ _ He) Hi) as (i' & -> & Hs).
  cbn. by rewrite (view_of_step _ _ Hs).
Qed.

Lemma shown_in_evolves d d' sid p : evolves d d' -> shown_in d sid p -> shown_in d' sid p.
Proof.
  intros He (i & Hin & Hs & Hv). destruct (grows_elem _ _ _ _ (ev_interactions _ _ He) Hin) as (i' & Hin' & Hst).
  exists i'. rewrite (view_of_step _ _ Hst). split_and!; [done| |done]. destruct Hst as [(E & _) _ _]. congruence.
Qed.

(** The question that asks what a view shows is the question of its interaction. *)
Lemma asks_view d sid p q :
  contracts_sound d -> shown_in d sid p -> qn_session_id q = sid -> asks (Some p) q = true -> view_of d q = Some p.
Proof.
  intros [Hnd Hall] (i & Hin & Hs & Hv) Hq Ha. rewrite Forall_forall in Hall. destruct (Hall i Hin) as (Hid & c & pr & Hc & Hp & _ & Hr).
  unfold view_of_interaction in Hv. destruct (public_interaction_view _ _) as [v|] eqn:Ev; [|done]. subst v.
  destruct (view_inv c _ pr p Hc Hr Ev) as (d' & body & _ & _ & Ep).
  assert (Eid : Py.get "interaction_id" p = VStr (ia_interaction_id i)).
  { unfold public_interaction_view in Ev. apply bind_ok in Ev as (pres & _ & Ev). apply bind_ok in Ev as (st & _ & Ev).
    apply bind_ok in Ev as (b & _ & <-%Ok_inj%(inj Some)). rewrite <-Hid. unfold Py.get. rewrite lookup_app, lookup_project.
    change (Py.in_strs "interaction_id" PUBLIC_INTERACTION_COMMON_KEYS) with true. cbn iota. unfold Py.get in Hid.
    destruct (Py.lookup "interaction_id" (ia_contract i)) eqn:E; [done|]. cbn in Hid. done. }
  unfold asks in Ha. rewrite Eid, str_or_empty_text in Ha. apply String.eqb_eq in Ha.
  unfold view_of, get_interaction. rewrite Hq, <-Ha, <-Hs.
  assert (Hf : List.find (is_interaction (ia_session_id i) (ia_interaction_id i)) (db_interactions d) = Some i).
  { destruct (List.find _ _) as [i'|] eqn:Ef; cycle 1.
    - pose proof (find_none _ _ Ef i ltac:(by apply list_elem_of_In)) as Hn. unfold is_interaction in Hn. by rewrite !String.eqb_refl in Hn.
    - apply find_some in Ef as [Hi' Ef%andb_true_iff]. destruct Ef as [E1%String.eqb_eq E2%String.eqb_eq]. f_equal.
      eapply (NoDup_map_inj interaction_key); [exact Hnd|by apply list_elem_of_In|done|]. unfold interaction_key. by rewrite E1, E2. }
  rewrite Hf. cbn. unfold view_of_interaction. by rewrite Ev.
Qed.

(** ** The questions and the answers kept *)

Definition question_key (q : question_row) : string * string := (qn_deployment_id q, qn_ref q).
Definition answer_from (a : answer_row) : question_answer := QuestionAnswer (an_answer_row a) (an_choice a).
Definition kept_for (c : channels) (q : question_row) : list answer_row := select_where (answer_of (qn_deployment_id q) (qn_ref q)) (ch_answers c).

(** What a message says to question [index] of the question shown under a name: its text, read
    as the reply to what is shown, or the button that was pressed. *)
Definition gives (w : worker) (shown : string * string) (view : dict) (index : Z) (a : question_answer) : Prop :=
  wk_deployment w = fst shown /\
  ((exists quoted, read_reply view index (said "reply_text" w) quoted = Ok (Some (Answer a))) \/
   (exists t, parse_action (Py.str (Py.get "action" (wk_payload w))) = Some t /\ at_ref t = snd shown /\ at_question_index t = index /\
      answer_action view t = Ok (Answer a))).

Lemma gives_given w shown view index a : gives w shown view index a -> given view index a.
Proof. intros [_ [[quoted E]|(t & _ & _ & Ei & E)]]; [left|right]; eauto. Qed.

(** A kept answer is what a message says, in its participant's name. *)
Definition gave (w : worker) (view : dict) (a : answer_row) : Prop :=
  gives w (an_deployment_id a, an_ref a) view (an_question_index a) (answer_from a) /\
  an_participant a = as_text (Py.get "participant" (wk_payload w)).

(** A question's row later on. *)
Record later (q q' : question_row) : Prop := {
  lt_key : question_key q' = question_key q;
  lt_interaction : qn_session_id q' = qn_session_id q /\ qn_interaction_id q' = qn_interaction_id q;
  lt_answering : is_Some (qn_answering_item q) -> is_Some (qn_answering_item q')
}.

#[export] Instance later_preorder : PreOrder later.
Proof. split; [by constructor|]. intros x y z [] []. constructor; [congruence|intuition congruence|auto]. Qed.

Definition keeps (c c' : channels) : Prop := grows later (ch_questions c) (ch_questions c').

#[export] Instance keeps_preorder : PreOrder keeps.
Proof. split; [intros c; unfold keeps; reflexivity|]. intros x y z. unfold keeps. intros H1 H2. by etrans. Qed.

Section Heard.
(** The messages that have arrived. *)
Context (heard : list worker).

Definition told_by (view : dict) (a : answer_row) : Prop := exists w, w ∈ heard /\ gave w view a.

(** How far a question is: the answers kept are those of its questions up to the one asked,
    that one included once it is staged as the last; each is what one of the messages that
    arrived says to its question. *)
Record progress (d : db) (answers : list answer_row) (q : question_row) : Prop := {
  pr_index : (0 <= qn_question_index q)%Z;
  pr_kept : Permutation (map an_question_index answers)
              (seqZ 0 (qn_question_index q + match qn_answering_item q with Some _ => 1 | None => 0 end));
  pr_given : Forall (fun a => exists p, view_of d q = Some p /\ told_by p a) answers;
  pr_last : is_Some (qn_answering_item q) -> exists p, view_of d q = Some p /\ question_count p = Ok (qn_question_index q + 1)%Z
}.

Record answers_sound (d : db) (c : channels) : Prop := {
  as_keys : NoDup (map question_key (ch_questions c));
  as_own : Forall (fun a => exists q, q ∈ ch_questions c /\ asked_as (an_deployment_id a) (an_ref a) q = true) (ch_answers c);
  as_progress : Forall (fun q => progress d (kept_for c q) q) (ch_questions c)
}.

Lemma asked_as_key dep ref q : asked_as dep ref q = true <-> question_key q = (dep, ref).
Proof.
  unfold asked_as, question_key. rewrite andb_true_iff, !String.eqb_eq. split; [by intros [-> ->]|by intros [= -> ->]].
Qed.

Lemma answer_of_key dep ref a : answer_of dep ref a = true <-> (an_deployment_id a, an_ref a) = (dep, ref).
Proof. unfold answer_of. rewrite andb_true_iff, !String.eqb_eq. split; [by intros [-> ->]|by intros [= -> ->]]. Qed.

Lemma later_view d q q' : later q q' -> view_of d q' = view_of d q.
Proof. intros [_ [E1 E2] _]. unfold view_of. by rewrite E1, E2. Qed.

Lemma progress_evolves d d' answers q : evolves d d' -> progress d answers q -> progress d' answers q.
Proof.
  intros He [H1 H2 H3 H4]. split; [done|done| |].
  - eapply Forall_impl; [exact H3|]. intros a (p & Hp & Hg). exists p. split; [by eapply view_of_evolves|done].
  - intros Hs. destruct (H4 Hs) as (p & Hp & Hc). exists p. split; [by eapply view_of_evolves|done].
Qed.

Lemma answers_evolve d d' c : evolves d d' -> answers_sound d c -> answers_sound d' c.
Proof. intros He [H1 H2 H3]. split; [done|done|]. eapply Forall_impl; [exact H3|]. intros q. by apply progress_evolves. Qed.

(** Whatever leaves the questions and their answers as they are. *)
Lemma quiet_sound d c c' :
  ch_questions c' = ch_questions c -> ch_answers c' = ch_answers c -> answers_sound d c -> answers_sound d c' /\ keeps c c'.
Proof.
  intros Eq Ea [H1 H2 H3]. split; [split; unfold kept_for in *; by rewrite ?Eq, ?Ea|]. unfold keeps. by rewrite Eq.
Qed.

(** Settling or closing a question moves its state alone. *)
Definition restated (q q' : question_row) : Prop :=
  question_key q' = question_key q /\ qn_session_id q' = qn_session_id q /\ qn_interaction_id q' = qn_interaction_id q /\
  qn_question_index q' = qn_question_index q /\ qn_answering_item q' = qn_answering_item q.

Lemma put_question_restated state q : restated q (put_question state (qn_question_index q) (qn_answering_item q) q).
Proof. done. Qed.

Lemma restated_later q q' : restated q q' -> later q q'.
Proof. intros (E1 & E2 & E3 & _ & E5). split; [done|done|intros Hs; rewrite E5; exact Hs]. Qed.

Lemma restated_progress d answers q q' : restated q q' -> progress d answers q -> progress d answers q'.
Proof.
  intros H [H1 H2 H3 H4]. assert (Ev : view_of d q' = view_of d q) by (apply later_view; by apply restated_later).
  destruct H as (_ & _ & _ & E4 & E5). split; rewrite ?E4, ?E5, ?Ev; done.
Qed.

Lemma update_keys cond set t :
  (forall q, cond q = true -> question_key (set q) = question_key q) -> map question_key (update_where cond set t) = map question_key t.
Proof.
  intros H. unfold update_where. rewrite map_map. apply map_ext. intros q. destruct (cond q) eqn:E; [by apply H|done].
Qed.

Lemma own_updated cond set t a :
  (forall q, cond q = true -> question_key (set q) = question_key q) ->
  (exists q, q ∈ t /\ asked_as (an_deployment_id a) (an_ref a) q = true) ->
  exists q, q ∈ update_where cond set t /\ asked_as (an_deployment_id a) (an_ref a) q = true.
Proof.
  intros H (q & Hq & Ha). exists (if cond q then set q else q). split; [apply elem_of_update_where; by exists q|].
  apply asked_as_key. apply asked_as_key in Ha. destruct (cond q) eqn:E; [by rewrite H|done].
Qed.

Lemma kept_for_key c q q' : question_key q' = question_key q -> kept_for c q' = kept_for c q.
Proof. unfold question_key, kept_for. by intros [= -> ->]. Qed.

Lemma restate_sound d c cond set :
  (forall q, restated q (set q)) -> answers_sound d c ->
  answers_sound d (with_questions (update_where cond set (ch_questions c)) c) /\ keeps c (with_questions (update_where cond set (ch_questions c)) c).
Proof.
  intros H [H1 H2 H3]. assert (Hkey : forall q, cond q = true -> question_key (set q) = question_key q) by (intros q _; by destruct (H q)).
  split; [split; cbn|].
  - by rewrite update_keys.
  - eapply Forall_impl; [exact H2|]. intros a. by apply own_updated.
  - rewrite Forall_forall in H3 |- *. intros q (q0 & Hq & ->)%elem_of_update_where. specialize (H3 q0 Hq).
    destruct (cond q0); [|exact H3]. unfold kept_for in *. cbn. destruct (H q0) as ([= -> ->] & _). by eapply restated_progress.
  - unfold keeps. cbn. apply grows_update; [apply _|]. intros q _. by apply restated_later.
Qed.

(** An answer is kept with its question moved, or nothing changes. *)
Lemma keep_answer_cases cond set a c r c' :
  transaction (keep_answer cond set a) c = (r, c') ->
  c' = c /\ r <> Ok true \/
  r = Ok true /\ (exists q, q ∈ ch_questions c /\ cond q = true) /\ existsb (same_answer a) (ch_answers c) = false /\
  c' = with_answers (ch_answers c ++ [a])%list (with_questions (update_where cond set (ch_questions c)) c).
Proof.
  unfold transaction, keep_answer, get_state, modify, modify_res, mbind, txn_bind. destruct (Nat.eqb _ 1) eqn:Ec; [|intros [= <- <-]; by left].
  unfold mret, txn_ret, insert_unique. cbn [ch_answers with_questions].
  destruct (existsb (same_answer a) (ch_answers c)) eqn:Ex; cbn; [intros [= <- <-]; left; by split|].
  intros [= <- <-]. right. split_and!; [done| |done|done]. apply Nat.eqb_eq in Ec. unfold count_where in Ec.
  destruct (filter (fun r => cond r = true) (ch_questions c)) as [|q l] eqn:Ef; [done|]. exists q.
  assert (Hq : q ∈ select_where cond (ch_questions c)) by (unfold select_where; rewrite Ef; left).
  apply elem_of_select_where in Hq. tauto.
Qed.

Lemma kept_snoc c t q a :
  kept_for (with_answers (ch_answers c ++ [a])%list (with_questions t c)) q =
  (kept_for c q ++ if answer_of (qn_deployment_id q) (qn_ref q) a then [a] else [])%list.
Proof.
  unfold kept_for, select_where. cbn. rewrite filter_app. f_equal. rewrite filter_cons. by destruct (answer_of _ _ a).
Qed.

(** Keeping an answer keeps the answers sound where the question's progress is. *)
Lemma keep_sound d c cond set a q0 :
  answers_sound d c -> q0 ∈ ch_questions c -> cond q0 = true ->
  (forall q, cond q = true -> question_key q = (an_deployment_id a, an_ref a)) -> (forall q, cond q = true -> later q (set q)) ->
  (progress d (kept_for c q0) q0 -> progress d (kept_for c q0 ++ [a])%list (set q0)) ->
  let c' := with_answers (ch_answers c ++ [a])%list (with_questions (update_where cond set (ch_questions c)) c) in
  answers_sound d c' /\ keeps c c'.
Proof.
  intros [H1 H2 H3] Hq0 Hc0 Hkey Hlater Hp c'. assert (Hset : forall q, cond q = true -> question_key (set q) = question_key q) by (intros q Hq; apply (Hlater q Hq)).
  split; [split|].
  - unfold c'. cbn. by rewrite update_keys.
  - unfold c'. cbn. apply Forall_app. split; [eapply Forall_impl; [exact H2|]; intros b; by apply own_updated|].
    apply Forall_cons. split; [|done]. apply own_updated; [done|]. exists q0. split; [done|]. apply asked_as_key. by apply Hkey.
  - rewrite Forall_forall in H3 |- *. intros q (q1 & Hq & ->)%elem_of_update_where. pose proof (H3 q1 Hq) as Hp1. destruct (cond q1) eqn:E.
    + assert (q1 = q0) as -> by (eapply (NoDup_map_inj question_key); [exact H1|done|done|by rewrite !Hkey]).
      rewrite (kept_for_key c' q0) by auto. unfold c'. rewrite kept_snoc.
      replace (answer_of _ _ a) with true by (symmetry; apply answer_of_key; symmetry; by apply Hkey). by apply Hp.
    + unfold c'. rewrite kept_snoc. destruct (answer_of _ _ a) eqn:Ea; [|by rewrite app_nil_r]. exfalso. apply answer_of_key in Ea.
      assert (q1 = q0) as -> by (eapply (NoDup_map_inj question_key); [exact H1|done|done|]; rewrite (Hkey q0) by done; symmetry; exact Ea). congruence.
  - unfold keeps. cbn. by apply grows_update; [apply _|].
Qed.

(** ** What an answerer knows *)

(** The row [q] an answerer read is still there, and [p] is what its question shows. *)
Definition about (d : db) (c : channels) (p : dict) (q : question_row) : Prop :=
  (exists q', q' ∈ ch_questions c /\ later q q') /\ view_of d q = Some p.

(** An answer about to be kept: one to the question its row is at. *)
Definition fits (d : db) (c : channels) (p : dict) (q : question_row) (a : answer_row) : Prop :=
  about d c p q /\ question_key q = (an_deployment_id a, an_ref a) /\ told_by p a.

(** Every question of what is asked has its answer, in their order. *)
Definition complete (d : db) (pending : option dict) (r : record) : Prop :=
  forall p, pending = Some p -> asks pending (fst r) = true ->
    view_of d (fst r) = Some p /\ question_count p = Ok (Z.of_nat (length (answers_kept r))) /\
    forall i a, snd r !! i = Some a -> an_question_index a = Z.of_nat i /\ told_by p a.

Definition pending_shown (d : db) (sid : string) (pending : option dict) : Prop :=
  match pending with Some p => shown_in d sid p | None => True end.

Definition knows (d : db) (c : channels) (w : worker) (sid : string) (at_ : stage) : Prop :=
  match at_ with
  | Press pending t => pending_shown d sid pending /\ parse_action (Py.str (Py.get "action" (wk_payload w))) = Some t
  | AskResumed pending | AskClosed pending | AskClosedRecord pending _ _ => pending_shown d sid pending
  | FindOpen p => shown_in d sid p
  | AskQuoted p r => about d c p (fst r) /\ wk_deployment w = qn_deployment_id (fst r)
  | MarkAnswer p r a _ => about d c p (fst r) /\ gives w (question_key (fst r)) p (qn_question_index (fst r)) a
  | KeepAnswer p r a => fits d c p (fst r) a
  | StageAnswer p r a _ => fits d c p (fst r) a /\ question_count p = Ok (an_question_index a + 1)%Z
  | ReadStaged p dep ref _ =>
      exists q, q ∈ ch_questions c /\ question_key q = (dep, ref) /\ is_Some (qn_answering_item q) /\ view_of d q = Some p
  | AnswerEngine pending r _ _ => complete d pending r
  | _ => True
  end.

Lemma about_moves d d' c c' p q : evolves d d' -> keeps c c' -> about d c p q -> about d' c' p q.
Proof.
  intros Hd Hc [(q' & Hq & Hl) Hv]. split; [|by eapply view_of_evolves].
  destruct (grows_elem _ _ _ _ Hc Hq) as (q'' & Hq' & Hl'). exists q''. split; [done|by etrans].
Qed.

Lemma knows_moves d d' c c' w sid at_ : evolves d d' -> keeps c c' -> knows d c w sid at_ -> knows d' c' w sid at_.
Proof.
  intros Hd Hc. assert (Hp : forall pending, pending_shown d sid pending -> pending_shown d' sid pending).
  { intros [p|]; [|done]. by apply shown_in_evolves. }
  pose proof (fun p q => about_moves d d' c c' p q Hd Hc) as Ha.
  destruct at_; cbn; try done; try apply Hp; try (by apply shown_in_evolves); unfold fits; try naive_solver.
  - intros (q & Hq & Hk & Hs & Hv). destruct (grows_elem _ _ _ _ Hc Hq) as (q' & Hq' & Hl). exists q'.
    split_and!; [done|by rewrite (lt_key _ _ Hl)|by apply (lt_answering _ _ Hl)|]. rewrite (later_view d' q q') by done. by eapply view_of_evolves.
  - intros Hcm p Ep Has. destruct (Hcm p Ep Has) as (Hv & Hrest). split; [by eapply view_of_evolves|done].
Qed.

(** ** One await *)

Lemma fits_row d c p q a q0 :
  answers_sound d c -> fits d c p q a -> q0 ∈ ch_questions c -> question_key q0 = (an_deployment_id a, an_ref a) -> view_of d q0 = Some p.
Proof.
  intros [Hn _ _] ([(q' & Hq' & Hl) Hv] & Hk & _) Hq0 Hk0.
  assert (q0 = q') as -> by (eapply (NoDup_map_inj question_key); [exact Hn|done|done|rewrite (lt_key _ _ Hl); congruence]).
  by rewrite (later_view d q q').
Qed.

Lemma asking_now_inv dep ref index q : asking_now dep ref index q = true -> question_key q = (dep, ref) /\ qn_question_index q = index.
Proof. unfold asking_now. intros H. bool_prop. split; [by apply asked_as_key|lia]. Qed.

Lemma seqZ_snoc n : (0 <= n)%Z -> seqZ 0 (n + 1) = (seqZ 0 n ++ [n])%list.
Proof. intros Hn. rewrite seqZ_app by lia. f_equal. Qed.

(** No answer is kept twice under one number. *)
Lemma not_kept c q a b :
  existsb (same_answer a) (ch_answers c) = false -> question_key q = (an_deployment_id a, an_ref a) -> b ∈ kept_for c q ->
  an_question_index b <> an_question_index a.
Proof.
  intros Hx Hk [Hb Hin]%elem_of_select_where E. apply not_true_iff_false in Hx. apply Hx, existsb_true. exists b. split; [done|].
  unfold same_answer. rewrite E, Z.eqb_refl, andb_true_r. injection Hk as Ed Er. by rewrite <-Ed, <-Er.
Qed.

Lemma progress_keeps d c q a p item index :
  existsb (same_answer a) (ch_answers c) = false -> question_key q = (an_deployment_id a, an_ref a) ->
  view_of d q = Some p -> told_by p a -> qn_question_index q = an_question_index a ->
  (item = None /\ index = an_question_index a + 1 \/
   is_Some item /\ index = an_question_index a /\ question_count p = Ok (an_question_index a + 1))%Z ->
  progress d (kept_for c q) q -> progress d (kept_for c q ++ [a])%list (put_question (qn_state q) index item q).
Proof.
  intros Hx Hk Hv Hg Ei Hitem [H1 H2 H3 H4]. destruct (qn_answering_item q) eqn:Ea.
  { exfalso. assert (Hin : an_question_index a ∈ map an_question_index (kept_for c q)) by (rewrite H2; apply elem_of_seqZ; lia).
    apply list_elem_of_fmap in Hin as (b & Eb & Hb). by eapply not_kept. }
  rewrite Z.add_0_r in H2. split; cbn.
  - destruct Hitem as [[_ ->]|(_ & -> & _)]; lia.
  - rewrite map_app, H2, Ei. cbn [map]. rewrite <-seqZ_snoc by lia. destruct Hitem as [[-> ->]|([x ->] & -> & _)]; [by rewrite Z.add_0_r|done].
  - apply Forall_app. split; [exact H3|]. apply Forall_cons. split; [by exists p|done].
  - intros Hs. exists p. destruct Hitem as [[-> _]|(_ & -> & Hc)]; [by destruct Hs|by split].
Qed.

Lemma record_sound d c p q a r c' :
  answers_sound d c -> fits d c p q a -> record_channel_answer a c = (r, c') -> answers_sound d c' /\ keeps c c'.
Proof.
  intros Hs Hf H. unfold record_channel_answer in H.
  apply keep_answer_cases in H as [[-> _]|(_ & (q0 & Hq0 & Hc0) & Hx & ->)]; [by split; [|reflexivity]|].
  destruct (asking_now_inv _ _ _ _ Hc0) as [Hk0 Hi0]. pose proof (fits_row _ _ _ _ _ q0 Hs Hf Hq0 Hk0) as Hv.
  eapply keep_sound; [done|exact Hq0|exact Hc0|by intros q1 [? _]%asking_now_inv|by constructor|].
  intros Hp. eapply progress_keeps; [done|done|exact Hv|apply Hf|exact Hi0| |done].
  left. split; [|by rewrite Hi0]. destruct (qn_answering_item q0) eqn:Ea; [|done]. exfalso.
  assert (Hin : an_question_index a ∈ map an_question_index (kept_for c q0)).
  { rewrite (pr_kept _ _ _ Hp), Ea. apply elem_of_seqZ. pose proof (pr_index _ _ _ Hp). lia. }
  apply list_elem_of_fmap in Hin as (b & Eb & Hb). by eapply not_kept.
Qed.

Lemma stage_sound d c p q a item r c' :
  answers_sound d c -> fits d c p q a -> question_count p = Ok (an_question_index a + 1)%Z -> stage_channel_answer item a c = (r, c') ->
  answers_sound d c' /\ keeps c c' /\
  (r = Ok true -> exists q, q ∈ ch_questions c' /\ question_key q = (an_deployment_id a, an_ref a) /\ is_Some (qn_answering_item q) /\ view_of d q = Some p).
Proof.
  intros Hs Hf Hn H. unfold stage_channel_answer in H.
  apply keep_answer_cases in H as [[-> Hr]|(_ & (q0 & Hq0 & Hc0) & Hx & ->)]; [by split_and!; [|reflexivity|]|].
  pose proof Hc0 as [Hc1 _]%andb_true_iff. destruct (asking_now_inv _ _ _ _ Hc1) as [Hk0 Hi0]. pose proof (fits_row _ _ _ _ _ q0 Hs Hf Hq0 Hk0) as Hv.
  match goal with |- answers_sound d ?c' /\ _ => enough (answers_sound d c' /\ keeps c c') as [? ?] end.
  - split_and!; [done|done|]. intros _. exists (put_question (qn_state q0) (qn_question_index q0) (Some item) q0). split_and!; [|exact Hk0|by eexists|exact Hv]. cbn.
    apply elem_of_update_where. exists q0. split; [done|]. by rewrite Hc0.
  - eapply keep_sound; [done|exact Hq0|exact Hc0|by intros q1 [[? _]%asking_now_inv _]%andb_true_iff|by constructor|].
    intros Hp. eapply progress_keeps; [done|done|exact Hv|apply Hf|exact Hi0|right; split_and!; by eauto|done].
Qed.

Lemma settle_keeps_sound d c dep ref state :
  answers_sound d c -> answers_sound d (snd (settle_channel_interaction dep ref state c)) /\ keeps c (snd (settle_channel_interaction dep ref state c)).
Proof. intros Hs. destruct state; cbn; [by split; [|reflexivity]|..]; by apply restate_sound. Qed.

#[local] Existing Instance index_le_dec.
#[local] Instance index_le_total : Total index_le.
Proof. intros x y. unfold index_le. lia. Qed.
#[local] Instance index_le_trans : Transitive index_le.
Proof. intros x y z. unfold index_le. lia. Qed.

(** A question read back with its answers. *)
Lemma record_inv dep ref c r :
  get_channel_interaction dep ref c = Some r ->
  fst r ∈ ch_questions c /\ question_key (fst r) = (dep, ref) /\ snd r = merge_sort index_le (kept_for c (fst r)).
Proof.
  unfold get_channel_interaction. intros H. apply bind_Some in H as (q & Hq & [= <-]). apply find_some in Hq as [Hin Hk].
  apply asked_as_key in Hk. split_and!; [by apply list_elem_of_In|done|]. cbn. unfold kept_for. injection Hk as -> ->. done.
Qed.

Lemma record_about d c dep ref r p : get_channel_interaction dep ref c = Some r -> view_of d (fst r) = Some p -> about d c p (fst r).
Proof. intros (Hin & _ & _)%record_inv Hv. split; [|done]. by exists (fst r). Qed.

(** Once the last answer is staged, each question has its own. *)
Lemma record_complete d c dep ref r p :
  answers_sound d c -> get_channel_interaction dep ref c = Some r -> is_Some (qn_answering_item (fst r)) -> view_of d (fst r) = Some p ->
  question_count p = Ok (Z.of_nat (length (answers_kept r))) /\ forall i a, snd r !! i = Some a -> an_question_index a = Z.of_nat i /\ told_by p a.
Proof.
  intros [_ _ Hall] Hr [x Hx] Hv. destruct (record_inv _ _ _ _ Hr) as (Hin & _ & Es). rewrite Forall_forall in Hall.
  destruct (Hall _ Hin) as [H1 H2 H3 H4]. rewrite Hx in H2. destruct H4 as (p' & Hv' & Hc); [by eexists|]. assert (p' = p) as -> by congruence.
  set (n := qn_question_index (fst r)) in *.
  assert (Hsort : map an_question_index (snd r) = seqZ 0 (n + 1)).
  { apply (StronglySorted_unique Z.le); [|apply seqZ_sorted|by rewrite Es, merge_sort_Permutation]. rewrite Es.
    pose proof (StronglySorted_merge_sort index_le (kept_for c (fst r))) as Hs. revert Hs. generalize (merge_sort index_le (kept_for c (fst r))).
    intros l Hs. induction Hs as [|a l Hs IH Hl]; cbn; constructor; [done|]. apply Forall_fmap. eapply Forall_impl; [exact Hl|]. done. }
  assert (Hlen : Z.of_nat (length (snd r)) = (n + 1)%Z) by (rewrite <-(length_map an_question_index), Hsort, length_seqZ; lia).
  unfold answers_kept. rewrite length_map. split; [by rewrite Hc, Hlen|].
  intros i b Hb.
  assert (Ei : an_question_index b = Z.of_nat i).
  { assert (E : map an_question_index (snd r) !! i = Some (an_question_index b)) by (etrans; [apply list_lookup_fmap|by rewrite Hb]).
    rewrite Hsort in E. apply lookup_seqZ in E as [E _]. lia. }
  assert (Hk : b ∈ kept_for c (fst r)) by (eapply list_elem_of_lookup_2 in Hb; rewrite Es, merge_sort_Permutation in Hb; done).
  rewrite Forall_forall in H3. destruct (H3 b Hk) as (p' & Hp' & Hg). assert (p' = p) as -> by congruence. by split.
Qed.

(** ** What an await leads to *)

(** The question found under a name is the one the name was made for: two questions of a
    deployment whose names, sixty-four bits of a hash, collide are left aside, and so is a
    message marked as the answer to a question of another session. *)
Definition own_names (w : worker) (sid : string) (at_ : stage) (c : channels) : bool :=
  match at_ with
  | FindOpen p =>
      let interaction_id := Py.str_or_empty (Py.get "interaction_id" p) in
      match get_channel_interaction (wk_deployment w) (interaction_ref (wk_deployment w) sid interaction_id) c with
      | Some (q, _) => (qn_session_id q =s sid) && (qn_interaction_id q =s interaction_id)
      | None => true
      end
  | AskResumed _ =>
      match answer_mark w with
      | Some (ref, _) => match get_channel_interaction (wk_deployment w) ref c with Some (q, _) => qn_session_id q =s sid | None => true end
      | None => true
      end
  | _ => true
  end.

Section await.
Context (d : db) (c : channels) (w : worker) (sid : string).
Context (Hd : contracts_sound d) (Hc : answers_sound d c).

Lemma pending_knows pending : pending_interaction sid d = Ok pending -> pending_shown d sid pending.
Proof.
  unfold pending_interaction. destruct (List.find _ _) as [i|] eqn:Ef; [|by intros [= <-]]. intros Hv. destruct pending as [p|]; [|done].
  apply find_some in Ef as [Hin _]. apply list_elem_of_In in Hin. cbn in Hin. rewrite merge_sort_Permutation in Hin.
  apply elem_of_select_where in Hin as [Hs Hin]. bool_prop. exists i. split_and!; [done|done|]. unfold view_of_interaction. by rewrite Hv.
Qed.

Lemma after_closed_knows pending : pending_shown d sid pending -> knows d c w sid (after_closed pending).
Proof. by destruct pending. Qed.

Lemma after_resumed_knows pending st : pending_shown d sid pending -> after_resumed w pending = Ok st -> knows d c w sid st.
Proof.
  intros Hp. unfold after_resumed. destruct (pressed w).
  - destruct (parse_action _) as [t|] eqn:Et; [|done]. by intros <-%Ok_inj.
  - destruct (Py.is_empty _); intros <-%Ok_inj; [by apply after_closed_knows|done].
Qed.

Lemma resumed_knows pending marked dep ref r st :
  pending_shown d sid pending -> get_channel_interaction dep ref c = Some r -> qn_session_id (fst r) = sid ->
  resumed w pending marked r = Ok st -> knows d c w sid st.
Proof.
  intros Hp Hr Hs. unfold resumed. case_bool_decide as Ea.
  - intros <-%Ok_inj p -> Has. pose proof (asks_view _ _ _ _ Hd Hp Hs Has) as Hv. split; [done|].
    eapply record_complete; [exact Hc|exact Hr|by rewrite Ea; eexists|done].
  - destruct (_ <=? _)%Z; [destruct (_ && _); [by apply after_resumed_knows|by intros <-%Ok_inj]|].
    destruct pending as [p|]; [|by intros <-%Ok_inj]. destruct (_ && _); [|by intros <-%Ok_inj].
    intros H. apply bind_ok in H as (n & _ & <-%Ok_inj). by destruct (_ <? _)%Z.
Qed.

Lemma take_outcome_knows p r o confirm :
  about d c p (fst r) -> (forall a, o = Answer a -> gives w (question_key (fst r)) p (qn_question_index (fst r)) a) -> knows d c w sid (take_outcome p r o confirm).
Proof. intros Ha Ho. destruct o as [a|m]; [|done]. split; [exact Ha|by apply Ho]. Qed.

Lemma press_knows pending target r st :
  pending_shown d sid pending -> parse_action (Py.str (Py.get "action" (wk_payload w))) = Some target ->
  get_channel_interaction (wk_deployment w) (at_ref target) c = Some r -> press sid pending target r = Ok st -> knows d c w sid st.
Proof.
  intros Hp Ht Hr. unfold press. case_bool_decide as Est; [by intros <-%Ok_inj|]. destruct (String.eqb_spec (qn_session_id (fst r)) sid) as [Hs|]; [|by intros <-%Ok_inj].
  cbn [negb]. destruct pending as [p|]; [|by intros <-%Ok_inj]. destruct (_ && _) eqn:Eo; [|by intros <-%Ok_inj].
  destruct (Z.eqb_spec (at_question_index target) (qn_question_index (fst r))) as [Ei|]; [|by intros <-%Ok_inj]. cbn [negb].
  intros H. apply bind_ok in H as (o & Ho & <-%Ok_inj). bool_prop. apply take_outcome_knows.
  - eapply record_about; [exact Hr|]. by eapply asks_view.
  - destruct (record_inv _ _ _ _ Hr) as (_ & Hk & _). rewrite Hk. intros a ->. split; [done|]. right. by exists target.
Qed.

Lemma reply_knows p r quoted st :
  about d c p (fst r) -> wk_deployment w = qn_deployment_id (fst r) -> reply w p r quoted = Ok st -> knows d c w sid st.
Proof.
  intros Ha Hdep H. unfold reply in H. apply bind_ok in H as (o & Ho & <-%Ok_inj). destruct o as [o|]; [|done].
  apply take_outcome_knows; [done|]. intros a ->. split; [done|]. left. by exists quoted.
Qed.

Lemma find_open_about p r :
  shown_in d sid p -> own_names w sid (FindOpen p) c = true ->
  get_channel_interaction (wk_deployment w) (interaction_ref (wk_deployment w) sid (Py.str_or_empty (Py.get "interaction_id" p))) c = Some r ->
  about d c p (fst r).
Proof.
  intros Hp Ho Hr. cbn in Ho. rewrite Hr in Ho. destruct r as [q l]. bool_prop. eapply record_about; [exact Hr|].
  eapply asks_view; [done|done|done|]. cbn. by apply String.eqb_eq.
Qed.

Lemma mark_fits p q a :
  w ∈ heard -> about d c p q -> gives w (question_key q) p (qn_question_index q) a -> fits d c p q (kept_answer w q a).
Proof. intros Hw Ha Hg. split_and!; [done|done|]. exists w. split; [done|]. split; [|done]. unfold answer_from. cbn. by destruct a. Qed.
End await.

Lemma request_answer_sound d sid iid answer by_ now r d' :
  contracts_sound d -> request_answer sid iid answer by_ now d = (r, d') -> evolves d d' /\ contracts_sound d'.
Proof.
  intros [Hn Hs] H. split.
  { replace d' with (snd (request_answer sid iid answer by_ now d)) by (by rewrite H). apply repo_step_evolves. eexists. constructor. }
  assert (E : exists cond, db_interactions d' = update_where cond (set_answer answer by_ now) (db_interactions d)).
  { eexists. unfold request_answer, transaction, request_answer_body, update_interactions, notify, modify, mbind, txn_bind in H.
    destruct (count_where _ _ =? 0)%nat; injection H as _ <-; reflexivity. }
  destruct E as [cond E]. unfold contracts_sound. rewrite E. split.
  - unfold update_where. rewrite map_map. erewrite map_ext; [exact Hn|]. intros i. by destruct (cond i).
  - rewrite Forall_forall in Hs |- *. intros i (i0 & Hi & ->)%elem_of_update_where. specialize (Hs i0 Hi). by destruct (cond i0).
Qed.

(** ** The store and every message at it *)

Definition channels_of (s : site) : channels := ig_channels (st_ingress s).
Definition sound (s : site) : Prop := contracts_sound (st_db s) /\ answers_sound (st_db s) (channels_of s).
Definition advances (s s' : site) : Prop := evolves (st_db s) (st_db s') /\ keeps (channels_of s) (channels_of s').

#[export] Instance advances_preorder : PreOrder advances.
Proof. split; [intros s; by split|]. intros x y z [H1 H2] [H3 H4]. split; by etrans. Qed.

(** What one await leaves: a sound store further on, and what the message knows after it. *)
Definition leaves (w : worker) (sid : string) (s : site) (out : res stage * site) : Prop :=
  sound (snd out) /\ advances s (snd out) /\ forall st, fst out = Ok st -> knows (st_db (snd out)) (channels_of (snd out)) w sid st.

Lemma leaves_stays w sid s r : sound s -> (forall st, r = Ok st -> knows (st_db s) (channels_of s) w sid st) -> leaves w sid s (r, s).
Proof. intros Hs Hk. split_and!; [done|reflexivity|done]. Qed.

Lemma leaves_channels w sid s r c' :
  sound s -> answers_sound (st_db s) c' -> keeps (channels_of s) c' -> (forall st, r = Ok st -> knows (st_db s) c' w sid st) ->
  leaves w sid s (r, put_channels c' s).
Proof. intros [Hd _] Hc Hk Hst. split_and!; [by split|by split|done]. Qed.

Lemma leaves_settle w sid s r dep ref state :
  sound s -> (forall d c st, r = Ok st -> knows d c w sid st) ->
  leaves w sid s (let '(_, c') := settle_channel_interaction dep ref state (channels_of s) in (r, put_channels c' s)).
Proof.
  intros Hs Hk. destruct (settle_keeps_sound (st_db s) _ dep ref state (proj2 Hs)) as [H1 H2].
  destruct (settle_channel_interaction _ _ _ _) as [x c']. apply leaves_channels; try done. intros st. apply Hk.
Qed.

Lemma mark_leaves w sid p r a confirm s :
  w ∈ heard -> sound s -> about (st_db s) (channels_of s) p (fst r) -> gives w (question_key (fst r)) p (qn_question_index (fst r)) a ->
  forall o now, leaves w sid s (answer_step o now w sid (MarkAnswer p r a confirm) s).
Proof.
  intros Hw Hs Ha Hg o now. cbn. unfold mark_inbound_answer, update_inbound. split_and!; [exact Hs|by split|].
  cbn [fst snd]. intros st. destruct (Nat.eqb _ 1); [|by intros <-%Ok_inj]. intros H. apply bind_ok in H as (n & Hn & <-%Ok_inj).
  pose proof (mark_fits (st_db s) (channels_of s) w p _ a Hw Ha Hg) as Hf. destruct (Z.ltb_spec (qn_question_index (fst r) + 1) n) as [Hlt|Hge]; [exact Hf|].
  split; [exact Hf|]. destruct (given_inv _ _ _ (gives_given _ _ _ _ _ Hg)) as (total & _ & Ht & Hi & _). assert (total = n) as -> by congruence. cbn. rewrite Hn. f_equal. lia.
Qed.

Lemma keep_leaves w sid p r a s :
  sound s -> fits (st_db s) (channels_of s) p (fst r) a -> forall o now, leaves w sid s (answer_step o now w sid (KeepAnswer p r a) s).
Proof.
  intros Hs Hf o now. cbn. destruct (record_channel_answer a _) as [x c'] eqn:E.
  destruct (record_sound _ _ _ _ _ _ _ (proj2 Hs) Hf E) as [H1 H2]. apply leaves_channels; try done.
  intros st H. apply bind_ok in H as (b & _ & <-%Ok_inj). by destruct b.
Qed.

Lemma stage_leaves w sid p r a confirm s :
  sound s -> fits (st_db s) (channels_of s) p (fst r) a -> question_count p = Ok (an_question_index a + 1)%Z ->
  forall o now, leaves w sid s (answer_step o now w sid (StageAnswer p r a confirm) s).
Proof.
  intros Hs Hf Hn o now. cbn. destruct (stage_channel_answer _ a _) as [x c'] eqn:E.
  destruct (stage_sound _ _ _ _ _ _ _ _ (proj2 Hs) Hf Hn E) as (H1 & H2 & H3). apply leaves_channels; try done.
  intros st H. apply bind_ok in H as (b & -> & <-%Ok_inj). destruct b; [|done]. destruct (H3 eq_refl) as (q & Hq & Hk & Ha & Hv).
  destruct Hf as (_ & Hkey & _). exists q. split_and!; [done| |done|done]. rewrite Hk. symmetry. exact Hkey.
Qed.

Lemma staged_leaves w sid p dep ref confirm s :
  sound s -> knows (st_db s) (channels_of s) w sid (ReadStaged p dep ref confirm) ->
  forall o now, leaves w sid s (answer_step o now w sid (ReadStaged p dep ref confirm) s).
Proof.
  intros Hs (q & Hq & Hk & Ha & Hv) o now. cbn. fold (channels_of s). destruct (get_channel_interaction dep ref _) as [r|] eqn:Hr; [|by apply leaves_stays].
  apply leaves_stays; [done|]. intros st <-%Ok_inj p' [= <-] _. destruct (record_inv _ _ _ _ Hr) as (Hin & Hk' & _).
  assert (fst r = q) as E by (eapply (NoDup_map_inj question_key); [apply Hs|done|done|congruence]). rewrite E. split; [done|].
  eapply record_complete; [apply Hs|exact Hr|by rewrite E|by rewrite E].
Qed.

(** The awaits that only ask. *)
Lemma resumed_leaves w sid pending s :
  sound s -> pending_shown (st_db s) sid pending -> own_names w sid (AskResumed pending) (channels_of s) = true ->
  forall o now, leaves w sid s (answer_step o now w sid (AskResumed pending) s).
Proof.
  intros Hs Hp Ho o now. cbn in *. fold (channels_of s). destruct (answer_mark w) as [[ref marked]|].
  - destruct (get_channel_interaction _ ref _) as [[q l]|] eqn:Hr; apply leaves_stays; try done; intros st.
    + eapply resumed_knows; [apply Hs|apply Hs|done|exact Hr|]. by apply String.eqb_eq.
    + by apply after_resumed_knows.
  - apply leaves_stays; [done|]. intros st. by apply after_resumed_knows.
Qed.

Lemma closed_leaves w sid pending s :
  sound s -> pending_shown (st_db s) sid pending ->
  forall o now, leaves w sid s (answer_step o now w sid (AskClosed pending) s) /\
    forall ref index, leaves w sid s (answer_step o now w sid (AskClosedRecord pending ref index) s).
Proof.
  intros Hs Hp o now. pose proof (after_closed_knows (st_db s) (channels_of s) w sid pending Hp) as Hc. cbn. fold (channels_of s). split.
  - destruct (resolve_alias _ _ _) as [a|]; [destruct (nonempty _)|]; (apply leaves_stays; [done|]); by intros st <-%Ok_inj.
  - intros ref index. destruct (get_channel_interaction _ _ _) as [[q l]|]; [|apply leaves_stays; [done|]; by intros st <-%Ok_inj].
    destruct (_ && _); (apply leaves_stays; [done|]); intros st; [by intros <-%Ok_inj|].
    intros H. apply bind_ok in H as (x & _ & <-%Ok_inj). by destruct x.
Qed.

Lemma open_leaves w sid p s :
  sound s -> shown_in (st_db s) sid p -> own_names w sid (FindOpen p) (channels_of s) = true ->
  forall o now, leaves w sid s (answer_step o now w sid (FindOpen p) s).
Proof.
  intros Hs Hp Ho o now. cbn [answer_step]. fold (channels_of s).
  destruct (get_channel_interaction _ _ _) as [r|] eqn:Hr; [|by apply leaves_stays; [|intros st <-%Ok_inj]].
  case_bool_decide; (apply leaves_stays; [done|]); intros st; [|by intros <-%Ok_inj].
  assert (Ha : about (st_db s) (channels_of s) p (fst r)) by (by eapply find_open_about; [apply Hs|..]).
  assert (Hdep : wk_deployment w = qn_deployment_id (fst r)) by (destruct (record_inv _ _ _ _ Hr) as (_ & [= <- _] & _); done).
  destruct (Py.is_empty _); [by apply reply_knows|by intros <-%Ok_inj].
Qed.

Lemma quoted_leaves w sid p r s :
  sound s -> about (st_db s) (channels_of s) p (fst r) -> wk_deployment w = qn_deployment_id (fst r) ->
  forall o now, leaves w sid s (answer_step o now w sid (AskQuoted p r) s).
Proof.
  intros Hs Ha Hdep o now. cbn [answer_step]. fold (channels_of s).
  destruct (resolve_alias _ _ _) as [a|]; [destruct (opt_is _ _); [destruct (negb _)|]|]; (apply leaves_stays; [done|]); intros st;
    solve [by apply reply_knows|by intros <-%Ok_inj].
Qed.

Lemma engine_leaves w sid pending r confirm redrive s :
  sound s -> forall o now, leaves w sid s (answer_step o now w sid (AnswerEngine pending r confirm redrive) s) /\
    forall contract answer, leaves w sid s (answer_step o now w sid (StoreAnswer pending r confirm redrive contract answer) s).
Proof.
  intros Hs o now. assert (Hg : forall d c e st, gone pending r confirm redrive e = Ok st -> knows d c w sid st).
  { intros d c e st. unfold gone. destruct e; try done. destruct (Py.in_strs _ _); [|done]. intros <-%Ok_inj. by destruct redrive. }
  split; [|intros contract answer]; cbn.
  - destruct pending as [p|]; [destruct (asks _ _); [destruct (engine_answer _ _); [destruct (session_answer _ _ _ _ _)|]|]|];
      (apply leaves_stays; [done|]); intros st; try (by intros <-%Ok_inj); try done. by apply Hg.
  - destruct (request_answer _ _ _ _ _ _) as [stored d'] eqn:E. destruct (request_answer_sound _ _ _ _ _ _ _ _ (proj1 Hs) E) as [He Hd].
    split_and!; [split; [done|by eapply answers_evolve; [exact He|apply Hs]]|by split|]. cbn [fst snd]. intros st H.
    apply bind_ok in H as (b & _ & H). destruct b; [|apply Ok_inj in H as <-; by destruct redrive]. apply bind_ok in H as (m & _ & <-%Ok_inj). by destruct m.
Qed.

(** An await keeps everything sound. *)
Lemma answer_step_leaves o now w sid at_ s :
  w ∈ heard -> sound s -> knows (st_db s) (channels_of s) w sid at_ -> own_names w sid at_ (channels_of s) = true -> leaves w sid s (answer_step o now w sid at_ s).
Proof.
  intros Hw Hs Hk Ho. destruct at_.
  - apply leaves_stays; [done|]. intros st H. apply bind_ok in H as (pending & Hp%pending_knows & H).
    destruct (answer_mark w); [by injection H as <-|by eapply after_resumed_knows].
  - by apply resumed_leaves.
  - cbn. fold (channels_of s). destruct (get_channel_interaction _ _ _) as [r|] eqn:Hr; (apply leaves_stays; [done|]); intros st;
      [eapply press_knows; [apply Hs|apply Hk|apply Hk|exact Hr]|by intros <-%Ok_inj].
  - apply leaves_settle; [done|]. by intros d c st <-%Ok_inj.
  - by apply closed_leaves.
  - by apply closed_leaves.
  - by apply open_leaves.
  - by apply quoted_leaves; try apply Hk.
  - by apply mark_leaves; try apply Hk.
  - by apply keep_leaves.
  - by apply stage_leaves; try apply Hk.
  - apply leaves_stays; [done|]. intros st H. apply bind_ok in H as (x & _ & H). apply bind_ok in H as (al & _ & <-%Ok_inj). by destruct al.
  - apply leaves_channels; [done| | |by intros st <-%Ok_inj]; (eapply quiet_sound; [..|apply Hs]; done).
  - by apply staged_leaves.
  - by apply engine_leaves.
  - by apply engine_leaves.
  - apply leaves_stays; [done|]. intros st. cbn. unfold gone. destruct (by_mode o) as [e|]; [|by intros <-%Ok_inj].
    destruct e; try done. destruct (Py.in_strs _ _); [|done]. intros <-%Ok_inj. by destruct redrive.
  - apply leaves_settle; [done|]. by intros d c st <-%Ok_inj.
  - apply leaves_settle; [done|]. intros d c st. destruct pending; [destruct confirm|]; try by intros <-%Ok_inj.
    intros H. by apply bind_ok in H as (t & _ & <-%Ok_inj).
  - apply leaves_stays; [done|]. intros st. destruct (Py.is_empty _); [done|]. intros H. apply bind_ok in H as (b & _ & H).
    destruct b; [|done]. destruct r as [[q l]|]; by injection H as <-.
  - apply leaves_settle; [done|]. by intros d c st <-%Ok_inj.
  - apply leaves_stays; [done|]. intros st. destruct (replies w); [|by intros <-%Ok_inj]. intros H. by apply bind_ok in H as (x & _ & <-%Ok_inj).
  - apply leaves_stays; [done|]. by intros st <-%Ok_inj.
Qed.

End Heard.

(** *** More messages *)

Lemma told_by_more heard heard' p a : heard ⊆ heard' -> told_by heard p a -> told_by heard' p a.
Proof. intros Hh (w & Hw & Hg). exists w. split; [by apply Hh|done]. Qed.

Lemma answers_more heard heard' d c : heard ⊆ heard' -> answers_sound heard d c -> answers_sound heard' d c.
Proof.
  intros Hh [H1 H2 H3]. split; [done|done|]. eapply Forall_impl; [exact H3|]. intros q [P1 P2 P3 P4]. split; [done|done| |done].
  eapply Forall_impl; [exact P3|]. intros a (p & Hp & Ht). exists p. split; [done|by eapply told_by_more].
Qed.

Lemma knows_more heard heard' d c w sid at_ : heard ⊆ heard' -> knows heard d c w sid at_ -> knows heard' d c w sid at_.
Proof.
  intros Hh. pose proof (fun p a => told_by_more heard heard' p a Hh) as Ht. destruct at_; cbn; try done; unfold fits; try naive_solver.
  intros Hcm p Ep Has. destruct (Hcm p Ep Has) as (Hv & Hn & Hg). split_and!; [done|done|]. intros i a Hi. destruct (Hg i a Hi) as [E G].
  split; [done|by apply Ht].
Qed.

(** ** Any number of messages at once *)

(** A message being read as an answer, by its worker and in its session. *)
Record place := Place { pl_worker : worker; pl_session : string; pl_stage : stage }.
Record world := World { wd_site : site; wd_places : list place; wd_heard : list worker }.

Definition put_places (ps : list place) (x : world) : world := World (wd_site x) ps (wd_heard x).
Definition move_site (s : site) (x : world) : world := World s (wd_places x) (wd_heard x).

(** A message arrives, goes one await further, fails or is left by its worker; the session's
    own record goes on; a delivery shows a question; questions whose interaction has ended are
    closed; and anything may happen that touches neither the questions nor their answers. *)
Inductive moves (x : world) : world -> Prop :=
| Arrives w sid : moves x (World (wd_site x) (wd_places x ++ [Place w sid AskPending]) (wd_heard x ++ [w]))
| Awaits k w sid at_ o now st s' :
    wd_places x !! k = Some (Place w sid at_) -> own_names w sid at_ (channels_of (wd_site x)) = true ->
    answer_step o now w sid at_ (wd_site x) = (Ok st, s') -> moves x (World s' (<[k := Place w sid st]> (wd_places x)) (wd_heard x))
| Fails k w sid at_ o now e s' :
    wd_places x !! k = Some (Place w sid at_) -> own_names w sid at_ (channels_of (wd_site x)) = true ->
    answer_step o now w sid at_ (wd_site x) = (Raise e, s') -> moves x (World s' (delete k (wd_places x)) (wd_heard x))
| Stops k : moves x (put_places (delete k (wd_places x)) x)
| SessionGoesOn d : evolves (st_db (wd_site x)) d -> contracts_sound d -> moves x (move_site (put_db d (wd_site x)) x)
| ShowsQuestion outbox_id owner generation aliases opening :
    moves x (move_site (put_channels (snd (record_delivery_aliases outbox_id owner generation aliases opening (channels_of (wd_site x)))) (wd_site x)) x)
| ClosesEnded deployment_id sid :
    moves x (move_site (put_channels (close_ended_channel_questions deployment_id sid (st_db (wd_site x)) (channels_of (wd_site x))) (wd_site x)) x)
| Elsewhere i :
    ch_questions (ig_channels i) = ch_questions (channels_of (wd_site x)) -> ch_answers (ig_channels i) = ch_answers (channels_of (wd_site x)) ->
    moves x (move_site (put_ingress i (wd_site x)) x).

Lemma insert_question_sound heard d c q :
  answers_sound heard d c -> qn_question_index q = 0%Z -> qn_answering_item q = None ->
  let c' := with_questions (insert_if_absent same_question q (ch_questions c)) c in answers_sound heard d c' /\ keeps c c'.
Proof.
  intros [H1 H2 H3] Hi Ha c'. split; [|by apply grows_insert_if_absent, _]. unfold c', insert_if_absent.
  destruct (existsb (same_question q) (ch_questions c)) eqn:E; [by split|].
  assert (Hnew : forall q', q' ∈ ch_questions c -> question_key q' <> question_key q).
  { intros q' Hq' Ek. apply not_true_iff_false in E. apply E, existsb_true. exists q'. split; [done|]. by apply asked_as_key. }
  assert (Hin : forall q', q' ∈ ch_questions c -> q' ∈ (ch_questions c ++ [q])%list) by (intros q' Hq'; apply elem_of_app; by left).
  split; cbn.
  - rewrite map_app. apply NoDup_app. split_and!; [done| |apply NoDup_singleton].
    intros k (q' & -> & Hq')%list_elem_of_fmap E2%list_elem_of_singleton. by eapply Hnew.
  - eapply Forall_impl; [exact H2|]. intros a (q' & Hq' & Hk). exists q'. split; [by apply Hin|done].
  - apply Forall_app. split; [exact H3|]. apply Forall_cons. split; [|done].
    assert (Ek : kept_for c q = []).
    { destruct (kept_for c q) as [|a l] eqn:Ek; [done|]. exfalso. assert (Hka : a ∈ kept_for c q) by (rewrite Ek; left).
      apply elem_of_select_where in Hka as [Hk%answer_of_key Hka]. rewrite Forall_forall in H2. destruct (H2 a Hka) as (q' & Hq' & Hk'%asked_as_key).
      eapply Hnew; [exact Hq'|]. rewrite Hk'. exact Hk. }
    change (progress heard d (kept_for c q) q). rewrite Ek. split; rewrite ?Hi, ?Ha; [done|done|done|by intros []].
Qed.

Lemma shows_sound heard d c outbox_id owner generation aliases opening :
  answers_sound heard d c ->
  let c' := snd (record_delivery_aliases outbox_id owner generation aliases opening c) in answers_sound heard d c' /\ keeps c c'.
Proof.
  intros Hc. unfold record_delivery_aliases, update_outbox. cbn. destruct (Nat.eqb _ _); [|by apply quiet_sound].
  destruct (List.find _ _) as [row|]; [|by apply quiet_sound]. destruct opening as [o|]; [|by apply quiet_sound]. cbn.
  match goal with |- answers_sound _ _ (with_aliases _ (with_questions (insert_if_absent _ ?q _) _)) /\ _ =>
    destruct (insert_question_sound heard d c q Hc eq_refl eq_refl) as [H1 H2] end.
  match goal with |- answers_sound _ _ ?c2 /\ _ =>
    match type of H1 with answers_sound _ _ ?c1 => destruct (quiet_sound heard d c1 c2 eq_refl eq_refl H1) as [H3 H4] end end.
  split; [exact H3|]. etrans; [exact H2|exact H4].
Qed.

(** Everything the world holds is sound, and every message at work has arrived. *)
Definition place_sound (x : world) (pl : place) : Prop :=
  pl_worker pl ∈ wd_heard x /\
  knows (wd_heard x) (st_db (wd_site x)) (channels_of (wd_site x)) (pl_worker pl) (pl_session pl) (pl_stage pl).
Definition world_sound (x : world) : Prop := sound (wd_heard x) (wd_site x) /\ Forall (place_sound x) (wd_places x).

Lemma world_goes_on x s ps :
  world_sound x -> sound (wd_heard x) s -> advances (wd_site x) s ->
  (forall pl, pl ∈ ps -> pl ∈ wd_places x \/ place_sound (World s ps (wd_heard x)) pl) ->
  world_sound (World s ps (wd_heard x)).
Proof.
  intros [_ Hp] Hs [Hd Hc] Hps. split; [done|]. rewrite Forall_forall in Hp |- *. intros pl Hpl.
  destruct (Hps pl Hpl) as [H|H]; [|done]. destruct (Hp _ H) as [H1 H2]. split; [done|]. by eapply knows_moves; [exact Hd|exact Hc|].
Qed.

Lemma delete_subset {A} k (l : list A) a : a ∈ delete k l -> a ∈ l.
Proof. intros H. eapply elem_of_submseteq; [exact H|]. apply sublist_submseteq, sublist_delete. Qed.

Lemma moves_sound x y : world_sound x -> moves x y -> world_sound y.
Proof.
  intros Hx Hm. pose proof Hx as [Hs Hp]. destruct Hm as [w sid|k w sid at_ o now st s' Hk Ho E|k w sid at_ o now e s' Hk Ho E|k|d He Hd|id owner g aliases o|dep sid|i Eq Ea].
  - assert (Hh : wd_heard x ⊆ (wd_heard x ++ [w])%list) by set_solver. destruct Hs as [Hd Hc].
    split; [split; [done|by eapply answers_more]|]. apply Forall_app. split.
    + eapply Forall_impl; [exact Hp|]. intros pl [H1 H2]. split; [by apply Hh|by eapply knows_more].
    + apply Forall_singleton. split; [cbn; set_solver|done].
  - rewrite Forall_forall in Hp. destruct (Hp _ (list_elem_of_lookup_2 _ _ _ Hk)) as [Hw Hkn].
    destruct (answer_step_leaves _ o now w sid at_ _ Hw Hs Hkn Ho) as (H1 & H2 & H3).
    rewrite E in *. eapply world_goes_on; [done|done|done|]. intros pl [j Hj]%list_elem_of_lookup. destruct (decide (j = k)) as [->|].
    + rewrite list_lookup_insert_eq in Hj by (by eapply lookup_lt_Some). injection Hj as <-. right. split; [exact Hw|by apply H3].
    + rewrite list_lookup_insert_ne in Hj by done. left. by eapply list_elem_of_lookup_2.
  - rewrite Forall_forall in Hp. destruct (Hp _ (list_elem_of_lookup_2 _ _ _ Hk)) as [Hw Hkn].
    destruct (answer_step_leaves _ o now w sid at_ _ Hw Hs Hkn Ho) as (H1 & H2 & _).
    rewrite E in *. eapply world_goes_on; [done|done|done|]. intros pl H. left. by eapply delete_subset.
  - eapply world_goes_on; [done|done|reflexivity|]. intros pl H. left. by eapply delete_subset.
  - destruct Hs as [_ Hc]. eapply world_goes_on; [done|split; [done|by eapply answers_evolve]|split; [done|unfold keeps; reflexivity]|by left].
  - destruct Hs as [Hd Hc]. destruct (shows_sound _ _ _ id owner g aliases o Hc) as [H1 H2]. eapply world_goes_on; [done|by split|by split|by left].
  - destruct Hs as [Hd Hc].
    destruct (restate_sound _ _ _ (asks_for dep sid (st_db (wd_site x))) _ (put_question_restated CLOSED) Hc) as [H1 H2].
    eapply world_goes_on; [done|by split|by split|by left].
  - destruct Hs as [Hd Hc]. destruct (quiet_sound _ _ _ (ig_channels i) Eq Ea Hc) as [H1 H2]. eapply world_goes_on; [done|by split|by split|by left].
Qed.

Lemma run_sound x y : world_sound x -> rtc moves x y -> world_sound y.
Proof. intros Hx H. induction H as [|x y z Hm _ IH]; [done|]. apply IH. by eapply moves_sound. Qed.

(** Nothing has been asked in a channel yet, and the contracts stored are sound. *)
Record fresh (x : world) : Prop := {
  fr_contracts : contracts_sound (st_db (wd_site x));
  fr_questions : ch_questions (channels_of (wd_site x)) = [];
  fr_answers : ch_answers (channels_of (wd_site x)) = [];
  fr_places : wd_places x = []
}.

Lemma fresh_sound x : fresh x -> world_sound x.
Proof. intros [H1 H2 H3 H4]. split; [|by rewrite H4]. split; [done|]. split; rewrite ?H2, ?H3; constructor. Qed.

(** C20: However many messages answer the questions of waiting agents at once, while sessions go
    on, deliveries show questions and workers stop anywhere: a message that comes to hand a
    pending question its answer has one for each of its questions.  Each is what one of the
    messages that arrived says to that very question, in its participant's name: its text read
    as the reply, or its button, made for this question.  The answer handed over is one the
    gate accepts for the stored contract, and its words are those of these answers, question
    by question.  This supposes stored contracts that the gate accepted, whose question and
    option ids differ by more than the blanks around them ([blank_ids_collide] shows what
    happens otherwise), and questions found under names of their own: no two of a deployment
    whose hashed names collide, no message marked as the answer to another session's. *)
Theorem channel_answers_accepted x y k w sid p r confirm redrive :
  fresh x -> rtc moves x y -> wd_places y !! k = Some (Place w sid (AnswerEngine (Some p) r confirm redrive)) -> asks (Some p) (fst r) = true ->
  exists i answer words,
    get_interaction (qn_session_id (fst r)) (qn_interaction_id (fst r)) (st_db (wd_site y)) = Some i /\
    question_count p = Ok (Z.of_nat (length (snd r))) /\
    (forall n a, snd r !! n = Some a -> an_question_index a = Z.of_nat n /\ exists m, m ∈ wd_heard y /\ gave m p a) /\
    engine_answer p (answers_kept r) = Ok answer /\ validate_interaction_response (ia_contract i) answer = Ok tt /\
    told_words (ia_contract i) answer = Ok words /\ mapM_res answer_words (answers_kept r) = Ok words.
Proof.
  intros Hx%fresh_sound Hrun Hk Ha. destruct (run_sound _ _ Hx Hrun) as [[[_ Hd] _] Hp]. rewrite Forall_forall in Hp. rewrite Forall_forall in Hd.
  destruct (Hp _ (list_elem_of_lookup_2 _ _ _ Hk)) as [_ Hkn]. destruct (Hkn p eq_refl Ha) as (Hv & Hn & Hg).
  unfold view_of in Hv. apply bind_Some in Hv as (i & Hi & Hv). unfold view_of_interaction in Hv.
  destruct (public_interaction_view _ _) as [v|] eqn:Ev; [|done]. subst v.
  assert (Hin : i ∈ db_interactions (st_db (wd_site y))) by (apply list_elem_of_In; unfold get_interaction in Hi; by eapply find_some).
  destruct (Hd i Hin) as (_ & c & pr & Hc & Hpr & Hids & Hrec).
  assert (Hgiven : forall n a, answers_kept r !! n = Some a -> given p (Z.of_nat n) a).
  { intros n a Hna. apply list_lookup_fmap_Some_1 in Hna as (b & -> & Hb). destruct (Hg n b Hb) as [<- (m & _ & Hm & _)]. by eapply gives_given. }
  destruct (answers_told c (ia_contract i) pr p (answers_kept r) Hc Hpr Hids Hrec (view_inv _ _ _ _ Hc Hrec Ev) Hn Hgiven) as (answer & words & H1 & H2 & H3 & H4).
  exists i, answer, words. split_and!; try done. unfold answers_kept in Hn. by rewrite length_map in Hn.
Qed.

(** ** A form answered by two participants, a third too late *)

Fixpoint go_on (n : nat) (o : beyond) (now : Z) (k : nat) (x : world) : world :=
  match n with
  | 0 => x
  | S n =>
      match wd_places x !! k with
      | Some (Place w sid at_) =>
          if own_names w sid at_ (channels_of (wd_site x)) then
            match answer_step o now w sid at_ (wd_site x) with
            | (Ok st, s') => go_on n o now k (World s' (<[k := Place w sid st]> (wd_places x)) (wd_heard x))
            | _ => x
            end
          else x
      | None => x
      end
  end.

Lemma go_on_moves n o now k x : rtc moves x (go_on n o now k x).
Proof.
  revert x. induction n as [|n IH]; intros x; [reflexivity|]. cbn. destruct (wd_places x !! k) as [[w sid at_]|] eqn:Hk; [|reflexivity].
  destruct (own_names _ _ _ _) eqn:Ho; [|reflexivity]. destruct (answer_step _ _ _ _ _ _) as [[st|] s'] eqn:E; [|reflexivity].
  eapply rtc_l; [by eapply Awaits|]. apply IH.
Qed.

Definition form_asked : db :=
  Db [] [] [] [] [] [] [] [] [InteractionRow "s1" "x1" "r1" two_record IOpen None None None 1 None] [] [] 1 1.
Definition said_by (item text reference : string) : inbound_claim :=
  InboundClaim "d1" (Some item) "chat" "a1" "" [("reply_text", VStr text); ("reference", VStr reference)] INBOUND_RECEIVED "" false.
Definition admitted_as (item : string) (i : ingress) : worker :=
  employ (default (claimed_row 0 0 "" "" (said_by item "" "") []) (get_inbound item i)) Begin.
Definition claims (i : ingress) : ingress :=
  fold_left (fun i '(item, text, reference) => snd (claim_inbound (fun _ => true) 0 300 item item (said_by item text reference) i))
    [("m1", " 2, 1", ""); ("m2", "1", ""); ("m3", "over there", "om2")] i.
Definition delivering : outbox_row :=
  OutboxRow "o1" "d1" "s1" "r1" 1 "chat" None [] false false SENDING (Some "D") 1 None 0 None None [].
Definition answered_from (text : list string) : beyond := Beyond None None (Ok true) (Ok text).

Definition before : world := World (Site (claims (Ingress [] [] [] [] (Channels [] [delivering] [] [] []))) form_asked) [] [].
(** The question is shown; three messages arrive; two reach their keeping; both are through; the
    third stages the last answer. *)
Definition show_question (x : world) : world :=
  move_site (put_channels (snd (record_delivery_aliases "o1" "D" 1 ["om1"] (Some (Opening (interaction_ref "d1" "s1" "x1") "x1" two_view))
    (channels_of (wd_site x)))) (wd_site x)) x.
Definition arrive (item : string) (x : world) : world :=
  let w := admitted_as item (st_ingress (wd_site x)) in
  World (wd_site x) (wd_places x ++ [Place w "s1" AskPending]) (wd_heard x ++ [w]).
Definition arrivals (x : world) : world := arrive "m3" (arrive "m2" (arrive "m1" x)).
Definition play (x : world) : world :=
  go_on 8 (answered_from []) 7 2 (go_on 4 (answered_from []) 6 1 (go_on 4 (answered_from ["om2"]) 6 0
    (go_on 3 (answered_from []) 5 1 (go_on 3 (answered_from []) 5 0 x)))).
Definition last_staged : world := play (arrivals (show_question before)).

Lemma show_moves x : moves x (show_question x).
Proof. apply (ShowsQuestion x "o1" "D" 1 ["om1"] (Some (Opening (interaction_ref "d1" "s1" "x1") "x1" two_view))). Qed.

Lemma arrive_moves item x : moves x (arrive item x).
Proof. exact (Arrives x (admitted_as item (st_ingress (wd_site x))) "s1"). Qed.

Lemma play_moves x : rtc moves x (play x).
Proof. unfold play. do 4 (etrans; [apply go_on_moves|]). apply go_on_moves. Qed.

Lemma arrivals_moves x : rtc moves x (arrivals x).
Proof. unfold arrivals. do 3 (eapply rtc_l; [apply arrive_moves|]). reflexivity. Qed.

(** The message that answers last, and the question's row with the answers it hands over. *)
Definition answering (x : world) : option (worker * record) :=
  match wd_places x !! 2%nat with Some (Place w _ (AnswerEngine _ r _ _)) => Some (w, r) | _ => None end.
Definition answerer : worker := default (admitted_as "" (st_ingress (wd_site before))) (fst <$> answering last_staged).
Definition answered : record := default (QuestionRow "" "" "" "" None "" [] [] OPEN 0 None, []) (snd <$> answering last_staged).

Lemma before_fresh : fresh before.
Proof.
  split; [|vm_compute; reflexivity..]. split; [repeat constructor; by intros ?%elem_of_nil|]. apply Forall_cons. split; [|done]. split; [done|].
  exists two_questions, PRESENTATION_FORM. split_and!; [vm_compute; reflexivity|done|exact two_ids_apart|exact two_stored].
Qed.

Lemma form_answered x : rtc moves x (play (arrivals (show_question x))).
Proof. eapply rtc_l; [apply show_moves|]. etrans; [apply arrivals_moves|]. apply play_moves. Qed.

(** Two participants answer the first question at once: one of them is told it was already
    answered; the second question is answered in a participant's own words. *)
Lemma channel_answers_accepted_witness :
  map an_answer_row (snd answered) =
    [[("question_id", VStr "q1"); ("option_labels", VList [VStr "B"; VStr "A"])]; [("question_id", VStr "q2"); ("free_text", VStr "over there")]] /\
  exists i answer words,
    get_interaction (qn_session_id (fst answered)) (qn_interaction_id (fst answered)) (st_db (wd_site last_staged)) = Some i /\
    question_count two_view = Ok (Z.of_nat (length (snd answered))) /\
    (forall n a, snd answered !! n = Some a -> an_question_index a = Z.of_nat n /\ exists m, m ∈ wd_heard last_staged /\ gave m two_view a) /\
    engine_answer two_view (answers_kept answered) = Ok answer /\ validate_interaction_response (ia_contract i) answer = Ok tt /\
    told_words (ia_contract i) answer = Ok words /\ mapM_res answer_words (answers_kept answered) = Ok words.
Proof.
  split; [vm_compute; reflexivity|].
  apply (channel_answers_accepted before last_staged 2 answerer "s1" two_view answered false false).
  - exact before_fresh.
  - exact (form_answered before).
  - vm_compute. reflexivity.
  - vm_compute. reflexivity.
Defined.
End AnswerFacts.
