(* ===== verification/ChannelIngest.v ===== *)
(** [ingest_resolved] of [channel_ingress_service.py] with what it calls, over [ChannelInbound]
    of [seams/channel.py]: how what a platform reports is classified and recorded, how the two
    halves of a message meet, and what is handed to a drive, one await after another.  The fields
    a provider adds to its own acknowledgement are left out. *)

From S2P Require Import Prelude PyVal Schema SessionRepo ChannelOutbox ChannelInbound ChannelDrive ChannelQuestions.

Open Scope string_scope.

Module Ingest.
Import Repo Outbox Inbound Drive Questions.

(** ** What a provider reports *)

Inductive signal := SIGNAL_MESSAGE | SIGNAL_OBSERVATION | SIGNAL_AUTHORIZATION.

#[export] Instance signal_dec : EqDecision signal.
Proof. solve_decision. Defined.

Record attention := Attention { an_direct_message : bool; an_mention : bool; an_reply_to_agent : bool }.
Definition any_signal (a : attention) : bool := an_direct_message a || an_mention a || an_reply_to_agent a.

Record alias_link := AliasLink { ak_existing_alias : string; ak_new_alias : string }.
Record recall := Recall { rc_message_id : string; rc_timestamp : string }.

Record attachment := Attachment { af_src : string; af_kind : string; af_title : option string }.

(** A column's value of an optional text. *)
Definition opt_text (o : option string) : val := match o with Some t => VStr t | None => VNone end.

(** [to_dict]. *)
Definition attachment_dict (a : attachment) : val :=
  VDict [("src", VStr (af_src a)); ("kind", VStr (af_kind a)); ("title", opt_text (af_title a))].

(** [ChannelInbound]. *)
Record message := Message {
  mg_content : string;
  mg_reply_context : option dict;
  mg_dedup_key : option string;
  mg_conversation_key : option string;
  mg_attention : option attention;
  mg_reference : option string;
  mg_conversation_from_reference : bool;
  mg_participant : option string;
  mg_alias_link : option alias_link;
  mg_ignore_reason : option string;
  mg_message_timestamp : option string;
  mg_retain_context : bool;
  mg_recall : option recall;
  mg_action : option string;
  mg_signal : signal;
  mg_attachments : list attachment
}.

(** A text that is there and not empty. *)
Definition filled (o : option string) : bool := match o with Some t => negb (Py.is_empty t) | None => false end.
Definition attended (m : message) : bool := match mg_attention m with Some a => any_signal a | None => false end.

(** [__post_init__]: what a provider can construct. *)
Definition constructible (m : message) : bool :=
  (if mg_conversation_from_reference m then filled (mg_reference m) && filled (mg_conversation_key m) else true) &&
  match mg_signal m with
  | SIGNAL_MESSAGE => true
  | sig =>
      negb (bool_decide (is_Some (mg_alias_link m))) && negb (bool_decide (is_Some (mg_recall m))) && negb (filled (mg_action m)) &&
      filled (mg_dedup_key m) && filled (mg_participant m) &&
      match sig with
      | SIGNAL_OBSERVATION =>
          negb (bool_decide (is_Some (mg_reply_context m))) && mg_retain_context m && filled (mg_conversation_key m) && filled (mg_message_timestamp m)
      | _ =>
          Py.is_empty (mg_content m) && negb (mg_retain_context m) && negb (filled (mg_message_timestamp m)) && negb (filled (mg_reference m)) &&
          attended m
      end
  end.

(** ** Policies *)

Definition EXECUTION_OWNER : string := "owner".
Definition EXECUTION_ACCOUNT : string := "account".
Definition ATTENTION_POLICY_ALL : string := "all".
Definition ATTENTION_POLICY_MENTIONS : string := "mentions".
Definition RESPONSE_POLICY_PARTICIPATED : string := "participated".
Definition RESPONSE_POLICY_PROACTIVE : string := "proactive".
Definition RESPONSE_POLICIES : list string := [RESPONSE_POLICY_PARTICIPATED; RESPONSE_POLICY_PROACTIVE].
Definition ADDRESSED_ONLY_POLICIES : list string := ATTENTION_POLICY_MENTIONS :: RESPONSE_POLICIES.
Definition EXECUTION_MODE_UNSUPPORTED : string := "CHANNEL_EXECUTION_MODE_UNSUPPORTED".
Definition REFERENCE_RESOLVE_ATTEMPTS : nat := 3.
Definition MESSAGE_FACTS : list string :=
  ["reply_text"; "conversation_key"; "reference"; "participant"; "retain_context"; "message_timestamp"; "provider_ignore_reason"; "conversation"].
Definition IDENTITY_FIELDS : list string := ["participant"; "conversation_key"].

Definition binding_execution_mode (binding : dict) : string :=
  let mode := Py.clean (Py.get "execution_mode" binding) in
  if Py.is_empty mode then (if Py.is_empty (Py.clean (Py.get "execution_user_id" binding)) then EXECUTION_OWNER else EXECUTION_ACCOUNT) else mode.

Definition binding_policy (binding : dict) : string :=
  Py.lower (Py.strip (Py.str (Py.por (Py.get "attention_policy" binding) (VStr ATTENTION_POLICY_ALL)))).

(** [allowed_participants], a list of ids. *)
Definition participant_refused (binding : dict) (m : message) : bool :=
  match Py.get "allowed_participants" binding with
  | VList ((_ :: _) as allowed) => negb (existsb (Py.eqb (VStr (default "" (mg_participant m)))) allowed)
  | _ => false
  end.

(** The policy does not address the message. *)
Definition unaddressed (binding : dict) (m : message) : bool := Py.in_strs (binding_policy binding) ADDRESSED_ONLY_POLICIES && negb (attended m).

Definition prefixed (prefix content : string) : string := if Py.is_empty prefix then content else prefix ++ newline ++ newline ++ content.

(** [_Classification]. *)
Record classification := Classification {
  cl_state : inbound_state;
  cl_reason : option string;
  cl_excluded : bool;
  cl_judge_candidate : bool
}.
Definition recorded_as (s : inbound_state) : classification := Classification s None false false.
Definition ignored (reason : string) (excluded : bool) : classification := Classification INBOUND_IGNORED (Some reason) excluded false.

(** [_classify]; [shown] tells the questions this platform showed. *)
Definition classify (shown : string -> bool) (binding : dict) (m : message) : classification :=
  let provider_reason := Py.strip (default "" (mg_ignore_reason m)) in
  if participant_refused binding m then ignored "participant is not allowed by this binding" true
  else if negb (Py.is_empty provider_reason) then ignored provider_reason false
  else match mg_signal m with
  | SIGNAL_OBSERVATION => recorded_as INBOUND_OBSERVED
  | SIGNAL_AUTHORIZATION => recorded_as INBOUND_AUTHORIZED
  | SIGNAL_MESSAGE =>
      if filled (mg_action m) then
        match parse_action (default "" (mg_action m)) with
        | Some target => if shown (at_ref target) then recorded_as INBOUND_RECEIVED else ignored "unknown_interaction_action" false
        | None => ignored "unknown_interaction_action" false
        end
      else if unaddressed binding m then
        if Py.in_strs (binding_policy binding) RESPONSE_POLICIES && mg_retain_context m
        then Classification INBOUND_RECEIVED None false true else recorded_as INBOUND_OBSERVED
      else recorded_as INBOUND_RECEIVED
  end.

(** The signal runs a message, as far as its mode is supported. *)
Definition runs (c : classification) : bool := bool_decide (cl_state c ∈ [INBOUND_RECEIVED; INBOUND_AUTHORIZED]).

(** ** The record of a message *)

(** The resolved target: an agent or an assistant, with the account it runs as by default. *)
Record target := Target { tg_assistant : bool; tg_id : string; tg_owner_user_id : string }.

(** The accounts a message runs as: the execution user and the creator. *)
Definition accounts (binding : dict) (t : target) : res (string * string) :=
  let mode := binding_execution_mode binding in
  if mode =s EXECUTION_LINKED then Ok ("", "")
  else
    let execution_user_id := if mode =s EXECUTION_ACCOUNT then Py.clean (Py.get "execution_user_id" binding) else "" in
    if (mode =s EXECUTION_ACCOUNT) && Py.is_empty execution_user_id then Raise RuntimeError
    else
      let creator := Py.a_or execution_user_id (tg_owner_user_id t) in
      if Py.is_empty creator then Raise (APIError "DEPLOYMENT_NO_OWNER" 409) else Ok (execution_user_id, creator).

Definition orderable (binding : dict) (m : message) : bool :=
  filled (mg_dedup_key m) && filled (mg_conversation_key m) && filled (mg_message_timestamp m) && filled (mg_participant m) &&
  Py.truthy (Py.get "updated_at" binding).

Definition payload_from (binding : dict) (m : message) (execution_user_id creator : string) : dict :=
  let prefix := Py.clean (Py.get "prompt_prefix" binding) in
  [("content", VStr (if bool_decide (mg_signal m = SIGNAL_AUTHORIZATION) then "" else prefixed prefix (mg_content m)));
   ("reply_text", VStr (mg_content m));
   ("attachments", VList (map attachment_dict (mg_attachments m)));
   ("action", opt_text (mg_action m));
   ("conversation_key", opt_text (mg_conversation_key m));
   ("reply_context", match mg_reply_context m with Some ((_ :: _) as d) => VDict d | _ => VNone end);
   ("reference", opt_text (mg_reference m));
   ("participant", opt_text (mg_participant m));
   ("provider_ignore_reason", opt_text (mg_ignore_reason m));
   ("creator_user_id", VStr creator);
   ("execution_user_id", VStr execution_user_id);
   ("execution_mode", VStr (binding_execution_mode binding));
   ("retain_context", VBool (mg_retain_context m));
   ("message_timestamp", opt_text (mg_message_timestamp m));
   ("binding_revision", Py.get "updated_at" binding);
   ("prompt_prefix", VStr prefix)].

(** The payload, up to the first await that classifies. *)
Definition drafted (binding : dict) (m : message) (t : target) : res dict :=
  '(execution_user_id, creator) ← accounts binding t;
  if mg_retain_context m && negb (orderable binding m) then Raise RuntimeError
  else Ok (payload_from binding m execution_user_id creator).

(** [_response_selection] of what the topic's records say. *)
Definition response_selection (binding payload : dict) (participated : bool) : option dict :=
  let policy := binding_policy binding in
  if (policy =s RESPONSE_POLICY_PARTICIPATED) && negb participated then None
  else Some [("selection", VStr "judge"); ("selection_reason", VStr (if participated then "participated_topic" else "proactive_policy"));
             ("participated", VBool participated);
             ("response_policy", VDict [("mode", VStr policy); ("instruction", VStr (Py.str_or_empty (Py.get "response_instruction" binding)))])].

(** [_admitted_payload]. *)
Definition admitted_payload (facts admission : dict) : dict :=
  let known := Py.update admission (map (fun name => (name, Py.get name facts)) MESSAGE_FACTS) in
  Py.set "content" (VStr (prefixed (Py.str_or_empty (Py.get "prompt_prefix" admission)) (Py.str_or_empty (Py.get "reply_text" facts)))) known.

Definition conflicts (facts admission : dict) : list string :=
  List.filter (fun name => Py.truthy (Py.get name facts) && Py.truthy (Py.get name admission) && negb (Py.eqb (Py.get name facts) (Py.get name admission)))
    IDENTITY_FIELDS.

(** ** Ingesting *)

(** What comes from outside: whether the binding belongs to this environment; the channel its
    scene names; the target it resolves to; the modes its provider supports. *)
Record services := Services {
  sv_environment : option exn;
  sv_target : res (option target);
  sv_modes : list string
}.

(** What a claim is made under: the environment's bindings, the time, and fresh names. *)
Record claim_names := ClaimNames { cn_here : string -> bool; cn_now : Z; cn_lease : Z; cn_item_id : string; cn_owner : string }.

(** One report on its way in. *)
Record report := Report { rp_binding : dict; rp_message : message }.
Definition deployment_of (r : report) : string := Py.str_or_empty (Py.get "deployment_id" (rp_binding r)).

Definition CHANNEL_SCENE_PREFIX : string := "channel:".
(** [channel_scene_name]. *)
Definition channel_scene_name (scene : string) : option string :=
  match after_prefix CHANNEL_SCENE_PREFIX (Py.strip scene) with
  | Some name => let name := Py.lower (Py.strip name) in if Py.is_empty name then None else Some name
  | None => None
  end.

Inductive status := Recalled | Enriched | EnrichUnmatched | Suppressed (outcome : claim_outcome).
(** [ChannelIngressReceipt]. *)
Record receipt := Receipt { rc_status : status; rc_item_id : string; rc_session_id : option string }.

Record draft := Draft { dr_target : target; dr_channel : string; dr_payload : dict; dr_decision : classification }.
Definition with_draft_payload (p : dict) (d : draft) : draft := Draft (dr_target d) (dr_channel d) p (dr_decision d).
Definition with_decision (c : classification) (d : draft) : draft := Draft (dr_target d) (dr_channel d) (dr_payload d) c.

(** The await a report is at.  [Admits] hands the record to a drive. *)
Inductive arriving :=
| Enter
| ApplyRecall
| LinkAlias (link : alias_link) (attempts : nat)
| ResolveTarget (channel : string)
| Classify (t : target) (channel : string) (payload : dict)
| FindAlias (d : draft) (attempts : nat)
| FindMessage (d : draft) (attempts : nat)
| AskTopic (d : draft)
| Claims (d : draft)
| NoteAttention (d : draft) (item : inbound_row) (outcome : claim_outcome)
| RefuseSignals (item : inbound_row) (facts admission : dict)
| ObserveContent (d : draft) (item : inbound_row) (facts : dict) (attempts : nat)
| Promote (d : draft) (item : inbound_row) (payload : dict) (attempts : nat)
| ReadAgain (d : draft) (item : inbound_row) (attempts : nat)
| Admits (item : inbound_row)
| Answers (r : receipt).

(** [_admit_recorded] as far as its first write. *)
Definition admit_recorded (d : draft) (item : inbound_row) (attempts : nat) : arriving :=
  let recorded := payload_of item in
  let '(facts, admission) := if bool_decide (state_of item = INBOUND_OBSERVED) then (recorded, dr_payload d) else (dr_payload d, recorded) in
  match conflicts facts admission with
  | _ :: _ => RefuseSignals item facts admission
  | [] =>
      match im_recall (ib_marks item) with
      | Some _ =>
          if bool_decide (state_of item = INBOUND_OBSERVED) then Answers (Receipt (Suppressed CLAIM_OUTCOME_IGNORED) (ib_item_id item) None)
          else ObserveContent d item facts attempts
      | None => Promote d item (admitted_payload facts admission) attempts
      end
  end.

(** [_receipt_status]. *)
Definition receipt_status (s : inbound_state) : claim_outcome :=
  match s with
  | INBOUND_SETTLED => CLAIM_OUTCOME_DUPLICATE
  | INBOUND_IGNORED => CLAIM_OUTCOME_IGNORED
  | INBOUND_OBSERVED => CLAIM_OUTCOME_OBSERVED
  | INBOUND_AUTHORIZED => CLAIM_OUTCOME_AUTHORIZED
  | _ => CLAIM_OUTCOME_IN_PROGRESS
  end.

(** After the claim: what its outcome leads to. *)
Definition after_claim (r : report) (d : draft) (item : inbound_row) (outcome : claim_outcome) : arriving :=
  let c := dr_decision d in
  let admits := runs c && negb (cl_judge_candidate c) in
  if bool_decide (outcome = CLAIM_OUTCOME_CLAIMED) then Admits item
  else if bool_decide (outcome = CLAIM_OUTCOME_OBSERVED) && admits then admit_recorded d item 3
  else if bool_decide (outcome = CLAIM_OUTCOME_AUTHORIZED) && negb (bool_decide (mg_signal (rp_message r) = SIGNAL_AUTHORIZATION)) &&
          negb (bool_decide (cl_state c = INBOUND_IGNORED)) then admit_recorded d item 3
  else
    let outcome :=
      match cl_state c with
      | INBOUND_OBSERVED => CLAIM_OUTCOME_OBSERVED
      | INBOUND_IGNORED => if bool_decide (outcome ∈ [CLAIM_OUTCOME_OBSERVED; CLAIM_OUTCOME_AUTHORIZED]) then CLAIM_OUTCOME_IGNORED else outcome
      | _ => outcome
      end in
    Answers (Receipt (Suppressed outcome) (ib_item_id item) (nonempty (im_session_id (ib_marks item)))).

(** The conversation is known: a candidate of the judge is selected, anything else is claimed. *)
Definition after_conversation (conversation : val) (d : draft) : arriving :=
  let d := with_draft_payload (Py.set "conversation" conversation (dr_payload d)) d in
  if cl_judge_candidate (dr_decision d) then
    if Py.truthy (Py.get "conversation" (dr_payload d)) && Py.truthy (Py.get "binding_revision" (dr_payload d)) then AskTopic d
    else Claims (with_decision (recorded_as INBOUND_OBSERVED) d)
  else Claims d.

(** [_message_conversation] as far as its first read. *)
Definition message_conversation (m : message) (d : draft) : arriving :=
  if bool_decide (mg_signal m = SIGNAL_AUTHORIZATION) || filled (mg_action m) then after_conversation VNone d
  else if mg_conversation_from_reference m then
    FindAlias d (if bool_decide (cl_state (dr_decision d) = INBOUND_RECEIVED) then REFERENCE_RESOLVE_ATTEMPTS else 1)
  else after_conversation (opt_text (mg_conversation_key m)) d.

(** What the decision leads to; [modes] are those the provider supports. *)
Definition after_classify (modes : list string) (r : report) (d : draft) : arriving :=
  let unsupported := runs (dr_decision d) && negb (Py.in_strs (binding_execution_mode (rp_binding r)) modes) in
  let d := if unsupported then with_decision (ignored EXECUTION_MODE_UNSUPPORTED true) d else d in
  if bool_decide (cl_state (dr_decision d) = INBOUND_IGNORED) then Claims d else message_conversation (rp_message r) d.

Definition the_claim (r : report) (d : draft) : inbound_claim :=
  let t := dr_target d in let c := dr_decision d in
  InboundClaim (deployment_of r) (mg_dedup_key (rp_message r)) (dr_channel d) (if tg_assistant t then "" else tg_id t)
    (if tg_assistant t then tg_id t else "") (dr_payload d) (cl_state c) (default "" (cl_reason c)) (cl_excluded c).

Definition was_shown (deployment_id : string) (i : ingress) (ref : string) : bool :=
  bool_decide (is_Some (get_channel_interaction deployment_id ref (ig_channels i))).

Definition ingest_step (sv : services) (cn : claim_names) (r : report) (at_ : arriving) (i : ingress) : res arriving * ingress :=
  let m := rp_message r in
  let deployment := deployment_of r in
  let stays x := (x, i) in
  match at_ with
  | Enter =>
      stays (match sv_environment sv with
             | Some e => Raise e
             | None =>
                 match channel_scene_name (Py.str_or_empty (Py.get "scene" (rp_binding r))) with
                 | None => Raise (APIError "NOT_A_CHANNEL" 409)
                 | Some channel =>
                     match mg_recall m, mg_alias_link m with
                     | Some _, _ => Ok ApplyRecall
                     | None, Some link =>
                         Ok (if Py.is_empty (ak_existing_alias link) || Py.is_empty (ak_new_alias link) then Answers (Receipt EnrichUnmatched "" None)
                             else LinkAlias link REFERENCE_RESOLVE_ATTEMPTS)
                     | None, None => Ok (ResolveTarget channel)
                     end
                 end
             end)
  | ApplyRecall =>
      match mg_recall m with
      | None => stays (Raise AssertionError)
      | Some rc =>
          let '(applied, i') := record_recall deployment (default "" (mg_conversation_key m)) (default "" (mg_dedup_key m)) (rc_message_id rc)
                                  (rc_timestamp rc) i in
          ((applied ← applied; Ok (Answers (Receipt (if applied : bool then Recalled else Suppressed CLAIM_OUTCOME_IGNORED) "" None))), i')
      end
  | LinkAlias link attempts =>
      match attempts with
      | 0 => stays (Ok (Answers (Receipt EnrichUnmatched "" None)))
      | S attempts =>
          let '(linked, c) := Outbox.link_alias deployment (ak_existing_alias link) (ak_new_alias link) (ig_channels i) in
          (Ok (match linked with
               | Some a => Answers (Receipt Enriched "" (nonempty (Some (al_session_id a))))
               | None => LinkAlias link attempts
               end), with_channels c i)
      end
  | ResolveTarget channel =>
      stays (t ← sv_target sv;
             match t with
             | None => Raise (APIError "NOT_FOUND" 404)
             | Some t => payload ← drafted (rp_binding r) m t; Ok (Classify t channel payload)
             end)
  | Classify t channel payload =>
      stays (Ok (after_classify (sv_modes sv) r (Draft t channel payload (classify (was_shown deployment i) (rp_binding r) m))))
  | FindAlias d attempts =>
      stays (Ok (match attempts with
                 | 0 => after_conversation (opt_text (mg_conversation_key m)) d
                 | S _ => match resolve_alias deployment (default "" (mg_reference m)) (ig_channels i) with
                          | Some a => if filled (al_conversation_key a) then after_conversation (opt_text (al_conversation_key a)) d
                                      else FindMessage d attempts
                          | None => FindMessage d attempts
                          end
                 end))
  | FindMessage d attempts =>
      let conversation := match get_message_record deployment (default "" (mg_reference m)) i with Some q => text "conversation" q | None => None end in
      stays (Ok (if filled conversation then after_conversation (opt_text conversation) d else FindAlias d (pred attempts)))
  | AskTopic d =>
      let asked name := Py.str (Py.get name (dr_payload d)) in
      stays (Ok (match response_selection (rp_binding r) (dr_payload d)
                         (topic_has_participation deployment (asked "conversation") (asked "binding_revision") i) with
                 | None => Claims (with_decision (recorded_as INBOUND_OBSERVED) d)
                 | Some selection => Claims (with_draft_payload (Py.update (dr_payload d) selection) d)
                 end))
  | Claims d =>
      let '(answer, i') := claim_inbound (cn_here cn) (cn_now cn) (cn_lease cn) (cn_item_id cn) (cn_owner cn) (the_claim r d) i in
      (('(item, outcome) ← answer;
        Ok (if bool_decide (outcome ∈ [CLAIM_OUTCOME_IN_PROGRESS; CLAIM_OUTCOME_CLAIMED]) &&
               bool_decide (cl_state (dr_decision d) = INBOUND_RECEIVED) && negb (cl_judge_candidate (dr_decision d)) &&
               text_is "selection" "judge" item
            then NoteAttention d item outcome else after_claim r d item outcome)), i')
  | NoteAttention d item outcome =>
      let '(_, i') := note_explicit_attention (ib_item_id item) i in (Ok (after_claim r d item outcome), i')
  | RefuseSignals item facts admission =>
      let reason := "CHANNEL_SIGNAL_IDENTITY_CONFLICT: " ++ String.concat ", " (conflicts facts admission) in
      let '(refused, i') := refuse_unadmitted_inbound (ib_item_id item) (state_of item) (generation_of item) reason i in
      ((_ ← refused; Ok (Answers (Receipt (Suppressed CLAIM_OUTCOME_IGNORED) (ib_item_id item) None))), i')
  | ObserveContent d item facts attempts =>
      let '(observed, i') := observe_authorized_inbound (ib_item_id item) (generation_of item) facts i in
      ((observed ← observed;
        Ok (match observed with
            | Some _ => Answers (Receipt (Suppressed CLAIM_OUTCOME_OBSERVED) (ib_item_id item) None)
            | None => ReadAgain d item attempts
            end)), i')
  | Promote d item payload attempts =>
      let '(promoted, i') := promote_inbound (cn_now cn) (cn_lease cn) (cn_owner cn) (ib_item_id item) (state_of item) (generation_of item) payload i in
      ((promoted ← promoted; Ok (match promoted with Some rec => Admits rec | None => ReadAgain d item attempts end)), i')
  | ReadAgain d item attempts =>
      let current := default item (get_inbound (ib_item_id item) i) in
      stays (Ok (if bool_decide (state_of current = state_of item) && (1 <? attempts)%nat then admit_recorded d current (pred attempts)
                 else Answers (Receipt (Suppressed (receipt_status (state_of current))) (ib_item_id item) (nonempty (im_session_id (ib_marks current))))))
  | Admits item => stays (Ok (Admits item))
  | Answers x => stays (Ok (Answers x))
  end.

(** One report from its entry, under the same answers from outside, until it is admitted or
    answered. *)
Fixpoint ingest (n : nat) (sv : services) (cn : claim_names) (r : report) (at_ : arriving) (i : ingress) : res arriving * ingress :=
  match n with
  | 0 => (Ok at_, i)
  | S n => match ingest_step sv cn r at_ i with (Ok at', i') => ingest n sv cn r at' i' | raised => raised end
  end.
End Ingest.
