(* ===== verification/IngestFacts.v ===== *)
(** What is recorded of platforms' reports, and what of it runs: whatever reports, drives and
    sweeps run beside each other, a message runs only when a report of it asked for it, with the
    words of a report of it, and neither from a sender the binding refuses. *)

From S2P Require Import Prelude PyVal Schema SessionRepo SessionRecord ChannelOutbox ChannelInbound ChannelDrive ChannelQuestions QuestionFacts ChannelIngest.

Open Scope string_scope.

Module IngestFacts.
Import Repo Rec Outbox Inbound Drive Questions Ingest.

(** ** What every other call keeps of a record *)

(** The record waits to run, runs or has run. *)
Definition asked_state (s : inbound_state) : bool :=
  bool_decide (s ∈ [INBOUND_RECEIVED; INBOUND_DISPATCHING; INBOUND_SETTLED; INBOUND_AUTHORIZED]).

Record told (r r' : inbound_row) : Prop := {
  to_id : ib_item_id r' = ib_item_id r;
  to_message : ib_deployment_id r' = ib_deployment_id r /\ ib_dedup_key r' = ib_dedup_key r;
  to_text : Py.get "reply_text" (ib_columns r') = Py.get "reply_text" (ib_columns r);
  to_content : Py.get "content" (ib_columns r') = Py.get "content" (ib_columns r);
  to_sender : Py.get "participant" (ib_columns r') = Py.get "participant" (ib_columns r);
  to_asked : asked_state (state_of r') = true -> asked_state (state_of r) = true;
  to_ignored : state_of r = INBOUND_IGNORED -> state_of r' = INBOUND_IGNORED
}.

#[export] Instance told_preorder : PreOrder told.
Proof. split; [by constructor|]. intros x y z [] []. constructor; try congruence; [intuition congruence|auto..]. Qed.

Definition tells (i i' : ingress) : Prop := Forall2 told (ig_inbound i) (ig_inbound i').

Lemma tells_same i i' : ig_inbound i' = ig_inbound i -> tells i i'.
Proof. unfold tells. intros ->. apply Forall_Forall2_diag, Forall_forall. intros r _. reflexivity. Qed.

Lemma Forall2_trans_told t1 t2 t3 : Forall2 told t1 t2 -> Forall2 told t2 t3 -> Forall2 told t1 t3.
Proof.
  intros H. revert t3. induction H as [|a b la lb Hab _ IH]; intros t3 H'; inversion H'; subst; constructor; [by etrans|by apply IH].
Qed.

#[export] Instance tells_preorder : PreOrder tells.
Proof. split; [intros i; by apply tells_same|]. intros x y z. apply Forall2_trans_told. Qed.

Lemma where_told cond set t : (forall r, cond r = true -> told r (set r)) -> Forall2 told t (update_where cond set t).
Proof.
  intros H. induction t as [|r t IH]; [constructor|]. cbn. constructor; [|done]. destruct (cond r) eqn:E; [by apply H|reflexivity].
Qed.

Lemma update_tells cond set i : (forall r, cond r = true -> told r (set r)) -> tells i (snd (update_inbound cond set i)).
Proof. intros H. by apply where_told. Qed.

Lemma told_marks f r : told r (put_marks f r).
Proof. by constructor. Qed.

Lemma told_work f r :
  (asked_state (iw_state (f (ib_work r))) = true -> asked_state (state_of r) = true) -> state_of r <> INBOUND_IGNORED -> told r (put_work f r).
Proof. intros H1 H2. by constructor. Qed.

Lemma live_asked r : in_state_of LIVE_STATES r = true -> asked_state (state_of r) = true /\ state_of r <> INBOUND_IGNORED.
Proof.
  unfold in_state_of, LIVE_STATES. rewrite bool_decide_eq_true, elem_of_cons, list_elem_of_singleton. by intros [-> | ->].
Qed.

Lemma told_live f r : in_state_of LIVE_STATES r = true -> told r (put_work f r).
Proof. intros [H1 H2]%live_asked. by apply told_work. Qed.

Lemma owned_live_state states id owner g r : (forall s, s ∈ states -> s ∈ LIVE_STATES) -> owned_in states id owner g r = true -> in_state_of LIVE_STATES r = true.
Proof. intros H Ho. unfold owned_in, in_state_of in *. bool_prop. rewrite bool_decide_eq_true. auto. Qed.

(** A call under the owner's fence changes a live record's work, marks and accounts. *)
Lemma owned_tells id owner g set i :
  (forall r, in_state_of LIVE_STATES r = true -> told r (set r)) -> tells i (snd (update_inbound (owned id owner g) set i)).
Proof. intros H. apply update_tells. intros r Ho. by eapply H, owned_live_state. Qed.

Lemma dispatching_tells id owner g extra set i :
  (forall r, in_state_of LIVE_STATES r = true -> told r (set r)) ->
  tells i (snd (update_inbound (fun r => owned_dispatching id owner g r && extra r) set i)).
Proof.
  intros H. apply update_tells. intros r [Ho _]%andb_true_iff. eapply H, owned_live_state; [|exact Ho]. intros s ->%list_elem_of_singleton. right. left.
Qed.

Lemma begin_tells now lease id owner g i : tells i (snd (begin_inbound_dispatch now lease id owner g i)).
Proof. apply owned_tells. intros r. apply told_live. Qed.
Lemma renew_tells now lease id owner g i : tells i (snd (renew_inbound_lease now lease id owner g i)).
Proof. apply owned_tells. intros r. apply told_live. Qed.
Lemma release_tells now id owner g i : tells i (snd (release_inbound_lease now id owner g i)).
Proof. apply owned_tells. intros r. apply told_live. Qed.
Lemma bind_tells id owner g session key i : tells i (snd (bind_inbound_dispatch id owner g session key i)).
Proof. apply owned_tells. intros r _. apply told_marks. Qed.
Lemma answer_tells id owner g ref q i : tells i (snd (mark_inbound_answer id owner g ref q i)).
Proof. apply owned_tells. intros r _. apply told_marks. Qed.
Lemma attention_tells id i : tells i (snd (note_explicit_attention id i)).
Proof. apply update_tells. intros r _. apply told_marks. Qed.
Lemma judgment_tells id owner g j i : tells i (snd (record_inbound_judgment id owner g j i)).
Proof. apply dispatching_tells. intros r _. apply told_marks. Qed.
Lemma suppress_tells id owner g i : tells i (snd (suppress_judged_inbound id owner g i)).
Proof. apply (dispatching_tells id owner g _ (put_work put_released)). intros r. apply told_live. Qed.
Lemma ignored_tells id owner g reason out i : tells i (snd (mark_inbound_ignored id owner g reason out i)).
Proof.
  apply owned_tells. intros r Hl. cbv zeta. assert (H : told r (put_work (put_ignored reason) r)) by (by apply told_live).
  destruct out; [|done]. etrans; [exact H|apply told_marks].
Qed.

Lemma fail_tells now id owner g error backoff i : tells i (snd (fail_inbound now id owner g error backoff i)).
Proof.
  unfold fail_inbound. destruct (readback _ _) as [row i'] eqn:E. apply (f_equal snd) in E. cbn [snd] in *. subst i'.
  apply owned_tells. intros r. apply told_live.
Qed.

Lemma exclude_tells id owner g i : tells i (snd (exclude_inbound_from_context id owner g i)).
Proof.
  unfold exclude_inbound_from_context. destruct (update_inbound _ _ i) as [b i'] eqn:E. apply (f_equal snd) in E. cbn [snd] in *. subst i'.
  apply owned_tells. intros r _. apply told_marks.
Qed.

Lemma account_told id r :
  told r (put_columns (Py.set "execution_user_id" (VStr id) (Py.set "creator_user_id" (VStr id) (ib_columns r))) r).
Proof. constructor; try done; cbn [put_columns ib_columns]; by rewrite !get_set_ne. Qed.

Lemma capture_tells id owner g user i : tells i (snd (capture_inbound_account id owner g user i)).
Proof.
  unfold capture_inbound_account. destruct (readback _ _) as [row i'] eqn:E. apply (f_equal snd) in E. cbn [snd] in *. subst i'.
  apply update_tells. intros r _. apply account_told.
Qed.

Lemma freeze_tells id owner g content context i : tells i (snd (freeze_inbound_input id owner g content context i)).
Proof.
  unfold freeze_inbound_input. destruct (update_inbound _ _ i) as [b i1] eqn:E. apply (f_equal snd) in E. cbn [snd] in E.
  assert (H1 : tells i i1) by (subst i1; apply dispatching_tells; intros r _; apply told_marks).
  destruct (if b then _ else _); [|by destruct (List.find _ _)]. cbn [snd]. destruct context; [done|].
  destruct (_ <=? _)%nat; [|done]. etrans; [exact H1|]. apply where_told. intros r _. apply told_marks.
Qed.

Lemma settle_tells id owner g session submit i : tells i (snd (settle_inbound id owner g session submit i)).
Proof.
  unfold settle_inbound. set (set := fun r => put_marks _ (put_work _ r)). destruct (update_inbound (owned_dispatching id owner g) set i) as [b i1] eqn:E.
  assert (H1 : tells i i1).
  { apply (f_equal snd) in E. cbn [snd] in E. subst i1. apply update_tells. intros r Ho. etrans; [|apply told_marks]. apply told_live.
    eapply owned_live_state; [|exact Ho]. intros s ->%list_elem_of_singleton. right. left. }
  assert (Hm : forall marked, tells i (with_inbound (update_where marked (put_marks (put_submitted true)) (ig_inbound i1)) i1)).
  { intros marked. etrans; [exact H1|]. apply where_told. intros r _. apply told_marks. }
  unfold transaction, mbind, txn_bind, get_state, modify. rewrite E. cbn. destruct (if b then _ else _) as [settled|]; [|exact H1].
  destruct (negb submit); [exact H1|]. destruct (im_frozen_content _); [|reflexivity]. destruct (im_frozen_context_ids _); [exact H1|].
  destruct (_ =? _)%nat; [apply Hm|reflexivity].
Qed.

Lemma recovery_tells here now lease owner id g i : tells i (snd (claim_inbound_for_recovery here now lease owner id g i)).
Proof. apply update_tells. intros r Hr. bool_prop. by apply told_live. Qed.

Lemma expire_tells here limit now i : tells i (snd (expire_authorizations here limit now i)).
Proof. apply where_told. intros r Hr. bool_prop. apply told_work; [done|]. congruence. Qed.

Lemma recall_tells deployment key event message_id at_ i : tells i (snd (record_recall deployment key event message_id at_ i)).
Proof.
  unfold record_recall. destruct (existsb _ _); [reflexivity|]. destruct (_ =s _); [reflexivity|]. destruct (update_inbound _ _ i) as [b i'] eqn:E.
  apply (f_equal snd) in E. cbn [snd] in E. assert (H : tells i i') by (subst i'; apply update_tells; intros r _; apply told_marks).
  destruct b; [done|]. by repeat case_match.
Qed.

Lemma refuse_tells id state g reason i : tells i (snd (refuse_unadmitted_inbound id state g reason i)).
Proof.
  unfold refuse_unadmitted_inbound. destruct (negb _) eqn:Es; [reflexivity|]. destruct (update_inbound _ _ i) as [b i'] eqn:E.
  apply (f_equal snd) in E. cbn [snd] in *. subst i'. apply update_tells. intros r Hr. unfold expected_in in Hr. bool_prop.
  etrans; [|apply told_marks]. by constructor.
Qed.

(** A drive's await, whoever makes it. *)
Lemma captured_tells o w i a i' : capture_account o w i = (a, i') -> tells i i'.
Proof.
  unfold capture_account. destruct (_ && _); [|intros [= _ <-]; reflexivity]. destruct (_ ← os_target o; linked_account o w) as [account|e]; [|intros [= _ <-]; reflexivity].
  pose proof (capture_tells (wk_id w) (wk_owner w) (wk_generation w) account i) as Ht.
  destruct (capture_inbound_account _ _ _ _ i) as [[p|] i1]; by intros [= _ <-].
Qed.

Lemma told_by {A} (f : A * ingress) a i i' : f = (a, i') -> tells i (snd f) -> tells i i'.
Proof. by intros ->. Qed.

(** The state after one call is the one its lemma speaks of. *)
Ltac called H lem :=
  match type of H with
  | (let '(_, _) := ?f in _) = _ => let E := fresh "E" in destruct f as [? ?] eqn:E; injection H as _ <-; eapply told_by; [exact E|apply lem]
  end.

Lemma drive_tells o now lease w s w' s' : drive_step o now lease w s = (w', s') -> tells (st_ingress s) (st_ingress s').
Proof.
  unfold drive_step, next. set (i := st_ingress s). intros H. destruct (wk_at w).
  - destruct (nonempty _); [by injection H as _ <-|]. destruct (capture_account o w i) as [[w1|e] i1] eqn:E; injection H as _ <-; by eapply captured_tells.
  - destruct (os_chosen o) as [[sid key]|e]; [|by injection H as _ <-]. destruct (Py.is_empty sid); [by injection H as _ <-|].
    called H bind_tells.
  - called H begin_tells.
  - destruct (capture_account o w i) as [[w1|e] i1] eqn:E; injection H as _ <-; by eapply captured_tells.
  - destruct (wk_judgment w); [by injection H as _ <-|]. destruct (im_explicit_attention _); by injection H as _ <-.
  - destruct (collect_unsubmitted_context _ _ _ _); by injection H as _ <-.
  - called H judgment_tells.
  - called H suppress_tells.
  - by injection H as _ <-.
  - destruct (acquire_conversation_lock _ _ _ _ _ _) as [[g|] i1] eqn:E; apply (f_equal snd) in E; cbn [snd] in E; injection H as _ <-; subst i1; by apply tells_same.
  - by injection H as _ <-.
  - called H release_tells.
  - destruct (replies w); by injection H as _ <-.
  - injection H as _ <-. by apply tells_same.
  - destruct (input_for_client_message _ _ _); by injection H as _ <-.
  - called H renew_tells.
  - destruct (os_handled o) as [[]|e]; [destruct (retains w)|..]; by injection H as _ <-.
  - called H exclude_tells.
  - called H renew_tells.
  - destruct (collect_unsubmitted_context _ _ _ _); by injection H as _ <-.
  - destruct (freeze_inbound_input _ _ _ _ _ _) as [f i1] eqn:E. destruct f; injection H as _ <-; (eapply told_by; [exact E|apply freeze_tells]).
  - destruct (os_binding o); by injection H as _ <-.
  - destruct (channel_attachment _); [destruct (os_fetched o)|]; by injection H as _ <-.
  - destruct (os_staged o); by injection H as _ <-.
  - destruct (os_refused o); [by injection H as _ <-|].
    destruct (accept_input _ _ _ _) as [[[x|]|e] d]; injection H as _ <-; reflexivity.
  - called H settle_tells.
  - called H ignored_tells.
  - called H fail_tells.
  - called H release_tells.
  - destruct (wk_lock w) as [[[key account] g]|]; injection H as _ <-; by apply tells_same.
Qed.

(** ** What a report says *)

(** The sender is allowed and the provider does not ask to ignore the report. *)
Definition unrefused (e : report) : bool :=
  negb (participant_refused (rp_binding e) (rp_message e)) && Py.is_empty (Py.strip (default "" (mg_ignore_reason (rp_message e)))).

(** The report asks that its message runs: the platform invokes the agent, a button is pressed,
    or the message is addressed, or its binding lets the judge decide. *)
Definition asks (e : report) : bool :=
  let m := rp_message e in let policy := binding_policy (rp_binding e) in
  unrefused e &&
  match mg_signal m with
  | SIGNAL_OBSERVATION => false
  | SIGNAL_AUTHORIZATION => attended m
  | SIGNAL_MESSAGE =>
      if filled (mg_action m) then bool_decide (is_Some (parse_action (default "" (mg_action m))))
      else attended m || negb (Py.in_strs policy ADDRESSED_ONLY_POLICIES) || (Py.in_strs policy RESPONSE_POLICIES && mg_retain_context m)
  end.

Definition message_key (e : report) : string * option string :=
  (deployment_of e, match mg_dedup_key (rp_message e) with Some k => if Py.is_empty k then None else Some k | None => None end).
Definition row_key (r : inbound_row) : string * option string := (ib_deployment_id r, ib_dedup_key r).

(** The text and the sender of a report; a turn gets the text after the prefix of a binding. *)
Record words (e : report) (d : dict) : Prop := {
  wo_text : Py.get "reply_text" d = VStr (mg_content (rp_message e));
  wo_content : exists prefix, Py.get "content" d = VStr (prefixed prefix (mg_content (rp_message e)));
  wo_sender : Py.get "participant" d = opt_text (mg_participant (rp_message e))
}.

(** A message was reported in the words [d], and asked for by a report of it; a message without
    a platform id by that very report. *)
Definition reported (log : list report) (key : string * option string) (d : dict) (refusable asked : Prop) : Prop :=
  exists e, e ∈ log /\ message_key e = key /\ words e d /\ (refusable \/ unrefused e = true) /\
    (asked -> exists a, a ∈ log /\ message_key a = key /\ asks a = true /\ (snd key = None -> a = e)).

Definition heard (log : list report) (r : inbound_row) : Prop :=
  reported log (row_key r) (ib_columns r) (state_of r = INBOUND_IGNORED) (asked_state (state_of r) = true).

Lemma reported_more log log' key d (x y x' y' : Prop) :
  (forall e, e ∈ log -> e ∈ log') -> (x -> x') -> (y' -> y) -> reported log key d x y -> reported log' key d x' y'.
Proof.
  intros Hl Hx Hy (e & He & Hk & Hw & Hu & Ha). exists e. split_and!; [auto|done|done|tauto|].
  intros H. destruct (Ha (Hy H)) as (a & Hin & Ha'). exists a. split; [auto|done].
Qed.

Lemma words_same e d d' :
  Py.get "reply_text" d' = Py.get "reply_text" d -> Py.get "content" d' = Py.get "content" d ->
  Py.get "participant" d' = Py.get "participant" d -> words e d -> words e d'.
Proof. intros E1 E2 E3 [H1 H2 H3]. split; [by rewrite E1|by rewrite E2|by rewrite E3]. Qed.

Lemma told_heard log r r' : told r r' -> heard log r -> heard log r'.
Proof.
  intros [_ [E1 E2] Et Ec Es Ha Hi] (e & He & Hk & Hw & Hu & Hasked). unfold heard, reported, row_key. rewrite E1, E2. exists e.
  split_and!; [done|done|by eapply words_same|by destruct Hu; [left; apply Hi|right]|auto].
Qed.

(** ** What a classification says of its report *)

Lemma classify_unrefused shown e c : classify shown (rp_binding e) (rp_message e) = c -> cl_state c <> INBOUND_IGNORED -> unrefused e = true.
Proof.
  unfold classify, unrefused. intros <- H. destruct (participant_refused _ _); [done|]. by destruct (Py.is_empty _).
Qed.

Lemma classify_asks shown e :
  constructible (rp_message e) = true -> runs (classify shown (rp_binding e) (rp_message e)) = true -> asks e = true.
Proof.
  intros Hm H. assert (Hu : unrefused e = true).
  { eapply classify_unrefused; [reflexivity|]. intros E. unfold runs in H. by rewrite E in H. }
  unfold asks. rewrite Hu. unfold unrefused in Hu. apply andb_true_iff in Hu as [Hp Hr]. apply negb_true_iff in Hp. cbn [andb].
  unfold classify in H. rewrite Hp, Hr in H. cbn [negb] in H. destruct (mg_signal (rp_message e)) eqn:Es.
  - destruct (filled _); [destruct (parse_action _); [done|done]|]. unfold unaddressed in H.
    destruct (attended (rp_message e)); [done|]. destruct (Py.in_strs _ ADDRESSED_ONLY_POLICIES); [|done]. cbn [negb andb orb] in *.
    destruct (Py.in_strs _ RESPONSE_POLICIES && _); [done|]. done.
  - done.
  - unfold constructible in Hm. rewrite Es in Hm. bool_prop. done.
Qed.

Lemma classify_authorization shown e :
  cl_state (classify shown (rp_binding e) (rp_message e)) = INBOUND_AUTHORIZED -> mg_signal (rp_message e) = SIGNAL_AUTHORIZATION.
Proof. unfold classify. repeat case_match; done. Qed.

(** ** The words of a report through its payloads *)

Lemma drafted_words e t p : constructible (rp_message e) = true -> drafted (rp_binding e) (rp_message e) t = Ok p -> words e p.
Proof.
  unfold drafted. intros Hm H. apply bind_ok in H as ([x y] & _ & H). destruct (_ && _); [done|]. injection H as <-. split; [done| |done].
  unfold Py.get. cbn [payload_from Py.lookup]. change ("content" =s "content") with true. cbn [default from_option id].
  case_bool_decide as Es; [|by eexists]. exists "". unfold constructible in Hm. rewrite Es in Hm. bool_prop. by destruct (mg_content (rp_message e)).
Qed.

Lemma words_set e k v d : k <> "reply_text" -> k <> "content" -> k <> "participant" -> words e d -> words e (Py.set k v d).
Proof. intros H1 H2 H3. apply words_same; by rewrite get_set_ne. Qed.

Lemma words_selected e binding d b sel : response_selection binding d b = Some sel -> words e d -> words e (Py.update d sel).
Proof.
  unfold response_selection. destruct (_ && _); [done|]. intros [= <-] H. unfold Py.update. cbn [fold_left]. by repeat apply words_set.
Qed.

Lemma words_columns e d columns : payload_columns d = Ok columns -> words e d -> words e columns.
Proof.
  unfold payload_columns. destruct (forallb _ _); [|done]. intros H. apply bind_ok in H as (x & _ & H). apply bind_ok in H as (y & _ & <-%Ok_inj).
  intros [H1 [prefix H2] H3]. split; [done| |done]. exists prefix.
  change (VStr (Py.str_or_empty (Py.get "content" d)) = VStr (prefixed prefix (mg_content (rp_message e)))). by rewrite H2, QuestionFacts.str_or_empty_text.
Qed.

Lemma words_payload e r : words e (ib_columns r) -> words e (payload_of r).
Proof. by intros [H1 H2 H3]. Qed.

Lemma words_admitted e facts admission : words e facts -> words e (admitted_payload facts admission).
Proof.
  intros [H1 _ H3]. unfold admitted_payload, MESSAGE_FACTS, Py.update. cbn [map fold_left]. split.
  - rewrite !get_set_ne by done. by rewrite get_set_eq.
  - eexists. rewrite get_set_eq, H1, QuestionFacts.str_or_empty_text. done.
  - rewrite !get_set_ne by done. by rewrite get_set_eq.
Qed.

(** ** What a report carries from await to await *)

(** A draft has the words of its report and the verdict the report deserves. *)
Record draft_sound (e : report) (d : draft) : Prop := {
  ds_words : words e (dr_payload d);
  ds_unrefused : cl_state (dr_decision d) <> INBOUND_IGNORED -> unrefused e = true;
  ds_asks : runs (dr_decision d) = true -> asks e = true;
  ds_authorization : cl_state (dr_decision d) = INBOUND_AUTHORIZED -> mg_signal (rp_message e) = SIGNAL_AUTHORIZATION
}.

(** A draft whose report is not ignored. *)
Definition open_draft (e : report) (d : draft) : Prop := draft_sound e d /\ cl_state (dr_decision d) <> INBOUND_IGNORED.

Definition in_table (t : list inbound_row) (item : inbound_row) : Prop :=
  exists r, r ∈ t /\ ib_item_id r = ib_item_id item /\ row_key r = row_key item.

(** The record a claim found for the report's message. *)
Record found (log : list report) (t : list inbound_row) (e : report) (d : draft) (item : inbound_row) : Prop := {
  fd_heard : heard log item;
  fd_table : in_table t item;
  fd_key : row_key item = message_key e;
  fd_own : ib_dedup_key item = None -> state_of item = cl_state (dr_decision d)
}.

(** The record and the report are two halves of a message. *)
Definition meets (d : draft) (item : inbound_row) : Prop :=
  state_of item = INBOUND_OBSERVED /\ runs (dr_decision d) = true \/
  state_of item = INBOUND_AUTHORIZED /\ cl_state (dr_decision d) <> INBOUND_IGNORED /\ cl_state (dr_decision d) <> INBOUND_AUTHORIZED.

Definition outcome_fits (outcome : claim_outcome) (item : inbound_row) : Prop :=
  (outcome = CLAIM_OUTCOME_OBSERVED -> state_of item = INBOUND_OBSERVED) /\ (outcome = CLAIM_OUTCOME_AUTHORIZED -> state_of item = INBOUND_AUTHORIZED).

Definition carries (log : list report) (t : list inbound_row) (e : report) (at_ : arriving) : Prop :=
  match at_ with
  | Classify _ _ payload => words e payload
  | FindAlias d _ | FindMessage d _ | AskTopic d => open_draft e d
  | Claims d => draft_sound e d
  | NoteAttention d item outcome => draft_sound e d /\ found log t e d item /\ outcome_fits outcome item
  | ObserveContent d item facts _ => draft_sound e d /\ found log t e d item /\ meets d item /\ reported log (row_key item) facts False False
  | Promote d item payload _ => draft_sound e d /\ found log t e d item /\ meets d item /\ reported log (row_key item) payload False True
  | ReadAgain d item _ => draft_sound e d /\ found log t e d item /\ meets d item
  | _ => True
  end.

(** Records stay, under their ids and keys. *)
Definition stay (t t' : list inbound_row) : Prop :=
  forall r, r ∈ t -> exists r', r' ∈ t' /\ ib_item_id r' = ib_item_id r /\ row_key r' = row_key r.

Lemma in_table_stays t t' item : stay t t' -> in_table t item -> in_table t' item.
Proof. intros H (r & Hr & E1 & E2). destruct (H r Hr) as (r' & Hr' & E1' & E2'). exists r'. split_and!; [done|congruence|congruence]. Qed.

Lemma tells_stay i i' : tells i i' -> stay (ig_inbound i) (ig_inbound i').
Proof.
  intros H r [n Hn]%list_elem_of_lookup. destruct (Forall2_lookup_l _ _ _ _ _ H Hn) as (r' & Hr' & [E [E1 E2] _ _ _ _ _]).
  exists r'. unfold row_key. split_and!; [by eapply list_elem_of_lookup_2|done|congruence].
Qed.

Lemma heard_more log log' r : (forall e, e ∈ log -> e ∈ log') -> heard log r -> heard log' r.
Proof. intros H. by apply reported_more. Qed.

Lemma found_moves log log' t t' e d item : (forall e, e ∈ log -> e ∈ log') -> stay t t' -> found log t e d item -> found log' t' e d item.
Proof. intros Hl Hs [H1 H2 H3 H4]. split; [by eapply heard_more|by eapply in_table_stays|done|done]. Qed.

Lemma carries_moves log log' t t' e at_ : (forall e, e ∈ log -> e ∈ log') -> stay t t' -> carries log t e at_ -> carries log' t' e at_.
Proof.
  intros Hl Hs. pose proof (fun d item => found_moves log log' t t' e d item Hl Hs) as Hf. destruct at_; cbn; try done.
  - intros (H1 & H2 & H3). split_and!; [done|by apply Hf|done].
  - intros (H1 & H2 & H3 & H4). split_and!; [done|by apply Hf|done|by eapply reported_more].
  - intros (H1 & H2 & H3 & H4). split_and!; [done|by apply Hf|done|by eapply reported_more].
  - intros (H1 & H2 & H3). split_and!; [done|by apply Hf|done].
Qed.

(** *** The two halves *)

Lemma admit_recorded_carries log t e d item n :
  e ∈ log -> draft_sound e d -> found log t e d item -> meets d item -> carries log t e (admit_recorded d item n).
Proof.
  intros He Hd Hf Hm. pose proof Hf as [(s & Hs & Hk & Hw & Hu & Ha) _ Hkey Hown]. pose proof Hd as [Dw Du Da _]. unfold admit_recorded.
  assert (Hno : ib_dedup_key item = None -> False).
  { intros En. specialize (Hown En). destruct Hm as [[Es Hr]|(Es & _ & Hn)]; [|congruence]. unfold runs in Hr. by rewrite <-Hown, Es in Hr. }
  case_bool_decide as Eo.
  - destruct Hm as [[_ Hr]|(? & _)]; [|congruence]. destruct (conflicts _ _); [|done]. destruct (im_recall _); [done|].
    unfold carries. split_and!; [done|done|by left|]. exists s. split_and!; [done|done|by apply words_admitted, words_payload|destruct Hu; [congruence|by right]|].
    intros _. exists e. split_and!; [done|done|by apply Da|]. intros En. by destruct (Hno En).
  - destruct Hm as [[? _]|(Es & Hi & Hn)]; [congruence|]. specialize (Du Hi). destruct (conflicts _ _); [|done]. destruct (im_recall _); unfold carries.
    + split_and!; [done|done|by right|]. exists e. split_and!; [done|done|exact Dw|by right|done].
    + split_and!; [done|done|by right|]. exists e. split_and!; [done|done|by apply words_admitted|by right|]. intros _.
      destruct Ha as (a & Hin & Hka & Hask & _); [by rewrite Es|]. exists a. split_and!; [done|done|done|]. intros En. by destruct (Hno En).
Qed.

Lemma after_claim_carries log t e d item outcome :
  e ∈ log -> draft_sound e d -> found log t e d item -> outcome_fits outcome item -> carries log t e (after_claim e d item outcome).
Proof.
  intros He Hd Hf [Ho Ha]. unfold after_claim. case_bool_decide; [done|]. destruct (bool_decide (outcome = CLAIM_OUTCOME_OBSERVED) && _) eqn:E1.
  - bool_prop. apply admit_recorded_carries; [done..|]. left. by split; [apply Ho|].
  - match goal with |- context [if ?b then admit_recorded _ _ _ else _] => destruct b eqn:E2 end; [|done]. bool_prop. apply admit_recorded_carries; [done..|]. right. split_and!; [by apply Ha|done|].
    intros E. by destruct (ds_authorization _ _ Hd E).
Qed.

(** *** Up to the claim *)

Lemma with_payload_sound e d p : draft_sound e d -> words e p -> draft_sound e (with_draft_payload p d).
Proof. intros [H1 H2 H3 H4] Hp. by split. Qed.

Lemma observed_sound e d : draft_sound e d -> unrefused e = true -> draft_sound e (with_decision (recorded_as INBOUND_OBSERVED) d).
Proof. intros [H1 H2 H3 H4] Hu. by split. Qed.

Lemma after_conversation_carries log t e v d : open_draft e d -> carries log t e (after_conversation v d).
Proof.
  intros [Hd Hn]. unfold after_conversation. set (d' := with_draft_payload _ d).
  assert (Hd' : draft_sound e d') by (apply with_payload_sound; [done|]; by apply words_set, Hd).
  change (cl_judge_candidate (dr_decision d')) with (cl_judge_candidate (dr_decision d)). destruct (cl_judge_candidate _); [|exact Hd'].
  destruct (_ && _); [by split|]. apply observed_sound; [done|]. by apply (ds_unrefused _ _ Hd).
Qed.

Lemma after_classify_carries log t e modes d :
  draft_sound e d -> carries log t e (after_classify modes e d).
Proof.
  intros Hd. unfold after_classify. set (d' := if _ && _ then _ else d). assert (Hd' : draft_sound e d').
  { unfold d'. destruct (_ && _); [|done]. destruct Hd as [H1 H2 H3 H4]. by split. }
  clearbody d'. case_bool_decide as Ei; [exact Hd'|]. assert (Ho : open_draft e d') by done. unfold message_conversation.
  destruct (_ || _); [by apply after_conversation_carries|]. destruct (mg_conversation_from_reference _); [exact Ho|]. by apply after_conversation_carries.
Qed.

(** *** The claim *)

Lemma find_in (f : inbound_row -> bool) t r : List.find f t = Some r -> r ∈ t /\ f r = true.
Proof. intros [H1 H2]%find_some. split; [by apply list_elem_of_In|done]. Qed.

Lemma message_of_key dep key r : message_of dep key r = true -> row_key r = (dep, key) /\ key <> None.
Proof.
  unfold message_of, row_key, opt_is. intros H. destruct key as [k|]; [|by rewrite andb_false_r in H]. bool_prop.
  destruct (ib_dedup_key r); [|done]. bool_prop. by subst.
Qed.

Lemma taken_ids cond f t : map ib_item_id (update_where cond (put_work f) t) = map ib_item_id t.
Proof. unfold update_where. rewrite map_map. apply map_ext. intros r. by destruct (cond r). Qed.

Lemma worked_stay cond f t : stay t (update_where cond (put_work f) t).
Proof.
  intros r Hr. exists (if cond r then put_work f r else r). split; [apply elem_of_update_where; by exists r|]. by destruct (cond r).
Qed.

Lemma answer_fits written admits record item o : claim_answer written admits record = Ok (item, o) -> item = record /\ outcome_fits o item.
Proof.
  unfold claim_answer, outcome_fits, WRITTEN_OUTCOMES. destruct written; destruct (state_of record) eqn:Es; try done; intros [= <- <-];
    (split; [done|]); split; intros; try done; try congruence; try (by destruct admits).
Qed.

(** A record written for the first time. *)
Lemma new_heard log e d now lease id owner columns :
  e ∈ log -> draft_sound e d -> cl_state (dr_decision d) ∈ CLAIM_STATES -> payload_columns (dr_payload d) = Ok columns ->
  heard log (claimed_row now lease id owner (the_claim e d) columns).
Proof.
  intros He [Hw Hu Ha Hs] Hin Hc. exists e. split_and!; [done|done|by eapply words_columns| |].
  - destruct (decide (cl_state (dr_decision d) = INBOUND_IGNORED)); [by left|right; auto].
  - intros Hask. exists e. split_and!; [done|done| |done]. apply Ha. change (state_of _) with (cl_state (dr_decision d)) in Hask.
    unfold runs. apply (bool_decide_pack _) in Hin. clear -Hin Hask. by destruct (cl_state (dr_decision d)).
Qed.

(** A record taken up by a claim that admits it. *)
Lemma taken_heard log e now owner r :
  e ∈ log -> row_key r = message_key e -> snd (message_key e) <> None -> asks e = true -> state_of r <> INBOUND_IGNORED ->
  heard log r -> heard log (put_work (taken INBOUND_RECEIVED owner now) r).
Proof.
  intros He Hk Hn Ha Hi (s & Hs & Hks & Hw & Hu & _). exists s. split_and!; [done|done|done|right; by destruct Hu|].
  intros _. exists e. split_and!; [done|by rewrite <-Hk|done|]. intros E. destruct Hn. by rewrite <-Hk.
Qed.

Record claim_result (log : list report) (e : report) (d : draft) (i i' : ingress) (answer : res (inbound_row * claim_outcome)) : Prop := {
  cr_heard : Forall (heard log) (ig_inbound i');
  cr_ids : NoDup (map ib_item_id (ig_inbound i'));
  cr_stay : stay (ig_inbound i) (ig_inbound i');
  cr_found : forall item o, answer = Ok (item, o) -> found log (ig_inbound i') e d item /\ outcome_fits o item
}.

Lemma claim_nothing log e d i answer :
  Forall (heard log) (ig_inbound i) -> NoDup (map ib_item_id (ig_inbound i)) -> (forall x, answer <> Ok x) -> claim_result log e d i i answer.
Proof. intros H1 H2 H3. split; [done|done|intros r Hr; by exists r|]. intros item o E. by destruct (H3 (item, o)). Qed.

Lemma found_record log i e d written admits record :
  Forall (heard log) (ig_inbound i) -> List.find (message_of (fst (message_key e)) (snd (message_key e))) (ig_inbound i) = Some record ->
  forall item o, claim_answer written admits record = Ok (item, o) -> found log (ig_inbound i) e d item /\ outcome_fits o item.
Proof.
  intros Hall [Hin Hm]%find_in item o [-> Hf]%answer_fits. split; [|done]. apply message_of_key in Hm as [Hk Hn]. rewrite Forall_forall in Hall.
  split; [by apply Hall|by exists record|by rewrite Hk; destruct (message_key e)|]. intros E. destruct Hn. rewrite <-E. exact (eq_sym (f_equal snd Hk)).
Qed.

Lemma claim_heard log e d cn i answer i' :
  e ∈ log -> draft_sound e d -> Forall (heard log) (ig_inbound i) -> NoDup (map ib_item_id (ig_inbound i)) ->
  (forall r, r ∈ ig_inbound i -> ib_item_id r <> cn_item_id cn) ->
  claim_inbound (cn_here cn) (cn_now cn) (cn_lease cn) (cn_item_id cn) (cn_owner cn) (the_claim e d) i = (answer, i') ->
  claim_result log e d i i' answer.
Proof.
  intros He Hd Hall Hids Hfresh. unfold claim_inbound. destruct (bool_decide (ic_state (the_claim e d) ∈ CLAIM_STATES)) eqn:Est; cbn [negb];
    [|intros [= <- <-]; by apply claim_nothing]. apply bool_decide_eq_true in Est.
  destruct (payload_columns (ic_payload (the_claim e d))) as [columns|] eqn:Ec; [|intros [= <- <-]; by apply claim_nothing].
  destruct (negb _); [intros [= <- <-]; by apply claim_nothing|]. cbv zeta.
  change (ic_deployment_id (the_claim e d)) with (fst (message_key e)). change (claim_key (the_claim e d)) with (snd (message_key e)).
  set (identity := message_of _ _). destruct (exists_where identity _); cbn [negb].
  - set (admits := bool_decide (ic_state (the_claim e d) = INBOUND_RECEIVED) || _). set (f := taken _ _ _).
    assert (Hup : admits = true -> let t := update_where (fun r => identity r && claimable (cn_now cn) r) (put_work f) (ig_inbound i) in
      Forall (heard log) t).
    { intros Had t. rewrite Forall_forall in Hall |- *. intros r (r0 & Hr0 & ->)%elem_of_update_where. specialize (Hall r0 Hr0).
      destruct (_ && _) eqn:E; [|done]. apply andb_true_iff in E as [[Hk Hn]%message_of_key Hcl]. eapply taken_heard; [done| |done| | |done].
      - rewrite Hk. by destruct (message_key e).
      - apply (ds_asks _ _ Hd). unfold runs. apply bool_decide_eq_true. apply orb_true_iff in Had as [Had|Had]; apply bool_decide_eq_true in Had;
          cbn in Had; rewrite Had; [left|right; left].
      - unfold claimable in Hcl. apply orb_true_iff in Hcl as [[Hl _]%andb_true_iff|Hdead%bool_decide_eq_true]; [by apply live_asked|congruence]. }
    destruct admits.
    + cbn [update_inbound]. destruct (List.find identity _) as [record|] eqn:Ef; [|intros [= <- <-]; by apply claim_nothing].
      destruct (claim_answer _ _ record) as [[item o]|] eqn:Ea; intros [= <- <-]; [|by apply claim_nothing].
      split; [by apply Hup|cbn; by rewrite taken_ids|apply worked_stay|]. intros item' o' [= <- <-]. eapply found_record; [by apply Hup|exact Ef|exact Ea].
    + destruct (List.find identity _) as [record|] eqn:Ef; [|intros [= <- <-]; by apply claim_nothing].
      destruct (claim_answer _ _ record) as [[item o]|] eqn:Ea; intros [= <- <-]; [|by apply claim_nothing].
      split; [done|done|intros r Hr; by exists r|]. intros item' o' [= <- <-]. by eapply found_record.
  - pose proof (new_heard log e d (cn_now cn) (cn_lease cn) (cn_item_id cn) (cn_owner cn) columns He Hd Est Ec) as Hnew.
    set (row := claimed_row _ _ _ _ _ _) in *. intros [= <- <-]. cbn [ig_inbound with_inbound]. split; cbn [ig_inbound with_inbound].
    + apply Forall_app. split; [done|]. by apply Forall_cons.
    + rewrite map_app. apply NoDup_app. split_and!; [done| |apply NoDup_singleton].
      intros k (r & -> & Hr)%list_elem_of_fmap E%list_elem_of_singleton. by eapply Hfresh.
    + intros r Hr. exists r. split; [apply elem_of_app; by left|done].
    + intros item o E. apply (answer_fits true true row) in E as [-> Hf]. split; [|done]. split; [done| |done|done].
      exists row. split; [apply elem_of_app; right; apply list_elem_of_singleton; done|done].
Qed.

(** *** Writing the halves together *)

Record keeps_heard (log : list report) (i i' : ingress) : Prop := {
  kh_heard : Forall (heard log) (ig_inbound i');
  kh_ids : NoDup (map ib_item_id (ig_inbound i'));
  kh_stay : stay (ig_inbound i) (ig_inbound i')
}.

Lemma keeps_heard_refl log i : Forall (heard log) (ig_inbound i) -> NoDup (map ib_item_id (ig_inbound i)) -> keeps_heard log i i.
Proof. intros H1 H2. split; [done|done|]. intros r Hr. by exists r. Qed.

Lemma tells_keeps log i i' : tells i i' -> Forall (heard log) (ig_inbound i) -> NoDup (map ib_item_id (ig_inbound i)) -> keeps_heard log i i'.
Proof.
  intros H H1 H2. split; [| |by apply tells_stay].
  - unfold tells in H. induction H as [|r r' t t' Hr _ IH]; [done|]. apply Forall_cons in H1 as [Hr1 H1]. apply NoDup_cons in H2 as [_ H2].
    constructor; [by eapply told_heard|by apply IH].
  - assert (E : map ib_item_id (ig_inbound i') = map ib_item_id (ig_inbound i)); [|by rewrite E].
    clear -H. induction H as [|r r' t t' Hr _ IH]; [done|]. cbn. by rewrite IH, (to_id _ _ Hr).
Qed.

(** The record [item] gets new columns, whose words were reported of its message. *)
Lemma rewritten_keeps log i item payload columns f cond (asked : Prop) :
  Forall (heard log) (ig_inbound i) -> NoDup (map ib_item_id (ig_inbound i)) -> in_table (ig_inbound i) item ->
  reported log (row_key item) payload False asked -> payload_columns payload = Ok columns ->
  (forall w, asked_state (iw_state (f w)) = true -> asked) -> (forall r, cond r = true -> ib_item_id r = ib_item_id item) ->
  keeps_heard log i (snd (update_inbound cond (fun r => put_columns columns (put_work f r)) i)).
Proof.
  intros H1 H2 (r0 & Hr0 & Eid & Ekey) (e & He & Hk & Hw & Hu & Ha) Hc Hf Hcond. cbn. split; cbn [ig_inbound with_inbound].
  - rewrite Forall_forall in H1 |- *. intros r (r1 & Hr1 & ->)%elem_of_update_where. specialize (H1 r1 Hr1). destruct (cond r1) eqn:E; [|done].
    assert (r1 = r0) as -> by (eapply (NoDup_map_inj ib_item_id); [exact H2|done|done|rewrite (Hcond _ E); done]).
    exists e. change (row_key (put_columns _ _)) with (row_key r0). rewrite Ekey. split_and!; [done|done|by eapply words_columns|right; by destruct Hu|].
    intros Hask. apply Ha. exact (Hf _ Hask).
  - unfold update_where. rewrite map_map. erewrite map_ext; [exact H2|]. intros r. by destruct (cond r).
  - intros r Hr. exists (if cond r then put_columns columns (put_work f r) else r).
    split; [apply elem_of_update_where; by exists r|]. by destruct (cond r).
Qed.

Lemma observe_keeps log i item g payload x i' :
  Forall (heard log) (ig_inbound i) -> NoDup (map ib_item_id (ig_inbound i)) -> in_table (ig_inbound i) item ->
  reported log (row_key item) payload False False -> observe_authorized_inbound (ib_item_id item) g payload i = (x, i') -> keeps_heard log i i'.
Proof.
  intros H1 H2 Ht Hr. unfold observe_authorized_inbound. destruct (payload_columns payload) as [columns|] eqn:Ec; [|intros [= _ <-]; by apply keeps_heard_refl].
  unfold readback. intros [= _ <-]. eapply rewritten_keeps; [done|done|exact Ht|exact Hr|exact Ec|done|].
  intros r E. unfold expected_in, named in E. by bool_prop.
Qed.

Lemma promote_keeps log i item now lease owner state g payload x i' :
  Forall (heard log) (ig_inbound i) -> NoDup (map ib_item_id (ig_inbound i)) -> in_table (ig_inbound i) item ->
  reported log (row_key item) payload False True -> promote_inbound now lease owner (ib_item_id item) state g payload i = (x, i') -> keeps_heard log i i'.
Proof.
  intros H1 H2 Ht Hr. unfold promote_inbound. destruct (negb _); [intros [= _ <-]; by apply keeps_heard_refl|].
  destruct (payload_columns payload) as [columns|] eqn:Ec; [|intros [= _ <-]; by apply keeps_heard_refl].
  unfold readback. intros [= _ <-]. eapply rewritten_keeps; [done|done|exact Ht|exact Hr|exact Ec|done|].
  intros r E. unfold expected_in, named in E. by bool_prop.
Qed.

(** ** One await of a report *)

(** What one await leaves: records that were reported, and what the report carries on. *)
Definition hears (log : list report) (e : report) (i : ingress) (out : res arriving * ingress) : Prop :=
  keeps_heard log i (snd out) /\ forall at_, fst out = Ok at_ -> carries log (ig_inbound (snd out)) e at_.

Section await.
Context (log : list report) (e : report) (i : ingress).
Context (He : e ∈ log) (Hm : constructible (rp_message e) = true).
Context (H1 : Forall (heard log) (ig_inbound i)) (H2 : NoDup (map ib_item_id (ig_inbound i))).

Lemma hears_stays x : (forall at_, x = Ok at_ -> carries log (ig_inbound i) e at_) -> hears log e i (x, i).
Proof. intros H. split; [by apply keeps_heard_refl|done]. Qed.

Lemma hears_tells x i' : tells i i' -> (forall at_, x = Ok at_ -> carries log (ig_inbound i') e at_) -> hears log e i (x, i').
Proof. intros Ht H. split; [by apply tells_keeps|done]. Qed.

Lemma classify_hears sv cn t channel payload : words e payload -> hears log e i (ingest_step sv cn e (Classify t channel payload) i).
Proof.
  intros Hw. apply hears_stays. intros at_ <-%Ok_inj. apply after_classify_carries. split; cbn; [done| | |].
  - by eapply classify_unrefused.
  - by apply classify_asks.
  - apply classify_authorization.
Qed.

Lemma reading_hears sv cn d n :
  open_draft e d -> hears log e i (ingest_step sv cn e (FindAlias d n) i) /\ hears log e i (ingest_step sv cn e (FindMessage d n) i) /\
    hears log e i (ingest_step sv cn e (AskTopic d) i).
Proof.
  intros Hd. split_and!; apply hears_stays; intros at_ <-%Ok_inj.
  - destruct n; [by apply after_conversation_carries|]. destruct (resolve_alias _ _ _) as [a|]; [|exact Hd].
    destruct (filled _); [by apply after_conversation_carries|exact Hd].
  - destruct (filled _); [by apply after_conversation_carries|exact Hd].
  - destruct Hd as [Hd Hn]. destruct (response_selection _ _ _) as [sel|] eqn:E.
    + apply with_payload_sound; [done|]. eapply words_selected; [exact E|apply Hd].
    + apply observed_sound; [done|]. by apply (ds_unrefused _ _ Hd).
Qed.

Lemma claims_hears sv cn d :
  draft_sound e d -> (forall r, r ∈ ig_inbound i -> ib_item_id r <> cn_item_id cn) -> hears log e i (ingest_step sv cn e (Claims d) i).
Proof.
  intros Hd Hf. cbn [ingest_step]. destruct (claim_inbound _ _ _ _ _ _ _) as [answer i'] eqn:E.
  destruct (claim_heard _ _ _ _ _ _ _ He Hd H1 H2 Hf E) as [C1 C2 C3 C4]. split; [by split|]. cbn [fst snd]. intros at_ H.
  apply bind_ok in H as ([item o] & -> & <-%Ok_inj). destruct (C4 item o eq_refl) as [Hfd Ho].
  destruct (_ && _ && _ && _); [by split_and!|by apply after_claim_carries].
Qed.

Lemma attention_hears sv cn d item o :
  carries log (ig_inbound i) e (NoteAttention d item o) -> hears log e i (ingest_step sv cn e (NoteAttention d item o) i).
Proof.
  intros (Hd & Hf & Ho). cbn. unfold note_explicit_attention, update_inbound. pose proof (attention_tells (ib_item_id item) i) as Ht.
  apply hears_tells; [exact Ht|]. intros at_ <-%Ok_inj. apply after_claim_carries; [done|done| |done].
  eapply found_moves; [|by apply tells_stay, Ht|exact Hf]. auto.
Qed.

Lemma again_hears sv cn d item n :
  carries log (ig_inbound i) e (ReadAgain d item n) -> hears log e i (ingest_step sv cn e (ReadAgain d item n) i).
Proof.
  intros (Hd & Hf & Hmt). apply hears_stays. intros at_ <-%Ok_inj. destruct (_ && _) eqn:E; [|done]. apply andb_true_iff in E as [E%bool_decide_eq_true _].
  destruct (get_inbound (ib_item_id item) i) as [cur|] eqn:Eg; cbn [default from_option id] in *; [|by apply admit_recorded_carries].
  apply find_in in Eg as [Hin En]. unfold named in En. bool_prop. destruct Hf as [F1 (r0 & Hr0 & Eid & Ek) F3 F4].
  assert (cur = r0) as -> by (eapply (NoDup_map_inj ib_item_id); [exact H2|done|done|congruence]).
  apply admit_recorded_carries; [done|done| |].
  - rewrite Forall_forall in H1. split; [by apply H1|by exists r0|congruence|]. intros Hn. rewrite E. apply F4. unfold row_key in Ek. congruence.
  - destruct Hmt as [[Hs Hr]|(Hs & Hr)]; [left|right]; by rewrite E.
Qed.

Lemma halves_hears sv cn at_ :
  match at_ with RefuseSignals _ _ _ | ObserveContent _ _ _ _ | Promote _ _ _ _ => True | _ => False end ->
  carries log (ig_inbound i) e at_ -> hears log e i (ingest_step sv cn e at_ i).
Proof.
  destruct at_ as [| | | | | | | | | |item facts admission|d item facts n|d item payload n| | |]; try done; intros _; cbn [ingest_step].
  - intros _. destruct (refuse_unadmitted_inbound _ _ _ _ i) as [x i'] eqn:E. apply hears_tells; [eapply told_by; [exact E|apply refuse_tells]|].
    intros at_ H. by apply bind_ok in H as (b & _ & <-%Ok_inj).
  - intros (Hd & Hf & Hmt & Hr). destruct (observe_authorized_inbound _ _ _ i) as [x i'] eqn:E.
    pose proof (observe_keeps _ _ _ _ _ _ _ H1 H2 (fd_table _ _ _ _ _ Hf) Hr E) as Hk. split; [exact Hk|]. intros at_ H.
    apply bind_ok in H as (b & _ & <-%Ok_inj). destruct b; [done|]. split_and!; [done| |done]. eapply found_moves; [|apply Hk|exact Hf]. auto.
  - intros (Hd & Hf & Hmt & Hr). destruct (promote_inbound _ _ _ _ _ _ _ i) as [x i'] eqn:E.
    pose proof (promote_keeps _ _ _ _ _ _ _ _ _ _ _ H1 H2 (fd_table _ _ _ _ _ Hf) Hr E) as Hk. split; [exact Hk|]. intros at_ H.
    apply bind_ok in H as (b & _ & <-%Ok_inj). destruct b; [done|]. split_and!; [done| |done]. eapply found_moves; [|apply Hk|exact Hf]. auto.
Qed.
End await.

Definition fresh_name (at_ : arriving) (cn : claim_names) (i : ingress) : Prop :=
  match at_ with Claims _ => forall r, r ∈ ig_inbound i -> ib_item_id r <> cn_item_id cn | _ => True end.

(** An await keeps every record one that was reported. *)
Lemma ingest_hears log e i sv cn at_ :
  e ∈ log -> constructible (rp_message e) = true -> Forall (heard log) (ig_inbound i) -> NoDup (map ib_item_id (ig_inbound i)) ->
  carries log (ig_inbound i) e at_ -> fresh_name at_ cn i -> hears log e i (ingest_step sv cn e at_ i).
Proof.
  intros He Hm H1 H2 Hc Hf. destruct at_ as [| |link n|channel|t channel payload|d n|d n|d|d|d item o|item facts admission|d item facts n|d item payload n|d item n|item|x].
  - apply hears_stays; [done..|]. intros at_ H. destruct (sv_environment sv); [done|]. destruct (channel_scene_name _); [|done].
    destruct (mg_recall _); [by injection H as <-|]. destruct (mg_alias_link _); [|by injection H as <-]. destruct (_ || _); by injection H as <-.
  - cbn. destruct (mg_recall _) as [rc|]; [|by apply hears_stays]. destruct (record_recall _ _ _ _ _ i) as [x i'] eqn:E.
    apply hears_tells; [done..| |]; [eapply told_by; [exact E|apply recall_tells]|]. intros at_ H. by apply bind_ok in H as (b & _ & <-%Ok_inj).
  - cbn. destruct n as [|n]; [by apply hears_stays; [..|intros at_ <-%Ok_inj]|]. destruct (Outbox.link_alias _ _ _ _) as [[a|] c];
      (apply hears_tells; [done|done|by apply tells_same|by intros at_ <-%Ok_inj]).
  - apply hears_stays; [done..|]. intros at_ H. apply bind_ok in H as ([t|] & _ & H); [|done]. apply bind_ok in H as (p & Hp & <-%Ok_inj). by eapply drafted_words.
  - by apply classify_hears.
  - exact (proj1 (reading_hears log e i H1 H2 sv cn d n Hc)).
  - exact (proj1 (proj2 (reading_hears log e i H1 H2 sv cn d n Hc))).
  - exact (proj2 (proj2 (reading_hears log e i H1 H2 sv cn d 0 Hc))).
  - by apply claims_hears.
  - by apply attention_hears.
  - by apply halves_hears.
  - by apply halves_hears.
  - by apply halves_hears.
  - by apply again_hears.
  - apply hears_stays; [done..|]. by intros at_ <-%Ok_inj.
  - apply hears_stays; [done..|]. by intros at_ <-%Ok_inj.
Qed.

(** ** Everything beside each other *)

Record inflight := Inflight { if_report : report; if_at : arriving }.
(** The store, the reports on their way in, and those that ever came. *)
Record intake := Intake { ik_site : site; ik_inflight : list inflight; ik_log : list report }.
Definition records (x : intake) : list inbound_row := ig_inbound (st_ingress (ik_site x)).

(** What sweeps, heartbeats and other requests do meanwhile. *)
Inductive meanwhile (i : ingress) : ingress -> Prop :=
| Renews now lease id owner g : meanwhile i (snd (renew_inbound_lease now lease id owner g i))
| MarksAnswer id owner g ref q : meanwhile i (snd (mark_inbound_answer id owner g ref q i))
| Recovers here now lease owner id g : meanwhile i (snd (claim_inbound_for_recovery here now lease owner id g i))
| Expires here limit now : meanwhile i (snd (expire_authorizations here limit now i))
| Elsewhere i' : ig_inbound i' = ig_inbound i -> meanwhile i i'.

Lemma meanwhile_tells i i' : meanwhile i i' -> tells i i'.
Proof. intros []; [apply renew_tells|apply answer_tells|apply recovery_tells|apply expire_tells|by apply tells_same]. Qed.

(** A report comes in, goes one await further, fails, or is lost with its process; some drive
    makes one await, whatever the worker; or something happens meanwhile. *)
Inductive goes (x : intake) : intake -> Prop :=
| Reports e : constructible (rp_message e) = true -> goes x (Intake (ik_site x) (ik_inflight x ++ [Inflight e Enter])%list (ik_log x ++ [e])%list)
| Awaits k e at_ sv cn at' i' :
    ik_inflight x !! k = Some (Inflight e at_) -> fresh_name at_ cn (st_ingress (ik_site x)) ->
    ingest_step sv cn e at_ (st_ingress (ik_site x)) = (Ok at', i') ->
    goes x (Intake (put_ingress i' (ik_site x)) (<[k := Inflight e at']> (ik_inflight x)) (ik_log x))
| Raises k e at_ sv cn ex i' :
    ik_inflight x !! k = Some (Inflight e at_) -> fresh_name at_ cn (st_ingress (ik_site x)) ->
    ingest_step sv cn e at_ (st_ingress (ik_site x)) = (Raise ex, i') ->
    goes x (Intake (put_ingress i' (ik_site x)) (delete k (ik_inflight x)) (ik_log x))
| Lost k : goes x (Intake (ik_site x) (delete k (ik_inflight x)) (ik_log x))
| Drives o now lease w w' s' : drive_step o now lease w (ik_site x) = (w', s') -> goes x (Intake s' (ik_inflight x) (ik_log x))
| Meanwhile i' d : meanwhile (st_ingress (ik_site x)) i' -> goes x (Intake (Site i' d) (ik_inflight x) (ik_log x)).

Record all_heard (x : intake) : Prop := {
  ah_records : Forall (heard (ik_log x)) (records x);
  ah_ids : NoDup (map ib_item_id (records x));
  ah_inflight : Forall (fun f => if_report f ∈ ik_log x /\ constructible (rp_message (if_report f)) = true /\
                                 carries (ik_log x) (records x) (if_report f) (if_at f)) (ik_inflight x)
}.

Lemma all_heard_moves x s fs log :
  all_heard x -> (forall e, e ∈ ik_log x -> e ∈ log) -> keeps_heard log (st_ingress (ik_site x)) (st_ingress s) ->
  (forall f, f ∈ fs -> f ∈ ik_inflight x \/
     if_report f ∈ log /\ constructible (rp_message (if_report f)) = true /\ carries log (ig_inbound (st_ingress s)) (if_report f) (if_at f)) ->
  all_heard (Intake s fs log).
Proof.
  intros [H1 H2 H3] Hl [K1 K2 K3] Hf. split; [done|done|]. cbn [ik_inflight ik_log]. rewrite Forall_forall in H3 |- *.
  intros f Hin. destruct (Hf f Hin) as [Hold|Hnew]; [|exact Hnew]. destruct (H3 f Hold) as (F1 & F2 & F3). split_and!; [auto|done|].
  eapply carries_moves; [exact Hl|exact K3|exact F3].
Qed.

Lemma goes_heard x y : all_heard x -> goes x y -> all_heard y.
Proof.
  intros Hx Hg. pose proof Hx as [H1 H2 H3]. rewrite Forall_forall in H3.
  assert (Hold : forall k f, f ∈ delete k (ik_inflight x) -> f ∈ ik_inflight x).
  { intros k f Hf. eapply elem_of_submseteq; [exact Hf|]. apply sublist_submseteq, sublist_delete. }
  assert (Htells : forall s, tells (st_ingress (ik_site x)) (st_ingress s) -> all_heard (Intake s (ik_inflight x) (ik_log x))).
  { intros s Ht. eapply all_heard_moves; [done|auto|by apply tells_keeps|by left]. }
  destruct Hg as [e Hm|k e at_ sv cn at' i' Hk Hf E|k e at_ sv cn ex i' Hk Hf E|k|o now lease w w' s' E|i' d Hm].
  - assert (Hl : forall e', e' ∈ ik_log x -> e' ∈ (ik_log x ++ [e])%list) by (intros e' ?; apply elem_of_app; by left).
    eapply all_heard_moves; [done|exact Hl| |].
    + apply keeps_heard_refl; [|done]. eapply Forall_impl; [exact H1|]. intros r. by apply heard_more.
    + intros f [Hin| ->%list_elem_of_singleton]%elem_of_app; [by left|right]. split_and!; [|done|done]. apply elem_of_app. right. by apply list_elem_of_singleton.
  - destruct (H3 _ (list_elem_of_lookup_2 _ _ _ Hk)) as (F1 & F2 & F3). destruct (ingest_hears _ e _ sv cn at_ F1 F2 H1 H2 F3 Hf) as [K1 K2]. rewrite E in K1, K2.
    eapply all_heard_moves; [done|auto|exact K1|]. intros f [j Hj]%list_elem_of_lookup. destruct (decide (j = k)) as [->|].
    + rewrite list_lookup_insert_eq in Hj by (by eapply lookup_lt_Some). injection Hj as <-. right. split_and!; [done|done|by apply K2].
    + rewrite list_lookup_insert_ne in Hj by done. left. by eapply list_elem_of_lookup_2.
  - destruct (H3 _ (list_elem_of_lookup_2 _ _ _ Hk)) as (F1 & F2 & F3). destruct (ingest_hears _ e _ sv cn at_ F1 F2 H1 H2 F3 Hf) as [K1 _]. rewrite E in K1.
    eapply all_heard_moves; [done|auto|exact K1|]. intros f Hin. left. by eapply Hold.
  - eapply all_heard_moves; [done|auto|by apply keeps_heard_refl|]. intros f Hin. left. by eapply Hold.
  - apply Htells. by eapply drive_tells.
  - apply Htells. by apply meanwhile_tells.
Qed.

(** Nothing has been reported yet. *)
Definition unheard (x : intake) : Prop := records x = [] /\ ik_inflight x = [].

Lemma run_heard x y : unheard x -> rtc goes x y -> all_heard y.
Proof.
  intros [H1 H2] H. assert (Hx : all_heard x) by (split; rewrite ?H1, ?H2; constructor). clear H1 H2.
  induction H as [|x z y Hg _ IH]; [done|]. apply IH. by eapply goes_heard.
Qed.

(** C21: Nothing runs that nobody asked for: whatever platforms report in whatever order, and
    whatever drives, sweeps and failures go on beside, a message that waits to run, runs or has
    run was asked for by a report of it - addressed, invoked, pressed or left to the judge, as
    its binding says - and carries, after a prefix of a binding, the text and the sender of a
    report of it, and neither report was from a sender its binding refuses or one its provider
    said to ignore.  A message that has no platform id was asked for by its only report. *)
Theorem only_asked_messages_run x y r :
  unheard x -> rtc goes x y -> r ∈ records y -> state_of r ∈ [INBOUND_RECEIVED; INBOUND_DISPATCHING; INBOUND_SETTLED] ->
  exists e a, e ∈ ik_log y /\ a ∈ ik_log y /\ message_key e = row_key r /\ message_key a = row_key r /\
    words e (ib_columns r) /\ unrefused e = true /\ asks a = true /\ (ib_dedup_key r = None -> a = e).
Proof.
  intros Hx Hrun Hr Hs. destruct (run_heard _ _ Hx Hrun) as [H1 _ _]. rewrite Forall_forall in H1.
  destruct (H1 r Hr) as (e & He & Hk & Hw & Hu & Ha). destruct Ha as (a & Hin & Hka & Hask & Hn).
  - apply bool_decide_eq_true. rewrite !elem_of_cons in *. tauto.
  - exists e, a. split_and!; [done|done|done|done|done| |done|done]. destruct Hu as [Hi|]; [|done].
    rewrite Hi, !elem_of_cons in Hs. by destruct Hs as [?|[?|[?|?%elem_of_nil]]].
Qed.

(** *** A mention in two halves, with a stranger between them *)

Definition fresh_nameb (at_ : arriving) (cn : claim_names) (i : ingress) : bool :=
  match at_ with Claims _ => forallb (fun r => negb (ib_item_id r =s cn_item_id cn)) (ig_inbound i) | _ => true end.

Lemma fresh_nameb_ok at_ cn i : fresh_nameb at_ cn i = true -> fresh_name at_ cn i.
Proof.
  unfold fresh_nameb, fresh_name. destruct at_; try done. intros H r Hr E. rewrite forallb_forall in H.
  apply list_elem_of_In in Hr. specialize (H r Hr). rewrite E, String.eqb_refl in H. done.
Qed.

Fixpoint hear_on (n : nat) (sv : services) (cn : claim_names) (k : nat) (x : intake) : intake :=
  match n with
  | 0 => x
  | S n =>
      match ik_inflight x !! k with
      | Some (Inflight e at_) =>
          if fresh_nameb at_ cn (st_ingress (ik_site x)) then
            match ingest_step sv cn e at_ (st_ingress (ik_site x)) with
            | (Ok at', i') => hear_on n sv cn k (Intake (put_ingress i' (ik_site x)) (<[k := Inflight e at']> (ik_inflight x)) (ik_log x))
            | _ => x
            end
          else x
      | None => x
      end
  end.

Lemma hear_on_goes n sv cn k x : rtc goes x (hear_on n sv cn k x).
Proof.
  revert x. induction n as [|n IH]; intros x; [reflexivity|]. cbn. destruct (ik_inflight x !! k) as [[e at_]|] eqn:Hk; [|reflexivity].
  destruct (fresh_nameb _ _ _) eqn:Hf; [|reflexivity]. destruct (ingest_step _ _ _ _ _) as [[at'|] i'] eqn:E; [|reflexivity].
  eapply rtc_l; [eapply Awaits; [exact Hk|by apply fresh_nameb_ok|exact E]|]. apply IH.
Qed.

Definition a_binding : dict :=
  [("deployment_id", VStr "d1"); ("scene", VStr "channel:Chat"); ("attention_policy", VStr "mentions"); ("prompt_prefix", VStr "Be brief.");
   ("allowed_participants", VList [VStr "p1"]); ("updated_at", VStr "t0")].
Definition a_service : services := Services None (Ok (Some (Target false "a1" "u1"))) ["owner"].
Definition spoken (signal : signal) (participant content : string) (key : option string) (mention : bool) : message :=
  let observes := bool_decide (signal = SIGNAL_OBSERVATION) in
  Message content None (Some "m1") key (Some (Attention false mention false)) None false (Some participant) None None
    (if observes then Some "17" else None) observes None None signal [].
Definition authorization : report := Report a_binding (spoken SIGNAL_AUTHORIZATION "p1" "" None true).
Definition observation : report := Report a_binding (spoken SIGNAL_OBSERVATION "p1" "Hello" (Some "c1") false).
Definition stranger : report := Report a_binding (spoken SIGNAL_MESSAGE "p2" "Let me in" (Some "c1") true).
Definition with_names (item : string) : claim_names := ClaimNames (fun _ => true) 5 300 item "w1".

Definition come (e : report) (x : intake) : intake := Intake (ik_site x) (ik_inflight x ++ [Inflight e Enter])%list (ik_log x ++ [e])%list.
(** All three are on their way in at once; the observation is the last to claim. *)
Definition overheard (x : intake) : intake :=
  hear_on 5 a_service (with_names "i3") 1 (hear_on 6 a_service (with_names "i1") 2 (hear_on 6 a_service (with_names "i2") 0
    (hear_on 2 a_service (with_names "i3") 1 (come stranger (come observation (come authorization x)))))).

Lemma overheard_goes x : rtc goes x (overheard x).
Proof.
  unfold overheard. etrans; [|apply hear_on_goes]. etrans; [|apply hear_on_goes]. etrans; [|apply hear_on_goes]. etrans; [|apply hear_on_goes].
  eapply rtc_l; [by apply (Reports x authorization)|]. eapply rtc_l; [by apply (Reports _ observation)|]. apply rtc_once. by apply (Reports _ stranger).
Qed.

Definition quiet : intake := Intake (Site (Ingress [] [] [] [] (Channels [] [] [] [] [])) (Db [] [] [] [] [] [] [] [] [] [] [] 1 1)) [] [].
Definition the_overheard (x : intake) : inbound_row :=
  default (claimed_row 0 0 "" "" (the_claim authorization (Draft (Target false "" "") "" [] (recorded_as INBOUND_OBSERVED))) []) (head (records x)).

(** The authorization is recorded first, a refused sender's report under the same platform id
    changes nothing, and the observation gives the message its words. *)
Lemma only_asked_messages_run_witness :
  let r := the_overheard (overheard quiet) in
  (length (records (overheard quiet)), state_of r, unrefused stranger, asks observation) = (1%nat, INBOUND_RECEIVED, false, false) /\
  Py.get "content" (ib_columns r) = VStr (prefixed "Be brief." "Hello") /\
  exists e a, e ∈ ik_log (overheard quiet) /\ a ∈ ik_log (overheard quiet) /\ message_key e = row_key r /\ message_key a = row_key r /\
    words e (ib_columns r) /\ unrefused e = true /\ asks a = true /\ (ib_dedup_key r = None -> a = e).
Proof.
  split; [vm_compute; reflexivity|]. split; [vm_compute; reflexivity|].
  apply (only_asked_messages_run quiet (overheard quiet)); [done|exact (overheard_goes quiet)| |].
  - apply list_elem_of_lookup_2 with (i := 0%nat). vm_compute. reflexivity.
  - apply list_elem_of_lookup_2 with (i := 0%nat). vm_compute. reflexivity.
Defined.
End IngestFacts.
