(* ===== verification/SignalFacts.v ===== *)
(** The two halves of a message meet: what the platform observed of it and that the agent is
    invoked for it, in either order. *)

From S2P Require Import Prelude PyVal Schema SessionRepo ChannelOutbox ChannelInbound ChannelDrive ChannelQuestions QuestionFacts ChannelIngest IngestFacts.

Open Scope string_scope.

Module SignalFacts.
Import Repo Outbox Inbound Drive Questions Ingest IngestFacts.

(** ** The two halves of a message *)

(** The observation [o] and the authorization [a] of the message [k], as a binding takes them. *)
Record halves (b : dict) (o a : message) (k : string) : Prop := {
  hv_constructible : constructible o = true /\ constructible a = true;
  hv_signals : mg_signal o = SIGNAL_OBSERVATION /\ mg_signal a = SIGNAL_AUTHORIZATION;
  hv_key : mg_dedup_key o = Some k /\ mg_dedup_key a = Some k;
  hv_unrefused : unrefused (Report b o) = true /\ unrefused (Report b a) = true;
  hv_same : mg_participant a = mg_participant o /\ (mg_conversation_key a = mg_conversation_key o \/ mg_conversation_key a = None);
  hv_plain : mg_conversation_from_reference o = false /\ mg_recall o = None /\ mg_alias_link o = None
}.

(** A binding in its environment, on a channel that supports its mode, with a target and an account. *)
Record takes (sv : services) (b : dict) (t : target) (channel : string) (x y : string) : Prop := {
  tk_environment : sv_environment sv = None;
  tk_channel : channel_scene_name (Py.str_or_empty (Py.get "scene" b)) = Some channel;
  tk_target : sv_target sv = Ok (Some t);
  tk_accounts : accounts b t = Ok (x, y);
  tk_mode : Py.in_strs (binding_execution_mode b) (sv_modes sv) = true;
  tk_revision : Py.truthy (Py.get "updated_at" b) = true
}.

Definition half_payload (b : dict) (m : message) (x y : string) (conversation : val) : dict := Py.set "conversation" conversation (payload_from b m x y).

(** *** Payloads and their columns *)

Definition payload_key (k : string) : bool := Py.in_strs k PAYLOAD_FIELDS || (k =s "response_policy").
Definition payload_dict (d : dict) : Prop := forallb payload_key (Py.keys d) = true.

Lemma payload_dict_set k v d : payload_key k = true -> payload_dict d -> payload_dict (Py.set k v d).
Proof.
  unfold payload_dict. intros Hk. induction d as [|[k' v'] d IH]; [by cbn; rewrite Hk|]. cbn. intros [H1 H2]%andb_true_iff.
  destruct (k =s k'); cbn; rewrite H1; [exact H2|by apply IH].
Qed.

(** The columns of a payload without a response policy. *)
Definition plain_columns (d : dict) : dict :=
  (map (payload_column d) PAYLOAD_FIELDS ++ [("response_policy_mode", VNone); ("response_instruction", VNone)])%list.

Lemma columns_plain d : payload_dict d -> Py.get "response_policy" d = VNone -> payload_columns d = Ok (plain_columns d).
Proof. unfold payload_dict, payload_key. intros H E. unfold payload_columns. by rewrite H, E. Qed.

Lemma admitted_get f facts admission :
  Py.get f (admitted_payload facts admission) =
  if f =s "content" then VStr (prefixed (Py.str_or_empty (Py.get "prompt_prefix" admission)) (Py.str_or_empty (Py.get "reply_text" facts)))
  else if Py.in_strs f MESSAGE_FACTS then Py.get f facts else Py.get f admission.
Proof.
  assert (Hset : forall k v d, Py.get f (Py.set k v d) = if f =s k then v else Py.get f d).
  { intros k v d. destruct (String.eqb_spec f k) as [->|]; [apply get_set_eq|by apply get_set_ne]. }
  unfold admitted_payload, MESSAGE_FACTS, Py.update. cbn [map fold_left fst snd]. rewrite !Hset. destruct (f =s "content"); [done|].
  cbn [Py.in_strs existsb]. repeat match goal with |- context [f =s ?k] => destruct (String.eqb_spec f k) as [->|]; [done|] end. done.
Qed.

Lemma admitted_dict facts admission : payload_dict admission -> payload_dict (admitted_payload facts admission).
Proof. intros H. unfold admitted_payload, MESSAGE_FACTS, Py.update. cbn [map fold_left fst snd]. by repeat apply payload_dict_set. Qed.

Lemma get_fields (g : string -> val) f l rest :
  Py.in_strs f l = true -> Py.get f (map (fun k => (k, g k)) l ++ rest)%list = g f.
Proof.
  unfold Py.get. induction l as [|k' l IH]; [done|]. cbn. destruct (String.eqb_spec f k') as [->|Hne]; [done|]. intros H. by apply IH.
Qed.

Lemma column_again d d' f : Py.get f d' = snd (payload_column d f) -> payload_column d' f = payload_column d f.
Proof.
  unfold payload_column. cbn [snd]. intros ->. f_equal. destruct (Py.in_strs f TEXT_PAYLOAD_FIELDS); [by rewrite QuestionFacts.str_or_empty_text|].
  destruct (f =s "retain_context"); [|done]. by destruct (Py.truthy _).
Qed.

Definition reads_back (d d' : dict) : Prop := forall f, Py.in_strs f PAYLOAD_FIELDS = true -> Py.get f d' = snd (payload_column d f).

Lemma plain_get f d : Py.in_strs f PAYLOAD_FIELDS = true -> Py.get f (plain_columns d) = snd (payload_column d f).
Proof. intros H. unfold plain_columns. by rewrite (get_fields (fun f => snd (payload_column d f))). Qed.

(** The halves give the same columns, whichever of them was read back from its record. *)
Lemma admitted_columns facts facts' admission admission' :
  reads_back facts facts' -> reads_back admission admission' -> Py.get "reply_text" facts' = Py.get "reply_text" facts ->
  plain_columns (admitted_payload facts' admission) = plain_columns (admitted_payload facts admission').
Proof.
  intros Hf Ha Hr. unfold plain_columns. f_equal. apply map_ext_in. intros f Hin.
  assert (H : Py.in_strs f PAYLOAD_FIELDS = true) by (apply existsb_exists; exists f; split; [done|apply String.eqb_refl]).
  pose proof (column_again _ _ _ (Hf f H)) as E1. pose proof (column_again _ _ _ (Ha f H)) as E2.
  assert (Hp : Py.get "prompt_prefix" admission' = VStr (Py.str_or_empty (Py.get "prompt_prefix" admission))) by exact (Ha "prompt_prefix" eq_refl).
  unfold payload_column in *. rewrite !admitted_get, Hr, Hp, QuestionFacts.str_or_empty_text.
  destruct (f =s "content"); [done|]. by destruct (Py.in_strs f MESSAGE_FACTS).
Qed.

(** *** The last record of a table *)

Section last.
Context {R : Type} (f : R -> bool) (t : list R) (r : R) (Hnone : forall x, x ∈ t -> f x = false) (Hr : f r = true).

Lemma find_last : List.find f (t ++ [r])%list = Some r.
Proof.
  clear -Hnone Hr. induction t as [|x l IH]; cbn; [by rewrite Hr|]. rewrite Hnone by left. apply IH. intros z Hz. apply Hnone. by right.
Qed.

Lemma update_last set : update_where f set (t ++ [r])%list = (t ++ [set r])%list.
Proof. rewrite update_where_app, update_where_none by done. cbn. by rewrite Hr. Qed.

Lemma count_last : count_where f (t ++ [r])%list = 1.
Proof. unfold count_where. rewrite filter_app, length_app. fold (count_where f t). rewrite (proj2 (count_where_zero f t) Hnone). cbn. by rewrite decide_True. Qed.
End last.

(** One report, then the other. *)
Definition in_turn (n : nat) (sv : services) (c1 c2 : claim_names) (first second : report) (i : ingress) : res arriving * ingress :=
  ingest n sv c2 second Enter (snd (ingest n sv c1 first Enter i)).

(** Two records that differ in their lease and in how long their authorization waits, at most. *)
Record same_message (r r' : inbound_row) : Prop := {
  sm_id : ib_item_id r' = ib_item_id r;
  sm_key : row_key r' = row_key r;
  sm_target : (ib_channel_name r', ib_agent_id r', ib_assistant_id r') = (ib_channel_name r, ib_agent_id r, ib_assistant_id r);
  sm_columns : ib_columns r' = ib_columns r;
  sm_work : state_of r' = state_of r /\ generation_of r' = generation_of r;
  sm_marks : ib_marks r' = ib_marks r
}.

Section Halves.
Context (sv : services) (b : dict) (t : target) (channel x y k : string) (o a : message).
Context (Ht : takes sv b t channel x y) (Hh : halves b o a k).

Definition half_draft (m : message) (state : inbound_state) (conversation : val) : draft :=
  Draft t channel (half_payload b m x y conversation) (recorded_as state).

Lemma classified shown m : unrefused (Report b m) = true -> mg_signal m <> SIGNAL_MESSAGE ->
  classify shown b m = recorded_as (if bool_decide (mg_signal m = SIGNAL_OBSERVATION) then INBOUND_OBSERVED else INBOUND_AUTHORIZED).
Proof.
  unfold unrefused, classify. cbn [rp_binding rp_message]. intros [Hp%negb_true_iff Hr]%andb_true_iff Hs. rewrite Hp, Hr. cbn [negb]. by destruct (mg_signal m).
Qed.

(** Up to its claim a half touches nothing. *)
Lemma observation_claims cn i n :
  ingest (3 + n) sv cn (Report b o) Enter i = ingest n sv cn (Report b o) (Claims (half_draft o INBOUND_OBSERVED (opt_text (mg_conversation_key o)))) i.
Proof.
  destruct Ht as [T1 T2 T3 T4 T5 T6], Hh as [[Hc _] [Hs _] [Hk _] [Hu _] _ (Hf & Hr & Ha)]. cbn [Nat.add ingest ingest_step rp_binding rp_message].
  rewrite T1, T2, Hr, Ha. cbn [ingest_step rp_binding rp_message]. rewrite T3. cbn [mbind res_bind]. unfold drafted. rewrite T4. cbn [mbind res_bind].
  assert (Hor : orderable b o = true).
  { unfold constructible in Hc. rewrite Hs in Hc. unfold orderable. bool_prop. rewrite T6. by repeat (apply andb_true_iff; split). }
  rewrite Hor, andb_false_r. cbn [mbind res_bind ingest_step rp_binding rp_message]. rewrite classified by (try rewrite Hs; done). rewrite Hs. cbn [bool_decide].
  unfold after_classify, message_conversation. cbn [dr_decision rp_binding rp_message]. rewrite Hs, Hf.
  assert (Hact : filled (mg_action o) = false) by (unfold constructible in Hc; rewrite Hs in Hc; by bool_prop). rewrite Hact. reflexivity.
Qed.

Lemma authorization_claims cn i n :
  ingest (3 + n) sv cn (Report b a) Enter i = ingest n sv cn (Report b a) (Claims (half_draft a INBOUND_AUTHORIZED VNone)) i.
Proof.
  destruct Ht as [T1 T2 T3 T4 T5 T6], Hh as [[_ Hc] [_ Hs] [_ Hk] [_ Hu] _ _]. cbn [Nat.add ingest ingest_step rp_binding rp_message].
  pose proof Hc as Hc'. unfold constructible in Hc'. rewrite Hs in Hc'. bool_prop.
  assert (Hr : mg_recall a = None) by (by apply eq_None_not_Some). assert (Hl : mg_alias_link a = None) by (by apply eq_None_not_Some).
  rewrite T1, T2, Hr, Hl. cbn [ingest_step rp_binding rp_message]. rewrite T3. cbn [mbind res_bind]. unfold drafted. rewrite T4. cbn [mbind res_bind].
  assert (Hre : mg_retain_context a = false) by done. rewrite Hre. cbn [andb mbind res_bind ingest_step rp_binding rp_message].
  rewrite classified by (try rewrite Hs; done). rewrite Hs. unfold after_classify, message_conversation. cbn [dr_decision rp_binding rp_message].
  rewrite Hs, T5. reflexivity.
Qed.

(** *** The claims of a message *)

Definition message_key_of : string * option string := (Py.str_or_empty (Py.get "deployment_id" b), Some k).

(** The record of a half, as it is first written. *)
Definition half_record (cn : claim_names) (m : message) (state : inbound_state) (conversation : val) (columns : dict) : inbound_row :=
  claimed_row (cn_now cn) (cn_lease cn) (cn_item_id cn) (cn_owner cn) (the_claim (Report b m) (half_draft m state conversation)) columns.

Lemma first_claim cn i m state conversation columns n :
  mg_dedup_key m = Some k -> Py.is_empty k = false -> state ∈ [INBOUND_OBSERVED; INBOUND_AUTHORIZED] ->
  payload_columns (half_payload b m x y conversation) = Ok columns -> cn_here cn (fst message_key_of) = true ->
  exists_where (message_of (fst message_key_of) (Some k)) (ig_inbound i) = false ->
  (state = INBOUND_AUTHORIZED -> mg_signal m = SIGNAL_AUTHORIZATION) ->
  let row := half_record cn m state conversation columns in
  exists receipt, ingest (S n) sv cn (Report b m) (Claims (half_draft m state conversation)) i =
    ingest n sv cn (Report b m) (Answers receipt) (with_inbound (ig_inbound i ++ [row])%list i).
Proof.
  intros Hk He Hs Hc Hh' Hnew Hsig row. cbn [ingest ingest_step]. unfold claim_inbound.
  change (ic_payload _) with (half_payload b m x y conversation). rewrite Hc.
  change (ic_deployment_id _) with (fst message_key_of). rewrite Hh'.
  assert (Ek : claim_key (the_claim (Report b m) (half_draft m state conversation)) = Some k) by (unfold claim_key; cbn; by rewrite Hk, He).
  rewrite Ek, Hnew. cbn [negb]. change (claimed_row _ _ _ _ _ _) with row.
  apply elem_of_cons in Hs as [-> | ->%list_elem_of_singleton]; cbn.
  - eexists. reflexivity.
  - unfold after_claim. cbn. rewrite Hsig by done. cbn. eexists. reflexivity.
Qed.

Lemma half_columns m v : payload_columns (half_payload b m x y v) = Ok (plain_columns (half_payload b m x y v)).
Proof. by apply columns_plain. Qed.

(** The record an earlier half wrote, and the payload the two are admitted with. *)
Definition half_row (cn : claim_names) (m : message) (state : inbound_state) (v : val) : inbound_row :=
  half_record cn m state v (plain_columns (half_payload b m x y v)).
Definition met (first : inbound_row) (second : dict) : dict :=
  if bool_decide (state_of first = INBOUND_OBSERVED) then admitted_payload (payload_of first) second else admitted_payload second (payload_of first).

Lemma met_columns cn m state v m' v' :
  let d := met (half_row cn m state v) (half_payload b m' x y v') in payload_columns d = Ok (plain_columns d).
Proof. intros d. apply columns_plain; unfold d, met; case_bool_decide; first [by apply admitted_dict|by rewrite admitted_get]. Qed.

Lemma same_key (p : option string) : Py.truthy (opt_text p) && Py.truthy (opt_text p) && negb (Py.eqb (opt_text p) (opt_text p)) = false.
Proof. destruct p as [t'|]; [|done]. cbn. rewrite String.eqb_refl. apply andb_false_r. Qed.

Lemma no_conflicts cn cn' v v' :
  conflicts (payload_of (half_row cn o INBOUND_OBSERVED v)) (half_payload b a x y v') = [] /\
  conflicts (half_payload b o x y v) (payload_of (half_row cn' a INBOUND_AUTHORIZED v')) = [].
Proof.
  destruct Hh as [_ _ _ _ [Hp Hk] _].
  assert (H : forall d d', Py.get "participant" d = opt_text (mg_participant o) -> Py.get "participant" d' = opt_text (mg_participant o) ->
    Py.get "conversation_key" d = opt_text (mg_conversation_key o) -> Py.get "conversation_key" d' = opt_text (mg_conversation_key a) -> conflicts d d' = []).
  { intros d d' E1 E2 E3 E4. unfold conflicts, IDENTITY_FIELDS. cbn [List.filter]. rewrite E1, E2, E3, E4, same_key.
    destruct Hk as [-> | ->]; [by rewrite same_key|]. by rewrite andb_false_r. }
  split; apply H; try done; by rewrite <-Hp.
Qed.

(** *** The second half *)

(** The record admitted. *)
Definition met_row (first : inbound_row) (second : dict) (cn : claim_names) : inbound_row :=
  put_columns (plain_columns (met first second)) (put_work (taken INBOUND_RECEIVED (cn_owner cn) (cn_now cn + cn_lease cn)) first).

Definition row_outcome (r : inbound_row) : claim_outcome :=
  if bool_decide (state_of r = INBOUND_OBSERVED) then CLAIM_OUTCOME_OBSERVED else CLAIM_OUTCOME_AUTHORIZED.

Section second.
Context (cn cn' : claim_names) (i : ingress) (m m' : message) (state state' : inbound_state) (v v' : val).
Let row := half_row cn m state v.
Let i0 := with_inbound (ig_inbound i ++ [row])%list i.
Context (Hk : mg_dedup_key m = Some k) (Hk' : mg_dedup_key m' = Some k) (He : Py.is_empty k = false) (Hhere : cn_here cn' (fst message_key_of) = true).
Context (Hs : state ∈ [INBOUND_OBSERVED; INBOUND_AUTHORIZED]) (Hs' : state' ∈ [INBOUND_OBSERVED; INBOUND_AUTHORIZED]).
Context (Hnew : forall r, r ∈ ig_inbound i -> message_of (fst message_key_of) (Some k) r = false).
Context (Hfresh : forall r, r ∈ ig_inbound i -> named (cn_item_id cn) r = false).

Lemma half_key m0 (state0 : inbound_state) v0 : mg_dedup_key m0 = Some k -> claim_key (the_claim (Report b m0) (half_draft m0 state0 v0)) = Some k.
Proof. intros E. unfold claim_key. cbn. by rewrite E, He. Qed.

Lemma half_found : message_of (fst message_key_of) (Some k) row = true.
Proof. unfold row, half_row, half_record, message_of, claimed_row. cbn [ib_deployment_id ib_dedup_key ic_deployment_id the_claim]. rewrite half_key by done. cbn. by rewrite !String.eqb_refl. Qed.

Lemma row_kept : im_recall (ib_marks row) = None.
Proof. cbn. by destruct (_ && _). Qed.

Lemma claim_finds :
  claim_inbound (cn_here cn') (cn_now cn') (cn_lease cn') (cn_item_id cn') (cn_owner cn') (the_claim (Report b m') (half_draft m' state' v')) i0 =
  (Ok (row, row_outcome row), i0).
Proof.
  assert (Hcl : bool_decide (state' ∈ CLAIM_STATES) = true).
  { apply bool_decide_eq_true. by apply elem_of_cons in Hs' as [-> | ->%list_elem_of_singleton]; apply (bool_decide_unpack _). }
  assert (Ha : claim_answer false true row = Ok (row, row_outcome row) /\ claim_answer false false row = Ok (row, row_outcome row)).
  { unfold claim_answer, row_outcome. change (state_of row) with state. by apply elem_of_cons in Hs as [-> | ->%list_elem_of_singleton]. }
  unfold claim_inbound. change (ic_payload _) with (half_payload b m' x y v'). rewrite half_columns, half_key by done.
  change (ic_deployment_id _) with (fst message_key_of). change (ic_state _) with state'. rewrite Hcl, Hhere. cbn [negb].
  pose proof (find_last _ _ _ Hnew half_found) as Hf.
  assert (Hex : exists_where (message_of (fst message_key_of) (Some k)) (ig_inbound i0) = true).
  { apply existsb_true. exists row. split; [apply elem_of_app; right; by apply list_elem_of_singleton|exact half_found]. }
  rewrite Hex. cbn [negb]. destruct (_ || _); [|cbv zeta; unfold i0 at 1; cbn [ig_inbound with_inbound]; by rewrite Hf, (proj2 Ha)].
  unfold update_inbound.
  assert (Hnot : forall r, r ∈ ig_inbound i0 -> message_of (fst message_key_of) (Some k) r && claimable (cn_now cn') r = false).
  { intros r [Hin| ->%list_elem_of_singleton]%elem_of_app; [by rewrite Hnew|]. apply andb_false_iff. right. unfold claimable.
    change (state_of row) with state. unfold in_state_of. change (state_of row) with state.
    by apply elem_of_cons in Hs as [-> | ->%list_elem_of_singleton]. }
  rewrite (proj2 (count_where_zero _ _) Hnot), update_where_none by done. cbn [Nat.eqb]. cbn [ig_inbound with_inbound i0]. rewrite Hf, (proj1 Ha). done.
Qed.

Lemma promote_row now lease owner :
  let d := met row (half_payload b m' x y v') in
  promote_inbound now lease owner (ib_item_id row) (state_of row) (generation_of row) d i0 =
    (Ok (Some (put_columns (plain_columns d) (put_work (taken INBOUND_RECEIVED owner (now + lease)) row))),
     with_inbound (ig_inbound i ++ [put_columns (plain_columns d) (put_work (taken INBOUND_RECEIVED owner (now + lease)) row)])%list i).
Proof.
  intros d. unfold promote_inbound.
  assert (Hun : bool_decide (state_of row ∈ UNADMITTED_STATES) = true) by (apply bool_decide_eq_true; exact Hs). rewrite Hun. cbn [negb].
  assert (Ed : payload_columns d = Ok (plain_columns d)) by apply met_columns. rewrite Ed. unfold readback, update_inbound.
  set (cond := fun r => _ && _).
  assert (Hc1 : forall r, r ∈ ig_inbound i -> cond r = false) by (intros r Hr; unfold cond, expected_in; change (ib_item_id row) with (cn_item_id cn); by rewrite (Hfresh r Hr)).
  assert (Hc2 : cond row = true).
  { unfold cond, expected_in, named. by rewrite String.eqb_refl, bool_decide_true, Z.eqb_refl, row_kept by done. }
  cbn [ig_inbound with_inbound i0 fst snd]. rewrite count_last, update_last by done. cbn [Nat.eqb]. rewrite find_last; [done|exact Hfresh|].
  apply String.eqb_refl.
Qed.

Context (Hpair : state = INBOUND_OBSERVED /\ state' = INBOUND_AUTHORIZED \/
                 state = INBOUND_AUTHORIZED /\ state' = INBOUND_OBSERVED /\ mg_signal m' = SIGNAL_OBSERVATION).
Context (Hagree : (if bool_decide (state = INBOUND_OBSERVED) then conflicts (payload_of row) (half_payload b m' x y v')
                   else conflicts (half_payload b m' x y v') (payload_of row)) = []).

Lemma after_second : after_claim (Report b m') (half_draft m' state' v') row (row_outcome row) = Promote (half_draft m' state' v') row (met row (half_payload b m' x y v')) 3.
Proof.
  unfold after_claim, row_outcome, met. change (state_of row) with state. change (dr_decision _) with (recorded_as state').
  assert (Had : admit_recorded (half_draft m' state' v') row 3 = Promote (half_draft m' state' v') row
    (if bool_decide (state = INBOUND_OBSERVED) then admitted_payload (payload_of row) (half_payload b m' x y v') else admitted_payload (half_payload b m' x y v') (payload_of row)) 3).
  { unfold admit_recorded. change (state_of row) with state. change (dr_payload (half_draft m' state' v')) with (half_payload b m' x y v').
    destruct (bool_decide (state = INBOUND_OBSERVED)); by rewrite Hagree, row_kept. }
  rewrite <-Had. destruct Hpair as [[-> ->]|(-> & -> & Hsig)]; [done|]. cbn [rp_message]. by rewrite Hsig.
Qed.

Lemma second_claim n :
  let r := met_row row (half_payload b m' x y v') cn' in
  ingest (2 + n) sv cn' (Report b m') (Claims (half_draft m' state' v')) i0 = ingest n sv cn' (Report b m') (Admits r) (with_inbound (ig_inbound i ++ [r])%list i).
Proof.
  intros r. cbn [Nat.add ingest ingest_step]. rewrite claim_finds. cbn [mbind res_bind].
  assert (Hnot : bool_decide (row_outcome row ∈ [CLAIM_OUTCOME_IN_PROGRESS; CLAIM_OUTCOME_CLAIMED]) = false).
  { unfold row_outcome. by destruct (bool_decide (state_of row = _)). }
  rewrite Hnot. cbn [andb]. rewrite after_second. cbn [ingest_step]. rewrite promote_row. reflexivity.
Qed.
End second.

Lemma ingest_answers n c r e i : ingest n sv c r (Answers e) i = (Ok (Answers e), i).
Proof. induction n as [|n IH]; [done|exact IH]. Qed.

Lemma ingest_admits n c r item i : ingest n sv c r (Admits item) i = (Ok (Admits item), i).
Proof. induction n as [|n IH]; [done|exact IH]. Qed.

(** *** What the halves say together *)

(** What a record says of a field is the field's column of the payload it was written with. *)
Lemma row_get cn m state v f :
  Py.in_strs f PAYLOAD_FIELDS = true -> Py.get f (payload_of (half_row cn m state v)) = snd (payload_column (half_payload b m x y v) f).
Proof.
  intros Hf. unfold payload_of. rewrite get_fields by done. change (ib_columns (half_row cn m state v)) with (plain_columns (half_payload b m x y v)).
  by apply plain_get.
Qed.

Lemma half_reads cn m state v : reads_back (half_payload b m x y v) (payload_of (half_row cn m state v)).
Proof. intros f. apply row_get. Qed.

Lemma meeting_columns cn cn' v v' :
  plain_columns (met (half_row cn a INBOUND_AUTHORIZED v') (half_payload b o x y v)) =
  plain_columns (met (half_row cn' o INBOUND_OBSERVED v) (half_payload b a x y v')).
Proof.
  unfold met. cbn [bool_decide]. symmetry. change (state_of _) with INBOUND_OBSERVED at 1. rewrite bool_decide_true by done.
  change (state_of _) with INBOUND_AUTHORIZED. rewrite bool_decide_false by done.
  apply admitted_columns; [apply half_reads..|]. by rewrite row_get.
Qed.

(** What the first half leaves. *)
Lemma first_left cn i m state v n :
  mg_dedup_key m = Some k -> Py.is_empty k = false -> state ∈ [INBOUND_OBSERVED; INBOUND_AUTHORIZED] -> cn_here cn (fst message_key_of) = true ->
  (forall r, r ∈ ig_inbound i -> message_of (fst message_key_of) (Some k) r = false) -> (state = INBOUND_AUTHORIZED -> mg_signal m = SIGNAL_AUTHORIZATION) ->
  snd (ingest (2 + n) sv cn (Report b m) (Claims (half_draft m state v)) i) = with_inbound (ig_inbound i ++ [half_row cn m state v])%list i.
Proof.
  intros Hk He Hs Hhere Hnew Hsig. pose proof (proj2 (existsb_false _ _) Hnew) as Hno.
  destruct (first_claim cn i m state v _ (S n) Hk He Hs (half_columns m v) Hhere Hno Hsig) as [e E]. change (2 + n) with (S (S n)). rewrite E. by rewrite ingest_answers.
Qed.

Section turns.
Context (c1 c2 : claim_names) (i : ingress) (n : nat).
Context (Hh1 : cn_here c1 (fst message_key_of) = true) (Hh2 : cn_here c2 (fst message_key_of) = true).
Context (Hnew : forall r, r ∈ ig_inbound i -> message_of (fst message_key_of) (Some k) r = false /\ named (cn_item_id c1) r = false).
Let vo := opt_text (mg_conversation_key o).
Let r := met_row (half_row c1 o INBOUND_OBSERVED vo) (half_payload b a x y VNone) c2.
Let r' := met_row (half_row c1 a INBOUND_AUTHORIZED VNone) (half_payload b o x y vo) c2.

Lemma key_filled : Py.is_empty k = false.
Proof.
  destruct Hh as [[Hc _] [So _] [Ko _] _ _ _]. unfold constructible in Hc. rewrite So, Ko in Hc. unfold filled in Hc. by bool_prop.
Qed.

Lemma observed_first : in_turn (5 + n) sv c1 c2 (Report b o) (Report b a) i = (Ok (Admits r), with_inbound (ig_inbound i ++ [r])%list i).
Proof.
  pose proof Hh as [_ [So Sa] [Ko Ka] _ _ _]. pose proof key_filled as He. destruct (no_conflicts c1 c1 vo VNone) as [C1 _]. unfold in_turn.
  change (5 + n) with (3 + (2 + n)). rewrite observation_claims, authorization_claims. fold vo.
  rewrite first_left by (done || (by left) || (intros; by apply Hnew)).
  rewrite second_claim by (done || (by left) || (by right; left) || (intros; by apply Hnew)). apply ingest_admits.
Qed.

Lemma invoked_first : in_turn (5 + n) sv c1 c2 (Report b a) (Report b o) i = (Ok (Admits r'), with_inbound (ig_inbound i ++ [r'])%list i).
Proof.
  pose proof Hh as [_ [So Sa] [Ko Ka] _ _ _]. pose proof key_filled as He. destruct (no_conflicts c1 c1 vo VNone) as [_ C2]. unfold in_turn.
  change (5 + n) with (3 + (2 + n)). rewrite observation_claims, authorization_claims. fold vo.
  rewrite first_left by (done || (by right; left) || (intros; by apply Hnew)).
  rewrite second_claim by (done || (by left) || (by right; left) || (intros; by apply Hnew) || by right). apply ingest_admits.
Qed.

Lemma met_same : same_message r r'.
Proof.
  pose proof Hh as [_ _ [Ko Ka] _ _ _]. split; [done| |done|apply meeting_columns|done|done].
  unfold row_key. change (ib_dedup_key r') with (claim_key (the_claim (Report b a) (half_draft a INBOUND_AUTHORIZED VNone))).
  change (ib_dedup_key r) with (claim_key (the_claim (Report b o) (half_draft o INBOUND_OBSERVED vo))). by rewrite !half_key by (done || apply key_filled).
Qed.

Lemma met_words :
  row_key r = message_key_of /\ Py.get "content" (ib_columns r) = VStr (prefixed (Py.clean (Py.get "prompt_prefix" b)) (mg_content o)) /\
  Py.get "participant" (ib_columns r) = opt_text (mg_participant o) /\
  Py.get "attachments" (ib_columns r) = VList (map attachment_dict (mg_attachments a)).
Proof.
  pose proof Hh as [_ _ [Ko Ka] _ _ _]. split.
  { unfold row_key. change (ib_dedup_key r) with (claim_key (the_claim (Report b o) (half_draft o INBOUND_OBSERVED vo))). by rewrite half_key by (done || apply key_filled). }
  assert (E : forall f, Py.in_strs f PAYLOAD_FIELDS = true -> Py.get f (ib_columns r) =
    snd (payload_column (admitted_payload (payload_of (half_row c1 o INBOUND_OBSERVED vo)) (half_payload b a x y VNone)) f)) by (intros f; apply plain_get).
  rewrite !E by done. unfold payload_column. rewrite !admitted_get, !half_reads by done. cbn [snd]. unfold payload_column. cbn [snd].
  split_and!; [|done..].
  change (VStr (Py.str_or_empty (VStr (prefixed (Py.str_or_empty (VStr (Py.clean (Py.get "prompt_prefix" b))))
    (Py.str_or_empty (VStr (mg_content o)))))) = VStr (prefixed (Py.clean (Py.get "prompt_prefix" b)) (mg_content o))).
  by rewrite !QuestionFacts.str_or_empty_text.
Qed.
End turns.
End Halves.

(** C22: The two halves of a message meet: when the platform reports a message once as observed and
    once as an invocation of the agent, in either order, the first to come is recorded and the
    second admits that record to a drive, after five awaits each and beside any other records;
    either order gives the same record, with the words and the sender the platform observed after
    the binding's prefix - and with the files of the invocation, not those observed. *)
Theorem signals_meet sv b t channel x y k o a c1 c2 i n :
  takes sv b t channel x y -> halves b o a k -> let key := message_key_of b k in
  cn_here c1 (fst key) = true -> cn_here c2 (fst key) = true ->
  (forall r, r ∈ ig_inbound i -> message_of (fst key) (Some k) r = false /\ named (cn_item_id c1) r = false) ->
  exists r r', same_message r r' /\
    in_turn (5 + n) sv c1 c2 (Report b o) (Report b a) i = (Ok (Admits r), with_inbound (ig_inbound i ++ [r])%list i) /\
    in_turn (5 + n) sv c1 c2 (Report b a) (Report b o) i = (Ok (Admits r'), with_inbound (ig_inbound i ++ [r'])%list i) /\
    state_of r = INBOUND_RECEIVED /\ row_key r = key /\
    Py.get "content" (ib_columns r) = VStr (prefixed (Py.clean (Py.get "prompt_prefix" b)) (mg_content o)) /\
    Py.get "participant" (ib_columns r) = opt_text (mg_participant o) /\
    Py.get "attachments" (ib_columns r) = VList (map attachment_dict (mg_attachments a)).
Proof.
  intros Ht Hh key Hh1 Hh2 Hnew. pose proof (met_words b t channel x y k o a Hh c1 c2) as (W1 & W2 & W3 & W4).
  eexists _, _. split_and!; [by apply (met_same b t channel x y k o a Hh c1 c2)|by apply (observed_first sv b t channel x y k o a Ht Hh)|by apply (invoked_first sv b t channel x y k o a Ht Hh)|done|done|exact W2|exact W3|exact W4].
Qed.

(** *** A file shown without a mention *)

Definition with_file (m : message) : message :=
  Message (mg_content m) (mg_reply_context m) (mg_dedup_key m) (mg_conversation_key m) (mg_attention m) (mg_reference m)
    (mg_conversation_from_reference m) (mg_participant m) (mg_alias_link m) (mg_ignore_reason m) (mg_message_timestamp m) (mg_retain_context m)
    (mg_recall m) (mg_action m) (mg_signal m) [Attachment "https://chat.example/plan.pdf" "file" None].
Definition shown_file : message := with_file (rp_message observation).
Definition invoked : message := rp_message authorization.
Definition nothing_stored : ingress := Ingress [] [] [] [] (Channels [] [] [] [] []).

Lemma signals_meet_witness :
  List.length (mg_attachments shown_file) = 1%nat /\
  exists r r', same_message r r' /\
    in_turn 5 a_service (with_names "i1") (with_names "i2") (Report a_binding shown_file) (Report a_binding invoked) nothing_stored =
      (Ok (Admits r), with_inbound [r] nothing_stored) /\
    in_turn 5 a_service (with_names "i1") (with_names "i2") (Report a_binding invoked) (Report a_binding shown_file) nothing_stored =
      (Ok (Admits r'), with_inbound [r'] nothing_stored) /\
    state_of r = INBOUND_RECEIVED /\ row_key r = ("d1", Some "m1") /\ Py.get "content" (ib_columns r) = VStr (prefixed "Be brief." "Hello") /\
    Py.get "participant" (ib_columns r) = VStr "p1" /\ Py.get "attachments" (ib_columns r) = VList [].
Proof.
  split; [reflexivity|].
  apply (signals_meet a_service a_binding (Target false "a1" "u1") "chat" "" "u1" "m1" shown_file invoked (with_names "i1") (with_names "i2") nothing_stored 0).
  - split; vm_compute; reflexivity.
  - split; try done; vm_compute; auto.
  - reflexivity.
  - reflexivity.
  - intros r []%elem_of_nil.
Defined.
End SignalFacts.
